(* ===== verification/_CoqProject ===== *)
-Q . S2P
Prelude.v
Contracts.v
GoMonad.v
Float64.v
Storage.v
TaskState.v
TaskRepo.v
Observability.v
TaskRuntime.v
Plan.v
Admission.v
RunRepo.v
Policies.v
Approval.v
PolicyEngine.v
Process.v
Decision.v
ToolStore.v
Execution.v
ToolRun.v
ToolInvoke.v
Strategy.v
Dispatch.v
ModelCall.v
Kernel.v
RunLife.v
RunStart.v
Permission.v
SkillUpdate.v
MemoryScope.v
HandoffPackage.v
Handoff.v
Discovery.v
Compile.v
AgentPackage.v
PackageLife.v
Projection.v
SkillVersions.v
Loader.v
Server.v
Serving.v
Text.v
Knowledge.v
CrossGroup.v
Conversation.v
Intake.v
Group.v
AgentWork.v
Assets.v
Progress.v
WorkView.v
ContextPolicy.v
PromptBuild.v
SliceStable.v
Collector.v
ConvJudge.v
Compressor.v
