(* ===== verification/Prelude.v ===== *)
(** * Clean Core: a verified model of the Go runtime core

    The repository is the server of an agent platform.  A request becomes a task; a run of an agent
    carries it out, deciding with a language model, calling tools and handing work to other agents;
    around that are the packages agents are released from, the context they see, the groups they work
    for, and the governance over all of it.  This development translates the core of that server, the
    in-memory stores and the services over them, into executable definitions and proves what they
    promise.

    ** How the parts of the program interact

    A caller's command is routed to a release of an agent ([Server]); intake policies may answer it
    first ([Intake]).  The kernel ([Kernel]) validates the envelope, makes the task and its run,
    resolves the strategies ([Strategy]) and steps the run: it collects the context ([Collector]), cuts
    it down to the strategy ([ContextPolicy]), renders the prompt ([PromptBuild]) and compresses it
    ([Compressor]), asks the model ([ModelCall]), reads and validates its decision ([Decision]) and
    carries it out ([Dispatch]): a reply, tool calls ([ToolRun], over [Execution]), a plan step
    ([Plan]), a handoff ([Handoff]).  Tasks change by the state machine ([TaskState]) through the task
    service ([TaskRuntime]), which writes task and event in one atomic step ([TaskRepo]).  Agents are
    compiled ([Compile]), reviewed and released as packages ([AgentPackage]) and loaded with the
    projections that are active ([Loader], [Projection]).  Policies are drafted, evaluated and put in
    force ([PolicyEngine]), approvals are asked for and consumed ([Approval]), reviews collected
    ([Process]).  Everything writes the audit and trace logs ([GoMonad], [Observability]).

    ** Files

    Foundations
    - [Prelude] (this file): record update in Go's manner, times, 64-bit integers, the ASCII part of
      package strings, stable sorting, lemmas on lists and strings.
    - [Contracts]: internal/contracts.  Structs are records whose fields carry a prefix, the named
      string types are strings, their constants have the same names.
    - [GoMonad]: the effects of an operation, [World -> S -> Res A * World * S].  The world counts
      readings of the clock, random draws and map iterations, whose outcomes a class [Env] supplies, and
      holds the audit and trace logs ([None] for a nil logger).  An operation ends with a value, an
      error or a panic, and what it wrote stays written.  Three small program logics: [effect_only],
      [triple] and, with the world, [wtriple].
    - [Storage]: internal/storage/repository, pkg/pagination.  [Text]: runes and regular expressions.
      [SliceStable]: [sort.SliceStable] step by step, for relations that order only some values.
      [Float64]: the floating-point numbers that searches sort by, and their order.

    Tasks and governance
    - [TaskState], [TaskRepo], [TaskRuntime]: internal/task/state, repository, runtime and recovery; the
      repository interfaces are classes with laws.  [Plan], [Progress]: internal/task/plan, progress.
    - [Handoff], [HandoffPackage]: internal/task/handoff, internal/context/handoffpkg.
    - [Observability]: the queries of internal/governance/audit and trace.
    - [Approval], [Process]: internal/governance/approval, process.
    - [PolicyEngine]: internal/policy/engine/engine.go, pkg/hash.  [Policies]: toolpolicy, handoff,
      promptpolicy, release.go and repair.go of internal/policy.

    Runs, models and tools
    - [Admission], [RunRepo]: internal/runtime/admission, run.
    - [Decision]: internal/decision/parser, validator, policy/outputpolicy.
    - [ToolStore], [Execution], [ToolRun], [ToolInvoke]: internal/tool/repository, registry, runtime,
      invoke, internal/execution/domain.  [Discovery]: internal/discovery.
    - [Strategy]: internal/agentdef/strategy.
    - [ModelCall], [Dispatch], [Kernel]: internal/runtime/kernel; [RunLife] and [RunStart] prove what
      becomes of a run.

    Agents and their packages
    - [Compile], [AgentPackage], [Projection]: internal/agentdef/package; [PackageLife] and
      [SkillVersions] hold their histories.  [Loader]: internal/agentdef/loader.
    - [Server]: the routing and running of agents in internal/server, with internal/app/auth and the
      registry of drivers; [Serving] its theorems.
    - [AgentWork]: internal/agentfactory, agentcapability, agentdelegation.  [SkillUpdate]:
      internal/skillupdate.

    Groups
    - [Permission], [MemoryScope], [Knowledge], [CrossGroup], [Conversation], [Intake], [Group] (identity
      and tone): the packages of these names.  [Assets]: internal/asset/artifact.

    The context of a run
    - [WorkView]: the view of the work, its builder and the patches of hooks; [ContextPolicy],
      [Collector]: internal/context/collector; [PromptBuild]: internal/context/promptbundle;
      [ConvJudge]: internal/context/conversation; [Compressor]: internal/context/compressor.

    A definition has the name of the Go function it translates; where two packages use one name, a
    prefix or suffix tells them apart, or the name of the file does.  A record named like a store is its
    state: the maps of the Go struct are finite maps with the same keys.  Parts of a long function that
    are definitions of their own ([prepareCommand], [openedGate], [told_event]) are consecutive lines of
    it.

    ** Interfaces

    Where the code has an interface with several implementations, the clients' theorems are proved
    against a class: [TaskRepository], [EventRepository] and [AtomicRepository] with [TaskStoreLaws]
    ([TaskRepo]), [PermissionChecker] ([Permission]), [KnowledgeService] ([Knowledge]), [DecisionDecoder],
    [ProfileDecoder], [ExecutorOps] and [Marshal] for what decodes, executes and encodes.  PostgreSQL
    stores behind a service are records of operations, and the theorems of those services are about
    the service without one.

    ** What is shown

    - Tasks (C1 to C5): every store reached by calls of its methods is well formed; under any
      interleaving of the services' steps the replayed log gives the stored status as long as no two
      readings of the clock are equal; the service does the same over any storage that keeps the
      interfaces' laws; ApplyCommand on every branch; replanning.
    - Admission (C6): the counters are exact and no limit is exceeded, whatever callers do.
    - Agents (C7 to C9): an agent is offered exactly the tools it may call; what the compiler accepts is
      well formed; the history of packages keeps versions, evaluations and stable releases apart.
    - Governance (C10 to C14): an approval is used at most once and only after it was approved; no policy
      is in force without a passed evaluation, and published versions do not change; what reviews decide
      under each rule, and no gate is decided without its reviews.
    - Tools (C15 to C17): a tool runs exactly for a cleared call, once; its credentials are confined; an
      external call that was answered is not made again under its idempotency key, and one that was not is.
    - Runs (C18 to C22): the repairs of a decision end; a decision reaches the run only parsed, normalised
      and within the policy; a run and its task end together; a run ends within its step limit, from the
      envelope on.
    - Groups (C23 to C27): what a check of permissions decides; what a search shows to whom and
      in which order, within a group and across groups; conversations as an append-only log; the artifacts of a tenant are its own.
    - Context (C28 to C33): what is collected is exactly what the task, the tenant and the limits select; a
      view keeps, of each source, what its policy pays for; the prompt can be read back, with every text of
      the view under the name of its source; a compressed prompt keeps its instructions and fits its target
      where there is room; whom a message is addressed to; what the search for earlier context finds, and
      that it finds the best.
    - Intake, handoffs, skills, serving (C34 to C40): the first policy that answers answers; a handed
      package keeps to its policy and budget; handoffs are never lost, and their creation is all or
      nothing; one stable version of a skill; the share of a canary; every slot of the limiter is
      accounted for, also where runs panic.

    The files hold further theorems beside these: the reachable statuses, the optimistic lock of the
    store, the paging of searches and listings, the policies of tools, handoffs, releases and repairs
    branch by branch, round trips, and examples that exhibit behaviour the code does not intend.  Most
    invariants are proved over histories: all states reached from the empty store by calls of the
    component's operations with any arguments.

    ** Conventions, bounds and fuel

    - Integers are [Z]; an [int] that the code increments or adds is wrapped by [int64].  The theorems that
      count bound the length of a history by 2^63 steps, so that no counter has wrapped; the paging
      theorems bound the list and the offsets by 2^62.
    - Floating-point numbers are binary64 values of [SpecFloat] with its rounding.
    - Recursion is structural, with these exceptions.  [itoa] fills an array of 20 bytes and panics beyond;
      19 digits are enough, which is proved.  The loop of repairs has fuel [repair_fuel] of its limit, and
      [modelDecision_terminates] shows that more changes nothing.  The loop of a run takes its fuel as an
      argument: [run_terminates] and [envelope_run_ends] show that one more than the steps that are left
      is enough ([enough]).  The merging of [SliceStable] has the length of its list as fuel, enough by
      [symMerge_fuel]; [read_blocks], with which prompts are read back, the number of blocks
      ([read_blocks_join]).
    - The order of a lookup is claimed for queries of at most 100 terms ([short_query]), and that a search
      finds a document with a word of the query likewise: that the scores of so many terms are positive
      numbers is computed for all of them ([shares_positive], [word_scores_positive]).
    - Strings are lists of bytes.  ToLower, TrimSpace and Fields know ASCII letters and white space only, so
      the theorems about words and windows speak of such text; runes are decoded as Go decodes them.
    - A time is the number of nanoseconds since Go's zero time; locations are dropped, since the code turns
      its times to UTC.
    - A method that holds its store's mutex is one atomic step.  In TaskRuntime a service call is several
      steps that interleave with those of others, and in Serving the runs in the background are; elsewhere
      a service call runs without others in between.
    - Identifiers are drawn from crypto/rand.  Where a theorem needs them fresh it assumes that different
      draws differ ([rand_unique]) or that the next draw is unused.
    - A [range] over a map visits the entries in an order the environment chooses, a different one each time.
      [sort.Slice] and [sort.SliceStable] by an order are [stable_sort]; by a relation that is no order, or
      one on some values only, the algorithm of [SliceStable], which sorts where it can ([SliceStable_sorted]).
    - Services are configured: their stores are not nil, unless the code tests for it.  Loggers and recorders
      may be.  Contexts are not cancelled.  Maps and slices are values, save where the code changes one that is
      shared: the metadata of governance gates is a reference, and [Compile] returns the source that it
      changes.
    - Parameters, with what is assumed of them stated where it is: JSON encoding and decoding, SHA-256, the
      texts of errors, [%v], [%.2f] and RFC 3339; [regexp.Compile] in [Intake]; the client of models; executors,
      resolvers of credentials and drivers; and of the kernel the fields of [Coordinator]: the loader, the
      candidates, the preparation of a prompt and the hooks.

    ** What is not modelled

    - The glue inside a step of the kernel that prepares its prompt (the parts it calls - collection, policy,
      rendering, compression, judges - are modelled, but the step takes the whole as its parameter
      [K_Prompt]), the previews of prompts, and the forced decisions of merchant-limit agents.
    - internal/runtime/hook beside its patches, internal/bridge, internal/serviceconnection,
      internal/model/client: HTTP and secrets.  internal/storage/postgres: SQL.  internal/server beside the
      running of agents, internal/app/config: handlers, middleware and wiring.
    - internal/tool/catalog (a table of tools), internal/eval, the metrics, replay and readiness reports,
      the manifests of plugins, the conformance suite of drivers, and scripts.

    Next in order: the preparation of a prompt as the composition of its parts, the hook service, and the
    interleaving of calls of the services that run alone here. *)

From stdpp Require Import base list strings gmap fin_maps sorting pretty.
From Stdlib Require Import Ascii Lia OrdersEx.

Declare Scope go_scope.
Delimit Scope go_scope with go.
Open Scope go_scope.

(** ** Record update

    [r <| field := value |>] is the Go assignment [r.field = value] on a copy of
    the struct [r].  A record type opts in with an instance of [Settable]. *)

Class Settable (R : Type) := eta_of : R → R.
Class Setter {R T : Type} (proj : R → T) := set_field : (T → T) → R → R.

Definition reader_pure {R T} (x : T) : R → T := λ _, x.
Definition reader_ap {R A B} (f : R → A → B) (x : R → A) : R → B := λ r, f r (x r).

Notation "'fields!' mk < f ; .. ; g >" :=
  (reader_ap .. (reader_ap (reader_pure mk) f) .. g)
  (at level 0, mk at level 10, f at level 9, g at level 9, only parsing).

Ltac solve_setter :=
  lazymatch goal with
  | |- @Setter ?R ?T ?proj =>
      let inst := constr:(_ : Settable R) in
      let eta := eval red in inst in
      let eta := eval cbv beta delta [reader_ap reader_pure] in eta in
      lazymatch eval pattern proj in eta with
      | ?setter _ =>
          let s := constr:(fun (f : T -> T) => setter (fun r => f (proj r))) in
          let s := eval cbv beta in s in
          exact s
      end
  end.

#[export] Hint Extern 1 (Setter _) => solve_setter : typeclass_instances.

Notation "r <| proj := v |>" := (set_field (proj:=proj) (λ _, v) r)
  (at level 1, left associativity, proj at level 9, v at level 99,
   format "r  <| proj  :=  v |>") : go_scope.

(** ** Go primitives *)

(** Comparison of Go strings, [a == b] and [a != b]. *)
Notation "a == b" := (String.eqb a b) (at level 70, no associativity) : go_scope.
Notation "a != b" := (negb (String.eqb a b)) (at level 70, no associativity) : go_scope.

(** A [time.Time] is the number of nanoseconds since Go's zero time (January 1 of
    year 1, UTC); the location, which [UTC()] changes, is not part of the instant. *)
Abbreviation Time := Z.
Definition zeroTime : Time := 0%Z.
Definition IsZero (t : Time) : bool := (t =? 0)%Z.
Definition Before (t u : Time) : bool := (t <? u)%Z.
Definition After (t u : Time) : bool := (u <? t)%Z.
Definition Equal (t u : Time) : bool := (t =? u)%Z.
Definition UTC (t : Time) : Time := t.

(** Two's complement wrap-around of Go's 64-bit [int] and [int64]. *)
Definition int64 (z : Z) : Z := ((z + 2 ^ 63) mod 2 ^ 64 - 2 ^ 63)%Z.
Definition is_int64 (z : Z) : Prop := (- 2 ^ 63 ≤ z < 2 ^ 63)%Z.

(** [<] on Go strings compares bytes. *)
Definition string_lt (a b : string) : bool :=
  match String.compare a b with Lt => true | _ => false end.

(** [len] of a Go slice, as an [int]. *)
Definition len {A} (l : list A) : Z := Z.of_nat (length l).

Fixpoint mem_string (x : string) (l : list string) : bool :=
  match l with
  | [] => false
  | y :: l' => if y == x then true else mem_string x l'
  end.

(** [sort.SliceStable]: the result of a stable sort is determined by the
    comparison when it is a strict weak order; insertion from the right keeps
    equal elements in their order. *)
Section stable_sort.
Context {A : Type} (less : A → A → bool).

Fixpoint sort_insert (x : A) (l : list A) : list A :=
  match l with
  | [] => [x]
  | y :: ys => if less y x then y :: sort_insert x ys else x :: y :: ys
  end.

Fixpoint stable_sort (l : list A) : list A :=
  match l with
  | [] => []
  | x :: l' => sort_insert x (stable_sort l')
  end.
End stable_sort.

(** ** ASCII part of package [strings] *)

Definition ascii_lower (c : ascii) : ascii :=
  let n := nat_of_ascii c in
  if (65 <=? n)%nat && (n <=? 90)%nat then ascii_of_nat (n + 32) else c.

Fixpoint ToLower (s : string) : string :=
  match s with
  | EmptyString => EmptyString
  | String c s' => String (ascii_lower c) (ToLower s')
  end.

(** Space characters of [strings.TrimSpace] below 128: tab, LF, VT, FF, CR, space. *)
Definition ascii_space (c : ascii) : bool :=
  let n := nat_of_ascii c in ((9 <=? n)%nat && (n <=? 13)%nat) || (n =? 32)%nat.

Fixpoint TrimLeft (s : string) : string :=
  match s with
  | EmptyString => EmptyString
  | String c s' => if ascii_space c then TrimLeft s' else s
  end.

Fixpoint TrimRight (s : string) : string :=
  match s with
  | EmptyString => EmptyString
  | String c s' =>
      match TrimRight s' with
      | EmptyString => if ascii_space c then EmptyString else String c EmptyString
      | t => String c t
      end
  end.

Definition TrimSpace (s : string) : string := TrimRight (TrimLeft s).

Definition HasPrefix (s pre : string) : bool := String.prefix pre s.

Fixpoint Contains (s sub : string) : bool :=
  if String.prefix sub s then true
  else match s with EmptyString => false | String _ s' => Contains s' sub end.

(** [s[:n]] on a string of at least [n] bytes. *)
Fixpoint string_take (n : nat) (s : string) : string :=
  match n, s with
  | S n', String c s' => String c (string_take n' s')
  | _, _ => EmptyString
  end.

(** [%d] of an integer. *)
Definition fmt_d (z : Z) : string := pretty z.

(** The position of the first, the last occurrence of a byte. *)
Fixpoint IndexByte (s : string) (c : ascii) : option nat :=
  match s with
  | EmptyString => None
  | String d s' => if Ascii.eqb d c then Some O else option_map S (IndexByte s' c)
  end.

Fixpoint LastIndexByte (s : string) (c : ascii) : option nat :=
  match s with
  | EmptyString => None
  | String d s' =>
      match LastIndexByte s' c with
      | Some n => Some (S n)
      | None => if Ascii.eqb d c then Some O else None
      end
  end.

(** [s[n:]]; the empty string beyond the end, where Go panics. *)
Fixpoint string_drop (n : nat) (s : string) : string :=
  match n, s with
  | S n', String _ s' => string_drop n' s'
  | _, _ => s
  end.

Fixpoint HasSuffix (s suf : string) : bool :=
  if String.eqb s suf then true
  else match s with EmptyString => false | String _ s' => HasSuffix s' suf end.

Definition TrimPrefix (s pre : string) : string :=
  if HasPrefix s pre then string_drop (String.length pre) s else s.

(** [strings.Cut] at a separator of one byte. *)
Definition Cut (s : string) (sep : ascii) : option (string * string) :=
  match IndexByte s sep with
  | Some n => Some (string_take n s, string_drop (S n) s)
  | None => None
  end.

(** [%q] of a string: [strconv.Quote] on ASCII. *)
Definition hex_digit (n : nat) : ascii := ascii_of_nat (if (n <? 10)%nat then 48 + n else 87 + n).

Definition quote_byte (c : ascii) (rest : string) : string :=
  let n := nat_of_ascii c in
  let esc (d : nat) := String (ascii_of_nat 92) (String (ascii_of_nat d) rest) in
  if (n =? 34)%nat || (n =? 92)%nat then esc n
  else if (n =? 7)%nat then esc 97 else if (n =? 8)%nat then esc 98
  else if (n =? 12)%nat then esc 102 else if (n =? 10)%nat then esc 110
  else if (n =? 13)%nat then esc 114 else if (n =? 9)%nat then esc 116
  else if (n =? 11)%nat then esc 118
  else if (n <? 32)%nat || (n =? 127)%nat
  then String (ascii_of_nat 92) (String (ascii_of_nat 120)
         (String (hex_digit (n / 16)) (String (hex_digit (n mod 16)) rest)))
  else String c rest.

Fixpoint quote_bytes (s : string) (rest : string) : string :=
  match s with EmptyString => rest | String c s' => quote_byte c (quote_bytes s' rest) end.

Definition fmt_q (s : string) : string :=
  String (ascii_of_nat 34) (quote_bytes s (String (ascii_of_nat 34) EmptyString)).

(** [fmt.Sprintf] of a format with string arguments and the verbs %q, %s, %v and %d; the
    verb of a missing argument is dropped. *)
Fixpoint Sprintf (format : string) (args : list string) : string :=
  match format with
  | EmptyString => EmptyString
  | String c f =>
      if Ascii.eqb c "%"%char then
        match f, args with
        | EmptyString, _ => String c EmptyString
        | String v f', [] => Sprintf f' []
        | String v f', a :: args' =>
            String.append (if Ascii.eqb v "q"%char then fmt_q a else a) (Sprintf f' args')
        end
      else String c (Sprintf f args)
  end.

(** ** Generic lemmas *)

Lemma int64_id z : is_int64 z → int64 z = z.
Proof. unfold is_int64, int64. intros H. rewrite Z.mod_small; lia. Qed.

Lemma int64_range z : is_int64 (int64 z).
Proof.
  unfold is_int64, int64.
  pose proof (Z.mod_pos_bound (z + 2 ^ 63) (2 ^ 64) ltac:(lia)). lia.
Qed.

Lemma mem_string_elem x l : mem_string x l = true ↔ x ∈ l.
Proof.
  induction l as [|y l IH]; simpl.
  - split; [done | intros H; inversion H].
  - rewrite elem_of_cons. destruct (String.eqb_spec y x) as [->|Hne]; [naive_solver|].
    rewrite IH. naive_solver.
Qed.

Lemma mem_string_false x l : mem_string x l = false ↔ x ∉ l.
Proof. rewrite <- mem_string_elem. destruct (mem_string x l); naive_solver. Qed.

Lemma eqb_refl_true (s : string) : (s == s) = true.
Proof. apply String.eqb_refl. Qed.

Lemma eqb_neq_false (s t : string) : s ≠ t → (s == t) = false.
Proof. apply String.eqb_neq. Qed.

Section stable_sort_facts.
Context {A : Type} (less : A → A → bool).

Lemma sort_insert_perm x l : sort_insert less x l ≡ₚ x :: l.
Proof.
  induction l as [|y l IH]; simpl; [done|].
  destruct (less y x); [|done]. rewrite IH. apply Permutation_swap.
Qed.

Lemma stable_sort_perm l : stable_sort less l ≡ₚ l.
Proof. induction l as [|x l IH]; simpl; [done|]. by rewrite sort_insert_perm, IH. Qed.

Lemma stable_sort_elem x l : x ∈ stable_sort less l ↔ x ∈ l.
Proof. by rewrite stable_sort_perm. Qed.

Lemma stable_sort_length l : length (stable_sort less l) = length l.
Proof. by rewrite stable_sort_perm. Qed.

(** [a] may stand before [b]: [b] is not less than [a]. *)
Definition le_of (a b : A) : Prop := less b a = false.

Lemma sort_insert_front x l : Forall (le_of x) l → sort_insert less x l = x :: l.
Proof. destruct 1 as [|y l Hy Hl]; simpl; [done|]. unfold le_of in Hy. by rewrite Hy. Qed.

(** A sorted list is left as it is: sorting is idempotent and stable. *)
Lemma stable_sort_sorted l : StronglySorted le_of l → stable_sort less l = l.
Proof.
  induction 1 as [|x l Hl IH Hx]; simpl; [done|].
  rewrite IH. by apply sort_insert_front.
Qed.

Context (Htrans : ∀ a b c, le_of a b → le_of b c → le_of a c).
Context (Hasym : ∀ a b, less a b = true → le_of a b).

Lemma sort_insert_Sorted x l :
  StronglySorted le_of l → StronglySorted le_of (sort_insert less x l).
Proof.
  induction 1 as [|y l Hl IH Hy]; simpl; [by repeat constructor|].
  destruct (less y x) eqn:Hyx.
  - constructor; [done|]. rewrite sort_insert_perm. constructor; [by apply Hasym|done].
  - constructor; [by constructor|]. constructor; [done|].
    eapply Forall_impl; [exact Hy|]. intros z Hz. by apply (Htrans x y z).
Qed.

Lemma stable_sort_Sorted l : StronglySorted le_of (stable_sort less l).
Proof. induction l; simpl; [constructor | by apply sort_insert_Sorted]. Qed.

(** Sorting commutes with filtering. *)
Lemma sort_insert_filter (p : A → bool) x l :
  StronglySorted le_of l →
  List.filter p (sort_insert less x l) =
    if p x then sort_insert less x (List.filter p l) else List.filter p l.
Proof.
  induction 1 as [|y l Hl IH Hy]; simpl; [by destruct (p x)|].
  destruct (less y x) eqn:Hyx; simpl.
  - rewrite IH. destruct (p y), (p x); simpl; try done. by rewrite Hyx.
  - destruct (p x); [|done]. destruct (p y); simpl; [by rewrite Hyx|].
    symmetry. apply sort_insert_front. apply Forall_forall. intros z Hz.
    apply (Htrans x y z); [done|]. rewrite Forall_forall in Hy. apply Hy.
    apply list_elem_of_In in Hz. apply List.filter_In in Hz as [Hz _].
    by apply list_elem_of_In.
Qed.

Lemma stable_sort_filter (p : A → bool) l :
  List.filter p (stable_sort less l) = stable_sort less (List.filter p l).
Proof.
  induction l as [|x l IH]; simpl; [done|].
  rewrite sort_insert_filter by apply stable_sort_Sorted. rewrite IH. by destruct (p x).
Qed.

(** Appending a maximal element to a sorted list and sorting again leaves it last. *)
Lemma stable_sort_snoc l x :
  StronglySorted le_of l → Forall (λ y, le_of y x) l →
  stable_sort less (l ++ [x]) = l ++ [x].
Proof.
  intros Hl Hx. apply stable_sort_sorted.
  induction Hl as [|y l Hl IH Hy]; simpl; [by repeat constructor|].
  apply Forall_cons in Hx as [Hyx Hx].
  constructor; [by apply IH|]. apply Forall_app. by repeat constructor.
Qed.
End stable_sort_facts.

(** ** Lists *)

Lemma filter_bool_elem {A} (f : A → bool) l x : x ∈ List.filter f l ↔ x ∈ l ∧ f x = true.
Proof. rewrite !list_elem_of_In. apply List.filter_In. Qed.

Lemma elem_of_map_snd {A B} (l : list (A * B)) b : b ∈ map snd l ↔ ∃ a, (a, b) ∈ l.
Proof.
  induction l as [|[a' b'] l IH]; simpl; [split; [intros H|intros [? H]]; inversion H|].
  rewrite elem_of_cons, IH. setoid_rewrite elem_of_cons. naive_solver.
Qed.

Lemma NoDup_map_filter {A B} (f : A → B) (p : A → bool) l :
  NoDup (map f l) → NoDup (map f (List.filter p l)).
Proof.
  induction l as [|x l IH]; simpl; [done|]. intros [Hx Hnd]%NoDup_cons.
  destruct (p x); [|by apply IH]. simpl. apply NoDup_cons. split; [|by apply IH].
  contradict Hx. apply list_elem_of_In in Hx. apply List.in_map_iff in Hx as (y & <- & Hy).
  apply List.filter_In in Hy as [Hy _]. apply list_elem_of_In. by apply List.in_map.
Qed.

Lemma filter_length_le {A} (f : A → bool) l : (length (List.filter f l) ≤ length l)%nat.
Proof. induction l; simpl; [done|]. destruct (f a); simpl; lia. Qed.

Lemma filter_bool_perm {A} (f : A → bool) l k : l ≡ₚ k → List.filter f l ≡ₚ List.filter f k.
Proof.
  induction 1; simpl; [done| | |by etrans].
  - destruct (f x); [by constructor|done].
  - destruct (f x), (f y); try done. apply Permutation_swap.
Qed.

(** Sorting what is mapped is mapping what is sorted, when the comparisons agree. *)
Lemma sort_insert_map {A B} (f : A → B) (less : B → B → bool) (less' : A → A → bool) x l :
  (∀ y, y ∈ l → less' x y = less (f x) (f y) ∧ less' y x = less (f y) (f x)) →
  sort_insert less (f x) (map f l) = map f (sort_insert less' x l).
Proof.
  induction l as [|y l IH]; intros Hl; [done|]. cbn [map sort_insert].
  destruct (Hl y) as [_ <-]; [left|]. destruct (less' y x); [|done]. cbn [map]. f_equal.
  apply IH. intros z Hz. apply Hl. by right.
Qed.
Lemma stable_sort_map {A B} (f : A → B) (less : B → B → bool) (less' : A → A → bool) l :
  (∀ x y, x ∈ l → y ∈ l → less' x y = less (f x) (f y)) →
  stable_sort less (map f l) = map f (stable_sort less' l).
Proof.
  induction l as [|x l IH]; intros Hl; [done|]. simpl. rewrite IH by (intros; apply Hl; by right).
  apply sort_insert_map. intros y Hy%stable_sort_elem. split; apply Hl; (by left) || (by right).
Qed.

Lemma existsb_perm {A} (f : A → bool) l k : l ≡ₚ k → existsb f l = existsb f k.
Proof.
  induction 1; simpl; [done|congruence| |congruence].
  by rewrite !orb_assoc, (orb_comm (f x)).
Qed.

(** Two sorted arrangements of the same elements are equal when the order is
    antisymmetric on them. *)
Lemma sorted_unique {A} (R : A → A → Prop) l1 l2 :
  StronglySorted R l1 → StronglySorted R l2 → l1 ≡ₚ l2 →
  (∀ a b, a ∈ l1 → b ∈ l1 → R a b → R b a → a = b) → l1 = l2.
Proof.
  intros H1. revert l2. induction H1 as [|x l1 Hl1 IH Hx]; intros l2 H2 Hp Hanti.
  { by apply Permutation_nil_l in Hp. }
  destruct H2 as [|y l2 Hl2 Hy]; [by apply Permutation_nil_r in Hp|].
  rewrite Forall_forall in Hx, Hy.
  assert (x = y) as <-.
  { assert (Hyin : y ∈ x :: l1) by (rewrite Hp; left).
    assert (Hxin : x ∈ y :: l2) by (rewrite <- Hp; left).
    apply elem_of_cons in Hyin as [->|Hyin]; [done|].
    apply elem_of_cons in Hxin as [->|Hxin]; [done|].
    apply Hanti; [left|by right|by apply Hx|by apply Hy]. }
  f_equal. apply IH; [done|by apply Permutation_cons_inv in Hp|].
  intros a b Ha Hb. apply Hanti; by right.
Qed.

(** ** Automation

    [str_cases] decides every comparison of Go strings in the goal and the
    hypotheses, replacing a variable by the literal it is equal to;
    [go_cases] also follows the matches and ifs of the code. *)

Ltac str_step :=
  match goal with
  | |- context [String.eqb ?a ?b] => destruct (String.eqb_spec a b); try subst a; try subst b
  | H : context [String.eqb ?a ?b] |- _ => destruct (String.eqb_spec a b); try subst a; try subst b
  end; simpl in *; try done.

Ltac str_cases := repeat str_step.

Create HintDb go.
#[export] Hint Rewrite eqb_refl_true : go.
#[export] Hint Rewrite @stable_sort_length @stable_sort_elem : go.
#[export] Hint Resolve int64_range : go.

(** ** The order on strings *)

Lemma string_lt_irrefl a : string_lt a a = false.
Proof.
  unfold string_lt. destruct (String.compare a a) eqn:E; [done| |done].
  pose proof (String.compare_antisym a a) as H. by rewrite E in H.
Qed.

Lemma string_lt_asym a b : string_lt a b = true → string_lt b a = false.
Proof.
  unfold string_lt. rewrite (String.compare_antisym b a).
  by destruct (String.compare a b).
Qed.

Lemma string_lt_trans a b c :
  string_lt a b = true → string_lt b c = true → string_lt a c = true.
Proof.
  unfold string_lt. intros Hab Hbc.
  assert (Hlt : String_as_OT.lt a c).
  { pose proof String_as_OT.lt_strorder as [_ Ht]. apply (Ht a b c).
    - unfold String_as_OT.lt. change (String.compare a b = Lt).
      by destruct (String.compare a b).
    - unfold String_as_OT.lt. change (String.compare b c = Lt).
      by destruct (String.compare b c). }
  change (String.compare a c = Lt) in Hlt. by rewrite Hlt.
Qed.

Lemma string_lt_total a b : string_lt a b = false → string_lt b a = false → a = b.
Proof.
  unfold string_lt. rewrite (String.compare_antisym b a).
  destruct (String.compare a b) eqn:E; [|done|done]. intros _ _. by apply String.compare_eq_iff.
Qed.

Lemma string_lt_le_trans a b c :
  string_lt b a = false → string_lt c b = false → string_lt c a = false.
Proof.
  intros Hba Hcb. destruct (string_lt c a) eqn:Hca; [|done]. exfalso.
  destruct (string_lt a b) eqn:Hab.
  - pose proof (string_lt_trans _ _ _ Hca Hab). congruence.
  - pose proof (string_lt_total _ _ Hab Hba) as ->. congruence.
Qed.

(** ** Keys joined by a NUL byte

    The stores join two strings by ["\x00"] into one key.  The join is injective when the first
    part has no such byte. *)
Definition NUL : string := String (ascii_of_nat 0) EmptyString.

Fixpoint nul_free (s : string) : Prop :=
  match s with EmptyString => True | String c s' => c ≠ ascii_of_nat 0 ∧ nul_free s' end.

#[export] Instance nul_free_dec s : Decision (nul_free s).
Proof. induction s as [|c s IH]; simpl; apply _. Defined.

Lemma nul_join_inj s t a b :
  nul_free s → nul_free t → String.append s (String.append NUL a) = String.append t (String.append NUL b) →
  s = t ∧ a = b.
Proof.
  revert t. induction s as [|c s IH]; intros [|d t]; simpl; intros Hs Ht E; simplify_eq.
  - done.
  - destruct Ht as [[] _]. done.
  - destruct Hs as [[] _]. done.
  - destruct (IH t) as [-> ->]; naive_solver.
Qed.

(** ** Trimming, prefixes and suffixes *)

(** [s] does not end, begin with a space. *)
Fixpoint ends_plain (s : string) : bool :=
  match s with
  | EmptyString => true
  | String c EmptyString => negb (ascii_space c)
  | String _ s' => ends_plain s'
  end.
Definition begins_plain (s : string) : bool :=
  match s with EmptyString => true | String c _ => negb (ascii_space c) end.

Lemma TrimRight_ends s : ends_plain (TrimRight s) = true.
Proof.
  induction s as [|c s IH]; cbn; [done|]. destruct (TrimRight s) eqn:E.
  - destruct (ascii_space c) eqn:Ec; cbn; [done|]. by rewrite Ec.
  - by cbn in IH |- *.
Qed.

Lemma TrimRight_plain s : ends_plain s = true → TrimRight s = s.
Proof.
  induction s as [|c s IH]; cbn; [done|]. destruct s as [|d s]; cbn in *.
  - by destruct (ascii_space c).
  - intros E. by rewrite IH.
Qed.

Lemma TrimLeft_begins s : begins_plain (TrimLeft s) = true.
Proof. induction s as [|c s IH]; cbn; [done|]. destruct (ascii_space c) eqn:E; cbn; by rewrite ?E. Qed.

Lemma TrimLeft_plain s : begins_plain s = true → TrimLeft s = s.
Proof. destruct s as [|c s]; cbn; [done|]. by destruct (ascii_space c). Qed.

Lemma TrimRight_begins s : begins_plain s = true → begins_plain (TrimRight s) = true.
Proof.
  destruct s as [|c s]; cbn; [done|]. intros E. destruct (TrimRight s); cbn; [|done].
  destruct (ascii_space c) eqn:Ec; cbn; by rewrite ?Ec.
Qed.

Lemma TrimSpace_idemp s : TrimSpace (TrimSpace s) = TrimSpace s.
Proof.
  unfold TrimSpace. rewrite (TrimLeft_plain (TrimRight _)) by apply TrimRight_begins, TrimLeft_begins.
  apply TrimRight_plain, TrimRight_ends.
Qed.

Lemma string_app_nil s : EmptyString +:+ s = s.
Proof. done. Qed.
Lemma string_app_cons c s t : String c s +:+ t = String c (s +:+ t).
Proof. done. Qed.
Lemma string_app_assoc (s t u : string) : (s +:+ t) +:+ u = s +:+ (t +:+ u).
Proof. induction s as [|c s IH]; [done|]. rewrite !string_app_cons. by f_equal. Qed.
Lemma string_app_nil_r (s : string) : s +:+ "" = s.
Proof. induction s as [|c s IH]; [done|]. rewrite !string_app_cons. by f_equal. Qed.

Lemma HasSuffix_iff s suf : HasSuffix s suf = true ↔ ∃ pre, s = pre +:+ suf.
Proof.
  assert (Hself : ∃ pre, suf = pre +:+ suf) by by exists EmptyString.
  induction s as [|c s IH].
  - destruct suf as [|d suf]; cbn; [done|]. split; [done|]. by intros [[|] E].
  - cbn [HasSuffix]. destruct (String.eqb_spec (String c s) suf) as [->|Hne]; [done|].
    rewrite IH. split; [intros [pre ->]; by exists (String c pre)|].
    intros [[|d pre] E]; [done|]. rewrite string_app_cons in E. injection E as -> ->. by exists pre.
Qed.

Lemma HasPrefix_iff s pre : HasPrefix s pre = true ↔ ∃ rest, s = pre +:+ rest.
Proof.
  revert s. induction pre as [|c pre IH]; intros s.
  - split; [by exists s|by destruct s].
  - destruct s as [|d s]; [split; [done|by intros [rest E]]|].
    cbn. destruct (ascii_dec c d) as [<-|Hne].
    + change (String.prefix pre s) with (HasPrefix s pre). rewrite IH.
      split; intros [rest E]; exists rest; rewrite string_app_cons in *; congruence.
    + split; [done|]. intros [rest E]. rewrite string_app_cons in E. congruence.
Qed.

Lemma TrimPrefix_app pre rest : TrimPrefix (pre +:+ rest) pre = rest.
Proof.
  unfold TrimPrefix. replace (HasPrefix _ pre) with true by (symmetry; apply HasPrefix_iff; by exists rest).
  induction pre; cbn; done.
Qed.

(** ** Texts in texts *)

Definition occurs (sub text : string) : Prop := ∃ before after, text = before +:+ (sub +:+ after).

Lemma occurs_refl s : occurs s s.
Proof. exists "", "". by rewrite string_app_nil, string_app_nil_r. Qed.
Lemma occurs_nil s : occurs "" s.
Proof. by exists "", s. Qed.
Lemma occurs_app_l t a b : occurs t a → occurs t (a +:+ b).
Proof. intros (x & y & ->). exists x, (y +:+ b). by rewrite !string_app_assoc. Qed.
Lemma occurs_app_r t a b : occurs t b → occurs t (a +:+ b).
Proof. intros (x & y & ->). exists (a +:+ x), y. by rewrite string_app_assoc. Qed.
Lemma occurs_cons t c a : occurs t a → occurs t (String c a).
Proof. apply (occurs_app_r t (String c "") a). Qed.
Lemma occurs_trans a b c : occurs a b → occurs b c → occurs a c.
Proof.
  intros (x & y & ->) (u & v & ->). exists (u +:+ x), (y +:+ v). by rewrite !string_app_assoc.
Qed.
Lemma occurs_in_nil t : occurs t "" → t = "".
Proof. intros (x & y & E). destruct x; [|by rewrite string_app_cons in E]. destruct t; [done|]. by rewrite string_app_nil, string_app_cons in E. Qed.

Lemma TrimLeft_suffix s : ∃ a, s = a +:+ TrimLeft s.
Proof.
  induction s as [|c s [a IH]]; [by exists ""|]. cbn. destruct (ascii_space c); [|by exists ""].
  exists (String c a). rewrite string_app_cons. by f_equal.
Qed.
Lemma TrimRight_prefix s : ∃ a, s = TrimRight s +:+ a.
Proof.
  induction s as [|c s [a IH]]; [by exists ""|]. cbn. destruct (TrimRight s) as [|d t] eqn:E.
  - destruct (ascii_space c); [by exists (String c s)|]. exists a. rewrite string_app_cons. by f_equal.
  - exists a. rewrite string_app_cons. by f_equal.
Qed.
Lemma TrimSpace_occurs s : occurs (TrimSpace s) s.
Proof.
  unfold TrimSpace. destruct (TrimLeft_suffix s) as [a Ea], (TrimRight_prefix (TrimLeft s)) as [b Eb].
  exists a, b. by rewrite <- Eb.
Qed.
Lemma TrimLeft_app a t : begins_plain t = true → ∃ a', TrimLeft (a +:+ t) = a' +:+ t.
Proof.
  intros Ht. induction a as [|c a IH]; [exists ""; by rewrite string_app_nil, TrimLeft_plain|].
  rewrite string_app_cons. cbn [TrimLeft]. destruct (ascii_space c); [done|]. by exists (String c a).
Qed.
Lemma TrimRight_app t b : ends_plain t = true → ∃ b', TrimRight (t +:+ b) = t +:+ b'.
Proof.
  induction t as [|c t IH]; intros Ht; [by exists (TrimRight b)|]. rewrite string_app_cons. cbn [TrimRight].
  destruct t as [|d t].
  - rewrite string_app_nil. cbn in Ht. destruct (TrimRight b) as [|e r].
    + exists "". destruct (ascii_space c); [done|]. done.
    + by exists (String e r).
  - destruct (IH Ht) as [b' ->]. exists b'. rewrite !string_app_cons. done.
Qed.
(** What occurs in a text is still there, but for the blanks around it, when the blanks around the text are gone. *)
Lemma occurs_TrimSpace t s : occurs t s → occurs (TrimSpace t) (TrimSpace s).
Proof.
  intros Ht. assert (occurs (TrimSpace t) s) as (x & y & ->) by (eapply occurs_trans; [apply TrimSpace_occurs|done]).
  clear Ht. destruct (decide (TrimSpace t = "")) as [->|Hne]; [apply occurs_nil|].
  assert (begins_plain (TrimSpace t) = true) as Hb by apply TrimRight_begins, TrimLeft_begins.
  assert (ends_plain (TrimSpace t) = true) as He by apply TrimRight_ends.
  generalize dependent (TrimSpace t). intros u Hne Hb He. unfold TrimSpace.
  assert (begins_plain (u +:+ y) = true) as Hby by (destruct u; [done|by rewrite string_app_cons]).
  destruct (TrimLeft_app x _ Hby) as [x' ->]. assert (∃ x2 y2, TrimRight (x' +:+ (u +:+ y)) = x2 +:+ (u +:+ y2)) as (x2 & y2 & ->); [|by exists x2, y2].
  clear Hby. induction x' as [|c x' (x2 & y2 & IH)].
  - destruct (TrimRight_app u y He) as [y' E]. exists "", y'. by rewrite !string_app_nil.
  - rewrite string_app_cons. cbn [TrimRight]. rewrite IH. destruct (x2 +:+ (u +:+ y2)) as [|d r] eqn:E.
    + destruct x2; [|by rewrite string_app_cons in E]. destruct u; [done|]. by rewrite string_app_nil, string_app_cons in E.
    + exists (String c x2), y2. rewrite string_app_cons. by rewrite E.
Qed.
Lemma occurs_iff sub text : Contains text sub = true ↔ occurs sub text.
Proof.
  unfold occurs. assert (Hp : ∀ t, String.prefix sub t = true ↔ ∃ rest, t = sub +:+ rest) by (intros t; apply HasPrefix_iff).
  induction text as [|ch text IH]; cbn [Contains].
  - destruct (String.prefix sub "") eqn:Ep.
    + split; [|done]. intros _. apply Hp in Ep as [rest ->]. by exists "", rest.
    + split; [done|]. intros (before & after & E). destruct before; [|by rewrite string_app_cons in E].
      rewrite string_app_nil in E. enough (String.prefix sub "" = true) by congruence. apply Hp. by exists after.
  - destruct (String.prefix sub (String ch text)) eqn:Ep.
    + split; [|done]. intros _. apply Hp in Ep as [rest ->]. by exists "", rest.
    + rewrite IH. split; intros (before & after & E).
      * exists (String ch before), after. by rewrite E, string_app_cons.
      * destruct before as [|d before]; [|rewrite string_app_cons in E; injection E as _ ->; by exists before, after].
        rewrite string_app_nil in E. exfalso. enough (String.prefix sub (String ch text) = true) by congruence.
        apply Hp. by exists after.
Qed.
