(* ===== verification/Contracts.v ===== *)
(** * Package [internal/contracts]: the data the components exchange

    Go's named string types are strings here, their constants definitions of the
    same name, and a struct is a record whose fields carry a prefix.  Each record
    comes with its zero value.  [map[string]any] is a finite map to [Any]. *)

From S2P Require Import Prelude.
From stdpp Require Import base list strings gmap fin_maps.
From Stdlib Require Import SpecFloat.
Open Scope go_scope.
Open Scope string_scope.
Open Scope list_scope.

(** IEEE 754 binary64 numbers. *)
Definition float64 := spec_float.
Definition float64_zero : float64 := S754_zero false.

(** Values of Go's type [any] that the modelled code stores in a map: [AInt] is an integer of
    one of the types int, int32 and int64, [AFloat] a float32 or float64, [AList] a []any,
    [AStrings] a []string and [AStruct] a struct with the named fields. *)
Inductive Any :=
| ANil
| AString (s : string)
| AInt (z : Z)
| AFloat (f : float64)
| ABool (b : bool)
| AList (l : list Any)
| AStrings (l : list string)
| AMap (m : list (string * Any))
| AStruct (name : string) (fields : list (string * Any)).


(** ** enums.go *)

Definition DecisionType := string.
Definition DecisionTypeReply : DecisionType := "reply".
Definition DecisionTypeNoOp : DecisionType := "no_op".
Definition DecisionTypeAskClarification : DecisionType := "ask_clarification".
Definition DecisionTypeToolCall : DecisionType := "tool_call".
Definition DecisionTypeUnsupported : DecisionType := "unsupported".
Definition DecisionTypeError : DecisionType := "error".

Definition ReplyKind := string.
Definition ReplyAnswer : ReplyKind := "answer".
Definition ReplyRefusal : ReplyKind := "refusal".
Definition ReplyPolicyNotice : ReplyKind := "policy_notice".
Definition ReplyClarificationMessage : ReplyKind := "clarification_message".
Definition ReplyStatusUpdate : ReplyKind := "status_update".

Definition TaskStatus := string.
Definition TaskCreated : TaskStatus := "created".
Definition TaskAccepted : TaskStatus := "accepted".
Definition TaskPlanning : TaskStatus := "planning".
Definition TaskRunning : TaskStatus := "running".
Definition TaskWaitingInput : TaskStatus := "waiting_input".
Definition TaskWaitingTool : TaskStatus := "waiting_tool".
Definition TaskWaitingApproval : TaskStatus := "waiting_approval".
Definition TaskBlocked : TaskStatus := "blocked".
Definition TaskPaused : TaskStatus := "paused".
Definition TaskCompleted : TaskStatus := "completed".
Definition TaskFailed : TaskStatus := "failed".
Definition TaskCancelled : TaskStatus := "cancelled".
Definition TaskRejected : TaskStatus := "rejected".

Definition RunStatus := string.
Definition RunCreated : RunStatus := "created".
Definition RunRunning : RunStatus := "running".
Definition RunWaitingInput : RunStatus := "waiting_input".
Definition RunWaitingApproval : RunStatus := "waiting_approval".
Definition RunCompleted : RunStatus := "completed".
Definition RunFailed : RunStatus := "failed".
Definition RunCancelled : RunStatus := "cancelled".

Definition ToolResultStatus := string.
Definition ToolResultSucceeded : ToolResultStatus := "succeeded".
Definition ToolResultFailed : ToolResultStatus := "failed".
Definition ToolResultDenied : ToolResultStatus := "denied".
Definition ToolResultPendingApproval : ToolResultStatus := "pending_approval".

Definition RiskLevel := string.
Definition RiskLow : RiskLevel := "low".
Definition RiskMedium : RiskLevel := "medium".
Definition RiskHigh : RiskLevel := "high".
Definition RiskCritical : RiskLevel := "critical".

Definition HandoffMode := string.
Definition HandoffFullContext : HandoffMode := "full_context".
Definition HandoffSummaryOnly : HandoffMode := "summary_only".
Definition HandoffReferenceOnly : HandoffMode := "reference_only".
Definition HandoffHybrid : HandoffMode := "hybrid".

Definition ReleaseStatus := string.
Definition ReleaseDraft : ReleaseStatus := "draft".
Definition ReleaseValidated : ReleaseStatus := "validated".
Definition ReleaseEvaluated : ReleaseStatus := "evaluated".
Definition ReleaseReviewed : ReleaseStatus := "reviewed".
Definition ReleasePublished : ReleaseStatus := "published".
Definition ReleaseCanary : ReleaseStatus := "canary".
Definition ReleaseStable : ReleaseStatus := "stable".
Definition ReleaseDeprecated : ReleaseStatus := "deprecated".
Definition ReleaseRolledBack : ReleaseStatus := "rolled_back".

Definition ProposalStatus := string.
Definition ProposalDraft : ProposalStatus := "draft".
Definition ProposalPendingReview : ProposalStatus := "pending_review".
Definition ProposalApproved : ProposalStatus := "approved".
Definition ProposalRejected : ProposalStatus := "rejected".
Definition ProposalPublished : ProposalStatus := "published".
Definition ProposalSuperseded : ProposalStatus := "superseded".

Definition ToolVisibility := string.
Definition ToolPrivate : ToolVisibility := "private".
Definition ToolProtected : ToolVisibility := "protected".
Definition ToolExposed : ToolVisibility := "exposed".

Definition HandoffStatus := string.
Definition HandoffCreated : HandoffStatus := "created".
Definition HandoffAccepted : HandoffStatus := "accepted".
Definition HandoffRejected : HandoffStatus := "rejected".
Definition HandoffRunning : HandoffStatus := "running".
Definition HandoffCompleted : HandoffStatus := "completed".
Definition HandoffFailed : HandoffStatus := "failed".
Definition HandoffCancelled : HandoffStatus := "cancelled".

Definition PlanStatus := string.
Definition PlanPending : PlanStatus := "pending".
Definition PlanRunning : PlanStatus := "running".
Definition PlanCompleted : PlanStatus := "completed".
Definition PlanFailed : PlanStatus := "failed".
Definition PlanSuperseded : PlanStatus := "superseded".

Definition PlanStepStatus := string.
Definition PlanStepPending : PlanStepStatus := "pending".
Definition PlanStepRunning : PlanStepStatus := "running".
Definition PlanStepCompleted : PlanStepStatus := "completed".
Definition PlanStepFailed : PlanStepStatus := "failed".
Definition PlanStepSkipped : PlanStepStatus := "skipped".

Definition TaskCommand := string.
Definition CmdAccept : TaskCommand := "accept".
Definition CmdPlanStarted : TaskCommand := "plan_started".
Definition CmdRunStarted : TaskCommand := "run_started".
Definition CmdAskClarification : TaskCommand := "ask_clarification".
Definition CmdApprovalRequired : TaskCommand := "approval_required".
Definition CmdToolWaiting : TaskCommand := "tool_waiting".
Definition CmdToolCompleted : TaskCommand := "tool_completed".
Definition CmdComplete : TaskCommand := "complete".
Definition CmdFail : TaskCommand := "fail".
Definition CmdProvideInput : TaskCommand := "provide_input".
Definition CmdApproveAction : TaskCommand := "approve_action".
Definition CmdRejectAction : TaskCommand := "reject_action".
Definition CmdCancel : TaskCommand := "cancel".
Definition CmdPause : TaskCommand := "pause".
Definition CmdResume : TaskCommand := "resume".
Definition CmdCreatePlan : TaskCommand := "create_plan".
Definition CmdUpdatePlan : TaskCommand := "update_plan".
Definition CmdReplan : TaskCommand := "replan".
Definition CmdCompleteStep : TaskCommand := "complete_step".
Definition CmdFailStep : TaskCommand := "fail_step".
Definition CmdUpgradeAgentVersion : TaskCommand := "upgrade_agent_version".
Definition CmdCreateHandoff : TaskCommand := "create_handoff".
Definition CmdAcceptHandoff : TaskCommand := "accept_handoff".
Definition CmdRejectHandoff : TaskCommand := "reject_handoff".
Definition CmdCompleteHandoff : TaskCommand := "complete_handoff".
Definition CmdFailHandoff : TaskCommand := "fail_handoff".


(** ** errors.go *)

Definition ErrorCode := string.
Definition CodeAgentNotFound : ErrorCode := "AGENT_NOT_FOUND".
Definition CodeAgentVersionNotFound : ErrorCode := "AGENT_VERSION_NOT_FOUND".
Definition CodePackageVersionConflict : ErrorCode := "PACKAGE_VERSION_CONFLICT".
Definition CodeModelError : ErrorCode := "MODEL_ERROR".
Definition CodeModelTimeout : ErrorCode := "MODEL_TIMEOUT".
Definition CodeDecisionSchemaError : ErrorCode := "DECISION_SCHEMA_ERROR".
Definition CodeToolNotFound : ErrorCode := "TOOL_NOT_FOUND".
Definition CodeToolArgumentInvalid : ErrorCode := "TOOL_ARGUMENT_INVALID".
Definition CodeToolPolicyDenied : ErrorCode := "TOOL_POLICY_DENIED".
Definition CodeToolApprovalRequired : ErrorCode := "TOOL_APPROVAL_REQUIRED".
Definition CodeToolExecutionFailed : ErrorCode := "TOOL_EXECUTION_FAILED".
Definition CodeExecutionDomainUnavailable : ErrorCode := "EXECUTION_DOMAIN_UNAVAILABLE".
Definition CodeExternalBridgeError : ErrorCode := "EXTERNAL_BRIDGE_ERROR".
Definition CodeArtifactWriteFailed : ErrorCode := "ARTIFACT_WRITE_FAILED".
Definition CodeTaskConflict : ErrorCode := "TASK_CONFLICT".
Definition CodeTaskCancelled : ErrorCode := "TASK_CANCELLED".
Definition CodeHandoffDenied : ErrorCode := "HANDOFF_DENIED".
Definition CodeHandoffContextTooLarge : ErrorCode := "HANDOFF_CONTEXT_TOO_LARGE".
Definition CodePolicyVersionConflict : ErrorCode := "POLICY_VERSION_CONFLICT".
Definition CodeAdmissionRejected : ErrorCode := "ADMISSION_REJECTED".
Definition CodeAgentRuntimeDriverUnavailable : ErrorCode := "AGENT_RUNTIME_DRIVER_UNAVAILABLE".

Record RuntimeError := mkRuntimeError {
  Err_Code : ErrorCode;
  Err_Message : string;
  Err_Retryable : bool;
  Err_Repairable : bool;
  Err_Details : gmap string Any
}.
#[export] Instance eta_RuntimeError : Settable RuntimeError :=
  fields! mkRuntimeError < Err_Code ; Err_Message ; Err_Retryable ; Err_Repairable ; Err_Details >.
Definition zeroRuntimeError : RuntimeError :=
  mkRuntimeError EmptyString EmptyString false false ∅.


(** A Go [error]: one of [errors.New], the format and arguments of [fmt.Errorf],
    a [*contracts.RuntimeError], or a [CompileError] of the package agentpackage. *)
Inductive error :=
| ErrSentinel (message : string)
| Errorf (format : string) (args : list string)
| ErrRuntime (e : RuntimeError)
| ErrCompile (path message : string).


Definition ErrorTraits (code : ErrorCode) : bool * bool :=
  let retryable :=
    mem_string code
      [CodeModelError; CodeModelTimeout; CodeDecisionSchemaError; CodeToolArgumentInvalid;
       CodeToolExecutionFailed; CodeExecutionDomainUnavailable; CodeExternalBridgeError;
       CodeArtifactWriteFailed; CodeTaskConflict; CodeHandoffContextTooLarge;
       CodeAdmissionRejected] in
  let repairable :=
    mem_string code
      [CodeDecisionSchemaError; CodeToolArgumentInvalid; CodeHandoffContextTooLarge] in
  (retryable, repairable).

Definition NewRuntimeError (code : ErrorCode) (message : string) (details : gmap string Any)
  : RuntimeError :=
  let '(retryable, repairable) := ErrorTraits code in
  mkRuntimeError code message retryable repairable details.

(** [err.Error()]. *)
Definition RuntimeError_Error (e : RuntimeError) : string :=
  Sprintf "%s: %s" [e.(Err_Code); e.(Err_Message)].

(** A compile error names the place in the package. *)
Definition CompileError_Error (path message : string) : string :=
  if path == "" then message else path +:+ ": " +:+ message.

Definition Error (err : error) : string :=
  match err with
  | ErrSentinel message => message
  | ErrCompile path message => CompileError_Error path message
  | Errorf format args => Sprintf format args
  | ErrRuntime e => RuntimeError_Error e
  end.

Definition ToTracePayload (e : RuntimeError) : gmap string Any :=
  let payload : gmap string Any :=
    {["code" := AString e.(Err_Code); "message" := AString e.(Err_Message);
      "retryable" := ABool e.(Err_Retryable); "repairable" := ABool e.(Err_Repairable)]} in
  if (0 <? Z.of_nat (size e.(Err_Details)))%Z
  then <["details" := AMap (map_to_list e.(Err_Details))]> payload else payload.

Definition IsRetryable (e : option RuntimeError) : bool :=
  match e with Some e => Err_Retryable e | None => false end.

Definition IsRepairable (e : option RuntimeError) : bool :=
  match e with Some e => Err_Repairable e | None => false end.


(** ** enums.go: validation *)

Definition DecisionType_Validate (v : DecisionType) : option error :=
  if mem_string v
       [DecisionTypeReply; DecisionTypeNoOp; DecisionTypeAskClarification; DecisionTypeToolCall; DecisionTypeUnsupported; DecisionTypeError]
  then None else Some (Errorf "unknown decision type %q" [v]).

Definition TaskStatus_Validate (v : TaskStatus) : option error :=
  if mem_string v
       [TaskCreated; TaskAccepted; TaskPlanning; TaskRunning; TaskWaitingInput; TaskWaitingTool; TaskWaitingApproval; TaskBlocked; TaskPaused; TaskCompleted; TaskFailed; TaskCancelled; TaskRejected]
  then None else Some (Errorf "unknown task status %q" [v]).

Definition RunStatus_Validate (v : RunStatus) : option error :=
  if mem_string v
       [RunCreated; RunRunning; RunWaitingInput; RunWaitingApproval; RunCompleted; RunFailed; RunCancelled]
  then None else Some (Errorf "unknown run status %q" [v]).

Definition RiskLevel_Validate (v : RiskLevel) : option error :=
  if mem_string v
       [RiskLow; RiskMedium; RiskHigh; RiskCritical]
  then None else Some (Errorf "unknown risk level %q" [v]).

Definition ToolResultStatus_Validate (v : ToolResultStatus) : option error :=
  if mem_string v
       [ToolResultSucceeded; ToolResultFailed; ToolResultDenied; ToolResultPendingApproval]
  then None else Some (Errorf "unknown tool result status %q" [v]).

Definition HandoffMode_Validate (v : HandoffMode) : option error :=
  if mem_string v
       [HandoffFullContext; HandoffSummaryOnly; HandoffReferenceOnly; HandoffHybrid]
  then None else Some (Errorf "unknown handoff mode %q" [v]).

Definition ReleaseStatus_Validate (v : ReleaseStatus) : option error :=
  if mem_string v
       [ReleaseDraft; ReleaseValidated; ReleaseEvaluated; ReleaseReviewed; ReleasePublished; ReleaseCanary; ReleaseStable; ReleaseDeprecated; ReleaseRolledBack]
  then None else Some (Errorf "unknown release status %q" [v]).


(** ** task.go *)

Record Task := mkTask {
  Task_TaskID : string;
  Task_TenantID : string;
  Task_ParentTaskID : option string;
  Task_RootTaskID : option string;
  Task_Title : string;
  Task_Objective : string;
  Task_Description : string;
  Task_Status : TaskStatus;
  Task_OwnerAgentID : string;
  Task_AssignedAgentID : string;
  Task_SourceHandoffID : option string;
  Task_AgentID : string;
  Task_AgentVersion : string;
  Task_PolicySetID : string;
  Task_SchemaVersion : string;
  Task_Version : Z;
  Task_CreatedAt : Time;
  Task_UpdatedAt : Time;
  Task_CompletedAt : option Time
}.
#[export] Instance eta_Task : Settable Task :=
  fields! mkTask < Task_TaskID ; Task_TenantID ; Task_ParentTaskID ; Task_RootTaskID ; Task_Title ; Task_Objective ; Task_Description ; Task_Status ; Task_OwnerAgentID ; Task_AssignedAgentID ; Task_SourceHandoffID ; Task_AgentID ; Task_AgentVersion ; Task_PolicySetID ; Task_SchemaVersion ; Task_Version ; Task_CreatedAt ; Task_UpdatedAt ; Task_CompletedAt >.
Definition zeroTask : Task :=
  mkTask EmptyString EmptyString None None EmptyString EmptyString EmptyString EmptyString EmptyString EmptyString None EmptyString EmptyString EmptyString EmptyString 0%Z zeroTime zeroTime None.

Record TaskEvent := mkTaskEvent {
  TaskEvent_EventID : string;
  TaskEvent_TaskID : string;
  TaskEvent_TenantID : string;
  TaskEvent_Type : string;
  TaskEvent_ActorID : string;
  TaskEvent_ActorType : string;
  TaskEvent_Payload : gmap string Any;
  TaskEvent_RunID : string;
  TaskEvent_StepID : string;
  TaskEvent_CreatedAt : Time
}.
#[export] Instance eta_TaskEvent : Settable TaskEvent :=
  fields! mkTaskEvent < TaskEvent_EventID ; TaskEvent_TaskID ; TaskEvent_TenantID ; TaskEvent_Type ; TaskEvent_ActorID ; TaskEvent_ActorType ; TaskEvent_Payload ; TaskEvent_RunID ; TaskEvent_StepID ; TaskEvent_CreatedAt >.
Definition zeroTaskEvent : TaskEvent :=
  mkTaskEvent EmptyString EmptyString EmptyString EmptyString EmptyString EmptyString ∅ EmptyString EmptyString zeroTime.

Record TaskPlan := mkTaskPlan {
  Plan_PlanID : string;
  Plan_TaskID : string;
  Plan_Objective : string;
  Plan_Status : PlanStatus;
  Plan_CreatedBy : string;
  Plan_CreatedAt : Time;
  Plan_UpdatedAt : Time
}.
#[export] Instance eta_TaskPlan : Settable TaskPlan :=
  fields! mkTaskPlan < Plan_PlanID ; Plan_TaskID ; Plan_Objective ; Plan_Status ; Plan_CreatedBy ; Plan_CreatedAt ; Plan_UpdatedAt >.
Definition zeroTaskPlan : TaskPlan :=
  mkTaskPlan EmptyString EmptyString EmptyString EmptyString EmptyString zeroTime zeroTime.

Record ArtifactRef := mkArtifactRef {
  ArtifactRef_ArtifactID : string;
  ArtifactRef_Type : string;
  ArtifactRef_URI : string;
  ArtifactRef_Summary : string;
  ArtifactRef_Hash : string;
  ArtifactRef_Metadata : gmap string Any
}.
#[export] Instance eta_ArtifactRef : Settable ArtifactRef :=
  fields! mkArtifactRef < ArtifactRef_ArtifactID ; ArtifactRef_Type ; ArtifactRef_URI ; ArtifactRef_Summary ; ArtifactRef_Hash ; ArtifactRef_Metadata >.
Definition zeroArtifactRef : ArtifactRef :=
  mkArtifactRef EmptyString EmptyString EmptyString EmptyString EmptyString ∅.

Record PlanStep := mkPlanStep {
  Step_StepID : string;
  Step_PlanID : string;
  Step_TaskID : string;
  Step_Index : Z;
  Step_Title : string;
  Step_Description : string;
  Step_ExpectedToolHints : list string;
  Step_Status : PlanStepStatus;
  Step_ResultRefs : list ArtifactRef;
  Step_FailureReason : string;
  Step_CreatedAt : Time;
  Step_UpdatedAt : Time
}.
#[export] Instance eta_PlanStep : Settable PlanStep :=
  fields! mkPlanStep < Step_StepID ; Step_PlanID ; Step_TaskID ; Step_Index ; Step_Title ; Step_Description ; Step_ExpectedToolHints ; Step_Status ; Step_ResultRefs ; Step_FailureReason ; Step_CreatedAt ; Step_UpdatedAt >.
Definition zeroPlanStep : PlanStep :=
  mkPlanStep EmptyString EmptyString EmptyString 0%Z EmptyString EmptyString [] EmptyString [] EmptyString zeroTime zeroTime.

Record PlanEvent := mkPlanEvent {
  PlanEvent_EventID : string;
  PlanEvent_PlanID : string;
  PlanEvent_TaskID : string;
  PlanEvent_Type : string;
  PlanEvent_ActorID : string;
  PlanEvent_ActorType : string;
  PlanEvent_Payload : gmap string Any;
  PlanEvent_CreatedAt : Time
}.
#[export] Instance eta_PlanEvent : Settable PlanEvent :=
  fields! mkPlanEvent < PlanEvent_EventID ; PlanEvent_PlanID ; PlanEvent_TaskID ; PlanEvent_Type ; PlanEvent_ActorID ; PlanEvent_ActorType ; PlanEvent_Payload ; PlanEvent_CreatedAt >.
Definition zeroPlanEvent : PlanEvent :=
  mkPlanEvent EmptyString EmptyString EmptyString EmptyString EmptyString EmptyString ∅ zeroTime.


(** ** governance.go: traces and audits *)

Record TraceEvent := mkTraceEvent {
  Trace_TraceID : string;
  Trace_TenantID : string;
  Trace_SpanID : string;
  Trace_RunID : string;
  Trace_TaskID : string;
  Trace_Type : string;
  Trace_Payload : gmap string Any;
  Trace_CreatedAt : Time
}.
#[export] Instance eta_TraceEvent : Settable TraceEvent :=
  fields! mkTraceEvent < Trace_TraceID ; Trace_TenantID ; Trace_SpanID ; Trace_RunID ; Trace_TaskID ; Trace_Type ; Trace_Payload ; Trace_CreatedAt >.
Definition zeroTraceEvent : TraceEvent :=
  mkTraceEvent EmptyString EmptyString EmptyString EmptyString EmptyString EmptyString ∅ zeroTime.

Record AuditEvent := mkAuditEvent {
  Audit_AuditID : string;
  Audit_TenantID : string;
  Audit_ActorID : string;
  Audit_ActorType : string;
  Audit_Action : string;
  Audit_ResourceType : string;
  Audit_ResourceID : string;
  Audit_Decision : string;
  Audit_Reason : string;
  Audit_TraceID : string;
  Audit_TaskID : string;
  Audit_RunID : string;
  Audit_CreatedAt : Time
}.
#[export] Instance eta_AuditEvent : Settable AuditEvent :=
  fields! mkAuditEvent < Audit_AuditID ; Audit_TenantID ; Audit_ActorID ; Audit_ActorType ; Audit_Action ; Audit_ResourceType ; Audit_ResourceID ; Audit_Decision ; Audit_Reason ; Audit_TraceID ; Audit_TaskID ; Audit_RunID ; Audit_CreatedAt >.
Definition zeroAuditEvent : AuditEvent :=
  mkAuditEvent EmptyString EmptyString EmptyString EmptyString EmptyString EmptyString EmptyString EmptyString EmptyString EmptyString EmptyString EmptyString zeroTime.

Definition TraceInputReceived : string := "input.received".
Definition TraceAgentLoaded : string := "agent.loaded".
Definition TraceRunCreated : string := "run.created".
Definition TraceTaskCreated : string := "task.created".
Definition TraceTaskLoaded : string := "task.loaded".
Definition TraceConversationInputRecorded : string := "conversation.input.recorded".
Definition TraceWorkViewBuilt : string := "workview.built".
Definition TraceCapabilityRetrieved : string := "capability.retrieved".
Definition TraceConversationContextBuilt : string := "conversation.context.built".
Definition TraceConversationAddresseeJudged : string := "conversation.addressee.judged".
Definition TraceConversationSufficiencyJudged : string := "conversation.sufficiency.judged".
Definition TraceConversationContextRetrievalRequested : string := "conversation.context_retrieval.requested".
Definition TraceConversationContextRetrievalCompleted : string := "conversation.context_retrieval.completed".
Definition TraceConversationContextRetrievalFailed : string := "conversation.context_retrieval.failed".
Definition TraceConversationRetrievedContextMerged : string := "conversation.retrieved_context.merged".
Definition TraceConversationRouteGuardApplied : string := "conversation.route_guard.applied".
Definition TracePromptBundleBuilt : string := "promptbundle.built".
Definition TraceModelCalled : string := "model.called".
Definition TraceModelDelta : string := "model.delta".
Definition TraceModelCompleted : string := "model.completed".
Definition TraceDecisionCreated : string := "decision.created".
Definition TraceDecisionValidated : string := "decision.validated".
Definition TraceDecisionCompleted : string := "decision.completed".
Definition TraceDecisionRepairRequested : string := "decision.repair_requested".
Definition TraceToolPolicyChecked : string := "tool.policy_checked".
Definition TraceToolInvoked : string := "tool.invoked".
Definition TraceToolDenied : string := "tool.denied".
Definition TraceToolPendingApproval : string := "tool.pending_approval".
Definition TraceToolCompleted : string := "tool.completed".
Definition TraceToolFailed : string := "tool.failed".
Definition TraceTaskStatusChanged : string := "task.status_changed".
Definition TraceHandoffPolicyChecked : string := "handoff.policy_checked".
Definition TraceHandoffCreated : string := "handoff.created".
Definition TraceHandoffPackaged : string := "handoff.context_packaged".
Definition TraceHandoffCompleted : string := "handoff.completed".
Definition TraceResponseSent : string := "response.sent".
Definition TraceApprovalRequested : string := "approval.requested".
Definition TraceApprovalResolved : string := "approval.resolved".
Definition TraceAgentRouteResolved : string := "agent.route.resolved".
Definition TraceAgentVersionRestored : string := "agent.version.restored".
Definition TraceCanaryRouted : string := "canary.routed".
Definition TraceEvalRunStarted : string := "eval.run.started".
Definition TraceEvalCaseCompleted : string := "eval.case.completed".
Definition TraceEvalCaseFailed : string := "eval.case.failed".
Definition TraceEvalSummaryCreated : string := "eval.summary.created".
Definition TraceExternalWritebackOK : string := "external.writeback_succeeded".
Definition TraceExternalWritebackFailed : string := "external.writeback_failed".
Definition TraceCredentialUsed : string := "credential.used".
Definition TraceToolProviderHealthChecked : string := "tool_provider.health_checked".
Definition TraceToolProviderInvoked : string := "tool_provider.invoked".
Definition TraceToolProviderCompleted : string := "tool_provider.completed".
Definition TraceToolProviderFailed : string := "tool_provider.failed".
Definition TraceRuntimeHookInvoked : string := "runtime_hook.invoked".
Definition TraceRuntimeHookApplied : string := "runtime_hook.applied".
Definition TraceRuntimeHookDenied : string := "runtime_hook.denied".
Definition TraceRuntimeHookFailed : string := "runtime_hook.failed".
Definition TraceRuntimeHookTimeout : string := "runtime_hook.timeout".
Definition TraceRuntimeHookProviderHealthChecked : string := "runtime_hook.provider_health_checked".
Definition TraceAgentPluginSynced : string := "agent.plugin.synced".
Definition TraceIdentityMemberResolved : string := "identity.member_resolved".
Definition TracePermissionChecked : string := "permission.checked".
Definition TraceSkillUpdateRequested : string := "skill.update_requested".
Definition TraceSkillUpdateApproved : string := "skill.update_approved".
Definition TraceSkillUpdatePublished : string := "skill.update_published".
Definition TraceConversationTopicMatched : string := "conversation.topic_matched".
Definition TraceStrategyResolved : string := "strategy.resolved".
Definition TraceStrategyGuardrailApplied : string := "strategy.guardrail_applied".
Definition TraceModelStrategySelected : string := "model.strategy.selected".
Definition TraceToolStrategyApplied : string := "tool.strategy.applied".
Definition TraceCollaborationStrategyApplied : string := "collaboration.strategy.applied".
Definition TraceMemoryStrategyApplied : string := "memory.strategy.applied".
Definition TraceRuntimeStrategyApplied : string := "runtime.strategy.applied".
Definition TraceRepairStrategyApplied : string := "repair.strategy.applied".
Definition TraceContextCollectionCompleted : string := "context.collection.completed".
Definition TraceContextCompressionRequested : string := "context.compression.requested".
Definition TraceContextCompressionCompleted : string := "context.compression.completed".
Definition TraceContextCompressionFailed : string := "context.compression.failed".
Definition TraceContextCompressionFallbackApplied : string := "context.compression.fallback_applied".
Definition TraceContextExternalSourceSelected : string := "context.external_source.selected".
Definition TraceContextExternalSourceDropped : string := "context.external_source.dropped".
Definition TraceMemoryScopeChecked : string := "memory.scope_checked".
Definition TraceMemorySharedRetrieved : string := "memory.shared_retrieved".
Definition TraceAgentCapabilityMatched : string := "agent.capability_matched".
Definition TraceAgentFactoryDraftCreated : string := "agent.factory.draft_created".
Definition TraceAgentProgressQueried : string := "agent.progress.queried".
Definition TraceKnowledgeCreated : string := "knowledge.created".
Definition TraceKnowledgeSearchRequested : string := "knowledge.search_requested".
Definition TraceKnowledgeSearchCompleted : string := "knowledge.search_completed".
Definition TraceCrossGroupSearchRequested : string := "cross_group.search_requested".
Definition TraceCrossGroupSearchDenied : string := "cross_group.search_denied".
Definition TraceCrossGroupSearchCompleted : string := "cross_group.search_completed".
Definition TraceTonePolicyApplied : string := "tone.policy_applied".
Definition TraceGovernanceProcessStarted : string := "governance.process.started".
Definition TraceGovernanceGateOpened : string := "governance.gate.opened".
Definition TraceGovernanceReviewSubmitted : string := "governance.review.submitted".
Definition TraceGovernanceGateResolved : string := "governance.gate.resolved".
Definition TraceGovernanceConflictEscalated : string := "governance.conflict.escalated".
Definition TraceGovernanceConflictArbitrated : string := "governance.conflict.arbitrated".
Definition TraceIntakePreReplyEvaluated : string := "intake.pre_reply_evaluated".
Definition AuditToolPolicyDenied : string := "tool.policy_denied".
Definition AuditToolApprovalRequired : string := "tool.approval_required".
Definition AuditToolHighRiskInvoked : string := "tool.high_risk_invoked".
Definition AuditToolProviderUpserted : string := "tool.provider.upsert".
Definition AuditToolProviderSynced : string := "tool.provider.sync".
Definition AuditToolProviderHealthChecked : string := "tool.provider.health_check".
Definition AuditToolGroupUpserted : string := "tool.group.upsert".
Definition AuditToolManifestUpserted : string := "tool.manifest.upsert".
Definition AuditToolAdapterOperationUpserted : string := "tool.adapter_operation.upsert".
Definition AuditToolAdapterOperationPublished : string := "tool.adapter_operation.publish".
Definition AuditToolAdapterOperationTested : string := "tool.adapter_operation.test".
Definition AuditAgentPackagePublish : string := "agent.package.publish".
Definition AuditAgentPackageRollback : string := "agent.package.rollback".
Definition AuditAgentVersionRestored : string := "agent.version.restored".
Definition AuditPolicyUpdate : string := "policy.update".
Definition AuditMemoryWrite : string := "memory.write".
Definition AuditArtifactDelete : string := "artifact.delete".
Definition AuditHandoffCreated : string := "handoff.created".
Definition AuditHandoffPolicyChecked : string := "handoff.policy_checked".
Definition AuditHandoffContextRead : string := "handoff.context_read".
Definition AuditExternalToolCall : string := "external_tool_call".
Definition AuditExternalWritebackFailed : string := "external.writeback_failed".
Definition AuditCredentialUsed : string := "credential.used".
Definition AuditRuntimeHookInvoked : string := "runtime_hook.invoked".
Definition AuditRuntimeHookApplied : string := "runtime_hook.applied".
Definition AuditRuntimeHookDenied : string := "runtime_hook.denied".
Definition AuditRuntimeHookFailed : string := "runtime_hook.failed".
Definition AuditServiceConnectionSecretRotated : string := "service_connection.secret_rotated".
Definition AuditApprovalRequested : string := "approval.requested".
Definition AuditApprovalResolved : string := "approval.resolved".
Definition AuditPermissionChecked : string := "permission.checked".
Definition AuditPermissionDenied : string := "permission.denied".
Definition AuditSkillUpdateRequested : string := "skill.update_requested".
Definition AuditKnowledgeCreated : string := "knowledge.created".
Definition AuditKnowledgeSearch : string := "knowledge.search".
Definition AuditCrossGroupSearch : string := "cross_group.search".
Definition AuditMemoryShared : string := "memory.shared".
Definition AuditAgentDraftCreated : string := "agent.factory.draft_created".
Definition AuditAgentProgressQueried : string := "agent.progress.queried".
Definition AuditGovernanceTemplateUpserted : string := "governance.template.upserted".
Definition AuditGovernanceProcessStarted : string := "governance.process.started".
Definition AuditGovernanceGateOpened : string := "governance.gate.opened".
Definition AuditGovernanceReviewSubmitted : string := "governance.review.submitted".
Definition AuditGovernanceGateResolved : string := "governance.gate.resolved".
Definition AuditGovernanceConflictEscalated : string := "governance.conflict.escalated".
Definition AuditGovernanceConflictArbitrated : string := "governance.conflict.arbitrated".
Definition AuditIntakePolicyUpserted : string := "intake.policy.upserted".
Definition AuditIntakePolicyDeleted : string := "intake.policy.deleted".


(** ** approval.go *)

Definition ApprovalStatus := string.
Definition ApprovalPending : ApprovalStatus := "pending".
Definition ApprovalApproved : ApprovalStatus := "approved".
Definition ApprovalRejected : ApprovalStatus := "rejected".
Definition ApprovalUsed : ApprovalStatus := "used".

Record ApprovalRequest := mkApprovalRequest {
  Approval_ApprovalID : string;
  Approval_TenantID : string;
  Approval_ResourceType : string;
  Approval_ResourceID : string;
  Approval_Action : string;
  Approval_RiskLevel : RiskLevel;
  Approval_Reason : string;
  Approval_Status : ApprovalStatus;
  Approval_RequestedBy : string;
  Approval_ResolvedBy : string;
  Approval_CreatedAt : Time;
  Approval_ResolvedAt : option Time;
  Approval_ExpiresAt : option Time;
  Approval_TraceID : string
}.
#[export] Instance eta_ApprovalRequest : Settable ApprovalRequest :=
  fields! mkApprovalRequest < Approval_ApprovalID ; Approval_TenantID ; Approval_ResourceType ; Approval_ResourceID ; Approval_Action ; Approval_RiskLevel ; Approval_Reason ; Approval_Status ; Approval_RequestedBy ; Approval_ResolvedBy ; Approval_CreatedAt ; Approval_ResolvedAt ; Approval_ExpiresAt ; Approval_TraceID >.
Definition zeroApprovalRequest : ApprovalRequest :=
  mkApprovalRequest EmptyString EmptyString EmptyString EmptyString EmptyString EmptyString EmptyString EmptyString EmptyString EmptyString zeroTime None None EmptyString.


(** ** agent_source.go *)

Definition AgentSourceKind := string.
Definition AgentSourceKindPackage : AgentSourceKind := "package".
Definition AgentSourceKindPlugin : AgentSourceKind := "plugin_service".

Definition AgentCarrierKind := string.
Definition AgentCarrierKindNativeAgent : AgentCarrierKind := "native_agent".
Definition AgentCarrierKindAgentPluginSource : AgentCarrierKind := "agent_plugin_source".
Definition AgentCarrierKindWorkflowGraph : AgentCarrierKind := "workflow_graph".
Definition AgentCarrierKindExternalRuntime : AgentCarrierKind := "external_runtime".

Definition RuntimeContractKind := string.
Definition RuntimeContractManaged : RuntimeContractKind := "managed".
Definition RuntimeContractConnected : RuntimeContractKind := "connected".
Definition RuntimeContractObserved : RuntimeContractKind := "observed".

Definition RuntimeConformanceStatus := string.
Definition RuntimeConformanceUnknown : RuntimeConformanceStatus := "unknown".
Definition RuntimeConformancePassed : RuntimeConformanceStatus := "passed".
Definition RuntimeConformanceFailed : RuntimeConformanceStatus := "failed".


Definition CarrierKindForSource (kind : AgentSourceKind) : AgentCarrierKind :=
  if kind == AgentSourceKindPlugin then AgentCarrierKindAgentPluginSource
  else AgentCarrierKindNativeAgent.

Definition DefaultRuntimeContractForCarrier (kind : AgentCarrierKind) : RuntimeContractKind :=
  if (kind == AgentCarrierKindNativeAgent) || (kind == AgentCarrierKindAgentPluginSource)
  then RuntimeContractManaged
  else if kind == AgentCarrierKindWorkflowGraph then RuntimeContractManaged
  else if kind == AgentCarrierKindExternalRuntime then RuntimeContractConnected
  else "".

Definition NormalizeSourceKind (kind : AgentSourceKind) : AgentSourceKind :=
  if kind == "" then AgentSourceKindPackage else kind.

Definition NormalizeCarrierKind (sourceKind : AgentSourceKind) (carrierKind : AgentCarrierKind)
  : AgentCarrierKind :=
  if carrierKind != "" then carrierKind
  else CarrierKindForSource (NormalizeSourceKind sourceKind).

Definition NormalizeRuntimeContract (carrierKind : AgentCarrierKind)
    (contract : RuntimeContractKind) : RuntimeContractKind :=
  if contract != "" then contract
  else
    let carrierKind := if carrierKind == "" then AgentCarrierKindNativeAgent else carrierKind in
    DefaultRuntimeContractForCarrier carrierKind.


(** ** run.go *)

Record VersionSnapshot := mkVersionSnapshot {
  Snap_ContractVersion : string;
  Snap_AgentDefinition : string;
  Snap_AgentPackage : string;
  Snap_CarrierKind : AgentCarrierKind;
  Snap_RuntimeContract : RuntimeContractKind;
  Snap_CarrierVersion : string;
  Snap_SourceKind : AgentSourceKind;
  Snap_SourceProviderID : string;
  Snap_ManifestVersion : string;
  Snap_ManifestHash : string;
  Snap_StrategyHash : string;
  Snap_PolicySet : string;
  Snap_PolicyVersionID : string;
  Snap_PolicySetVersion : string;
  Snap_ToolDefinitions : gmap string string;
  Snap_SkillDefinitions : gmap string string;
  Snap_ModelProvider : string;
  Snap_ModelName : string;
  Snap_PromptBundleHash : string;
  Snap_AdditionalAttributes : gmap string string
}.
#[export] Instance eta_VersionSnapshot : Settable VersionSnapshot :=
  fields! mkVersionSnapshot < Snap_ContractVersion ; Snap_AgentDefinition ; Snap_AgentPackage ; Snap_CarrierKind ; Snap_RuntimeContract ; Snap_CarrierVersion ; Snap_SourceKind ; Snap_SourceProviderID ; Snap_ManifestVersion ; Snap_ManifestHash ; Snap_StrategyHash ; Snap_PolicySet ; Snap_PolicyVersionID ; Snap_PolicySetVersion ; Snap_ToolDefinitions ; Snap_SkillDefinitions ; Snap_ModelProvider ; Snap_ModelName ; Snap_PromptBundleHash ; Snap_AdditionalAttributes >.
Definition zeroVersionSnapshot : VersionSnapshot :=
  mkVersionSnapshot EmptyString EmptyString EmptyString EmptyString EmptyString EmptyString EmptyString EmptyString EmptyString EmptyString EmptyString EmptyString EmptyString EmptyString ∅ ∅ EmptyString EmptyString EmptyString ∅.

Record AgentRun := mkAgentRun {
  Run_RunID : string;
  Run_TraceID : string;
  Run_TenantID : string;
  Run_AgentID : string;
  Run_AgentVersion : string;
  Run_CarrierKind : AgentCarrierKind;
  Run_RuntimeContract : RuntimeContractKind;
  Run_SourceKind : AgentSourceKind;
  Run_SourceProviderID : string;
  Run_CarrierVersion : string;
  Run_ManifestHash : string;
  Run_TaskID : string;
  Run_Input : string;
  Run_ConversationID : string;
  Run_ThreadID : string;
  Run_MessageID : string;
  Run_Status : RunStatus;
  Run_StepCount : Z;
  Run_ToolCallCount : Z;
  Run_PolicySetID : string;
  Run_VersionSnapshot : VersionSnapshot;
  Run_StartedAt : Time;
  Run_CompletedAt : option Time;
  Run_ErrorCode : ErrorCode;
  Run_ErrorMessage : string
}.
#[export] Instance eta_AgentRun : Settable AgentRun :=
  fields! mkAgentRun < Run_RunID ; Run_TraceID ; Run_TenantID ; Run_AgentID ; Run_AgentVersion ; Run_CarrierKind ; Run_RuntimeContract ; Run_SourceKind ; Run_SourceProviderID ; Run_CarrierVersion ; Run_ManifestHash ; Run_TaskID ; Run_Input ; Run_ConversationID ; Run_ThreadID ; Run_MessageID ; Run_Status ; Run_StepCount ; Run_ToolCallCount ; Run_PolicySetID ; Run_VersionSnapshot ; Run_StartedAt ; Run_CompletedAt ; Run_ErrorCode ; Run_ErrorMessage >.
Definition zeroAgentRun : AgentRun :=
  mkAgentRun EmptyString EmptyString EmptyString EmptyString EmptyString EmptyString EmptyString EmptyString EmptyString EmptyString EmptyString EmptyString EmptyString EmptyString EmptyString EmptyString EmptyString 0%Z 0%Z EmptyString zeroVersionSnapshot zeroTime None EmptyString EmptyString.


(** The function in its three stages: the run's own carrier fields, the snapshot's
    missing ones, and the run's again from the snapshot. *)
Definition fillCarrier (run : AgentRun) : AgentRun :=
  let run := run <| Run_SourceKind := NormalizeSourceKind run.(Run_SourceKind) |> in
  let run := run <| Run_CarrierKind :=
    NormalizeCarrierKind run.(Run_SourceKind) run.(Run_CarrierKind) |> in
  let run := run <| Run_RuntimeContract :=
    NormalizeRuntimeContract run.(Run_CarrierKind) run.(Run_RuntimeContract) |> in
  if run.(Run_CarrierVersion) == ""
  then run <| Run_CarrierVersion := run.(Run_AgentVersion) |> else run.

Definition fillSnapshot (run : AgentRun) (snap : VersionSnapshot) : VersionSnapshot :=
  let snap := if snap.(Snap_SourceKind) == ""
              then snap <| Snap_SourceKind := run.(Run_SourceKind) |> else snap in
  let snap := if snap.(Snap_CarrierKind) == ""
              then snap <| Snap_CarrierKind := run.(Run_CarrierKind) |> else snap in
  let snap := if snap.(Snap_RuntimeContract) == ""
              then snap <| Snap_RuntimeContract := run.(Run_RuntimeContract) |> else snap in
  let snap := if snap.(Snap_CarrierVersion) == ""
              then snap <| Snap_CarrierVersion := run.(Run_CarrierVersion) |> else snap in
  let snap := if snap.(Snap_SourceProviderID) == ""
              then snap <| Snap_SourceProviderID := run.(Run_SourceProviderID) |> else snap in
  if snap.(Snap_ManifestHash) == ""
  then snap <| Snap_ManifestHash := run.(Run_ManifestHash) |> else snap.

Definition copySnapshot (run : AgentRun) (snap : VersionSnapshot) : AgentRun :=
  let run := run <| Run_VersionSnapshot := snap |> in
  let run := run <| Run_SourceKind := NormalizeSourceKind snap.(Snap_SourceKind) |> in
  let run := run <| Run_CarrierKind :=
    NormalizeCarrierKind run.(Run_SourceKind) snap.(Snap_CarrierKind) |> in
  let run := run <| Run_RuntimeContract :=
    NormalizeRuntimeContract run.(Run_CarrierKind) snap.(Snap_RuntimeContract) |> in
  let run := run <| Run_CarrierVersion := snap.(Snap_CarrierVersion) |> in
  let run := if run.(Run_SourceProviderID) == ""
             then run <| Run_SourceProviderID := snap.(Snap_SourceProviderID) |> else run in
  if run.(Run_ManifestHash) == ""
  then run <| Run_ManifestHash := snap.(Snap_ManifestHash) |> else run.

Definition NormalizeRunCarrierSnapshot (run : AgentRun) : AgentRun :=
  let run := fillCarrier run in
  copySnapshot run (fillSnapshot run run.(Run_VersionSnapshot)).


(** ** policy.go *)

Record RuntimePolicy := mkRuntimePolicy {
  RuntimePolicy_MaxSteps : Z;
  RuntimePolicy_MaxToolCalls : Z;
  RuntimePolicy_MaxModelRetries : Z;
  RuntimePolicy_MaxRepairAttempts : Z;
  RuntimePolicy_MaxConsecutiveToolFailures : Z
}.
#[export] Instance eta_RuntimePolicy : Settable RuntimePolicy :=
  fields! mkRuntimePolicy < RuntimePolicy_MaxSteps ; RuntimePolicy_MaxToolCalls ; RuntimePolicy_MaxModelRetries ; RuntimePolicy_MaxRepairAttempts ; RuntimePolicy_MaxConsecutiveToolFailures >.
Definition zeroRuntimePolicy : RuntimePolicy :=
  mkRuntimePolicy 0%Z 0%Z 0%Z 0%Z 0%Z.

Record ToolPolicy := mkToolPolicy {
  ToolPolicy_AllowedToolIDs : list string;
  ToolPolicy_AllowedToolGroupIDs : list string;
  ToolPolicy_DeniedToolIDs : list string;
  ToolPolicy_DeniedToolGroupIDs : list string;
  ToolPolicy_RequireApprovalAtRiskLevel : RiskLevel
}.
#[export] Instance eta_ToolPolicy : Settable ToolPolicy :=
  fields! mkToolPolicy < ToolPolicy_AllowedToolIDs ; ToolPolicy_AllowedToolGroupIDs ; ToolPolicy_DeniedToolIDs ; ToolPolicy_DeniedToolGroupIDs ; ToolPolicy_RequireApprovalAtRiskLevel >.
Definition zeroToolPolicy : ToolPolicy :=
  mkToolPolicy [] [] [] [] EmptyString.

Record ToolRepairPolicy := mkToolRepairPolicy {
  Repair_Enabled : bool;
  Repair_MaxRepairAttempts : Z;
  Repair_RepairableErrorCodes : list string;
  Repair_StopOnDenied : bool;
  Repair_StopAtOrAboveRiskLevel : RiskLevel;
  Repair_RequestModelRepairOnFail : bool
}.
#[export] Instance eta_ToolRepairPolicy : Settable ToolRepairPolicy :=
  fields! mkToolRepairPolicy < Repair_Enabled ; Repair_MaxRepairAttempts ; Repair_RepairableErrorCodes ; Repair_StopOnDenied ; Repair_StopAtOrAboveRiskLevel ; Repair_RequestModelRepairOnFail >.
Definition zeroToolRepairPolicy : ToolRepairPolicy :=
  mkToolRepairPolicy false 0%Z [] false EmptyString false.

Record ApprovalPolicy := mkApprovalPolicy {
  ApprovalPolicy_RequireApprovalForHighRisk : bool;
  ApprovalPolicy_RequireApprovalForExternalWrite : bool
}.
#[export] Instance eta_ApprovalPolicy : Settable ApprovalPolicy :=
  fields! mkApprovalPolicy < ApprovalPolicy_RequireApprovalForHighRisk ; ApprovalPolicy_RequireApprovalForExternalWrite >.
Definition zeroApprovalPolicy : ApprovalPolicy :=
  mkApprovalPolicy false false.

Record PromptPolicy := mkPromptPolicy {
  PromptPolicy_MaxPromptTokens : Z;
  PromptPolicy_BlockedPhrases : list string
}.
#[export] Instance eta_PromptPolicy : Settable PromptPolicy :=
  fields! mkPromptPolicy < PromptPolicy_MaxPromptTokens ; PromptPolicy_BlockedPhrases >.
Definition zeroPromptPolicy : PromptPolicy :=
  mkPromptPolicy 0%Z [].

Record ContextGovernancePolicy := mkContextGovernancePolicy {
  CtxGov_MaxContextTokenBudget : Z;
  CtxGov_MaxRecentMessageLimit : Z;
  CtxGov_MaxRetrievalResults : Z;
  CtxGov_MaxTaskHistoryItems : Z;
  CtxGov_MaxMemoryItems : Z;
  CtxGov_MaxArtifactRefItems : Z;
  CtxGov_MaxToolResultItems : Z;
  CtxGov_AllowFullDebugMode : bool;
  CtxGov_AllowLLMCompression : bool;
  CtxGov_AllowedCompressionModels : list string;
  CtxGov_AllowedCompressionBaseURLs : list string
}.
#[export] Instance eta_ContextGovernancePolicy : Settable ContextGovernancePolicy :=
  fields! mkContextGovernancePolicy < CtxGov_MaxContextTokenBudget ; CtxGov_MaxRecentMessageLimit ; CtxGov_MaxRetrievalResults ; CtxGov_MaxTaskHistoryItems ; CtxGov_MaxMemoryItems ; CtxGov_MaxArtifactRefItems ; CtxGov_MaxToolResultItems ; CtxGov_AllowFullDebugMode ; CtxGov_AllowLLMCompression ; CtxGov_AllowedCompressionModels ; CtxGov_AllowedCompressionBaseURLs >.
Definition zeroContextGovernancePolicy : ContextGovernancePolicy :=
  mkContextGovernancePolicy 0%Z 0%Z 0%Z 0%Z 0%Z 0%Z 0%Z false false [] [].

Record TaskRecoveryPolicy := mkTaskRecoveryPolicy {
  RecoveryPolicy_AllowResumeFromEvents : bool
}.
#[export] Instance eta_TaskRecoveryPolicy : Settable TaskRecoveryPolicy :=
  fields! mkTaskRecoveryPolicy < RecoveryPolicy_AllowResumeFromEvents >.
Definition zeroTaskRecoveryPolicy : TaskRecoveryPolicy :=
  mkTaskRecoveryPolicy false.

Record TaskUpgradePolicy := mkTaskUpgradePolicy {
  UpgradePolicy_Enabled : bool;
  UpgradePolicy_TargetVersion : string;
  UpgradePolicy_MinTaskAgeSeconds : Z
}.
#[export] Instance eta_TaskUpgradePolicy : Settable TaskUpgradePolicy :=
  fields! mkTaskUpgradePolicy < UpgradePolicy_Enabled ; UpgradePolicy_TargetVersion ; UpgradePolicy_MinTaskAgeSeconds >.
Definition zeroTaskUpgradePolicy : TaskUpgradePolicy :=
  mkTaskUpgradePolicy false EmptyString 0%Z.

Record HandoffPolicy := mkHandoffPolicy {
  HandoffPolicy_DefaultMode : HandoffMode;
  HandoffPolicy_AllowFullContext : bool;
  HandoffPolicy_MaxContextTokens : Z;
  HandoffPolicy_RequireApprovalForCrossAgent : bool;
  HandoffPolicy_RequireApprovalForSensitiveArtifacts : bool;
  HandoffPolicy_AllowParentTaskQuery : bool;
  HandoffPolicy_AllowArtifactRead : bool;
  HandoffPolicy_AllowMemoryRead : bool;
  HandoffPolicy_AllowTaskEventRead : bool
}.
#[export] Instance eta_HandoffPolicy : Settable HandoffPolicy :=
  fields! mkHandoffPolicy < HandoffPolicy_DefaultMode ; HandoffPolicy_AllowFullContext ; HandoffPolicy_MaxContextTokens ; HandoffPolicy_RequireApprovalForCrossAgent ; HandoffPolicy_RequireApprovalForSensitiveArtifacts ; HandoffPolicy_AllowParentTaskQuery ; HandoffPolicy_AllowArtifactRead ; HandoffPolicy_AllowMemoryRead ; HandoffPolicy_AllowTaskEventRead >.
Definition zeroHandoffPolicy : HandoffPolicy :=
  mkHandoffPolicy EmptyString false 0%Z false false false false false false.

Record ReleaseWindow := mkReleaseWindow {
  Window_Days : list string;
  Window_StartHourUTC : Z;
  Window_EndHourUTC : Z
}.
#[export] Instance eta_ReleaseWindow : Settable ReleaseWindow :=
  fields! mkReleaseWindow < Window_Days ; Window_StartHourUTC ; Window_EndHourUTC >.
Definition zeroReleaseWindow : ReleaseWindow :=
  mkReleaseWindow [] 0%Z 0%Z.

Record ReleasePolicy := mkReleasePolicy {
  ReleasePolicy_RequireRollbackReason : bool;
  ReleasePolicy_DefaultCanaryPercent : Z;
  ReleasePolicy_MaxCanaryPercent : Z;
  ReleasePolicy_MaxCanaryPercentWithoutApproval : Z;
  ReleasePolicy_RequireApprovalForStable : bool;
  ReleasePolicy_RequireCanaryBeforeStable : bool;
  ReleasePolicy_AllowedWindowsUTC : list ReleaseWindow
}.
#[export] Instance eta_ReleasePolicy : Settable ReleasePolicy :=
  fields! mkReleasePolicy < ReleasePolicy_RequireRollbackReason ; ReleasePolicy_DefaultCanaryPercent ; ReleasePolicy_MaxCanaryPercent ; ReleasePolicy_MaxCanaryPercentWithoutApproval ; ReleasePolicy_RequireApprovalForStable ; ReleasePolicy_RequireCanaryBeforeStable ; ReleasePolicy_AllowedWindowsUTC >.
Definition zeroReleasePolicy : ReleasePolicy :=
  mkReleasePolicy false 0%Z 0%Z 0%Z false false [].

Record MemoryPolicy := mkMemoryPolicy {
  MemoryPolicy_AllowWrite : bool;
  MemoryPolicy_AllowRead : bool;
  MemoryPolicy_Scopes : list string
}.
#[export] Instance eta_MemoryPolicy : Settable MemoryPolicy :=
  fields! mkMemoryPolicy < MemoryPolicy_AllowWrite ; MemoryPolicy_AllowRead ; MemoryPolicy_Scopes >.
Definition zeroMemoryPolicy : MemoryPolicy :=
  mkMemoryPolicy false false [].

Record ArtifactPolicy := mkArtifactPolicy {
  ArtifactPolicy_AllowRead : bool;
  ArtifactPolicy_AllowDelete : bool
}.
#[export] Instance eta_ArtifactPolicy : Settable ArtifactPolicy :=
  fields! mkArtifactPolicy < ArtifactPolicy_AllowRead ; ArtifactPolicy_AllowDelete >.
Definition zeroArtifactPolicy : ArtifactPolicy :=
  mkArtifactPolicy false false.

Record PolicySet := mkPolicySet {
  PolicySet_PolicySetID : string;
  PolicySet_TenantID : string;
  PolicySet_Version : string;
  PolicySet_RuntimePolicy : RuntimePolicy;
  PolicySet_ToolPolicy : ToolPolicy;
  PolicySet_ToolRepairPolicy : ToolRepairPolicy;
  PolicySet_ApprovalPolicy : ApprovalPolicy;
  PolicySet_PromptPolicy : PromptPolicy;
  PolicySet_ContextGovernancePolicy : ContextGovernancePolicy;
  PolicySet_RecoveryPolicy : TaskRecoveryPolicy;
  PolicySet_TaskUpgradePolicy : TaskUpgradePolicy;
  PolicySet_HandoffPolicy : HandoffPolicy;
  PolicySet_ReleasePolicy : ReleasePolicy;
  PolicySet_MemoryPolicy : MemoryPolicy;
  PolicySet_ArtifactPolicy : ArtifactPolicy;
  PolicySet_CreatedAt : Time
}.
#[export] Instance eta_PolicySet : Settable PolicySet :=
  fields! mkPolicySet < PolicySet_PolicySetID ; PolicySet_TenantID ; PolicySet_Version ; PolicySet_RuntimePolicy ; PolicySet_ToolPolicy ; PolicySet_ToolRepairPolicy ; PolicySet_ApprovalPolicy ; PolicySet_PromptPolicy ; PolicySet_ContextGovernancePolicy ; PolicySet_RecoveryPolicy ; PolicySet_TaskUpgradePolicy ; PolicySet_HandoffPolicy ; PolicySet_ReleasePolicy ; PolicySet_MemoryPolicy ; PolicySet_ArtifactPolicy ; PolicySet_CreatedAt >.
Definition zeroPolicySet : PolicySet :=
  mkPolicySet EmptyString EmptyString EmptyString zeroRuntimePolicy zeroToolPolicy zeroToolRepairPolicy zeroApprovalPolicy zeroPromptPolicy zeroContextGovernancePolicy zeroTaskRecoveryPolicy zeroTaskUpgradePolicy zeroHandoffPolicy zeroReleasePolicy zeroMemoryPolicy zeroArtifactPolicy zeroTime.

Record PolicyDraft := mkPolicyDraft {
  Draft_DraftID : string;
  Draft_TenantID : string;
  Draft_PolicySetID : string;
  Draft_Version : string;
  Draft_Policy : PolicySet;
  Draft_Status : ReleaseStatus;
  Draft_CreatedBy : string;
  Draft_CreatedAt : Time;
  Draft_UpdatedAt : Time
}.
#[export] Instance eta_PolicyDraft : Settable PolicyDraft :=
  fields! mkPolicyDraft < Draft_DraftID ; Draft_TenantID ; Draft_PolicySetID ; Draft_Version ; Draft_Policy ; Draft_Status ; Draft_CreatedBy ; Draft_CreatedAt ; Draft_UpdatedAt >.
Definition zeroPolicyDraft : PolicyDraft :=
  mkPolicyDraft EmptyString EmptyString EmptyString EmptyString zeroPolicySet EmptyString EmptyString zeroTime zeroTime.

Record PolicyVersion := mkPolicyVersion {
  Version_PolicyVersionID : string;
  Version_TenantID : string;
  Version_PolicySetID : string;
  Version_Version : string;
  Version_Status : ReleaseStatus;
  Version_PolicyHash : string;
  Version_CreatedBy : string;
  Version_CreatedAt : Time;
  Version_PublishedAt : option Time
}.
#[export] Instance eta_PolicyVersion : Settable PolicyVersion :=
  fields! mkPolicyVersion < Version_PolicyVersionID ; Version_TenantID ; Version_PolicySetID ; Version_Version ; Version_Status ; Version_PolicyHash ; Version_CreatedBy ; Version_CreatedAt ; Version_PublishedAt >.
Definition zeroPolicyVersion : PolicyVersion :=
  mkPolicyVersion EmptyString EmptyString EmptyString EmptyString EmptyString EmptyString EmptyString zeroTime None.

Definition PolicyDecisionType := string.
Definition PolicyDecisionAllowed : PolicyDecisionType := "allowed".
Definition PolicyDecisionDenied : PolicyDecisionType := "denied".
Definition PolicyDecisionApprovalRequired : PolicyDecisionType := "approval_required".

Record PolicyDecision := mkPolicyDecision {
  PD_Decision : PolicyDecisionType;
  PD_Reason : string;
  PD_RiskLevel : RiskLevel;
  PD_AppliedPolicyIDs : list string
}.
#[export] Instance eta_PolicyDecision : Settable PolicyDecision :=
  fields! mkPolicyDecision < PD_Decision ; PD_Reason ; PD_RiskLevel ; PD_AppliedPolicyIDs >.
Definition zeroPolicyDecision : PolicyDecision :=
  mkPolicyDecision EmptyString EmptyString EmptyString [].


(** ** tool.go *)

Record ToolDefinition := mkToolDefinition {
  Tool_ToolID : string;
  Tool_GroupID : string;
  Tool_Name : string;
  Tool_Description : string;
  Tool_InputSchema : gmap string Any;
  Tool_OutputSchema : gmap string Any;
  Tool_RiskLevel : RiskLevel;
  Tool_Visibility : ToolVisibility;
  Tool_ExecutionProfile : string;
  Tool_Version : string
}.
#[export] Instance eta_ToolDefinition : Settable ToolDefinition :=
  fields! mkToolDefinition < Tool_ToolID ; Tool_GroupID ; Tool_Name ; Tool_Description ; Tool_InputSchema ; Tool_OutputSchema ; Tool_RiskLevel ; Tool_Visibility ; Tool_ExecutionProfile ; Tool_Version >.
Definition zeroToolDefinition : ToolDefinition :=
  mkToolDefinition EmptyString EmptyString EmptyString EmptyString ∅ ∅ EmptyString EmptyString EmptyString EmptyString.

Record ToolCard := mkToolCard {
  Card_ToolID : string;
  Card_GroupID : string;
  Card_Name : string;
  Card_Description : string;
  Card_WhenToUse : list string;
  Card_RiskLevel : RiskLevel;
  Card_Visibility : ToolVisibility;
  Card_Version : string
}.
#[export] Instance eta_ToolCard : Settable ToolCard :=
  fields! mkToolCard < Card_ToolID ; Card_GroupID ; Card_Name ; Card_Description ; Card_WhenToUse ; Card_RiskLevel ; Card_Visibility ; Card_Version >.
Definition zeroToolCard : ToolCard :=
  mkToolCard EmptyString EmptyString EmptyString EmptyString [] EmptyString EmptyString EmptyString.

Record ToolCall := mkToolCall {
  Call_ToolCallID : string;
  Call_TenantID : string;
  Call_ToolID : string;
  Call_Name : string;
  Call_ToolVersion : string;
  Call_ExecutionProfile : string;
  Call_Arguments : gmap string Any;
  Call_TraceID : string;
  Call_RunID : string;
  Call_TaskID : string;
  Call_PlanStepID : string;
  Call_IdempotencyKey : string;
  Call_CreatedAt : Time;
  Call_RuntimeContext : gmap string Any
}.
#[export] Instance eta_ToolCall : Settable ToolCall :=
  fields! mkToolCall < Call_ToolCallID ; Call_TenantID ; Call_ToolID ; Call_Name ; Call_ToolVersion ; Call_ExecutionProfile ; Call_Arguments ; Call_TraceID ; Call_RunID ; Call_TaskID ; Call_PlanStepID ; Call_IdempotencyKey ; Call_CreatedAt ; Call_RuntimeContext >.
Definition zeroToolCall : ToolCall :=
  mkToolCall EmptyString EmptyString EmptyString EmptyString EmptyString EmptyString ∅ EmptyString EmptyString EmptyString EmptyString EmptyString zeroTime ∅.

Record ToolExecutionError := mkToolExecutionError {
  ExecErr_Code : ErrorCode;
  ExecErr_Message : string;
  ExecErr_Details : gmap string Any
}.
#[export] Instance eta_ToolExecutionError : Settable ToolExecutionError :=
  fields! mkToolExecutionError < ExecErr_Code ; ExecErr_Message ; ExecErr_Details >.
Definition zeroToolExecutionError : ToolExecutionError :=
  mkToolExecutionError EmptyString EmptyString ∅.

Record ToolResult := mkToolResult {
  Result_ToolResultID : string;
  Result_ToolCallID : string;
  Result_Status : ToolResultStatus;
  Result_Output : gmap string Any;
  Result_Error : option ToolExecutionError;
  Result_ArtifactRefs : list ArtifactRef;
  Result_StartedAt : Time;
  Result_CompletedAt : Time
}.
#[export] Instance eta_ToolResult : Settable ToolResult :=
  fields! mkToolResult < Result_ToolResultID ; Result_ToolCallID ; Result_Status ; Result_Output ; Result_Error ; Result_ArtifactRefs ; Result_StartedAt ; Result_CompletedAt >.
Definition zeroToolResult : ToolResult :=
  mkToolResult EmptyString EmptyString EmptyString ∅ None [] zeroTime zeroTime.


(** ** decision.go *)

Record DecisionReply := mkDecisionReply {
  Reply_Kind : ReplyKind;
  Reply_Text : string;
  Reply_ContentType : string
}.
#[export] Instance eta_DecisionReply : Settable DecisionReply :=
  fields! mkDecisionReply < Reply_Kind ; Reply_Text ; Reply_ContentType >.
Definition zeroDecisionReply : DecisionReply :=
  mkDecisionReply EmptyString EmptyString EmptyString.

Record ClarificationRequest := mkClarificationRequest {
  Ask_Question : string;
  Ask_RequiredFields : list string
}.
#[export] Instance eta_ClarificationRequest : Settable ClarificationRequest :=
  fields! mkClarificationRequest < Ask_Question ; Ask_RequiredFields >.
Definition zeroClarificationRequest : ClarificationRequest :=
  mkClarificationRequest EmptyString [].

Record DecisionError := mkDecisionError {
  DecErr_Code : ErrorCode;
  DecErr_Message : string
}.
#[export] Instance eta_DecisionError : Settable DecisionError :=
  fields! mkDecisionError < DecErr_Code ; DecErr_Message >.
Definition zeroDecisionError : DecisionError :=
  mkDecisionError EmptyString EmptyString.

Record Decision := mkDecision {
  Decision_DecisionID : string;
  Decision_Type : DecisionType;
  Decision_Reason : string;
  Decision_Confidence : float64;
  Decision_Reply : option DecisionReply;
  Decision_ToolCalls : list ToolCall;
  Decision_Ask : option ClarificationRequest;
  Decision_Error : option DecisionError
}.
#[export] Instance eta_Decision : Settable Decision :=
  fields! mkDecision < Decision_DecisionID ; Decision_Type ; Decision_Reason ; Decision_Confidence ; Decision_Reply ; Decision_ToolCalls ; Decision_Ask ; Decision_Error >.
Definition zeroDecision : Decision :=
  mkDecision EmptyString EmptyString EmptyString float64_zero None [] None None.


(** ** artifact_memory.go *)

Record Artifact := mkArtifact {
  Artifact_ArtifactID : string;
  Artifact_TenantID : string;
  Artifact_Type : string;
  Artifact_Name : string;
  Artifact_StorageURI : string;
  Artifact_MimeType : string;
  Artifact_SizeBytes : Z;
  Artifact_Hash : string;
  Artifact_CreatedBy : string;
  Artifact_CreatedAt : Time
}.
#[export] Instance eta_Artifact : Settable Artifact :=
  fields! mkArtifact < Artifact_ArtifactID ; Artifact_TenantID ; Artifact_Type ; Artifact_Name ; Artifact_StorageURI ; Artifact_MimeType ; Artifact_SizeBytes ; Artifact_Hash ; Artifact_CreatedBy ; Artifact_CreatedAt >.
Definition zeroArtifact : Artifact :=
  mkArtifact EmptyString EmptyString EmptyString EmptyString EmptyString EmptyString 0%Z EmptyString EmptyString zeroTime.

Record MemoryEvent := mkMemoryEvent {
  MemEv_MemoryID : string;
  MemEv_TenantID : string;
  MemEv_AgentID : string;
  MemEv_UserID : string;
  MemEv_Scope : string;
  MemEv_Content : string;
  MemEv_Summary : string;
  MemEv_SourceEventID : string;
  MemEv_Visibility : string;
  MemEv_Confidence : float64;
  MemEv_CreatedAt : Time
}.
#[export] Instance eta_MemoryEvent : Settable MemoryEvent :=
  fields! mkMemoryEvent < MemEv_MemoryID ; MemEv_TenantID ; MemEv_AgentID ; MemEv_UserID ; MemEv_Scope ; MemEv_Content ; MemEv_Summary ; MemEv_SourceEventID ; MemEv_Visibility ; MemEv_Confidence ; MemEv_CreatedAt >.
Definition zeroMemoryEvent : MemoryEvent :=
  mkMemoryEvent EmptyString EmptyString EmptyString EmptyString EmptyString EmptyString EmptyString EmptyString EmptyString float64_zero zeroTime.

Record MemorySummary := mkMemorySummary {
  MemSum_MemoryID : string;
  MemSum_Summary : string;
  MemSum_Scope : string
}.
#[export] Instance eta_MemorySummary : Settable MemorySummary :=
  fields! mkMemorySummary < MemSum_MemoryID ; MemSum_Summary ; MemSum_Scope >.
Definition zeroMemorySummary : MemorySummary :=
  mkMemorySummary EmptyString EmptyString EmptyString.


(** ** handoff.go *)

Record ExpectedOutput := mkExpectedOutput {
  Expected_Format : string;
  Expected_Requirements : list string
}.
#[export] Instance eta_ExpectedOutput : Settable ExpectedOutput :=
  fields! mkExpectedOutput < Expected_Format ; Expected_Requirements >.
Definition zeroExpectedOutput : ExpectedOutput :=
  mkExpectedOutput EmptyString [].

Record AgentHandoff := mkAgentHandoff {
  Handoff_HandoffID : string;
  Handoff_TenantID : string;
  Handoff_ParentTaskID : string;
  Handoff_ChildTaskID : option string;
  Handoff_FromAgentID : string;
  Handoff_ToAgentID : string;
  Handoff_Objective : string;
  Handoff_Reason : string;
  Handoff_ContextPackageRef : string;
  Handoff_ArtifactRefs : list ArtifactRef;
  Handoff_ExpectedOutput : ExpectedOutput;
  Handoff_Status : HandoffStatus;
  Handoff_CreatedAt : Time;
  Handoff_CompletedAt : option Time
}.
#[export] Instance eta_AgentHandoff : Settable AgentHandoff :=
  fields! mkAgentHandoff < Handoff_HandoffID ; Handoff_TenantID ; Handoff_ParentTaskID ; Handoff_ChildTaskID ; Handoff_FromAgentID ; Handoff_ToAgentID ; Handoff_Objective ; Handoff_Reason ; Handoff_ContextPackageRef ; Handoff_ArtifactRefs ; Handoff_ExpectedOutput ; Handoff_Status ; Handoff_CreatedAt ; Handoff_CompletedAt >.
Definition zeroAgentHandoff : AgentHandoff :=
  mkAgentHandoff EmptyString EmptyString EmptyString None EmptyString EmptyString EmptyString EmptyString EmptyString [] zeroExpectedOutput EmptyString zeroTime None.

Record HandoffContextPackage := mkHandoffContextPackage {
  Package_PackageID : string;
  Package_TenantID : string;
  Package_ParentTaskID : string;
  Package_SourceRunID : string;
  Package_FromAgentID : string;
  Package_ToAgentID : string;
  Package_Objective : string;
  Package_Reason : string;
  Package_Summary : string;
  Package_KeyFacts : list string;
  Package_Constraints : list string;
  Package_OpenQuestions : list string;
  Package_ArtifactRefs : list ArtifactRef;
  Package_ToolResultRefs : list string;
  Package_MemoryRefs : list string;
  Package_TaskEventRefs : list string;
  Package_AllowedContextScopes : list string;
  Package_DeniedContextScopes : list string;
  Package_ExpectedOutput : ExpectedOutput;
  Package_Mode : HandoffMode;
  Package_Hash : string;
  Package_CreatedAt : Time
}.
#[export] Instance eta_HandoffContextPackage : Settable HandoffContextPackage :=
  fields! mkHandoffContextPackage < Package_PackageID ; Package_TenantID ; Package_ParentTaskID ; Package_SourceRunID ; Package_FromAgentID ; Package_ToAgentID ; Package_Objective ; Package_Reason ; Package_Summary ; Package_KeyFacts ; Package_Constraints ; Package_OpenQuestions ; Package_ArtifactRefs ; Package_ToolResultRefs ; Package_MemoryRefs ; Package_TaskEventRefs ; Package_AllowedContextScopes ; Package_DeniedContextScopes ; Package_ExpectedOutput ; Package_Mode ; Package_Hash ; Package_CreatedAt >.
Definition zeroHandoffContextPackage : HandoffContextPackage :=
  mkHandoffContextPackage EmptyString EmptyString EmptyString EmptyString EmptyString EmptyString EmptyString EmptyString EmptyString [] [] [] [] [] [] [] [] [] zeroExpectedOutput EmptyString EmptyString zeroTime.


(** ** agent.go and context_strategy.go *)

Record PromptStrategy := mkPromptStrategy {
  PromptS_SystemPrompt : string;
  PromptS_DeveloperPrompt : string;
  PromptS_IdentityPrompt : string
}.
#[export] Instance eta_PromptStrategy : Settable PromptStrategy :=
  fields! mkPromptStrategy < PromptS_SystemPrompt ; PromptS_DeveloperPrompt ; PromptS_IdentityPrompt >.
Definition zeroPromptStrategy : PromptStrategy :=
  mkPromptStrategy EmptyString EmptyString EmptyString.

Record ModelStrategy := mkModelStrategy {
  ModelS_Provider : string;
  ModelS_Model : string;
  ModelS_MaxOutputTokens : Z;
  ModelS_Temperature : option float64;
  ModelS_Thinking : string;
  ModelS_ReasoningEffort : string;
  ModelS_TimeoutMS : Z;
  ModelS_Streaming : option bool
}.
#[export] Instance eta_ModelStrategy : Settable ModelStrategy :=
  fields! mkModelStrategy < ModelS_Provider ; ModelS_Model ; ModelS_MaxOutputTokens ; ModelS_Temperature ; ModelS_Thinking ; ModelS_ReasoningEffort ; ModelS_TimeoutMS ; ModelS_Streaming >.
Definition zeroModelStrategy : ModelStrategy :=
  mkModelStrategy EmptyString EmptyString 0%Z None EmptyString EmptyString 0%Z None.

Record CompressionPromptProfile := mkCompressionPromptProfile {
  Profile_ProfileID : string;
  Profile_Version : string;
  Profile_Name : string;
  Profile_SystemPrompt : string;
  Profile_DeveloperPrompt : string;
  Profile_OutputSchema : gmap string Any;
  Profile_Preserve : list string;
  Profile_Forbid : list string
}.
#[export] Instance eta_CompressionPromptProfile : Settable CompressionPromptProfile :=
  fields! mkCompressionPromptProfile < Profile_ProfileID ; Profile_Version ; Profile_Name ; Profile_SystemPrompt ; Profile_DeveloperPrompt ; Profile_OutputSchema ; Profile_Preserve ; Profile_Forbid >.
Definition zeroCompressionPromptProfile : CompressionPromptProfile :=
  mkCompressionPromptProfile EmptyString EmptyString EmptyString EmptyString EmptyString ∅ [] [].

Record ContextCompressionStrategy := mkContextCompressionStrategy {
  Compr_Enabled : bool;
  Compr_TriggerRatio : Z;
  Compr_TargetTokens : Z;
  Compr_Mode : string;
  Compr_FailureMode : string;
  Compr_ModelProvider : string;
  Compr_ModelBaseURL : string;
  Compr_ModelName : string;
  Compr_MaxTokens : Z;
  Compr_Temperature : option float64;
  Compr_PromptProfileID : string;
  Compr_InlinePrompt : option CompressionPromptProfile;
  Compr_Preserve : list string;
  Compr_Forbid : list string;
  Compr_WriteSummaryToMemory : bool
}.
#[export] Instance eta_ContextCompressionStrategy : Settable ContextCompressionStrategy :=
  fields! mkContextCompressionStrategy < Compr_Enabled ; Compr_TriggerRatio ; Compr_TargetTokens ; Compr_Mode ; Compr_FailureMode ; Compr_ModelProvider ; Compr_ModelBaseURL ; Compr_ModelName ; Compr_MaxTokens ; Compr_Temperature ; Compr_PromptProfileID ; Compr_InlinePrompt ; Compr_Preserve ; Compr_Forbid ; Compr_WriteSummaryToMemory >.
Definition zeroContextCompressionStrategy : ContextCompressionStrategy :=
  mkContextCompressionStrategy false 0%Z 0%Z EmptyString EmptyString EmptyString EmptyString EmptyString 0%Z None EmptyString None [] [] false.

Record ContextStrategy := mkContextStrategy {
  CtxS_Mode : string;
  CtxS_RecentMessageLimit : option Z;
  CtxS_RetrievalMaxResults : option Z;
  CtxS_TaskHistoryMaxItems : option Z;
  CtxS_MemoryMaxItems : option Z;
  CtxS_ArtifactRefMaxItems : option Z;
  CtxS_ToolResultMaxItems : option Z;
  CtxS_ContextTokenBudget : option Z;
  CtxS_EnabledSources : list string;
  CtxS_SourceBudgets : gmap string Z;
  CtxS_Compression : ContextCompressionStrategy
}.
#[export] Instance eta_ContextStrategy : Settable ContextStrategy :=
  fields! mkContextStrategy < CtxS_Mode ; CtxS_RecentMessageLimit ; CtxS_RetrievalMaxResults ; CtxS_TaskHistoryMaxItems ; CtxS_MemoryMaxItems ; CtxS_ArtifactRefMaxItems ; CtxS_ToolResultMaxItems ; CtxS_ContextTokenBudget ; CtxS_EnabledSources ; CtxS_SourceBudgets ; CtxS_Compression >.
Definition zeroContextStrategy : ContextStrategy :=
  mkContextStrategy EmptyString None None None None None None None [] ∅ zeroContextCompressionStrategy.

Record ToolUseStrategy := mkToolUseStrategy {
  ToolS_AllowedToolIDs : list string;
  ToolS_AllowedToolGroupIDs : list string;
  ToolS_DeniedToolIDs : list string;
  ToolS_DeniedToolGroupIDs : list string;
  ToolS_PreferredToolIDs : list string;
  ToolS_ToolChoiceMode : string;
  ToolS_MaxToolCalls : option Z;
  ToolS_RequireApprovalAtRiskLevel : RiskLevel
}.
#[export] Instance eta_ToolUseStrategy : Settable ToolUseStrategy :=
  fields! mkToolUseStrategy < ToolS_AllowedToolIDs ; ToolS_AllowedToolGroupIDs ; ToolS_DeniedToolIDs ; ToolS_DeniedToolGroupIDs ; ToolS_PreferredToolIDs ; ToolS_ToolChoiceMode ; ToolS_MaxToolCalls ; ToolS_RequireApprovalAtRiskLevel >.
Definition zeroToolUseStrategy : ToolUseStrategy :=
  mkToolUseStrategy [] [] [] [] [] EmptyString None EmptyString.

Record SkillUseStrategy := mkSkillUseStrategy {
  SkillS_EnabledSkillIDs : list string;
  SkillS_DisabledSkillIDs : list string;
  SkillS_SelectionMode : string;
  SkillS_MaxSelectedSkills : Z
}.
#[export] Instance eta_SkillUseStrategy : Settable SkillUseStrategy :=
  fields! mkSkillUseStrategy < SkillS_EnabledSkillIDs ; SkillS_DisabledSkillIDs ; SkillS_SelectionMode ; SkillS_MaxSelectedSkills >.
Definition zeroSkillUseStrategy : SkillUseStrategy :=
  mkSkillUseStrategy [] [] EmptyString 0%Z.

Record CollaborationStrategy := mkCollaborationStrategy {
  CollabS_DelegationMode : string;
  CollabS_MaxHandoffDepth : option Z;
  CollabS_MaxChildTasks : option Z;
  CollabS_DefaultHandoffMode : HandoffMode;
  CollabS_MaxContextTokens : option Z
}.
#[export] Instance eta_CollaborationStrategy : Settable CollaborationStrategy :=
  fields! mkCollaborationStrategy < CollabS_DelegationMode ; CollabS_MaxHandoffDepth ; CollabS_MaxChildTasks ; CollabS_DefaultHandoffMode ; CollabS_MaxContextTokens >.
Definition zeroCollaborationStrategy : CollaborationStrategy :=
  mkCollaborationStrategy EmptyString None None EmptyString None.

Record MemoryUseStrategy := mkMemoryUseStrategy {
  MemS_ReadEnabled : option bool;
  MemS_WriteEnabled : option bool;
  MemS_ReadScopes : list string;
  MemS_WriteScopes : list string;
  MemS_MaxMemoryItems : option Z;
  MemS_AutoWriteMode : string;
  MemS_WritePromptProfileID : string
}.
#[export] Instance eta_MemoryUseStrategy : Settable MemoryUseStrategy :=
  fields! mkMemoryUseStrategy < MemS_ReadEnabled ; MemS_WriteEnabled ; MemS_ReadScopes ; MemS_WriteScopes ; MemS_MaxMemoryItems ; MemS_AutoWriteMode ; MemS_WritePromptProfileID >.
Definition zeroMemoryUseStrategy : MemoryUseStrategy :=
  mkMemoryUseStrategy None None [] [] None EmptyString EmptyString.

Record KnowledgeUseStrategy := mkKnowledgeUseStrategy {
  KnowS_Enabled : option bool;
  KnowS_KnowledgeBaseIDs : list string;
  KnowS_SearchMode : string;
  KnowS_MaxResults : Z;
  KnowS_AllowCrossGroup : bool;
  KnowS_InjectMode : string
}.
#[export] Instance eta_KnowledgeUseStrategy : Settable KnowledgeUseStrategy :=
  fields! mkKnowledgeUseStrategy < KnowS_Enabled ; KnowS_KnowledgeBaseIDs ; KnowS_SearchMode ; KnowS_MaxResults ; KnowS_AllowCrossGroup ; KnowS_InjectMode >.
Definition zeroKnowledgeUseStrategy : KnowledgeUseStrategy :=
  mkKnowledgeUseStrategy None [] EmptyString 0%Z false EmptyString.

Record RuntimeStrategy := mkRuntimeStrategy {
  RunS_MaxSteps : option Z;
  RunS_MaxDurationSeconds : option Z;
  RunS_MaxModelRetries : option Z;
  RunS_MaxConsecutiveToolFailures : option Z;
  RunS_ExecutionMode : string
}.
#[export] Instance eta_RuntimeStrategy : Settable RuntimeStrategy :=
  fields! mkRuntimeStrategy < RunS_MaxSteps ; RunS_MaxDurationSeconds ; RunS_MaxModelRetries ; RunS_MaxConsecutiveToolFailures ; RunS_ExecutionMode >.
Definition zeroRuntimeStrategy : RuntimeStrategy :=
  mkRuntimeStrategy None None None None EmptyString.

Record RepairStrategy := mkRepairStrategy {
  RepS_Enabled : option bool;
  RepS_MaxRepairAttempts : option Z;
  RepS_RepairableErrorCodes : list string;
  RepS_RequestModelRepairOnFail : option bool;
  RepS_StopOnDenied : option bool;
  RepS_FailureMode : string
}.
#[export] Instance eta_RepairStrategy : Settable RepairStrategy :=
  fields! mkRepairStrategy < RepS_Enabled ; RepS_MaxRepairAttempts ; RepS_RepairableErrorCodes ; RepS_RequestModelRepairOnFail ; RepS_StopOnDenied ; RepS_FailureMode >.
Definition zeroRepairStrategy : RepairStrategy :=
  mkRepairStrategy None None [] None None EmptyString.

Record OutputStrategy := mkOutputStrategy {
  OutS_OutputMode : string;
  OutS_OutputSchema : gmap string Any;
  OutS_StrictJSON : bool
}.
#[export] Instance eta_OutputStrategy : Settable OutputStrategy :=
  fields! mkOutputStrategy < OutS_OutputMode ; OutS_OutputSchema ; OutS_StrictJSON >.
Definition zeroOutputStrategy : OutputStrategy :=
  mkOutputStrategy EmptyString ∅ false.

Record AgentStrategies := mkAgentStrategies {
  Strat_Prompt : PromptStrategy;
  Strat_Model : ModelStrategy;
  Strat_Context : ContextStrategy;
  Strat_Tools : ToolUseStrategy;
  Strat_Skills : SkillUseStrategy;
  Strat_Collaboration : CollaborationStrategy;
  Strat_Memory : MemoryUseStrategy;
  Strat_Knowledge : KnowledgeUseStrategy;
  Strat_Runtime : RuntimeStrategy;
  Strat_Repair : RepairStrategy;
  Strat_Output : OutputStrategy
}.
#[export] Instance eta_AgentStrategies : Settable AgentStrategies :=
  fields! mkAgentStrategies < Strat_Prompt ; Strat_Model ; Strat_Context ; Strat_Tools ; Strat_Skills ; Strat_Collaboration ; Strat_Memory ; Strat_Knowledge ; Strat_Runtime ; Strat_Repair ; Strat_Output >.
Definition zeroAgentStrategies : AgentStrategies :=
  mkAgentStrategies zeroPromptStrategy zeroModelStrategy zeroContextStrategy zeroToolUseStrategy zeroSkillUseStrategy zeroCollaborationStrategy zeroMemoryUseStrategy zeroKnowledgeUseStrategy zeroRuntimeStrategy zeroRepairStrategy zeroOutputStrategy.

Record AgentToolsConfig := mkAgentToolsConfig {
  ToolsCfg_AllowedToolIDs : list string;
  ToolsCfg_AllowedToolGroupIDs : list string;
  ToolsCfg_ExposedToolIDs : list string;
  ToolsCfg_DeniedToolIDs : list string;
  ToolsCfg_DeniedToolGroupIDs : list string
}.
#[export] Instance eta_AgentToolsConfig : Settable AgentToolsConfig :=
  fields! mkAgentToolsConfig < ToolsCfg_AllowedToolIDs ; ToolsCfg_AllowedToolGroupIDs ; ToolsCfg_ExposedToolIDs ; ToolsCfg_DeniedToolIDs ; ToolsCfg_DeniedToolGroupIDs >.
Definition zeroAgentToolsConfig : AgentToolsConfig :=
  mkAgentToolsConfig [] [] [] [] [].

Record AgentCollaboratorRef := mkAgentCollaboratorRef {
  Collab_AgentID : string;
  Collab_Version : string;
  Collab_Alias : string;
  Collab_Name : string;
  Collab_Description : string;
  Collab_WhenToUse : list string;
  Collab_Capabilities : list string;
  Collab_AllowedHandoffModes : list HandoffMode;
  Collab_DefaultHandoffMode : HandoffMode;
  Collab_MaxContextTokens : Z;
  Collab_RequiresApproval : bool;
  Collab_Status : string
}.
#[export] Instance eta_AgentCollaboratorRef : Settable AgentCollaboratorRef :=
  fields! mkAgentCollaboratorRef < Collab_AgentID ; Collab_Version ; Collab_Alias ; Collab_Name ; Collab_Description ; Collab_WhenToUse ; Collab_Capabilities ; Collab_AllowedHandoffModes ; Collab_DefaultHandoffMode ; Collab_MaxContextTokens ; Collab_RequiresApproval ; Collab_Status >.
Definition zeroAgentCollaboratorRef : AgentCollaboratorRef :=
  mkAgentCollaboratorRef EmptyString EmptyString EmptyString EmptyString EmptyString [] [] [] EmptyString 0%Z false EmptyString.

Record AgentExportedTool := mkAgentExportedTool {
  Exported_ToolID : string;
  Exported_GroupID : string;
  Exported_Operation : string;
  Exported_Name : string;
  Exported_Description : string;
  Exported_WhenToUse : list string;
  Exported_InputSchema : option (gmap string Any);
  Exported_OutputSchema : gmap string Any;
  Exported_RiskLevel : RiskLevel;
  Exported_Visibility : ToolVisibility;
  Exported_Status : string;
  Exported_Version : string
}.
#[export] Instance eta_AgentExportedTool : Settable AgentExportedTool :=
  fields! mkAgentExportedTool < Exported_ToolID ; Exported_GroupID ; Exported_Operation ; Exported_Name ; Exported_Description ; Exported_WhenToUse ; Exported_InputSchema ; Exported_OutputSchema ; Exported_RiskLevel ; Exported_Visibility ; Exported_Status ; Exported_Version >.
Definition zeroAgentExportedTool : AgentExportedTool :=
  mkAgentExportedTool EmptyString EmptyString EmptyString EmptyString EmptyString [] None ∅ EmptyString EmptyString EmptyString EmptyString.

Record AgentExports := mkAgentExports {
  Exports_Tools : list AgentExportedTool
}.
#[export] Instance eta_AgentExports : Settable AgentExports :=
  fields! mkAgentExports < Exports_Tools >.
Definition zeroAgentExports : AgentExports :=
  mkAgentExports [].

Record RuntimeHookApprovalPolicy := mkRuntimeHookApprovalPolicy {
  HookAppr_RequireApproval : bool;
  HookAppr_ProviderTypes : list string;
  HookAppr_Phases : list string;
  HookAppr_FailurePolicies : list string
}.
#[export] Instance eta_RuntimeHookApprovalPolicy : Settable RuntimeHookApprovalPolicy :=
  fields! mkRuntimeHookApprovalPolicy < HookAppr_RequireApproval ; HookAppr_ProviderTypes ; HookAppr_Phases ; HookAppr_FailurePolicies >.
Definition zeroRuntimeHookApprovalPolicy : RuntimeHookApprovalPolicy :=
  mkRuntimeHookApprovalPolicy false [] [] [].

Record AgentRuntimeHookBinding := mkAgentRuntimeHookBinding {
  HookBind_HookID : string;
  HookBind_ProviderType : string;
  HookBind_ProviderID : string;
  HookBind_Phase : string;
  HookBind_Version : string;
  HookBind_Enabled : bool;
  HookBind_TimeoutMS : Z;
  HookBind_FailurePolicy : string;
  HookBind_RequiresApproval : bool;
  HookBind_ApprovalPolicy : RuntimeHookApprovalPolicy;
  HookBind_Config : gmap string Any
}.
#[export] Instance eta_AgentRuntimeHookBinding : Settable AgentRuntimeHookBinding :=
  fields! mkAgentRuntimeHookBinding < HookBind_HookID ; HookBind_ProviderType ; HookBind_ProviderID ; HookBind_Phase ; HookBind_Version ; HookBind_Enabled ; HookBind_TimeoutMS ; HookBind_FailurePolicy ; HookBind_RequiresApproval ; HookBind_ApprovalPolicy ; HookBind_Config >.
Definition zeroAgentRuntimeHookBinding : AgentRuntimeHookBinding :=
  mkAgentRuntimeHookBinding EmptyString EmptyString EmptyString EmptyString EmptyString false 0%Z EmptyString false zeroRuntimeHookApprovalPolicy ∅.

Record AgentRuntimeHooks := mkAgentRuntimeHooks {
  Hooks_Mode : string;
  Hooks_Hooks : list AgentRuntimeHookBinding
}.
#[export] Instance eta_AgentRuntimeHooks : Settable AgentRuntimeHooks :=
  fields! mkAgentRuntimeHooks < Hooks_Mode ; Hooks_Hooks >.
Definition zeroAgentRuntimeHooks : AgentRuntimeHooks :=
  mkAgentRuntimeHooks EmptyString [].

Record AgentPolicyRefs := mkAgentPolicyRefs {
  PolicyRefs_PolicySetID : string
}.
#[export] Instance eta_AgentPolicyRefs : Settable AgentPolicyRefs :=
  fields! mkAgentPolicyRefs < PolicyRefs_PolicySetID >.
Definition zeroAgentPolicyRefs : AgentPolicyRefs :=
  mkAgentPolicyRefs EmptyString.

Record RuntimeLimits := mkRuntimeLimits {
  Limits_MaxSteps : Z;
  Limits_MaxToolCalls : Z;
  Limits_MaxDuration : Z;
  Limits_MaxPromptTokens : Z;
  Limits_MaxHandoffDepth : Z;
  Limits_MaxChildTasks : Z;
  Limits_MaxRepairAttempts : Z;
  Limits_MaxModelRetries : Z;
  Limits_MaxConsecutiveToolFailures : Z
}.
#[export] Instance eta_RuntimeLimits : Settable RuntimeLimits :=
  fields! mkRuntimeLimits < Limits_MaxSteps ; Limits_MaxToolCalls ; Limits_MaxDuration ; Limits_MaxPromptTokens ; Limits_MaxHandoffDepth ; Limits_MaxChildTasks ; Limits_MaxRepairAttempts ; Limits_MaxModelRetries ; Limits_MaxConsecutiveToolFailures >.
Definition zeroRuntimeLimits : RuntimeLimits :=
  mkRuntimeLimits 0%Z 0%Z 0%Z 0%Z 0%Z 0%Z 0%Z 0%Z 0%Z.

Record SkillDefinitionRef := mkSkillDefinitionRef {
  SkillRef_SkillID : string;
  SkillRef_Version : string
}.
#[export] Instance eta_SkillDefinitionRef : Settable SkillDefinitionRef :=
  fields! mkSkillDefinitionRef < SkillRef_SkillID ; SkillRef_Version >.
Definition zeroSkillDefinitionRef : SkillDefinitionRef :=
  mkSkillDefinitionRef EmptyString EmptyString.

Record SkillCard := mkSkillCard {
  SkillCard_SkillID : string;
  SkillCard_Version : string;
  SkillCard_Name : string;
  SkillCard_Description : string;
  SkillCard_Tags : list string;
  SkillCard_Status : string;
  SkillCard_WhenToUse : list string;
  SkillCard_WhenNotToUse : list string;
  SkillCard_RiskLevel : RiskLevel;
  SkillCard_ResourceRefs : list string
}.
#[export] Instance eta_SkillCard : Settable SkillCard :=
  fields! mkSkillCard < SkillCard_SkillID ; SkillCard_Version ; SkillCard_Name ; SkillCard_Description ; SkillCard_Tags ; SkillCard_Status ; SkillCard_WhenToUse ; SkillCard_WhenNotToUse ; SkillCard_RiskLevel ; SkillCard_ResourceRefs >.
Definition zeroSkillCard : SkillCard :=
  mkSkillCard EmptyString EmptyString EmptyString EmptyString [] EmptyString [] [] EmptyString [].

Record SkillInstruction := mkSkillInstruction {
  SkillInstr_SkillID : string;
  SkillInstr_Content : string;
  SkillInstr_OutputRequirements : list string;
  SkillInstr_Constraints : list string
}.
#[export] Instance eta_SkillInstruction : Settable SkillInstruction :=
  fields! mkSkillInstruction < SkillInstr_SkillID ; SkillInstr_Content ; SkillInstr_OutputRequirements ; SkillInstr_Constraints >.
Definition zeroSkillInstruction : SkillInstruction :=
  mkSkillInstruction EmptyString EmptyString [] [].

Record SkillResourceRef := mkSkillResourceRef {
  SkillRes_ResourceID : string;
  SkillRes_Type : string;
  SkillRes_URI : string;
  SkillRes_LoadPolicy : string
}.
#[export] Instance eta_SkillResourceRef : Settable SkillResourceRef :=
  fields! mkSkillResourceRef < SkillRes_ResourceID ; SkillRes_Type ; SkillRes_URI ; SkillRes_LoadPolicy >.
Definition zeroSkillResourceRef : SkillResourceRef :=
  mkSkillResourceRef EmptyString EmptyString EmptyString EmptyString.

Record SkillDefinition := mkSkillDefinition {
  Skill_Card : SkillCard;
  Skill_Instruction : SkillInstruction;
  Skill_Resources : list SkillResourceRef;
  Skill_RecommendedTools : list string;
  Skill_AllowedTools : list string;
  Skill_RecommendedMemoryReads : list string;
  Skill_RecommendedMemoryWrites : list string;
  Skill_RecommendedHandoffs : list string;
  Skill_CompletionCriteria : list string;
  Skill_OutputSchema : gmap string Any
}.
#[export] Instance eta_SkillDefinition : Settable SkillDefinition :=
  fields! mkSkillDefinition < Skill_Card ; Skill_Instruction ; Skill_Resources ; Skill_RecommendedTools ; Skill_AllowedTools ; Skill_RecommendedMemoryReads ; Skill_RecommendedMemoryWrites ; Skill_RecommendedHandoffs ; Skill_CompletionCriteria ; Skill_OutputSchema >.
Definition zeroSkillDefinition : SkillDefinition :=
  mkSkillDefinition zeroSkillCard zeroSkillInstruction [] [] [] [] [] [] [] ∅.

Record AgentDefinition := mkAgentDefinition {
  Agent_TenantID : string;
  Agent_AgentID : string;
  Agent_Version : string;
  Agent_PackageVersionID : string;
  Agent_SourceKind : AgentSourceKind;
  Agent_SourceProviderID : string;
  Agent_ManifestVersion : string;
  Agent_ManifestHash : string;
  Agent_CarrierKind : AgentCarrierKind;
  Agent_RuntimeContract : RuntimeContractKind;
  Agent_ConformanceStatus : RuntimeConformanceStatus;
  Agent_Name : string;
  Agent_Description : string;
  Agent_IdentityPrompt : string;
  Agent_SystemPrompt : string;
  Agent_DeveloperPrompt : string;
  Agent_Skills : list SkillDefinitionRef;
  Agent_Tools : AgentToolsConfig;
  Agent_Collaborators : list AgentCollaboratorRef;
  Agent_Exports : AgentExports;
  Agent_RuntimeHooks : AgentRuntimeHooks;
  Agent_SkillDefinitions : list SkillDefinition;
  Agent_PolicyRefs : AgentPolicyRefs;
  Agent_Strategies : AgentStrategies;
  Agent_Runtime : RuntimeLimits;
  Agent_ContractVersion : string;
  Agent_CreatedAt : Time
}.
#[export] Instance eta_AgentDefinition : Settable AgentDefinition :=
  fields! mkAgentDefinition < Agent_TenantID ; Agent_AgentID ; Agent_Version ; Agent_PackageVersionID ; Agent_SourceKind ; Agent_SourceProviderID ; Agent_ManifestVersion ; Agent_ManifestHash ; Agent_CarrierKind ; Agent_RuntimeContract ; Agent_ConformanceStatus ; Agent_Name ; Agent_Description ; Agent_IdentityPrompt ; Agent_SystemPrompt ; Agent_DeveloperPrompt ; Agent_Skills ; Agent_Tools ; Agent_Collaborators ; Agent_Exports ; Agent_RuntimeHooks ; Agent_SkillDefinitions ; Agent_PolicyRefs ; Agent_Strategies ; Agent_Runtime ; Agent_ContractVersion ; Agent_CreatedAt >.
Definition zeroAgentDefinition : AgentDefinition :=
  mkAgentDefinition EmptyString EmptyString EmptyString EmptyString EmptyString EmptyString EmptyString EmptyString EmptyString EmptyString EmptyString EmptyString EmptyString EmptyString EmptyString EmptyString [] zeroAgentToolsConfig [] zeroAgentExports zeroAgentRuntimeHooks [] zeroAgentPolicyRefs zeroAgentStrategies zeroRuntimeLimits EmptyString zeroTime.

Record AgentPackageVersion := mkAgentPackageVersion {
  Rel_PackageVersionID : string;
  Rel_TenantID : string;
  Rel_AgentID : string;
  Rel_Version : string;
  Rel_Status : ReleaseStatus;
  Rel_SourceHash : string;
  Rel_CompiledHash : string;
  Rel_StrategyHash : string;
  Rel_SourceKind : AgentSourceKind;
  Rel_SourceProviderID : string;
  Rel_ManifestVersion : string;
  Rel_ManifestHash : string;
  Rel_CarrierKind : AgentCarrierKind;
  Rel_RuntimeContract : RuntimeContractKind;
  Rel_ConformanceStatus : RuntimeConformanceStatus;
  Rel_CanaryPercent : Z;
  Rel_CanaryScope : list string;
  Rel_CreatedBy : string;
  Rel_CreatedAt : Time;
  Rel_PublishedAt : option Time
}.
#[export] Instance eta_AgentPackageVersion : Settable AgentPackageVersion :=
  fields! mkAgentPackageVersion < Rel_PackageVersionID ; Rel_TenantID ; Rel_AgentID ; Rel_Version ; Rel_Status ; Rel_SourceHash ; Rel_CompiledHash ; Rel_StrategyHash ; Rel_SourceKind ; Rel_SourceProviderID ; Rel_ManifestVersion ; Rel_ManifestHash ; Rel_CarrierKind ; Rel_RuntimeContract ; Rel_ConformanceStatus ; Rel_CanaryPercent ; Rel_CanaryScope ; Rel_CreatedBy ; Rel_CreatedAt ; Rel_PublishedAt >.
Definition zeroAgentPackageVersion : AgentPackageVersion :=
  mkAgentPackageVersion EmptyString EmptyString EmptyString EmptyString EmptyString EmptyString EmptyString EmptyString EmptyString EmptyString EmptyString EmptyString EmptyString EmptyString EmptyString 0%Z [] EmptyString zeroTime None.

Record CanaryHit := mkCanaryHit {
  Hit_HitID : string;
  Hit_TenantID : string;
  Hit_AgentID : string;
  Hit_RequestedVersion : string;
  Hit_ResolvedVersion : string;
  Hit_PackageVersionID : string;
  Hit_RunID : string;
  Hit_TraceID : string;
  Hit_CallerID : string;
  Hit_CanaryPercent : Z;
  Hit_Reason : string;
  Hit_CreatedAt : Time
}.
#[export] Instance eta_CanaryHit : Settable CanaryHit :=
  fields! mkCanaryHit < Hit_HitID ; Hit_TenantID ; Hit_AgentID ; Hit_RequestedVersion ; Hit_ResolvedVersion ; Hit_PackageVersionID ; Hit_RunID ; Hit_TraceID ; Hit_CallerID ; Hit_CanaryPercent ; Hit_Reason ; Hit_CreatedAt >.
Definition zeroCanaryHit : CanaryHit :=
  mkCanaryHit EmptyString EmptyString EmptyString EmptyString EmptyString EmptyString EmptyString EmptyString EmptyString 0%Z EmptyString zeroTime.


(** ** governance.go: processes *)

Definition GovernanceReviewMode := string.
Definition GovernanceReviewNone : GovernanceReviewMode := "none".
Definition GovernanceReviewSingle : GovernanceReviewMode := "single".
Definition GovernanceReviewMulti : GovernanceReviewMode := "multi".

Definition GovernanceConsensusPolicy := string.
Definition GovernanceConsensusAny : GovernanceConsensusPolicy := "any".
Definition GovernanceConsensusMajority : GovernanceConsensusPolicy := "majority".
Definition GovernanceConsensusAll : GovernanceConsensusPolicy := "all".

Definition GovernanceEscalationPolicy := string.
Definition GovernanceEscalationNone : GovernanceEscalationPolicy := "none".
Definition GovernanceEscalationOrchestrator : GovernanceEscalationPolicy := "orchestrator".

Definition GovernanceRunStatus := string.
Definition GovernanceRunActive : GovernanceRunStatus := "active".
Definition GovernanceRunCompleted : GovernanceRunStatus := "completed".
Definition GovernanceRunBlocked : GovernanceRunStatus := "blocked".
Definition GovernanceRunCancelled : GovernanceRunStatus := "cancelled".

Definition GovernanceGateStatus := string.
Definition GovernanceGatePending : GovernanceGateStatus := "pending".
Definition GovernanceGateOpen : GovernanceGateStatus := "open".
Definition GovernanceGatePassed : GovernanceGateStatus := "passed".
Definition GovernanceGateRejected : GovernanceGateStatus := "rejected".
Definition GovernanceGateEscalationPending : GovernanceGateStatus := "escalation_pending".
Definition GovernanceGateArbitrated : GovernanceGateStatus := "arbitrated".
Definition GovernanceGateSkipped : GovernanceGateStatus := "skipped".

Definition GovernanceReviewDecision := string.
Definition GovernanceReviewApprove : GovernanceReviewDecision := "approve".
Definition GovernanceReviewReject : GovernanceReviewDecision := "reject".
Definition GovernanceReviewRevise : GovernanceReviewDecision := "revise".
Definition GovernanceReviewAbstain : GovernanceReviewDecision := "abstain".

Record GovernanceArtifactRef := mkGovernanceArtifactRef {
  GovArtifact_ArtifactID : string;
  GovArtifact_Type : string;
  GovArtifact_URI : string;
  GovArtifact_Summary : string;
  GovArtifact_Hash : string
}.
#[export] Instance eta_GovernanceArtifactRef : Settable GovernanceArtifactRef :=
  fields! mkGovernanceArtifactRef < GovArtifact_ArtifactID ; GovArtifact_Type ; GovArtifact_URI ; GovArtifact_Summary ; GovArtifact_Hash >.
Definition zeroGovernanceArtifactRef : GovernanceArtifactRef :=
  mkGovernanceArtifactRef EmptyString EmptyString EmptyString EmptyString EmptyString.

Record GovernanceEvidenceRef := mkGovernanceEvidenceRef {
  Evidence_EvidenceID : string;
  Evidence_Type : string;
  Evidence_TraceID : string;
  Evidence_AuditID : string;
  Evidence_ArtifactID : string;
  Evidence_TaskID : string;
  Evidence_RunID : string;
  Evidence_URI : string;
  Evidence_Summary : string;
  Evidence_SubmittedBy : string;
  Evidence_SubmittedAt : option Time;
  Evidence_Metadata : gmap string Any
}.
#[export] Instance eta_GovernanceEvidenceRef : Settable GovernanceEvidenceRef :=
  fields! mkGovernanceEvidenceRef < Evidence_EvidenceID ; Evidence_Type ; Evidence_TraceID ; Evidence_AuditID ; Evidence_ArtifactID ; Evidence_TaskID ; Evidence_RunID ; Evidence_URI ; Evidence_Summary ; Evidence_SubmittedBy ; Evidence_SubmittedAt ; Evidence_Metadata >.
Definition zeroGovernanceEvidenceRef : GovernanceEvidenceRef :=
  mkGovernanceEvidenceRef EmptyString EmptyString EmptyString EmptyString EmptyString EmptyString EmptyString EmptyString EmptyString EmptyString None ∅.

Record GovernanceActorRef := mkGovernanceActorRef {
  GovActor_ActorID : string;
  GovActor_ActorType : string;
  GovActor_Role : string
}.
#[export] Instance eta_GovernanceActorRef : Settable GovernanceActorRef :=
  fields! mkGovernanceActorRef < GovActor_ActorID ; GovActor_ActorType ; GovActor_Role >.
Definition zeroGovernanceActorRef : GovernanceActorRef :=
  mkGovernanceActorRef EmptyString EmptyString EmptyString.

(** The [Metadata] maps of gate definitions, templates and gates are shared and
    updated in place: they are references into a heap of maps, [None] for nil. *)
Definition MapRef := option nat.

Record GovernanceGateDefinition := mkGovernanceGateDefinition {
  GateDef_GateID : string;
  GateDef_Name : string;
  GateDef_SubjectType : string;
  GateDef_ReviewMode : GovernanceReviewMode;
  GateDef_ConsensusPolicy : GovernanceConsensusPolicy;
  GateDef_EscalationPolicy : GovernanceEscalationPolicy;
  GateDef_RequiredReviewers : Z;
  GateDef_MinApprovals : Z;
  GateDef_ReviewerRoles : list string;
  GateDef_EvidenceTypes : list string;
  GateDef_Metadata : MapRef
}.
#[export] Instance eta_GovernanceGateDefinition : Settable GovernanceGateDefinition :=
  fields! mkGovernanceGateDefinition < GateDef_GateID ; GateDef_Name ; GateDef_SubjectType ; GateDef_ReviewMode ; GateDef_ConsensusPolicy ; GateDef_EscalationPolicy ; GateDef_RequiredReviewers ; GateDef_MinApprovals ; GateDef_ReviewerRoles ; GateDef_EvidenceTypes ; GateDef_Metadata >.
Definition zeroGovernanceGateDefinition : GovernanceGateDefinition :=
  mkGovernanceGateDefinition EmptyString EmptyString EmptyString EmptyString EmptyString EmptyString 0%Z 0%Z [] [] None.

Record GovernanceProcessTemplate := mkGovernanceProcessTemplate {
  Template_TemplateID : string;
  Template_TenantID : string;
  Template_Name : string;
  Template_Version : string;
  Template_Status : string;
  Template_Gates : list GovernanceGateDefinition;
  Template_Metadata : gmap string Any;
  Template_CreatedBy : string;
  Template_CreatedAt : Time;
  Template_UpdatedAt : Time
}.
#[export] Instance eta_GovernanceProcessTemplate : Settable GovernanceProcessTemplate :=
  fields! mkGovernanceProcessTemplate < Template_TemplateID ; Template_TenantID ; Template_Name ; Template_Version ; Template_Status ; Template_Gates ; Template_Metadata ; Template_CreatedBy ; Template_CreatedAt ; Template_UpdatedAt >.
Definition zeroGovernanceProcessTemplate : GovernanceProcessTemplate :=
  mkGovernanceProcessTemplate EmptyString EmptyString EmptyString EmptyString EmptyString [] ∅ EmptyString zeroTime zeroTime.

Record GovernanceProcessRun := mkGovernanceProcessRun {
  PRun_RunID : string;
  PRun_TenantID : string;
  PRun_TemplateID : string;
  PRun_Status : GovernanceRunStatus;
  PRun_SubjectType : string;
  PRun_SubjectID : string;
  PRun_TaskID : string;
  PRun_AgentRunID : string;
  PRun_TraceID : string;
  PRun_PolicySetID : string;
  PRun_Actors : list GovernanceActorRef;
  PRun_Metadata : gmap string Any;
  PRun_CreatedBy : string;
  PRun_CreatedAt : Time;
  PRun_UpdatedAt : Time;
  PRun_CompletedAt : option Time
}.
#[export] Instance eta_GovernanceProcessRun : Settable GovernanceProcessRun :=
  fields! mkGovernanceProcessRun < PRun_RunID ; PRun_TenantID ; PRun_TemplateID ; PRun_Status ; PRun_SubjectType ; PRun_SubjectID ; PRun_TaskID ; PRun_AgentRunID ; PRun_TraceID ; PRun_PolicySetID ; PRun_Actors ; PRun_Metadata ; PRun_CreatedBy ; PRun_CreatedAt ; PRun_UpdatedAt ; PRun_CompletedAt >.
Definition zeroGovernanceProcessRun : GovernanceProcessRun :=
  mkGovernanceProcessRun EmptyString EmptyString EmptyString EmptyString EmptyString EmptyString EmptyString EmptyString EmptyString EmptyString [] ∅ EmptyString zeroTime zeroTime None.

Record GovernanceGateRun := mkGovernanceGateRun {
  Gate_GateRunID : string;
  Gate_ProcessRunID : string;
  Gate_TenantID : string;
  Gate_GateID : string;
  Gate_Name : string;
  Gate_Status : GovernanceGateStatus;
  Gate_SubjectType : string;
  Gate_SubjectID : string;
  Gate_ReviewMode : GovernanceReviewMode;
  Gate_ConsensusPolicy : GovernanceConsensusPolicy;
  Gate_EscalationPolicy : GovernanceEscalationPolicy;
  Gate_RequiredReviewers : Z;
  Gate_MinApprovals : Z;
  Gate_ReviewerRoles : list string;
  Gate_EvidenceTypes : list string;
  Gate_ArtifactRefs : list GovernanceArtifactRef;
  Gate_EvidenceRefs : list GovernanceEvidenceRef;
  Gate_OpenedAt : option Time;
  Gate_ResolvedAt : option Time;
  Gate_ResolvedBy : string;
  Gate_ResolutionDecision : GovernanceReviewDecision;
  Gate_ResolutionReason : string;
  Gate_Metadata : MapRef;
  Gate_CreatedAt : Time;
  Gate_UpdatedAt : Time
}.
#[export] Instance eta_GovernanceGateRun : Settable GovernanceGateRun :=
  fields! mkGovernanceGateRun < Gate_GateRunID ; Gate_ProcessRunID ; Gate_TenantID ; Gate_GateID ; Gate_Name ; Gate_Status ; Gate_SubjectType ; Gate_SubjectID ; Gate_ReviewMode ; Gate_ConsensusPolicy ; Gate_EscalationPolicy ; Gate_RequiredReviewers ; Gate_MinApprovals ; Gate_ReviewerRoles ; Gate_EvidenceTypes ; Gate_ArtifactRefs ; Gate_EvidenceRefs ; Gate_OpenedAt ; Gate_ResolvedAt ; Gate_ResolvedBy ; Gate_ResolutionDecision ; Gate_ResolutionReason ; Gate_Metadata ; Gate_CreatedAt ; Gate_UpdatedAt >.
Definition zeroGovernanceGateRun : GovernanceGateRun :=
  mkGovernanceGateRun EmptyString EmptyString EmptyString EmptyString EmptyString EmptyString EmptyString EmptyString EmptyString EmptyString EmptyString 0%Z 0%Z [] [] [] [] None None EmptyString EmptyString EmptyString None zeroTime zeroTime.

Record GovernanceReview := mkGovernanceReview {
  Review_ReviewID : string;
  Review_GateRunID : string;
  Review_ProcessRunID : string;
  Review_TenantID : string;
  Review_ReviewerID : string;
  Review_ReviewerType : string;
  Review_Decision : GovernanceReviewDecision;
  Review_Reason : string;
  Review_EvidenceRefs : list GovernanceEvidenceRef;
  Review_Independent : bool;
  Review_CreatedAt : Time
}.
#[export] Instance eta_GovernanceReview : Settable GovernanceReview :=
  fields! mkGovernanceReview < Review_ReviewID ; Review_GateRunID ; Review_ProcessRunID ; Review_TenantID ; Review_ReviewerID ; Review_ReviewerType ; Review_Decision ; Review_Reason ; Review_EvidenceRefs ; Review_Independent ; Review_CreatedAt >.
Definition zeroGovernanceReview : GovernanceReview :=
  mkGovernanceReview EmptyString EmptyString EmptyString EmptyString EmptyString EmptyString EmptyString EmptyString [] false zeroTime.

Record GovernanceConflict := mkGovernanceConflict {
  Conflict_ConflictID : string;
  Conflict_GateRunID : string;
  Conflict_ProcessRunID : string;
  Conflict_TenantID : string;
  Conflict_Status : string;
  Conflict_Issue : string;
  Conflict_Arguments : list GovernanceEvidenceRef;
  Conflict_EscalatedTo : string;
  Conflict_ArbitrationDecision : GovernanceReviewDecision;
  Conflict_ResolutionReason : string;
  Conflict_CreatedBy : string;
  Conflict_CreatedAt : Time;
  Conflict_ResolvedAt : option Time
}.
#[export] Instance eta_GovernanceConflict : Settable GovernanceConflict :=
  fields! mkGovernanceConflict < Conflict_ConflictID ; Conflict_GateRunID ; Conflict_ProcessRunID ; Conflict_TenantID ; Conflict_Status ; Conflict_Issue ; Conflict_Arguments ; Conflict_EscalatedTo ; Conflict_ArbitrationDecision ; Conflict_ResolutionReason ; Conflict_CreatedBy ; Conflict_CreatedAt ; Conflict_ResolvedAt >.
Definition zeroGovernanceConflict : GovernanceConflict :=
  mkGovernanceConflict EmptyString EmptyString EmptyString EmptyString EmptyString EmptyString [] EmptyString EmptyString EmptyString EmptyString zeroTime None.

Record GovernanceProcessSnapshot := mkGovernanceProcessSnapshot {
  PSnap_ProcessRun : GovernanceProcessRun;
  PSnap_Gates : list GovernanceGateRun;
  PSnap_Reviews : list GovernanceReview;
  PSnap_Conflicts : list GovernanceConflict
}.
#[export] Instance eta_GovernanceProcessSnapshot : Settable GovernanceProcessSnapshot :=
  fields! mkGovernanceProcessSnapshot < PSnap_ProcessRun ; PSnap_Gates ; PSnap_Reviews ; PSnap_Conflicts >.
Definition zeroGovernanceProcessSnapshot : GovernanceProcessSnapshot :=
  mkGovernanceProcessSnapshot zeroGovernanceProcessRun [] [] [].


(** ** group_extensions.go *)

Definition MemberTypeHuman : string := "human".
Definition MemberStatusActive : string := "active".
Definition PermissionSubjectUser : string := "user".
Definition PermissionSubjectRole : string := "role".
Definition PermissionSubjectAgent : string := "agent".
Definition PermissionDecisionAllowed : string := "allowed".
Definition PermissionDecisionDenied : string := "denied".
Definition PermissionDecisionApprovalRequired : string := "approval_required".
Definition PermissionActionSkillProposeUpdate : string := "agent.skill.propose_update".
Definition PermissionActionCrossGroupSearch : string := "cross_group.search".
Definition SkillUpdateDraft : string := "draft".
Definition SkillUpdateWaitingApproval : string := "waiting_approval".
Definition MemoryScopeGroup : string := "group".
Definition MemoryScopeShared : string := "shared".
Definition VisibilityPrivate : string := "private".
Definition VisibilityGroup : string := "group".
Definition VisibilitySharedGroups : string := "shared_groups".
Definition VisibilityShared : string := "shared".
Definition VisibilityTenant : string := "tenant".
Definition CrossGroupShareEnabled : string := "enabled".
Definition RedactionPolicySummaryOnly : string := "summary_only".

(** Knowledge bases and their documents. *)

Definition PermissionActionKnowledgeCreate : string := "knowledge.create".
Definition PermissionActionKnowledgeSearch : string := "knowledge.search".
Definition KnowledgeIndexBM25 : string := "bm25".
Definition KnowledgeIndexEmbedding : string := "embedding".
Definition KnowledgeIndexHybrid : string := "hybrid".
Definition KnowledgeSearchBM25 : string := "bm25".
Definition KnowledgeSearchEmbedding : string := "embedding".
Definition KnowledgeSearchHybrid : string := "hybrid".
Definition KnowledgeBaseStatusReady : string := "ready".
Definition KnowledgeBaseStatusDisabled : string := "disabled".
Definition KnowledgeDocumentIndexReady : string := "ready".
Definition KnowledgeIngestionCompleted : string := "completed".
Definition CrossGroupShareDisabled : string := "disabled".
Definition RedactionPolicyMaskEmails : string := "mask_emails".
Definition RedactionPolicyMaskNumbers : string := "mask_numbers".
Definition RedactionPolicyStrict : string := "strict".

Record KnowledgeBase := mkKnowledgeBase {
  KB_KnowledgeBaseID : string;
  KB_TenantID : string;
  KB_Name : string;
  KB_OwnerGroupID : string;
  KB_Visibility : string;
  KB_SourceType : string;
  KB_IndexType : string;
  KB_SearchMode : string;
  KB_Status : string;
  KB_CreatedBy : string;
  KB_DocumentCount : Z;
  KB_LastIndexedAt : option Time;
  KB_CreatedAt : Time;
  KB_UpdatedAt : Time
}.
#[export] Instance eta_KnowledgeBase : Settable KnowledgeBase :=
  fields! mkKnowledgeBase < KB_KnowledgeBaseID ; KB_TenantID ; KB_Name ; KB_OwnerGroupID ; KB_Visibility ; KB_SourceType ; KB_IndexType ; KB_SearchMode ; KB_Status ; KB_CreatedBy ; KB_DocumentCount ; KB_LastIndexedAt ; KB_CreatedAt ; KB_UpdatedAt >.
Definition zeroKnowledgeBase : KnowledgeBase :=
  mkKnowledgeBase EmptyString EmptyString EmptyString EmptyString EmptyString EmptyString EmptyString EmptyString EmptyString EmptyString 0%Z None zeroTime zeroTime.

Record KnowledgeDocument := mkKnowledgeDocument {
  KDoc_DocumentID : string;
  KDoc_KnowledgeBaseID : string;
  KDoc_TenantID : string;
  KDoc_SourceGroupID : string;
  KDoc_Title : string;
  KDoc_Content : string;
  KDoc_SourceURI : string;
  KDoc_Visibility : string;
  KDoc_IndexStatus : string;
  KDoc_IndexedAt : option Time;
  KDoc_Metadata : gmap string Any;
  KDoc_CreatedAt : Time
}.
#[export] Instance eta_KnowledgeDocument : Settable KnowledgeDocument :=
  fields! mkKnowledgeDocument < KDoc_DocumentID ; KDoc_KnowledgeBaseID ; KDoc_TenantID ; KDoc_SourceGroupID ; KDoc_Title ; KDoc_Content ; KDoc_SourceURI ; KDoc_Visibility ; KDoc_IndexStatus ; KDoc_IndexedAt ; KDoc_Metadata ; KDoc_CreatedAt >.
Definition zeroKnowledgeDocument : KnowledgeDocument :=
  mkKnowledgeDocument EmptyString EmptyString EmptyString EmptyString EmptyString EmptyString EmptyString EmptyString EmptyString None ∅ zeroTime.

Record KnowledgeSearchResult := mkKnowledgeSearchResult {
  KRes_DocumentID : string;
  KRes_KnowledgeBaseID : string;
  KRes_SourceGroupID : string;
  KRes_Title : string;
  KRes_Snippet : string;
  KRes_Score : float64;
  KRes_SourceURI : string;
  KRes_Visibility : string;
  KRes_SearchMode : string;
  KRes_Redacted : bool;
  KRes_RedactionPolicy : string
}.
#[export] Instance eta_KnowledgeSearchResult : Settable KnowledgeSearchResult :=
  fields! mkKnowledgeSearchResult < KRes_DocumentID ; KRes_KnowledgeBaseID ; KRes_SourceGroupID ; KRes_Title ; KRes_Snippet ; KRes_Score ; KRes_SourceURI ; KRes_Visibility ; KRes_SearchMode ; KRes_Redacted ; KRes_RedactionPolicy >.
Definition zeroKnowledgeSearchResult : KnowledgeSearchResult :=
  mkKnowledgeSearchResult EmptyString EmptyString EmptyString EmptyString EmptyString float64_zero EmptyString EmptyString EmptyString false EmptyString.

Record KnowledgeIngestionJob := mkKnowledgeIngestionJob {
  KJob_JobID : string;
  KJob_TenantID : string;
  KJob_KnowledgeBaseID : string;
  KJob_DocumentID : string;
  KJob_SourceGroupID : string;
  KJob_Status : string;
  KJob_IndexType : string;
  KJob_SearchMode : string;
  KJob_Error : string;
  KJob_CreatedBy : string;
  KJob_CreatedAt : Time;
  KJob_UpdatedAt : Time;
  KJob_CompletedAt : option Time
}.
#[export] Instance eta_KnowledgeIngestionJob : Settable KnowledgeIngestionJob :=
  fields! mkKnowledgeIngestionJob < KJob_JobID ; KJob_TenantID ; KJob_KnowledgeBaseID ; KJob_DocumentID ; KJob_SourceGroupID ; KJob_Status ; KJob_IndexType ; KJob_SearchMode ; KJob_Error ; KJob_CreatedBy ; KJob_CreatedAt ; KJob_UpdatedAt ; KJob_CompletedAt >.
Definition zeroKnowledgeIngestionJob : KnowledgeIngestionJob :=
  mkKnowledgeIngestionJob EmptyString EmptyString EmptyString EmptyString EmptyString EmptyString EmptyString EmptyString EmptyString EmptyString zeroTime zeroTime None.

Record CrossGroupSharePolicy := mkCrossGroupSharePolicy {
  Share_PolicyID : string;
  Share_TenantID : string;
  Share_SourceGroupID : string;
  Share_TargetGroupID : string;
  Share_KnowledgeBaseIDs : list string;
  Share_RedactionPolicy : string;
  Share_RequiresApproval : bool;
  Share_Status : string;
  Share_Reason : string;
  Share_CreatedBy : string;
  Share_ApprovedBy : string;
  Share_ApprovalID : string;
  Share_CreatedAt : Time;
  Share_UpdatedAt : Time
}.
#[export] Instance eta_CrossGroupSharePolicy : Settable CrossGroupSharePolicy :=
  fields! mkCrossGroupSharePolicy < Share_PolicyID ; Share_TenantID ; Share_SourceGroupID ; Share_TargetGroupID ; Share_KnowledgeBaseIDs ; Share_RedactionPolicy ; Share_RequiresApproval ; Share_Status ; Share_Reason ; Share_CreatedBy ; Share_ApprovedBy ; Share_ApprovalID ; Share_CreatedAt ; Share_UpdatedAt >.
Definition zeroCrossGroupSharePolicy : CrossGroupSharePolicy :=
  mkCrossGroupSharePolicy EmptyString EmptyString EmptyString EmptyString [] EmptyString false EmptyString EmptyString EmptyString EmptyString EmptyString zeroTime zeroTime.

Record GroupMemberProfile := mkGroupMemberProfile {
  Member_TenantID : string;
  Member_GroupID : string;
  Member_MemberID : string;
  Member_ExternalUserID : string;
  Member_DisplayName : string;
  Member_Aliases : list string;
  Member_MemberType : string;
  Member_Roles : list string;
  Member_PermissionRefs : list string;
  Member_Status : string;
  Member_LastSeenAt : Time;
  Member_Metadata : gmap string Any
}.
#[export] Instance eta_GroupMemberProfile : Settable GroupMemberProfile :=
  fields! mkGroupMemberProfile < Member_TenantID ; Member_GroupID ; Member_MemberID ; Member_ExternalUserID ; Member_DisplayName ; Member_Aliases ; Member_MemberType ; Member_Roles ; Member_PermissionRefs ; Member_Status ; Member_LastSeenAt ; Member_Metadata >.
Definition zeroGroupMemberProfile : GroupMemberProfile :=
  mkGroupMemberProfile EmptyString EmptyString EmptyString EmptyString EmptyString [] EmptyString [] [] EmptyString zeroTime ∅.

Record GroupPermissionPolicy := mkGroupPermissionPolicy {
  Perm_TenantID : string;
  Perm_GroupID : string;
  Perm_SubjectID : string;
  Perm_SubjectType : string;
  Perm_Actions : list string;
  Perm_ResourceScopes : list string;
  Perm_RequiresApproval : bool;
  Perm_Reason : string;
  Perm_CreatedAt : Time;
  Perm_UpdatedAt : Time
}.
#[export] Instance eta_GroupPermissionPolicy : Settable GroupPermissionPolicy :=
  fields! mkGroupPermissionPolicy < Perm_TenantID ; Perm_GroupID ; Perm_SubjectID ; Perm_SubjectType ; Perm_Actions ; Perm_ResourceScopes ; Perm_RequiresApproval ; Perm_Reason ; Perm_CreatedAt ; Perm_UpdatedAt >.
Definition zeroGroupPermissionPolicy : GroupPermissionPolicy :=
  mkGroupPermissionPolicy EmptyString EmptyString EmptyString EmptyString [] [] false EmptyString zeroTime zeroTime.

Record PermissionCheckInput := mkPermissionCheckInput {
  Check_TenantID : string;
  Check_GroupID : string;
  Check_ActorID : string;
  Check_ActorType : string;
  Check_Member : option GroupMemberProfile;
  Check_Roles : list string;
  Check_Action : string;
  Check_ResourceType : string;
  Check_ResourceID : string;
  Check_ResourceScope : string;
  Check_TraceID : string;
  Check_TaskID : string;
  Check_RunID : string;
  Check_Metadata : gmap string Any
}.
#[export] Instance eta_PermissionCheckInput : Settable PermissionCheckInput :=
  fields! mkPermissionCheckInput < Check_TenantID ; Check_GroupID ; Check_ActorID ; Check_ActorType ; Check_Member ; Check_Roles ; Check_Action ; Check_ResourceType ; Check_ResourceID ; Check_ResourceScope ; Check_TraceID ; Check_TaskID ; Check_RunID ; Check_Metadata >.
Definition zeroPermissionCheckInput : PermissionCheckInput :=
  mkPermissionCheckInput EmptyString EmptyString EmptyString EmptyString None [] EmptyString EmptyString EmptyString EmptyString EmptyString EmptyString EmptyString ∅.

Record PermissionDecision := mkPermissionDecision {
  PermD_Decision : string;
  PermD_Reason : string;
  PermD_ReasonCode : string;
  PermD_RequiresApproval : bool;
  PermD_AppliedPolicyIDs : list string;
  PermD_CheckedAt : Time
}.
#[export] Instance eta_PermissionDecision : Settable PermissionDecision :=
  fields! mkPermissionDecision < PermD_Decision ; PermD_Reason ; PermD_ReasonCode ; PermD_RequiresApproval ; PermD_AppliedPolicyIDs ; PermD_CheckedAt >.
Definition zeroPermissionDecision : PermissionDecision :=
  mkPermissionDecision EmptyString EmptyString EmptyString false [] zeroTime.

Record MemoryScope := mkMemoryScope {
  Scope_TenantID : string;
  Scope_MemoryID : string;
  Scope_ScopeType : string;
  Scope_ScopeID : string;
  Scope_Visibility : string;
  Scope_OwnerGroupID : string;
  Scope_SharedWithGroupIDs : list string;
  Scope_ReadRoles : list string;
  Scope_WriteRoles : list string;
  Scope_CreatedAt : Time;
  Scope_UpdatedAt : Time
}.
#[export] Instance eta_MemoryScope : Settable MemoryScope :=
  fields! mkMemoryScope < Scope_TenantID ; Scope_MemoryID ; Scope_ScopeType ; Scope_ScopeID ; Scope_Visibility ; Scope_OwnerGroupID ; Scope_SharedWithGroupIDs ; Scope_ReadRoles ; Scope_WriteRoles ; Scope_CreatedAt ; Scope_UpdatedAt >.
Definition zeroMemoryScope : MemoryScope :=
  mkMemoryScope EmptyString EmptyString EmptyString EmptyString EmptyString EmptyString [] [] [] zeroTime zeroTime.

Record SkillUpdateRequest := mkSkillUpdateRequest {
  SkillReq_RequestID : string;
  SkillReq_TenantID : string;
  SkillReq_AgentID : string;
  SkillReq_GroupID : string;
  SkillReq_RequestedBy : string;
  SkillReq_Objective : string;
  SkillReq_TargetSkillID : string;
  SkillReq_ProposedPatch : gmap string Any;
  SkillReq_Status : string;
  SkillReq_ApprovalTaskID : string;
  SkillReq_Reason : string;
  SkillReq_CreatedAt : Time;
  SkillReq_UpdatedAt : Time
}.
#[export] Instance eta_SkillUpdateRequest : Settable SkillUpdateRequest :=
  fields! mkSkillUpdateRequest < SkillReq_RequestID ; SkillReq_TenantID ; SkillReq_AgentID ; SkillReq_GroupID ; SkillReq_RequestedBy ; SkillReq_Objective ; SkillReq_TargetSkillID ; SkillReq_ProposedPatch ; SkillReq_Status ; SkillReq_ApprovalTaskID ; SkillReq_Reason ; SkillReq_CreatedAt ; SkillReq_UpdatedAt >.
Definition zeroSkillUpdateRequest : SkillUpdateRequest :=
  mkSkillUpdateRequest EmptyString EmptyString EmptyString EmptyString EmptyString EmptyString EmptyString ∅ EmptyString EmptyString EmptyString zeroTime zeroTime.


(** ** envelope.go, view_prompt.go *)

Definition Permission := string.

Record AgentTarget := mkAgentTarget {
  Target_AgentID : string;
  Target_Version : string
}.
#[export] Instance eta_AgentTarget : Settable AgentTarget :=
  fields! mkAgentTarget < Target_AgentID ; Target_Version >.
Definition zeroAgentTarget : AgentTarget :=
  mkAgentTarget EmptyString EmptyString.

Record AgentCaller := mkAgentCaller {
  Caller_CallerID : string;
  Caller_CallerType : string;
  Caller_DisplayName : string;
  Caller_TenantID : string
}.
#[export] Instance eta_AgentCaller : Settable AgentCaller :=
  fields! mkAgentCaller < Caller_CallerID ; Caller_CallerType ; Caller_DisplayName ; Caller_TenantID >.
Definition zeroAgentCaller : AgentCaller :=
  mkAgentCaller EmptyString EmptyString EmptyString EmptyString.

Record RuntimeMessage := mkRuntimeMessage {
  Msg_MessageID : string;
  Msg_ExternalMessageID : string;
  Msg_SpeakerID : string;
  Msg_SpeakerType : string;
  Msg_SpeakerName : string;
  Msg_ReplyToMessageID : string;
  Msg_ThreadID : string;
  Msg_Mentions : list string;
  Msg_Text : string;
  Msg_CreatedAt : Time;
  Msg_Metadata : gmap string Any
}.
#[export] Instance eta_RuntimeMessage : Settable RuntimeMessage :=
  fields! mkRuntimeMessage < Msg_MessageID ; Msg_ExternalMessageID ; Msg_SpeakerID ; Msg_SpeakerType ; Msg_SpeakerName ; Msg_ReplyToMessageID ; Msg_ThreadID ; Msg_Mentions ; Msg_Text ; Msg_CreatedAt ; Msg_Metadata >.
Definition zeroRuntimeMessage : RuntimeMessage :=
  mkRuntimeMessage EmptyString EmptyString EmptyString EmptyString EmptyString EmptyString EmptyString [] EmptyString zeroTime ∅.

Record ConversationMessage := mkConversationMessage {
  CMsg_MessageID : string;
  CMsg_ExternalMessageID : string;
  CMsg_SpeakerID : string;
  CMsg_SpeakerType : string;
  CMsg_SpeakerName : string;
  CMsg_Text : string;
  CMsg_CreatedAt : Time;
  CMsg_ReplyToMessageID : string;
  CMsg_ThreadID : string;
  CMsg_Mentions : list string;
  CMsg_Metadata : gmap string Any
}.
#[export] Instance eta_ConversationMessage : Settable ConversationMessage :=
  fields! mkConversationMessage < CMsg_MessageID ; CMsg_ExternalMessageID ; CMsg_SpeakerID ; CMsg_SpeakerType ; CMsg_SpeakerName ; CMsg_Text ; CMsg_CreatedAt ; CMsg_ReplyToMessageID ; CMsg_ThreadID ; CMsg_Mentions ; CMsg_Metadata >.
Definition zeroConversationMessage : ConversationMessage :=
  mkConversationMessage EmptyString EmptyString EmptyString EmptyString EmptyString EmptyString zeroTime EmptyString EmptyString [] ∅.

Record ConversationParticipant := mkConversationParticipant {
  Participant_ID : string;
  Participant_Type : string;
  Participant_Name : string;
  Participant_Role : string
}.
#[export] Instance eta_ConversationParticipant : Settable ConversationParticipant :=
  fields! mkConversationParticipant < Participant_ID ; Participant_Type ; Participant_Name ; Participant_Role >.
Definition zeroConversationParticipant : ConversationParticipant :=
  mkConversationParticipant EmptyString EmptyString EmptyString EmptyString.

Record RuntimeConversation := mkRuntimeConversation {
  Conv_Provider : string;
  Conv_Kind : string;
  Conv_ConversationID : string;
  Conv_ThreadID : string;
  Conv_ExternalRefs : gmap string string;
  Conv_CurrentMessage : option RuntimeMessage;
  Conv_RecentMessages : list ConversationMessage;
  Conv_Participants : list ConversationParticipant
}.
#[export] Instance eta_RuntimeConversation : Settable RuntimeConversation :=
  fields! mkRuntimeConversation < Conv_Provider ; Conv_Kind ; Conv_ConversationID ; Conv_ThreadID ; Conv_ExternalRefs ; Conv_CurrentMessage ; Conv_RecentMessages ; Conv_Participants >.
Definition zeroRuntimeConversation : RuntimeConversation :=
  mkRuntimeConversation EmptyString EmptyString EmptyString EmptyString ∅ None [] [].

Record ExternalTaskRef := mkExternalTaskRef {
  ERef_Provider : string;
  ERef_ExternalTaskID : string
}.
#[export] Instance eta_ExternalTaskRef : Settable ExternalTaskRef :=
  fields! mkExternalTaskRef < ERef_Provider ; ERef_ExternalTaskID >.
Definition zeroExternalTaskRef : ExternalTaskRef :=
  mkExternalTaskRef EmptyString EmptyString.

Record RuntimeContext := mkRuntimeContext {
  Ctx_TenantID : string;
  Ctx_UserID : string;
  Ctx_TaskID : string;
  Ctx_Permissions : list Permission;
  Ctx_Conversation : option RuntimeConversation;
  Ctx_ExternalTask : option ExternalTaskRef;
  Ctx_RequestID : string;
  Ctx_Locale : string;
  Ctx_Timezone : string
}.
#[export] Instance eta_RuntimeContext : Settable RuntimeContext :=
  fields! mkRuntimeContext < Ctx_TenantID ; Ctx_UserID ; Ctx_TaskID ; Ctx_Permissions ; Ctx_Conversation ; Ctx_ExternalTask ; Ctx_RequestID ; Ctx_Locale ; Ctx_Timezone >.
Definition zeroRuntimeContext : RuntimeContext :=
  mkRuntimeContext EmptyString EmptyString EmptyString [] None None EmptyString EmptyString EmptyString.

Record AgentEnvelope := mkAgentEnvelope {
  Env_EnvelopeID : string;
  Env_TraceID : string;
  Env_Target : AgentTarget;
  Env_Caller : AgentCaller;
  Env_Command : string;
  Env_Payload : gmap string Any;
  Env_Context : RuntimeContext;
  Env_CreatedAt : Time
}.
#[export] Instance eta_AgentEnvelope : Settable AgentEnvelope :=
  fields! mkAgentEnvelope < Env_EnvelopeID ; Env_TraceID ; Env_Target ; Env_Caller ; Env_Command ; Env_Payload ; Env_Context ; Env_CreatedAt >.
Definition zeroAgentEnvelope : AgentEnvelope :=
  mkAgentEnvelope EmptyString EmptyString zeroAgentTarget zeroAgentCaller EmptyString ∅ zeroRuntimeContext zeroTime.


(** ** view_prompt.go and context_strategy.go: candidates and prompts *)

Record CapabilityCard := mkCapabilityCard {
  Capability_ID : string;
  Capability_Type : string;
  Capability_Name : string;
  Capability_Description : string;
  Capability_Tags : list string
}.
#[export] Instance eta_CapabilityCard : Settable CapabilityCard :=
  fields! mkCapabilityCard < Capability_ID ; Capability_Type ; Capability_Name ; Capability_Description ; Capability_Tags >.
Definition zeroCapabilityCard : CapabilityCard :=
  mkCapabilityCard EmptyString EmptyString EmptyString EmptyString [].

Record CollaboratorCard := mkCollaboratorCard {
  Collaborator_AgentID : string;
  Collaborator_Version : string;
  Collaborator_Alias : string;
  Collaborator_Name : string;
  Collaborator_Description : string;
  Collaborator_WhenToUse : list string;
  Collaborator_Capabilities : list string
}.
#[export] Instance eta_CollaboratorCard : Settable CollaboratorCard :=
  fields! mkCollaboratorCard < Collaborator_AgentID ; Collaborator_Version ; Collaborator_Alias ; Collaborator_Name ; Collaborator_Description ; Collaborator_WhenToUse ; Collaborator_Capabilities >.
Definition zeroCollaboratorCard : CollaboratorCard :=
  mkCollaboratorCard EmptyString EmptyString EmptyString EmptyString EmptyString [] [].

Record ContextSourceReport := mkContextSourceReport {
  SrcRep_SourceType : string;
  SrcRep_SourceRef : string;
  SrcRep_ProviderID : string;
  SrcRep_HookID : string;
  SrcRep_ToolCallID : string;
  SrcRep_TrustLevel : string;
  SrcRep_CandidateCount : Z;
  SrcRep_SelectedCount : Z;
  SrcRep_DroppedCount : Z;
  SrcRep_Limit : Z;
  SrcRep_Reason : string
}.
#[export] Instance eta_ContextSourceReport : Settable ContextSourceReport :=
  fields! mkContextSourceReport < SrcRep_SourceType ; SrcRep_SourceRef ; SrcRep_ProviderID ; SrcRep_HookID ; SrcRep_ToolCallID ; SrcRep_TrustLevel ; SrcRep_CandidateCount ; SrcRep_SelectedCount ; SrcRep_DroppedCount ; SrcRep_Limit ; SrcRep_Reason >.
Definition zeroContextSourceReport : ContextSourceReport :=
  mkContextSourceReport EmptyString EmptyString EmptyString EmptyString EmptyString EmptyString 0%Z 0%Z 0%Z 0%Z EmptyString.

Record ContextCompressionReport := mkContextCompressionReport {
  ComprRep_Applied : bool;
  ComprRep_Mode : string;
  ComprRep_ModelProvider : string;
  ComprRep_ModelName : string;
  ComprRep_PromptProfileID : string;
  ComprRep_InputTokens : Z;
  ComprRep_OutputTokens : Z;
  ComprRep_SummaryHash : string;
  ComprRep_FailureReason : string;
  ComprRep_SourceRefs : list string
}.
#[export] Instance eta_ContextCompressionReport : Settable ContextCompressionReport :=
  fields! mkContextCompressionReport < ComprRep_Applied ; ComprRep_Mode ; ComprRep_ModelProvider ; ComprRep_ModelName ; ComprRep_PromptProfileID ; ComprRep_InputTokens ; ComprRep_OutputTokens ; ComprRep_SummaryHash ; ComprRep_FailureReason ; ComprRep_SourceRefs >.
Definition zeroContextCompressionReport : ContextCompressionReport :=
  mkContextCompressionReport false EmptyString EmptyString EmptyString EmptyString 0%Z 0%Z EmptyString EmptyString [].

Record ContextAssemblyReport := mkContextAssemblyReport {
  AsmRep_StrategyHash : string;
  AsmRep_Mode : string;
  AsmRep_Sources : list ContextSourceReport;
  AsmRep_TokenBudget : Z;
  AsmRep_EstimatedTokensIn : Z;
  AsmRep_EstimatedTokensOut : Z;
  AsmRep_Compression : option ContextCompressionReport
}.
#[export] Instance eta_ContextAssemblyReport : Settable ContextAssemblyReport :=
  fields! mkContextAssemblyReport < AsmRep_StrategyHash ; AsmRep_Mode ; AsmRep_Sources ; AsmRep_TokenBudget ; AsmRep_EstimatedTokensIn ; AsmRep_EstimatedTokensOut ; AsmRep_Compression >.
Definition zeroContextAssemblyReport : ContextAssemblyReport :=
  mkContextAssemblyReport EmptyString EmptyString [] 0%Z 0%Z 0%Z None.

Record PromptAssemblyStep := mkPromptAssemblyStep {
  AStep_StepID : string;
  AStep_Title : string;
  AStep_SourceType : string;
  AStep_SourceLabel : string;
  AStep_EditTarget : string;
  AStep_MessageRole : string;
  AStep_PromptSection : string;
  AStep_Reason : string;
  AStep_Content : string;
  AStep_ContentPreview : string;
  AStep_TokensEstimate : Z;
  AStep_Included : bool
}.
#[export] Instance eta_PromptAssemblyStep : Settable PromptAssemblyStep :=
  fields! mkPromptAssemblyStep < AStep_StepID ; AStep_Title ; AStep_SourceType ; AStep_SourceLabel ; AStep_EditTarget ; AStep_MessageRole ; AStep_PromptSection ; AStep_Reason ; AStep_Content ; AStep_ContentPreview ; AStep_TokensEstimate ; AStep_Included >.
Definition zeroPromptAssemblyStep : PromptAssemblyStep :=
  mkPromptAssemblyStep EmptyString EmptyString EmptyString EmptyString EmptyString EmptyString EmptyString EmptyString EmptyString EmptyString 0%Z false.

Record PromptBundle := mkPromptBundle {
  Bundle_BundleID : string;
  Bundle_RunID : string;
  Bundle_System : string;
  Bundle_Developer : string;
  Bundle_Task : string;
  Bundle_Context : string;
  Bundle_SkillInstructions : list string;
  Bundle_ToolCards : list ToolCard;
  Bundle_ToolDefinitions : list ToolDefinition;
  Bundle_OutputSchema : gmap string Any;
  Bundle_Constraints : list string;
  Bundle_ContextAssemblyReport : option ContextAssemblyReport;
  Bundle_AssemblySteps : list PromptAssemblyStep;
  Bundle_Hash : string;
  Bundle_CreatedAt : Time
}.
#[export] Instance eta_PromptBundle : Settable PromptBundle :=
  fields! mkPromptBundle < Bundle_BundleID ; Bundle_RunID ; Bundle_System ; Bundle_Developer ; Bundle_Task ; Bundle_Context ; Bundle_SkillInstructions ; Bundle_ToolCards ; Bundle_ToolDefinitions ; Bundle_OutputSchema ; Bundle_Constraints ; Bundle_ContextAssemblyReport ; Bundle_AssemblySteps ; Bundle_Hash ; Bundle_CreatedAt >.
Definition zeroPromptBundle : PromptBundle :=
  mkPromptBundle EmptyString EmptyString EmptyString EmptyString EmptyString EmptyString [] [] [] ∅ [] None [] EmptyString zeroTime.


(** ** external.go *)

Record ExternalTaskBinding := mkExternalTaskBinding {
  Binding_Provider : string;
  Binding_ExternalTaskID : string;
  Binding_CoreTaskID : string;
  Binding_TenantID : string;
  Binding_SyncMode : string;
  Binding_Status : string;
  Binding_LastError : string;
  Binding_CreatedAt : Time;
  Binding_UpdatedAt : Time
}.
#[export] Instance eta_ExternalTaskBinding : Settable ExternalTaskBinding :=
  fields! mkExternalTaskBinding < Binding_Provider ; Binding_ExternalTaskID ; Binding_CoreTaskID ; Binding_TenantID ; Binding_SyncMode ; Binding_Status ; Binding_LastError ; Binding_CreatedAt ; Binding_UpdatedAt >.
Definition zeroExternalTaskBinding : ExternalTaskBinding :=
  mkExternalTaskBinding EmptyString EmptyString EmptyString EmptyString EmptyString EmptyString EmptyString zeroTime zeroTime.

Record ExternalDeliveryOutboxItem := mkExternalDeliveryOutboxItem {
  Item_OutboxID : string;
  Item_TenantID : string;
  Item_Provider : string;
  Item_ExternalTaskID : string;
  Item_CoreTaskID : string;
  Item_EventType : string;
  Item_Channel : string;
  Item_Payload : gmap string Any;
  Item_IdempotencyKey : string;
  Item_Status : string;
  Item_AttemptCount : Z;
  Item_LastError : string;
  Item_NextAttemptAt : Time;
  Item_CreatedAt : Time;
  Item_UpdatedAt : Time
}.
#[export] Instance eta_ExternalDeliveryOutboxItem : Settable ExternalDeliveryOutboxItem :=
  fields! mkExternalDeliveryOutboxItem < Item_OutboxID ; Item_TenantID ; Item_Provider ; Item_ExternalTaskID ; Item_CoreTaskID ; Item_EventType ; Item_Channel ; Item_Payload ; Item_IdempotencyKey ; Item_Status ; Item_AttemptCount ; Item_LastError ; Item_NextAttemptAt ; Item_CreatedAt ; Item_UpdatedAt >.
Definition zeroExternalDeliveryOutboxItem : ExternalDeliveryOutboxItem :=
  mkExternalDeliveryOutboxItem EmptyString EmptyString EmptyString EmptyString EmptyString EmptyString EmptyString ∅ EmptyString EmptyString 0%Z EmptyString zeroTime zeroTime zeroTime.

Record ExternalDeliveryReplayOptions := mkExternalDeliveryReplayOptions {
  Replay_TenantID : string;
  Replay_Statuses : list string;
  Replay_Limit : Z;
  Replay_MaxAttempts : Z
}.
#[export] Instance eta_ExternalDeliveryReplayOptions : Settable ExternalDeliveryReplayOptions :=
  fields! mkExternalDeliveryReplayOptions < Replay_TenantID ; Replay_Statuses ; Replay_Limit ; Replay_MaxAttempts >.
Definition zeroExternalDeliveryReplayOptions : ExternalDeliveryReplayOptions :=
  mkExternalDeliveryReplayOptions EmptyString [] 0%Z 0%Z.

Record SendExternalMessageRequest := mkSendExternalMessageRequest {
  SendMsg_Ref : ExternalTaskRef;
  SendMsg_Message : string;
  SendMsg_IdempotencyKey : string
}.
#[export] Instance eta_SendExternalMessageRequest : Settable SendExternalMessageRequest :=
  fields! mkSendExternalMessageRequest < SendMsg_Ref ; SendMsg_Message ; SendMsg_IdempotencyKey >.
Definition zeroSendExternalMessageRequest : SendExternalMessageRequest :=
  mkSendExternalMessageRequest zeroExternalTaskRef EmptyString EmptyString.

Record AttachArtifactRequest := mkAttachArtifactRequest {
  Attach_Ref : ExternalTaskRef;
  Attach_ArtifactRef : ArtifactRef;
  Attach_IdempotencyKey : string
}.
#[export] Instance eta_AttachArtifactRequest : Settable AttachArtifactRequest :=
  fields! mkAttachArtifactRequest < Attach_Ref ; Attach_ArtifactRef ; Attach_IdempotencyKey >.
Definition zeroAttachArtifactRequest : AttachArtifactRequest :=
  mkAttachArtifactRequest zeroExternalTaskRef zeroArtifactRef EmptyString.

Record CollaborationAccessRequest := mkCollaborationAccessRequest {
  Access_Ref : ExternalTaskRef;
  Access_TenantID : string;
  Access_CallerID : string;
  Access_Action : string
}.
#[export] Instance eta_CollaborationAccessRequest : Settable CollaborationAccessRequest :=
  fields! mkCollaborationAccessRequest < Access_Ref ; Access_TenantID ; Access_CallerID ; Access_Action >.
Definition zeroCollaborationAccessRequest : CollaborationAccessRequest :=
  mkCollaborationAccessRequest zeroExternalTaskRef EmptyString EmptyString EmptyString.

Record AccessDecision := mkAccessDecision {
  AccessD_Allowed : bool;
  AccessD_Reason : string
}.
#[export] Instance eta_AccessDecision : Settable AccessDecision :=
  fields! mkAccessDecision < AccessD_Allowed ; AccessD_Reason >.
Definition zeroAccessDecision : AccessDecision :=
  mkAccessDecision false EmptyString.
