(* ===== verification/GoMonad.v ===== *)
(** * The effects of the Go code

    An operation is a function [World → S → Res A * World * S]: it may read the
    clock, draw a random identifier, range over a map, write the audit and trace
    logs and update the state [S] of its component, and it ends with a value, an
    error or a panic.  As in Go, what was written before an error stays written. *)

From S2P Require Import Prelude Contracts.
From stdpp Require Import base list strings gmap fin_maps pretty.
Open Scope go_scope.
Open Scope string_scope.
Open Scope list_scope.

(** ** The environment: what the Go standard library supplies

    The [n]-th reading of the clock, the [n]-th draw of 16 random bytes in hex,
    and the order in which the [n]-th [range] over a map visits its entries. *)
Class Env := {
  env_clock : nat → Time;
  env_rand : nat → string;
  env_range : ∀ {V : Type}, nat → gmap string V → list (string * V);
  env_range_perm : ∀ {V : Type} n (m : gmap string V), env_range n m ≡ₚ map_to_list m
}.

Record World := mkWorld {
  w_reads : nat;
  w_draws : nat;
  w_ranges : nat;
  w_audit : option (list AuditEvent);   (* [None]: a nil [audit.Logger] *)
  w_trace : option (list TraceEvent)    (* [None]: a nil [trace.Recorder] *)
}.
#[export] Instance eta_World : Settable World :=
  fields! mkWorld < w_reads ; w_draws ; w_ranges ; w_audit ; w_trace >.

Inductive Res (A : Type) :=
| Ok (a : A)
| Err (e : error)
| Panic.
Arguments Ok {A} a.
Arguments Err {A} e.
Arguments Panic {A}.

Definition M (S A : Type) : Type := World → S → Res A * World * S.

Section monad.
Context {S : Type}.

Definition ret {A} (a : A) : M S A := λ w s, (Ok a, w, s).
Definition throw {A} (e : error) : M S A := λ w s, (Err e, w, s).
Definition panic {A} : M S A := λ w s, (Panic, w, s).
Definition bind {A B} (m : M S A) (f : A → M S B) : M S B := λ w s,
  match m w s with
  | (Ok a, w', s') => f a w' s'
  | (Err e, w', s') => (Err e, w', s')
  | (Panic, w', s') => (Panic, w', s')
  end.
Definition get : M S S := λ w s, (Ok s, w, s).
Definition put (s : S) : M S unit := λ w _, (Ok tt, w, s).

(** [_ = f(...)] drops the error of [f]. *)
Definition ignore (m : M S unit) : M S unit := λ w s,
  match m w s with
  | (Err _, w', s') => (Ok tt, w', s')
  | r => r
  end.

(** [v, err := f(...)], with [err] inspected by the caller. *)
Definition attempt {A} (m : M S A) : M S (A + error) := λ w s,
  match m w s with
  | (Ok a, w', s') => (Ok (inl a), w', s')
  | (Err e, w', s') => (Ok (inr e), w', s')
  | (Panic, w', s') => (Panic, w', s')
  end.
End monad.

Notation "'let!' x := m 'in' k" := (bind m (λ x, k))
  (at level 200, x binder, m at level 100, k at level 200, right associativity) : go_scope.
Notation "'do!' m 'in' k" := (bind m (λ _ : unit, k))
  (at level 200, m at level 100, k at level 200, right associativity) : go_scope.

(** An operation of a part [T] of the state, run on the whole [S]. *)
Definition zoom {S T A} (getT : S → T) (setT : T → S → S) (m : M T A) : M S A := λ w s,
  match m w (getT s) with (r, w', t) => (r, w', setT t s) end.

(** An operation of the environment, on any state. *)
Definition lift_env {S A} (f : World → A * World) : M S A := λ w s,
  match f w with (a, w') => (Ok a, w', s) end.

Section effects.
Context `{Env} {S : Type}.

(** [time.Now().UTC()] *)
Definition time_Now : M S Time := lift_env (λ w,
  (env_clock w.(w_reads), w <| w_reads := Datatypes.S w.(w_reads) |>)).

(** The services read the clock through a field set to [time.Now().UTC()]. *)
Definition now : M S Time := time_Now.

(** [pkg/idgen]: a prefix and 16 random bytes in hex. *)
Definition idgen_New (prefix : string) : M S string := lift_env (λ w,
  (prefix +:+ "_" +:+ env_rand w.(w_draws), w <| w_draws := Datatypes.S w.(w_draws) |>)).

(** [for k, v := range m] *)
Definition range_map {V} (m : gmap string V) : M S (list (string * V)) := lift_env (λ w,
  (env_range w.(w_ranges) m, w <| w_ranges := Datatypes.S w.(w_ranges) |>)).

(** [InMemoryLogger.Log] of internal/governance/audit *)
Definition audit_Log (event : AuditEvent) : M S unit :=
  let! event :=
    (if event.(Audit_AuditID) == ""
     then let! id := idgen_New "audit" in ret (event <| Audit_AuditID := id |>)
     else ret event) in
  let! event :=
    (if IsZero event.(Audit_CreatedAt)
     then let! t := time_Now in ret (event <| Audit_CreatedAt := UTC t |>)
     else ret event) in
  lift_env (λ w, (tt, w <| w_audit := option_map (λ l, l ++ [event]) w.(w_audit) |>)).

(** [InMemoryRecorder.Record] of internal/governance/trace *)
Definition trace_Record (event : TraceEvent) : M S unit :=
  lift_env (λ w, (tt, w <| w_trace := option_map (λ l, l ++ [event]) w.(w_trace) |>)).

(** [if s.Audit == nil { return }] *)
Definition with_audit (m : M S unit) : M S unit := λ w s,
  match w.(w_audit) with None => (Ok tt, w, s) | Some _ => m w s end.
Definition with_trace (m : M S unit) : M S unit := λ w s,
  match w.(w_trace) with None => (Ok tt, w, s) | Some _ => m w s end.
End effects.

(** ** Reasoning about runs *)

Section monad_facts.
Context {S : Type}.

Lemma bind_Ok_inv {A B} (m : M S A) (f : A → M S B) w s b w2 s2 :
  bind m f w s = (Ok b, w2, s2) →
  ∃ a w1 s1, m w s = (Ok a, w1, s1) ∧ f a w1 s1 = (Ok b, w2, s2).
Proof. unfold bind. destruct (m w s) as [[[a|e|] w1] s1]; naive_solver. Qed.

Lemma bind_Ok {A B} (m : M S A) (f : A → M S B) w s a w1 s1 :
  m w s = (Ok a, w1, s1) → bind m f w s = f a w1 s1.
Proof. unfold bind. by intros ->. Qed.

Lemma bind_Err {A B} (m : M S A) (f : A → M S B) w s e w1 s1 :
  m w s = (Err e, w1, s1) → bind m f w s = (Err e, w1, s1).
Proof. unfold bind. by intros ->. Qed.

(** [m] leaves the component's state alone, and neither fails nor panics. *)
Definition effect_only {A} (m : M S A) : Prop :=
  ∀ w s, ∃ a w', m w s = (Ok a, w', s).

Lemma effect_only_ret {A} (a : A) : effect_only (ret a).
Proof. intros w s. by exists a, w. Qed.

Lemma effect_only_get : effect_only get.
Proof. intros w s. by exists s, w. Qed.

Lemma effect_only_lift {A} (f : World → A * World) : effect_only (lift_env f).
Proof. intros w s. unfold lift_env. destruct (f w) as [a w']. by exists a, w'. Qed.

Lemma effect_only_bind {A B} (m : M S A) (f : A → M S B) :
  effect_only m → (∀ a, effect_only (f a)) → effect_only (bind m f).
Proof.
  intros Hm Hf w s. destruct (Hm w s) as (a & w1 & E). rewrite (bind_Ok _ _ _ _ _ _ _ E). apply Hf.
Qed.

Lemma effect_only_if {A} (b : bool) (m n : M S A) :
  effect_only m → effect_only n → effect_only (if b then m else n).
Proof. by destruct b. Qed.

Lemma effect_only_ignore (m : M S unit) : effect_only m → effect_only (ignore m).
Proof. intros Hm w s. unfold ignore. destruct (Hm w s) as (a & w' & ->). by exists a, w'. Qed.

(** A run that starts with an effect is a run of the rest from some world. *)
Lemma effect_only_bind_inv {A B} (m : M S A) (f : A → M S B) w s r :
  effect_only m → bind m f w s = r → ∃ a w', f a w' s = r.
Proof.
  intros Hm <-. destruct (Hm w s) as (a & w' & E).
  exists a, w'. by rewrite (bind_Ok _ _ _ _ _ _ _ E).
Qed.
End monad_facts.

Create HintDb effects discriminated.
#[export] Hint Resolve @effect_only_ret @effect_only_get @effect_only_lift @effect_only_bind @effect_only_if
  @effect_only_ignore : effects.

Section effect_facts.
Context `{Env} {S : Type}.

Lemma effect_only_now : effect_only (S:=S) now.
Proof. apply effect_only_lift. Qed.
Lemma effect_only_time_Now : effect_only (S:=S) time_Now.
Proof. apply effect_only_lift. Qed.
Lemma effect_only_idgen p : effect_only (S:=S) (idgen_New p).
Proof. apply effect_only_lift. Qed.
Lemma effect_only_range {V} (m : gmap string V) : effect_only (S:=S) (range_map m).
Proof. apply effect_only_lift. Qed.
Lemma effect_only_trace e : effect_only (S:=S) (trace_Record e).
Proof. apply effect_only_lift. Qed.
Lemma effect_only_with_audit (m : M S unit) : effect_only m → effect_only (with_audit m).
Proof. intros Hm w s. unfold with_audit. destruct (w_audit w); [apply Hm|]. by exists tt, w. Qed.
Lemma effect_only_with_trace (m : M S unit) : effect_only m → effect_only (with_trace m).
Proof. intros Hm w s. unfold with_trace. destruct (w_trace w); [apply Hm|]. by exists tt, w. Qed.
Lemma effect_only_audit e : effect_only (S:=S) (audit_Log e).
Proof.
  unfold audit_Log. apply effect_only_bind.
  - apply effect_only_if; [|apply effect_only_ret].
    apply effect_only_bind; [apply effect_only_idgen|intros; apply effect_only_ret].
  - intros e1. apply effect_only_bind; [|intros; apply effect_only_lift].
    apply effect_only_if; [|apply effect_only_ret].
    apply effect_only_bind; [apply effect_only_time_Now|intros; apply effect_only_ret].
Qed.

Lemma range_map_run {V} (m : gmap string V) w (s : S) :
  ∃ l w', range_map m w s = (Ok l, w', s) ∧ l ≡ₚ map_to_list m.
Proof. eexists _, _. split; [reflexivity|]. apply env_range_perm. Qed.
End effect_facts.

#[export] Hint Resolve @effect_only_now @effect_only_time_Now @effect_only_idgen
  @effect_only_range @effect_only_trace @effect_only_with_audit @effect_only_with_trace
  @effect_only_audit : effects.

(** [run_ok H] splits a successful run [H : m w s = (Ok _, _, _)] along its binds. *)
Ltac run_ok H :=
  repeat match type of H with
  | bind _ _ _ _ = (Ok _, _, _) =>
      let a := fresh "a" in let w1 := fresh "w" in let s1 := fresh "s" in
      let E := fresh "E" in
      apply bind_Ok_inv in H as (a & w1 & s1 & E & H)
  end.

(** A record with an id is appended; its time is filled in if it is missing. *)
Lemma audit_Log_run `{Env} {S} event w (s : S) log :
  w_audit w = Some log → Audit_AuditID event ≠ "" →
  ∃ w' at_, audit_Log event w s = (Ok tt, w', s) ∧
    w_audit w' = Some (log ++ [event <| Audit_CreatedAt := at_ |>]).
Proof.
  intros Hlog Hid. unfold audit_Log. rewrite (eqb_neq_false _ _ Hid).
  unfold bind at 1. unfold ret at 1. cbn beta iota. destruct (IsZero (Audit_CreatedAt event)).
  - eexists _, (env_clock (w_reads w)). unfold bind, time_Now, lift_env, ret. cbn -[set_field].
    split; [reflexivity|]. cbn. by rewrite Hlog.
  - eexists _, (Audit_CreatedAt event). unfold bind, lift_env, ret. cbn -[set_field].
    split; [reflexivity|]. cbn. rewrite Hlog. by destruct event.
Qed.

(** A concrete environment, for evaluating the model. *)
#[export] Instance test_env : Env := {|
  env_clock n := (1000 + Z.of_nat n)%Z;
  env_rand n := pretty n;
  env_range V n m := map_to_list m;
  env_range_perm V n m := reflexivity (map_to_list m)
|}.

Definition world0 : World := mkWorld 0 0 0 (Some []) (Some []).

(** ** Results and refinement *)

(** The result of a pure Go function, inside an operation. *)
Definition lift_res {S A} (r : Res A) : M S A := λ w s, (r, w, s).

(** [m] on a state [s] does what [n] does on the view of [s]. *)
Definition refines {S T A} (view : S → T) (m : M S A) (n : M T A) : Prop :=
  ∀ w s, n w (view s) = match m w s with (r, w', s') => (r, w', view s') end.

Section refines.
Context {S T : Type} (view : S → T).

Lemma refines_ret {A} (a : A) : refines view (ret a) (ret a).
Proof. by intros w s. Qed.
Lemma refines_throw {A} e : refines view (throw (A:=A) e) (throw e).
Proof. by intros w s. Qed.
Lemma refines_lift_res {A} (r : Res A) : refines view (lift_res r) (lift_res r).
Proof. by intros w s. Qed.
Lemma refines_lift_env {A} (f : World → A * World) : refines view (lift_env f) (lift_env f).
Proof. intros w s. unfold lift_env. by destruct (f w). Qed.
Lemma refines_bind {A B} (m : M S A) n (f : A → M S B) g :
  refines view m n → (∀ a, refines view (f a) (g a)) →
  refines view (bind m f) (bind n g).
Proof.
  intros Hm Hf w s. unfold bind. rewrite Hm.
  destruct (m w s) as [[[a|e|] w1] s1]; [apply Hf|done|done].
Qed.
Lemma refines_if {A} (b : bool) (m m' : M S A) n n' :
  refines view m n → refines view m' n' →
  refines view (if b then m else m') (if b then n else n').
Proof. by destruct b. Qed.
Lemma refines_with_audit (m : M S unit) n :
  refines view m n → refines view (with_audit m) (with_audit n).
Proof. intros Hm w s. unfold with_audit. by destruct (w_audit w). Qed.
End refines.

Lemma refines_audit_Log `{Env} {S T} (view : S → T) event :
  refines view (audit_Log event) (audit_Log event).
Proof.
  unfold audit_Log. apply refines_bind.
  { apply refines_if; [|apply refines_ret]. apply refines_bind;
      [apply refines_lift_env | intros; apply refines_ret]. }
  intros e1. apply refines_bind; [|intros; apply refines_lift_env].
  apply refines_if; [|apply refines_ret]. apply refines_bind;
    [apply refines_lift_env | intros; apply refines_ret].
Qed.

Create HintDb refines discriminated.
#[export] Hint Resolve refines_ret refines_throw refines_lift_res refines_lift_env refines_bind
  refines_if refines_with_audit refines_audit_Log : refines.

(** ** A small program logic

    [triple P m Q E]: started in a state with [P], [m] ends with a value [a] in a state
    with [Q a], or with an error or a panic in a state with [E]. *)
Definition triple {S A} (P : S → Prop) (m : M S A) (Q : A → S → Prop) (E : S → Prop) : Prop :=
  ∀ w s, P s → match m w s with (Ok a, _, s') => Q a s' | (_, _, s') => E s' end.

Section triples.
Context {S : Type}.
Implicit Types P E : S → Prop.

Lemma triple_conseq {A} P P' (m : M S A) Q Q' E :
  triple P' m Q' E → (∀ s, P s → P' s) → (∀ a s, Q' a s → Q a s) → triple P m Q E.
Proof.
  intros Hm HP HQ w s Hs. specialize (Hm w s (HP _ Hs)).
  destruct (m w s) as [[[a|e|] w'] s']; auto.
Qed.

Lemma triple_bind {A B} P (m : M S A) Q (f : A → M S B) R E :
  triple P m Q E → (∀ a, triple (Q a) (f a) R E) → triple P (bind m f) R E.
Proof.
  intros Hm Hf w s Hs. specialize (Hm w s Hs). unfold bind.
  destruct (m w s) as [[[a|e|] w'] s']; [by apply Hf|done|done].
Qed.

Lemma triple_ret {A} P (a : A) (Q : A → S → Prop) E : (∀ s, P s → Q a s) → triple P (ret a) Q E.
Proof. intros HQ w s Hs. by apply HQ. Qed.

Lemma triple_throw {A} P e (Q : A → S → Prop) E : (∀ s, P s → E s) → triple P (throw e) Q E.
Proof. intros HQ w s Hs. by apply HQ. Qed.

Lemma triple_get {A} P (f : S → M S A) Q E :
  (∀ s, P s → triple (λ s', s' = s ∧ P s) (f s) Q E) → triple P (bind get f) Q E.
Proof. intros Hf w s Hs. by apply (Hf s Hs w s). Qed.

Lemma triple_put P t (Q : unit → S → Prop) E : (∀ s, P s → Q tt t) → triple P (put t) Q E.
Proof. intros HQ w s Hs. by apply (HQ s). Qed.

(** An operation that leaves the component's state alone. *)
Lemma triple_effect {A} P (m : M S A) E : effect_only m → triple P m (λ _, P) E.
Proof. intros Hm w s Hs. by destruct (Hm w s) as (a & w' & ->). Qed.

Lemma triple_if {A} P (b : bool) (m n : M S A) Q E :
  (b = true → triple P m Q E) → (b = false → triple P n Q E) →
  triple P (if b then m else n) Q E.
Proof. destruct b; auto. Qed.

(** The state after a run, whatever its outcome. *)
Lemma triple_inv {A} (I : S → Prop) (m : M S A) w s r w' s' :
  triple I m (λ _, I) I → I s → m w s = (r, w', s') → I s'.
Proof. intros Hm Hs E. specialize (Hm w s Hs). rewrite E in Hm. by destruct r. Qed.

Lemma triple_outcome {A} P (I : S → Prop) (m : M S A) w s r w' s' :
  triple P m (λ _, I) I → P s → m w s = (r, w', s') → I s'.
Proof. intros Hm Hs E. specialize (Hm w s Hs). rewrite E in Hm. by destruct r. Qed.

Lemma triple_Ok {A} P (m : M S A) Q E w s a w' s' :
  triple P m Q E → P s → m w s = (Ok a, w', s') → Q a s'.
Proof. intros Hm Hs Eq. specialize (Hm w s Hs). by rewrite Eq in Hm. Qed.
End triples.

(** ** Random identifiers are not drawn twice

    [forward m]: [m] does not give random draws back, so an identifier drawn after it is
    a later draw than those before. *)
Definition forward {S A} (m : M S A) : Prop :=
  ∀ w s r w' s', m w s = (r, w', s') → (w_draws w ≤ w_draws w')%nat.

Section forward_facts.
Context {S : Type}.

Lemma forward_ret {A} (a : A) : forward (S:=S) (ret a).
Proof. intros w s r w' s' E. unfold ret in E. by simplify_eq. Qed.
Lemma forward_throw {A} e : forward (S:=S) (throw (A:=A) e).
Proof. intros w s r w' s' E. unfold throw in E. by simplify_eq. Qed.
Lemma forward_get : forward (S:=S) get.
Proof. intros w s r w' s' E. unfold get in E. by simplify_eq. Qed.
Lemma forward_put (t : S) : forward (put t).
Proof. intros w s r w' s' E. unfold put in E. by simplify_eq. Qed.
Lemma forward_bind {A B} (m : M S A) (f : A → M S B) :
  forward m → (∀ a, forward (f a)) → forward (bind m f).
Proof.
  intros Hm Hf w s r w' s' E. unfold bind in E.
  destruct (m w s) as [[[a|e|] w1] s1] eqn:E1; apply Hm in E1.
  - etrans; [exact E1|]. eapply Hf. exact E.
  - by simplify_eq.
  - by simplify_eq.
Qed.
Lemma forward_if {A} (b : bool) (m n : M S A) : forward m → forward n → forward (if b then m else n).
Proof. by destruct b. Qed.
Lemma forward_match {A B} (o : option A) (f : A → M S B) (n : M S B) :
  (∀ a, forward (f a)) → forward n → forward (match o with Some a => f a | None => n end).
Proof. by destruct o. Qed.
Lemma forward_ignore (m : M S unit) : forward m → forward (ignore m).
Proof.
  intros Hm w s r w' s' E. unfold ignore in E.
  destruct (m w s) as [[[a|e|] w1] s1] eqn:E1; apply Hm in E1; by simplify_eq.
Qed.
Lemma forward_with_audit (m : M S unit) : forward m → forward (with_audit m).
Proof. intros Hm w s r w' s' E. unfold with_audit in E. destruct (w_audit w); [eauto|by simplify_eq]. Qed.
Lemma forward_with_trace (m : M S unit) : forward m → forward (with_trace m).
Proof. intros Hm w s r w' s' E. unfold with_trace in E. destruct (w_trace w); [eauto|by simplify_eq]. Qed.

Context `{Env}.
Lemma forward_time_Now : forward (S:=S) time_Now.
Proof. intros w s r w' s' E. unfold time_Now, lift_env in E. by simplify_eq. Qed.
Lemma forward_idgen p : forward (S:=S) (idgen_New p).
Proof. intros w s r w' s' E. unfold idgen_New, lift_env in E. simplify_eq. cbn. lia. Qed.
Lemma forward_range {V} (m : gmap string V) : forward (S:=S) (range_map m).
Proof. intros w s r w' s' E. unfold range_map, lift_env in E. by simplify_eq. Qed.
Lemma forward_trace e : forward (S:=S) (trace_Record e).
Proof. intros w s r w' s' E. unfold trace_Record, lift_env in E. by simplify_eq. Qed.
Lemma forward_audit e : forward (S:=S) (audit_Log e).
Proof.
  unfold audit_Log. apply forward_bind.
  - apply forward_if; [|apply forward_ret].
    apply forward_bind; [apply forward_idgen|intros; apply forward_ret].
  - intros e1. apply forward_bind.
    + apply forward_if; [|apply forward_ret].
      apply forward_bind; [apply forward_time_Now|intros; apply forward_ret].
    + intros e2 w s r w' s' E. unfold lift_env in E. by simplify_eq.
Qed.
End forward_facts.

Create HintDb forward discriminated.
Lemma forward_now `{Env} {S} : forward (S:=S) now.
Proof. apply forward_time_Now. Qed.
#[export] Hint Resolve @forward_now @forward_ret @forward_throw @forward_get @forward_put @forward_bind @forward_if
  @forward_match @forward_ignore @forward_with_audit @forward_with_trace @forward_time_Now
  @forward_idgen @forward_range @forward_trace @forward_audit : forward.

(** ** Steps of a run *)

Lemma bind_get {S A} (f : S → M S A) w s : bind get f w s = f s w s.
Proof. reflexivity. Qed.
Lemma bind_put {S A} (t : S) (f : unit → M S A) w s : bind (put t) f w s = f tt w t.
Proof. reflexivity. Qed.
Lemma bind_ret {S A B} (a : A) (f : A → M S B) w s : bind (ret a) f w s = f a w s.
Proof. reflexivity. Qed.
Lemma bind_now `{Env} {S A} (f : Time → M S A) w s :
  bind now f w s = f (env_clock (w_reads w)) (w <| w_reads := Datatypes.S (w_reads w) |>) s.
Proof. reflexivity. Qed.

(** The identifier that [idgen.New] draws. *)
Lemma idgen_New_run `{Env} {S} p w (s : S) :
  idgen_New p w s = (Ok (p +:+ "_" +:+ env_rand (w_draws w)),
                     w <| w_draws := Datatypes.S (w_draws w) |>, s).
Proof. reflexivity. Qed.

(** Identifiers of the same prefix that come from different draws are different, when the
    random bytes are. *)
Definition rand_unique `{Env} : Prop := ∀ i j, env_rand i = env_rand j → i = j.

Lemma idgen_inj (p a b : string) : p +:+ "_" +:+ a = p +:+ "_" +:+ b → a = b.
Proof. intros E. apply String.app_inj in E. by apply (String.app_inj "_") in E. Qed.

Lemma test_rand_unique : @rand_unique test_env.
Proof. intros i j E. by apply (inj pretty) in E. Qed.

(** ** Assertions about the world and the state

    Like [triple], with assertions that also speak of the world: which random identifiers
    have been drawn. *)
Definition wtriple {S A} (P : World → S → Prop) (m : M S A) (Q : A → World → S → Prop)
    (E : World → S → Prop) : Prop :=
  ∀ w s, P w s → match m w s with (Ok a, w', s') => Q a w' s' | (_, w', s') => E w' s' end.

(** Drawing more identifiers does not falsify [P]. *)
Definition lasting {S} (P : World → S → Prop) : Prop :=
  ∀ w w' s, (w_draws w ≤ w_draws w')%nat → P w s → P w' s.

Section wtriples.
Context {S : Type}.
Implicit Types P E : World → S → Prop.

Lemma wtriple_bind {A B} P (m : M S A) Q (f : A → M S B) R E :
  wtriple P m Q E → (∀ a, wtriple (Q a) (f a) R E) → wtriple P (bind m f) R E.
Proof.
  intros Hm Hf w s Hs. specialize (Hm w s Hs). unfold bind.
  destruct (m w s) as [[[a|e|] w'] s']; [by apply Hf|done|done].
Qed.

Lemma wtriple_ret {A} P (a : A) (Q : A → World → S → Prop) E :
  (∀ w s, P w s → Q a w s) → wtriple P (ret a) Q E.
Proof. intros HQ w s Hs. by apply HQ. Qed.

Lemma wtriple_throw {A} P e (Q : A → World → S → Prop) E :
  (∀ w s, P w s → E w s) → wtriple P (throw e) Q E.
Proof. intros HQ w s Hs. by apply HQ. Qed.

Lemma wtriple_get {A} P (f : S → M S A) Q E :
  (∀ s, wtriple (λ w' s', s' = s ∧ P w' s) (f s) Q E) → wtriple P (bind get f) Q E.
Proof. intros Hf w s Hs. by apply (Hf s w s). Qed.

Lemma wtriple_put P t (Q : unit → World → S → Prop) E :
  (∀ w s, P w s → Q tt w t) → wtriple P (put t) Q E.
Proof. intros HQ w s Hs. by apply (HQ w s). Qed.

Lemma wtriple_if {A} P (b : bool) (m n : M S A) Q E :
  (b = true → wtriple P m Q E) → (b = false → wtriple P n Q E) →
  wtriple P (if b then m else n) Q E.
Proof. destruct b; auto. Qed.

(** An operation that leaves the state alone. *)
Lemma wtriple_effect {A} P (m : M S A) E :
  lasting P → effect_only m → forward m → wtriple P m (λ _, P) E.
Proof.
  intros HP Hm Hf w s Hs. destruct (Hm w s) as (a & w' & Er). rewrite Er.
  eapply HP; [by eapply Hf|done].
Qed.

Lemma wtriple_conseq {A} P P' (m : M S A) Q Q' E :
  wtriple P' m Q' E → (∀ w s, P w s → P' w s) → (∀ a w s, Q' a w s → Q a w s) → wtriple P m Q E.
Proof.
  intros Hm HP HQ w s Hs. specialize (Hm w s (HP _ _ Hs)).
  destruct (m w s) as [[[a|e|] w'] s']; auto.
Qed.

(** The precondition may be split into a fact and the rest. *)
Lemma wtriple_fact {A} (F : Prop) P (m : M S A) Q E :
  (F → wtriple P m Q E) → wtriple (λ w s, F ∧ P w s) m Q E.
Proof. intros Hm w s [HF Hs]. by apply Hm. Qed.

(** The state after a run, whatever its outcome. *)
Lemma wtriple_inv {A} P (m : M S A) w s r w' s' :
  wtriple P m (λ _, P) P → P w s → m w s = (r, w', s') → P w' s'.
Proof. intros Hm Hs E. specialize (Hm w s Hs). rewrite E in Hm. by destruct r. Qed.
End wtriples.
