(* ===== verification/Float64.v ===== *)
(** * Scores: the floating-point numbers that the code sorts by

    The scores of searches are sums, products and quotients of numbers that are not negative.  Such a result is never NaN
    ([score_add], [score_mul], [score_div]), and on such numbers the comparison of IEEE 754 is a total order ([score_le_trans],
    [score_total]), so that sorting by them is sorting by an order. *)

From stdpp Require Import base list sorting.
From Stdlib Require Import ZArith Lia Floats.SpecFloat.
From S2P Require Import Prelude Contracts.
Open Scope go_scope.
Open Scope Z_scope.

(** Not NaN and not negative; the zero may be either one. *)
Definition is_score (x : float64) : Prop :=
  match x with S754_zero _ | S754_infinity false | S754_finite false _ _ => True | _ => False end.

(** ** The order *)

(** Scores as triples in lexicographic order: the class of the number, its exponent, its mantissa. *)
Definition score_key (x : float64) : Z * Z * Z :=
  match x with S754_finite _ m e => (1, e, Zpos m) | S754_infinity _ => (2, 0, 0) | _ => (0, 0, 0) end.
Definition key_lt (a b : Z * Z * Z) : Prop :=
  a.1.1 < b.1.1 ∨ a.1.1 = b.1.1 ∧ (a.1.2 < b.1.2 ∨ a.1.2 = b.1.2 ∧ a.2 < b.2).

Lemma score_lt_iff x y : is_score x → is_score y → SFltb x y = true ↔ key_lt (score_key x) (score_key y).
Proof.
  unfold SFltb, key_lt. destruct x as [sx|[]| |[] mx ex], y as [sy|[]| |[] my ey]; cbn; try done; intros _ _; try (split; [done|lia]); try (split; [lia|done]).
  change (Pos.compare_cont Eq mx my) with (Pos.compare mx my).
  destruct (Z.compare_spec ex ey), (Pos.compare_spec mx my); split; (done || lia).
Qed.
Lemma score_eq_iff x y : is_score x → is_score y → SFeqb x y = true ↔ score_key x = score_key y.
Proof.
  unfold SFeqb. destruct x as [sx|[]| |[] mx ex], y as [sy|[]| |[] my ey]; cbn; try done; intros _ _.
  change (Pos.compare_cont Eq mx my) with (Pos.compare mx my).
  destruct (Z.compare_spec ex ey), (Pos.compare_spec mx my); split; (done || (intros [=]; lia) || congruence).
Qed.
Lemma score_total x y : is_score x → is_score y → SFltb x y = false → SFltb y x = false → SFeqb x y = true.
Proof.
  intros Hx Hy H1 H2. apply (score_eq_iff x y Hx Hy).
  assert (N1 : ¬ key_lt (score_key x) (score_key y)) by (rewrite <- score_lt_iff by done; congruence).
  assert (N2 : ¬ key_lt (score_key y) (score_key x)) by (rewrite <- score_lt_iff by done; congruence).
  unfold key_lt in *. destruct (score_key x) as [[a b] c], (score_key y) as [[a' b'] c']; cbn in *. repeat f_equal; lia.
Qed.
Lemma score_le_trans x y z : is_score x → is_score y → is_score z → SFltb y x = false → SFltb z y = false → SFltb z x = false.
Proof.
  intros Hx Hy Hz H1 H2. apply not_true_iff_false. rewrite score_lt_iff by done.
  assert (N1 : ¬ key_lt (score_key y) (score_key x)) by (rewrite <- score_lt_iff by done; congruence).
  assert (N2 : ¬ key_lt (score_key z) (score_key y)) by (rewrite <- score_lt_iff by done; congruence).
  unfold key_lt in *. lia.
Qed.
Lemma score_lt_asym x y : is_score x → is_score y → SFltb x y = true → SFltb y x = false.
Proof. intros Hx Hy Hlt. apply not_true_iff_false. rewrite score_lt_iff in * by done. unfold key_lt in *. lia. Qed.
(** Equal scores stand in the same relation to every other one. *)
Lemma score_eq_lt x y z : is_score x → is_score y → is_score z → SFeqb x y = true → SFltb x z = SFltb y z ∧ SFltb z x = SFltb z y.
Proof.
  intros Hx Hy Hz He. apply score_eq_iff in He; [|done..].
  split; apply eq_true_iff_eq; rewrite !score_lt_iff by done; by rewrite He.
Qed.
Lemma score_eq_sym x y : is_score x → is_score y → SFeqb x y = SFeqb y x.
Proof. intros Hx Hy. apply eq_true_iff_eq. rewrite !score_eq_iff by done. by split. Qed.
Lemma score_eq_not_lt x y : is_score x → is_score y → SFeqb x y = true → SFltb x y = false.
Proof. intros Hx Hy He%score_eq_iff; [|done..]. apply not_true_iff_false. rewrite score_lt_iff by done. rewrite He. unfold key_lt. lia. Qed.

(** ** The operations *)

Lemma shr_1_nonneg mrs : 0 ≤ shr_m mrs → 0 ≤ shr_m (shr_1 mrs).
Proof. destruct mrs as [m r s]. unfold shr_1. destruct m as [|[p|p|]|[p|p|]]; cbn; lia. Qed.
Lemma iter_pos_nonneg p mrs : 0 ≤ shr_m mrs → 0 ≤ shr_m (iter_pos shr_1 p mrs).
Proof. revert mrs. induction p as [p IH|p IH|]; intros mrs Hm; cbn [iter_pos]; auto using shr_1_nonneg. Qed.
Lemma shr_fexp_nonneg m e l : 0 ≤ m → 0 ≤ shr_m (shr_fexp 53 1024 m e l).1.
Proof.
  intros Hm. assert (Hr : 0 ≤ shr_m (shr_record_of_loc m l)) by (by destruct l as [|[]]).
  unfold shr_fexp, shr. destruct (_ - e); cbn [fst]; auto using iter_pos_nonneg.
Qed.
Lemma round_nearest_even_nonneg m l : 0 ≤ m → 0 ≤ round_nearest_even m l.
Proof. intros Hm. destruct l as [|[]]; cbn; [done|destruct (Z.even m)|..]; lia. Qed.
Lemma score_rounded m e l : 0 ≤ m → is_score (binary_round_aux 53 1024 false m e l).
Proof.
  intros Hm. unfold binary_round_aux. pose proof (shr_fexp_nonneg m e l Hm) as H1. destruct (shr_fexp 53 1024 m e l) as [mrs' e']. cbn in H1.
  pose proof (shr_fexp_nonneg (round_nearest_even (shr_m mrs') (loc_of_shr_record mrs')) e' loc_Exact (round_nearest_even_nonneg _ _ H1)) as H2.
  destruct (shr_fexp 53 1024 _ e' loc_Exact) as [mrs'' e'']. cbn in H2. destruct (shr_m mrs'') as [|m''|m'']; [done|by destruct (_ <=? _)|lia].
Qed.
Lemma score_normalized m e : 0 ≤ m → is_score (binary_normalize 53 1024 m e false).
Proof.
  intros Hm. destruct m as [|m|m]; [done| |lia]. cbn. unfold binary_round. destruct (shl_align m e _) as [mz ez]. by apply score_rounded.
Qed.
Lemma score_add x y : is_score x → is_score y → is_score (SFadd 53 1024 x y).
Proof.
  destruct x as [[]|[]| |[] mx ex], y as [[]|[]| |[] my ey]; try done. intros _ _. cbn [SFadd cond_Zopp]. by apply score_normalized.
Qed.
Lemma score_mul x y : is_score x → match y with S754_finite false _ _ => True | _ => False end → is_score (SFmul 53 1024 x y).
Proof.
  destruct x as [[]|[]| |[] mx ex], y as [[]|[]| |[] my ey]; try done. intros _ _. cbn [SFmul xorb]. by apply score_rounded.
Qed.
Lemma score_div x y : is_score x → match y with S754_finite false _ _ => True | _ => False end → is_score (SFdiv 53 1024 x y).
Proof.
  destruct x as [[]|[]| |[] mx ex], y as [[]|[]| |[] my ey]; try done. intros _ _. unfold SFdiv, SFdiv_core_binary.
  set (e' := Z.min _ _). set (m' := match ex - ey - e' with Z0 => _ | _ => _ end).
  assert (Hm : 0 ≤ m') by (subst m'; destruct (ex - ey - e'); [done| |done]; by apply Z.shiftl_nonneg).
  pose proof (Z_div_pos m' (Zpos my) ltac:(lia) Hm) as Hq. unfold Z.div in Hq. destruct (Z.div_eucl m' (Zpos my)) as [q r].
  by apply score_rounded.
Qed.

(** ** Sorting by an order of some values only *)

Section sorting.
Context {A : Type} (P : A → Prop) (less : A → A → bool).
Context (Htrans : ∀ a b c, P a → P b → P c → le_of less a b → le_of less b c → le_of less a c).
Context (Hasym : ∀ a b, P a → P b → less a b = true → le_of less a b).

Lemma sort_insert_Sorted_on x l : P x → Forall P l → StronglySorted (le_of less) l → StronglySorted (le_of less) (sort_insert less x l).
Proof.
  intros Hx HP. induction 1 as [|y l Hl IH Hy]; simpl; [by repeat constructor|].
  apply Forall_cons in HP as [HPy HPl]. destruct (less y x) eqn:Hyx.
  - constructor; [by apply IH|]. rewrite sort_insert_perm. constructor; [by apply Hasym|done].
  - constructor; [by constructor|]. constructor; [done|].
    apply Forall_forall. intros z Hz. rewrite Forall_forall in HPl, Hy. apply (Htrans x y z); auto.
Qed.
Lemma stable_sort_Sorted_on l : Forall P l → StronglySorted (le_of less) (stable_sort less l).
Proof.
  induction 1 as [|x l Hx Hl IH]; simpl; [constructor|]. apply sort_insert_Sorted_on; [done| |done].
  by rewrite stable_sort_perm.
Qed.
End sorting.

(** What the first part of a sorted list leaves out stands after it. *)
Lemma sorted_take_drop {A} (R : A → A → Prop) n (l : list A) b :
  StronglySorted R l → b ∈ l → b ∈ take n l ∨ (n < length l)%nat ∧ ∀ a, a ∈ take n l → R a b.
Proof.
  intros Hs Hb. rewrite <- (take_drop n l) in Hb. apply elem_of_app in Hb as [Hb|Hb]; [by left|right].
  split. { apply list_elem_of_lookup in Hb as [i Hi%lookup_lt_Some]. rewrite length_drop in Hi. lia. }
  intros a Ha. rewrite <- (take_drop n l) in Hs. revert Hs Ha. generalize (take n l) as l1.
  induction l1 as [|x l1 IH]; [by intros _ ?%elem_of_nil|].
  cbn [app]. intros Hs. apply StronglySorted_inv in Hs as [Hs Hx]. rewrite elem_of_cons. intros [->|Ha]; [|by apply IH].
  rewrite Forall_forall in Hx. apply Hx, elem_of_app. by right.
Qed.
Lemma sorted_take {A} (R : A → A → Prop) n (l : list A) : StronglySorted R l → StronglySorted R (take n l).
Proof.
  intros Hs. revert n. induction Hs as [|x l Hl IH Hx]; intros [|n]; cbn [take]; [constructor..|].
  constructor; [apply IH|by apply Forall_take].
Qed.
