(* ===== verification/Storage.v ===== *)
(** * Shared storage conventions

    The sentinel errors of internal/storage/repository, the page cut that the
    in-memory run, audit and trace stores share, and pkg/pagination. *)

From S2P Require Import Prelude Contracts GoMonad.
From stdpp Require Import base list strings gmap fin_maps.
Open Scope go_scope.
Open Scope string_scope.
Open Scope list_scope.

(** ** internal/storage/repository/errors.go *)

Definition ErrNotFound : error := ErrSentinel "repository: not found".
Definition ErrConflict : error :=
  ErrRuntime (NewRuntimeError CodeTaskConflict "optimistic lock conflict" ∅).
Definition ErrDuplicateRequest : error := ErrSentinel "repository: duplicate idempotency key".

Definition IsConflict (err : error) : bool :=
  match err with
  | ErrRuntime runtimeErr => runtimeErr.(Err_Code) == CodeTaskConflict
  | _ => false
  end.

(** ** Slices *)

(** [l[lo:hi]] for a slice whose capacity is its length: [None] is the run-time panic. *)
Definition go_slice {A} (l : list A) (lo hi : Z) : option (list A) :=
  if (0 <=? lo)%Z && (lo <=? hi)%Z && (hi <=? len l)%Z
  then Some (take (Z.to_nat (hi - lo)) (drop (Z.to_nat lo) l))
  else None.

(** The page cut of [pageRuns], [pageAuditEvents] and [pageTraceSummaries];
    [offset + limit] wraps around as Go's [int] does. *)
Definition page_cut {A} (items : list A) (limit offset : Z) : option (list A) :=
  let offset := if (offset <? 0)%Z then 0%Z else offset in
  let limit := if (limit <=? 0)%Z then len items else limit in
  if (offset >=? len items)%Z then Some []
  else
    let stop := int64 (offset + limit) in
    let stop := if (stop >? len items)%Z then len items else stop in
    go_slice items offset stop.

(** A page cut in an operation: a slice out of range panics. *)
Definition or_panic {S A} (r : option A) : M S A :=
  match r with Some a => ret a | None => panic end.

(** ** pkg/pagination *)

Record PageRequest := mkPageRequest { Page_Limit : Z; Page_Offset : Z }.
#[export] Instance eta_PageRequest : Settable PageRequest :=
  fields! mkPageRequest < Page_Limit ; Page_Offset >.

Definition Normalize (p : PageRequest) (defaultLimit maxLimit : Z) : PageRequest :=
  let p := if (p.(Page_Limit) <=? 0)%Z then p <| Page_Limit := defaultLimit |> else p in
  let p := if (maxLimit >? 0)%Z && (p.(Page_Limit) >? maxLimit)%Z
           then p <| Page_Limit := maxLimit |> else p in
  if (p.(Page_Offset) <? 0)%Z then p <| Page_Offset := 0%Z |> else p.

(** ** Facts about pages *)

Section pages.
Context {A : Type}.
Implicit Types items : list A.
Local Open Scope Z_scope.

(** The page a caller means: [limit] items from [offset]; a negative offset
    counts as 0 and a non-positive limit as no limit. *)
Definition page_spec items (limit offset : Z) : list A :=
  let rest := drop (Z.to_nat offset) items in
  if limit <=? 0 then rest else take (Z.to_nat limit) rest.

Lemma go_slice_ok items lo hi :
  0 ≤ lo ≤ hi → hi ≤ len items →
  go_slice items lo hi = Some (take (Z.to_nat (hi - lo)) (drop (Z.to_nat lo) items)).
Proof.
  intros [Hlo Hhi] Hlen. unfold go_slice.
  by rewrite (proj2 (Z.leb_le _ _) Hlo), (proj2 (Z.leb_le _ _) Hhi), (proj2 (Z.leb_le _ _) Hlen).
Qed.

(** The cut is the page meant, provided [offset + limit] does not overflow. *)
Lemma page_cut_correct items limit offset :
  len items < 2 ^ 62 → offset < 2 ^ 63 → Z.max 0 offset + limit < 2 ^ 63 →
  page_cut items limit offset = Some (page_spec items limit offset).
Proof.
  intros Hlen Hoff Hsum. unfold page_cut, page_spec.
  assert (Eo : (if offset <? 0 then 0 else offset) = Z.max 0 offset)
    by (destruct (Z.ltb_spec offset 0); lia).
  rewrite Eo. replace (Z.to_nat offset) with (Z.to_nat (Z.max 0 offset)) by lia.
  set (o := Z.max 0 offset) in *. assert (0 ≤ o) by lia.
  assert (0 ≤ len items) by (unfold len; lia).
  rewrite Z.geb_leb, Z.gtb_ltb.
  destruct (Z.leb_spec (len items) o) as [Hge|Hlt].
  - rewrite drop_ge by (unfold len in *; lia). by destruct (limit <=? 0); [|rewrite take_nil].
  - destruct (Z.leb_spec limit 0) as [Hl0|Hl1].
    all: rewrite int64_id by (unfold is_int64; lia).
    + destruct (Z.ltb_spec (len items) (o + len items)) as [_|?].
      all: rewrite go_slice_ok by lia; f_equal; apply take_ge.
      all: rewrite length_drop; unfold len in *; lia.
    + destruct (Z.ltb_spec (len items) (o + limit)) as [Hgt|Hle].
      all: rewrite go_slice_ok by lia; f_equal.
      * rewrite !take_ge; [done| |]; rewrite length_drop; unfold len in *; lia.
      * f_equal. lia.
Qed.

(** When [offset + limit] overflows the cut is a slice out of range. *)
Lemma page_cut_overflow items limit offset :
  0 ≤ offset < len items → is_int64 offset → is_int64 limit → 2 ^ 63 ≤ offset + limit →
  page_cut items limit offset = None.
Proof.
  intros [Ho Hlt] Hio Hil Hsum. unfold page_cut, is_int64 in *.
  rewrite (proj2 (Z.ltb_ge _ _) Ho).
  destruct (Z.leb_spec limit 0) as [?|_]; [lia|].
  rewrite Z.geb_leb, Z.gtb_ltb.
  destruct (Z.leb_spec (len items) offset) as [?|_]; [lia|].
  assert (Hneg : int64 (offset + limit) = offset + limit - 2 ^ 64).
  { unfold int64. replace (offset + limit + 2 ^ 63)
      with (offset + limit - 2 ^ 63 + 1 * 2 ^ 64) by lia.
    rewrite Z.mod_add by lia. rewrite Z.mod_small; lia. }
  rewrite Hneg. destruct (Z.ltb_spec (len items) (offset + limit - 2 ^ 64)) as [?|_]; [lia|].
  unfold go_slice. destruct (Z.leb_spec 0 offset); [|lia].
  by destruct (Z.leb_spec offset (offset + limit - 2 ^ 64)); [lia|].
Qed.

(** Consecutive pages of a positive size put together give the items back. *)
Lemma page_spec_concat items limit n :
  0 < limit →
  concat (map (λ k, page_spec items limit (Z.of_nat k * limit)) (seq 0 n))
  = take (n * Z.to_nat limit) items.
Proof.
  intros Hlim. induction n as [|n IH]; [by rewrite take_0|].
  rewrite seq_S, map_app, concat_app, IH. simpl. rewrite app_nil_r.
  unfold page_spec. destruct (Z.leb_spec limit 0); [lia|].
  replace (Z.to_nat (Z.of_nat n * limit)) with (n * Z.to_nat limit)%nat by lia.
  rewrite <- (take_drop (n * Z.to_nat limit) (take (Z.to_nat limit + n * Z.to_nat limit) items)).
  rewrite take_take, skipn_firstn_comm. f_equal; f_equal; lia.
Qed.
End pages.

(** ** Secondary indexes

    Several repositories keep, next to a map from ids to records, a map from a field of
    the records to the list of their ids. *)

(** [m[key] = append(m[key], id)] *)
Definition append_id (key id : string) (m : gmap string (list string)) : gmap string (list string) :=
  <[key := default [] (m !! key) ++ [id]]> m.

Definition ids_of (m : gmap string (list string)) (key : string) : list string :=
  default [] (m !! key).

Lemma append_id_ids key id m k :
  ids_of (append_id key id m) k = if decide (key = k) then ids_of m k ++ [id] else ids_of m k.
Proof.
  unfold ids_of, append_id. destruct (decide _) as [<-|].
  - by rewrite lookup_insert_eq.
  - by rewrite lookup_insert_ne.
Qed.

(** An index stays exact when a fresh entry is filed and appended to its list. *)
Lemma index_insert {V} (key : V → string) (m : gmap string V) idx id v :
  m !! id = None →
  (∀ k i, i ∈ ids_of idx k ↔ ∃ x, m !! i = Some x ∧ key x = k) →
  ∀ k i, i ∈ ids_of (append_id (key v) id idx) k ↔ ∃ x, <[id := v]> m !! i = Some x ∧ key x = k.
Proof.
  intros Hfresh Hidx k i. rewrite append_id_ids.
  destruct (decide (id = i)) as [<-|Hne].
  - rewrite lookup_insert_eq. split.
    + intros Hin. exists v. split; [done|]. destruct (decide _); [done|].
      apply Hidx in Hin as (x & Hx & _). congruence.
    + intros (x & [= <-] & Hk). rewrite decide_True by done. set_solver.
  - rewrite lookup_insert_ne by done. rewrite <- Hidx.
    destruct (decide _); [|done]. rewrite elem_of_app, list_elem_of_singleton. naive_solver.
Qed.

Lemma index_nodup {V} (key : V → string) (m : gmap string V) idx id v :
  m !! id = None →
  (∀ k i, i ∈ ids_of idx k ↔ ∃ x, m !! i = Some x ∧ key x = k) →
  (∀ k, NoDup (ids_of idx k)) → ∀ k, NoDup (ids_of (append_id (key v) id idx) k).
Proof.
  intros Hfresh Hidx Hnd k. rewrite append_id_ids. destruct (decide _); [|done].
  apply NoDup_app. repeat split; [done| |apply NoDup_singleton].
  intros x Hx ->%list_elem_of_singleton. apply Hidx in Hx as (? & ? & _). congruence.
Qed.

(** ... and when an entry is replaced by one filed under the same key. *)
Lemma index_replace {V} (key : V → string) (m : gmap string V) idx id v old :
  m !! id = Some old → key v = key old →
  (∀ k i, i ∈ ids_of idx k ↔ ∃ x, m !! i = Some x ∧ key x = k) →
  ∀ k i, i ∈ ids_of idx k ↔ ∃ x, <[id := v]> m !! i = Some x ∧ key x = k.
Proof.
  intros Hold Hkey Hidx k i. rewrite Hidx. destruct (decide (id = i)) as [<-|Hne].
  - rewrite lookup_insert_eq. naive_solver.
  - by rewrite lookup_insert_ne.
Qed.

Lemma keyed_insert {V} (key : V → string) (m : gmap string V) id v :
  key v = id → (∀ i x, m !! i = Some x → key x = i) →
  ∀ i x, <[id := v]> m !! i = Some x → key x = i.
Proof. intros Hv Hm i x. rewrite lookup_insert_Some. naive_solver. Qed.
