(* ===== verification/TaskState.v ===== *)
(** * The task state machine: internal/task/state/machine.go

    The transition table, [IsTerminal] and [Apply], and the machine as a step relation. *)

From S2P Require Import Prelude Contracts GoMonad.
From stdpp Require Import base list strings relations.
Open Scope go_scope.
Open Scope string_scope.
Open Scope list_scope.

Record Transition := mkTransition {
  Transition_From : TaskStatus;
  Transition_Command : TaskCommand;
  Transition_To : TaskStatus;
  Transition_Audit : bool;
  Transition_EventType : string
}.

Definition transitions : list Transition := [
  mkTransition TaskCreated CmdAccept TaskAccepted false "task.accepted";
  mkTransition TaskAccepted CmdPlanStarted TaskPlanning false "task.plan_started";
  mkTransition TaskPlanning CmdRunStarted TaskRunning false "task.run_started";
  mkTransition TaskRunning CmdAskClarification TaskWaitingInput false "task.waiting_input";
  mkTransition TaskWaitingInput CmdProvideInput TaskRunning false "task.input_provided";
  mkTransition TaskRunning CmdApprovalRequired TaskWaitingApproval true "task.approval_required";
  mkTransition TaskWaitingApproval CmdApproveAction TaskRunning true "task.approved";
  mkTransition TaskWaitingApproval CmdRejectAction TaskBlocked true "task.approval_rejected";
  mkTransition TaskRunning CmdToolWaiting TaskWaitingTool false "task.tool_waiting";
  mkTransition TaskWaitingTool CmdToolCompleted TaskRunning false "task.tool_completed";
  mkTransition TaskRunning CmdPause TaskPaused true "task.paused";
  mkTransition TaskPaused CmdResume TaskRunning true "task.resumed";
  mkTransition TaskRunning CmdComplete TaskCompleted false "task.completed";
  mkTransition TaskRunning CmdFail TaskFailed false "task.failed"
].

Definition IsTerminal (status : TaskStatus) : bool :=
  mem_string status [TaskCompleted; TaskFailed; TaskCancelled; TaskRejected].

Fixpoint find_transition (table : list Transition) (current : TaskStatus)
    (command : TaskCommand) : option Transition :=
  match table with
  | [] => None
  | transition :: rest =>
      if (transition.(Transition_From) == current) && (transition.(Transition_Command) == command)
      then Some transition
      else find_transition rest current command
  end.

Definition Apply (current : TaskStatus) (command : TaskCommand) : Res Transition :=
  if command == CmdCancel then
    if IsTerminal current
    then Err (Errorf "cannot cancel terminal task status %q" [current])
    else Ok (mkTransition current command TaskCancelled true "task.cancelled")
  else
    match find_transition transitions current command with
    | Some transition => Ok transition
    | None => Err (Errorf "invalid task transition from %q with command %q" [current; command])
    end.

(** ** The machine as a step relation *)

Inductive task_step : TaskStatus → TaskStatus → Prop :=
| task_step_apply current command t :
    Apply current command = Ok t → task_step current (Transition_To t).

(** The statuses a task passes through from its creation. *)
Definition task_reachable (status : TaskStatus) : Prop := rtc task_step TaskCreated status.

(** ** Facts *)

Lemma find_transition_In table current command t :
  find_transition table current command = Some t →
  t ∈ table ∧ Transition_From t = current ∧ Transition_Command t = command.
Proof.
  induction table as [|u table IH]; simpl; [done|].
  destruct (String.eqb_spec (Transition_From u) current) as [<-|];
  destruct (String.eqb_spec (Transition_Command u) command) as [<-|]; simpl.
  1: intros [= <-]; split; [left|done].
  all: intros (? & ? & ?)%IH; split; [by right|done].
Qed.

(** The transition [Apply] returns leaves from the current status by the command. *)
Lemma Apply_Ok current command t :
  Apply current command = Ok t →
  Transition_From t = current ∧ Transition_Command t = command ∧
  IsTerminal current = false ∧
  (t ∈ transitions ∨
   t = mkTransition current CmdCancel TaskCancelled true "task.cancelled").
Proof.
  unfold Apply. destruct (String.eqb_spec command CmdCancel) as [->|Hne].
  - destruct (IsTerminal current); [done|]. intros [= <-]. auto.
  - destruct (find_transition _ _ _) as [u|] eqn:E; [|done]. intros [= <-].
    apply find_transition_In in E as (Hin & <- & <-). repeat split; [|by left].
    clear Hne. repeat (apply elem_of_cons in Hin as [->|Hin]; [reflexivity|]). inversion Hin.
Qed.

Lemma Apply_not_Panic current command : Apply current command ≠ Panic.
Proof.
  unfold Apply. destruct (command == CmdCancel); [by destruct (IsTerminal current)|].
  by destruct (find_transition _ _ _).
Qed.

Lemma Apply_terminal current command :
  IsTerminal current = true → ∃ e, Apply current command = Err e.
Proof.
  intros Hterm. destruct (Apply current command) as [t|e|] eqn:E; [|by exists e|].
  - apply Apply_Ok in E as (_ & _ & ? & _). congruence.
  - by apply Apply_not_Panic in E.
Qed.

Lemma Apply_To_valid current command t :
  Apply current command = Ok t → TaskStatus_Validate (Transition_To t) = None.
Proof.
  intros (_ & _ & _ & [Hin| ->])%Apply_Ok; [|reflexivity].
  repeat (apply elem_of_cons in Hin as [->|Hin]; [reflexivity|]). inversion Hin.
Qed.

(** Every status but [rejected] is reached. *)
Definition reachable_statuses : list TaskStatus :=
  [TaskCreated; TaskAccepted; TaskPlanning; TaskRunning; TaskWaitingInput; TaskWaitingTool;
   TaskWaitingApproval; TaskBlocked; TaskPaused; TaskCompleted; TaskFailed; TaskCancelled].

Lemma task_step_reachable_statuses s s' :
  task_step s s' → s' ∈ reachable_statuses.
Proof.
  destruct 1 as [current command t Hstep].
  apply Apply_Ok in Hstep as (_ & _ & _ & [Hin| ->]); apply mem_string_elem; [|reflexivity].
  repeat (apply elem_of_cons in Hin as [->|Hin]; [reflexivity|]). inversion Hin.
Qed.

Lemma step_by current command t :
  Apply current command = Ok t → task_step current (Transition_To t).
Proof. apply task_step_apply. Qed.

(** [reach_by [c1; ...; cn]] runs the commands one after the other. *)
Ltac reach_by cs :=
  lazymatch cs with
  | [] => apply rtc_refl
  | ?c :: ?cs' =>
      lazymatch goal with
      | |- rtc task_step ?s _ =>
          let r := eval vm_compute in (Apply s c) in
          lazymatch r with
          | Ok ?t =>
              apply (rtc_l _ _ (Transition_To t));
              [apply (step_by s c t); reflexivity | simpl; reach_by cs']
          end
      end
  end.

(** The statuses a task can reach from [created] are exactly the declared ones
    other than [rejected]: no command of the machine leads to [rejected]. *)
Theorem task_reachable_iff status :
  task_reachable status ↔ status ∈ reachable_statuses.
Proof.
  split.
  - intros [<-|(s & _ & Hs)]%rtc_inv_r; [apply mem_string_elem; reflexivity|].
    by eapply task_step_reachable_statuses.
  - intros Hin. unfold task_reachable, reachable_statuses in *.
    assert (Hrun : rtc task_step TaskCreated TaskRunning)
      by reach_by [CmdAccept; CmdPlanStarted; CmdRunStarted].
    repeat (apply elem_of_cons in Hin as [->|Hin]); [..|inversion Hin].
    1: done.
    1: reach_by [CmdAccept].
    1: reach_by [CmdAccept; CmdPlanStarted].
    1: done.
    all: try (etrans; [exact Hrun|]).
    1: reach_by [CmdAskClarification].
    1: reach_by [CmdToolWaiting].
    1: reach_by [CmdApprovalRequired].
    1: reach_by [CmdApprovalRequired; CmdRejectAction].
    1: reach_by [CmdPause].
    1: reach_by [CmdComplete].
    1: reach_by [CmdFail].
    reach_by [CmdCancel].
Qed.

(** A status is terminal exactly when no command applies to it: the machine
    never leaves a terminal status, and every other status can move. *)
Theorem task_terminal_iff_stuck status :
  IsTerminal status = true ↔ ∀ status', ¬ task_step status status'.
Proof.
  split.
  - intros Hterm status' Hst. inversion Hst as [current command t Hstep]; subst.
    destruct (Apply_terminal status command Hterm) as [e He]. congruence.
  - intros Hstuck. destruct (IsTerminal status) eqn:Hterm; [done|]. exfalso.
    apply (Hstuck TaskCancelled).
    apply (step_by status CmdCancel
      (mkTransition status CmdCancel TaskCancelled true "task.cancelled")).
    unfold Apply. by rewrite Hterm.
Qed.
