(* ===== verification/TaskRepo.v ===== *)
(** * Task and event storage: internal/task/repository/memory.go

    [InMemoryStore] keeps tasks and events together and offers the two atomic
    operations; [InMemoryTaskRepository] and [InMemoryEventRepository] keep them
    apart.  The mutex makes each method one atomic step.  The classes at the end
    are the Go interfaces, with the laws the task service relies on. *)

From S2P Require Import Prelude Contracts GoMonad Storage.
From stdpp Require Import base list strings gmap fin_maps fin_sets sorting.
Open Scope go_scope.
Open Scope string_scope.
Open Scope list_scope.

Definition eventLess (a b : TaskEvent) : bool :=
  if Equal a.(TaskEvent_CreatedAt) b.(TaskEvent_CreatedAt)
  then string_lt a.(TaskEvent_EventID) b.(TaskEvent_EventID)
  else Before a.(TaskEvent_CreatedAt) b.(TaskEvent_CreatedAt).

(** [events[len(events)-limit:]] when there are more than [limit > 0]. *)
Definition limit_events (events : list TaskEvent) (limit : Z) : list TaskEvent :=
  if (limit >? 0)%Z && (len events >? limit)%Z
  then drop (Z.to_nat (len events - limit)) events
  else events.

Definition createdBefore (a b : Task) : bool :=
  Before a.(Task_CreatedAt) b.(Task_CreatedAt).

Section repositories.
Context `{Env}.

(** ** [InMemoryStore] *)

Record InMemoryStore := mkInMemoryStore {
  tasks : gmap string Task;
  events : gmap string (list TaskEvent);
  ids : gset string
}.
#[export] Instance eta_InMemoryStore : Settable InMemoryStore :=
  fields! mkInMemoryStore < tasks ; events ; ids >.

Definition NewInMemoryStore : InMemoryStore := mkInMemoryStore ∅ ∅ ∅.

Definition appendEventLocked (event : TaskEvent) : M InMemoryStore unit :=
  let! r := get in
  let list := default [] (r.(events) !! event.(TaskEvent_TaskID)) ++ [event] in
  put (r <| ids := {[event.(TaskEvent_EventID)]} ∪ r.(ids) |>
         <| events := <[event.(TaskEvent_TaskID) := stable_sort eventLess list]> r.(events) |>).

Definition updateTaskLocked (task : Task) (expectedVersion : Z) : M InMemoryStore unit :=
  let! r := get in
  match r.(tasks) !! task.(Task_TaskID) with
  | None => throw ErrNotFound
  | Some existing =>
      if negb (existing.(Task_Version) =? expectedVersion)%Z then throw ErrConflict
      else
        let task := task <| Task_Version := int64 (expectedVersion + 1) |> in
        let task := task <| Task_UpdatedAt := UTC task.(Task_UpdatedAt) |> in
        put (r <| tasks := <[task.(Task_TaskID) := task]> r.(tasks) |>)
  end.

Definition Create (task : Task) : M InMemoryStore unit :=
  let! r := get in
  match r.(tasks) !! task.(Task_TaskID) with
  | Some _ => throw ErrDuplicateRequest
  | None => put (r <| tasks := <[task.(Task_TaskID) := task]> r.(tasks) |>)
  end.

Definition CreateTaskAndAppendEvent (task : Task) (event : TaskEvent) : M InMemoryStore unit :=
  let! r := get in
  match r.(tasks) !! task.(Task_TaskID) with
  | Some _ => throw ErrDuplicateRequest
  | None =>
      if bool_decide (event.(TaskEvent_EventID) ∈ r.(ids)) then throw ErrDuplicateRequest
      else
        do! put (r <| tasks := <[task.(Task_TaskID) := task]> r.(tasks) |>) in
        appendEventLocked event
  end.

Definition Get (taskID : string) : M InMemoryStore Task :=
  let! r := get in
  match r.(tasks) !! taskID with
  | None => throw ErrNotFound
  | Some task => ret task
  end.

Definition UpdateWithVersion (task : Task) (expectedVersion : Z) : M InMemoryStore unit :=
  updateTaskLocked task expectedVersion.

Definition UpdateWithVersionAndAppendEvent (task : Task) (expectedVersion : Z)
    (event : TaskEvent) : M InMemoryStore unit :=
  let! r := get in
  if bool_decide (event.(TaskEvent_EventID) ∈ r.(ids)) then throw ErrDuplicateRequest
  else
    do! updateTaskLocked task expectedVersion in
    appendEventLocked event.

Definition ListByTenantStatus (tenantID : string) (status : TaskStatus)
  : M InMemoryStore (list Task) :=
  let! r := get in
  let! entries := range_map r.(tasks) in
  let out := List.filter
    (λ task, (task.(Task_TenantID) == tenantID) && (task.(Task_Status) == status))
    (map snd entries) in
  ret (stable_sort createdBefore out).

Definition Append (event : TaskEvent) : M InMemoryStore unit :=
  let! r := get in
  if bool_decide (event.(TaskEvent_EventID) ∈ r.(ids)) then throw ErrDuplicateRequest
  else appendEventLocked event.

Definition listByTask (taskID : string) (limit : Z) : M InMemoryStore (list TaskEvent) :=
  let! r := get in
  ret (limit_events (default [] (r.(events) !! taskID)) limit).

Definition ListByTask (taskID : string) : M InMemoryStore (list TaskEvent) :=
  listByTask taskID 0.

Definition ListByTaskLimit (taskID : string) (limit : Z) : M InMemoryStore (list TaskEvent) :=
  listByTask taskID limit.

(** ** The split repositories *)

Record InMemoryTaskRepository := mkInMemoryTaskRepository { trepo_tasks : gmap string Task }.
#[export] Instance eta_InMemoryTaskRepository : Settable InMemoryTaskRepository :=
  fields! mkInMemoryTaskRepository < trepo_tasks >.

Definition NewInMemoryTaskRepository : InMemoryTaskRepository := mkInMemoryTaskRepository ∅.

Definition TaskRepository_Create (task : Task) : M InMemoryTaskRepository unit :=
  let! r := get in
  match r.(trepo_tasks) !! task.(Task_TaskID) with
  | Some _ => throw ErrDuplicateRequest
  | None => put (r <| trepo_tasks := <[task.(Task_TaskID) := task]> r.(trepo_tasks) |>)
  end.

Definition TaskRepository_Get (taskID : string) : M InMemoryTaskRepository Task :=
  let! r := get in
  match r.(trepo_tasks) !! taskID with
  | None => throw ErrNotFound
  | Some task => ret task
  end.

Definition TaskRepository_UpdateWithVersion (task : Task) (expectedVersion : Z)
  : M InMemoryTaskRepository unit :=
  let! r := get in
  match r.(trepo_tasks) !! task.(Task_TaskID) with
  | None => throw ErrNotFound
  | Some existing =>
      if negb (existing.(Task_Version) =? expectedVersion)%Z then throw ErrConflict
      else
        let task := task <| Task_Version := int64 (expectedVersion + 1) |> in
        let task := task <| Task_UpdatedAt := UTC task.(Task_UpdatedAt) |> in
        put (r <| trepo_tasks := <[task.(Task_TaskID) := task]> r.(trepo_tasks) |>)
  end.

Definition TaskRepository_ListByTenantStatus (tenantID : string) (status : TaskStatus)
  : M InMemoryTaskRepository (list Task) :=
  let! r := get in
  let! entries := range_map r.(trepo_tasks) in
  let out := List.filter
    (λ task, (task.(Task_TenantID) == tenantID) && (task.(Task_Status) == status))
    (map snd entries) in
  ret (stable_sort createdBefore out).

Record InMemoryEventRepository := mkInMemoryEventRepository {
  erepo_events : gmap string (list TaskEvent);
  erepo_ids : gset string
}.
#[export] Instance eta_InMemoryEventRepository : Settable InMemoryEventRepository :=
  fields! mkInMemoryEventRepository < erepo_events ; erepo_ids >.

Definition NewInMemoryEventRepository : InMemoryEventRepository := mkInMemoryEventRepository ∅ ∅.

Definition EventRepository_Append (event : TaskEvent) : M InMemoryEventRepository unit :=
  let! r := get in
  if bool_decide (event.(TaskEvent_EventID) ∈ r.(erepo_ids)) then throw ErrDuplicateRequest
  else
    let list := default [] (r.(erepo_events) !! event.(TaskEvent_TaskID)) ++ [event] in
    put (r <| erepo_ids := {[event.(TaskEvent_EventID)]} ∪ r.(erepo_ids) |>
           <| erepo_events :=
                <[event.(TaskEvent_TaskID) := stable_sort eventLess list]> r.(erepo_events) |>).

Definition EventRepository_listByTask (taskID : string) (limit : Z)
  : M InMemoryEventRepository (list TaskEvent) :=
  let! r := get in
  ret (limit_events (default [] (r.(erepo_events) !! taskID)) limit).

Definition EventRepository_ListByTask (taskID : string)
  : M InMemoryEventRepository (list TaskEvent) := EventRepository_listByTask taskID 0.

Definition EventRepository_ListByTaskLimit (taskID : string) (limit : Z)
  : M InMemoryEventRepository (list TaskEvent) := EventRepository_listByTask taskID limit.

End repositories.

Definition IsNotFound (err : error) : bool :=
  match err with ErrSentinel m => m == "repository: not found" | _ => false end.

Definition NewTask (taskID tenantID agentID agentVersion policySetID title objective : string)
    (now : Time) : Task :=
  zeroTask <| Task_TaskID := taskID |> <| Task_TenantID := tenantID |>
    <| Task_Title := title |> <| Task_Objective := objective |>
    <| Task_Status := TaskCreated |> <| Task_AgentID := agentID |>
    <| Task_AgentVersion := agentVersion |> <| Task_PolicySetID := policySetID |>
    <| Task_SchemaVersion := "v1.0-alpha" |> <| Task_Version := 0%Z |>
    <| Task_CreatedAt := UTC now |> <| Task_UpdatedAt := UTC now |>.

(** ** The Go interfaces and their laws *)

Class TaskRepository (S : Type) := {
  repo_Create : Task → M S unit;
  repo_Get : string → M S Task;
  repo_UpdateWithVersion : Task → Z → M S unit;
  repo_ListByTenantStatus : string → TaskStatus → M S (list Task)
}.

Class EventRepository (S : Type) := {
  repo_Append : TaskEvent → M S unit;
  repo_ListByTask : string → M S (list TaskEvent);
  repo_ListByTaskLimit : string → Z → M S (list TaskEvent)
}.

Class AtomicRepository (S : Type) := {
  repo_CreateTaskAndAppendEvent : Task → TaskEvent → M S unit;
  repo_UpdateWithVersionAndAppendEvent : Task → Z → TaskEvent → M S unit
}.

#[export] Instance store_tasks `{Env} : TaskRepository InMemoryStore := {|
  repo_Create := Create; repo_Get := Get;
  repo_UpdateWithVersion := UpdateWithVersion;
  repo_ListByTenantStatus := ListByTenantStatus
|}.
#[export] Instance store_events : EventRepository InMemoryStore := {|
  repo_Append := Append; repo_ListByTask := ListByTask; repo_ListByTaskLimit := ListByTaskLimit
|}.
#[export] Instance store_atomic : AtomicRepository InMemoryStore := {|
  repo_CreateTaskAndAppendEvent := CreateTaskAndAppendEvent;
  repo_UpdateWithVersionAndAppendEvent := UpdateWithVersionAndAppendEvent
|}.

(** The two split repositories side by side. *)
Definition SplitRepo : Type := InMemoryTaskRepository * InMemoryEventRepository.
Definition on_tasks {A} (m : M InMemoryTaskRepository A) : M SplitRepo A :=
  zoom fst (λ t s, (t, s.2)) m.
Definition on_events {A} (m : M InMemoryEventRepository A) : M SplitRepo A :=
  zoom snd (λ e s, (s.1, e)) m.

#[export] Instance split_tasks `{Env} : TaskRepository SplitRepo := {|
  repo_Create t := on_tasks (TaskRepository_Create t);
  repo_Get k := on_tasks (TaskRepository_Get k);
  repo_UpdateWithVersion t v := on_tasks (TaskRepository_UpdateWithVersion t v);
  repo_ListByTenantStatus n st := on_tasks (TaskRepository_ListByTenantStatus n st)
|}.
#[export] Instance split_events : EventRepository SplitRepo := {|
  repo_Append e := on_events (EventRepository_Append e);
  repo_ListByTask k := on_events (EventRepository_ListByTask k);
  repo_ListByTaskLimit k l := on_events (EventRepository_ListByTaskLimit k l)
|}.

(** What the task service relies on: every method does on the implementation what
    the method of [InMemoryStore] does on its view. *)
Class TaskStoreLaws (S : Type) `{Env, TaskRepository S, EventRepository S}
    (view : S → InMemoryStore) : Prop := {
  law_Create t : refines view (repo_Create t) (Create t);
  law_Get k : refines view (repo_Get k) (Get k);
  law_UpdateWithVersion t v : refines view (repo_UpdateWithVersion t v) (UpdateWithVersion t v);
  law_ListByTenantStatus n st :
    refines view (repo_ListByTenantStatus n st) (ListByTenantStatus n st);
  law_Append e : refines view (repo_Append e) (Append e);
  law_ListByTask k : refines view (repo_ListByTask k) (ListByTask k);
  law_ListByTaskLimit k l : refines view (repo_ListByTaskLimit k l) (ListByTaskLimit k l)
}.
#[export] Hint Resolve law_Create law_Get law_UpdateWithVersion law_ListByTenantStatus
  law_Append law_ListByTask law_ListByTaskLimit : refines.

Lemma refines_id {S A} (m : M S A) : refines id m m.
Proof. intros w s. unfold id. by destruct (m w s) as [[? ?] ?]. Qed.

#[export] Instance store_laws `{Env} : TaskStoreLaws InMemoryStore id.
Proof. split; intros; apply refines_id. Qed.

Definition split_view (s : SplitRepo) : InMemoryStore :=
  mkInMemoryStore (s.1.(trepo_tasks)) (s.2.(erepo_events)) (s.2.(erepo_ids)).

(** Runs a repository method on both sides of a refinement. *)
Ltac solve_refines :=
  intros w [[ts] [es eids]];
  unfold zoom, bind, get, put, throw, ret, range_map, lift_env; simpl;
  repeat (case_match; simplify_eq/=); reflexivity.

#[export] Instance split_laws `{Env} : TaskStoreLaws SplitRepo split_view.
Proof.
  split; intros;
    unfold repo_Create, repo_Get, repo_UpdateWithVersion, repo_ListByTenantStatus,
      repo_Append, repo_ListByTask, repo_ListByTaskLimit, split_tasks, split_events,
      on_tasks, on_events, split_view,
      Create, TaskRepository_Create, Get, TaskRepository_Get, UpdateWithVersion,
      updateTaskLocked, TaskRepository_UpdateWithVersion, ListByTenantStatus,
      TaskRepository_ListByTenantStatus, Append, appendEventLocked, EventRepository_Append,
      ListByTask, listByTask, EventRepository_ListByTask, EventRepository_listByTask,
      ListByTaskLimit, EventRepository_ListByTaskLimit;
    solve_refines.
Qed.

(** ** The methods that write the store, as steps *)

Inductive StoreOp :=
| OpCreate (t : Task)
| OpCreateTaskAndAppendEvent (t : Task) (e : TaskEvent)
| OpUpdateWithVersion (t : Task) (v : Z)
| OpUpdateWithVersionAndAppendEvent (t : Task) (v : Z) (e : TaskEvent)
| OpAppend (e : TaskEvent).

Definition run_store_op (op : StoreOp) : M InMemoryStore unit :=
  match op with
  | OpCreate t => Create t
  | OpCreateTaskAndAppendEvent t e => CreateTaskAndAppendEvent t e
  | OpUpdateWithVersion t v => UpdateWithVersion t v
  | OpUpdateWithVersionAndAppendEvent t v e => UpdateWithVersionAndAppendEvent t v e
  | OpAppend e => Append e
  end.

Inductive store_step : InMemoryStore → InMemoryStore → Prop :=
| store_step_op op w s r w' s' : run_store_op op w s = (r, w', s') → store_step s s'.

(** ** Facts *)

Lemma eventLess_asym a b : eventLess a b = true → le_of eventLess a b.
Proof.
  unfold le_of, eventLess, Equal, Before.
  destruct (Z.eqb_spec (TaskEvent_CreatedAt a) (TaskEvent_CreatedAt b)) as [->|Hne].
  - rewrite Z.eqb_refl. apply string_lt_asym.
  - intros Hlt%Z.ltb_lt. destruct (Z.eqb_spec (TaskEvent_CreatedAt b) (TaskEvent_CreatedAt a));
      [congruence|apply Z.ltb_ge; lia].
Qed.

Lemma eventLess_trans a b c : le_of eventLess a b → le_of eventLess b c → le_of eventLess a c.
Proof.
  unfold le_of, eventLess, Equal, Before.
  destruct (Z.eqb_spec (TaskEvent_CreatedAt b) (TaskEvent_CreatedAt a));
  destruct (Z.eqb_spec (TaskEvent_CreatedAt c) (TaskEvent_CreatedAt b));
  destruct (Z.eqb_spec (TaskEvent_CreatedAt c) (TaskEvent_CreatedAt a));
    rewrite ?Z.ltb_ge; try (intros; lia).
  - apply string_lt_le_trans.
Qed.

Lemma eventLess_Sorted l : StronglySorted (le_of eventLess) (stable_sort eventLess l).
Proof. apply stable_sort_Sorted; [apply eventLess_trans | apply eventLess_asym]. Qed.

(** An event that is not older than the stored ones is appended at the end. *)
Lemma eventLess_snoc l e :
  StronglySorted (le_of eventLess) l →
  Forall (λ x, TaskEvent_CreatedAt x < TaskEvent_CreatedAt e)%Z l →
  stable_sort eventLess (l ++ [e]) = l ++ [e].
Proof.
  intros Hl Hx. apply stable_sort_snoc; [done|].
  eapply Forall_impl; [exact Hx|]. intros x Hlt. cbn in Hlt. apply eventLess_asym.
  unfold eventLess, Equal, Before.
  destruct (Z.eqb_spec (TaskEvent_CreatedAt x) (TaskEvent_CreatedAt e)); [lia|].
  by apply Z.ltb_lt.
Qed.

(** The event log of a task; a missing entry is a nil slice. *)
Definition log_of (s : InMemoryStore) (taskID : string) : list TaskEvent :=
  default [] (s.(events) !! taskID).

(** The store's invariant: tasks are filed under their id; [ids] holds the id of
    every event and of nothing else; an event is in the log of its task; the ids of
    the events are pairwise different, across tasks too; logs are in order. *)
Record store_wf (s : InMemoryStore) : Prop := {
  wf_tasks k t : s.(tasks) !! k = Some t → Task_TaskID t = k;
  wf_ids id : id ∈ s.(ids) ↔ ∃ k e, e ∈ log_of s k ∧ TaskEvent_EventID e = id;
  wf_events k e : e ∈ log_of s k → TaskEvent_TaskID e = k;
  wf_unique k k' e e' : e ∈ log_of s k → e' ∈ log_of s k' →
    TaskEvent_EventID e = TaskEvent_EventID e' → e = e';
  wf_nodup k : NoDup (log_of s k);
  wf_sorted k : StronglySorted (le_of eventLess) (log_of s k)
}.

Lemma NewInMemoryStore_wf : store_wf NewInMemoryStore.
Proof.
  split; unfold log_of; simpl; intros *; rewrite ?lookup_empty; simpl; try set_solver; constructor.
Qed.

(** [appendEventLocked] as a function of the state. *)
Definition append_event (e : TaskEvent) (s : InMemoryStore) : InMemoryStore :=
  s <| ids := {[e.(TaskEvent_EventID)]} ∪ s.(ids) |>
    <| events := <[e.(TaskEvent_TaskID) :=
         stable_sort eventLess (log_of s e.(TaskEvent_TaskID) ++ [e])]> s.(events) |>.

Lemma appendEventLocked_run e w s :
  appendEventLocked e w s = (Ok tt, w, append_event e s).
Proof. reflexivity. Qed.

Lemma append_event_log e s k :
  log_of (append_event e s) k =
    if decide (TaskEvent_TaskID e = k) then stable_sort eventLess (log_of s k ++ [e])
    else log_of s k.
Proof.
  unfold log_of at 1, append_event. simpl. destruct (decide _) as [<-|Hne].
  - by rewrite lookup_insert_eq.
  - by rewrite lookup_insert_ne.
Qed.

Lemma append_event_elem e s k x :
  x ∈ log_of (append_event e s) k ↔ x ∈ log_of s k ∨ (x = e ∧ TaskEvent_TaskID e = k).
Proof.
  rewrite append_event_log. destruct (decide _); [|naive_solver].
  rewrite stable_sort_elem, elem_of_app, list_elem_of_singleton. naive_solver.
Qed.

Lemma append_event_wf e s :
  store_wf s → TaskEvent_EventID e ∉ s.(ids) → store_wf (append_event e s).
Proof.
  intros [Ht Hids Hev Huniq Hnd Hs] Hfresh. split.
  - exact Ht.
  - intros id. unfold append_event at 1. simpl. rewrite elem_of_union, elem_of_singleton, Hids.
    setoid_rewrite append_event_elem. naive_solver.
  - intros k x. rewrite append_event_elem. naive_solver.
  - intros k k' x x'. rewrite !append_event_elem, Hids in *.
    intros [Hx|[-> _]] [Hx'|[-> _]] Heq; [by eapply Huniq| | |done];
      destruct Hfresh; eauto.
  - intros k. rewrite append_event_log. destruct (decide _); [|done].
    rewrite stable_sort_perm. apply NoDup_app. repeat split; [done| |apply NoDup_singleton].
    intros x Hx ->%list_elem_of_singleton. destruct Hfresh. apply Hids. eauto.
  - intros k. rewrite append_event_log. destruct (decide _); [apply eventLess_Sorted|done].
Qed.

Lemma insert_task_wf i t s :
  Task_TaskID t = i → store_wf s → store_wf (s <| tasks := <[i := t]> s.(tasks) |>).
Proof.
  intros Hi [Ht ?????]. split; try done. intros k u. simpl.
  destruct (decide (i = k)) as [<-|]; [|rewrite lookup_insert_ne by done; apply Ht].
  rewrite lookup_insert_eq. by intros [= <-].
Qed.

(** [updateTaskLocked] as a function of the state. *)
Definition update_task (t : Task) (v : Z) (s : InMemoryStore) : InMemoryStore :=
  s <| tasks := <[Task_TaskID t :=
         t <| Task_Version := int64 (v + 1) |> <| Task_UpdatedAt := UTC t.(Task_UpdatedAt) |>]>
       s.(tasks) |>.

(** The three outcomes of a versioned update. *)
Inductive update_outcome (t : Task) (v : Z) (s : InMemoryStore) :
    Res unit → InMemoryStore → Prop :=
| update_missing :
    s.(tasks) !! Task_TaskID t = None → update_outcome t v s (Err ErrNotFound) s
| update_conflict old :
    s.(tasks) !! Task_TaskID t = Some old → Task_Version old ≠ v →
    update_outcome t v s (Err ErrConflict) s
| update_done old :
    s.(tasks) !! Task_TaskID t = Some old → Task_Version old = v →
    update_outcome t v s (Ok tt) (update_task t v s).

Lemma updateTaskLocked_run t v w s :
  ∃ r s', updateTaskLocked t v w s = (r, w, s') ∧ update_outcome t v s r s'.
Proof.
  unfold updateTaskLocked, bind, get, put, throw; simpl.
  destruct (tasks s !! Task_TaskID t) as [old|] eqn:E.
  - destruct (Z.eqb_spec (Task_Version old) v); simpl; eauto using update_outcome.
  - eauto using update_outcome.
Qed.

(** ... and of an update with an event: a used event id refuses it. *)
Lemma UpdateWithVersionAndAppendEvent_run t v e w s :
  ∃ r s', UpdateWithVersionAndAppendEvent t v e w s = (r, w, s') ∧
    ((r = Err ErrDuplicateRequest ∧ s' = s ∧ TaskEvent_EventID e ∈ s.(ids)) ∨
     (TaskEvent_EventID e ∉ s.(ids) ∧ ∃ s1, update_outcome t v s r s1 ∧
        s' = match r with Ok _ => append_event e s1 | _ => s end)).
Proof.
  unfold UpdateWithVersionAndAppendEvent. rewrite (bind_Ok _ _ w s s w s eq_refl). cbn beta.
  case_bool_decide as Hin; [eauto 10|].
  destruct (updateTaskLocked_run t v w s) as (r & s1 & E & Ho).
  destruct Ho; [exists (Err ErrNotFound), s | exists (Err ErrConflict), s | exists (Ok tt),
    (append_event e (update_task t v s))].
  all: unfold bind; rewrite E; eauto 10 using update_outcome.
Qed.

Lemma update_task_wf t v s : store_wf s → store_wf (update_task t v s).
Proof. by apply insert_task_wf. Qed.

Lemma store_step_wf s s' : store_step s s' → store_wf s → store_wf s'.
Proof.
  intros Hst Hwf. destruct Hst as [op w s r w' s' E]. destruct op as [t|t e|t v|t v e|e]; simpl in E.
  - unfold Create, bind, get, put, throw in E. simpl in E.
    case_match; simplify_eq; [done|by apply insert_task_wf].
  - unfold CreateTaskAndAppendEvent, bind, get, put, throw in E. simpl in E.
    case_match; simplify_eq; [done|]. case_bool_decide; simplify_eq; [done|].
    rewrite appendEventLocked_run in E. simplify_eq. apply append_event_wf; [by apply insert_task_wf|done].
  - unfold UpdateWithVersion in E. destruct (updateTaskLocked_run t v w s) as (r1 & s1 & E' & Ho).
    rewrite E' in E. simplify_eq. destruct Ho; [done|done|by apply update_task_wf].
  - destruct (UpdateWithVersionAndAppendEvent_run t v e w s) as (r1 & s1 & E' & Ho).
    rewrite E' in E. simplify_eq. destruct Ho as [(_ & -> & _)|(Hn & s2 & Ho & ->)]; [done|].
    destruct Ho; [done|done|]. apply append_event_wf; [by apply update_task_wf|done].
  - unfold Append, bind, get, put, throw in E. simpl in E.
    case_bool_decide; simplify_eq; [done|]. rewrite appendEventLocked_run in E.
    simplify_eq. by apply append_event_wf.
Qed.

Lemma version_moves v : is_int64 v → int64 (v + 1) ≠ v.
Proof.
  intros Hv. destruct (decide (v = 2 ^ 63 - 1)%Z) as [->|Hne]; [by vm_compute|].
  unfold is_int64 in Hv. rewrite int64_id by (unfold is_int64; lia). lia.
Qed.

(** C1. Every store reached from the empty one by calls of its methods, successful or
    not, is well formed: a task is filed under its id, the [ids] set holds the ids
    of the stored events and nothing else, an event lies in the log of its task, no
    two events anywhere share an id, and every log is in [eventLess] order. *)
Theorem store_reachable_wf s :
  rtc store_step NewInMemoryStore s → store_wf s.
Proof.
  revert s. apply rtc_ind_r; [apply NewInMemoryStore_wf|].
  intros s1 s2 _ Hst IH. by eapply store_step_wf.
Qed.

Definition test_task : Task :=
  NewTask "t1" "tenant" "agent" "v1" "ps" "title" "objective" 5.
Definition test_event (id : string) : TaskEvent :=
  zeroTaskEvent <| TaskEvent_EventID := id |> <| TaskEvent_TaskID := "t1" |>
    <| TaskEvent_Type := "task.created" |> <| TaskEvent_CreatedAt := 7%Z |>.
Definition test_store : InMemoryStore :=
  append_event (test_event "e1") (NewInMemoryStore <| tasks := {["t1" := test_task]} |>).

Lemma store_reachable_wf_witness : store_wf test_store.
Proof.
  apply store_reachable_wf. apply rtc_once.
  apply (store_step_op (OpCreateTaskAndAppendEvent test_task (test_event "e1")) world0
    NewInMemoryStore (Ok tt) world0 test_store).
  vm_compute. reflexivity.
Defined.

(** Optimistic locking: of two writers that read the same version of a task, only
    the first one to write succeeds.  Its write advances the version, modulo 2^64,
    and the second writer is refused with a conflict and changes nothing. *)
Theorem optimistic_lock t1 e1 t2 e2 v w s w1 s1 :
  is_int64 v → Task_TaskID t1 = Task_TaskID t2 → TaskEvent_EventID e1 ≠ TaskEvent_EventID e2 →
  TaskEvent_EventID e2 ∉ s.(ids) →
  UpdateWithVersionAndAppendEvent t1 v e1 w s = (Ok tt, w1, s1) →
  option_map Task_Version (s1.(tasks) !! Task_TaskID t1) = Some (int64 (v + 1)) ∧
  UpdateWithVersionAndAppendEvent t2 v e2 w1 s1 = (Err ErrConflict, w1, s1).
Proof.
  intros Hv Hid Hne Hfresh E.
  destruct (UpdateWithVersionAndAppendEvent_run t1 v e1 w s) as (r & s' & E' & Ho).
  rewrite E' in E. simplify_eq. destruct Ho as [(? & _)|(Hn & s2 & Ho & ->)]; [done|].
  inversion Ho as [| |old Hold Hver]; subst.
  set (s2 := update_task _ _ _).
  assert (Hnew : tasks (append_event e1 s2) !! Task_TaskID t1 =
      Some (t1 <| Task_Version := int64 (Task_Version old + 1) |>
               <| Task_UpdatedAt := UTC t1.(Task_UpdatedAt) |>))
    by (unfold append_event, s2, update_task; simpl; by rewrite lookup_insert_eq).
  split; [by rewrite Hnew|].
  destruct (UpdateWithVersionAndAppendEvent_run t2 (Task_Version old) e2 w1 (append_event e1 s2))
    as (r2 & s3 & -> & [(_ & _ & Hin)|(_ & s4 & Ho2 & ->)]).
  - unfold append_event, s2 in Hin. simpl in Hin. set_solver.
  - destruct Ho2 as [Hlk|old2 Hlk Hneq|old2 Hlk Heq]; rewrite <- Hid, Hnew in Hlk; simplify_eq/=.
    + done.
    + by apply version_moves in Hv.
Qed.

Lemma optimistic_lock_witness :
  ∃ s1, UpdateWithVersionAndAppendEvent test_task 0 (test_event "e2") world0 test_store
          = (Ok tt, world0, s1) ∧
        UpdateWithVersionAndAppendEvent test_task 0 (test_event "e3") world0 s1
          = (Err ErrConflict, world0, s1).
Proof.
  eexists. split; [vm_compute; reflexivity|].
  refine (proj2 (optimistic_lock test_task (test_event "e2") test_task (test_event "e3") 0
    world0 test_store world0 _ _ _ _ _ _)).
  - unfold is_int64. lia.
  - reflexivity.
  - discriminate.
  - by apply (bool_decide_unpack _), I.
  - vm_compute. reflexivity.
Defined.
