(* ===== verification/Observability.v ===== *)
(** * Searching the audit and trace logs

    The queries of internal/governance/audit/logger.go and
    internal/governance/trace/recorder.go over the logs that [audit_Log] and
    [trace_Record] of GoMonad.v write. *)

From S2P Require Import Prelude Contracts GoMonad Storage.
From stdpp Require Import base list strings gmap fin_maps sorting.
Open Scope go_scope.
Open Scope string_scope.
Open Scope list_scope.

(** ** Audit *)

Record Filter := mkFilter {
  Filter_TenantID : string;
  Filter_Action : string;
  Filter_ResourceID : string;
  Filter_ResourceType : string;
  Filter_TraceID : string;
  Filter_RunID : string;
  Filter_TaskID : string;
  Filter_ActorID : string;
  Filter_Decision : string;
  Filter_Query : string;
  Filter_From : Time;
  Filter_To : Time;
  Filter_Limit : Z;
  Filter_Offset : Z;
  Filter_Desc : bool
}.
#[export] Instance eta_Filter : Settable Filter :=
  fields! mkFilter < Filter_TenantID ; Filter_Action ; Filter_ResourceID ; Filter_ResourceType ;
    Filter_TraceID ; Filter_RunID ; Filter_TaskID ; Filter_ActorID ; Filter_Decision ;
    Filter_Query ; Filter_From ; Filter_To ; Filter_Limit ; Filter_Offset ; Filter_Desc >.
Definition zeroFilter : Filter :=
  mkFilter "" "" "" "" "" "" "" "" "" "" zeroTime zeroTime 0 0 false.

(** One value of the searched list contains the query. *)
Definition query_matches (values : list string) (query : string) : bool :=
  existsb (λ value, Contains (ToLower value) query) values.

Definition auditEventMatchesFilter (event : AuditEvent) (filter : Filter) : bool :=
  if (filter.(Filter_TenantID) != "") && (event.(Audit_TenantID) != filter.(Filter_TenantID))
  then false else
  if (filter.(Filter_Action) != "") && (event.(Audit_Action) != filter.(Filter_Action))
  then false else
  if (filter.(Filter_ResourceID) != "") && (event.(Audit_ResourceID) != filter.(Filter_ResourceID))
  then false else
  if (filter.(Filter_ResourceType) != "") &&
     (event.(Audit_ResourceType) != filter.(Filter_ResourceType))
  then false else
  if (filter.(Filter_TraceID) != "") && (event.(Audit_TraceID) != filter.(Filter_TraceID))
  then false else
  if (filter.(Filter_RunID) != "") && (event.(Audit_RunID) != filter.(Filter_RunID))
  then false else
  if (filter.(Filter_TaskID) != "") && (event.(Audit_TaskID) != filter.(Filter_TaskID))
  then false else
  if (filter.(Filter_ActorID) != "") && (event.(Audit_ActorID) != filter.(Filter_ActorID))
  then false else
  if (filter.(Filter_Decision) != "") && (event.(Audit_Decision) != filter.(Filter_Decision))
  then false else
  if negb (IsZero filter.(Filter_From)) && Before event.(Audit_CreatedAt) filter.(Filter_From)
  then false else
  if negb (IsZero filter.(Filter_To)) && After event.(Audit_CreatedAt) filter.(Filter_To)
  then false else
  let query := ToLower (TrimSpace filter.(Filter_Query)) in
  if query == "" then true else
  query_matches
    [event.(Audit_AuditID); event.(Audit_TenantID); event.(Audit_ActorID);
     event.(Audit_ActorType); event.(Audit_Action); event.(Audit_ResourceType);
     event.(Audit_ResourceID); event.(Audit_Decision); event.(Audit_Reason);
     event.(Audit_TraceID); event.(Audit_TaskID); event.(Audit_RunID)] query.

(** The comparison of the descending search. *)
Definition auditDescLess (a b : AuditEvent) : bool :=
  if Equal a.(Audit_CreatedAt) b.(Audit_CreatedAt)
  then string_lt b.(Audit_AuditID) a.(Audit_AuditID)
  else After a.(Audit_CreatedAt) b.(Audit_CreatedAt).

Definition pageAuditEvents (events : list AuditEvent) (limit offset : Z)
  : option (list AuditEvent) := page_cut events limit offset.

Definition matchingAuditEvents (events : list AuditEvent) (filter : Filter) : list AuditEvent :=
  let out := List.filter (λ event, auditEventMatchesFilter event filter) events in
  if filter.(Filter_Desc) then stable_sort auditDescLess out else out.

Definition Search (events : list AuditEvent) (filter : Filter) : option (list AuditEvent) :=
  pageAuditEvents (matchingAuditEvents events filter) filter.(Filter_Limit)
    filter.(Filter_Offset).

Definition Count (events : list AuditEvent) (filter : Filter) : Z :=
  fold_left (λ total event,
    if auditEventMatchesFilter event filter then (total + 1)%Z else total) events 0%Z.

(** ** Trace *)

Record ListFilter := mkListFilter {
  LF_TenantID : string;
  LF_TraceID : string;
  LF_RunID : string;
  LF_TaskID : string;
  LF_Type : string;
  LF_Query : string;
  LF_From : option Time;
  LF_To : option Time;
  LF_Limit : Z;
  LF_Offset : Z
}.
#[export] Instance eta_ListFilter : Settable ListFilter :=
  fields! mkListFilter < LF_TenantID ; LF_TraceID ; LF_RunID ; LF_TaskID ; LF_Type ; LF_Query ;
    LF_From ; LF_To ; LF_Limit ; LF_Offset >.

Record SummaryFilter := mkSummaryFilter {
  SF_TenantID : string;
  SF_TraceID : string;
  SF_RunID : string;
  SF_TaskID : string;
  SF_Type : string;
  SF_Status : RunStatus;
  SF_Query : string;
  SF_From : option Time;
  SF_To : option Time;
  SF_Limit : Z;
  SF_Offset : Z
}.
#[export] Instance eta_SummaryFilter : Settable SummaryFilter :=
  fields! mkSummaryFilter < SF_TenantID ; SF_TraceID ; SF_RunID ; SF_TaskID ; SF_Type ;
    SF_Status ; SF_Query ; SF_From ; SF_To ; SF_Limit ; SF_Offset >.
Definition zeroSummaryFilter : SummaryFilter :=
  mkSummaryFilter "" "" "" "" "" "" "" None None 0 0.

Record Summary := mkSummary {
  Summary_TraceID : string;
  Summary_TenantID : string;
  Summary_PrimaryRunID : string;
  Summary_TaskID : string;
  Summary_AgentID : string;
  Summary_Status : RunStatus;
  Summary_EventCount : Z;
  Summary_FirstAt : Time;
  Summary_LastAt : Time;
  Summary_LatestEventType : string
}.
#[export] Instance eta_Summary : Settable Summary :=
  fields! mkSummary < Summary_TraceID ; Summary_TenantID ; Summary_PrimaryRunID ;
    Summary_TaskID ; Summary_AgentID ; Summary_Status ; Summary_EventCount ; Summary_FirstAt ;
    Summary_LastAt ; Summary_LatestEventType >.
Definition zeroSummary : Summary := mkSummary "" "" "" "" "" "" 0 zeroTime zeroTime "".

Definition traceEventMatchesQuery (event : TraceEvent) (rawQuery : string) : bool :=
  let query := ToLower (TrimSpace rawQuery) in
  if query == "" then true else
  query_matches
    [event.(Trace_TraceID); event.(Trace_SpanID); event.(Trace_RunID); event.(Trace_TaskID);
     event.(Trace_Type)] query.

(** [from != nil && createdAt.Before( *from)], and the same for [to]. *)
Definition before_from (createdAt : Time) (from : option Time) : bool :=
  match from with Some t => Before createdAt t | None => false end.
Definition after_to (createdAt : Time) (to : option Time) : bool :=
  match to with Some t => After createdAt t | None => false end.

Definition traceEventMatchesListFilter (event : TraceEvent) (filter : ListFilter) : bool :=
  if (filter.(LF_TenantID) != "") && (event.(Trace_TenantID) != filter.(LF_TenantID))
  then false else
  if (filter.(LF_TraceID) != "") && (event.(Trace_TraceID) != filter.(LF_TraceID))
  then false else
  if (filter.(LF_RunID) != "") && (event.(Trace_RunID) != filter.(LF_RunID)) then false else
  if (filter.(LF_TaskID) != "") && (event.(Trace_TaskID) != filter.(LF_TaskID)) then false else
  if (filter.(LF_Type) != "") && (event.(Trace_Type) != filter.(LF_Type)) then false else
  if before_from event.(Trace_CreatedAt) filter.(LF_From) then false else
  if after_to event.(Trace_CreatedAt) filter.(LF_To) then false else
  traceEventMatchesQuery event filter.(LF_Query).

Definition traceEventMatchesSummaryFilter (event : TraceEvent) (filter : SummaryFilter) : bool :=
  if (filter.(SF_TenantID) != "") && (event.(Trace_TenantID) != filter.(SF_TenantID))
  then false else
  if (filter.(SF_TraceID) != "") && (event.(Trace_TraceID) != filter.(SF_TraceID))
  then false else
  if (filter.(SF_RunID) != "") && (event.(Trace_RunID) != filter.(SF_RunID)) then false else
  if (filter.(SF_TaskID) != "") && (event.(Trace_TaskID) != filter.(SF_TaskID)) then false else
  if (filter.(SF_Type) != "") && (event.(Trace_Type) != filter.(SF_Type)) then false else
  if before_from event.(Trace_CreatedAt) filter.(SF_From) then false else
  if after_to event.(Trace_CreatedAt) filter.(SF_To) then false else
  traceEventMatchesQuery event filter.(SF_Query).

Definition combineTraceSummaryStatus (current : RunStatus) (eventType : string) : RunStatus :=
  let lowerType := ToLower eventType in
  if Contains lowerType "failed" || Contains lowerType "denied" then RunFailed
  else if current == RunFailed then current
  else if Contains lowerType "pending_approval" || (eventType == TraceApprovalRequested)
  then RunWaitingApproval
  else if current == RunWaitingApproval then current
  else if eventType == TraceRunCreated then RunRunning
  else current.

Definition ListByTrace (events : list TraceEvent) (traceID : string) : list TraceEvent :=
  List.filter (λ event, event.(Trace_TraceID) == traceID) events.
Definition ListByRun (events : list TraceEvent) (runID : string) : list TraceEvent :=
  List.filter (λ event, event.(Trace_RunID) == runID) events.
Definition ListByTask (events : list TraceEvent) (taskID : string) : list TraceEvent :=
  List.filter (λ event, event.(Trace_TaskID) == taskID) events.

Definition traceListLess (a b : TraceEvent) : bool :=
  if Equal a.(Trace_CreatedAt) b.(Trace_CreatedAt)
  then string_lt a.(Trace_SpanID) b.(Trace_SpanID)
  else After a.(Trace_CreatedAt) b.(Trace_CreatedAt).

Definition filterPage (events : list TraceEvent) (matches : TraceEvent → bool)
    (limit offset : Z) : option (list TraceEvent) :=
  page_cut (stable_sort traceListLess (List.filter matches events)) limit offset.

Definition ListTraces (events : list TraceEvent) (filter : ListFilter)
  : option (list TraceEvent) :=
  filterPage events (λ event, traceEventMatchesListFilter event filter)
    filter.(LF_Limit) filter.(LF_Offset).

(** The summary of a trace before its first event is counted. *)
Definition newSummary (event : TraceEvent) : Summary :=
  zeroSummary <| Summary_TraceID := event.(Trace_TraceID) |>
    <| Summary_TenantID := event.(Trace_TenantID) |>
    <| Summary_FirstAt := UTC event.(Trace_CreatedAt) |>
    <| Summary_LastAt := UTC event.(Trace_CreatedAt) |>
    <| Summary_Status := RunCompleted |> <| Summary_EventCount := 0%Z |>.

(** The body of the loop on the summary of the event's trace. *)
Definition addToSummary (summary : Summary) (event : TraceEvent) : Summary :=
  let s := summary <| Summary_EventCount := (summary.(Summary_EventCount) + 1)%Z |> in
  let s := if (s.(Summary_PrimaryRunID) == "") && (event.(Trace_RunID) != "")
           then s <| Summary_PrimaryRunID := event.(Trace_RunID) |> else s in
  let s := if (s.(Summary_TaskID) == "") && (event.(Trace_TaskID) != "")
           then s <| Summary_TaskID := event.(Trace_TaskID) |> else s in
  let s := if Before event.(Trace_CreatedAt) s.(Summary_FirstAt)
           then s <| Summary_FirstAt := UTC event.(Trace_CreatedAt) |> else s in
  let s := if After event.(Trace_CreatedAt) s.(Summary_LastAt)
              || Equal event.(Trace_CreatedAt) s.(Summary_LastAt)
           then s <| Summary_LastAt := UTC event.(Trace_CreatedAt) |>
                  <| Summary_LatestEventType := event.(Trace_Type) |> else s in
  s <| Summary_Status := combineTraceSummaryStatus s.(Summary_Status) event.(Trace_Type) |>.

Definition groupSummary (filter : SummaryFilter) (grouped : gmap string Summary)
    (event : TraceEvent) : gmap string Summary :=
  if negb (traceEventMatchesSummaryFilter event filter) then grouped
  else
    let summary := default (newSummary event) (grouped !! event.(Trace_TraceID)) in
    <[event.(Trace_TraceID) := addToSummary summary event]> grouped.

Definition summaryLess (a b : Summary) : bool :=
  if Equal a.(Summary_LastAt) b.(Summary_LastAt)
  then string_lt b.(Summary_TraceID) a.(Summary_TraceID)
  else After a.(Summary_LastAt) b.(Summary_LastAt).

Definition pageTraceSummaries (summaries : list Summary) (limit offset : Z)
  : option (list Summary) := page_cut summaries limit offset.

Section summaries.
Context `{Env} {S : Type}.

Definition summaryList (events : list TraceEvent) (filter : SummaryFilter) : M S (list Summary) :=
  let grouped := fold_left (groupSummary filter) events ∅ in
  let! entries := range_map grouped in
  let out := List.filter (λ summary,
    negb ((filter.(SF_Status) != "") && (summary.(Summary_Status) != filter.(SF_Status))))
    (map snd entries) in
  ret (stable_sort summaryLess out).

Definition ListSummaries (events : list TraceEvent) (filter : SummaryFilter)
  : M S (list Summary) :=
  let! summaries := summaryList events filter in
  or_panic (pageTraceSummaries summaries filter.(SF_Limit) filter.(SF_Offset)).

Definition CountSummaries (events : list TraceEvent) (filter : SummaryFilter) : M S Z :=
  let! summaries := summaryList events filter in ret (len summaries).
End summaries.

(** ** Facts *)

Lemma auditDescLess_asym a b : auditDescLess a b = true → le_of auditDescLess a b.
Proof.
  unfold le_of, auditDescLess, Equal, After.
  destruct (Z.eqb_spec (Audit_CreatedAt a) (Audit_CreatedAt b)) as [->|Hne].
  - rewrite Z.eqb_refl. apply string_lt_asym.
  - intros Hlt%Z.ltb_lt. destruct (Z.eqb_spec (Audit_CreatedAt b) (Audit_CreatedAt a));
      [congruence|apply Z.ltb_ge; lia].
Qed.

Lemma auditDescLess_trans a b c :
  le_of auditDescLess a b → le_of auditDescLess b c → le_of auditDescLess a c.
Proof.
  unfold le_of, auditDescLess, Equal, After.
  destruct (Z.eqb_spec (Audit_CreatedAt b) (Audit_CreatedAt a));
  destruct (Z.eqb_spec (Audit_CreatedAt c) (Audit_CreatedAt b));
  destruct (Z.eqb_spec (Audit_CreatedAt c) (Audit_CreatedAt a));
    rewrite ?Z.ltb_ge; try (intros; lia).
  intros Hab Hbc. eapply string_lt_le_trans; [exact Hbc|exact Hab].
Qed.

Lemma matchingAuditEvents_perm events filter :
  matchingAuditEvents events filter
  ≡ₚ List.filter (λ e, auditEventMatchesFilter e filter) events.
Proof. unfold matchingAuditEvents. destruct (Filter_Desc filter); [apply stable_sort_perm|done]. Qed.

Lemma Count_length events filter : Count events filter = len (matchingAuditEvents events filter).
Proof.
  unfold Count, len. rewrite matchingAuditEvents_perm.
  enough (∀ n, fold_left (λ total e, if auditEventMatchesFilter e filter then (total + 1)%Z else total)
    events n = (n + len (List.filter (λ e, auditEventMatchesFilter e filter) events))%Z) as ->
    by (unfold len; lia).
  induction events as [|e l IH]; intros n; simpl; [unfold len; simpl; lia|].
  rewrite IH. unfold len. destruct (auditEventMatchesFilter e filter); simpl; lia.
Qed.

Lemma pages_complete {A} (items : list A) limit n :
  (0 < limit)%Z → (len items < 2 ^ 62)%Z → (Z.of_nat n * limit < 2 ^ 62)%Z →
  (len items ≤ Z.of_nat n * limit)%Z →
  ∃ pages, mapM (λ k, page_cut items limit (Z.of_nat k * limit)) (seq 0 n) = Some pages ∧
    concat pages = items.
Proof.
  intros Hlim Hlen Hn Hall.
  exists (map (λ k, page_spec items limit (Z.of_nat k * limit)) (seq 0 n)). split.
  - apply mapM_Some_2, Forall2_fmap_r, Forall_Forall2_diag, Forall_forall.
    intros k Hk%elem_of_seq. apply page_cut_correct; nia.
  - rewrite page_spec_concat by done. apply take_ge. unfold len in *. nia.
Qed.

(** The status of a trace whose events have these types. *)
Definition failing_type (t : string) : bool :=
  Contains (ToLower t) "failed" || Contains (ToLower t) "denied".
Definition pending_type (t : string) : bool :=
  Contains (ToLower t) "pending_approval" || (t == TraceApprovalRequested).
Definition traceStatus (types : list string) : RunStatus :=
  if existsb failing_type types then RunFailed
  else if existsb pending_type types then RunWaitingApproval
  else if existsb (λ t, t == TraceRunCreated) types then RunRunning
  else RunCompleted.

Lemma combine_traceStatus types t :
  combineTraceSummaryStatus (traceStatus types) t = traceStatus (types ++ [t]).
Proof.
  unfold combineTraceSummaryStatus, traceStatus.
  rewrite !existsb_app. simpl. rewrite !orb_false_r.
  fold (failing_type t). fold (pending_type t).
  destruct (failing_type t); [by rewrite orb_true_r|]. rewrite !orb_false_r.
  destruct (existsb failing_type types); [done|].
  destruct (pending_type t), (existsb pending_type types); simpl; try done.
  all: destruct (existsb (λ u, u == TraceRunCreated) types), (t == TraceRunCreated); done.
Qed.

(** What the summary of a trace says about its (non-empty) list of events. *)
Record summary_of (evs : list TraceEvent) (s : Summary) : Prop := {
  so_count : s.(Summary_EventCount) = len evs;
  so_first : (∃ e, e ∈ evs ∧ Trace_CreatedAt e = s.(Summary_FirstAt)) ∧
             ∀ e, e ∈ evs → (s.(Summary_FirstAt) ≤ Trace_CreatedAt e)%Z;
  so_last : (∃ e, e ∈ evs ∧ Trace_CreatedAt e = s.(Summary_LastAt) ∧
                  Trace_Type e = s.(Summary_LatestEventType)) ∧
            ∀ e, e ∈ evs → (Trace_CreatedAt e ≤ s.(Summary_LastAt))%Z;
  so_status : s.(Summary_Status) = traceStatus (map Trace_Type evs)
}.

(** [addToSummary] field by field. *)
Lemma addToSummary_fields s e :
  let s' := addToSummary s e in
  Summary_TraceID s' = Summary_TraceID s ∧
  Summary_EventCount s' = (Summary_EventCount s + 1)%Z ∧
  Summary_FirstAt s' = Z.min (Summary_FirstAt s) (Trace_CreatedAt e) ∧
  Summary_LastAt s' = Z.max (Summary_LastAt s) (Trace_CreatedAt e) ∧
  Summary_LatestEventType s' =
    (if (Summary_LastAt s <=? Trace_CreatedAt e)%Z then Trace_Type e
     else Summary_LatestEventType s) ∧
  Summary_Status s' = combineTraceSummaryStatus (Summary_Status s) (Trace_Type e).
Proof.
  unfold addToSummary, Before, After, Equal, UTC.
  repeat match goal with
  | |- context [if ?b then ?s <| Summary_PrimaryRunID := _ |> else _] => destruct b
  | |- context [if ?b then ?s <| Summary_TaskID := _ |> else _] => destruct b
  end; simpl.
  all: destruct (Z.ltb_spec (Trace_CreatedAt e) (Summary_FirstAt s)); simpl.
  all: destruct (Z.ltb_spec (Summary_LastAt s) (Trace_CreatedAt e)); simpl.
  all: try destruct (Z.eqb_spec (Trace_CreatedAt e) (Summary_LastAt s)); simpl.
  all: destruct (Z.leb_spec (Summary_LastAt s) (Trace_CreatedAt e)); try lia.
  all: repeat split; lia.
Qed.

#[local] Opaque addToSummary.

Lemma summary_of_first e : summary_of [e] (addToSummary (newSummary e) e).
Proof.
  destruct (addToSummary_fields (newSummary e) e) as (_ & Hc & Hf & Hl & Ht & Hs).
  simpl in Hc, Hf, Hl, Ht, Hs. unfold UTC in *. split.
  - by rewrite Hc.
  - rewrite Hf, Z.min_id. split; [exists e; set_solver|].
    by intros ? ->%list_elem_of_singleton.
  - rewrite Hl, Ht, Z.max_id, Z.leb_refl. split; [exists e; set_solver|].
    by intros ? ->%list_elem_of_singleton.
  - rewrite Hs. apply (combine_traceStatus []).
Qed.

Lemma summary_of_snoc evs s e :
  summary_of evs s → summary_of (evs ++ [e]) (addToSummary s e).
Proof.
  intros [Hc [(f & Hf & Ef) Hfl] [(l & Hl & El & Tl) Hll] Hs].
  destruct (addToSummary_fields s e) as (_ & Hc' & Hf' & Hl' & Ht' & Hs'). split.
  - rewrite Hc', Hc. unfold len. rewrite length_app. simpl. lia.
  - rewrite Hf'. split.
    + destruct (Z.min_spec (Summary_FirstAt s) (Trace_CreatedAt e)) as [[_ ->]|[_ ->]];
        [exists f|exists e]; set_solver.
    + intros x [Hx| ->%list_elem_of_singleton]%elem_of_app; [specialize (Hfl _ Hx)|]; lia.
  - rewrite Hl', Ht'. split.
    + destruct (Z.leb_spec (Summary_LastAt s) (Trace_CreatedAt e)).
      * exists e. rewrite Z.max_r by lia. set_solver.
      * exists l. rewrite Z.max_l by lia. set_solver.
    + intros x [Hx| ->%list_elem_of_singleton]%elem_of_app; [specialize (Hll _ Hx)|]; lia.
  - by rewrite Hs', Hs, combine_traceStatus, map_app.
Qed.

(** The events of a trace that the filter lets through. *)
Definition trace_events (events : list TraceEvent) (filter : SummaryFilter) (traceID : string)
  : list TraceEvent :=
  List.filter (λ e, traceEventMatchesSummaryFilter e filter && (Trace_TraceID e == traceID)) events.

(** The map the loop builds: one summary for each trace with events, and no other. *)
Definition grouping_of (events : list TraceEvent) (filter : SummaryFilter)
    (grouped : gmap string Summary) : Prop :=
  ∀ id, match grouped !! id with
        | None => trace_events events filter id = []
        | Some s => Summary_TraceID s = id ∧ summary_of (trace_events events filter id) s
        end.

Lemma trace_events_snoc events filter id e :
  trace_events (events ++ [e]) filter id =
  trace_events events filter id ++
    (if traceEventMatchesSummaryFilter e filter && (Trace_TraceID e == id) then [e] else []).
Proof. unfold trace_events. rewrite List.filter_app. simpl. by destruct (_ && _). Qed.

Lemma grouping_of_snoc events filter grouped e :
  grouping_of events filter grouped →
  grouping_of (events ++ [e]) filter (groupSummary filter grouped e).
Proof.
  intros Hg id. rewrite trace_events_snoc. unfold groupSummary.
  destruct (traceEventMatchesSummaryFilter e filter) eqn:Hm; simpl.
  2: { rewrite app_nil_r. apply Hg. }
  destruct (String.eqb_spec (Trace_TraceID e) id) as [<-|Hne].
  - rewrite lookup_insert_eq. specialize (Hg (Trace_TraceID e)).
    destruct (grouped !! Trace_TraceID e) as [s|] eqn:Es; simpl.
    + destruct Hg as [Hid Hs]. split; [|by apply summary_of_snoc].
      by destruct (addToSummary_fields s e) as (-> & _).
    + rewrite Hg. split; [|apply summary_of_first].
      by destruct (addToSummary_fields (newSummary e) e) as (-> & _).
  - rewrite lookup_insert_ne by done. rewrite app_nil_r. apply Hg.
Qed.

Lemma grouping_correct events filter :
  grouping_of events filter (fold_left (groupSummary filter) events ∅).
Proof.
  induction events as [|e events IH] using rev_ind.
  - intros id. simpl. by rewrite lookup_empty.
  - rewrite fold_left_app. simpl. by apply grouping_of_snoc.
Qed.

Lemma summary_of_nonempty evs s : summary_of evs s → evs ≠ [].
Proof. intros [_ [(e & He & _) _] _ _] ->. inversion He. Qed.

Lemma summaryLess_asym a b : summaryLess a b = true → le_of summaryLess a b.
Proof.
  unfold le_of, summaryLess, Equal, After.
  destruct (Z.eqb_spec (Summary_LastAt a) (Summary_LastAt b)) as [->|Hne].
  - rewrite Z.eqb_refl. apply string_lt_asym.
  - intros Hlt%Z.ltb_lt. destruct (Z.eqb_spec (Summary_LastAt b) (Summary_LastAt a));
      [congruence|apply Z.ltb_ge; lia].
Qed.

Lemma summaryLess_trans a b c :
  le_of summaryLess a b → le_of summaryLess b c → le_of summaryLess a c.
Proof.
  unfold le_of, summaryLess, Equal, After.
  destruct (Z.eqb_spec (Summary_LastAt b) (Summary_LastAt a));
  destruct (Z.eqb_spec (Summary_LastAt c) (Summary_LastAt b));
  destruct (Z.eqb_spec (Summary_LastAt c) (Summary_LastAt a));
    rewrite ?Z.ltb_ge; try (intros; lia).
  intros Hab Hbc. eapply string_lt_le_trans; [exact Hbc|exact Hab].
Qed.

(** The values of a map whose entries carry their key are pairwise different. *)
Lemma grouped_NoDup (grouped : gmap string Summary) l :
  l ≡ₚ map_to_list grouped →
  (∀ id x, grouped !! id = Some x → Summary_TraceID x = id) →
  NoDup (map Summary_TraceID (map snd l)).
Proof.
  intros Hl Hid. assert (E : map Summary_TraceID (map snd l) = map fst l).
  { rewrite map_map. apply map_ext_in. intros [id x] Hx%list_elem_of_In. simpl. apply Hid.
    by rewrite Hl, elem_of_map_to_list in Hx. }
  rewrite E. change (NoDup (l.*1)). rewrite Hl. apply NoDup_fst_map_to_list.
Qed.

(** Paging through the audit log loses and repeats nothing: the pages of a positive
    size, put together, are the matching events exactly once each, in log order or,
    for a descending search, sorted by time and id; and [Count] is their number. *)
Theorem audit_search_complete events filter limit n :
  (0 < limit)%Z → (len events < 2 ^ 62)%Z → (Z.of_nat n * limit < 2 ^ 62)%Z →
  (Count events filter ≤ Z.of_nat n * limit)%Z →
  ∃ pages,
    mapM (λ k, Search events (filter <| Filter_Limit := limit |>
                                     <| Filter_Offset := (Z.of_nat k * limit)%Z |>)) (seq 0 n)
      = Some pages ∧
    concat pages ≡ₚ List.filter (λ e, auditEventMatchesFilter e filter) events ∧
    (if filter.(Filter_Desc) then StronglySorted (le_of auditDescLess) (concat pages)
     else concat pages = List.filter (λ e, auditEventMatchesFilter e filter) events) ∧
    len (concat pages) = Count events filter.
Proof.
  intros Hlim Hlen Hn Hall. rewrite Count_length in *.
  destruct (pages_complete (matchingAuditEvents events filter) limit n) as (pages & Hp & Hc);
    [done| |done|done|].
  { unfold len in *. rewrite matchingAuditEvents_perm.
    pose proof (filter_length_le (λ e, auditEventMatchesFilter e filter) events). lia. }
  exists pages. split; [exact Hp|]. rewrite Hc. split; [apply matchingAuditEvents_perm|].
  split; [|done]. unfold matchingAuditEvents. destruct (Filter_Desc filter); [|done].
  apply stable_sort_Sorted; [apply auditDescLess_trans|apply auditDescLess_asym].
Qed.

Definition test_audits : list AuditEvent :=
  [zeroAuditEvent <| Audit_AuditID := "a1" |> <| Audit_TenantID := "t" |> <| Audit_CreatedAt := 5%Z |>;
   zeroAuditEvent <| Audit_AuditID := "a2" |> <| Audit_TenantID := "u" |> <| Audit_CreatedAt := 6%Z |>;
   zeroAuditEvent <| Audit_AuditID := "a3" |> <| Audit_TenantID := "t" |> <| Audit_CreatedAt := 7%Z |>].
Definition test_filter : Filter :=
  zeroFilter <| Filter_TenantID := "t" |> <| Filter_Desc := true |>.

Lemma audit_search_complete_witness :
  ∃ pages,
    mapM (λ k, Search test_audits (test_filter <| Filter_Limit := 1%Z |>
                                   <| Filter_Offset := (Z.of_nat k * 1)%Z |>)) (seq 0 2)
      = Some pages ∧ len (concat pages) = 2%Z.
Proof.
  destruct (audit_search_complete test_audits test_filter 1 2) as (pages & Hp & _ & _ & Hc).
  - lia.
  - by vm_compute.
  - by vm_compute.
  - by vm_compute.
  - exists pages. split; [exact Hp|]. rewrite Hc. by vm_compute.
Defined.

(** The trace summaries: [summaryList] returns one summary for each trace that has an
    event the filter lets through (and whose status is the one asked for), and it
    counts the events, spans their times and carries the type of a latest event; its
    status is failed if any event failed or was denied, otherwise waiting for
    approval if any asked for one, otherwise running if the run was created,
    whatever the order in which the events were recorded. *)
Theorem summaryList_correct `{Env} {S} events filter w (s : S) :
  ∃ out w', summaryList events filter w s = (Ok out, w', s) ∧
    NoDup (map Summary_TraceID out) ∧
    StronglySorted (le_of summaryLess) out ∧
    (∀ sm, sm ∈ out → let evs := trace_events events filter (Summary_TraceID sm) in
      evs ≠ [] ∧ summary_of evs sm) ∧
    (∀ id, let evs := trace_events events filter id in
      (∃ sm, sm ∈ out ∧ Summary_TraceID sm = id) ↔
      evs ≠ [] ∧ (SF_Status filter = "" ∨ SF_Status filter = traceStatus (map Trace_Type evs))).
Proof.
  unfold summaryList. set (grouped := fold_left _ _ _).
  pose proof (grouping_correct events filter : grouping_of events filter grouped) as Hg.
  destruct (range_map_run grouped w s) as (l & w' & E & Hl).
  rewrite (bind_Ok _ _ _ _ _ _ _ E). set (keep := λ _, negb _).
  exists (stable_sort summaryLess (List.filter keep (map snd l))), w'. split; [done|].
  assert (Hin : ∀ sm, sm ∈ stable_sort summaryLess (List.filter keep (map snd l)) ↔
    keep sm = true ∧ grouped !! Summary_TraceID sm = Some sm).
  { intros sm. rewrite stable_sort_elem, filter_bool_elem, elem_of_map_snd. split.
    - intros [[id Hid] Hk]. rewrite Hl, elem_of_map_to_list in Hid. specialize (Hg id).
      rewrite Hid in Hg. destruct Hg as [<- _]. done.
    - intros [Hk Hs]. split; [|done]. exists (Summary_TraceID sm).
      by rewrite Hl, elem_of_map_to_list. }
  split; [|split; [|split]].
  - rewrite stable_sort_perm. apply NoDup_map_filter, (grouped_NoDup grouped); [done|].
    intros id x Hx. specialize (Hg id). rewrite Hx in Hg. by destruct Hg.
  - apply stable_sort_Sorted; [apply summaryLess_trans|apply summaryLess_asym].
  - intros sm [_ Hs]%Hin. specialize (Hg (Summary_TraceID sm)). rewrite Hs in Hg.
    destruct Hg as [_ Hso]. split; [by eapply summary_of_nonempty|done].
  - intros id. cbv zeta. set (evs := trace_events events filter id). split.
    + intros (sm & [Hk Hs]%Hin & <-). specialize (Hg (Summary_TraceID sm)). rewrite Hs in Hg.
      destruct Hg as [_ Hso]. split; [by eapply summary_of_nonempty|].
      unfold keep in Hk. rewrite (so_status _ _ Hso) in Hk. fold evs in Hk.
      destruct (String.eqb_spec (SF_Status filter) ""); [by left|right].
      destruct (String.eqb_spec (traceStatus (map Trace_Type evs)) (SF_Status filter)); done.
    + intros [Hne Hst]. specialize (Hg id). destruct (grouped !! id) as [sm|] eqn:Es; [|done].
      destruct Hg as [<- Hso]. exists sm. split; [|done]. apply Hin. split; [|done].
      unfold keep. rewrite (so_status _ _ Hso). fold evs.
      destruct Hst as [-> | ->]; [done|]. by rewrite eqb_refl_true, andb_false_r.
Qed.
