(* ===== verification/TaskRuntime.v ===== *)
(** * The task service and its recovery check

    internal/task/runtime/service.go, written against the repository interfaces of
    TaskRepo.v, and internal/task/recovery/checker.go, which replays a task's events. *)

From S2P Require Import Prelude Contracts GoMonad Storage TaskState TaskRepo.
From stdpp Require Import base list strings gmap fin_maps relations sorting.
Open Scope go_scope.
Open Scope string_scope.
Open Scope list_scope.

Record CommandInput := mkCommandInput {
  Input_TaskID : string;
  Input_Command : TaskCommand;
  Input_ActorID : string;
  Input_ActorType : string;
  Input_Payload : gmap string Any;
  Input_RunID : string;
  Input_StepID : string
}.
#[export] Instance eta_CommandInput : Settable CommandInput :=
  fields! mkCommandInput < Input_TaskID ; Input_Command ; Input_ActorID ; Input_ActorType ;
    Input_Payload ; Input_RunID ; Input_StepID >.

Section service.
Context `{Env} {S : Type} `{TaskRepository S, EventRepository S}.
(** [s.tasks.(taskrepo.AtomicRepository)]: the type assertion may fail. *)
Context (atomic : option (AtomicRepository S)).

(** The task and the event of [CreateTask]. *)
Definition newTaskEvent (task : Task) (actorID actorType : string) : M S (Task * TaskEvent) :=
  let! task :=
    (if IsZero task.(Task_CreatedAt)
     then let! t := now in ret (task <| Task_CreatedAt := t |>) else ret task) in
  let task := if IsZero task.(Task_UpdatedAt)
              then task <| Task_UpdatedAt := task.(Task_CreatedAt) |> else task in
  let task := if task.(Task_Status) == "" then task <| Task_Status := TaskCreated |> else task in
  let! id := idgen_New "taskevt" in
  let! t := now in
  ret (task, zeroTaskEvent
    <| TaskEvent_EventID := id |> <| TaskEvent_TaskID := task.(Task_TaskID) |>
    <| TaskEvent_TenantID := task.(Task_TenantID) |> <| TaskEvent_Type := "task.created" |>
    <| TaskEvent_ActorID := actorID |> <| TaskEvent_ActorType := actorType |>
    <| TaskEvent_Payload := {["status" := AString task.(Task_Status)]} |>
    <| TaskEvent_CreatedAt := t |>).

(** ... and their storage. *)
Definition storeNewTask (task : Task) (event : TaskEvent) : M S unit :=
  match atomic with
  | Some _ => repo_CreateTaskAndAppendEvent task event
  | None => do! repo_Create task in repo_Append event
  end.

Definition CreateTask (task : Task) (actorID actorType : string) : M S Task :=
  let! te := newTaskEvent task actorID actorType in
  do! storeNewTask te.1 te.2 in
  ret te.1.

Definition recordTransitionAudit (task : Task) (event : TaskEvent) (input : CommandInput)
    (transition : Transition) : M S unit :=
  with_audit (
    let! id := idgen_New "audit" in
    audit_Log (zeroAuditEvent
      <| Audit_AuditID := id |> <| Audit_TenantID := task.(Task_TenantID) |>
      <| Audit_ActorID := input.(Input_ActorID) |>
      <| Audit_ActorType := input.(Input_ActorType) |>
      <| Audit_Action := transition.(Transition_EventType) |>
      <| Audit_ResourceType := "task" |> <| Audit_ResourceID := task.(Task_TaskID) |>
      <| Audit_Decision := "allowed" |> <| Audit_Reason := transition.(Transition_Command) |>
      <| Audit_TaskID := task.(Task_TaskID) |> <| Audit_RunID := input.(Input_RunID) |>
      <| Audit_CreatedAt := event.(TaskEvent_CreatedAt) |>)).

(** What [ApplyCommand] computes before it writes. *)
Record PreparedCommand := mkPrepared {
  prep_task : Task;            (* as read *)
  prep_updated : Task;
  prep_event : TaskEvent;
  prep_transition : Transition
}.

Definition prepareCommand (input : CommandInput) : M S PreparedCommand :=
  let! task := repo_Get input.(Input_TaskID) in
  let! transition := lift_res (Apply task.(Task_Status) input.(Input_Command)) in
  let updated := task <| Task_Status := transition.(Transition_To) |> in
  let! now := now in
  let updated := updated <| Task_UpdatedAt := now |> in
  let updated := if IsTerminal updated.(Task_Status)
                 then updated <| Task_CompletedAt := Some now |> else updated in
  let! id := idgen_New "taskevt" in
  ret (mkPrepared task updated
    (zeroTaskEvent
      <| TaskEvent_EventID := id |> <| TaskEvent_TaskID := task.(Task_TaskID) |>
      <| TaskEvent_TenantID := task.(Task_TenantID) |>
      <| TaskEvent_Type := transition.(Transition_EventType) |>
      <| TaskEvent_ActorID := input.(Input_ActorID) |>
      <| TaskEvent_ActorType := input.(Input_ActorType) |>
      <| TaskEvent_Payload := input.(Input_Payload) ∪
           {["from_status" := AString task.(Task_Status);
             "to_status" := AString transition.(Transition_To);
             "command" := AString input.(Input_Command)]} |>
      <| TaskEvent_RunID := input.(Input_RunID) |>
      <| TaskEvent_StepID := input.(Input_StepID) |>
      <| TaskEvent_CreatedAt := now |>) transition).

(** The write of [ApplyCommand]. *)
Definition commitCommand (p : PreparedCommand) : M S unit :=
  match atomic with
  | Some _ =>
      repo_UpdateWithVersionAndAppendEvent p.(prep_updated) p.(prep_task).(Task_Version)
        p.(prep_event)
  | None =>
      do! repo_UpdateWithVersion p.(prep_updated) p.(prep_task).(Task_Version) in
      repo_Append p.(prep_event)
  end.

Definition ApplyCommand (input : CommandInput) : M S (Task * TaskEvent * Transition) :=
  let! p := prepareCommand input in
  do! commitCommand p in
  let! updated := repo_Get p.(prep_task).(Task_TaskID) in
  do! (if p.(prep_transition).(Transition_Audit)
       then recordTransitionAudit updated p.(prep_event) input p.(prep_transition)
       else ret tt) in
  ret (updated, p.(prep_event), p.(prep_transition)).

Definition Events (taskID : string) : M S (list TaskEvent) := repo_ListByTask taskID.

Definition EventsLimit (taskID : string) (limit : Z) : M S (list TaskEvent) :=
  repo_ListByTaskLimit taskID limit.

Definition AppendEvent (event : TaskEvent) : M S unit :=
  let! event :=
    (if IsZero event.(TaskEvent_CreatedAt)
     then let! t := now in ret (event <| TaskEvent_CreatedAt := t |>) else ret event) in
  repo_Append event.
End service.

(** ** internal/task/recovery/checker.go *)

Record CheckResult := mkCheckResult {
  Consistent : bool;
  Expected : TaskStatus;
  Actual : TaskStatus;
  Problems : list string
}.

Definition statusFromEvent (eventType : string) : option TaskStatus :=
  if eventType == "task.created" then Some TaskCreated
  else if eventType == "task.accepted" then Some TaskAccepted
  else if eventType == "task.plan_started" then Some TaskPlanning
  else if eventType == "task.run_started" then Some TaskRunning
  else if eventType == "task.waiting_input" then Some TaskWaitingInput
  else if eventType == "task.input_provided" then Some TaskRunning
  else if eventType == "task.approval_required" then Some TaskWaitingApproval
  else if eventType == "task.approved" then Some TaskRunning
  else if eventType == "task.approval_rejected" then Some TaskBlocked
  else if eventType == "task.tool_waiting" then Some TaskWaitingTool
  else if eventType == "task.tool_completed" then Some TaskRunning
  else if eventType == "task.paused" then Some TaskPaused
  else if eventType == "task.resumed" then Some TaskRunning
  else if eventType == "task.completed" then Some TaskCompleted
  else if eventType == "task.failed" then Some TaskFailed
  else if eventType == "task.cancelled" then Some TaskCancelled
  else None.

(** The loop of [Check]. *)
Definition replay (events : list TaskEvent) : TaskStatus :=
  fold_left (λ expected event,
    match statusFromEvent event.(TaskEvent_Type) with Some next => next | None => expected end)
    events TaskCreated.

Definition Check_ (task : Task) (events : list TaskEvent) : CheckResult :=
  let expected := replay events in
  let result := mkCheckResult (expected == task.(Task_Status)) expected task.(Task_Status) [] in
  let result :=
    if negb result.(Consistent)
    then mkCheckResult result.(Consistent) result.(Expected) result.(Actual)
           (result.(Problems) ++ ["task status " +:+ task.(Task_Status) +:+
              " does not match replayed status " +:+ expected])
    else result in
  match TaskStatus_Validate task.(Task_Status) with
  | Some _ => mkCheckResult false result.(Expected) result.(Actual)
                (result.(Problems) ++ ["task has invalid status"])
  | None => result
  end.

(** ** Interleavings

    The service is called from many goroutines; only the calls of the store are
    atomic.  A pending call has read the task and the clock and not yet written. *)

Inductive Pending :=
| PCreate (task : Task) (event : TaskEvent)
| PCommand (p : PreparedCommand).

Record Sys := mkSys {
  sys_world : World;
  sys_store : InMemoryStore;
  sys_pending : list Pending
}.

Section interleaving.
Context `{Env}.

Definition commitPending (p : Pending) : M InMemoryStore unit :=
  match p with
  | PCreate task event => storeNewTask (Some store_atomic) task event
  | PCommand p => commitCommand (Some store_atomic) p
  end.

(** One step of some goroutine.  Tasks are created as [NewTask] makes them, in status
    [created] (or none) at version 0, and [AppendEvent] is used for events that are not
    status changes.  [sys_other] stands for everything else that happens: calls that
    fail before writing, reads, audit records, other readers of the clock. *)
Inductive sys_step : Sys → Sys → Prop :=
| sys_prepare_create task actorID actorType w st ps te w' st' :
    Task_Version task = 0%Z → (Task_Status task = "" ∨ Task_Status task = TaskCreated) →
    newTaskEvent task actorID actorType w st = (Ok te, w', st') →
    sys_step (mkSys w st ps) (mkSys w' st' (PCreate te.1 te.2 :: ps))
| sys_prepare_command input w st ps p w' st' :
    prepareCommand input w st = (Ok p, w', st') →
    sys_step (mkSys w st ps) (mkSys w' st' (PCommand p :: ps))
| sys_commit w st ps1 p ps2 r w' st' :
    commitPending p w st = (r, w', st') →
    sys_step (mkSys w st (ps1 ++ p :: ps2)) (mkSys w' st' (ps1 ++ ps2))
| sys_append event w st ps r w' st' :
    statusFromEvent event.(TaskEvent_Type) = None →
    AppendEvent event w st = (r, w', st') →
    sys_step (mkSys w st ps) (mkSys w' st' ps)
| sys_other w w' st ps :
    (w_reads w ≤ w_reads w')%nat →
    sys_step (mkSys w st ps) (mkSys w' st ps).

Definition sys0 : Sys := mkSys world0 NewInMemoryStore [].
End interleaving.

(** ** Facts about events and replay *)

Lemma Apply_event current command t :
  Apply current command = Ok t →
  statusFromEvent (Transition_EventType t) = Some (Transition_To t).
Proof.
  intros (_ & _ & _ & [Hin| ->])%Apply_Ok; [|reflexivity].
  repeat (apply elem_of_cons in Hin as [->|Hin]; [reflexivity|]). inversion Hin.
Qed.

Definition is_status (e : TaskEvent) : bool :=
  match statusFromEvent e.(TaskEvent_Type) with Some _ => true | None => false end.

Lemma replay_filter l : replay l = replay (List.filter is_status l).
Proof.
  unfold replay. generalize TaskCreated. induction l as [|e l IH]; intros st; simpl; [done|].
  destruct (is_status e) eqn:Hs; simpl; rewrite IH; [done|].
  unfold is_status in Hs. by destruct (statusFromEvent _).
Qed.

Lemma replay_snoc l e st :
  statusFromEvent (TaskEvent_Type e) = Some st → replay (l ++ [e]) = st.
Proof. intros He. unfold replay. rewrite fold_left_app. simpl. by rewrite He. Qed.

(** The status changes recorded for a task. *)
Definition status_log (s : InMemoryStore) (k : string) : list TaskEvent :=
  List.filter is_status (log_of s k).

Lemma replay_status_log s k : replay (log_of s k) = replay (status_log s k).
Proof. apply replay_filter. Qed.

Lemma status_log_sorted s k : store_wf s → StronglySorted (le_of eventLess) (status_log s k).
Proof.
  intros Hwf. unfold status_log. rewrite <- (stable_sort_sorted eventLess (log_of s k)).
  - rewrite stable_sort_filter; [apply eventLess_Sorted|apply eventLess_trans|apply eventLess_asym].
  - apply (wf_sorted _ Hwf).
Qed.

Lemma status_log_append_other e s k :
  store_wf s → is_status e = false → status_log (append_event e s) k = status_log s k.
Proof.
  intros Hwf He. unfold status_log. rewrite append_event_log. destruct (decide _); [|done].
  rewrite stable_sort_filter by (apply eventLess_trans || apply eventLess_asym).
  rewrite List.filter_app. simpl. rewrite He, app_nil_r.
  apply stable_sort_sorted. by apply status_log_sorted.
Qed.

Lemma status_log_append e s k :
  store_wf s → is_status e = true →
  Forall (λ x, TaskEvent_CreatedAt x < TaskEvent_CreatedAt e)%Z (status_log s (TaskEvent_TaskID e)) →
  status_log (append_event e s) k =
    if decide (TaskEvent_TaskID e = k) then status_log s k ++ [e] else status_log s k.
Proof.
  intros Hwf He Hlt. unfold status_log. rewrite append_event_log.
  destruct (decide _) as [<-|]; [|done].
  rewrite stable_sort_filter by (apply eventLess_trans || apply eventLess_asym).
  rewrite List.filter_app. simpl. rewrite He.
  apply eventLess_snoc; [by apply status_log_sorted|done].
Qed.

(** ** Facts about the service *)

Section service_facts.
Context `{Env}.

Definition draw_id (w : World) : string := "taskevt" +:+ "_" +:+ env_rand w.(w_draws).
Definition clock (w : World) : Time := env_clock w.(w_reads).

(** What [prepareCommand] makes of the task it read. *)
Definition prepared_of (input : CommandInput) (task : Task) (tr : Transition) (w : World)
  : PreparedCommand :=
  let updated := task <| Task_Status := tr.(Transition_To) |> <| Task_UpdatedAt := clock w |> in
  mkPrepared task
    (if IsTerminal tr.(Transition_To)
     then updated <| Task_CompletedAt := Some (clock w) |> else updated)
    (zeroTaskEvent
      <| TaskEvent_EventID := draw_id w |> <| TaskEvent_TaskID := task.(Task_TaskID) |>
      <| TaskEvent_TenantID := task.(Task_TenantID) |>
      <| TaskEvent_Type := tr.(Transition_EventType) |>
      <| TaskEvent_ActorID := input.(Input_ActorID) |>
      <| TaskEvent_ActorType := input.(Input_ActorType) |>
      <| TaskEvent_Payload := input.(Input_Payload) ∪
           {["from_status" := AString task.(Task_Status);
             "to_status" := AString tr.(Transition_To);
             "command" := AString input.(Input_Command)]} |>
      <| TaskEvent_RunID := input.(Input_RunID) |>
      <| TaskEvent_StepID := input.(Input_StepID) |>
      <| TaskEvent_CreatedAt := clock w |>) tr.

Definition after_prepare (w : World) : World :=
  w <| w_reads := S w.(w_reads) |> <| w_draws := S w.(w_draws) |>.

Lemma prepareCommand_run input w s :
  prepareCommand input w s =
    match s.(tasks) !! input.(Input_TaskID) with
    | None => (Err ErrNotFound, w, s)
    | Some task =>
        match Apply task.(Task_Status) input.(Input_Command) with
        | Ok tr => (Ok (prepared_of input task tr w), after_prepare w, s)
        | Err e => (Err e, w, s)
        | Panic => (Panic, w, s)
        end
    end.
Proof.
  unfold prepareCommand, bind, lift_res, now, time_Now, idgen_New, lift_env, ret; simpl.
  unfold Get, bind, get, throw, ret; simpl.
  destruct (tasks s !! Input_TaskID input) as [task|]; [|done].
  by destruct (Apply (Task_Status task) (Input_Command input)).
Qed.

Lemma prepared_ids input task tr w :
  Task_TaskID (prep_updated (prepared_of input task tr w)) = Task_TaskID task ∧
  Task_Status (prep_updated (prepared_of input task tr w)) = Transition_To tr.
Proof. simpl. by destruct (IsTerminal _). Qed.
End service_facts.

(** ** The invariant of the interleaved service *)

Section consistency.
Context `{Env}.

Definition before_all (t : Time) (l : list TaskEvent) : Prop :=
  Forall (λ e, TaskEvent_CreatedAt e < t)%Z l.

(** A pending write is either out of date or newer than the status changes stored. *)
Definition pending_ok (w : World) (s : InMemoryStore) (p : Pending) : Prop :=
  match p with
  | PCreate task ev =>
      Task_Version task = 0%Z ∧ Task_Status task = TaskCreated ∧
      TaskEvent_Type ev = "task.created" ∧ TaskEvent_TaskID ev = Task_TaskID task ∧
      (TaskEvent_CreatedAt ev < clock w)%Z
  | PCommand p =>
      let k := Task_TaskID (prep_updated p) in
      TaskEvent_TaskID (prep_event p) = k ∧ (TaskEvent_CreatedAt (prep_event p) < clock w)%Z ∧
      statusFromEvent (TaskEvent_Type (prep_event p)) = Some (Task_Status (prep_updated p)) ∧
      TaskStatus_Validate (Task_Status (prep_updated p)) = None ∧
      ∃ t, s.(tasks) !! k = Some t ∧ (0 ≤ Task_Version (prep_task p) ≤ Task_Version t)%Z ∧
        (Task_Version t = Task_Version (prep_task p) →
         before_all (TaskEvent_CreatedAt (prep_event p)) (status_log s k))
  end.

Record task_ok (w : World) (n : Z) (s : InMemoryStore) (k : string) (t : Task) : Prop := {
  ok_replay : replay (status_log s k) = Task_Status t;
  ok_valid : TaskStatus_Validate (Task_Status t) = None;
  ok_version : (0 ≤ Task_Version t ≤ n)%Z;
  ok_times : before_all (clock w) (status_log s k)
}.

Record sys_inv (n : Z) (y : Sys) : Prop := {
  inv_wf : store_wf (sys_store y);
  inv_missing k : (sys_store y).(tasks) !! k = None → status_log (sys_store y) k = [];
  inv_task k t : (sys_store y).(tasks) !! k = Some t →
    task_ok (sys_world y) n (sys_store y) k t;
  inv_pending : Forall (pending_ok (sys_world y) (sys_store y)) (sys_pending y)
}.

Context (Hclock : ∀ i j, (i < j)%nat → (env_clock i < env_clock j)%Z).

Lemma clock_mono w w' : (w_reads w ≤ w_reads w')%nat → (clock w ≤ clock w')%Z.
Proof.
  intros Hle. unfold clock. destruct (decide (w_reads w = w_reads w')) as [->|]; [lia|].
  specialize (Hclock (w_reads w) (w_reads w') ltac:(lia)). lia.
Qed.

Lemma before_all_mono t t' l : (t ≤ t')%Z → before_all t l → before_all t' l.
Proof. intros Hle Hl. eapply Forall_impl; [exact Hl|]. intros e He. cbn in He. lia. Qed.

(** How the store may change under a pending write: the version of a task goes up,
    or its status changes stay as they are. *)
Definition store_ext (s s' : InMemoryStore) : Prop :=
  ∀ k t, s.(tasks) !! k = Some t → ∃ t', s'.(tasks) !! k = Some t' ∧
    ((Task_Version t' = Task_Version t ∧ status_log s' k = status_log s k) ∨
     (Task_Version t < Task_Version t')%Z).

Lemma pending_ok_mono w w' s s' p :
  (w_reads w ≤ w_reads w')%nat → store_ext s s' → pending_ok w s p → pending_ok w' s' p.
Proof.
  intros Hw%clock_mono Hext. destruct p as [task ev|p]; simpl.
  - intros (? & ? & ? & ? & ?). repeat split; try done. lia.
  - intros (? & ? & ? & ? & t & Ht & Hv & Hb). repeat split; try done; [lia|].
    destruct (Hext _ _ Ht) as (t' & Ht' & [[E1 E2]|Hlt]); exists t'.
    + rewrite E1, E2. done.
    + repeat split; [done|lia|lia|lia].
Qed.

Lemma store_ext_refl s : store_ext s s.
Proof. intros k t Ht. exists t. auto. Qed.

Lemma inv_world n m w w' st ps :
  (n ≤ m)%Z → (w_reads w ≤ w_reads w')%nat →
  sys_inv n (mkSys w st ps) → sys_inv m (mkSys w' st ps).
Proof.
  intros Hn Hw [Hwf Hm Ht Hp]. split; simpl in *; try done.
  - intros k t Hk. destruct (Ht k t Hk) as [? ? ? Hb]. split; try done; [lia|].
    eapply before_all_mono, Hb. by apply clock_mono.
  - eapply Forall_impl; [exact Hp|]. intros p. apply pending_ok_mono; [done|apply store_ext_refl].
Qed.

Lemma inv_pending_sub n w st ps ps' :
  (∀ p, p ∈ ps' → p ∈ ps) → sys_inv n (mkSys w st ps) → sys_inv n (mkSys w st ps').
Proof.
  intros Hsub [Hwf Hm Ht Hp]. split; simpl in *; try done.
  rewrite Forall_forall in *. auto.
Qed.

Lemma inv_pending_cons n w st p ps :
  pending_ok w st p → sys_inv n (mkSys w st ps) → sys_inv n (mkSys w st (p :: ps)).
Proof. intros Hp [Hwf Hm Ht Hps]. split; simpl in *; try done. by constructor. Qed.

Lemma newTaskEvent_run task actorID actorType w (st : InMemoryStore) te w' st' :
  newTaskEvent task actorID actorType w st = (Ok te, w', st') →
  st' = st ∧ (w_reads w ≤ w_reads w')%nat ∧
  (∃ i, (i < w_reads w')%nat ∧ TaskEvent_CreatedAt te.2 = env_clock i) ∧
  Task_TaskID te.1 = Task_TaskID task ∧ TaskEvent_TaskID te.2 = Task_TaskID task ∧
  Task_Version te.1 = Task_Version task ∧ TaskEvent_Type te.2 = "task.created" ∧
  Task_Status te.1 = (if Task_Status task == "" then TaskCreated else Task_Status task).
Proof.
  unfold newTaskEvent, bind, now, time_Now, idgen_New, lift_env, ret; simpl.
  intros E. destruct (IsZero (Task_CreatedAt task)); simpl in E; simplify_eq; simpl.
  all: repeat split; try lia.
  all: try (eexists; split; [|reflexivity]; lia).
  all: destruct (IsZero (Task_UpdatedAt task)); simpl; by destruct (Task_Status task == "").
Qed.

Lemma prepare_create_ok task actorID actorType w st te w' st' :
  Task_Version task = 0%Z → (Task_Status task = "" ∨ Task_Status task = TaskCreated) →
  newTaskEvent task actorID actorType w st = (Ok te, w', st') →
  st' = st ∧ (w_reads w ≤ w_reads w')%nat ∧ pending_ok w' st (PCreate te.1 te.2).
Proof.
  intros Hv Hst E.
  apply newTaskEvent_run in E as (-> & Hw & (i & Hi & Ei) & E1 & E2 & E3 & E4 & E5).
  repeat split; try done; simpl.
  - congruence.
  - rewrite E5. by destruct Hst as [-> | ->].
  - congruence.
  - rewrite Ei. by apply Hclock.
Qed.

Lemma prepare_command_ok n input w st ps p w' st' :
  sys_inv n (mkSys w st ps) →
  prepareCommand input w st = (Ok p, w', st') →
  st' = st ∧ (w_reads w ≤ w_reads w')%nat ∧ pending_ok w' st (PCommand p).
Proof.
  intros [Hwf _ Ht _] E. rewrite prepareCommand_run in E. simpl in Ht.
  destruct (tasks st !! Input_TaskID input) as [task|] eqn:Ek; [|done].
  destruct (Apply (Task_Status task) (Input_Command input)) as [tr| |] eqn:Ea; [|done|done].
  simplify_eq. pose proof (wf_tasks _ Hwf _ _ Ek) as Hid.
  destruct (Ht _ _ Ek) as [_ _ Hver Hb].
  destruct (prepared_ids input task tr w) as [E1 E2].
  assert (Hlt : (clock w < clock (after_prepare w))%Z) by (apply Hclock; simpl; lia).
  split; [done|]. split; [simpl; lia|]. unfold pending_ok. rewrite E1, E2.
  repeat split; simpl; try done.
  - by eapply Apply_event.
  - by eapply Apply_To_valid.
  - exists task. rewrite Hid. repeat split; try done; lia.
Qed.

(** Writing task [t'] and its status event [ev] together keeps the invariant. *)
Lemma inv_write n w st ps k t' ev :
  sys_inv n (mkSys w st ps) →
  TaskEvent_EventID ev ∉ ids st → TaskEvent_TaskID ev = k → Task_TaskID t' = k →
  statusFromEvent (TaskEvent_Type ev) = Some (Task_Status t') →
  TaskStatus_Validate (Task_Status t') = None →
  (0 ≤ Task_Version t' ≤ n + 1)%Z →
  before_all (TaskEvent_CreatedAt ev) (status_log st k) → (TaskEvent_CreatedAt ev < clock w)%Z →
  (∀ t, st.(tasks) !! k = Some t → (Task_Version t < Task_Version t')%Z) →
  sys_inv (n + 1) (mkSys w (append_event ev (st <| tasks := <[k := t']> st.(tasks) |>)) ps).
Proof.
  intros [Hwf Hm Ht Hp] Hfresh Hevk Hk Hst Hval Hver Hb Hclk Hup. simpl in *.
  set (s1 := st <| tasks := _ |>). assert (Hwf1 : store_wf s1) by (by apply insert_task_wf).
  assert (Hlog : ∀ k', status_log (append_event ev s1) k' =
      if decide (k = k') then status_log st k' ++ [ev] else status_log st k').
  { intros k'. rewrite status_log_append; [by rewrite Hevk|done| |by rewrite Hevk].
    unfold is_status. by rewrite Hst. }
  assert (Hne : ∀ k' t, k ≠ k' → tasks (append_event ev s1) !! k' = Some t →
      tasks st !! k' = Some t) by (intros k' t ?; simpl; by rewrite lookup_insert_ne).
  assert (Heq : tasks (append_event ev s1) !! k = Some t') by apply lookup_insert_eq.
  split; simpl sys_store; simpl sys_world; simpl sys_pending.
  - by apply append_event_wf.
  - intros k' Hk'. rewrite Hlog. destruct (decide (k = k')) as [<-|]; [congruence|].
    apply Hm. revert Hk'. simpl. by rewrite lookup_insert_ne.
  - intros k' t Hk'. destruct (decide (k = k')) as [<-|Hkk'].
    + rewrite Heq in Hk'. simplify_eq.
      split; try done; rewrite Hlog, decide_True by done; [by apply replay_snoc|].
      apply Forall_app. split; [|by repeat constructor].
      eapply before_all_mono, Hb. lia.
    + destruct (Ht k' t) as [Hr Hv Hn Htm]; [by apply Hne|].
      split; try done; rewrite ?Hlog, ?decide_False by done; [done|lia|done].
  - eapply Forall_impl; [exact Hp|]. intros p. apply pending_ok_mono; [lia|].
    intros k' t Hk'. destruct (decide (k = k')) as [<-|Hkk'].
    + exists t'. split; [done|right; by apply Hup].
    + exists t. split; [simpl; by rewrite lookup_insert_ne|left].
      split; [done|]. by rewrite Hlog, decide_False.
Qed.

Lemma commit_command_ok n w st ps p r w' st' :
  (n + 1 < 2 ^ 63)%Z → sys_inv n (mkSys w st ps) → pending_ok w st (PCommand p) →
  commitPending (PCommand p) w st = (r, w', st') → sys_inv (n + 1) (mkSys w' st' ps).
Proof.
  intros Hn Hinv (Hid & Hclk & Hst & Hval & t & Ht & Hver & Hb) E. simpl in E.
  destruct (UpdateWithVersionAndAppendEvent_run (prep_updated p) (Task_Version (prep_task p))
    (prep_event p) w st) as (r1 & s1 & E1 & Ho).
  rewrite E1 in E. simplify_eq.
  assert (Hsame : sys_inv (n + 1) (mkSys w' st ps))
    by (eapply inv_world; [|done|exact Hinv]; lia).
  destruct Ho as [(_ & -> & _)|(Hfresh & s2 & Ho & ->)]; [done|].
  inversion Ho as [| |old Hold Hv]; subst; [done|done|].
  rewrite Ht in Hold. simplify_eq.
  pose proof (inv_task _ _ Hinv _ _ Ht) as [_ _ Htv _].
  assert (Ev : (int64 (Task_Version (prep_task p) + 1) = Task_Version (prep_task p) + 1)%Z)
    by (apply int64_id; unfold is_int64; lia).
  unfold update_task. rewrite Ev. apply inv_write; simpl; try done; [lia|by apply Hb|].
  intros t' Ht'. simplify_eq. lia.
Qed.

Lemma commit_create_ok n w st ps task ev r w' st' :
  (0 ≤ n)%Z → sys_inv n (mkSys w st ps) → pending_ok w st (PCreate task ev) →
  commitPending (PCreate task ev) w st = (r, w', st') → sys_inv (n + 1) (mkSys w' st' ps).
Proof.
  intros Hn Hinv (Hv & Hst & Hty & Hid & Hclk) E. simpl in E.
  assert (Hsame : sys_inv (n + 1) (mkSys w st ps))
    by (eapply inv_world; [|done|exact Hinv]; lia).
  unfold CreateTaskAndAppendEvent, bind, get, put, throw in E. simpl in E.
  destruct (tasks st !! Task_TaskID task) as [t|] eqn:Ht; simplify_eq; [done|].
  case_bool_decide as Hfresh; simplify_eq; [done|].
  rewrite appendEventLocked_run in E. simplify_eq. apply inv_write; try done.
  - by rewrite Hty, Hst.
  - by rewrite Hst.
  - lia.
  - pose proof (inv_missing _ _ Hinv _ Ht) as Hm. simpl in Hm. rewrite Hm. constructor.
  - intros t Ht'. congruence.
Qed.

Lemma append_other_ok n ev w st ps r w' st' :
  sys_inv n (mkSys w st ps) → statusFromEvent (TaskEvent_Type ev) = None →
  AppendEvent ev w st = (r, w', st') → sys_inv (n + 1) (mkSys w' st' ps).
Proof.
  intros Hinv Hty E.
  assert (∃ e w1, AppendEvent ev w st = Append e w1 st ∧ (w_reads w ≤ w_reads w1)%nat ∧
    is_status e = false) as (e & w1 & E1 & Hw & He).
  { unfold AppendEvent, bind, now, time_Now, lift_env, ret; simpl. unfold is_status.
    destruct (IsZero _); eexists _, _; (split; [reflexivity|split; [simpl; lia|simpl]]);
      by rewrite Hty. }
  rewrite E1 in E. unfold Append, bind, get, throw in E. simpl in E.
  assert (Hsame : sys_inv (n + 1) (mkSys w1 st ps))
    by (eapply inv_world; [|exact Hw|exact Hinv]; lia).
  case_bool_decide as Hfresh; simplify_eq; [done|].
  rewrite appendEventLocked_run in E. simplify_eq.
  destruct Hsame as [Hwf Hm Ht Hp]; simpl in *.
  assert (Hlog : ∀ k, status_log (append_event e st) k = status_log st k)
    by (intros k; by apply status_log_append_other).
  split; simpl sys_store; simpl sys_world; simpl sys_pending.
  - by apply append_event_wf.
  - intros k Hk. rewrite Hlog. by apply Hm.
  - intros k t Hk. destruct (Ht k t Hk) as [? ? ? ?]. by split; rewrite ?Hlog.
  - eapply Forall_impl; [exact Hp|]. intros p. apply pending_ok_mono; [lia|].
    intros k t Hk. exists t. split; [done|left]. by rewrite Hlog.
Qed.

Lemma sys_step_inv n y y' :
  (0 ≤ n)%Z → (n + 1 < 2 ^ 63)%Z → sys_step y y' → sys_inv n y → sys_inv (n + 1) y'.
Proof.
  intros Hn Hn2 Hst Hinv.
  destruct Hst as [task aid aty w st ps te w' st' Hv Hs E|input w st ps p w' st' E
    |w st ps1 p ps2 r w' st' E|ev w st ps r w' st' Hty E|w w' st ps Hw].
  - destruct (prepare_create_ok _ _ _ _ _ _ _ _ Hv Hs E) as (-> & Hw & Hp).
    apply inv_pending_cons; [done|]. eapply inv_world; [|exact Hw|exact Hinv]. lia.
  - destruct (prepare_command_ok _ _ _ _ _ _ _ _ Hinv E) as (-> & Hw & Hp).
    apply inv_pending_cons; [done|]. eapply inv_world; [|exact Hw|exact Hinv]. lia.
  - assert (Hp : pending_ok w st p).
    { pose proof (inv_pending _ _ Hinv) as Hps. simpl in Hps. apply Forall_app in Hps as [_ Hps].
      by apply Forall_cons in Hps as [? _]. }
    assert (Hinv' : sys_inv n (mkSys w st (ps1 ++ ps2)))
      by (eapply inv_pending_sub, Hinv; set_solver).
    destruct p; [by eapply commit_create_ok|by eapply commit_command_ok].
  - by eapply append_other_ok.
  - eapply inv_world; [|exact Hw|exact Hinv]. lia.
Qed.

Lemma sys0_inv : sys_inv 0 sys0.
Proof.
  split; simpl; [apply NewInMemoryStore_wf| | |constructor].
  - intros k _. unfold status_log, log_of. simpl. by rewrite lookup_empty.
  - intros k t. by rewrite lookup_empty.
Qed.

Lemma sys_reachable_inv n y :
  nsteps sys_step n sys0 y → (Z.of_nat n < 2 ^ 63)%Z → sys_inv (Z.of_nat n) y.
Proof.
  revert y. induction n as [|n IH]; intros y Hrun Hn.
  - inversion Hrun; subst. apply sys0_inv.
  - replace (S n) with (n + 1)%nat in Hrun by lia. apply nsteps_add_inv in Hrun as (y1 & H1 & H2).
    apply nsteps_once_inv in H2. replace (Z.of_nat (S n)) with (Z.of_nat n + 1)%Z by lia.
    eapply sys_step_inv; [lia|lia|exact H2|]. apply IH; [done|lia].
Qed.
End consistency.

(** C2. Recovery agrees with the service.  However calls of the task service interleave
    on the shared store, with a clock that moves between two readings and fewer than
    2^63 steps, replaying the event log of any task gives exactly the status stored
    for it: the recovery check reports no problem. *)
Theorem replay_consistent `{Env} n y k t :
  (∀ i j, (i < j)%nat → (env_clock i < env_clock j)%Z) → (Z.of_nat n < 2 ^ 63)%Z →
  nsteps sys_step n sys0 y → (sys_store y).(tasks) !! k = Some t →
  Check_ t (log_of (sys_store y) k) = mkCheckResult true (Task_Status t) (Task_Status t) [].
Proof.
  intros Hclock Hn Hrun Ht.
  pose proof (inv_task _ _ (sys_reachable_inv Hclock n y Hrun Hn) _ _ Ht) as [Hr Hv _ _].
  unfold Check_. by rewrite replay_status_log, Hr, eqb_refl_true, Hv.
Qed.

Definition test_input (c : TaskCommand) : CommandInput :=
  mkCommandInput "t1" c "alice" "user" ∅ "run" "step".

Lemma replay_consistent_witness :
  ∃ y t, nsteps sys_step 4 sys0 y ∧ (sys_store y).(tasks) !! "t1" = Some t ∧
    Task_Status t = TaskAccepted ∧
    Check_ t (log_of (sys_store y) "t1") = mkCheckResult true TaskAccepted TaskAccepted [].
Proof.
  eassert (Hrun : nsteps sys_step 4 sys0 _).
  { unfold sys0.
    eapply nsteps_l; [eapply (sys_prepare_create test_task "alice" "user");
      [reflexivity | by right | vm_compute; reflexivity] |].
    eapply nsteps_l; [eapply (sys_commit _ _ []); vm_compute; reflexivity |].
    eapply nsteps_l; [eapply (sys_prepare_command (test_input CmdAccept)); vm_compute; reflexivity |].
    eapply nsteps_l; [eapply (sys_commit _ _ []); vm_compute; reflexivity |].
    apply nsteps_O. }
  eexists _, _. split; [exact Hrun|]. split; [vm_compute; reflexivity|].
  split; [vm_compute; reflexivity|].
  refine (replay_consistent 4 _ "t1" _ _ _ Hrun _).
  - intros i j Hij. simpl. lia.
  - by vm_compute.
  - vm_compute. reflexivity.
Defined.

(** A clock that stands still, and event ids that do not come in order. *)
Definition still_env : Env := {|
  env_clock _ := 1000%Z;
  env_rand n := if (n =? 0)%nat then "b" else "a";
  env_range V n m := map_to_list m;
  env_range_perm V n m := reflexivity (map_to_list m)
|}.

(** Events with the same timestamp are ordered by their random ids: when the clock
    does not move between the creation of a task and its first command, the log may
    replay in the wrong order and the recovery check reports a healthy task as
    inconsistent. *)
Theorem replay_ties_inconsistent :
  ∃ y t, nsteps (sys_step (H:=still_env)) 4 sys0 y ∧
    (sys_store y).(tasks) !! "t1" = Some t ∧
    Task_Status t = TaskAccepted ∧
    Consistent (Check_ t (log_of (sys_store y) "t1")) = false ∧
    Expected (Check_ t (log_of (sys_store y) "t1")) = TaskCreated.
Proof.
  eassert (Hrun : nsteps (sys_step (H:=still_env)) 4 sys0 _).
  { unfold sys0.
    eapply nsteps_l; [eapply (sys_prepare_create test_task "alice" "user");
      [reflexivity | by right | vm_compute; reflexivity] |].
    eapply nsteps_l; [eapply (sys_commit _ _ []); vm_compute; reflexivity |].
    eapply nsteps_l; [eapply (sys_prepare_command (test_input CmdAccept)); vm_compute; reflexivity |].
    eapply nsteps_l; [eapply (sys_commit _ _ []); vm_compute; reflexivity |].
    apply nsteps_O. }
  eexists _, _. split; [exact Hrun|]. split; [vm_compute; reflexivity|].
  repeat split; vm_compute; reflexivity.
Qed.

(** ** The service over any lawful repository *)

Section refinement.
Context `{Env} {S : Type} `{TaskRepository S, EventRepository S}.
Context (view : S → InMemoryStore) `{!TaskStoreLaws S view}.

Lemma refines_newTaskEvent task a ty :
  refines view (newTaskEvent task a ty) (newTaskEvent task a ty).
Proof. unfold newTaskEvent. eauto 12 with refines. Qed.

Lemma refines_prepareCommand input :
  refines view (prepareCommand input) (prepareCommand input).
Proof.
  unfold prepareCommand. apply refines_bind; [apply law_Get|]. eauto 12 with refines.
Qed.

Lemma refines_audit task e input tr :
  refines view (recordTransitionAudit task e input tr) (recordTransitionAudit task e input tr).
Proof.
  unfold recordTransitionAudit. apply refines_with_audit, refines_bind; [apply refines_lift_env|].
  intros. apply refines_audit_Log.
Qed.

Lemma refines_CreateTask task a ty :
  refines view (CreateTask None task a ty) (CreateTask None task a ty).
Proof.
  unfold CreateTask, storeNewTask. apply refines_bind; [apply refines_newTaskEvent|].
  intros te. apply refines_bind; [|intros; apply refines_ret].
  apply refines_bind; [apply law_Create|intros; apply law_Append].
Qed.

Lemma refines_ApplyCommand input :
  refines view (ApplyCommand None input) (ApplyCommand None input).
Proof.
  unfold ApplyCommand, commitCommand. apply refines_bind; [apply refines_prepareCommand|].
  intros p. apply refines_bind.
  { apply refines_bind; [apply law_UpdateWithVersion|intros; apply law_Append]. }
  intros _. apply refines_bind; [apply law_Get|]. intros updated.
  apply refines_bind; [|intros; apply refines_ret].
  apply refines_if; [apply refines_audit|apply refines_ret].
Qed.
End refinement.

(** With a fresh event id, the two writes of the non-atomic path do what the atomic one does. *)
Lemma storeNewTask_atomic `{Env} task ev w s :
  TaskEvent_EventID ev ∉ ids s →
  storeNewTask None task ev w s = storeNewTask (Some store_atomic) task ev w s.
Proof.
  intros Hfresh. simpl. unfold Create, CreateTaskAndAppendEvent, Append, bind, get, put, throw.
  simpl. destruct (tasks s !! Task_TaskID task); [done|]. simpl.
  by rewrite !bool_decide_eq_false_2.
Qed.

Lemma commitCommand_atomic `{Env} p w s :
  TaskEvent_EventID (prep_event p) ∉ ids s →
  commitCommand None p w s = commitCommand (Some store_atomic) p w s.
Proof.
  intros Hfresh. simpl.
  unfold UpdateWithVersionAndAppendEvent, UpdateWithVersion.
  rewrite (bind_Ok get _ w s s w s eq_refl), bool_decide_eq_false_2 by done.
  destruct (updateTaskLocked_run (prep_updated p) (Task_Version (prep_task p)) w s)
    as (r & s' & E & Ho).
  unfold bind. rewrite E. destruct Ho; [done|done|].
  unfold Append, bind, get, throw. simpl. by rewrite bool_decide_eq_false_2.
Qed.

Lemma newTaskEvent_id `{Env} {S} task a ty w (s : S) te w' s' :
  newTaskEvent task a ty w s = (Ok te, w', s') →
  s' = s ∧ TaskEvent_EventID te.2 = draw_id w.
Proof.
  unfold newTaskEvent, bind, now, time_Now, idgen_New, lift_env, ret; simpl.
  intros E. destruct (IsZero (Task_CreatedAt task)); simpl in E; simplify_eq; done.
Qed.

(** C3. The service does not depend on how tasks and events are stored.  Over any pair of
    repositories that meets the laws of the interfaces (such as the split in-memory
    repositories, which have no atomic operation), creating a task and applying a
    command give, for a fresh event id, exactly the result, the state and the audit
    log of the service over the atomic in-memory store. *)
Theorem service_storage_independent `{Env} {S} `{!TaskRepository S, !EventRepository S}
    (view : S → InMemoryStore) `{!TaskStoreLaws S view} w s :
  draw_id w ∉ ids (view s) →
  (∀ task a ty,
    CreateTask (Some store_atomic) task a ty w (view s) =
    (let '(r, w', s') := CreateTask None task a ty w s in (r, w', view s'))) ∧
  (∀ input,
    ApplyCommand (Some store_atomic) input w (view s) =
    (let '(r, w', s') := ApplyCommand None input w s in (r, w', view s'))).
Proof.
  intros Hfresh. split.
  - intros task a ty. rewrite <- (refines_CreateTask view task a ty w s).
    unfold CreateTask, bind.
    destruct (newTaskEvent task a ty w (view s)) as [[[te|e|] w1] s1] eqn:E; [|done|done].
    apply newTaskEvent_id in E as [-> Eid].
    by rewrite storeNewTask_atomic by by rewrite Eid.
  - intros input. rewrite <- (refines_ApplyCommand view input w s).
    unfold ApplyCommand. unfold bind at 1 5. rewrite prepareCommand_run.
    destruct (tasks (view s) !! Input_TaskID input) as [task|]; [|done].
    destruct (Apply _ _) as [tr| |]; [|done|done].
    unfold bind at 1 4. by rewrite commitCommand_atomic.
Qed.

Definition test_split : SplitRepo :=
  (mkInMemoryTaskRepository {["t1" := test_task]}, NewInMemoryEventRepository).

Lemma service_storage_independent_witness :
  ∃ r w' s', ApplyCommand None (test_input CmdAccept) world0 test_split = (Ok r, w', s') ∧
    ApplyCommand (Some store_atomic) (test_input CmdAccept) world0 (split_view test_split)
      = (Ok r, w', split_view s').
Proof.
  eexists _, _, _. split; [vm_compute; reflexivity|].
  rewrite (proj2 (service_storage_independent split_view world0 test_split
    (not_elem_of_empty (C:=gset string) (draw_id world0)))).
  vm_compute. reflexivity.
Defined.

(** The audit record of a command. *)
Definition transition_record `{Env} (input : CommandInput) (task : Task) (tr : Transition)
    (w : World) (id : string) : AuditEvent :=
  zeroAuditEvent
    <| Audit_AuditID := id |> <| Audit_TenantID := Task_TenantID task |>
    <| Audit_ActorID := Input_ActorID input |> <| Audit_ActorType := Input_ActorType input |>
    <| Audit_Action := Transition_EventType tr |> <| Audit_ResourceType := "task" |>
    <| Audit_ResourceID := Task_TaskID task |> <| Audit_Decision := "allowed" |>
    <| Audit_Reason := Transition_Command tr |> <| Audit_TaskID := Task_TaskID task |>
    <| Audit_RunID := Input_RunID input |> <| Audit_CreatedAt := clock w |>.

Lemma commit_run `{Env} p w s old :
  tasks s !! Task_TaskID (prep_updated p) = Some old →
  Task_Version old = Task_Version (prep_task p) →
  let run := commitCommand (Some store_atomic) p w s in
  (TaskEvent_EventID (prep_event p) ∈ ids s ∧ run = (Err ErrDuplicateRequest, w, s)) ∨
  (TaskEvent_EventID (prep_event p) ∉ ids s ∧
   run = (Ok tt, w, append_event (prep_event p)
                      (update_task (prep_updated p) (Task_Version (prep_task p)) s))).
Proof.
  intros Hold Hv. simpl.
  destruct (UpdateWithVersionAndAppendEvent_run (prep_updated p) (Task_Version (prep_task p))
    (prep_event p) w s) as (r & s' & E & [(-> & -> & Hin)|(Hn & s1 & Ho & ->)]); [by left|right].
  destruct Ho as [Hnone|o Ho Hne|o Ho He]; [congruence|congruence|done].
Qed.

Lemma Get_updated `{Env} e t v w s k :
  Task_TaskID t = k →
  Get k w (append_event e (update_task t v s)) =
    (Ok (t <| Task_Version := int64 (v + 1) |>), w, append_event e (update_task t v s)).
Proof.
  intros <-. unfold Get, bind, get, ret, throw. simpl. rewrite lookup_insert_eq.
  unfold UTC. by destruct t.
Qed.

Lemma audit_branch `{Env} input task stored tr w log :
  Task_TaskID stored = Task_TaskID task → Task_TenantID stored = Task_TenantID task →
  clock w ≠ 0%Z → w_audit w = Some log →
  ∃ w', (∀ s : InMemoryStore,
    (if Transition_Audit tr
     then recordTransitionAudit stored (prep_event (prepared_of input task tr w)) input tr
     else ret tt) (after_prepare w) s = (Ok tt, w', s)) ∧
    w_audit w' = Some (if Transition_Audit tr
                       then log ++ [transition_record input task tr w
                              ("audit_" +:+ env_rand (Datatypes.S (w_draws w)))]
                       else log).
Proof.
  intros Hid Hten Hclk Hlog. destruct (Transition_Audit tr).
  2: { eexists. split; [intros s; reflexivity|done]. }
  eexists. split.
  - intros s. unfold recordTransitionAudit, with_audit. simpl. rewrite Hlog.
    unfold audit_Log, bind, idgen_New, lift_env, ret, IsZero. simpl.
    rewrite (proj2 (Z.eqb_neq _ _) Hclk). reflexivity.
  - simpl. rewrite Hlog. simpl. unfold transition_record. by rewrite Hid, Hten.
Qed.

(** C4. [ApplyCommand], branch by branch, on a well-formed store: an unknown task and a
    command the machine refuses leave everything alone; a used event id refuses the
    command; otherwise the task moves to the target status with its version advanced
    and (in a terminal status) its completion time set, exactly one event with the
    transition's type is appended to its log, and the audit log gains one record
    when the transition asks for it, and none otherwise. *)
Theorem ApplyCommand_correct `{Env} input w s log :
  store_wf s → w_audit w = Some log → clock w ≠ 0%Z →
  let run := ApplyCommand (Some store_atomic) input w s in
  match tasks s !! Input_TaskID input with
  | None => run = (Err ErrNotFound, w, s)
  | Some task =>
      match Apply (Task_Status task) (Input_Command input) with
      | Panic => False
      | Err e => run = (Err e, w, s)
      | Ok tr =>
          let p := prepared_of input task tr w in
          let stored := (prep_updated p) <| Task_Version := int64 (Task_Version task + 1) |> in
          if bool_decide (draw_id w ∈ ids s)
          then run = (Err ErrDuplicateRequest, after_prepare w, s)
          else ∃ w' s', run = (Ok (stored, prep_event p, tr), w', s') ∧
            tasks s' = <[Input_TaskID input := stored]> (tasks s) ∧
            (∀ k, log_of s' k ≡ₚ if decide (Input_TaskID input = k)
                                 then log_of s k ++ [prep_event p] else log_of s k) ∧
            w_audit w' = Some (if Transition_Audit tr
                               then log ++ [transition_record input task tr w
                                  ("audit_" +:+ env_rand (Datatypes.S (w_draws w)))]
                               else log)
      end
  end.
Proof.
  intros Hwf Hlog Hclk run. unfold run, ApplyCommand. clear run.
  pose proof (prepareCommand_run input w s) as Ep.
  destruct (tasks s !! Input_TaskID input) as [task|] eqn:Ek; [|by apply bind_Err].
  destruct (Apply _ _) as [tr|e|] eqn:Ea; [|by apply bind_Err|by apply Apply_not_Panic in Ea].
  rewrite (bind_Ok _ _ _ _ _ _ _ Ep). clear Ep.
  pose proof (wf_tasks _ Hwf _ _ Ek) as Hid. set (p := prepared_of input task tr w).
  destruct (prepared_ids input task tr w) as [Hpid _]. fold p in Hpid.
  destruct (commit_run p (after_prepare w) s task) as [[Hin E]|[Hnin E]].
  { by rewrite Hpid, Hid. }
  { done. }
  - rewrite bool_decide_eq_true_2 by done. by rewrite (bind_Err _ _ _ _ _ _ _ E).
  - rewrite bool_decide_eq_false_2 by done. rewrite (bind_Ok _ _ _ _ _ _ _ E).
    rewrite (bind_Ok _ _ _ _ ((prep_updated p) <| Task_Version := int64 (Task_Version task + 1) |>)
      (after_prepare w) (append_event (prep_event p) (update_task (prep_updated p) (Task_Version task) s))).
    2: { by apply Get_updated. }
    assert (Ht : Task_TaskID (prep_updated p) = Input_TaskID input) by congruence.
    assert (Hten : Task_TenantID (prep_updated p) = Task_TenantID task)
      by (unfold p; simpl; by destruct (IsTerminal _)).
    destruct (audit_branch input task
      ((prep_updated p) <| Task_Version := int64 (Task_Version task + 1) |>) tr w log)
      as (w' & Ew & Hw'); [done|done|done|done|].
    exists w'. eexists. split.
    { rewrite (bind_Ok _ _ _ _ _ _ _ (Ew _ )). reflexivity. }
    split; [by rewrite <- Ht|]. split; [|done].
    intros k. rewrite append_event_log.
    replace (TaskEvent_TaskID (prep_event p)) with (Input_TaskID input) by (symmetry; exact Hid).
    destruct (decide _); [by rewrite stable_sort_perm|done].
Qed.

Lemma test_store_wf : store_wf test_store.
Proof.
  apply append_event_wf; [|apply not_elem_of_empty].
  change {["t1" := test_task]} with (<["t1" := test_task]> (tasks NewInMemoryStore)).
  by apply insert_task_wf; [|apply NewInMemoryStore_wf].
Qed.

Lemma ApplyCommand_correct_witness :
  ∃ w' s' r, ApplyCommand (Some store_atomic) (test_input CmdCancel) world0 test_store
    = (Ok r, w', s') ∧
    option_map Task_Status (tasks s' !! "t1") = Some TaskCancelled ∧
    option_map length (w_audit w') = Some 1%nat.
Proof.
  pose proof (ApplyCommand_correct (test_input CmdCancel) world0 test_store []
    test_store_wf eq_refl) as Hrun.
  destruct Hrun as (w' & s' & Erun & Et & _ & Ea); [by vm_compute|].
  exists w', s'. eexists. split; [exact Erun|]. rewrite Et, Ea. split; reflexivity.
Defined.
