(* ===== verification/Plan.v ===== *)
(** * Task plans: internal/task/plan/service.go

    The plan service over its in-memory repository. *)

From S2P Require Import Prelude Contracts GoMonad Storage.
From stdpp Require Import base list strings gmap fin_maps relations sorting.
Open Scope go_scope.
Open Scope string_scope.
Open Scope list_scope.

Record StepInput := mkStepInput {
  StepInput_Title : string;
  StepInput_Description : string;
  StepInput_ExpectedToolHints : list string
}.

Record PlanSnapshot := mkPlanSnapshot {
  PlanSnapshot_ActivePlan : option TaskPlan;
  PlanSnapshot_CurrentStep : option PlanStep;
  PlanSnapshot_Plans : list TaskPlan;
  PlanSnapshot_Steps : list PlanStep;
  PlanSnapshot_Events : list PlanEvent
}.
#[export] Instance eta_PlanSnapshot : Settable PlanSnapshot :=
  fields! mkPlanSnapshot < PlanSnapshot_ActivePlan ; PlanSnapshot_CurrentStep ;
    PlanSnapshot_Plans ; PlanSnapshot_Steps ; PlanSnapshot_Events >.

(** ** [InMemoryRepository] *)

Record PlanRepo := mkPlanRepo {
  plans : gmap string TaskPlan;
  plansByTask : gmap string (list string);
  steps : gmap string PlanStep;
  stepsByPlan : gmap string (list string);
  planEvents : gmap string PlanEvent;
  eventsByTask : gmap string (list string)
}.
#[export] Instance eta_PlanRepo : Settable PlanRepo :=
  fields! mkPlanRepo < plans ; plansByTask ; steps ; stepsByPlan ; planEvents ; eventsByTask >.

Definition NewInMemoryRepository : PlanRepo := mkPlanRepo ∅ ∅ ∅ ∅ ∅ ∅.

(** The loop of [CreatePlan]: a duplicate stops it with the earlier steps stored. *)
Fixpoint PlanRepo_storeSteps (plan : TaskPlan) (newSteps : list PlanStep) : M PlanRepo unit :=
  match newSteps with
  | [] => ret tt
  | step :: rest =>
      let! r := get in
      match r.(steps) !! step.(Step_StepID) with
      | Some _ => throw ErrDuplicateRequest
      | None =>
          do! put (r <| steps := <[step.(Step_StepID) := step]> r.(steps) |>
                     <| stepsByPlan :=
                          append_id plan.(Plan_PlanID) step.(Step_StepID) r.(stepsByPlan) |>) in
          PlanRepo_storeSteps plan rest
      end
  end.

Definition PlanRepo_CreatePlan (plan : TaskPlan) (newSteps : list PlanStep) : M PlanRepo unit :=
  let! r := get in
  match r.(plans) !! plan.(Plan_PlanID) with
  | Some _ => throw ErrDuplicateRequest
  | None =>
      do! put (r <| plans := <[plan.(Plan_PlanID) := plan]> r.(plans) |>
                 <| plansByTask :=
                      append_id plan.(Plan_TaskID) plan.(Plan_PlanID) r.(plansByTask) |>) in
      PlanRepo_storeSteps plan newSteps
  end.

Definition PlanRepo_UpdatePlan (plan : TaskPlan) : M PlanRepo unit :=
  let! r := get in
  match r.(plans) !! plan.(Plan_PlanID) with
  | None => throw ErrNotFound
  | Some _ => put (r <| plans := <[plan.(Plan_PlanID) := plan]> r.(plans) |>)
  end.

Definition PlanRepo_GetPlan (planID : string) : M PlanRepo TaskPlan :=
  let! r := get in
  match r.(plans) !! planID with None => throw ErrNotFound | Some plan => ret plan end.

Definition plan_active (plan : TaskPlan) : bool :=
  (plan.(Plan_Status) == PlanRunning) || (plan.(Plan_Status) == PlanPending).

(** The plans of a task, oldest first. *)
Definition plans_of (r : PlanRepo) (taskID : string) : list TaskPlan :=
  map (λ id, default zeroTaskPlan (r.(plans) !! id)) (default [] (r.(plansByTask) !! taskID)).

(** The loop runs from the last plan down. *)
Definition PlanRepo_ActivePlan (taskID : string) : M PlanRepo (option TaskPlan) :=
  let! r := get in ret (List.find plan_active (rev (plans_of r taskID))).

Definition PlanRepo_ListPlansByTask (taskID : string) : M PlanRepo (list TaskPlan) :=
  let! r := get in
  ret (stable_sort (λ a b, Before a.(Plan_CreatedAt) b.(Plan_CreatedAt)) (plans_of r taskID)).

Definition PlanRepo_GetStep (stepID : string) : M PlanRepo PlanStep :=
  let! r := get in
  match r.(steps) !! stepID with None => throw ErrNotFound | Some step => ret step end.

Definition PlanRepo_UpdateStep (step : PlanStep) : M PlanRepo unit :=
  let! r := get in
  match r.(steps) !! step.(Step_StepID) with
  | None => throw ErrNotFound
  | Some _ => put (r <| steps := <[step.(Step_StepID) := step]> r.(steps) |>)
  end.

Definition steps_of (r : PlanRepo) (planID : string) : list PlanStep :=
  map (λ id, default zeroPlanStep (r.(steps) !! id)) (default [] (r.(stepsByPlan) !! planID)).

Definition stepBefore (a b : PlanStep) : bool := (a.(Step_Index) <? b.(Step_Index))%Z.

Definition PlanRepo_ListStepsByPlan (planID : string) : M PlanRepo (list PlanStep) :=
  let! r := get in ret (stable_sort stepBefore (steps_of r planID)).

Definition PlanRepo_AppendEvent (event : PlanEvent) : M PlanRepo unit :=
  let! r := get in
  match r.(planEvents) !! event.(PlanEvent_EventID) with
  | Some _ => throw ErrDuplicateRequest
  | None =>
      put (r <| planEvents := <[event.(PlanEvent_EventID) := event]> r.(planEvents) |>
             <| eventsByTask :=
                  append_id event.(PlanEvent_TaskID) event.(PlanEvent_EventID) r.(eventsByTask) |>)
  end.

Definition PlanRepo_ListEventsByTask (taskID : string) : M PlanRepo (list PlanEvent) :=
  let! r := get in
  ret (map (λ id, default zeroPlanEvent (r.(planEvents) !! id))
         (default [] (r.(eventsByTask) !! taskID))).

(** ** [Service] *)

Section service.
Context `{Env}.

Definition planEvent (plan : TaskPlan) (eventType actorID actorType : string)
    (payload : gmap string Any) : M PlanRepo PlanEvent :=
  let! id := idgen_New "planevt" in
  let! t := now in
  ret (zeroPlanEvent <| PlanEvent_EventID := id |> <| PlanEvent_PlanID := plan.(Plan_PlanID) |>
    <| PlanEvent_TaskID := plan.(Plan_TaskID) |> <| PlanEvent_Type := eventType |>
    <| PlanEvent_ActorID := actorID |> <| PlanEvent_ActorType := actorType |>
    <| PlanEvent_Payload := payload |> <| PlanEvent_CreatedAt := t |>).

Definition stepEvent (step : PlanStep) (eventType actorID actorType : string)
    (payload : gmap string Any) : M PlanRepo PlanEvent :=
  let payload := <["step_index" := AInt step.(Step_Index)]>
                   (<["step_id" := AString step.(Step_StepID)]> payload) in
  let! id := idgen_New "planevt" in
  let! t := now in
  ret (zeroPlanEvent <| PlanEvent_EventID := id |> <| PlanEvent_PlanID := step.(Step_PlanID) |>
    <| PlanEvent_TaskID := step.(Step_TaskID) |> <| PlanEvent_Type := eventType |>
    <| PlanEvent_ActorID := actorID |> <| PlanEvent_ActorType := actorType |>
    <| PlanEvent_Payload := payload |> <| PlanEvent_CreatedAt := t |>).

(** The loop of [createPlan] that builds the steps; [i] is the loop's index. *)
Fixpoint buildSteps (task : Task) (planID : string) (now : Time) (i : Z)
    (inputs : list StepInput) : M PlanRepo (list PlanStep) :=
  match inputs with
  | [] => ret []
  | input :: rest =>
      let title := if input.(StepInput_Title) == "" then "Step " +:+ fmt_d (i + 1)
                   else input.(StepInput_Title) in
      let! id := idgen_New "planstep" in
      let! others := buildSteps task planID now (i + 1) rest in
      ret (mkPlanStep id planID task.(Task_TaskID) (i + 1) title input.(StepInput_Description)
             input.(StepInput_ExpectedToolHints) PlanStepPending [] "" now now :: others)
  end.

Definition createPlan (task : Task) (objective : string) (inputs : list StepInput)
    (actorID actorType eventType : string) (payload : gmap string Any)
    : M PlanRepo (TaskPlan * list PlanStep * PlanEvent) :=
  let objective := if objective == "" then task.(Task_Objective) else objective in
  if (len inputs =? 0)%Z then throw (Errorf "create plan requires at least one step" [])
  else
    let! now := now in
    let! planID := idgen_New "plan" in
    let plan := mkTaskPlan planID task.(Task_TaskID) objective PlanRunning actorID now now in
    let! planSteps := buildSteps task planID now 0 inputs in
    do! PlanRepo_CreatePlan plan planSteps in
    let payload := <["step_count" := AInt (len planSteps)]> payload in
    let! event := planEvent plan eventType actorID actorType payload in
    do! PlanRepo_AppendEvent event in
    ret (plan, planSteps, event).

Definition CreatePlan (task : Task) (objective : string) (inputs : list StepInput)
    (actorID actorType : string) : M PlanRepo (TaskPlan * list PlanStep * PlanEvent) :=
  createPlan task objective inputs actorID actorType "plan.created" ∅.

(** The first half of [Replan]: the active plan, if there is one, is superseded. *)
Definition supersede (active : option TaskPlan) (actorID actorType reason : string)
    : M PlanRepo unit :=
  match active with
  | None => ret tt
  | Some active =>
      let active := active <| Plan_Status := PlanSuperseded |> in
      let! t := now in
      let active := active <| Plan_UpdatedAt := t |> in
      do! PlanRepo_UpdatePlan active in
      let! event := planEvent active "plan.superseded" actorID actorType
                      {["reason" := AString reason]} in
      PlanRepo_AppendEvent event
  end.

Definition Replan (task : Task) (objective : string) (inputs : list StepInput)
    (actorID actorType reason : string) : M PlanRepo (TaskPlan * list PlanStep * PlanEvent) :=
  let! active := PlanRepo_ActivePlan task.(Task_TaskID) in
  do! supersede active actorID actorType reason in
  let payload := {["reason" := AString reason]} in
  let payload := match active with
                 | Some active => <["superseded_plan_id" := AString active.(Plan_PlanID)]> payload
                 | None => payload
                 end in
  createPlan task objective inputs actorID actorType "plan.replanned" payload.

Definition ActivePlan (taskID : string) : M PlanRepo (option TaskPlan) :=
  PlanRepo_ActivePlan taskID.

Definition CurrentStep (taskID : string) : M PlanRepo (option PlanStep) :=
  let! active := PlanRepo_ActivePlan taskID in
  match active with
  | None => ret None
  | Some plan =>
      let! steps := PlanRepo_ListStepsByPlan plan.(Plan_PlanID) in
      match List.find (λ step, step.(Step_Status) == PlanStepRunning) steps with
      | Some step => ret (Some step)
      | None => ret (List.find (λ step, step.(Step_Status) == PlanStepPending) steps)
      end
  end.

Definition step_done (step : PlanStep) : bool :=
  (step.(Step_Status) == PlanStepCompleted) || (step.(Step_Status) == PlanStepSkipped).

Definition ensurePreviousStepsDone (step : PlanStep) : M PlanRepo unit :=
  let! steps := PlanRepo_ListStepsByPlan step.(Step_PlanID) in
  match List.find (λ previous,
          negb (previous.(Step_Index) >=? step.(Step_Index))%Z && negb (step_done previous)) steps with
  | Some previous =>
      throw (Errorf "cannot start plan step %s before step %s is finished"
               [step.(Step_StepID); previous.(Step_StepID)])
  | None => ret tt
  end.

Definition completePlanIfDone (planID actorID actorType : string) : M PlanRepo unit :=
  let! steps := PlanRepo_ListStepsByPlan planID in
  if negb (forallb step_done steps) then ret tt
  else
    let! plan := PlanRepo_GetPlan planID in
    let plan := plan <| Plan_Status := PlanCompleted |> in
    let! t := now in
    let plan := plan <| Plan_UpdatedAt := t |> in
    do! PlanRepo_UpdatePlan plan in
    let! event := planEvent plan "plan.completed" actorID actorType
                    {["step_count" := AInt (len steps)]} in
    PlanRepo_AppendEvent event.

(** The guards that [StartStep], [CompleteStep] and [FailStep] share. *)
Definition guardStep (verb : string) (status : PlanStepStatus) (taskID stepID : string)
    : M PlanRepo PlanStep :=
  let! step := PlanRepo_GetStep stepID in
  if step.(Step_TaskID) != taskID
  then throw (Errorf "plan step %s does not belong to task %s" [stepID; taskID])
  else if step.(Step_Status) != status
  then throw (Errorf ("cannot " +:+ verb +:+ " plan step %s from status %s")
                [stepID; step.(Step_Status)])
  else ret step.

Definition StartStep (taskID stepID actorID actorType : string)
    : M PlanRepo (PlanStep * PlanEvent) :=
  let! step := guardStep "start" PlanStepPending taskID stepID in
  do! ensurePreviousStepsDone step in
  let step := step <| Step_Status := PlanStepRunning |> in
  let! t := now in
  let step := step <| Step_UpdatedAt := t |> in
  do! PlanRepo_UpdateStep step in
  let! event := stepEvent step "plan_step.running" actorID actorType ∅ in
  do! PlanRepo_AppendEvent event in
  ret (step, event).

(** An artifact reference as a value of type [any]. *)
Definition artifact_any (a : ArtifactRef) : Any :=
  AMap [("artifact_id", AString a.(ArtifactRef_ArtifactID)); ("type", AString a.(ArtifactRef_Type));
        ("uri", AString a.(ArtifactRef_URI)); ("summary", AString a.(ArtifactRef_Summary));
        ("hash", AString a.(ArtifactRef_Hash));
        ("metadata", AMap (map_to_list a.(ArtifactRef_Metadata)))].

Definition CompleteStep (taskID stepID : string) (resultRefs : list ArtifactRef)
    (toolResultID actorID actorType : string) : M PlanRepo (PlanStep * PlanEvent) :=
  let! step := guardStep "complete" PlanStepRunning taskID stepID in
  let step := step <| Step_Status := PlanStepCompleted |> <| Step_ResultRefs := resultRefs |> in
  let! t := now in
  let step := step <| Step_UpdatedAt := t |> in
  do! PlanRepo_UpdateStep step in
  let! event := stepEvent step "plan_step.completed" actorID actorType
                  {["tool_result_id" := AString toolResultID;
                    "result_refs" := AList (map artifact_any resultRefs)]} in
  do! PlanRepo_AppendEvent event in
  do! completePlanIfDone step.(Step_PlanID) actorID actorType in
  ret (step, event).

Definition FailStep (taskID stepID reason actorID actorType : string)
    : M PlanRepo (PlanStep * PlanEvent) :=
  let! step := guardStep "fail" PlanStepRunning taskID stepID in
  let step := step <| Step_Status := PlanStepFailed |> <| Step_FailureReason := reason |> in
  let! t := now in
  let step := step <| Step_UpdatedAt := t |> in
  do! PlanRepo_UpdateStep step in
  let! event := stepEvent step "plan_step.failed" actorID actorType
                  {["reason" := AString reason]} in
  do! PlanRepo_AppendEvent event in
  let! plan := PlanRepo_GetPlan step.(Step_PlanID) in
  let plan := plan <| Plan_Status := PlanFailed |> in
  let! t := now in
  let plan := plan <| Plan_UpdatedAt := t |> in
  do! PlanRepo_UpdatePlan plan in
  ret (step, event).

Definition Snapshot (taskID : string) : M PlanRepo PlanSnapshot :=
  let! plans := PlanRepo_ListPlansByTask taskID in
  let! events := PlanRepo_ListEventsByTask taskID in
  let snapshot := mkPlanSnapshot None None plans [] events in
  let! active := PlanRepo_ActivePlan taskID in
  match active with
  | None => ret snapshot
  | Some active =>
      let snapshot := snapshot <| PlanSnapshot_ActivePlan := Some active |> in
      let! steps := PlanRepo_ListStepsByPlan active.(Plan_PlanID) in
      let snapshot := snapshot <| PlanSnapshot_Steps := steps |> in
      let! step := CurrentStep taskID in
      ret (match step with
           | Some step => snapshot <| PlanSnapshot_CurrentStep := Some step |>
           | None => snapshot
           end)
  end.
End service.

(** ** The service as steps *)

Inductive PlanOp :=
| OpCreatePlan (task : Task) (objective : string) (inputs : list StepInput) (a ty : string)
| OpReplan (task : Task) (objective : string) (inputs : list StepInput) (a ty reason : string)
| OpStartStep (taskID stepID a ty : string)
| OpCompleteStep (taskID stepID : string) (refs : list ArtifactRef) (res a ty : string)
| OpFailStep (taskID stepID reason a ty : string).

Definition run_plan_op `{Env} (op : PlanOp) : M PlanRepo unit :=
  match op with
  | OpCreatePlan t o i a ty => let! _ := CreatePlan t o i a ty in ret tt
  | OpReplan t o i a ty why => let! _ := Replan t o i a ty why in ret tt
  | OpStartStep t s a ty => let! _ := StartStep t s a ty in ret tt
  | OpCompleteStep t s refs res a ty => let! _ := CompleteStep t s refs res a ty in ret tt
  | OpFailStep t s why a ty => let! _ := FailStep t s why a ty in ret tt
  end.

Inductive plan_step `{Env} : PlanRepo → PlanRepo → Prop :=
| plan_step_op op w r res w' r' : run_plan_op op w r = (res, w', r') → plan_step r r'.

(** ** The invariant *)

(** The repository's indexes are exact, the steps of a plan have different indexes, and
    a step has left [pending] only if every earlier step of its plan is done. *)
Record plan_wf (r : PlanRepo) : Prop := {
  wf_plan id p : r.(plans) !! id = Some p → Plan_PlanID p = id;
  wf_plansByTask t id :
    id ∈ ids_of r.(plansByTask) t ↔ ∃ p, r.(plans) !! id = Some p ∧ Plan_TaskID p = t;
  wf_plans_nodup t : NoDup (ids_of r.(plansByTask) t);
  wf_step id s : r.(steps) !! id = Some s → Step_StepID s = id;
  wf_stepsByPlan p id :
    id ∈ ids_of r.(stepsByPlan) p ↔ ∃ s, r.(steps) !! id = Some s ∧ Step_PlanID s = p;
  wf_steps_nodup p : NoDup (ids_of r.(stepsByPlan) p);
  wf_step_plan id s : r.(steps) !! id = Some s → is_Some (r.(plans) !! Step_PlanID s);
  wf_index i j s s' : r.(steps) !! i = Some s → r.(steps) !! j = Some s' →
    Step_PlanID s = Step_PlanID s' → Step_Index s = Step_Index s' → i = j;
  wf_order i j s s' : r.(steps) !! i = Some s → r.(steps) !! j = Some s' →
    Step_PlanID s = Step_PlanID s' → (Step_Index s < Step_Index s')%Z →
    Step_Status s' ≠ PlanStepPending → step_done s = true;
  wf_event id e : r.(planEvents) !! id = Some e → PlanEvent_EventID e = id;
  wf_eventsByTask t id :
    id ∈ ids_of r.(eventsByTask) t ↔ ∃ e, r.(planEvents) !! id = Some e ∧ PlanEvent_TaskID e = t
}.

Lemma NewInMemoryRepository_wf : plan_wf NewInMemoryRepository.
Proof.
  split; unfold ids_of; simpl; intros *; rewrite ?lookup_empty; simpl; try done; try constructor.
  all: try (intros H; by inversion H). all: by intros (? & ? & ?).
Qed.


(** ** Updates that keep the invariant *)

Definition add_plan (p : TaskPlan) (r : PlanRepo) : PlanRepo :=
  r <| plans := <[Plan_PlanID p := p]> r.(plans) |>
    <| plansByTask := append_id (Plan_TaskID p) (Plan_PlanID p) r.(plansByTask) |>.
Definition set_plan (p : TaskPlan) (r : PlanRepo) : PlanRepo :=
  r <| plans := <[Plan_PlanID p := p]> r.(plans) |>.
Definition add_step (s : PlanStep) (r : PlanRepo) : PlanRepo :=
  r <| steps := <[Step_StepID s := s]> r.(steps) |>
    <| stepsByPlan := append_id (Step_PlanID s) (Step_StepID s) r.(stepsByPlan) |>.
Definition set_step (s : PlanStep) (r : PlanRepo) : PlanRepo :=
  r <| steps := <[Step_StepID s := s]> r.(steps) |>.
Definition add_event (e : PlanEvent) (r : PlanRepo) : PlanRepo :=
  r <| planEvents := <[PlanEvent_EventID e := e]> r.(planEvents) |>
    <| eventsByTask := append_id (PlanEvent_TaskID e) (PlanEvent_EventID e) r.(eventsByTask) |>.

Lemma add_plan_wf p r : plan_wf r → r.(plans) !! Plan_PlanID p = None → plan_wf (add_plan p r).
Proof.
  intros [] Hfresh. split; simpl; try done.
  - by apply keyed_insert.
  - by apply (index_insert Plan_TaskID).
  - by apply (index_nodup Plan_TaskID r.(plans)).
  - intros id s Hs. rewrite lookup_insert_is_Some. destruct (decide (Plan_PlanID p = Step_PlanID s));
      [by left|right; split; [done|by eapply wf_step_plan0]].
Qed.

Lemma set_plan_wf p r old :
  plan_wf r → r.(plans) !! Plan_PlanID p = Some old → Plan_TaskID p = Plan_TaskID old →
  plan_wf (set_plan p r).
Proof.
  intros [] Hold Htask. split; simpl; try done.
  - by apply keyed_insert.
  - by eapply (index_replace Plan_TaskID).
  - intros id s Hs. rewrite lookup_insert_is_Some. destruct (decide (Plan_PlanID p = Step_PlanID s));
      [by left|right; split; [done|by eapply wf_step_plan0]].
Qed.

Lemma add_event_wf e r :
  plan_wf r → r.(planEvents) !! PlanEvent_EventID e = None → plan_wf (add_event e r).
Proof.
  intros [] Hfresh. split; simpl; try done.
  - by apply keyed_insert.
  - by apply (index_insert PlanEvent_TaskID).
Qed.

(** A new step comes after the steps its plan has, and is pending. *)
Lemma add_step_wf s r :
  plan_wf r → r.(steps) !! Step_StepID s = None → is_Some (r.(plans) !! Step_PlanID s) →
  (∀ j s', r.(steps) !! j = Some s' → Step_PlanID s' = Step_PlanID s →
     (Step_Index s' < Step_Index s)%Z) →
  Step_Status s = PlanStepPending → plan_wf (add_step s r).
Proof.
  intros [] Hfresh Hplan Hlast Hpend. split; simpl; try done.
  - by apply keyed_insert.
  - by apply (index_insert Step_PlanID).
  - by apply (index_nodup Step_PlanID r.(steps)).
  - intros id s'. rewrite lookup_insert_Some. intros [[_ <-]|[_ Hs']]; [done|by eapply wf_step_plan0].
  - intros i j s1 s2. rewrite !lookup_insert_Some.
    intros [[<- <-]|[Hi H1]] [[<- <-]|[Hj H2]] Hp Hx; [done| | |by eapply wf_index0].
    + specialize (Hlast _ _ H2 (eq_sym Hp)). lia.
    + specialize (Hlast _ _ H1 Hp). lia.
  - intros i j s1 s2. rewrite !lookup_insert_Some.
    intros [[<- <-]|[Hi H1]] [[<- <-]|[Hj H2]] Hp Hx Hst; [done| |done|by eapply wf_order0].
    specialize (Hlast _ _ H2 (eq_sym Hp)). lia.
Qed.

(** A step may change its status if that leaves the order of the plan intact. *)
Lemma set_step_wf s r old :
  plan_wf r → r.(steps) !! Step_StepID s = Some old →
  Step_PlanID s = Step_PlanID old → Step_Index s = Step_Index old →
  (step_done old = true → step_done s = true) →
  (Step_Status s ≠ PlanStepPending → Step_Status old = PlanStepPending →
   ∀ j s', r.(steps) !! j = Some s' → Step_PlanID s' = Step_PlanID s →
     (Step_Index s' < Step_Index s)%Z → step_done s' = true) →
  plan_wf (set_step s r).
Proof.
  intros [] Hold Hp Hx Hdone Hstart. split; simpl; try done.
  - by apply keyed_insert.
  - by eapply (index_replace Step_PlanID).
  - intros id s'. rewrite lookup_insert_Some.
    intros [[_ <-]|[_ Hs']]; [rewrite Hp|]; by eapply wf_step_plan0.
  - intros i j s1 s2. rewrite !lookup_insert_Some.
    intros [[<- <-]|[Hi H1]] [[<- <-]|[Hj H2]] Hpp Hxx; [done| | |by eapply wf_index0].
    + eapply (wf_index0 _ _ old s2); congruence.
    + eapply (wf_index0 _ _ s1 old); congruence.
  - intros i j s1 s2. rewrite !lookup_insert_Some.
    intros [[<- <-]|[Hi H1]] [[<- <-]|[Hj H2]] Hpp Hlt Hst; [lia| | |by eapply wf_order0].
    + apply Hdone. eapply (wf_order0 _ _ old s2); [done|done|congruence|lia|done].
    + destruct (decide (Step_Status old = PlanStepPending)) as [Eo|Ho]; [by eapply Hstart|].
      eapply (wf_order0 _ _ s1 old); [done|done|congruence|lia|done].
Qed.

(** ** The operations keep the invariant *)

Definition keeps {A} (m : M PlanRepo A) : Prop := triple plan_wf m (λ _, plan_wf) plan_wf.

Lemma keeps_bind {A B} (m : M PlanRepo A) (f : A → M PlanRepo B) :
  keeps m → (∀ a, keeps (f a)) → keeps (bind m f).
Proof. apply triple_bind. Qed.

Lemma keeps_ret {A} (a : A) : keeps (ret a).
Proof. by apply triple_ret. Qed.

Lemma keeps_read {A} (f : PlanRepo → M PlanRepo A) :
  (∀ r, triple (λ r', r' = r ∧ plan_wf r) (f r) (λ _, plan_wf) plan_wf) → keeps (bind get f).
Proof. intros Hf. apply triple_get. intros r Hr. apply Hf. Qed.

Create HintDb keeps discriminated.
#[export] Hint Resolve keeps_bind keeps_ret : keeps.

Lemma AppendEvent_keeps e : keeps (PlanRepo_AppendEvent e).
Proof.
  apply keeps_read. intros r. destruct (planEvents r !! PlanEvent_EventID e) eqn:E.
  - apply triple_throw. by intros ? [-> ?].
  - apply triple_put. intros s [-> Hwf]. by apply add_event_wf.
Qed.

Lemma planEvent_effect `{Env} p t a ty pl : effect_only (planEvent p t a ty pl).
Proof. unfold planEvent. auto 6 with effects. Qed.
Lemma stepEvent_effect `{Env} s t a ty pl : effect_only (stepEvent s t a ty pl).
Proof. unfold stepEvent. auto 6 with effects. Qed.

(** An event is made and appended. *)
Lemma event_keeps {A} (mk : M PlanRepo PlanEvent) (k : PlanEvent → M PlanRepo A) :
  effect_only mk → (∀ e, keeps (k e)) →
  keeps (let! e := mk in do! PlanRepo_AppendEvent e in k e).
Proof.
  intros Hmk Hk. apply keeps_bind; [by apply triple_effect|]. intros e.
  apply keeps_bind; [apply AppendEvent_keeps|intros; apply Hk].
Qed.

Lemma event_last_keeps (mk : M PlanRepo PlanEvent) :
  effect_only mk → keeps (let! e := mk in PlanRepo_AppendEvent e).
Proof.
  intros Hmk. apply keeps_bind; [by apply triple_effect|]. intros e. apply AppendEvent_keeps.
Qed.

Lemma UpdatePlan_spec P p :
  (∀ r, P r → plan_wf r) →
  (∀ r old, P r → r.(plans) !! Plan_PlanID p = Some old → Plan_TaskID p = Plan_TaskID old) →
  triple P (PlanRepo_UpdatePlan p) (λ _, plan_wf) plan_wf.
Proof.
  intros HP Hid. apply triple_get. intros r Hr.
  destruct (plans r !! Plan_PlanID p) as [old|] eqn:E.
  - apply triple_put. intros s [-> _]. eapply set_plan_wf; eauto.
  - apply triple_throw. intros s [-> _]. auto.
Qed.

Lemma GetPlan_spec P E id :
  (∀ r, P r → E r) →
  triple P (PlanRepo_GetPlan id) (λ p r, P r ∧ r.(plans) !! id = Some p) E.
Proof.
  intros HP. apply triple_get. intros r Hr. destruct (plans r !! id) as [p|] eqn:Ep.
  - apply triple_ret. by intros s [-> _].
  - apply triple_throw. intros s [-> _]. auto.
Qed.

(** A plan is read, its status and time are changed, and it is written back. *)
Lemma finishPlan_keeps `{Env} {A} planID status (k : TaskPlan → M PlanRepo A) :
  (∀ p, keeps (k p)) →
  keeps (let! plan := PlanRepo_GetPlan planID in
         let plan := plan <| Plan_Status := status |> in
         let! t := now in
         let plan := plan <| Plan_UpdatedAt := t |> in
         do! PlanRepo_UpdatePlan plan in k plan).
Proof.
  intros Hk. eapply triple_bind; [by apply GetPlan_spec|]. intros p. cbv zeta.
  eapply triple_bind; [apply triple_effect; auto with effects|]. intros t.
  eapply triple_bind; [|intros; apply Hk]. apply UpdatePlan_spec; [by intros r [? _]|].
  intros r old [Hwf Hp] Hold. simpl in *. pose proof (wf_plan _ Hwf _ _ Hp) as <-.
  rewrite Hp in Hold. by simplify_eq.
Qed.

Lemma guardStep_spec verb status taskID stepID :
  triple plan_wf (guardStep verb status taskID stepID)
    (λ s r, plan_wf r ∧ r.(steps) !! Step_StepID s = Some s ∧ Step_StepID s = stepID ∧
            Step_TaskID s = taskID ∧ Step_Status s = status) plan_wf.
Proof.
  unfold guardStep. eapply triple_bind with (Q := λ s r, plan_wf r ∧ r.(steps) !! stepID = Some s).
  { apply triple_get. intros r Hr. destruct (steps r !! stepID) as [s|] eqn:Es.
    - apply triple_ret. by intros ? [-> _].
    - apply triple_throw. by intros ? [-> _]. }
  intros s. destruct (String.eqb_spec (Step_TaskID s) taskID); simpl.
  2: { apply triple_throw. by intros r [? _]. }
  destruct (String.eqb_spec (Step_Status s) status); simpl.
  2: { apply triple_throw. by intros r [? _]. }
  apply triple_ret. intros r [Hwf Hs]. pose proof (wf_step _ Hwf _ _ Hs) as <-. done.
Qed.

Lemma steps_of_elem r p s :
  plan_wf r → s ∈ steps_of r p ↔ r.(steps) !! Step_StepID s = Some s ∧ Step_PlanID s = p.
Proof.
  intros Hwf. unfold steps_of. rewrite list_elem_of_In, in_map_iff.
  setoid_rewrite <- list_elem_of_In. change (default [] (stepsByPlan r !! p))
    with (ids_of (stepsByPlan r) p). split.
  - intros (id & <- & (s' & Hs & Hp)%(wf_stepsByPlan _ Hwf)). rewrite Hs. simpl.
    by rewrite (wf_step _ Hwf _ _ Hs).
  - intros [Hs Hp]. exists (Step_StepID s). rewrite Hs. split; [done|].
    apply (wf_stepsByPlan _ Hwf). eauto.
Qed.

Lemma UpdateStep_spec P s :
  (∀ r, P r → plan_wf r) →
  (∀ r, P r → is_Some (r.(steps) !! Step_StepID s) → plan_wf (set_step s r)) →
  triple P (PlanRepo_UpdateStep s) (λ _, plan_wf) plan_wf.
Proof.
  intros HP Hset. apply triple_get. intros r Hr.
  destruct (steps r !! Step_StepID s) as [old|] eqn:E.
  - apply triple_put. intros ? [-> _]. apply Hset; [done|by rewrite E].
  - apply triple_throw. intros ? [-> _]. auto.
Qed.

Lemma ensurePrevious_spec s P :
  (∀ r, P r → plan_wf r) →
  triple P (ensurePreviousStepsDone s)
    (λ _ r, P r ∧ ∀ j s', r.(steps) !! j = Some s' → Step_PlanID s' = Step_PlanID s →
       (Step_Index s' < Step_Index s)%Z → step_done s' = true) plan_wf.
Proof.
  intros HP. unfold ensurePreviousStepsDone, PlanRepo_ListStepsByPlan.
  intros w r Hr. unfold bind, get, ret. destruct (List.find _ _) as [prev|] eqn:E; simpl; [by auto|].
  split; [done|]. intros j s' Hs Hp Hlt.
  pose proof (wf_step _ (HP _ Hr) _ _ Hs) as Hid. rewrite <- Hid in Hs.
  assert (Hin : s' ∈ stable_sort stepBefore (steps_of r (Step_PlanID s))).
  { rewrite stable_sort_elem. by apply steps_of_elem; [apply HP|]. }
  apply list_elem_of_In in Hin. pose proof (List.find_none _ _ E _ Hin) as Hf. simpl in Hf.
  rewrite Z.geb_leb, (proj2 (Z.leb_gt _ _) Hlt) in Hf. simpl in Hf.
  by destruct (step_done s').
Qed.

(** The steps [buildSteps] makes for a plan: pending, numbered from [i + 1]. *)
Fixpoint steps_from (planID : string) (i : Z) (l : list PlanStep) : Prop :=
  match l with
  | [] => True
  | s :: l' => Step_PlanID s = planID ∧ Step_Index s = (i + 1)%Z ∧
               Step_Status s = PlanStepPending ∧ steps_from planID (i + 1) l'
  end.

Lemma buildSteps_run `{Env} task planID t i inputs w r :
  ∃ l w', buildSteps task planID t i inputs w r = (Ok l, w', r) ∧ steps_from planID i l ∧
    length l = length inputs.
Proof.
  revert i w. induction inputs as [|input inputs IH]; intros i w; simpl; [by exists [], w|].
  unfold bind at 1. simpl. edestruct (IH (i + 1)%Z) as (l & w' & E & Hl & Hlen).
  unfold bind. rewrite E. eexists _, _. split; [reflexivity|]. simpl. by rewrite Hlen.
Qed.

Lemma storeSteps_keeps plan l i :
  steps_from (Plan_PlanID plan) i l →
  triple (λ r, plan_wf r ∧ is_Some (r.(plans) !! Plan_PlanID plan) ∧
            ∀ j s, r.(steps) !! j = Some s → Step_PlanID s = Plan_PlanID plan →
              (Step_Index s ≤ i)%Z)
    (PlanRepo_storeSteps plan l) (λ _, plan_wf) plan_wf.
Proof.
  revert i. induction l as [|s l IH]; intros i; simpl.
  { intros _. apply triple_ret. by intros r [? _]. }
  intros (Hp & Hx & Hst & Hl). apply triple_get. intros r (Hwf & Hplan & Hlast).
  destruct (steps r !! Step_StepID s) as [old|] eqn:E.
  { apply triple_throw. by intros ? [-> _]. }
  eapply triple_bind; [|intros; apply (IH (i + 1)%Z Hl)].
  apply triple_put. intros ? [-> _]. rewrite <- Hp in *. split; [|split].
  - apply add_step_wf; try done. intros j s' Hs' Hp'. specialize (Hlast _ _ Hs' Hp'). lia.
  - done.
  - intros j s'. simpl. rewrite lookup_insert_Some. intros [[_ <-]|[_ Hs']] Hp'; [lia|].
    specialize (Hlast _ _ Hs' Hp'). lia.
Qed.

Lemma PlanRepo_CreatePlan_keeps plan l :
  steps_from (Plan_PlanID plan) 0 l → keeps (PlanRepo_CreatePlan plan l).
Proof.
  intros Hl. apply keeps_read. intros r. destruct (plans r !! Plan_PlanID plan) as [old|] eqn:E.
  { apply triple_throw. by intros ? [-> ?]. }
  eapply triple_bind; [|intros; by apply storeSteps_keeps].
  apply triple_put. intros ? [-> Hwf]. split; [by apply add_plan_wf|]. simpl.
  split; [rewrite lookup_insert_eq; eauto|].
  intros j s Hs Hp. destruct (wf_step_plan _ Hwf _ _ Hs) as [p Hp']. congruence.
Qed.

Lemma createPlan_keeps `{Env} task o inputs a ty ety payload :
  keeps (createPlan task o inputs a ty ety payload).
Proof.
  unfold createPlan. cbv zeta. apply triple_if; intros _; [by apply triple_throw|].
  apply keeps_bind; [apply triple_effect; auto with effects|]. intros t.
  apply keeps_bind; [apply triple_effect; auto with effects|]. intros planID.
  eapply triple_bind with (Q := λ l r, plan_wf r ∧ steps_from planID 0 l).
  { intros w r Hr. destruct (buildSteps_run task planID t 0 inputs w r) as (l & w' & -> & Hl & _).
    done. }
  intros l. eapply triple_bind with (Q := λ _, plan_wf).
  - intros w r [Hr Hl]. by apply PlanRepo_CreatePlan_keeps.
  - intros _. apply event_keeps; [apply planEvent_effect|]. intros; apply keeps_ret.
Qed.

Lemma ActivePlan_spec P E taskID :
  (∀ r, P r → E r) → (∀ r, P r → plan_wf r) →
  triple P (PlanRepo_ActivePlan taskID)
    (λ active r, P r ∧ match active with
       | Some p => r.(plans) !! Plan_PlanID p = Some p ∧ Plan_TaskID p = taskID
       | None => True end) E.
Proof.
  intros HE HP. apply triple_get. intros r Hr. apply triple_ret. intros ? [-> _]. split; [done|].
  destruct (List.find _ _) as [p|] eqn:E1; [|done]. apply List.find_some in E1 as [Hin _].
  apply in_rev, in_map_iff in Hin as (id & <- & Hid).
  apply list_elem_of_In, (wf_plansByTask _ (HP _ Hr)) in Hid as (p & Hp & Ht). rewrite Hp. simpl.
  by rewrite (wf_plan _ (HP _ Hr) _ _ Hp).
Qed.

Lemma supersede_keeps `{Env} active a ty reason taskID :
  triple (λ r, plan_wf r ∧ match active with
      | Some p => r.(plans) !! Plan_PlanID p = Some p ∧ Plan_TaskID p = taskID
      | None => True end)
    (supersede active a ty reason) (λ _, plan_wf) plan_wf.
Proof.
  destruct active as [p|]; simpl; [|apply triple_ret; by intros r [? _]].
  eapply triple_bind; [apply triple_effect; auto with effects|]. intros t.
  eapply triple_bind; [|intros; by apply event_last_keeps, planEvent_effect].
  apply UpdatePlan_spec; [by intros r [? _]|]. simpl. intros r old (_ & Hp & _) Hold. congruence.
Qed.

Lemma Replan_keeps `{Env} task o inputs a ty reason : keeps (Replan task o inputs a ty reason).
Proof.
  unfold Replan. eapply triple_bind; [by apply ActivePlan_spec|]. intros active. simpl.
  eapply triple_bind; [apply supersede_keeps|]. intros ?. apply createPlan_keeps.
Qed.

Lemma StartStep_keeps `{Env} t s a ty : keeps (StartStep t s a ty).
Proof.
  unfold StartStep. eapply triple_bind; [apply guardStep_spec|]. intros step.
  eapply triple_bind; [apply ensurePrevious_spec; by intros r [? _]|]. intros ?. cbv zeta.
  eapply triple_bind; [apply triple_effect; auto with effects|]. intros now.
  eapply triple_bind; [|intros; apply event_keeps; [apply stepEvent_effect|intros; apply keeps_ret]].
  apply UpdateStep_spec; [by intros r [[? _] _]|].
  intros r [(Hwf & Hs & _ & _ & Hst) Hprev] _. eapply set_step_wf; simpl; try done.
  unfold step_done. by rewrite Hst.
Qed.

Lemma completePlanIfDone_keeps `{Env} planID a ty : keeps (completePlanIfDone planID a ty).
Proof.
  unfold completePlanIfDone. apply keeps_bind.
  { apply keeps_read. intros r. apply triple_ret. by intros ? [-> ?]. }
  intros steps. apply triple_if; intros _; [apply keeps_ret|].
  apply (finishPlan_keeps planID PlanCompleted (λ plan,
    let! event := planEvent plan "plan.completed" a ty {["step_count" := AInt (len steps)]} in
    PlanRepo_AppendEvent event)).
  intros p. by apply event_last_keeps, planEvent_effect.
Qed.

Lemma CompleteStep_keeps `{Env} t s refs res a ty : keeps (CompleteStep t s refs res a ty).
Proof.
  unfold CompleteStep. eapply triple_bind; [apply guardStep_spec|]. intros step. cbv zeta.
  eapply triple_bind; [apply triple_effect; auto with effects|]. intros now.
  eapply triple_bind.
  2: { intros. apply event_keeps; [apply stepEvent_effect|]. intros e.
       apply keeps_bind; [apply completePlanIfDone_keeps|intros; apply keeps_ret]. }
  apply UpdateStep_spec; [by intros r [? _]|].
  intros r (Hwf & Hs & _ & _ & Hst) _. eapply set_step_wf; simpl; try done.
  by rewrite Hst.
Qed.

Lemma FailStep_keeps `{Env} t s reason a ty : keeps (FailStep t s reason a ty).
Proof.
  unfold FailStep. eapply triple_bind; [apply guardStep_spec|]. intros step. cbv zeta.
  eapply triple_bind; [apply triple_effect; auto with effects|]. intros now.
  eapply triple_bind.
  2: { intros. apply event_keeps; [apply stepEvent_effect|]. intros e.
       apply (finishPlan_keeps _ PlanFailed (λ _, ret (_, e))). intros; apply keeps_ret. }
  apply UpdateStep_spec; [by intros r [? _]|].
  intros r (Hwf & Hs & _ & _ & Hst) _. eapply set_step_wf; simpl; try done.
  - unfold step_done. by rewrite Hst.
  - by rewrite Hst.
Qed.

Lemma plan_step_keeps `{Env} r r' : plan_step r r' → plan_wf r → plan_wf r'.
Proof.
  intros [op w r1 res w' r2 E] Hwf.
  eapply triple_inv; [|exact Hwf|exact E].
  destruct op; simpl; (apply keeps_bind; [|intros; apply keeps_ret]).
  - apply createPlan_keeps.
  - apply Replan_keeps.
  - apply StartStep_keeps.
  - apply CompleteStep_keeps.
  - apply FailStep_keeps.
Qed.

Lemma plan_reachable_wf `{Env} r : rtc plan_step NewInMemoryRepository r → plan_wf r.
Proof.
  revert r. apply rtc_ind_r; [apply NewInMemoryRepository_wf|].
  intros r1 r2 _ Hst IH. by eapply plan_step_keeps.
Qed.

(** ** Correctness of the service *)

Definition test_plan_task : Task :=
  zeroTask <| Task_TaskID := "t1" |> <| Task_Objective := "goal" |>.
Definition two_steps : list StepInput := [mkStepInput "a" "" []; mkStepInput "" "" []].

(** The steps of a plan are worked through in order: in every repository reached by
    calls of the service, successful or not, if a step has been started then every
    step of its plan with a smaller index is completed or skipped. *)
Theorem plan_steps_in_order `{Env} r planID s s' :
  rtc plan_step NewInMemoryRepository r →
  s ∈ steps_of r planID → s' ∈ steps_of r planID →
  (Step_Index s < Step_Index s')%Z → Step_Status s' ≠ PlanStepPending →
  Step_Status s = PlanStepCompleted ∨ Step_Status s = PlanStepSkipped.
Proof.
  intros Hwf%plan_reachable_wf [Hs Hp]%(steps_of_elem _ _ _ Hwf)
    [Hs' Hp']%(steps_of_elem _ _ _ Hwf) Hlt Hst.
  pose proof (wf_order _ Hwf _ _ _ _ Hs Hs' ltac:(congruence) Hlt Hst) as Hd.
  unfold step_done in Hd. apply orb_true_iff in Hd as [?%String.eqb_eq|?%String.eqb_eq]; auto.
Qed.

Definition created_repo : PlanRepo :=
  (CreatePlan test_plan_task "" two_steps "a" "user" world0 NewInMemoryRepository).2.
Definition started_repo : PlanRepo :=
  (StartStep "t1" "planstep_1" "a" "user" (mkWorld 10 10 10 None None) created_repo).2.
Definition completed_repo : PlanRepo :=
  (CompleteStep "t1" "planstep_1" [] "" "a" "user" (mkWorld 20 20 20 None None) started_repo).2.
Definition second_repo : PlanRepo :=
  (StartStep "t1" "planstep_2" "a" "user" (mkWorld 30 30 30 None None) completed_repo).2.

Lemma started_repo_steps : rtc plan_step NewInMemoryRepository started_repo.
Proof.
  apply rtc_l with created_repo.
  { apply (plan_step_op (OpCreatePlan test_plan_task "" two_steps "a" "user") world0
      NewInMemoryRepository (Ok tt) (mkWorld 2 4 0 (Some []) (Some [])) created_repo).
    vm_compute. reflexivity. }
  apply rtc_once.
  apply (plan_step_op (OpStartStep "t1" "planstep_1" "a" "user") (mkWorld 10 10 10 None None)
      created_repo (Ok tt) (mkWorld 12 11 10 None None) started_repo). vm_compute. reflexivity.
Qed.

Lemma second_repo_steps : rtc plan_step NewInMemoryRepository second_repo.
Proof.
  etrans; [apply started_repo_steps|]. apply rtc_l with completed_repo.
  { apply (plan_step_op (OpCompleteStep "t1" "planstep_1" [] "" "a" "user")
      (mkWorld 20 20 20 None None) started_repo (Ok tt) (mkWorld 22 21 20 None None)
      completed_repo). vm_compute. reflexivity. }
  apply rtc_once.
  apply (plan_step_op (OpStartStep "t1" "planstep_2" "a" "user") (mkWorld 30 30 30 None None)
      completed_repo (Ok tt) (mkWorld 32 31 30 None None) second_repo). vm_compute. reflexivity.
Qed.

Lemma plan_steps_in_order_witness :
  ∃ s s', steps_of second_repo "plan_0" = [s; s'] ∧ Step_Status s' = PlanStepRunning ∧
    (Step_Status s = PlanStepCompleted ∨ Step_Status s = PlanStepSkipped).
Proof.
  eexists _, _. split; [vm_compute; reflexivity|]. split; [vm_compute; reflexivity|].
  refine (plan_steps_in_order second_repo "plan_0" _ (List.nth 1 (steps_of second_repo "plan_0")
    zeroPlanStep) second_repo_steps _ _ _ _).
  - replace (steps_of second_repo "plan_0") with
      [List.nth 0 (steps_of second_repo "plan_0") zeroPlanStep;
       List.nth 1 (steps_of second_repo "plan_0") zeroPlanStep] by (vm_compute; reflexivity).
    left.
  - replace (steps_of second_repo "plan_0") with
      [List.nth 0 (steps_of second_repo "plan_0") zeroPlanStep;
       List.nth 1 (steps_of second_repo "plan_0") zeroPlanStep] at 2 by (vm_compute; reflexivity).
    right; left.
  - vm_compute. reflexivity.
  - vm_compute. discriminate.
Defined.

(** ** What a successful call did *)

Lemma AppendEvent_Ok e w r u w' r' :
  PlanRepo_AppendEvent e w r = (Ok u, w', r') → r' = add_event e r ∧ w' = w.
Proof.
  unfold PlanRepo_AppendEvent, bind, get, put, throw. simpl.
  destruct (planEvents r !! PlanEvent_EventID e); intros; by simplify_eq.
Qed.

Lemma UpdatePlan_Ok p w r u w' r' :
  PlanRepo_UpdatePlan p w r = (Ok u, w', r') → r' = set_plan p r.
Proof.
  unfold PlanRepo_UpdatePlan, bind, get, put, throw. simpl.
  destruct (plans r !! Plan_PlanID p); intros; by simplify_eq.
Qed.

Lemma UpdateStep_Ok s w r u w' r' :
  PlanRepo_UpdateStep s w r = (Ok u, w', r') → r' = set_step s r.
Proof.
  unfold PlanRepo_UpdateStep, bind, get, put, throw. simpl.
  destruct (steps r !! Step_StepID s); intros; by simplify_eq.
Qed.

Lemma effect_Ok {S A} (m : M S A) w s a w' s' : effect_only m → m w s = (Ok a, w', s') → s' = s.
Proof. intros Hm E. destruct (Hm w s) as (b & w1 & E'). congruence. Qed.

Lemma guardStep_Ok verb status t id w r s w' r' :
  plan_wf r → guardStep verb status t id w r = (Ok s, w', r') →
  r' = r ∧ r.(steps) !! id = Some s ∧ Step_StepID s = id ∧ Step_TaskID s = t ∧ Step_Status s = status.
Proof.
  intros Hwf E. unfold guardStep, PlanRepo_GetStep, bind, get, ret, throw in E. simpl in E.
  destruct (steps r !! id) as [s1|] eqn:Es; [|done]. simpl in E.
  destruct (String.eqb_spec (Step_TaskID s1) t); simpl in E; [|done].
  destruct (String.eqb_spec (Step_Status s1) status); simpl in E; [|done]. simplify_eq.
  by rewrite (wf_step _ Hwf _ _ Es).
Qed.

(** Only the steps of a repository decide [steps_of]. *)
Lemma steps_of_ext r r' p :
  steps r' = steps r → stepsByPlan r' = stepsByPlan r → steps_of r' p = steps_of r p.
Proof. unfold steps_of. by intros -> ->. Qed.

Lemma forallb_perm {A} (f : A → bool) l k : l ≡ₚ k → forallb f l = forallb f k.
Proof.
  induction 1; simpl; [done|congruence| |congruence].
  by rewrite !andb_assoc, (andb_comm (f x)).
Qed.

Lemma GetPlan_Ok id w r p w' r' :
  PlanRepo_GetPlan id w r = (Ok p, w', r') → r' = r ∧ plans r !! id = Some p.
Proof.
  unfold PlanRepo_GetPlan, bind, get, ret, throw. simpl.
  destruct (plans r !! id); intros; by simplify_eq.
Qed.

Lemma ListSteps_Ok id w r l w' r' :
  PlanRepo_ListStepsByPlan id w r = (Ok l, w', r') →
  r' = r ∧ l = stable_sort stepBefore (steps_of r id).
Proof. unfold PlanRepo_ListStepsByPlan, bind, get, ret. intros; by simplify_eq. Qed.

(** Follows a successful run: every call is replaced by what it did. *)
Ltac ops_ok :=
  repeat match goal with
  | H : PlanRepo_AppendEvent _ _ _ = (Ok _, _, _) |- _ => apply AppendEvent_Ok in H as [-> ->]
  | H : PlanRepo_UpdatePlan _ _ _ = (Ok _, _, _) |- _ => apply UpdatePlan_Ok in H as ->
  | H : PlanRepo_UpdateStep _ _ _ = (Ok _, _, _) |- _ => apply UpdateStep_Ok in H as ->
  | H : PlanRepo_ListStepsByPlan _ _ _ = (Ok _, _, _) |- _ => apply ListSteps_Ok in H as [-> ->]
  | H : PlanRepo_GetPlan _ _ _ = (Ok _, _, _) |- _ => apply GetPlan_Ok in H as [-> ?]
  | H : now _ _ = (Ok _, _, _) |- _ => apply effect_Ok in H as ->; [|auto with effects]
  | H : idgen_New _ _ _ = (Ok _, _, _) |- _ => apply effect_Ok in H as ->; [|auto with effects]
  | H : planEvent _ _ _ _ _ _ _ = (Ok _, _, _) |- _ =>
      apply effect_Ok in H as ->; [|apply planEvent_effect]
  | H : stepEvent _ _ _ _ _ _ _ = (Ok _, _, _) |- _ =>
      apply effect_Ok in H as ->; [|apply stepEvent_effect]
  | H : ret _ _ _ = (Ok _, _, _) |- _ => unfold ret in H; simplify_eq
  end.

Lemma completePlanIfDone_Ok `{Env} planID a ty w r u w' r' :
  (∀ id p, plans r !! id = Some p → Plan_PlanID p = id) →
  completePlanIfDone planID a ty w r = (Ok u, w', r') →
  steps r' = steps r ∧ stepsByPlan r' = stepsByPlan r ∧
  if forallb step_done (steps_of r planID)
  then ∃ p t, plans r !! planID = Some p ∧
    plans r' = <[planID := p <| Plan_Status := PlanCompleted |> <| Plan_UpdatedAt := t |>]> (plans r)
  else plans r' = plans r.
Proof.
  intros Hwf E. unfold completePlanIfDone in E. run_ok E. ops_ok.
  rewrite (forallb_perm _ _ _ (stable_sort_perm stepBefore (steps_of r planID))) in E.
  destruct (forallb step_done (steps_of r planID)); simpl in E; [|by ops_ok].
  run_ok E. ops_ok. split; [done|]. split; [done|].
  match goal with Hp : plans r !! planID = Some ?p |- _ =>
    pose proof (Hwf _ _ Hp) as <-; eexists p, _; split; [exact Hp|reflexivity] end.
Qed.

(** Completing a step: on success the step, which was running and belongs to the task,
    is completed with the given results and no other step changes; the plan is marked
    completed exactly when all its steps are completed or skipped, and otherwise no
    plan changes. *)
Theorem CompleteStep_correct `{Env} t id refs res a ty w r s e w' r' :
  plan_wf r → CompleteStep t id refs res a ty w r = (Ok (s, e), w', r') →
  (∃ old, steps r !! id = Some old ∧ Step_Status old = PlanStepRunning ∧ Step_TaskID old = t ∧
     Step_PlanID s = Step_PlanID old) ∧
  Step_Status s = PlanStepCompleted ∧ Step_ResultRefs s = refs ∧
  steps r' = <[id := s]> (steps r) ∧
  if forallb step_done (steps_of r' (Step_PlanID s))
  then ∃ p now, plans r !! Step_PlanID s = Some p ∧
    plans r' = <[Step_PlanID s := p <| Plan_Status := PlanCompleted |> <| Plan_UpdatedAt := now |>]>
                 (plans r)
  else plans r' = plans r.
Proof.
  intros Hwf E. unfold CompleteStep in E. run_ok E.
  match goal with G : guardStep _ _ _ _ _ _ = _ |- _ =>
    apply guardStep_Ok in G as (-> & Hold & Hid & Ht & Hst); [|done] end.
  ops_ok.
  match goal with C : completePlanIfDone _ _ _ _ _ = _ |- _ =>
    apply completePlanIfDone_Ok in C as (Es & Eb & Hp) end.
  - split; [eauto 10|]. split; [done|]. split; [done|]. split; [by rewrite Es|].
    by rewrite (steps_of_ext _ _ _ Es Eb).
  - apply (wf_plan _ Hwf).
Qed.

Lemma CompleteStep_correct_witness :
  ∃ s e w', CompleteStep "t1" "planstep_1" [] "" "a" "user" (mkWorld 20 20 20 None None) started_repo
      = (Ok (s, e), w', completed_repo) ∧ Step_Status s = PlanStepCompleted ∧
    plans completed_repo = plans started_repo.
Proof.
  eexists _, _, _. split; [vm_compute; reflexivity|]. split; [vm_compute; reflexivity|].
  eassert (Hrun : CompleteStep "t1" "planstep_1" [] "" "a" "user" (mkWorld 20 20 20 None None)
    started_repo = (Ok (_, _), _, completed_repo)) by (vm_compute; reflexivity).
  destruct (CompleteStep_correct _ _ _ _ _ _ _ _ _ _ _ _
    (plan_reachable_wf _ started_repo_steps) Hrun) as (_ & _ & _ & _ & Hp).
  vm_compute in Hp. vm_compute. exact Hp.
Defined.

Lemma storeSteps_Ok plan l i w r u w' r' :
  PlanRepo_storeSteps plan l w r = (Ok u, w', r') →
  steps_from (Plan_PlanID plan) i l →
  (∀ id, id ∈ ids_of (stepsByPlan r) (Plan_PlanID plan) → is_Some (steps r !! id)) →
  plans r' = plans r ∧ plansByTask r' = plansByTask r ∧
  steps_of r' (Plan_PlanID plan) = steps_of r (Plan_PlanID plan) ++ l.
Proof.
  revert i w r. induction l as [|s l IH]; intros i w r E; simpl.
  { simpl in E. ops_ok. by rewrite app_nil_r. }
  intros (Hp & _ & _ & Hl) Hin. simpl in E. unfold bind at 1, get in E.
  destruct (steps r !! Step_StepID s) as [old|] eqn:Es; [done|].
  unfold bind, put in E. eapply IH in E as (-> & -> & Hs); [|exact Hl|].
  - split; [done|]. split; [done|]. rewrite Hs, cons_middle, app_assoc. f_equal.
    unfold steps_of. simpl.
    change (default [] (append_id ?k ?i ?m !! ?k)) with (ids_of (append_id k i m) k).
    rewrite append_id_ids, decide_True, map_app by done. simpl.
    rewrite lookup_insert_eq. f_equal. apply map_ext_in. intros id Hid%list_elem_of_In.
    destruct (Hin _ Hid). rewrite lookup_insert_ne; [done|congruence].
  - intros id. simpl. rewrite append_id_ids, decide_True by done.
    rewrite elem_of_app, list_elem_of_singleton, lookup_insert_is_Some.
    destruct (decide (Step_StepID s = id)); naive_solver.
Qed.

Lemma steps_from_pending p i l : steps_from p i l → Forall (λ s, Step_Status s = PlanStepPending) l.
Proof. revert i. induction l; simpl; intros i; [constructor|]. naive_solver. Qed.

Lemma createPlan_Ok `{Env} task o inputs a ty ety payload w r p l e w' r' :
  plan_wf r → createPlan task o inputs a ty ety payload w r = (Ok (p, l, e), w', r') →
  plans r !! Plan_PlanID p = None ∧ Plan_TaskID p = Task_TaskID task ∧ Plan_Status p = PlanRunning ∧
  plans r' = <[Plan_PlanID p := p]> (plans r) ∧
  plansByTask r' = append_id (Task_TaskID task) (Plan_PlanID p) (plansByTask r) ∧
  steps_of r' (Plan_PlanID p) = l ∧ length l = length inputs ∧
  Forall (λ s, Step_Status s = PlanStepPending) l.
Proof.
  intros Hwf E. unfold createPlan in E. cbv zeta in E.
  destruct (len inputs =? 0)%Z; [done|]. run_ok E.
  match goal with B : buildSteps _ ?id ?t _ _ ?w1 ?r1 = _ |- _ =>
    destruct (buildSteps_run task id t 0 inputs w1 r1) as (l' & w'' & B' & Hl & Hlen);
    rewrite B' in B; simplify_eq end.
  match goal with C : PlanRepo_CreatePlan _ _ _ _ = _ |- _ => rename C into Hc end.
  ops_ok. unfold PlanRepo_CreatePlan, bind at 1, get in Hc.
  match type of Hc with context [?m !! ?k] => destruct (m !! k) as [old|] eqn:Ek; [done|] end.
  simpl in Ek. unfold bind, put in Hc. eapply storeSteps_Ok in Hc as (Hp & Ht & Hs); [|exact Hl|].
  - simpl. rewrite Hp, Ht. repeat split; try done.
    + etrans; [exact Hs|]. rewrite <- (app_nil_l l) at 2. f_equal.
      unfold steps_of. simpl.
      match goal with |- map _ (default [] (stepsByPlan r !! ?k)) = [] =>
        change (default [] (stepsByPlan r !! k)) with (ids_of (stepsByPlan r) k);
        destruct (ids_of (stepsByPlan r) k) as [|id ids] eqn:Ei; [done|];
        assert (Hin : id ∈ ids_of (stepsByPlan r) k) by (rewrite Ei; left) end.
      apply (wf_stepsByPlan _ Hwf) in Hin as (s & Hs' & Hp').
      destruct (wf_step_plan _ Hwf _ _ Hs'). congruence.
    + by eapply steps_from_pending.
  - intros id. simpl. intros (s & -> & _)%(wf_stepsByPlan _ Hwf). eauto.
Qed.

Lemma supersede_Ok `{Env} active a ty reason w r u w' r' :
  supersede active a ty reason w r = (Ok u, w', r') →
  plansByTask r' = plansByTask r ∧
  match active with
  | None => plans r' = plans r
  | Some p => ∃ t, plans r' =
      <[Plan_PlanID p := p <| Plan_Status := PlanSuperseded |> <| Plan_UpdatedAt := t |>]> (plans r)
  end.
Proof.
  intros E. destruct active as [p|]; simpl in E; [|by ops_ok].
  run_ok E. ops_ok. split; [done|]. eexists. reflexivity.
Qed.

(** C5. Replanning: on success the task's active plan is the new one, it has one pending
    step for each input, the plan that was active before (if any) is superseded, and
    every other plan is as it was. *)
Theorem Replan_correct `{Env} task o inputs a ty reason w r p l e w' r' :
  plan_wf r → Replan task o inputs a ty reason w r = (Ok (p, l, e), w', r') →
  List.find plan_active (rev (plans_of r' (Task_TaskID task))) = Some p ∧
  plans r' !! Plan_PlanID p = Some p ∧ plans r !! Plan_PlanID p = None ∧
  steps_of r' (Plan_PlanID p) = l ∧ length l = length inputs ∧
  Forall (λ s, Step_Status s = PlanStepPending) l ∧
  (∀ id q, plans r !! id = Some q →
     if bool_decide (option_map Plan_PlanID
          (List.find plan_active (rev (plans_of r (Task_TaskID task)))) = Some id)
     then ∃ t, plans r' !! id = Some (q <| Plan_Status := PlanSuperseded |> <| Plan_UpdatedAt := t |>)
     else plans r' !! id = Some q).
Proof.
  intros Hwf E. unfold Replan in E. run_ok E.
  unfold PlanRepo_ActivePlan, bind, get, ret in E0. injection E0 as <- <- <-.
  set (active := List.find _ _) in *.
  assert (Hact : plan_wf r ∧ match active with
      | Some p => plans r !! Plan_PlanID p = Some p ∧ Plan_TaskID p = Task_TaskID task
      | None => True end)
    by (apply (ActivePlan_spec plan_wf plan_wf _ (λ _ H, H) (λ _ H, H) world0 r Hwf)).
  match goal with X : supersede _ _ _ _ _ _ = _ |- _ =>
    pose proof (triple_Ok _ _ _ _ _ _ _ _ _
      (supersede_keeps active a ty reason (Task_TaskID task)) Hact X) as Hwf1;
    apply supersede_Ok in X as [Hbt Hsup] end.
  apply createPlan_Ok in E as (Hnew & Ht & Hrun & Hpl & Hidx & Hl & Hlen & Hpend); [|exact Hwf1].
  assert (Hp : plans r' !! Plan_PlanID p = Some p) by (rewrite Hpl; apply lookup_insert_eq).
  split; [|split; [done|split; [|split; [done|split; [done|split; [done|]]]]]].
  - unfold plans_of. rewrite Hidx.
    change (default [] (append_id ?k ?i ?m !! ?k)) with (ids_of (append_id k i m) k).
    rewrite append_id_ids, decide_True, map_app, rev_app_distr by done. simpl.
    rewrite Hp. simpl. unfold plan_active at 1. by rewrite Hrun.
  - destruct active as [q|]; [|congruence]. destruct Hsup as [t Hsup]. rewrite Hsup in Hnew.
    by apply lookup_insert_None in Hnew as [? _].
  - intros id q Hq. rewrite Hpl. destruct (decide (Plan_PlanID p = id)) as [<-|Hne].
    { destruct active as [q'|]; [destruct Hsup as [t Hsup]|]; rewrite Hsup in Hnew; [|congruence].
      apply lookup_insert_None in Hnew as [? _]. congruence. }
    rewrite lookup_insert_ne by done. destruct active as [q'|]; simpl.
    + destruct Hsup as [t Hsup], Hact as [_ [Hq' _]]. rewrite Hsup. case_bool_decide as Hb.
      * injection Hb as <-. rewrite Hq' in Hq. simplify_eq. exists t. apply lookup_insert_eq.
      * rewrite lookup_insert_ne; [done|congruence].
    + by rewrite Hsup.
Qed.

Definition replan_world : World := mkWorld 40 40 40 None None.
Definition replanned_repo : PlanRepo :=
  (Replan test_plan_task "" [mkStepInput "c" "" []] "a" "user" "late" replan_world started_repo).2.

Lemma Replan_correct_witness :
  ∃ p l e w', Replan test_plan_task "" [mkStepInput "c" "" []] "a" "user" "late" replan_world
      started_repo = (Ok (p, l, e), w', replanned_repo) ∧
    option_map Plan_PlanID (List.find plan_active (rev (plans_of replanned_repo "t1")))
      = Some (Plan_PlanID p) ∧
    option_map Plan_Status (plans replanned_repo !! "plan_0") = Some PlanSuperseded.
Proof.
  eassert (Hrun : Replan test_plan_task "" [mkStepInput "c" "" []] "a" "user" "late" replan_world
      started_repo = (Ok (_, _, _), _, replanned_repo)) by (vm_compute; reflexivity).
  eexists _, _, _, _. split; [exact Hrun|].
  destruct (Replan_correct _ _ _ _ _ _ _ _ _ _ _ _ _ (plan_reachable_wf _ started_repo_steps) Hrun)
    as (Hact & _).
  change (Task_TaskID test_plan_task) with "t1" in Hact. rewrite Hact.
  split; [reflexivity|vm_compute; reflexivity].
Defined.

(** A superseded plan can come back: [CompleteStep] (and [FailStep]) write the plan's
    status without looking at it, so completing the last step of a plan that a replan
    has superseded marks the superseded plan completed. *)
Theorem superseded_plan_revived :
  ∃ r0 r1 r2 refs w1 w2 w2',
    rtc plan_step NewInMemoryRepository r0 ∧
    (Replan test_plan_task "" [mkStepInput "new" "" []] "a" "user" "why" w1 r0).2 = r1 ∧
    option_map Plan_Status (plans r1 !! "plan_0") = Some PlanSuperseded ∧
    (∃ s e, CompleteStep "t1" "planstep_1" refs "" "a" "user" w2 r1 = (Ok (s, e), w2', r2)) ∧
    option_map Plan_Status (plans r2 !! "plan_0") = Some PlanCompleted.
Proof.
  pose (c := (CreatePlan test_plan_task "" [mkStepInput "one" "" []] "a" "user" world0
    NewInMemoryRepository).2).
  pose (s := (StartStep "t1" "planstep_1" "a" "user" (mkWorld 10 10 10 None None) c).2).
  assert (Hs : rtc plan_step NewInMemoryRepository s).
  { apply rtc_l with c.
    - apply (plan_step_op (OpCreatePlan test_plan_task "" [mkStepInput "one" "" []] "a" "user")
        world0 NewInMemoryRepository (Ok tt) (mkWorld 2 3 0 (Some []) (Some [])) c).
      vm_compute. reflexivity.
    - apply rtc_once. apply (plan_step_op (OpStartStep "t1" "planstep_1" "a" "user")
        (mkWorld 10 10 10 None None) c (Ok tt) (mkWorld 12 11 10 None None) s).
      vm_compute. reflexivity. }
  exists s. eexists _, _, [], replan_world, (mkWorld 60 60 60 None None), _.
  split; [exact Hs|]. split; [reflexivity|]. split; [vm_compute; reflexivity|].
  split; [eexists _, _; vm_compute; reflexivity|vm_compute; reflexivity].
Qed.
