(* ===== verification/Admission.v ===== *)
(** * Admission of runs: internal/runtime/admission/limiter.go

    The limiter counts running runs globally, per tenant and per agent.  [AcquireRun]
    gives the caller a release function guarded by a [sync.Once]; here it is a handle
    whose flag says whether it has been used. *)

From S2P Require Import Prelude Contracts GoMonad.
From stdpp Require Import base list strings gmap fin_maps relations pretty.
Open Scope go_scope.
Open Scope string_scope.
Open Scope list_scope.

Record Config := mkConfig {
  MaxRunningRuns : Z;
  TenantMaxRunningRuns : Z;
  AgentMaxRunningRuns : Z
}.

(** [agentKey]: a tenant and an agent. *)
Definition agentKey : Type := string * string.

Record Limiter := mkLimiter {
  cfg : Config;
  globalRunning : Z;
  tenantRunning : gmap string Z;
  agentRunning : gmap agentKey Z;
  rejectedTotal : Z
}.
#[export] Instance eta_Limiter : Settable Limiter :=
  fields! mkLimiter < cfg ; globalRunning ; tenantRunning ; agentRunning ; rejectedTotal >.

Record Stats := mkStats {
  Stats_MaxRunningRuns : Z;
  Stats_TenantMaxRunningRuns : Z;
  Stats_AgentMaxRunningRuns : Z;
  Stats_RunningRuns : Z;
  Stats_RejectedRunsTotal : Z
}.

Definition New (c : Config) : Limiter := mkLimiter c 0 ∅ ∅ 0.

Definition rejected (scope : string) (limit running : Z) : error :=
  ErrRuntime (NewRuntimeError CodeAdmissionRejected
    (scope +:+ " run concurrency limit reached")
    {["scope" := AString scope; "limit" := AInt limit; "running" := AInt running]}).

(** [m[key]] of a Go map of ints: 0 when the key is missing. *)
Definition counter {K} `{Countable K} (m : gmap K Z) (key : K) : Z := default 0%Z (m !! key).

(** [m[key]++] *)
Definition increment {K} `{Countable K} (key : K) (m : gmap K Z) : gmap K Z :=
  <[key := int64 (counter m key + 1)]> m.

(** [if m[key] > 0 { m[key]-- }; if m[key] == 0 { delete(m, key) }] *)
Definition decrement {K} `{Countable K} (key : K) (m : gmap K Z) : gmap K Z :=
  let m := if (counter m key >? 0)%Z then <[key := int64 (counter m key - 1)]> m else m in
  if (counter m key =? 0)%Z then delete key m else m.

(** The limiter is a pointer; [None] is a nil limiter. *)
Definition count_rejected (l : Limiter) : Limiter :=
  l <| rejectedTotal := int64 (l.(rejectedTotal) + 1) |>.

(** The result is the key the release function closes over, nothing for a nil limiter. *)
Definition AcquireRun (tenantID agentID : string) : M (option Limiter) (option agentKey) :=
  let! l := get in
  match l with
  | None => ret None
  | Some l =>
      let c := l.(cfg) in
      if (c.(MaxRunningRuns) >? 0)%Z && (l.(globalRunning) >=? c.(MaxRunningRuns))%Z then
        do! put (Some (count_rejected l)) in
        throw (rejected "global" c.(MaxRunningRuns) l.(globalRunning))
      else if (c.(TenantMaxRunningRuns) >? 0)%Z &&
              (counter l.(tenantRunning) tenantID >=? c.(TenantMaxRunningRuns))%Z then
        do! put (Some (count_rejected l)) in
        throw (rejected "tenant" c.(TenantMaxRunningRuns) (counter l.(tenantRunning) tenantID))
      else
        let key := (tenantID, agentID) in
        if (c.(AgentMaxRunningRuns) >? 0)%Z &&
           (counter l.(agentRunning) key >=? c.(AgentMaxRunningRuns))%Z then
          do! put (Some (count_rejected l)) in
          throw (rejected "agent" c.(AgentMaxRunningRuns) (counter l.(agentRunning) key))
        else
          do! put (Some (l <| globalRunning := int64 (l.(globalRunning) + 1) |>
                           <| tenantRunning := increment tenantID l.(tenantRunning) |>
                           <| agentRunning := increment key l.(agentRunning) |>)) in
          ret (Some key)
  end.

Definition releaseRun (tenantID agentID : string) (l : Limiter) : Limiter :=
  let l := if (l.(globalRunning) >? 0)%Z
           then l <| globalRunning := int64 (l.(globalRunning) - 1) |> else l in
  let l := l <| tenantRunning := decrement tenantID l.(tenantRunning) |> in
  l <| agentRunning := decrement (tenantID, agentID) l.(agentRunning) |>.

Definition LimiterStats (l : option Limiter) : Stats :=
  match l with
  | None => mkStats 0 0 0 0 0
  | Some l => mkStats l.(cfg).(MaxRunningRuns) l.(cfg).(TenantMaxRunningRuns)
                l.(cfg).(AgentMaxRunningRuns) l.(globalRunning) l.(rejectedTotal)
  end.

(** ** Callers *)

(** A release function: what it closes over, and whether its [sync.Once] has fired. *)
Record Handle := mkHandle { h_key : agentKey; h_done : bool }.

(** Calling the release function. *)
Definition call_release (h : Handle) (l : Limiter) : Limiter * Handle :=
  if h.(h_done) then (l, h)
  else (releaseRun h.(h_key).1 h.(h_key).2 l, mkHandle h.(h_key) true).

Record Sys := mkSys { sys_limiter : Limiter; sys_handles : list Handle }.

(** Any goroutine may ask for a run, and any handle may be called any number of times. *)
Inductive sys_step : Sys → Sys → Prop :=
| sys_acquire tenantID agentID w l hs key w' l' :
    AcquireRun tenantID agentID w (Some l) = (Ok (Some key), w', Some l') →
    sys_step (mkSys l hs) (mkSys l' (mkHandle key false :: hs))
| sys_reject tenantID agentID w l hs e w' l' :
    AcquireRun tenantID agentID w (Some l) = (Err e, w', Some l') →
    sys_step (mkSys l hs) (mkSys l' hs)
| sys_release l hs i h l' h' :
    hs !! i = Some h → call_release h l = (l', h') →
    sys_step (mkSys l hs) (mkSys l' (<[i := h']> hs)).

(** ** Facts *)

(** The runs that are running, and how many of them satisfy [p]. *)
Definition live (hs : list Handle) : list agentKey :=
  map h_key (List.filter (λ h, negb (h_done h)) hs).
Definition running (p : agentKey → bool) (hs : list Handle) : Z :=
  len (List.filter p (live hs)).

Definition of_tenant (tenantID : string) (k : agentKey) : bool := bool_decide (k.1 = tenantID).
Definition of_agent (key k : agentKey) : bool := bool_decide (k = key).

(** A counter map that agrees with a count: no entry for 0. *)
Definition exact {K} `{Countable K} (m : gmap K Z) (count : K → Z) : Prop :=
  ∀ k, m !! k = if (count k =? 0)%Z then None else Some (count k).

Lemma exact_counter {K} `{Countable K} (m : gmap K Z) count k : exact m count → counter m k = count k.
Proof. intros Hm. unfold counter. rewrite (Hm k). by destruct (Z.eqb_spec (count k) 0). Qed.

Lemma exact_increment {K} `{Countable K} (m : gmap K Z) count count' key :
  exact m count → (0 ≤ count key < 2 ^ 63 - 1)%Z →
  (∀ k, count' k = if decide (k = key) then count k + 1 else count k)%Z →
  exact (increment key m) count'.
Proof.
  intros Hm Hr Hc k. unfold increment. rewrite (exact_counter _ _ _ Hm), Hc.
  destruct (decide (k = key)) as [->|Hne].
  - rewrite lookup_insert_eq, int64_id by (unfold is_int64; lia).
    destruct (Z.eqb_spec (count key + 1) 0); [lia|done].
  - rewrite lookup_insert_ne by done. apply Hm.
Qed.

Lemma exact_decrement {K} `{Countable K} (m : gmap K Z) count count' key :
  exact m count → (0 < count key < 2 ^ 63)%Z →
  (∀ k, count' k = if decide (k = key) then count k - 1 else count k)%Z →
  exact (decrement key m) count'.
Proof.
  intros Hm Hr Hc k. unfold decrement. rewrite (exact_counter _ _ _ Hm).
  rewrite Z.gtb_ltb, (proj2 (Z.ltb_lt _ _)) by lia.
  rewrite int64_id by (unfold is_int64; lia). unfold counter at 1. rewrite lookup_insert_eq. simpl.
  rewrite Hc. destruct (decide (k = key)) as [->|Hne].
  - destruct (Z.eqb_spec (count key - 1) 0); [apply lookup_delete_eq|].
    by rewrite lookup_insert_eq.
  - destruct (Z.eqb_spec (count key - 1) 0).
    + rewrite lookup_delete_ne, lookup_insert_ne by done. apply Hm.
    + rewrite lookup_insert_ne by done. apply Hm.
Qed.

Lemma running_acquire p key hs :
  running p (mkHandle key false :: hs) = (running p hs + if p key then 1 else 0)%Z.
Proof. unfold running, live, len. simpl. destruct (p key); simpl; lia. Qed.

Lemma running_release p hs i h :
  hs !! i = Some h → h_done h = false →
  running p (<[i := mkHandle (h_key h) true]> hs) = (running p hs - if p (h_key h) then 1 else 0)%Z.
Proof.
  revert i. unfold running, live, len. induction hs as [|h' hs IH]; intros [|i] Hi Hd; simpl in *;
    try done.
  - simplify_eq. rewrite Hd. simpl. destruct (p (h_key h)); simpl; lia.
  - specialize (IH i Hi Hd). destruct (h_done h'); simpl; [exact IH|].
    destruct (p (h_key h')); simpl; lia.
Qed.

Lemma running_bounds p hs : (0 ≤ running p hs ≤ len hs)%Z.
Proof.
  unfold running, live, len. split; [lia|].
  pose proof (filter_length_le p (map h_key (List.filter (λ h, negb (h_done h)) hs))).
  rewrite length_map in *. pose proof (filter_length_le (λ h, negb (h_done h)) hs). lia.
Qed.

(** A live handle is counted. *)
Lemma running_live p hs i h :
  hs !! i = Some h → h_done h = false → p (h_key h) = true → (0 < running p hs)%Z.
Proof.
  intros Hi Hd Hp. pose proof (running_release p hs i h Hi Hd) as E. rewrite Hp in E.
  pose proof (running_bounds p (<[i:=mkHandle (h_key h) true]> hs)). lia.
Qed.

Definition everyone (k : agentKey) : bool := true.

(** The counters are exact and no limit is exceeded. *)
Record limits_ok (c : Config) (hs : list Handle) : Prop := {
  within_global : (0 < MaxRunningRuns c)%Z → (running everyone hs ≤ MaxRunningRuns c)%Z;
  within_tenant t : (0 < TenantMaxRunningRuns c)%Z →
    (running (of_tenant t) hs ≤ TenantMaxRunningRuns c)%Z;
  within_agent k : (0 < AgentMaxRunningRuns c)%Z →
    (running (of_agent k) hs ≤ AgentMaxRunningRuns c)%Z
}.

Record counts_ok (l : Limiter) (hs : list Handle) : Prop := {
  count_global : globalRunning l = running everyone hs;
  count_tenant : exact (tenantRunning l) (λ t, running (of_tenant t) hs);
  count_agent : exact (agentRunning l) (λ k, running (of_agent k) hs)
}.

Record sys_inv (c : Config) (n : Z) (y : Sys) : Prop := {
  inv_cfg : cfg (sys_limiter y) = c;
  inv_len : (len (sys_handles y) ≤ n)%Z;
  inv_counts : counts_ok (sys_limiter y) (sys_handles y);
  inv_limits : limits_ok c (sys_handles y)
}.

(** Whether there is room for one more run. *)
Definition has_room (c : Config) (hs : list Handle) (tenantID agentID : string) : bool :=
  negb ((MaxRunningRuns c >? 0)%Z && (running everyone hs >=? MaxRunningRuns c)%Z) &&
  negb ((TenantMaxRunningRuns c >? 0)%Z &&
        (running (of_tenant tenantID) hs >=? TenantMaxRunningRuns c)%Z) &&
  negb ((AgentMaxRunningRuns c >? 0)%Z &&
        (running (of_agent (tenantID, agentID)) hs >=? AgentMaxRunningRuns c)%Z).

Definition acquired (t a : string) (l : Limiter) : Limiter :=
  l <| globalRunning := int64 (l.(globalRunning) + 1) |>
    <| tenantRunning := increment t l.(tenantRunning) |>
    <| agentRunning := increment (t, a) l.(agentRunning) |>.

Lemma AcquireRun_run t a w l hs :
  counts_ok l hs →
  if has_room (cfg l) hs t a
  then AcquireRun t a w (Some l) = (Ok (Some (t, a)), w, Some (acquired t a l))
  else ∃ e, AcquireRun t a w (Some l) = (Err e, w, Some (count_rejected l)).
Proof.
  intros [Hg Ht Ha]. unfold AcquireRun, has_room, bind, get, put, throw, ret. cbn beta iota zeta.
  rewrite (exact_counter _ _ t Ht), (exact_counter (K:=agentKey) _ _ (t, a) Ha), Hg.
  destruct ((MaxRunningRuns (cfg l) >? 0)%Z && _); simpl; [by eexists|].
  destruct ((TenantMaxRunningRuns (cfg l) >? 0)%Z && _); simpl; [by eexists|].
  destruct ((AgentMaxRunningRuns (cfg l) >? 0)%Z && _); simpl; [by eexists|unfold acquired; by rewrite Hg].
Qed.

Lemma acquired_counts t a l hs :
  (len hs < 2 ^ 63 - 1)%Z → counts_ok l hs →
  counts_ok (acquired t a l) (mkHandle (t, a) false :: hs).
Proof.
  intros Hlen [Hg Ht Ha]. split; simpl.
  - rewrite Hg, running_acquire. simpl. pose proof (running_bounds everyone hs).
    apply int64_id. unfold is_int64. lia.
  - eapply exact_increment; [exact Ht|cbn; pose proof (running_bounds (of_tenant t) hs); lia|].
    intros k. cbn. rewrite running_acquire. unfold of_tenant at 2. simpl.
    case_bool_decide; case_decide; subst; try done; lia.
  - eapply exact_increment; [exact Ha|cbn; pose proof (running_bounds (of_agent (t, a)) hs); lia|].
    intros k. cbn. rewrite running_acquire. unfold of_agent at 2.
    case_bool_decide; case_decide; subst; try done; lia.
Qed.

Lemma acquired_limits c t a hs :
  has_room c hs t a = true → limits_ok c hs → limits_ok c (mkHandle (t, a) false :: hs).
Proof.
  unfold has_room. rewrite !andb_true_iff, !negb_true_iff, !andb_false_iff.
  rewrite !Z.gtb_ltb, !Z.geb_leb, !Z.ltb_ge, !Z.leb_gt.
  intros [[Hg Ht] Ha] [Lg Lt La]. split.
  - intros Hc. rewrite running_acquire. simpl. destruct Hg; lia.
  - intros t' Hc. rewrite running_acquire. unfold of_tenant at 2. simpl.
    specialize (Lt t' Hc). case_bool_decide; subst; [destruct Ht; lia|lia].
  - intros k Hc. rewrite running_acquire. unfold of_agent at 2.
    specialize (La k Hc). case_bool_decide; subst; [destruct Ha; lia|lia].
Qed.

Lemma released_counts l hs i h :
  (len hs < 2 ^ 63)%Z → hs !! i = Some h → h_done h = false → counts_ok l hs →
  counts_ok (releaseRun (h_key h).1 (h_key h).2 l) (<[i := mkHandle (h_key h) true]> hs).
Proof.
  intros Hlen Hi Hd [Hg Ht Ha].
  assert (Hpos : ∀ p, p (h_key h) = true → (0 < running p hs < 2 ^ 63)%Z).
  { intros p Hp. pose proof (running_live p hs i h Hi Hd Hp).
    pose proof (running_bounds p hs). lia. }
  pose proof (Hpos everyone eq_refl) as Hev.
  unfold releaseRun. rewrite Hg, Z.gtb_ltb, (proj2 (Z.ltb_lt _ _)) by lia. split; simpl.
  - rewrite (running_release _ _ _ _ Hi Hd). simpl.
    rewrite int64_id by (unfold is_int64; lia). done.
  - eapply exact_decrement; [exact Ht|cbn; apply Hpos; by apply bool_decide_eq_true_2|].
    intros k. cbn. rewrite (running_release _ _ _ _ Hi Hd). unfold of_tenant at 2.
    case_bool_decide; case_decide; subst; try done; lia.
  - destruct (h_key h) as [t a] eqn:Ek. simpl.
    eapply exact_decrement; [exact Ha|cbn; apply Hpos; by apply bool_decide_eq_true_2|].
    intros k. cbn. rewrite <- Ek, (running_release _ _ _ _ Hi Hd), Ek. unfold of_agent at 2.
    case_bool_decide; case_decide; subst; try done; lia.
Qed.

Lemma released_limits c hs i h :
  hs !! i = Some h → h_done h = false → limits_ok c hs →
  limits_ok c (<[i := mkHandle (h_key h) true]> hs).
Proof.
  intros Hi Hd [Lg Lt La].
  assert (Hle : ∀ p, (running p (<[i := mkHandle (h_key h) true]> hs) ≤ running p hs)%Z).
  { intros p. rewrite (running_release _ _ _ _ Hi Hd). destruct (p (h_key h)); lia. }
  split.
  - intros Hc. specialize (Hle everyone). specialize (Lg Hc). lia.
  - intros t Hc. specialize (Hle (of_tenant t)). specialize (Lt t Hc). lia.
  - intros k Hc. specialize (Hle (of_agent k)). specialize (La k Hc). lia.
Qed.

Lemma limiter_step_inv c n y y' :
  (0 ≤ n < 2 ^ 63 - 1)%Z → sys_step y y' → sys_inv c n y → sys_inv c (n + 1) y'.
Proof.
  intros Hn Hst. destruct Hst as [t a w l hs key w' l' E|t a w l hs e w' l' E|l hs i h l' h' Hi E];
    intros [Hc Hl Hcnt Hlim]; simpl in *.
  - pose proof (AcquireRun_run t a w l hs Hcnt) as Hrun.
    destruct (has_room (cfg l) hs t a) eqn:Hroom.
    + rewrite Hrun in E. simplify_eq. split; simpl; [done|unfold len in *; simpl; lia| |].
      * apply acquired_counts; [lia|done].
      * by apply acquired_limits.
    + destruct Hrun as [? Hrun]. congruence.
  - pose proof (AcquireRun_run t a w l hs Hcnt) as Hrun.
    destruct (has_room (cfg l) hs t a) eqn:Hroom; [congruence|]. destruct Hrun as [e' Hrun].
    rewrite Hrun in E. simplify_eq. split; simpl; [done|lia| |done].
    destruct Hcnt. by split.
  - unfold call_release in E. destruct (h_done h) eqn:Hd; simplify_eq.
    + rewrite list_insert_id by done. split; simpl; [done|lia|done|done].
    + split; simpl.
      * unfold releaseRun. by destruct (globalRunning l >? 0)%Z.
      * unfold len in *. rewrite length_insert. lia.
      * apply released_counts; [lia|done|done|done].
      * by apply released_limits.
Qed.

Lemma limiter_reachable_inv c n y :
  nsteps sys_step n (mkSys (New c) []) y → (Z.of_nat n < 2 ^ 63)%Z → sys_inv c (Z.of_nat n) y.
Proof.
  revert y. induction n as [|n IH]; intros y Hrun Hn.
  - inversion Hrun; subst. split; [done|done| |].
    + split; [done|intros k; apply lookup_empty..].
    + split; intros; change (running _ _) with 0%Z; lia.
  - replace (S n) with (n + 1)%nat in Hrun by lia. apply nsteps_add_inv in Hrun as (y1 & H1 & H2).
    apply nsteps_once_inv in H2. replace (Z.of_nat (S n)) with (Z.of_nat n + 1)%Z by lia.
    eapply limiter_step_inv; [lia|exact H2|]. apply IH; [done|lia].
Qed.

(** C6. Admission control is sound and leaks nothing.  Whatever callers do, in whatever
    order, with each release function called any number of times: the counters are
    exactly the number of runs admitted and not yet released, globally, for each tenant
    and for each agent (with no entry left for 0), and no configured limit is exceeded. *)
Theorem admission_sound c n y :
  nsteps sys_step n (mkSys (New c) []) y → (Z.of_nat n < 2 ^ 63)%Z →
  counts_ok (sys_limiter y) (sys_handles y) ∧ limits_ok c (sys_handles y).
Proof. intros Hrun Hn. by destruct (limiter_reachable_inv c n y Hrun Hn). Qed.

Definition one_run : Config := mkConfig 1 0 0.

Lemma two_acquires :
  nsteps sys_step 3 (mkSys (New one_run) [])
    (mkSys (releaseRun "t" "a" (count_rejected (acquired "t" "a" (New one_run))))
       [mkHandle ("t", "a") true]).
Proof.
  eapply nsteps_l.
  { apply (sys_acquire "t" "a" world0 _ _ ("t", "a") world0 (acquired "t" "a" (New one_run))).
    vm_compute. reflexivity. }
  eapply nsteps_l.
  { apply (sys_reject "t" "b" world0 _ _ (rejected "global" 1 1) world0
      (count_rejected (acquired "t" "a" (New one_run)))). vm_compute. reflexivity. }
  eapply nsteps_l; [|apply nsteps_O].
  by apply (sys_release _ [_] 0 (mkHandle ("t", "a") false) _ (mkHandle ("t", "a") true)).
Qed.

Lemma admission_sound_witness :
  globalRunning (releaseRun "t" "a" (count_rejected (acquired "t" "a" (New one_run)))) = 0%Z ∧
  limits_ok one_run [mkHandle ("t", "a") true].
Proof.
  destruct (admission_sound one_run 3 _ two_acquires) as [Hc Hl]; [by vm_compute|].
  split; [exact (count_global _ _ Hc)|exact Hl].
Defined.

(** [AcquireRun] is exact: in every reachable state it admits a run precisely when no
    configured limit has been reached by the runs that are running, and a refusal is
    an admission error, which is retryable, and changes only the number of rejections. *)
Theorem AcquireRun_exact c n l hs t a w :
  nsteps sys_step n (mkSys (New c) []) (mkSys l hs) → (Z.of_nat n < 2 ^ 63)%Z →
  if has_room c hs t a
  then ∃ l', AcquireRun t a w (Some l) = (Ok (Some (t, a)), w, Some l')
  else ∃ scope limit now, AcquireRun t a w (Some l)
         = (Err (rejected scope limit now), w, Some (count_rejected l)) ∧
         (0 < limit ≤ now)%Z ∧
         (∀ e, rejected scope limit now = ErrRuntime e → IsRetryable (Some e) = true).
Proof.
  intros Hrun Hn. destruct (limiter_reachable_inv c n _ Hrun Hn) as [Hc _ Hcnt _]. simpl in *.
  pose proof (AcquireRun_run t a w l hs Hcnt) as E. rewrite Hc in E.
  destruct (has_room c hs t a); [eauto|]. destruct E as [e E]. revert E.
  unfold AcquireRun, bind, get, put, throw, ret. cbn beta iota zeta.
  assert (Hretry : ∀ scope limit now e, rejected scope limit now = ErrRuntime e →
    IsRetryable (Some e) = true) by (intros ? ? ? ? [= <-]; reflexivity).
  repeat match goal with |- context [if ?b then _ else _] => destruct b eqn:?H end; simpl;
    intros [= <-] || intros [=].
  all: match goal with H : (_ >? 0)%Z && (_ >=? _)%Z = true |- _ =>
         apply andb_true_iff in H as [?%Z.gtb_lt ?%Z.geb_le] end.
  all: eexists _, _, _; split; [reflexivity|]; split; [lia|apply Hretry].
Qed.

Lemma AcquireRun_exact_witness :
  ∃ l, AcquireRun "t" "c" world0 (Some (releaseRun "t" "a" (count_rejected
      (acquired "t" "a" (New one_run))))) = (Ok (Some ("t", "c")), world0, Some l).
Proof.
  exact (AcquireRun_exact one_run 3 _ _ "t" "c" world0 two_acquires eq_refl).
Defined.
