(* ===== verification/RunRepo.v ===== *)
(** * Agent runs: internal/runtime/run/repository.go

    The in-memory repository, its step ids and its paged listing.  The mutex makes each
    method one atomic step. *)

From S2P Require Import Prelude Contracts GoMonad Storage Observability.
From stdpp Require Import base list strings gmap fin_maps relations sorting.
From Stdlib Require Import Ascii Lia.
Open Scope go_scope.
Open Scope string_scope.
Open Scope list_scope.

Record RunListFilter := mkRunListFilter {
  RLF_TenantID : string;
  RLF_AgentID : string;
  RLF_Status : RunStatus;
  RLF_TraceID : string;
  RLF_TaskID : string;
  RLF_Query : string;
  RLF_From : Time;
  RLF_To : Time;
  RLF_Limit : Z;
  RLF_Offset : Z
}.
#[export] Instance eta_RunListFilter : Settable RunListFilter :=
  fields! mkRunListFilter < RLF_TenantID ; RLF_AgentID ; RLF_Status ; RLF_TraceID ; RLF_TaskID ;
    RLF_Query ; RLF_From ; RLF_To ; RLF_Limit ; RLF_Offset >.

Record RunRepo := mkRunRepo { runs : gmap string AgentRun }.
#[export] Instance eta_RunRepo : Settable RunRepo := fields! mkRunRepo < runs >.

Definition NewRunRepo : RunRepo := mkRunRepo ∅.

Definition runMatchesListFilter (run : AgentRun) (filter : RunListFilter) : bool :=
  if (filter.(RLF_TenantID) != "") && (run.(Run_TenantID) != filter.(RLF_TenantID))
  then false else
  if (filter.(RLF_AgentID) != "") && (run.(Run_AgentID) != filter.(RLF_AgentID))
  then false else
  if (filter.(RLF_Status) != "") && (run.(Run_Status) != filter.(RLF_Status)) then false else
  if (filter.(RLF_TraceID) != "") && (run.(Run_TraceID) != filter.(RLF_TraceID))
  then false else
  if (filter.(RLF_TaskID) != "") && (run.(Run_TaskID) != filter.(RLF_TaskID)) then false else
  if negb (IsZero filter.(RLF_From)) && Before run.(Run_StartedAt) filter.(RLF_From)
  then false else
  if negb (IsZero filter.(RLF_To)) && After run.(Run_StartedAt) filter.(RLF_To)
  then false else
  let query := ToLower (TrimSpace filter.(RLF_Query)) in
  if query == "" then true else
  query_matches
    [run.(Run_RunID); run.(Run_TraceID); run.(Run_TaskID); run.(Run_AgentID); run.(Run_Status);
     run.(Run_Input); run.(Run_AgentVersion); run.(Run_PolicySetID)] query.

Definition runLess (a b : AgentRun) : bool :=
  if Equal a.(Run_StartedAt) b.(Run_StartedAt)
  then string_lt b.(Run_RunID) a.(Run_RunID)
  else After a.(Run_StartedAt) b.(Run_StartedAt).

Definition pageRuns (runs : list AgentRun) (limit offset : Z) : option (list AgentRun) :=
  page_cut runs limit offset.

(** The loop of [itoa] fills the array [b] from its end; [room] is the index [i], and a
    write below 0 is the run-time panic [None]. *)
Fixpoint itoa_loop (room : nat) (v : Z) (written : string) : option string :=
  if (v >? 0)%Z then
    match room with
    | O => None
    | Datatypes.S room =>
        itoa_loop room (v / 10) (String (ascii_of_nat (48 + Z.to_nat (v mod 10))) written)
    end
  else Some written.

Definition itoa (v : Z) : option string :=
  if (v =? 0)%Z then Some "0" else itoa_loop 20 v "".

Section repository.
Context `{Env}.

Definition Create (run : AgentRun) : M RunRepo unit :=
  let! r := get in
  match r.(runs) !! run.(Run_RunID) with
  | Some _ => throw ErrDuplicateRequest
  | None =>
      let run := NormalizeRunCarrierSnapshot run in
      put (r <| runs := <[run.(Run_RunID) := run]> r.(runs) |>)
  end.

Definition Get (runID : string) : M RunRepo AgentRun :=
  let! r := get in
  match r.(runs) !! runID with None => throw ErrNotFound | Some run => ret run end.

Definition List (filter : RunListFilter) : M RunRepo (list AgentRun) :=
  let! r := get in
  let! entries := range_map r.(runs) in
  let out := List.filter (λ run, runMatchesListFilter run filter) (map snd entries) in
  or_panic (pageRuns (stable_sort runLess out) filter.(RLF_Limit) filter.(RLF_Offset)).

Definition Count (filter : RunListFilter) : M RunRepo Z :=
  let! r := get in
  let! entries := range_map r.(runs) in
  ret (fold_left (λ total run, if runMatchesListFilter run filter then (total + 1)%Z else total)
         (map snd entries) 0%Z).

(** [fn] may fail in [IncrementStep], where it calls [itoa]. *)
Definition update {A} (runID : string) (fn : AgentRun → M RunRepo (AgentRun * A))
    : M RunRepo (AgentRun * A) :=
  let! r := get in
  match r.(runs) !! runID with
  | None => throw ErrNotFound
  | Some run =>
      let! res := fn run in
      let run := NormalizeRunCarrierSnapshot res.1 in
      do! put (r <| runs := <[runID := run]> r.(runs) |>) in
      ret (run, res.2)
  end.

(** A change that cannot fail. *)
Definition update_pure (runID : string) (fn : AgentRun → AgentRun) : M RunRepo AgentRun :=
  let! res := update runID (λ run, ret (fn run, tt)) in ret res.1.

Definition MarkRunning (runID : string) : M RunRepo AgentRun :=
  update_pure runID (λ run, run <| Run_Status := RunRunning |>).

Definition MarkCompleted (runID : string) : M RunRepo AgentRun :=
  let! now := now in
  update_pure runID (λ run, run <| Run_Status := RunCompleted |> <| Run_CompletedAt := Some now |>).

Definition MarkFailed (runID : string) (runtimeErr : option RuntimeError) : M RunRepo AgentRun :=
  let! now := now in
  update_pure runID (λ run,
    let run := run <| Run_Status := RunFailed |> <| Run_CompletedAt := Some now |> in
    match runtimeErr with
    | Some e => run <| Run_ErrorCode := e.(Err_Code) |> <| Run_ErrorMessage := e.(Err_Message) |>
    | None => run
    end).

Definition MarkWaitingInput (runID : string) : M RunRepo AgentRun :=
  update_pure runID (λ run, run <| Run_Status := RunWaitingInput |>).

Definition MarkWaitingApproval (runID : string) : M RunRepo AgentRun :=
  update_pure runID (λ run, run <| Run_Status := RunWaitingApproval |>).

Definition MarkCancelled (runID : string) : M RunRepo AgentRun :=
  let! now := now in
  update_pure runID (λ run, run <| Run_Status := RunCancelled |> <| Run_CompletedAt := Some now |>).

Definition UpdateVersionSnapshot (runID : string) (snapshot : VersionSnapshot)
    : M RunRepo AgentRun :=
  update_pure runID (λ run, run <| Run_VersionSnapshot := snapshot |>).

Definition IncrementStep (runID : string) : M RunRepo (AgentRun * string) :=
  update runID (λ run,
    let run := run <| Run_StepCount := int64 (run.(Run_StepCount) + 1) |> in
    let! n := or_panic (itoa run.(Run_StepCount)) in
    ret (run, "step_" +:+ run.(Run_RunID) +:+ "_" +:+ n)).

Definition IncrementToolCall (runID : string) : M RunRepo AgentRun :=
  update_pure runID (λ run, run <| Run_ToolCallCount := int64 (run.(Run_ToolCallCount) + 1) |>).

(** ** The repository as steps; [issued] collects the step ids handed out *)

Inductive RunOp :=
| OpMarkRunning
| OpMarkCompleted
| OpMarkFailed (e : option RuntimeError)
| OpMarkWaitingInput
| OpMarkWaitingApproval
| OpMarkCancelled
| OpUpdateVersionSnapshot (snap : VersionSnapshot)
| OpIncrementToolCall.

Definition run_op (op : RunOp) (runID : string) : M RunRepo AgentRun :=
  match op with
  | OpMarkRunning => MarkRunning runID
  | OpMarkCompleted => MarkCompleted runID
  | OpMarkFailed e => MarkFailed runID e
  | OpMarkWaitingInput => MarkWaitingInput runID
  | OpMarkWaitingApproval => MarkWaitingApproval runID
  | OpMarkCancelled => MarkCancelled runID
  | OpUpdateVersionSnapshot snap => UpdateVersionSnapshot runID snap
  | OpIncrementToolCall => IncrementToolCall runID
  end.

Inductive repo_step : RunRepo * list string → RunRepo * list string → Prop :=
| repo_create run w r issued res w' r' :
    Run_StepCount run = 0%Z → Create run w r = (res, w', r') →
    repo_step (r, issued) (r', issued)
| repo_op op runID w r issued res w' r' :
    run_op op runID w r = (res, w', r') → repo_step (r, issued) (r', issued)
| repo_increment runID w r issued run id w' r' :
    IncrementStep runID w r = (Ok (run, id), w', r') →
    repo_step (r, issued) (r', id :: issued)
| repo_increment_failed runID w r issued e w' r' :
    IncrementStep runID w r = (Err e, w', r') → repo_step (r, issued) (r', issued).
End repository.

(** ** Facts: [itoa] *)

Definition digit_of (c : ascii) : Z := (Z.of_nat (nat_of_ascii c) - 48)%Z.
Fixpoint parse (acc : Z) (s : string) : Z :=
  match s with
  | EmptyString => acc
  | String c s' => parse (10 * acc + digit_of c) s'
  end.
Fixpoint all_digits (s : string) : Prop :=
  match s with
  | EmptyString => True
  | String c s' => (48 ≤ nat_of_ascii c ≤ 57)%nat ∧ all_digits s'
  end.

Lemma digit_char v : (0 ≤ v)%Z →
  nat_of_ascii (ascii_of_nat (48 + Z.to_nat (v mod 10))) = (48 + Z.to_nat (v mod 10))%nat.
Proof.
  intros Hv. apply nat_ascii_embedding.
  pose proof (Z.mod_pos_bound v 10 ltac:(lia)). lia.
Qed.

Lemma itoa_loop_ok room v written :
  (0 ≤ v < 10 ^ Z.of_nat room)%Z → all_digits written →
  ∃ s, itoa_loop room v written = Some s ∧ all_digits s ∧ parse 0 s = parse v written.
Proof.
  revert v written. induction room as [|room IH]; intros v written Hv Hd.
  { simpl in Hv. replace v with 0%Z by lia. by exists written. }
  cbn [itoa_loop]. rewrite Z.gtb_ltb. destruct (Z.ltb_spec 0 v) as [Hpos|Hz].
  2: { replace v with 0%Z by lia. by exists written. }
  pose proof (Z.mod_pos_bound v 10 ltac:(lia)) as Hm.
  destruct (IH (v / 10)%Z (String (ascii_of_nat (48 + Z.to_nat (v mod 10))) written))
    as (s & E & Hs & Hp).
  - split; [apply Z.div_pos; lia|]. apply Z.div_lt_upper_bound; [lia|].
    rewrite Nat2Z.inj_succ, Z.pow_succ_r in Hv by lia. lia.
  - cbn [all_digits]. rewrite digit_char by lia. split; [lia|done].
  - exists s. split; [done|]. split; [done|]. rewrite Hp. cbn [parse]. f_equal. unfold digit_of.
    rewrite digit_char by lia. pose proof (Z.div_mod v 10 ltac:(lia)). lia.
Qed.

Lemma itoa_ok v : (0 ≤ v < 2 ^ 63)%Z → ∃ s, itoa v = Some s ∧ all_digits s ∧ parse 0 s = v.
Proof.
  intros Hv. unfold itoa. destruct (Z.eqb_spec v 0) as [->|Hne].
  { exists "0". split; [done|]. split; [vm_compute; repeat split; lia|reflexivity]. }
  destruct (itoa_loop_ok 20 v "") as (s & E & Hs & Hp); [|done|by exists s].
  split; [lia|]. change (10 ^ Z.of_nat 20)%Z with 100000000000000000000%Z. lia.
Qed.

Lemma digits_no_underscore r d1 d2 : all_digits d1 → d1 ≠ r +:+ "_" +:+ d2.
Proof.
  revert r. induction d1 as [|c d1 IH]; intros r Hd; [by destruct r|].
  destruct Hd as [Hc Hd]. destruct r as [|c' r]; simpl; intros E; injection E as -> E.
  - change (nat_of_ascii "_"%char) with 95%nat in Hc. lia.
  - by eapply IH.
Qed.

(** The run and the digits can be read back from a step id. *)
Lemma step_id_inj r1 r2 d1 d2 :
  all_digits d1 → all_digits d2 → r1 +:+ "_" +:+ d1 = r2 +:+ "_" +:+ d2 → r1 = r2 ∧ d1 = d2.
Proof.
  intros H1 H2. revert r2. induction r1 as [|c r1 IH]; intros [|c2 r2] E; simpl in E.
  - by injection E.
  - injection E as <- E. by apply digits_no_underscore in E.
  - injection E as -> E. symmetry in E. by apply digits_no_underscore in E.
  - injection E as -> E. destruct (IH r2 E) as [-> ->]. done.
Qed.

(** ** Facts: normalisation *)

Lemma NormalizeSourceKind_ne k : NormalizeSourceKind k ≠ "".
Proof. unfold NormalizeSourceKind. by destruct (String.eqb_spec k ""). Qed.

Lemma NormalizeCarrierKind_ne s c : NormalizeCarrierKind s c ≠ "".
Proof.
  unfold NormalizeCarrierKind. destruct (String.eqb_spec c ""); simpl; [|done].
  unfold CarrierKindForSource. by destruct (_ == _).
Qed.

Lemma NormalizeSourceKind_id k : k ≠ "" → NormalizeSourceKind k = k.
Proof. intros Hk. unfold NormalizeSourceKind. by rewrite eqb_neq_false. Qed.

Lemma NormalizeCarrierKind_id s c : c ≠ "" → NormalizeCarrierKind s c = c.
Proof. intros Hc. unfold NormalizeCarrierKind. by rewrite eqb_neq_false. Qed.

Lemma NormalizeRuntimeContract_id c k : k ≠ "" → NormalizeRuntimeContract c k = k.
Proof. intros Hk. unfold NormalizeRuntimeContract. by rewrite eqb_neq_false. Qed.

(** What a normalised run satisfies: its carrier fields are set and its version snapshot
    repeats them. *)
Record run_normal (run : AgentRun) : Prop := {
  rn_source : Run_SourceKind run ≠ "";
  rn_carrier : Run_CarrierKind run ≠ "";
  rn_snap_source : Snap_SourceKind (Run_VersionSnapshot run) = Run_SourceKind run;
  rn_snap_carrier : Snap_CarrierKind (Run_VersionSnapshot run) = Run_CarrierKind run;
  rn_snap_contract : Snap_RuntimeContract (Run_VersionSnapshot run) ≠ "" →
    Snap_RuntimeContract (Run_VersionSnapshot run) = Run_RuntimeContract run;
  rn_snap_version : Snap_CarrierVersion (Run_VersionSnapshot run) = Run_CarrierVersion run;
  rn_version : Run_CarrierVersion run = "" → Run_AgentVersion run = ""
}.

Lemma fillCarrier_fields run :
  let run' := fillCarrier run in
  Run_RunID run' = Run_RunID run ∧ Run_StepCount run' = Run_StepCount run ∧
  Run_Status run' = Run_Status run ∧ Run_CompletedAt run' = Run_CompletedAt run ∧
  Run_AgentVersion run' = Run_AgentVersion run ∧
  Run_SourceKind run' ≠ "" ∧ Run_CarrierKind run' ≠ "" ∧
  (Run_CarrierVersion run' = "" → Run_AgentVersion run = "").
Proof.
  unfold fillCarrier. cbv zeta.
  change (Run_CarrierVersion (_ <| Run_SourceKind := _ |> <| Run_CarrierKind := _ |>
    <| Run_RuntimeContract := _ |>)) with (Run_CarrierVersion run).
  destruct (String.eqb_spec (Run_CarrierVersion run) ""); simpl.
  all: repeat split; auto using NormalizeSourceKind_ne, NormalizeCarrierKind_ne. done.
Qed.

(** [if m == "" { m = v }] *)
Lemma fill_field {R} (proj : R → string) (set_ : R → R) (r : R) :
  proj (set_ r) ≠ "" → proj (if proj r == "" then set_ r else r) ≠ "".
Proof. intros H. by destruct (String.eqb_spec (proj r) ""). Qed.

Lemma fillSnapshot_fields run snap :
  let f := λ (a b : string), if a == "" then b else a in
  let snap' := fillSnapshot run snap in
  Snap_SourceKind snap' = f (Snap_SourceKind snap) (Run_SourceKind run) ∧
  Snap_CarrierKind snap' = f (Snap_CarrierKind snap) (Run_CarrierKind run) ∧
  Snap_CarrierVersion snap' = f (Snap_CarrierVersion snap) (Run_CarrierVersion run).
Proof.
  destruct snap as [? ? ? c k v s p ? h ? ?]. unfold fillSnapshot. cbn -[String.eqb].
  destruct (s == ""); cbn -[String.eqb]; destruct (c == ""); cbn -[String.eqb];
    destruct (k == ""); cbn -[String.eqb]; destruct (v == ""); cbn -[String.eqb];
    destruct (p == ""); cbn -[String.eqb]; by destruct (h == "").
Qed.

Lemma copySnapshot_fields run snap :
  let run' := copySnapshot run snap in
  Run_RunID run' = Run_RunID run ∧ Run_StepCount run' = Run_StepCount run ∧
  Run_Status run' = Run_Status run ∧ Run_CompletedAt run' = Run_CompletedAt run ∧
  Run_AgentVersion run' = Run_AgentVersion run ∧ Run_VersionSnapshot run' = snap ∧
  Run_SourceKind run' = NormalizeSourceKind (Snap_SourceKind snap) ∧
  Run_CarrierKind run' = NormalizeCarrierKind (Run_SourceKind run') (Snap_CarrierKind snap) ∧
  Run_RuntimeContract run' =
    NormalizeRuntimeContract (Run_CarrierKind run') (Snap_RuntimeContract snap) ∧
  Run_CarrierVersion run' = Snap_CarrierVersion snap.
Proof.
  unfold copySnapshot. cbn -[String.eqb NormalizeSourceKind NormalizeCarrierKind NormalizeRuntimeContract].
  destruct (Run_SourceProviderID run == "");
    cbn -[String.eqb NormalizeSourceKind NormalizeCarrierKind NormalizeRuntimeContract];
    by destruct (Run_ManifestHash run == "").
Qed.

Lemma Normalize_fields run :
  let run' := NormalizeRunCarrierSnapshot run in
  Run_RunID run' = Run_RunID run ∧ Run_StepCount run' = Run_StepCount run ∧
  Run_Status run' = Run_Status run ∧ Run_CompletedAt run' = Run_CompletedAt run.
Proof.
  unfold NormalizeRunCarrierSnapshot. cbv zeta.
  destruct (copySnapshot_fields (fillCarrier run)
    (fillSnapshot (fillCarrier run) (Run_VersionSnapshot (fillCarrier run))))
    as (-> & -> & -> & -> & _).
  by destruct (fillCarrier_fields run) as (-> & -> & -> & -> & _).
Qed.

Lemma Normalize_normal run : run_normal (NormalizeRunCarrierSnapshot run).
Proof.
  unfold NormalizeRunCarrierSnapshot. set (r1 := fillCarrier run).
  destruct (fillCarrier_fields run) as (_ & _ & _ & _ & Eag & Hsrc & Hcar & Hver). fold r1 in Eag, Hsrc, Hcar, Hver.
  set (snap := fillSnapshot r1 (Run_VersionSnapshot r1)).
  destruct (fillSnapshot_fields r1 (Run_VersionSnapshot r1)) as (Es & Ec & Ev). fold snap in Es, Ec, Ev.
  destruct (copySnapshot_fields r1 snap) as (_ & _ & _ & _ & E1 & E2 & E3 & E4 & E5 & E6).
  assert (Hs : Snap_SourceKind snap ≠ "") by (rewrite Es; destruct (String.eqb_spec (Snap_SourceKind (Run_VersionSnapshot r1)) ""); done).
  assert (Hc : Snap_CarrierKind snap ≠ "") by (rewrite Ec; destruct (String.eqb_spec (Snap_CarrierKind (Run_VersionSnapshot r1)) ""); done).
  rewrite NormalizeSourceKind_id in E3 by done. rewrite NormalizeCarrierKind_id in E4 by done.
  split; rewrite ?E1, ?E2, ?E3, ?E4, ?E6; try done.
  - intros Hk. by rewrite E5, NormalizeRuntimeContract_id.
  - rewrite Ev, Eag. destruct (String.eqb_spec (Snap_CarrierVersion (Run_VersionSnapshot r1)) ""); done.
Qed.

(** ** Facts: the operations *)

Section facts.
Context `{Env}.

Lemma update_run {A} runID (fn : AgentRun → M RunRepo (AgentRun * A)) w r :
  (∀ run, r.(runs) !! runID = Some run →
     (∃ run' a w', fn run w r = (Ok (run', a), w', r)) ∨ ∃ w', fn run w r = (Panic, w', r)) →
  match r.(runs) !! runID with
  | None => update runID fn w r = (Err ErrNotFound, w, r)
  | Some run =>
      (∃ run' a w', fn run w r = (Ok (run', a), w', r) ∧
         update runID fn w r = (Ok (NormalizeRunCarrierSnapshot run', a), w',
           r <| runs := <[runID := NormalizeRunCarrierSnapshot run']> r.(runs) |>)) ∨
      (∃ w', fn run w r = (Panic, w', r) ∧ update runID fn w r = (Panic, w', r))
  end.
Proof.
  intros Hfn. unfold update, bind, get, put, ret, throw. simpl.
  destruct (runs r !! runID) as [run|] eqn:E; [|done].
  destruct (Hfn run eq_refl) as [(run' & a & w' & E')|(w' & E')]; rewrite E'; simpl; [left|right]; eauto 10.
Qed.

(** What an operation other than [IncrementStep] does to the repository. *)
Lemma run_op_effect op runID w r res w' r' :
  run_op op runID w r = (res, w', r') →
  r' = r ∨ ∃ run run', r.(runs) !! runID = Some run ∧
    Run_RunID run' = Run_RunID run ∧ Run_StepCount run' = Run_StepCount run ∧
    r' = r <| runs := <[runID := NormalizeRunCarrierSnapshot run']> r.(runs) |>.
Proof.
  assert (Hup : ∀ fn w r res w' r', update_pure runID fn w r = (res, w', r') →
    (∀ run, Run_RunID (fn run) = Run_RunID run ∧ Run_StepCount (fn run) = Run_StepCount run) →
    r' = r ∨ ∃ run run', r.(runs) !! runID = Some run ∧
      Run_RunID run' = Run_RunID run ∧ Run_StepCount run' = Run_StepCount run ∧
      r' = r <| runs := <[runID := NormalizeRunCarrierSnapshot run']> r.(runs) |>).
  { clear. intros fn w r res w' r' E Hfn. unfold update_pure in E.
    pose proof (update_run runID (λ run, ret (fn run, tt)) w r) as Hu.
    destruct (runs r !! runID) as [run|] eqn:Er.
    - destruct Hu as [(run' & a & w1 & E1 & E2)|(w1 & E1 & _)]; [by left; eexists _, _, _|..|done].
      unfold ret in E1. simplify_eq. unfold bind in E. rewrite E2 in E. unfold ret in E. simplify_eq.
      right. destruct (Hfn run). eauto 10.
    - unfold bind in E. rewrite Hu in E by done. simplify_eq. by left. }
  destruct op; simpl; try (intros E; eapply Hup in E; [exact E|by intros run]);
    unfold MarkCompleted, MarkFailed, MarkCancelled;
    intros [t [w1 E]]%(effect_only_bind_inv now); eauto with effects; eapply Hup in E; [exact E|].
  all: intros run; try destruct e; done.
Qed.
End facts.

(** ** The invariant *)

Definition step_id (runID : string) (v : Z) (id : string) : Prop :=
  ∃ s, itoa v = Some s ∧ id = "step_" +:+ runID +:+ "_" +:+ s.

Lemma step_id_unique k1 k2 v1 v2 id :
  (0 ≤ v1 < 2 ^ 63)%Z → (0 ≤ v2 < 2 ^ 63)%Z → step_id k1 v1 id → step_id k2 v2 id →
  k1 = k2 ∧ v1 = v2.
Proof.
  intros H1 H2 (s1 & E1 & ->) (s2 & E2 & E).
  destruct (itoa_ok v1 H1) as (t1 & F1 & D1 & P1), (itoa_ok v2 H2) as (t2 & F2 & D2 & P2).
  rewrite F1 in E1. rewrite F2 in E2. simplify_eq.
  apply step_id_inj in E as [-> ->]; [|done|done]. done.
Qed.

Record runs_inv (n : Z) (y : RunRepo * list string) : Prop := {
  ri_run k run : y.1.(runs) !! k = Some run →
    Run_RunID run = k ∧ (0 ≤ Run_StepCount run ≤ n)%Z ∧ run_normal run;
  ri_issued id : id ∈ y.2 → ∃ k run v, y.1.(runs) !! k = Some run ∧
    (1 ≤ v ≤ Run_StepCount run)%Z ∧ step_id k v id;
  ri_nodup : NoDup y.2
}.

(** Storing a run under its id, with a step count that has not gone down. *)
Lemma runs_inv_insert n m r issued k run' :
  (n ≤ m)%Z → runs_inv n (r, issued) → Run_RunID run' = k →
  (0 ≤ Run_StepCount run' ≤ m)%Z → run_normal run' →
  (∀ run, r.(runs) !! k = Some run → (Run_StepCount run ≤ Run_StepCount run')%Z) →
  runs_inv m (r <| runs := <[k := run']> r.(runs) |>, issued).
Proof.
  intros Hnm [Hr Hi Hnd] Hk Hc Hn Hup. split; simpl in *; [| |done].
  - intros k' run. rewrite lookup_insert_Some. intros [[<- <-]|[_ Hl]]; [done|].
    destruct (Hr _ _ Hl) as (? & ? & ?). split; [done|split; [lia|done]].
  - intros id (k' & run & v & Hl & Hv & Hid)%Hi. destruct (decide (k = k')) as [<-|Hne].
    + exists k, run', v. rewrite lookup_insert_eq. specialize (Hup _ Hl). repeat split; try done; lia.
    + exists k', run, v. by rewrite lookup_insert_ne.
Qed.

Lemma runs_inv_mono n m y : (n ≤ m)%Z → runs_inv n y → runs_inv m y.
Proof.
  intros Hnm [Hr Hi Hnd]. split; [|done|done]. intros k run Hl.
  destruct (Hr _ _ Hl) as (? & ? & ?). split; [done|split; [lia|done]].
Qed.

Lemma IncrementStep_run `{Env} runID w r :
  (∀ run, r.(runs) !! runID = Some run → (0 ≤ Run_StepCount run < 2 ^ 63 - 1)%Z) →
  match r.(runs) !! runID with
  | None => IncrementStep runID w r = (Err ErrNotFound, w, r)
  | Some run => ∃ run' id,
      IncrementStep runID w r = (Ok (run', id), w, r <| runs := <[runID := run']> r.(runs) |>) ∧
      Run_RunID run' = Run_RunID run ∧ Run_StepCount run' = (Run_StepCount run + 1)%Z ∧
      run_normal run' ∧ step_id (Run_RunID run) (Run_StepCount run + 1) id
  end.
Proof.
  intros Hc. unfold IncrementStep, update, bind, get, put, ret, throw. simpl.
  destruct (runs r !! runID) as [run|] eqn:E; [|done].
  pose proof (Hc run eq_refl) as Hc'.
  rewrite int64_id by (unfold is_int64; lia).
  destruct (itoa_ok (Run_StepCount run + 1)) as (s & Es & _); [lia|]. rewrite Es. simpl.
  destruct (Normalize_fields (run <| Run_StepCount := (Run_StepCount run + 1)%Z |>)) as (E1 & E2 & _).
  eexists _, _. split; [reflexivity|]. rewrite E1, E2. split; [done|split; [done|]].
  split; [apply Normalize_normal|by exists s].
Qed.

Lemma repo_step_inv `{Env} n y y' :
  (0 ≤ n < 2 ^ 63 - 1)%Z → repo_step y y' → runs_inv n y → runs_inv (n + 1) y'.
Proof.
  intros Hn Hst Hinv. pose proof (runs_inv_mono n (n + 1) y ltac:(lia) Hinv) as Hinv'.
  destruct Hst as [run w r issued res w' r' H0 E|op runID w r issued res w' r' E
    |runID w r issued run id w' r' E|runID w r issued e w' r' E].
  - unfold Create, bind, get, put, throw in E. simpl in E.
    destruct (runs r !! Run_RunID run) as [old|] eqn:Eo; simplify_eq; [done|].
    destruct (Normalize_fields run) as (E1 & E2 & _). rewrite E1.
    eapply runs_inv_insert; [|exact Hinv|done| |apply Normalize_normal|congruence]; [lia|].
    rewrite E2, H0. lia.
  - apply run_op_effect in E as [->|(run & run' & El & Ei & Ec & ->)]; [done|].
    destruct (Normalize_fields run') as (E1 & E2 & _).
    destruct (ri_run _ _ Hinv _ _ El) as (Hid & Hc & _). simpl in *.
    eapply runs_inv_insert; [|exact Hinv| | |apply Normalize_normal|]; [lia|congruence|lia|].
    intros run0 Hrun0. simplify_eq. lia.
  - pose proof (IncrementStep_run runID w r) as Hrun.
    destruct (runs r !! runID) as [old|] eqn:El.
    2: { rewrite Hrun in E; done. }
    destruct (ri_run _ _ Hinv _ _ El) as (Hid & Hc & _). simpl in *.
    destruct Hrun as (run' & id' & E' & E1 & E2 & Hnm & Hs); [intros ? [= <-]; lia|].
    rewrite E' in E. simplify_eq.
    destruct (runs_inv_insert n (n + 1) r issued (Run_RunID old) run) as [H1 H2 H3];
      [lia|done|done|lia|done|intros ? ?; simplify_eq; lia|].
    split; [exact H1| |].
    + simpl. intros i [->|Hi]%elem_of_cons; [|by apply H2].
      exists (Run_RunID old), run, (Run_StepCount old + 1)%Z. rewrite lookup_insert_eq.
      repeat split; try done; lia.
    + constructor; [|done]. intros (k & r0 & v & Hk & Hv & Hsid)%(ri_issued _ _ Hinv). simpl in Hk.
      destruct (ri_run _ _ Hinv _ _ Hk) as (_ & Hc0 & _).
      destruct (step_id_unique (Run_RunID old) k (Run_StepCount old + 1) v _ ltac:(lia) ltac:(lia) Hs Hsid) as [<- Ev].
      rewrite El in Hk. simplify_eq. lia.
  - pose proof (IncrementStep_run runID w r) as Hrun.
    destruct (runs r !! runID) as [old|] eqn:El.
    + destruct (ri_run _ _ Hinv _ _ El) as (Hid & Hc & _). simpl in *.
      destruct Hrun as (run' & id' & E' & _); [intros ? [= <-]; lia|]. congruence.
    + rewrite Hrun in E by done. by simplify_eq.
Qed.

Lemma runs_reachable_inv `{Env} n y :
  nsteps repo_step n (NewRunRepo, []) y → (Z.of_nat n < 2 ^ 63)%Z → runs_inv (Z.of_nat n) y.
Proof.
  revert y. induction n as [|n IH]; intros y Hrun Hn.
  - inversion Hrun; subst. split; simpl; [intros k run; by rewrite lookup_empty
      |intros id Hid; inversion Hid|constructor].
  - replace (S n) with (n + 1)%nat in Hrun by lia. apply nsteps_add_inv in Hrun as (y1 & H1 & H2).
    apply nsteps_once_inv in H2. replace (Z.of_nat (S n)) with (Z.of_nat n + 1)%Z by lia.
    eapply repo_step_inv; [lia|exact H2|]. apply IH; [done|lia].
Qed.

(** Step ids are never reused: over any sequence of fewer than 2^63 calls of the
    repository, in which runs are created with no steps, [IncrementStep] never hands
    out the same step id twice, whatever the run ids (even when one run id extends
    another with an underscore and digits). *)
Theorem step_ids_unique `{Env} n r issued :
  nsteps repo_step n (NewRunRepo, []) (r, issued) → (Z.of_nat n < 2 ^ 63)%Z → NoDup issued.
Proof. intros Hrun Hn. by destruct (runs_reachable_inv n _ Hrun Hn). Qed.

(** Every stored run is filed under its id and carries a complete carrier snapshot:
    source and carrier kind are set, and the version snapshot repeats the run's source,
    carrier, carrier version and (when it has one) runtime contract, after any
    sequence of calls, whatever the run or the snapshot given by the caller. *)
Theorem runs_normalized `{Env} n r issued k run :
  nsteps repo_step n (NewRunRepo, []) (r, issued) → (Z.of_nat n < 2 ^ 63)%Z →
  r.(runs) !! k = Some run → Run_RunID run = k ∧ run_normal run.
Proof.
  intros Hrun Hn Hk. destruct (runs_reachable_inv n _ Hrun Hn) as [Hr _ _].
  by destruct (Hr _ _ Hk) as (? & _ & ?).
Qed.

Definition test_run : AgentRun := zeroAgentRun <| Run_RunID := "r" |> <| Run_StartedAt := 5%Z |>.
Definition test_run2 : AgentRun := zeroAgentRun <| Run_RunID := "q" |> <| Run_StartedAt := 9%Z |>.
Definition one_run_repo : RunRepo := (Create test_run world0 NewRunRepo).2.
Definition two_runs_repo : RunRepo := (Create test_run2 world0 one_run_repo).2.
Definition stepped_repo : RunRepo := (IncrementStep "r" world0 two_runs_repo).2.

Lemma test_repo_steps : nsteps repo_step 3 (NewRunRepo, []) (stepped_repo, ["step_r_1"]).
Proof.
  eapply nsteps_l.
  { apply (repo_create test_run world0 NewRunRepo [] (Ok tt) world0 one_run_repo); by vm_compute. }
  eapply nsteps_l.
  { apply (repo_create test_run2 world0 one_run_repo [] (Ok tt) world0 two_runs_repo); by vm_compute. }
  eapply nsteps_l; [|apply nsteps_O].
  eapply (repo_increment "r" world0 two_runs_repo []). vm_compute. reflexivity.
Qed.

Lemma step_ids_unique_witness : NoDup ["step_r_1"].
Proof. exact (step_ids_unique 3 stepped_repo _ test_repo_steps eq_refl). Defined.

Lemma runs_normalized_witness :
  ∃ run, stepped_repo.(runs) !! "r" = Some run ∧ Run_StepCount run = 1%Z ∧ run_normal run.
Proof.
  destruct (runs stepped_repo !! "r") as [run|] eqn:E; [|vm_compute in E; discriminate].
  exists run. split; [reflexivity|].
  destruct (runs_normalized 3 stepped_repo _ "r" run test_repo_steps eq_refl E) as [_ Hn].
  split; [|exact Hn]. vm_compute in E. injection E as <-. vm_compute. reflexivity.
Defined.

(** ** Listing *)

Lemma runLess_asym a b : runLess a b = true → le_of runLess a b.
Proof.
  unfold le_of, runLess, Equal, After.
  destruct (Z.eqb_spec (Run_StartedAt a) (Run_StartedAt b)) as [->|Hne].
  - rewrite Z.eqb_refl. apply string_lt_asym.
  - intros Hlt%Z.ltb_lt. destruct (Z.eqb_spec (Run_StartedAt b) (Run_StartedAt a));
      [congruence|apply Z.ltb_ge; lia].
Qed.

Lemma runLess_trans a b c : le_of runLess a b → le_of runLess b c → le_of runLess a c.
Proof.
  unfold le_of, runLess, Equal, After.
  destruct (Z.eqb_spec (Run_StartedAt b) (Run_StartedAt a));
  destruct (Z.eqb_spec (Run_StartedAt c) (Run_StartedAt b));
  destruct (Z.eqb_spec (Run_StartedAt c) (Run_StartedAt a));
    rewrite ?Z.ltb_ge; try (intros; lia).
  intros Hab Hbc. eapply string_lt_le_trans; [exact Hbc|exact Hab].
Qed.

Lemma runLess_antisym a b : le_of runLess a b → le_of runLess b a → Run_RunID a = Run_RunID b.
Proof.
  unfold le_of, runLess, Equal, After.
  destruct (Z.eqb_spec (Run_StartedAt b) (Run_StartedAt a)) as [E|];
  destruct (Z.eqb_spec (Run_StartedAt a) (Run_StartedAt b)); rewrite ?Z.ltb_ge; try (intros; lia).
  intros H1 H2. by apply string_lt_total.
Qed.

(** The runs a filter selects, newest first, in a fixed order. *)
Definition selected_runs (r : RunRepo) (filter : RunListFilter) : list AgentRun :=
  stable_sort runLess
    (List.filter (λ run, runMatchesListFilter run filter) (map snd (map_to_list r.(runs)))).

Lemma map_snd_perm {A B} (l k : list (A * B)) : l ≡ₚ k → map snd l ≡ₚ map snd k.
Proof. intros Hlk. change (l.*2 ≡ₚ k.*2). by rewrite Hlk. Qed.

(** Sorting the runs does not depend on the order in which the map was visited. *)
Lemma selected_runs_perm r filter (l : list (string * AgentRun)) :
  (∀ k run, r.(runs) !! k = Some run → Run_RunID run = k) → l ≡ₚ map_to_list r.(runs) →
  stable_sort runLess (List.filter (λ run, runMatchesListFilter run filter) (map snd l))
    = selected_runs r filter.
Proof.
  intros Hkey Hl. unfold selected_runs. apply (sorted_unique (le_of runLess)).
  - apply stable_sort_Sorted; [apply runLess_trans|apply runLess_asym].
  - apply stable_sort_Sorted; [apply runLess_trans|apply runLess_asym].
  - rewrite !stable_sort_perm. apply filter_bool_perm, map_snd_perm, Hl.
  - assert (Hin : ∀ x, x ∈ stable_sort runLess
        (List.filter (λ run, runMatchesListFilter run filter) (map snd l)) →
        r.(runs) !! Run_RunID x = Some x).
    { intros x. rewrite stable_sort_elem, filter_bool_elem, elem_of_map_snd.
      intros [[k Hk] _]. rewrite Hl, elem_of_map_to_list in Hk. by rewrite (Hkey _ _ Hk). }
    intros a b Ha%Hin Hb%Hin H1 H2. pose proof (runLess_antisym _ _ H1 H2) as E. congruence.
Qed.

Lemma count_fold {A} (f : A → bool) l n :
  fold_left (λ total x, if f x then (total + 1)%Z else total) l n = (n + len (List.filter f l))%Z.
Proof.
  revert n. induction l as [|x l IH]; intros n; simpl; [unfold len; simpl; lia|].
  rewrite IH. unfold len. destruct (f x); simpl; lia.
Qed.

Lemma List_run `{Env} r filter w :
  (∀ k run, r.(runs) !! k = Some run → Run_RunID run = k) →
  ∃ w', List filter w r =
    or_panic (pageRuns (selected_runs r filter) (RLF_Limit filter) (RLF_Offset filter)) w' r.
Proof.
  intros Hkey. unfold List, bind at 1, get. cbn beta iota.
  destruct (range_map_run (runs r) w r) as (l & w' & E & Hl).
  rewrite (bind_Ok _ _ _ _ _ _ _ E). cbv zeta. rewrite (selected_runs_perm r filter l) by done. eauto.
Qed.

(** Listing runs is deterministic although it ranges over a map, and complete: in every
    reachable repository the pages of a positive size, put together, are the selected
    runs, each exactly once, in one fixed order, newest first, and [Count] is their
    number. *)
Theorem run_pages_complete `{Env} n r issued filter limit m w :
  nsteps repo_step n (NewRunRepo, []) (r, issued) → (Z.of_nat n < 2 ^ 63)%Z →
  (0 < limit)%Z → (len (selected_runs r filter) < 2 ^ 62)%Z → (Z.of_nat m * limit < 2 ^ 62)%Z →
  (len (selected_runs r filter) ≤ Z.of_nat m * limit)%Z →
  (∃ pages,
    Forall2 (λ k page, ∃ w', List (filter <| RLF_Limit := limit |>
                                          <| RLF_Offset := (Z.of_nat k * limit)%Z |>) w r
                             = (Ok page, w', r)) (seq 0 m) pages ∧
    concat pages = selected_runs r filter) ∧
  StronglySorted (le_of runLess) (selected_runs r filter) ∧
  (∀ run, run ∈ selected_runs r filter ↔
     r.(runs) !! Run_RunID run = Some run ∧ runMatchesListFilter run filter = true) ∧
  (∃ w', Count filter w r = (Ok (len (selected_runs r filter)), w', r)).
Proof.
  intros Hrun Hn Hlim Hlen Hm Hall.
  assert (Hkey : ∀ k run, r.(runs) !! k = Some run → Run_RunID run = k)
    by (intros k run Hk; by destruct (ri_run _ _ (runs_reachable_inv n _ Hrun Hn) k run Hk)).
  split; [|split; [|split]].
  - destruct (pages_complete (selected_runs r filter) limit m) as (pages & Hp & Hc); [done..|].
    exists pages. split; [|done]. apply mapM_Some in Hp. eapply Forall2_impl; [exact Hp|].
    intros k page Hpage. cbn in Hpage.
    destruct (List_run r (filter <| RLF_Limit := limit |>
      <| RLF_Offset := (Z.of_nat k * limit)%Z |>) w Hkey) as (w' & ->).
    exists w'. unfold pageRuns. simpl.
    change (selected_runs r (filter <| RLF_Limit := limit |>
      <| RLF_Offset := (Z.of_nat k * limit)%Z |>)) with (selected_runs r filter).
    by rewrite Hpage.
  - apply stable_sort_Sorted; [apply runLess_trans|apply runLess_asym].
  - intros run. unfold selected_runs. rewrite stable_sort_elem, filter_bool_elem, elem_of_map_snd.
    setoid_rewrite elem_of_map_to_list. split.
    + intros [[k Hk] Hf]. by rewrite (Hkey _ _ Hk).
    + intros [Hk Hf]. eauto.
  - unfold Count, bind at 1, get. cbn beta iota.
    destruct (range_map_run (runs r) w r) as (l & w' & E & Hl). exists w'.
    rewrite (bind_Ok _ _ _ _ _ _ _ E), (count_fold (λ run, runMatchesListFilter run filter)).
    unfold ret. do 2 f_equal. f_equal. unfold len. rewrite <- (selected_runs_perm r filter l) by done.
    rewrite stable_sort_length. lia.
Qed.

Definition any_run : RunListFilter := mkRunListFilter "" "" "" "" "" "" 0 0 0 0.

Lemma run_pages_complete_witness :
  ∃ pages, concat pages = selected_runs stepped_repo any_run ∧ length pages = 2%nat ∧
    map Run_RunID (concat pages) = ["q"; "r"].
Proof.
  destruct (run_pages_complete 3 stepped_repo _ any_run 1 2 world0 test_repo_steps eq_refl)
    as ((pages & Hp & Hc) & _); [lia|by vm_compute|by vm_compute|by vm_compute|].
  exists pages. split; [exact Hc|]. split; [by apply Forall2_length in Hp as <-|].
  rewrite Hc. vm_compute. reflexivity.
Defined.

(** The page cut overflows: when [offset + limit] exceeds the range of an [int], the
    slice bounds are out of range and listing runs panics instead of returning the rest
    of the list. *)
Theorem run_list_overflow_panics `{Env} n r issued filter w :
  nsteps repo_step n (NewRunRepo, []) (r, issued) → (Z.of_nat n < 2 ^ 63)%Z →
  (0 ≤ RLF_Offset filter < len (selected_runs r filter))%Z →
  is_int64 (RLF_Offset filter) → is_int64 (RLF_Limit filter) →
  (2 ^ 63 ≤ RLF_Offset filter + RLF_Limit filter)%Z →
  ∃ w', List filter w r = (Panic, w', r).
Proof.
  intros Hrun Hn Hoff Ho Hl Hsum.
  destruct (List_run r filter w) as (w' & ->).
  { intros k run Hk. by destruct (ri_run _ _ (runs_reachable_inv n _ Hrun Hn) k run Hk). }
  exists w'. unfold pageRuns. by rewrite page_cut_overflow.
Qed.

Lemma run_list_overflow_panics_witness :
  ∃ w', List (any_run <| RLF_Offset := 1%Z |> <| RLF_Limit := (2 ^ 63 - 1)%Z |>) world0 stepped_repo
    = (Panic, w', stepped_repo).
Proof.
  refine (run_list_overflow_panics 3 stepped_repo _ _ world0 test_repo_steps eq_refl _ _ _ _).
  - vm_compute. split; [discriminate|reflexivity].
  - unfold is_int64. simpl. lia.
  - unfold is_int64. simpl. lia.
  - simpl. lia.
Defined.
