(* ===== verification/Policies.v ===== *)
(** * Policy evaluators

    internal/policy/toolpolicy, internal/policy/handoff, the token limit of
    internal/policy/promptpolicy, and internal/policy/engine/release.go and repair.go. *)

From S2P Require Import Prelude Contracts GoMonad Storage.
From stdpp Require Import base list strings gmap fin_maps.
From Stdlib Require Import Ascii Lia.
Open Scope go_scope.
Open Scope string_scope.
Open Scope list_scope.

(** The [rank] map of [riskAtLeast]; a missing key ranks 0. *)
Definition rank (level : RiskLevel) : Z :=
  if level == RiskLow then 1
  else if level == RiskMedium then 2
  else if level == RiskHigh then 3
  else if level == RiskCritical then 4
  else 0.

Definition riskAtLeast (actual threshold : RiskLevel) : bool :=
  if threshold == "" then false else (rank actual >=? rank threshold)%Z.

(** [contains] of toolpolicy: an empty target is never contained. *)
Definition contains (values : list string) (target : string) : bool :=
  if target == "" then false else mem_string target values.

(** ** Tools *)

Record ToolRequest := mkToolRequest {
  TR_TenantID : string;
  TR_TraceID : string;
  TR_ActorID : string;
  TR_ActorType : string;
  TR_Agent : AgentDefinition;
  TR_Policy : PolicySet;
  TR_Tool : ToolDefinition;
  TR_Call : ToolCall;
  TR_Approved : bool
}.

Definition allowedByAgent (binding : AgentToolsConfig) (tool : ToolDefinition) : bool :=
  if contains binding.(ToolsCfg_AllowedToolIDs) tool.(Tool_ToolID) then true
  else contains binding.(ToolsCfg_AllowedToolGroupIDs) tool.(Tool_GroupID).

Definition allowedByPolicy (binding : ToolPolicy) (tool : ToolDefinition) : bool :=
  if contains binding.(ToolPolicy_AllowedToolIDs) tool.(Tool_ToolID) then true
  else contains binding.(ToolPolicy_AllowedToolGroupIDs) tool.(Tool_GroupID).

Definition nonempty {A} (l : list A) : bool := (len l >? 0)%Z.

Definition evaluate (req : ToolRequest) : PolicyDecision :=
  let tool := req.(TR_Tool) in
  let agent := req.(TR_Agent).(Agent_Tools) in
  let policy := req.(TR_Policy).(PolicySet_ToolPolicy) in
  let deny reason := mkPolicyDecision PolicyDecisionDenied reason tool.(Tool_RiskLevel) [] in
  if contains agent.(ToolsCfg_DeniedToolIDs) tool.(Tool_ToolID) ||
     contains policy.(ToolPolicy_DeniedToolIDs) tool.(Tool_ToolID)
  then deny "tool is explicitly denied"
  else if contains agent.(ToolsCfg_DeniedToolGroupIDs) tool.(Tool_GroupID) ||
          contains policy.(ToolPolicy_DeniedToolGroupIDs) tool.(Tool_GroupID)
  then deny "tool group is explicitly denied"
  else if (nonempty agent.(ToolsCfg_AllowedToolIDs) ||
           nonempty agent.(ToolsCfg_AllowedToolGroupIDs)) && negb (allowedByAgent agent tool)
  then deny "tool is not in agent allowed tools or groups"
  else if (nonempty policy.(ToolPolicy_AllowedToolIDs) ||
           nonempty policy.(ToolPolicy_AllowedToolGroupIDs)) && negb (allowedByPolicy policy tool)
  then deny "tool is not in policy allowed tools or groups"
  else if tool.(Tool_Visibility) == ToolPrivate
  then deny "private tool cannot be invoked by runtime candidate set"
  else if negb req.(TR_Approved) &&
          ((tool.(Tool_RiskLevel) == RiskHigh) || (tool.(Tool_RiskLevel) == RiskCritical) ||
           riskAtLeast tool.(Tool_RiskLevel) policy.(ToolPolicy_RequireApprovalAtRiskLevel))
  then mkPolicyDecision PolicyDecisionApprovalRequired
         ("tool risk level " +:+ tool.(Tool_RiskLevel) +:+ " requires approval")
         tool.(Tool_RiskLevel) []
  else mkPolicyDecision PolicyDecisionAllowed "tool allowed" tool.(Tool_RiskLevel) [].

Section tools.
Context `{Env} {S : Type}.

Definition tool_audit (req : ToolRequest) (action : string) (decision : PolicyDecision) : M S unit :=
  with_audit (
    let! id := idgen_New "audit" in
    ignore (audit_Log (zeroAuditEvent
      <| Audit_AuditID := id |> <| Audit_TenantID := req.(TR_TenantID) |>
      <| Audit_ActorID := req.(TR_ActorID) |> <| Audit_ActorType := req.(TR_ActorType) |>
      <| Audit_Action := action |> <| Audit_ResourceType := "tool" |>
      <| Audit_ResourceID := req.(TR_Tool).(Tool_ToolID) |>
      <| Audit_Decision := decision.(PD_Decision) |> <| Audit_Reason := decision.(PD_Reason) |>
      <| Audit_TraceID := req.(TR_TraceID) |> <| Audit_TaskID := req.(TR_Call).(Call_TaskID) |>
      <| Audit_RunID := req.(TR_Call).(Call_RunID) |>))).

(** The decision comes back with the error, if there is one. *)
Definition Evaluate (req : ToolRequest) : M S (PolicyDecision * option error) :=
  let decision := evaluate req in
  do! tool_audit req "tool.policy_checked" decision in
  do! (if decision.(PD_Decision) == PolicyDecisionDenied
       then tool_audit req AuditToolPolicyDenied decision
       else if decision.(PD_Decision) == PolicyDecisionApprovalRequired
       then tool_audit req AuditToolApprovalRequired decision
       else if decision.(PD_Decision) == PolicyDecisionAllowed
       then if (req.(TR_Tool).(Tool_RiskLevel) == RiskHigh) ||
               (req.(TR_Tool).(Tool_RiskLevel) == RiskCritical)
            then tool_audit req AuditToolHighRiskInvoked decision
            else ret tt
       else ret tt) in
  ret (decision,
       if decision.(PD_Decision) == PolicyDecisionDenied
       then Some (ErrRuntime (NewRuntimeError CodeToolPolicyDenied decision.(PD_Reason) ∅))
       else None).
End tools.

(** ** Handoffs *)

Record HandoffRequest := mkHandoffRequest {
  HR_Policy : HandoffPolicy;
  HR_Mode : HandoffMode;
  HR_TenantID : string;
  HR_TargetTenantID : string;
  HR_FromAgentID : string;
  HR_ToAgentID : string;
  HR_ToAgentExists : bool;
  HR_CapabilityMatched : bool;
  HR_ArtifactRefs : list ArtifactRef;
  HR_MemoryRefs : list string
}.

Definition handoff_denied (reason : string) (risk : RiskLevel) : PolicyDecision :=
  mkPolicyDecision PolicyDecisionDenied reason risk [].

Section handoffs.
(** The text of an error. *)
Context (Error : error → string).

Definition EvaluateRequest (req : HandoffRequest) : PolicyDecision * option error :=
  let policy := req.(HR_Policy) in
  let mode := req.(HR_Mode) in
  let mode := if mode == "" then policy.(HandoffPolicy_DefaultMode) else mode in
  let mode := if mode == "" then HandoffHybrid else mode in
  let fails reason risk details :=
    (handoff_denied reason risk, Some (ErrRuntime (NewRuntimeError CodeHandoffDenied reason details))) in
  let to_agent := {["to_agent_id" := AString req.(HR_ToAgentID)]} in
  match HandoffMode_Validate mode with
  | Some err =>
      (handoff_denied "invalid handoff mode" RiskMedium,
       Some (ErrRuntime (NewRuntimeError CodeHandoffDenied (Error err) ∅)))
  | None =>
      if req.(HR_FromAgentID) == "" then fails "from_agent_id is required" RiskMedium ∅
      else if req.(HR_ToAgentID) == "" then fails "to_agent_id is required" RiskMedium ∅
      else if negb req.(HR_ToAgentExists) then fails "target agent not found" RiskHigh to_agent
      else if negb req.(HR_CapabilityMatched)
      then fails "target agent capability does not match objective" RiskMedium to_agent
      else if (req.(HR_TenantID) != "") && (req.(HR_TargetTenantID) != "") &&
              (req.(HR_TenantID) != req.(HR_TargetTenantID))
      then fails "cross-tenant handoff is not allowed" RiskHigh
             {["tenant_id" := AString req.(HR_TenantID);
               "target_tenant_id" := AString req.(HR_TargetTenantID)]}
      else if (mode == HandoffFullContext) && negb policy.(HandoffPolicy_AllowFullContext)
      then fails "full_context is disabled" RiskHigh ∅
      else if nonempty req.(HR_ArtifactRefs) && negb policy.(HandoffPolicy_AllowArtifactRead)
      then fails "artifact refs are not allowed" RiskMedium ∅
      else if nonempty req.(HR_MemoryRefs) && negb policy.(HandoffPolicy_AllowMemoryRead)
      then fails "memory refs are not allowed" RiskMedium ∅
      else if nonempty req.(HR_ArtifactRefs) &&
              policy.(HandoffPolicy_RequireApprovalForSensitiveArtifacts)
      then (mkPolicyDecision PolicyDecisionApprovalRequired "artifact handoff requires approval"
              RiskHigh [], None)
      else if (req.(HR_FromAgentID) != req.(HR_ToAgentID)) &&
              policy.(HandoffPolicy_RequireApprovalForCrossAgent)
      then (mkPolicyDecision PolicyDecisionApprovalRequired "cross-agent handoff requires approval"
              RiskMedium [], None)
      else (mkPolicyDecision PolicyDecisionAllowed "handoff allowed" RiskLow [], None)
  end.

Definition EvaluateHandoff (policy : HandoffPolicy) (mode : HandoffMode)
    (artifactRefs : list ArtifactRef) : PolicyDecision * option error :=
  EvaluateRequest (mkHandoffRequest policy mode "" "" "legacy_from_agent" "legacy_to_agent"
    true true artifactRefs []).
End handoffs.

(** ** Prompts *)

Definition TokenLimit (policy : PolicySet) (definition : AgentDefinition) : Z :=
  let limit := definition.(Agent_Runtime).(Limits_MaxPromptTokens) in
  let cap := policy.(PolicySet_PromptPolicy).(PromptPolicy_MaxPromptTokens) in
  if (cap >? 0)%Z && ((limit =? 0)%Z || (cap <? limit)%Z) then cap else limit.

(** ** Releases *)

Record ReleaseRequest := mkReleaseRequest {
  RR_Action : string;
  RR_CurrentStatus : ReleaseStatus;
  RR_CanaryPercent : Z;
  RR_Approved : bool;
  RR_Reason : string;
  RR_Now : Time
}.

(** [now.Hour()] and [strings.ToLower(now.Weekday().String())] of a UTC instant: January 1
    of year 1, the zero time, was a Monday. *)
Definition Hour (t : Time) : Z := ((t / 3600000000000) mod 24)%Z.
Definition weekday_names : list string :=
  ["monday"; "tuesday"; "wednesday"; "thursday"; "friday"; "saturday"; "sunday"].
Definition Weekday (t : Time) : string :=
  nth (Z.to_nat ((t / 86400000000000) mod 7)) weekday_names "".

Definition clampHour (hour : Z) : Z :=
  if (hour <? 0)%Z then 0 else if (hour >? 23)%Z then 23 else hour.

Fixpoint containsDay (days : list string) (current : string) : bool :=
  match days with
  | [] => false
  | day :: rest =>
      let day := ToLower (TrimSpace day) in
      if (day == current) || HasPrefix current day || HasPrefix day (string_take 3 current)
      then true else containsDay rest current
  end.

(** Whether one window of the loop lets [now] through. *)
Definition in_window (now : Time) (window : ReleaseWindow) : bool :=
  if nonempty window.(Window_Days) && negb (containsDay window.(Window_Days) (Weekday now))
  then false
  else
    let start := clampHour window.(Window_StartHourUTC) in
    let stop := clampHour window.(Window_EndHourUTC) in
    let hour := Hour now in
    if (start =? stop)%Z then true
    else if (start <? stop)%Z && (hour >=? start)%Z && (hour <? stop)%Z then true
    else (start >? stop)%Z && ((hour >=? start)%Z || (hour <? stop)%Z).

Definition withinReleaseWindow (windows : list ReleaseWindow) (now : Time) : bool :=
  if (len windows =? 0)%Z then true else existsb (in_window now) windows.

Definition normalizeReleasePolicy (policy : ReleasePolicy) : ReleasePolicy :=
  let policy := if (policy.(ReleasePolicy_DefaultCanaryPercent) =? 0)%Z
                then policy <| ReleasePolicy_DefaultCanaryPercent := 10%Z |> else policy in
  if (policy.(ReleasePolicy_MaxCanaryPercent) =? 0)%Z
  then policy <| ReleasePolicy_MaxCanaryPercent := 100%Z |> else policy.

Definition approvalRequired (reason : string) : PolicyDecision * option error :=
  (mkPolicyDecision PolicyDecisionApprovalRequired reason RiskHigh ["release_policy"],
   Some (ErrRuntime (NewRuntimeError CodeToolApprovalRequired reason ∅))).

Definition release_denied (reason : string) : PolicyDecision * option error :=
  (mkPolicyDecision PolicyDecisionDenied reason RiskHigh ["release_policy"],
   Some (ErrRuntime (NewRuntimeError CodeToolPolicyDenied reason ∅))).

Definition decide_release (policy : ReleasePolicy) (req : ReleaseRequest)
    : PolicyDecision * option error :=
  let decision := mkPolicyDecision PolicyDecisionAllowed "release policy allowed" RiskMedium
                    ["release_policy"] in
  if negb (withinReleaseWindow policy.(ReleasePolicy_AllowedWindowsUTC) req.(RR_Now)) &&
     negb req.(RR_Approved)
  then approvalRequired "release action is outside allowed deployment window"
  else if req.(RR_Action) == "canary" then
    let percent := req.(RR_CanaryPercent) in
    let percent := if (percent =? 0)%Z then policy.(ReleasePolicy_DefaultCanaryPercent)
                   else percent in
    if (percent <=? 0)%Z || (percent >? policy.(ReleasePolicy_MaxCanaryPercent))%Z
    then release_denied ("canary percent must be between 1 and " +:+
           fmt_d policy.(ReleasePolicy_MaxCanaryPercent))
    else if (policy.(ReleasePolicy_MaxCanaryPercentWithoutApproval) >? 0)%Z &&
            (percent >? policy.(ReleasePolicy_MaxCanaryPercentWithoutApproval))%Z &&
            negb req.(RR_Approved)
    then approvalRequired ("canary percent " +:+ fmt_d percent +:+
           " exceeds approval-free limit " +:+
           fmt_d policy.(ReleasePolicy_MaxCanaryPercentWithoutApproval))
    else (decision, None)
  else if req.(RR_Action) == "stable" then
    if policy.(ReleasePolicy_RequireCanaryBeforeStable) && (req.(RR_CurrentStatus) != ReleaseCanary)
    then release_denied "stable release requires a prior canary state"
    else if policy.(ReleasePolicy_RequireApprovalForStable) && negb req.(RR_Approved)
    then approvalRequired "stable release requires approval"
    else (decision, None)
  else if req.(RR_Action) == "rollback" then
    if policy.(ReleasePolicy_RequireRollbackReason) && (TrimSpace req.(RR_Reason) == "")
    then release_denied "rollback reason is required by release policy"
    else (decision, None)
  else release_denied "unknown release action".

Definition EvaluateReleaseAction `{Env} {S} (policy : ReleasePolicy) (req : ReleaseRequest)
    : M S (PolicyDecision * option error) :=
  let policy := normalizeReleasePolicy policy in
  let! now := (if IsZero req.(RR_Now) then time_Now else ret req.(RR_Now)) in
  ret (decide_release policy (mkReleaseRequest req.(RR_Action) req.(RR_CurrentStatus)
    req.(RR_CanaryPercent) req.(RR_Approved) req.(RR_Reason) now)).

(** ** Repairs *)

Definition RepairActionContinue : string := "continue".
Definition RepairActionStop : string := "stop".

Record RepairRequest := mkRepairRequest {
  RepairReq_Policy : PolicySet;
  RepairReq_Tool : ToolDefinition;
  RepairReq_Result : ToolResult;
  RepairReq_FailureSeen : Z
}.

Record RepairDecision := mkRepairDecision { RD_Action : string; RD_Reason : string }.

Definition normalizeRepairPolicy (policy : ToolRepairPolicy) : ToolRepairPolicy :=
  if (policy.(Repair_MaxRepairAttempts) =? 0)%Z
  then policy <| Repair_MaxRepairAttempts := 1%Z |> else policy.

(** The same code as [riskAtLeast], on tool results. *)
Definition repairRiskAtLeast (actual threshold : RiskLevel) : bool :=
  if threshold == "" then false else (rank actual >=? rank threshold)%Z.

Definition containsString (values : list string) (target : string) : bool :=
  mem_string target values.

Definition EvaluateRepair (policy : ToolRepairPolicy) (req : RepairRequest) : RepairDecision :=
  let policy := normalizeRepairPolicy policy in
  let stop := mkRepairDecision RepairActionStop in
  let continue := mkRepairDecision RepairActionContinue in
  let status := req.(RepairReq_Result).(Result_Status) in
  if negb policy.(Repair_Enabled) then stop "tool repair policy disabled"
  else if (status == ToolResultSucceeded) || (status == ToolResultPendingApproval)
  then continue "tool result does not need repair"
  else if (status == ToolResultDenied) && policy.(Repair_StopOnDenied)
  then stop "tool policy denial is not repairable"
  else if repairRiskAtLeast req.(RepairReq_Tool).(Tool_RiskLevel)
            policy.(Repair_StopAtOrAboveRiskLevel)
  then stop "tool risk is above repair threshold"
  else if (policy.(Repair_MaxRepairAttempts) >=? 0)%Z &&
          (req.(RepairReq_FailureSeen) >? policy.(Repair_MaxRepairAttempts))%Z
  then stop "tool repair attempt limit exceeded"
  else if negb policy.(Repair_RequestModelRepairOnFail)
  then stop "model repair is disabled for tool failures"
  else if nonempty policy.(Repair_RepairableErrorCodes) &&
          match req.(RepairReq_Result).(Result_Error) with
          | Some e => negb (containsString policy.(Repair_RepairableErrorCodes) e.(ExecErr_Code))
          | None => false
          end
  then stop "tool error code is not repairable"
  else continue "request model repair for tool failure".

(** ** Facts *)

Lemma contains_spec l x : contains l x = true ↔ x ≠ "" ∧ x ∈ l.
Proof.
  unfold contains. destruct (String.eqb_spec x "") as [->|Hne]; [naive_solver|].
  rewrite mem_string_elem. naive_solver.
Qed.

Lemma nonempty_spec {A} (l : list A) : nonempty l = true ↔ l ≠ [].
Proof. unfold nonempty, len. destruct l; simpl; naive_solver. Qed.

Lemma riskAtLeast_spec a t : riskAtLeast a t = true ↔ t ≠ "" ∧ (rank t ≤ rank a)%Z.
Proof.
  unfold riskAtLeast. destruct (String.eqb_spec t "") as [->|Hne]; [naive_solver|].
  rewrite Z.geb_leb, Z.leb_le. naive_solver.
Qed.

(** An id or group of the tool is on a list. *)
Definition listed (ids groups : list string) (tool : ToolDefinition) : Prop :=
  (Tool_ToolID tool ≠ "" ∧ Tool_ToolID tool ∈ ids) ∨
  (Tool_GroupID tool ≠ "" ∧ Tool_GroupID tool ∈ groups).

(** The agent or the policy rules the tool out, whatever the approval. *)
Definition blocked (req : ToolRequest) : Prop :=
  let tool := TR_Tool req in
  let agent := Agent_Tools (TR_Agent req) in
  let policy := PolicySet_ToolPolicy (TR_Policy req) in
  listed (ToolsCfg_DeniedToolIDs agent) (ToolsCfg_DeniedToolGroupIDs agent) tool ∨
  listed (ToolPolicy_DeniedToolIDs policy) (ToolPolicy_DeniedToolGroupIDs policy) tool ∨
  ((ToolsCfg_AllowedToolIDs agent ≠ [] ∨ ToolsCfg_AllowedToolGroupIDs agent ≠ []) ∧
   ¬ listed (ToolsCfg_AllowedToolIDs agent) (ToolsCfg_AllowedToolGroupIDs agent) tool) ∨
  ((ToolPolicy_AllowedToolIDs policy ≠ [] ∨ ToolPolicy_AllowedToolGroupIDs policy ≠ []) ∧
   ¬ listed (ToolPolicy_AllowedToolIDs policy) (ToolPolicy_AllowedToolGroupIDs policy) tool) ∨
  Tool_Visibility tool = ToolPrivate.

(** The tool's risk level asks for an approval. *)
Definition risky (req : ToolRequest) : Prop :=
  let level := Tool_RiskLevel (TR_Tool req) in
  let threshold := ToolPolicy_RequireApprovalAtRiskLevel (PolicySet_ToolPolicy (TR_Policy req)) in
  level = RiskHigh ∨ level = RiskCritical ∨ (threshold ≠ "" ∧ (rank threshold ≤ rank level)%Z).

Lemma listed_spec ids groups tool :
  listed ids groups tool ↔ contains ids (Tool_ToolID tool) = true ∨
                           contains groups (Tool_GroupID tool) = true.
Proof. unfold listed. by rewrite <- !contains_spec. Qed.

Lemma allowedByAgent_spec binding tool :
  allowedByAgent binding tool = true ↔
  listed (ToolsCfg_AllowedToolIDs binding) (ToolsCfg_AllowedToolGroupIDs binding) tool.
Proof. rewrite listed_spec. unfold allowedByAgent. destruct (contains _ _); naive_solver. Qed.

Lemma allowedByPolicy_spec binding tool :
  allowedByPolicy binding tool = true ↔
  listed (ToolPolicy_AllowedToolIDs binding) (ToolPolicy_AllowedToolGroupIDs binding) tool.
Proof. rewrite listed_spec. unfold allowedByPolicy. destruct (contains _ _); naive_solver. Qed.

(** The five tests that deny, and the one that asks for an approval. *)
Definition deny_tests (req : ToolRequest) : bool :=
  let tool := TR_Tool req in
  let agent := Agent_Tools (TR_Agent req) in
  let policy := PolicySet_ToolPolicy (TR_Policy req) in
  (contains agent.(ToolsCfg_DeniedToolIDs) tool.(Tool_ToolID) ||
   contains policy.(ToolPolicy_DeniedToolIDs) tool.(Tool_ToolID)) ||
  (contains agent.(ToolsCfg_DeniedToolGroupIDs) tool.(Tool_GroupID) ||
   contains policy.(ToolPolicy_DeniedToolGroupIDs) tool.(Tool_GroupID)) ||
  ((nonempty agent.(ToolsCfg_AllowedToolIDs) || nonempty agent.(ToolsCfg_AllowedToolGroupIDs)) &&
   negb (allowedByAgent agent tool)) ||
  ((nonempty policy.(ToolPolicy_AllowedToolIDs) ||
    nonempty policy.(ToolPolicy_AllowedToolGroupIDs)) && negb (allowedByPolicy policy tool)) ||
  (tool.(Tool_Visibility) == ToolPrivate).
Definition risk_test (req : ToolRequest) : bool :=
  (Tool_RiskLevel (TR_Tool req) == RiskHigh) || (Tool_RiskLevel (TR_Tool req) == RiskCritical) ||
  riskAtLeast (Tool_RiskLevel (TR_Tool req))
    (ToolPolicy_RequireApprovalAtRiskLevel (PolicySet_ToolPolicy (TR_Policy req))).

Lemma deny_tests_spec req : deny_tests req = true ↔ blocked req.
Proof.
  unfold deny_tests, blocked. cbv zeta.
  rewrite !orb_true_iff, !andb_true_iff, !orb_true_iff, !negb_true_iff, !nonempty_spec.
  rewrite <- !not_true_iff_false, allowedByAgent_spec, allowedByPolicy_spec, String.eqb_eq.
  unfold listed. rewrite <- !contains_spec. tauto.
Qed.

Lemma risk_test_spec req : risk_test req = true ↔ risky req.
Proof.
  unfold risk_test, risky. cbv zeta.
  rewrite !orb_true_iff, !String.eqb_eq, riskAtLeast_spec. tauto.
Qed.

Lemma evaluate_decision req :
  PD_Decision (evaluate req) =
    if deny_tests req then PolicyDecisionDenied
    else if negb (TR_Approved req) && risk_test req then PolicyDecisionApprovalRequired
    else PolicyDecisionAllowed.
Proof.
  unfold evaluate, deny_tests, risk_test. cbv zeta.
  do 5 (match goal with |- PD_Decision (if ?b then _ else _) = _ => destruct b; simpl; [done|] end).
  by destruct (_ && _).
Qed.

(** The tool policy, decided completely.  A tool is denied exactly when the agent or the
    policy rules it out: it or its group is on a deny list, there is an allow list that
    neither it nor its group is on, or it is private; no approval changes that.
    Otherwise an approval is asked for exactly when the risk level is high, critical or
    at least the policy's threshold and none has been given; and in the remaining cases
    the tool is allowed. *)
Theorem tool_policy_decision req :
  (PD_Decision (evaluate req) = PolicyDecisionDenied ↔ blocked req) ∧
  (PD_Decision (evaluate req) = PolicyDecisionApprovalRequired ↔
     ¬ blocked req ∧ risky req ∧ TR_Approved req = false) ∧
  (PD_Decision (evaluate req) = PolicyDecisionAllowed ↔
     ¬ blocked req ∧ (TR_Approved req = true ∨ ¬ risky req)).
Proof.
  rewrite evaluate_decision, <- deny_tests_spec, <- risk_test_spec.
  destruct (deny_tests req), (TR_Approved req), (risk_test req); simpl;
    repeat split; intros; try done; try tauto; intuition congruence.
Qed.

(** ** The audit trail of a tool decision *)

Definition tool_record (req : ToolRequest) (action : string) (id : string) (at_ : Time)
    (decision : PolicyDecision) : AuditEvent :=
  zeroAuditEvent
    <| Audit_AuditID := id |> <| Audit_TenantID := TR_TenantID req |>
    <| Audit_ActorID := TR_ActorID req |> <| Audit_ActorType := TR_ActorType req |>
    <| Audit_Action := action |> <| Audit_ResourceType := "tool" |>
    <| Audit_ResourceID := Tool_ToolID (TR_Tool req) |>
    <| Audit_Decision := PD_Decision decision |> <| Audit_Reason := PD_Reason decision |>
    <| Audit_TraceID := TR_TraceID req |> <| Audit_TaskID := Call_TaskID (TR_Call req) |>
    <| Audit_RunID := Call_RunID (TR_Call req) |> <| Audit_CreatedAt := at_ |>.

Lemma tool_audit_run `{Env} {S} req action decision w (s : S) log :
  w_audit w = Some log →
  ∃ w' id at_, tool_audit req action decision w s = (Ok tt, w', s) ∧
    w_audit w' = Some (log ++ [tool_record req action id at_ decision]).
Proof.
  intros Hlog. unfold tool_audit, with_audit. rewrite Hlog.
  destruct (effect_only_idgen "audit" w s) as (id & w1 & Eid).
  assert (Hid : id ≠ "" ∧ w_audit w1 = Some log) by (unfold idgen_New, lift_env in Eid; by simplify_eq).
  rewrite (bind_Ok _ _ _ _ _ _ _ Eid). unfold ignore.
  destruct (audit_Log_run (tool_record req action id 0 decision) w1 s log) as (w' & at_ & E & L);
    [apply Hid|apply Hid|].
  exists w', id, at_. split; [|exact L].
  change (zeroAuditEvent <| Audit_AuditID := _ |> <| Audit_TenantID := _ |>
    <| Audit_ActorID := _ |> <| Audit_ActorType := _ |> <| Audit_Action := _ |>
    <| Audit_ResourceType := _ |> <| Audit_ResourceID := _ |> <| Audit_Decision := _ |>
    <| Audit_Reason := _ |> <| Audit_TraceID := _ |> <| Audit_TaskID := _ |>
    <| Audit_RunID := _ |>) with (tool_record req action id 0 decision).
  by rewrite E.
Qed.

(** The second record of an evaluation, if there is one. *)
Definition second_action (req : ToolRequest) : option string :=
  if PD_Decision (evaluate req) == PolicyDecisionDenied then Some AuditToolPolicyDenied
  else if PD_Decision (evaluate req) == PolicyDecisionApprovalRequired
  then Some AuditToolApprovalRequired
  else if (Tool_RiskLevel (TR_Tool req) == RiskHigh) || (Tool_RiskLevel (TR_Tool req) == RiskCritical)
  then Some AuditToolHighRiskInvoked
  else None.

Definition records_of (req : ToolRequest) (records : list AuditEvent) : Prop :=
  Forall (λ r, Audit_TenantID r = TR_TenantID req ∧ Audit_ActorID r = TR_ActorID req ∧
    Audit_ResourceID r = Tool_ToolID (TR_Tool req) ∧
    Audit_Decision r = PD_Decision (evaluate req) ∧
    Audit_Reason r = PD_Reason (evaluate req)) records.

Lemma tool_records_run `{Env} {S} req action w (s : S) log :
  w_audit w = Some log →
  ∃ w' r, tool_audit req action (evaluate req) w s = (Ok tt, w', s) ∧
    w_audit w' = Some (log ++ [r]) ∧ Audit_Action r = action ∧ records_of req [r].
Proof.
  intros Hlog. destruct (tool_audit_run req action (evaluate req) w s log Hlog)
    as (w' & id & at_ & E & L).
  exists w', (tool_record req action id at_ (evaluate req)). split; [exact E|]. split; [exact L|].
  split; [reflexivity|]. repeat constructor.
Qed.

(** Every evaluation of a tool leaves its trace: it returns the decision, with an error
    exactly when the tool is denied, and appends to the audit log one record of the
    check and a second one for a denial, for an approval that is asked for, or for an
    allowed tool of high or critical risk, and nothing else. *)
Theorem tool_evaluation_audited `{Env} {S} req w (s : S) log :
  w_audit w = Some log →
  ∃ w' records err, Evaluate req w s = (Ok (evaluate req, err), w', s) ∧
    (PD_Decision (evaluate req) = PolicyDecisionDenied ↔ err ≠ None) ∧
    w_audit w' = Some (log ++ records) ∧ records_of req records ∧
    map Audit_Action records =
      "tool.policy_checked" :: match second_action req with Some a => [a] | None => [] end.
Proof.
  intros Hlog. unfold Evaluate, second_action. cbv zeta.
  destruct (tool_records_run req "tool.policy_checked" w s log Hlog) as (w1 & r1 & E1 & L1 & A1 & R1).
  rewrite (bind_Ok _ _ _ _ _ _ _ E1).
  assert (Hsecond : ∀ action (err : option error), ∃ w' records,
    bind (tool_audit req action (evaluate req)) (λ _, ret (evaluate req, err)) w1 s
      = (Ok (evaluate req, err), w', s) ∧
    w_audit w' = Some (log ++ records) ∧ records_of req records ∧
    map Audit_Action records = ["tool.policy_checked"; action]).
  { intros action err.
    destruct (tool_records_run req action w1 s _ L1) as (w2 & r2 & E2 & L2 & A2 & R2).
    exists w2, [r1; r2]. rewrite (bind_Ok _ _ _ _ _ _ _ E2). split; [done|].
    split; [rewrite L2, <- app_assoc; done|].
    split; [by apply (Forall_app_2 _ [r1] [r2])|]. simpl. by rewrite A1, A2. }
  assert (Hd : PD_Decision (evaluate req) ∈
      [PolicyDecisionDenied; PolicyDecisionApprovalRequired; PolicyDecisionAllowed]).
  { rewrite evaluate_decision. destruct (deny_tests req); [set_solver|].
    destruct (negb (TR_Approved req) && risk_test req); set_solver. }
  assert (Hfirst : ∃ w' records,
      ret (evaluate req, None) w1 s = (Ok (evaluate req, None : option error), w', s) ∧
      w_audit w' = Some (log ++ records) ∧ records_of req records ∧
      map Audit_Action records = ["tool.policy_checked"]).
  { exists w1, [r1]. simpl. by rewrite A1. }
  repeat (apply elem_of_cons in Hd as [E|Hd]; [rewrite E; simpl|]); [| | |inversion Hd].
  - destruct (Hsecond AuditToolPolicyDenied (Some (ErrRuntime (NewRuntimeError CodeToolPolicyDenied
      (PD_Reason (evaluate req)) ∅)))) as (w' & rs & Er & L & R & A).
    exists w', rs. eexists. split; [exact Er|]. by repeat split.
  - destruct (Hsecond AuditToolApprovalRequired None) as (w' & rs & Er & L & R & A).
    exists w', rs. eexists. split; [exact Er|]. by repeat split.
  - destruct ((Tool_RiskLevel (TR_Tool req) == RiskHigh) ||
              (Tool_RiskLevel (TR_Tool req) == RiskCritical)).
    + destruct (Hsecond AuditToolHighRiskInvoked None) as (w' & rs & Er & L & R & A).
      exists w', rs. eexists. split; [exact Er|]. by repeat split.
    + destruct Hfirst as (w' & rs & Er & L & R & A).
      exists w', rs. eexists. split; [exact Er|]. by repeat split.
Qed.

Definition test_tool_request : ToolRequest :=
  mkToolRequest "t" "tr" "alice" "user" zeroAgentDefinition zeroPolicySet
    (zeroToolDefinition <| Tool_ToolID := "rm" |> <| Tool_RiskLevel := RiskHigh |>) zeroToolCall false.

Lemma tool_evaluation_audited_witness :
  ∃ w' records err, Evaluate test_tool_request world0 tt
    = (Ok (evaluate test_tool_request, err), w', tt) ∧ err = None ∧
    map Audit_Action records = ["tool.policy_checked"; "tool.approval_required"].
Proof.
  destruct (tool_evaluation_audited test_tool_request world0 tt [] eq_refl)
    as (w' & rs & err & E & He & _ & _ & A).
  exists w', rs, err. split; [exact E|]. split; [|exact A].
  destruct err; [|reflexivity]. exfalso.
  assert (Hd : PD_Decision (evaluate test_tool_request) = PolicyDecisionDenied)
    by (apply He; discriminate).
  vm_compute in Hd. discriminate.
Defined.

(** ** Handoffs *)

(** The mode the request resolves to. *)
Definition resolved_mode (req : HandoffRequest) : HandoffMode :=
  let mode := if HR_Mode req == "" then HandoffPolicy_DefaultMode (HR_Policy req) else HR_Mode req in
  if mode == "" then HandoffHybrid else mode.

(** What the policy lets an agent hand over, to whom. *)
Definition handoff_permitted (req : HandoffRequest) : Prop :=
  HandoffMode_Validate (resolved_mode req) = None ∧
  HR_FromAgentID req ≠ "" ∧ HR_ToAgentID req ≠ "" ∧
  HR_ToAgentExists req = true ∧ HR_CapabilityMatched req = true ∧
  (HR_TenantID req = "" ∨ HR_TargetTenantID req = "" ∨ HR_TenantID req = HR_TargetTenantID req) ∧
  (resolved_mode req = HandoffFullContext → HandoffPolicy_AllowFullContext (HR_Policy req) = true) ∧
  (HR_ArtifactRefs req ≠ [] → HandoffPolicy_AllowArtifactRead (HR_Policy req) = true) ∧
  (HR_MemoryRefs req ≠ [] → HandoffPolicy_AllowMemoryRead (HR_Policy req) = true).

Definition handoff_needs_approval (req : HandoffRequest) : Prop :=
  (HR_ArtifactRefs req ≠ [] ∧
   HandoffPolicy_RequireApprovalForSensitiveArtifacts (HR_Policy req) = true) ∨
  (HR_FromAgentID req ≠ HR_ToAgentID req ∧
   HandoffPolicy_RequireApprovalForCrossAgent (HR_Policy req) = true).

Lemma nonempty_false {A} (l : list A) : nonempty l = false ↔ l = [].
Proof. unfold nonempty, len. destruct l; simpl; naive_solver. Qed.

(** Turns boolean tests of the evaluators into propositions. *)
Ltac reflect_tests :=
  repeat match goal with
  | H : _ && _ = true |- _ => apply andb_true_iff in H as [? ?]
  | H : _ && _ = false |- _ => apply andb_false_iff in H
  | H : _ || _ = true |- _ => apply orb_true_iff in H
  | H : _ || _ = false |- _ => apply orb_false_iff in H as [? ?]
  | H : negb _ = true |- _ => apply negb_true_iff in H
  | H : negb _ = false |- _ => apply negb_false_iff in H
  | H : (_ == _) = true |- _ => apply String.eqb_eq in H
  | H : (_ == _) = false |- _ => apply String.eqb_neq in H
  end.

(** A decision on a handoff that is permitted when [P] and needs an approval when [A]. *)
Definition handed (d : PolicyDecision * option error) (P A : Prop) : Prop :=
  (PD_Decision d.1 = PolicyDecisionDenied ↔ ¬ P) ∧ (d.2 = None ↔ P) ∧
  (PD_Decision d.1 = PolicyDecisionApprovalRequired ↔ P ∧ A) ∧
  (PD_Decision d.1 = PolicyDecisionAllowed ↔ P ∧ ¬ A).

Lemma handed_denied reason risk err (P A : Prop) :
  ¬ P → handed (handoff_denied reason risk, Some err) P A.
Proof. intros HP. split; [|split; [|split]]; simpl; split; intros; try done; tauto. Qed.
Lemma handed_approval reason risk ids (P A : Prop) :
  P → A → handed (mkPolicyDecision PolicyDecisionApprovalRequired reason risk ids, None) P A.
Proof. intros HP HA. split; [|split; [|split]]; simpl; split; intros; try done; tauto. Qed.
Lemma handed_allowed reason risk ids (P A : Prop) :
  P → ¬ A → handed (mkPolicyDecision PolicyDecisionAllowed reason risk ids, None) P A.
Proof. intros HP HA. split; [|split; [|split]]; simpl; split; intros; try done; tauto. Qed.
Lemma handed_if (b : bool) d1 d2 (P A : Prop) :
  (b = true → handed d1 P A) → (b = false → handed d2 P A) → handed (if b then d1 else d2) P A.
Proof. destruct b; auto. Qed.

(** The two tests for an approval. *)
Lemma handoff_needs_approval_spec req :
  handoff_needs_approval req ↔
    (nonempty (HR_ArtifactRefs req) &&
       HandoffPolicy_RequireApprovalForSensitiveArtifacts (HR_Policy req) = true) ∨
    ((HR_FromAgentID req != HR_ToAgentID req) &&
       HandoffPolicy_RequireApprovalForCrossAgent (HR_Policy req) = true).
Proof.
  unfold handoff_needs_approval. by rewrite !andb_true_iff, nonempty_spec, negb_true_iff, String.eqb_neq.
Qed.

(** The next test of the evaluator denies when it holds. *)
Ltac next_test :=
  apply handed_if; intros ?; [apply handed_denied; unfold handoff_permitted; reflect_tests;
    repeat match goal with H : nonempty _ = true |- _ => apply nonempty_spec in H end;
    intuition congruence|].

Lemma handoff_decided Error req :
  handed (EvaluateRequest Error req) (handoff_permitted req) (handoff_needs_approval req).
Proof.
  unfold EvaluateRequest. fold (resolved_mode req). cbv zeta.
  destruct (HandoffMode_Validate (resolved_mode req)) eqn:Hmode.
  { apply handed_denied. intros [? _]. congruence. }
  do 8 next_test.
  assert (Hp : handoff_permitted req).
  { unfold handoff_permitted. reflect_tests. rewrite !nonempty_false in *.
    rewrite !andb_false_iff, !negb_false_iff, !String.eqb_eq, !String.eqb_neq in *. intuition congruence. }
  apply handed_if; intros Ha.
  { apply handed_approval; [done|]. apply handoff_needs_approval_spec. by left. }
  apply handed_if; intros Hb.
  { apply handed_approval; [done|]. apply handoff_needs_approval_spec. by right. }
  apply handed_allowed; [done|]. rewrite handoff_needs_approval_spec, Ha, Hb. intuition congruence.
Qed.

(** The handoff policy, decided completely.  A handoff is denied, with an error, exactly
    when it is not permitted: its mode is unknown, an agent is missing or unsuitable, it
    crosses tenants, or it carries context, artifacts or memories that the policy does
    not open; otherwise there is no error, and it is allowed unless sensitive artifacts
    or the crossing of agents ask for an approval. *)
Theorem handoff_policy_decision Error req :
  let d := EvaluateRequest Error req in
  (PD_Decision d.1 = PolicyDecisionDenied ↔ ¬ handoff_permitted req) ∧
  (d.2 = None ↔ handoff_permitted req) ∧
  (PD_Decision d.1 = PolicyDecisionApprovalRequired ↔
     handoff_permitted req ∧ handoff_needs_approval req) ∧
  (PD_Decision d.1 = PolicyDecisionAllowed ↔
     handoff_permitted req ∧ ¬ handoff_needs_approval req).
Proof. exact (handoff_decided Error req). Qed.

(** ** Releases *)

(** The percentage a canary request asks for, and the largest one, after defaults. *)
Definition canary_percent (policy : ReleasePolicy) (req : ReleaseRequest) : Z :=
  if (RR_CanaryPercent req =? 0)%Z
  then if (ReleasePolicy_DefaultCanaryPercent policy =? 0)%Z then 10
       else ReleasePolicy_DefaultCanaryPercent policy
  else RR_CanaryPercent req.
Definition canary_max (policy : ReleasePolicy) : Z :=
  if (ReleasePolicy_MaxCanaryPercent policy =? 0)%Z then 100 else ReleasePolicy_MaxCanaryPercent policy.

Definition release_permitted (policy : ReleasePolicy) (req : ReleaseRequest) : Prop :=
  (withinReleaseWindow (ReleasePolicy_AllowedWindowsUTC policy) (RR_Now req) = true ∨
   RR_Approved req = true) ∧
  ((RR_Action req = "canary" ∧
    (1 ≤ canary_percent policy req ≤ canary_max policy)%Z ∧
    ((ReleasePolicy_MaxCanaryPercentWithoutApproval policy ≤ 0)%Z ∨
     (canary_percent policy req ≤ ReleasePolicy_MaxCanaryPercentWithoutApproval policy)%Z ∨
     RR_Approved req = true)) ∨
   (RR_Action req = "stable" ∧
    (ReleasePolicy_RequireCanaryBeforeStable policy = true → RR_CurrentStatus req = ReleaseCanary) ∧
    (ReleasePolicy_RequireApprovalForStable policy = true → RR_Approved req = true)) ∨
   (RR_Action req = "rollback" ∧
    (ReleasePolicy_RequireRollbackReason policy = true → TrimSpace (RR_Reason req) ≠ ""))).

Lemma normalizeReleasePolicy_fields policy :
  let p := normalizeReleasePolicy policy in
  ReleasePolicy_MaxCanaryPercent p = canary_max policy ∧
  (∀ req, (if (RR_CanaryPercent req =? 0)%Z then ReleasePolicy_DefaultCanaryPercent p
           else RR_CanaryPercent req) = canary_percent policy req) ∧
  ReleasePolicy_RequireRollbackReason p = ReleasePolicy_RequireRollbackReason policy ∧
  ReleasePolicy_MaxCanaryPercentWithoutApproval p =
    ReleasePolicy_MaxCanaryPercentWithoutApproval policy ∧
  ReleasePolicy_RequireApprovalForStable p = ReleasePolicy_RequireApprovalForStable policy ∧
  ReleasePolicy_RequireCanaryBeforeStable p = ReleasePolicy_RequireCanaryBeforeStable policy ∧
  ReleasePolicy_AllowedWindowsUTC p = ReleasePolicy_AllowedWindowsUTC policy.
Proof.
  unfold normalizeReleasePolicy, canary_max, canary_percent. cbv zeta.
  destruct (ReleasePolicy_DefaultCanaryPercent policy =? 0)%Z; simpl;
    destruct (ReleasePolicy_MaxCanaryPercent policy =? 0)%Z; simpl; done.
Qed.

(** The outcome of a release: no error exactly when the decision is to allow. *)
Definition decides (d : PolicyDecision * option error) (P : Prop) : Prop :=
  (d.2 = None ↔ P) ∧ (PD_Decision d.1 = PolicyDecisionAllowed ↔ P).

Lemma decides_denied r (P : Prop) : ¬ P → decides (release_denied r) P.
Proof. intros HP. split; simpl; split; intros; try done; tauto. Qed.
Lemma decides_approval r (P : Prop) : ¬ P → decides (approvalRequired r) P.
Proof. intros HP. split; simpl; split; intros; try done; tauto. Qed.
Lemma decides_allowed r risk ids (P : Prop) :
  P → decides (mkPolicyDecision PolicyDecisionAllowed r risk ids, None) P.
Proof. intros HP. by split. Qed.

(** A test that refuses: the rest of the decision is taken when it fails. *)
Lemma decides_if (b : bool) d1 d2 (P : Prop) :
  (b = true → decides d1 P) → (b = false → decides d2 P) → decides (if b then d1 else d2) P.
Proof. destruct b; auto. Qed.

(** Whether an approval stands in for the conditions that ask for one. *)
Definition in_time (policy : ReleasePolicy) (req : ReleaseRequest) : Prop :=
  withinReleaseWindow (ReleasePolicy_AllowedWindowsUTC policy) (RR_Now req) = true ∨
  RR_Approved req = true.

Lemma release_permitted_time policy req : release_permitted policy req → in_time policy req.
Proof. intros [H _]. exact H. Qed.

Ltac go_tests :=
  repeat match goal with
  | H : (_ && _)%bool = true |- _ => apply andb_true_iff in H; destruct H
  | H : (_ || _)%bool = false |- _ => apply orb_false_iff in H; destruct H
  | H : (_ && _)%bool = false |- _ => apply andb_false_iff in H
  | H : (_ || _)%bool = true |- _ => apply orb_true_iff in H
  | H : negb _ = true |- _ => apply negb_true_iff in H
  | H : negb _ = false |- _ => apply negb_false_iff in H
  | H : (_ == _) = true |- _ => apply String.eqb_eq in H
  | H : (_ == _) = false |- _ => apply String.eqb_neq in H
  | H : _ ∨ _ |- _ => destruct H
  | H : (_ <=? _)%Z = true |- _ => apply Z.leb_le in H
  | H : (_ <=? _)%Z = false |- _ => apply Z.leb_gt in H
  | H : context [(_ >? _)%Z] |- _ => rewrite Z.gtb_ltb in H
  | H : (_ <? _)%Z = true |- _ => apply Z.ltb_lt in H
  | H : (_ <? _)%Z = false |- _ => apply Z.ltb_ge in H
  end.

(** The conditions that the action itself is under. *)
Lemma release_permitted_canary policy req :
  RR_Action req = "canary" → in_time policy req →
  release_permitted policy req ↔
    (1 ≤ canary_percent policy req ≤ canary_max policy)%Z ∧
    ((ReleasePolicy_MaxCanaryPercentWithoutApproval policy ≤ 0)%Z ∨
     (canary_percent policy req ≤ ReleasePolicy_MaxCanaryPercentWithoutApproval policy)%Z ∨
     RR_Approved req = true).
Proof.
  intros E HT. unfold release_permitted. rewrite E. split.
  - intros [_ [(_ & H)|[(H & _)|(H & _)]]]; [exact H|discriminate H|discriminate H].
  - intros H. split; [exact HT|]. left. by split.
Qed.

Lemma release_permitted_stable policy req :
  RR_Action req = "stable" → in_time policy req →
  release_permitted policy req ↔
    (ReleasePolicy_RequireCanaryBeforeStable policy = true → RR_CurrentStatus req = ReleaseCanary) ∧
    (ReleasePolicy_RequireApprovalForStable policy = true → RR_Approved req = true).
Proof.
  intros E HT. unfold release_permitted. rewrite E. split.
  - intros [_ [(H & _)|[(_ & H)|(H & _)]]]; [discriminate H|exact H|discriminate H].
  - intros H. split; [exact HT|]. right; left. by split.
Qed.

Lemma release_permitted_rollback policy req :
  RR_Action req = "rollback" → in_time policy req →
  release_permitted policy req ↔
    (ReleasePolicy_RequireRollbackReason policy = true → TrimSpace (RR_Reason req) ≠ "").
Proof.
  intros E HT. unfold release_permitted. rewrite E. split.
  - intros [_ [(H & _)|[(H & _)|(_ & H)]]]; [discriminate H|discriminate H|exact H].
  - intros H. split; [exact HT|]. right; right. by split.
Qed.

Lemma decide_release_spec policy req :
  decides (decide_release (normalizeReleasePolicy policy) req) (release_permitted policy req).
Proof.
  destruct (normalizeReleasePolicy_fields policy) as (E1 & E2 & E3 & E4 & E5 & E6 & E7).
  unfold decide_release. cbv zeta. rewrite E1, E2, E3, E4, E5, E6, E7. clear E1 E2 E3 E4 E5 E6 E7.
  apply decides_if; intros Ht.
  { apply decides_approval. intros [[H|H] _]; go_tests; congruence. }
  assert (HT : in_time policy req) by (unfold in_time; go_tests; tauto). clear Ht.
  apply decides_if; intros Ea; [apply String.eqb_eq in Ea|].
  { pose proof (release_permitted_canary policy req Ea HT) as HP.
    apply decides_if; intros E1; [apply decides_denied; go_tests; rewrite HP; lia|].
    apply decides_if; intros E2.
    - apply decides_approval. go_tests. rewrite HP. intros (_ & [?|[?|?]]); [lia|lia|congruence].
    - apply decides_allowed. go_tests; rewrite HP; (split; [lia|tauto]). }
  apply decides_if; intros Eb; [apply String.eqb_eq in Eb|].
  { pose proof (release_permitted_stable policy req Eb HT) as HP.
    apply decides_if; intros E1; [apply decides_denied; go_tests; rewrite HP; tauto|].
    apply decides_if; intros E2; [apply decides_approval; go_tests; rewrite HP; intuition congruence|].
    apply decides_allowed. go_tests; rewrite HP; intuition congruence. }
  apply decides_if; intros Ec; [apply String.eqb_eq in Ec|].
  { pose proof (release_permitted_rollback policy req Ec HT) as HP.
    apply decides_if; intros E1; [apply decides_denied; go_tests; rewrite HP; tauto|].
    apply decides_allowed. go_tests; rewrite HP; intuition congruence. }
  apply decides_denied. go_tests. intros [_ [(? & _)|[(? & _)|(? & _)]]]; congruence.
Qed.

(** The request with its missing time filled in. *)
Definition at_time (req : ReleaseRequest) (now : Time) : ReleaseRequest :=
  mkReleaseRequest (RR_Action req) (RR_CurrentStatus req) (RR_CanaryPercent req)
    (RR_Approved req) (RR_Reason req) now.

(** A release goes ahead exactly when the release policy permits it.  At every call of
    EvaluateReleaseAction there is an instant, the one given or else that of the clock, at
    which the decision is taken; there is no error, and the decision is to allow, exactly
    when: the instant is in a deployment window or the release is approved; a canary's
    percentage, defaulted to 10, is between 1 and the maximum, defaulted to 100, and within
    the approval-free limit if there is one or else approved; a stable release comes after
    a canary and with an approval where these are required; a rollback has a reason where
    one is required; and the action is one of these three. *)
Theorem release_allowed_iff `{Env} {S} policy req w (s : S) :
  ∃ w' now d err, EvaluateReleaseAction policy req w s = (Ok (d, err), w', s) ∧
    (RR_Now req ≠ 0%Z → now = RR_Now req ∧ w' = w) ∧
    (err = None ↔ release_permitted policy (at_time req now)) ∧
    (PD_Decision d = PolicyDecisionAllowed ↔ release_permitted policy (at_time req now)).
Proof.
  unfold EvaluateReleaseAction. cbv zeta.
  assert (Hnow : ∃ w' now, (if IsZero (RR_Now req) then time_Now else ret (RR_Now req)) w s
      = (Ok now, w', s) ∧ (RR_Now req ≠ 0%Z → now = RR_Now req ∧ w' = w)).
  { unfold IsZero. destruct (Z.eqb_spec (RR_Now req) 0) as [E|E].
    - unfold time_Now, lift_env. eexists _, _. split; [reflexivity|]. intros []; exact E.
    - by exists w, (RR_Now req). }
  destruct Hnow as (w' & now & E & Hnow). rewrite (bind_Ok _ _ _ _ _ _ _ E).
  destruct (decide_release (normalizeReleasePolicy policy) (at_time req now)) as [d err] eqn:Ed.
  exists w', now, d, err.
  split; [unfold ret; fold (at_time req now); by rewrite Ed|]. split; [exact Hnow|].
  pose proof (decide_release_spec policy (at_time req now)) as [H1 H2]. rewrite Ed in H1, H2.
  by split.
Qed.

(** ** Deployment windows *)

(** The window is open on the day of [now]. *)
Definition day_open (win : ReleaseWindow) (now : Time) : Prop :=
  Window_Days win = [] ∨ containsDay (Window_Days win) (Weekday now) = true.

Lemma clampHour_bounds hour : (0 ≤ clampHour hour ≤ 23)%Z.
Proof.
  unfold clampHour. destruct (Z.ltb_spec hour 0); [lia|].
  rewrite Z.gtb_ltb. destruct (Z.ltb_spec 23 hour); lia.
Qed.

Lemma Hour_bounds now : (0 ≤ Hour now < 24)%Z.
Proof. apply Z.mod_pos_bound. lia. Qed.

Lemma in_window_day now win :
  in_window now win = true → day_open win now.
Proof.
  unfold in_window, day_open. destruct (nonempty (Window_Days win)) eqn:En.
  - destruct (containsDay _ _); [by right|done].
  - left. destruct (Window_Days win); [done|]. by rewrite (proj2 (nonempty_spec _)) in En.
Qed.

Lemma in_window_hours now win :
  day_open win now →
  in_window now win = true ↔
    let start := clampHour (Window_StartHourUTC win) in
    let stop := clampHour (Window_EndHourUTC win) in
    start = stop ∨ ((Hour now - start) mod 24 < (stop - start) mod 24)%Z.
Proof.
  intros Hday. unfold in_window. cbv zeta.
  assert (E : nonempty (Window_Days win) && negb (containsDay (Window_Days win) (Weekday now)) = false).
  { destruct Hday as [E|E]; rewrite E; [done|]. by rewrite andb_false_r. }
  rewrite E. clear E Hday.
  pose proof (clampHour_bounds (Window_StartHourUTC win)).
  pose proof (clampHour_bounds (Window_EndHourUTC win)). pose proof (Hour_bounds now).
  generalize dependent (clampHour (Window_StartHourUTC win)).
  generalize dependent (clampHour (Window_EndHourUTC win)).
  generalize dependent (Hour now). intros h Hh b Hb a Ha.
  assert (Hm : ∀ x, (-24 < x < 24)%Z → (x mod 24 = if x <? 0 then x + 24 else x)%Z).
  { intros x Hx. destruct (Z.ltb_spec x 0); [|apply Z.mod_small; lia].
    rewrite <- (Z.mod_add x 1 24) by lia. apply Z.mod_small. lia. }
  rewrite !Hm by lia. rewrite !Z.geb_leb, !Z.gtb_ltb.
  destruct (Z.eqb_spec a b), (Z.ltb_spec a b), (Z.ltb_spec b a), (Z.leb_spec a h), (Z.ltb_spec h b),
    (Z.ltb_spec (h - a) 0), (Z.ltb_spec (b - a) 0); simpl; split; intros; try done; try lia.
Qed.

(** The deployment windows, as the code reads them.  A release is in time exactly when
    there are no windows, or some window is open on that day of the week and its hours,
    each clamped to 0..23, either coincide or enclose the current hour on the 24-hour clock, from
    the start, included, to the end, excluded, across midnight where the end comes first. *)
Theorem release_window_cyclic windows now :
  withinReleaseWindow windows now = true ↔
  windows = [] ∨ ∃ win, win ∈ windows ∧ day_open win now ∧
    let start := clampHour (Window_StartHourUTC win) in
    let stop := clampHour (Window_EndHourUTC win) in
    start = stop ∨ ((Hour now - start) mod 24 < (stop - start) mod 24)%Z.
Proof.
  unfold withinReleaseWindow. destruct windows as [|w0 ws]; [naive_solver|].
  assert (E : (len (w0 :: ws) =? 0)%Z = false) by (unfold len; simpl; lia). rewrite E.
  rewrite existsb_exists. setoid_rewrite <- list_elem_of_In. split.
  - intros (win & Hin & Hw). right. exists win. pose proof (in_window_day _ _ Hw) as Hd.
    split; [done|]. split; [done|]. by apply in_window_hours.
  - intros [?|(win & Hin & Hd & Hh)]; [done|]. exists win. split; [done|]. by apply in_window_hours.
Qed.

(** The end of the day cannot be said.  A window whose end is 24 or later, meant to run to
    midnight, is closed in the last hour of the day if it starts before 23, and if it
    starts at 23 or later it is open at every hour. *)
Theorem release_window_end_of_day now win :
  day_open win now → (24 ≤ Window_EndHourUTC win)%Z → (0 ≤ Window_StartHourUTC win)%Z →
  ((Window_StartHourUTC win < 23)%Z → Hour now = 23%Z → in_window now win = false) ∧
  ((23 ≤ Window_StartHourUTC win)%Z → in_window now win = true).
Proof.
  intros Hd He Hs. pose proof (in_window_hours now win Hd) as Hw. cbv zeta in Hw.
  assert (Estop : clampHour (Window_EndHourUTC win) = 23%Z).
  { unfold clampHour. rewrite Z.gtb_ltb. destruct (Z.ltb_spec (Window_EndHourUTC win) 0); [lia|].
    destruct (Z.ltb_spec 23 (Window_EndHourUTC win)); lia. }
  assert (Estart : clampHour (Window_StartHourUTC win) = Z.min 23 (Window_StartHourUTC win)).
  { unfold clampHour. rewrite Z.gtb_ltb. destruct (Z.ltb_spec (Window_StartHourUTC win) 0); [lia|].
    destruct (Z.ltb_spec 23 (Window_StartHourUTC win)); lia. }
  rewrite Estop, Estart in Hw. split.
  - intros Hlt Hh. rewrite Hh, Z.min_r in Hw by lia. apply not_true_iff_false. rewrite Hw. lia.
  - intros Hge. apply Hw. left. lia.
Qed.

(** The zero time is in hour 0; 23 hours later is in hour 23. *)
Definition eleven_pm : Time := (23 * 3600000000000)%Z.
Lemma release_window_end_of_day_witness :
  in_window eleven_pm (mkReleaseWindow [] 9 24) = false ∧
  in_window eleven_pm (mkReleaseWindow [] 9 17) = false ∧
  in_window (eleven_pm - 7200000000000)%Z (mkReleaseWindow [] 9 24) = true ∧
  in_window eleven_pm (mkReleaseWindow ["Mon"] 23 24) = true.
Proof.
  split; [|split; [|split]].
  - apply (release_window_end_of_day eleven_pm (mkReleaseWindow [] 9 24)); vm_compute; [by left|done..].
  - vm_compute. reflexivity.
  - vm_compute. reflexivity.
  - apply (release_window_end_of_day eleven_pm (mkReleaseWindow ["Mon"] 23 24));
      vm_compute; [by right|done..].
Defined.

(** ** Repairs of failed tool calls *)

(** The failures that are looked at: the others are not failures. *)
Definition failed (req : RepairRequest) : Prop :=
  Result_Status (RepairReq_Result req) ≠ ToolResultSucceeded ∧
  Result_Status (RepairReq_Result req) ≠ ToolResultPendingApproval.

(** The number of failures after which no repair is asked for; 0 is read as 1, and a
    negative number is no limit. *)
Definition repair_limit (policy : ToolRepairPolicy) : Z :=
  if (Repair_MaxRepairAttempts policy =? 0)%Z then 1 else Repair_MaxRepairAttempts policy.

Definition repairable (policy : ToolRepairPolicy) (req : RepairRequest) : Prop :=
  (Repair_StopOnDenied policy = true → Result_Status (RepairReq_Result req) ≠ ToolResultDenied) ∧
  (Repair_StopAtOrAboveRiskLevel policy = "" ∨
   (rank (Tool_RiskLevel (RepairReq_Tool req)) < rank (Repair_StopAtOrAboveRiskLevel policy))%Z) ∧
  ((repair_limit policy < 0)%Z ∨ (RepairReq_FailureSeen req ≤ repair_limit policy)%Z) ∧
  Repair_RequestModelRepairOnFail policy = true ∧
  (Repair_RepairableErrorCodes policy ≠ [] → ∀ e, Result_Error (RepairReq_Result req) = Some e →
     ExecErr_Code e ∈ Repair_RepairableErrorCodes policy).

(** The outcome of a repair decision. *)
Definition goes_on (d : RepairDecision) (P : Prop) : Prop :=
  (RD_Action d = RepairActionContinue ↔ P) ∧
  (RD_Action d = RepairActionStop ↔ RD_Action d ≠ RepairActionContinue).

Lemma goes_on_stop reason (P : Prop) : ¬ P → goes_on (mkRepairDecision RepairActionStop reason) P.
Proof. intros HP. split; simpl; split; intros; try done; tauto. Qed.
Lemma goes_on_continue reason (P : Prop) :
  P → goes_on (mkRepairDecision RepairActionContinue reason) P.
Proof. intros HP. by split. Qed.
Lemma goes_on_if (b : bool) d1 d2 (P : Prop) :
  (b = true → goes_on d1 P) → (b = false → goes_on d2 P) → goes_on (if b then d1 else d2) P.
Proof. destruct b; auto. Qed.

Lemma repairRiskAtLeast_spec a t :
  repairRiskAtLeast a t = false ↔ t = "" ∨ (rank a < rank t)%Z.
Proof.
  unfold repairRiskAtLeast. destruct (String.eqb_spec t "") as [->|Hne]; [naive_solver|].
  rewrite Z.geb_leb, Z.leb_gt. naive_solver.
Qed.

(** The test on the error codes. *)
Lemma repair_codes_spec (codes : list string) (e : option ToolExecutionError) :
  nonempty codes && match e with
                    | Some e => negb (containsString codes e.(ExecErr_Code))
                    | None => false
                    end = false ↔
  (codes ≠ [] → ∀ e0, e = Some e0 → ExecErr_Code e0 ∈ codes).
Proof.
  rewrite <- (nonempty_spec codes). unfold containsString.
  destruct (nonempty codes); simpl; [|naive_solver].
  destruct e as [e|]; [|naive_solver]. rewrite negb_false_iff, mem_string_elem. naive_solver.
Qed.

(** After a tool call the run goes on exactly when the repair policy is enabled and the call
    did not fail, or its failure is repairable: not a denial that stops, below the risk
    threshold, within the number of attempts, with model repair on, and, where the policy
    lists error codes and the result has one, with a code of the list.  In all other cases
    the decision is to stop. *)
Theorem repair_continues_iff policy req :
  (RD_Action (EvaluateRepair policy req) = RepairActionContinue ↔
     Repair_Enabled policy = true ∧ (failed req → repairable policy req)) ∧
  (RD_Action (EvaluateRepair policy req) = RepairActionStop ↔
     RD_Action (EvaluateRepair policy req) ≠ RepairActionContinue).
Proof.
  assert (HF : let p := normalizeRepairPolicy policy in
    Repair_Enabled p = Repair_Enabled policy ∧ Repair_StopOnDenied p = Repair_StopOnDenied policy ∧
    Repair_StopAtOrAboveRiskLevel p = Repair_StopAtOrAboveRiskLevel policy ∧
    Repair_MaxRepairAttempts p = repair_limit policy ∧
    Repair_RequestModelRepairOnFail p = Repair_RequestModelRepairOnFail policy ∧
    Repair_RepairableErrorCodes p = Repair_RepairableErrorCodes policy).
  { unfold normalizeRepairPolicy, repair_limit. cbv zeta.
    by destruct (Repair_MaxRepairAttempts policy =? 0)%Z. }
  destruct HF as (E1 & E2 & E3 & E4 & E5 & E6).
  fold (goes_on (EvaluateRepair policy req) (Repair_Enabled policy = true ∧ (failed req → repairable policy req))).
  unfold EvaluateRepair. cbv zeta. rewrite E1, E2, E3, E4, E5, E6.
  apply goes_on_if; intros T1; [apply goes_on_stop; go_tests; intros [? _]; congruence|].
  apply goes_on_if; intros T2.
  { apply goes_on_continue. unfold failed. split; [go_tests; congruence|].
    intros [F1 F2]. go_tests; congruence. }
  assert (Hfail : failed req) by (unfold failed; go_tests; by split).
  apply goes_on_if; intros T3.
  { apply goes_on_stop. go_tests. intros [_ Hc]. destruct (Hc Hfail) as (HH & _). by apply HH. }
  apply goes_on_if; intros T4.
  { apply goes_on_stop. intros [_ Hc]. destruct (Hc Hfail) as (_ & HH & _).
    apply repairRiskAtLeast_spec in HH. congruence. }
  apply goes_on_if; intros T5.
  { apply goes_on_stop. rewrite Z.geb_leb in T5. go_tests; intros [_ Hc];
      destruct (Hc Hfail) as (_ & _ & [HH|HH] & _); lia. }
  apply goes_on_if; intros T6.
  { apply goes_on_stop. go_tests; intros [_ Hc]; destruct (Hc Hfail) as (_ & _ & _ & HH & _); congruence. }
  apply goes_on_if; intros T7.
  { apply goes_on_stop. intros [_ Hc]. destruct (Hc Hfail) as (_ & _ & _ & _ & HH).
    apply repair_codes_spec in HH. rewrite HH in T7. discriminate. }
  apply goes_on_continue. split; [by go_tests|]. intros _. unfold repairable.
  split; [intros Hd Hs; rewrite Hd, Hs in T3; discriminate|].
  split; [by apply repairRiskAtLeast_spec|].
  split; [rewrite Z.geb_leb in T5; go_tests; lia|].
  split; [by go_tests|]. by apply repair_codes_spec.
Qed.
