(* ===== verification/Approval.v ===== *)
(** * Approvals: internal/governance/approval/service.go

    The service with all its operations.  Each runs under the service's lock, except for the
    records that [Request] writes after it, which do not touch the state, so each is one step. *)

From S2P Require Import Prelude Contracts GoMonad Storage.
From stdpp Require Import base list strings gmap fin_maps pretty.
From Stdlib Require Import Lia.
Open Scope go_scope.
Open Scope string_scope.
Open Scope list_scope.

Record RequestInput := mkRequestInput {
  RI_TenantID : string;
  RI_ResourceType : string;
  RI_ResourceID : string;
  RI_Action : string;
  RI_RiskLevel : RiskLevel;
  RI_Reason : string;
  RI_RequestedBy : string;
  RI_TraceID : string;
  RI_ExpiresAt : option Time
}.

Record ApprovalFilter := mkApprovalFilter {
  AF_TenantID : string;
  AF_ResourceType : string;
  AF_ResourceID : string;
  AF_Action : string;
  AF_Status : ApprovalStatus;
  AF_TraceID : string
}.

(** The loggers and the clock of the service are in the world. *)
Record Service := mkService { items : gmap string ApprovalRequest }.
#[export] Instance eta_Service : Settable Service := fields! mkService < items >.

Definition NewService : Service := mkService ∅.

Definition approval_matches (filter : ApprovalFilter) (req : ApprovalRequest) : bool :=
  if (filter.(AF_TenantID) != "") && (req.(Approval_TenantID) != filter.(AF_TenantID)) then false else
  if (filter.(AF_ResourceType) != "") && (req.(Approval_ResourceType) != filter.(AF_ResourceType))
  then false else
  if (filter.(AF_ResourceID) != "") && (req.(Approval_ResourceID) != filter.(AF_ResourceID))
  then false else
  if (filter.(AF_Action) != "") && (req.(Approval_Action) != filter.(AF_Action)) then false else
  if (filter.(AF_Status) != "") && (req.(Approval_Status) != filter.(AF_Status)) then false else
  if (filter.(AF_TraceID) != "") && (req.(Approval_TraceID) != filter.(AF_TraceID)) then false else
  true.

Section service.
Context `{Env}.

Definition approval_audit (req : ApprovalRequest) (action actorID decision : string) : M Service unit :=
  with_audit (
    let! id := idgen_New "audit" in
    let! now := now in
    ignore (audit_Log (zeroAuditEvent
      <| Audit_AuditID := id |> <| Audit_TenantID := req.(Approval_TenantID) |>
      <| Audit_ActorID := actorID |> <| Audit_ActorType := "optimizer" |>
      <| Audit_Action := action |> <| Audit_ResourceType := req.(Approval_ResourceType) |>
      <| Audit_ResourceID := req.(Approval_ResourceID) |> <| Audit_Decision := decision |>
      <| Audit_Reason := req.(Approval_Reason) |> <| Audit_TraceID := req.(Approval_TraceID) |>
      <| Audit_CreatedAt := now |>))).

Definition approval_trace (req : ApprovalRequest) (eventType : string) : M Service unit :=
  with_trace (
    if req.(Approval_TraceID) == "" then ret tt else
    let! span := idgen_New "span" in
    let! now := now in
    ignore (trace_Record (zeroTraceEvent
      <| Trace_TraceID := req.(Approval_TraceID) |> <| Trace_TenantID := req.(Approval_TenantID) |>
      <| Trace_SpanID := span |> <| Trace_Type := eventType |>
      <| Trace_Payload :=
           {["approval_id" := AString req.(Approval_ApprovalID);
             "resource_type" := AString req.(Approval_ResourceType);
             "resource_id" := AString req.(Approval_ResourceID);
             "action" := AString req.(Approval_Action);
             "status" := AString req.(Approval_Status);
             "reason" := AString req.(Approval_Reason)]} |>
      <| Trace_CreatedAt := now |>))).

Definition new_request (id : string) (now : Time) (input : RequestInput) : ApprovalRequest :=
  mkApprovalRequest id input.(RI_TenantID) input.(RI_ResourceType) input.(RI_ResourceID)
    input.(RI_Action) input.(RI_RiskLevel) input.(RI_Reason) ApprovalPending
    input.(RI_RequestedBy) "" now None input.(RI_ExpiresAt) input.(RI_TraceID).

Definition Request (input : RequestInput) : M Service ApprovalRequest :=
  if (input.(RI_TenantID) == "") || (input.(RI_ResourceType) == "") ||
     (input.(RI_ResourceID) == "") || (input.(RI_Action) == "")
  then throw (Errorf "approval request requires tenant, resource, and action" [])
  else
    let! now := now in
    let! id := idgen_New "approval" in
    let req := new_request id now input in
    let! s := get in
    do! put (s <| items := <[id := req]> s.(items) |>) in
    do! approval_audit req AuditApprovalRequested req.(Approval_RequestedBy) "pending" in
    do! approval_trace req TraceApprovalRequested in
    ret req.

Definition resolve (tenantID approvalID actorID : string) (status : ApprovalStatus)
    : M Service ApprovalRequest :=
  let! s := get in
  match s.(items) !! approvalID with
  | None => throw (Errorf "approval %s not found" [approvalID])
  | Some req =>
      if req.(Approval_TenantID) != tenantID
      then throw (Errorf "approval tenant does not match caller tenant" [])
      else if req.(Approval_Status) != ApprovalPending
      then throw (Errorf "approval %s is not pending" [approvalID])
      else
        let! now := now in
        let req := req <| Approval_Status := status |> <| Approval_ResolvedBy := actorID |>
                       <| Approval_ResolvedAt := Some now |> in
        do! put (s <| items := <[approvalID := req]> s.(items) |>) in
        do! approval_audit req AuditApprovalResolved actorID status in
        do! approval_trace req TraceApprovalResolved in
        ret req
  end.

Definition Approve (tenantID approvalID actorID : string) : M Service ApprovalRequest :=
  resolve tenantID approvalID actorID ApprovalApproved.

Definition Reject (tenantID approvalID actorID : string) : M Service ApprovalRequest :=
  resolve tenantID approvalID actorID ApprovalRejected.

(** The clock is read only for an approval that has an expiry. *)
Definition validate (req : ApprovalRequest) (tenantID resourceType resourceID action : string)
    : M Service unit :=
  if req.(Approval_TenantID) != tenantID
  then throw (Errorf "approval tenant does not match caller tenant" [])
  else if (req.(Approval_ResourceType) != resourceType) ||
          (req.(Approval_ResourceID) != resourceID) || (req.(Approval_Action) != action)
  then throw (Errorf "approval does not match requested resource/action" [])
  else if req.(Approval_Status) != ApprovalApproved
  then throw (Errorf "approval %s is not approved" [req.(Approval_ApprovalID)])
  else match req.(Approval_ExpiresAt) with
       | Some expires =>
           let! now := now in
           if After now expires
           then throw (Errorf "approval %s is expired" [req.(Approval_ApprovalID)])
           else ret tt
       | None => ret tt
       end.

Definition Consume (tenantID approvalID resourceType resourceID action actorID : string)
    : M Service ApprovalRequest :=
  let! s := get in
  match s.(items) !! approvalID with
  | None => throw (Errorf "approval %s not found" [approvalID])
  | Some req =>
      do! validate req tenantID resourceType resourceID action in
      let! now := now in
      let req := req <| Approval_Status := ApprovalUsed |> <| Approval_ResolvedBy := actorID |>
                     <| Approval_ResolvedAt := Some now |> in
      do! put (s <| items := <[approvalID := req]> s.(items) |>) in
      do! approval_audit req AuditApprovalResolved actorID req.(Approval_Status) in
      do! approval_trace req TraceApprovalResolved in
      ret req
  end.

Definition Validate (tenantID approvalID resourceType resourceID action : string)
    : M Service ApprovalRequest :=
  let! s := get in
  match s.(items) !! approvalID with
  | None => throw (Errorf "approval %s not found" [approvalID])
  | Some req =>
      do! validate req tenantID resourceType resourceID action in
      ret req
  end.

(** A missing approval comes with the zero request. *)
Definition GetApproval (approvalID : string) : M Service (ApprovalRequest * bool) :=
  let! s := get in
  ret (match s.(items) !! approvalID with
       | Some req => (req, true)
       | None => (zeroApprovalRequest, false)
       end).

Definition ListApprovals (filter : ApprovalFilter) : M Service (list ApprovalRequest) :=
  let! s := get in
  let! entries := range_map s.(items) in
  ret (List.filter (approval_matches filter) (map snd entries)).
End service.

(** ** Runs of the operations *)

(** A request with its resolution. *)
Definition resolved (req : ApprovalRequest) (status : ApprovalStatus) (actorID : string)
    (at_ : Time) : ApprovalRequest :=
  req <| Approval_Status := status |> <| Approval_ResolvedBy := actorID |>
      <| Approval_ResolvedAt := Some at_ |>.

(** The store with one request replaced or added. *)
Definition put_item (s : Service) (id : string) (req : ApprovalRequest) : Service :=
  s <| items := <[id := req]> s.(items) |>.

(** An approval that may be consumed for an action at an instant. *)
Definition consumable (req : ApprovalRequest) (tenantID resourceType resourceID action : string)
    (now : Time) : Prop :=
  Approval_TenantID req = tenantID ∧ Approval_ResourceType req = resourceType ∧
  Approval_ResourceID req = resourceID ∧ Approval_Action req = action ∧
  Approval_Status req = ApprovalApproved ∧
  (∀ expires, Approval_ExpiresAt req = Some expires → (now ≤ expires)%Z).

Section runs.
Context `{Env}.

Lemma effect_only_approval_audit req a b c : effect_only (approval_audit req a b c).
Proof. unfold approval_audit. auto 10 with effects. Qed.
Lemma effect_only_approval_trace req a : effect_only (approval_trace req a).
Proof. unfold approval_trace. auto 10 with effects. Qed.

(** The records that end an operation. *)
Lemma notify_run req a actor d e w s :
  ∃ w', (do! approval_audit req a actor d in do! approval_trace req e in ret req) w s
    = (Ok req, w', s).
Proof.
  destruct (effect_only_approval_audit req a actor d w s) as ([] & w1 & E1).
  rewrite (bind_Ok _ _ _ _ _ _ _ E1).
  destruct (effect_only_approval_trace req e w1 s) as ([] & w2 & E2).
  rewrite (bind_Ok _ _ _ _ _ _ _ E2). by exists w2.
Qed.

Lemma Request_run input w s :
  (∃ e, Request input w s = (Err e, w, s)) ∨
  (∃ req w', Request input w s = (Ok req, w', put_item s (Approval_ApprovalID req) req) ∧
     Approval_ApprovalID req = "approval" +:+ "_" +:+ env_rand (w_draws w) ∧
     Approval_Status req = ApprovalPending ∧ (w_draws w < w_draws w')%nat ∧
     Approval_TenantID req = RI_TenantID input ∧ Approval_ResourceType req = RI_ResourceType input ∧
     Approval_ResourceID req = RI_ResourceID input ∧ Approval_Action req = RI_Action input ∧
     Approval_ExpiresAt req = RI_ExpiresAt input).
Proof.
  unfold Request. destruct (_ || _); [left; by eexists|]. right.
  rewrite bind_now, (bind_Ok _ _ _ _ _ _ _ (idgen_New_run "approval" _ s)). cbv zeta.
  rewrite bind_get, bind_put.
  match goal with |- context [new_request ?i ?t input] => set (req := new_request i t input) end.
  change (s <| items := <[_ := req]> (items s) |>) with (put_item s (Approval_ApprovalID req) req).
  match goal with |- context [bind (approval_audit ?r ?a ?b ?c) ?k ?w ?s'] =>
    destruct (notify_run r a b c TraceApprovalRequested w s') as (w' & E);
    assert (Hf : forward (bind (approval_audit r a b c) k))
      by (unfold approval_audit, approval_trace; auto 10 with forward);
    pose proof (Hf _ _ _ _ _ E) as Hd end.
  rewrite E. exists req, w'. split; [reflexivity|]. split; [done|]. split; [done|].
  split; [cbn in Hd; lia|]. done.
Qed.

Lemma resolve_run tenantID id actorID status w s :
  match items s !! id with
  | Some req =>
      if (Approval_TenantID req == tenantID) && (Approval_Status req == ApprovalPending)
      then ∃ w' at_, resolve tenantID id actorID status w s
             = (Ok (resolved req status actorID at_), w', put_item s id (resolved req status actorID at_))
      else ∃ e, resolve tenantID id actorID status w s = (Err e, w, s)
  | None => ∃ e, resolve tenantID id actorID status w s = (Err e, w, s)
  end.
Proof.
  unfold resolve. rewrite bind_get. destruct (items s !! id) as [req|]; [|by eexists].
  destruct (Approval_TenantID req == tenantID); cbn [negb andb]; [|by eexists].
  destruct (Approval_Status req == ApprovalPending); cbn [negb]; [|by eexists].
  rewrite bind_now. cbv zeta. fold (resolved req status actorID (env_clock (w_reads w))).
  rewrite bind_put. fold (put_item s id (resolved req status actorID (env_clock (w_reads w)))).
  match goal with |- context [bind (approval_audit ?r ?a ?b ?c) ?k ?w ?s'] =>
    destruct (notify_run r a b c TraceApprovalResolved w s') as (w' & E) end.
  exists w', (env_clock (w_reads w)). exact E.
Qed.

Lemma validate_run req t rt rid a w s :
  (consumable req t rt rid a (env_clock (w_reads w)) ∧
     ∃ w', validate req t rt rid a w s = (Ok tt, w', s)) ∨
  (¬ consumable req t rt rid a (env_clock (w_reads w)) ∧
     ∃ e w', validate req t rt rid a w s = (Err e, w', s)).
Proof.
  unfold validate, consumable.
  destruct (String.eqb_spec (Approval_TenantID req) t); cbn [negb]; [|right; split; [tauto|by eexists _, _]].
  destruct (String.eqb_spec (Approval_ResourceType req) rt); cbn [negb orb];
    [|right; split; [tauto|by eexists _, _]].
  destruct (String.eqb_spec (Approval_ResourceID req) rid); cbn [negb orb];
    [|right; split; [tauto|by eexists _, _]].
  destruct (String.eqb_spec (Approval_Action req) a); cbn [negb orb];
    [|right; split; [tauto|by eexists _, _]].
  destruct (String.eqb_spec (Approval_Status req) ApprovalApproved); cbn [negb orb];
    [|right; split; [tauto|by eexists _, _]].
  destruct (Approval_ExpiresAt req) as [x|].
  - unfold bind, now, time_Now, lift_env, After. destruct (Z.ltb_spec x (env_clock (w_reads w))).
    + right. split; [|by eexists _, _]. intros (_ & _ & _ & _ & _ & Hx). specialize (Hx x eq_refl). lia.
    + left. split; [|by eexists]. repeat split; auto. intros y [= <-]. done.
  - left. split; [|by eexists]. by repeat split.
Qed.

Lemma Consume_run tenantID id rt rid a actorID w s :
  (∃ req w' at_, items s !! id = Some req ∧
     consumable req tenantID rt rid a (env_clock (w_reads w)) ∧
     Consume tenantID id rt rid a actorID w s
       = (Ok (resolved req ApprovalUsed actorID at_), w',
          put_item s id (resolved req ApprovalUsed actorID at_))) ∨
  ((∀ req, items s !! id = Some req → ¬ consumable req tenantID rt rid a (env_clock (w_reads w))) ∧
   ∃ e w', Consume tenantID id rt rid a actorID w s = (Err e, w', s)).
Proof.
  unfold Consume. rewrite bind_get. destruct (items s !! id) as [req|].
  2: { right. split; [done|]. by eexists _, _. }
  destruct (validate_run req tenantID rt rid a w s) as [[Hc [w1 E]]|[Hc (e & w1 & E)]].
  - left. rewrite (bind_Ok _ _ _ _ _ _ _ E).
    rewrite bind_now. cbv zeta. fold (resolved req ApprovalUsed actorID (env_clock (w_reads w1))).
    rewrite bind_put. fold (put_item s id (resolved req ApprovalUsed actorID (env_clock (w_reads w1)))).
    match goal with |- context [bind (approval_audit ?r ?a ?b ?c) ?k ?w ?s'] =>
      destruct (notify_run r a b c TraceApprovalResolved w s') as (w' & E') end.
    exists req, w', (env_clock (w_reads w1)). split; [done|]. split; [done|]. exact E'.
  - right. split; [by intros ? [= <-]|]. rewrite (bind_Err _ _ _ _ _ _ _ E). by eexists _, _.
Qed.
End runs.

(** ** Histories

    The operations that change the state, called in any order by anybody, and what the
    successful ones did. *)
Inductive call :=
| CallRequest (input : RequestInput)
| CallApprove (tenantID approvalID actorID : string)
| CallReject (tenantID approvalID actorID : string)
| CallConsume (tenantID approvalID resourceType resourceID action actorID : string).

Inductive deed :=
| Requested (req : ApprovalRequest)
| Approved (tenantID approvalID : string)
| Rejected (tenantID approvalID : string)
| Consumed (tenantID approvalID resourceType resourceID action : string).

Definition run_call `{Env} (c : call) : M Service deed :=
  match c with
  | CallRequest input => let! req := Request input in ret (Requested req)
  | CallApprove t id actor => let! _ := Approve t id actor in ret (Approved t id)
  | CallReject t id actor => let! _ := Reject t id actor in ret (Rejected t id)
  | CallConsume t id rt rid a actor =>
      let! _ := Consume t id rt rid a actor in ret (Consumed t id rt rid a)
  end.

(** Between the calls the rest of the program may use the clock and the random source. *)
Inductive history `{Env} : list deed → World → Service → Prop :=
| history_new w : history [] w NewService
| history_call h w s c r w' s' :
    history h w s → run_call c w s = (r, w', s') →
    history (h ++ match r with Ok d => [d] | _ => [] end) w' s'
| history_world h w w' s : history h w s → (w_draws w ≤ w_draws w')%nat → history h w' s.

Definition about (id : string) (d : deed) : bool :=
  match d with
  | Requested req => Approval_ApprovalID req == id
  | Approved _ i | Rejected _ i | Consumed _ i _ _ _ => i == id
  end.

(** What has been done with an approval, and how the service has it. *)
Inductive protocol (id : string) : list deed → option ApprovalRequest → Prop :=
| protocol_none : protocol id [] None
| protocol_pending req :
    Approval_ApprovalID req = id → Approval_Status req = ApprovalPending →
    protocol id [Requested req] (Some req)
| protocol_rejected req actor at_ :
    Approval_ApprovalID req = id →
    protocol id [Requested req; Rejected (Approval_TenantID req) id]
      (Some (resolved req ApprovalRejected actor at_))
| protocol_approved req actor at_ :
    Approval_ApprovalID req = id →
    protocol id [Requested req; Approved (Approval_TenantID req) id]
      (Some (resolved req ApprovalApproved actor at_))
| protocol_used req actor at_ actor' at' :
    Approval_ApprovalID req = id →
    protocol id [Requested req; Approved (Approval_TenantID req) id;
                 Consumed (Approval_TenantID req) id (Approval_ResourceType req)
                   (Approval_ResourceID req) (Approval_Action req)]
      (Some (resolved (resolved req ApprovalApproved actor at_) ApprovalUsed actor' at')).

Lemma protocol_resolve id l req (d : string → string → deed) status actor at_ :
  (d, status) ∈ [(Approved, ApprovalApproved); (Rejected, ApprovalRejected)] →
  protocol id l (Some req) → Approval_Status req = ApprovalPending →
  protocol id (l ++ [d (Approval_TenantID req) id]) (Some (resolved req status actor at_)).
Proof.
  intros Hd Hp Hs. inversion Hp; subst; try discriminate Hs.
  repeat (apply elem_of_cons in Hd as [E|Hd]; [simplify_eq|]); [by constructor..|inversion Hd].
Qed.

Lemma protocol_consume id l req t rt rid a now actor at_ :
  protocol id l (Some req) → consumable req t rt rid a now →
  protocol id (l ++ [Consumed t id rt rid a]) (Some (resolved req ApprovalUsed actor at_)).
Proof.
  intros Hp (Ht & Hrt & Hrid & Ha & Hs & _). inversion Hp; subst; try discriminate Hs.
  - match goal with E : Approval_Status _ = ApprovalPending |- _ => rewrite E in Hs; discriminate Hs end.
  - simpl. constructor. reflexivity.
Qed.

(** The invariant: every approval follows the protocol, and its id has been drawn. *)
Definition follows `{Env} (h : list deed) (w : World) (s : Service) : Prop :=
  (∀ id, protocol id (List.filter (about id) h) (items s !! id)) ∧
  (∀ id req, items s !! id = Some req → ∃ n, (n < w_draws w)%nat ∧
     id = "approval" +:+ "_" +:+ env_rand n).

(** One more thing done with the approval [id]. *)
Lemma follows_put `{Env} h w s id d req w' :
  follows h w s → (w_draws w ≤ w_draws w')%nat → (∀ i, about i d = (id == i)) →
  protocol id (List.filter (about id) h ++ [d]) (Some req) →
  (∃ n, (n < w_draws w')%nat ∧ id = "approval" +:+ "_" +:+ env_rand n) →
  follows (h ++ [d]) w' (put_item s id req).
Proof.
  intros [Hp Hid] Hw Hd Hnew Hn. split.
  - intros i. rewrite List.filter_app. simpl. rewrite Hd.
    destruct (String.eqb_spec id i) as [<-|Hne].
    + by rewrite lookup_insert_eq.
    + rewrite lookup_insert_ne, app_nil_r by done. apply Hp.
  - intros i r Hi. simpl in Hi. destruct (decide (id = i)) as [<-|Hne]; [done|].
    rewrite lookup_insert_ne in Hi by done. destruct (Hid _ _ Hi) as (n & ? & ?). exists n. split; [lia|done].
Qed.

Lemma follows_weaken `{Env} h w s w' : follows h w s → (w_draws w ≤ w_draws w')%nat → follows h w' s.
Proof.
  intros [Hp Hid] Hw. split; [done|]. intros i r Hi.
  destruct (Hid _ _ Hi) as (n & ? & ?). exists n. split; [lia|done].
Qed.

Lemma forward_approval_call `{Env} c : forward (run_call c).
Proof.
  assert (Hn : ∀ req a b d e, forward (do! approval_audit req a b d in do! approval_trace req e in ret req)).
  { intros. unfold approval_audit, approval_trace. auto 10 with forward. }
  assert (Hr : ∀ t id actor st, forward (resolve t id actor st)).
  { intros. unfold resolve. apply forward_bind; [auto with forward|]. intros s.
    apply forward_match; [|auto with forward]. intros req. apply forward_if; [auto with forward|].
    apply forward_if; [auto with forward|]. apply forward_bind; [apply forward_time_Now|]. intros t'.
    apply forward_bind; [auto with forward|]. intros ?. apply Hn. }
  destruct c; simpl; (apply forward_bind; [|intros; apply forward_ret]).
  - unfold Request. apply forward_if; [auto with forward|]. apply forward_bind; [apply forward_time_Now|].
    intros t. apply forward_bind; [auto with forward|]. intros id. apply forward_bind; [auto with forward|].
    intros s. apply forward_bind; [auto with forward|]. intros ?. apply Hn.
  - apply Hr.
  - apply Hr.
  - unfold Consume. apply forward_bind; [auto with forward|]. intros s.
    apply forward_match; [|auto with forward]. intros req. apply forward_bind.
    { unfold validate. repeat (apply forward_if; [auto with forward|]).
      apply forward_match; [|auto with forward]. intros x. apply forward_bind; [apply forward_time_Now|].
      auto with forward. }
    intros ?. apply forward_bind; [apply forward_time_Now|]. intros t'.
    apply forward_bind; [auto with forward|]. intros ?. apply Hn.
Qed.

(** An approval or a rejection keeps the invariant. *)
Lemma resolve_follows `{Env} (d : string → string → deed) status t id actor h w s r w' s' :
  (d, status) ∈ [(Approved, ApprovalApproved); (Rejected, ApprovalRejected)] →
  follows h w s →
  bind (resolve t id actor status) (λ _, ret (d t id)) w s = (r, w', s') →
  (w_draws w ≤ w_draws w')%nat →
  follows (h ++ match r with Ok d => [d] | _ => [] end) w' s'.
Proof.
  intros Hd HI E Hw. pose proof (resolve_run t id actor status w s) as Hr.
  assert (Herr : (∃ e, resolve t id actor status w s = (Err e, w, s)) →
    follows (h ++ match r with Ok d => [d] | _ => [] end) w' s').
  { intros (e & Ee). rewrite (bind_Err _ _ _ _ _ _ _ Ee) in E. simplify_eq.
    rewrite app_nil_r. by eapply follows_weaken. }
  destruct (items s !! id) as [req|] eqn:Ei; [|auto].
  destruct (String.eqb_spec (Approval_TenantID req) t) as [<-|]; cbn [andb] in Hr; [|auto].
  destruct (String.eqb_spec (Approval_Status req) ApprovalPending) as [Hs|]; [|auto].
  destruct Hr as (w1 & at_ & Er). rewrite (bind_Ok _ _ _ _ _ _ _ Er) in E.
  unfold ret in E. injection E as <- <- <-. eapply follows_put; [exact HI|exact Hw| | |].
  - intros i. repeat (apply elem_of_cons in Hd as [Ed|Hd]; [by simplify_eq|]). inversion Hd.
  - apply protocol_resolve; [done| |done]. rewrite <- Ei. apply HI.
  - destruct (proj2 HI id req Ei) as (n & ? & ?). exists n. split; [lia|done].
Qed.

Lemma history_follows `{Env} h w s : rand_unique → history h w s → follows h w s.
Proof.
  intros Hu. induction 1 as [w|h w s c r w' s' _ IH E|h w w' s _ IH Hw].
  - split; [intros id; apply protocol_none|done].
  - pose proof (forward_approval_call c _ _ _ _ _ E) as Hw. destruct c as [input|t id actor|t id actor|t id rt rid a actor].
    + simpl in E. destruct (Request_run input w s) as [[e Ee]|(req & w1 & Er & Hid & Hs & Hlt & _)].
      { rewrite (bind_Err _ _ _ _ _ _ _ Ee) in E. simplify_eq. rewrite app_nil_r.
        by eapply follows_weaken. }
      rewrite (bind_Ok _ _ _ _ _ _ _ Er) in E. unfold ret in E. injection E as <- <- <-.
      eapply follows_put; [exact IH|exact Hw|done| |by eexists].
      assert (Hfresh : items s !! Approval_ApprovalID req = None).
      { destruct (items s !! _) as [r|] eqn:Ei; [|done]. exfalso.
        destruct (proj2 IH _ _ Ei) as (n & Hn & En). rewrite Hid in En.
        apply idgen_inj, Hu in En. lia. }
      pose proof (proj1 IH (Approval_ApprovalID req)) as Hp. rewrite Hfresh in Hp.
      inversion Hp. by constructor.
    + by eapply (resolve_follows Approved); [left|exact IH|exact E|].
    + by eapply (resolve_follows Rejected); [right; left|exact IH|exact E|].
    + simpl in E. destruct (Consume_run t id rt rid a actor w s) as [(req & w1 & at_ & Ei & Hc & Er)|(_ & e & w1 & Er)].
      2: { rewrite (bind_Err _ _ _ _ _ _ _ Er) in E. simplify_eq. rewrite app_nil_r.
           by eapply follows_weaken. }
      rewrite (bind_Ok _ _ _ _ _ _ _ Er) in E. unfold ret in E. injection E as <- <- <-.
      eapply follows_put; [exact IH|exact Hw|done| |].
      * eapply protocol_consume; [|exact Hc]. rewrite <- Ei. apply IH.
      * destruct (proj2 IH id req Ei) as (n & ? & ?). exists n. split; [lia|done].
  - by eapply follows_weaken.
Qed.

(** C10. The life of an approval.  Whatever sequence of requests, approvals, rejections and
    consumptions is made by anybody, what has succeeded on one approval is at every moment a
    prefix of: its request, then either one rejection or one approval and after it one
    consumption; the resolutions were made by the tenant of the request, and the consumption
    for its resource and action.  So an approval is used at most once, only after it was
    approved, and never after a rejection.  The service has exactly that state stored. *)
Theorem approval_protocol `{Env} h w s id :
  rand_unique → history h w s →
  protocol id (List.filter (about id) h) (items s !! id).
Proof. intros Hu Hh. apply (history_follows h w s Hu Hh). Qed.

Definition demo_calls : list call :=
  [CallRequest (mkRequestInput "t1" "tool" "deploy" "run" RiskHigh "why" "ann" "" (Some 1004%Z));
   CallConsume "t1" "approval_0" "tool" "deploy" "run" "bob";
   CallApprove "t2" "approval_0" "eve";
   CallApprove "t1" "approval_0" "bob";
   CallConsume "t1" "approval_0" "tool" "delete" "run" "bob";
   CallConsume "t1" "approval_0" "tool" "deploy" "run" "bob";
   CallConsume "t1" "approval_0" "tool" "deploy" "run" "bob"].

Fixpoint run_calls `{Env} (cs : list call) (w : World) (s : Service) : list deed * World * Service :=
  match cs with
  | [] => ([], w, s)
  | c :: cs =>
      match run_call c w s with
      | (r, w', s') =>
          match run_calls cs w' s' with
          | (h, w'', s'') => (match r with Ok d => [d] | _ => [] end ++ h, w'', s'')
          end
      end
  end.

Lemma approval_calls_history `{Env} cs : ∀ h w s, history h w s →
  match run_calls cs w s with (k, w', s') => history (h ++ k) w' s' end.
Proof.
  induction cs as [|c cs IH]; simpl; intros h w s Hh; [by rewrite app_nil_r|].
  destruct (run_call c w s) as [[r w1] s1] eqn:E.
  pose proof (IH _ _ _ (history_call h w s c r w1 s1 Hh E)) as Hr.
  destruct (run_calls cs w1 s1) as [[k w2] s2]. by rewrite app_assoc.
Qed.

Definition demo_deeds : list deed :=
  [Requested (mkApprovalRequest "approval_0" "t1" "tool" "deploy" "run" RiskHigh "why"
     ApprovalPending "ann" "" 1000 None (Some 1004%Z) "");
   Approved "t1" "approval_0"; Consumed "t1" "approval_0" "tool" "deploy" "run"].

Lemma approval_protocol_witness :
  ∃ w s, history demo_deeds w s ∧
    protocol "approval_0" (List.filter (about "approval_0") demo_deeds) (items s !! "approval_0").
Proof.
  pose proof (approval_calls_history demo_calls [] world0 NewService (history_new world0)) as Hh.
  destruct (run_calls demo_calls world0 NewService) as [[k w] s] eqn:E.
  assert (Ek : k = demo_deeds).
  { vm_compute in E. injection E as <- _ _. vm_compute. reflexivity. }
  exists w, s. rewrite Ek in Hh. simpl app in Hh. split; [exact Hh|].
  exact (approval_protocol demo_deeds w s "approval_0" test_rand_unique Hh).
Defined.

(** Consume, on every branch.  It succeeds exactly when the approval exists, belongs to
    the tenant, is for that resource and action, is approved and, where it has an expiry, the
    clock has not passed it; then it is marked used, nothing else changes, and no later
    approval, rejection, validation or consumption of it succeeds, whoever asks.  Otherwise
    it is an error and nothing changes. *)
Theorem consume_exact `{Env} tenantID id rt rid a actorID w s :
  match Consume tenantID id rt rid a actorID w s with
  | (Ok used, w', s') =>
      (∃ req at_, items s !! id = Some req ∧
         consumable req tenantID rt rid a (env_clock (w_reads w)) ∧
         used = resolved req ApprovalUsed actorID at_ ∧ s' = put_item s id used) ∧
      (∀ w1 t rt1 rid1 a1 actor status,
         (∃ e w2, Consume t id rt1 rid1 a1 actor w1 s' = (Err e, w2, s')) ∧
         (∃ e w2, resolve t id actor status w1 s' = (Err e, w2, s')) ∧
         (∃ e w2, Validate t id rt1 rid1 a1 w1 s' = (Err e, w2, s')))
  | (Err _, _, s') =>
      s' = s ∧ ∀ req, items s !! id = Some req →
        ¬ consumable req tenantID rt rid a (env_clock (w_reads w))
  | (Panic, _, _) => False
  end.
Proof.
  destruct (Consume_run tenantID id rt rid a actorID w s)
    as [(req & w' & at_ & Ei & Hc & E)|(Hn & e & w' & E)]; rewrite E; [|by split].
  split; [by exists req, at_|]. intros w1 t rt1 rid1 a1 actor status.
  set (used := resolved req ApprovalUsed actorID at_).
  assert (Eu : items (put_item s id used) !! id = Some used) by apply lookup_insert_eq.
  assert (Hs : ∀ now, ¬ consumable used t rt1 rid1 a1 now) by (intros now (_ & _ & _ & _ & Hx & _); discriminate Hx).
  split; [|split].
  - destruct (Consume_run t id rt1 rid1 a1 actor w1 (put_item s id used)) as [(r & w2 & a2 & Er & Hr & _)|(_ & e & w2 & E2)].
    + rewrite Eu in Er. injection Er as <-. by apply Hs in Hr.
    + by exists e, w2.
  - pose proof (resolve_run t id actor status w1 (put_item s id used)) as Hr. rewrite Eu in Hr.
    rewrite andb_false_r in Hr. destruct Hr as (e & Ee). by exists e, w1.
  - unfold Validate. rewrite bind_get, Eu.
    destruct (validate_run used t rt1 rid1 a1 w1 (put_item s id used)) as [[Hr _]|[_ (e & w2 & Ev)]].
    + by apply Hs in Hr.
    + exists e, w2. by rewrite (bind_Err _ _ _ _ _ _ _ Ev).
Qed.
