(* ===== verification/PolicyEngine.v ===== *)
(** * Policy sets, drafts and versions: internal/policy/engine/engine.go

    The in-memory store and the manager over it.  A call of the store is one step; a call of
    the manager, several calls of the store, runs here without others in between.  The store
    is configured (not nil).  The JSON encoder and the SHA-256 sum are parameters. *)

From S2P Require Import Prelude Contracts GoMonad Storage.
From stdpp Require Import base list strings gmap fin_maps pretty.
From Stdlib Require Import Lia Ascii.
Open Scope go_scope.
Open Scope string_scope.
Open Scope list_scope.

Record policyVersionRecord := mkPolicyVersionRecord {
  record_version : PolicyVersion;
  record_policy : PolicySet
}.

Record PolicyStore := mkPolicyStore {
  policies : gmap string PolicySet;
  drafts : gmap string PolicyDraft;
  versions : gmap string policyVersionRecord
}.
#[export] Instance eta_PolicyStore : Settable PolicyStore :=
  fields! mkPolicyStore < policies ; drafts ; versions >.

(** The two parts, joined by a zero byte. *)
Definition key (tenantID policySetID : string) : string :=
  tenantID +:+ String "000" "" +:+ policySetID.

Definition put_policy (s : PolicyStore) (policy : PolicySet) : PolicyStore :=
  s <| policies := <[key policy.(PolicySet_TenantID) policy.(PolicySet_PolicySetID) := policy]>
                     s.(policies) |>.

Definition NewPolicyStore (initial : list PolicySet) : PolicyStore :=
  fold_left put_policy initial (mkPolicyStore ∅ ∅ ∅).

(** ** The store *)
Section store.
Context `{Env}.

Definition DefaultPolicySet : M PolicyStore PolicySet :=
  let! now := time_Now in
  ret (mkPolicySet "policy_default" "" "v1"
    (mkRuntimePolicy 8 8 1 0 2)
    zeroToolPolicy
    (mkToolRepairPolicy true 1 [CodeToolArgumentInvalid; CodeToolExecutionFailed] true
       RiskCritical true)
    (mkApprovalPolicy true true)
    (mkPromptPolicy 4000 [])
    (mkContextGovernancePolicy 4000 20 8 30 0 0 0 false true [] [])
    (mkTaskRecoveryPolicy true)
    zeroTaskUpgradePolicy
    (mkHandoffPolicy HandoffHybrid false 4000 false true false true false true)
    (mkReleasePolicy true 10 100 25 false false [])
    (mkMemoryPolicy true true [])
    (mkArtifactPolicy true false)
    now).

Definition FallbackPolicySet (tenantID policySetID : string) : M PolicyStore PolicySet :=
  let! policy := DefaultPolicySet in
  let policy := policy <| PolicySet_TenantID := tenantID |> in
  ret (if policySetID != "" then policy <| PolicySet_PolicySetID := policySetID |> else policy).

Definition Store_Get (tenantID policySetID : string) : M PolicyStore (option PolicySet) :=
  let! s := get in
  ret (match s.(policies) !! key tenantID policySetID with
       | Some policy => Some policy
       | None => s.(policies) !! key "" policySetID
       end).

Definition Store_Put (policy : PolicySet) : M PolicyStore unit :=
  let! s := get in put (put_policy s policy).

Definition SaveDraft (draft : PolicyDraft) : M PolicyStore unit :=
  let! s := get in put (s <| drafts := <[draft.(Draft_DraftID) := draft]> s.(drafts) |>).

Definition GetDraft (draftID : string) : M PolicyStore (option PolicyDraft) :=
  let! s := get in ret (s.(drafts) !! draftID).

Definition SaveVersion (version : PolicyVersion) (policy : PolicySet) : M PolicyStore unit :=
  let! s := get in
  let s := s <| versions := <[version.(Version_PolicyVersionID) :=
                                mkPolicyVersionRecord version policy]> s.(versions) |> in
  put (if version.(Version_Status) == ReleaseStable then put_policy s policy else s).

Definition UpdateVersionStatus (policyVersionID : string) (status : ReleaseStatus)
    : M PolicyStore unit :=
  let! s := get in
  match s.(versions) !! policyVersionID with
  | None => throw (Errorf "policy version %s not found" [policyVersionID])
  | Some record =>
      let record := mkPolicyVersionRecord
        (record.(record_version) <| Version_Status := status |>) record.(record_policy) in
      let s := s <| versions := <[policyVersionID := record]> s.(versions) |> in
      put (if status == ReleaseStable then put_policy s record.(record_policy) else s)
  end.

Definition Store_GetVersion (policyVersionID : string)
    : M PolicyStore (option policyVersionRecord) :=
  let! s := get in ret (s.(versions) !! policyVersionID).

Definition Store_ListVersions (tenantID policySetID : string)
    : M PolicyStore (list PolicyVersion) :=
  let! s := get in
  let! entries := range_map s.(versions) in
  ret (List.filter (λ v, (v.(Version_TenantID) == tenantID) && (v.(Version_PolicySetID) == policySetID))
         (map (λ e, e.2.(record_version)) entries)).
End store.

Lemma bind_GetVersion {A} id (f : option policyVersionRecord → M PolicyStore A) w s :
  bind (Store_GetVersion id) f w s = f (versions s !! id) w s.
Proof. reflexivity. Qed.
Lemma bind_GetDraft {A} id (f : option PolicyDraft → M PolicyStore A) w s :
  bind (GetDraft id) f w s = f (drafts s !! id) w s.
Proof. reflexivity. Qed.
Lemma SaveVersion_run v p w s : ∃ s', SaveVersion v p w s = (Ok tt, w, s').
Proof. unfold SaveVersion. rewrite bind_get. cbv zeta. unfold put. by eexists. Qed.

(** ** The manager *)
Section manager.
Context `{Env}.
(** [json.Marshal] of a policy, and the SHA-256 sum of bytes, in hex. *)
Context (json_Marshal : PolicySet → string + error) (sha256_hex : string → string).

(** [pkg/hash] *)
Definition StableJSON (policy : PolicySet) : string + error :=
  match json_Marshal policy with
  | inr err => inr err
  | inl data => inl (sha256_hex data)
  end.

Definition policy_audit (tenantID actorID action resourceID decision reason : string)
    : M PolicyStore unit :=
  with_audit (
    let! id := idgen_New "audit" in
    let! now := now in
    ignore (audit_Log (zeroAuditEvent
      <| Audit_AuditID := id |> <| Audit_TenantID := tenantID |> <| Audit_ActorID := actorID |>
      <| Audit_ActorType := "optimizer" |> <| Audit_Action := action |>
      <| Audit_ResourceType := "policy" |> <| Audit_ResourceID := resourceID |>
      <| Audit_Decision := decision |> <| Audit_Reason := reason |>
      <| Audit_CreatedAt := now |>))).

Definition nextPolicyVersion (tenantID policySetID : string) : M PolicyStore string :=
  let! versions := Store_ListVersions tenantID policySetID in
  if (len versions =? 0)%Z then ret "v1" else ret ("v" +:+ fmt_d (len versions + 1)).

Definition draft_not_found (draftID : string) : error :=
  Errorf "policy draft %s not found" [draftID].
Definition version_not_found (policyVersionID : string) : error :=
  Errorf "policy version %s not found" [policyVersionID].
Definition policy_denied (message : string) : error :=
  ErrRuntime (NewRuntimeError CodeToolPolicyDenied message ∅).

Definition CreateDraft (tenantID : string) (policy : PolicySet) (actorID : string)
    : M PolicyStore PolicyDraft :=
  let policy := if policy.(PolicySet_PolicySetID) == ""
                then policy <| PolicySet_PolicySetID := "policy_default" |> else policy in
  let policy := if policy.(PolicySet_TenantID) == ""
                then policy <| PolicySet_TenantID := tenantID |> else policy in
  if policy.(PolicySet_TenantID) != tenantID
  then throw (policy_denied "policy tenant does not match caller tenant")
  else
    let! policy :=
      (if policy.(PolicySet_Version) == ""
       then let! v := nextPolicyVersion tenantID policy.(PolicySet_PolicySetID) in
            ret (policy <| PolicySet_Version := v |>)
       else ret policy) in
    let! policy :=
      (if IsZero policy.(PolicySet_CreatedAt)
       then let! t := now in ret (policy <| PolicySet_CreatedAt := t |>)
       else ret policy) in
    let! now := now in
    let! id := idgen_New "policydraft" in
    let draft := mkPolicyDraft id tenantID policy.(PolicySet_PolicySetID)
      policy.(PolicySet_Version) policy ReleaseDraft actorID now now in
    do! SaveDraft draft in
    do! policy_audit tenantID actorID "policy.draft.create" id "allowed" "" in
    ret draft.

Definition fill_draft_policy (draft : PolicyDraft) (policy : PolicySet) : PolicySet :=
  let policy := if policy.(PolicySet_PolicySetID) == ""
                then policy <| PolicySet_PolicySetID := draft.(Draft_PolicySetID) |> else policy in
  let policy := if policy.(PolicySet_TenantID) == ""
                then policy <| PolicySet_TenantID := draft.(Draft_TenantID) |> else policy in
  if policy.(PolicySet_Version) == ""
  then policy <| PolicySet_Version := draft.(Draft_Version) |> else policy.

Definition UpdateDraft (draftID : string) (policy : PolicySet) (actorID : string)
    : M PolicyStore PolicyDraft :=
  let! found := GetDraft draftID in
  match found with
  | None => throw (draft_not_found draftID)
  | Some draft =>
      let policy := fill_draft_policy draft policy in
      if (policy.(PolicySet_TenantID) != draft.(Draft_TenantID)) ||
         (policy.(PolicySet_PolicySetID) != draft.(Draft_PolicySetID))
      then throw (policy_denied "policy draft identity cannot be changed")
      else
        let policy := if IsZero policy.(PolicySet_CreatedAt)
                      then policy <| PolicySet_CreatedAt := draft.(Draft_CreatedAt) |> else policy in
        let! now := now in
        let draft := draft <| Draft_Policy := policy |>
          <| Draft_Version := policy.(PolicySet_Version) |> <| Draft_Status := ReleaseDraft |>
          <| Draft_UpdatedAt := now |> in
        do! SaveDraft draft in
        do! policy_audit draft.(Draft_TenantID) actorID AuditPolicyUpdate draft.(Draft_DraftID)
              "allowed" "draft updated" in
        ret draft
  end.

Definition patchDraft (draftID actorID : string) (status : ReleaseStatus) (action reason : string)
    : M PolicyStore PolicyDraft :=
  let! found := GetDraft draftID in
  match found with
  | None => throw (draft_not_found draftID)
  | Some draft =>
      let! now := now in
      let draft := draft <| Draft_Status := status |> <| Draft_UpdatedAt := now |> in
      do! SaveDraft draft in
      do! policy_audit draft.(Draft_TenantID) actorID action draft.(Draft_DraftID) "allowed" reason in
      ret draft
  end.

Definition draftForTenant (tenantID draftID : string) : M PolicyStore PolicyDraft :=
  let! found := GetDraft draftID in
  match found with
  | None => throw (draft_not_found draftID)
  | Some draft =>
      if draft.(Draft_TenantID) != tenantID
      then throw (policy_denied "policy draft tenant does not match caller tenant")
      else ret draft
  end.
Definition DraftForTenant := draftForTenant.

(** The fields are checked after the draft has been stored as validated. *)
Definition ValidateDraft (draftID actorID : string) : M PolicyStore PolicyDraft :=
  let! draft := patchDraft draftID actorID ReleaseValidated "policy.draft.validate" "" in
  if (draft.(Draft_Policy).(PolicySet_PolicySetID) == "") ||
     (draft.(Draft_Policy).(PolicySet_Version) == "")
  then throw (Errorf "policy draft %s requires policy_set_id and version" [draftID])
  else ret draft.

Definition ValidateDraftForTenant (tenantID draftID actorID : string) : M PolicyStore PolicyDraft :=
  let! _ := draftForTenant tenantID draftID in ValidateDraft draftID actorID.

(** The end of [PublishDraft]: the version is stored, then the draft. *)
Definition storePublished (draft : PolicyDraft) (policyHash : string) (now : Time)
    (id actorID : string) : M PolicyStore PolicyVersion :=
  let version := mkPolicyVersion id draft.(Draft_TenantID) draft.(Draft_PolicySetID)
    draft.(Draft_Version) ReleasePublished policyHash draft.(Draft_CreatedBy)
    draft.(Draft_CreatedAt) (Some now) in
  do! SaveVersion version draft.(Draft_Policy) in
  do! SaveDraft (draft <| Draft_Status := ReleasePublished |> <| Draft_UpdatedAt := now |>) in
  do! policy_audit draft.(Draft_TenantID) actorID "policy.publish" id "allowed" "" in
  ret version.

Definition PublishDraft (draftID actorID : string) : M PolicyStore PolicyVersion :=
  let! found := GetDraft draftID in
  match found with
  | None => throw (draft_not_found draftID)
  | Some draft =>
      if (draft.(Draft_Status) != ReleaseValidated) && (draft.(Draft_Status) != ReleaseEvaluated) &&
         (draft.(Draft_Status) != ReleaseReviewed)
      then throw (Errorf "policy draft %s is not ready to publish" [draftID])
      else
        match StableJSON draft.(Draft_Policy) with
        | inr err => throw err
        | inl policyHash =>
            let! now := now in
            let! id := idgen_New "policyver" in
            storePublished draft policyHash now id actorID
        end
  end.

Definition PublishDraftForTenant (tenantID draftID actorID : string) : M PolicyStore PolicyVersion :=
  let! _ := draftForTenant tenantID draftID in PublishDraft draftID actorID.

Definition MarkEvalResult (policyVersionID : string) (passed : bool) (actorID reason : string)
    : M PolicyStore PolicyVersion :=
  let! found := Store_GetVersion policyVersionID in
  match found with
  | None => throw (version_not_found policyVersionID)
  | Some (mkPolicyVersionRecord version policy) =>
      let! version :=
        (if passed && (version.(Version_Status) != ReleaseStable)
         then let version := version <| Version_Status := ReleaseEvaluated |> in
              do! SaveVersion version policy in ret version
         else ret version) in
      do! policy_audit version.(Version_TenantID) actorID "policy.eval" policyVersionID
            (if passed then "allowed" else "denied") reason in
      ret version
  end.

Definition MarkReviewed (draftID actorID : string) : M PolicyStore PolicyDraft :=
  let! found := GetDraft draftID in
  match found with
  | None => throw (draft_not_found draftID)
  | Some draft =>
      if (draft.(Draft_Status) != ReleaseValidated) && (draft.(Draft_Status) != ReleaseEvaluated)
      then throw (Errorf "policy draft %s is not ready for review" [draftID])
      else patchDraft draftID actorID ReleaseReviewed "policy.review" ""
  end.

Definition MarkReviewedForTenant (tenantID draftID actorID : string) : M PolicyStore PolicyDraft :=
  let! _ := draftForTenant tenantID draftID in MarkReviewed draftID actorID.

Definition markVersion (policyVersionID : string) (status : ReleaseStatus)
    (actorID action reason : string) : M PolicyStore PolicyVersion :=
  let! found := Store_GetVersion policyVersionID in
  match found with
  | None => throw (version_not_found policyVersionID)
  | Some (mkPolicyVersionRecord version policy) =>
      let version := version <| Version_Status := status |> in
      do! SaveVersion version policy in
      do! (if status == ReleaseStable then Store_Put policy else ret tt) in
      do! policy_audit version.(Version_TenantID) actorID action policyVersionID "allowed" reason in
      ret version
  end.

Definition MarkCanary (policyVersionID actorID : string) : M PolicyStore PolicyVersion :=
  let! found := Store_GetVersion policyVersionID in
  match found with
  | None => throw (version_not_found policyVersionID)
  | Some (mkPolicyVersionRecord version _) =>
      if version.(Version_Status) != ReleaseEvaluated
      then throw (Errorf "policy version %s cannot become canary before passing eval" [policyVersionID])
      else markVersion policyVersionID ReleaseCanary actorID "policy.canary" ""
  end.

Definition MarkStable (policyVersionID actorID : string) : M PolicyStore PolicyVersion :=
  let! found := Store_GetVersion policyVersionID in
  match found with
  | None => throw (version_not_found policyVersionID)
  | Some (mkPolicyVersionRecord version policy) =>
      if (version.(Version_Status) != ReleaseEvaluated) && (version.(Version_Status) != ReleaseCanary)
      then throw (Errorf "policy version %s cannot become stable before passing eval" [policyVersionID])
      else
        let version := version <| Version_Status := ReleaseStable |> in
        do! SaveVersion version policy in
        do! Store_Put policy in
        do! policy_audit version.(Version_TenantID) actorID "policy.stable" policyVersionID "allowed" "" in
        ret version
  end.

Definition rollbackCandidateRank (status : ReleaseStatus) : Z :=
  if status == ReleaseStable then 3
  else if status == ReleaseCanary then 2
  else if status == ReleaseEvaluated then 1
  else 0.

(** One turn of the loop of [rollbackFallback]: the selected version and its rank. *)
Definition select_fallback (rolledBack : PolicyVersion) (acc : PolicyVersion * Z)
    (candidate : PolicyVersion) : PolicyVersion * Z :=
  let '(selected, selectedRank) := acc in
  if candidate.(Version_PolicyVersionID) == rolledBack.(Version_PolicyVersionID) then acc else
  let rank := rollbackCandidateRank candidate.(Version_Status) in
  if (rank =? 0)%Z then acc else
  if (selected.(Version_PolicyVersionID) == "") || (rank >? selectedRank)%Z ||
     ((rank =? selectedRank)%Z && After candidate.(Version_CreatedAt) selected.(Version_CreatedAt))
  then (candidate, rank) else acc.

Definition rollbackFallback (rolledBack : PolicyVersion)
    : M PolicyStore (option policyVersionRecord) :=
  let! versions := Store_ListVersions rolledBack.(Version_TenantID) rolledBack.(Version_PolicySetID) in
  let '(selected, _) := fold_left (select_fallback rolledBack) versions (zeroPolicyVersion, 0%Z) in
  if selected.(Version_PolicyVersionID) == "" then ret None
  else Store_GetVersion selected.(Version_PolicyVersionID).

Definition Rollback (policyVersionID actorID reason : string) : M PolicyStore PolicyVersion :=
  if reason == "" then throw (policy_denied "policy rollback reason is required") else
  let! found := Store_GetVersion policyVersionID in
  match found with
  | None => throw (version_not_found policyVersionID)
  | Some (mkPolicyVersionRecord version _) =>
      let! rolledBack := markVersion policyVersionID ReleaseRolledBack actorID "policy.rollback" reason in
      let! fallback := rollbackFallback version in
      do! match fallback with
          | None => ret tt
          | Some (mkPolicyVersionRecord fallback fallbackPolicy) =>
              let fallback := fallback <| Version_Status := ReleaseStable |> in
              do! SaveVersion fallback fallbackPolicy in
              do! Store_Put fallbackPolicy in
              policy_audit fallback.(Version_TenantID) actorID "policy.rollback.restore"
                fallback.(Version_PolicyVersionID) "allowed" reason
          end in
      ret rolledBack
  end.

Definition GetVersion := Store_GetVersion.
Definition ListVersions := Store_ListVersions.

Definition select_current (selected candidate : PolicyVersion) : PolicyVersion :=
  if candidate.(Version_Status) != ReleaseStable then selected else
  if (selected.(Version_PolicyVersionID) == "") ||
     After candidate.(Version_CreatedAt) selected.(Version_CreatedAt)
  then candidate else selected.

Definition CurrentVersion (tenantID policySetID : string)
    : M PolicyStore (option policyVersionRecord) :=
  let! versions := Store_ListVersions tenantID policySetID in
  let selected := fold_left select_current versions zeroPolicyVersion in
  if selected.(Version_PolicyVersionID) == "" then ret None
  else Store_GetVersion selected.(Version_PolicyVersionID).
End manager.

(** ** The operations do not give random draws back *)

Ltac go_forward :=
  repeat match goal with
  | |- forward (bind _ _) => apply forward_bind; [|intros ?]
  | |- forward (if ?b then _ else _) => destruct b
  | |- forward (match ?x with _ => _ end) => destruct x
  | |- forward now => apply forward_time_Now
  | |- forward _ => solve [auto with forward]
  end.

Section forwards.
Context `{Env} (json_Marshal : PolicySet → string + error) (sha256_hex : string → string).

Lemma forward_policy_audit t a b c d e : forward (policy_audit t a b c d e).
Proof. unfold policy_audit. apply forward_with_audit. go_forward. Qed.
Lemma forward_SaveVersion v p : forward (SaveVersion v p).
Proof. unfold SaveVersion. cbv zeta. go_forward. Qed.
Lemma forward_Store_Put p : forward (Store_Put p).
Proof. unfold Store_Put. go_forward. Qed.
Lemma forward_SaveDraft d : forward (SaveDraft d).
Proof. unfold SaveDraft. go_forward. Qed.
Lemma forward_GetDraft id : forward (GetDraft id).
Proof. unfold GetDraft. go_forward. Qed.
Lemma forward_Store_GetVersion id : forward (Store_GetVersion id).
Proof. unfold Store_GetVersion. go_forward. Qed.
Lemma forward_Store_ListVersions t id : forward (Store_ListVersions t id).
Proof. unfold Store_ListVersions. go_forward. Qed.
#[local] Hint Resolve forward_policy_audit forward_SaveVersion forward_Store_Put forward_SaveDraft
  forward_GetDraft forward_Store_GetVersion forward_Store_ListVersions : forward.

Lemma forward_patchDraft id a st x r : forward (patchDraft id a st x r).
Proof. unfold patchDraft. cbv zeta. go_forward. Qed.
Lemma forward_markVersion id st a x r : forward (markVersion id st a x r).
Proof. unfold markVersion. cbv zeta. go_forward. Qed.
Lemma forward_draftForTenant t id : forward (draftForTenant t id).
Proof. unfold draftForTenant. go_forward. Qed.
Lemma forward_rollbackFallback v : forward (rollbackFallback v).
Proof. unfold rollbackFallback. go_forward. Qed.
#[local] Hint Resolve forward_patchDraft forward_markVersion forward_draftForTenant
  forward_rollbackFallback : forward.

Lemma forward_PublishDraft id a : forward (PublishDraft json_Marshal sha256_hex id a).
Proof. unfold PublishDraft, storePublished. cbv zeta. go_forward. Qed.
Lemma forward_ValidateDraft id a : forward (ValidateDraft id a).
Proof. unfold ValidateDraft. go_forward. Qed.
Lemma forward_MarkReviewed id a : forward (MarkReviewed id a).
Proof. unfold MarkReviewed. go_forward. Qed.
#[local] Hint Resolve forward_PublishDraft forward_ValidateDraft forward_MarkReviewed : forward.
Lemma forward_storePublished d h t id a : forward (storePublished d h t id a).
Proof. unfold storePublished. cbv zeta. go_forward. Qed.
End forwards.
#[export] Hint Resolve forward_policy_audit forward_SaveVersion forward_Store_Put forward_SaveDraft
  forward_GetDraft forward_Store_GetVersion forward_Store_ListVersions forward_patchDraft
  forward_markVersion forward_draftForTenant forward_rollbackFallback forward_PublishDraft
  forward_ValidateDraft forward_MarkReviewed forward_storePublished : forward.

(** ** The releases of a store *)

(** The immutable part of a version: everything but its status. *)
Definition same_version (v0 v : PolicyVersion) : Prop :=
  v = v0 <| Version_Status := Version_Status v |>.

Lemma same_version_refl v : same_version v v.
Proof. by destruct v. Qed.
Lemma same_version_trans v0 v1 v2 : same_version v0 v1 → same_version v1 v2 → same_version v0 v2.
Proof. unfold same_version. intros E1 E2. rewrite E2, E1. by destruct v0. Qed.
Lemma same_version_status v st : same_version v (v <| Version_Status := st |>).
Proof. by destruct v. Qed.

Lemma same_version_fields v v' :
  same_version v v' →
  Version_PolicyVersionID v' = Version_PolicyVersionID v ∧ Version_TenantID v' = Version_TenantID v ∧
  Version_PolicySetID v' = Version_PolicySetID v ∧ Version_PolicyHash v' = Version_PolicyHash v.
Proof. intros E. by rewrite E. Qed.

(** A version that has been released beyond its publication. *)
Definition advanced (status : ReleaseStatus) : Prop := rollbackCandidateRank status ≠ 0%Z.

Lemma advanced_iff status :
  advanced status ↔ status = ReleaseStable ∨ status = ReleaseCanary ∨ status = ReleaseEvaluated.
Proof.
  unfold advanced, rollbackCandidateRank.
  destruct (String.eqb_spec status ReleaseStable); [split; [tauto|lia]|].
  destruct (String.eqb_spec status ReleaseCanary); [split; [tauto|lia]|].
  destruct (String.eqb_spec status ReleaseEvaluated); [split; [tauto|lia]|]. split; [done|tauto].
Qed.

(** ** The fallback of a rollback *)

(** A version that a rollback of [rb] may restore. *)
Definition eligible (rb c : PolicyVersion) : Prop :=
  Version_PolicyVersionID c ≠ Version_PolicyVersionID rb ∧ advanced (Version_Status c).

(** [a] is at least as good a fallback as [b]: further released, or as far and as new. *)
Definition as_good (a b : PolicyVersion) : Prop :=
  (rollbackCandidateRank (Version_Status b) < rollbackCandidateRank (Version_Status a))%Z ∨
  (rollbackCandidateRank (Version_Status b) = rollbackCandidateRank (Version_Status a) ∧
   (Version_CreatedAt b ≤ Version_CreatedAt a)%Z).

Lemma rank_nonneg status : (0 ≤ rollbackCandidateRank status)%Z.
Proof. unfold rollbackCandidateRank. repeat (destruct (_ == _); [lia|]). lia. Qed.

(** The loop selects the best of the eligible versions. *)
Lemma select_fallback_fold rb l :
  (∀ c, c ∈ l → Version_PolicyVersionID c ≠ "") →
  let '(sel, rank) := fold_left (select_fallback rb) l (zeroPolicyVersion, 0%Z) in
  (sel = zeroPolicyVersion ∧ rank = 0%Z ∧ ∀ c, c ∈ l → ¬ eligible rb c) ∨
  (sel ∈ l ∧ eligible rb sel ∧ rank = rollbackCandidateRank (Version_Status sel) ∧
   ∀ c, c ∈ l → eligible rb c → as_good sel c).
Proof.
  induction l as [|x l IH] using rev_ind; intros Hid.
  { left. split; [done|]. split; [done|]. intros c Hc. inversion Hc. }
  rewrite fold_left_app. simpl fold_left at 1.
  destruct (fold_left (select_fallback rb) l (zeroPolicyVersion, 0%Z)) as [sel rank].
  assert (Hl : ∀ c, c ∈ l → Version_PolicyVersionID c ≠ "") by (intros c Hc; apply Hid; set_solver).
  specialize (IH Hl). pose proof (rank_nonneg (Version_Status x)) as Hx. simpl.
  assert (Hskip : ¬ eligible rb x →
    (sel = zeroPolicyVersion ∧ rank = 0%Z ∧ ∀ c, c ∈ l ++ [x] → ¬ eligible rb c) ∨
    (sel ∈ l ++ [x] ∧ eligible rb sel ∧ rank = rollbackCandidateRank (Version_Status sel) ∧
     ∀ c, c ∈ l ++ [x] → eligible rb c → as_good sel c)).
  { intros Hn. destruct IH as [(E1 & E2 & IH)|(E1 & E2 & E3 & IH)]; [left|right].
    - split; [done|]. split; [done|]. intros c Hc. apply elem_of_app in Hc as [Hc|Hc]; [auto|].
      by apply list_elem_of_singleton in Hc as ->.
    - split; [set_solver|]. split; [done|]. split; [done|]. intros c Hc He.
      apply elem_of_app in Hc as [Hc|Hc]; [auto|]. by apply list_elem_of_singleton in Hc as ->. }
  destruct (String.eqb_spec (Version_PolicyVersionID x) (Version_PolicyVersionID rb)) as [Ex|Nx].
  { apply Hskip. intros [? _]. done. }
  destruct (Z.eqb_spec (rollbackCandidateRank (Version_Status x)) 0) as [E0|N0].
  { apply Hskip. intros [_ Ha]. by apply Ha. }
  assert (He : eligible rb x) by by split.
  destruct IH as [(-> & -> & IH)|(E1 & E2 & -> & IH)].
  - simpl. right. split; [set_solver|]. split; [done|]. split; [done|].
    intros c Hc Hc'. apply elem_of_app in Hc as [Hc|Hc]; [by destruct (IH c Hc)|].
    apply list_elem_of_singleton in Hc as ->. right. lia.
  - rewrite (eqb_neq_false _ _ (Hl _ E1)). cbn [orb]. unfold After. rewrite Z.gtb_ltb.
    set (b := _ || _). destruct b eqn:Eb; subst b; right.
    + assert (Hsx : as_good x sel).
      { apply orb_true_iff in Eb as [Eb|Eb]; [left; by apply Z.ltb_lt|].
        apply andb_true_iff in Eb as [E3 E4]. apply Z.eqb_eq in E3. apply Z.ltb_lt in E4. right. lia. }
      split; [set_solver|]. split; [done|]. split; [done|]. intros c Hc Hc'.
      apply elem_of_app in Hc as [Hc|Hc].
      * specialize (IH c Hc Hc'). unfold as_good in *. lia.
      * apply list_elem_of_singleton in Hc as ->. right. lia.
    + apply orb_false_iff in Eb as [E3 E4]. apply Z.ltb_ge in E3. apply andb_false_iff in E4.
      split; [set_solver|]. split; [done|]. split; [done|]. intros c Hc Hc'.
      apply elem_of_app in Hc as [Hc|Hc]; [by apply IH|]. apply list_elem_of_singleton in Hc as ->.
      unfold as_good. destruct E4 as [E4|E4]; [apply Z.eqb_neq in E4|apply Z.ltb_ge in E4]; lia.
Qed.

(** The versions are filed under their ids. *)
Definition store_ids (s : PolicyStore) : Prop :=
  ∀ id r, versions s !! id = Some r → Version_PolicyVersionID (record_version r) = id ∧ id ≠ "".

(** A stored version that a rollback of [rb] may restore. *)
Definition candidate (rb : PolicyVersion) (r : policyVersionRecord) : Prop :=
  Version_TenantID (record_version r) = Version_TenantID rb ∧
  Version_PolicySetID (record_version r) = Version_PolicySetID rb ∧ eligible rb (record_version r).

Lemma ListVersions_run `{Env} t id w s :
  ∃ l w', Store_ListVersions t id w s = (Ok l, w', s) ∧
    ∀ v, v ∈ l ↔ ∃ i r, versions s !! i = Some r ∧ v = record_version r ∧
                   Version_TenantID v = t ∧ Version_PolicySetID v = id.
Proof.
  unfold Store_ListVersions. rewrite bind_get.
  destruct (range_map_run (versions s) w s) as (l & w' & E & Hl). rewrite (bind_Ok _ _ _ _ _ _ _ E).
  eexists _, w'. split; [reflexivity|]. intros v.
  rewrite filter_bool_elem, andb_true_iff, !String.eqb_eq, list_elem_of_fmap. split.
  - intros [([i r] & -> & Hir) [Et Es]]. rewrite Hl in Hir. apply elem_of_map_to_list in Hir. by exists i, r.
  - intros (i & r & Hi & -> & Et & Es). split; [|done]. exists (i, r). split; [done|].
    rewrite Hl. by apply elem_of_map_to_list.
Qed.

Lemma rollbackFallback_run `{Env} rb w s :
  store_ids s →
  ∃ o w', rollbackFallback rb w s = (Ok o, w', s) ∧
    match o with
    | None => ∀ id r, versions s !! id = Some r → ¬ candidate rb r
    | Some r => ∃ id, versions s !! id = Some r ∧ candidate rb r ∧
        ∀ id' r', versions s !! id' = Some r' → candidate rb r' →
          as_good (record_version r) (record_version r')
    end.
Proof.
  intros Hids. unfold rollbackFallback.
  destruct (ListVersions_run (Version_TenantID rb) (Version_PolicySetID rb) w s) as (l & w' & E & Hl).
  rewrite (bind_Ok _ _ _ _ _ _ _ E).
  assert (Hne : ∀ c, c ∈ l → Version_PolicyVersionID c ≠ "").
  { intros c Hc. apply Hl in Hc as (i & r & Hi & -> & _). by destruct (Hids _ _ Hi) as [-> ?]. }
  pose proof (select_fallback_fold rb l Hne) as Hsel.
  destruct (fold_left (select_fallback rb) l (zeroPolicyVersion, 0%Z)) as [sel rank].
  destruct Hsel as [(-> & -> & Hn)|(Hin & He & -> & Hbest)].
  - eexists _, w'. split; [reflexivity|]. intros id r Hr (Ht & Hs & Hel).
    apply (Hn (record_version r)); [|done]. apply Hl. by exists id, r.
  - rewrite (eqb_neq_false _ _ (Hne _ Hin)). apply Hl in Hin as (i & r & Hi & -> & Ht & Hs).
    destruct (Hids _ _ Hi) as [Eid _]. unfold Store_GetVersion. rewrite bind_get, Eid, Hi.
    eexists _, w'. split; [reflexivity|]. exists i. split; [done|]. split; [done|].
    intros id' r' Hr' (Ht' & Hs' & Hel'). apply Hbest; [|done]. apply Hl. by exists id', r'.
Qed.

Section invariant.
Context `{Env} (json_Marshal : PolicySet → string + error) (sha256_hex : string → string).
Context (initial : list PolicySet).

(** The ids in [known] have been drawn; the versions in [passed] have passed an evaluation;
    [s0] is an earlier store. *)
Context (known : string → Prop).
Implicit Types passed : string → Prop.

Record version_ok passed (id : string) (r : policyVersionRecord) : Prop := {
  vo_id : Version_PolicyVersionID (record_version r) = id;
  vo_nonempty : id ≠ "";
  vo_known : known id;
  vo_passed : advanced (Version_Status (record_version r)) → passed id;
  vo_tenant : PolicySet_TenantID (record_policy r) = Version_TenantID (record_version r);
  vo_set : PolicySet_PolicySetID (record_policy r) = Version_PolicySetID (record_version r);
  vo_hash : StableJSON json_Marshal sha256_hex (record_policy r)
            = inl (Version_PolicyHash (record_version r))
}.

Record draft_ok (id : string) (d : PolicyDraft) : Prop := {
  do_id : Draft_DraftID d = id;
  do_tenant : PolicySet_TenantID (Draft_Policy d) = Draft_TenantID d;
  do_set : PolicySet_PolicySetID (Draft_Policy d) = Draft_PolicySetID d
}.

(** A policy is in force because the store started with it, or by a version that passed. *)
Definition in_force_ok passed (s : PolicyStore) (k : string) (p : PolicySet) : Prop :=
  k = key (PolicySet_TenantID p) (PolicySet_PolicySetID p) ∧
  (p ∈ initial ∨ ∃ id v, versions s !! id = Some (mkPolicyVersionRecord v p) ∧ passed id).

Definition extends (s0 s : PolicyStore) : Prop :=
  ∀ id r, versions s0 !! id = Some r →
  ∃ v, versions s !! id = Some (mkPolicyVersionRecord v (record_policy r)) ∧
       same_version (record_version r) v.

Record store_ok passed (s0 s : PolicyStore) : Prop := {
  so_versions : ∀ id r, versions s !! id = Some r → version_ok passed id r;
  so_drafts : ∀ id d, drafts s !! id = Some d → draft_ok id d;
  so_policies : ∀ k p, policies s !! k = Some p → in_force_ok passed s k p;
  so_extends : extends s0 s
}.

Lemma extends_refl s : extends s s.
Proof. intros id [v p] E. exists v. split; [done|apply same_version_refl]. Qed.

(** From now on, the present store is the earlier one. *)
Lemma store_ok_rebase passed s0 s : store_ok passed s0 s → store_ok passed s s.
Proof. intros [HV HD HP HE]. split; [done..|apply extends_refl]. Qed.

(** A version gets a new status. *)
Lemma in_force_insert passed s id v p v' k q :
  versions s !! id = Some (mkPolicyVersionRecord v p) → in_force_ok passed s k q →
  in_force_ok passed
    (s <| versions := <[id := mkPolicyVersionRecord v' p]> (versions s) |>) k q.
Proof.
  intros Hv [Ek Hq]. split; [done|]. destruct Hq as [Hi|(id' & v1 & Hv1 & Hid)]; [by left|].
  right. destruct (decide (id = id')) as [<-|Hne].
  - rewrite Hv in Hv1. simplify_eq. exists id, v'. simpl. by rewrite lookup_insert_eq.
  - exists id', v1. simpl. by rewrite lookup_insert_ne.
Qed.

Lemma set_version_ok passed s0 s id v p v' :
  store_ok passed s0 s → versions s !! id = Some (mkPolicyVersionRecord v p) → same_version v v' →
  (advanced (Version_Status v') → passed id) →
  store_ok passed s0 (s <| versions := <[id := mkPolicyVersionRecord v' p]> (versions s) |>).
Proof.
  intros [HV HD HP HE] Hv Hs Ha. split; [|done| |].
  - intros i r Hr. simpl in Hr. destruct (decide (id = i)) as [<-|Hne].
    + rewrite lookup_insert_eq in Hr. injection Hr as <-. destruct (HV _ _ Hv) as [H1 H2 H3 _ H4 H5 H6].
      destruct (same_version_fields _ _ Hs) as (F1 & F2 & F3 & F4). simpl in *.
      split; simpl; try congruence. exact Ha.
    + rewrite lookup_insert_ne in Hr by done. by apply HV.
  - intros k q Hk. simpl in Hk. eapply in_force_insert; [done|]. by apply HP.
  - intros i r Hr. destruct (HE i r Hr) as (v1 & Hv1 & Hs1). simpl.
    destruct (decide (id = i)) as [<-|Hne].
    + rewrite Hv in Hv1. injection Hv1 as -> ->. rewrite lookup_insert_eq. exists v'.
      split; [done|]. by eapply same_version_trans.
    + rewrite lookup_insert_ne by done. by exists v1.
Qed.

Lemma put_policy_ok passed s0 s id v p :
  store_ok passed s0 s → versions s !! id = Some (mkPolicyVersionRecord v p) → passed id →
  store_ok passed s0 (put_policy s p).
Proof.
  intros [HV HD HP HE] Hv Hid. split; [done|done| |done].
  intros k q Hk. unfold put_policy in Hk. simpl in Hk.
  destruct (decide (key (PolicySet_TenantID p) (PolicySet_PolicySetID p) = k)) as [<-|Hne].
  - rewrite lookup_insert_eq in Hk. injection Hk as <-. split; [done|]. right. by exists id, v.
  - rewrite lookup_insert_ne in Hk by done. by apply HP.
Qed.

Lemma set_draft_ok passed s0 s id d :
  store_ok passed s0 s → draft_ok id d →
  store_ok passed s0 (s <| drafts := <[id := d]> (drafts s) |>).
Proof.
  intros [HV HD HP HE] Hd. split; [done| |done|done].
  intros i d' Hi. simpl in Hi. destruct (decide (id = i)) as [<-|Hne].
  - rewrite lookup_insert_eq in Hi. by injection Hi as <-.
  - rewrite lookup_insert_ne in Hi by done. by apply HD.
Qed.

(** ** The operations keep the invariant *)

Section operations.
Context (passed : string → Prop) (s0 : PolicyStore).
Notation J := (store_ok passed s0).
Notation keeps m := (triple J m (λ _, J) J).

Lemma policy_audit_effect t a b c d e : effect_only (policy_audit t a b c d e).
Proof. unfold policy_audit. auto 10 with effects. Qed.

(** An audit record, then the result. *)
Lemma audit_ret {A} (P : PolicyStore → Prop) t a b c d e (x : A) :
  (∀ s, P s → J s) → triple P (do! policy_audit t a b c d e in ret x) (λ _, J) J.
Proof.
  intros HP. eapply triple_bind; [apply triple_effect, policy_audit_effect|].
  intros ?. apply triple_ret. exact HP.
Qed.

Lemma SaveDraft_keeps d : draft_ok (Draft_DraftID d) d → keeps (SaveDraft d).
Proof.
  intros Hd. apply triple_get. intros s Hs. apply triple_put. intros ? [-> _]. by apply set_draft_ok.
Qed.

Lemma GetDraft_keeps {A} id (f : option PolicyDraft → M PolicyStore A) :
  (∀ o, (∀ d, o = Some d → draft_ok id d) → keeps (f o)) → keeps (bind (GetDraft id) f).
Proof.
  intros Hf. eapply triple_bind with (Q := λ o s, J s ∧ ∀ d, o = Some d → draft_ok id d).
  - apply triple_get. intros s Hs. apply triple_ret. intros ? [-> _]. split; [done|].
    intros d Hd. by apply (so_drafts _ _ _ Hs).
  - intros o w s [Hs Ho]. by apply Hf.
Qed.

Lemma GetVersion_triple {A} id (f : option policyVersionRecord → M PolicyStore A) Q :
  (∀ o, triple (λ s, J s ∧ versions s !! id = o) (f o) Q J) →
  triple J (bind (Store_GetVersion id) f) Q J.
Proof.
  intros Hf. eapply triple_bind with (Q := λ o s, J s ∧ versions s !! id = o); [|exact Hf].
  apply triple_get. intros s Hs. apply triple_ret. by intros ? [-> _].
Qed.

(** The store as the manager sees it after it has looked a version up. *)
Definition holds (id : string) (v : PolicyVersion) (p : PolicySet) (s : PolicyStore) : Prop :=
  J s ∧ versions s !! id = Some (mkPolicyVersionRecord v p).

Lemma SaveVersion_triple id v p v' :
  same_version v v' → (advanced (Version_Status v') → passed id) →
  triple (holds id v p) (SaveVersion v' p) (λ _, holds id v' p) J.
Proof.
  intros Hs Ha. apply triple_get. intros s [Hok Hv].
  assert (Eid : Version_PolicyVersionID v' = id).
  { destruct (same_version_fields _ _ Hs) as [-> _]. apply (so_versions _ _ _ Hok _ _ Hv). }
  cbv zeta. rewrite Eid. apply triple_put. intros ? [-> _].
  assert (Hset : holds id v' p (s <| versions := <[id := mkPolicyVersionRecord v' p]> (versions s) |>)).
  { split; [by eapply set_version_ok|]. simpl. apply lookup_insert_eq. }
  destruct (String.eqb_spec (Version_Status v') ReleaseStable) as [Est|_]; [|exact Hset].
  split; [|apply Hset]. destruct Hset as [H1 H2]. eapply put_policy_ok; [exact H1|exact H2|].
  apply Ha. rewrite Est. apply advanced_iff. by left.
Qed.

Lemma Store_Put_triple id v p :
  passed id → triple (holds id v p) (Store_Put p) (λ _, holds id v p) J.
Proof.
  intros Hid. apply triple_get. intros s [Hok Hv]. apply triple_put. intros ? [-> _].
  split; [by eapply put_policy_ok|done].
Qed.

Lemma patchDraft_keeps id actor status action reason : keeps (patchDraft id actor status action reason).
Proof.
  apply GetDraft_keeps. intros [d|] Hd; [|by apply triple_throw].
  destruct (Hd d eq_refl) as [D1 D2 D3].
  eapply triple_bind; [apply triple_effect; apply effect_only_now|]. intros t. cbv zeta.
  eapply triple_bind; [apply SaveDraft_keeps; by split|]. intros ?. by apply audit_ret.
Qed.

Lemma draftForTenant_keeps {A} t id (f : PolicyDraft → M PolicyStore A) :
  (∀ d, keeps (f d)) → keeps (bind (draftForTenant t id) f).
Proof.
  intros Hf. eapply triple_bind with (Q := λ _, J); [|exact Hf].
  apply GetDraft_keeps. intros [d|] Hd; [|by apply triple_throw].
  apply triple_if; intros _; [by apply triple_throw|]. by apply triple_ret.
Qed.

Lemma ListVersions_effect t id : effect_only (Store_ListVersions t id).
Proof.
  intros w s. unfold Store_ListVersions. rewrite bind_get.
  destruct (range_map_run (versions s) w s) as (l & w' & E & _). rewrite (bind_Ok _ _ _ _ _ _ _ E).
  by eexists _, _.
Qed.

Lemma CreateDraft_keeps t p actor : keeps (CreateDraft t p actor).
Proof.
  unfold CreateDraft. cbv zeta.
  set (p1 := if PolicySet_PolicySetID p == "" then _ else p).
  set (p2 := if PolicySet_TenantID p1 == "" then _ else p1). clearbody p2.
  destruct (String.eqb_spec (PolicySet_TenantID p2) t) as [Et|]; cbn [negb]; [|by apply triple_throw].
  set (same := λ q, PolicySet_TenantID q = t).
  eapply triple_bind with (Q := λ q s, J s ∧ same q).
  { apply triple_if; intros _; [|by apply triple_ret].
    eapply triple_bind with (Q := λ _, J).
    - unfold nextPolicyVersion. eapply triple_bind; [apply triple_effect, ListVersions_effect|].
      intros l. apply triple_if; intros _; by apply triple_ret.
    - intros v. by apply triple_ret. }
  intros q. eapply triple_bind with (Q := λ q' s, J s ∧ same q').
  { apply triple_if; intros _; [|by apply triple_ret].
    eapply triple_bind; [apply triple_effect, effect_only_now|]. intros v. apply triple_ret.
    by intros s [? ?]. }
  intros q'. eapply triple_bind; [apply triple_effect, effect_only_now|]. intros now.
  eapply triple_bind; [apply triple_effect, effect_only_idgen|]. intros id.
  intros w s [Hs Hq]. revert w s Hs. cbv zeta.
  eapply (triple_bind J); [apply SaveDraft_keeps; by split|]. intros ?. by apply audit_ret.
Qed.

Lemma UpdateDraft_keeps id p actor : keeps (UpdateDraft id p actor).
Proof.
  apply GetDraft_keeps. intros [d|] Hd; [|by apply triple_throw].
  destruct (Hd d eq_refl) as [D1 D2 D3]. cbv zeta. generalize (fill_draft_policy d p). intros q.
  destruct (String.eqb_spec (PolicySet_TenantID q) (Draft_TenantID d)) as [E1|]; cbn [negb orb];
    [|by apply triple_throw].
  destruct (String.eqb_spec (PolicySet_PolicySetID q) (Draft_PolicySetID d)) as [E2|]; cbn [negb orb];
    [|by apply triple_throw].
  eapply triple_bind; [apply triple_effect, effect_only_now|]. intros t.
  eapply triple_bind; [apply SaveDraft_keeps|intros ?; by apply audit_ret].
  destruct (IsZero (PolicySet_CreatedAt q)); by split.
Qed.

Lemma ValidateDraft_keeps id actor : keeps (ValidateDraft id actor).
Proof.
  eapply triple_bind; [apply patchDraft_keeps|]. intros d.
  apply triple_if; intros _; [by apply triple_throw|by apply triple_ret].
Qed.

Lemma MarkReviewed_keeps id actor : keeps (MarkReviewed id actor).
Proof.
  apply GetDraft_keeps. intros [d|] Hd; [|by apply triple_throw].
  apply triple_if; intros _; [by apply triple_throw|apply patchDraft_keeps].
Qed.

Lemma throw_holds {A} id o e (Q : A → PolicyStore → Prop) :
  triple (λ s, J s ∧ versions s !! id = o) (throw e) Q J.
Proof. apply triple_throw. by intros s [? _]. Qed.

Lemma markVersion_keeps id status actor action reason :
  (advanced status → passed id) → keeps (markVersion id status actor action reason).
Proof.
  intros Ha. apply GetVersion_triple. intros [[v p]|]; [|apply throw_holds]. cbv zeta.
  eapply triple_bind; [apply (SaveVersion_triple id v p); [apply same_version_status|exact Ha]|]. intros ?.
  eapply triple_bind with (Q := λ _, holds id (v <| Version_Status := status |>) p);
    [|intros ?; apply audit_ret; by intros s [? _]].
  apply triple_if; intros Est; [|by apply triple_ret].
  apply Store_Put_triple. apply Ha. apply String.eqb_eq in Est. rewrite Est. apply advanced_iff. by left.
Qed.

(** A version that has advanced has passed. *)
Lemma holds_passed id v p s : holds id v p s → advanced (Version_Status v) → passed id.
Proof. intros [Hs Hv]. apply (so_versions _ _ _ Hs _ _ Hv). Qed.

Lemma MarkCanary_keeps id actor : keeps (MarkCanary id actor).
Proof.
  apply GetVersion_triple. intros [[v p]|]; [|apply throw_holds].
  destruct (String.eqb_spec (Version_Status v) ReleaseEvaluated) as [Est|]; cbn [negb]; [|apply throw_holds].
  intros w s Hs. apply markVersion_keeps; [|apply Hs]. intros _.
  apply (holds_passed id v p s Hs). rewrite Est. apply advanced_iff. auto.
Qed.

Lemma MarkStable_keeps id actor : keeps (MarkStable id actor).
Proof.
  apply GetVersion_triple. intros [[v p]|]; [|apply throw_holds].
  destruct (_ && _) eqn:Est; [apply throw_holds|].
  intros w s Hs. assert (Hp : passed id).
  { apply (holds_passed id v p s Hs), advanced_iff.
    apply andb_false_iff in Est as [E|E]; apply negb_false_iff, String.eqb_eq in E; auto. }
  revert w s Hs. cbv zeta.
  eapply triple_bind; [apply (SaveVersion_triple id v p); [apply same_version_status|by intros _]|]. intros ?.
  eapply triple_bind; [by apply Store_Put_triple|]. intros ?. apply audit_ret. by intros s [? _].
Qed.

Lemma MarkEvalResult_keeps id b actor reason :
  (b = true → passed id) → keeps (MarkEvalResult id b actor reason).
Proof.
  intros Hb. apply GetVersion_triple. intros [[v p]|]; [|apply throw_holds].
  eapply triple_bind with (Q := λ _, J); [|intros v'; by apply audit_ret].
  apply triple_if; intros Ec; [|apply triple_ret; by intros s [? _]].
  apply andb_true_iff in Ec as [-> _]. cbv zeta.
  eapply triple_bind; [apply (SaveVersion_triple id v p); [apply same_version_status|by intros _; apply Hb]|].
  intros ?. apply triple_ret. by intros s [? _].
Qed.

Lemma J_ids s : J s → store_ids s.
Proof. intros Hs id r Hr. destruct (so_versions _ _ _ Hs _ _ Hr) as [H1 H2 _ _ _ _ _]. done. Qed.

Lemma Rollback_keeps id actor reason : keeps (Rollback id actor reason).
Proof.
  apply triple_if; intros _; [by apply triple_throw|].
  apply GetVersion_triple. intros [[v p]|]; [|apply throw_holds].
  eapply triple_bind with (Q := λ _, J).
  { intros w s [Hs _]. apply markVersion_keeps; [|done]. intros Ha. by destruct (proj1 (advanced_iff _) Ha) as [?|[?|?]]. }
  intros rb.
  eapply triple_bind with (Q := λ o s, J s ∧
    match o with None => True | Some r => ∃ i, versions s !! i = Some r ∧ passed i end).
  { intros w s Hs. destruct (rollbackFallback_run v w s (J_ids s Hs)) as (o & w' & E & Ho).
    rewrite E. split; [done|]. destruct o as [r|]; [|done]. destruct Ho as (i & Hi & (_ & _ & _ & Ha) & _).
    exists i. split; [done|]. by apply (so_versions _ _ _ Hs _ _ Hi). }
  intros o. eapply triple_bind with (Q := λ _, J); [|intros ?; by apply triple_ret].
  destruct o as [[f fp]|]; [|apply triple_ret; by intros s [? _]].
  intros w s (Hs & i & Hi & Hp). assert (Hh : holds i f fp s) by by split. clear Hs Hi.
  revert w s Hh. cbv zeta.
  eapply triple_bind; [apply (SaveVersion_triple i f fp); [apply same_version_status|by intros _]|]. intros ?.
  eapply triple_bind; [by apply Store_Put_triple|]. intros ?.
  eapply triple_conseq; [apply triple_effect, policy_audit_effect|by intros s Hs; exact Hs|by intros ? s [? _]].
Qed.

(** A new version is published under a fresh id. *)
Lemma add_version_ok s id v p :
  J s → versions s !! id = None → version_ok passed id (mkPolicyVersionRecord v p) →
  J (s <| versions := <[id := mkPolicyVersionRecord v p]> (versions s) |>).
Proof.
  intros [HV HD HP HE] Hn Hv. split; [|done| |].
  - intros i r Hr. simpl in Hr. destruct (decide (id = i)) as [<-|Hne].
    + rewrite lookup_insert_eq in Hr. by injection Hr as <-.
    + rewrite lookup_insert_ne in Hr by done. by apply HV.
  - intros k q Hk. destruct (HP k q Hk) as [Ek [Hi|(i & v1 & Hi & Hp)]]; (split; [done|]); [by left|].
    right. exists i, v1. split; [|done]. simpl. rewrite lookup_insert_ne; [done|congruence].
  - intros i r Hr. destruct (HE i r Hr) as (v1 & Hv1 & Hs). exists v1. split; [|done]. simpl.
    rewrite lookup_insert_ne; [done|congruence].
Qed.

Lemma storePublished_triple d h t id actor :
  draft_ok (Draft_DraftID d) d → known id → id ≠ "" →
  StableJSON json_Marshal sha256_hex (Draft_Policy d) = inl h →
  triple (λ s, J s ∧ versions s !! id = None) (storePublished d h t id actor) (λ _, J) J.
Proof.
  intros [D1 D2 D3] Hk Hne Hh. unfold storePublished. cbv zeta.
  eapply triple_bind with (Q := λ _, J).
  - apply triple_get. intros s [Hs Hn]. cbv zeta. apply triple_put. intros ? [-> _].
    cbn [Version_Status Version_PolicyVersionID]. apply add_version_ok; [done|done|].
    by split.
  - intros ?. eapply triple_bind; [apply SaveDraft_keeps; by split|]. intros ?. by apply audit_ret.
Qed.

Lemma PublishDraft_ok id actor w s r w' s' :
  let new := "policyver" +:+ "_" +:+ env_rand (w_draws w) in
  J s → versions s !! new = None → ((w_draws w < w_draws w')%nat → known new) →
  PublishDraft json_Marshal sha256_hex id actor w s = (r, w', s') → J s'.
Proof.
  cbv zeta. intros Hs Hn Hk. unfold PublishDraft, GetDraft.
  unfold bind at 1. rewrite bind_get. unfold ret at 1.
  destruct (drafts s !! id) as [d|] eqn:Ed; [|intros [= <- <- <-]; done].
  destruct (so_drafts _ _ _ Hs _ _ Ed) as [D1 D2 D3].
  destruct (_ && _); [intros [= <- <- <-]; done|].
  destruct (StableJSON _ _ _) as [h|e] eqn:Eh; [|intros [= <- <- <-]; done].
  rewrite bind_now, (bind_Ok _ _ _ _ _ _ _ (idgen_New_run "policyver" _ s)). cbn [w_draws set_field].
  match goal with |- storePublished d h ?t ?i actor ?w1 s = _ → _ => set (new := i); set (now := t) end.
  assert (Hnew : new ≠ "") by done.
  intros E. assert (Hd : draft_ok (Draft_DraftID d) d) by by split.
  pose proof (forward_storePublished d h now new actor _ _ _ _ _ E) as Hf. cbn in Hf.
  eapply triple_outcome; [exact (storePublished_triple d h now new actor Hd (Hk Hf) Hnew Eh)| |exact E].
  by split.
Qed.
End operations.
End invariant.

(** More ids have been drawn and more versions have passed. *)
Lemma store_ok_weaken jm sha initial (known known' passed passed' : string → Prop) s0 s :
  (∀ id, known id → known' id) → (∀ id, passed id → passed' id) →
  store_ok jm sha initial known passed s0 s → store_ok jm sha initial known' passed' s0 s.
Proof.
  intros Hkn Hp [HV HD HP HE]. split; [|done| |done].
  - intros id r Hr. destruct (HV id r Hr). by split; auto.
  - intros k p Hk. destruct (HP k p Hk) as [Ek [Hi|(id & v & Hv & Hid)]]; (split; [done|]); [by left|].
    right. exists id, v. auto.
Qed.

(** ** Histories

    The operations of the manager that change the store, called by anybody in any order. *)
Inductive call :=
| CallCreateDraft (tenantID : string) (policy : PolicySet) (actorID : string)
| CallUpdateDraft (draftID : string) (policy : PolicySet) (actorID : string)
| CallValidateDraft (draftID actorID : string)
| CallValidateDraftForTenant (tenantID draftID actorID : string)
| CallPublishDraft (draftID actorID : string)
| CallPublishDraftForTenant (tenantID draftID actorID : string)
| CallMarkEvalResult (policyVersionID : string) (passed : bool) (actorID reason : string)
| CallMarkReviewed (draftID actorID : string)
| CallMarkReviewedForTenant (tenantID draftID actorID : string)
| CallMarkCanary (policyVersionID actorID : string)
| CallMarkStable (policyVersionID actorID : string)
| CallRollback (policyVersionID actorID reason : string).

Inductive outcome := Draft (d : PolicyDraft) | Version (v : PolicyVersion).

Section histories.
Context `{Env} (json_Marshal : PolicySet → string + error) (sha256_hex : string → string).
Context (initial : list PolicySet).

Definition a_draft (m : M PolicyStore PolicyDraft) : M PolicyStore outcome :=
  let! d := m in ret (Draft d).
Definition a_version (m : M PolicyStore PolicyVersion) : M PolicyStore outcome :=
  let! v := m in ret (Version v).

Definition run_call (c : call) : M PolicyStore outcome :=
  match c with
  | CallCreateDraft t p a => a_draft (CreateDraft t p a)
  | CallUpdateDraft id p a => a_draft (UpdateDraft id p a)
  | CallValidateDraft id a => a_draft (ValidateDraft id a)
  | CallValidateDraftForTenant t id a => a_draft (ValidateDraftForTenant t id a)
  | CallPublishDraft id a => a_version (PublishDraft json_Marshal sha256_hex id a)
  | CallPublishDraftForTenant t id a =>
      a_version (PublishDraftForTenant json_Marshal sha256_hex t id a)
  | CallMarkEvalResult id b a r => a_version (MarkEvalResult id b a r)
  | CallMarkReviewed id a => a_draft (MarkReviewed id a)
  | CallMarkReviewedForTenant t id a => a_draft (MarkReviewedForTenant t id a)
  | CallMarkCanary id a => a_version (MarkCanary id a)
  | CallMarkStable id a => a_version (MarkStable id a)
  | CallRollback id a r => a_version (Rollback id a r)
  end.

(** The calls with their results; between them the rest of the program may draw ids. *)
Inductive history : list (call * Res outcome) → World → PolicyStore → Prop :=
| history_new w : history [] w (NewPolicyStore initial)
| history_call h w s c r w' s' :
    history h w s → run_call c w s = (r, w', s') → history (h ++ [(c, r)]) w' s'
| history_world h w w' s : history h w s → (w_draws w ≤ w_draws w')%nat → history h w' s.

(** An evaluation of the version has been reported as passed. *)
Definition passed (h : list (call * Res outcome)) (id : string) : Prop :=
  ∃ actor reason v, (CallMarkEvalResult id true actor reason, Ok (Version v)) ∈ h.

Definition drawn (w : World) (id : string) : Prop :=
  ∃ n, (n < w_draws w)%nat ∧ id = "policyver" +:+ "_" +:+ env_rand n.

Lemma forward_run_call c : forward (run_call c).
Proof.
  destruct c; simpl; unfold a_draft, a_version; (apply forward_bind; [|intros; apply forward_ret]).
  - unfold CreateDraft, nextPolicyVersion. cbv zeta. go_forward.
  - unfold UpdateDraft. cbv zeta. go_forward.
  - auto with forward.
  - unfold ValidateDraftForTenant. go_forward.
  - auto with forward.
  - unfold PublishDraftForTenant. go_forward.
  - unfold MarkEvalResult. cbv zeta. go_forward.
  - auto with forward.
  - unfold MarkReviewedForTenant. go_forward.
  - unfold MarkCanary. go_forward.
  - unfold MarkStable. cbv zeta. go_forward.
  - unfold Rollback. cbv zeta. go_forward.
Qed.

(** A run of [m] and the label of its result. *)
Lemma label_inv {A} (m : M PolicyStore A) (f : A → outcome) w s r w' s' :
  bind m (λ x, ret (f x)) w s = (r, w', s') → ∃ r0, m w s = (r0, w', s').
Proof. unfold bind, ret. destruct (m w s) as [[[x|e|] w1] s1]; intros [= <- <- <-]; by eexists. Qed.

Lemma MarkEvalResult_run id b a reason w s :
  match versions s !! id with
  | None => MarkEvalResult id b a reason w s = (Err (version_not_found id), w, s)
  | Some _ => ∃ v w' s', MarkEvalResult id b a reason w s = (Ok v, w', s')
  end.
Proof.
  unfold MarkEvalResult. rewrite bind_GetVersion.
  destruct (versions s !! id) as [[v p]|]; [|done]. cbv zeta.
  assert (Hend : ∀ v1 w1 s1, ∃ w2, (do! policy_audit (Version_TenantID v1) a "policy.eval" id
      (if b then "allowed" else "denied") reason in ret v1) w1 s1 = (Ok v1, w2, s1)).
  { intros v1 w1 s1. edestruct policy_audit_effect as ([] & w2 & E).
    exists w2. by rewrite (bind_Ok _ _ _ _ _ _ _ E). }
  destruct (b && _).
  - destruct (SaveVersion_run (v <| Version_Status := ReleaseEvaluated |>) p w s) as [s1 Es].
    edestruct Hend as [w2 E]. eexists _, w2, s1.
    erewrite bind_Ok; [exact E|]. by rewrite (bind_Ok _ _ _ _ _ _ _ Es).
  - rewrite bind_ret. edestruct Hend as [w2 E]. rewrite E. by eexists _, _, _.
Qed.

Lemma fresh_id w s s0 P :
  rand_unique → store_ok json_Marshal sha256_hex initial (drawn w) P s0 s →
  versions s !! ("policyver" +:+ "_" +:+ env_rand (w_draws w)) = None.
Proof.
  intros Hu Hs. destruct (versions s !! _) as [r|] eqn:E; [|done]. exfalso.
  destruct (vo_known _ _ _ _ _ _ (so_versions _ _ _ _ _ _ _ Hs _ _ E)) as (n & Hn & En).
  apply idgen_inj, Hu in En. lia.
Qed.
Lemma draftForTenant_run t id w s : ∃ r, draftForTenant t id w s = (r, w, s).
Proof.
  unfold draftForTenant. rewrite bind_GetDraft. destruct (drafts s !! id) as [d|]; [|by eexists].
  destruct (negb _); by eexists.
Qed.

Lemma run_call_ok h c w s0 s r w' s' :
  rand_unique → store_ok json_Marshal sha256_hex initial (drawn w) (passed h) s0 s →
  run_call c w s = (r, w', s') →
  store_ok json_Marshal sha256_hex initial (drawn w') (passed (h ++ [(c, r)])) s0 s'.
Proof.
  intros Hu Hs E. pose proof (forward_run_call c _ _ _ _ _ E) as Hw.
  pose proof (fresh_id w s s0 _ Hu Hs) as Hfresh.
  assert (Hs' : store_ok json_Marshal sha256_hex initial (drawn w') (passed (h ++ [(c, r)])) s0 s).
  { eapply store_ok_weaken; [| |exact Hs].
    - intros id (n & ? & ?). exists n. split; [lia|done].
    - intros id (a & b & v & Hin). exists a, b, v. apply elem_of_app. by left. }
  assert (Hpub : ∀ id a r0, PublishDraft json_Marshal sha256_hex id a w s = (r0, w', s') →
    store_ok json_Marshal sha256_hex initial (drawn w') (passed (h ++ [(c, r)])) s0 s').
  { intros id a r0 Ep. eapply PublishDraft_ok; [exact Hs'|exact Hfresh| |exact Ep].
    intros Hlt. by exists (w_draws w). }
  assert (Hkeep : ∀ A (m : M PolicyStore A) (f : A → outcome),
    triple (store_ok json_Marshal sha256_hex initial (drawn w') (passed (h ++ [(c, r)])) s0) m
      (λ _, store_ok json_Marshal sha256_hex initial (drawn w') (passed (h ++ [(c, r)])) s0)
      (store_ok json_Marshal sha256_hex initial (drawn w') (passed (h ++ [(c, r)])) s0) →
    bind m (λ x, ret (f x)) w s = (r, w', s') →
    store_ok json_Marshal sha256_hex initial (drawn w') (passed (h ++ [(c, r)])) s0 s').
  { intros A m f Ht Em. apply label_inv in Em as [r0 Em]. by eapply triple_inv. }
  clear Hs. destruct c; simpl in E; unfold a_draft, a_version in E.
  - eapply Hkeep; [apply CreateDraft_keeps|exact E].
  - eapply Hkeep; [apply UpdateDraft_keeps|exact E].
  - eapply Hkeep; [apply ValidateDraft_keeps|exact E].
  - eapply Hkeep; [|exact E]. apply draftForTenant_keeps. intros d. apply ValidateDraft_keeps.
  - apply label_inv in E as [r0 E]. by eapply Hpub.
  - apply label_inv in E as [r0 E]. unfold PublishDraftForTenant in E.
    destruct (draftForTenant_run tenantID draftID w s) as [r1 E1]. unfold bind in E. rewrite E1 in E.
    destruct r1; [by eapply Hpub| |]; injection E as _ _ <-; exact Hs'.
  - pose proof (MarkEvalResult_run policyVersionID passed0 actorID reason w s) as Hr.
    destruct (versions s !! policyVersionID).
    + eapply Hkeep; [|exact E]. apply MarkEvalResult_keeps. intros ->.
      destruct Hr as (v & w1 & s1 & Er). rewrite (bind_Ok _ _ _ _ _ _ _ Er) in E.
      injection E as <- <- <-. exists actorID, reason, v. apply elem_of_app. right. by left.
    + rewrite (bind_Err _ _ _ _ _ _ _ Hr) in E. injection E as _ _ <-. exact Hs'.
  - eapply Hkeep; [apply MarkReviewed_keeps|exact E].
  - eapply Hkeep; [|exact E]. apply draftForTenant_keeps. intros d. apply MarkReviewed_keeps.
  - eapply Hkeep; [apply MarkCanary_keeps|exact E].
  - eapply Hkeep; [apply MarkStable_keeps|exact E].
  - eapply Hkeep; [apply Rollback_keeps|exact E].
Qed.

Lemma fold_put_policy l : ∀ s,
  versions (fold_left put_policy l s) = versions s ∧ drafts (fold_left put_policy l s) = drafts s ∧
  ∀ k p, policies (fold_left put_policy l s) !! k = Some p →
    (k = key (PolicySet_TenantID p) (PolicySet_PolicySetID p) ∧ p ∈ l) ∨ policies s !! k = Some p.
Proof.
  induction l as [|x l IH]; intros s; simpl; [by auto|].
  destruct (IH (put_policy s x)) as (E1 & E2 & E3). split; [done|]. split; [done|].
  intros k p Hk. destruct (E3 k p Hk) as [[? ?]|Hx].
  - left. split; [done|]. by right.
  - unfold put_policy in Hx. simpl in Hx.
    destruct (decide (key (PolicySet_TenantID x) (PolicySet_PolicySetID x) = k)) as [<-|Hne].
    + rewrite lookup_insert_eq in Hx. injection Hx as <-. left. split; [done|]. by left.
    + rewrite lookup_insert_ne in Hx by done. by right.
Qed.

Lemma NewPolicyStore_ok w : store_ok json_Marshal sha256_hex initial (drawn w) (passed [])
  (NewPolicyStore initial) (NewPolicyStore initial).
Proof.
  destruct (fold_put_policy initial (mkPolicyStore ∅ ∅ ∅)) as (E1 & E2 & E3).
  fold (NewPolicyStore initial) in *. split.
  - intros id r Hr. rewrite E1 in Hr. done.
  - intros id d Hd. rewrite E2 in Hd. done.
  - intros k p Hk. destruct (E3 k p Hk) as [[Ek Hp]|Hk']; [|done]. split; [done|by left].
  - apply extends_refl.
Qed.

Lemma history_ok h w s :
  rand_unique → history h w s →
  store_ok json_Marshal sha256_hex initial (drawn w) (passed h) s s.
Proof.
  intros Hu. induction 1 as [w|h w s c r w' s' _ IH E|h w w' s _ IH Hw].
  - apply NewPolicyStore_ok.
  - eapply store_ok_rebase, run_call_ok; [done|exact IH|exact E].
  - eapply store_ok_weaken; [| |exact IH]; [|done]. intros id (n & ? & ?). exists n. split; [lia|done].
Qed.
End histories.

(** ** Properties *)

(** C11. No policy takes effect unevaluated.  Whatever the sequence of calls of the manager, a
    policy in force is filed under its own tenant and set, and either the store was created
    with it, or it is the policy of a stored version for which a passed evaluation has been
    reported: being validated, reviewed or published is not enough, and neither a canary nor
    a rollback is a way around. *)
Theorem policy_in_force_evaluated `{Env} json_Marshal sha256_hex initial h w s k p :
  rand_unique → history json_Marshal sha256_hex initial h w s → policies s !! k = Some p →
  k = key (PolicySet_TenantID p) (PolicySet_PolicySetID p) ∧
  (p ∈ initial ∨
   ∃ id v, versions s !! id = Some (mkPolicyVersionRecord v p) ∧ passed h id).
Proof.
  intros Hu Hh Hk. pose proof (history_ok _ _ _ _ _ _ Hu Hh) as Hs.
  exact (so_policies _ _ _ _ _ _ _ Hs k p Hk).
Qed.

(** C12. A published version is immutable.  Whatever call is made, after any history, every
    version keeps its policy and everything else but its status; and in the resulting store
    each version is filed under its id, carries the hash of its policy, belongs to the tenant
    and set of its policy, and has passed an evaluation if it is evaluated, canary or
    stable. *)
Theorem policy_versions_immutable `{Env} json_Marshal sha256_hex initial h w s c r w' s' :
  rand_unique → history json_Marshal sha256_hex initial h w s →
  run_call json_Marshal sha256_hex c w s = (r, w', s') →
  extends s s' ∧
  ∀ id v p, versions s' !! id = Some (mkPolicyVersionRecord v p) →
    Version_PolicyVersionID v = id ∧
    StableJSON json_Marshal sha256_hex p = inl (Version_PolicyHash v) ∧
    PolicySet_TenantID p = Version_TenantID v ∧ PolicySet_PolicySetID p = Version_PolicySetID v ∧
    (advanced (Version_Status v) → passed (h ++ [(c, r)]) id).
Proof.
  intros Hu Hh E. pose proof (history_ok _ _ _ _ _ _ Hu Hh) as Hs.
  pose proof (run_call_ok _ _ _ _ _ _ _ _ _ _ _ Hu Hs E) as Hs'.
  split; [apply (so_extends _ _ _ _ _ _ _ Hs')|]. intros id v p Hv.
  destruct (so_versions _ _ _ _ _ _ _ Hs' _ _ Hv) as [H1 H2 H3 H4 H5 H6 H7]. done.
Qed.

Section rollback_run.
Context `{Env}.

Lemma markVersion_run id status a x reason w s v p :
  versions s !! id = Some (mkPolicyVersionRecord v p) → Version_PolicyVersionID v = id →
  status ≠ ReleaseStable →
  ∃ w', markVersion id status a x reason w s = (Ok (v <| Version_Status := status |>), w',
    s <| versions := <[id := mkPolicyVersionRecord (v <| Version_Status := status |>) p]> (versions s) |>).
Proof.
  intros Hv Hid Hst. unfold markVersion. rewrite bind_GetVersion, Hv. cbv zeta.
  unfold SaveVersion. unfold bind at 1. rewrite bind_get. cbv zeta. unfold put at 1.
  change (Version_PolicyVersionID (v <| Version_Status := status |>)) with (Version_PolicyVersionID v).
  change (Version_Status (v <| Version_Status := status |>)) with status.
  rewrite Hid, (eqb_neq_false _ _ Hst), bind_ret.
  edestruct policy_audit_effect as ([] & w' & E). exists w'. by rewrite (bind_Ok _ _ _ _ _ _ _ E).
Qed.

(** A version becomes stable, and its policy the one in force. *)
Definition make_stable (s : PolicyStore) (id : string) (v : PolicyVersion) (p : PolicySet) : PolicyStore :=
  put_policy (s <| versions := <[id := mkPolicyVersionRecord (v <| Version_Status := ReleaseStable |>) p]>
                                 (versions s) |>) p.

Lemma put_policy_twice s p : put_policy (put_policy s p) p = put_policy s p.
Proof. destruct s. unfold put_policy. cbn. by rewrite insert_insert_eq. Qed.

Lemma restore_run id v p a x reason w s :
  Version_PolicyVersionID v = id →
  ∃ w', (do! SaveVersion (v <| Version_Status := ReleaseStable |>) p in
         do! Store_Put p in policy_audit (Version_TenantID v) a x id "allowed" reason) w s
    = (Ok tt, w', make_stable s id v p).
Proof.
  intros Hid. unfold SaveVersion. unfold bind at 1. rewrite bind_get. cbv zeta. unfold put at 1.
  change (Version_PolicyVersionID (v <| Version_Status := ReleaseStable |>)) with (Version_PolicyVersionID v).
  change (Version_Status (v <| Version_Status := ReleaseStable |>)) with ReleaseStable.
  rewrite Hid, eqb_refl_true. unfold Store_Put. unfold bind at 1. rewrite bind_get.
  unfold put at 1. rewrite put_policy_twice. fold (make_stable s id v p).
  destruct (policy_audit_effect (Version_TenantID v) a x id "allowed" reason w (make_stable s id v p))
    as ([] & w' & E). by exists w'.
Qed.
End rollback_run.

(** Rollback, on every branch.  Without a reason, or for a version that does not exist,
    it fails and changes nothing.  Otherwise the version is marked rolled back; and if other
    versions of its tenant and set are stable, canary or evaluated, the best of them, the
    furthest released and among those the newest, becomes stable and its policy is put in
    force.  If there is none nothing else changes: the policy in force stays the one it was,
    even if it is that of the version rolled back. *)
Theorem rollback_correct `{Env} id actor reason w s :
  store_ids s →
  match Rollback id actor reason w s with
  | (Ok v', _, s') => ∃ v p,
      versions s !! id = Some (mkPolicyVersionRecord v p) ∧
      v' = v <| Version_Status := ReleaseRolledBack |> ∧
      let s1 := s <| versions := <[id := mkPolicyVersionRecord v' p]> (versions s) |> in
      (s' = s1 ∧ (∀ i r, versions s !! i = Some r → ¬ candidate v r)) ∨
      (∃ i f fp, versions s !! i = Some (mkPolicyVersionRecord f fp) ∧
         candidate v (mkPolicyVersionRecord f fp) ∧
         (∀ i' r', versions s !! i' = Some r' → candidate v r' → as_good f (record_version r')) ∧
         s' = make_stable s1 i f fp)
  | (Err _, _, s') => s' = s ∧ (reason = "" ∨ versions s !! id = None)
  | (Panic, _, _) => False
  end.
Proof.
  intros Hids. unfold Rollback. destruct (String.eqb_spec reason "") as [->|Hr];
    [unfold throw; by auto|].
  rewrite bind_GetVersion. destruct (versions s !! id) as [[v p]|] eqn:Ev; [|unfold throw; by auto].
  destruct (Hids _ _ Ev) as [Eid Hne]. simpl in Eid.
  destruct (markVersion_run id ReleaseRolledBack actor "policy.rollback" reason w s v p Ev Eid) as [w1 E1];
    [done|].
  set (v' := v <| Version_Status := ReleaseRolledBack |>) in *.
  set (s1 := s <| versions := _ |>) in *. rewrite (bind_Ok _ _ _ _ _ _ _ E1).
  assert (Hs1 : ∀ i r, candidate v r → versions s1 !! i = Some r ↔ versions s !! i = Some r).
  { intros i r (_ & _ & Hn & _). subst s1. simpl. destruct (decide (id = i)) as [<-|Hi].
    - rewrite lookup_insert_eq, Ev. split; intros [= <-]; exfalso; by apply Hn.
    - by rewrite lookup_insert_ne. }
  assert (Hids1 : store_ids s1).
  { intros i r Hi. subst s1. simpl in Hi. destruct (decide (id = i)) as [<-|Hi'].
    - rewrite lookup_insert_eq in Hi. by injection Hi as <-.
    - rewrite lookup_insert_ne in Hi by done. by apply Hids. }
  destruct (rollbackFallback_run v w1 s1 Hids1) as (o & w2 & E2 & Ho).
  rewrite (bind_Ok _ _ _ _ _ _ _ E2). destruct o as [[f fp]|].
  - destruct Ho as (i & Hi & Hc & Hbest). destruct (Hids1 _ _ Hi) as [Ef _]. simpl in Ef.
    destruct (restore_run i f fp actor "policy.rollback.restore" reason w2 s1 Ef) as [w3 E3].
    cbv zeta. change (Version_TenantID (f <| Version_Status := ReleaseStable |>)) with (Version_TenantID f).
    change (Version_PolicyVersionID (f <| Version_Status := ReleaseStable |>)) with (Version_PolicyVersionID f).
    rewrite Ef, (bind_Ok _ _ _ _ _ _ _ E3). simpl. exists v, p. split; [done|]. split; [done|].
    right. exists i, f, fp. split; [by apply Hs1|]. split; [done|]. split; [|done].
    intros i' r' Hr' Hc'. apply (Hbest i'); [by apply Hs1|done].
  - rewrite bind_ret. simpl. exists v, p. split; [done|]. split; [done|]. left. split; [done|].
    intros i r Hi Hc. apply (Ho i r); [by apply Hs1|done].
Qed.

(** ** Concrete histories *)

Section runs.
Context `{Env} (json_Marshal : PolicySet → string + error) (sha256_hex : string → string).
Context (initial : list PolicySet).

Fixpoint run_calls (cs : list call) (w : World) (s : PolicyStore)
    : list (call * Res outcome) * World * PolicyStore :=
  match cs with
  | [] => ([], w, s)
  | c :: cs =>
      match run_call json_Marshal sha256_hex c w s with
      | (r, w', s') =>
          match run_calls cs w' s' with (h, w'', s'') => ((c, r) :: h, w'', s'') end
      end
  end.

Lemma run_calls_history cs : ∀ h w s, history json_Marshal sha256_hex initial h w s →
  match run_calls cs w s with
  | (k, w', s') => history json_Marshal sha256_hex initial (h ++ k) w' s'
  end.
Proof.
  induction cs as [|c cs IH]; simpl; intros h w s Hh; [by rewrite app_nil_r|].
  destruct (run_call json_Marshal sha256_hex c w s) as [[r w1] s1] eqn:E.
  pose proof (IH _ _ _ (history_call _ _ _ h w s c r w1 s1 Hh E)) as Hr.
  destruct (run_calls cs w1 s1) as [[k w2] s2]. by rewrite <- app_assoc in Hr.
Qed.
End runs.

(** Two policies of one set, each drafted, validated, published and evaluated; then the
    second is made stable, and after it the first. *)
Definition demo_policy (version : string) : PolicySet :=
  zeroPolicySet <| PolicySet_PolicySetID := "set" |> <| PolicySet_Version := version |>.
Definition demo_marshal (p : PolicySet) : string + error := inl (PolicySet_Version p).
Definition demo_sum (s : string) : string := s.
Definition demo_calls : list call :=
  [CallCreateDraft "t" (demo_policy "one") "ann"; CallValidateDraft "policydraft_0" "ann";
   CallPublishDraft "policydraft_0" "ann"; CallMarkEvalResult "policyver_1" true "ann" "";
   CallCreateDraft "t" (demo_policy "two") "ann"; CallValidateDraft "policydraft_2" "ann";
   CallPublishDraft "policydraft_2" "ann"; CallMarkEvalResult "policyver_3" true "ann" "";
   CallMarkStable "policyver_3" "ann"; CallMarkStable "policyver_1" "ann"].
Definition quiet_world : World := mkWorld 0 0 0 None None.
Definition demo_run :=
  Eval vm_compute in run_calls demo_marshal demo_sum demo_calls quiet_world (NewPolicyStore []).

Lemma demo_history : history demo_marshal demo_sum [] demo_run.1.1 demo_run.1.2 demo_run.2.
Proof.
  pose proof (run_calls_history demo_marshal demo_sum [] demo_calls [] quiet_world (NewPolicyStore [])
    (history_new _ _ _ quiet_world)) as Hh.
  destruct (run_calls _ _ demo_calls _ _) as [[k w] s] eqn:E.
  assert (E' : (k, w, s) = demo_run) by (rewrite <- E; vm_compute; reflexivity).
  rewrite <- E'. exact Hh.
Qed.

(** The policies of the demonstration as they are stored. *)
Definition demo_stored (version : string) (at_ : Time) : PolicySet :=
  (demo_policy version) <| PolicySet_TenantID := "t" |> <| PolicySet_CreatedAt := at_ |>.

Definition all_ok (h : list (call * Res outcome)) : bool :=
  forallb (λ e, match e.2 with Ok _ => true | _ => false end) h.

(** The version that tasks are started with need not be the policy in force.  After the
    second of two versions has been made stable and then the first, both are stable; the
    policy that Store.Get returns is that of the first, which was made stable last, while
    CurrentVersion selects the second, whose draft is newer. *)
Theorem current_version_disagrees :
  ∃ h w s one two r,
    history demo_marshal demo_sum [] h w s ∧ all_ok h = true ∧
    PolicySet_Version one = "one" ∧ PolicySet_Version two = "two" ∧
    (Store_Get "t" "set" w s).1.1 = Ok (Some one) ∧
    (CurrentVersion "t" "set" w s).1.1 = Ok (Some r) ∧ record_policy r = two.
Proof.
  exists demo_run.1.1, demo_run.1.2, demo_run.2, (demo_stored "one" 1000), (demo_stored "two" 1004).
  eexists. split; [exact demo_history|].
  split; [vm_compute; reflexivity|]. split; [reflexivity|]. split; [reflexivity|].
  split; [vm_compute; reflexivity|]. split; [vm_compute; reflexivity|]. vm_compute. reflexivity.
Qed.

Lemma policy_in_force_evaluated_witness :
  policies demo_run.2 !! key "t" "set" = Some (demo_stored "one" 1000) ∧
  passed demo_run.1.1 "policyver_1" ∧
  (demo_stored "one" 1000 ∈ [] ∨
   ∃ id v, versions demo_run.2 !! id = Some (mkPolicyVersionRecord v (demo_stored "one" 1000)) ∧
           passed demo_run.1.1 id).
Proof.
  assert (Hk : policies demo_run.2 !! key "t" "set" = Some (demo_stored "one" 1000))
    by (vm_compute; reflexivity).
  split; [exact Hk|]. split.
  - eexists "ann", "", _. unfold demo_run. simpl. do 3 right. by left.
  - apply (policy_in_force_evaluated _ _ _ _ _ _ _ _ test_rand_unique demo_history Hk).
Defined.

Lemma policy_versions_immutable_witness :
  ∃ s', (run_call demo_marshal demo_sum (CallRollback "policyver_1" "ann" "bad") demo_run.1.2 demo_run.2).2
    = s' ∧ extends demo_run.2 s' ∧
  ∀ id v p, versions s' !! id = Some (mkPolicyVersionRecord v p) → Version_PolicyVersionID v = id.
Proof.
  destruct (run_call demo_marshal demo_sum (CallRollback "policyver_1" "ann" "bad") demo_run.1.2 demo_run.2)
    as [[r w'] s'] eqn:E.
  exists s'. split; [reflexivity|].
  destruct (policy_versions_immutable _ _ _ _ _ _ _ _ _ _ test_rand_unique demo_history E) as [H1 H2].
  split; [exact H1|]. intros id v p Hv. exact (proj1 (H2 id v p Hv)).
Defined.

Lemma rollback_correct_witness :
  store_ids demo_run.2 ∧
  (Rollback "policyver_1" "ann" "bad" demo_run.1.2 demo_run.2).2.(policies) !! key "t" "set"
    = Some (demo_stored "two" 1004) ∧
  match Rollback "policyver_1" "ann" "bad" demo_run.1.2 demo_run.2 with
  | (Ok v', _, s') => ∃ v p,
      versions demo_run.2 !! "policyver_1" = Some (mkPolicyVersionRecord v p) ∧
      v' = v <| Version_Status := ReleaseRolledBack |>
  | _ => False
  end.
Proof.
  assert (Hids : store_ids demo_run.2).
  { apply (J_ids demo_marshal demo_sum [] (drawn demo_run.1.2) (passed demo_run.1.1) demo_run.2).
    apply history_ok; [exact test_rand_unique|exact demo_history]. }
  split; [exact Hids|]. split; [vm_compute; reflexivity|].
  pose proof (rollback_correct "policyver_1" "ann" "bad" demo_run.1.2 demo_run.2 Hids) as Hr.
  destruct (Rollback "policyver_1" "ann" "bad" demo_run.1.2 demo_run.2) as [[[v'|e|] w'] s'].
  - destruct Hr as (v & p & Hv & Hv' & _). exists v, p. by split.
  - destruct Hr as [_ [Hr|Hr]]; [discriminate Hr|]. vm_compute in Hr. discriminate Hr.
  - exact Hr.
Defined.
