(* ===== verification/Process.v ===== *)
(** * Governance processes: internal/governance/process

    The in-memory store and the service: templates of gates, runs of a process with their
    gates, reviews and the consensus over them, escalation and arbitration.  A call of the
    service, several calls of the store, runs here without others in between.  The metadata
    maps of gates are references into a heap, because [mergeMetadata] writes in place. *)

From S2P Require Import Prelude Contracts GoMonad Storage.
From stdpp Require Import base list strings gmap fin_maps pretty.
From Stdlib Require Import Lia.
Open Scope go_scope.
Open Scope string_scope.
Open Scope list_scope.

(** The store, and the heap of the metadata maps. *)
Record Governance := mkGovernance {
  templates : gmap string GovernanceProcessTemplate;
  gov_runs : gmap string GovernanceProcessRun;
  gates : gmap string GovernanceGateRun;
  gov_reviews : gmap string GovernanceReview;
  conflicts : gmap string GovernanceConflict;
  heap : list (gmap string Any)
}.
#[export] Instance eta_Governance : Settable Governance :=
  fields! mkGovernance < templates ; gov_runs ; gates ; gov_reviews ; conflicts ; heap >.

Definition NewGovernance : Governance := mkGovernance ∅ ∅ ∅ ∅ ∅ [].

Record UpsertTemplateInput := mkUpsertTemplateInput {
  UT_TenantID : string;
  UT_TemplateID : string;
  UT_Name : string;
  UT_Version : string;
  UT_Status : string;
  UT_Gates : list GovernanceGateDefinition;
  UT_Metadata : gmap string Any;
  UT_ActorID : string
}.

Record StartRunInput := mkStartRunInput {
  SR_TenantID : string;
  SR_TemplateID : string;
  SR_SubjectType : string;
  SR_SubjectID : string;
  SR_TaskID : string;
  SR_AgentRunID : string;
  SR_TraceID : string;
  SR_PolicySetID : string;
  SR_Actors : list GovernanceActorRef;
  SR_Gates : list GovernanceGateDefinition;
  SR_Metadata : gmap string Any;
  SR_ActorID : string
}.

(** [None] is nil metadata. *)
Record OpenGateInput := mkOpenGateInput {
  OG_TenantID : string;
  OG_ProcessRunID : string;
  OG_GateRunID : string;
  OG_GateID : string;
  OG_ArtifactRefs : list GovernanceArtifactRef;
  OG_EvidenceRefs : list GovernanceEvidenceRef;
  OG_Metadata : option (gmap string Any);
  OG_ActorID : string
}.

Record ReviewInput := mkReviewInput {
  RVI_TenantID : string;
  RVI_GateRunID : string;
  RVI_ReviewerID : string;
  RVI_ReviewerType : string;
  RVI_Decision : GovernanceReviewDecision;
  RVI_Reason : string;
  RVI_EvidenceRefs : list GovernanceEvidenceRef;
  RVI_Independent : bool
}.

Record EscalateInput := mkEscalateInput {
  EI_TenantID : string;
  EI_GateRunID : string;
  EI_Issue : string;
  EI_Arguments : list GovernanceEvidenceRef;
  EI_EscalatedTo : string;
  EI_ActorID : string
}.

Record ArbitrateInput := mkArbitrateInput {
  AI_TenantID : string;
  AI_ConflictID : string;
  AI_Decision : GovernanceReviewDecision;
  AI_Reason : string;
  AI_ArbitratorID : string
}.

(** ** The store *)

Definition templateKey (tenantID templateID : string) : string := tenantID +:+ "/" +:+ templateID.

Section store.
Context `{Env}.

Definition Store_UpsertTemplate (template : GovernanceProcessTemplate) : M Governance unit :=
  let! s := get in
  put (s <| templates := <[templateKey template.(Template_TenantID) template.(Template_TemplateID)
                             := template]> s.(templates) |>).

Definition GetTemplate (tenantID templateID : string)
    : M Governance (option GovernanceProcessTemplate) :=
  let! s := get in ret (s.(templates) !! templateKey tenantID templateID).

Definition put_gates (gs : list GovernanceGateRun) (m : gmap string GovernanceGateRun)
    : gmap string GovernanceGateRun :=
  fold_left (λ m gate, <[gate.(Gate_GateRunID) := gate]> m) gs m.

Definition CreateRun (run : GovernanceProcessRun) (gs : list GovernanceGateRun)
    : M Governance unit :=
  let! s := get in
  match s.(gov_runs) !! run.(PRun_RunID) with
  | Some _ => throw ErrDuplicateRequest
  | None => put (s <| gov_runs := <[run.(PRun_RunID) := run]> s.(gov_runs) |>
                   <| gates := put_gates gs s.(gates) |>)
  end.

Definition GetRun (tenantID runID : string) : M Governance (option GovernanceProcessRun) :=
  let! s := get in
  ret (match s.(gov_runs) !! runID with
       | Some run => if run.(PRun_TenantID) != tenantID then None else Some run
       | None => None
       end).

Definition UpdateRun (run : GovernanceProcessRun) : M Governance unit :=
  let! s := get in
  match s.(gov_runs) !! run.(PRun_RunID) with
  | None => throw ErrNotFound
  | Some _ => put (s <| gov_runs := <[run.(PRun_RunID) := run]> s.(gov_runs) |>)
  end.

Definition GetGate (tenantID gateRunID : string) : M Governance (option GovernanceGateRun) :=
  let! s := get in
  ret (match s.(gates) !! gateRunID with
       | Some gate => if gate.(Gate_TenantID) != tenantID then None else Some gate
       | None => None
       end).

Definition gate_of (tenantID runID : string) (gate : GovernanceGateRun) : bool :=
  (gate.(Gate_TenantID) == tenantID) && (gate.(Gate_ProcessRunID) == runID).

Definition GetGateByDefinition (tenantID runID gateID : string)
    : M Governance (option GovernanceGateRun) :=
  let! s := get in
  let! entries := range_map s.(gates) in
  ret (List.find (λ gate, gate_of tenantID runID gate && (gate.(Gate_GateID) == gateID))
         (map snd entries)).

Definition ListGates (tenantID runID : string) : M Governance (list GovernanceGateRun) :=
  let! s := get in
  let! entries := range_map s.(gates) in
  ret (List.filter (gate_of tenantID runID) (map snd entries)).

Definition UpdateGate (gate : GovernanceGateRun) : M Governance unit :=
  let! s := get in
  match s.(gates) !! gate.(Gate_GateRunID) with
  | None => throw ErrNotFound
  | Some _ => put (s <| gates := <[gate.(Gate_GateRunID) := gate]> s.(gates) |>)
  end.

Definition SaveReview (review : GovernanceReview) : M Governance unit :=
  let! s := get in
  put (s <| gov_reviews := <[review.(Review_ReviewID) := review]> s.(gov_reviews) |>).

Definition ListReviews (tenantID runID : string) : M Governance (list GovernanceReview) :=
  let! s := get in
  let! entries := range_map s.(gov_reviews) in
  ret (List.filter (λ r, (r.(Review_TenantID) == tenantID) && (r.(Review_ProcessRunID) == runID))
         (map snd entries)).

Definition review_of (tenantID gateRunID : string) (r : GovernanceReview) : bool :=
  (r.(Review_TenantID) == tenantID) && (r.(Review_GateRunID) == gateRunID).

Definition ListReviewsByGate (tenantID gateRunID : string) : M Governance (list GovernanceReview) :=
  let! s := get in
  let! entries := range_map s.(gov_reviews) in
  ret (List.filter (review_of tenantID gateRunID) (map snd entries)).

Definition SaveConflict (conflict : GovernanceConflict) : M Governance unit :=
  let! s := get in
  put (s <| conflicts := <[conflict.(Conflict_ConflictID) := conflict]> s.(conflicts) |>).

Definition UpdateConflict (conflict : GovernanceConflict) : M Governance unit :=
  let! s := get in
  match s.(conflicts) !! conflict.(Conflict_ConflictID) with
  | None => throw ErrNotFound
  | Some _ => put (s <| conflicts := <[conflict.(Conflict_ConflictID) := conflict]> s.(conflicts) |>)
  end.

Definition GetConflict (tenantID conflictID : string) : M Governance (option GovernanceConflict) :=
  let! s := get in
  ret (match s.(conflicts) !! conflictID with
       | Some c => if c.(Conflict_TenantID) != tenantID then None else Some c
       | None => None
       end).

Definition ListConflicts (tenantID runID : string) : M Governance (list GovernanceConflict) :=
  let! s := get in
  let! entries := range_map s.(conflicts) in
  ret (List.filter (λ c, (c.(Conflict_TenantID) == tenantID) && (c.(Conflict_ProcessRunID) == runID))
         (map snd entries)).
End store.

(** ** Gate definitions *)

Definition validateReviewMode (mode : GovernanceReviewMode) : option error :=
  if mem_string mode [GovernanceReviewNone; GovernanceReviewSingle; GovernanceReviewMulti]
  then None else Some (Errorf "unknown governance review_mode %q" [mode]).

Definition validateConsensusPolicy (policy : GovernanceConsensusPolicy) : option error :=
  if mem_string policy [GovernanceConsensusAny; GovernanceConsensusMajority; GovernanceConsensusAll]
  then None else Some (Errorf "unknown governance consensus_policy %q" [policy]).

Definition validateEscalationPolicy (policy : GovernanceEscalationPolicy) : option error :=
  if mem_string policy [GovernanceEscalationNone; GovernanceEscalationOrchestrator]
  then None else Some (Errorf "unknown governance escalation_policy %q" [policy]).

Definition validateReviewDecision (decision : GovernanceReviewDecision) : option error :=
  if mem_string decision [GovernanceReviewApprove; GovernanceReviewReject; GovernanceReviewRevise;
                          GovernanceReviewAbstain]
  then None else Some (Errorf "unknown governance review decision %q" [decision]).

Definition defaultRequiredReviewers (mode : GovernanceReviewMode) : Z :=
  if mode == GovernanceReviewSingle then 1
  else if mode == GovernanceReviewMulti then 2
  else 0.

Definition defaultMinApprovals (required : Z) (policy : GovernanceConsensusPolicy) : Z :=
  if (required <=? 0)%Z then 0
  else if policy == GovernanceConsensusAny then 1
  else if policy == GovernanceConsensusAll then required
  else required / 2 + 1.

(** The rest of the turn of the loop for one gate, once its id is known to be new. *)
Definition normalizeGate (gate : GovernanceGateDefinition) : GovernanceGateDefinition + error :=
  let gate := if gate.(GateDef_Name) == "" then gate <| GateDef_Name := gate.(GateDef_GateID) |>
              else gate in
  let gate := if gate.(GateDef_ReviewMode) == ""
              then gate <| GateDef_ReviewMode := GovernanceReviewNone |> else gate in
  match validateReviewMode gate.(GateDef_ReviewMode) with Some err => inr err | None =>
  let gate := if gate.(GateDef_ConsensusPolicy) == ""
              then gate <| GateDef_ConsensusPolicy :=
                     if gate.(GateDef_ReviewMode) == GovernanceReviewSingle
                     then GovernanceConsensusAny else GovernanceConsensusMajority |>
              else gate in
  match validateConsensusPolicy gate.(GateDef_ConsensusPolicy) with Some err => inr err | None =>
  let gate := if gate.(GateDef_EscalationPolicy) == ""
              then gate <| GateDef_EscalationPolicy := GovernanceEscalationNone |> else gate in
  match validateEscalationPolicy gate.(GateDef_EscalationPolicy) with Some err => inr err | None =>
  let gate := if (gate.(GateDef_RequiredReviewers) <=? 0)%Z
              then gate <| GateDef_RequiredReviewers :=
                     defaultRequiredReviewers gate.(GateDef_ReviewMode) |>
              else gate in
  let gate := if (gate.(GateDef_ReviewMode) == GovernanceReviewMulti) &&
                 (gate.(GateDef_RequiredReviewers) <? 2)%Z
              then gate <| GateDef_RequiredReviewers := 2%Z |> else gate in
  inl (if (gate.(GateDef_MinApprovals) <=? 0)%Z
       then gate <| GateDef_MinApprovals :=
              defaultMinApprovals gate.(GateDef_RequiredReviewers) gate.(GateDef_ConsensusPolicy) |>
       else gate)
  end end end.

Fixpoint normalizeGates_loop (i : Z) (seen : list string) (gs : list GovernanceGateDefinition)
    : list GovernanceGateDefinition + error :=
  match gs with
  | [] => inl []
  | gate :: rest =>
      let gate := if gate.(GateDef_GateID) == ""
                  then gate <| GateDef_GateID := "gate_" +:+ fmt_d (i + 1) |> else gate in
      if mem_string gate.(GateDef_GateID) seen
      then inr (Errorf "duplicate governance gate_id %s" [gate.(GateDef_GateID)])
      else match normalizeGate gate with
           | inr err => inr err
           | inl gate' =>
               match normalizeGates_loop (i + 1) (gate.(GateDef_GateID) :: seen) rest with
               | inr err => inr err
               | inl out => inl (gate' :: out)
               end
           end
  end.

Definition normalizeGates (gs : list GovernanceGateDefinition)
    : list GovernanceGateDefinition + error := normalizeGates_loop 0 [] gs.

(** ** Consensus *)

Definition countReviews (reviews : list GovernanceReview) : Z * Z * Z :=
  fold_left (λ '(approvals, negatives, abstentions) review,
    if review.(Review_Decision) == GovernanceReviewApprove
    then (approvals + 1, negatives, abstentions)%Z
    else if (review.(Review_Decision) == GovernanceReviewReject) ||
            (review.(Review_Decision) == GovernanceReviewRevise)
    then (approvals, negatives + 1, abstentions)%Z
    else (approvals, negatives, abstentions + 1)%Z) reviews (0, 0, 0)%Z.

Definition escalationOrRejected (gate : GovernanceGateRun) : GovernanceGateStatus :=
  if gate.(Gate_EscalationPolicy) == GovernanceEscalationOrchestrator
  then GovernanceGateEscalationPending else GovernanceGateRejected.

(** The status and the reason that [applyConsensus] arrives at; the first test is that on
    the number of reviews, which leaves the gate as it is. *)
Definition consensus (gate : GovernanceGateRun) (reviews : list GovernanceReview)
    : GovernanceGateStatus * string :=
  let '(approvals, negatives, abstentions) := countReviews reviews in
  let required := gate.(Gate_RequiredReviewers) in
  let required := if (required <=? 0)%Z then defaultRequiredReviewers gate.(Gate_ReviewMode)
                  else required in
  let minApprovals := gate.(Gate_MinApprovals) in
  let minApprovals := if (minApprovals <=? 0)%Z
                      then defaultMinApprovals required gate.(Gate_ConsensusPolicy)
                      else minApprovals in
  if (len reviews <? required)%Z then (gate.(Gate_Status), "")
  else if gate.(Gate_ConsensusPolicy) == GovernanceConsensusAny then
    if (approvals >? 0)%Z then (GovernanceGatePassed, "any approval reached")
    else if (negatives >? 0)%Z then (GovernanceGateRejected, "negative review reached")
    else (gate.(Gate_Status), "")
  else if gate.(Gate_ConsensusPolicy) == GovernanceConsensusAll then
    if (approvals >=? required)%Z && (negatives =? 0)%Z && (abstentions =? 0)%Z
    then (GovernanceGatePassed, "unanimous approval reached")
    else (escalationOrRejected gate, "unanimous consensus not reached")
  else
    if (approvals >=? minApprovals)%Z && (approvals >? negatives)%Z
    then (GovernanceGatePassed, "majority approval reached")
    else if (negatives >? approvals)%Z
    then (GovernanceGateRejected, "majority rejection reached")
    else (escalationOrRejected gate, "majority consensus not reached").

Definition stampEvidence (evidence : list GovernanceEvidenceRef) (actorID : string) (now : Time)
    : list GovernanceEvidenceRef :=
  map (λ ref,
    let ref := if ref.(Evidence_SubmittedBy) == ""
               then ref <| Evidence_SubmittedBy := actorID |> else ref in
    match ref.(Evidence_SubmittedAt) with
    | None => ref <| Evidence_SubmittedAt := Some now |>
    | Some _ => ref
    end) evidence.

(** ** The service *)

(** [mergeMetadata]: an empty base is replaced by a new map, any other is written in place. *)
Definition mergeMetadata (base : MapRef) (patch : gmap string Any) : M Governance MapRef :=
  let! s := get in
  match base with
  | Some ref =>
      let current := default ∅ (s.(heap) !! ref) in
      if decide (current = ∅)
      then do! put (s <| heap := s.(heap) ++ [patch] |>) in ret (Some (length s.(heap)))
      else do! put (s <| heap := <[ref := patch ∪ current]> s.(heap) |>) in ret base
  | None => do! put (s <| heap := s.(heap) ++ [patch] |>) in ret (Some (length s.(heap)))
  end.

Section service.
Context `{Env}.

Definition gov_audit (tenantID actorID action resourceType resourceID decision reason traceID : string)
    : M Governance unit :=
  with_audit (
    let! id := idgen_New "audit" in
    let! now := now in
    ignore (audit_Log (zeroAuditEvent
      <| Audit_AuditID := id |> <| Audit_TenantID := tenantID |>
      <| Audit_ActorID := if actorID == "" then "system" else actorID |>
      <| Audit_ActorType := "governance" |> <| Audit_Action := action |>
      <| Audit_ResourceType := resourceType |> <| Audit_ResourceID := resourceID |>
      <| Audit_Decision := decision |> <| Audit_Reason := reason |>
      <| Audit_TraceID := traceID |> <| Audit_CreatedAt := now |>))).

Definition traceEvent (run : GovernanceProcessRun) (eventType : string) (payload : gmap string Any)
    : M Governance unit :=
  with_trace (
    if run.(PRun_TraceID) == "" then ret tt else
    let! span := idgen_New "span" in
    let! now := now in
    ignore (trace_Record (zeroTraceEvent
      <| Trace_TraceID := run.(PRun_TraceID) |> <| Trace_TenantID := run.(PRun_TenantID) |>
      <| Trace_SpanID := span |> <| Trace_RunID := run.(PRun_AgentRunID) |>
      <| Trace_TaskID := run.(PRun_TaskID) |> <| Trace_Type := eventType |>
      <| Trace_Payload := <["process_run_id" := AString run.(PRun_RunID)]> payload |>
      <| Trace_CreatedAt := now |>))).

Definition gate_not_found (id : string) : error := Errorf "governance gate %s not found" [id].
Definition run_not_found (id : string) : error :=
  Errorf "governance process run %s not found" [id].

(** A value that has to be there. *)
Definition found {A} (o : option A) (err : error) : M Governance A :=
  match o with Some x => ret x | None => throw err end.

Definition gateLess (a b : GovernanceGateRun) : bool :=
  if Equal a.(Gate_CreatedAt) b.(Gate_CreatedAt)
  then string_lt a.(Gate_GateRunID) b.(Gate_GateRunID)
  else Before a.(Gate_CreatedAt) b.(Gate_CreatedAt).

(** [sort.Slice] need not be stable; the reviews and conflicts of equal time come in the
    arbitrary order of the map anyway. *)
Definition Snapshot (tenantID runID : string) : M Governance GovernanceProcessSnapshot :=
  let! o := GetRun tenantID runID in
  let! run := found o (run_not_found runID) in
  let! gs := ListGates tenantID runID in
  let! rs := ListReviews tenantID runID in
  let! cs := ListConflicts tenantID runID in
  ret (mkGovernanceProcessSnapshot run (stable_sort gateLess gs)
    (stable_sort (λ a b, Before a.(Review_CreatedAt) b.(Review_CreatedAt)) rs)
    (stable_sort (λ a b, Before a.(Conflict_CreatedAt) b.(Conflict_CreatedAt)) cs)).

Definition UpsertTemplate (input : UpsertTemplateInput) : M Governance GovernanceProcessTemplate :=
  if (input.(UT_TenantID) == "") || (input.(UT_Name) == "")
  then throw (Errorf "governance template requires tenant_id and name" [])
  else
    let! templateID := (if input.(UT_TemplateID) == "" then idgen_New "govtpl"
                        else ret input.(UT_TemplateID)) in
    match normalizeGates input.(UT_Gates) with
    | inr err => throw err
    | inl gs =>
        let! now := now in
        let! existing := GetTemplate input.(UT_TenantID) templateID in
        let template := mkGovernanceProcessTemplate templateID input.(UT_TenantID)
          input.(UT_Name)
          (if input.(UT_Version) == "" then "v1" else input.(UT_Version))
          (if input.(UT_Status) == "" then "active" else input.(UT_Status))
          gs input.(UT_Metadata)
          (match existing with Some t => t.(Template_CreatedBy) | None => input.(UT_ActorID) end)
          (match existing with Some t => t.(Template_CreatedAt) | None => now end) now in
        do! Store_UpsertTemplate template in
        do! gov_audit input.(UT_TenantID) input.(UT_ActorID) AuditGovernanceTemplateUpserted
              "governance_template" templateID "allowed" "" "" in
        ret template
    end.

(** The loop that makes the gates of a run. *)
Definition newGateRun (run : GovernanceProcessRun) (now : Time) (id : string)
    (gate : GovernanceGateDefinition) : GovernanceGateRun :=
  mkGovernanceGateRun id run.(PRun_RunID) run.(PRun_TenantID) gate.(GateDef_GateID)
    gate.(GateDef_Name) GovernanceGatePending gate.(GateDef_SubjectType) run.(PRun_SubjectID)
    gate.(GateDef_ReviewMode) gate.(GateDef_ConsensusPolicy) gate.(GateDef_EscalationPolicy)
    gate.(GateDef_RequiredReviewers) gate.(GateDef_MinApprovals) gate.(GateDef_ReviewerRoles)
    gate.(GateDef_EvidenceTypes) [] [] None None "" "" "" gate.(GateDef_Metadata) now now.

Fixpoint newGateRuns (run : GovernanceProcessRun) (now : Time) (gs : list GovernanceGateDefinition)
    : M Governance (list GovernanceGateRun) :=
  match gs with
  | [] => ret []
  | gate :: rest =>
      let! id := idgen_New "govgate" in
      let! out := newGateRuns run now rest in
      ret (newGateRun run now id gate :: out)
  end.

Definition StartRun (input : StartRunInput) : M Governance GovernanceProcessSnapshot :=
  if (input.(SR_TenantID) == "") || (input.(SR_SubjectType) == "") || (input.(SR_SubjectID) == "")
  then throw (Errorf "governance process run requires tenant_id, subject_type, and subject_id" [])
  else
    let! gs :=
      (if input.(SR_TemplateID) != ""
       then let! o := GetTemplate input.(SR_TenantID) input.(SR_TemplateID) in
            let! template := found o (Errorf "governance template %s not found"
                                        [input.(SR_TemplateID)]) in
            ret template.(Template_Gates)
       else ret input.(SR_Gates)) in
    match normalizeGates gs with
    | inr err => throw err
    | inl normalized =>
        let! now := now in
        let! id := idgen_New "govrun" in
        let run := mkGovernanceProcessRun id input.(SR_TenantID) input.(SR_TemplateID)
          (if (len normalized =? 0)%Z then GovernanceRunCompleted else GovernanceRunActive)
          input.(SR_SubjectType) input.(SR_SubjectID) input.(SR_TaskID) input.(SR_AgentRunID)
          input.(SR_TraceID) input.(SR_PolicySetID) input.(SR_Actors) input.(SR_Metadata)
          input.(SR_ActorID) now now (if (len normalized =? 0)%Z then Some now else None) in
        let! gateRuns := newGateRuns run now normalized in
        do! CreateRun run gateRuns in
        do! gov_audit input.(SR_TenantID) input.(SR_ActorID) AuditGovernanceProcessStarted
              "governance_process_run" id "allowed" "" input.(SR_TraceID) in
        do! traceEvent run TraceGovernanceProcessStarted
              {["process_run_id" := AString id; "template_id" := AString run.(PRun_TemplateID);
                "subject_type" := AString run.(PRun_SubjectType);
                "subject_id" := AString run.(PRun_SubjectID);
                "gate_count" := AInt (len gateRuns)]} in
        Snapshot input.(SR_TenantID) id
    end.

(** One turn of the loop of [refreshRunStatus], on [(allTerminal, blocked)]. *)
Definition refresh_gate (acc : bool * bool) (gate : GovernanceGateRun) : bool * bool :=
  let '(allTerminal, blocked) := acc in
  let status := gate.(Gate_Status) in
  if status == GovernanceGateRejected then (allTerminal, true)
  else if status == GovernanceGateArbitrated then
    if (gate.(Gate_ResolutionDecision) == GovernanceReviewReject) ||
       (gate.(Gate_ResolutionDecision) == GovernanceReviewRevise)
    then (allTerminal, true) else acc
  else if (status == GovernanceGatePassed) || (status == GovernanceGateSkipped) then acc
  else (false, blocked).

Definition refreshRunStatus (run : GovernanceProcessRun) : M Governance unit :=
  let! gs := ListGates run.(PRun_TenantID) run.(PRun_RunID) in
  if (len gs =? 0)%Z then ret tt
  else
    let '(allTerminal, blocked) := fold_left refresh_gate gs (true, false) in
    let! now := now in
    if blocked && (run.(PRun_Status) != GovernanceRunBlocked)
    then UpdateRun (run <| PRun_Status := GovernanceRunBlocked |> <| PRun_UpdatedAt := now |>)
    else if allTerminal && (run.(PRun_Status) != GovernanceRunCompleted)
    then UpdateRun (run <| PRun_Status := GovernanceRunCompleted |>
                        <| PRun_CompletedAt := Some now |> <| PRun_UpdatedAt := now |>)
    else ret tt.

Definition findGate (tenantID processRunID gateRunID gateID : string)
    : M Governance GovernanceGateRun :=
  if gateRunID != ""
  then let! o := GetGate tenantID gateRunID in found o (gate_not_found gateRunID)
  else if (processRunID == "") || (gateID == "")
  then throw (Errorf "opening a governance gate requires gate_run_id or process_run_id plus gate_id" [])
  else
    let! o := GetGateByDefinition tenantID processRunID gateID in
    found o (Errorf "governance gate %s not found on run %s" [gateID; processRunID]).

(** The gate after an opening; [metadata] is the merged one. *)
Definition openedGate (gate : GovernanceGateRun) (input : OpenGateInput) (now : Time)
    (metadata : MapRef) : GovernanceGateRun :=
  let gate := gate
    <| Gate_OpenedAt := match gate.(Gate_OpenedAt) with None => Some now | t => t end |>
    <| Gate_ArtifactRefs := gate.(Gate_ArtifactRefs) ++ input.(OG_ArtifactRefs) |>
    <| Gate_EvidenceRefs := gate.(Gate_EvidenceRefs) ++
         stampEvidence input.(OG_EvidenceRefs) input.(OG_ActorID) now |>
    <| Gate_Metadata := metadata |> in
  let gate :=
    if gate.(Gate_ReviewMode) == GovernanceReviewNone
    then gate <| Gate_Status := GovernanceGatePassed |> <| Gate_ResolvedAt := Some now |>
              <| Gate_ResolvedBy := input.(OG_ActorID) |>
              <| Gate_ResolutionDecision := GovernanceReviewApprove |>
              <| Gate_ResolutionReason := "review_mode none" |>
    else gate <| Gate_Status := GovernanceGateOpen |> in
  gate <| Gate_UpdatedAt := now |>.

Definition OpenGate (input : OpenGateInput) : M Governance GovernanceProcessSnapshot :=
  let! gate := findGate input.(OG_TenantID) input.(OG_ProcessRunID) input.(OG_GateRunID)
                 input.(OG_GateID) in
  if (gate.(Gate_Status) != GovernanceGatePending) && (gate.(Gate_Status) != GovernanceGateOpen)
  then throw (Errorf "cannot open governance gate %s from status %s"
                [gate.(Gate_GateRunID); gate.(Gate_Status)])
  else
    let! o := GetRun input.(OG_TenantID) gate.(Gate_ProcessRunID) in
    let! run := found o (run_not_found gate.(Gate_ProcessRunID)) in
    let! now := now in
    let! metadata := match input.(OG_Metadata) with
                     | Some patch => mergeMetadata gate.(Gate_Metadata) patch
                     | None => ret gate.(Gate_Metadata)
                     end in
    let gate := openedGate gate input now metadata in
    do! UpdateGate gate in
    do! gov_audit input.(OG_TenantID) input.(OG_ActorID) AuditGovernanceGateOpened
          "governance_gate_run" gate.(Gate_GateRunID) gate.(Gate_Status)
          gate.(Gate_ResolutionReason) run.(PRun_TraceID) in
    do! traceEvent run TraceGovernanceGateOpened
          {["gate_run_id" := AString gate.(Gate_GateRunID); "gate_id" := AString gate.(Gate_GateID);
            "status" := AString gate.(Gate_Status)]} in
    do! refreshRunStatus run in
    Snapshot input.(OG_TenantID) gate.(Gate_ProcessRunID).

(** The gate resolved by its reviews. *)
Definition resolvedGate (gate : GovernanceGateRun) (status : GovernanceGateStatus) (reason : string)
    (actorID : string) (now : Time) : GovernanceGateRun :=
  let gate := gate <| Gate_Status := status |> <| Gate_UpdatedAt := now |> in
  let gate :=
    if (status == GovernanceGatePassed) || (status == GovernanceGateRejected)
    then gate <| Gate_ResolvedAt := Some now |> <| Gate_ResolvedBy := actorID |>
              <| Gate_ResolutionDecision :=
                   if status == GovernanceGatePassed then GovernanceReviewApprove
                   else GovernanceReviewReject |>
    else gate in
  gate <| Gate_ResolutionReason := reason |>.

Definition applyConsensus (run : GovernanceProcessRun) (gate : GovernanceGateRun)
    (reviews : list GovernanceReview) (actorID : string) : M Governance GovernanceGateRun :=
  let '(status, reason) := consensus gate reviews in
  if status == gate.(Gate_Status) then ret gate
  else
    let! now := now in
    let gate := resolvedGate gate status reason actorID now in
    do! UpdateGate gate in
    do! gov_audit gate.(Gate_TenantID) actorID AuditGovernanceGateResolved "governance_gate_run"
          gate.(Gate_GateRunID) gate.(Gate_Status) reason run.(PRun_TraceID) in
    let '(approvals, negatives, abstentions) := countReviews reviews in
    do! traceEvent run TraceGovernanceGateResolved
          {["gate_run_id" := AString gate.(Gate_GateRunID); "status" := AString gate.(Gate_Status);
            "reason" := AString reason; "approvals" := AInt approvals;
            "negatives" := AInt negatives; "abstentions" := AInt abstentions]} in
    ret gate.

Definition already_reviewed (input : ReviewInput) (review : GovernanceReview) : bool :=
  (review.(Review_ReviewerID) == input.(RVI_ReviewerID)) &&
  (review.(Review_ReviewerType) == input.(RVI_ReviewerType)).

Definition newReview (gate : GovernanceGateRun) (input : ReviewInput) (now : Time) (id : string)
    : GovernanceReview :=
  mkGovernanceReview id gate.(Gate_GateRunID) gate.(Gate_ProcessRunID) input.(RVI_TenantID)
    input.(RVI_ReviewerID)
    (if input.(RVI_ReviewerType) == "" then "agent" else input.(RVI_ReviewerType))
    input.(RVI_Decision) input.(RVI_Reason)
    (stampEvidence input.(RVI_EvidenceRefs) input.(RVI_ReviewerID) now)
    input.(RVI_Independent) now.

Definition SubmitReview (input : ReviewInput) : M Governance GovernanceProcessSnapshot :=
  if (input.(RVI_TenantID) == "") || (input.(RVI_GateRunID) == "") ||
     (input.(RVI_ReviewerID) == "") || (input.(RVI_Decision) == "")
  then throw (Errorf "governance review requires tenant_id, gate_run_id, reviewer_id, and decision" [])
  else match validateReviewDecision input.(RVI_Decision) with
  | Some err => throw err
  | None =>
    let! o := GetGate input.(RVI_TenantID) input.(RVI_GateRunID) in
    let! gate := found o (gate_not_found input.(RVI_GateRunID)) in
    if gate.(Gate_Status) != GovernanceGateOpen
    then throw (Errorf "cannot review governance gate %s from status %s"
                  [gate.(Gate_GateRunID); gate.(Gate_Status)])
    else
      let! reviews := ListReviewsByGate input.(RVI_TenantID) input.(RVI_GateRunID) in
      if existsb (already_reviewed input) reviews
      then throw (Errorf "reviewer %s already reviewed gate %s"
                    [input.(RVI_ReviewerID); input.(RVI_GateRunID)])
      else
        let! o := GetRun input.(RVI_TenantID) gate.(Gate_ProcessRunID) in
        let! run := found o (run_not_found gate.(Gate_ProcessRunID)) in
        let! now := now in
        let! id := idgen_New "govreview" in
        let review := newReview gate input now id in
        do! SaveReview review in
        let! gate := applyConsensus run gate (reviews ++ [review]) input.(RVI_ReviewerID) in
        do! gov_audit input.(RVI_TenantID) input.(RVI_ReviewerID) AuditGovernanceReviewSubmitted
              "governance_gate_run" gate.(Gate_GateRunID) review.(Review_Decision)
              review.(Review_Reason) run.(PRun_TraceID) in
        do! traceEvent run TraceGovernanceReviewSubmitted
              {["gate_run_id" := AString gate.(Gate_GateRunID); "review_id" := AString id;
                "reviewer_id" := AString review.(Review_ReviewerID);
                "decision" := AString review.(Review_Decision);
                "gate_status" := AString gate.(Gate_Status)]} in
        do! refreshRunStatus run in
        Snapshot input.(RVI_TenantID) gate.(Gate_ProcessRunID)
  end.

Definition Escalate (input : EscalateInput) : M Governance GovernanceProcessSnapshot :=
  if (input.(EI_TenantID) == "") || (input.(EI_GateRunID) == "") || (input.(EI_Issue) == "")
  then throw (Errorf "governance escalation requires tenant_id, gate_run_id, and issue" [])
  else
    let! o := GetGate input.(EI_TenantID) input.(EI_GateRunID) in
    let! gate := found o (gate_not_found input.(EI_GateRunID)) in
    let! o := GetRun input.(EI_TenantID) gate.(Gate_ProcessRunID) in
    let! run := found o (run_not_found gate.(Gate_ProcessRunID)) in
    let! now := now in
    let escalatedTo :=
      if (input.(EI_EscalatedTo) == "") &&
         (gate.(Gate_EscalationPolicy) == GovernanceEscalationOrchestrator)
      then "orchestrator" else input.(EI_EscalatedTo) in
    let! id := idgen_New "govconflict" in
    let conflict := mkGovernanceConflict id gate.(Gate_GateRunID) gate.(Gate_ProcessRunID)
      input.(EI_TenantID) "open" input.(EI_Issue)
      (stampEvidence input.(EI_Arguments) input.(EI_ActorID) now) escalatedTo "" ""
      input.(EI_ActorID) now None in
    do! SaveConflict conflict in
    let gate := gate <| Gate_Status := GovernanceGateEscalationPending |>
                     <| Gate_UpdatedAt := now |> in
    do! UpdateGate gate in
    do! gov_audit input.(EI_TenantID) input.(EI_ActorID) AuditGovernanceConflictEscalated
          "governance_conflict" id "pending" input.(EI_Issue) run.(PRun_TraceID) in
    do! traceEvent run TraceGovernanceConflictEscalated
          {["gate_run_id" := AString gate.(Gate_GateRunID); "conflict_id" := AString id;
            "issue" := AString conflict.(Conflict_Issue);
            "escalated_to" := AString conflict.(Conflict_EscalatedTo)]} in
    Snapshot input.(EI_TenantID) gate.(Gate_ProcessRunID).

Definition arbitratedGate (gate : GovernanceGateRun) (input : ArbitrateInput) (now : Time)
    : GovernanceGateRun :=
  gate <| Gate_Status := GovernanceGateArbitrated |> <| Gate_ResolvedAt := Some now |>
       <| Gate_ResolvedBy := input.(AI_ArbitratorID) |>
       <| Gate_ResolutionDecision := input.(AI_Decision) |>
       <| Gate_ResolutionReason := input.(AI_Reason) |> <| Gate_UpdatedAt := now |>.

Definition Arbitrate (input : ArbitrateInput) : M Governance GovernanceProcessSnapshot :=
  if (input.(AI_TenantID) == "") || (input.(AI_ConflictID) == "") ||
     (input.(AI_Decision) == "") || (input.(AI_ArbitratorID) == "")
  then throw (Errorf "governance arbitration requires tenant_id, conflict_id, decision, and arbitrator_id" [])
  else match validateReviewDecision input.(AI_Decision) with
  | Some err => throw err
  | None =>
    let! o := GetConflict input.(AI_TenantID) input.(AI_ConflictID) in
    let! conflict := found o (Errorf "governance conflict %s not found" [input.(AI_ConflictID)]) in
    if conflict.(Conflict_Status) != "open"
    then throw (Errorf "governance conflict %s is not open" [input.(AI_ConflictID)])
    else
      let! o := GetGate input.(AI_TenantID) conflict.(Conflict_GateRunID) in
      let! gate := found o (gate_not_found conflict.(Conflict_GateRunID)) in
      let! o := GetRun input.(AI_TenantID) conflict.(Conflict_ProcessRunID) in
      let! run := found o (run_not_found conflict.(Conflict_ProcessRunID)) in
      let! now := now in
      do! UpdateConflict (conflict <| Conflict_Status := "resolved" |>
            <| Conflict_ArbitrationDecision := input.(AI_Decision) |>
            <| Conflict_ResolutionReason := input.(AI_Reason) |>
            <| Conflict_ResolvedAt := Some now |>) in
      let gate := arbitratedGate gate input now in
      do! UpdateGate gate in
      do! gov_audit input.(AI_TenantID) input.(AI_ArbitratorID) AuditGovernanceConflictArbitrated
            "governance_conflict" conflict.(Conflict_ConflictID) input.(AI_Decision)
            input.(AI_Reason) run.(PRun_TraceID) in
      do! traceEvent run TraceGovernanceConflictArbitrated
            {["gate_run_id" := AString gate.(Gate_GateRunID);
              "conflict_id" := AString conflict.(Conflict_ConflictID);
              "decision" := AString input.(AI_Decision); "reason" := AString input.(AI_Reason)]} in
      do! refreshRunStatus run in
      Snapshot input.(AI_TenantID) gate.(Gate_ProcessRunID)
  end.
End service.

(** ** What the consensus decides *)

Definition is_approval (r : GovernanceReview) : bool := Review_Decision r == GovernanceReviewApprove.
Definition is_negative (r : GovernanceReview) : bool :=
  negb (is_approval r) &&
  ((Review_Decision r == GovernanceReviewReject) || (Review_Decision r == GovernanceReviewRevise)).
Definition is_abstention (r : GovernanceReview) : bool := negb (is_approval r) && negb (is_negative r).

(** How many reviews are of a kind. *)
Definition count_of (p : GovernanceReview → bool) (l : list GovernanceReview) : Z :=
  len (List.filter p l).

Lemma countReviews_app l r :
  countReviews (l ++ [r]) =
    let '(a, n, b) := countReviews l in
    (a + count_of is_approval [r], n + count_of is_negative [r], b + count_of is_abstention [r])%Z.
Proof.
  unfold countReviews. rewrite fold_left_app. destruct (fold_left _ l _) as [[a n] b]. simpl.
  unfold count_of, is_abstention, is_negative, is_approval, len. simpl.
  destruct (Review_Decision r == GovernanceReviewApprove); simpl; [f_equal; [f_equal|]; lia|].
  destruct (_ || _); simpl; f_equal; try f_equal; lia.
Qed.

Lemma count_of_app p l k : count_of p (l ++ k) = (count_of p l + count_of p k)%Z.
Proof. unfold count_of, len. rewrite List.filter_app, length_app. lia. Qed.

Lemma countReviews_spec l :
  countReviews l = (count_of is_approval l, count_of is_negative l, count_of is_abstention l).
Proof.
  induction l as [|r l IH] using rev_ind; [done|]. rewrite countReviews_app, IH.
  by rewrite !count_of_app.
Qed.

Lemma count_of_total l :
  (count_of is_approval l + count_of is_negative l + count_of is_abstention l = len l)%Z.
Proof.
  induction l as [|r l IH]; [done|]. change (r :: l) with ([r] ++ l). rewrite !count_of_app.
  assert (E : (count_of is_approval [r] + count_of is_negative [r] + count_of is_abstention [r] = 1)%Z).
  { unfold count_of, is_abstention, len. simpl. unfold is_negative.
    destruct (is_approval r), (_ || _); simpl; lia. }
  assert (El : len ([r] ++ l) = (1 + len l)%Z) by (unfold len; rewrite length_app; simpl; lia). lia.
Qed.

Lemma count_of_nonneg p l : (0 ≤ count_of p l)%Z.
Proof. unfold count_of, len. lia. Qed.

(** The consensus does not depend on the order of the reviews. *)
Lemma consensus_perm g l k : l ≡ₚ k → consensus g l = consensus g k.
Proof.
  intros Hp. unfold consensus. rewrite !countReviews_spec. unfold count_of, len.
  rewrite !(Permutation_length (filter_bool_perm _ _ _ Hp)), (Permutation_length Hp). done.
Qed.

(** Nor on anything of the gate but its rules and its status. *)
Lemma consensus_ext g g' l :
  Gate_Status g = Gate_Status g' → Gate_ReviewMode g = Gate_ReviewMode g' →
  Gate_ConsensusPolicy g = Gate_ConsensusPolicy g' →
  Gate_EscalationPolicy g = Gate_EscalationPolicy g' →
  Gate_RequiredReviewers g = Gate_RequiredReviewers g' →
  Gate_MinApprovals g = Gate_MinApprovals g' →
  consensus g l = consensus g' l.
Proof. intros E1 E2 E3 E4 E5 E6. unfold consensus, escalationOrRejected. by rewrite E1, E2, E3, E4, E5, E6. Qed.

(** The number of reviews a gate waits for, and of approvals a majority needs. *)
Definition quorum (g : GovernanceGateRun) : Z :=
  if (Gate_RequiredReviewers g <=? 0)%Z then defaultRequiredReviewers (Gate_ReviewMode g)
  else Gate_RequiredReviewers g.
Definition majority (g : GovernanceGateRun) : Z :=
  if (Gate_MinApprovals g <=? 0)%Z then defaultMinApprovals (quorum g) (Gate_ConsensusPolicy g)
  else Gate_MinApprovals g.

(** Approval under the gate's rule. *)
Definition approving (g : GovernanceGateRun) (l : list GovernanceReview) : Prop :=
  if Gate_ConsensusPolicy g == GovernanceConsensusAny then (0 < count_of is_approval l)%Z
  else if Gate_ConsensusPolicy g == GovernanceConsensusAll
  then count_of is_approval l = len l ∧ (quorum g ≤ len l)%Z
  else (majority g ≤ count_of is_approval l)%Z ∧ (count_of is_negative l < count_of is_approval l)%Z.

(** Refusal under the gate's rule: outright, or for want of agreement. *)
Definition refusing (g : GovernanceGateRun) (l : list GovernanceReview) : Prop :=
  if Gate_ConsensusPolicy g == GovernanceConsensusAny then (0 < count_of is_negative l)%Z
  else if Gate_ConsensusPolicy g == GovernanceConsensusAll then False
  else (count_of is_approval l < count_of is_negative l)%Z.
Definition undecided (g : GovernanceGateRun) (l : list GovernanceReview) : Prop :=
  Gate_ConsensusPolicy g ≠ GovernanceConsensusAny ∧ ¬ approving g l ∧ ¬ refusing g l.

(** The cases of the decision. *)
Lemma consensus_cases g l :
  Gate_Status g = GovernanceGateOpen →
  let st := (consensus g l).1 in
  let escalates := Gate_EscalationPolicy g = GovernanceEscalationOrchestrator in
  ((len l < quorum g)%Z ∧ st = GovernanceGateOpen) ∨
  (quorum g ≤ len l)%Z ∧
  ((approving g l ∧ st = GovernanceGatePassed) ∨
   ¬ approving g l ∧
   ((refusing g l ∧ st = GovernanceGateRejected) ∨
    ¬ refusing g l ∧
    ((Gate_ConsensusPolicy g ≠ GovernanceConsensusAny ∧ escalates ∧
        st = GovernanceGateEscalationPending) ∨
     (Gate_ConsensusPolicy g ≠ GovernanceConsensusAny ∧ ¬ escalates ∧
        st = GovernanceGateRejected) ∨
     (Gate_ConsensusPolicy g = GovernanceConsensusAny ∧ st = GovernanceGateOpen)))).
Proof.
  intros Ho. cbv zeta. unfold consensus. rewrite countReviews_spec. cbv zeta.
  fold (quorum g). fold (majority g). unfold approving, refusing, escalationOrRejected.
  pose proof (count_of_total l) as Ht. pose proof (count_of_nonneg is_approval l).
  pose proof (count_of_nonneg is_negative l). pose proof (count_of_nonneg is_abstention l).
  generalize dependent (count_of is_approval l). generalize dependent (count_of is_negative l).
  generalize dependent (count_of is_abstention l). intros b Hb n Hn a Ht Ha.
  destruct (Z.ltb_spec (len l) (quorum g)) as [Hq|Hq]; [left; simpl; by rewrite Ho|right].
  split; [done|]. rewrite !Z.gtb_ltb, !Z.geb_leb.
  destruct (String.eqb_spec (Gate_ConsensusPolicy g) GovernanceConsensusAny) as [Ep|Ep].
  { destruct (Z.ltb_spec 0 a); [by left|]. right. split; [lia|].
    destruct (Z.ltb_spec 0 n); [by left|]. right. split; [lia|]. right; right. simpl. by rewrite Ho. }
  assert (Hesc : ∀ d (r : string), (if Gate_EscalationPolicy g == GovernanceEscalationOrchestrator
      then GovernanceGateEscalationPending else GovernanceGateRejected, r).1 = d →
    (Gate_ConsensusPolicy g ≠ GovernanceConsensusAny ∧
       Gate_EscalationPolicy g = GovernanceEscalationOrchestrator ∧ d = GovernanceGateEscalationPending) ∨
    (Gate_ConsensusPolicy g ≠ GovernanceConsensusAny ∧
       Gate_EscalationPolicy g ≠ GovernanceEscalationOrchestrator ∧ d = GovernanceGateRejected) ∨
    (Gate_ConsensusPolicy g = GovernanceConsensusAny ∧ d = GovernanceGateOpen)).
  { intros d r <-. simpl.
    destruct (String.eqb_spec (Gate_EscalationPolicy g) GovernanceEscalationOrchestrator); tauto. }
  destruct (String.eqb_spec (Gate_ConsensusPolicy g) GovernanceConsensusAll) as [Ea|Ea].
  - destruct (Z.leb_spec (quorum g) a), (Z.eqb_spec n 0), (Z.eqb_spec b 0); cbn [andb];
      try (left; split; [lia|done]); right; (split; [lia|]); right; (split; [tauto|]);
      by eapply Hesc.
  - destruct (Z.leb_spec (majority g) a), (Z.ltb_spec n a); cbn [andb];
      try (left; split; [lia|done]); right; (split; [lia|]);
      (destruct (Z.ltb_spec a n); [left; split; [lia|done]|]); right; (split; [lia|]); by eapply Hesc.
Qed.

(** C13. What the reviews of an open gate decide.  As long as there are fewer of them than the
    gate requires, nothing.  Then the gate passes exactly when its rule approves: any
    approval; all reviews approvals; or enough approvals and more than refusals.
    Otherwise it is rejected outright when the rule refuses, and where the reviews just
    do not agree it is escalated if the gate is to be escalated and else rejected; under the
    rule of any approval a gate with abstentions only stays open. *)
Theorem consensus_decision g l :
  Gate_Status g = GovernanceGateOpen →
  let st := (consensus g l).1 in
  let escalates := Gate_EscalationPolicy g = GovernanceEscalationOrchestrator in
  ((len l < quorum g)%Z → st = GovernanceGateOpen) ∧
  (st = GovernanceGatePassed ↔ (quorum g ≤ len l)%Z ∧ approving g l) ∧
  (st = GovernanceGateRejected ↔
     (quorum g ≤ len l)%Z ∧ ¬ approving g l ∧ (refusing g l ∨ (undecided g l ∧ ¬ escalates))) ∧
  (st = GovernanceGateEscalationPending ↔
     (quorum g ≤ len l)%Z ∧ undecided g l ∧ escalates).
Proof.
  intros Ho. cbv zeta. pose proof (consensus_cases g l Ho) as Hc. cbv zeta in Hc.
  unfold undecided.
  destruct Hc as [[Hq E]|[Hq [[Ha E]|[Ha [[Hr E]|[Hr [(Hp & Hx & E)|[(Hp & Hx & E)|[Hp E]]]]]]]]];
    rewrite E; (split; [|split; [|split]]); try split; intros; try done; try lia; tauto.
Qed.

(** A multi-reviewer gate with two approvals and a refusal out of three, and one with a tie. *)
Definition demo_gate : GovernanceGateRun :=
  zeroGovernanceGateRun <| Gate_Status := GovernanceGateOpen |>
    <| Gate_ReviewMode := GovernanceReviewMulti |>
    <| Gate_ConsensusPolicy := GovernanceConsensusMajority |>
    <| Gate_EscalationPolicy := GovernanceEscalationOrchestrator |>
    <| Gate_RequiredReviewers := 3%Z |>.
Definition demo_review (decision : GovernanceReviewDecision) : GovernanceReview :=
  zeroGovernanceReview <| Review_Decision := decision |>.

Lemma consensus_decision_witness :
  let l := map demo_review [GovernanceReviewApprove; GovernanceReviewReject; GovernanceReviewApprove] in
  (consensus demo_gate l).1 = GovernanceGatePassed ∧
  ((consensus demo_gate l).1 = GovernanceGatePassed ↔ (quorum demo_gate ≤ len l)%Z ∧ approving demo_gate l) ∧
  (consensus demo_gate (map demo_review [GovernanceReviewApprove; GovernanceReviewReject;
     GovernanceReviewAbstain])).1 = GovernanceGateEscalationPending.
Proof.
  split; [vm_compute; reflexivity|]. split; [|vm_compute; reflexivity].
  apply (consensus_decision demo_gate
    (map demo_review [GovernanceReviewApprove; GovernanceReviewReject; GovernanceReviewApprove])).
  reflexivity.
Defined.

(** ** Gates and their reviews *)

Definition reviews_of (s : Governance) (g : GovernanceGateRun) : list GovernanceReview :=
  List.filter (review_of (Gate_TenantID g) (Gate_GateRunID g)) (map snd (map_to_list (gov_reviews s))).

(** What the stored reviews of a gate decide under its rule. *)
Definition verdict (s : Governance) (g : GovernanceGateRun) : GovernanceGateStatus :=
  (consensus (g <| Gate_Status := GovernanceGateOpen |>) (reviews_of s g)).1.

Record gate_ok (s : Governance) (id : string) (g : GovernanceGateRun) : Prop := {
  go_id : Gate_GateRunID g = id;
  go_passed : Gate_Status g = GovernanceGatePassed →
    Gate_ReviewMode g = GovernanceReviewNone ∨ verdict s g = GovernanceGatePassed;
  go_rejected : Gate_Status g = GovernanceGateRejected → verdict s g = GovernanceGateRejected
}.

(** A gate that makes no claim about its reviews. *)
Lemma gate_ok_plain s g :
  Gate_Status g ≠ GovernanceGatePassed → Gate_Status g ≠ GovernanceGateRejected →
  gate_ok s (Gate_GateRunID g) g.
Proof. by split. Qed.

Lemma gate_ok_ext s s' id g : gov_reviews s' = gov_reviews s → gate_ok s id g → gate_ok s' id g.
Proof.
  intros E [G1 G2 G3].
  assert (Ev : verdict s' g = verdict s g) by (unfold verdict, reviews_of; by rewrite E).
  split; rewrite ?Ev; auto.
Qed.

Section invariant.
Context `{Env}.

Definition J (w : World) (s : Governance) : Prop :=
  (∀ id g, gates s !! id = Some g → gate_ok s id g) ∧
  (∀ id r, gov_reviews s !! id = Some r →
     ∃ n, (n < w_draws w)%nat ∧ id = "govreview" +:+ "_" +:+ env_rand n).

Lemma J_lasting : lasting J.
Proof.
  intros w w' s Hw [HG HR]. split; [done|]. intros id r Hr.
  destruct (HR id r Hr) as (n & ? & ?). exists n. split; [lia|done].
Qed.

(** Changes elsewhere. *)
Lemma J_frame w s s' : gates s' = gates s → gov_reviews s' = gov_reviews s → J w s → J w s'.
Proof.
  intros E1 E2 [HG HR]. split; [|by rewrite E2].
  intros id g Hg. rewrite E1 in Hg. eapply gate_ok_ext; [exact E2|by apply HG].
Qed.

Lemma J_put_gate w s id g :
  J w s → gate_ok s id g → J w (s <| gates := <[id := g]> (gates s) |>).
Proof.
  intros [HG HR] Hg. split; [|done]. intros i g' Hi. simpl in Hi.
  apply (gate_ok_ext s); [done|]. destruct (decide (id = i)) as [<-|Hne].
  - rewrite lookup_insert_eq in Hi. by injection Hi as <-.
  - rewrite lookup_insert_ne in Hi by done. by apply HG.
Qed.

Lemma reviews_of_insert s g id r :
  gov_reviews s !! id = None →
  reviews_of (s <| gov_reviews := <[id := r]> (gov_reviews s) |>) g ≡ₚ
    if review_of (Gate_TenantID g) (Gate_GateRunID g) r then r :: reviews_of s g else reviews_of s g.
Proof.
  intros Hn. unfold reviews_of. simpl gov_reviews.
  rewrite (filter_bool_perm _ _ _ (Permutation_map snd (map_to_list_insert _ _ _ Hn))). simpl.
  by destruct (review_of _ _ r).
Qed.

(** A review is added to an open gate. *)
Lemma J_add_review w s id r g :
  J w s → gov_reviews s !! id = None →
  (∃ n, (n < w_draws w)%nat ∧ id = "govreview" +:+ "_" +:+ env_rand n) →
  gates s !! Review_GateRunID r = Some g → Gate_Status g = GovernanceGateOpen →
  J w (s <| gov_reviews := <[id := r]> (gov_reviews s) |>).
Proof.
  intros [HG HR] Hn Hid Hg Ho. split.
  - intros i g' Hi. change (gates s !! i = Some g') in Hi. destruct (HG i g' Hi) as [G1 G2 G3].
    destruct (decide (i = Review_GateRunID r)) as [->|Hne].
    + rewrite Hg in Hi. injection Hi as <-. rewrite <- G1. apply gate_ok_plain; by rewrite Ho.
    + assert (Hv : verdict (s <| gov_reviews := <[id := r]> (gov_reviews s) |>) g' = verdict s g').
      { unfold verdict. f_equal. apply consensus_perm. rewrite (reviews_of_insert s g' id r Hn).
        assert (E : review_of (Gate_TenantID g') (Gate_GateRunID g') r = false).
        { unfold review_of. rewrite G1. apply andb_false_iff. right. apply String.eqb_neq. congruence. }
        by rewrite E. }
      split; rewrite ?Hv; auto.
  - intros i r' Hi. simpl in Hi. destruct (decide (id = i)) as [<-|Hne]; [done|].
    rewrite lookup_insert_ne in Hi by done. by eapply HR.
Qed.

Notation keeps m := (wtriple J m (λ _, J) J).

Lemma gov_audit_effect a b c d e f g h : effect_only (gov_audit a b c d e f g h).
Proof. unfold gov_audit. auto 10 with effects. Qed.
Lemma gov_audit_forward a b c d e f g h : forward (gov_audit a b c d e f g h).
Proof. unfold gov_audit. auto 10 with forward. Qed.
Lemma traceEvent_effect r e p : effect_only (traceEvent r e p).
Proof. unfold traceEvent. auto 10 with effects. Qed.
Lemma traceEvent_forward r e p : forward (traceEvent r e p).
Proof. unfold traceEvent. auto 10 with forward. Qed.
#[local] Hint Resolve gov_audit_effect gov_audit_forward traceEvent_effect traceEvent_forward
  J_lasting : gov.
#[local] Hint Extern 2 (effect_only _) => solve [auto with effects] : gov.
#[local] Hint Extern 2 (forward _) => solve [auto with forward] : gov.

(** Operations that only read. *)
Tactic Notation "reads" reference(d) := unfold d; auto 8 with gov.
Lemma GetTemplate_reads t i : effect_only (GetTemplate t i) ∧ forward (GetTemplate t i).
Proof. split; reads GetTemplate. Qed.
Lemma GetRun_reads t i : effect_only (GetRun t i) ∧ forward (GetRun t i).
Proof. split; reads GetRun. Qed.
Lemma GetGate_reads t i : effect_only (GetGate t i) ∧ forward (GetGate t i).
Proof. split; reads GetGate. Qed.
Lemma GetConflict_reads t i : effect_only (GetConflict t i) ∧ forward (GetConflict t i).
Proof. split; reads GetConflict. Qed.
Lemma GetGateByDefinition_reads t i g :
  effect_only (GetGateByDefinition t i g) ∧ forward (GetGateByDefinition t i g).
Proof. split; reads GetGateByDefinition. Qed.
Lemma ListGates_reads t i : effect_only (ListGates t i) ∧ forward (ListGates t i).
Proof. split; reads ListGates. Qed.
Lemma ListReviews_reads t i : effect_only (ListReviews t i) ∧ forward (ListReviews t i).
Proof. split; reads ListReviews. Qed.
Lemma ListConflicts_reads t i : effect_only (ListConflicts t i) ∧ forward (ListConflicts t i).
Proof. split; reads ListConflicts. Qed.

(** The next operation only reads, or only writes the logs. *)
Lemma step_reads {A B} (P : World → Governance → Prop) (m : M Governance A) (f : A → M Governance B) Q E :
  lasting P → effect_only m ∧ forward m → (∀ a, wtriple P (f a) Q E) → wtriple P (bind m f) Q E.
Proof.
  intros HP [H1 H2] Hf. eapply wtriple_bind; [by apply wtriple_effect|exact Hf].
Qed.

Lemma step_found {A B} (P : World → Governance → Prop) (o : option A) err (f : A → M Governance B) Q E :
  (∀ w s, P w s → E w s) → (∀ a, o = Some a → wtriple P (f a) Q E) →
  wtriple P (bind (found o err) f) Q E.
Proof.
  intros HE Hf. destruct o as [a|].
  - exact (Hf a eq_refl).
  - eapply wtriple_bind with (Q := λ _ _ _, False); [by apply wtriple_throw|by intros ? ? ? ?].
Qed.

Lemma now_reads : effect_only (S:=Governance) now ∧ forward (S:=Governance) now.
Proof. split; auto with gov. Qed.
Lemma idgen_reads p : effect_only (S:=Governance) (idgen_New p) ∧ forward (S:=Governance) (idgen_New p).
Proof. split; auto with gov. Qed.
Lemma audit_reads a b c d e f g h : effect_only (gov_audit a b c d e f g h) ∧ forward (gov_audit a b c d e f g h).
Proof. split; auto with gov. Qed.
Lemma trace_reads r e p : effect_only (traceEvent r e p) ∧ forward (traceEvent r e p).
Proof. split; auto with gov. Qed.

(** The next step of an operation that keeps the invariant, when it reads or logs. *)
Ltac quiet :=
  repeat (cbv beta; match goal with
  | |- wtriple J (bind (found _ _) _) _ _ => apply step_found; [by auto|intros ? ?]
  | |- wtriple J (bind _ _) _ _ =>
      apply step_reads; [exact J_lasting|
        first [apply now_reads|apply idgen_reads|apply audit_reads|apply trace_reads|apply GetRun_reads
              |apply GetGate_reads|apply GetConflict_reads|apply GetTemplate_reads|apply ListGates_reads
              |apply ListReviews_reads|apply ListConflicts_reads|apply GetGateByDefinition_reads]|intros ?]
  | |- wtriple J (throw _) _ _ => apply wtriple_throw; by auto
  | |- wtriple J (ret _) _ _ => apply wtriple_ret; by auto
  | |- wtriple J (if _ then _ else _) _ _ => apply wtriple_if; intros ?
  end).

(** A change of a part that the invariant does not speak of. *)
Lemma put_frame (f : Governance → Governance) :
  (∀ s, gates (f s) = gates s) → (∀ s, gov_reviews (f s) = gov_reviews s) →
  keeps (bind get (λ s, put (f s))).
Proof.
  intros E1 E2. apply wtriple_get. intros s. apply wtriple_put. intros w s' [-> Hs].
  eapply J_frame; [apply E1|apply E2|exact Hs].
Qed.

Lemma Snapshot_keeps t i : keeps (Snapshot t i).
Proof. unfold Snapshot. quiet. Qed.

Lemma UpdateRun_keeps run : keeps (UpdateRun run).
Proof.
  apply wtriple_get. intros s. destruct (gov_runs s !! _).
  - apply wtriple_put. intros w s' [-> Hs]. by apply (J_frame w s).
  - apply wtriple_throw. by intros w s' [-> Hs].
Qed.

Lemma refreshRunStatus_keeps run : keeps (refreshRunStatus run).
Proof.
  unfold refreshRunStatus. quiet. destruct (fold_left _ _ _) as [x y]. quiet; apply UpdateRun_keeps.
Qed.

(** The end of an operation on a gate. *)
Lemma gate_end run t i : keeps (do! refreshRunStatus run in Snapshot t i).
Proof. eapply wtriple_bind; [apply refreshRunStatus_keeps|]. intros ?. apply Snapshot_keeps. Qed.

Lemma UpdateGate_triple g (P : World → Governance → Prop) :
  (∀ w s, P w s → J w s ∧ gate_ok s (Gate_GateRunID g) g) →
  wtriple P (UpdateGate g) (λ _, J) J.
Proof.
  intros HP. apply wtriple_get. intros s. destruct (gates s !! _).
  - apply wtriple_put. intros w s' [-> Hs]. destruct (HP _ _ Hs). by apply J_put_gate.
  - apply wtriple_throw. intros w s' [-> Hs]. by destruct (HP _ _ Hs).
Qed.

Lemma mergeMetadata_keeps base patch : keeps (mergeMetadata base patch).
Proof.
  apply wtriple_get. intros s.
  assert (Hput : ∀ (h : list (gmap string Any)) (r : MapRef),
    wtriple (λ w s', s' = s ∧ J w s) (do! put (s <| heap := h |>) in ret r) (λ _, J) J).
  { intros h r. eapply wtriple_bind with (Q := λ _, J); [|intros ?; by apply wtriple_ret].
    apply wtriple_put. intros w s' [-> Hs]. by apply (J_frame w s). }
  destruct base as [ref|]; [|apply Hput]. cbv zeta. destruct (decide _); apply Hput.
Qed.

Lemma UpsertTemplate_keeps input : keeps (UpsertTemplate input).
Proof.
  unfold UpsertTemplate. quiet. eapply wtriple_bind with (Q := λ _, J).
  { quiet. apply wtriple_effect; [exact J_lasting|apply idgen_reads|apply idgen_reads]. }
  intros id. destruct (normalizeGates _) as [gs|e]; quiet.
  eapply wtriple_bind with (Q := λ _, J); [|intros ?; quiet]. by apply put_frame.
Qed.

Lemma newGateRuns_reads run now gs : effect_only (newGateRuns run now gs) ∧ forward (newGateRuns run now gs).
Proof.
  induction gs as [|g gs [IH1 IH2]]; simpl; [split; auto with gov|].
  split; [apply effect_only_bind; [apply idgen_reads|]|apply forward_bind; [apply idgen_reads|]]; intros id.
  - apply effect_only_bind; [done|]. auto with gov.
  - apply forward_bind; [done|]. auto with gov.
Qed.

Lemma newGateRuns_pending run now gs w s l w' s' :
  newGateRuns run now gs w s = (Ok l, w', s') → Forall (λ g, Gate_Status g = GovernanceGatePending) l.
Proof.
  revert w s l w' s'. induction gs as [|g gs IH]; simpl; intros w s l w' s' E.
  - unfold ret in E. by simplify_eq.
  - run_ok E. unfold ret in E. simplify_eq. constructor; [done|]. by eapply IH.
Qed.

Lemma J_put_gates w s gs :
  Forall (λ g, Gate_Status g = GovernanceGatePending) gs → J w s →
  J w (s <| gates := put_gates gs (gates s) |>).
Proof.
  intros Hgs. revert s. induction Hgs as [|g gs Hg _ IH]; intros s Hs; [by destruct s|].
  assert (Hs' : J w (s <| gates := <[Gate_GateRunID g := g]> (gates s) |>)).
  { apply J_put_gate; [done|]. apply gate_ok_plain; by rewrite Hg. }
  exact (IH _ Hs').
Qed.

Lemma CreateRun_triple run gs :
  Forall (λ g, Gate_Status g = GovernanceGatePending) gs → keeps (CreateRun run gs).
Proof.
  intros Hgs. apply wtriple_get. intros s. destruct (gov_runs s !! _).
  - apply wtriple_throw. by intros w s' [-> Hs].
  - apply wtriple_put. intros w s' [-> Hs].
    eapply J_frame; [| |exact (J_put_gates w s gs Hgs Hs)]; done.
Qed.

Lemma StartRun_keeps input : keeps (StartRun input).
Proof.
  unfold StartRun. quiet. eapply wtriple_bind with (Q := λ _, J); [quiet|].
  intros gs. destruct (normalizeGates gs) as [l|e]; quiet.
  eapply wtriple_bind with (Q := λ l w s, Forall (λ g, Gate_Status g = GovernanceGatePending) l ∧ J w s).
  { intros w s Hs. destruct (newGateRuns_reads (mkGovernanceProcessRun a0 (SR_TenantID input)
      (SR_TemplateID input) (if (len l =? 0)%Z then GovernanceRunCompleted else GovernanceRunActive)
      (SR_SubjectType input) (SR_SubjectID input) (SR_TaskID input) (SR_AgentRunID input)
      (SR_TraceID input) (SR_PolicySetID input) (SR_Actors input) (SR_Metadata input)
      (SR_ActorID input) a a (if (len l =? 0)%Z then Some a else None)) a l) as [He Hf].
    destruct (He w s) as (gl & w' & E). rewrite E. split; [by eapply newGateRuns_pending|].
    eapply J_lasting; [by eapply Hf|done]. }
  intros gl. apply wtriple_fact. intros Hgl.
  eapply wtriple_bind; [by apply CreateRun_triple|]. intros ?. quiet. apply Snapshot_keeps.
Qed.

Lemma findGate_reads t p i d : forward (findGate t p i d) ∧
  ∀ w s, ∃ r w', findGate t p i d w s = (r, w', s).
Proof.
  unfold findGate. split.
  - apply forward_if; [|apply forward_if; [auto with forward|]].
    + apply forward_bind; [apply GetGate_reads|]. intros o. unfold found. destruct o; auto with forward.
    + apply forward_bind; [apply GetGateByDefinition_reads|]. intros o. unfold found.
      destruct o; auto with forward.
  - intros w s. destruct (i != ""); [|destruct (_ || _); [by eexists _, _|]].
    + destruct (proj1 (GetGate_reads t i) w s) as (o & w' & E). rewrite (bind_Ok _ _ _ _ _ _ _ E).
      destruct o; by eexists _, _.
    + destruct (proj1 (GetGateByDefinition_reads t p d) w s) as (o & w' & E).
      rewrite (bind_Ok _ _ _ _ _ _ _ E). destruct o; by eexists _, _.
Qed.

(** The gate found is used for its contents only. *)
Lemma findGate_step {B} t p i d (f : GovernanceGateRun → M Governance B) Q :
  (∀ g, wtriple J (f g) Q J) → wtriple J (bind (findGate t p i d) f) Q J.
Proof.
  intros Hf. eapply wtriple_bind with (Q := λ _, J); [|exact Hf].
  intros w s Hs. destruct (findGate_reads t p i d) as [Hfw Hrun].
  destruct (Hrun w s) as (r & w' & E). rewrite E.
  assert (Hs' : J w' s) by (eapply J_lasting; [by eapply Hfw|done]). by destruct r.
Qed.

Lemma openedGate_ok s g input now metadata :
  gate_ok s (Gate_GateRunID (openedGate g input now metadata)) (openedGate g input now metadata).
Proof.
  unfold openedGate. cbv zeta. simpl Gate_ReviewMode.
  destruct (String.eqb_spec (Gate_ReviewMode g) GovernanceReviewNone) as [E|E].
  - split; [done|by left|done].
  - by apply gate_ok_plain.
Qed.

Lemma OpenGate_keeps input : keeps (OpenGate input).
Proof.
  apply findGate_step. intros g. apply wtriple_if; intros _; [by apply wtriple_throw|].
  quiet. eapply wtriple_bind with (Q := λ _, J).
  { destruct (OG_Metadata input); [apply mergeMetadata_keeps|by apply wtriple_ret]. }
  intros metadata. cbv zeta.
  eapply wtriple_bind; [apply UpdateGate_triple; intros w s Hs; split; [done|apply openedGate_ok]|].
  intros ?. quiet. apply gate_end.
Qed.

Lemma Escalate_keeps input : keeps (Escalate input).
Proof.
  unfold Escalate. quiet. cbv zeta. quiet.
  eapply wtriple_bind with (Q := λ _, J); [by apply put_frame|]. intros ?.
  eapply wtriple_bind; [apply UpdateGate_triple; intros w s Hs; split; [done|by apply gate_ok_plain]|].
  intros ?. quiet. apply Snapshot_keeps.
Qed.

Lemma Arbitrate_keeps input : keeps (Arbitrate input).
Proof.
  unfold Arbitrate. apply wtriple_if; intros _; [by apply wtriple_throw|].
  destruct (validateReviewDecision _); [by apply wtriple_throw|]. quiet.
  eapply wtriple_bind with (Q := λ _, J).
  { apply wtriple_get. intros s. destruct (conflicts s !! _).
    - apply wtriple_put. intros w s' [-> Hs]. by apply (J_frame w s).
    - apply wtriple_throw. by intros w s' [-> Hs]. }
  intros ?. cbv zeta.
  eapply wtriple_bind; [apply UpdateGate_triple; intros w s Hs; split; [done|by apply gate_ok_plain]|].
  intros ?. quiet. apply gate_end.
Qed.

(** What [SubmitReview] has seen: an open gate and all its reviews. *)
Definition seen (g : GovernanceGateRun) (l : list GovernanceReview) (w : World) (s : Governance) : Prop :=
  J w s ∧ gates s !! Gate_GateRunID g = Some g ∧ Gate_Status g = GovernanceGateOpen ∧
  l ≡ₚ reviews_of s g.

Lemma seen_lasting g l : lasting (seen g l).
Proof. intros w w' s Hw (HJ & H2). split; [by eapply J_lasting|done]. Qed.

(** The outcome of the consensus is backed by the reviews. *)
Lemma resolvedGate_ok s g l status reason actor now :
  Gate_Status g = GovernanceGateOpen → l ≡ₚ reviews_of s g → (consensus g l).1 = status →
  gate_ok s (Gate_GateRunID g) (resolvedGate g status reason actor now).
Proof.
  intros Ho Hl Hc.
  assert (F : ∀ g', Gate_GateRunID g' = Gate_GateRunID g → Gate_TenantID g' = Gate_TenantID g →
    Gate_ReviewMode g' = Gate_ReviewMode g → Gate_ConsensusPolicy g' = Gate_ConsensusPolicy g →
    Gate_EscalationPolicy g' = Gate_EscalationPolicy g →
    Gate_RequiredReviewers g' = Gate_RequiredReviewers g → Gate_MinApprovals g' = Gate_MinApprovals g →
    Gate_Status g' = status → gate_ok s (Gate_GateRunID g) g').
  { intros g' E0 E1 E2 E3 E4 E5 E6 E7.
    assert (Hv : verdict s g' = status).
    { unfold verdict. rewrite <- Hc, (consensus_perm g _ _ Hl). f_equal.
      unfold reviews_of. rewrite E0, E1. by apply consensus_ext. }
    split; rewrite ?Hv, ?E7; auto. }
  unfold resolvedGate. cbv zeta. destruct (_ || _); by apply F.
Qed.

Lemma resolvedGate_id g status reason actor now :
  Gate_GateRunID (resolvedGate g status reason actor now) = Gate_GateRunID g.
Proof. unfold resolvedGate. cbv zeta. by destruct (_ || _). Qed.

Lemma applyConsensus_triple run g l actor :
  wtriple (seen g l) (applyConsensus run g l actor) (λ _, J) J.
Proof.
  unfold applyConsensus. destruct (consensus g l) as [status reason] eqn:Ec.
  apply wtriple_if; intros _; [apply wtriple_ret; by intros w s [? _]|].
  apply step_reads; [apply seen_lasting|apply now_reads|]. intros now. cbv zeta.
  eapply wtriple_bind.
  - apply (UpdateGate_triple _ (seen g l)). intros w s (Hs & Hg & Ho & Hl). split; [done|].
    rewrite resolvedGate_id. eapply resolvedGate_ok; [done|exact Hl|by rewrite Ec].
  - intros ?. quiet. destruct (countReviews l) as [[x y] z]. quiet.
Qed.

Lemma SubmitReview_keeps input : rand_unique → keeps (SubmitReview input).
Proof.
  intros Hu. unfold SubmitReview. apply wtriple_if; intros _; [by apply wtriple_throw|].
  destruct (validateReviewDecision _); [by apply wtriple_throw|].
  set (Sees := λ g w s, J w s ∧ gates s !! Gate_GateRunID g = Some g ∧
    Gate_TenantID g = RVI_TenantID input ∧ Gate_GateRunID g = RVI_GateRunID input).
  eapply wtriple_bind with (Q := λ o w s, J w s ∧ ∀ g, o = Some g → Sees g w s).
  { apply wtriple_get. intros s. apply wtriple_ret. intros w s' [-> Hs]. split; [done|].
    intros g Hg. destruct (gates s !! RVI_GateRunID input) as [g'|] eqn:Eg; [|done].
    destruct (String.eqb_spec (Gate_TenantID g') (RVI_TenantID input)) as [Et|]; [|done].
    injection Hg as <-. pose proof (go_id _ _ _ (proj1 Hs _ _ Eg)) as Eid.
    unfold Sees. rewrite Eid. done. }
  intros o. apply step_found; [by intros w s [? _]|]. intros g ->.
  intros w s [_ Hs]. specialize (Hs g eq_refl). pose proof Hs as (_ & _ & Etenant & _). revert w s Hs.
  apply wtriple_if; intros Ho; [apply wtriple_throw; by intros w s [? _]|].
  apply negb_false_iff, String.eqb_eq in Ho.
  eapply wtriple_bind with (Q := seen g).
  { intros w s (Hs & Hg & Et & Eid). unfold ListReviewsByGate. rewrite bind_get.
    destruct (range_map_run (gov_reviews s) w s) as (l & w' & E & Hl).
    pose proof (forward_range (gov_reviews s) _ _ _ _ _ E) as Hw.
    rewrite (bind_Ok _ _ _ _ _ _ _ E). simpl. split; [by eapply J_lasting|]. split; [done|].
    split; [done|]. unfold reviews_of. rewrite Et, Eid. apply filter_bool_perm. by rewrite Hl. }
  intros l. assert (HE : ∀ w s, seen g l w s → J w s) by by intros w s [? _].
  apply wtriple_if; intros _; [by apply wtriple_throw|].
  apply step_reads; [apply seen_lasting|apply GetRun_reads|]. intros r.
  apply step_found; [done|]. intros run ->.
  apply step_reads; [apply seen_lasting|apply now_reads|]. intros now.
  eapply wtriple_bind with (Q := λ id w s, seen g l w s ∧ gov_reviews s !! id = None ∧
    ∃ n, (n < w_draws w)%nat ∧ id = "govreview" +:+ "_" +:+ env_rand n).
  { intros w s Hs. rewrite idgen_New_run. split; [|split].
    - eapply seen_lasting; [|exact Hs]. cbn. lia.
    - destruct (gov_reviews s !! _) as [r|] eqn:Er; [|done]. exfalso.
      destruct (proj2 (HE _ _ Hs) _ _ Er) as (n & Hn & En). apply idgen_inj, Hu in En. lia.
    - exists (w_draws w). split; [cbn; lia|done]. }
  intros id. cbv zeta.
  eapply wtriple_bind with (Q := λ _, seen g (l ++ [newReview g input now id])).
  { apply wtriple_get. intros s. apply wtriple_put. intros w s' (-> & (Hs & Hg & _ & Hl) & Hn & Hid).
    split; [by eapply J_add_review|]. split; [done|]. split; [done|].
    rewrite (reviews_of_insert s g id _ Hn).
    assert (Er : review_of (Gate_TenantID g) (Gate_GateRunID g) (newReview g input now id) = true).
    { unfold review_of. simpl. by rewrite Etenant, !eqb_refl_true. }
    rewrite Er, Hl. by rewrite Permutation_app_comm. }
  intros ?. eapply wtriple_bind; [apply applyConsensus_triple|]. intros g'. quiet. apply gate_end.
Qed.
End invariant.

(** ** Histories

    The operations of the service, in any order by anybody; between them a caller may
    allocate a metadata map, and the rest of the program may draw identifiers. *)
Inductive call :=
| CallUpsertTemplate (input : UpsertTemplateInput)
| CallStartRun (input : StartRunInput)
| CallOpenGate (input : OpenGateInput)
| CallSubmitReview (input : ReviewInput)
| CallEscalate (input : EscalateInput)
| CallArbitrate (input : ArbitrateInput)
| Alloc (metadata : gmap string Any).

Definition run_call `{Env} (c : call) : M Governance unit :=
  match c with
  | CallUpsertTemplate i => let! _ := UpsertTemplate i in ret tt
  | CallStartRun i => let! _ := StartRun i in ret tt
  | CallOpenGate i => let! _ := OpenGate i in ret tt
  | CallSubmitReview i => let! _ := SubmitReview i in ret tt
  | CallEscalate i => let! _ := Escalate i in ret tt
  | CallArbitrate i => let! _ := Arbitrate i in ret tt
  | Alloc m => let! s := get in put (s <| heap := s.(heap) ++ [m] |>)
  end.

Inductive reachable `{Env} : World → Governance → Prop :=
| reachable_new w : reachable w NewGovernance
| reachable_call w s c r w' s' :
    reachable w s → run_call c w s = (r, w', s') → reachable w' s'
| reachable_world w w' s : reachable w s → (w_draws w ≤ w_draws w')%nat → reachable w' s.

Lemma run_call_keeps `{Env} c : rand_unique → wtriple J (run_call c) (λ _, J) J.
Proof.
  intros Hu. destruct c; simpl.
  1-6: eapply wtriple_bind with (Q := λ _, J); [|intros ?; by apply wtriple_ret].
  - apply UpsertTemplate_keeps.
  - apply StartRun_keeps.
  - apply OpenGate_keeps.
  - by apply SubmitReview_keeps.
  - apply Escalate_keeps.
  - apply Arbitrate_keeps.
  - by apply put_frame.
Qed.

Lemma reachable_J `{Env} w s : rand_unique → reachable w s → J w s.
Proof.
  intros Hu. induction 1 as [w|w s c r w' s' _ IH E|w w' s _ IH Hw].
  - split; done.
  - eapply wtriple_inv; [by apply run_call_keeps|exact IH|exact E].
  - by eapply J_lasting.
Qed.

(** C14. No gate is decided without its reviews.  Whatever sequence of operations is made by
    anybody, a gate that has passed either asks for no review, or the reviews stored for it
    are at least as many as it requires and approve under its rule; and a gate that was
    rejected has at least as many reviews as it requires, and they do not approve. *)
Theorem gate_outcome_backed `{Env} w s id g :
  rand_unique → reachable w s → gates s !! id = Some g →
  (Gate_Status g = GovernanceGatePassed →
     Gate_ReviewMode g = GovernanceReviewNone ∨
     ((quorum g ≤ len (reviews_of s g))%Z ∧ approving g (reviews_of s g))) ∧
  (Gate_Status g = GovernanceGateRejected →
     (quorum g ≤ len (reviews_of s g))%Z ∧ ¬ approving g (reviews_of s g)).
Proof.
  intros Hu Hr Hg. destruct (proj1 (reachable_J w s Hu Hr) id g Hg) as [_ G2 G3].
  pose proof (consensus_cases (g <| Gate_Status := GovernanceGateOpen |>) (reviews_of s g) eq_refl) as Hc.
  cbv zeta in Hc. fold (verdict s g) in Hc.
  change (quorum (g <| Gate_Status := GovernanceGateOpen |>)) with (quorum g) in Hc.
  change (approving (g <| Gate_Status := GovernanceGateOpen |>)) with (approving g) in Hc.
  split; intros Hs.
  - destruct (G2 Hs) as [Hm|Hv]; [by left|right]. rewrite Hv in Hc.
    destruct Hc as [[_ ?]|[Hq [[Ha _]|[_ [[_ ?]|[_ [(_ & _ & ?)|[(_ & _ & ?)|[_ ?]]]]]]]]]; done.
  - rewrite (G3 Hs) in Hc. destruct Hc as [[_ ?]|[Hq [[_ ?]|[Ha _]]]]; done.
Qed.

(** ** Concrete histories *)

Fixpoint run_calls `{Env} (cs : list call) (w : World) (s : Governance) : World * Governance :=
  match cs with
  | [] => (w, s)
  | c :: cs => match run_call c w s with (_, w', s') => run_calls cs w' s' end
  end.

Lemma run_calls_reachable `{Env} cs : ∀ w s, reachable w s →
  match run_calls cs w s with (w', s') => reachable w' s' end.
Proof.
  induction cs as [|c cs IH]; simpl; intros w s Hr; [done|].
  destruct (run_call c w s) as [[r w1] s1] eqn:E. apply IH. by eapply reachable_call.
Qed.

Definition quiet_world : World := mkWorld 0 0 0 None None.

(** A reachable state, computed. *)
Lemma run_calls_demo cs w s :
  run_calls cs quiet_world NewGovernance = (w, s) → reachable w s.
Proof.
  intros E. pose proof (run_calls_reachable cs quiet_world NewGovernance (reachable_new _)) as Hr.
  by rewrite E in Hr.
Qed.

Definition demo_def (id : string) (mode : GovernanceReviewMode) (metadata : MapRef)
    : GovernanceGateDefinition :=
  zeroGovernanceGateDefinition <| GateDef_GateID := id |> <| GateDef_ReviewMode := mode |>
    <| GateDef_Metadata := metadata |>.
Definition demo_start (template : string) (gs : list GovernanceGateDefinition) : call :=
  CallStartRun (mkStartRunInput "t" template "task" "x" "" "" "" "" [] gs ∅ "ann").
Definition demo_open (gate : string) (metadata : option (gmap string Any)) : call :=
  CallOpenGate (mkOpenGateInput "t" "" gate "" [] [] metadata "ann").
Definition demo_vote (gate reviewer : string) (d : GovernanceReviewDecision) : call :=
  CallSubmitReview (mkReviewInput "t" gate reviewer "" d "" [] true).

Definition demo_votes : list call :=
  [demo_start "" [demo_def "two" GovernanceReviewMulti None]; demo_open "govgate_1" None;
   demo_vote "govgate_1" "bob" GovernanceReviewApprove; demo_vote "govgate_1" "bob" GovernanceReviewApprove].

Lemma gate_outcome_backed_witness :
  ∃ w s g, reachable w s ∧ gates s !! "govgate_1" = Some g ∧ Gate_Status g = GovernanceGatePassed ∧
    (Gate_ReviewMode g = GovernanceReviewNone ∨
     ((quorum g ≤ len (reviews_of s g))%Z ∧ approving g (reviews_of s g))).
Proof.
  destruct (run_calls demo_votes quiet_world NewGovernance) as [w s] eqn:E.
  pose proof (run_calls_demo demo_votes w s E) as Hr. vm_compute in E. injection E as <- <-.
  eexists _, _, _. split; [exact Hr|]. split; [vm_compute; reflexivity|]. split; [reflexivity|].
  eapply (gate_outcome_backed _ _ "govgate_1" _ test_rand_unique Hr);
    [vm_compute; reflexivity|reflexivity].
Defined.

(** One reviewer can be the majority.  A reviewer that leaves out its type is stored as an
    agent, and so not recognised when it reviews again: a gate that requires two reviewers
    is passed by two reviews of the same one. *)
Theorem one_reviewer_decides :
  ∃ w s g, reachable w s ∧ gates s !! "govgate_1" = Some g ∧
    Gate_ReviewMode g = GovernanceReviewMulti ∧ Gate_RequiredReviewers g = 2%Z ∧
    Gate_Status g = GovernanceGatePassed ∧
    map Review_ReviewerID (reviews_of s g) = ["bob"; "bob"] ∧
    map Review_ReviewerType (reviews_of s g) = ["agent"; "agent"].
Proof.
  destruct (run_calls demo_votes quiet_world NewGovernance) as [w s] eqn:E.
  pose proof (run_calls_demo demo_votes w s E) as Hr. vm_compute in E. injection E as <- <-.
  eexists _, _, _. split; [exact Hr|]. split; [vm_compute; reflexivity|].
  repeat split; vm_compute; reflexivity.
Qed.

(** A rejected gate does not keep its run from completing.  The run of a process is
    blocked when its first gate is rejected; when its other gate then passes, the run is
    marked completed, with the rejected gate still rejected. *)
Theorem rejected_run_completes :
  ∃ w s run g, reachable w s ∧
    gov_runs s !! "govrun_0" = Some run ∧ PRun_Status run = GovernanceRunCompleted ∧
    gates s !! "govgate_1" = Some g ∧ Gate_ProcessRunID g = "govrun_0" ∧
    Gate_Status g = GovernanceGateRejected.
Proof.
  destruct (run_calls
    [demo_start "" [demo_def "review" GovernanceReviewSingle None; demo_def "free" GovernanceReviewNone None];
     demo_open "govgate_1" None; demo_vote "govgate_1" "bob" GovernanceReviewReject;
     demo_open "govgate_2" None] quiet_world NewGovernance) as [w s] eqn:E.
  pose proof (run_calls_demo _ w s E) as Hr. vm_compute in E. injection E as <- <-.
  eexists _, _, _, _. split; [exact Hr|]. split; [vm_compute; reflexivity|]. split; [reflexivity|].
  split; [vm_compute; reflexivity|]. split; reflexivity.
Qed.

(** The metadata of a gate of a template, and of a gate of a run. *)
Definition metadata_at (s : Governance) (r : MapRef) : gmap string Any :=
  match r with Some r => default ∅ (heap s !! r) | None => ∅ end.

(** Metadata leaks between runs.  Two runs of one template are started, and a gate of the
    first is opened with metadata.  The entry appears in the metadata of the second run's
    gate, which has not been opened, and in the template, so in every run to come. *)
Theorem gate_metadata_shared :
  ∃ w s g t d, reachable w s ∧
    gates s !! "govgate_3" = Some g ∧ Gate_ProcessRunID g = "govrun_2" ∧
    Gate_Status g = GovernanceGatePending ∧
    metadata_at s (Gate_Metadata g) !! "note" = Some (AString "first run") ∧
    templates s !! templateKey "t" "tpl" = Some t ∧ Template_Gates t = [d] ∧
    metadata_at s (GateDef_Metadata d) !! "note" = Some (AString "first run").
Proof.
  destruct (run_calls
    [Alloc {["owner" := AString "ann"]};
     CallUpsertTemplate (mkUpsertTemplateInput "t" "tpl" "name" "" ""
       [demo_def "review" GovernanceReviewSingle (Some 0)] ∅ "ann");
     demo_start "tpl" []; demo_start "tpl" [];
     demo_open "govgate_1" (Some {["note" := AString "first run"]})] quiet_world NewGovernance)
    as [w s] eqn:E.
  pose proof (run_calls_demo _ w s E) as Hr. vm_compute in E. injection E as <- <-.
  eexists _, _, _, _, _. split; [exact Hr|]. split; [vm_compute; reflexivity|]. split; [reflexivity|].
  split; [reflexivity|]. split; [vm_compute; reflexivity|]. split; [vm_compute; reflexivity|].
  split; [reflexivity|]. vm_compute. reflexivity.
Qed.
