(* ===== verification/Decision.v ===== *)
(** * Decisions of the model

    pkg/jsonschema, internal/decision/validator, and the checks of
    internal/policy/outputpolicy that follow it.  The JSON decoder is a parameter. *)

From stdpp Require Import base list strings gmap fin_maps.
From Stdlib Require Import Ascii Lia SpecFloat.
From S2P Require Import Prelude Contracts GoMonad.
Open Scope go_scope.
Open Scope string_scope.
Open Scope list_scope.

(** ** pkg/jsonschema *)

(** [s, _ := value.(string)] of an entry of a map: the zero value when it is missing or has
    another type. *)
Definition as_string (v : option Any) : string :=
  match v with Some (AString s) => s | _ => "" end.

Definition as_map (v : option Any) : gmap string Any :=
  match v with Some (AMap m) => list_to_map m | _ => ∅ end.

Definition stringList (value : option Any) : list string :=
  match value with
  | Some (AStrings typed) => typed
  | Some (AList typed) =>
      omap (λ item, match item with AString str => Some str | _ => None end) typed
  | _ => []
  end.

Definition matchesType (value : Any) (expected : string) : bool :=
  if expected == "string" then match value with AString _ => true | _ => false end
  else if expected == "object" then match value with AMap _ => true | _ => false end
  else if expected == "array" then match value with AList _ => true | _ => false end
  else if expected == "boolean" then match value with ABool _ => true | _ => false end
  else if expected == "number"
  then match value with AFloat _ | AInt _ => true | _ => false end
  else if expected == "integer" then match value with AInt _ => true | _ => false end
  else true.

Fixpoint ValidateRequired (input : gmap string Any) (required : list string) : option error :=
  match required with
  | [] => None
  | key :: required =>
      match input !! key with
      | None => Some (Errorf "missing required field %q" [key])
      | Some _ => ValidateRequired input required
      end
  end.

(** [property, _ := rawProperty.(map[string]any)] and its ["type"]. *)
Definition expectedType (rawProperty : Any) : string :=
  as_string (as_map (Some rawProperty) !! "type").

(** One turn of the loop over the properties: the error it returns with. *)
Definition property_error (input : gmap string Any) (property : string * Any) : option error :=
  let '(name, rawProperty) := property in
  match input !! name with
  | None => None
  | Some value =>
      if expectedType rawProperty == "" then None
      else if matchesType value (expectedType rawProperty) then None
      else Some (Errorf "field %q must be %s" [name; expectedType rawProperty])
  end.

Fixpoint first_error {A} (check : A → option error) (l : list A) : option error :=
  match l with
  | [] => None
  | x :: l => match check x with Some err => Some err | None => first_error check l end
  end.

Definition ValidateObject `{Env} {S} (input schema : gmap string Any) : M S (option error) :=
  if (size schema =? 0)%nat then ret None else
  let schemaType := as_string (schema !! "type") in
  if (schemaType != "") && (schemaType != "object")
  then ret (Some (Errorf "unsupported schema type %q" [schemaType])) else
  match ValidateRequired input (stringList (schema !! "required")) with
  | Some err => ret (Some err)
  | None =>
      let! properties := range_map (as_map (schema !! "properties")) in
      ret (first_error (property_error input) properties)
  end.

(** ** internal/decision/validator *)

Record ValidationResult := mkValidationResult {
  VR_Decision : Decision;
  VR_Warnings : list string
}.

Definition schemaError (message : string) : error :=
  ErrRuntime (NewRuntimeError CodeDecisionSchemaError message ∅).

Definition validReplyKind (kind : ReplyKind) : bool :=
  mem_string kind
    [ReplyAnswer; ReplyRefusal; ReplyPolicyNotice; ReplyClarificationMessage; ReplyStatusUpdate].

(** The maps the validator builds from the candidates; a later card replaces an earlier one. *)
Record Candidates := mkCandidates {
  allowed : gset string;
  byName : gmap string ToolCard;
  byID : gmap string ToolCard
}.

Definition addCandidate (c : Candidates) (tool : ToolCard) : Candidates :=
  mkCandidates ({[tool.(Card_ToolID); tool.(Card_Name)]} ∪ c.(allowed))
    (<[tool.(Card_Name) := tool]> c.(byName)) (<[tool.(Card_ToolID) := tool]> c.(byID)).

Definition candidates_of (candidateTools : list ToolCard) : Candidates :=
  fold_left addCandidate candidateTools (mkCandidates ∅ ∅ ∅).

(** The last test of a turn of the loop over the tool calls. *)
Definition candidateCheck (c : Candidates) (call : ToolCall) (warnings : list string)
    : error + ToolCall * list string :=
  if bool_decide (call.(Call_ToolID) ∈ c.(allowed)) || bool_decide (call.(Call_Name) ∈ c.(allowed))
  then inr (call, warnings)
  else inl (ErrRuntime (NewRuntimeError CodeToolNotFound
              (Sprintf "tool call %q is not in candidate set" [call.(Call_Name)]) ∅)).

(** One turn of the loop over the tool calls. *)
Definition normalizeCall (c : Candidates) (call : ToolCall) : error + ToolCall * list string :=
  if (call.(Call_ToolID) == "") && (call.(Call_Name) == "")
  then inl (schemaError "tool_call requires tool_id or name") else
  let '(call, w1) :=
    if call.(Call_ToolID) == "" then
      match c.(byName) !! call.(Call_Name) with
      | Some tool => (call <| Call_ToolID := tool.(Card_ToolID) |>,
                      [Sprintf "tool call %q normalized name to tool_id" [call.(Call_Name)]])
      | None => (call, [])
      end
    else (call, []) in
  let '(call, w2) :=
    if call.(Call_Name) == "" then
      match c.(byID) !! call.(Call_ToolID) with
      | Some tool => (call <| Call_Name := tool.(Card_Name) |>,
                      [Sprintf "tool call %q normalized tool_id to name" [call.(Call_ToolID)]])
      | None => (call, [])
      end
    else (call, []) in
  candidateCheck c call (w1 ++ w2).

Fixpoint normalizeCalls (c : Candidates) (calls : list ToolCall)
    : error + list ToolCall * list string :=
  match calls with
  | [] => inr ([], [])
  | call :: calls =>
      match normalizeCall c call with
      | inl err => inl err
      | inr (call, w) =>
          match normalizeCalls c calls with
          | inl err => inl err
          | inr (calls, ws) => inr (call :: calls, w ++ ws)
          end
      end
  end.

(** [decision.Confidence < 0 || decision.Confidence > 1] *)
Definition float64_one : float64 := S754_finite false 4503599627370496 (-52).
Definition confidence_bad (c : float64) : bool :=
  SFltb c float64_zero || SFltb float64_one c.

Definition Normalize (decision : Decision) (candidateTools : list ToolCard)
    : error + ValidationResult :=
  match DecisionType_Validate decision.(Decision_Type) with
  | Some err => inl (ErrRuntime (NewRuntimeError CodeDecisionSchemaError (Error err) ∅))
  | None =>
  if confidence_bad decision.(Decision_Confidence)
  then inl (schemaError "decision confidence must be between 0 and 1") else
  let done decision warnings := inr (mkValidationResult decision warnings) in
  if decision.(Decision_Type) == DecisionTypeReply then
    match decision.(Decision_Reply) with
    | None => inl (schemaError "reply decision requires reply.text")
    | Some reply =>
        if reply.(Reply_Text) == "" then inl (schemaError "reply decision requires reply.text") else
        let '(reply, warnings) :=
          if reply.(Reply_Kind) == ""
          then (reply <| Reply_Kind := ReplyAnswer |>, ["reply.kind defaulted to answer"])
          else (reply, []) in
        if validReplyKind reply.(Reply_Kind)
        then done (decision <| Decision_Reply := Some reply |>) warnings
        else inl (schemaError (Sprintf "unknown reply kind %q" [reply.(Reply_Kind)]))
    end
  else if decision.(Decision_Type) == DecisionTypeAskClarification then
    match decision.(Decision_Ask) with
    | None => inl (schemaError "ask_clarification decision requires ask.question")
    | Some ask =>
        if ask.(Ask_Question) == ""
        then inl (schemaError "ask_clarification decision requires ask.question")
        else done decision []
    end
  else if decision.(Decision_Type) == DecisionTypeToolCall then
    if (len decision.(Decision_ToolCalls) =? 0)%Z
    then inl (schemaError "tool_call decision requires at least one tool call") else
    match normalizeCalls (candidates_of candidateTools) decision.(Decision_ToolCalls) with
    | inl err => inl err
    | inr (calls, warnings) => done (decision <| Decision_ToolCalls := calls |>) warnings
    end
  else if decision.(Decision_Type) == DecisionTypeUnsupported then
    if decision.(Decision_Reason) == ""
    then inl (schemaError "unsupported decision requires reason") else done decision []
  else if decision.(Decision_Type) == DecisionTypeError then
    match decision.(Decision_Error) with
    | None => inl (schemaError "error decision requires error code or message")
    | Some e =>
        if (e.(DecErr_Code) == "") && (e.(DecErr_Message) == "")
        then inl (schemaError "error decision requires error code or message")
        else done decision []
    end
  else done decision []
  end.

Definition Validate (decision : Decision) (candidateTools : list ToolCard) : option error :=
  match Normalize decision candidateTools with inl err => Some err | inr _ => None end.

(** ** internal/decision/parser and internal/policy/outputpolicy *)

(** [encoding/json] on a document: the strict decoder refuses unknown fields and a second
    value, with a text for each. *)
Class DecisionDecoder := {
  Unmarshal : string → string + Decision;
  DecodeStrict : string → string + Decision * bool    (* [true]: nothing follows the value *)
}.

Definition Parse `{DecisionDecoder} (data : string) : error + Decision :=
  match Unmarshal data with
  | inl err => inl (ErrRuntime (NewRuntimeError CodeDecisionSchemaError
                      (Sprintf "parse decision json: %v" [err]) ∅))
  | inr decision => inr decision
  end.

Definition ParseDecision `{DecisionDecoder} (data : string) (strategy : OutputStrategy)
    : error + Decision :=
  if negb strategy.(OutS_StrictJSON) then Parse data else
  match DecodeStrict data with
  | inl err => inl (ErrRuntime (NewRuntimeError CodeDecisionSchemaError
                      (Sprintf "parse strict decision json: %v" [err]) ∅))
  | inr (decision, at_end) =>
      if at_end then inr decision
      else inl (ErrRuntime (NewRuntimeError CodeDecisionSchemaError
                  "parse strict decision json: multiple JSON values" ∅))
  end.

Definition ValidateDecision (strategy : OutputStrategy) (result : ValidationResult)
    : option error :=
  if negb strategy.(OutS_StrictJSON) || (len result.(VR_Warnings) =? 0)%Z then None
  else Some (ErrRuntime (NewRuntimeError CodeDecisionSchemaError
               "output strategy strict_json rejected normalized decision"
               {["warnings" := AStrings result.(VR_Warnings)]})).

(** ** Schema validation is decided by the schema alone *)

(** What [ValidateObject] asks of an object, without the order in which it looks. *)
Definition valid_object (input schema : gmap string Any) : Prop :=
  schema = ∅ ∨
  as_string (schema !! "type") ∈ [""; "object"] ∧
  (∀ key, key ∈ stringList (schema !! "required") → is_Some (input !! key)) ∧
  (∀ name property value,
     as_map (schema !! "properties") !! name = Some property → input !! name = Some value →
     expectedType property = "" ∨ matchesType value (expectedType property) = true).

Lemma first_error_None {A} (check : A → option error) l :
  first_error check l = None ↔ ∀ x, x ∈ l → check x = None.
Proof.
  induction l as [|x l IH]; simpl; [split; [intros _ x Hx; inversion Hx|done]|].
  destruct (check x) eqn:E.
  - split; [done|]. intros H. specialize (H x (list_elem_of_here _ _)). congruence.
  - rewrite IH. setoid_rewrite elem_of_cons. naive_solver.
Qed.

Lemma ValidateRequired_None input required :
  ValidateRequired input required = None ↔ ∀ key, key ∈ required → is_Some (input !! key).
Proof.
  induction required as [|k l IH]; simpl; [split; [intros _ x Hx; inversion Hx|done]|].
  setoid_rewrite elem_of_cons. destruct (input !! k) eqn:E.
  - rewrite IH. split; [|by auto]. intros H key [->|Hk]; [by eauto|by auto].
  - split; [done|]. intros H. destruct (H k (or_introl eq_refl)) as [v Hv]. congruence.
Qed.

Lemma property_error_None input name property :
  property_error input (name, property) = None ↔
  ∀ value, input !! name = Some value →
    expectedType property = "" ∨ matchesType value (expectedType property) = true.
Proof.
  unfold property_error. destruct (input !! name) as [value|] eqn:E; [|naive_solver].
  split.
  - intros H v [= <-]. destruct (String.eqb_spec (expectedType property) ""); [by left|].
    right. by destruct (matchesType _ _).
  - intros H. destruct (H value eq_refl) as [->| ->]; [done|]. by destruct (_ == "").
Qed.

(** Validating an object against a schema ends without touching the state, whatever order
    the properties are visited in, and finds no error exactly if the schema is empty or is an
    object schema whose required fields are present and whose typed properties, where present,
    have their type. *)
Lemma ValidateObject_run `{Env} {S} (input schema : gmap string Any) w (s : S) :
  ∃ r w', ValidateObject input schema w s = (Ok r, w', s) ∧ (r = None ↔ valid_object input schema).
Proof.
  unfold ValidateObject, valid_object.
  destruct (Nat.eqb_spec (size schema) 0) as [Hs|Hs].
  { apply map_size_empty_iff in Hs. eexists _, w. split; [reflexivity|]. naive_solver. }
  assert (Hne : schema ≠ ∅) by (by intros ->).
  destruct (((as_string (schema !! "type")) != "") && _) eqn:Et.
  { eexists _, w. split; [reflexivity|]. split; [done|]. intros [?|[Hin _]]; [done|].
    apply elem_of_cons in Hin as [Hin|Hin%list_elem_of_singleton]; by rewrite Hin in Et. }
  assert (Hin : as_string (schema !! "type") ∈ [""; "object"]).
  { apply andb_false_iff in Et as [Et|Et]; apply negb_false_iff, String.eqb_eq in Et; rewrite Et;
      [left|right; left]. }
  destruct (ValidateRequired _ _) eqn:Er.
  { eexists _, w. split; [reflexivity|]. split; [done|]. intros [?|(_ & Hr & _)]; [done|].
    apply ValidateRequired_None in Hr. congruence. }
  rewrite ValidateRequired_None in Er.
  destruct (range_map_run (as_map (schema !! "properties")) w s) as (l & w' & E & Hl).
  eexists _, w'. rewrite (bind_Ok _ _ _ _ _ _ _ E). split; [reflexivity|].
  rewrite first_error_None. split.
  - intros Hp. right. split; [done|]. split; [done|]. intros name property value Hprop.
    apply property_error_None, Hp. rewrite Hl. by apply elem_of_map_to_list.
  - intros [?|(_ & _ & Hp)]; [done|]. intros [name property] Hx. rewrite Hl in Hx.
    apply elem_of_map_to_list in Hx. apply property_error_None. intros value. by apply Hp.
Qed.

(** ** What the validator accepts *)

(** The ids and names of the candidates. *)
Definition mentioned (tools : list ToolCard) (x : string) : Prop :=
  ∃ tool, tool ∈ tools ∧ (x = tool.(Card_ToolID) ∨ x = tool.(Card_Name)).

(** The registry admits no tool without id or name. *)
Definition cards_named (tools : list ToolCard) : Prop :=
  ∀ tool, tool ∈ tools → tool.(Card_ToolID) ≠ "" ∧ tool.(Card_Name) ≠ "".

Definition acceptable (d : Decision) (tools : list ToolCard) : Prop :=
  confidence_bad d.(Decision_Confidence) = false ∧
  (d.(Decision_Type) = DecisionTypeNoOp ∨
   (d.(Decision_Type) = DecisionTypeReply ∧
    ∃ reply, d.(Decision_Reply) = Some reply ∧ reply.(Reply_Text) ≠ "" ∧
      (reply.(Reply_Kind) = "" ∨ validReplyKind reply.(Reply_Kind) = true)) ∨
   (d.(Decision_Type) = DecisionTypeAskClarification ∧
    ∃ ask, d.(Decision_Ask) = Some ask ∧ ask.(Ask_Question) ≠ "") ∨
   (d.(Decision_Type) = DecisionTypeToolCall ∧ d.(Decision_ToolCalls) ≠ [] ∧
    Forall (λ call, mentioned tools call.(Call_ToolID) ∨ mentioned tools call.(Call_Name))
      d.(Decision_ToolCalls)) ∨
   (d.(Decision_Type) = DecisionTypeUnsupported ∧ d.(Decision_Reason) ≠ "") ∨
   (d.(Decision_Type) = DecisionTypeError ∧
    ∃ e, d.(Decision_Error) = Some e ∧ (e.(DecErr_Code) ≠ "" ∨ e.(DecErr_Message) ≠ ""))).

(** What the maps of the validator hold. *)
Definition candidates_ok (tools : list ToolCard) (c : Candidates) : Prop :=
  (∀ x, x ∈ c.(allowed) ↔ mentioned tools x) ∧
  (∀ x tool, c.(byName) !! x = Some tool → tool ∈ tools ∧ x = tool.(Card_Name)) ∧
  (∀ x tool, c.(byID) !! x = Some tool → tool ∈ tools ∧ x = tool.(Card_ToolID)).

Lemma candidates_fold tools done c :
  candidates_ok done c → candidates_ok (done ++ tools) (fold_left addCandidate tools c).
Proof.
  revert done c. induction tools as [|t tools IH]; intros seen c Hc; simpl.
  { by rewrite app_nil_r. }
  replace (seen ++ t :: tools) with ((seen ++ [t]) ++ tools) by by rewrite <- app_assoc.
  apply IH. destruct Hc as (Ha & Hn & Hi). unfold candidates_ok, mentioned in *. simpl.
  setoid_rewrite elem_of_app. setoid_rewrite list_elem_of_singleton. split_and!.
  - intros x. rewrite elem_of_union, elem_of_union, !elem_of_singleton, Ha. naive_solver.
  - intros x tool Hx. apply lookup_insert_Some in Hx. naive_solver.
  - intros x tool Hx. apply lookup_insert_Some in Hx. naive_solver.
Qed.

Lemma candidates_of_ok tools : candidates_ok tools (candidates_of tools).
Proof.
  apply (candidates_fold tools [] (mkCandidates ∅ ∅ ∅)).
  split_and!; simpl; [|by intros x t; rewrite lookup_empty..].
  intros x. unfold mentioned. split; [set_solver|]. intros (t & Ht & _). inversion Ht.
Qed.

Section calls.
Context (tools : list ToolCard) (c : Candidates).
Context (Hnamed : cards_named tools) (Hc : candidates_ok tools c).

Lemma mentioned_nonempty x : mentioned tools x → x ≠ "".
Proof. intros (t & Ht & [->| ->]); by apply Hnamed in Ht as [? ?]. Qed.

Lemma candidateCheck_cases call ws :
  match candidateCheck c call ws with
  | inl _ => ¬ mentioned tools call.(Call_ToolID) ∧ ¬ mentioned tools call.(Call_Name)
  | inr (call', ws') =>
      (mentioned tools call.(Call_ToolID) ∨ mentioned tools call.(Call_Name)) ∧
      call' = call ∧ ws' = ws
  end.
Proof.
  destruct Hc as (Ha & _). unfold candidateCheck. destruct (_ || _) eqn:Eo.
  - split; [|done]. apply orb_true_iff in Eo as [Eo|Eo]; apply bool_decide_eq_true, Ha in Eo; auto.
  - apply orb_false_iff in Eo as [E1 E2]. apply bool_decide_eq_false in E1, E2. by rewrite <- !Ha.
Qed.

(** The outcome of one call, by the fields that are missing. *)
Lemma normalizeCall_cases call :
  match normalizeCall c call with
  | inl _ => ¬ mentioned tools call.(Call_ToolID) ∧ ¬ mentioned tools call.(Call_Name)
  | inr (call', ws) =>
      (mentioned tools call.(Call_ToolID) ∨ mentioned tools call.(Call_Name)) ∧
      ((ws = [] ∧ call' = call ∧
        (call.(Call_ToolID) = "" → c.(byName) !! call.(Call_Name) = None) ∧
        (call.(Call_Name) = "" → c.(byID) !! call.(Call_ToolID) = None)) ∨
       (ws ≠ [] ∧ call' ≠ call ∧ mentioned tools call'.(Call_ToolID) ∧ call'.(Call_Name) ≠ ""))
  end.
Proof.
  destruct Hc as (Ha & Hn & Hi). unfold normalizeCall.
  destruct (String.eqb_spec (Call_ToolID call) "") as [Eid|Eid],
    (String.eqb_spec (Call_Name call) "") as [Ena|Ena]; cbv beta iota delta [andb].
  - rewrite Eid, Ena. split; intros ?%mentioned_nonempty; done.
  - destruct (byName c !! Call_Name call) as [t|] eqn:Et.
    + apply Hn in Et as [Ht Et]. destruct (Hnamed _ Ht) as [Hid Hname].
      change (Call_Name (call <| Call_ToolID := Card_ToolID t |>)) with (Call_Name call).
      rewrite (eqb_neq_false _ _ Ena). unfold candidateCheck.
      rewrite (bool_decide_eq_true_2 (Call_Name _ ∈ allowed c)) by (apply Ha; exists t; auto).
      rewrite orb_true_r. split; [right; exists t; auto|]. right. split_and!; [done| |by exists t; auto|done].
      intros E. by rewrite <- E in Eid.
    + rewrite (eqb_neq_false _ _ Ena). pose proof (candidateCheck_cases call ([] ++ [])) as H.
      destruct (candidateCheck _ _ _) as [?|[call' ws]]; naive_solver.
  - destruct (byID c !! Call_ToolID call) as [t|] eqn:Et.
    + apply Hi in Et as [Ht Et]. destruct (Hnamed _ Ht) as [Hid Hname].
      unfold candidateCheck.
      rewrite (bool_decide_eq_true_2 (Call_ToolID _ ∈ allowed c)) by (apply Ha; exists t; auto).
      split; [left; exists t; auto|]. right. split_and!; [done| |by exists t; auto|done].
      intros E. by rewrite <- E in Ena.
    + pose proof (candidateCheck_cases call ([] ++ [])) as H.
      destruct (candidateCheck _ _ _) as [?|[call' ws]]; naive_solver.
  - pose proof (candidateCheck_cases call ([] ++ [])) as H.
    destruct (candidateCheck _ _ _) as [?|[call' ws]]; naive_solver.
Qed.
End calls.

Section calls_facts.
Context (tools : list ToolCard) (c : Candidates).
Context (Hnamed : cards_named tools) (Hc : candidates_ok tools c).

(** A call comes out of the loop as it is, or filled in and then left as it is. *)
Lemma normalizeCall_twice call call' ws :
  normalizeCall c call = inr (call', ws) →
  normalizeCall c call' = inr (call', []) ∧ (ws = [] ↔ call' = call).
Proof.
  intros E. pose proof (normalizeCall_cases tools c Hnamed Hc call) as H. rewrite E in H.
  destruct H as (Hm & [(-> & -> & _)|(Hws & Hne & Hid & Hname)]); [by rewrite E|].
  split; [|by split; intros]. unfold normalizeCall, candidateCheck.
  rewrite (eqb_neq_false _ _ (mentioned_nonempty tools Hnamed _ Hid)), (eqb_neq_false _ _ Hname).
  cbn [andb]. by rewrite (bool_decide_eq_true_2 (Call_ToolID call' ∈ allowed c)) by by apply Hc.
Qed.

Lemma normalizeCall_ok call :
  (∃ r, normalizeCall c call = inr r) ↔
  mentioned tools call.(Call_ToolID) ∨ mentioned tools call.(Call_Name).
Proof.
  pose proof (normalizeCall_cases tools c Hnamed Hc call) as H.
  destruct (normalizeCall c call) as [?|[call' ws]]; naive_solver.
Qed.

Lemma normalizeCalls_ok calls :
  (∃ r, normalizeCalls c calls = inr r) ↔
  Forall (λ call, mentioned tools call.(Call_ToolID) ∨ mentioned tools call.(Call_Name)) calls.
Proof.
  induction calls as [|call calls IH]; simpl; [split; [by constructor|by eexists]|].
  rewrite Forall_cons, <- IH, <- normalizeCall_ok.
  destruct (normalizeCall c call) as [?|[call' w]]; [naive_solver|].
  destruct (normalizeCalls c calls) as [?|[calls' ws]]; naive_solver.
Qed.

Lemma normalizeCalls_twice calls calls' ws :
  normalizeCalls c calls = inr (calls', ws) →
  normalizeCalls c calls' = inr (calls', []) ∧ (ws = [] ↔ calls' = calls) ∧
  length calls' = length calls.
Proof.
  revert calls' ws. induction calls as [|call calls IH]; simpl; intros calls' ws E.
  { by simplify_eq. }
  destruct (normalizeCall c call) as [?|[call1 w]] eqn:E1; [done|].
  destruct (normalizeCalls c calls) as [?|[calls1 ws1]] eqn:E2; [done|]. simplify_eq.
  destruct (IH _ _ eq_refl) as (Ht & Hw & Hl). apply normalizeCall_twice in E1 as [E1 Hw1].
  cbn [normalizeCalls]. rewrite E1, Ht. cbn [length]. split_and!; [done| |by rewrite Hl].
  rewrite app_nil. naive_solver.
Qed.
End calls_facts.

Lemma type_valid (t : DecisionType) :
  DecisionType_Validate t = None ↔
  t = DecisionTypeReply ∨ t = DecisionTypeNoOp ∨ t = DecisionTypeAskClarification ∨
  t = DecisionTypeToolCall ∨ t = DecisionTypeUnsupported ∨ t = DecisionTypeError.
Proof.
  unfold DecisionType_Validate. split.
  - destruct (mem_string t _) eqn:E; [|done]. intros _. apply mem_string_elem in E.
    repeat (apply elem_of_cons in E as [->|E]; [tauto|]). inversion E.
  - by intros [->|[->|[->|[->|[->| ->]]]]].
Qed.

(** The validator on the types in turn; what is left of each is the switch's branch. *)
Ltac by_type d :=
  destruct d as [id type reason confidence reply calls ask err];
  unfold Normalize, acceptable;
  cbn [Decision_Type Decision_Reason Decision_Confidence Decision_Reply Decision_ToolCalls
       Decision_Ask Decision_Error];
  destruct (DecisionType_Validate type) eqn:Etype;
  [| apply type_valid in Etype; destruct (confidence_bad confidence) eqn:Econf;
     [|destruct Etype as [->|[->|[->|[->|[->| ->]]]]];
       cbn [String.eqb Ascii.eqb Bool.eqb DecisionTypeReply DecisionTypeNoOp
            DecisionTypeAskClarification DecisionTypeToolCall DecisionTypeUnsupported
            DecisionTypeError]]].

(** The validator accepts a decision exactly if its confidence is not outside 0 to 1 and it
    carries what its type requires: a reply a text and a known or missing kind, a question, a
    refusal's reason, an error's code or message, and at least one tool call, each with an id or
    a name that is the id or the name of some candidate. *)
Theorem normalize_accepts_iff d tools :
  cards_named tools → (∃ r, Normalize d tools = inr r) ↔ acceptable d tools.
Proof.
  intros Hnamed. by_type d.
  - split; [naive_solver|]. intros (_ & Ht). exfalso.
    assert (DecisionType_Validate type = None) by (apply type_valid; tauto). congruence.
  - split; naive_solver.
  - split.
    + destruct reply as [reply|]; [|naive_solver].
      destruct (String.eqb_spec (Reply_Text reply) ""); [naive_solver|].
      destruct (String.eqb_spec (Reply_Kind reply) "") as [Ek|Ek];
        intros [r E]; (split; [done|]); right; left; (split; [done|]); exists reply; split_and!; auto.
      right. by destruct (validReplyKind (Reply_Kind reply)).
    + intros (_ & [?|[(_ & r & [= ->] & Ht & Hk)|[(? & _)|[(? & _)|[(? & _)|(? & _)]]]]]); try done.
      rewrite (eqb_neq_false _ _ Ht). destruct Hk as [->| Hk]; [by eexists|].
      destruct (String.eqb_spec (Reply_Kind r) "") as [Ek|Ek]; [by eexists|]. rewrite Hk. by eexists.
  - naive_solver.
  - destruct ask as [ask|]; [|naive_solver].
    destruct (String.eqb_spec (Ask_Question ask) ""); naive_solver.
  - pose proof (normalizeCalls_ok tools _ Hnamed (candidates_of_ok tools) calls) as H.
    destruct calls as [|call calls]; [naive_solver|].
    cbn [len length Z.of_nat Z.eqb]. destruct (normalizeCalls _ _) as [?|[calls' ws]]; naive_solver.
  - destruct (String.eqb_spec reason ""); naive_solver.
  - destruct err as [err|]; [|naive_solver].
    destruct (String.eqb_spec (DecErr_Code err) ""), (String.eqb_spec (DecErr_Message err) "");
      cbn [andb]; naive_solver.
Qed.

Lemma normalize_again d tools r N :
  cards_named tools → N = Normalize → Normalize d tools = inr r →
  N r.(VR_Decision) tools = inr (mkValidationResult r.(VR_Decision) []) ∧
  (r.(VR_Warnings) = [] ↔ r.(VR_Decision) = d).
Proof.
  intros Hnamed HN. by_type d; try done; subst N.
  - destruct reply as [reply|]; [|done]. destruct (String.eqb_spec (Reply_Text reply) ""); [done|].
    destruct (String.eqb_spec (Reply_Kind reply) "") as [Ek|Ek].
    + intros [= <-]. cbn. rewrite Econf. rewrite (eqb_neq_false _ _ n). split; [done|].
      split; [done|]. intros [= E]. by rewrite <- E in Ek.
    + destruct (validReplyKind (Reply_Kind reply)) eqn:Ev; [|done]. intros [= <-].
      cbn -[validReplyKind]. rewrite Econf, (eqb_neq_false _ _ n), (eqb_neq_false _ _ Ek), Ev. done.
  - intros [= <-]. cbn. by rewrite Econf.
  - destruct ask as [ask|]; [|done]. destruct (String.eqb_spec (Ask_Question ask) ""); [done|].
    intros [= <-]. cbn. by rewrite Econf, (eqb_neq_false _ _ n).
  - destruct (Z.eqb_spec (len calls) 0) as [?|Hlen]; [done|].
    destruct (normalizeCalls _ _) as [?|[calls' ws]] eqn:E; [done|]. intros [= <-].
    apply (normalizeCalls_twice tools) in E as (Ht & Hw & Hl); [|done|apply candidates_of_ok].
    cbn -[normalizeCalls len]. rewrite Econf. unfold len in *. rewrite Hl.
    destruct (Z.eqb_spec (Z.of_nat (length calls)) 0); [done|]. rewrite Ht.
    split; [done|]. rewrite Hw. split; [by intros ->|by intros [= ->]].
  - destruct (String.eqb_spec reason ""); [done|]. intros [= <-]. cbn.
    by rewrite Econf, (eqb_neq_false _ _ n).
  - destruct err as [err|]; [|done]. destruct (_ && _) eqn:Ee; [done|]. intros [= <-].
    cbn. by rewrite Econf, Ee.
Qed.

(** Normalising is done once: the decision that comes out is accepted as it is, without
    warnings; there are warnings exactly if it differs from the one that went in, and so the
    strict output strategy accepts exactly the decisions that needed no change. *)
Theorem normalize_once d tools r strategy :
  cards_named tools → Normalize d tools = inr r →
  Normalize r.(VR_Decision) tools = inr (mkValidationResult r.(VR_Decision) []) ∧
  (r.(VR_Warnings) = [] ↔ r.(VR_Decision) = d) ∧
  (ValidateDecision strategy r = None ↔
   (strategy.(OutS_StrictJSON) = true → r.(VR_Decision) = d)).
Proof.
  intros Hnamed E.
  destruct (normalize_again d tools r Normalize Hnamed eq_refl E) as [Ht Hw].
  split_and!; [done|done|]. rewrite <- Hw. unfold ValidateDecision.
  destruct (OutS_StrictJSON strategy); [|done]. cbn [negb orb].
  destruct (VR_Warnings r); [done|]. naive_solver.
Qed.

(** A tool call passes the candidate check by its name alone: the id, which is what the runtime
    looks up, may be any tool's. *)
Theorem candidate_check_by_name tool id :
  tool.(Card_Name) ≠ "" → id ≠ "" →
  let call := zeroToolCall <| Call_ToolID := id |> <| Call_Name := tool.(Card_Name) |> in
  let d := zeroDecision <| Decision_Type := DecisionTypeToolCall |>
             <| Decision_ToolCalls := [call] |> in
  Normalize d [tool] = inr (mkValidationResult d []).
Proof.
  intros Hn Hid call d.
  assert (E : normalizeCall (candidates_of [tool]) call = inr (call, [])).
  { unfold normalizeCall. change (Call_ToolID call) with id.
    change (Call_Name call) with (Card_Name tool).
    rewrite (eqb_neq_false _ _ Hid), (eqb_neq_false _ _ Hn). cbn [andb].
    change (Call_Name call) with (Card_Name tool). rewrite (eqb_neq_false _ _ Hn).
    pose proof (candidateCheck_cases [tool] _ (candidates_of_ok [tool]) call []) as H.
    destruct (candidateCheck _ _ _) as [?|[call' ws]]; [|by destruct H as (_ & -> & ->)].
    destruct H as [_ []]. exists tool. split; [left|by right]. }
  unfold Normalize, d. cbn -[candidates_of]. by rewrite E.
Qed.

Example sample_card : ToolCard := zeroToolCard <| Card_ToolID := "t1" |> <| Card_Name := "search" |>.
Example sample_decision : Decision :=
  zeroDecision <| Decision_Type := DecisionTypeToolCall |>
    <| Decision_ToolCalls := [zeroToolCall <| Call_Name := "search" |>] |>.

Lemma sample_card_named : cards_named [sample_card].
Proof. intros t ->%list_elem_of_singleton. done. Qed.

Lemma normalize_accepts_iff_witness :
  cards_named [sample_card] ∧
  ((∃ r, Normalize sample_decision [sample_card] = inr r) ↔
   acceptable sample_decision [sample_card]).
Proof. split; [exact sample_card_named|]. apply (normalize_accepts_iff _ _ sample_card_named). Defined.

Definition sample_result : ValidationResult :=
  mkValidationResult
    (sample_decision <| Decision_ToolCalls :=
       [zeroToolCall <| Call_ToolID := "t1" |> <| Call_Name := "search" |>] |>)
    [Sprintf "tool call %q normalized name to tool_id" ["search"]].

Lemma normalize_once_witness :
  Normalize sample_decision [sample_card] = inr sample_result ∧
  Normalize sample_result.(VR_Decision) [sample_card] =
    inr (mkValidationResult sample_result.(VR_Decision) []) ∧
  (sample_result.(VR_Warnings) = [] ↔ sample_result.(VR_Decision) = sample_decision) ∧
  (ValidateDecision zeroOutputStrategy sample_result = None ↔
   (false = true → sample_result.(VR_Decision) = sample_decision)).
Proof.
  assert (E : Normalize sample_decision [sample_card] = inr sample_result) by reflexivity.
  split; [exact E|]. exact (normalize_once _ _ _ zeroOutputStrategy sample_card_named E).
Defined.
