(* ===== verification/ToolStore.v ===== *)
(** * Tool calls, their results, and the registry of tools

    internal/tool/repository/memory.go and internal/tool/registry/registry.go.  The mutexes
    make each method one atomic step.  What an executor does is not looked at here: its type is
    a parameter. *)

From stdpp Require Import base list strings gmap fin_maps.
From Stdlib Require Import Ascii Lia.
From S2P Require Import Prelude Contracts GoMonad Storage.
Open Scope go_scope.
Open Scope string_scope.
Open Scope list_scope.


(** ** internal/tool/repository *)

Record ToolRepo := mkToolRepo {
  calls : gmap string ToolCall;
  resultsByCall : gmap string ToolResult;
  idempotencyMap : gmap string string
}.
#[export] Instance eta_ToolRepo : Settable ToolRepo :=
  fields! mkToolRepo < calls ; resultsByCall ; idempotencyMap >.

Definition NewToolRepo : ToolRepo := mkToolRepo ∅ ∅ ∅.

Definition idempotencyKey (tenantID key : string) : string := tenantID +:+ NUL +:+ key.

(** Indexing the map gives the zero value of a call that is missing. *)
Definition call_at (r : ToolRepo) (callID : string) : ToolCall :=
  default zeroToolCall (r.(calls) !! callID).

Definition resultLess (a b : ToolResult) : bool :=
  if Equal a.(Result_CompletedAt) b.(Result_CompletedAt)
  then string_lt a.(Result_ToolResultID) b.(Result_ToolResultID)
  else Before a.(Result_CompletedAt) b.(Result_CompletedAt).

(** [if limit > 0 && len(out) > limit { out = out[len(out)-limit:] }] *)
Definition last_limit {A} (out : list A) (limit : Z) : list A :=
  if (limit >? 0)%Z && (len out >? limit)%Z
  then drop (Z.to_nat (len out - limit)) out else out.

(** The loop of [ListArtifactRefsByRunLimit] over the references from last to first; [true]:
    it has returned. *)
Fixpoint collectRefs (limit : Z) (refs : list ArtifactRef) (seen : gset string)
    (out : list ArtifactRef) : list ArtifactRef :=
  match refs with
  | [] => out
  | ref :: refs =>
      if ref.(ArtifactRef_ArtifactID) == "" then collectRefs limit refs seen out
      else if bool_decide (ref.(ArtifactRef_ArtifactID) ∈ seen) then collectRefs limit refs seen out
      else
        let seen := {[ref.(ArtifactRef_ArtifactID)]} ∪ seen in
        let out := out ++ [ref] in
        if (limit >? 0)%Z && (len out >=? limit)%Z then out
        else collectRefs limit refs seen out
  end.

Section repository.
Context `{Env}.

(** The boolean tells that the call was there already. *)
Definition SaveCall (call : ToolCall) : M ToolRepo (ToolCall * bool) :=
  let! r := get in
  let save :=
    match r.(calls) !! call.(Call_ToolCallID) with
    | Some _ => throw ErrDuplicateRequest
    | None =>
        let r := r <| calls := <[call.(Call_ToolCallID) := call]> r.(calls) |> in
        do! put (if call.(Call_IdempotencyKey) != ""
                 then r <| idempotencyMap :=
                   <[idempotencyKey call.(Call_TenantID) call.(Call_IdempotencyKey) :=
                     call.(Call_ToolCallID)]> r.(idempotencyMap) |>
                 else r) in
        ret (call, false)
    end in
  if call.(Call_IdempotencyKey) != "" then
    match r.(idempotencyMap) !!
            idempotencyKey call.(Call_TenantID) call.(Call_IdempotencyKey) with
    | Some existingID => ret (call_at r existingID, true)
    | None => save
    end
  else save.

Definition GetCall (callID : string) : M ToolRepo (option ToolCall) :=
  let! r := get in ret (r.(calls) !! callID).

Definition SaveResult (result : ToolResult) : M ToolRepo unit :=
  let! r := get in
  put (r <| resultsByCall := <[result.(Result_ToolCallID) := result]> r.(resultsByCall) |>).

Definition GetResultByCall (callID : string) : M ToolRepo (option ToolResult) :=
  let! r := get in ret (r.(resultsByCall) !! callID).

Definition GetResultByIdempotencyKey (tenantID key : string) : M ToolRepo (option ToolResult) :=
  if key == "" then ret None else
  let! r := get in
  match r.(idempotencyMap) !! idempotencyKey tenantID key with
  | None => ret None
  | Some callID => ret (r.(resultsByCall) !! callID)
  end.

Definition ListCallsByRun (runID : string) : M ToolRepo (list ToolCall) :=
  let! r := get in
  let! entries := range_map r.(calls) in
  ret (List.filter (λ call, call.(Call_RunID) == runID) (map snd entries)).

Definition listResultsByRun (runID : string) (limit : Z) : M ToolRepo (list ToolResult) :=
  let! r := get in
  let! entries := range_map r.(resultsByCall) in
  let out := map snd (List.filter (λ e, (call_at r e.1).(Call_RunID) == runID) entries) in
  ret (last_limit (stable_sort resultLess out) limit).

Definition ListResultsByRun (runID : string) : M ToolRepo (list ToolResult) :=
  listResultsByRun runID 0.

Definition ListResultsByRunLimit (runID : string) (limit : Z) : M ToolRepo (list ToolResult) :=
  listResultsByRun runID limit.

Definition reverseArtifactRefs (refs : list ArtifactRef) : list ArtifactRef := reverse refs.

Definition ListArtifactRefsByRunLimit (runID : string) (limit : Z)
    : M ToolRepo (list ArtifactRef) :=
  let! results := listResultsByRun runID 0 in
  ret (reverseArtifactRefs
    (collectRefs limit (reverse (mjoin (map Result_ArtifactRefs results))) ∅ [])).

Definition call_of_task (tenantID taskID : string) (call : ToolCall) : bool :=
  if (tenantID != "") && (call.(Call_TenantID) != tenantID) then false
  else call.(Call_TaskID) == taskID.

Definition ListCallsByTask (tenantID taskID : string) : M ToolRepo (list ToolCall) :=
  let! r := get in
  let! entries := range_map r.(calls) in
  ret (List.filter (call_of_task tenantID taskID) (map snd entries)).

Definition listResultsByTask (tenantID taskID : string) (limit : Z) : M ToolRepo (list ToolResult) :=
  let! r := get in
  let! entries := range_map r.(resultsByCall) in
  let out := map snd (List.filter (λ e, call_of_task tenantID taskID (call_at r e.1)) entries) in
  ret (last_limit (stable_sort resultLess out) limit).

Definition ListResultsByTask (tenantID taskID : string) : M ToolRepo (list ToolResult) :=
  listResultsByTask tenantID taskID 0.

Definition ListResultsByTaskLimit (tenantID taskID : string) (limit : Z)
    : M ToolRepo (list ToolResult) :=
  listResultsByTask tenantID taskID limit.
End repository.

(** ** internal/tool/registry *)

Section registry.
Context {Executor : Type}.

Record Tool := mkTool {
  RTool_Definition : ToolDefinition;
  RTool_Executor : option Executor;
  RTool_WhenToUse : list string;
  RTool_TenantID : string
}.

Record Registry := mkRegistry { tools : gmap string Tool }.
#[export] Instance eta_Registry : Settable Registry := fields! mkRegistry < tools >.

Definition NewInMemoryRegistry : Registry := mkRegistry ∅.

Definition toolKey (tenantID toolID : string) : string := tenantID +:+ NUL +:+ toolID.

Definition tool_id (tool : Tool) : string := tool.(RTool_Definition).(Tool_ToolID).

Definition validateTool (tool : Tool) : option error :=
  if (tool_id tool == "") || (tool.(RTool_Definition).(Tool_Name) == "")
  then Some (Errorf "tool_id and name are required" [])
  else match tool.(RTool_Executor) with
       | None => Some (Errorf "tool executor is required" [])
       | Some _ => None
       end.

Definition RenderCard (tool : Tool) : ToolCard :=
  let d := tool.(RTool_Definition) in
  mkToolCard d.(Tool_ToolID) d.(Tool_GroupID) d.(Tool_Name) d.(Tool_Description)
    tool.(RTool_WhenToUse) d.(Tool_RiskLevel) d.(Tool_Visibility) d.(Tool_Version).

Context `{Env}.

(** In its loop over the tools every hit returns the same error. *)
Definition checkConflictLocked (tool : Tool) : M Registry unit :=
  let! r := get in
  if tool.(RTool_TenantID) != "" then
    match r.(tools) !! toolKey "" (tool_id tool) with
    | Some _ => throw (Errorf "tool %s conflicts with a global tool" [tool_id tool])
    | None => ret tt
    end
  else
    let! entries := range_map r.(tools) in
    if existsb (λ existing, (existing.(RTool_TenantID) != "") && (tool_id existing == tool_id tool))
         (map snd entries)
    then throw (Errorf "tool %s conflicts with a tenant scoped tool" [tool_id tool])
    else ret tt.

Definition Register (tool : Tool) : M Registry unit :=
  match validateTool tool with
  | Some err => throw err
  | None =>
      do! checkConflictLocked tool in
      let key := toolKey tool.(RTool_TenantID) (tool_id tool) in
      let! r := get in
      match r.(tools) !! key with
      | Some _ => throw (Errorf "tool %s is already registered" [tool_id tool])
      | None => put (r <| tools := <[key := tool]> r.(tools) |>)
      end
  end.

Definition Upsert (tool : Tool) : M Registry unit :=
  match validateTool tool with
  | Some err => throw err
  | None =>
      do! checkConflictLocked tool in
      let! r := get in
      put (r <| tools :=
        <[toolKey tool.(RTool_TenantID) (tool_id tool) := tool]> r.(tools) |>)
  end.

Definition Unregister (toolID : string) : M Registry unit :=
  let! r := get in put (r <| tools := delete (toolKey "" toolID) r.(tools) |>).

Definition UnregisterForTenant (tenantID toolID : string) : M Registry unit :=
  let! r := get in put (r <| tools := delete (toolKey tenantID toolID) r.(tools) |>).

(** The lookups, on the registry as it is. *)
Definition GetTool (r : Registry) (toolID : string) : option Tool :=
  r.(tools) !! toolKey "" toolID.

Definition GetForTenant (r : Registry) (tenantID toolID : string) : option Tool :=
  let global := r.(tools) !! toolKey "" toolID in
  if tenantID != "" then
    match r.(tools) !! toolKey tenantID toolID with Some tool => Some tool | None => global end
  else global.

Definition Card (r : Registry) (toolID : string) : option ToolCard :=
  option_map RenderCard (GetTool r toolID).

Definition Cards : M Registry (list ToolCard) :=
  let! r := get in
  let! entries := range_map r.(tools) in
  ret (map RenderCard
    (List.filter (λ tool, negb (tool.(RTool_TenantID) != "")) (map snd entries))).

Definition CardsForTenant (tenantID : string) : M Registry (list ToolCard) :=
  let! r := get in
  let! entries := range_map r.(tools) in
  ret (map RenderCard
    (List.filter (λ tool, negb ((tool.(RTool_TenantID) != "") && (tool.(RTool_TenantID) != tenantID)))
       (map snd entries))).
End registry.
Arguments Tool : clear implicits.
Arguments Registry : clear implicits.

(** ** A call is recorded once for its idempotency key *)

(** Every call is filed under its id, and the keys in use are those of the calls. *)
Definition repo_ok (r : ToolRepo) : Prop :=
  (∀ id c, r.(calls) !! id = Some c → c.(Call_ToolCallID) = id ∧ nul_free c.(Call_TenantID)) ∧
  (∀ id c, r.(calls) !! id = Some c → c.(Call_IdempotencyKey) ≠ "" →
     r.(idempotencyMap) !! idempotencyKey c.(Call_TenantID) c.(Call_IdempotencyKey) = Some id) ∧
  (∀ k id, r.(idempotencyMap) !! k = Some id →
     ∃ c, r.(calls) !! id = Some c ∧ c.(Call_IdempotencyKey) ≠ "" ∧
          k = idempotencyKey c.(Call_TenantID) c.(Call_IdempotencyKey)).

Section histories.
Context `{Env}.

(** The repositories that calls of the writing methods lead to, whatever their outcome; tenants
    have no NUL byte. *)
Inductive repo_history : ToolRepo → Prop :=
| history_new : repo_history NewToolRepo
| history_save_call r call w out w' r' :
    repo_history r → nul_free call.(Call_TenantID) →
    SaveCall call w r = (out, w', r') → repo_history r'
| history_save_result r result w out w' r' :
    repo_history r → SaveResult result w r = (out, w', r') → repo_history r'.

(** The stored call with the tenant and key of [call]. *)
Definition same_request (r : ToolRepo) (call : ToolCall) (id : string) (c : ToolCall) : Prop :=
  r.(calls) !! id = Some c ∧ call.(Call_IdempotencyKey) ≠ "" ∧
  c.(Call_TenantID) = call.(Call_TenantID) ∧ c.(Call_IdempotencyKey) = call.(Call_IdempotencyKey).

Lemma same_request_key r call id :
  repo_ok r → nul_free call.(Call_TenantID) →
  (∃ c, same_request r call id c) ↔
  call.(Call_IdempotencyKey) ≠ "" ∧
  r.(idempotencyMap) !! idempotencyKey call.(Call_TenantID) call.(Call_IdempotencyKey) = Some id.
Proof.
  intros (Hid & Hk & Hm) Hn. split.
  - intros (c & Hc & Hne & Ht & He). split; [done|]. rewrite <- Ht, <- He. apply Hk; [done|].
    by rewrite He.
  - intros (Hne & Hi). destruct (Hm _ _ Hi) as (c & Hc & _ & E).
    apply nul_join_inj in E as [Et Ek]; [|done|by eapply Hid]. by exists c.
Qed.

(** What [SaveCall] writes when the request is new. *)
Definition with_call (r : ToolRepo) (call : ToolCall) : ToolRepo :=
  mkToolRepo (<[call.(Call_ToolCallID) := call]> r.(calls)) r.(resultsByCall)
    (if call.(Call_IdempotencyKey) != ""
     then <[idempotencyKey call.(Call_TenantID) call.(Call_IdempotencyKey) :=
            call.(Call_ToolCallID)]> r.(idempotencyMap)
     else r.(idempotencyMap)).

Lemma SaveCall_run r call w :
  repo_ok r → nul_free call.(Call_TenantID) →
  (∃ id c, same_request r call id c ∧ SaveCall call w r = (Ok (c, true), w, r)) ∨
  ((¬ ∃ id c, same_request r call id c) ∧
   ((is_Some (r.(calls) !! call.(Call_ToolCallID)) ∧
     SaveCall call w r = (Err ErrDuplicateRequest, w, r)) ∨
    (r.(calls) !! call.(Call_ToolCallID) = None ∧
     SaveCall call w r = (Ok (call, false), w, with_call r call)))).
Proof.
  intros Hr Hn. pose proof (same_request_key r call) as Hs. unfold SaveCall. rewrite bind_get.
  destruct (String.eqb_spec (Call_IdempotencyKey call) "") as [Ek|Ek]; cbn [negb].
  - right. split; [naive_solver|]. destruct (calls r !! Call_ToolCallID call) eqn:Ec; [left; eauto|].
    right. split; [done|]. unfold bind, put, ret, with_call. rewrite Ek. by destruct r.
  - destruct (idempotencyMap r !! _) as [id|] eqn:Ei.
    + left. destruct (proj2 (Hs id Hr Hn) (conj Ek eq_refl)) as [c Hc]. exists id, c. split; [done|].
      unfold ret, call_at. destruct Hc as [-> _]. done.
    + right. split; [intros (id & c & Hc); apply ex_intro, Hs in Hc as [_ Hc]; congruence|].
      destruct (calls r !! Call_ToolCallID call) eqn:Ec; [left; eauto|]. right. split; [done|].
      unfold bind, put, ret, with_call. rewrite (eqb_neq_false _ _ Ek). by destruct r.
Qed.

Lemma with_call_ok r call :
  repo_ok r → nul_free call.(Call_TenantID) → (¬ ∃ id c, same_request r call id c) →
  r.(calls) !! call.(Call_ToolCallID) = None → repo_ok (with_call r call).
Proof.
  intros Hr Hn Hnew Hfree. pose proof (same_request_key r call) as Hs. destruct Hr as (Hid & Hk & Hm).
  assert (Hkeep : ∀ k id, r.(idempotencyMap) !! k = Some id →
    (with_call r call).(idempotencyMap) !! k = Some id).
  { intros k id Hi. unfold with_call. cbn. destruct (String.eqb_spec (Call_IdempotencyKey call) "");
      [done|]. apply lookup_insert_Some. right. split; [|done]. intros <-. apply Hnew.
    destruct (proj2 (Hs id (conj Hid (conj Hk Hm)) Hn)) as [c Hc]; eauto. }
  split_and!.
  - intros id c Hc. cbn in Hc. apply lookup_insert_Some in Hc as [[<- <-]|[_ Hc]]; [done|by apply Hid].
  - intros id c Hc Hne. cbn in Hc. apply lookup_insert_Some in Hc as [[<- <-]|[_ Hc]];
      [|by apply Hkeep, Hk].
    unfold with_call. cbn. rewrite (eqb_neq_false _ _ Hne). by apply lookup_insert_eq.
  - intros k id Hi.
    assert (Hcase : (call.(Call_IdempotencyKey) ≠ "" ∧ id = call.(Call_ToolCallID) ∧
        k = idempotencyKey call.(Call_TenantID) call.(Call_IdempotencyKey)) ∨
        r.(idempotencyMap) !! k = Some id).
    { unfold with_call in Hi. cbn in Hi. destruct (String.eqb_spec (Call_IdempotencyKey call) "");
        [by right|]. apply lookup_insert_Some in Hi as [[<- <-]|[_ Hi]]; auto. }
    destruct Hcase as [(Hne & -> & ->)|Hi']; [exists call; cbn; by rewrite lookup_insert_eq|].
    destruct (Hm _ _ Hi') as (c & Hc & Hne & ->). exists c. split_and!; [|done..]. cbn.
    rewrite lookup_insert_ne; [done|]. intros E. congruence.
Qed.

Lemma repo_history_ok r : repo_history r → repo_ok r.
Proof.
  induction 1 as [|r call w out w' r' _ IH Hn E|r result w out w' r' _ IH E].
  - split_and!; intros ? ?; cbn; by rewrite lookup_empty.
  - destruct (SaveCall_run r call w IH Hn)
      as [(id & c & Hc & E')|(Hnew & [(_ & E')|(Hfree & E')])]; rewrite E in E'; simplify_eq;
      [done|done|by apply with_call_ok].
  - unfold SaveResult in E. rewrite bind_get in E. unfold put in E. by simplify_eq.
Qed.

(** A call is recorded once for its tenant and idempotency key: in every reachable
    repository, a call whose tenant and key are those of a stored call is answered with that
    call, changes nothing, and finds the stored call's result under its key; any other call is
    stored under its id, or refused when the id is taken. *)
Theorem call_recorded_once r call w :
  repo_history r → nul_free call.(Call_TenantID) →
  (∃ id c, same_request r call id c ∧ SaveCall call w r = (Ok (c, true), w, r) ∧
     (∀ id' c', same_request r call id' c' → id' = id ∧ c' = c) ∧
     GetResultByIdempotencyKey call.(Call_TenantID) call.(Call_IdempotencyKey) w r =
       (Ok (r.(resultsByCall) !! id), w, r)) ∨
  ((¬ ∃ id c, same_request r call id c) ∧
   ((is_Some (r.(calls) !! call.(Call_ToolCallID)) ∧
     SaveCall call w r = (Err ErrDuplicateRequest, w, r)) ∨
    (r.(calls) !! call.(Call_ToolCallID) = None ∧
     SaveCall call w r = (Ok (call, false), w, with_call r call)))).
Proof.
  intros Hr Hn. apply repo_history_ok in Hr.
  destruct (SaveCall_run r call w Hr Hn) as [(id & c & Hc & E)|Hnew]; [left|by right].
  pose proof (same_request_key r call) as Hs.
  destruct (proj1 (Hs id Hr Hn) (ex_intro _ c Hc)) as [Hne Hi].
  exists id, c. split_and!; [done|done| |].
  - intros id' c' Hc'. pose proof (proj1 (Hs id' Hr Hn) (ex_intro _ c' Hc')) as [_ Hi'].
    assert (id' = id) as -> by congruence. destruct Hc as [Hc _], Hc' as [Hc' _]. split; congruence.
  - unfold GetResultByIdempotencyKey. rewrite (eqb_neq_false _ _ Hne), bind_get. by rewrite Hi.
Qed.
End histories.

(** ** The latest references of a run *)

Definition ref_id (ref : ArtifactRef) : string := ref.(ArtifactRef_ArtifactID).

(** Without the references whose artifact comes again later, or that name none. *)
Fixpoint keep_last (refs : list ArtifactRef) : list ArtifactRef :=
  match refs with
  | [] => []
  | ref :: refs =>
      if (ref_id ref == "") || mem_string (ref_id ref) (map ref_id refs)
      then keep_last refs else ref :: keep_last refs
  end.

(** The same from the other end. *)
Fixpoint keep_first (seen : gset string) (refs : list ArtifactRef) : list ArtifactRef :=
  match refs with
  | [] => []
  | ref :: refs =>
      if (ref_id ref == "") || bool_decide (ref_id ref ∈ seen) then keep_first seen refs
      else ref :: keep_first ({[ref_id ref]} ∪ seen) refs
  end.

Lemma keep_first_app seen l k :
  keep_first seen (l ++ k) = keep_first seen l ++ keep_first (list_to_set (map ref_id l) ∪ seen) k.
Proof.
  revert seen. induction l as [|x l IH]; intros seen; simpl.
  { by rewrite (left_id_L ∅ (∪)). }
  destruct (String.eqb_spec (ref_id x) "") as [Ex|Ex]; cbn [orb].
  - rewrite IH. f_equal. clear IH.
    assert (Hs : ∀ m s, keep_first ({[ref_id x]} ∪ s) m = keep_first s m).
    { rewrite Ex. intros m. induction m as [|y m IH]; intros s; simpl; [done|].
      destruct (String.eqb_spec (ref_id y) "") as [Ey|Ey]; cbn [orb]; [by apply IH|].
      rewrite (bool_decide_ext (ref_id y ∈ {[""]} ∪ s) (ref_id y ∈ s)) by set_solver.
      destruct (bool_decide _); [by apply IH|]. f_equal. rewrite <- (IH ({[ref_id y]} ∪ s)).
      f_equal. set_solver. }
    rewrite <- (Hs k (list_to_set (map ref_id l) ∪ seen)). f_equal. set_solver.
  - destruct (bool_decide (ref_id x ∈ seen)) eqn:Es.
    + apply bool_decide_eq_true in Es. rewrite IH. do 2 f_equal. set_solver.
    + rewrite IH. cbn [app]. do 3 f_equal. set_solver.
Qed.

Lemma keep_last_reverse l : reverse (keep_first ∅ (reverse l)) = keep_last l.
Proof.
  induction l as [|x l IH]; simpl; [done|].
  rewrite reverse_cons, keep_first_app, reverse_app, IH. simpl.
  rewrite (right_id_L ∅ (∪)).
  rewrite (bool_decide_ext _ (ref_id x ∈ map ref_id l)).
  2: { rewrite elem_of_list_to_set. change (ref_id x ∈ ref_id <$> reverse l ↔ ref_id x ∈ ref_id <$> l).
       by rewrite fmap_reverse, elem_of_reverse. }
  destruct (String.eqb_spec (ref_id x) ""); cbn [orb]; [done|].
  destruct (mem_string (ref_id x) (map ref_id l)) eqn:E.
  - apply mem_string_elem in E. by rewrite bool_decide_eq_true_2.
  - apply mem_string_false in E. by rewrite bool_decide_eq_false_2.
Qed.

Lemma collectRefs_spec limit refs seen out :
  (limit ≤ 0 ∨ len out < limit)%Z →
  collectRefs limit refs seen out =
    if (limit >? 0)%Z then take (Z.to_nat limit) (out ++ keep_first seen refs)
    else out ++ keep_first seen refs.
Proof.
  revert seen out. induction refs as [|x refs IH]; intros seen out Hl; simpl.
  { rewrite app_nil_r. destruct (Z.gtb_spec limit 0); [|done]. rewrite take_ge; [done|]. unfold len in *. lia. }
  change (ArtifactRef_ArtifactID x) with (ref_id x).
  destruct (ref_id x == ""); cbn [orb]; [by apply IH|].
  destruct (bool_decide _); [by apply IH|].
  replace (out ++ x :: keep_first ({[ref_id x]} ∪ seen) refs)
    with ((out ++ [x]) ++ keep_first ({[ref_id x]} ∪ seen) refs) by by rewrite <- app_assoc.
  assert (El : len (out ++ [x]) = (len out + 1)%Z).
  { unfold len. rewrite length_app. cbn. lia. }
  destruct (Z.gtb_spec limit 0) as [Hpos|Hpos]; cbn [andb].
  - destruct (Z.geb_spec (len (out ++ [x])) limit) as [Hge|Hlt].
    + rewrite take_app_le by (unfold len in *; lia). rewrite take_ge; [done|]. unfold len in *. lia.
    + rewrite IH by lia. by destruct (Z.gtb_spec limit 0); [|lia].
  - rewrite IH by lia. by destruct (Z.gtb_spec limit 0); [lia|].
Qed.

Lemma reverse_take {A} n (l : list A) : reverse (take n l) = drop (length l - n) (reverse l).
Proof.
  rewrite <- (take_drop n l) at 3. rewrite reverse_app, drop_app_length'; [done|].
  by rewrite length_reverse, length_drop.
Qed.

(** The references listed for a run are those of its results, in the order in which the
    results completed, each artifact at its last occurrence, and of these the last [limit]. *)
Theorem artifact_refs_latest `{Env} r runID limit w :
  ∃ results w',
    ListResultsByRun runID w r = (Ok results, w', r) ∧
    ListArtifactRefsByRunLimit runID limit w r =
      (Ok (last_limit (keep_last (mjoin (map Result_ArtifactRefs results))) limit), w', r).
Proof.
  unfold ListResultsByRun, ListArtifactRefsByRunLimit, listResultsByRun.
  rewrite bind_get.
  destruct (range_map_run (resultsByCall r) w r) as (entries & w' & E & _).
  rewrite (bind_Ok _ _ _ _ _ _ _ E). unfold ret at 1. eexists _, w'. split; [reflexivity|].
  unfold bind at 1. unfold bind, get in E |- *. rewrite E. unfold ret.
  do 3 f_equal. set (refs := mjoin _). unfold reverseArtifactRefs, last_limit.
  rewrite collectRefs_spec by (unfold len; cbn; lia). cbn [app].
  rewrite <- keep_last_reverse. set (l := keep_first _ _).
  destruct (Z.gtb_spec limit 0); cbn [andb]; [|done].
  unfold len. rewrite length_reverse. destruct (Z.gtb_spec (Z.of_nat (length l)) limit).
  - rewrite reverse_take. f_equal. lia.
  - rewrite take_ge by lia. done.
Qed.

(** ** The registry *)

Section registry_facts.
Context {Executor : Type}.
Notation Tool := (Tool Executor).
Notation Registry := (Registry Executor).

(** Every tool is filed under its tenant and id; no id is both global and a tenant's. *)
Definition registry_ok (r : Registry) : Prop :=
  (∀ k tool, r.(tools) !! k = Some tool →
     k = toolKey tool.(RTool_TenantID) (tool_id tool) ∧ nul_free tool.(RTool_TenantID)) ∧
  (∀ k tool k' tool', r.(tools) !! k = Some tool → r.(tools) !! k' = Some tool' →
     tool.(RTool_TenantID) = "" → tool'.(RTool_TenantID) ≠ "" → tool_id tool ≠ tool_id tool').

Context `{Env}.

(** The registries that calls of its methods lead to; tenants have no NUL byte. *)
Inductive registry_history : Registry → Prop :=
| registry_new : registry_history NewInMemoryRegistry
| registry_register r tool w out w' r' :
    registry_history r → nul_free tool.(RTool_TenantID) →
    Register tool w r = (out, w', r') → registry_history r'
| registry_upsert r tool w out w' r' :
    registry_history r → nul_free tool.(RTool_TenantID) →
    Upsert tool w r = (out, w', r') → registry_history r'
| registry_unregister r id w out w' r' :
    registry_history r → Unregister id w r = (out, w', r') → registry_history r'
| registry_unregister_tenant r tenant id w out w' r' :
    registry_history r → UnregisterForTenant tenant id w r = (out, w', r') → registry_history r'.

Lemma toolKey_inj (tool tool' : Tool) :
  nul_free tool.(RTool_TenantID) → nul_free tool'.(RTool_TenantID) →
  toolKey tool.(RTool_TenantID) (tool_id tool) = toolKey tool'.(RTool_TenantID) (tool_id tool') →
  tool.(RTool_TenantID) = tool'.(RTool_TenantID) ∧ tool_id tool = tool_id tool'.
Proof. apply nul_join_inj. Qed.

(** The check passes only if no stored tool of the other scope has the id. *)
Lemma check_conflict_run (tool : Tool) w r out w' r' :
  registry_ok r → checkConflictLocked tool w r = (out, w', r') →
  r' = r ∧ (out = Ok tt → ∀ k existing, r.(tools) !! k = Some existing →
    tool_id existing = tool_id tool →
    (existing.(RTool_TenantID) = "" ↔ tool.(RTool_TenantID) = "")).
Proof.
  intros (Hf & _). unfold checkConflictLocked. rewrite bind_get.
  destruct (String.eqb_spec (RTool_TenantID tool) "") as [Et|Et]; cbn [negb].
  - destruct (range_map_run (tools r) w r) as (entries & w1 & E & Hp).
    rewrite (bind_Ok _ _ _ _ _ _ _ E). destruct (existsb _ _) eqn:Ex; unfold throw, ret;
      intros [= <- <- <-]; (split; [done|]); [done|]. intros _ k existing Hk Hid. split; [done|].
    intros _. destruct (String.eqb_spec (RTool_TenantID existing) "") as [|Hne]; [done|]. exfalso.
    assert (Htrue : existsb (λ existing, (existing.(RTool_TenantID) != "") &&
      (tool_id existing == tool_id tool)) (map snd entries) = true); [|congruence].
    apply existsb_exists. exists existing. split.
    + apply list_elem_of_In, elem_of_map_snd. exists k. rewrite Hp. by apply elem_of_map_to_list.
    + rewrite (eqb_neq_false _ _ Hne), Hid. apply eqb_refl_true.
  - destruct (tools r !! toolKey "" (tool_id tool)) eqn:Eg; unfold throw, ret;
      intros [= <- <- <-]; (split; [done|]); [done|]. intros _ k existing Hk Hid. split; [|done].
    intros Ee. exfalso. destruct (Hf _ _ Hk) as [-> _]. rewrite Ee, Hid in Hk. congruence.
Qed.

Lemma registry_put_ok r (tool : Tool) :
  registry_ok r → nul_free tool.(RTool_TenantID) →
  (∀ k existing, r.(tools) !! k = Some existing → tool_id existing = tool_id tool →
    (existing.(RTool_TenantID) = "" ↔ tool.(RTool_TenantID) = "")) →
  registry_ok (r <| tools := <[toolKey tool.(RTool_TenantID) (tool_id tool) := tool]> r.(tools) |>).
Proof.
  intros (Hf & Hs) Hn Hc. split.
  - intros k t Hk. cbn in Hk. apply lookup_insert_Some in Hk as [[<- <-]|[_ Hk]]; [done|by apply Hf].
  - intros k t k' t' Hk Hk' Ht Ht'. cbn in Hk, Hk'.
    apply lookup_insert_Some in Hk as [[_ <-]|[_ Hk]];
      apply lookup_insert_Some in Hk' as [[_ <-]|[_ Hk']].
    + done.
    + intros E. by apply Ht', (Hc k' t' Hk').
    + intros E. by apply Ht', (Hc k t Hk E).
    + by eapply Hs.
Qed.

Lemma registry_delete_ok (r : Registry) key :
  registry_ok r → registry_ok (r <| tools := delete key r.(tools) |>).
Proof.
  intros (Hf & Hs). split.
  - intros k t Hk. cbn in Hk. apply lookup_delete_Some in Hk as [_ Hk]. by apply Hf.
  - intros k t k' t' Hk Hk'. cbn in Hk, Hk'. apply lookup_delete_Some in Hk as [_ Hk].
    apply lookup_delete_Some in Hk' as [_ Hk']. by eapply Hs.
Qed.

Lemma registry_history_ok r : registry_history r → registry_ok r.
Proof.
  induction 1 as [|r tool w out w' r' _ IH Hn E|r tool w out w' r' _ IH Hn E
                 |r id w out w' r' _ IH E|r tenant id w out w' r' _ IH E].
  - split; intros ? ?; cbn; by rewrite lookup_empty.
  - unfold Register in E. destruct (validateTool tool); [by unfold throw in E; simplify_eq|].
    unfold bind at 1 in E. destruct (checkConflictLocked tool w r) as [[o w1] r1] eqn:Ec.
    apply check_conflict_run in Ec as [-> Hc]; [|done]. destruct o as [[]|e|]; [|by simplify_eq..].
    rewrite bind_get in E. destruct (tools r !! _); unfold throw, put in E; simplify_eq; [done|].
    by apply registry_put_ok; [| |apply Hc].
  - unfold Upsert in E. destruct (validateTool tool); [by unfold throw in E; simplify_eq|].
    unfold bind at 1 in E. destruct (checkConflictLocked tool w r) as [[o w1] r1] eqn:Ec.
    apply check_conflict_run in Ec as [-> Hc]; [|done]. destruct o as [[]|e|]; [|by simplify_eq..].
    rewrite bind_get in E. unfold put in E; simplify_eq.
    by apply registry_put_ok; [| |apply Hc].
  - unfold Unregister in E. rewrite bind_get in E. unfold put in E. simplify_eq.
    by apply registry_delete_ok.
  - unfold UnregisterForTenant in E. rewrite bind_get in E. unfold put in E. simplify_eq.
    by apply registry_delete_ok.
Qed.

(** What a tenant finds under an id: its own tool or the global one, never both. *)
Lemma GetForTenant_iff r tenant id tool :
  registry_ok r → nul_free tenant →
  GetForTenant r tenant id = Some tool ↔
  tool_id tool = id ∧ (tool.(RTool_TenantID) = "" ∨ tool.(RTool_TenantID) = tenant) ∧
  r.(tools) !! toolKey tool.(RTool_TenantID) id = Some tool.
Proof.
  intros (Hf & Hs) Hn.
  assert (Hat : ∀ t tool0, nul_free t → r.(tools) !! toolKey t id = Some tool0 →
    tool0.(RTool_TenantID) = t ∧ tool_id tool0 = id).
  { intros t tool0 Ht Hk. destruct (Hf _ _ Hk) as [E Hn0]. apply nul_join_inj in E as [<- <-]; auto. }
  unfold GetForTenant. destruct (String.eqb_spec tenant "") as [->|Ht]; cbn [negb].
  - split; [intros E; pose proof (Hat "" _ I E) as [E1 E2]; rewrite E1; auto|].
    intros (<- & [->| ->] & E); done.
  - destruct (tools r !! toolKey tenant id) as [own|] eqn:Eo.
    + pose proof (Hat _ _ Hn Eo) as [E1 E2]. split.
      * intros [= <-]. rewrite E1. auto.
      * intros (Hid & [Hg|Hg] & E); rewrite Hg in E; [|congruence]. exfalso.
        destruct (Hs _ _ _ _ E Eo Hg) as []; [congruence|congruence].
    + split; [intros E; pose proof (Hat "" _ I E) as [E1 E2]; rewrite E1; auto|].
      intros (<- & [->| ->] & E); [done|congruence].
Qed.

(** In every reachable registry the cards shown to a tenant are those of the tools it can
    get, one for each id: the tools of the tenant and the global tools, of which no two share
    an id. *)
Theorem cards_are_the_tools r tenant w :
  registry_history r → nul_free tenant →
  ∃ cards w', CardsForTenant tenant w r = (Ok cards, w', r) ∧
    NoDup (map Card_ToolID cards) ∧
    (∀ card, card ∈ cards ↔
       ∃ id tool, GetForTenant r tenant id = Some tool ∧ card = RenderCard tool) ∧
    (∀ id, GetForTenant r tenant id = None ↔ id ∉ map Card_ToolID cards).
Proof.
  intros Hr Hn. apply registry_history_ok in Hr.
  destruct (range_map_run (tools r) w r) as (entries & w' & E & Hp).
  unfold CardsForTenant. rewrite bind_get, (bind_Ok _ _ _ _ _ _ _ E).
  set (visible := λ tool : Tool, negb ((tool.(RTool_TenantID) != "") && (tool.(RTool_TenantID) != tenant))).
  assert (Hvis : ∀ tool, visible tool = true ↔ tool.(RTool_TenantID) = "" ∨ tool.(RTool_TenantID) = tenant).
  { intros tool. unfold visible. destruct (String.eqb_spec (RTool_TenantID tool) ""),
      (String.eqb_spec (RTool_TenantID tool) tenant); cbn; naive_solver. }
  assert (Hin : ∀ tool, tool ∈ List.filter visible (map snd entries) ↔
    GetForTenant r tenant (tool_id tool) = Some tool).
  { intros tool. rewrite (GetForTenant_iff r tenant) by done.
    rewrite filter_bool_elem, Hvis, elem_of_map_snd. setoid_rewrite Hp.
    setoid_rewrite elem_of_map_to_list. split.
    - intros [[k Hk] Hv]. destruct (proj1 Hr _ _ Hk) as [-> _]. done.
    - intros (_ & Hv & Hk). split; [by eexists|done]. }
  eexists _, w'. split; [reflexivity|].
  assert (Hids : map Card_ToolID (map RenderCard (List.filter visible (map snd entries))) =
                 map tool_id (List.filter visible (map snd entries))) by apply map_map.
  assert (Hcards : ∀ card, card ∈ map RenderCard (List.filter visible (map snd entries)) ↔
    ∃ id tool, GetForTenant r tenant id = Some tool ∧ card = RenderCard tool).
  { intros card. change (map RenderCard ?l) with (RenderCard <$> l). rewrite list_elem_of_fmap.
    split.
    - intros (tool & -> & Ht). apply Hin in Ht. eauto.
    - intros (id & tool & Hg & ->). exists tool. split; [done|]. apply Hin.
      by pose proof (proj1 (GetForTenant_iff r tenant id tool Hr Hn) Hg) as [-> _]. }
  split_and!; [|exact Hcards|].
  - rewrite Hids. change (map tool_id ?l) with (tool_id <$> l). apply NoDup_fmap_2_strong.
    + intros t1 t2 H1%Hin H2%Hin Eid. rewrite Eid in H1. congruence.
    + rewrite <- (map_id (List.filter _ _)). apply NoDup_map_filter. rewrite map_id.
      change (map snd entries) with (snd <$> entries). rewrite Hp. apply NoDup_fmap_2_strong.
      * intros [k1 t1] [k2 t2] H1 H2. cbn. intros ->. apply elem_of_map_to_list in H1, H2.
        by destruct (proj1 Hr _ _ H1) as [-> _], (proj1 Hr _ _ H2) as [-> _].
      * apply NoDup_map_to_list.
  - intros id. rewrite Hids. change (map tool_id ?l) with (tool_id <$> l).
    rewrite list_elem_of_fmap. split.
    + intros Hnone (tool & -> & Ht%Hin). congruence.
    + intros Hno. destruct (GetForTenant r tenant id) as [tool|] eqn:Eg; [|done]. exfalso.
      apply Hno. exists tool. pose proof (proj1 (GetForTenant_iff r tenant id tool Hr Hn) Eg) as [<- _].
      split; [done|]. by apply Hin.
Qed.
End registry_facts.

(** ** Examples *)

Definition sample_call : ToolCall :=
  zeroToolCall <| Call_ToolCallID := "c1" |> <| Call_TenantID := "acme" |>
    <| Call_ToolID := "search" |> <| Call_IdempotencyKey := "k" |>.

Definition sample_repo : ToolRepo := with_call NewToolRepo sample_call.

Lemma sample_repo_history : repo_history sample_repo.
Proof.
  eapply (history_save_call NewToolRepo sample_call world0 (Ok (sample_call, false)) world0);
    [apply history_new|vm_compute; repeat split; discriminate|reflexivity].
Qed.

Lemma call_recorded_once_witness :
  repo_history sample_repo ∧
  let again := sample_call <| Call_ToolCallID := "c2" |> in
  (∃ id c, same_request sample_repo again id c ∧
     SaveCall again world0 sample_repo = (Ok (c, true), world0, sample_repo)).
Proof.
  split; [exact sample_repo_history|].
  destruct (call_recorded_once sample_repo (sample_call <| Call_ToolCallID := "c2" |>) world0
    sample_repo_history) as [(id & c & H & E & _)|(Hno & _)].
  - vm_compute. repeat split; discriminate.
  - exists id, c. exact (conj H E).
  - exfalso. apply Hno. exists "c1", sample_call. repeat split; try reflexivity. discriminate.
Defined.

Definition sample_tool : Tool unit :=
  mkTool (zeroToolDefinition <| Tool_ToolID := "search" |> <| Tool_Name := "Search" |>)
    (Some tt) [] "acme".

Definition sample_registry : Registry unit := mkRegistry {[toolKey "acme" "search" := sample_tool]}.

Lemma sample_registry_history : registry_history sample_registry.
Proof.
  eapply (registry_register NewInMemoryRegistry sample_tool world0 (Ok tt) world0);
    [apply registry_new|vm_compute; repeat split; discriminate|reflexivity].
Qed.

Lemma cards_are_the_tools_witness :
  registry_history sample_registry ∧ nul_free "acme" ∧
  ∃ cards w', CardsForTenant "acme" world0 sample_registry = (Ok cards, w', sample_registry) ∧
    NoDup (map Card_ToolID cards).
Proof.
  assert (Hn : nul_free "acme") by (vm_compute; repeat split; discriminate).
  split; [exact sample_registry_history|]. split; [exact Hn|].
  destruct (cards_are_the_tools sample_registry "acme" world0 sample_registry_history Hn)
    as (cards & w' & E & Hnd & _). exists cards, w'. exact (conj E Hnd).
Defined.
