(* ===== verification/Execution.v ===== *)
(** * Execution of tools

    internal/execution/domain/domain.go and internal/tool/runtime/runtime.go.  What stands
    behind Go's interfaces is a parameter: the executors, the credential resolvers, the adapters
    of the worker, sandbox and managed domains, the availability checker.  They work on a state
    [S] that nothing else here touches. *)

From stdpp Require Import base list strings gmap fin_maps.
From Stdlib Require Import Ascii Lia.
From S2P Require Import Prelude Contracts GoMonad Policies Decision ToolStore.
Open Scope go_scope.
Open Scope string_scope.
Open Scope list_scope.

(** ** Profiles *)

Record ResourceLimits := mkResourceLimits {
  Limits_CPUMillis : Z;
  Limits_MemoryMB : Z;
  Limits_TimeoutMS : Z
}.
#[export] Instance eta_ResourceLimits : Settable ResourceLimits :=
  fields! mkResourceLimits < Limits_CPUMillis ; Limits_MemoryMB ; Limits_TimeoutMS >.
Definition zeroResourceLimits : ResourceLimits :=
  mkResourceLimits 0%Z 0%Z 0%Z.

Record NetworkPolicy := mkNetworkPolicy {
  Net_AllowNetwork : bool;
  Net_AllowedHosts : list string
}.
#[export] Instance eta_NetworkPolicy : Settable NetworkPolicy :=
  fields! mkNetworkPolicy < Net_AllowNetwork ; Net_AllowedHosts >.
Definition zeroNetworkPolicy : NetworkPolicy :=
  mkNetworkPolicy false [].

Record CredentialScope := mkCredentialScope {
  CredScope_AllowedCredentialRefs : list string;
  CredScope_AllowRuntimeSecrets : bool
}.
#[export] Instance eta_CredentialScope : Settable CredentialScope :=
  fields! mkCredentialScope < CredScope_AllowedCredentialRefs ; CredScope_AllowRuntimeSecrets >.
Definition zeroCredentialScope : CredentialScope :=
  mkCredentialScope [] false.

Record DataBoundary := mkDataBoundary {
  Bound_AllowedTenantIDs : list string;
  Bound_AllowedDataScopes : list string;
  Bound_AllowExternalData : bool
}.
#[export] Instance eta_DataBoundary : Settable DataBoundary :=
  fields! mkDataBoundary < Bound_AllowedTenantIDs ; Bound_AllowedDataScopes ; Bound_AllowExternalData >.
Definition zeroDataBoundary : DataBoundary :=
  mkDataBoundary [] [] false.

Record ExecutionProfile := mkExecutionProfile {
  Prof_ID : string;
  Prof_DomainID : string;
  Prof_Sandbox : string;
  Prof_WorkerRef : string;
  Prof_ManagedRuntime : string;
  Prof_ResourceLimits : ResourceLimits;
  Prof_NetworkPolicy : NetworkPolicy;
  Prof_CredentialScope : CredentialScope;
  Prof_DataBoundary : DataBoundary;
  Prof_Metadata : gmap string Any;
  Prof_Timeout : Z;
  Prof_TimeoutMS : Z;
  Prof_Raw : string
}.
#[export] Instance eta_ExecutionProfile : Settable ExecutionProfile :=
  fields! mkExecutionProfile < Prof_ID ; Prof_DomainID ; Prof_Sandbox ; Prof_WorkerRef ; Prof_ManagedRuntime ; Prof_ResourceLimits ; Prof_NetworkPolicy ; Prof_CredentialScope ; Prof_DataBoundary ; Prof_Metadata ; Prof_Timeout ; Prof_TimeoutMS ; Prof_Raw >.
Definition zeroExecutionProfile : ExecutionProfile :=
  mkExecutionProfile EmptyString EmptyString EmptyString EmptyString EmptyString zeroResourceLimits zeroNetworkPolicy zeroCredentialScope zeroDataBoundary ∅ 0%Z 0%Z EmptyString.

Record ResolvedCredential := mkResolvedCredential {
  Cred_Ref : string;
  Cred_TenantID : string;
  Cred_SecretRef : string;
  Cred_Scopes : list string;
  Cred_Metadata : gmap string Any
}.
#[export] Instance eta_ResolvedCredential : Settable ResolvedCredential :=
  fields! mkResolvedCredential < Cred_Ref ; Cred_TenantID ; Cred_SecretRef ; Cred_Scopes ; Cred_Metadata >.
Definition zeroResolvedCredential : ResolvedCredential :=
  mkResolvedCredential EmptyString EmptyString EmptyString [] ∅.

Record CredentialResolveRequest := mkCredentialResolveRequest {
  CredReq_TenantID : string;
  CredReq_ActorID : string;
  CredReq_ActorType : string;
  CredReq_AgentID : string;
  CredReq_ToolID : string;
  CredReq_DomainID : string;
  CredReq_CredentialRef : string;
  CredReq_DataBoundary : DataBoundary
}.
#[export] Instance eta_CredentialResolveRequest : Settable CredentialResolveRequest :=
  fields! mkCredentialResolveRequest < CredReq_TenantID ; CredReq_ActorID ; CredReq_ActorType ; CredReq_AgentID ; CredReq_ToolID ; CredReq_DomainID ; CredReq_CredentialRef ; CredReq_DataBoundary >.
Definition zeroCredentialResolveRequest : CredentialResolveRequest :=
  mkCredentialResolveRequest EmptyString EmptyString EmptyString EmptyString EmptyString EmptyString EmptyString zeroDataBoundary.

Record RuntimeSecretResolveRequest := mkRuntimeSecretResolveRequest {
  SecretReq_TenantID : string;
  SecretReq_ActorID : string;
  SecretReq_ActorType : string;
  SecretReq_AgentID : string;
  SecretReq_ToolID : string;
  SecretReq_DomainID : string;
  SecretReq_CredentialScope : CredentialScope;
  SecretReq_DataBoundary : DataBoundary
}.
#[export] Instance eta_RuntimeSecretResolveRequest : Settable RuntimeSecretResolveRequest :=
  fields! mkRuntimeSecretResolveRequest < SecretReq_TenantID ; SecretReq_ActorID ; SecretReq_ActorType ; SecretReq_AgentID ; SecretReq_ToolID ; SecretReq_DomainID ; SecretReq_CredentialScope ; SecretReq_DataBoundary >.
Definition zeroRuntimeSecretResolveRequest : RuntimeSecretResolveRequest :=
  mkRuntimeSecretResolveRequest EmptyString EmptyString EmptyString EmptyString EmptyString EmptyString zeroCredentialScope zeroDataBoundary.

Record ExecutionResult := mkExecutionResult {
  ExecRes_Output : gmap string Any;
  ExecRes_ArtifactRefs : list ArtifactRef;
  ExecRes_Metadata : gmap string Any
}.
#[export] Instance eta_ExecutionResult : Settable ExecutionResult :=
  fields! mkExecutionResult < ExecRes_Output ; ExecRes_ArtifactRefs ; ExecRes_Metadata >.
Definition zeroExecutionResult : ExecutionResult :=
  mkExecutionResult ∅ [] ∅.

Record ProductionStatus := mkProductionStatus {
  Prod_DomainID : string;
  Prod_Enabled : bool;
  Prod_Status : string;
  Prod_Details : string
}.
#[export] Instance eta_ProductionStatus : Settable ProductionStatus :=
  fields! mkProductionStatus < Prod_DomainID ; Prod_Enabled ; Prod_Status ; Prod_Details >.
Definition zeroProductionStatus : ProductionStatus :=
  mkProductionStatus EmptyString false EmptyString EmptyString.

(** [encoding/json] on a profile, or the text of its error. *)
Class ProfileDecoder := UnmarshalProfile : string → string + ExecutionProfile.

Definition Millisecond : Z := 1000000.

Definition normalize (profile : ExecutionProfile) : ExecutionProfile :=
  let profile := if profile.(Prof_DomainID) == "" then profile <| Prof_DomainID := "local" |>
                 else profile in
  let profile := if profile.(Prof_ID) == "" then profile <| Prof_ID := profile.(Prof_DomainID) |>
                 else profile in
  let profile := if (profile.(Prof_TimeoutMS) >? 0)%Z
                 then profile <| Prof_Timeout := int64 (profile.(Prof_TimeoutMS) * Millisecond) |>
                 else profile in
  if (profile.(Prof_ResourceLimits).(Limits_TimeoutMS) >? 0)%Z && (profile.(Prof_Timeout) =? 0)%Z
  then profile <| Prof_Timeout :=
         int64 (profile.(Prof_ResourceLimits).(Limits_TimeoutMS) * Millisecond) |>
  else profile.

Definition ParseProfile `{ProfileDecoder} (raw : string) : error + ExecutionProfile :=
  let raw := TrimSpace raw in
  let raw := if raw == "" then "local" else raw in
  if HasPrefix raw "{" then
    match UnmarshalProfile raw with
    | inl err => inl (ErrRuntime (NewRuntimeError CodeToolArgumentInvalid
                        "invalid execution profile json" {["error" := AString err]}))
    | inr profile => inr (normalize (profile <| Prof_Raw := raw |>))
    end
  else
    let profile := zeroExecutionProfile <| Prof_ID := raw |> in
    inr (normalize
      match Cut raw ":" with
      | Some (before, after) =>
          let profile := profile <| Prof_DomainID := before |> in
          if before == "worker" then profile <| Prof_WorkerRef := after |>
          else if before == "sandbox" then profile <| Prof_Sandbox := after |>
          else if before == "managed" then profile <| Prof_ManagedRuntime := after |>
          else profile <| Prof_Metadata := {["profile_ref" := AString after]} |>
      | None => profile <| Prof_DomainID := raw |>
      end).

(** The struct values the code puts into maps. *)
Definition limits_any (l : ResourceLimits) : Any :=
  AStruct "ResourceLimits" [("CPUMillis", AInt l.(Limits_CPUMillis));
    ("MemoryMB", AInt l.(Limits_MemoryMB)); ("TimeoutMS", AInt l.(Limits_TimeoutMS))].
Definition network_any (n : NetworkPolicy) : Any :=
  AStruct "NetworkPolicy" [("AllowNetwork", ABool n.(Net_AllowNetwork));
    ("AllowedHosts", AStrings n.(Net_AllowedHosts))].
Definition scope_any (c : CredentialScope) : Any :=
  AStruct "CredentialScope" [("AllowedCredentialRefs", AStrings c.(CredScope_AllowedCredentialRefs));
    ("AllowRuntimeSecrets", ABool c.(CredScope_AllowRuntimeSecrets))].
Definition boundary_any (b : DataBoundary) : Any :=
  AStruct "DataBoundary" [("AllowedTenantIDs", AStrings b.(Bound_AllowedTenantIDs));
    ("AllowedDataScopes", AStrings b.(Bound_AllowedDataScopes));
    ("AllowExternalData", ABool b.(Bound_AllowExternalData))].

(** [out[key] = value] under a condition. *)
Definition set_if (cond : bool) (key : string) (value : Any) (out : gmap string Any) : gmap string Any :=
  if cond then <[key := value]> out else out.

Definition has_scope (c : CredentialScope) : bool :=
  nonempty c.(CredScope_AllowedCredentialRefs) || c.(CredScope_AllowRuntimeSecrets).
Definition has_boundary (b : DataBoundary) : bool :=
  b.(Bound_AllowExternalData) || nonempty b.(Bound_AllowedTenantIDs) ||
  nonempty b.(Bound_AllowedDataScopes).
Definition has_limits (l : ResourceLimits) : bool :=
  negb ((l.(Limits_CPUMillis) =? 0) && (l.(Limits_MemoryMB) =? 0) && (l.(Limits_TimeoutMS) =? 0))%Z.

Definition metadata (profile : ExecutionProfile) : gmap string Any :=
  let out : gmap string Any := {["profile_id" := AString profile.(Prof_ID);
               "domain_id" := AString profile.(Prof_DomainID)]} in
  let out := set_if (profile.(Prof_WorkerRef) != "") "worker_ref"
               (AString profile.(Prof_WorkerRef)) out in
  let out := set_if (profile.(Prof_Sandbox) != "") "sandbox" (AString profile.(Prof_Sandbox)) out in
  let out := set_if (profile.(Prof_ManagedRuntime) != "") "managed_runtime"
               (AString profile.(Prof_ManagedRuntime)) out in
  let out := set_if (has_limits profile.(Prof_ResourceLimits)) "resource_limits"
               (limits_any profile.(Prof_ResourceLimits)) out in
  let net := profile.(Prof_NetworkPolicy) in
  let out := set_if (net.(Net_AllowNetwork) || nonempty net.(Net_AllowedHosts)) "network_policy"
               (network_any net) out in
  let out := set_if (has_scope profile.(Prof_CredentialScope)) "credential_scope"
               (scope_any profile.(Prof_CredentialScope)) out in
  let out := set_if (has_boundary profile.(Prof_DataBoundary)) "data_boundary"
               (boundary_any profile.(Prof_DataBoundary)) out in
  profile.(Prof_Metadata) ∪ out.

Definition mergeMetadata (base extra : gmap string Any) : gmap string Any := extra ∪ base.

(** ** Hosts *)

(** [net.SplitHostPort], the host only; [None] is its error. *)
Definition SplitHost (hostport : string) : option string :=
  match LastIndexByte hostport ":" with
  | None => None
  | Some i =>
      let no_brackets (j k : nat) (host : string) :=
        match IndexByte (string_drop j hostport) "[", IndexByte (string_drop k hostport) "]" with
        | None, None => Some host
        | _, _ => None
        end in
      if HasPrefix hostport "[" then
        match IndexByte hostport "]" with
        | None => None
        | Some end_ =>
            if (end_ + 1 =? i)%nat
            then no_brackets 1%nat (end_ + 1)%nat (string_drop 1 (string_take end_ hostport))
            else None
        end
      else
        let host := string_take i hostport in
        match IndexByte host ":" with
        | Some _ => None
        | None => no_brackets 0%nat 0%nat host
        end
  end.

(** [strings.Trim(host, "[]")] *)
Definition bracket (c : ascii) : bool := Ascii.eqb c "[" || Ascii.eqb c "]".
Fixpoint trim_left_brackets (s : string) : string :=
  match s with
  | String c s' => if bracket c then trim_left_brackets s' else s
  | EmptyString => s
  end.
Fixpoint trim_right_brackets (s : string) : string :=
  match s with
  | EmptyString => EmptyString
  | String c s' =>
      match trim_right_brackets s' with
      | EmptyString => if bracket c then EmptyString else String c EmptyString
      | t => String c t
      end
  end.

Definition normalizeHost (host : string) : string :=
  let host := TrimSpace (ToLower host) in
  if host == "" then "" else
  let host := match SplitHost host with Some parsedHost => parsedHost | None => host end in
  trim_right_brackets (trim_left_brackets host).

Definition hostAllowed (host allowed : string) : bool :=
  let allowed := normalizeHost allowed in
  if allowed == "" then false
  else if HasPrefix allowed "*." then
    let suffix := TrimPrefix allowed "*" in
    HasSuffix host suffix && (host != TrimPrefix suffix ".")
  else host == allowed.

(** ** Domains *)

Section domains.
Context {Executor S : Type}.

(** The interface [registry.Executor], and [NetworkTarget] for the executors that have it. *)
Class ExecutorOps := {
  executor_Execute : Executor → ToolCall → M S (gmap string Any * list ArtifactRef);
  executor_NetworkTargetHost : Executor → option string
}.

Record ExecutionRequest := mkExecutionRequest {
  ER_Profile : ExecutionProfile;
  ER_Tool : ToolDefinition;
  ER_Call : ToolCall;
  ER_Executor : option Executor;
  ER_Credentials : list ResolvedCredential
}.

(** The adapters of the worker, sandbox and managed domains return a result also with an error. *)
Definition Adapter := ExecutionRequest → M S (ExecutionResult * option error).

Inductive ExecutionDomain :=
| LocalExecutionDomain
| HTTPExecutionDomain
| AgentToolExecutionDomain
| UnavailableDomain (DomainID : string)
| DisabledExecutionDomain (DomainID Reason : string)
| WorkerExecutionDomain (adapter : option Adapter)
| SandboxExecutionDomain (adapter : option Adapter)
| ManagedExecutionDomain (adapter : option Adapter).

Definition domain_ID (d : ExecutionDomain) : string :=
  match d with
  | LocalExecutionDomain => "local"
  | HTTPExecutionDomain => "http"
  | AgentToolExecutionDomain => "agent_tool"
  | UnavailableDomain id => id
  | DisabledExecutionDomain id _ => id
  | WorkerExecutionDomain _ => "worker"
  | SandboxExecutionDomain _ => "sandbox"
  | ManagedExecutionDomain _ => "managed"
  end.

Definition unavailable (message : string) (details : gmap string Any) : error :=
  ErrRuntime (NewRuntimeError CodeExecutionDomainUnavailable message details).

Definition validateLocalRequest (req : ExecutionRequest) : option error :=
  let profile := req.(ER_Profile) in
  match req.(ER_Executor) with
  | None => Some (unavailable "local execution requires a tool executor" (metadata profile))
  | Some _ =>
      if profile.(Prof_NetworkPolicy).(Net_AllowNetwork) ||
         nonempty profile.(Prof_NetworkPolicy).(Net_AllowedHosts)
      then Some (unavailable "local execution cannot grant network access" (metadata profile))
      else if has_scope profile.(Prof_CredentialScope)
      then Some (unavailable "local execution cannot receive credential scope" (metadata profile))
      else if has_boundary profile.(Prof_DataBoundary)
      then Some (unavailable "local execution cannot widen data boundary" (metadata profile))
      else None
  end.

Context `{!ExecutorOps}.

Definition validateHTTPNetworkRequest (req : ExecutionRequest) (executor : Executor) : option error :=
  let profile := req.(ER_Profile) in
  let policy := profile.(Prof_NetworkPolicy) in
  let denied message details :=
    Some (ErrRuntime (NewRuntimeError CodeToolPolicyDenied message details)) in
  if negb policy.(Net_AllowNetwork)
  then Some (unavailable "http execution requires explicit network access" (metadata profile))
  else if (len policy.(Net_AllowedHosts) =? 0)%Z then None
  else match executor_NetworkTargetHost executor with
  | None => denied "http execution cannot enforce network allowlist for executor" (metadata profile)
  | Some target =>
      let host := normalizeHost target in
      if host == "" then denied "http execution target host is unavailable" (metadata profile)
      else if existsb (hostAllowed host) policy.(Net_AllowedHosts) then None
      else denied "http execution target host is not allowed"
             (<["target_host" := AString host]> (metadata profile))
  end.

(** Lines the domains share: run the executor and wrap what it returns. *)
Definition run_executor (executor : Executor) (req : ExecutionRequest)
    : M S (ExecutionResult * option error) :=
  let! res := attempt (executor_Execute executor req.(ER_Call)) in
  ret (match res with
       | inl (output, artifacts) =>
           (mkExecutionResult output artifacts (metadata req.(ER_Profile)), None)
       | inr err => (zeroExecutionResult, Some err)
       end).

Definition run_adapter (adapter : option Adapter) (missing : string) (req : ExecutionRequest)
    : M S (ExecutionResult * option error) :=
  match adapter with
  | None => ret (zeroExecutionResult, Some (unavailable missing (metadata req.(ER_Profile))))
  | Some dispatch =>
      let! res := dispatch req in
      let '(result, err) := res in
      ret (result <| ExecRes_Metadata :=
             mergeMetadata (metadata req.(ER_Profile)) result.(ExecRes_Metadata) |>, err)
  end.

(** [Execute] of the domains; the error comes with a result. *)
Definition domain_Execute (d : ExecutionDomain) (req : ExecutionRequest)
    : M S (ExecutionResult * option error) :=
  let profile := req.(ER_Profile) in
  let fails err := ret (zeroExecutionResult, Some err) in
  match d with
  | LocalExecutionDomain =>
      match validateLocalRequest req, req.(ER_Executor) with
      | None, Some executor => run_executor executor req
      | Some err, _ => fails err
      | None, None => panic
      end
  | HTTPExecutionDomain =>
      match req.(ER_Executor) with
      | None => fails (unavailable "http execution requires a tool executor" (metadata profile))
      | Some executor =>
          match validateHTTPNetworkRequest req executor with
          | Some err => fails err
          | None =>
              if has_scope profile.(Prof_CredentialScope)
              then fails (unavailable "http execution cannot receive credential scope" (metadata profile))
              else run_executor executor req
          end
      end
  | AgentToolExecutionDomain =>
      match req.(ER_Executor) with
      | None => fails (unavailable "agent_tool execution requires a tool executor" (metadata profile))
      | Some executor => run_executor executor req
      end
  | UnavailableDomain id =>
      fails (unavailable (Sprintf "execution domain %q is configured but has no adapter" [id]) ∅)
  | DisabledExecutionDomain id reason =>
      let details := <["enabled" := ABool false]> (<["production_status" := AString "disabled"]>
                       (metadata profile)) in
      fails (unavailable (Sprintf "execution domain %q is disabled" [id])
               (set_if (reason != "") "reason" (AString reason) details))
  | WorkerExecutionDomain adapter =>
      run_adapter adapter "worker execution adapter is not configured" req
  | SandboxExecutionDomain adapter =>
      run_adapter adapter "sandbox execution adapter is not configured" req
  | ManagedExecutionDomain adapter =>
      run_adapter adapter "managed execution adapter is not configured" req
  end.

Definition FutureDomainDisabledReason (domainID : string) : string :=
  Sprintf "%s execution is not production-enabled in single-node mode; configure and inject an explicit adapter before use" [domainID].

Definition disabled_domain (domainID : string) : ExecutionDomain :=
  DisabledExecutionDomain domainID (FutureDomainDisabledReason domainID).

Definition Resolver := gmap string ExecutionDomain.

Definition NewResolver (domains : list ExecutionDomain) : Resolver :=
  fold_left (λ out d, <[domain_ID d := d]> out) domains ∅.

Definition ResolveProfile `{ProfileDecoder} (r : Resolver) (profile : string)
    : error + ExecutionDomain * ExecutionProfile :=
  match ParseProfile profile with
  | inl err => inl err
  | inr parsed =>
      match r !! parsed.(Prof_DomainID) with
      | None => inl (unavailable (Sprintf "execution domain %q unavailable" [parsed.(Prof_DomainID)])
                      (metadata parsed))
      | Some domain => inr (domain, parsed)
      end
  end.
End domains.
Arguments ExecutorOps : clear implicits.
Arguments ExecutionDomain : clear implicits.
Arguments ExecutionRequest : clear implicits.
Arguments Adapter : clear implicits.
Arguments Resolver : clear implicits.

(** ** Profiles are named by their id *)

Section profiles.
Context `{ProfileDecoder}.

(** A profile written as text: everything that is not a JSON object. *)
Definition plain_profile (raw : string) : Prop := HasPrefix (TrimSpace raw) "{" = false.

(** What [ParseProfile] makes of the trimmed text [r]. *)
Definition text_profile (r : string) : ExecutionProfile :=
  let profile := zeroExecutionProfile <| Prof_ID := r |> in
  normalize
    match Cut r ":" with
    | Some (before, after) =>
        let profile := profile <| Prof_DomainID := before |> in
        if before == "worker" then profile <| Prof_WorkerRef := after |>
        else if before == "sandbox" then profile <| Prof_Sandbox := after |>
        else if before == "managed" then profile <| Prof_ManagedRuntime := after |>
        else profile <| Prof_Metadata := {["profile_ref" := AString after]} |>
    | None => profile <| Prof_DomainID := r |>
    end.

Lemma ParseProfile_text raw r :
  plain_profile raw → r = (if TrimSpace raw == "" then "local" else TrimSpace raw) →
  ParseProfile raw = inr (text_profile r).
Proof.
  unfold plain_profile, ParseProfile. intros Hp ->.
  destruct (String.eqb_spec (TrimSpace raw) "") as [E|E]; [done|]. by rewrite Hp.
Qed.

Lemma normalize_text p :
  p.(Prof_ID) ≠ "" → p.(Prof_TimeoutMS) = 0%Z → p.(Prof_ResourceLimits) = zeroResourceLimits →
  normalize p = if p.(Prof_DomainID) == "" then p <| Prof_DomainID := "local" |> else p.
Proof.
  destruct p. cbn [Prof_ID Prof_TimeoutMS Prof_ResourceLimits Prof_DomainID].
  intros Hid%eqb_neq_false -> ->. unfold normalize. cbn [Prof_DomainID].
  destruct (Prof_DomainID0 == "") eqn:Ed; cbn -[String.eqb]; by rewrite Hid.
Qed.

Lemma set_if_other cond key v out k : key ≠ k → set_if cond key v out !! k = out !! k.
Proof. intros Hk. unfold set_if. destruct cond; [by rewrite lookup_insert_ne|done]. Qed.

Lemma text_profile_fields r :
  r ≠ "" → (text_profile r).(Prof_ID) = r ∧ (text_profile r).(Prof_Metadata) !! "profile_id" = None.
Proof.
  intros Hr. unfold text_profile. destruct (Cut r ":") as [[before after]|]; cbv beta iota zeta.
  - destruct (before == "worker"); [|destruct (before == "sandbox"); [|destruct (before == "managed")]];
      rewrite normalize_text by done; by destruct (_ == "").
  - rewrite normalize_text by done. by destruct (_ == "").
Qed.

(** The id of a profile written as text, which its metadata record, is a name for it:
    parsing it again gives the same profile. *)
Theorem profile_id_roundtrip raw :
  plain_profile raw →
  ∃ p, ParseProfile raw = inr p ∧ ParseProfile p.(Prof_ID) = inr p ∧
    metadata p !! "profile_id" = Some (AString p.(Prof_ID)).
Proof.
  intros Hp. set (r := if TrimSpace raw == "" then "local" else TrimSpace raw).
  assert (Hr : r ≠ "" ∧ TrimSpace r = r ∧ HasPrefix r "{" = false).
  { subst r. destruct (String.eqb_spec (TrimSpace raw) "") as [E|E]; [done|].
    by rewrite TrimSpace_idemp. }
  destruct Hr as (Hr & Htrim & Hbrace). destruct (text_profile_fields r Hr) as [Hid Hmeta].
  exists (text_profile r). split_and!.
  - by apply ParseProfile_text.
  - rewrite Hid. apply ParseProfile_text; unfold plain_profile; rewrite Htrim; [done|].
    by rewrite eqb_neq_false.
  - unfold metadata. rewrite lookup_union_r by done. rewrite !set_if_other by discriminate.
    apply lookup_insert_eq.
Qed.
End profiles.

Lemma profile_id_roundtrip_witness :
  let _ := (λ _, inl EmptyString) : ProfileDecoder in
  plain_profile " worker:gpu-1 " ∧
  ∃ p, ParseProfile " worker:gpu-1 " = inr p ∧ p.(Prof_WorkerRef) = "gpu-1" ∧
    ParseProfile p.(Prof_ID) = inr p.
Proof.
  intros decoder. assert (Hp : plain_profile " worker:gpu-1 ") by (vm_compute; reflexivity).
  split; [exact Hp|]. destruct (profile_id_roundtrip " worker:gpu-1 " Hp) as (p & E & E2 & _).
  exists p. split_and!; [exact E| |exact E2]. vm_compute in E. injection E as <-. reflexivity.
Defined.

(** ** What a domain lets run *)

Section confinement.
Context {Executor S : Type} `{!ExecutorOps Executor S}.

(** [host] is what [pattern] names: the same host, or one below it for a pattern "*.d". *)
Definition host_named (host pattern : string) : Prop :=
  let p := normalizeHost pattern in
  p ≠ "" ∧
  ((HasPrefix p "*." = false ∧ host = p) ∨
   ∃ d sub, p = "*." +:+ d ∧ host = sub +:+ ("." +:+ d)).

Lemma string_app_length s t : String.length (s +:+ t) = (String.length s + String.length t)%nat.
Proof. induction s as [|c s IH]; [done|]. rewrite string_app_cons. cbn. by rewrite IH. Qed.

Lemma hostAllowed_iff host pattern : hostAllowed host pattern = true ↔ host_named host pattern.
Proof.
  unfold hostAllowed, host_named. cbv zeta. destruct (String.eqb_spec (normalizeHost pattern) "") as [E|E].
  { split; [done|]. by intros [[] _]. }
  destruct (HasPrefix (normalizeHost pattern) "*.") eqn:Ep.
  - apply HasPrefix_iff in Ep as [d ->]. change ("*." +:+ d) with ("*" +:+ ("." +:+ d)).
    rewrite !TrimPrefix_app, andb_true_iff, HasSuffix_iff. split.
    + intros [[sub ->] _]. split; [done|]. right. by exists d, sub.
    + intros [_ [[Hno _]|(d' & sub & Ed & ->)]]; [done|].
      assert (d' = d) as -> by (injection Ed; done).
      split; [by exists sub|]. apply negb_true_iff, eqb_neq_false. intros Heq.
      apply (f_equal String.length) in Heq. rewrite string_app_length, string_app_cons, string_app_nil in Heq.
      cbn in Heq. lia.
  - rewrite String.eqb_eq. split; [by intros ->; split; [|left]|].
    intros [_ [[_ ->]|(d & sub & Ed & _)]]; [done|]. rewrite Ed in Ep.
    change (HasPrefix ("*." +:+ d) "*.") with (HasPrefix d EmptyString) in Ep. by destruct d.
Qed.

(** What a profile asks for, against what the domain can give. *)
Definition admits (d : ExecutionDomain Executor S) (executor : Executor) (p : ExecutionProfile) : Prop :=
  match d with
  | LocalExecutionDomain =>
      p.(Prof_NetworkPolicy) = zeroNetworkPolicy ∧ p.(Prof_CredentialScope) = zeroCredentialScope ∧
      p.(Prof_DataBoundary) = zeroDataBoundary
  | HTTPExecutionDomain =>
      p.(Prof_NetworkPolicy).(Net_AllowNetwork) = true ∧
      p.(Prof_CredentialScope) = zeroCredentialScope ∧
      (p.(Prof_NetworkPolicy).(Net_AllowedHosts) ≠ [] →
       ∃ target pattern, executor_NetworkTargetHost executor = Some target ∧
         normalizeHost target ≠ "" ∧ pattern ∈ p.(Prof_NetworkPolicy).(Net_AllowedHosts) ∧
         host_named (normalizeHost target) pattern)
  | AgentToolExecutionDomain => True
  | _ => False
  end.

Definition in_process (d : ExecutionDomain Executor S) : Prop :=
  d = LocalExecutionDomain ∨ d = HTTPExecutionDomain ∨ d = AgentToolExecutionDomain.

Lemma has_scope_false c : has_scope c = false ↔ c = zeroCredentialScope.
Proof. destruct c as [refs secrets]. unfold has_scope. destruct refs, secrets; done. Qed.
Lemma has_boundary_false b : has_boundary b = false ↔ b = zeroDataBoundary.
Proof. destruct b as [[|] [|] []]; done. Qed.
Lemma no_network_false n : Net_AllowNetwork n || nonempty (Net_AllowedHosts n) = false ↔ n = zeroNetworkPolicy.
Proof. destruct n as [[] [|]]; done. Qed.

Lemma validateHTTP_None req executor :
  validateHTTPNetworkRequest req executor = None ↔
  let p := req.(ER_Profile) in
  p.(Prof_NetworkPolicy).(Net_AllowNetwork) = true ∧
  (p.(Prof_NetworkPolicy).(Net_AllowedHosts) ≠ [] →
   ∃ target pattern, executor_NetworkTargetHost executor = Some target ∧
     normalizeHost target ≠ "" ∧ pattern ∈ p.(Prof_NetworkPolicy).(Net_AllowedHosts) ∧
     host_named (normalizeHost target) pattern).
Proof.
  unfold validateHTTPNetworkRequest. cbv zeta.
  destruct (Net_AllowNetwork _); [|by split; [|intros []]]. cbn [negb].
  destruct (Net_AllowedHosts _) as [|h hosts] eqn:Eh; [done|]. change (len _ =? 0)%Z with false.
  cbv iota. rewrite <- Eh. destruct (executor_NetworkTargetHost executor) as [target|].
  2: { split; [done|]. intros [_ Hx]. destruct Hx as (? & ? & ? & _); [by rewrite Eh|done]. }
  destruct (String.eqb_spec (normalizeHost target) "") as [E|E].
  { split; [done|]. intros [_ Hx]. destruct Hx as (? & ? & [= <-] & ? & _); [by rewrite Eh|done]. }
  destruct (existsb _ _) eqn:Ex.
  - split; [|done]. intros _. split; [done|]. intros _.
    apply existsb_exists in Ex as (pattern & Hin & Hp). exists target, pattern.
    by rewrite <- hostAllowed_iff, list_elem_of_In.
  - split; [done|]. intros [_ Hx]. destruct Hx as (? & pattern & [= <-] & _ & Hin & Hp); [by rewrite Eh|].
    apply hostAllowed_iff in Hp. apply list_elem_of_In in Hin.
    assert (existsb (hostAllowed (normalizeHost target)) (Net_AllowedHosts (Prof_NetworkPolicy
      (ER_Profile req))) = true) by (apply existsb_exists; by exists pattern). congruence.
Qed.

(** The domains that run tools in this process run them only within the profile: the local
    domain runs nothing that is granted network, credentials or data, the HTTP domain nothing
    without network access, with credentials, or whose target is no host of the allow list, where
    a pattern "*.d" stands for the hosts below d. Whatever else is asked is refused with an error
    and no effect. *)
Theorem domain_confines (d : ExecutionDomain Executor S) req :
  in_process d →
  (∃ executor, req.(ER_Executor) = Some executor ∧ admits d executor req.(ER_Profile) ∧
     domain_Execute d req = run_executor executor req) ∨
  (∃ err, (∀ executor, req.(ER_Executor) = Some executor → ¬ admits d executor req.(ER_Profile)) ∧
     domain_Execute d req = ret (zeroExecutionResult, Some err)).
Proof.
  intros Hd. destruct Hd as [ -> | [ -> | -> ] ]; cbn [domain_Execute admits].
  - unfold validateLocalRequest. destruct (ER_Executor req) as [executor|]; [|right; by eexists].
    cbv zeta. destruct (_ || _) eqn:E1; [|destruct (has_scope _) eqn:E2; [|destruct (has_boundary _) eqn:E3]].
    1-3: right; eexists; split; [intros ? _ (Hn & Hs & Hb)|done].
    + apply no_network_false in Hn. congruence.
    + apply has_scope_false in Hs. congruence.
    + apply has_boundary_false in Hb. congruence.
    + apply no_network_false in E1. apply has_scope_false in E2. apply has_boundary_false in E3.
      left. by exists executor.
  - destruct (ER_Executor req) as [executor|]; [|right; by eexists].
    destruct (validateHTTPNetworkRequest req executor) as [err|] eqn:Ev.
    + right. exists err. split; [|done]. intros ? [= <-] (Ha & Hb & Hc).
      assert (validateHTTPNetworkRequest req executor = None) by by apply validateHTTP_None. congruence.
    + apply validateHTTP_None in Ev as [Ha Hc]. destruct (has_scope _) eqn:E2.
      * right. eexists. split; [|done]. intros ? _ (_ & Hs & _). apply has_scope_false in Hs. congruence.
      * left. exists executor. by apply has_scope_false in E2.
  - destruct (ER_Executor req) as [executor|]; [|right; by eexists]. left. by exists executor.
Qed.
End confinement.

(** An executor of HTTP calls to one host, for a profile that allows the hosts of its domain. *)
Definition calling_executor : ExecutorOps unit unit := {|
  executor_Execute _ _ := ret (∅, []);
  executor_NetworkTargetHost _ := Some "API.example.com:443"
|}.

Definition calling_request : ExecutionRequest unit :=
  mkExecutionRequest
    (zeroExecutionProfile <| Prof_NetworkPolicy := mkNetworkPolicy true ["*.example.com"] |>)
    zeroToolDefinition zeroToolCall (Some tt) [].

Lemma domain_confines_witness :
  let _ := calling_executor in
  in_process (Executor:=unit) (S:=unit) HTTPExecutionDomain ∧
  domain_Execute (S:=unit) HTTPExecutionDomain calling_request = run_executor tt calling_request.
Proof.
  intros ops. assert (Hd : in_process (Executor:=unit) (S:=unit) HTTPExecutionDomain) by (right; by left).
  split; [exact Hd|].
  destruct (domain_confines HTTPExecutionDomain calling_request Hd) as [([] & _ & _ & E)|(err & Hno & _)];
    [exact E|]. exfalso. refine (Hno tt eq_refl (conj eq_refl (conj eq_refl _))). intros _.
  exists "API.example.com:443", "*.example.com".
  assert (Eh : normalizeHost "API.example.com:443" = "api.example.com") by (vm_compute; reflexivity).
  rewrite Eh. split_and!; [reflexivity|discriminate|apply list_elem_of_here|].
  split; [discriminate|]. right. by exists "example.com", "api".
Defined.
