(* ===== verification/ToolRun.v ===== *)
(** * The tool runtime: internal/tool/runtime/runtime.go

    [Invoke] looks a tool up, checks the call's arguments, asks the tool policy, resolves the
    execution profile, the data boundary and the credentials, and runs the tool in its domain. *)

From stdpp Require Import base list strings gmap fin_maps.
From Stdlib Require Import Ascii Lia.
From S2P Require Import Prelude Contracts GoMonad Policies Decision ToolStore Execution.
Open Scope go_scope.
Open Scope string_scope.
Open Scope list_scope.

(** ** Data boundaries and credentials *)

Definition policy_denied (message : string) (details : gmap string Any) : error :=
  ErrRuntime (NewRuntimeError CodeToolPolicyDenied message details).

Fixpoint cleanRefs (values : list string) (seen : gset string) (out : list string)
    : error + list string :=
  match values with
  | [] => inr out
  | value :: values =>
      let ref := TrimSpace value in
      if ref == "" then inl (policy_denied "credential ref is empty" ∅)
      else if bool_decide (ref ∈ seen) then cleanRefs values seen out
      else cleanRefs values ({[ref]} ∪ seen) (out ++ [ref])
  end.

Definition cleanCredentialRefs (values : list string) : error + list string := cleanRefs values ∅ [].

(** The loop of [validateDataBoundary]. *)
Fixpoint boundary_loop (tenantID : string) (external : bool) (tenants : list string)
    (currentAllowed : bool) : option error :=
  match tenants with
  | [] =>
      if currentAllowed then None
      else Some (policy_denied "data boundary does not allow caller tenant"
                   {["tenant_id" := AString tenantID]})
  | allowed :: tenants =>
      if allowed == tenantID then boundary_loop tenantID external tenants true
      else if (allowed != "") && negb external
      then Some (policy_denied "data boundary includes external tenant without allow_external_data"
                   {["tenant_id" := AString tenantID]})
      else boundary_loop tenantID external tenants currentAllowed
  end.

Definition validateDataBoundary (tenantID : string) (boundary : DataBoundary) : option error :=
  if (len boundary.(Bound_AllowedTenantIDs) =? 0)%Z then None
  else boundary_loop tenantID boundary.(Bound_AllowExternalData)
         boundary.(Bound_AllowedTenantIDs) false.

Definition tenantAllowed (tenantID : string) (allowed : list string) : bool :=
  existsb (λ value, value == tenantID) allowed.

Definition dataScopeAllowed (scope : string) (allowed : list string) : bool :=
  existsb (λ value, TrimSpace value == TrimSpace scope) allowed.

(** The loop over the scopes of a credential. *)
Definition scope_error (boundary : DataBoundary) (ref scope : string) : option error :=
  if TrimSpace scope == "" then None
  else if dataScopeAllowed scope boundary.(Bound_AllowedDataScopes) then None
  else Some (policy_denied "credential scope is outside data boundary"
               {["credential_ref" := AString ref; "scope" := AString scope]}).

Definition validateResolvedCredential (tenantID expectedRef : string)
    (credential : ResolvedCredential) (boundary : DataBoundary) : option error :=
  let details : gmap string Any := {["credential_ref" := AString credential.(Cred_Ref)]} in
  if (expectedRef != "") && (credential.(Cred_Ref) != expectedRef)
  then Some (policy_denied "credential resolver returned unexpected credential ref" details)
  else if credential.(Cred_TenantID) == ""
  then Some (policy_denied "credential tenant is required" details)
  else if (credential.(Cred_TenantID) != tenantID) && negb boundary.(Bound_AllowExternalData)
  then Some (policy_denied "credential tenant does not match caller tenant" details)
  else if nonempty boundary.(Bound_AllowedTenantIDs) &&
          negb (tenantAllowed credential.(Cred_TenantID) boundary.(Bound_AllowedTenantIDs))
  then Some (policy_denied "credential tenant is outside data boundary" details)
  else if nonempty boundary.(Bound_AllowedDataScopes)
  then first_error (scope_error boundary credential.(Cred_Ref)) credential.(Cred_Scopes)
  else None.

(** ** The runtime *)

Record InvokeRequest := mkInvokeRequest {
  IR_TenantID : string;
  IR_TraceID : string;
  IR_ActorID : string;
  IR_ActorType : string;
  IR_Agent : AgentDefinition;
  IR_PolicySet : PolicySet;
  IR_Call : ToolCall;
  IR_ApprovalGranted : bool
}.
#[export] Instance eta_InvokeRequest : Settable InvokeRequest :=
  fields! mkInvokeRequest < IR_TenantID ; IR_TraceID ; IR_ActorID ; IR_ActorType ; IR_Agent ;
    IR_PolicySet ; IR_Call ; IR_ApprovalGranted >.

Section runtime.
Context `{Env, ProfileDecoder} {Executor S : Type} `{!ExecutorOps Executor S}.

(** The credential resolver, which may also resolve runtime secrets. *)
Record CredentialResolver := mkCredentialResolver {
  ResolveCredential : CredentialResolveRequest → M S ResolvedCredential;
  ResolveRuntimeSecrets : option (RuntimeSecretResolveRequest → M S (list ResolvedCredential))
}.

Record Runtime := mkRuntime {
  RT_Registry : Registry Executor;
  RT_Domains : Resolver Executor S;
  RT_Availability : option (string → ToolDefinition → M S (option error));
  RT_Credentials : option CredentialResolver
}.

Definition Definition_ (r : Runtime) (tenantID toolID : string) : option ToolDefinition :=
  option_map RTool_Definition (GetForTenant r.(RT_Registry) tenantID toolID).

(** ** Records of what happens *)

Definition recordEvent (req : InvokeRequest) (eventType : string) (payload : gmap string Any)
    : M S unit :=
  with_trace (
    let! span := idgen_New "span" in
    let! now := now in
    trace_Record (zeroTraceEvent
      <| Trace_TraceID := req.(IR_TraceID) |> <| Trace_TenantID := req.(IR_TenantID) |>
      <| Trace_SpanID := span |> <| Trace_RunID := req.(IR_Call).(Call_RunID) |>
      <| Trace_TaskID := req.(IR_Call).(Call_TaskID) |> <| Trace_Type := eventType |>
      <| Trace_Payload := payload |> <| Trace_CreatedAt := now |>)).

Definition record_ (req : InvokeRequest) (eventType : string) (result : ToolResult) : M S unit :=
  recordEvent req eventType
    {["tool_call_id" := AString req.(IR_Call).(Call_ToolCallID);
      "status" := AString result.(Result_Status)]}.

Definition run_audit (req : InvokeRequest) (action resourceType resourceID decision reason : string)
    : M S unit :=
  with_audit (
    let! id := idgen_New "audit" in
    let! now := now in
    ignore (audit_Log (zeroAuditEvent
      <| Audit_AuditID := id |> <| Audit_TenantID := req.(IR_TenantID) |>
      <| Audit_ActorID := req.(IR_ActorID) |> <| Audit_ActorType := req.(IR_ActorType) |>
      <| Audit_Action := action |> <| Audit_ResourceType := resourceType |>
      <| Audit_ResourceID := resourceID |> <| Audit_Decision := decision |>
      <| Audit_Reason := reason |> <| Audit_TraceID := req.(IR_TraceID) |>
      <| Audit_TaskID := req.(IR_Call).(Call_TaskID) |>
      <| Audit_RunID := req.(IR_Call).(Call_RunID) |> <| Audit_CreatedAt := now |>))).

Definition recordCredentialAudit (req : InvokeRequest) (tool : ToolDefinition)
    (domainID credentialRef : string) : M S unit :=
  run_audit req AuditCredentialUsed "credential" credentialRef "allowed"
    ("tool_id=" +:+ tool.(Tool_ToolID) +:+ "; domain_id=" +:+ domainID).

Definition recordExecutionDeniedAudit (req : InvokeRequest) (tool : ToolDefinition)
    (result : ToolResult) : M S unit :=
  match result.(Result_Error) with
  | None => ret tt
  | Some e => run_audit req AuditToolPolicyDenied "tool" tool.(Tool_ToolID) "denied" e.(ExecErr_Message)
  end.

(** ** Results *)

Definition result_ (call : ToolCall) (status : ToolResultStatus) (execErr : option ToolExecutionError)
    : M S ToolResult :=
  let! now := now in
  let! id := idgen_New "toolres" in
  ret (mkToolResult id call.(Call_ToolCallID) status ∅ execErr [] now now).

Definition executionFailedResult (req : InvokeRequest) (started : Time) (execErr : error)
    (meta : gmap string Any) : M S ToolResult :=
  let '(code, details) :=
    match execErr with
    | ErrRuntime e => (e.(Err_Code), e.(Err_Details))
    | _ => (CodeToolExecutionFailed, ∅)
    end in
  let! id := idgen_New "toolres" in
  let! completed := now in
  ret (mkToolResult id req.(IR_Call).(Call_ToolCallID) ToolResultFailed ∅
         (Some (mkToolExecutionError code (Error execErr) (meta ∪ details))) [] started completed).

(** ** Credentials *)

(** One turn of the loop over the references. *)
Definition resolveRef (resolver : CredentialResolver) (req : InvokeRequest) (tool : ToolDefinition)
    (domainID : string) (profile : ExecutionProfile) (ref : string) : M S ResolvedCredential :=
  let! credential := resolver.(ResolveCredential)
    (mkCredentialResolveRequest req.(IR_TenantID) req.(IR_ActorID) req.(IR_ActorType)
       req.(IR_Agent).(Agent_AgentID) tool.(Tool_ToolID) domainID ref profile.(Prof_DataBoundary)) in
  let credential := if credential.(Cred_Ref) == "" then credential <| Cred_Ref := ref |>
                    else credential in
  match validateResolvedCredential req.(IR_TenantID) ref credential profile.(Prof_DataBoundary) with
  | Some err => throw err
  | None => ret credential
  end.

Fixpoint resolveRefs (resolver : CredentialResolver) (req : InvokeRequest) (tool : ToolDefinition)
    (domainID : string) (profile : ExecutionProfile) (refs : list string)
    : M S (list ResolvedCredential) :=
  match refs with
  | [] => ret []
  | ref :: refs =>
      let! credential := resolveRef resolver req tool domainID profile ref in
      let! rest := resolveRefs resolver req tool domainID profile refs in
      ret (credential :: rest)
  end.

(** The loop over the runtime secrets. *)
Definition secret_error (req : InvokeRequest) (profile : ExecutionProfile)
    (credential : ResolvedCredential) : option error :=
  if TrimSpace credential.(Cred_Ref) == ""
  then Some (policy_denied "runtime secret ref is empty" ∅)
  else validateResolvedCredential req.(IR_TenantID) credential.(Cred_Ref) credential
         profile.(Prof_DataBoundary).

Definition resolveCredentials (r : Runtime) (req : InvokeRequest) (tool : ToolDefinition)
    (domainID : string) (profile : ExecutionProfile) : M S (list ResolvedCredential) :=
  let scope := profile.(Prof_CredentialScope) in
  match cleanCredentialRefs scope.(CredScope_AllowedCredentialRefs) with
  | inl err => throw err
  | inr refs =>
      if (len refs =? 0)%Z && negb scope.(CredScope_AllowRuntimeSecrets) then ret [] else
      let tool_details : gmap string Any := {["tool_id" := AString tool.(Tool_ToolID)]} in
      let! out :=
        match r.(RT_Credentials) with
        | None => if nonempty refs
                  then throw (policy_denied "credential resolver is not configured" tool_details)
                  else ret []
        | Some resolver => resolveRefs resolver req tool domainID profile refs
        end in
      if scope.(CredScope_AllowRuntimeSecrets) then
        match r.(RT_Credentials) ≫= ResolveRuntimeSecrets with
        | None => throw (policy_denied "runtime secret resolver is not configured" tool_details)
        | Some resolve =>
            let! secrets := resolve
              (mkRuntimeSecretResolveRequest req.(IR_TenantID) req.(IR_ActorID) req.(IR_ActorType)
                 req.(IR_Agent).(Agent_AgentID) tool.(Tool_ToolID) domainID scope
                 profile.(Prof_DataBoundary)) in
            match first_error (secret_error req profile) secrets with
            | Some err => throw err
            | None => ret (out ++ secrets)
            end
        end
      else ret out
  end.

(** ** Invocation *)

Fixpoint recordCredentials (req : InvokeRequest) (tool : ToolDefinition) (domainID : string)
    (credentials : list ResolvedCredential) : M S unit :=
  match credentials with
  | [] => ret tt
  | credential :: credentials =>
      do! recordEvent req TraceCredentialUsed
        {["tool_call_id" := AString req.(IR_Call).(Call_ToolCallID);
          "tool_id" := AString tool.(Tool_ToolID);
          "credential_ref" := AString credential.(Cred_Ref);
          "domain_id" := AString domainID]} in
      do! recordCredentialAudit req tool domainID credential.(Cred_Ref) in
      recordCredentials req tool domainID credentials
  end.

Definition execPayload (req : InvokeRequest) (tool : ToolDefinition) (domainID : string)
    (profile : ExecutionProfile) : gmap string Any :=
  let out : gmap string Any :=
    {["tool_call_id" := AString req.(IR_Call).(Call_ToolCallID);
      "tool_id" := AString tool.(Tool_ToolID); "domain_id" := AString domainID;
      "profile_id" := AString profile.(Prof_ID)]} in
  let out := set_if (profile.(Prof_WorkerRef) != "") "worker_ref"
               (AString profile.(Prof_WorkerRef)) out in
  let out := set_if (profile.(Prof_Sandbox) != "") "sandbox" (AString profile.(Prof_Sandbox)) out in
  let out := set_if (profile.(Prof_ManagedRuntime) != "") "managed_runtime"
               (AString profile.(Prof_ManagedRuntime)) out in
  let out := set_if (has_scope profile.(Prof_CredentialScope)) "credential_scope"
               (scope_any profile.(Prof_CredentialScope)) out in
  set_if (has_boundary profile.(Prof_DataBoundary)) "data_boundary"
    (boundary_any profile.(Prof_DataBoundary)) out.

(** A failure before the execution is audited as a denial. *)
Definition execution_refused (req : InvokeRequest) (tool : ToolDefinition) (started : Time)
    (err : error) : M S ToolResult :=
  let! result := executionFailedResult req started err ∅ in
  do! recordExecutionDeniedAudit req tool result in
  do! record_ req TraceToolFailed result in
  ret result.

(** What follows the execution. *)
Definition finish (req : InvokeRequest) (tool : ToolDefinition) (started : Time)
    (execResult : ExecutionResult) (execErr : option error) : M S ToolResult :=
  match execErr with
  | Some execErr =>
      let! result := executionFailedResult req started execErr execResult.(ExecRes_Metadata) in
      do! (match result.(Result_Error) with
           | Some e => if (e.(ExecErr_Code) == CodeToolPolicyDenied) ||
                          (e.(ExecErr_Code) == CodeHandoffDenied)
                       then recordExecutionDeniedAudit req tool result else ret tt
           | None => ret tt
           end) in
      do! record_ req TraceToolFailed result in
      ret result
  | None =>
      let! id := idgen_New "toolres" in
      let! completed := now in
      let result := mkToolResult id req.(IR_Call).(Call_ToolCallID) ToolResultSucceeded
        execResult.(ExecRes_Output) None execResult.(ExecRes_ArtifactRefs) started completed in
      let! invalid := ValidateObject result.(Result_Output) tool.(Tool_OutputSchema) in
      match invalid with
      | Some err =>
          let! id := idgen_New "toolres" in
          let! completed := now in
          let result := mkToolResult id req.(IR_Call).(Call_ToolCallID) ToolResultFailed ∅
            (Some (mkToolExecutionError CodeToolExecutionFailed
               "tool result schema validation failed" {["error" := AString (Error err)]}))
            [] started completed in
          do! record_ req TraceToolFailed result in
          ret result
      | None =>
          do! recordEvent req TraceToolCompleted
            {["tool_call_id" := AString req.(IR_Call).(Call_ToolCallID);
              "status" := AString result.(Result_Status);
              "execution_metadata" := AMap (map_to_list execResult.(ExecRes_Metadata))]} in
          ret result
      end
  end.

(** From [started := r.Now()] on: the policy has allowed the call. *)
Definition run_allowed (r : Runtime) (req : InvokeRequest) (tool : Tool Executor) : M S ToolResult :=
  let definition := tool.(RTool_Definition) in
  let! started := now in
  match ResolveProfile r.(RT_Domains) definition.(Tool_ExecutionProfile) with
  | inl err => throw err
  | inr (execDomain, execProfile) =>
      do! recordEvent req TraceToolInvoked
        (execPayload req definition (domain_ID execDomain) execProfile) in
      match validateDataBoundary req.(IR_TenantID) execProfile.(Prof_DataBoundary) with
      | Some err => execution_refused req definition started err
      | None =>
          let! resolved := attempt
            (resolveCredentials r req definition (domain_ID execDomain) execProfile) in
          match resolved with
          | inr err => execution_refused req definition started err
          | inl credentials =>
              do! recordCredentials req definition (domain_ID execDomain) credentials in
              let! executed := domain_Execute execDomain
                (mkExecutionRequest execProfile definition req.(IR_Call) tool.(RTool_Executor)
                   credentials) in
              finish req definition started executed.1 executed.2
          end
      end
  end.

Definition tool_request (req : InvokeRequest) (tool : ToolDefinition) : ToolRequest :=
  mkToolRequest req.(IR_TenantID) req.(IR_TraceID) req.(IR_ActorID) req.(IR_ActorType)
    req.(IR_Agent) req.(IR_PolicySet) tool req.(IR_Call) req.(IR_ApprovalGranted).

(** A result without an execution: recorded and returned. *)
Definition answered (req : InvokeRequest) (eventType : string) (status : ToolResultStatus)
    (execErr : option ToolExecutionError) : M S ToolResult :=
  let! result := result_ req.(IR_Call) status execErr in
  do! record_ req eventType result in
  ret result.

(** The first statements of [Invoke] fill in the call's tenant and trace. *)
Definition fill_call (req : InvokeRequest) : InvokeRequest :=
  let call := req.(IR_Call) in
  let call := if call.(Call_TenantID) == "" then call <| Call_TenantID := req.(IR_TenantID) |>
              else call in
  let call := if call.(Call_TraceID) == "" then call <| Call_TraceID := req.(IR_TraceID) |>
              else call in
  req <| IR_Call := call |>.

Definition Invoke (r : Runtime) (req : InvokeRequest) : M S ToolResult :=
  let req := fill_call req in
  match GetForTenant r.(RT_Registry) req.(IR_TenantID) req.(IR_Call).(Call_ToolID) with
  | None => throw (ErrRuntime (NewRuntimeError CodeToolNotFound "tool not found"
                     {["tool_id" := AString req.(IR_Call).(Call_ToolID)]}))
  | Some tool =>
      let definition := tool.(RTool_Definition) in
      let! missing :=
        match r.(RT_Availability) with
        | None => ret None
        | Some check => check req.(IR_TenantID) definition
        end in
      match missing with
      | Some err => answered req TraceToolDenied ToolResultDenied
                      (Some (mkToolExecutionError CodeToolPolicyDenied (Error err) ∅))
      | None =>
      let! invalid := ValidateObject req.(IR_Call).(Call_Arguments) definition.(Tool_InputSchema) in
      match invalid with
      | Some err => answered req TraceToolFailed ToolResultFailed
                      (Some (mkToolExecutionError CodeToolArgumentInvalid (Error err) ∅))
      | None =>
      let! evaluated := Evaluate (tool_request req definition) in
      let '(policyDecision, err) := evaluated in
      do! recordEvent req TraceToolPolicyChecked
        {["tool_id" := AString definition.(Tool_ToolID);
          "decision" := AString policyDecision.(PD_Decision);
          "reason" := AString policyDecision.(PD_Reason)]} in
      match err with
      | Some err => answered req TraceToolDenied ToolResultDenied
                      (Some (mkToolExecutionError CodeToolPolicyDenied (Error err) ∅))
      | None =>
          if policyDecision.(PD_Decision) == PolicyDecisionApprovalRequired
          then answered req TraceToolPendingApproval ToolResultPendingApproval None
          else run_allowed r req tool
      end end end
  end.
End runtime.
Arguments Runtime : clear implicits.
Arguments CredentialResolver : clear implicits.

(** ** Effects that leave the executors' state alone *)

Section quiet.
Context `{Env, ProfileDecoder} {Executor S : Type} `{!ExecutorOps Executor S}.

Lemma effect_only_recordEvent req ty payload : effect_only (S:=S) (recordEvent req ty payload).
Proof. unfold recordEvent. auto 10 with effects. Qed.
Lemma effect_only_record req ty result : effect_only (S:=S) (record_ req ty result).
Proof. apply effect_only_recordEvent. Qed.
Lemma effect_only_run_audit req a t i d reason : effect_only (S:=S) (run_audit req a t i d reason).
Proof. unfold run_audit. auto 10 with effects. Qed.
Lemma effect_only_denied_audit req tool result :
  effect_only (S:=S) (recordExecutionDeniedAudit req tool result).
Proof. unfold recordExecutionDeniedAudit. destruct (Result_Error result);
  auto using effect_only_run_audit with effects. Qed.
Lemma effect_only_tool_audit req a d : effect_only (S:=S) (tool_audit req a d).
Proof. unfold tool_audit. auto 10 with effects. Qed.
Lemma effect_only_credentials req tool domain creds :
  effect_only (S:=S) (recordCredentials req tool domain creds).
Proof.
  induction creds as [|c creds IH]; cbn; [auto with effects|].
  apply effect_only_bind; [apply effect_only_recordEvent|intros _].
  apply effect_only_bind; [apply effect_only_run_audit|done].
Qed.
End quiet.
#[export] Hint Resolve @effect_only_recordEvent @effect_only_record @effect_only_run_audit
  @effect_only_denied_audit @effect_only_tool_audit @effect_only_credentials : effects.

(** Steps over an effect: the rest runs in some later world. *)
Ltac skip_effect :=
  lazymatch goal with
  | |- context [bind ?m ?f ?w ?s] =>
      let a := fresh "a" in let w1 := fresh "w" in let E := fresh "E" in
      let Hm := fresh "Hm" in
      assert (Hm : effect_only m) by auto 10 with effects;
      destruct (Hm w s) as (a & w1 & E); rewrite (bind_Ok m f w s _ _ _ E); clear Hm; try clear E
  end.

Section outcomes.
Context `{Env, ProfileDecoder} {Executor S : Type} `{!ExecutorOps Executor S}.

(** A run that ends with a result and leaves the state alone. *)
Definition answers (m : M S ToolResult) (Q : ToolResult → Prop) : Prop :=
  ∀ w s, ∃ result w', m w s = (Ok result, w', s) ∧ Q result.

(** A result that is no success. *)
Definition unsuccessful (result : ToolResult) : Prop :=
  result.(Result_Status) ≠ ToolResultSucceeded ∧ result.(Result_Output) = ∅ ∧
  result.(Result_ArtifactRefs) = [].

Lemma answered_run req ty status execErr :
  status ≠ ToolResultSucceeded →
  answers (answered req ty status execErr)
    (λ result, unsuccessful result ∧ result.(Result_Status) = status).
Proof.
  intros Hs w s. unfold answered.
  unfold result_, now, time_Now, idgen_New, lift_env, bind at 2 3, ret at 1. unfold bind at 1. cbn.
  skip_effect. eexists _, _. split; [reflexivity|]. done.
Qed.

Lemma failed_result_run req started err meta w (s : S) :
  ∃ result w', executionFailedResult req started err meta w s = (Ok result, w', s) ∧
    result.(Result_Status) = ToolResultFailed ∧ unsuccessful result.
Proof.
  unfold executionFailedResult.
  destruct (match err with ErrRuntime e => _ | _ => _ end) as [code details].
  unfold idgen_New, now, time_Now, lift_env, bind, ret. cbn. eexists _, _. split; [reflexivity|]. done.
Qed.

Lemma refused_run req tool started err :
  answers (execution_refused req tool started err) unsuccessful.
Proof.
  intros w s. unfold execution_refused.
  destruct (failed_result_run req started err ∅ w s) as (result & w1 & E & _ & Hu).
  rewrite (bind_Ok _ _ _ _ _ _ _ E). do 2 skip_effect. eexists _, _. split; [reflexivity|done].
Qed.

Lemma Evaluate_run req w (s : S) :
  ∃ w', Evaluate req w s =
    (Ok (evaluate req,
         if (evaluate req).(PD_Decision) == PolicyDecisionDenied
         then Some (ErrRuntime (NewRuntimeError CodeToolPolicyDenied (evaluate req).(PD_Reason) ∅))
         else None), w', s).
Proof.
  unfold Evaluate. skip_effect. skip_effect. eexists. reflexivity.
Qed.

(** What the caller learns of an execution: a success with the domain's output exactly if the
    domain had no error and the output has the shape the tool declares. *)
Definition reports (tool : ToolDefinition) (execResult : ExecutionResult) (execErr : option error)
    (result : ToolResult) : Prop :=
  let good := execErr = None ∧ valid_object execResult.(ExecRes_Output) tool.(Tool_OutputSchema) in
  (good → result.(Result_Status) = ToolResultSucceeded ∧
          result.(Result_Output) = execResult.(ExecRes_Output) ∧
          result.(Result_ArtifactRefs) = execResult.(ExecRes_ArtifactRefs)) ∧
  (¬ good → unsuccessful result).

Lemma finish_run req tool started execResult execErr :
  answers (finish req tool started execResult execErr) (reports tool execResult execErr).
Proof.
  intros w s. unfold finish. destruct execErr as [err|].
  - destruct (failed_result_run req started err (ExecRes_Metadata execResult) w s)
      as (result & w1 & E & _ & Hu). rewrite (bind_Ok _ _ _ _ _ _ _ E).
    assert (Hq : effect_only (S:=S) (match Result_Error result with
      | Some e => if (ExecErr_Code e == CodeToolPolicyDenied) || (ExecErr_Code e == CodeHandoffDenied)
                  then recordExecutionDeniedAudit req tool result else ret tt
      | None => ret tt end)) by (destruct (Result_Error result); auto with effects).
    do 2 skip_effect. eexists _, _. split; [reflexivity|]. split; [by intros [? _]|done].
  - do 2 skip_effect.
    destruct (ValidateObject_run (ExecRes_Output execResult) (Tool_OutputSchema tool) w1 s)
      as (r & w2 & E & Hr). cbn [Result_Output]. rewrite (bind_Ok _ _ _ _ _ _ _ E).
    destruct r as [err|].
    + do 3 skip_effect. eexists _, _. split; [reflexivity|]. split; [|done].
      intros [_ Hv]. by apply Hr in Hv.
    + skip_effect. eexists _, _. split; [reflexivity|]. split; [done|]. intros Hn. exfalso.
      apply Hn. split; [done|by apply Hr].
Qed.

(** ** Credentials *)

(** A credential the caller's tenant may use within the boundary. *)
Definition confined (tenantID : string) (boundary : DataBoundary) (c : ResolvedCredential) : Prop :=
  c.(Cred_Ref) ≠ "" ∧ c.(Cred_TenantID) ≠ "" ∧
  (c.(Cred_TenantID) = tenantID ∨ boundary.(Bound_AllowExternalData) = true) ∧
  (boundary.(Bound_AllowedTenantIDs) = [] ∨ c.(Cred_TenantID) ∈ boundary.(Bound_AllowedTenantIDs)) ∧
  (boundary.(Bound_AllowedDataScopes) = [] ∨
   ∀ scope, scope ∈ c.(Cred_Scopes) → TrimSpace scope = "" ∨
     ∃ allowed, allowed ∈ boundary.(Bound_AllowedDataScopes) ∧ TrimSpace allowed = TrimSpace scope).

Lemma validated_confined tenantID ref c boundary :
  ref ≠ "" → validateResolvedCredential tenantID ref c boundary = None →
  confined tenantID boundary c ∧ c.(Cred_Ref) = ref.
Proof.
  intros Href. unfold validateResolvedCredential. rewrite (eqb_neq_false _ _ Href). cbn [negb andb].
  destruct (String.eqb_spec (Cred_Ref c) ref) as [<-|]; [cbn [negb]|done].
  destruct (String.eqb_spec (Cred_TenantID c) "") as [|Ht]; [done|].
  destruct (((Cred_TenantID c) != tenantID) && _) eqn:E1; [done|].
  destruct (nonempty (Bound_AllowedTenantIDs boundary) && _) eqn:E2; [done|]. intros E3.
  split; [|done]. split_and!; [done|done| | |].
  - apply andb_false_iff in E1 as [E1|E1]; apply negb_false_iff in E1; [left|by right].
    by apply String.eqb_eq.
  - apply andb_false_iff in E2 as [E2|E2]; [left; by apply nonempty_false|right].
    apply negb_false_iff, existsb_exists in E2 as (t & Ht' & E%String.eqb_eq). subst t.
    by apply list_elem_of_In.
  - destruct (nonempty (Bound_AllowedDataScopes boundary)) eqn:En; [right|left; by apply nonempty_false].
    rewrite first_error_None in E3. intros scope Hs. apply E3 in Hs. unfold scope_error in Hs.
    destruct (String.eqb_spec (TrimSpace scope) ""); [by left|right].
    destruct (dataScopeAllowed scope _) eqn:Ea; [|done].
    apply existsb_exists in Ea as (a & Ha & E%String.eqb_eq). exists a.
    split; [by apply list_elem_of_In|done].
Qed.

(** Where a resolved credential may come from. *)
Definition granted (scope : CredentialScope) (ref : string) : Prop :=
  (∃ value, value ∈ scope.(CredScope_AllowedCredentialRefs) ∧ ref = TrimSpace value) ∨
  scope.(CredScope_AllowRuntimeSecrets) = true.

Lemma cleanRefs_elem values seen out refs :
  cleanRefs values seen out = inr refs →
  ∀ ref, ref ∈ refs → ref ∈ out ∨ ref ≠ "" ∧ ∃ value, value ∈ values ∧ ref = TrimSpace value.
Proof.
  revert seen out. induction values as [|v values IH]; cbn [cleanRefs]; intros seen out E ref Hr.
  { simplify_eq. by left. }
  destruct (String.eqb_spec (TrimSpace v) ""); [done|].
  destruct (bool_decide _); destruct (IH _ _ E ref Hr) as [Hin|(Hne & value & Hv & ->)].
  - by left.
  - right. split; [done|]. exists value. split; [by right|done].
  - apply elem_of_app in Hin as [Hin| ->%list_elem_of_singleton]; [by left|].
    right. split; [done|]. exists v. split; [left|done].
  - right. split; [done|]. exists value. split; [by right|done].
Qed.

Lemma resolveRef_confined (resolver : CredentialResolver S) req tool domain profile ref w s c w' s' :
  ref ≠ "" →
  resolveRef resolver req tool domain profile ref w s = (Ok c, w', s') →
  confined req.(IR_TenantID) profile.(Prof_DataBoundary) c ∧ c.(Cred_Ref) = ref.
Proof.
  intros Href E. unfold resolveRef in E. apply bind_Ok_inv in E as (c0 & w1 & s1 & _ & E).
  destruct (validateResolvedCredential _ _ _ _) eqn:Ev; [done|]. unfold ret in E. simplify_eq.
  by apply validated_confined.
Qed.

Lemma resolveRefs_confined (resolver : CredentialResolver S) req tool domain profile refs w s creds w' s' :
  (∀ ref, ref ∈ refs → ref ≠ "") →
  resolveRefs resolver req tool domain profile refs w s = (Ok creds, w', s') →
  Forall (confined req.(IR_TenantID) profile.(Prof_DataBoundary)) creds ∧
  map Cred_Ref creds = refs.
Proof.
  revert w s creds. induction refs as [|ref refs IH]; cbn; intros w s creds Hne E.
  { unfold ret in E. by simplify_eq. }
  apply bind_Ok_inv in E as (c & w1 & s1 & E1 & E). apply bind_Ok_inv in E as (rest & w2 & s2 & E2 & E).
  unfold ret in E. simplify_eq. apply resolveRef_confined in E1 as [Hc Hr]; [|apply Hne; left].
  apply IH in E2 as [Hrest Hrefs]; [|intros ref' Hin; apply Hne; by right]. cbn. rewrite Hrefs, Hr.
  split; [by constructor|done].
Qed.

Lemma secrets_confined req profile secrets :
  first_error (secret_error req profile) secrets = None →
  Forall (confined req.(IR_TenantID) profile.(Prof_DataBoundary)) secrets.
Proof.
  rewrite first_error_None, Forall_forall. intros Hs c Hc. specialize (Hs c Hc).
  unfold secret_error in Hs. destruct (String.eqb_spec (TrimSpace (Cred_Ref c)) "") as [|Hne]; [done|].
  apply validated_confined in Hs; [naive_solver|]. intros E. by rewrite E in Hne.
Qed.

(** C16. Whatever the credential resolvers answer, the credentials that are resolved for a call
    belong to a tenant the data boundary allows, the caller's own unless external data is
    allowed, have only scopes within the boundary, and are references the profile names unless
    it allows runtime secrets; a profile without a credential scope gets none. *)
Theorem credentials_confined (r : Runtime Executor S) req tool domain profile w s creds w' s' :
  resolveCredentials r req tool domain profile w s = (Ok creds, w', s') →
  Forall (confined req.(IR_TenantID) profile.(Prof_DataBoundary)) creds ∧
  Forall (λ c, granted profile.(Prof_CredentialScope) c.(Cred_Ref)) creds ∧
  (has_scope profile.(Prof_CredentialScope) = false → creds = [] ∧ s' = s).
Proof.
  unfold resolveCredentials, cleanCredentialRefs, granted, has_scope.
  destruct (cleanRefs _ _ _) as [err|refs] eqn:Eclean; [done|].
  pose proof (cleanRefs_elem _ _ _ _ Eclean) as Hrefs.
  set (scope := Prof_CredentialScope profile) in *.
  destruct (_ && _) eqn:Enone; intros E.
  { unfold ret in E. simplify_eq. done. }
  assert (Hin : ∀ ref, ref ∈ refs → ref ≠ "" ∧
    ∃ value, value ∈ scope.(CredScope_AllowedCredentialRefs) ∧ ref = TrimSpace value).
  { intros ref Hr. destruct (Hrefs ref Hr) as [Ho|Ho]; [inversion Ho|exact Ho]. }
  apply bind_Ok_inv in E as (out & w1 & s1 & Eout & E).
  assert (Hout : Forall (confined req.(IR_TenantID) profile.(Prof_DataBoundary)) out ∧
    ∀ c, c ∈ out → c.(Cred_Ref) ∈ refs).
  { destruct (RT_Credentials r) as [resolver|].
    - apply resolveRefs_confined in Eout as [Hc Hr]; [|intros ref Hr; by apply Hin].
      split; [done|]. intros c Hc'. rewrite <- Hr. change (Cred_Ref c ∈ Cred_Ref <$> out).
      by apply list_elem_of_fmap_2.
    - destruct (nonempty refs); [done|]. unfold ret in Eout. simplify_eq.
      split; [done|]. intros c Hc. inversion Hc. }
  destruct Hout as [Hconf Hfrom].
  assert (Hgr : Forall (λ c : ResolvedCredential, ∃ value,
    value ∈ scope.(CredScope_AllowedCredentialRefs) ∧ c.(Cred_Ref) = TrimSpace value) out).
  { apply Forall_forall. intros c Hc. by apply Hin, Hfrom. }
  destruct (CredScope_AllowRuntimeSecrets scope) eqn:Es.
  - destruct (RT_Credentials r ≫= ResolveRuntimeSecrets) as [resolve|]; [|done].
    apply bind_Ok_inv in E as (secrets & w2 & s2 & _ & E).
    destruct (first_error _ secrets) eqn:Efirst; [done|]. unfold ret in E. simplify_eq.
    rewrite orb_true_r. split_and!; [apply Forall_app; split; [done|by apply secrets_confined]| |done].
    apply Forall_forall. by right.
  - unfold ret in E. simplify_eq. split_and!; [done|by eapply Forall_impl; [exact Hgr|by left]|].
    rewrite orb_false_r. intros Hempty%nonempty_false. rewrite Hempty in Eclean. cbn in Eclean.
    by simplify_eq.
Qed.

(** ** What an invocation runs *)

(** The checks a call passes before anything is run for it. *)
Record cleared (r : Runtime Executor S) (req : InvokeRequest) (tool : Tool Executor)
    (domain : ExecutionDomain Executor S) (profile : ExecutionProfile) : Prop := {
  cleared_tool : GetForTenant r.(RT_Registry) req.(IR_TenantID) req.(IR_Call).(Call_ToolID) = Some tool;
  cleared_arguments : valid_object req.(IR_Call).(Call_Arguments)
                        tool.(RTool_Definition).(Tool_InputSchema);
  cleared_policy : (evaluate (tool_request (fill_call req) tool.(RTool_Definition))).(PD_Decision) =
                     PolicyDecisionAllowed;
  cleared_profile : ResolveProfile r.(RT_Domains) tool.(RTool_Definition).(Tool_ExecutionProfile) =
                      inr (domain, profile);
  cleared_boundary : validateDataBoundary req.(IR_TenantID) profile.(Prof_DataBoundary) = None
}.

Lemma fill_call_fields req :
  (fill_call req).(IR_TenantID) = req.(IR_TenantID) ∧
  (fill_call req).(IR_Call).(Call_ToolID) = req.(IR_Call).(Call_ToolID) ∧
  (fill_call req).(IR_Call).(Call_Arguments) = req.(IR_Call).(Call_Arguments).
Proof.
  unfold fill_call. destruct (_ == ""); cbn [set_field]; destruct (_ == ""); done.
Qed.

(** The availability checker only reads. *)
Definition quiet_checker (r : Runtime Executor S) : Prop :=
  ∀ check, r.(RT_Availability) = Some check → ∀ tenantID tool, effect_only (check tenantID tool).

(** The run of a cleared call: its credentials are resolved, and if that succeeds the tool is
    executed once, in its domain, on the call and with these credentials. *)
Definition ran (r : Runtime Executor S) (req : InvokeRequest) (tool : Tool Executor)
    (domain : ExecutionDomain Executor S) (profile : ExecutionProfile) (s : S)
    (out : Res ToolResult) (s' : S) : Prop :=
  let definition := tool.(RTool_Definition) in
  ∃ w1, match resolveCredentials r (fill_call req) definition (domain_ID domain) profile w1 s with
  | (Err _, _, s1) => s' = s1 ∧ ∃ result, out = Ok result ∧ unsuccessful result
  | (Panic, _, s1) => s' = s1 ∧ out = Panic
  | (Ok credentials, _, s1) =>
      ∃ w2, match domain_Execute domain (mkExecutionRequest profile definition
                    (fill_call req).(IR_Call) tool.(RTool_Executor) credentials) w2 s1 with
      | (Ok (execResult, execErr), _, s2) =>
          s' = s2 ∧ ∃ result, out = Ok result ∧ reports definition execResult execErr result
      | (Err e, _, s2) => s' = s2 ∧ out = Err e
      | (Panic, _, s2) => s' = s2 ∧ out = Panic
      end
  end.

Definition stopped (s : S) (out : Res ToolResult) (s' : S) : Prop :=
  s' = s ∧ out ≠ Panic ∧ ∀ result, out = Ok result → unsuccessful result.

Lemma run_allowed_ran r req tool domain profile w s out w' s' :
  ResolveProfile r.(RT_Domains) tool.(RTool_Definition).(Tool_ExecutionProfile) =
    inr (domain, profile) →
  validateDataBoundary (fill_call req).(IR_TenantID) profile.(Prof_DataBoundary) = None →
  run_allowed r (fill_call req) tool w s = (out, w', s') →
  ran r req tool domain profile s out s'.
Proof.
  intros Ep Eb. unfold run_allowed, ran. skip_effect. rewrite Ep. skip_effect. rewrite Eb.
  unfold bind at 1, attempt. intros E. exists w1. revert E.
  destruct (resolveCredentials _ _ _ _ _ w1 s) as [[[creds|err|] w2] s1]; [| |by intros [= <- <- <-]].
  - skip_effect. unfold bind at 1. intros E.
    lazymatch type of E with context [domain_Execute _ _ ?w2 _] => exists w2; revert E;
      destruct (domain_Execute domain (mkExecutionRequest profile (RTool_Definition tool)
        (IR_Call (fill_call req)) (RTool_Executor tool) creds) w2 s1)
        as [[[[res err]|e|] w5] s2]; [|by intros [= <- <- <-]..] end.
    destruct (finish_run (fill_call req) (RTool_Definition tool) a res err w5 s2)
      as (result & ? & E & Hr). cbn [fst snd]. rewrite E. intros [= <- <- <-]. eauto.
  - destruct (refused_run (fill_call req) (RTool_Definition tool) a err w2 s1)
      as (result & ? & E & Hr). rewrite E. intros [= <- <- <-]. eauto.
Qed.

Lemma run_allowed_stopped r req tool w s out w' s' :
  (∀ domain profile, ¬ (ResolveProfile r.(RT_Domains) tool.(RTool_Definition).(Tool_ExecutionProfile) =
     inr (domain, profile) ∧ validateDataBoundary req.(IR_TenantID) profile.(Prof_DataBoundary) = None)) →
  run_allowed r req tool w s = (out, w', s') → stopped s out s'.
Proof.
  intros Hno. unfold run_allowed. skip_effect.
  destruct (ResolveProfile _ _) as [err|[domain profile]] eqn:Ep.
  { unfold throw. intros [= <- <- <-]. done. }
  skip_effect. destruct (validateDataBoundary _ _) as [err|] eqn:Eb; [|by destruct (Hno domain profile)].
  destruct (refused_run req (RTool_Definition tool) a err w1 s) as (result & w2 & E & Hr).
  rewrite E. intros [= <- <- <-]. split_and!; [done|done|]. by intros ? [= <-].
Qed.

Lemma run_allowed_cases r req tool w s out w' s' :
  GetForTenant r.(RT_Registry) req.(IR_TenantID) req.(IR_Call).(Call_ToolID) = Some tool →
  valid_object req.(IR_Call).(Call_Arguments) tool.(RTool_Definition).(Tool_InputSchema) →
  (evaluate (tool_request (fill_call req) tool.(RTool_Definition))).(PD_Decision) =
    PolicyDecisionAllowed →
  run_allowed r (fill_call req) tool w s = (out, w', s') →
  (stopped s out s' ∨
   ∃ domain profile, cleared r req tool domain profile ∧ ran r req tool domain profile s out s') ∧
  (∀ domain profile, cleared r req tool domain profile → ran r req tool domain profile s out s').
Proof.
  intros Etool Hv Hallowed Erun. destruct (fill_call_fields req) as (Et & _). split.
  - destruct (ResolveProfile r.(RT_Domains) (Tool_ExecutionProfile (RTool_Definition tool)))
      as [err|[domain profile]] eqn:Ep;
        [left; eapply run_allowed_stopped; [|exact Erun]; intros d p [Hp _]; by rewrite Ep in Hp|].
    destruct (validateDataBoundary (IR_TenantID req) (Prof_DataBoundary profile)) eqn:Eb.
    { left. eapply run_allowed_stopped; [|exact Erun]. rewrite Et. intros d p [Hp Hb].
      rewrite Ep in Hp. by simplify_eq. }
    right. exists domain, profile. split; [by constructor|].
    eapply run_allowed_ran; [done|by rewrite Et|exact Erun].
  - intros d p [_ _ _ Hp Hb]. eapply run_allowed_ran; [done|by rewrite Et|exact Erun].
Qed.

Lemma answered_stopped req ty status err w s out w' s' :
  status ≠ ToolResultSucceeded → answered req ty status err w s = (out, w', s') →
  stopped s out s'.
Proof.
  intros Hs E. destruct (answered_run req ty status err Hs w s) as (result & w1 & E1 & Hu & _).
  rewrite E1 in E. simplify_eq. split_and!; [done|done|]. by intros ? [= <-].
Qed.

(** The invocation of a tool that the tenant can get. *)
Lemma Invoke_known (r : Runtime Executor S) req tool w s out w' s' :
  quiet_checker r →
  GetForTenant r.(RT_Registry) req.(IR_TenantID) req.(IR_Call).(Call_ToolID) = Some tool →
  Invoke r req w s = (out, w', s') →
  (stopped s out s' ∨
   ∃ domain profile, cleared r req tool domain profile ∧ ran r req tool domain profile s out s') ∧
  (r.(RT_Availability) = None → ∀ domain profile,
   cleared r req tool domain profile → ran r req tool domain profile s out s').
Proof.
  intros Hq Etool. unfold Invoke. destruct (fill_call_fields req) as (Et & Eid & Eargs).
  rewrite Et, Eid, Eargs, Etool.
  assert (Havail : ∃ missing w1,
    match RT_Availability r with
    | None => ret None | Some check => check (IR_TenantID req) (RTool_Definition tool) end w s
      = (Ok missing, w1, s) ∧ (RT_Availability r = None → missing = None)).
  { destruct (RT_Availability r) as [check|] eqn:Ec; [|by eexists _, w].
    destruct (Hq check Ec (IR_TenantID req) (RTool_Definition tool) w s) as (m & w1 & E).
    by exists m, w1. }
  destruct Havail as (missing & w1 & E1 & Hmissing). rewrite (bind_Ok _ _ _ _ _ _ _ E1).
  destruct missing as [err|].
  { intros E. apply answered_stopped in E; [|done]. split; [by left|]. intros Hn.
    by specialize (Hmissing Hn). }
  destruct (ValidateObject_run (Call_Arguments (IR_Call req)) (Tool_InputSchema (RTool_Definition tool)) w1 s)
    as (invalid & w2 & E2 & Hv). rewrite (bind_Ok _ _ _ _ _ _ _ E2).
  destruct invalid as [err|].
  { intros E. apply answered_stopped in E; [|done]. split; [by left|].
    intros _ d p [_ Ha _ _ _]. by apply Hv in Ha. }
  destruct (Evaluate_run (tool_request (fill_call req) (RTool_Definition tool)) w2 s) as (w3 & E3).
  rewrite (bind_Ok _ _ _ _ _ _ _ E3). clear E1 E2 E3. cbv beta iota. skip_effect.
  pose proof (evaluate_decision (tool_request (fill_call req) (RTool_Definition tool))) as Hd.
  destruct (deny_tests _); [|destruct (_ && _)]; rewrite Hd; cbn [String.eqb].
  - intros E. apply answered_stopped in E; [|done]. split; [by left|].
    intros _ d p [_ _ Hp _ _]. by rewrite Hd in Hp.
  - intros E. apply answered_stopped in E; [|done]. split; [by left|].
    intros _ d p [_ _ Hp _ _]. by rewrite Hd in Hp.
  - intros E. apply run_allowed_cases in E as [H1 H2]; [|done|by apply Hv|done]. auto.
Qed.

(** C15. A tool is run only for a cleared call: whatever the executors, adapters and credential
    resolvers do, an invocation either leaves their state alone and reports no success, or the
    call is to a tool the tenant can get, its arguments have the tool's shape, the tool policy
    allows it, its profile names a known domain and its data boundary admits the tenant; then the
    credentials are resolved and the tool is executed once on that call, and what is reported is
    what came of it, a success only with an output of the declared shape.  Without an
    availability checker every cleared call is run. *)
Theorem invoke_runs_cleared_calls (r : Runtime Executor S) req w s out w' s' :
  quiet_checker r → Invoke r req w s = (out, w', s') →
  (stopped s out s' ∨
   ∃ tool domain profile, cleared r req tool domain profile ∧ ran r req tool domain profile s out s') ∧
  (r.(RT_Availability) = None → ∀ tool domain profile,
   cleared r req tool domain profile → ran r req tool domain profile s out s').
Proof.
  intros Hq E. destruct (GetForTenant r.(RT_Registry) req.(IR_TenantID) req.(IR_Call).(Call_ToolID))
    as [tool|] eqn:Etool.
  - destruct (Invoke_known r req tool w s out w' s' Hq Etool E) as [Hran Hall]. split.
    + destruct Hran as [Hran|(d & p & Hran)]; [by left|right]. by exists tool, d, p.
    + intros Hn tool' d p Hc. assert (tool' = tool) as -> by (destruct Hc; congruence). by apply Hall.
  - unfold Invoke in E. destruct (fill_call_fields req) as (Et & Eid & _).
    rewrite Et, Eid, Etool in E. unfold throw in E. simplify_eq. split; [by left|].
    intros _ tool d p []. congruence.
Qed.
End outcomes.

(** ** Examples: an executor that notes the calls it gets *)

#[export] Instance sample_decoder : ProfileDecoder := λ _, inl "not read here".

#[export] Instance noting_executor : ExecutorOps unit (list ToolCall) := {|
  executor_Execute _ call := λ w log, (Ok (∅, []), w, log ++ [call]);
  executor_NetworkTargetHost _ := None
|}.

Definition sample_resolver : CredentialResolver (list ToolCall) :=
  mkCredentialResolver
    (λ req, ret (mkResolvedCredential req.(CredReq_CredentialRef) req.(CredReq_TenantID) "vault" [] ∅))
    None.

Definition sample_runtime (registry : Registry unit) : Runtime unit (list ToolCall) :=
  mkRuntime registry (NewResolver [LocalExecutionDomain; AgentToolExecutionDomain]) None
    (Some sample_resolver).

Definition sample_request : InvokeRequest :=
  mkInvokeRequest "acme" "trace" "agent" "agent" zeroAgentDefinition zeroPolicySet sample_call false.

Lemma invoke_runs_cleared_calls_witness :
  quiet_checker (sample_runtime sample_registry) ∧
  match Invoke (sample_runtime sample_registry) sample_request world0 [] with
  | (out, w', s') =>
      length s' = 1%nat ∧
      (stopped [] out s' ∨ ∃ tool domain profile,
         cleared (sample_runtime sample_registry) sample_request tool domain profile ∧
         ran (sample_runtime sample_registry) sample_request tool domain profile [] out s')
  end.
Proof.
  assert (Hq : quiet_checker (sample_runtime sample_registry)) by (intros c; discriminate).
  split; [exact Hq|].
  destruct (Invoke (sample_runtime sample_registry) sample_request world0 []) as [[out w'] s'] eqn:E.
  split; [vm_compute in E; injection E as _ _ <-; reflexivity|].
  exact (proj1 (invoke_runs_cleared_calls _ _ _ _ _ _ _ Hq E)).
Defined.

Definition sample_profile : ExecutionProfile :=
  zeroExecutionProfile <| Prof_ID := "p" |> <| Prof_DomainID := "agent_tool" |>
    <| Prof_CredentialScope := mkCredentialScope [" key "; "key"] false |>.

Lemma credentials_confined_witness :
  match resolveCredentials (sample_runtime sample_registry) sample_request zeroToolDefinition
          "agent_tool" sample_profile world0 [] with
  | (Ok creds, _, _) =>
      map Cred_Ref creds = ["key"] ∧
      Forall (confined "acme" sample_profile.(Prof_DataBoundary)) creds
  | _ => False
  end.
Proof.
  destruct (resolveCredentials (sample_runtime sample_registry) sample_request zeroToolDefinition
          "agent_tool" sample_profile world0 []) as [[[creds|e|] w'] s'] eqn:E.
  - split; [vm_compute in E; injection E as <- _ _; reflexivity|].
    exact (proj1 (credentials_confined _ _ _ _ _ _ _ _ _ _ E)).
  - vm_compute in E. discriminate.
  - vm_compute in E. discriminate.
Defined.
