(* ===== verification/ToolInvoke.v ===== *)
(** * External tool calls: internal/tool/invoke/service.go

    The service in front of the tool runtime for callers outside a run: it checks that the
    agent exposes the tool, records the call under its idempotency key, and runs it unless the
    key already has a result. *)

From stdpp Require Import base list strings gmap fin_maps.
From Stdlib Require Import Ascii Lia.
From S2P Require Import Prelude Contracts GoMonad PolicyEngine Policies Decision ToolStore Execution ToolRun.
Open Scope go_scope.
Open Scope string_scope.
Open Scope list_scope.

Section service.
Context `{Env, ProfileDecoder} {Executor S : Type} `{!ExecutorOps Executor S}.

(** The stores the service works on, and the executors' state. *)
Record Sys := mkSys {
  sys_calls : ToolRepo;
  sys_policies : PolicyStore;
  sys_exec : S
}.
#[local] Instance eta_Sys : Settable Sys := fields! mkSys < sys_calls ; sys_policies ; sys_exec >.

(** The loader and the check of the agent's status are interfaces of Go; [None] for a nil one. *)
Record Service := mkService {
  Svc_Load : string → string → string → Res AgentDefinition;
  Svc_AgentRunnable : option (string → string → option error);
  Svc_Runtime : Runtime Executor S;
  Svc_HasPolicies : bool;
  Svc_Disabled : bool;
  Svc_DisabledTools : gset string
}.

Record Request := mkRequest {
  Req_Envelope : AgentEnvelope;
  Req_Caller : AgentCaller;
  Req_IdempotencyKey : string;
  Req_ApprovalGranted : bool
}.

Definition on_calls {A} (m : M ToolRepo A) : M Sys A :=
  zoom sys_calls (λ t s, s <| sys_calls := t |>) m.
Definition on_policies {A} (m : M PolicyStore A) : M Sys A :=
  zoom sys_policies (λ t s, s <| sys_policies := t |>) m.
Definition on_exec {A} (m : M S A) : M Sys A :=
  zoom sys_exec (λ t s, s <| sys_exec := t |>) m.

Definition policySet (svc : Service) (tenantID policySetID : string) : M Sys PolicySet :=
  if negb svc.(Svc_HasPolicies) then on_policies (FallbackPolicySet tenantID policySetID) else
  let! found := on_policies (Store_Get tenantID policySetID) in
  match found with
  | Some policy => ret policy
  | None => on_policies (FallbackPolicySet tenantID policySetID)
  end.

(** The tool that the request names. *)
Definition requested_tool (req : Request) : string :=
  let payload := req.(Req_Envelope).(Env_Payload) in
  let toolID := as_string (payload !! "tool_id") in
  if toolID == "" then as_string (payload !! "tool_name") else toolID.

(** What must hold before the call is recorded; the agent's definition. *)
Definition checkRequest (svc : Service) (req : Request) : M Sys AgentDefinition :=
  if svc.(Svc_Disabled)
  then throw (policy_denied "external tools.invoke is disabled by release switch" ∅) else
  let tenantID := req.(Req_Caller).(Caller_TenantID) in
  let target := req.(Req_Envelope).(Env_Target) in
  match svc.(Svc_AgentRunnable) ≫= (λ check, check tenantID target.(Target_AgentID)) with
  | Some err => throw err
  | None =>
      let! agent := lift_res (svc.(Svc_Load) tenantID target.(Target_AgentID) target.(Target_Version)) in
      let agent := if agent.(Agent_TenantID) == "" then agent <| Agent_TenantID := tenantID |>
                   else agent in
      let toolID := requested_tool req in
      if toolID == ""
      then throw (ErrRuntime (NewRuntimeError CodeToolNotFound
                    "tools.invoke requires tool_id or tool_name" ∅))
      else if bool_decide (toolID ∈ svc.(Svc_DisabledTools))
      then throw (policy_denied "tool is disabled by release switch" {["tool_id" := AString toolID]})
      else if negb (mem_string toolID agent.(Agent_Tools).(ToolsCfg_ExposedToolIDs))
      then throw (policy_denied "tool is not exposed by agent" {["tool_id" := AString toolID]})
      else ret agent
  end.

(** The call the request asks for. *)
Definition buildCall (svc : Service) (req : Request) : M Sys ToolCall :=
  let envelope := req.(Req_Envelope) in
  let args := as_map (envelope.(Env_Payload) !! "arguments") in
  let args := match args !! "trace_id" with
              | Some _ => args
              | None => <["trace_id" := AString envelope.(Env_TraceID)]> args
              end in
  let! callID := idgen_New "toolcall" in
  let! runID := idgen_New "externalrun" in
  let! now := now in
  let call := zeroToolCall
    <| Call_ToolCallID := callID |> <| Call_TenantID := req.(Req_Caller).(Caller_TenantID) |>
    <| Call_ToolID := requested_tool req |>
    <| Call_Name := as_string (envelope.(Env_Payload) !! "tool_name") |>
    <| Call_Arguments := args |> <| Call_TraceID := envelope.(Env_TraceID) |>
    <| Call_RunID := runID |> <| Call_TaskID := envelope.(Env_Context).(Ctx_TaskID) |>
    <| Call_IdempotencyKey := req.(Req_IdempotencyKey) |> <| Call_CreatedAt := now |> in
  ret match Definition_ svc.(Svc_Runtime) req.(Req_Caller).(Caller_TenantID) (requested_tool req) with
      | Some definition => call <| Call_ToolVersion := definition.(Tool_Version) |>
                             <| Call_ExecutionProfile := definition.(Tool_ExecutionProfile) |>
      | None => call
      end.

Definition audit_call (req : Request) (result : ToolResult) (runID : string) : M Sys unit :=
  with_audit (
    let! id := idgen_New "audit" in
    let! now := now in
    ignore (audit_Log (zeroAuditEvent
      <| Audit_AuditID := id |> <| Audit_TenantID := req.(Req_Caller).(Caller_TenantID) |>
      <| Audit_ActorID := req.(Req_Caller).(Caller_CallerID) |>
      <| Audit_ActorType := req.(Req_Caller).(Caller_CallerType) |>
      <| Audit_Action := AuditExternalToolCall |> <| Audit_ResourceType := "tool" |>
      <| Audit_ResourceID := requested_tool req |> <| Audit_Decision := result.(Result_Status) |>
      <| Audit_TraceID := req.(Req_Envelope).(Env_TraceID) |>
      <| Audit_TaskID := req.(Req_Envelope).(Env_Context).(Ctx_TaskID) |>
      <| Audit_RunID := runID |> <| Audit_CreatedAt := now |>))).

(** The result to answer a repeated request with, if there is one. *)
Definition earlierResult (req : Request) (saved : ToolCall) (duplicate : bool)
    : M Sys (option ToolResult) :=
  if duplicate then
    let! existing := on_calls (GetResultByCall saved.(Call_ToolCallID)) in
    ret match existing with
        | Some existing =>
            if (existing.(Result_Status) != ToolResultPendingApproval) ||
               negb req.(Req_ApprovalGranted)
            then Some existing else None
        | None => None
        end
  else ret None.

Definition invoke_request (req : Request) (agent : AgentDefinition) (policy : PolicySet)
    (saved : ToolCall) : InvokeRequest :=
  mkInvokeRequest req.(Req_Caller).(Caller_TenantID) req.(Req_Envelope).(Env_TraceID)
    req.(Req_Caller).(Caller_CallerID) req.(Req_Caller).(Caller_CallerType) agent policy saved
    req.(Req_ApprovalGranted).

Definition Service_Invoke (svc : Service) (req : Request) : M Sys ToolResult :=
  let! agent := checkRequest svc req in
  let! call := buildCall svc req in
  let! recorded := on_calls (SaveCall call) in
  let '(saved, duplicate) := recorded in
  let! earlier := earlierResult req saved duplicate in
  match earlier with
  | Some existing => ret existing
  | None =>
      let! policy := policySet svc req.(Req_Caller).(Caller_TenantID)
                       agent.(Agent_PolicyRefs).(PolicyRefs_PolicySetID) in
      let! result := on_exec (Invoke svc.(Svc_Runtime) (invoke_request req agent policy saved)) in
      do! on_calls (SaveResult result) in
      do! audit_call req result saved.(Call_RunID) in
      ret result
  end.
End service.
Arguments Sys : clear implicits.
Arguments Service : clear implicits.

(** ** Answers carry the id of their call *)

(** Every value [m] ends with satisfies [Q]. *)
Definition returns {S A} (Q : A → Prop) (m : M S A) : Prop :=
  ∀ w s a w' s', m w s = (Ok a, w', s') → Q a.

Section returns.
Context {S : Type}.

Lemma returns_ret {A} (Q : A → Prop) a : Q a → returns (S:=S) Q (ret a).
Proof. intros HQ w s b w' s' E. unfold ret in E. by simplify_eq. Qed.
Lemma returns_throw {A} (Q : A → Prop) e : returns (S:=S) Q (throw e).
Proof. done. Qed.
Lemma returns_bind {A B} (Q : B → Prop) (m : M S A) f :
  (∀ a, returns Q (f a)) → returns Q (bind m f).
Proof.
  intros Hf w s b w' s' E. apply bind_Ok_inv in E as (a & w1 & s1 & _ & E). by eapply Hf.
Qed.
Lemma returns_bind_val {A B} (P : A → Prop) (Q : B → Prop) (m : M S A) f :
  returns P m → (∀ a, P a → returns Q (f a)) → returns Q (bind m f).
Proof.
  intros Hm Hf w s b w' s' E. apply bind_Ok_inv in E as (a & w1 & s1 & E1 & E).
  eapply Hf; [by eapply Hm|exact E].
Qed.
End returns.

Section results.
Context `{Env, ProfileDecoder} {Executor S : Type} `{!ExecutorOps Executor S}.

Definition for_call (req : InvokeRequest) (result : ToolResult) : Prop :=
  result.(Result_ToolCallID) = req.(IR_Call).(Call_ToolCallID).

Lemma failed_for_call req started err meta :
  returns (S:=S) (for_call req) (executionFailedResult req started err meta).
Proof.
  unfold executionFailedResult. destruct (match err with ErrRuntime e => _ | _ => _ end).
  do 2 (apply returns_bind; intros ?). by apply returns_ret.
Qed.

Lemma answered_for_call req ty status err : returns (S:=S) (for_call req) (answered req ty status err).
Proof.
  unfold answered. apply returns_bind_val with (P := for_call req).
  - unfold result_. do 2 (apply returns_bind; intros ?). by apply returns_ret.
  - intros result Hr. apply returns_bind. intros _. by apply returns_ret.
Qed.

Lemma finish_for_call req tool started res err :
  returns (S:=S) (for_call req) (finish req tool started res err).
Proof.
  unfold finish. destruct err as [err|].
  - eapply returns_bind_val; [apply failed_for_call|]. intros result Hr.
    do 2 (apply returns_bind; intros ?). by apply returns_ret.
  - do 3 (apply returns_bind; intros ?). destruct a1 as [e|].
    + do 3 (apply returns_bind; intros ?). by apply returns_ret.
    + apply returns_bind. intros _. by apply returns_ret.
Qed.

Lemma refused_for_call req tool started err :
  returns (S:=S) (for_call req) (execution_refused req tool started err).
Proof.
  unfold execution_refused. eapply returns_bind_val; [apply failed_for_call|]. intros result Hr.
  do 2 (apply returns_bind; intros ?). by apply returns_ret.
Qed.

Lemma Invoke_for_call (r : Runtime Executor S) req : returns (for_call req) (Invoke r req).
Proof.
  assert (Hid : ∀ result, for_call (fill_call req) result → for_call req result).
  { unfold for_call, fill_call. intros result ->. cbn. by destruct (_ == ""), (_ == ""). }
  assert (H' : returns (for_call (fill_call req)) (Invoke r req)); [|by intros ? ? ? ? ? ?%H'%Hid].
  unfold Invoke. destruct (GetForTenant _ _ _) as [tool|]; [|apply returns_throw].
  apply returns_bind. intros [err|]; [apply answered_for_call|].
  apply returns_bind. intros [err|]; [apply answered_for_call|].
  apply returns_bind. intros [decision [err|]]; apply returns_bind; intros _; [apply answered_for_call|].
  destruct (_ == _); [apply answered_for_call|].
  unfold run_allowed. apply returns_bind. intros started.
  destruct (ResolveProfile _ _) as [err|[domain profile]]; [apply returns_throw|].
  apply returns_bind. intros _. destruct (validateDataBoundary _ _); [apply refused_for_call|].
  apply returns_bind. intros [creds|err]; [|apply refused_for_call].
  do 2 (apply returns_bind; intros ?). apply finish_for_call.
Qed.
End results.

(** ** A key is executed at most once *)

Section histories.
Context `{Env, ProfileDecoder} {Executor S : Type} `{!ExecutorOps Executor S}.
Notation Sys := (Sys S).

(** A request under this tenant and key was recorded, with this result. *)
Definition recorded (sys : Sys) (tenantID key : string) (res : ToolResult) : Prop :=
  ∃ id c, sys.(sys_calls).(calls) !! id = Some c ∧ key ≠ "" ∧
    c.(Call_TenantID) = tenantID ∧ c.(Call_IdempotencyKey) = key ∧
    sys.(sys_calls).(resultsByCall) !! id = Some res.

Definition settled (sys : Sys) (tenantID key : string) (res : ToolResult) : Prop :=
  recorded sys tenantID key res ∧ res.(Result_Status) ≠ ToolResultPendingApproval.

Lemma checkRequest_reads (svc : Service Executor S) req w (sys : Sys) out w' sys' :
  checkRequest svc req w sys = (out, w', sys') → sys' = sys ∧ w' = w.
Proof.
  unfold checkRequest. destruct (Svc_Disabled svc); [by intros [= <- <- <-]|].
  destruct (Svc_AgentRunnable svc ≫= _); [by intros [= <- <- <-]|].
  unfold bind, lift_res. destruct (Svc_Load svc _ _ _); [|by intros [= <- <- <-]..].
  destruct (_ == ""); [by intros [= <- <- <-]|]. destruct (bool_decide _); [by intros [= <- <- <-]|].
  destruct (negb _); by intros [= <- <- <-].
Qed.

Lemma buildCall_run (svc : Service Executor S) req w (sys : Sys) :
  ∃ call w', buildCall svc req w sys = (Ok call, w', sys) ∧
    call.(Call_TenantID) = req.(Req_Caller).(Caller_TenantID) ∧
    call.(Call_IdempotencyKey) = req.(Req_IdempotencyKey).
Proof.
  unfold buildCall. do 3 skip_effect. eexists _, _. split; [reflexivity|].
  by destruct (Definition_ _ _ _).
Qed.

Lemma on_calls_run {A} (m : M ToolRepo A) w (sys : Sys) r w' t :
  m w sys.(sys_calls) = (r, w', t) →
  on_calls m w sys = (r, w', mkSys t sys.(sys_policies) sys.(sys_exec)).
Proof. intros E. unfold on_calls, zoom. by rewrite E. Qed.

Lemma same_sys (sys : Sys) : mkSys sys.(sys_calls) sys.(sys_policies) sys.(sys_exec) = sys.
Proof. by destruct sys. Qed.

(** Saving a call under a key that is taken finds the call that has it. *)
Lemma found_call (sys : Sys) call id c w : repo_ok sys.(sys_calls) → nul_free call.(Call_TenantID) →
  same_request sys.(sys_calls) call id c →
  on_calls (SaveCall call) w sys = (Ok (c, true), w, sys) ∧ c.(Call_ToolCallID) = id.
Proof.
  intros Hok Hn Hsame.
  destruct (SaveCall_run sys.(sys_calls) call w Hok Hn) as [(id' & c' & Hc' & E3)|(Hno & _)];
    [|by destruct Hno; exists id, c].
  pose proof (proj1 (same_request_key sys.(sys_calls) call id Hok Hn) (ex_intro _ c Hsame)) as [_ Hi].
  pose proof (proj1 (same_request_key sys.(sys_calls) call id' Hok Hn) (ex_intro _ c' Hc')) as [_ Hi'].
  assert (id' = id) as -> by congruence. assert (c' = c) as -> by (destruct Hc', Hsame; congruence).
  rewrite (on_calls_run _ _ _ _ _ _ E3), same_sys. split; [done|]. destruct Hsame as [Hc _]. by destruct (proj1 Hok _ _ Hc).
Qed.

(** A request whose key has a result that answers it. *)
Lemma Service_Invoke_repeated (svc : Service Executor S) req w sys out w' sys' res :
  repo_ok sys.(sys_calls) → nul_free req.(Req_Caller).(Caller_TenantID) →
  recorded sys req.(Req_Caller).(Caller_TenantID) req.(Req_IdempotencyKey) res →
  (res.(Result_Status) ≠ ToolResultPendingApproval ∨ req.(Req_ApprovalGranted) = false) →
  Service_Invoke svc req w sys = (out, w', sys') →
  sys' = sys ∧ ∀ result, out = Ok result → result = res.
Proof.
  intros Hok Hn (id & c & Hc & Hk & Ht & Hkey & Hres) Hdone. unfold Service_Invoke.
  unfold bind at 1. destruct (checkRequest svc req w sys) as [[o w1] sys1] eqn:E1.
  apply checkRequest_reads in E1 as [-> ->]. destruct o as [agent|e|]; [|by intros [= <- <- <-]..].
  destruct (buildCall_run svc req w sys) as (call & w1 & E2 & Htenant & Hcallkey).
  rewrite (bind_Ok _ _ _ _ _ _ _ E2).
  assert (Hsame : same_request sys.(sys_calls) call id c).
  { split_and!; congruence. }
  rewrite <- Htenant in Hn.
  destruct (found_call sys call id c w1 Hok Hn Hsame) as [E3 Hid].
  rewrite (bind_Ok _ _ _ _ _ _ _ E3). cbv beta iota.
  assert (E4 : earlierResult req c true w1 sys = (Ok (Some res), w1, sys)).
  { unfold earlierResult. rewrite Hid.
    rewrite (bind_Ok _ _ _ _ (Some res) w1 sys).
    - unfold ret. destruct (String.eqb_spec (Result_Status res) ToolResultPendingApproval);
        [|done]. destruct Hdone as [?| ->]; done.
    - erewrite on_calls_run; [|unfold GetResultByCall; rewrite bind_get; unfold ret; by rewrite Hres].
      by rewrite same_sys. }
  rewrite (bind_Ok _ _ _ _ _ _ _ E4). unfold ret. intros [= <- <- <-]. split; [done|].
  by intros ? [= <-].
Qed.

(** The runtime is asked to run [saved], recorded in [r1]. *)
Definition runs (r r1 : ToolRepo) (saved : ToolCall) (tenantID key : string) : Prop :=
  repo_ok r1 ∧ r1.(calls) !! saved.(Call_ToolCallID) = Some saved ∧
  saved.(Call_TenantID) = tenantID ∧ saved.(Call_IdempotencyKey) = key ∧
  r1.(resultsByCall) = r.(resultsByCall) ∧ r.(calls) ⊆ r1.(calls) ∧
  ∀ res, is_Some (r.(calls) !! saved.(Call_ToolCallID)) →
    r.(resultsByCall) !! saved.(Call_ToolCallID) = Some res →
    res.(Result_Status) = ToolResultPendingApproval.

Definition with_result (r : ToolRepo) (result : ToolResult) : ToolRepo :=
  r <| resultsByCall := <[result.(Result_ToolCallID) := result]> r.(resultsByCall) |>.

(** From the policy set on: the state of the calls after the run of [saved]. *)
Definition execute (svc : Service Executor S) (req : Request) (agent : AgentDefinition)
    (saved : ToolCall) : M Sys ToolResult :=
  let! policy := policySet svc req.(Req_Caller).(Caller_TenantID)
                   agent.(Agent_PolicyRefs).(PolicyRefs_PolicySetID) in
  let! result := on_exec (Invoke svc.(Svc_Runtime) (invoke_request req agent policy saved)) in
  do! on_calls (SaveResult result) in
  do! audit_call req result saved.(Call_RunID) in
  ret result.

Lemma policySet_run (svc : Service Executor S) t p w (sys : Sys) :
  ∃ policy w', policySet svc t p w sys = (Ok policy, w', sys).
Proof.
  assert (Hfall : ∀ w, ∃ policy w', on_policies (FallbackPolicySet t p) w sys = (Ok policy, w', sys)).
  { intros w0. unfold on_policies, zoom, FallbackPolicySet, DefaultPolicySet, bind, ret, time_Now,
      lift_env. eexists _, _. by destruct sys. }
  unfold policySet. destruct (negb _); [apply Hfall|].
  unfold bind at 1, on_policies at 1, zoom, Store_Get, bind, get, ret.
  replace (sys <| sys_policies := sys_policies sys |>) with sys by by destruct sys.
  destruct (match policies _ !! _ with Some _ => _ | None => _ end) as [policy|];
    [by eexists _, w|apply Hfall].
Qed.

Lemma execute_writes (svc : Service Executor S) req agent saved w sys out w' sys' :
  execute svc req agent saved w sys = (out, w', sys') →
  ((∀ res, out ≠ Ok res) ∧ sys'.(sys_calls) = sys.(sys_calls)) ∨
  ∃ result, out = Ok result ∧ result.(Result_ToolCallID) = saved.(Call_ToolCallID) ∧
    sys'.(sys_calls) = with_result sys.(sys_calls) result.
Proof.
  unfold execute. destruct (policySet_run svc (Caller_TenantID (Req_Caller req))
    (PolicyRefs_PolicySetID (Agent_PolicyRefs agent)) w sys) as (policy & w1 & E).
  rewrite (bind_Ok _ _ _ _ _ _ _ E). unfold bind at 1, on_exec, zoom.
  destruct (Invoke (Svc_Runtime svc) (invoke_request req agent policy saved) w1 (sys_exec sys))
    as [[[result|e|] w2] s2] eqn:E2; [|by intros [= <- <- <-]; left..].
  apply Invoke_for_call in E2. unfold for_call in E2. cbn [invoke_request IR_Call] in E2.
  unfold bind at 1, on_calls, zoom, SaveResult. rewrite bind_get. unfold put at 1.
  assert (Ha : effect_only (S:=Sys) (audit_call req result saved.(Call_RunID))).
  { unfold audit_call. auto 10 with effects. }
  match goal with |- context [bind (audit_call _ _ _) _ ?w3 ?s3] =>
    destruct (Ha w3 s3) as (? & w4 & E4); rewrite (bind_Ok _ _ _ _ _ _ _ E4) end.
  unfold ret. intros [= <- <- <-]. right. by exists result.
Qed.

Lemma Service_Invoke_writes (svc : Service Executor S) req w sys out w' sys' :
  repo_ok sys.(sys_calls) → nul_free req.(Req_Caller).(Caller_TenantID) →
  Service_Invoke svc req w sys = (out, w', sys') →
  let tenantID := req.(Req_Caller).(Caller_TenantID) in
  let key := req.(Req_IdempotencyKey) in
  (sys'.(sys_calls) = sys.(sys_calls) ∧ ∀ res, out = Ok res → recorded sys tenantID key res) ∨
  ∃ r1 saved, runs sys.(sys_calls) r1 saved tenantID key ∧
    (((∀ res, out ≠ Ok res) ∧ sys'.(sys_calls) = r1) ∨
     ∃ result, out = Ok result ∧ result.(Result_ToolCallID) = saved.(Call_ToolCallID) ∧
       sys'.(sys_calls) = with_result r1 result).
Proof.
  cbv zeta. intros Hok Hn. unfold Service_Invoke.
  unfold bind at 1. destruct (checkRequest svc req w sys) as [[o w1] sys1] eqn:E1.
  apply checkRequest_reads in E1 as [-> ->]. destruct o as [agent|e|]; [|by intros [= <- <- <-]; left..].
  destruct (buildCall_run svc req w sys) as (call & w1 & E2 & Htenant & Hcallkey).
  rewrite (bind_Ok _ _ _ _ _ _ _ E2). rewrite <- Htenant in Hn.
  destruct (SaveCall_run sys.(sys_calls) call w1 Hok Hn)
    as [(id & c & Hc & E3)|(Hno & [(_ & E3)|(Hfree & E3)])].
  - rewrite (bind_Ok _ _ _ _ _ _ _ (on_calls_run _ _ _ _ _ _ E3)), same_sys. cbv beta iota.
    destruct Hc as (Hc & Hk & Ht & Hkey). destruct (proj1 Hok _ _ Hc) as [Hid _].
    unfold earlierResult, on_calls at 1. unfold bind at 1 2, zoom, GetResultByCall. rewrite bind_get.
    unfold ret at 1. replace (sys <| sys_calls := sys_calls sys |>) with sys by by destruct sys.
    rewrite Hid. destruct (resultsByCall (sys_calls sys) !! id) as [res|] eqn:Eres.
    + destruct (String.eqb_spec (Result_Status res) ToolResultPendingApproval) as [Hp|Hp];
        [destruct (Req_ApprovalGranted req)|]; cbn [negb orb ret].
      * change (bind (policySet _ _ _) _) with (execute svc req agent c). intros E. right.
        exists (sys_calls sys), c. split; [|by eapply execute_writes].
        split_and!; try congruence; try reflexivity; intros r0 _ Hr0; congruence.
      * intros [= <- <- <-]. left. split; [done|]. intros ? [= <-]. exists id, c.
        split_and!; congruence.
      * intros [= <- <- <-]. left. split; [done|]. intros ? [= <-]. exists id, c.
        split_and!; congruence.
    + unfold ret. cbv beta iota. change (bind (policySet _ _ _) _) with (execute svc req agent c). intros E. right.
      exists (sys_calls sys), c. split; [|by eapply execute_writes].
      split_and!; try congruence; try reflexivity; intros r0 _ Hr0; congruence.
  - unfold bind at 1. rewrite (on_calls_run _ _ _ _ _ _ E3). intros [= <- <- <-]. by left.
  - rewrite (bind_Ok _ _ _ _ _ _ _ (on_calls_run _ _ _ _ _ _ E3)). cbv beta iota.
    unfold earlierResult. rewrite bind_ret.
    change (bind (policySet _ _ _) _) with (execute svc req agent call). intros E. right.
    exists (with_call (sys_calls sys) call), call.
    split; [|by apply execute_writes in E].
    split_and!; [by apply with_call_ok|by apply lookup_insert_eq|done|done|done| |].
    + by apply insert_subseteq.
    + intros res [c Hc]. congruence.
Qed.

Lemma with_result_ok r result : repo_ok r → repo_ok (with_result r result).
Proof. done. Qed.

Lemma runs_ok r r1 saved t k : runs r r1 saved t k → repo_ok r1.
Proof. by intros [? _]. Qed.

(** What a request writes keeps the repository well formed. *)
Lemma Service_Invoke_ok (svc : Service Executor S) req w sys out w' sys' :
  repo_ok sys.(sys_calls) → nul_free req.(Req_Caller).(Caller_TenantID) →
  Service_Invoke svc req w sys = (out, w', sys') → repo_ok sys'.(sys_calls).
Proof.
  intros Hok Hn E.
  destruct (Service_Invoke_writes _ _ _ _ _ _ _ Hok Hn E)
    as [[-> _]|(r1 & saved & Hr%runs_ok & [[_ ->]|(result & _ & _ & ->)])]; done.
Qed.

(** A settled key stays settled: only a call that awaits approval is run again. *)
Lemma Service_Invoke_settled (svc : Service Executor S) req w sys out w' sys' t k res :
  repo_ok sys.(sys_calls) → nul_free req.(Req_Caller).(Caller_TenantID) →
  Service_Invoke svc req w sys = (out, w', sys') → settled sys t k res → settled sys' t k res.
Proof.
  intros Hok Hn E [(id & c & Hc & Hk & Ht & Hkey & Hres) Hp].
  destruct (Service_Invoke_writes _ _ _ _ _ _ _ Hok Hn E)
    as [[Heq _]|(r1 & saved & (_ & Hsaved & _ & _ & Hresults & Hsub & Hpending) & Hout)].
  { split; [|done]. exists id, c. by rewrite Heq. }
  pose proof (lookup_weaken _ _ _ _ Hc Hsub) as Hc1.
  split; [|done]. exists id, c. destruct Hout as [[_ Heq]|(result & _ & Hid & Heq)]; rewrite Heq.
  - by rewrite Hresults.
  - split_and!; try done. cbn. rewrite lookup_insert_ne; [by rewrite Hresults|].
    rewrite Hid. intros Heq'. rewrite Heq' in Hsaved, Hpending. by eapply Hp, Hpending.
Qed.

(** What a call under a key answers is recorded under the key. *)
Lemma Service_Invoke_recorded (svc : Service Executor S) req w sys res w' sys' :
  repo_ok sys.(sys_calls) → nul_free req.(Req_Caller).(Caller_TenantID) →
  req.(Req_IdempotencyKey) ≠ "" → Service_Invoke svc req w sys = (Ok res, w', sys') →
  recorded sys' req.(Req_Caller).(Caller_TenantID) req.(Req_IdempotencyKey) res.
Proof.
  intros Hok Hn Hk E.
  destruct (Service_Invoke_writes _ _ _ _ _ _ _ Hok Hn E)
    as [[Heq Hrec]|(r1 & saved & (_ & Hsaved & Ht & Hkey & _) & Hout)].
  { destruct (Hrec res eq_refl) as (id & c & H'). exists id, c. by rewrite Heq. }
  destruct Hout as [[Hno _]|(result & [= <-] & Hid & Heq)]; [by destruct (Hno res)|].
  exists saved.(Call_ToolCallID), saved. rewrite Heq. split_and!; try done.
  cbn. by rewrite Hid, lookup_insert_eq.
Qed.

(** A request whose key is taken by a call that has no result to answer it: the saved call is executed. *)
Lemma Service_Invoke_unanswered (svc : Service Executor S) req w sys agent id c :
  repo_ok sys.(sys_calls) → nul_free req.(Req_Caller).(Caller_TenantID) → req.(Req_IdempotencyKey) ≠ "" →
  sys.(sys_calls).(calls) !! id = Some c → c.(Call_TenantID) = req.(Req_Caller).(Caller_TenantID) →
  c.(Call_IdempotencyKey) = req.(Req_IdempotencyKey) →
  (∀ r, sys.(sys_calls).(resultsByCall) !! id = Some r →
     r.(Result_Status) = ToolResultPendingApproval ∧ req.(Req_ApprovalGranted) = true) →
  checkRequest svc req w sys = (Ok agent, w, sys) →
  ∃ w', Service_Invoke svc req w sys = execute svc req agent c w' sys.
Proof.
  intros Hok Hn Hk Hc Hct Hck Hno E1. unfold Service_Invoke. rewrite (bind_Ok _ _ _ _ _ _ _ E1).
  destruct (buildCall_run svc req w sys) as (call & w1 & E2 & Htenant & Hcallkey).
  rewrite (bind_Ok _ _ _ _ _ _ _ E2).
  rewrite <- Htenant in Hn.
  destruct (found_call sys call id c w1 Hok Hn) as [E3 Hid]; [split_and!; congruence|].
  rewrite (bind_Ok _ _ _ _ _ _ _ E3). cbv beta iota.
  assert (E4 : earlierResult req c true w1 sys = (Ok None, w1, sys)).
  { unfold earlierResult. rewrite Hid.
    rewrite (bind_Ok _ _ _ _ (sys.(sys_calls).(resultsByCall) !! id) w1 sys).
    - unfold ret. destruct (resultsByCall _ !! id) as [r|] eqn:Er; [|done]. destruct (Hno r eq_refl) as [-> ->]. done.
    - erewrite on_calls_run; [|unfold GetResultByCall; rewrite bind_get; reflexivity]. by rewrite same_sys. }
  rewrite (bind_Ok _ _ _ _ _ _ _ E4). by exists w1.
Qed.

(** The two phases of a request, between which the code holds no lock: up to the look for a result, and from there on. *)
Definition begin_request (svc : Service Executor S) (req : Request) : M Sys (AgentDefinition * ToolCall * option ToolResult) :=
  let! agent := checkRequest svc req in
  let! call := buildCall svc req in
  let! recorded := on_calls (SaveCall call) in
  let! earlier := earlierResult req recorded.1 recorded.2 in
  ret (agent, recorded.1, earlier).
Definition finish_request (svc : Service Executor S) (req : Request) (b : AgentDefinition * ToolCall * option ToolResult) : M Sys ToolResult :=
  match b.2 with Some existing => ret existing | None => execute svc req b.1.1 b.1.2 end.
Lemma Service_Invoke_phases (svc : Service Executor S) req w sys :
  Service_Invoke svc req w sys = bind (begin_request svc req) (finish_request svc req) w sys.
Proof.
  unfold Service_Invoke, begin_request. unfold bind.
  destruct (checkRequest svc req w sys) as [[[agent|e|] w1] sys1]; [|done..].
  destruct (buildCall svc req w1 sys1) as [[[call|e|] w2] sys2]; [|done..].
  destruct (on_calls (SaveCall call) w2 sys2) as [[[[saved duplicate]|e|] w3] sys3]; [|done..]. cbn [fst snd].
  by destruct (earlierResult req saved duplicate w3 sys3) as [[[[existing|]|e|] w4] sys4].
Qed.

(** Requests served one after the other, whatever the services, the clock and their outcomes. *)
Inductive serves : Sys → Sys → Prop :=
| serves_none sys : serves sys sys
| serves_one (svc : Service Executor S) req w sys out w' sys1 sys2 :
    nul_free req.(Req_Caller).(Caller_TenantID) →
    Service_Invoke svc req w sys = (out, w', sys1) → serves sys1 sys2 → serves sys sys2.

Lemma serves_settled sys sys' t k res :
  serves sys sys' → repo_ok sys.(sys_calls) → settled sys t k res →
  repo_ok sys'.(sys_calls) ∧ settled sys' t k res.
Proof.
  induction 1 as [|svc req w sys out w' sys1 sys2 Hn E _ IH]; intros Hok Hs; [done|].
  apply IH; [by eapply Service_Invoke_ok|by eapply Service_Invoke_settled].
Qed.

(** C17. Once a request of a tenant (any tenant with no NUL byte) under a non-empty key was answered with a result that
    does not wait for approval, a later request of that tenant under that key, after any other requests that are served
    one after the other and whatever it asks for, leaves the tool calls, the policies and the executors as they are and
    answers that same result or an error.  As long as there is no such result the key protects nothing: a request whose
    key is taken executes the saved call whenever that has no result yet, or one that waits for approval and the request
    brings one, exactly as a first request does. *)
Theorem answered_request_not_repeated (svc svc' : Service Executor S) req req' sys w res w1 sys1 sys2 w2 out w3 sys3 :
  repo_ok sys.(sys_calls) → nul_free req.(Req_Caller).(Caller_TenantID) →
  req.(Req_IdempotencyKey) ≠ "" →
  req'.(Req_Caller).(Caller_TenantID) = req.(Req_Caller).(Caller_TenantID) →
  req'.(Req_IdempotencyKey) = req.(Req_IdempotencyKey) →
  (Service_Invoke svc req w sys = (Ok res, w1, sys1) →
   res.(Result_Status) ≠ ToolResultPendingApproval →
   serves sys1 sys2 →
   Service_Invoke svc' req' w2 sys2 = (out, w3, sys3) →
   sys3 = sys2 ∧ ∀ res', out = Ok res' → res' = res) ∧
  (∀ agent id c, sys.(sys_calls).(calls) !! id = Some c →
     c.(Call_TenantID) = req.(Req_Caller).(Caller_TenantID) → c.(Call_IdempotencyKey) = req.(Req_IdempotencyKey) →
     (∀ r, sys.(sys_calls).(resultsByCall) !! id = Some r →
        r.(Result_Status) = ToolResultPendingApproval ∧ req.(Req_ApprovalGranted) = true) →
     checkRequest svc req w sys = (Ok agent, w, sys) →
     ∃ w', Service_Invoke svc req w sys = execute svc req agent c w' sys).
Proof.
  intros Hok Hn Hk Ht Hkey. split.
  - intros E Hp Hserves E'.
    destruct (serves_settled _ _ _ _ _ Hserves (Service_Invoke_ok _ _ _ _ _ _ _ Hok Hn E)
                (conj (Service_Invoke_recorded _ _ _ _ _ _ _ Hok Hn Hk E) Hp)) as [Hok2 [Hrec _]].
    rewrite <- Ht, <- Hkey in Hrec. rewrite <- Ht in Hn.
    eapply Service_Invoke_repeated; eauto.
  - intros agent id c Hc Hct Hck Hno E1. by eapply Service_Invoke_unanswered.
Qed.
End histories.

(** ** Examples: a service over two risky tools *)

Definition risky_tool (id : string) : Tool unit :=
  mkTool (zeroToolDefinition <| Tool_ToolID := id |> <| Tool_Name := id |>
            <| Tool_RiskLevel := RiskHigh |>) (Some tt) [] "acme".

Definition risky_registry : Registry unit :=
  mkRegistry {[toolKey "acme" "notify" := risky_tool "notify";
               toolKey "acme" "wipe" := risky_tool "wipe"]}.

Definition exposing_agent : AgentDefinition :=
  zeroAgentDefinition <| Agent_TenantID := "acme" |> <| Agent_AgentID := "a" |>
    <| Agent_Tools := mkAgentToolsConfig [] [] ["notify"; "wipe"] [] [] |>.

Definition sample_service (disabled : gset string) : Service unit (list ToolCall) :=
  mkService (λ _ _ _, Ok exposing_agent) None (sample_runtime risky_registry) false false disabled.

Definition external (tool key : string) (approved : bool) : Request :=
  mkRequest (zeroAgentEnvelope <| Env_Payload := {["tool_id" := AString tool]} |>)
    (mkAgentCaller "u" "user" "" "acme") key approved.

Definition sys0 : Sys (list ToolCall) := mkSys NewToolRepo (NewPolicyStore []) [].

(** What a request comes to: its status or error, and the tools that have run so far. *)
Definition outcome {A} (m : M (Sys (list ToolCall)) A) (f : A → string) w sys : string * list string :=
  match m w sys with
  | (Ok a, _, sys') => (f a, map Call_ToolID sys'.(sys_exec))
  | (Err _, _, sys') => ("error", map Call_ToolID sys'.(sys_exec))
  | (Panic, _, sys') => ("panic", map Call_ToolID sys'.(sys_exec))
  end.

(** An approval for one tool runs another. A request for "wipe" waits for approval under a key;
    a request for "notify" under that key with an approval then runs "wipe" - even where "wipe"
    has been disabled by the release switch in the meantime, since the switch, the exposure and
    the approval are looked at for the tool requested and the call that is run is the saved one. *)
Theorem approval_of_another_tool :
  let '(_, w1, sys1) := Service_Invoke (sample_service ∅) (external "wipe" "k" false) world0 sys0 in
  outcome (Service_Invoke (sample_service ∅) (external "wipe" "k" false)) Result_Status world0 sys0
    = (ToolResultPendingApproval, []) ∧
  outcome (Service_Invoke (sample_service {["wipe"]}) (external "notify" "k" true)) Result_Status w1 sys1
    = (ToolResultSucceeded, ["wipe"]) ∧
  outcome (Service_Invoke (sample_service {["wipe"]}) (external "wipe" "k" true)) Result_Status w1 sys1
    = ("error", []).
Proof. vm_compute. repeat split. Qed.

(** Two requests under one key at the same time: the first has saved its call and looked for a result when the second is
    served.  Both execute the tool. *)
Theorem in_flight_runs_twice :
  let svc := sample_service ∅ in
  let req := external "wipe" "k" true in
  let '(begun, w1, sys1) := begin_request svc req world0 sys0 in
  let '(_, w2, sys2) := Service_Invoke svc req w1 sys1 in
  match begun with
  | Ok b => outcome (finish_request svc req b) Result_Status w2 sys2 = (ToolResultSucceeded, ["wipe"; "wipe"])
  | _ => False
  end.
Proof. vm_compute. reflexivity. Qed.

Lemma answered_request_not_repeated_witness :
  let '(_, w1, sys1) := Service_Invoke (sample_service ∅) (external "wipe" "k" true) world0 sys0 in
  let '(_, w2, sys2) := Service_Invoke (sample_service ∅) (external "notify" "l" true) w1 sys1 in
  let '(_, _, sys3) := Service_Invoke (sample_service ∅) (external "wipe" "k" true) w2 sys2 in
  sys3 = sys2 ∧ map Call_ToolID sys3.(sys_exec) = ["wipe"; "notify"].
Proof.
  assert (Hn : nul_free "acme") by (vm_compute; repeat split; discriminate).
  assert (Hok : repo_ok NewToolRepo) by apply repo_history_ok, history_new.
  assert (Hst : match Service_Invoke (sample_service ∅) (external "wipe" "k" true) world0 sys0 with
                | (Ok res, _, _) => res.(Result_Status) = ToolResultSucceeded | _ => False end)
    by (vm_compute; reflexivity).
  assert (Hrun :
    let '(_, w1, sys1) := Service_Invoke (sample_service ∅) (external "wipe" "k" true) world0 sys0 in
    let '(_, w2, sys2) := Service_Invoke (sample_service ∅) (external "notify" "l" true) w1 sys1 in
    map Call_ToolID sys2.(sys_exec) = ["wipe"; "notify"]) by (vm_compute; reflexivity).
  destruct (Service_Invoke (sample_service ∅) (external "wipe" "k" true) world0 sys0)
    as [[o1 w1] sys1] eqn:E1.
  destruct (Service_Invoke (sample_service ∅) (external "notify" "l" true) w1 sys1)
    as [[o2 w2] sys2] eqn:E2.
  destruct (Service_Invoke (sample_service ∅) (external "wipe" "k" true) w2 sys2)
    as [[o3 w3] sys3] eqn:E3.
  destruct o1 as [res|e|]; [|destruct Hst..].
  assert (Hp : res.(Result_Status) ≠ ToolResultPendingApproval) by (rewrite Hst; discriminate).
  destruct (answered_request_not_repeated (sample_service ∅) (sample_service ∅) (external "wipe" "k" true)
              (external "wipe" "k" true) sys0 world0 res w1 sys1 sys2 w2 o3 w3 sys3
              Hok Hn ltac:(discriminate) eq_refl eq_refl) as [Hrep _].
  destruct (Hrep E1 Hp
              (serves_one (sample_service ∅) (external "notify" "l" true) _ _ _ _ _ _ Hn E2
                 (serves_none _)) E3) as [-> _].
  split; [reflexivity|exact Hrun].
Defined.
