(* ===== verification/Strategy.v ===== *)
(** * The strategies of a run: internal/agentdef/strategy/resolver.go

    [Resolve] merges what an agent asks for with its limits and the defaults, and then bounds it
    by the policy set.  Nil and empty lists are one in the model, also in the tests for a zero
    struct. *)

From stdpp Require Import base list strings gmap fin_maps.
From Stdlib Require Import Ascii Lia.
From S2P Require Import Prelude Contracts GoMonad Policies.
Open Scope go_scope.
Open Scope string_scope.
Open Scope list_scope.

Record EffectiveRunConfig := mkEffectiveRunConfig {
  Eff_Prompt : PromptStrategy;
  Eff_Model : ModelStrategy;
  Eff_Context : ContextStrategy;
  Eff_Tools : ToolUseStrategy;
  Eff_Skills : SkillUseStrategy;
  Eff_Collaboration : CollaborationStrategy;
  Eff_Memory : MemoryUseStrategy;
  Eff_Knowledge : KnowledgeUseStrategy;
  Eff_Runtime : RuntimeStrategy;
  Eff_Repair : RepairStrategy;
  Eff_Output : OutputStrategy;
  Eff_Policy : PolicySet
}.

Record GuardrailAdjustment := mkGuardrailAdjustment {
  Adj_Path : string;
  Adj_Reason : string;
  Adj_Requested : Any;
  Adj_Effective : Any
}.

Record Report := mkReport {
  Report_StrategyHash : string;
  Report_Adjustments : list GuardrailAdjustment
}.

(** ** Helpers *)

(** [contracts.IntValue] *)
Definition IntValue (value : option Z) : Z := default 0%Z value.

Definition isNone {A} (o : option A) : bool := match o with None => true | Some _ => false end.

Definition isZeroCompressionStrategy (c : ContextCompressionStrategy) : bool :=
  negb c.(Compr_Enabled) && (c.(Compr_TriggerRatio) =? 0)%Z && (c.(Compr_TargetTokens) =? 0)%Z &&
  (c.(Compr_Mode) == "") && (c.(Compr_FailureMode) == "") && (c.(Compr_ModelProvider) == "") &&
  (c.(Compr_ModelBaseURL) == "") && (c.(Compr_ModelName) == "") && (c.(Compr_MaxTokens) =? 0)%Z &&
  isNone c.(Compr_Temperature) && (c.(Compr_PromptProfileID) == "") && isNone c.(Compr_InlinePrompt) &&
  negb (nonempty c.(Compr_Preserve)) && negb (nonempty c.(Compr_Forbid)) &&
  negb c.(Compr_WriteSummaryToMemory).

Definition isZeroContextStrategy (s : ContextStrategy) : bool :=
  (s.(CtxS_Mode) == "") && isNone s.(CtxS_RecentMessageLimit) && isNone s.(CtxS_RetrievalMaxResults) &&
  isNone s.(CtxS_TaskHistoryMaxItems) && isNone s.(CtxS_MemoryMaxItems) &&
  isNone s.(CtxS_ArtifactRefMaxItems) && isNone s.(CtxS_ToolResultMaxItems) &&
  isNone s.(CtxS_ContextTokenBudget) && negb (nonempty s.(CtxS_EnabledSources)) &&
  bool_decide (s.(CtxS_SourceBudgets) = ∅) && isZeroCompressionStrategy s.(CtxS_Compression).

Definition compressionUsesLLM (mode : string) : bool := (mode == "llm") || (mode == "llm_then_truncate").

Definition riskRank (level : RiskLevel) : Z :=
  if level == RiskLow then 1 else if level == RiskMedium then 2 else if level == RiskHigh then 3
  else if level == RiskCritical then 4 else 100.

Definition strictestRiskThreshold (l r : RiskLevel) : RiskLevel :=
  if l == "" then r else if r == "" then l else if (riskRank l <=? riskRank r)%Z then l else r.

Definition contains_trimmed (values : list string) (needle : string) : bool :=
  mem_string (TrimSpace needle) (map TrimSpace values).

Definition nonEmptyStrings (values : list string) : list string :=
  List.filter (λ v, v != "") (map TrimSpace values).

Fixpoint intersect_from (seen l r : list string) : list string :=
  match l with
  | [] => []
  | value :: l =>
      if (value == "") || negb (mem_string value r) || mem_string value seen
      then intersect_from seen l r
      else value :: intersect_from (value :: seen) l r
  end.
Definition intersectStrings (l r : list string) : list string := intersect_from [] l r.

Definition limited (path : string) (requested effective : Z) : GuardrailAdjustment :=
  mkGuardrailAdjustment path "limited by policy" (AInt requested) (AInt effective).

Definition capIntPtr (adjustments : list GuardrailAdjustment) (path : string) (requested : option Z)
    (max : Z) : option Z * list GuardrailAdjustment :=
  if (max <=? 0)%Z then (requested, adjustments) else
  let value := IntValue requested in
  if (value =? 0)%Z || (value >? max)%Z
  then (Some max, adjustments ++ [limited path value max]) else (requested, adjustments).

Definition capConfiguredIntPtr (adjustments : list GuardrailAdjustment) (path : string)
    (requested : option Z) (max : Z) (zeroMeansUnlimited : bool) : option Z * list GuardrailAdjustment :=
  match requested with
  | Some value =>
      if (max <=? 0)%Z then (requested, adjustments)
      else if (zeroMeansUnlimited && (value =? 0)%Z) || (value >? max)%Z
      then (Some max, adjustments ++ [limited path value max]) else (requested, adjustments)
  | None => (requested, adjustments)
  end.

(** ** Merging *)

Definition DefaultContextStrategy : ContextStrategy :=
  zeroContextStrategy <| CtxS_Mode := "balanced" |> <| CtxS_RecentMessageLimit := Some 20%Z |>
    <| CtxS_RetrievalMaxResults := Some 8%Z |> <| CtxS_TaskHistoryMaxItems := Some 30%Z |>
    <| CtxS_ContextTokenBudget := Some 4000%Z |>
    <| CtxS_Compression := zeroContextCompressionStrategy <| Compr_Enabled := true |>
                             <| Compr_Mode := "truncate" |> |>.

Definition hasRuntimeLimits (r : RuntimeLimits) : bool :=
  (r.(Limits_MaxSteps) >? 0)%Z || (r.(Limits_MaxToolCalls) >? 0)%Z || (r.(Limits_MaxDuration) >? 0)%Z ||
  (r.(Limits_MaxPromptTokens) >? 0)%Z || (r.(Limits_MaxHandoffDepth) >? 0)%Z ||
  (r.(Limits_MaxChildTasks) >? 0)%Z || (r.(Limits_MaxRepairAttempts) >? 0)%Z ||
  (r.(Limits_MaxModelRetries) >? 0)%Z || (r.(Limits_MaxConsecutiveToolFailures) >? 0)%Z.

(** [if field == nil && cond { field = &value }] *)
Definition or_else {A} (field : option A) (cond : bool) (value : A) : option A :=
  match field with Some _ => field | None => if cond then Some value else None end.

Definition mergeModelStrategy (s : ModelStrategy) : ModelStrategy :=
  s <| ModelS_Streaming := or_else s.(ModelS_Streaming) true true |>.

Definition mergeToolUseStrategy (tools : AgentToolsConfig) (runtime : RuntimeLimits)
    (s : ToolUseStrategy) : ToolUseStrategy :=
  let fill (own default_ : list string) := if nonempty own then own else default_ in
  s <| ToolS_AllowedToolIDs := fill s.(ToolS_AllowedToolIDs) tools.(ToolsCfg_AllowedToolIDs) |>
    <| ToolS_AllowedToolGroupIDs := fill s.(ToolS_AllowedToolGroupIDs) tools.(ToolsCfg_AllowedToolGroupIDs) |>
    <| ToolS_DeniedToolIDs := fill s.(ToolS_DeniedToolIDs) tools.(ToolsCfg_DeniedToolIDs) |>
    <| ToolS_DeniedToolGroupIDs := fill s.(ToolS_DeniedToolGroupIDs) tools.(ToolsCfg_DeniedToolGroupIDs) |>
    <| ToolS_MaxToolCalls := or_else s.(ToolS_MaxToolCalls) (hasRuntimeLimits runtime)
                               runtime.(Limits_MaxToolCalls) |>
    <| ToolS_ToolChoiceMode := if s.(ToolS_ToolChoiceMode) == "" then "auto"
                               else s.(ToolS_ToolChoiceMode) |>.

Definition Second : Z := 1000000000.

(** [int(d.Seconds())]: the float is exact enough below 2^53 ns, some hundred days. *)
Definition seconds_of (d : Z) : Z := Z.quot d Second.

Definition mergeRuntimeStrategy (runtime : RuntimeLimits) (s : RuntimeStrategy) : RuntimeStrategy :=
  let s :=
    if hasRuntimeLimits runtime then
      s <| RunS_MaxSteps := or_else s.(RunS_MaxSteps) true runtime.(Limits_MaxSteps) |>
        <| RunS_MaxDurationSeconds := or_else s.(RunS_MaxDurationSeconds)
             (runtime.(Limits_MaxDuration) >? 0)%Z (seconds_of runtime.(Limits_MaxDuration)) |>
        <| RunS_MaxModelRetries := or_else s.(RunS_MaxModelRetries) true runtime.(Limits_MaxModelRetries) |>
        <| RunS_MaxConsecutiveToolFailures := or_else s.(RunS_MaxConsecutiveToolFailures) true
             runtime.(Limits_MaxConsecutiveToolFailures) |>
    else s in
  if s.(RunS_ExecutionMode) == "" then s <| RunS_ExecutionMode := "sync" |> else s.

Definition mergeRepairStrategy (runtime : RuntimeLimits) (s : RepairStrategy) : RepairStrategy :=
  s <| RepS_MaxRepairAttempts := or_else s.(RepS_MaxRepairAttempts) (hasRuntimeLimits runtime)
         runtime.(Limits_MaxRepairAttempts) |>.

Definition mergeCollaborationStrategy (runtime : RuntimeLimits) (s : CollaborationStrategy)
    : CollaborationStrategy :=
  let has := hasRuntimeLimits runtime in
  s <| CollabS_MaxHandoffDepth := or_else s.(CollabS_MaxHandoffDepth) has runtime.(Limits_MaxHandoffDepth) |>
    <| CollabS_MaxChildTasks := or_else s.(CollabS_MaxChildTasks) has runtime.(Limits_MaxChildTasks) |>
    <| CollabS_DelegationMode := if s.(CollabS_DelegationMode) == "" then "auto"
                                 else s.(CollabS_DelegationMode) |>.

Definition mergeMemoryUseStrategy (s : MemoryUseStrategy) : MemoryUseStrategy :=
  s <| MemS_ReadEnabled := or_else s.(MemS_ReadEnabled) true true |>
    <| MemS_WriteEnabled := or_else s.(MemS_WriteEnabled) true true |>
    <| MemS_AutoWriteMode := if s.(MemS_AutoWriteMode) == "" then "explicit_intent"
                             else s.(MemS_AutoWriteMode) |>.

Definition mergeContextDefaults (s defaults : ContextStrategy) : ContextStrategy :=
  if isZeroContextStrategy s then defaults else
  let s := if s.(CtxS_Mode) == "" then s <| CtxS_Mode := defaults.(CtxS_Mode) |> else s in
  (* in mode full_debug, 0: no limit *)
  let fill (own default_ : option Z) : option Z :=
    match own with
    | Some _ => own
    | None => if s.(CtxS_Mode) == "full_debug" then Some 0%Z else default_
    end in
  let s := s
    <| CtxS_RecentMessageLimit := fill s.(CtxS_RecentMessageLimit) defaults.(CtxS_RecentMessageLimit) |>
    <| CtxS_RetrievalMaxResults := fill s.(CtxS_RetrievalMaxResults) defaults.(CtxS_RetrievalMaxResults) |>
    <| CtxS_TaskHistoryMaxItems := fill s.(CtxS_TaskHistoryMaxItems) defaults.(CtxS_TaskHistoryMaxItems) |>
    <| CtxS_MemoryMaxItems := fill s.(CtxS_MemoryMaxItems) defaults.(CtxS_MemoryMaxItems) |>
    <| CtxS_ArtifactRefMaxItems := fill s.(CtxS_ArtifactRefMaxItems) defaults.(CtxS_ArtifactRefMaxItems) |>
    <| CtxS_ToolResultMaxItems := fill s.(CtxS_ToolResultMaxItems) defaults.(CtxS_ToolResultMaxItems) |>
    <| CtxS_ContextTokenBudget := fill s.(CtxS_ContextTokenBudget) defaults.(CtxS_ContextTokenBudget) |> in
  let s := if nonempty s.(CtxS_EnabledSources) then s
           else s <| CtxS_EnabledSources := defaults.(CtxS_EnabledSources) |> in
  let s := if bool_decide (s.(CtxS_SourceBudgets) = ∅)
           then s <| CtxS_SourceBudgets := defaults.(CtxS_SourceBudgets) |> else s in
  let c := s.(CtxS_Compression) in
  let c := if isZeroCompressionStrategy c then defaults.(CtxS_Compression)
           else if c.(Compr_Mode) == "" then c <| Compr_Mode := defaults.(CtxS_Compression).(Compr_Mode) |>
           else c in
  let c := if c.(Compr_Mode) == "none" then c <| Compr_Enabled := false |>
           else if c.(Compr_Mode) != "" then c <| Compr_Enabled := true |> else c in
  s <| CtxS_Compression := c |>.

(** ** Governance: bounding by the policy set *)

(** [reflect.DeepEqual] with the zero struct *)
#[export] Instance ContextGovernancePolicy_dec : EqDecision ContextGovernancePolicy.
Proof. solve_decision. Defined.
#[export] Instance HandoffPolicy_dec : EqDecision HandoffPolicy.
Proof. solve_decision. Defined.
#[export] Instance MemoryPolicy_dec : EqDecision MemoryPolicy.
Proof. solve_decision. Defined.

(** The compression part of [applyContextGovernance] *)
Definition compressionGovernance (c : ContextCompressionStrategy) (policy : ContextGovernancePolicy)
    (adj : list GuardrailAdjustment) : ContextCompressionStrategy * list GuardrailAdjustment :=
  let '(c, adj) :=
    if compressionUsesLLM c.(Compr_Mode) && negb policy.(CtxGov_AllowLLMCompression)
    then (c <| Compr_Mode := "truncate" |> <| Compr_ModelProvider := "" |>
            <| Compr_ModelBaseURL := "" |> <| Compr_ModelName := "" |>,
          adj ++ [mkGuardrailAdjustment "context.compression.mode"
                    "LLM compression is not allowed by policy"
                    (AString c.(Compr_Mode)) (AString "truncate")])
    else (c, adj) in
  let '(c, adj) :=
    match nonEmptyStrings policy.(CtxGov_AllowedCompressionModels) with
    | (replacement :: _) as allowed =>
        if compressionUsesLLM c.(Compr_Mode) && negb (contains_trimmed allowed c.(Compr_ModelName))
        then (c <| Compr_ModelName := replacement |>,
              adj ++ [mkGuardrailAdjustment "context.compression.model_name"
                        "compression model is not allowed by policy"
                        (AString c.(Compr_ModelName)) (AString replacement)])
        else (c, adj)
    | [] => (c, adj)
    end in
  if compressionUsesLLM c.(Compr_Mode) && (TrimSpace c.(Compr_ModelBaseURL) != "") &&
     negb (contains_trimmed (nonEmptyStrings policy.(CtxGov_AllowedCompressionBaseURLs))
             c.(Compr_ModelBaseURL))
  then (c <| Compr_ModelBaseURL := "" |>,
        adj ++ [mkGuardrailAdjustment "context.compression.model_base_url"
                  "compression model base_url is not allowed by policy"
                  (AString c.(Compr_ModelBaseURL)) (AString "")])
  else (c, adj).

Definition applyContextGovernance (s : ContextStrategy) (policy : ContextGovernancePolicy)
    : ContextStrategy * list GuardrailAdjustment :=
  if bool_decide (policy = zeroContextGovernancePolicy) then (s, []) else
  let '(s, adj) :=
    if (s.(CtxS_Mode) == "full_debug") && negb policy.(CtxGov_AllowFullDebugMode)
    then (s <| CtxS_Mode := "balanced" |>,
          [mkGuardrailAdjustment "context.mode" "full_debug mode is not allowed by policy"
             (AString s.(CtxS_Mode)) (AString "balanced")])
    else (s, []) in
  let '(v, adj) := capIntPtr adj "context.context_token_budget" s.(CtxS_ContextTokenBudget)
                     policy.(CtxGov_MaxContextTokenBudget) in
  let s := s <| CtxS_ContextTokenBudget := v |> in
  let '(v, adj) := capIntPtr adj "context.recent_message_limit" s.(CtxS_RecentMessageLimit)
                     policy.(CtxGov_MaxRecentMessageLimit) in
  let s := s <| CtxS_RecentMessageLimit := v |> in
  let '(v, adj) := capIntPtr adj "context.retrieval_max_results" s.(CtxS_RetrievalMaxResults)
                     policy.(CtxGov_MaxRetrievalResults) in
  let s := s <| CtxS_RetrievalMaxResults := v |> in
  let '(v, adj) := capIntPtr adj "context.task_history_max_items" s.(CtxS_TaskHistoryMaxItems)
                     policy.(CtxGov_MaxTaskHistoryItems) in
  let s := s <| CtxS_TaskHistoryMaxItems := v |> in
  let '(v, adj) := capIntPtr adj "context.memory_max_items" s.(CtxS_MemoryMaxItems)
                     policy.(CtxGov_MaxMemoryItems) in
  let s := s <| CtxS_MemoryMaxItems := v |> in
  let '(v, adj) := capIntPtr adj "context.artifact_ref_max_items" s.(CtxS_ArtifactRefMaxItems)
                     policy.(CtxGov_MaxArtifactRefItems) in
  let s := s <| CtxS_ArtifactRefMaxItems := v |> in
  let '(v, adj) := capIntPtr adj "context.tool_result_max_items" s.(CtxS_ToolResultMaxItems)
                     policy.(CtxGov_MaxToolResultItems) in
  let s := s <| CtxS_ToolResultMaxItems := v |> in
  let '(c, adj) := compressionGovernance s.(CtxS_Compression) policy adj in
  (s <| CtxS_Compression := c |>, adj).

Definition applyRuntimeGovernance (runtime : RuntimeStrategy) (tools : ToolUseStrategy)
    (repair : RepairStrategy) (policy : RuntimePolicy) (adj : list GuardrailAdjustment)
    : RuntimeStrategy * ToolUseStrategy * RepairStrategy * list GuardrailAdjustment :=
  let '(v, adj) := capConfiguredIntPtr adj "runtime.max_steps" runtime.(RunS_MaxSteps)
                     policy.(RuntimePolicy_MaxSteps) true in
  let runtime := runtime <| RunS_MaxSteps := v |> in
  let '(v, adj) := capConfiguredIntPtr adj "tools.max_tool_calls" tools.(ToolS_MaxToolCalls)
                     policy.(RuntimePolicy_MaxToolCalls) true in
  let tools := tools <| ToolS_MaxToolCalls := v |> in
  let '(v, adj) := capConfiguredIntPtr adj "runtime.max_model_retries" runtime.(RunS_MaxModelRetries)
                     policy.(RuntimePolicy_MaxModelRetries) false in
  let runtime := runtime <| RunS_MaxModelRetries := v |> in
  let '(v, adj) := capConfiguredIntPtr adj "repair.max_repair_attempts" repair.(RepS_MaxRepairAttempts)
                     policy.(RuntimePolicy_MaxRepairAttempts) false in
  let repair := repair <| RepS_MaxRepairAttempts := v |> in
  let '(v, adj) := capConfiguredIntPtr adj "runtime.max_consecutive_tool_failures"
                     runtime.(RunS_MaxConsecutiveToolFailures)
                     policy.(RuntimePolicy_MaxConsecutiveToolFailures) true in
  let runtime := runtime <| RunS_MaxConsecutiveToolFailures := v |> in
  (runtime, tools, repair, adj).

Definition applyToolGovernance (policy : PolicySet) (tools : ToolUseStrategy)
    (adj : list GuardrailAdjustment) : PolicySet * ToolUseStrategy * list GuardrailAdjustment :=
  let asked := tools.(ToolS_RequireApprovalAtRiskLevel) in
  let ruled := policy.(PolicySet_ToolPolicy).(ToolPolicy_RequireApprovalAtRiskLevel) in
  let threshold := strictestRiskThreshold ruled asked in
  if threshold == "" then (policy, tools, adj) else
  let adj :=
    if (asked != "") && (ruled != "") && (threshold != asked)
    then adj ++ [mkGuardrailAdjustment "tools.require_approval_at_risk_level"
                   "approval threshold is limited by policy" (AString asked) (AString threshold)]
    else adj in
  (policy <| PolicySet_ToolPolicy := policy.(PolicySet_ToolPolicy)
               <| ToolPolicy_RequireApprovalAtRiskLevel := threshold |> |>,
   tools <| ToolS_RequireApprovalAtRiskLevel := threshold |>, adj).

(** The policy part the repair strategy rewrites is [policy.ToolRepairPolicy] alone. *)
Definition repairEnabledGovernance (policy : ToolRepairPolicy) (repair : RepairStrategy)
    (adj : list GuardrailAdjustment) : ToolRepairPolicy * RepairStrategy * list GuardrailAdjustment :=
  match repair.(RepS_Enabled) with
  | None => (policy, repair, adj)
  | Some false =>
      (policy <| Repair_Enabled := false |>, repair <| RepS_MaxRepairAttempts := Some 0%Z |>, adj)
  | Some true =>
      if policy.(Repair_Enabled) then (policy, repair, adj) else
      (policy,
       repair <| RepS_Enabled := Some false |> <| RepS_MaxRepairAttempts := Some 0%Z |>,
       adj ++ [mkGuardrailAdjustment "repair.enabled" "repair is disabled by policy"
                 (ABool true) (ABool false)])
  end.

Definition modelRepairGovernance (policy : ToolRepairPolicy) (repair : RepairStrategy)
    (adj : list GuardrailAdjustment) : ToolRepairPolicy * RepairStrategy * list GuardrailAdjustment :=
  match repair.(RepS_RequestModelRepairOnFail) with
  | None => (policy, repair, adj)
  | Some false => (policy <| Repair_RequestModelRepairOnFail := false |>, repair, adj)
  | Some true =>
      if policy.(Repair_RequestModelRepairOnFail) then (policy, repair, adj) else
      (policy, repair <| RepS_RequestModelRepairOnFail := Some false |>,
       adj ++ [mkGuardrailAdjustment "repair.request_model_repair_on_fail"
                 "model repair on tool failure is disabled by policy" (ABool true) (ABool false)])
  end.

Definition stopOnDeniedGovernance (policy : ToolRepairPolicy) (repair : RepairStrategy)
    (adj : list GuardrailAdjustment) : ToolRepairPolicy * RepairStrategy * list GuardrailAdjustment :=
  match repair.(RepS_StopOnDenied) with
  | None => (policy, repair, adj)
  | Some true => (policy <| Repair_StopOnDenied := true |>, repair, adj)
  | Some false =>
      if policy.(Repair_StopOnDenied)
      then (policy, repair <| RepS_StopOnDenied := Some true |>,
            adj ++ [mkGuardrailAdjustment "repair.stop_on_denied"
                      "policy requires denied tool results to stop" (ABool false) (ABool true)])
      else (policy, repair, adj)
  end.

Definition errorCodesGovernance (policy : ToolRepairPolicy) (repair : RepairStrategy)
    (adj : list GuardrailAdjustment) : ToolRepairPolicy * RepairStrategy * list GuardrailAdjustment :=
  let asked := repair.(RepS_RepairableErrorCodes) in
  if negb (nonempty asked) then (policy, repair, adj) else
  let '(codes, adj) :=
    if nonempty policy.(Repair_RepairableErrorCodes) then
      let codes := intersectStrings asked policy.(Repair_RepairableErrorCodes) in
      (codes,
       if (List.length codes =? List.length asked)%nat then adj
       else adj ++ [mkGuardrailAdjustment "repair.repairable_error_codes"
                      "repairable error codes are limited by policy" (AStrings asked) (AStrings codes)])
    else (asked, adj) in
  (policy <| Repair_RepairableErrorCodes := codes |>,
   repair <| RepS_RepairableErrorCodes := codes |>, adj).

Definition repairGovernance (policy : ToolRepairPolicy) (repair : RepairStrategy)
    (adj : list GuardrailAdjustment) : ToolRepairPolicy * RepairStrategy * list GuardrailAdjustment :=
  let '(policy, repair, adj) := repairEnabledGovernance policy repair adj in
  let policy := match repair.(RepS_MaxRepairAttempts) with
                | Some n => policy <| Repair_MaxRepairAttempts := n |>
                | None => policy
                end in
  let '(policy, repair, adj) := modelRepairGovernance policy repair adj in
  let '(policy, repair, adj) := stopOnDeniedGovernance policy repair adj in
  let '(policy, repair, adj) := errorCodesGovernance policy repair adj in
  if repair.(RepS_FailureMode) == "stop" then
    let policy := policy <| Repair_RequestModelRepairOnFail := false |> in
    if isNone repair.(RepS_MaxRepairAttempts)
    then (policy <| Repair_MaxRepairAttempts := 0%Z |>,
          repair <| RepS_MaxRepairAttempts := Some 0%Z |>, adj)
    else (policy, repair, adj)
  else (policy, repair, adj).

Definition applyRepairGovernance (policy : PolicySet) (repair : RepairStrategy)
    (adj : list GuardrailAdjustment) : PolicySet * RepairStrategy * list GuardrailAdjustment :=
  let '(p, repair, adj) := repairGovernance policy.(PolicySet_ToolRepairPolicy) repair adj in
  (policy <| PolicySet_ToolRepairPolicy := p |>, repair, adj).

Definition collaborationGovernance (policy : HandoffPolicy) (collab : CollaborationStrategy)
    (adj : list GuardrailAdjustment) : HandoffPolicy * CollaborationStrategy * list GuardrailAdjustment :=
  let asked := collab.(CollabS_DefaultHandoffMode) in
  let '(policy, collab, adj) :=
    if asked != "" then
      let refused := (asked == HandoffFullContext) && negb policy.(HandoffPolicy_AllowFullContext) in
      let ruled := policy.(HandoffPolicy_DefaultMode) in
      let mode := if negb refused then asked
                  else if (ruled == "") || (ruled == HandoffFullContext) then HandoffHybrid else ruled in
      (policy <| HandoffPolicy_DefaultMode := mode |>,
       collab <| CollabS_DefaultHandoffMode := mode |>,
       if refused
       then adj ++ [mkGuardrailAdjustment "collaboration.default_handoff_mode"
                      "full-context handoff is not allowed by policy" (AString asked) (AString mode)]
       else adj)
    else (policy, collab, adj) in
  let max := policy.(HandoffPolicy_MaxContextTokens) in
  match collab.(CollabS_MaxContextTokens) with
  | None =>
      (policy, if (max >? 0)%Z then collab <| CollabS_MaxContextTokens := Some max |> else collab, adj)
  | Some requested =>
      if (max >? 0)%Z && ((requested =? 0)%Z || (requested >? max)%Z)
      then (policy, collab <| CollabS_MaxContextTokens := Some max |>,
            adj ++ [limited "collaboration.max_context_tokens" requested max])
      else if (requested >? 0)%Z && ((max =? 0)%Z || (requested <? max)%Z)
      then (policy <| HandoffPolicy_MaxContextTokens := requested |>, collab, adj)
      else (policy, collab, adj)
  end.

Definition applyCollaborationGovernance (policy : PolicySet) (collab : CollaborationStrategy)
    (adj : list GuardrailAdjustment) : PolicySet * CollaborationStrategy * list GuardrailAdjustment :=
  if bool_decide (policy.(PolicySet_HandoffPolicy) = zeroHandoffPolicy) then (policy, collab, adj) else
  let '(p, collab, adj) := collaborationGovernance policy.(PolicySet_HandoffPolicy) collab adj in
  (policy <| PolicySet_HandoffPolicy := p |>, collab, adj).

Definition applyMemoryScopeGovernance (adj : list GuardrailAdjustment) (path : string)
    (requested policyScopes : list string) : list string * list GuardrailAdjustment :=
  if negb (nonempty policyScopes) then (requested, adj)
  else if negb (nonempty requested) then (policyScopes, adj)
  else
    let effective := intersectStrings requested policyScopes in
    (effective,
     if (List.length effective =? List.length requested)%nat then adj
     else adj ++ [mkGuardrailAdjustment path "memory scopes are limited by policy"
                    (AStrings requested) (AStrings effective)]).

(** One of the two switches: what the agent asks for, what the policy set allows. *)
Definition memorySwitch (path reason : string) (asked : option bool) (allowed : bool)
    (adj : list GuardrailAdjustment) : option bool * bool * list GuardrailAdjustment :=
  match asked with
  | None => (asked, allowed, adj)
  | Some false => (asked, false, adj)
  | Some true =>
      if allowed then (asked, allowed, adj)
      else (Some false, allowed, adj ++ [mkGuardrailAdjustment path reason (ABool true) (ABool false)])
  end.

Definition memoryGovernance (policy : MemoryPolicy) (memory : MemoryUseStrategy)
    (adj : list GuardrailAdjustment) : MemoryPolicy * MemoryUseStrategy * list GuardrailAdjustment :=
  let '(readEnabled, allowRead, adj) :=
    memorySwitch "memory.read_enabled" "memory read is disabled by policy"
      memory.(MemS_ReadEnabled) policy.(MemoryPolicy_AllowRead) adj in
  let '(writeEnabled, allowWrite, adj) :=
    memorySwitch "memory.write_enabled" "memory write is disabled by policy"
      memory.(MemS_WriteEnabled) policy.(MemoryPolicy_AllowWrite) adj in
  let scopes := policy.(MemoryPolicy_Scopes) in
  let '(readScopes, adj) :=
    applyMemoryScopeGovernance adj "memory.read_scopes" memory.(MemS_ReadScopes) scopes in
  let '(writeScopes, adj) :=
    applyMemoryScopeGovernance adj "memory.write_scopes" memory.(MemS_WriteScopes) scopes in
  let noRead := nonempty memory.(MemS_ReadScopes) && nonempty scopes && negb (nonempty readScopes) in
  let noWrite := nonempty memory.(MemS_WriteScopes) && nonempty scopes && negb (nonempty writeScopes) in
  (policy <| MemoryPolicy_AllowRead := if noRead then false else allowRead |>
          <| MemoryPolicy_AllowWrite := if noWrite then false else allowWrite |>
          <| MemoryPolicy_Scopes := if nonempty writeScopes then writeScopes else scopes |>,
   memory <| MemS_ReadEnabled := if noRead then Some false else readEnabled |>
          <| MemS_WriteEnabled := if noWrite then Some false else writeEnabled |>
          <| MemS_ReadScopes := readScopes |>
          <| MemS_WriteScopes := writeScopes |>, adj).

Definition applyMemoryGovernance (policy : PolicySet) (memory : MemoryUseStrategy)
    (adj : list GuardrailAdjustment) : PolicySet * MemoryUseStrategy * list GuardrailAdjustment :=
  if bool_decide (policy.(PolicySet_MemoryPolicy) = zeroMemoryPolicy) then (policy, memory, adj) else
  let '(p, memory, adj) := memoryGovernance policy.(PolicySet_MemoryPolicy) memory adj in
  (policy <| PolicySet_MemoryPolicy := p |>, memory, adj).

(** ** [Resolve] *)

Definition defaultsFor (defaults : ContextStrategy) : ContextStrategy :=
  if isZeroContextStrategy defaults then DefaultContextStrategy else defaults.

(** The merged strategies, before the policy set bounds them. *)
Definition merged (agent : AgentDefinition) (policy : PolicySet) (defaults : ContextStrategy)
    : EffectiveRunConfig :=
  let s := agent.(Agent_Strategies) in
  let runtime := agent.(Agent_Runtime) in
  mkEffectiveRunConfig s.(Strat_Prompt) (mergeModelStrategy s.(Strat_Model))
    (mergeContextDefaults s.(Strat_Context) (defaultsFor defaults))
    (mergeToolUseStrategy agent.(Agent_Tools) runtime s.(Strat_Tools))
    s.(Strat_Skills) (mergeCollaborationStrategy runtime s.(Strat_Collaboration))
    (mergeMemoryUseStrategy s.(Strat_Memory)) s.(Strat_Knowledge)
    (mergeRuntimeStrategy runtime s.(Strat_Runtime)) (mergeRepairStrategy runtime s.(Strat_Repair))
    s.(Strat_Output) policy.

(** The governance steps in their order: each reads the policy set the former left. *)
Definition governed (e : EffectiveRunConfig) : EffectiveRunConfig * list GuardrailAdjustment :=
  let policy := e.(Eff_Policy) in
  let '(context, adj) :=
    applyContextGovernance e.(Eff_Context) policy.(PolicySet_ContextGovernancePolicy) in
  let '(runtime, tools, repair, adj) :=
    applyRuntimeGovernance e.(Eff_Runtime) e.(Eff_Tools) e.(Eff_Repair)
      policy.(PolicySet_RuntimePolicy) adj in
  let '(policy, tools, adj) := applyToolGovernance policy tools adj in
  let '(policy, repair, adj) := applyRepairGovernance policy repair adj in
  let '(policy, collab, adj) := applyCollaborationGovernance policy e.(Eff_Collaboration) adj in
  let '(policy, memory, adj) := applyMemoryGovernance policy e.(Eff_Memory) adj in
  (mkEffectiveRunConfig e.(Eff_Prompt) e.(Eff_Model) context tools e.(Eff_Skills) collab memory
     e.(Eff_Knowledge) runtime repair e.(Eff_Output) policy, adj).

Section Resolve.
(** [hash.StableJSON] (pkg/hash) of the map [Resolve] builds: encoding/json and sha256 of the agent,
    its policy set, the effective configuration and the adjustments. *)
Context (StableJSON : AgentDefinition -> PolicySet -> EffectiveRunConfig ->
                      list GuardrailAdjustment -> error + string).

Definition Resolve (agent : AgentDefinition) (policy : PolicySet) (defaults : ContextStrategy)
    : error + (EffectiveRunConfig * Report) :=
  let '(effective, adjustments) := governed (merged agent policy defaults) in
  match StableJSON agent policy effective adjustments with
  | inl err => inl err
  | inr h => inr (effective, mkReport h adjustments)
  end.

End Resolve.

(** ** What the policy set guarantees *)

(** A configured number stays within a positive bound. *)
Definition capped (max : Z) (v : option Z) : Prop := ∀ n, v = Some n -> (0 < max)%Z -> (n ≤ max)%Z.

(** A positive bound holds, and there is a number: 0, "no limit" for the readers, is not one. *)
Definition bounded (max : Z) (v : option Z) : Prop :=
  (0 < max)%Z -> ∃ n, v = Some n ∧ n ≠ 0%Z ∧ (n ≤ max)%Z.

Record context_within (p : ContextGovernancePolicy) (s : ContextStrategy) : Prop := {
  cw_budget : bounded p.(CtxGov_MaxContextTokenBudget) s.(CtxS_ContextTokenBudget);
  cw_recent : bounded p.(CtxGov_MaxRecentMessageLimit) s.(CtxS_RecentMessageLimit);
  cw_retrieval : bounded p.(CtxGov_MaxRetrievalResults) s.(CtxS_RetrievalMaxResults);
  cw_history : bounded p.(CtxGov_MaxTaskHistoryItems) s.(CtxS_TaskHistoryMaxItems);
  cw_memory : bounded p.(CtxGov_MaxMemoryItems) s.(CtxS_MemoryMaxItems);
  cw_artifacts : bounded p.(CtxGov_MaxArtifactRefItems) s.(CtxS_ArtifactRefMaxItems);
  cw_results : bounded p.(CtxGov_MaxToolResultItems) s.(CtxS_ToolResultMaxItems);
  cw_mode : s.(CtxS_Mode) = "full_debug" -> p.(CtxGov_AllowFullDebugMode) = true;
  cw_llm : compressionUsesLLM s.(CtxS_Compression).(Compr_Mode) = true ->
    p.(CtxGov_AllowLLMCompression) = true ∧
    (nonEmptyStrings p.(CtxGov_AllowedCompressionModels) ≠ [] ->
       contains_trimmed (nonEmptyStrings p.(CtxGov_AllowedCompressionModels))
         s.(CtxS_Compression).(Compr_ModelName) = true) ∧
    (TrimSpace s.(CtxS_Compression).(Compr_ModelBaseURL) ≠ "" ->
       contains_trimmed (nonEmptyStrings p.(CtxGov_AllowedCompressionBaseURLs))
         s.(CtxS_Compression).(Compr_ModelBaseURL) = true)
}.

Record runtime_within (p : RuntimePolicy) (r : RuntimeStrategy) (t : ToolUseStrategy) : Prop := {
  rw_steps : capped p.(RuntimePolicy_MaxSteps) r.(RunS_MaxSteps);
  rw_calls : capped p.(RuntimePolicy_MaxToolCalls) t.(ToolS_MaxToolCalls);
  rw_retries : capped p.(RuntimePolicy_MaxModelRetries) r.(RunS_MaxModelRetries);
  rw_failures : capped p.(RuntimePolicy_MaxConsecutiveToolFailures) r.(RunS_MaxConsecutiveToolFailures)
}.

(** At least as strict: a threshold, and not above the one ruled. *)
Definition as_strict (ruled t : RiskLevel) : Prop :=
  ruled ≠ "" -> t ≠ "" ∧ (riskRank t ≤ riskRank ruled)%Z.

Record repair_within (p q : ToolRepairPolicy) : Prop := {
  pw_enabled : q.(Repair_Enabled) = true -> p.(Repair_Enabled) = true;
  pw_model : q.(Repair_RequestModelRepairOnFail) = true -> p.(Repair_RequestModelRepairOnFail) = true;
  pw_denied : p.(Repair_StopOnDenied) = true -> q.(Repair_StopOnDenied) = true;
  pw_risk : q.(Repair_StopAtOrAboveRiskLevel) = p.(Repair_StopAtOrAboveRiskLevel);
  pw_codes : p.(Repair_RepairableErrorCodes) ≠ [] ->
    incl q.(Repair_RepairableErrorCodes) p.(Repair_RepairableErrorCodes)
}.

Record handoff_within (p q : HandoffPolicy) (s : CollaborationStrategy) : Prop := {
  hw_mode : s.(CollabS_DefaultHandoffMode) = HandoffFullContext -> p.(HandoffPolicy_AllowFullContext) = true;
  hw_allow : q.(HandoffPolicy_AllowFullContext) = p.(HandoffPolicy_AllowFullContext);
  hw_tokens : (0 < p.(HandoffPolicy_MaxContextTokens))%Z ->
    bounded p.(HandoffPolicy_MaxContextTokens) s.(CollabS_MaxContextTokens) ∧
    (0 < q.(HandoffPolicy_MaxContextTokens) ≤ p.(HandoffPolicy_MaxContextTokens))%Z
}.

Record memory_within (p q : MemoryPolicy) (s : MemoryUseStrategy) : Prop := {
  mw_read : q.(MemoryPolicy_AllowRead) = true -> p.(MemoryPolicy_AllowRead) = true;
  mw_write : q.(MemoryPolicy_AllowWrite) = true -> p.(MemoryPolicy_AllowWrite) = true;
  mw_reads : s.(MemS_ReadEnabled) = Some true -> p.(MemoryPolicy_AllowRead) = true;
  mw_writes : s.(MemS_WriteEnabled) = Some true -> p.(MemoryPolicy_AllowWrite) = true;
  mw_scopes : p.(MemoryPolicy_Scopes) ≠ [] ->
    incl s.(MemS_ReadScopes) p.(MemoryPolicy_Scopes) ∧
    incl s.(MemS_WriteScopes) p.(MemoryPolicy_Scopes) ∧
    incl q.(MemoryPolicy_Scopes) p.(MemoryPolicy_Scopes) ∧ q.(MemoryPolicy_Scopes) ≠ []
}.

(** A policy part that is the zero struct rules nothing. *)
Record within_policy (p : PolicySet) (e : EffectiveRunConfig) : Prop := {
  wp_context : p.(PolicySet_ContextGovernancePolicy) ≠ zeroContextGovernancePolicy ->
    context_within p.(PolicySet_ContextGovernancePolicy) e.(Eff_Context);
  wp_runtime : runtime_within p.(PolicySet_RuntimePolicy) e.(Eff_Runtime) e.(Eff_Tools);
  wp_tools : as_strict p.(PolicySet_ToolPolicy).(ToolPolicy_RequireApprovalAtRiskLevel)
               e.(Eff_Tools).(ToolS_RequireApprovalAtRiskLevel);
  wp_approval : as_strict p.(PolicySet_ToolPolicy).(ToolPolicy_RequireApprovalAtRiskLevel)
    e.(Eff_Policy).(PolicySet_ToolPolicy).(ToolPolicy_RequireApprovalAtRiskLevel);
  wp_repair : repair_within p.(PolicySet_ToolRepairPolicy) e.(Eff_Policy).(PolicySet_ToolRepairPolicy);
  wp_handoff : p.(PolicySet_HandoffPolicy) ≠ zeroHandoffPolicy ->
    handoff_within p.(PolicySet_HandoffPolicy) e.(Eff_Policy).(PolicySet_HandoffPolicy) e.(Eff_Collaboration);
  wp_memory : p.(PolicySet_MemoryPolicy) ≠ zeroMemoryPolicy ->
    memory_within p.(PolicySet_MemoryPolicy) e.(Eff_Policy).(PolicySet_MemoryPolicy) e.(Eff_Memory);
  wp_rest : e.(Eff_Policy) = p <| PolicySet_ToolPolicy := e.(Eff_Policy).(PolicySet_ToolPolicy) |>
                               <| PolicySet_ToolRepairPolicy := e.(Eff_Policy).(PolicySet_ToolRepairPolicy) |>
                               <| PolicySet_HandoffPolicy := e.(Eff_Policy).(PolicySet_HandoffPolicy) |>
                               <| PolicySet_MemoryPolicy := e.(Eff_Policy).(PolicySet_MemoryPolicy) |>
}.

(** ** Facts *)

Lemma capIntPtr_bounded adj path v max w adj' :
  capIntPtr adj path v max = (w, adj') -> bounded max w.
Proof.
  unfold capIntPtr, bounded, IntValue. intros E Hm. rewrite (proj2 (Z.leb_gt _ _) Hm) in E. cbv beta iota zeta in E.
  destruct v as [n|]; cbn in E.
  - destruct ((n =? 0)%Z || (n >? max)%Z) eqn:T; injection E as <- _.
    + exists max. split; [done|lia].
    + exists n. split; [done|lia].
  - injection E as <- _. exists max. split; [done|lia].
Qed.

Lemma capConfiguredIntPtr_capped adj path v max z w adj' :
  capConfiguredIntPtr adj path v max z = (w, adj') -> capped max w.
Proof.
  unfold capConfiguredIntPtr, capped. intros E n -> Hm.
  destruct v as [k|]; [|discriminate]. rewrite (proj2 (Z.leb_gt _ _) Hm) in E. cbv beta iota zeta in E.
  destruct (z && (k =? 0)%Z || (k >? max)%Z) eqn:T; injection E as <- _; lia.
Qed.

Lemma intersect_from_incl seen l r : incl (intersect_from seen l r) r.
Proof.
  revert seen. induction l as [|x l IH]; intros seen; cbn [intersect_from]; [by intros ?|].
  destruct (_ || _) eqn:T; [apply IH|].
  intros y [<-|Hy]; [|by apply (IH (x :: seen))].
  apply orb_false_iff in T as [T _]. apply orb_false_iff in T as [_ T].
  apply negb_false_iff in T. apply list_elem_of_In. by apply mem_string_elem.
Qed.

Lemma strictest_as_strict ruled asked : as_strict ruled (strictestRiskThreshold ruled asked).
Proof.
  unfold as_strict, strictestRiskThreshold. intros Hr.
  destruct (String.eqb_spec ruled "") as [->|_]; [done|].
  destruct (String.eqb_spec asked "") as [->|Ha]; [done|].
  destruct (Z.leb_spec (riskRank ruled) (riskRank asked)); split; try done; lia.
Qed.


Definition compression_within (p : ContextGovernancePolicy) (c : ContextCompressionStrategy) : Prop :=
  compressionUsesLLM c.(Compr_Mode) = true ->
  p.(CtxGov_AllowLLMCompression) = true ∧
  (nonEmptyStrings p.(CtxGov_AllowedCompressionModels) ≠ [] ->
     contains_trimmed (nonEmptyStrings p.(CtxGov_AllowedCompressionModels)) c.(Compr_ModelName) = true) ∧
  (TrimSpace c.(Compr_ModelBaseURL) ≠ "" ->
     contains_trimmed (nonEmptyStrings p.(CtxGov_AllowedCompressionBaseURLs)) c.(Compr_ModelBaseURL) = true).

Lemma contains_trimmed_head x l : contains_trimmed (x :: l) x = true.
Proof. apply mem_string_elem. left. Qed.

Lemma compressionGovernance_within c p adj : compression_within p (compressionGovernance c p adj).1.
Proof.
  unfold compressionGovernance, compression_within.
  destruct (if compressionUsesLLM _ && _ then _ else _) as [c1 adj1] eqn:E1.
  assert (H1 : compressionUsesLLM (Compr_Mode c1) = true -> CtxGov_AllowLLMCompression p = true).
  { destruct (compressionUsesLLM (Compr_Mode c)) eqn:T, (CtxGov_AllowLLMCompression p);
      cbn in E1; injection E1 as <- _; cbn; congruence. }
  clear E1.
  destruct (match nonEmptyStrings (CtxGov_AllowedCompressionModels p) with [] => _ | _ => _ end)
    as [c2 adj2] eqn:E2.
  assert (H2 : Compr_Mode c2 = Compr_Mode c1 ∧ (compressionUsesLLM (Compr_Mode c1) = true ->
     nonEmptyStrings (CtxGov_AllowedCompressionModels p) ≠ [] ->
     contains_trimmed (nonEmptyStrings (CtxGov_AllowedCompressionModels p)) (Compr_ModelName c2) = true)).
  { destruct (nonEmptyStrings (CtxGov_AllowedCompressionModels p)) as [|x l]; [by injection E2 as <- _|].
    destruct (compressionUsesLLM (Compr_Mode c1)), (contains_trimmed (x :: l) (Compr_ModelName c1)) eqn:T;
      cbn [andb negb] in E2; injection E2 as <- _; split; try done.
    intros _ _. apply contains_trimmed_head. }
  clear E2. destruct H2 as [Hm2 H2].
  destruct (compressionUsesLLM (Compr_Mode c2)) eqn:T2; cbn [andb].
  2:{ cbn. congruence. }
  destruct (String.eqb_spec (TrimSpace (Compr_ModelBaseURL c2)) "") as [Hb|Hb]; cbn [andb negb].
  - cbn. intros _. split_and!; [apply H1|apply H2|]; congruence.
  - destruct (contains_trimmed _ (Compr_ModelBaseURL c2)) eqn:T3; cbn; intros _;
      (split_and!; [apply H1|apply H2|]; congruence).
Qed.

Lemma applyContextGovernance_within s p :
  p ≠ zeroContextGovernancePolicy -> context_within p (applyContextGovernance s p).1.
Proof.
  intros Hp. unfold applyContextGovernance. rewrite bool_decide_eq_false_2 by done.
  destruct (if (CtxS_Mode s == "full_debug") && _ then _ else _) as [s0 adj0] eqn:E0.
  assert (Hmode : CtxS_Mode s0 = "full_debug" -> CtxGov_AllowFullDebugMode p = true).
  { destruct (String.eqb_spec (CtxS_Mode s) "full_debug") as [Hm|Hm], (CtxGov_AllowFullDebugMode p);
      cbn in E0; injection E0 as <- _; cbn; done. }
  clear E0.
  repeat match goal with
  | |- context [let '(_, _) := capIntPtr ?a ?n ?v ?m in _] =>
      let w := fresh "w" in let a' := fresh "adj" in let E := fresh "E" in
      destruct (capIntPtr a n v m) as [w a'] eqn:E; apply capIntPtr_bounded in E
  end.
  match goal with |- context [compressionGovernance ?c p ?a] =>
    pose proof (compressionGovernance_within c p a) as Hc;
    destruct (compressionGovernance c p a) as [c' a'] end.
  by constructor.
Qed.

Lemma applyRuntimeGovernance_within r t rep p adj r' t' rep' adj' :
  applyRuntimeGovernance r t rep p adj = (r', t', rep', adj') -> runtime_within p r' t'.
Proof.
  unfold applyRuntimeGovernance.
  repeat match goal with
  | |- context [let '(_, _) := capConfiguredIntPtr ?a ?n ?v ?m ?z in _] =>
      let w := fresh "w" in let a' := fresh "adj" in let E := fresh "E" in
      destruct (capConfiguredIntPtr a n v m z) as [w a'] eqn:E; apply capConfiguredIntPtr_capped in E
  end.
  intros [= <- <- _ _]. by constructor.
Qed.

(** Each of the remaining steps rewrites one part of the policy set. *)
Lemma applyToolGovernance_within p t adj p' t' adj' :
  applyToolGovernance p t adj = (p', t', adj') ->
  let ruled := p.(PolicySet_ToolPolicy).(ToolPolicy_RequireApprovalAtRiskLevel) in
  as_strict ruled t'.(ToolS_RequireApprovalAtRiskLevel) ∧
  t'.(ToolS_MaxToolCalls) = t.(ToolS_MaxToolCalls) ∧
  ∃ q, p' = p <| PolicySet_ToolPolicy := q |> ∧ as_strict ruled q.(ToolPolicy_RequireApprovalAtRiskLevel).
Proof.
  unfold applyToolGovernance. cbv zeta.
  pose proof (strictest_as_strict (ToolPolicy_RequireApprovalAtRiskLevel (PolicySet_ToolPolicy p))
                (ToolS_RequireApprovalAtRiskLevel t)) as Hs.
  destruct (strictestRiskThreshold _ _ == "") eqn:T; intros [= <- <- _].
  - apply String.eqb_eq in T. rewrite T in Hs.
    assert (Hr : ToolPolicy_RequireApprovalAtRiskLevel (PolicySet_ToolPolicy p) = "").
    { destruct (decide (ToolPolicy_RequireApprovalAtRiskLevel (PolicySet_ToolPolicy p) = "")) as [|Hn];
        [done|by destruct (Hs Hn)]. }
    rewrite Hr. split_and!; try done. exists (PolicySet_ToolPolicy p). split; [by destruct p|done].
  - split_and!; try done. by eexists.
Qed.

(** What the steps before the error codes keep *)
Definition repair_narrowed (p q : ToolRepairPolicy) : Prop :=
  repair_within p q ∧ q.(Repair_RepairableErrorCodes) = p.(Repair_RepairableErrorCodes).

Ltac narrow :=
  split; [constructor|]; cbn;
  repeat match goal with H : _ = true |- _ => rewrite H | H : _ = false |- _ => rewrite H end;
  solve [done | auto | congruence].

Lemma repairEnabled_narrowed p q r adj :
  repair_narrowed p q -> repair_narrowed p (repairEnabledGovernance q r adj).1.1.
Proof.
  intros [[] Hc]. unfold repairEnabledGovernance.
  destruct (RepS_Enabled r) as [[]|], (Repair_Enabled q) eqn:?; narrow.
Qed.

Lemma modelRepair_narrowed p q r adj :
  repair_narrowed p q -> repair_narrowed p (modelRepairGovernance q r adj).1.1.
Proof.
  intros [[] Hc]. unfold modelRepairGovernance.
  destruct (RepS_RequestModelRepairOnFail r) as [[]|], (Repair_RequestModelRepairOnFail q) eqn:?; narrow.
Qed.

Lemma stopOnDenied_narrowed p q r adj :
  repair_narrowed p q -> repair_narrowed p (stopOnDeniedGovernance q r adj).1.1.
Proof.
  intros [[] Hc]. unfold stopOnDeniedGovernance.
  destruct (RepS_StopOnDenied r) as [[]|], (Repair_StopOnDenied q) eqn:?; narrow.
Qed.

Lemma errorCodes_within p q r adj :
  repair_narrowed p q -> repair_within p (errorCodesGovernance q r adj).1.1.
Proof.
  intros [H Hc]. unfold errorCodesGovernance.
  destruct (nonempty (RepS_RepairableErrorCodes r)); cbn [negb]; [|done].
  rewrite Hc. destruct H. destruct (Repair_RepairableErrorCodes p) as [|c l] eqn:Ep; cbn [nonempty].
  - constructor; rewrite ?Ep; done.
  - pose proof (intersect_from_incl [] (RepS_RepairableErrorCodes r) (c :: l)).
    constructor; rewrite ?Ep; done.
Qed.

Lemma repairGovernance_within p r adj : repair_within p (repairGovernance p r adj).1.1.
Proof.
  unfold repairGovernance.
  assert (H0 : repair_narrowed p p) by (split; [constructor|]; try done; intros; apply incl_refl).
  pose proof (repairEnabled_narrowed p p r adj H0) as H1. clear H0.
  destruct (repairEnabledGovernance p r adj) as [[q1 r1] a1]; cbn [fst] in H1.
  set (q1' := match RepS_MaxRepairAttempts r1 with Some _ => _ | None => _ end).
  assert (H2 : repair_narrowed p q1')
    by (unfold q1'; destruct H1 as [[] ?], (RepS_MaxRepairAttempts r1); split; [by constructor|done|by constructor|done]).
  clearbody q1'. clear H1.
  pose proof (modelRepair_narrowed p q1' r1 a1 H2) as H3.
  destruct (modelRepairGovernance q1' r1 a1) as [[q2 r2] a2]; cbn [fst] in H3.
  pose proof (stopOnDenied_narrowed p q2 r2 a2 H3) as H4.
  destruct (stopOnDeniedGovernance q2 r2 a2) as [[q3 r3] a3]; cbn [fst] in H4.
  pose proof (errorCodes_within p q3 r3 a3 H4) as [].
  destruct (errorCodesGovernance q3 r3 a3) as [[q4 r4] a4]; cbn [fst] in *.
  destruct (RepS_FailureMode r4 == "stop"), (isNone (RepS_MaxRepairAttempts r4)); by constructor.
Qed.

Lemma collaborationGovernance_within p s adj :
  let '(q, s', _) := collaborationGovernance p s adj in handoff_within p q s'.
Proof.
  unfold collaborationGovernance. cbv zeta.
  destruct (if CollabS_DefaultHandoffMode s != "" then _ else _) as [[q1 s1] a1] eqn:E.
  assert (H : (CollabS_DefaultHandoffMode s1 = HandoffFullContext -> HandoffPolicy_AllowFullContext p = true) ∧
    HandoffPolicy_AllowFullContext q1 = HandoffPolicy_AllowFullContext p ∧
    HandoffPolicy_MaxContextTokens q1 = HandoffPolicy_MaxContextTokens p).
  { destruct (String.eqb_spec (CollabS_DefaultHandoffMode s) ""); cbn [negb] in E.
    - injection E as <- <- _. split_and!; try done. by rewrite e.
    - injection E as <- <- _. cbn. split_and!; try done.
      destruct (String.eqb_spec (CollabS_DefaultHandoffMode s) HandoffFullContext),
        (HandoffPolicy_AllowFullContext p); cbn [andb negb]; try done.
      destruct (String.eqb_spec (HandoffPolicy_DefaultMode p) ""); cbn [orb]; [done|].
      by destruct (String.eqb_spec (HandoffPolicy_DefaultMode p) HandoffFullContext). }
  clear E. destruct H as (Hf & Ha & Hm).
  assert (Hin : ∀ n, (0 < HandoffPolicy_MaxContextTokens p)%Z -> (0 < n)%Z ->
    (n ≤ HandoffPolicy_MaxContextTokens p)%Z -> bounded (HandoffPolicy_MaxContextTokens p) (Some n)).
  { intros n ??? _. exists n. split; [done|lia]. }
  destruct (CollabS_MaxContextTokens s1) as [n|] eqn:En; rewrite ?Hm.
  - destruct (_ && ((n =? 0)%Z || _)) eqn:T; [|destruct ((n >? 0)%Z && _) eqn:T'];
      (constructor; cbn; rewrite ?Ha, ?Hm, ?En; try done; intros Hp).
    + split; [apply Hin|]; lia.
    + split; [apply Hin|]; lia.
    + split; [|lia]. intros _. exists n. split; [done|lia].
  - destruct (_ >? 0)%Z eqn:T; (constructor; cbn; rewrite ?Ha, ?Hm, ?En; try done; intros Hp); [|lia].
    split; [apply Hin|]; lia.
Qed.

Lemma scopes_within adj path r l : l ≠ [] -> incl (applyMemoryScopeGovernance adj path r l).1 l.
Proof.
  unfold applyMemoryScopeGovernance. destruct l as [|x l]; [done|]. intros _.
  destruct r; [apply incl_refl|apply intersect_from_incl].
Qed.

Lemma memorySwitch_within path reason asked allowed adj asked' allowed' adj' :
  memorySwitch path reason asked allowed adj = (asked', allowed', adj') ->
  (allowed' = true -> allowed = true) ∧ (asked' = Some true -> allowed = true).
Proof. destruct asked as [[]|], allowed; cbn; intros [= <- <- _]; split; congruence. Qed.

Lemma memoryGovernance_within p s adj :
  let '(q, s', _) := memoryGovernance p s adj in memory_within p q s'.
Proof.
  unfold memoryGovernance.
  destruct (memorySwitch _ _ (MemS_ReadEnabled s) _ _) as [[re ar] a1] eqn:E1.
  destruct (memorySwitch _ _ (MemS_WriteEnabled s) _ _) as [[we aw] a2] eqn:E2.
  apply memorySwitch_within in E1 as [R1 R2], E2 as [W1 W2].
  pose proof (scopes_within a2 "memory.read_scopes" (MemS_ReadScopes s) (MemoryPolicy_Scopes p)) as S1.
  destruct (applyMemoryScopeGovernance a2 _ _ _) as [rs a3]; cbn [fst] in S1.
  pose proof (scopes_within a3 "memory.write_scopes" (MemS_WriteScopes s) (MemoryPolicy_Scopes p)) as S2.
  destruct (applyMemoryScopeGovernance a3 _ _ _) as [ws a4]; cbn [fst] in S2.
  cbv zeta. constructor; cbn.
  - destruct (_ && _); [done|auto].
  - destruct (nonempty (MemS_WriteScopes s) && _ && _); [done|auto].
  - destruct (_ && _); [done|auto].
  - destruct (nonempty (MemS_WriteScopes s) && _ && _); [done|auto].
  - intros Hp. split_and!; [by apply S1|by apply S2| |].
    + destruct (nonempty ws); [by apply S2|apply incl_refl].
    + by destruct ws.
Qed.

Lemma applyRepairGovernance_within p r adj p' r' adj' :
  applyRepairGovernance p r adj = (p', r', adj') ->
  ∃ q, p' = p <| PolicySet_ToolRepairPolicy := q |> ∧ repair_within p.(PolicySet_ToolRepairPolicy) q.
Proof.
  unfold applyRepairGovernance. pose proof (repairGovernance_within (PolicySet_ToolRepairPolicy p) r adj) as H.
  destruct (repairGovernance _ r adj) as [[q r1] a1]. intros [= <- _ _]. by exists q.
Qed.

Lemma applyCollaborationGovernance_within p s adj p' s' adj' :
  applyCollaborationGovernance p s adj = (p', s', adj') ->
  ∃ q, p' = p <| PolicySet_HandoffPolicy := q |> ∧
       (p.(PolicySet_HandoffPolicy) ≠ zeroHandoffPolicy -> handoff_within p.(PolicySet_HandoffPolicy) q s').
Proof.
  unfold applyCollaborationGovernance. case_bool_decide as Hz.
  - intros [= <- <- _]. exists (PolicySet_HandoffPolicy p). split; [by destruct p|done].
  - pose proof (collaborationGovernance_within (PolicySet_HandoffPolicy p) s adj) as H.
    destruct (collaborationGovernance _ s adj) as [[q s1] a1]. intros [= <- <- _]. by exists q.
Qed.

Lemma applyMemoryGovernance_within p s adj p' s' adj' :
  applyMemoryGovernance p s adj = (p', s', adj') ->
  ∃ q, p' = p <| PolicySet_MemoryPolicy := q |> ∧
       (p.(PolicySet_MemoryPolicy) ≠ zeroMemoryPolicy -> memory_within p.(PolicySet_MemoryPolicy) q s').
Proof.
  unfold applyMemoryGovernance. case_bool_decide as Hz.
  - intros [= <- <- _]. exists (PolicySet_MemoryPolicy p). split; [by destruct p|done].
  - pose proof (memoryGovernance_within (PolicySet_MemoryPolicy p) s adj) as H.
    destruct (memoryGovernance _ s adj) as [[q s1] a1]. intros [= <- <- _]. by exists q.
Qed.

Lemma governed_within e0 : within_policy e0.(Eff_Policy) (governed e0).1.
Proof.
  unfold governed. set (p := Eff_Policy e0).
  pose proof (applyContextGovernance_within (Eff_Context e0) (PolicySet_ContextGovernancePolicy p)) as HC.
  destruct (applyContextGovernance _ _) as [ctx a0]; cbn [fst] in HC.
  destruct (applyRuntimeGovernance _ _ _ _ a0) as [[[rt t0] r0] a1] eqn:E1.
  apply applyRuntimeGovernance_within in E1 as [].
  destruct (applyToolGovernance p t0 a1) as [[p2 t2] a2] eqn:E2.
  apply applyToolGovernance_within in E2 as (T1 & T2 & q2 & -> & T3).
  destruct (applyRepairGovernance _ r0 a2) as [[p3 r3] a3] eqn:E3.
  apply applyRepairGovernance_within in E3 as (q3 & -> & R3).
  destruct (applyCollaborationGovernance _ _ a3) as [[p4 c4] a4] eqn:E4.
  apply applyCollaborationGovernance_within in E4 as (q4 & -> & H4).
  destruct (applyMemoryGovernance _ _ a4) as [[p5 m5] a5] eqn:E5.
  apply applyMemoryGovernance_within in E5 as (q5 & -> & H5).
  constructor; cbn; auto. constructor; cbn; rewrite ?T2; auto.
Qed.

(** ** The guardrails *)

(** Whatever an agent asks for, the configuration [Resolve] answers stays within the policy set:
    every context limit with a positive bound is set, not 0 and not above the bound; the configured
    run limits, the tool calls among them, are at most theirs; full_debug, LLM compression, its models
    and base URLs, and full-context handoff need the policy's consent; approval is asked at a level no
    higher than the policy's; repair and memory are only narrowed, and every other part of the policy
    set is left as it is. *)
Theorem guardrails_hold (StableJSON : AgentDefinition -> PolicySet -> EffectiveRunConfig ->
    list GuardrailAdjustment -> error + string) agent policy defaults e report :
  Resolve StableJSON agent policy defaults = inr (e, report) -> within_policy policy e.
Proof.
  unfold Resolve. pose proof (governed_within (merged agent policy defaults)) as H.
  destruct (governed _) as [e' adj]. cbn [fst] in H.
  destruct (StableJSON _ _ _ _); [done|]. by intros [= <- _].
Qed.

Definition strict_policy : PolicySet :=
  zeroPolicySet
    <| PolicySet_ContextGovernancePolicy := zeroContextGovernancePolicy
         <| CtxGov_MaxRecentMessageLimit := 10%Z |> |>
    <| PolicySet_RuntimePolicy := zeroRuntimePolicy <| RuntimePolicy_MaxSteps := 5%Z |> |>
    <| PolicySet_ToolPolicy := zeroToolPolicy <| ToolPolicy_RequireApprovalAtRiskLevel := RiskMedium |> |>
    <| PolicySet_ToolRepairPolicy := zeroToolRepairPolicy <| Repair_Enabled := true |>
         <| Repair_MaxRepairAttempts := 1%Z |> <| Repair_RequestModelRepairOnFail := true |>
         <| Repair_RepairableErrorCodes := ["timeout"] |> |>
    <| PolicySet_MemoryPolicy := zeroMemoryPolicy <| MemoryPolicy_AllowRead := true |>
         <| MemoryPolicy_Scopes := ["user"] |> |>.

Definition greedy_agent : AgentDefinition :=
  zeroAgentDefinition <| Agent_AgentID := "a" |>
    <| Agent_Strategies := zeroAgentStrategies
         <| Strat_Context := zeroContextStrategy <| CtxS_Mode := "full_debug" |> |>
         <| Strat_Tools := zeroToolUseStrategy <| ToolS_RequireApprovalAtRiskLevel := RiskCritical |> |>
         <| Strat_Runtime := zeroRuntimeStrategy <| RunS_MaxSteps := Some 100%Z |> |>
         <| Strat_Repair := zeroRepairStrategy <| RepS_MaxRepairAttempts := Some 50%Z |>
              <| RepS_RepairableErrorCodes := ["invalid_input"] |> |> |>.

Definition plain_hash (_ : AgentDefinition) (_ : PolicySet) (_ : EffectiveRunConfig)
    (_ : list GuardrailAdjustment) : error + string := inr "h".

Definition greedy : EffectiveRunConfig * list GuardrailAdjustment :=
  governed (merged greedy_agent strict_policy zeroContextStrategy).

Lemma Resolve_greedy :
  Resolve plain_hash greedy_agent strict_policy zeroContextStrategy = inr (greedy.1, mkReport "h" greedy.2).
Proof. unfold Resolve, plain_hash, greedy. by destruct (governed _). Qed.

Lemma guardrails_hold_witness :
  greedy.1.(Eff_Context).(CtxS_Mode) = "balanced" ∧
  greedy.1.(Eff_Context).(CtxS_RecentMessageLimit) = Some 10%Z ∧
  greedy.1.(Eff_Runtime).(RunS_MaxSteps) = Some 5%Z ∧
  map Adj_Path greedy.2 = ["context.mode"; "context.recent_message_limit"; "runtime.max_steps";
    "tools.require_approval_at_risk_level"; "repair.repairable_error_codes"; "memory.write_enabled"] ∧
  within_policy strict_policy greedy.1.
Proof.
  do 4 (split; [vm_compute; reflexivity|]).
  exact (guardrails_hold plain_hash greedy_agent strict_policy zeroContextStrategy _ _ Resolve_greedy).
Defined.

(** A failed call as [EvaluateRepair] sees it. *)
Definition failed_call (code : string) (seen : Z) : RepairRequest :=
  mkRepairRequest zeroPolicySet zeroToolDefinition
    (zeroToolResult <| Result_Status := ToolResultFailed |>
       <| Result_Error := Some (zeroToolExecutionError <| ExecErr_Code := code |>) |>) seen.

(** The repair policy is the part the guardrails miss.  The agent above asks for the codes the
    policy does not repair, and for fifty attempts where the policy has one: the intersection of the
    codes is empty, which [EvaluateRepair] reads as every code, and the attempts are the agent's.  A
    call that failed with a code in neither list for the fortieth time is repaired, which the policy
    set refuses to any agent that asks for nothing. *)
Theorem repair_policy_widened :
  let q := greedy.1.(Eff_Policy).(PolicySet_ToolRepairPolicy) in
  Resolve plain_hash greedy_agent strict_policy zeroContextStrategy =
    inr (greedy.1, mkReport "h" greedy.2) ∧
  q.(Repair_RepairableErrorCodes) = [] ∧ q.(Repair_MaxRepairAttempts) = 50%Z ∧
  (EvaluateRepair q (failed_call "crash" 40)).(RD_Action) = RepairActionContinue ∧
  (EvaluateRepair strict_policy.(PolicySet_ToolRepairPolicy) (failed_call "crash" 1)).(RD_Action) =
    RepairActionStop.
Proof. split; [exact Resolve_greedy|]. repeat split; vm_compute; reflexivity. Qed.
