(* ===== verification/Dispatch.v ===== *)
(** * What a run does with a decision: internal/runtime/kernel/coordinator.go, second half

    [dispatch] and [dispatchToolCalls] carry a decision of the model out on the run, its task,
    its plan and the tools.  The steps that lead to a decision are in Kernel.v. *)

From stdpp Require Import base list strings gmap fin_maps.
From Stdlib Require Import Ascii Lia.
From S2P Require Import Prelude Contracts GoMonad Storage TaskState TaskRepo TaskRuntime Plan RunRepo Policies PolicyEngine Decision ToolStore Execution ToolRun.
Open Scope go_scope.
Open Scope string_scope.
Open Scope list_scope.

(** ** Texts the user may see *)

Definition genericVisibleFailureReply : string := "抱歉，这个请求暂时无法处理。".

Definition isSuppressedVisibleReplyText (text : string) : bool :=
  mem_string (ToLower (TrimSpace text))
    ["no operation required"; "no operation needed"; "no action required"; "no action needed";
     "noop"; "no_op"; "not_addressed_to_agent"].

Definition between (lo hi c : ascii) : bool :=
  (nat_of_ascii lo <=? nat_of_ascii c)%nat && (nat_of_ascii c <=? nat_of_ascii hi)%nat.
Definition code_char (c : ascii) : bool :=
  Ascii.eqb c "_" || between "A" "Z" c || between "a" "z" c || between "0" "9" c.

(** [strings.FieldsFunc] at the bytes that are not of a code; [word] is the current field. *)
Fixpoint code_words (s word : string) : list string :=
  match s with
  | EmptyString => if word == "" then [] else [word]
  | String c s' =>
      if code_char c then code_words s' (word +:+ String c EmptyString)
      else if word == "" then code_words s' "" else word :: code_words s' ""
  end.

Definition is_lower (c : ascii) : bool := between "a" "z" c.
Fixpoint has_byte (p : ascii → bool) (s : string) : bool :=
  match s with EmptyString => false | String c s' => p c || has_byte p s' end.

(** [word == strings.ToUpper(word)], on words of ASCII letters, digits and underscores. *)
Definition looksLikeInternalErrorCode (text : string) : bool :=
  existsb (λ word, negb (String.length word <? 5)%nat && negb (has_byte is_lower word) &&
                   has_byte (λ c, Ascii.eqb c "_") word)
    (code_words text "").

Definition isUnsafeVisibleReplyText (text : string) : bool :=
  let normalized := ToLower (TrimSpace text) in
  isSuppressedVisibleReplyText normalized ||
  existsb (Contains normalized)
    ["capability_not_available"; "decision_schema_error"; "tool_execution_failed";
     "tool_policy_denied"; "tool_not_found"; "model_error"; "model_timeout"; "unsupported command";
     "runtime driver"; "provider_agent_id"; "source_run_id"; "source_task_id"; "trace_id"; "run_id";
     "task_id"; "stack trace"; "panic:"] ||
  looksLikeInternalErrorCode text.

Definition visibleReplyForDecision (reply : option DecisionReply) (fallbackOnUnsafe : bool)
    : option DecisionReply :=
  let generic (reply : DecisionReply) :=
    let out := reply <| Reply_Text := genericVisibleFailureReply |> in
    if out.(Reply_Kind) == "" then out <| Reply_Kind := ReplyRefusal |> else out in
  match reply with
  | None => if fallbackOnUnsafe
            then Some (zeroDecisionReply <| Reply_Kind := ReplyRefusal |>
                         <| Reply_Text := genericVisibleFailureReply |>)
            else None
  | Some reply =>
      let text := TrimSpace reply.(Reply_Text) in
      if text == "" then if fallbackOnUnsafe then Some (generic reply) else None
      else if isSuppressedVisibleReplyText text then None
      else if isUnsafeVisibleReplyText text
      then if fallbackOnUnsafe then Some (generic reply) else None
      else
        let out := reply <| Reply_Text := text |> in
        Some (if out.(Reply_Kind) == "" then out <| Reply_Kind := ReplyAnswer |> else out)
  end.

(** ** Pure helpers *)

Definition toolFailureRuntimeError (result : ToolResult) : RuntimeError :=
  match result.(Result_Error) with
  | Some e => NewRuntimeError e.(ExecErr_Code) e.(ExecErr_Message) e.(ExecErr_Details)
  | None => NewRuntimeError CodeToolExecutionFailed result.(Result_Status) ∅
  end.

Definition consecutiveToolFailureScanLimit (maxConsecutiveFailures maxRepairAttempts : Z) : Z :=
  let limit := if (maxConsecutiveFailures >? 0)%Z then int64 (maxConsecutiveFailures + 1) else 0%Z in
  if (maxRepairAttempts >=? 0)%Z && (int64 (maxRepairAttempts + 1) >? limit)%Z
  then int64 (maxRepairAttempts + 1) else limit.

Definition failed_status (status : ToolResultStatus) : bool :=
  (status == ToolResultFailed) || (status == ToolResultDenied).

(** The failures at the end of a run's results; [results] is the reversed list. *)
Fixpoint leading_failures (results : list ToolResult) : Z :=
  match results with
  | r :: rest => if failed_status r.(Result_Status) then (1 + leading_failures rest)%Z else 0%Z
  | [] => 0%Z
  end.

Definition normalizeRuntimeError (err : error) : RuntimeError :=
  match err with
  | ErrRuntime e => e
  | _ => NewRuntimeError CodeModelError (Error err) ∅
  end.

Definition isKnowledgeSearchCall (call : ToolCall) : bool :=
  (TrimSpace call.(Call_ToolID) == "origin.knowledge.search") ||
  (TrimSpace call.(Call_Name) == "origin.knowledge.search").

(** [typed] of a Go integer; a float is truncated by the conversion [trunc]. *)
Definition intArgumentValue (trunc : float64 → Z) (value : option Any) : Z :=
  match value with
  | Some (AInt z) => z
  | Some (AFloat f) => trunc f
  | _ => 0%Z
  end.

Definition applyKnowledgeUseStrategyToToolCall (trunc : float64 → Z) (call : ToolCall)
    (strategy : KnowledgeUseStrategy) : ToolCall :=
  if negb (isKnowledgeSearchCall call) then call else
  let arguments := call.(Call_Arguments) in
  let arguments :=
    if nonempty strategy.(KnowS_KnowledgeBaseIDs)
    then <["knowledge_base_ids" :=
             AStrings (List.filter (λ id, id != "") (map TrimSpace strategy.(KnowS_KnowledgeBaseIDs)))]>
           arguments
    else arguments in
  let searchMode := TrimSpace strategy.(KnowS_SearchMode) in
  let arguments := if searchMode != "" then <["search_mode" := AString searchMode]> arguments
                   else arguments in
  let arguments :=
    if (strategy.(KnowS_MaxResults) >? 0)%Z then
      let current := intArgumentValue trunc (arguments !! "limit") in
      if (current <=? 0)%Z || (current >? strategy.(KnowS_MaxResults))%Z
      then <["limit" := AInt strategy.(KnowS_MaxResults)]> arguments else arguments
    else arguments in
  call <| Call_Arguments := <["allow_cross_group" := ABool strategy.(KnowS_AllowCrossGroup)]> arguments |>.

Definition conversationAllowedToolIDsExternalRef : string := "chat_allowed_tool_ids".

(** A map inside a value. *)
Definition any_map (m : gmap string Any) : Any := AMap (map_to_list m).

Definition runtimeMessageForParentContext (message : option RuntimeMessage) : Any :=
  match message with
  | None => AMap []
  | Some m => any_map {[
      "message_id" := AString m.(Msg_MessageID); "speaker_id" := AString m.(Msg_SpeakerID);
      "speaker_type" := AString m.(Msg_SpeakerType); "speaker_name" := AString m.(Msg_SpeakerName);
      "text" := AString m.(Msg_Text); "thread_id" := AString m.(Msg_ThreadID);
      "mentions" := AStrings m.(Msg_Mentions); "created_at" := AInt m.(Msg_CreatedAt);
      "metadata" := any_map m.(Msg_Metadata); "reply_to_id" := AString m.(Msg_ReplyToMessageID);
      "external_id" := AString m.(Msg_ExternalMessageID);
      "parent_source" := AString "main_agent_tool_call"]}
  end.

Definition parentContextForToolCall (envelope : AgentEnvelope) (runID taskID : string) : Any :=
  let parent : gmap string Any :=
    {["trace_id" := AString envelope.(Env_TraceID); "run_id" := AString runID;
      "task_id" := AString taskID]} in
  any_map match envelope.(Env_Context).(Ctx_Conversation) with
  | None => parent
  | Some conversation =>
      let refs := delete conversationAllowedToolIDsExternalRef conversation.(Conv_ExternalRefs) in
      <["conversation" := any_map {[
          "provider" := AString conversation.(Conv_Provider); "kind" := AString conversation.(Conv_Kind);
          "conversation_id" := AString conversation.(Conv_ConversationID);
          "thread_id" := AString conversation.(Conv_ThreadID);
          "external_refs" := any_map (AString <$> refs);
          "current_message" := runtimeMessageForParentContext conversation.(Conv_CurrentMessage)]}]>
        parent
  end.

(** ** The coordinator *)

Record RunResult := mkRunResult {
  RR_RunID : string;
  RR_TaskID : string;
  RR_Status : RunStatus;
  RR_Reply : option DecisionReply;
  RR_Ask : option ClarificationRequest;
  RR_ArtifactRefs : list ArtifactRef;
  RR_Error : option RuntimeError
}.
#[export] Instance eta_RunResult : Settable RunResult :=
  fields! mkRunResult < RR_RunID ; RR_TaskID ; RR_Status ; RR_Reply ; RR_Ask ; RR_ArtifactRefs ;
    RR_Error >.
Definition zeroRunResult : RunResult := mkRunResult "" "" "" None None [] None.

(** internal/discovery/tool/static.go *)
Record CandidateSet := mkCandidateSet {
  Cand_Capabilities : list CapabilityCard;
  Cand_Skills : list SkillCard;
  Cand_SkillInstructions : list SkillInstruction;
  Cand_Tools : list ToolCard;
  Cand_Collaborators : list CollaboratorCard
}.
Definition zeroCandidateSet : CandidateSet := mkCandidateSet [] [] [] [] [].

Definition retrievedCollaboratorIDs (collaborators : list CollaboratorCard) : list string :=
  List.filter (λ id, id != "") (map Collaborator_AgentID collaborators).

(** internal/runtime/hook/hooks.go and internal/bridge/array/sync.go *)
Record Observation := mkObservation {
  Obs_Event : string;
  Obs_TenantID : string;
  Obs_TraceID : string;
  Obs_RunID : string;
  Obs_TaskID : string;
  Obs_Agent : AgentDefinition;
  Obs_Payload : gmap string Any
}.

Record SyncContext := mkSyncContext {
  Sync_TenantID : string;
  Sync_TraceID : string;
  Sync_RunID : string;
  Sync_TaskID : string;
  Sync_ActorID : string;
  Sync_ActorType : string
}.

(** What the syncer is asked to send. *)
Inductive SyncMessage :=
| SyncReply (text : string)
| SyncWaitingInput (question : string)
| SyncWaitingApproval (reason : string)
| SyncRunFailed (reason : string)
| SyncArtifact (ref : ArtifactRef).

Section coordinator.
Context `{Env, ProfileDecoder, DecisionDecoder} {Executor S : Type} `{!ExecutorOps Executor S}.

(** A call to the outside without a result: it may do anything to the clock, the logs and the
    outside's own state [S]. *)
Definition Callback : Type := World → S → World * S.

(** The stores of the kernel and the state of all that is outside. *)
Record KSys := mkKSys {
  k_runs : RunRepo;
  k_tasks : InMemoryStore;
  k_plans : PlanRepo;
  k_calls : ToolRepo;
  k_policies : PolicyStore;
  k_ext : S
}.
#[export] Instance eta_KSys : Settable KSys :=
  fields! mkKSys < k_runs ; k_tasks ; k_plans ; k_calls ; k_policies ; k_ext >.

(** The fields of [Coordinator] this half uses; [None] and [false] stand for nil. *)
Record Dispatcher := mkDispatcher {
  D_ToolRuntime : option (Runtime Executor S);
  D_HasToolRepo : bool;
  D_HasPlans : bool;
  D_DisabledToolIDs : gset string;
  D_Observe : option (Observation → Callback);
  D_ExternalBinding : option (string → string → World → S → option ExternalTaskBinding * World * S);
  D_Sync : ExternalTaskBinding → SyncContext → SyncMessage → Callback
}.

(** [json.Marshal], SHA-256 in hex, the conversion of a float to an int, and the assertion that a
    value is a [contracts.Decision]. *)
Context (json_Marshal : Any → error + string) (sha256_hex : string → string) (trunc : float64 → Z)
  (as_decision : Any → option Contracts.Decision).

Definition on_runs {A} (m : M RunRepo A) : M KSys A := zoom k_runs (λ t s, s <| k_runs := t |>) m.
Definition on_tasks {A} (m : M InMemoryStore A) : M KSys A :=
  zoom k_tasks (λ t s, s <| k_tasks := t |>) m.
Definition on_plans {A} (m : M PlanRepo A) : M KSys A := zoom k_plans (λ t s, s <| k_plans := t |>) m.
Definition on_tools {A} (m : M ToolRepo A) : M KSys A := zoom k_calls (λ t s, s <| k_calls := t |>) m.
Definition on_rules {A} (m : M PolicyStore A) : M KSys A :=
  zoom k_policies (λ t s, s <| k_policies := t |>) m.
Definition on_ext {A} (m : M S A) : M KSys A := zoom k_ext (λ t s, s <| k_ext := t |>) m.
Definition call_back (c : Callback) : M KSys unit :=
  on_ext (λ w s, let '(w', s') := c w s in (Ok tt, w', s')).

(** ** Records and messages *)

Definition recordTrace (traceID tenantID runID taskID eventType : string) (payload : gmap string Any)
    : M KSys unit :=
  if traceID == "" then ret tt else
  with_trace (
    let! span := idgen_New "span" in
    let! now := now in
    trace_Record (zeroTraceEvent
      <| Trace_TraceID := traceID |> <| Trace_TenantID := tenantID |> <| Trace_SpanID := span |>
      <| Trace_RunID := runID |> <| Trace_TaskID := taskID |> <| Trace_Type := eventType |>
      <| Trace_Payload := payload |> <| Trace_CreatedAt := now |>)).

Definition reply_any (reply : DecisionReply) : Any :=
  AStruct "DecisionReply" [("Kind", AString reply.(Reply_Kind)); ("Text", AString reply.(Reply_Text));
    ("ContentType", AString reply.(Reply_ContentType))].

Definition recordResponse (envelope : AgentEnvelope) (runID taskID stepID responseType : string)
    (status : RunStatus) (reply : option DecisionReply) : M KSys unit :=
  let payload : gmap string Any :=
    {["response_type" := AString responseType; "run_status" := AString status]} in
  let payload :=
    match reply with
    | None => payload
    | Some reply =>
        let payload := <["reply" := reply_any reply]> payload in
        let text := TrimSpace reply.(Reply_Text) in
        if text == "" then payload
        else {["reply_text" := AString text; "final_response" := AString text;
               "output" := AString text; "output_preview" := AString text]} ∪ payload
    end in
  with_trace (
    let! now := now in
    trace_Record (zeroTraceEvent
      <| Trace_TraceID := envelope.(Env_TraceID) |>
      <| Trace_TenantID := envelope.(Env_Context).(Ctx_TenantID) |> <| Trace_SpanID := stepID |>
      <| Trace_RunID := runID |> <| Trace_TaskID := taskID |> <| Trace_Type := TraceResponseSent |>
      <| Trace_Payload := payload |> <| Trace_CreatedAt := now |>)).

Definition observeHook (c : Dispatcher) (event : string) (envelope : AgentEnvelope)
    (agent : AgentDefinition) (runID taskID : string) (payload : gmap string Any) : M KSys unit :=
  match c.(D_Observe) with
  | None => ret tt
  | Some observe => call_back (observe (mkObservation event envelope.(Env_Context).(Ctx_TenantID)
                      envelope.(Env_TraceID) runID taskID agent payload))
  end.

Definition externalBinding (c : Dispatcher) (tenantID taskID : string)
    : M KSys (option ExternalTaskBinding) :=
  match c.(D_ExternalBinding) with
  | None => ret None
  | Some find => if taskID == "" then ret None
                 else on_ext (λ w s, let '(b, w', s') := find tenantID taskID w s in (Ok b, w', s'))
  end.

Definition externalSyncContext (envelope : AgentEnvelope) (runID taskID : string) : SyncContext :=
  mkSyncContext envelope.(Env_Context).(Ctx_TenantID) envelope.(Env_TraceID) runID taskID
    envelope.(Env_Caller).(Caller_CallerID) envelope.(Env_Caller).(Caller_CallerType).

(** [syncReply], [syncWaitingInput], [syncWaitingApproval], [syncRunFailed], [syncArtifact]. *)
Definition sync (c : Dispatcher) (envelope : AgentEnvelope) (runID taskID : string)
    (message : SyncMessage) : M KSys unit :=
  let! binding := externalBinding c envelope.(Env_Context).(Ctx_TenantID) taskID in
  match binding with
  | None => ret tt
  | Some binding => call_back (c.(D_Sync) binding (externalSyncContext envelope runID taskID) message)
  end.

Definition syncReply (c : Dispatcher) (envelope : AgentEnvelope) (runID taskID : string)
    (reply : option DecisionReply) : M KSys unit :=
  match reply with
  | None => ret tt
  | Some reply => sync c envelope runID taskID (SyncReply reply.(Reply_Text))
  end.

(** *** Structs as values of a map *)

Definition any_option {A} (f : A → Any) (o : option A) : Any :=
  match o with Some a => f a | None => ANil end.

Definition call_any (call : ToolCall) : Any :=
  AStruct "ToolCall" [("ToolCallID", AString call.(Call_ToolCallID));
    ("TenantID", AString call.(Call_TenantID)); ("ToolID", AString call.(Call_ToolID));
    ("Name", AString call.(Call_Name)); ("ToolVersion", AString call.(Call_ToolVersion));
    ("ExecutionProfile", AString call.(Call_ExecutionProfile));
    ("Arguments", any_map call.(Call_Arguments)); ("TraceID", AString call.(Call_TraceID));
    ("RunID", AString call.(Call_RunID)); ("TaskID", AString call.(Call_TaskID));
    ("PlanStepID", AString call.(Call_PlanStepID));
    ("IdempotencyKey", AString call.(Call_IdempotencyKey)); ("CreatedAt", AInt call.(Call_CreatedAt));
    ("RuntimeContext", any_map call.(Call_RuntimeContext))].

Definition ask_any (ask : ClarificationRequest) : Any :=
  AStruct "ClarificationRequest" [("Question", AString ask.(Ask_Question));
    ("RequiredFields", AStrings ask.(Ask_RequiredFields))].

Definition decision_any (d : Contracts.Decision) : Any :=
  AStruct "Decision" [("DecisionID", AString d.(Decision_DecisionID)); ("Type", AString d.(Decision_Type));
    ("Reason", AString d.(Decision_Reason)); ("Confidence", AFloat d.(Decision_Confidence));
    ("Reply", any_option reply_any d.(Decision_Reply)); ("ToolCalls", AList (map call_any d.(Decision_ToolCalls)));
    ("Ask", any_option ask_any d.(Decision_Ask));
    ("Error", any_option (λ e, AStruct "DecisionError" [("Code", AString e.(DecErr_Code));
                ("Message", AString e.(DecErr_Message))]) d.(Decision_Error))].

Definition artifact_any (ref : ArtifactRef) : Any :=
  AStruct "ArtifactRef" [("ArtifactID", AString ref.(ArtifactRef_ArtifactID));
    ("Type", AString ref.(ArtifactRef_Type)); ("URI", AString ref.(ArtifactRef_URI));
    ("Summary", AString ref.(ArtifactRef_Summary)); ("Hash", AString ref.(ArtifactRef_Hash));
    ("Metadata", any_map ref.(ArtifactRef_Metadata))].

Definition result_any (r : ToolResult) : Any :=
  AStruct "ToolResult" [("ToolResultID", AString r.(Result_ToolResultID));
    ("ToolCallID", AString r.(Result_ToolCallID)); ("Status", AString r.(Result_Status));
    ("Output", any_map r.(Result_Output));
    ("Error", any_option (λ e, AStruct "ToolExecutionError" [("Code", AString e.(ExecErr_Code));
                ("Message", AString e.(ExecErr_Message)); ("Details", any_map e.(ExecErr_Details))])
                r.(Result_Error));
    ("ArtifactRefs", AList (map artifact_any r.(Result_ArtifactRefs)));
    ("StartedAt", AInt r.(Result_StartedAt)); ("CompletedAt", AInt r.(Result_CompletedAt))].

(** ** Commands and failures *)

(** What a step returns: the run goes on, has come to an end, or failed.  An error thrown instead
    stands for an error with an empty result. *)
Inductive StepOutcome :=
| Continue (result : RunResult)
| Finished (result : RunResult)
| FailedWith (result : RunResult) (err : error).

Definition task_command (definition : AgentDefinition) (runID taskID stepID : string)
    (command : TaskCommand) (payload : gmap string Any) : CommandInput :=
  mkCommandInput taskID command definition.(Agent_AgentID) "agent" payload runID stepID.

Definition apply_command (definition : AgentDefinition) (runID taskID stepID : string)
    (command : TaskCommand) (payload : gmap string Any) : M KSys unit :=
  let! _ := on_tasks (TaskRuntime.ApplyCommand (Some store_atomic)
                        (task_command definition runID taskID stepID command payload)) in ret tt.

Definition result_of (runID taskID : string) (status : RunStatus) : RunResult :=
  zeroRunResult <| RR_RunID := runID |> <| RR_TaskID := taskID |> <| RR_Status := status |>.

Definition run_finished (c : Dispatcher) (envelope : AgentEnvelope) (definition : AgentDefinition)
    (runID taskID : string) (payload : gmap string Any) : M KSys unit :=
  observeHook c "on_run_finished" envelope definition runID taskID payload.

(** The lines that fail a run for [runtimeErr]; [also] is what they do to the task. *)
Definition fail_run (c : Dispatcher) (envelope : AgentEnvelope) (definition : AgentDefinition)
    (runID taskID : string) (runtimeErr : RuntimeError) (also : M KSys unit) : M KSys StepOutcome :=
  let! failed := on_runs (MarkFailed runID (Some runtimeErr)) in
  do! also in
  do! sync c envelope runID taskID (SyncRunFailed runtimeErr.(Err_Message)) in
  do! run_finished c envelope definition runID taskID
        {["status" := AString failed.(Run_Status); "error" := any_map (ToTracePayload runtimeErr)]} in
  ret (FailedWith ((result_of runID taskID failed.(Run_Status)) <| RR_Error := Some runtimeErr |>)
         (ErrRuntime runtimeErr)).

(** ** The decisions other than tool calls *)

Definition deref {A} (p : option A) : M KSys A := match p with Some a => ret a | None => panic end.

Definition dispatch_with (tool_calls : list ToolCall → M KSys StepOutcome) (c : Dispatcher)
    (envelope : AgentEnvelope) (definition : AgentDefinition) (runID taskID stepID : string)
    (decision : Contracts.Decision) : M KSys StepOutcome :=
  let command cmd payload := apply_command definition runID taskID stepID cmd payload in
  let respond kind status reply := recordResponse envelope runID taskID stepID kind status reply in
  let finished status :=
    run_finished c envelope definition runID taskID
      {["status" := AString status; "decision_type" := AString decision.(Decision_Type)]} in
  let marker : gmap string Any := {["decision_id" := AString decision.(Decision_DecisionID);
                                    "decision_type" := AString decision.(Decision_Type)]} in
  let type := decision.(Decision_Type) in
  if type == DecisionTypeReply then
    let reply := visibleReplyForDecision decision.(Decision_Reply) true in
    do! command CmdComplete ∅ in
    let! run := on_runs (MarkCompleted runID) in
    do! respond "reply" run.(Run_Status) reply in
    do! syncReply c envelope runID taskID reply in
    do! finished run.(Run_Status) in
    ret (Finished ((result_of runID taskID run.(Run_Status)) <| RR_Reply := reply |>))
  else if type == DecisionTypeAskClarification then
    let! ask := deref decision.(Decision_Ask) in
    do! command CmdAskClarification {["question" := AString ask.(Ask_Question)]} in
    let! run := on_runs (MarkWaitingInput runID) in
    do! respond "ask_clarification" run.(Run_Status)
          (Some (zeroDecisionReply <| Reply_Kind := ReplyStatusUpdate |>
                   <| Reply_Text := ask.(Ask_Question) |>)) in
    do! sync c envelope runID taskID (SyncWaitingInput ask.(Ask_Question)) in
    do! finished run.(Run_Status) in
    ret (Finished ((result_of runID taskID run.(Run_Status)) <| RR_Ask := Some ask |>))
  else if type == DecisionTypeNoOp then
    do! command CmdComplete marker in
    let! run := on_runs (MarkCompleted runID) in
    do! respond "no_op" run.(Run_Status) None in
    do! finished run.(Run_Status) in
    ret (Finished (result_of runID taskID run.(Run_Status)))
  else if type == DecisionTypeUnsupported then
    do! command CmdComplete marker in
    let! run := on_runs (MarkCompleted runID) in
    let reply := visibleReplyForDecision
                   (Some (zeroDecisionReply <| Reply_Kind := ReplyRefusal |>
                            <| Reply_Text := decision.(Decision_Reason) |>)) true in
    do! respond "unsupported" run.(Run_Status) reply in
    do! finished run.(Run_Status) in
    ret (Finished ((result_of runID taskID run.(Run_Status)) <| RR_Reply := reply |>))
  else if type == DecisionTypeError then
    let! err := deref decision.(Decision_Error) in
    let runtimeErr := NewRuntimeError CodeDecisionSchemaError "decision error"
                        {["message" := AString err.(DecErr_Message)]} in
    do! ignore (command CmdFail (ToTracePayload runtimeErr)) in
    let! run := on_runs (MarkFailed runID (Some runtimeErr)) in
    let reply := visibleReplyForDecision
                   (Some (zeroDecisionReply <| Reply_Kind := ReplyRefusal |>
                            <| Reply_Text := runtimeErr.(Err_Message) |>)) true in
    do! respond "error" run.(Run_Status) reply in
    do! match reply with
        | Some reply => sync c envelope runID taskID (SyncRunFailed reply.(Reply_Text))
        | None => ret tt
        end in
    do! run_finished c envelope definition runID taskID
          {["status" := AString run.(Run_Status); "decision_type" := AString type;
            "error" := any_map (ToTracePayload runtimeErr)]} in
    ret (FailedWith ((result_of runID taskID run.(Run_Status)) <| RR_Error := Some runtimeErr |>)
           (ErrRuntime runtimeErr))
  else if type == DecisionTypeToolCall then tool_calls decision.(Decision_ToolCalls)
  else
    let! run := on_runs (MarkCompleted runID) in
    do! finished run.(Run_Status) in
    ret (Finished (result_of runID taskID run.(Run_Status))).

(** ** The decision a tool's output may hold *)

Definition decodeToolFinalDecision (value : Any) : error + Contracts.Decision :=
  let unmarshal data :=
    match Unmarshal data with
    | inl err => inl (ErrRuntime (NewRuntimeError CodeDecisionSchemaError "invalid tool final_decision"
                        {["error" := AString err]}))
    | inr decision => inr decision
    end in
  match as_decision value with
  | Some decision => inr decision
  | None =>
      match value with
      | AString text => unmarshal text
      | _ => match json_Marshal value with inl err => inl err | inr data => unmarshal data end
      end
  end.

Definition recordFinalToolDecisionValidated (envelope : AgentEnvelope) (runID taskID : string)
    (decision : Contracts.Decision) (validationErr : option error) (warnings : list string)
    : M KSys unit :=
  let payload : gmap string Any :=
    {["decision_id" := AString decision.(Decision_DecisionID);
      "type" := AString decision.(Decision_Type);
      "source" := AString "tool_result.final_decision"; "repair_attempt" := AInt 0;
      "from_model_call" := ABool false]} in
  recordTrace envelope.(Env_TraceID) envelope.(Env_Context).(Ctx_TenantID) runID taskID
    TraceDecisionValidated
    match validationErr with
    | Some err => <["error" := AString (Error err)]> payload
    | None => <["warnings" := AStrings warnings]> payload
    end.

(** [None]: the result holds no decision. *)
Definition finalDecisionFromToolResult (c : Dispatcher) (envelope : AgentEnvelope)
    (definition : AgentDefinition) (runID taskID : string) (result : ToolResult)
    (candidateTools : list ToolCard) : M KSys (option Contracts.Decision) :=
  let refused decision err warnings :=
    do! recordFinalToolDecisionValidated envelope runID taskID decision (Some err) warnings in
    throw err in
  match (if result.(Result_Status) == ToolResultSucceeded
         then result.(Result_Output) !! "final_decision" else None) with
  | None => ret None
  | Some rawDecision =>
      match decodeToolFinalDecision rawDecision with
      | inl err => refused zeroDecision err []
      | inr decision =>
          if decision.(Decision_Type) == DecisionTypeToolCall
          then refused decision (ErrRuntime (NewRuntimeError CodeDecisionSchemaError
                                   "tool final_decision cannot be a tool_call" ∅)) []
          else
            let! decision :=
              (if decision.(Decision_DecisionID) == ""
               then let! id := idgen_New "decision" in
                    ret (decision <| Decision_DecisionID := id |>)
               else ret decision) in
            let payload decision : gmap string Any :=
              {["decision_id" := AString decision.(Decision_DecisionID);
                "type" := AString decision.(Decision_Type);
                "source" := AString "tool_result.final_decision";
                "tool_result_id" := AString result.(Result_ToolResultID);
                "tool_call_id" := AString result.(Result_ToolCallID);
                "repair_attempt" := AInt 0; "from_model_call" := ABool false]} in
            let trace type payload :=
              recordTrace envelope.(Env_TraceID) envelope.(Env_Context).(Ctx_TenantID) runID taskID
                type payload in
            do! trace TraceDecisionCreated (payload decision) in
            match Normalize decision candidateTools with
            | inl err => refused decision err []
            | inr validation =>
                match ValidateDecision definition.(Agent_Strategies).(Strat_Output) validation with
                | Some err => refused decision err validation.(VR_Warnings)
                | None =>
                    let decision := validation.(VR_Decision) in
                    do! recordFinalToolDecisionValidated envelope runID taskID decision None
                          validation.(VR_Warnings) in
                    do! observeHook c "on_model_decision" envelope definition runID taskID
                          {["decision" := decision_any decision;
                            "source" := AString "tool_result.final_decision"]} in
                    do! trace TraceDecisionCompleted (payload decision) in
                    ret (Some decision)
                end
            end
      end
  end.

(** ** Plans, failures and tools *)

Definition currentPlanStep (c : Dispatcher) (taskID : string) : M KSys (option PlanStep) :=
  if c.(D_HasPlans) then on_plans (CurrentStep taskID) else ret None.

Definition recordPlanStepResult (c : Dispatcher) (taskID : string) (step : PlanStep)
    (result : ToolResult) (definition : AgentDefinition) : M KSys unit :=
  if negb c.(D_HasPlans) then ret tt
  else if failed_status result.(Result_Status) then
    let reason := match result.(Result_Error) with
                  | Some e => e.(ExecErr_Message)
                  | None => result.(Result_Status)
                  end in
    let! _ := on_plans (FailStep taskID step.(Step_StepID) reason definition.(Agent_AgentID) "agent") in
    ret tt
  else if result.(Result_Status) == ToolResultSucceeded then
    let! _ := on_plans (CompleteStep taskID step.(Step_StepID) result.(Result_ArtifactRefs)
                          result.(Result_ToolResultID) definition.(Agent_AgentID) "agent") in
    ret tt
  else ret tt.

(** [ListResultsByRunLimit] of the in-memory repository does not fail. *)
Definition consecutiveToolFailures (c : Dispatcher) (runID : string) (limit : Z) : M KSys Z :=
  if negb c.(D_HasToolRepo) then ret 0%Z else
  let! results := on_tools (ListResultsByRunLimit runID limit) in
  let results := stable_sort (λ a b, Before a.(Result_CompletedAt) b.(Result_CompletedAt)) results in
  ret (leading_failures (rev results)).

Definition shouldContinueAfterToolFailure (c : Dispatcher) (runtime : Runtime Executor S)
    (definition : AgentDefinition) (policySet : PolicySet) (runID : string) (call : ToolCall)
    (result : ToolResult) : M KSys bool :=
  let max := definition.(Agent_Runtime).(Limits_MaxConsecutiveToolFailures) in
  let! failureSeen := consecutiveToolFailures c runID
    (consecutiveToolFailureScanLimit max
       policySet.(PolicySet_ToolRepairPolicy).(Repair_MaxRepairAttempts)) in
  if (max >? 0)%Z && (failureSeen >? max)%Z then ret false else
  let toolDef :=
    match Definition_ runtime policySet.(PolicySet_TenantID) call.(Call_ToolID) with
    | Some found => found
    | None => zeroToolDefinition <| Tool_ToolID := call.(Call_ToolID) |>
    end in
  let decision := EvaluateRepair policySet.(PolicySet_ToolRepairPolicy)
                    (mkRepairRequest policySet toolDef result failureSeen) in
  ret (decision.(RD_Action) == RepairActionContinue).

Definition snapshotToolCall (runtime : Runtime Executor S) (tenantID : string) (call : ToolCall)
    : ToolCall :=
  match Definition_ runtime tenantID call.(Call_ToolID) with
  | None => call
  | Some definition =>
      let call := if call.(Call_ToolVersion) == ""
                  then call <| Call_ToolVersion := definition.(Tool_Version) |> else call in
      if call.(Call_ExecutionProfile) == ""
      then call <| Call_ExecutionProfile := definition.(Tool_ExecutionProfile) |> else call
  end.

Definition toolCallIdempotencyKey (runID stepID : string) (call : ToolCall) : error + string :=
  let toolID := if call.(Call_ToolID) == "" then call.(Call_Name) else call.(Call_ToolID) in
  match json_Marshal (any_map {["run_id" := AString runID; "step_id" := AString stepID;
                                "tool_name" := AString toolID;
                                "arguments" := any_map call.(Call_Arguments)]}) with
  | inl err => inl err
  | inr data => inr ("toolcall:" +:+ sha256_hex data)
  end.

Definition lift_sum {A} (r : error + A) : M KSys A :=
  match r with inl err => throw err | inr a => ret a end.

(** The call as the model asked for it, with its context filled in. *)
Definition prepare_call (envelope : AgentEnvelope) (definition : AgentDefinition)
    (runID taskID : string) (candidates : CandidateSet) (call : ToolCall) : M KSys ToolCall :=
  let! call := (if call.(Call_ToolCallID) == ""
                then let! id := idgen_New "toolcall" in ret (call <| Call_ToolCallID := id |>)
                else ret call) in
  let call := if call.(Call_ToolID) == "" then call <| Call_ToolID := call.(Call_Name) |> else call in
  let call := match call.(Call_Arguments) !! "trace_id" with
              | Some _ => call
              | None => call <| Call_Arguments := <["trace_id" := AString envelope.(Env_TraceID)]>
                                                    call.(Call_Arguments) |>
              end in
  let call := call <| Call_RuntimeContext :=
                {["parent_context" := parentContextForToolCall envelope runID taskID]} |> in
  let call := applyKnowledgeUseStrategyToToolCall trunc call
                definition.(Agent_Strategies).(Strat_Knowledge) in
  ret (if call.(Call_ToolID) == "origin.agent.delegate" then
         let arguments := match call.(Call_Arguments) !! "parent_task_id" with
                          | Some _ => call.(Call_Arguments)
                          | None => <["parent_task_id" := AString taskID]> call.(Call_Arguments)
                          end in
         call <| Call_Arguments :=
           <["_retrieved_collaborators" :=
               AStrings (retrievedCollaboratorIDs candidates.(Cand_Collaborators))]> arguments |>
       else call).

(** The current step of the plan, started if it was pending. *)
Definition start_plan_step (c : Dispatcher) (definition : AgentDefinition) (taskID : string)
    : M KSys (option PlanStep) :=
  let! current := currentPlanStep c taskID in
  match current with
  | Some step =>
      if step.(Step_Status) == PlanStepPending then
        let! started := on_plans (StartStep taskID step.(Step_StepID) definition.(Agent_AgentID) "agent") in
        ret (Some started.1)
      else ret (Some step)
  | None => ret None
  end.

(** The call with its owner, version and key. *)
Definition own_call (runtime : Runtime Executor S) (envelope : AgentEnvelope)
    (runID taskID stepID : string) (step : option PlanStep) (call : ToolCall) : M KSys ToolCall :=
  let tenantID := envelope.(Env_Context).(Ctx_TenantID) in
  let call := call <| Call_TenantID := tenantID |> <| Call_RunID := runID |>
                <| Call_TaskID := taskID |>
                <| Call_PlanStepID := match step with Some s => s.(Step_StepID) | None => "" end |> in
  let call := snapshotToolCall runtime tenantID call in
  let! call := (if call.(Call_IdempotencyKey) == ""
                then let! key := lift_sum (toolCallIdempotencyKey runID stepID call) in
                     ret (call <| Call_IdempotencyKey := key |>)
                else ret call) in
  let! now := now in
  ret (call <| Call_CreatedAt := now |>).

(** ** Tool calls *)

Definition waiting_approval (c : Dispatcher) (envelope : AgentEnvelope) (definition : AgentDefinition)
    (runID taskID reason : string) : M KSys StepOutcome :=
  let! run := on_runs (MarkWaitingApproval runID) in
  do! sync c envelope runID taskID (SyncWaitingApproval reason) in
  do! run_finished c envelope definition runID taskID
        {["status" := AString run.(Run_Status); "reason" := AString reason]} in
  ret (Finished (result_of runID taskID run.(Run_Status))).

Fixpoint sync_artifacts (c : Dispatcher) (envelope : AgentEnvelope) (runID taskID : string)
    (refs : list ArtifactRef) : M KSys unit :=
  match refs with
  | [] => ret tt
  | ref :: refs =>
      do! sync c envelope runID taskID (SyncArtifact ref) in sync_artifacts c envelope runID taskID refs
  end.

(** After the tool has run; [None]: go on with the next call. *)
Definition after_result (c : Dispatcher) (runtime : Runtime Executor S) (envelope : AgentEnvelope)
    (definition : AgentDefinition) (policySet : PolicySet) (runID taskID stepID : string)
    (candidates : CandidateSet) (call : ToolCall) (result : ToolResult)
    : M KSys (option StepOutcome) :=
  let command cmd payload := apply_command definition runID taskID stepID cmd payload in
  let! continues :=
    (if failed_status result.(Result_Status)
     then shouldContinueAfterToolFailure c runtime definition policySet runID call result
     else ret true) in
  if negb continues then
    let runtimeErr := toolFailureRuntimeError result in
    let! out := fail_run c envelope definition runID taskID runtimeErr
                  (ignore (command CmdFail (ToTracePayload runtimeErr))) in
    ret (Some out)
  else if result.(Result_Status) == ToolResultPendingApproval then
    do! command CmdApprovalRequired ∅ in
    let! out := waiting_approval c envelope definition runID taskID "tool approval required" in
    ret (Some out)
  else
    do! command CmdToolWaiting ∅ in
    do! command CmdToolCompleted {["tool_result_id" := AString result.(Result_ToolResultID);
                                   "status" := AString result.(Result_Status)]} in
    do! sync_artifacts c envelope runID taskID result.(Result_ArtifactRefs) in
    let! final := finalDecisionFromToolResult c envelope definition runID taskID result
                    candidates.(Cand_Tools) in
    match final with
    | Some decision =>
        let! out := dispatch_with (λ _, panic) c envelope definition runID taskID stepID decision in
        ret (Some out)
    | None => ret None
    end.

(** The run of a call that has been recorded. *)
Definition run_call (c : Dispatcher) (runtime : Runtime Executor S) (envelope : AgentEnvelope)
    (definition : AgentDefinition) (policySet : PolicySet) (runID taskID stepID : string)
    (candidates : CandidateSet) (step : option PlanStep) (call : ToolCall)
    : M KSys (option StepOutcome) :=
  let! result := on_ext (ToolRun.Invoke runtime
    (mkInvokeRequest envelope.(Env_Context).(Ctx_TenantID) envelope.(Env_TraceID)
       definition.(Agent_AgentID) "agent" definition policySet call false)) in
  do! on_tools (SaveResult result) in
  do! observeHook c "on_tool_result" envelope definition runID taskID
        {["tool_id" := AString call.(Call_ToolID); "result" := result_any result]} in
  do! match step with
      | Some step => recordPlanStepResult c taskID step result definition
      | None => ret tt
      end in
  after_result c runtime envelope definition policySet runID taskID stepID candidates call result.

(** What the results of a duplicate call decide: [Some None] skips it. *)
Definition duplicate_call (c : Dispatcher) (envelope : AgentEnvelope) (definition : AgentDefinition)
    (runID taskID : string) (call : ToolCall) : M KSys (option (option StepOutcome)) :=
  let! existing := on_tools (GetResultByCall call.(Call_ToolCallID)) in
  match existing with
  | None => ret None
  | Some existing =>
      if existing.(Result_Status) == ToolResultPendingApproval then
        let! out := waiting_approval c envelope definition runID taskID "tool approval is still pending" in
        ret (Some (Some out))
      else ret (Some None)
  end.

(** One turn of the loop. *)
Definition dispatch_call (c : Dispatcher) (runtime : Runtime Executor S) (envelope : AgentEnvelope)
    (definition : AgentDefinition) (policySet : PolicySet) (runID taskID stepID : string)
    (candidates : CandidateSet) (call : ToolCall) : M KSys (option StepOutcome) :=
  let fail runtimeErr :=
    let! out := fail_run c envelope definition runID taskID runtimeErr (ret tt) in ret (Some out) in
  let! call := prepare_call envelope definition runID taskID candidates call in
  if bool_decide (call.(Call_ToolID) ∈ c.(D_DisabledToolIDs))
  then fail (NewRuntimeError CodeToolPolicyDenied "tool is disabled by release switch"
               {["tool_id" := AString call.(Call_ToolID)]})
  else
    let! step := start_plan_step c definition taskID in
    let! call := own_call runtime envelope runID taskID stepID step call in
    let! run := on_runs (IncrementToolCall runID) in
    let max := definition.(Agent_Runtime).(Limits_MaxToolCalls) in
    if (max >? 0)%Z && (run.(Run_ToolCallCount) >? max)%Z
    then fail (NewRuntimeError CodeToolExecutionFailed "max tool calls exceeded" ∅)
    else
      let! recorded := on_tools (SaveCall call) in
      let '(call, duplicate) := recorded in
      let! known :=
        (if duplicate : bool then duplicate_call c envelope definition runID taskID call
         else ret None) in
      match known with
      | Some out => ret out
      | None => run_call c runtime envelope definition policySet runID taskID stepID candidates step call
      end.

Fixpoint dispatch_calls (c : Dispatcher) (runtime : Runtime Executor S) (envelope : AgentEnvelope)
    (definition : AgentDefinition) (policySet : PolicySet) (runID taskID stepID : string)
    (candidates : CandidateSet) (calls : list ToolCall) : M KSys StepOutcome :=
  match calls with
  | [] => ret (Continue (result_of runID taskID RunRunning))
  | call :: calls =>
      let! out := dispatch_call c runtime envelope definition policySet runID taskID stepID candidates call in
      match out with
      | Some out => ret out
      | None => dispatch_calls c runtime envelope definition policySet runID taskID stepID candidates calls
      end
  end.

Definition dispatchToolCalls (c : Dispatcher) (envelope : AgentEnvelope) (definition : AgentDefinition)
    (policySet : PolicySet) (runID taskID stepID : string) (candidates : CandidateSet)
    (calls : list ToolCall) : M KSys StepOutcome :=
  match c.(D_ToolRuntime), c.(D_HasToolRepo) with
  | Some runtime, true =>
      dispatch_calls c runtime envelope definition policySet runID taskID stepID candidates calls
  | _, _ => fail_run c envelope definition runID taskID
              (NewRuntimeError CodeToolNotFound "tool runtime is not configured" ∅) (ret tt)
  end.

Definition dispatch (c : Dispatcher) (envelope : AgentEnvelope) (definition : AgentDefinition)
    (policySet : PolicySet) (runID taskID stepID : string) (decision : Contracts.Decision)
    (candidates : CandidateSet) : M KSys StepOutcome :=
  dispatch_with (dispatchToolCalls c envelope definition policySet runID taskID stepID candidates)
    c envelope definition runID taskID stepID decision.
End coordinator.
Arguments KSys : clear implicits.
Arguments Dispatcher : clear implicits.
