(* ===== verification/ModelCall.v ===== *)
(** * A decision from the model: internal/runtime/kernel/coordinator.go, internal/model/client/client.go

    How the kernel asks the model, puts a stream together, retries and has a decision repaired.
    What is done with the decision is in Dispatch.v, the run around it in Kernel.v. *)

From stdpp Require Import base list strings gmap fin_maps.
From Stdlib Require Import Ascii Lia.
From S2P Require Import Prelude Contracts GoMonad Storage TaskState TaskRepo TaskRuntime Plan RunRepo Policies PolicyEngine Decision ToolStore Execution ToolRun Dispatch.
Open Scope go_scope.
Open Scope string_scope.
Open Scope list_scope.

Record ModelUsage := mkModelUsage {
  Usage_PromptTokens : Z;
  Usage_CompletionTokens : Z
}.
#[export] Instance eta_ModelUsage : Settable ModelUsage :=
  fields! mkModelUsage < Usage_PromptTokens ; Usage_CompletionTokens >.
Definition zeroModelUsage : ModelUsage :=
  mkModelUsage 0%Z 0%Z.

Record ModelCapabilityDescriptor := mkModelCapabilityDescriptor {
  MCap_Provider : string;
  MCap_Model : string;
  MCap_APIStyle : string;
  MCap_StructuredOutput : bool;
  MCap_Streaming : bool;
  MCap_OpenAICompatible : bool;
  MCap_Thinking : string;
  MCap_ReasoningEffort : string;
  MCap_MaxOutputTokens : Z;
  MCap_SupportsJSONResponseMode : bool
}.
#[export] Instance eta_ModelCapabilityDescriptor : Settable ModelCapabilityDescriptor :=
  fields! mkModelCapabilityDescriptor < MCap_Provider ; MCap_Model ; MCap_APIStyle ; MCap_StructuredOutput ; MCap_Streaming ; MCap_OpenAICompatible ; MCap_Thinking ; MCap_ReasoningEffort ; MCap_MaxOutputTokens ; MCap_SupportsJSONResponseMode >.
Definition zeroModelCapabilityDescriptor : ModelCapabilityDescriptor :=
  mkModelCapabilityDescriptor EmptyString EmptyString EmptyString false false false EmptyString EmptyString 0%Z false.

Record ModelRequest := mkModelRequest {
  MReq_RunID : string;
  MReq_PromptBundle : PromptBundle;
  MReq_OutputContract : string;
  MReq_Timeout : Z;
  MReq_ModelProvider : string;
  MReq_ModelBaseURL : string;
  MReq_ModelName : string;
  MReq_MaxOutputTokens : Z;
  MReq_Temperature : option float64;
  MReq_Thinking : string;
  MReq_ReasoningEffort : string
}.
#[export] Instance eta_ModelRequest : Settable ModelRequest :=
  fields! mkModelRequest < MReq_RunID ; MReq_PromptBundle ; MReq_OutputContract ; MReq_Timeout ; MReq_ModelProvider ; MReq_ModelBaseURL ; MReq_ModelName ; MReq_MaxOutputTokens ; MReq_Temperature ; MReq_Thinking ; MReq_ReasoningEffort >.
Definition zeroModelRequest : ModelRequest :=
  mkModelRequest EmptyString zeroPromptBundle EmptyString 0%Z EmptyString EmptyString EmptyString 0%Z None EmptyString EmptyString.

Record ModelResponse := mkModelResponse {
  MResp_RawDecisionJSON : string;
  MResp_ModelProvider : string;
  MResp_ModelName : string;
  MResp_Usage : ModelUsage
}.
#[export] Instance eta_ModelResponse : Settable ModelResponse :=
  fields! mkModelResponse < MResp_RawDecisionJSON ; MResp_ModelProvider ; MResp_ModelName ; MResp_Usage >.
Definition zeroModelResponse : ModelResponse :=
  mkModelResponse EmptyString EmptyString EmptyString zeroModelUsage.

Record ModelStreamEvent := mkModelStreamEvent {
  MEvent_Type : string;
  MEvent_Delta : string;
  MEvent_RawDecision : string;
  MEvent_ModelProvider : string;
  MEvent_ModelName : string;
  MEvent_Usage : ModelUsage;
  MEvent_Err : option error
}.
#[export] Instance eta_ModelStreamEvent : Settable ModelStreamEvent :=
  fields! mkModelStreamEvent < MEvent_Type ; MEvent_Delta ; MEvent_RawDecision ; MEvent_ModelProvider ; MEvent_ModelName ; MEvent_Usage ; MEvent_Err >.
Definition zeroModelStreamEvent : ModelStreamEvent :=
  mkModelStreamEvent EmptyString EmptyString EmptyString EmptyString EmptyString zeroModelUsage None.

Definition ModelStreamDelta : string := "delta".
Definition ModelStreamCompleted : string := "completed".
Definition ModelStreamError : string := "error".

(** ** Pure helpers *)

(** Words between ASCII spaces, and the code points of valid UTF-8: the bytes that do not continue one. *)
Fixpoint count_words (in_word : bool) (s : string) : Z :=
  match s with
  | EmptyString => 0
  | String c s =>
      if ascii_space c then count_words false s
      else ((if in_word then 0 else 1) + count_words true s)%Z
  end.
Fixpoint count_runes (s : string) : Z :=
  match s with
  | EmptyString => 0
  | String c s =>
      ((if between (ascii_of_nat 128) (ascii_of_nat 191) c then 0 else 1) + count_runes s)%Z
  end.

Definition estimateTextTokens (value : string) : Z :=
  let value := TrimSpace value in
  if value == "" then 0%Z else
  let words := count_words false value in
  let charEstimate := ((count_runes value + 3) / 4)%Z in
  if (words >? charEstimate)%Z then words else charEstimate.

Definition isRetryableModelError (err : error) : bool :=
  match err with ErrRuntime e => e.(Err_Retryable) | _ => true end.

Definition isRepairable (err : error) : bool :=
  match err with ErrRuntime e => IsRepairable (Some e) | _ => false end.

Definition repairAttemptLimit (policy : PolicySet) (definition : AgentDefinition) : Z :=
  let limit := definition.(Agent_Runtime).(Limits_MaxRepairAttempts) in
  let ruled := policy.(PolicySet_RuntimePolicy).(RuntimePolicy_MaxRepairAttempts) in
  if (ruled >? 0)%Z && (ruled <? limit)%Z then ruled else limit.

Definition modelCallTimeout (runtimeLimit strategyTimeoutMS : Z) : Z :=
  if (strategyTimeoutMS <=? 0)%Z then runtimeLimit else
  let strategyLimit := int64 (strategyTimeoutMS * Millisecond) in
  if (runtimeLimit <=? 0)%Z || (strategyLimit <? runtimeLimit)%Z then strategyLimit else runtimeLimit.

Definition modelStreamingEnabled (strategy : ModelStrategy) : bool := default true strategy.(ModelS_Streaming).

Section model.
Context `{Env, ProfileDecoder, DecisionDecoder} {Executor S : Type} `{!ExecutorOps Executor S}.

(** A model client: it may do anything to the outside.  A stream is the list of its events; a nil
    descriptor stands for a client without capabilities. *)
Record ModelClient := mkModelClient {
  MC_Complete : ModelRequest → World → S → (error + ModelResponse) * World * S;
  MC_Stream : ModelRequest → World → S → (error + list ModelStreamEvent) * World * S;
  MC_Capabilities : option ModelCapabilityDescriptor
}.

(** The fields of [Coordinator] for the model. *)
Record ModelSide := mkModelSide {
  MS_Model : ModelClient;
  MS_ModelProvider : string;
  MS_ModelName : string
}.

(** [json.Marshal] and SHA-256 in hex; the messages of a bundle and its token estimate
    (internal/model/client, internal/context/compressor); the JSON of what [RefreshHash] hashes. *)
Context (json_Marshal : Any → error + string) (sha256_hex : string → string)
  (diagnostics : PromptBundle → Any) (EstimatePromptTokens : PromptBundle → Z)
  (hashed_parts : PromptBundle → Any).

Notation KM := (M (KSys S)).

(** ** The model of a definition *)

Definition modelCapabilities (c : ModelSide) : option ModelCapabilityDescriptor :=
  match c.(MS_Model).(MC_Capabilities) with
  | None => None
  | Some caps =>
      let caps := if (caps.(MCap_Provider) == "") && (c.(MS_ModelProvider) != "")
                  then caps <| MCap_Provider := c.(MS_ModelProvider) |> else caps in
      Some (if (caps.(MCap_Model) == "") && (c.(MS_ModelName) != "")
            then caps <| MCap_Model := c.(MS_ModelName) |> else caps)
  end.

Definition snapshotModelProvider (c : ModelSide) : string :=
  if c.(MS_ModelProvider) != "" then c.(MS_ModelProvider) else
  match modelCapabilities c with
  | Some caps => if caps.(MCap_Provider) != "" then caps.(MCap_Provider) else "stub"
  | None => "stub"
  end.

Definition snapshotModelName (c : ModelSide) : string :=
  if c.(MS_ModelName) != "" then c.(MS_ModelName) else
  let fallback := if snapshotModelProvider c == "stub" then "stub-decision" else "" in
  match modelCapabilities c with
  | Some caps => if caps.(MCap_Model) != "" then caps.(MCap_Model) else fallback
  | None => fallback
  end.

Definition modelProviderForDefinition (c : ModelSide) (definition : AgentDefinition) : string :=
  let own := TrimSpace definition.(Agent_Strategies).(Strat_Model).(ModelS_Provider) in
  if own != "" then own else snapshotModelProvider c.

Definition modelNameForDefinition (c : ModelSide) (definition : AgentDefinition) : string :=
  let own := TrimSpace definition.(Agent_Strategies).(Strat_Model).(ModelS_Model) in
  if own != "" then own else snapshotModelName c.

Definition modelRequestForDefinition (c : ModelSide) (definition : AgentDefinition) (runID : string)
    (bundle : PromptBundle) : ModelRequest :=
  let model := definition.(Agent_Strategies).(Strat_Model) in
  zeroModelRequest <| MReq_RunID := runID |> <| MReq_PromptBundle := bundle |>
    <| MReq_Timeout := modelCallTimeout definition.(Agent_Runtime).(Limits_MaxDuration)
                         model.(ModelS_TimeoutMS) |>
    <| MReq_ModelProvider := modelProviderForDefinition c definition |>
    <| MReq_ModelName := modelNameForDefinition c definition |>
    <| MReq_MaxOutputTokens := model.(ModelS_MaxOutputTokens) |>
    <| MReq_Temperature := model.(ModelS_Temperature) |>
    <| MReq_Thinking := model.(ModelS_Thinking) |>
    <| MReq_ReasoningEffort := model.(ModelS_ReasoningEffort) |>.

Definition validateModelProviderForDefinition (c : ModelSide) (definition : AgentDefinition)
    : option error :=
  let requested := TrimSpace definition.(Agent_Strategies).(Strat_Model).(ModelS_Provider) in
  let available := snapshotModelProvider c in
  if (requested == "") || (available == "") || (requested == available) then None
  else Some (ErrRuntime (NewRuntimeError CodeModelError "model provider is not available for this runtime"
               {["requested_provider" := AString requested; "available_provider" := AString available]})).

(** ** Traces *)

(** [_ = c.Trace.Record(...)], without the test for a nil recorder that [recordTrace] has. *)
Definition trace_direct (envelope : AgentEnvelope) (runID taskID stepID type : string)
    (payload : gmap string Any) : KM unit :=
  let! now := now in
  λ w s, match w.(w_trace) with
         | None => (Panic, w, s)
         | Some _ => trace_Record (zeroTraceEvent
             <| Trace_TraceID := envelope.(Env_TraceID) |>
             <| Trace_TenantID := envelope.(Env_Context).(Ctx_TenantID) |> <| Trace_SpanID := stepID |>
             <| Trace_RunID := runID |> <| Trace_TaskID := taskID |> <| Trace_Type := type |>
             <| Trace_Payload := payload |> <| Trace_CreatedAt := now |>) w s
         end.

Definition put_if (cond : bool) (k : string) (v : Any) (m : gmap string Any) : gmap string Any :=
  if cond then <[k := v]> m else m.

Definition StableJSON_any (v : Any) : error + string :=
  match json_Marshal v with inl err => inl err | inr data => inr (sha256_hex data) end.

Definition caps_any (c : ModelCapabilityDescriptor) : Any :=
  AStruct "ModelCapabilityDescriptor" [("Provider", AString c.(MCap_Provider));
    ("Model", AString c.(MCap_Model)); ("APIStyle", AString c.(MCap_APIStyle));
    ("StructuredOutput", ABool c.(MCap_StructuredOutput)); ("Streaming", ABool c.(MCap_Streaming));
    ("OpenAICompatible", ABool c.(MCap_OpenAICompatible)); ("Thinking", AString c.(MCap_Thinking));
    ("ReasoningEffort", AString c.(MCap_ReasoningEffort));
    ("MaxOutputTokens", AInt c.(MCap_MaxOutputTokens));
    ("SupportsJSONResponseMode", ABool c.(MCap_SupportsJSONResponseMode))].

Definition assembly_any (s : PromptAssemblyStep) : Any :=
  AStruct "PromptAssemblyStep" [("StepID", AString s.(AStep_StepID)); ("Title", AString s.(AStep_Title));
    ("SourceType", AString s.(AStep_SourceType)); ("SourceLabel", AString s.(AStep_SourceLabel));
    ("EditTarget", AString s.(AStep_EditTarget)); ("MessageRole", AString s.(AStep_MessageRole));
    ("PromptSection", AString s.(AStep_PromptSection)); ("Reason", AString s.(AStep_Reason));
    ("Content", AString s.(AStep_Content)); ("ContentPreview", AString s.(AStep_ContentPreview));
    ("TokensEstimate", AInt s.(AStep_TokensEstimate)); ("Included", ABool s.(AStep_Included))].

Definition output_any (s : OutputStrategy) : Any :=
  AStruct "OutputStrategy" [("OutputMode", AString s.(OutS_OutputMode));
    ("OutputSchema", any_map s.(OutS_OutputSchema)); ("StrictJSON", ABool s.(OutS_StrictJSON))].

Definition recordModelCalled (c : ModelSide) (envelope : AgentEnvelope) (definition : AgentDefinition)
    (runID taskID stepID : string) (bundle : PromptBundle) (repairAttempt : Z) : KM unit :=
  let provider := modelProviderForDefinition c definition in
  let name := modelNameForDefinition c definition in
  let max := definition.(Agent_Strategies).(Strat_Model).(ModelS_MaxOutputTokens) in
  let payload : gmap string Any :=
    {["prompt_bundle_hash" := AString bundle.(Bundle_Hash); "repair_attempt" := AInt repairAttempt]} in
  let payload := put_if (provider != "") "model_provider" (AString provider) payload in
  let payload := put_if (name != "") "model_name" (AString name) payload in
  let payload := put_if (max >? 0)%Z "max_output_tokens" (AInt max) payload in
  let payload :=
    match modelCapabilities c with
    | None => payload
    | Some caps =>
        let payload := <["model_capabilities" := caps_any caps]> payload in
        match StableJSON_any (caps_any caps) with
        | inr h => <["model_capabilities_hash" := AString h]> payload
        | inl _ => payload
        end
    end in
  trace_direct envelope runID taskID stepID TraceModelCalled
    (<["prompt_snapshot" := any_map {[
        "prompt_bundle_hash" := AString bundle.(Bundle_Hash); "repair_attempt" := AInt repairAttempt;
        "model_provider" := AString provider; "model_name" := AString name;
        "messages" := diagnostics bundle;
        "assembly_steps" := AList (map assembly_any bundle.(Bundle_AssemblySteps));
        "tokens_estimate" := AInt (EstimatePromptTokens bundle)]}]> payload).

Definition recordModelCompleted (envelope : AgentEnvelope) (runID taskID stepID : string)
    (outcome : ModelResponse + error) : KM unit :=
  trace_direct envelope runID taskID stepID TraceModelCompleted
    match outcome with
    | inr err => {["error" := AString (Error err)]}
    | inl r => {["model_provider" := AString r.(MResp_ModelProvider);
                 "model_name" := AString r.(MResp_ModelName);
                 "prompt_tokens" := AInt r.(MResp_Usage).(Usage_PromptTokens);
                 "completion_tokens" := AInt r.(MResp_Usage).(Usage_CompletionTokens)]}
    end.

Definition recordModelDelta (envelope : AgentEnvelope) (runID taskID stepID : string)
    (event : ModelStreamEvent) : KM unit :=
  trace_direct envelope runID taskID stepID TraceModelDelta
    (put_if (event.(MEvent_ModelName) != "") "model_name" (AString event.(MEvent_ModelName))
      (put_if (event.(MEvent_ModelProvider) != "") "model_provider" (AString event.(MEvent_ModelProvider))
        {["delta_length" := AInt (Z.of_nat (String.length event.(MEvent_Delta)))]})).

(** ** One call *)

(** What the events read so far add up to. *)
Record StreamState := mkStreamState {
  St_Raw : string;
  St_Provider : string;
  St_ModelName : string;
  St_Usage : ModelUsage
}.
Definition zeroStreamState : StreamState := mkStreamState "" "" "" zeroModelUsage.

Definition renamed (old new : string) : string := if new != "" then new else old.

(** One turn of [range events]. *)
Definition stream_event (st : StreamState) (event : ModelStreamEvent) : error + StreamState :=
  let provider := renamed st.(St_Provider) event.(MEvent_ModelProvider) in
  let name := renamed st.(St_ModelName) event.(MEvent_ModelName) in
  if event.(MEvent_Type) == ModelStreamDelta
  then inr (mkStreamState (st.(St_Raw) +:+ event.(MEvent_Delta)) provider name st.(St_Usage))
  else if event.(MEvent_Type) == ModelStreamCompleted
  then inr (mkStreamState (renamed st.(St_Raw) event.(MEvent_RawDecision)) provider name event.(MEvent_Usage))
  else if event.(MEvent_Type) == ModelStreamError
  then inl (default (ErrRuntime (NewRuntimeError CodeModelError "model stream failed" ∅)) event.(MEvent_Err))
  else inl (ErrRuntime (NewRuntimeError CodeModelError
              ("unknown model stream event " +:+ fmt_q event.(MEvent_Type)) ∅)).

Fixpoint stream_loop (envelope : AgentEnvelope) (runID taskID stepID : string) (st : StreamState)
    (events : list ModelStreamEvent) : KM StreamState :=
  match events with
  | [] => ret st
  | event :: events =>
      match stream_event st event with
      | inl err => throw err
      | inr st =>
          do! (if event.(MEvent_Type) == ModelStreamDelta
               then recordModelDelta envelope runID taskID stepID event else ret tt) in
          stream_loop envelope runID taskID stepID st events
      end
  end.

Definition stream_response (st : StreamState) : error + ModelResponse :=
  if st.(St_Raw) == ""
  then inl (ErrRuntime (NewRuntimeError CodeModelError "model stream completed without a decision" ∅))
  else inr (mkModelResponse st.(St_Raw) st.(St_Provider) st.(St_ModelName) st.(St_Usage)).

Definition ask_client {A} (f : World → S → (error + A) * World * S) : KM A :=
  on_ext (λ w s, let '(r, w', s') := f w s in
                 (match r with inl err => Err err | inr a => Ok a end, w', s')).

Definition streamModel (c : ModelSide) (envelope : AgentEnvelope) (definition : AgentDefinition)
    (runID taskID stepID : string) (bundle : PromptBundle) : KM ModelResponse :=
  match validateModelProviderForDefinition c definition with
  | Some err => throw err
  | None =>
      let! events := ask_client (c.(MS_Model).(MC_Stream) (modelRequestForDefinition c definition runID bundle)) in
      let! st := stream_loop envelope runID taskID stepID zeroStreamState events in
      lift_sum (stream_response st)
  end.

Definition callModel (c : ModelSide) (definition : AgentDefinition) (runID : string)
    (bundle : PromptBundle) : KM ModelResponse :=
  match validateModelProviderForDefinition c definition with
  | Some err => throw err
  | None => ask_client (c.(MS_Model).(MC_Complete) (modelRequestForDefinition c definition runID bundle))
  end.

Definition invokeModel (c : ModelSide) (envelope : AgentEnvelope) (definition : AgentDefinition)
    (runID taskID stepID : string) (bundle : PromptBundle) : KM ModelResponse :=
  if modelStreamingEnabled definition.(Agent_Strategies).(Strat_Model)
  then streamModel c envelope definition runID taskID stepID bundle
  else callModel c definition runID bundle.

(** ** Retries *)

(** [n]: the attempts left after this one. *)
Fixpoint retry_model (ask : KM ModelResponse) (n : nat) : KM ModelResponse :=
  let! r := attempt ask in
  match r with
  | inl response => ret response
  | inr err => match n with
               | Datatypes.S n => if isRetryableModelError err then retry_model ask n else throw err
               | O => throw err
               end
  end.

(** [attempts], at least 1; the addition wraps. *)
Definition model_attempts (definition : AgentDefinition) : Z :=
  let attempts := int64 (definition.(Agent_Runtime).(Limits_MaxModelRetries) + 1) in
  if (attempts <? 1)%Z then 1%Z else attempts.

Definition completeModel (c : ModelSide) (envelope : AgentEnvelope) (definition : AgentDefinition)
    (runID taskID stepID : string) (bundle : PromptBundle) : KM ModelResponse :=
  retry_model (invokeModel c envelope definition runID taskID stepID bundle)
    (Z.to_nat (model_attempts definition - 1)).

(** ** Repair *)

(** The hash is left as it was when its JSON fails. *)
Definition RefreshHash (bundle : PromptBundle) : PromptBundle :=
  match StableJSON_any (hashed_parts bundle) with
  | inl _ => bundle
  | inr h => bundle <| Bundle_Hash := h |>
  end.

Definition repair_constraint (repairAttempt : Z) (cause : error) : string :=
  "repair attempt " +:+ fmt_d repairAttempt +:+ ": previous decision was invalid (" +:+ Error cause +:+
  "); return one valid Decision JSON object that matches the contract".

Definition with_repair (bundle : PromptBundle) (repairAttempt : Z) (cause : error) : PromptBundle :=
  let constraint := repair_constraint repairAttempt cause in
  RefreshHash (bundle <| Bundle_Constraints := bundle.(Bundle_Constraints) ++ [constraint] |>
    <| Bundle_AssemblySteps := bundle.(Bundle_AssemblySteps) ++ [zeroPromptAssemblyStep
         <| AStep_StepID := "repair-attempt-" +:+ fmt_d repairAttempt |>
         <| AStep_Title := "加入决策修复提示" |> <| AStep_SourceType := "decision_repair" |>
         <| AStep_SourceLabel := "运行时修复策略" |> <| AStep_EditTarget := "运行策略 > 输出协议" |>
         <| AStep_MessageRole := "system" |> <| AStep_PromptSection := "constraints" |>
         <| AStep_Reason := "上一轮模型输出无法解析或不符合决策协议" |>
         <| AStep_Content := constraint |> <| AStep_TokensEstimate := estimateTextTokens constraint |>
         <| AStep_Included := true |>] |>).

Definition repairPrompt (envelope : AgentEnvelope) (runID taskID stepID : string)
    (bundle : PromptBundle) (repairAttempt : Z) (cause : error) : KM PromptBundle :=
  let bundle := with_repair bundle repairAttempt cause in
  do! trace_direct envelope runID taskID stepID TraceDecisionRepairRequested
        {["repair_attempt" := AInt repairAttempt; "reason" := AString (Error cause);
          "prompt_bundle_hash" := AString bundle.(Bundle_Hash)]} in
  ret bundle.

(** What one attempt comes to: a decision, or an error that may be repaired. *)
Definition attempt_decision (d : Dispatcher Executor S) (c : ModelSide) (envelope : AgentEnvelope)
    (definition : AgentDefinition) (runID taskID stepID : string) (bundle : PromptBundle)
    (candidateTools : list ToolCard) (repairAttempt : Z) : KM (Contracts.Decision + error) :=
  let trace type payload := trace_direct envelope runID taskID stepID type payload in
  do! recordModelCalled c envelope definition runID taskID stepID bundle repairAttempt in
  let! called := attempt (completeModel c envelope definition runID taskID stepID bundle) in
  do! recordModelCompleted envelope runID taskID stepID called in
  match called with
  | inr err => throw err
  | inl response =>
      let output := definition.(Agent_Strategies).(Strat_Output) in
      match ParseDecision response.(MResp_RawDecisionJSON) output with
      | inl err => ret (inr err)
      | inr decision =>
          let! decision :=
            (if decision.(Decision_DecisionID) == ""
             then let! id := idgen_New "decision" in ret (decision <| Decision_DecisionID := id |>)
             else ret decision) in
          let about (decision : Contracts.Decision) : gmap string Any :=
            {["decision_id" := AString decision.(Decision_DecisionID);
              "type" := AString decision.(Decision_Type); "repair_attempt" := AInt repairAttempt]} in
          do! trace TraceDecisionCreated (about decision) in
          match Normalize decision candidateTools with
          | inl err =>
              do! trace TraceDecisionValidated (<["error" := AString (Error err)]> (about decision)) in
              ret (inr err)
          | inr validation =>
              match ValidateDecision output validation with
              | Some err =>
                  do! trace TraceDecisionValidated
                        (<["error" := AString (Error err)]>
                           (<["output_strategy" := output_any output]> (about decision))) in
                  ret (inr err)
              | None =>
                  let decision := validation.(VR_Decision) in
                  do! observeHook d "on_model_decision" envelope definition runID taskID
                        {["decision" := decision_any decision; "repair_attempt" := AInt repairAttempt]} in
                  do! trace TraceDecisionValidated
                        (<["warnings" := AStrings validation.(VR_Warnings)]> (about decision)) in
                  do! trace TraceDecisionCompleted (about decision) in
                  ret (inl decision)
              end
          end
      end
  end.

(** The loop of [modelDecision]; [None] only when [fuel] runs out. *)
Fixpoint decide (d : Dispatcher Executor S) (c : ModelSide) (envelope : AgentEnvelope)
    (definition : AgentDefinition) (runID taskID stepID : string) (candidateTools : list ToolCard)
    (maxRepairAttempts : Z) (fuel : nat) (bundle : PromptBundle) (repairAttempt : Z)
    : KM (option Contracts.Decision) :=
  match fuel with
  | O => ret None
  | Datatypes.S fuel =>
      let! r := attempt_decision d c envelope definition runID taskID stepID bundle candidateTools
                  repairAttempt in
      match r with
      | inl decision => ret (Some decision)
      | inr err =>
          if (repairAttempt >=? maxRepairAttempts)%Z || negb (isRepairable err) then throw err else
          let! bundle := repairPrompt envelope runID taskID stepID bundle (repairAttempt + 1) err in
          decide d c envelope definition runID taskID stepID candidateTools maxRepairAttempts fuel bundle
            (repairAttempt + 1)
      end
  end.

(** The attempts the loop can make: the first one and the repairs. *)
Definition repair_fuel (maxRepairAttempts : Z) : nat := Datatypes.S (Z.to_nat maxRepairAttempts).

Definition modelDecision (d : Dispatcher Executor S) (c : ModelSide) (envelope : AgentEnvelope)
    (definition : AgentDefinition) (runID taskID stepID : string) (bundle : PromptBundle)
    (policySet : PolicySet) (candidateTools : list ToolCard) : KM Contracts.Decision :=
  let max := repairAttemptLimit policySet definition in
  let! r := decide d c envelope definition runID taskID stepID candidateTools max (repair_fuel max) bundle 0 in
  match r with Some decision => ret decision | None => panic end.

(** ** Facts *)

(** The events of a stream, without the traces. *)
Fixpoint stream_fold (st : StreamState) (events : list ModelStreamEvent) : error + StreamState :=
  match events with
  | [] => inr st
  | event :: events => match stream_event st event with
                       | inl err => inl err
                       | inr st => stream_fold st events
                       end
  end.

Lemma trace_direct_run envelope runID taskID stepID type payload w s log :
  w_trace w = Some log → ∃ w' e, trace_direct envelope runID taskID stepID type payload w s = (Ok tt, w', s) ∧
    w_trace w' = Some (log ++ [e]) ∧ Trace_Type e = type ∧ w_draws w' = w_draws w.
Proof.
  intros Hw. unfold trace_direct, bind, now, time_Now, lift_env. cbv beta iota.
  assert (Hw1 : w_trace (w <| w_reads := Datatypes.S (w_reads w) |>) = Some log) by done.
  rewrite Hw1. unfold trace_Record, lift_env. eexists _, _. split; [reflexivity|].
  cbn. by rewrite Hw.
Qed.

Definition is_delta (event : ModelStreamEvent) : bool := event.(MEvent_Type) == ModelStreamDelta.

Lemma stream_loop_run envelope runID taskID stepID events : ∀ st w s log,
  w_trace w = Some log → ∃ w',
    stream_loop envelope runID taskID stepID st events w s =
      (match stream_fold st events with inl err => Err err | inr st => Ok st end, w', s) ∧
    ∃ deltas, w_trace w' = Some (log ++ deltas) ∧ (List.length deltas ≤ List.length (List.filter is_delta events))%nat ∧
      Forall (λ e, Trace_Type e = TraceModelDelta) deltas.
Proof.
  induction events as [|event events IH]; intros st w s log Hw; cbn [stream_loop stream_fold].
  - exists w. split; [done|]. exists []. by rewrite app_nil_r.
  - cbn [List.filter]. destruct (stream_event st event) as [err|st'] eqn:E.
    { exists w. split; [done|]. exists []. rewrite app_nil_r. split_and!; [done|cbn; lia|done]. }
    unfold is_delta at 1. destruct (MEvent_Type event == ModelStreamDelta).
    + destruct (trace_direct_run envelope runID taskID stepID TraceModelDelta
        (put_if (MEvent_ModelName event != "") "model_name" (AString (MEvent_ModelName event))
          (put_if (MEvent_ModelProvider event != "") "model_provider" (AString (MEvent_ModelProvider event))
            {["delta_length" := AInt (Z.of_nat (String.length (MEvent_Delta event)))]})) w s log Hw)
        as (w1 & e & E1 & Hw1 & He & _).
      unfold recordModelDelta. rewrite (bind_Ok _ _ _ _ _ _ _ E1).
      destruct (IH st' w1 s _ Hw1) as (w2 & -> & ds & Hds & Hl & HF). exists w2. split; [done|].
      exists (e :: ds). rewrite Hds, <- app_assoc. split_and!; [done|cbn; lia|by constructor].
    + cbn [bind]. unfold bind, ret. cbn. apply (IH st' w s log Hw).
Qed.

Lemma stream_fold_app st a b :
  stream_fold st (a ++ b) = match stream_fold st a with inl err => inl err | inr st => stream_fold st b end.
Proof.
  revert st. induction a as [|x a IH]; intros st; cbn; [done|]. by destruct (stream_event st x).
Qed.

Definition text_of (deltas : list ModelStreamEvent) : string :=
  fold_left (λ raw e, raw +:+ e.(MEvent_Delta)) deltas "".

Lemma stream_fold_deltas deltas : ∀ st,
  Forall (λ e, MEvent_Type e = ModelStreamDelta) deltas →
  ∃ st', stream_fold st deltas = inr st' ∧ St_Usage st' = St_Usage st ∧
    St_Raw st' = fold_left (λ raw e, raw +:+ e.(MEvent_Delta)) deltas (St_Raw st).
Proof.
  induction deltas as [|e deltas IH]; intros st Hd; [by exists st|].
  apply Forall_cons in Hd as [He Hd]. cbn [stream_fold]. unfold stream_event at 1. rewrite He.
  cbn [fold_left]. apply (IH (mkStreamState _ _ _ _) Hd).
Qed.

Lemma streamModel_run c envelope definition runID taskID stepID bundle w s events w1 s1 log :
  validateModelProviderForDefinition c definition = None →
  MC_Stream c.(MS_Model) (modelRequestForDefinition c definition runID bundle) w (k_ext s) = (inr events, w1, s1) →
  w_trace w1 = Some log →
  ∃ w2, streamModel c envelope definition runID taskID stepID bundle w s =
    (match stream_fold zeroStreamState events with
     | inl err => Err err
     | inr st => match stream_response st with inl err => Err err | inr r => Ok r end
     end, w2, s <| k_ext := s1 |>) ∧
    ∃ deltas, w_trace w2 = Some (log ++ deltas) ∧ Forall (λ e, Trace_Type e = TraceModelDelta) deltas.
Proof.
  intros Hv Hs Hw. unfold streamModel. rewrite Hv.
  assert (E : ask_client (MC_Stream (MS_Model c) (modelRequestForDefinition c definition runID bundle)) w s =
    (Ok events, w1, s <| k_ext := s1 |>)) by (unfold ask_client, on_ext, zoom; by rewrite Hs).
  rewrite (bind_Ok _ _ _ _ _ _ _ E).
  destruct (stream_loop_run envelope runID taskID stepID events zeroStreamState w1 (s <| k_ext := s1 |>) log Hw)
    as (w2 & E2 & ds & Hds & _ & HF).
  exists w2. split; [|by exists ds]. unfold bind. rewrite E2.
  destruct (stream_fold _ _) as [err|st]; [done|]. by destruct (stream_response st).
Qed.

(** What a stream is taken for: a completed event ends the decision with the raw text it brings, or
    with the concatenated deltas when it brings none, and its usage; text of both kinds that is empty is an
    error.  An error event fails the call whatever was received before it, so no part of a broken stream
    is ever parsed.  Only the deltas are traced and only the outside changes. *)
Theorem stream_decides c envelope definition runID taskID stepID bundle w s deltas e w1 s1 log :
  validateModelProviderForDefinition c definition = None →
  MC_Stream c.(MS_Model) (modelRequestForDefinition c definition runID bundle) w (k_ext s) =
    (inr (deltas ++ [e]), w1, s1) →
  Forall (λ e, MEvent_Type e = ModelStreamDelta) deltas → w_trace w1 = Some log →
  let text := if e.(MEvent_RawDecision) != "" then e.(MEvent_RawDecision) else text_of deltas in
  ∃ r w2 ds, streamModel c envelope definition runID taskID stepID bundle w s = (r, w2, s <| k_ext := s1 |>) ∧
    w_trace w2 = Some (log ++ ds) ∧ Forall (λ e, Trace_Type e = TraceModelDelta) ds ∧
    (e.(MEvent_Type) = ModelStreamCompleted → text ≠ "" →
       ∃ response, r = Ok response ∧ MResp_RawDecisionJSON response = text ∧
         MResp_Usage response = e.(MEvent_Usage)) ∧
    (e.(MEvent_Type) = ModelStreamCompleted → text = "" → ∃ err, r = Err err) ∧
    (e.(MEvent_Type) = ModelStreamError → ∀ err, e.(MEvent_Err) = Some err → r = Err err).
Proof.
  intros Hv Hs Hd Hw. cbv zeta.
  destruct (streamModel_run c envelope definition runID taskID stepID bundle w s _ w1 s1 log Hv Hs Hw)
    as (w2 & E & ds & Hds & HF).
  eexists _, w2, ds. split; [exact E|]. split; [done|]. split; [done|].
  destruct (stream_fold_deltas deltas zeroStreamState Hd) as (st & Hst & Hu & Hraw).
  rewrite stream_fold_app, Hst. cbn [stream_fold]. unfold stream_event, renamed.
  change (fold_left _ deltas (St_Raw zeroStreamState)) with (text_of deltas) in Hraw.
  split_and!; intros He; rewrite He;
    repeat match goal with |- context [String.eqb ?a ?b] =>
      let v := eval vm_compute in (String.eqb a b) in
      match v with true => change (String.eqb a b) with true | false => change (String.eqb a b) with false end
    end; cbn -[String.eqb]; rewrite ?Hraw.
  - intros Ht. unfold stream_response. cbn -[String.eqb].
    apply eqb_neq_false in Ht. rewrite Ht. by eexists.
  - intros Ht. unfold stream_response. cbn -[String.eqb]. rewrite Ht. by eexists.
  - by intros err ->.
Qed.

(** [k] retryable failures in a row, and the state they leave. *)
Inductive failures (ask : KM ModelResponse) : nat → World → KSys S → World → KSys S → Prop :=
| failures_none w s : failures ask 0 w s w s
| failures_more k w s err w1 s1 w2 s2 :
    ask w s = (Err err, w1, s1) → isRetryableModelError err = true →
    failures ask k w1 s1 w2 s2 → failures ask (Datatypes.S k) w s w2 s2.

(** A call of the model is repeated only after a retryable failure, and at most [MaxModelRetries]
    times (never, when the number is negative or its successor overflows): the outcome is that of the
    last attempt, which succeeded, or failed for good, or was the last one allowed. *)
Theorem completeModel_retries c envelope definition runID taskID stepID bundle w s r w' s' :
  let ask := invokeModel c envelope definition runID taskID stepID bundle in
  let retries := Z.to_nat (model_attempts definition - 1) in
  completeModel c envelope definition runID taskID stepID bundle w s = (r, w', s') ↔
  ∃ k w1 s1, failures ask k w s w1 s1 ∧ (k ≤ retries)%nat ∧ ask w1 s1 = (r, w', s') ∧
    ∀ err, r = Err err → isRetryableModelError err = true → k = retries.
Proof.
  cbv zeta. unfold completeModel. set (ask := invokeModel _ _ _ _ _ _ _).
  generalize (Z.to_nat (model_attempts definition - 1)). intros n. revert w s.
  induction n as [|n IH]; intros w s; cbn [retry_model]; unfold bind, attempt, ret, throw;
    destruct (ask w s) as [[[a|err|] w1] s1] eqn:E; cbn.
  all: try (split; [intros [= <- <- <-]; exists 0%nat, w, s; split_and!; [constructor|lia|done|naive_solver]
                   |intros (k & w2 & s2 & F & Hk & E2 & _); inversion F; subst; simplify_eq; congruence]).
  - split; [intros [= <- <- <-]; exists 0%nat, w, s; split_and!; [constructor|lia|done|done]|].
    intros (k & w2 & s2 & F & Hk & E2 & _). inversion F; subst; [|lia]. congruence.
  - destruct (isRetryableModelError err) eqn:Er.
    + rewrite IH. split.
      * intros (k & w2 & s2 & F & Hk & E2 & Hl). exists (Datatypes.S k), w2, s2.
        split_and!; [by econstructor|lia|done|]. intros e He Hr. by rewrite (Hl e He Hr).
      * intros (k & w2 & s2 & F & Hk & E2 & Hl). inversion F as [|k' ? ? err' w1' s1' ? ? E' Hr' F']; subst.
        { rewrite E in E2. injection E2 as <- <- <-. specialize (Hl err eq_refl Er). lia. }
        rewrite E in E'. injection E' as <- <- <-. exists k', w2, s2. split_and!; [done|lia|done|].
        intros e He Hr. specialize (Hl e He Hr). lia.
    + split; [intros [= <- <- <-]; exists 0%nat, w, s; split_and!; [constructor|lia|done|congruence]|].
      intros (k & w2 & s2 & F & Hk & E2 & _). inversion F; subst; congruence.
Qed.

(** *** The loop of repairs *)

Section loop.
Context (d : Dispatcher Executor S) (c : ModelSide) (envelope : AgentEnvelope)
  (definition : AgentDefinition) (runID taskID stepID : string) (tools : list ToolCard).

Notation decide_ max := (decide d c envelope definition runID taskID stepID tools max).

(** The repairs left at attempt [n]. *)
Lemma decide_enough max : ∀ fuel n bundle w s,
  (Z.to_nat (max - n) < fuel)%nat →
  decide_ max fuel bundle n w s = decide_ max (Datatypes.S (Z.to_nat (max - n))) bundle n w s ∧
  (decide_ max fuel bundle n w s).1.1 ≠ Ok None.
Proof.
  induction fuel as [|fuel IH]; intros n bundle w s Hf; [lia|].
  cbn [decide]. unfold bind.
  destruct (attempt_decision _ _ _ _ _ _ _ _ _ _ w s) as [[[[dec|err]|e|] w1] s1]; [done| |done|done].
  destruct ((n >=? max)%Z || negb (isRepairable err)) eqn:T; [done|].
  apply orb_false_iff in T as [T _].
  destruct (repairPrompt _ _ _ _ _ _ _ w1 s1) as [[[bundle'|e|] w2] s2]; [|done|done].
  assert (Hn : Z.to_nat (max - n) = Datatypes.S (Z.to_nat (max - (n + 1)))) by lia.
  rewrite Hn. apply IH. lia.
Qed.

(** C18. The repair loop terminates: however the model answers, [modelDecision] makes at most one attempt
    and the repairs its limit allows (none, for a limit below 1), so that more fuel changes nothing and
    the fuel given never runs out. *)
Theorem modelDecision_terminates max bundle fuel w s :
  (repair_fuel max ≤ fuel)%nat →
  decide_ max fuel bundle 0 w s = decide_ max (repair_fuel max) bundle 0 w s ∧
  (decide_ max (repair_fuel max) bundle 0 w s).1.1 ≠ Ok None.
Proof.
  unfold repair_fuel. intros Hf. pose proof (decide_enough max fuel 0 bundle w s) as E.
  rewrite Z.sub_0_r in E. destruct E as [E1 E2]; [lia|]. split; [done|]. by rewrite <- E1.
Qed.

(** [decision] is what [raw] says, as the validator completed it. *)
Definition accepted (decision : Contracts.Decision) : Prop :=
  ∃ raw parsed validation, ParseDecision raw definition.(Agent_Strategies).(Strat_Output) = inr parsed ∧
    (∃ id, Normalize (if parsed.(Decision_DecisionID) == ""
                      then parsed <| Decision_DecisionID := id |> else parsed) tools = inr validation) ∧
    ValidateDecision definition.(Agent_Strategies).(Strat_Output) validation = None ∧
    decision = validation.(VR_Decision).

Lemma attempt_decision_accepted bundle n w s decision w' s' :
  attempt_decision d c envelope definition runID taskID stepID bundle tools n w s =
    (Ok (inl decision), w', s') → accepted decision.
Proof.
  unfold attempt_decision. intros E. run_ok E. rename a0 into called.
  destruct called as [response|err]; [|done].
  destruct (ParseDecision _ _) as [err|parsed] eqn:Ep; [done|].
  run_ok E. rename a0 into stamped.
  assert (Hid : ∃ id, stamped = (if parsed.(Decision_DecisionID) == ""
                                 then parsed <| Decision_DecisionID := id |> else parsed)).
  { match goal with E : (if _ then _ else _) _ _ = (Ok stamped, _, _) |- _ => rename E into Es end.
    destruct (Decision_DecisionID parsed == "").
    - run_ok Es. injection Es as <- _ _. by eexists.
    - injection Es as <- _ _. by exists "". }
  destruct (Normalize stamped tools) as [err|validation] eqn:En; [by run_ok E|].
  destruct (ValidateDecision _ validation) as [err|] eqn:Ev; [by run_ok E|].
  run_ok E. injection E as <- _ _. destruct Hid as [id ->].
  exists (MResp_RawDecisionJSON response), parsed, validation. split_and!; [done|by exists id|done|done].
Qed.

Lemma decide_accepted max fuel : ∀ n bundle w s decision w' s',
  decide_ max fuel bundle n w s = (Ok (Some decision), w', s') → accepted decision.
Proof.
  induction fuel as [|fuel IH]; intros n bundle w s decision w' s' E; cbn [decide] in E; [done|].
  apply bind_Ok_inv in E as ([dec|err] & w1 & s1 & E1 & E).
  - injection E as <- _ _. by eapply attempt_decision_accepted.
  - destruct (_ || _); [done|]. apply bind_Ok_inv in E as (b & w2 & s2 & _ & E). by eapply IH.
Qed.

End loop.

(** C19. Nothing the model says reaches the run unchecked: a decision [modelDecision] returns was parsed
    in the agent's output mode, was normalised, with its id filled in, against the candidate tools, and passed
    the output policy. *)
Theorem modelDecision_accepted d c envelope definition runID taskID stepID bundle policySet tools w s
    decision w' s' :
  modelDecision d c envelope definition runID taskID stepID bundle policySet tools w s =
    (Ok decision, w', s') →
  accepted definition tools decision.
Proof.
  unfold modelDecision. intros E. apply bind_Ok_inv in E as (r & w1 & s1 & E1 & E).
  destruct r as [dec|]; [|done]. injection E as <- _ _. by eapply decide_accepted.
Qed.
End model.

(** ** Instances *)

#[export] Instance sample_decisions : DecisionDecoder := {|
  Unmarshal text := if text == "ok" then inr (zeroDecision <| Decision_Type := DecisionTypeNoOp |>
                                                 <| Decision_Reason := "nothing to do" |>)
                    else inl "not a decision";
  DecodeStrict text := inl "not read here"
|}.

(** It streams, fails the first call, answers nonsense to the second and then a decision; each call is
    noted outside. *)
Definition scripted {A} (good bad : A) (_ : ModelRequest) (w : World) (s : list ToolCall)
    : (error + A) * World * list ToolCall :=
  (match List.length s with
   | 0%nat => inl (ErrRuntime (NewRuntimeError CodeModelTimeout "slow" ∅))
   | 1%nat => inr bad
   | _ => inr good
   end, w, s ++ [zeroToolCall]).

Definition scripted_client : ModelClient (S:=list ToolCall) :=
  let delta text := zeroModelStreamEvent <| MEvent_Type := ModelStreamDelta |> <| MEvent_Delta := text |> in
  let done_ := zeroModelStreamEvent <| MEvent_Type := ModelStreamCompleted |>
                 <| MEvent_Usage := mkModelUsage 7 2 |> in
  mkModelClient (scripted (zeroModelResponse <| MResp_RawDecisionJSON := "ok" |>) zeroModelResponse)
    (scripted [delta "o"; delta "k"; done_] [delta "no"; done_]) None.

Definition sample_model : ModelSide (S:=list ToolCall) := mkModelSide scripted_client "stub" "".
Definition sample_dispatcher : Dispatcher unit (list ToolCall) :=
  mkDispatcher None false false ∅ None None (λ _ _ _ w s, (w, s)).
Definition sample_agent : AgentDefinition :=
  zeroAgentDefinition <| Agent_AgentID := "a" |> <| Agent_Version := "v1" |>
    <| Agent_Runtime := zeroRuntimeLimits <| Limits_MaxSteps := 3%Z |> <| Limits_MaxModelRetries := 1%Z |>
                          <| Limits_MaxRepairAttempts := 2%Z |> |>.
Definition kernel0 (ext : list ToolCall) : KSys (list ToolCall) :=
  mkKSys NewRunRepo NewInMemoryStore NewInMemoryRepository NewToolRepo (NewPolicyStore []) ext.

#[local] Notation sample_decision := (modelDecision (λ _, inr "{}") (λ s, s) (λ _, ANil) (λ _, 0%Z) (λ _, ANil)
  sample_dispatcher sample_model zeroAgentEnvelope sample_agent "r" "t" "s" zeroPromptBundle zeroPolicySet []).

Lemma stream_decides_witness :
  validateModelProviderForDefinition sample_model sample_agent = None ∧
  ∃ r w2, streamModel sample_model zeroAgentEnvelope sample_agent "r" "t" "s" zeroPromptBundle world0
            (kernel0 [zeroToolCall; zeroToolCall]) =
          (Ok r, w2, kernel0 [zeroToolCall; zeroToolCall; zeroToolCall]) ∧
    MResp_RawDecisionJSON r = "ok" ∧ MResp_Usage r = mkModelUsage 7 2.
Proof.
  split; [reflexivity|].
  destruct (stream_decides sample_model zeroAgentEnvelope sample_agent "r" "t" "s" zeroPromptBundle world0
    (kernel0 [zeroToolCall; zeroToolCall])
    [zeroModelStreamEvent <| MEvent_Type := ModelStreamDelta |> <| MEvent_Delta := "o" |>;
     zeroModelStreamEvent <| MEvent_Type := ModelStreamDelta |> <| MEvent_Delta := "k" |>]
    (zeroModelStreamEvent <| MEvent_Type := ModelStreamCompleted |> <| MEvent_Usage := mkModelUsage 7 2 |>)
    world0 [zeroToolCall; zeroToolCall; zeroToolCall] [] eq_refl eq_refl
    ltac:(repeat constructor) eq_refl) as (r & w2 & ds & E & _ & _ & Hc & _).
  destruct (Hc eq_refl ltac:(done)) as (response & -> & Hr & Hu).
  exists response, w2. split; [exact E|]. by split.
Defined.

Lemma modelDecision_terminates_witness :
  (repair_fuel 2 ≤ 9)%nat ∧
  decide (λ _, inr "{}") (λ s, s) (λ _, ANil) (λ _, 0%Z) (λ _, ANil) sample_dispatcher sample_model
    zeroAgentEnvelope sample_agent "r" "t" "s" [] 2 9 zeroPromptBundle 0 world0 (kernel0 []) =
  decide (λ _, inr "{}") (λ s, s) (λ _, ANil) (λ _, 0%Z) (λ _, ANil) sample_dispatcher sample_model
    zeroAgentEnvelope sample_agent "r" "t" "s" [] 2 (repair_fuel 2) zeroPromptBundle 0 world0 (kernel0 []).
Proof.
  assert (Hf : (repair_fuel 2 ≤ 9)%nat) by (apply Nat.leb_le; reflexivity). split; [exact Hf|].
  apply (modelDecision_terminates (λ _, inr "{}") (λ s, s) (λ _, ANil) (λ _, 0%Z) (λ _, ANil)
    sample_dispatcher sample_model zeroAgentEnvelope sample_agent "r" "t" "s" [] 2 zeroPromptBundle 9
    world0 (kernel0 []) Hf).
Defined.

Lemma modelDecision_accepted_witness :
  match sample_decision world0 (kernel0 []) with
  | (Ok decision, _, s) => decision.(Decision_Type) = DecisionTypeNoOp ∧
      List.length s.(k_ext) = 3%nat ∧ accepted sample_agent [] decision
  | _ => False
  end.
Proof.
  assert (Hv : match sample_decision world0 (kernel0 []) with
    | (Ok decision, _, s) => decision.(Decision_Type) = DecisionTypeNoOp ∧ List.length s.(k_ext) = 3%nat
    | _ => False end) by (vm_compute; done).
  destruct (sample_decision world0 (kernel0 [])) as [[[decision|e|] w'] s'] eqn:E; [|done|done].
  destruct Hv as [H1 H2]. split; [exact H1|]. split; [exact H2|].
  exact (modelDecision_accepted _ _ _ _ _ _ _ _ _ _ _ _ _ _ _ _ _ _ _ _ E).
Defined.
