(* ===== verification/Kernel.v ===== *)
(** * A run from its envelope to its end: internal/runtime/kernel/coordinator.go, conversation_context.go

    How a run is prepared, started, resumed and stepped.  A decision comes from ModelCall.v and is
    carried out by Dispatch.v.  Facts about whole runs are in RunLife.v. *)

From stdpp Require Import base list strings gmap fin_maps.
From Stdlib Require Import Ascii Lia.
From S2P Require Import Prelude Contracts GoMonad Storage TaskState TaskRepo TaskRuntime Plan RunRepo Policies PolicyEngine Decision ToolStore Execution ToolRun Strategy Dispatch ModelCall.
Open Scope go_scope.
Open Scope string_scope.
Open Scope list_scope.

(** ** The definition a step runs *)

Definition effectiveAgentStrategies (e : EffectiveRunConfig) : AgentStrategies :=
  mkAgentStrategies e.(Eff_Prompt) e.(Eff_Model) e.(Eff_Context) e.(Eff_Tools) e.(Eff_Skills)
    e.(Eff_Collaboration) e.(Eff_Memory) e.(Eff_Knowledge) e.(Eff_Runtime) e.(Eff_Repair) e.(Eff_Output).

Definition appendUniqueRuntimeString (values : list string) (value : string) : list string :=
  let value := TrimSpace value in
  if (value == "") || mem_string value values then values else values ++ [value].

Definition trimmed_or (own current : string) : string :=
  if TrimSpace own != "" then TrimSpace own else current.

Definition applyEffectiveStrategiesToRuntimeDefinition (definition : AgentDefinition)
    (effective : EffectiveRunConfig) : AgentDefinition :=
  let s := effectiveAgentStrategies effective in
  let prompt := s.(Strat_Prompt) in
  let tools := s.(Strat_Tools) in
  let limits := definition.(Agent_Runtime) in
  let limits := limits
    <| Limits_MaxToolCalls := default limits.(Limits_MaxToolCalls) tools.(ToolS_MaxToolCalls) |>
    <| Limits_MaxSteps := default limits.(Limits_MaxSteps) s.(Strat_Runtime).(RunS_MaxSteps) |>
    <| Limits_MaxDuration := match s.(Strat_Runtime).(RunS_MaxDurationSeconds) with
                             | Some n => int64 (n * Second)
                             | None => limits.(Limits_MaxDuration)
                             end |>
    <| Limits_MaxModelRetries := default limits.(Limits_MaxModelRetries)
                                   s.(Strat_Runtime).(RunS_MaxModelRetries) |>
    <| Limits_MaxConsecutiveToolFailures := default limits.(Limits_MaxConsecutiveToolFailures)
                                              s.(Strat_Runtime).(RunS_MaxConsecutiveToolFailures) |>
    <| Limits_MaxRepairAttempts := default limits.(Limits_MaxRepairAttempts)
                                     s.(Strat_Repair).(RepS_MaxRepairAttempts) |>
    <| Limits_MaxHandoffDepth := default limits.(Limits_MaxHandoffDepth)
                                   s.(Strat_Collaboration).(CollabS_MaxHandoffDepth) |>
    <| Limits_MaxChildTasks := default limits.(Limits_MaxChildTasks)
                                 s.(Strat_Collaboration).(CollabS_MaxChildTasks) |> in
  let denied := tools.(ToolS_DeniedToolIDs) in
  definition <| Agent_Strategies := s |>
    <| Agent_IdentityPrompt := trimmed_or prompt.(PromptS_IdentityPrompt) definition.(Agent_IdentityPrompt) |>
    <| Agent_SystemPrompt := trimmed_or prompt.(PromptS_SystemPrompt) definition.(Agent_SystemPrompt) |>
    <| Agent_DeveloperPrompt := trimmed_or prompt.(PromptS_DeveloperPrompt) definition.(Agent_DeveloperPrompt) |>
    <| Agent_Runtime := limits |>
    <| Agent_Tools := definition.(Agent_Tools)
         <| ToolsCfg_AllowedToolIDs := tools.(ToolS_AllowedToolIDs) |>
         <| ToolsCfg_AllowedToolGroupIDs := tools.(ToolS_AllowedToolGroupIDs) |>
         <| ToolsCfg_DeniedToolIDs :=
              if TrimSpace s.(Strat_Collaboration).(CollabS_DelegationMode) == "disabled"
              then appendUniqueRuntimeString denied "origin.agent.delegate" else denied |>
         <| ToolsCfg_DeniedToolGroupIDs := tools.(ToolS_DeniedToolGroupIDs) |> |>.

(** [strings.Split] at commas. *)
Fixpoint split_commas (s part : string) : list string :=
  match s with
  | EmptyString => [part]
  | String c s => if Ascii.eqb c "," then part :: split_commas s ""
                  else split_commas s (part +:+ String c EmptyString)
  end.

Definition conversationAllowedToolIDs (envelope : AgentEnvelope) : list string :=
  match envelope.(Env_Context).(Ctx_Conversation) with
  | None => []
  | Some conversation =>
      let raw := default "" (conversation.(Conv_ExternalRefs) !! conversationAllowedToolIDsExternalRef) in
      if TrimSpace raw == "" then []
      else fold_left appendUniqueRuntimeString (split_commas raw "") []
  end.

Definition applyConversationToolOverlay (envelope : AgentEnvelope) (definition : AgentDefinition)
    (strategy : ToolUseStrategy) : AgentDefinition * ToolUseStrategy * list string :=
  let ids := conversationAllowedToolIDs envelope in
  let extend own := fold_left appendUniqueRuntimeString ids own in
  (if nonempty ids
   then definition <| Agent_Tools := definition.(Agent_Tools)
          <| ToolsCfg_AllowedToolIDs := extend definition.(Agent_Tools).(ToolsCfg_AllowedToolIDs) |> |>
   else definition,
   if nonempty ids
   then strategy <| ToolS_AllowedToolIDs := extend strategy.(ToolS_AllowedToolIDs) |> else strategy,
   ids).

Definition contextStrategyConfigured (s : ContextStrategy) : bool :=
  let c := s.(CtxS_Compression) in
  (s.(CtxS_Mode) != "") || negb (isNone s.(CtxS_RecentMessageLimit)) ||
  negb (isNone s.(CtxS_RetrievalMaxResults)) || negb (isNone s.(CtxS_TaskHistoryMaxItems)) ||
  negb (isNone s.(CtxS_MemoryMaxItems)) || negb (isNone s.(CtxS_ArtifactRefMaxItems)) ||
  negb (isNone s.(CtxS_ToolResultMaxItems)) || negb (isNone s.(CtxS_ContextTokenBudget)) ||
  nonempty s.(CtxS_EnabledSources) || negb (bool_decide (s.(CtxS_SourceBudgets) = ∅)) ||
  (c.(Compr_Mode) != "") || c.(Compr_Enabled) || (c.(Compr_TriggerRatio) >? 0)%Z ||
  (c.(Compr_TargetTokens) >? 0)%Z || (c.(Compr_PromptProfileID) != "") || negb (isNone c.(Compr_InlinePrompt)).

Definition strategyDefaults (contextDefaults : ContextStrategy) : ContextStrategy :=
  if contextStrategyConfigured contextDefaults then contextDefaults else DefaultContextStrategy.

(** [t.Sub(u)] saturates. *)
Definition Sub (t u : Time) : Z := Z.max (- 2 ^ 63) (Z.min (2 ^ 63 - 1) (t - u)).

Definition step_limit (limits : RuntimeLimits) (reached : bool) : option error :=
  if (limits.(Limits_MaxSteps) >? 0)%Z && reached
  then Some (ErrRuntime (NewRuntimeError CodeModelError "max steps exceeded" ∅)) else None.

Definition contractVersion (definition : AgentDefinition) : string :=
  if definition.(Agent_ContractVersion) != "" then definition.(Agent_ContractVersion) else "v1.0-alpha".

(** [if definition.TenantID == "" { definition.TenantID = tenantID }] *)
Definition owned_by (tenantID : string) (definition : AgentDefinition) : AgentDefinition :=
  if definition.(Agent_TenantID) == "" then definition <| Agent_TenantID := tenantID |> else definition.

Definition FirstNonEmpty (a b : string) : string :=
  if TrimSpace a != "" then a else if TrimSpace b != "" then b else "".

Definition or_value (own fallback : string) : string := if own == "" then fallback else own.

Definition runtimeConversationID (envelope : AgentEnvelope) : string :=
  match envelope.(Env_Context).(Ctx_Conversation) with
  | Some conversation => conversation.(Conv_ConversationID)
  | None => ""
  end.
Definition runtimeConversationThreadID (envelope : AgentEnvelope) : string :=
  match envelope.(Env_Context).(Ctx_Conversation) with
  | Some conversation => conversation.(Conv_ThreadID)
  | None => ""
  end.
Definition runtimeConversationMessageID (envelope : AgentEnvelope) : string :=
  match envelope.(Env_Context).(Ctx_Conversation) with
  | Some conversation => match conversation.(Conv_CurrentMessage) with
                         | Some current => current.(Msg_MessageID)
                         | None => ""
                         end
  | None => ""
  end.

Definition input_of (envelope : AgentEnvelope) : string :=
  match envelope.(Env_Payload) !! "input" with Some (AString text) => TrimSpace text | _ => "" end.

Definition schema_error (message : string) : error :=
  ErrRuntime (NewRuntimeError CodeDecisionSchemaError message ∅).
Definition tenant_error (message : string) : error :=
  ErrRuntime (NewRuntimeError CodeToolPolicyDenied message ∅).

(** ** The coordinator *)

Section kernel.
Context `{Env, ProfileDecoder, DecisionDecoder} {Executor S : Type} `{!ExecutorOps Executor S}.

Notation KM := (M (KSys S)).

(** What the prompt of a step is built from. *)
Record PromptInput := mkPromptInput {
  PI_Envelope : AgentEnvelope;
  PI_Definition : AgentDefinition;
  PI_Effective : EffectiveRunConfig;
  PI_StrategyHash : string;
  PI_PolicySet : PolicySet;
  PI_Run : AgentRun;
  PI_Task : Task;
  PI_StepID : string;
  PI_UserInput : string
}.

(** What building it comes to: the conversation guard drops the message, or there is a prompt. *)
Inductive Prompt :=
| PromptNoOp (decision : Contracts.Decision) (candidates : CandidateSet)
| PromptBundleFor (bundle : PromptBundle) (compression : option ContextCompressionReport)
    (candidates : CandidateSet).

(** A part of the kernel that reads the stores and changes only the outside. *)
Definition Reader (A : Type) : Type := World → KSys S → A * World * S.

(** The fields of [Coordinator].  [K_Load] is the loader of agent definitions
    (internal/agentdef/loader), [K_Candidates] the candidate provider (internal/discovery/tool),
    [K_Prompt] the part of [step] that retrieves candidates, collects the context, builds the prompt
    and applies the hooks and the prompt policy to it (internal/context, internal/runtime/hook),
    [K_Forced] is [merchantLimitForcedToolDecision], [K_MemoryHook] is [applyMemoryWriteHook],
    [K_Persist] is [persistConversationMessage]. *)
Record Coordinator := mkCoordinator {
  K_Dispatcher : Dispatcher Executor S;
  K_Model : ModelSide (S:=S);
  K_Load : string → string → string → World → S → (error + AgentDefinition) * World * S;
  K_Candidates : option (AgentDefinition → PolicySet → string → World → S →
                         (error + CandidateSet) * World * S);
  K_HasPolicies : bool;
  K_ContextDefaults : ContextStrategy;
  K_Prompt : PromptInput → Reader (error + Prompt);
  K_Forced : PromptInput → CandidateSet → Reader (option Contracts.Decision);
  K_MemoryHook : PromptInput → PromptBundle → CandidateSet → Contracts.Decision → Reader (option error);
  K_Persist : AgentEnvelope → AgentRun → string → Reader (option error)
}.

Definition read {A} (r : Reader A) : KM A := λ w s,
  let '(a, w', ext) := r w s in (Ok a, w', s <| k_ext := ext |>).

Definition throw_if (err : option error) : KM unit :=
  match err with Some err => throw err | None => ret tt end.

(** [json.Marshal], SHA-256 in hex and so on, as in Dispatch.v and ModelCall.v; a Go value as an [any]
    of a trace; the hash of [Resolve]; [hash.StableJSON] of the hooks of an agent. *)
Context (json_Marshal : Any → error + string) (sha256_hex : string → string) (trunc : float64 → Z)
  (as_decision : Any → option Contracts.Decision)
  (diagnostics : PromptBundle → Any) (EstimatePromptTokens : PromptBundle → Z)
  (hashed_parts : PromptBundle → Any) (to_any : ∀ {A : Type}, A → Any)
  (strategy_hash : AgentDefinition → PolicySet → EffectiveRunConfig → list GuardrailAdjustment →
                   error + string)
  (hooks_hash : AgentRuntimeHooks → error + string).

Definition load (c : Coordinator) (tenantID agentID version : string) : KM AgentDefinition :=
  let! definition := ask_client (c.(K_Load) tenantID agentID version) in
  ret (owned_by tenantID definition).

(** ** The envelope *)

Definition normalize_message (envelope : AgentEnvelope) (conversation : RuntimeConversation)
    (userInput : string) (current : RuntimeMessage) : KM RuntimeMessage :=
  let caller := envelope.(Env_Caller) in
  let messageID := or_value (TrimSpace current.(Msg_MessageID)) envelope.(Env_EnvelopeID) in
  let! messageID := (if messageID == "" then idgen_New "msg" else ret messageID) in
  let createdAt := if IsZero current.(Msg_CreatedAt) then envelope.(Env_CreatedAt)
                   else current.(Msg_CreatedAt) in
  let! createdAt := (if IsZero createdAt then now else ret createdAt) in
  ret (current <| Msg_Text := userInput |> <| Msg_MessageID := messageID |>
    <| Msg_ThreadID := or_value current.(Msg_ThreadID) conversation.(Conv_ThreadID) |>
    <| Msg_SpeakerID := or_value (or_value current.(Msg_SpeakerID) caller.(Caller_CallerID))
                          envelope.(Env_Context).(Ctx_UserID) |>
    <| Msg_SpeakerType := or_value (or_value current.(Msg_SpeakerType) caller.(Caller_CallerType)) "user" |>
    <| Msg_CreatedAt := createdAt |>).

Definition normalize_conversation (envelope : AgentEnvelope) (userInput : string)
    (conversation : RuntimeConversation) : KM RuntimeConversation :=
  let conversation := conversation
    <| Conv_ConversationID := TrimSpace conversation.(Conv_ConversationID) |> in
  if conversation.(Conv_ConversationID) == ""
  then throw (schema_error "context.conversation requires conversation_id") else
  let conversation := conversation
    <| Conv_ThreadID := or_value (TrimSpace conversation.(Conv_ThreadID))
                          conversation.(Conv_ConversationID) |> in
  let current := default zeroRuntimeMessage conversation.(Conv_CurrentMessage) in
  let text := TrimSpace current.(Msg_Text) in
  if (text != "") && (text != userInput)
  then throw (schema_error "context.conversation.current_message.text must match payload.input") else
  let! current := normalize_message envelope conversation userInput current in
  ret (conversation <| Conv_CurrentMessage := Some current |>
         <| Conv_Kind := or_value conversation.(Conv_Kind) "direct" |>).

(** The envelope with its conversation filled in, and the input.  The code fills the conversation of its
    caller in, which the model answers as a new one. *)
Definition normalizeRunEnvelope (envelope : AgentEnvelope) : KM (AgentEnvelope * string) :=
  let userInput := input_of envelope in
  if userInput == "" then throw (schema_error "agent.run requires non-empty payload.input") else
  let context := envelope.(Env_Context) in
  let external_bad := match context.(Ctx_ExternalTask) with
                      | Some ref => (TrimSpace ref.(ERef_Provider) == "") ||
                                    (TrimSpace ref.(ERef_ExternalTaskID) == "")
                      | None => false
                      end in
  if external_bad then throw (schema_error "context.external_task requires provider and external_task_id")
  else
    match context.(Ctx_Conversation) with
    | None => ret (envelope, userInput)
    | Some conversation =>
        let! conversation := normalize_conversation envelope userInput conversation in
        ret (envelope <| Env_Context := context <| Ctx_Conversation := Some conversation |> |>, userInput)
    end.

(** ** Policies and snapshots *)

Definition policySet (c : Coordinator) (tenantID policySetID : string) : KM PolicySet :=
  if negb c.(K_HasPolicies) then on_rules (FallbackPolicySet tenantID policySetID) else
  let! policy := on_rules (Store_Get tenantID policySetID) in
  match policy with
  | Some policy => ret policy
  | None => on_rules (FallbackPolicySet tenantID policySetID)
  end.

Definition policySetForRun (c : Coordinator) (run : AgentRun) (tenantID policySetID : string)
    : KM PolicySet :=
  let pinned := run.(Run_VersionSnapshot).(Snap_PolicyVersionID) in
  if c.(K_HasPolicies) && (pinned != "") then
    let! found := on_rules (Store_GetVersion pinned) in
    match found with
    | Some record =>
        if (record.(record_version).(Version_TenantID) == tenantID) &&
           (record.(record_version).(Version_PolicySetID) == policySetID)
        then ret record.(record_policy) else policySet c tenantID policySetID
    | None => policySet c tenantID policySetID
    end
  else policySet c tenantID policySetID.

(** One turn of the loop of [currentPolicyVersionID]. *)
Definition select_stable (version : string) (selected candidate : PolicyVersion) : PolicyVersion :=
  if (candidate.(Version_Status) != ReleaseStable) ||
     ((version != "") && (candidate.(Version_Version) != version)) then selected
  else if (selected.(Version_PolicyVersionID) == "") ||
          After candidate.(Version_CreatedAt) selected.(Version_CreatedAt) then candidate
  else selected.

Definition currentPolicyVersionID (c : Coordinator) (tenantID policySetID version : string) : KM string :=
  if negb c.(K_HasPolicies) then ret "" else
  let! versions := on_rules (Store_ListVersions tenantID policySetID) in
  ret (fold_left (select_stable version) versions zeroPolicyVersion).(Version_PolicyVersionID).

Definition record_ids (m : gmap string string) (ids : list (string * string)) : gmap string string :=
  fold_left (λ m p, if p.1 == "" then m else <[p.1 := p.2]> m) ids m.

Definition put_hash (k : string) (h : error + string) (m : gmap string string) : gmap string string :=
  match h with inr h => <[k := h]> m | inl _ => m end.

Definition versionSnapshot (c : Coordinator) (tenantID : string) (definition : AgentDefinition)
    (objective : string) : KM VersionSnapshot :=
  let policySetID := definition.(Agent_PolicyRefs).(PolicyRefs_PolicySetID) in
  let! policy := policySet c tenantID policySetID in
  let! policyVersionID := currentPolicyVersionID c tenantID policySetID policy.(PolicySet_Version) in
  let definition := owned_by tenantID definition in
  let! candidates :=
    (match c.(K_Candidates) with
     | None => ret zeroCandidateSet
     | Some find => let! found := attempt (ask_client (find definition policy objective)) in
                    ret match found with inl found => found | inr _ => zeroCandidateSet end
     end) in
  let skills := record_ids (record_ids ∅
      (map (λ r, (r.(SkillRef_SkillID), r.(SkillRef_Version))) definition.(Agent_Skills)))
      (map (λ s, (s.(SkillCard_SkillID), s.(SkillCard_Version))) candidates.(Cand_Skills)) in
  let tools := record_ids ∅
      (map (λ t, (t.(Card_ToolID), t.(Card_Version))) candidates.(Cand_Tools)) in
  let hooks := definition.(Agent_RuntimeHooks) in
  let additional := if (hooks.(Hooks_Mode) != "") || nonempty hooks.(Hooks_Hooks)
                    then put_hash "runtime_hooks_hash" (hooks_hash hooks) ∅ else ∅ in
  let additional := match modelCapabilities c.(K_Model) with
                    | Some caps => put_hash "model_capabilities_hash"
                                     (StableJSON_any json_Marshal sha256_hex (caps_any caps)) additional
                    | None => additional
                    end in
  let strategyHash := match Resolve strategy_hash definition policy (strategyDefaults c.(K_ContextDefaults)) with
                      | inr (_, report) => report.(Report_StrategyHash)
                      | inl _ => ""
                      end in
  let additional := if strategyHash != "" then <["strategy_hash" := strategyHash]> additional
                    else additional in
  let sourceKind := NormalizeSourceKind definition.(Agent_SourceKind) in
  let carrierKind := NormalizeCarrierKind sourceKind definition.(Agent_CarrierKind) in
  ret (zeroVersionSnapshot <| Snap_ContractVersion := contractVersion definition |>
    <| Snap_AgentDefinition := definition.(Agent_Version) |>
    <| Snap_AgentPackage := definition.(Agent_PackageVersionID) |>
    <| Snap_CarrierKind := carrierKind |>
    <| Snap_RuntimeContract := NormalizeRuntimeContract carrierKind definition.(Agent_RuntimeContract) |>
    <| Snap_CarrierVersion := definition.(Agent_Version) |> <| Snap_SourceKind := sourceKind |>
    <| Snap_SourceProviderID := definition.(Agent_SourceProviderID) |>
    <| Snap_ManifestVersion := definition.(Agent_ManifestVersion) |>
    <| Snap_ManifestHash := definition.(Agent_ManifestHash) |> <| Snap_StrategyHash := strategyHash |>
    <| Snap_PolicySet := policySetID |> <| Snap_PolicyVersionID := policyVersionID |>
    <| Snap_PolicySetVersion := policy.(PolicySet_Version) |> <| Snap_SkillDefinitions := skills |>
    <| Snap_ToolDefinitions := tools |>
    <| Snap_ModelProvider := modelProviderForDefinition c.(K_Model) definition |>
    <| Snap_ModelName := modelNameForDefinition c.(K_Model) definition |>
    <| Snap_AdditionalAttributes := additional |>).

Definition refreshRunSnapshot (c : Coordinator) (runID : string) (definition : AgentDefinition)
    (objective : string) : KM VersionSnapshot :=
  let! run := on_runs (RunRepo.Get runID) in
  let! snapshot := versionSnapshot c run.(Run_TenantID) definition objective in
  let snapshot := snapshot
    <| Snap_PromptBundleHash := run.(Run_VersionSnapshot).(Snap_PromptBundleHash) |> in
  let! updated := on_runs (UpdateVersionSnapshot runID snapshot) in
  ret updated.(Run_VersionSnapshot).

Definition pinPromptBundleHash (runID promptBundleHash : string) : KM unit :=
  if promptBundleHash == "" then ret tt else
  let! run := on_runs (RunRepo.Get runID) in
  if run.(Run_VersionSnapshot).(Snap_PromptBundleHash) == promptBundleHash then ret tt else
  let! _ := on_runs (UpdateVersionSnapshot runID
              (run.(Run_VersionSnapshot) <| Snap_PromptBundleHash := promptBundleHash |>)) in
  ret tt.

(** ** Preparing a run *)

Record PreparedRun := mkPreparedRun {
  Prep_Envelope : AgentEnvelope;
  Prep_Definition : AgentDefinition;
  Prep_Task : Task;
  Prep_Run : AgentRun;
  Prep_UserInput : string;
  Prep_Source : string
}.

Definition agent_payload (definition : AgentDefinition) : gmap string Any :=
  {["agent_id" := AString definition.(Agent_AgentID); "agent_version" := AString definition.(Agent_Version);
    "policy_set_id" := AString definition.(Agent_PolicyRefs).(PolicyRefs_PolicySetID)]}.

Definition task_payload (task : Task) : gmap string Any :=
  {["task_id" := AString task.(Task_TaskID); "status" := AString task.(Task_Status);
    "agent_id" := AString task.(Task_AgentID); "agent_version" := AString task.(Task_AgentVersion)]}.

(** [appendConversationInputEvent], up to the actor: the message's speaker, or else the caller. *)
Definition input_event (envelope : AgentEnvelope) (runID taskID taskObjective input : string)
    : gmap string Any * string * string :=
  let caller := envelope.(Env_Caller) in
  let payload : gmap string Any :=
    {["input" := AString input; "task_objective" := AString taskObjective; "run_id" := AString runID;
      "auth_caller_id" := AString caller.(Caller_CallerID);
      "auth_caller_type" := AString caller.(Caller_CallerType)]} in
  let payload := put_if (caller.(Caller_DisplayName) != "") "auth_caller_display_name"
                   (AString caller.(Caller_DisplayName)) payload in
  match envelope.(Env_Context).(Ctx_Conversation) with
  | None => (payload, caller.(Caller_CallerID), caller.(Caller_CallerType))
  | Some conversation =>
      let payload := {["provider" := AString conversation.(Conv_Provider);
        "conversation_kind" := AString conversation.(Conv_Kind);
        "conversation_id" := AString conversation.(Conv_ConversationID);
        "thread_id" := AString conversation.(Conv_ThreadID)]} ∪ payload in
      match conversation.(Conv_CurrentMessage) with
      | None => (payload, caller.(Caller_CallerID), caller.(Caller_CallerType))
      | Some m =>
          ({["message_id" := AString m.(Msg_MessageID);
             "external_message_id" := AString m.(Msg_ExternalMessageID);
             "reply_to_message_id" := AString m.(Msg_ReplyToMessageID);
             "speaker_id" := AString m.(Msg_SpeakerID); "speaker_type" := AString m.(Msg_SpeakerType);
             "speaker_name" := AString m.(Msg_SpeakerName)]} ∪ payload,
           FirstNonEmpty m.(Msg_SpeakerID) caller.(Caller_CallerID),
           FirstNonEmpty m.(Msg_SpeakerType) caller.(Caller_CallerType))
      end
  end.

Definition appendConversationInputEvent (envelope : AgentEnvelope)
    (runID taskID taskObjective input eventType : string) : KM unit :=
  if (taskID == "") || (TrimSpace input == "") then ret tt else
  let '(payload, actorID, actorType) := input_event envelope runID taskID taskObjective input in
  let trace type payload := recordTrace envelope.(Env_TraceID) envelope.(Env_Context).(Ctx_TenantID)
                              runID taskID type payload in
  let! id := idgen_New "taskevt" in
  let! now := now in
  let event := zeroTaskEvent <| TaskEvent_EventID := id |> <| TaskEvent_TaskID := taskID |>
    <| TaskEvent_TenantID := envelope.(Env_Context).(Ctx_TenantID) |> <| TaskEvent_Type := eventType |>
    <| TaskEvent_ActorID := or_value actorID envelope.(Env_Context).(Ctx_UserID) |>
    <| TaskEvent_ActorType := or_value actorType "user" |> <| TaskEvent_Payload := payload |>
    <| TaskEvent_RunID := runID |> <| TaskEvent_CreatedAt := now |> in
  let! appended := attempt (on_tasks (AppendEvent event)) in
  match appended with
  | inl _ => trace TraceConversationInputRecorded {["event_id" := AString id]}
  | inr err =>
      do! trace TraceConversationContextRetrievalFailed
            {["reason" := AString "record_conversation_input_failed"; "error" := AString (Error err)]} in
      throw err
  end.

(** [recordPreparedInputFacts] and [recordResumeInputFacts] differ in the type of the event. *)
Definition recordInputFacts (c : Coordinator) (envelope : AgentEnvelope) (run : AgentRun) (task : Task)
    (input eventType : string) : KM unit :=
  do! appendConversationInputEvent envelope run.(Run_RunID) task.(Task_TaskID) task.(Task_Objective)
        input eventType in
  let! err := read (c.(K_Persist) envelope run input) in throw_if err.

Definition new_run (envelope : AgentEnvelope) (definition : AgentDefinition)
    (runID tenantID taskID userInput : string) (snapshot : VersionSnapshot) (now : Time) : AgentRun :=
  zeroAgentRun <| Run_RunID := runID |> <| Run_TraceID := envelope.(Env_TraceID) |>
    <| Run_TenantID := tenantID |> <| Run_AgentID := definition.(Agent_AgentID) |>
    <| Run_AgentVersion := definition.(Agent_Version) |>
    <| Run_CarrierKind := snapshot.(Snap_CarrierKind) |>
    <| Run_RuntimeContract := snapshot.(Snap_RuntimeContract) |>
    <| Run_SourceKind := snapshot.(Snap_SourceKind) |>
    <| Run_SourceProviderID := snapshot.(Snap_SourceProviderID) |>
    <| Run_CarrierVersion := snapshot.(Snap_CarrierVersion) |>
    <| Run_ManifestHash := snapshot.(Snap_ManifestHash) |> <| Run_TaskID := taskID |>
    <| Run_Input := userInput |> <| Run_ConversationID := runtimeConversationID envelope |>
    <| Run_ThreadID := runtimeConversationThreadID envelope |>
    <| Run_MessageID := runtimeConversationMessageID envelope |> <| Run_Status := RunCreated |>
    <| Run_PolicySetID := definition.(Agent_PolicyRefs).(PolicyRefs_PolicySetID) |>
    <| Run_VersionSnapshot := snapshot |> <| Run_StartedAt := now |>.

Definition snapshot_payload (s : VersionSnapshot) (definition : AgentDefinition) : gmap string Any :=
  {["agent_id" := AString definition.(Agent_AgentID); "agent_version" := AString definition.(Agent_Version);
    "carrier_kind" := AString s.(Snap_CarrierKind); "runtime_contract" := AString s.(Snap_RuntimeContract);
    "carrier_version" := AString s.(Snap_CarrierVersion); "source_kind" := AString s.(Snap_SourceKind);
    "source_provider_id" := AString s.(Snap_SourceProviderID);
    "manifest_version" := AString s.(Snap_ManifestVersion); "manifest_hash" := AString s.(Snap_ManifestHash);
    "policy_set_id" := AString s.(Snap_PolicySet); "policy_version_id" := AString s.(Snap_PolicyVersionID);
    "policy_set_version" := AString s.(Snap_PolicySetVersion);
    "agent_package" := AString s.(Snap_AgentPackage)]} ∪
  {["model_provider" := AString s.(Snap_ModelProvider); "model_name" := AString s.(Snap_ModelName);
    "contract_version" := AString s.(Snap_ContractVersion);
    "tool_definitions" := any_map (AString <$> s.(Snap_ToolDefinitions));
    "skill_definitions" := any_map (AString <$> s.(Snap_SkillDefinitions));
    "agent_definition" := AString s.(Snap_AgentDefinition)]}.

Definition record_created (envelope : AgentEnvelope) (tenantID : string) (run : AgentRun)
    (payload : gmap string Any) (now : Time) : KM unit :=
  let! span := idgen_New "span" in
  λ w s, match w.(w_trace) with
         | None => (Panic, w, s)
         | Some _ => trace_Record (zeroTraceEvent
             <| Trace_TraceID := envelope.(Env_TraceID) |> <| Trace_TenantID := tenantID |>
             <| Trace_SpanID := span |> <| Trace_RunID := run.(Run_RunID) |>
             <| Trace_TaskID := run.(Run_TaskID) |> <| Trace_Type := TraceRunCreated |>
             <| Trace_Payload := payload |> <| Trace_CreatedAt := now |>) w s
         end.

(** The part [prepareNewTaskRun] and [prepareTaskRun] share: the run is created, its input recorded. *)
Definition create_run (c : Coordinator) (envelope : AgentEnvelope) (definition : AgentDefinition)
    (tenantID objective : string) (task : Task) (userInput source : string)
    (also : VersionSnapshot → gmap string Any) (now : Time) : KM PreparedRun :=
  let! snapshot := versionSnapshot c tenantID definition objective in
  let! runID := idgen_New "run" in
  let run := new_run envelope definition runID tenantID task.(Task_TaskID) userInput snapshot now in
  do! on_runs (RunRepo.Create run) in
  do! recordInputFacts c envelope run task userInput "conversation.input" in
  do! observeHook c.(K_Dispatcher) "on_run_started" envelope definition runID task.(Task_TaskID)
        {["source" := AString source]} in
  do! record_created envelope tenantID run (also snapshot ∪ snapshot_payload snapshot definition) now in
  ret (mkPreparedRun envelope definition task run userInput source).

Definition prepareNewTaskRun (c : Coordinator) (envelope : AgentEnvelope) (userInput : string)
    : KM PreparedRun :=
  let tenantID := envelope.(Env_Context).(Ctx_TenantID) in
  let target := envelope.(Env_Target) in
  let trace taskID type payload := recordTrace envelope.(Env_TraceID) tenantID "" taskID type payload in
  let! now := now in
  let! definition := load c tenantID target.(Target_AgentID) target.(Target_Version) in
  do! trace "" TraceAgentLoaded (agent_payload definition) in
  let! taskID := idgen_New "task" in
  let task := NewTask taskID tenantID definition.(Agent_AgentID) definition.(Agent_Version)
                definition.(Agent_PolicyRefs).(PolicyRefs_PolicySetID) "agent.run" userInput now in
  let! task := on_tasks (CreateTask (Some store_atomic) task envelope.(Env_Caller).(Caller_CallerID)
                           envelope.(Env_Caller).(Caller_CallerType)) in
  do! trace task.(Task_TaskID) TraceTaskCreated
        {["task_id" := AString task.(Task_TaskID); "agent_id" := AString task.(Task_AgentID);
          "agent_version" := AString task.(Task_AgentVersion);
          "policy_set_id" := AString task.(Task_PolicySetID)]} in
  create_run c envelope definition tenantID userInput task userInput "new_task"
    (λ snapshot, {["prompt_bundle_hash" := AString snapshot.(Snap_PromptBundleHash);
                   "snapshot_recorded_at" := AInt now]}) now.

Definition prepareTaskRun (c : Coordinator) (envelope : AgentEnvelope) (task : Task) (userInput : string)
    : KM PreparedRun :=
  let tenantID := task.(Task_TenantID) in
  let trace type payload := recordTrace envelope.(Env_TraceID) tenantID "" task.(Task_TaskID) type payload in
  let! definition := load c tenantID task.(Task_AgentID) task.(Task_AgentVersion) in
  do! trace TraceAgentLoaded (<["source" := AString "task"]> (agent_payload definition)) in
  do! trace TraceTaskLoaded (task_payload task) in
  let! now := now in
  create_run c envelope definition tenantID task.(Task_Objective) task userInput "existing_task"
    (λ _, {["source" := AString "existing_task"]}) now.

Definition PrepareEnvelopeRun (c : Coordinator) (envelope : AgentEnvelope) : KM PreparedRun :=
  if envelope.(Env_Command) != "agent.run"
  then throw (schema_error ("unsupported command " +:+ fmt_q envelope.(Env_Command))) else
  let! normalized := normalizeRunEnvelope envelope in
  let '(envelope, userInput) := normalized in
  let context := envelope.(Env_Context) in
  do! recordTrace envelope.(Env_TraceID) context.(Ctx_TenantID) "" context.(Ctx_TaskID) TraceInputReceived
        {["command" := AString envelope.(Env_Command); "target" := to_any AgentTarget envelope.(Env_Target)]} in
  if context.(Ctx_TaskID) != "" then
    let! task := on_tasks (TaskRepo.Get context.(Ctx_TaskID)) in
    if task.(Task_TenantID) != context.(Ctx_TenantID)
    then throw (tenant_error "task tenant does not match envelope tenant")
    else prepareTaskRun c envelope task userInput
  else prepareNewTaskRun c envelope userInput.

(** ** A step *)

Definition maybeUpgradeByPolicy (c : Coordinator) (traceID tenantID : string)
    (definition : AgentDefinition) (task : Task) (policySet : PolicySet) : KM (option AgentDefinition) :=
  let policy := policySet.(PolicySet_TaskUpgradePolicy) in
  let target := policy.(UpgradePolicy_TargetVersion) in
  let age := policy.(UpgradePolicy_MinTaskAgeSeconds) in
  if negb policy.(UpgradePolicy_Enabled) || (target == "") || (target == definition.(Agent_Version))
  then ret None else
  let! too_young := (if (age >? 0)%Z
                     then let! now := now in
                          ret (Sub now task.(Task_CreatedAt) <? int64 (age * Second))%Z
                     else ret false) in
  if too_young : bool then ret None else
  let! upgraded := load c tenantID definition.(Agent_AgentID) target in
  do! recordTrace traceID tenantID "" task.(Task_TaskID) TraceAgentLoaded
        ({["previous_version" := AString definition.(Agent_Version); "upgrade_policy" := ABool true;
           "min_task_age_secs" := AInt age]} ∪ agent_payload upgraded) in
  ret (Some upgraded).

Definition put_some {A} (k : string) (v : option A) (f : A → Any) (m : gmap string Any) : gmap string Any :=
  match v with Some a => <[k := f a]> m | None => m end.

Definition model_payload (c : Coordinator) (definition : AgentDefinition) (strategyHash : string)
    : gmap string Any :=
  let s := definition.(Agent_Strategies).(Strat_Model) in
  let m : gmap string Any :=
    {["strategy_hash" := AString strategyHash;
      "model_provider" := AString (modelProviderForDefinition c.(K_Model) definition);
      "model_name" := AString (modelNameForDefinition c.(K_Model) definition);
      "streaming" := ABool (modelStreamingEnabled s)]} in
  let m := put_if (s.(ModelS_MaxOutputTokens) >? 0)%Z "max_output_tokens" (AInt s.(ModelS_MaxOutputTokens)) m in
  let m := put_some "temperature" s.(ModelS_Temperature) AFloat m in
  let m := put_if (TrimSpace s.(ModelS_Thinking) != "") "thinking" (AString (TrimSpace s.(ModelS_Thinking))) m in
  let m := put_if (TrimSpace s.(ModelS_ReasoningEffort) != "") "reasoning_effort"
             (AString (TrimSpace s.(ModelS_ReasoningEffort))) m in
  put_if (s.(ModelS_TimeoutMS) >? 0)%Z "timeout_ms" (AInt s.(ModelS_TimeoutMS)) m.

Definition runtime_payload (strategyHash : string) (s : RuntimeStrategy) (limits : RuntimeLimits)
    : gmap string Any :=
  let m : gmap string Any :=
    {["strategy_hash" := AString strategyHash; "execution_mode" := AString s.(RunS_ExecutionMode);
      "effective_max_steps" := AInt limits.(Limits_MaxSteps);
      "effective_max_tool_calls" := AInt limits.(Limits_MaxToolCalls);
      "effective_max_model_retries" := AInt limits.(Limits_MaxModelRetries);
      "effective_max_consecutive_failures" := AInt limits.(Limits_MaxConsecutiveToolFailures)]} in
  let m := put_some "max_steps" s.(RunS_MaxSteps) AInt m in
  let m := put_some "max_duration_seconds" s.(RunS_MaxDurationSeconds) AInt m in
  let m := put_if (limits.(Limits_MaxDuration) >? 0)%Z "effective_max_duration_seconds"
             (AInt (seconds_of limits.(Limits_MaxDuration))) m in
  let m := put_some "max_model_retries" s.(RunS_MaxModelRetries) AInt m in
  put_some "max_consecutive_tool_failures" s.(RunS_MaxConsecutiveToolFailures) AInt m.

Definition repair_payload (strategyHash : string) (s : RepairStrategy) (limits : RuntimeLimits)
    : gmap string Any :=
  let m : gmap string Any :=
    {["strategy_hash" := AString strategyHash;
      "effective_max_repair_attempts" := AInt limits.(Limits_MaxRepairAttempts);
      "failure_mode" := AString s.(RepS_FailureMode);
      "repairable_error_codes" := AStrings s.(RepS_RepairableErrorCodes)]} in
  let m := put_some "enabled" s.(RepS_Enabled) ABool m in
  let m := put_some "max_repair_attempts" s.(RepS_MaxRepairAttempts) AInt m in
  let m := put_some "request_model_repair_on_fail" s.(RepS_RequestModelRepairOnFail) ABool m in
  put_some "stop_on_denied" s.(RepS_StopOnDenied) ABool m.

Definition strategy_payload (active : AgentDefinition) (effective : EffectiveRunConfig) (report : Report)
    : gmap string Any :=
  {["strategy_hash" := AString report.(Report_StrategyHash);
    "source_kind" := AString active.(Agent_SourceKind);
    "source_provider_id" := AString active.(Agent_SourceProviderID);
    "manifest_version" := AString active.(Agent_ManifestVersion);
    "manifest_hash" := AString active.(Agent_ManifestHash);
    "agent_package" := AString active.(Agent_PackageVersionID);
    "guardrail_adjustments" := to_any _ report.(Report_Adjustments);
    "context_mode" := AString effective.(Eff_Context).(CtxS_Mode);
    "context_sources" := AStrings effective.(Eff_Context).(CtxS_EnabledSources);
    "context_token_budget" := AInt (IntValue effective.(Eff_Context).(CtxS_ContextTokenBudget))]} ∪
  {["model" := to_any _ effective.(Eff_Model); "runtime" := to_any _ active.(Agent_Runtime);
    "tools" := to_any _ effective.(Eff_Tools); "skills" := to_any _ effective.(Eff_Skills);
    "collaboration" := to_any _ effective.(Eff_Collaboration); "memory" := to_any _ effective.(Eff_Memory);
    "knowledge" := to_any _ effective.(Eff_Knowledge); "repair" := to_any _ effective.(Eff_Repair);
    "output" := to_any _ effective.(Eff_Output)]}.

(** The traces of the strategies of a step. *)
Definition record_strategies (c : Coordinator) (envelope : AgentEnvelope) (runID taskID : string)
    (active : AgentDefinition) (effective : EffectiveRunConfig) (report : Report)
    (conversationToolIDs : list string) : KM unit :=
  let trace type payload := recordTrace envelope.(Env_TraceID) envelope.(Env_Context).(Ctx_TenantID)
                              runID taskID type payload in
  let h := report.(Report_StrategyHash) in
  do! trace TraceStrategyResolved (strategy_payload active effective report) in
  do! (if nonempty report.(Report_Adjustments)
       then trace TraceStrategyGuardrailApplied
              {["strategy_hash" := AString h; "adjustment_count" := AInt (len report.(Report_Adjustments));
                "adjustments" := to_any _ report.(Report_Adjustments)]}
       else ret tt) in
  do! trace TraceModelStrategySelected (model_payload c active h) in
  do! trace TraceRuntimeStrategyApplied (runtime_payload h effective.(Eff_Runtime) active.(Agent_Runtime)) in
  do! trace TraceRepairStrategyApplied (repair_payload h effective.(Eff_Repair) active.(Agent_Runtime)) in
  if nonempty conversationToolIDs
  then trace "conversation.tool_overlay.applied"
         {["conversation_id" := AString (runtimeConversationID envelope);
           "tool_ids" := AStrings conversationToolIDs;
           "source" := AString conversationAllowedToolIDsExternalRef]}
  else ret tt.

(** The limit on the age of a run. *)
Definition check_duration (limits : RuntimeLimits) (run : AgentRun) : KM unit :=
  if (limits.(Limits_MaxDuration) >? 0)%Z && negb (IsZero run.(Run_StartedAt)) then
    let! now := now in
    if (Sub now run.(Run_StartedAt) >? limits.(Limits_MaxDuration))%Z
    then throw (ErrRuntime (NewRuntimeError CodeModelTimeout "max duration exceeded" ∅)) else ret tt
  else ret tt.

(** The definition and the policy set a step goes by: upgraded where the policy set says so. *)
Definition current_definition (c : Coordinator) (envelope : AgentEnvelope) (definition : AgentDefinition)
    (runID : string) (run : AgentRun) (task : Task) : KM (AgentDefinition * AgentRun * PolicySet) :=
  let tenantID := envelope.(Env_Context).(Ctx_TenantID) in
  let policyID (d : AgentDefinition) := d.(Agent_PolicyRefs).(PolicyRefs_PolicySetID) in
  let! policy := policySetForRun c run tenantID (policyID definition) in
  let! upgraded := maybeUpgradeByPolicy c envelope.(Env_TraceID) tenantID definition task policy in
  match upgraded with
  | None => ret (definition, run, policy)
  | Some definition =>
      let! snapshot := refreshRunSnapshot c runID definition task.(Task_Objective) in
      let run := run <| Run_VersionSnapshot := snapshot |> in
      let! policy := policySetForRun c run tenantID (policyID definition) in
      ret (definition, run, policy)
  end.

(** [requiredToolExpectationDecision] *)
Definition requiredToolExpectationDecision (c : Coordinator) (input : PromptInput)
    (candidates : CandidateSet) (decision : Contracts.Decision) : KM Contracts.Decision :=
  if decision.(Decision_Type) == DecisionTypeToolCall then ret decision else
  let! forced := read (c.(K_Forced) input candidates) in
  match forced with
  | None => ret decision
  | Some replacement =>
      let envelope := input.(PI_Envelope) in
      do! recordTrace envelope.(Env_TraceID) envelope.(Env_Context).(Ctx_TenantID)
            input.(PI_Run).(Run_RunID) input.(PI_Task).(Task_TaskID) "expected_tool_missing"
            {["expected_tool_id" := AString match replacement.(Decision_ToolCalls) with
                                            | call :: _ => call.(Call_ToolID)
                                            | [] => ""
                                            end;
              "original_decision_id" := AString decision.(Decision_DecisionID);
              "original_decision_type" := AString decision.(Decision_Type);
              "replacement_decision_id" := AString replacement.(Decision_DecisionID);
              "reason" := AString "required_tool_expectation_gate"]} in
      ret replacement
  end.

(** From the prompt to the outcome of the step. *)
Definition decide_and_dispatch (c : Coordinator) (input : PromptInput) (runID taskID : string)
    : KM StepOutcome :=
  let envelope := input.(PI_Envelope) in
  let definition := input.(PI_Definition) in
  let policy := input.(PI_PolicySet) in
  let stepID := input.(PI_StepID) in
  let carry_out decision candidates :=
    dispatch json_Marshal sha256_hex trunc as_decision c.(K_Dispatcher) envelope definition policy
      runID taskID stepID decision candidates in
  let! built := read (c.(K_Prompt) input) in
  let! prompt := lift_sum built in
  match prompt with
  | PromptNoOp decision candidates => carry_out decision candidates
  | PromptBundleFor bundle compression candidates =>
      do! pinPromptBundleHash runID bundle.(Bundle_Hash) in
      do! trace_direct envelope runID taskID stepID TracePromptBundleBuilt
            {["hash" := AString bundle.(Bundle_Hash);
              "context_assembly_report" := to_any _ bundle.(Bundle_ContextAssemblyReport);
              "compression_report" := to_any _ compression;
              "assembly_steps" := to_any _ bundle.(Bundle_AssemblySteps)]} in
      let! forced := read (c.(K_Forced) input candidates) in
      let! decision :=
        match forced with
        | Some decision => ret decision
        | None =>
            let! decision := modelDecision json_Marshal sha256_hex diagnostics EstimatePromptTokens
              hashed_parts c.(K_Dispatcher) c.(K_Model) envelope definition runID taskID stepID bundle
              policy candidates.(Cand_Tools) in
            requiredToolExpectationDecision c input candidates decision
        end in
      let! err := read (c.(K_MemoryHook) input bundle candidates decision) in
      do! throw_if err in
      carry_out decision candidates
  end.

(** The outcome, and the definition later steps go by. *)
Definition step (c : Coordinator) (envelope : AgentEnvelope) (definition : AgentDefinition)
    (runID taskID userInput : string) : KM (AgentDefinition * StepOutcome) :=
  let! incremented := on_runs (IncrementStep runID) in
  let '(run, stepID) := incremented in
  let! task := on_tasks (TaskRepo.Get taskID) in
  let! current := current_definition c envelope definition runID run task in
  let '(definition, run, policy) := current in
  let! resolved := lift_sum (Resolve strategy_hash definition policy (strategyDefaults c.(K_ContextDefaults))) in
  let '(effective, report) := resolved in
  let active := applyEffectiveStrategiesToRuntimeDefinition definition effective in
  let '(active, tools, conversationToolIDs) :=
    applyConversationToolOverlay envelope active effective.(Eff_Tools) in
  let limits := active.(Agent_Runtime) in
  do! throw_if (step_limit limits (run.(Run_StepCount) >? limits.(Limits_MaxSteps))%Z) in
  do! check_duration limits run in
  let effective := mkEffectiveRunConfig effective.(Eff_Prompt) effective.(Eff_Model) effective.(Eff_Context)
    tools effective.(Eff_Skills) effective.(Eff_Collaboration) effective.(Eff_Memory)
    effective.(Eff_Knowledge) effective.(Eff_Runtime) effective.(Eff_Repair) effective.(Eff_Output)
    effective.(Eff_Policy) in
  do! record_strategies c envelope runID taskID active effective report conversationToolIDs in
  let! outcome := decide_and_dispatch c
    (mkPromptInput envelope active effective report.(Report_StrategyHash) effective.(Eff_Policy) run task
       stepID userInput) runID taskID in
  ret (definition, outcome).

(** ** The loop; [None] only when [fuel] runs out *)

Fixpoint loop (c : Coordinator) (envelope : AgentEnvelope) (runID taskID userInput : string)
    (fuel : nat) (definition : AgentDefinition) : KM (option StepOutcome) :=
  match fuel with
  | O => ret None
  | Datatypes.S fuel =>
      let! run := on_runs (RunRepo.Get runID) in
      let limits := definition.(Agent_Runtime) in
      do! throw_if (step_limit limits (run.(Run_StepCount) >=? limits.(Limits_MaxSteps))%Z) in
      do! check_duration limits run in
      let! stepped := step c envelope definition runID taskID userInput in
      match stepped with
      | (definition, Continue _) => loop c envelope runID taskID userInput fuel definition
      | (_, outcome) => ret (Some outcome)
      end
  end.

(** What the callers of [loop] do with its error. *)
Definition finish (c : Coordinator) (envelope : AgentEnvelope) (definition : AgentDefinition)
    (runID taskID : string) (looped : option StepOutcome + error) : KM (option StepOutcome) :=
  let failed result err :=
    let runtimeErr := normalizeRuntimeError err in
    let! _ := attempt (on_runs (MarkFailed runID (Some runtimeErr))) in
    do! sync c.(K_Dispatcher) envelope runID taskID (SyncRunFailed runtimeErr.(Err_Message)) in
    do! ignore (apply_command definition runID taskID "" CmdFail (ToTracePayload runtimeErr)) in
    ret (Some (FailedWith (result <| RR_Error := Some runtimeErr |>) err)) in
  match looped with
  | inr err => failed zeroRunResult err
  | inl (Some (FailedWith result err)) => failed result err
  | inl outcome => ret outcome
  end.

Fixpoint apply_commands (definition : AgentDefinition) (runID taskID : string)
    (commands : list TaskCommand) : KM unit :=
  match commands with
  | [] => ret tt
  | command :: commands =>
      do! apply_command definition runID taskID "" command ∅ in
      apply_commands definition runID taskID commands
  end.

Definition ExecutePreparedRun (c : Coordinator) (fuel : nat) (prepared : PreparedRun)
    : KM (option StepOutcome) :=
  let envelope := prepared.(Prep_Envelope) in
  let definition := prepared.(Prep_Definition) in
  let taskID := prepared.(Prep_Task).(Task_TaskID) in
  let runID := prepared.(Prep_Run).(Run_RunID) in
  do! apply_commands definition runID taskID [CmdAccept; CmdPlanStarted; CmdRunStarted] in
  let! _ := on_runs (MarkRunning runID) in
  let! looped := attempt (loop c envelope runID taskID prepared.(Prep_UserInput) fuel definition) in
  finish c envelope definition runID taskID looped.

Definition HandleEnvelope (c : Coordinator) (fuel : nat) (envelope : AgentEnvelope)
    : KM (option StepOutcome) :=
  let! prepared := attempt (PrepareEnvelopeRun c envelope) in
  match prepared with
  | inl prepared => ExecutePreparedRun c fuel prepared
  | inr err => ret (Some (FailedWith match err with
                                     | ErrRuntime e => zeroRunResult <| RR_Error := Some e |>
                                     | _ => zeroRunResult
                                     end err))
  end.

Definition StartTaskRun (c : Coordinator) (fuel : nat) (envelope : AgentEnvelope) (task : Task)
    : KM (option StepOutcome) :=
  let! normalized := normalizeRunEnvelope envelope in
  let! prepared := prepareTaskRun c normalized.1 task normalized.2 in
  ExecutePreparedRun c fuel prepared.

Definition ResumeRun (c : Coordinator) (fuel : nat) (envelope : AgentEnvelope) (runID taskID : string)
    : KM (option StepOutcome) :=
  let tenantID := envelope.(Env_Context).(Ctx_TenantID) in
  let trace type payload := recordTrace envelope.(Env_TraceID) tenantID runID taskID type payload in
  let! run := on_runs (RunRepo.Get runID) in
  if run.(Run_TenantID) != tenantID
  then throw (tenant_error "run tenant does not match envelope tenant") else
  let! definition := load c tenantID run.(Run_AgentID) run.(Run_AgentVersion) in
  do! trace TraceAgentLoaded (<["source" := AString "resume"]> (agent_payload definition)) in
  let! task := on_tasks (TaskRepo.Get taskID) in
  if task.(Task_TenantID) != tenantID
  then throw (tenant_error "task tenant does not match envelope tenant") else
  do! trace TraceTaskLoaded (task_payload task) in
  let! _ := on_runs (MarkRunning runID) in
  let! resumed :=
    (if input_of envelope != "" then
       let! normalized := normalizeRunEnvelope envelope in
       do! recordInputFacts c normalized.1 run task normalized.2 "run.resumed_input" in
       ret normalized
     else ret (envelope, TrimSpace run.(Run_Input))) in
  let '(envelope, currentInput) := resumed in
  if currentInput == ""
  then throw (schema_error "resume requires run.input or non-empty payload.input") else
  let! looped := attempt (loop c envelope runID taskID currentInput fuel definition) in
  finish c envelope definition runID taskID looped.
End kernel.
Arguments Coordinator : clear implicits.
