(* ===== verification/RunLife.v ===== *)
(** * The life of a run: what Kernel.v and Dispatch.v do to a run and its task

    A logic for the kernel: [at_ n rs ts] says where the run and its task are.  Every operation of a
    step moves them together, so that a run ends with its task in the status that belongs to it. *)

From stdpp Require Import base list strings gmap fin_maps.
From Stdlib Require Import Ascii Lia.
From S2P Require Import Prelude Contracts GoMonad Storage TaskState TaskRepo TaskRuntime Plan RunRepo Policies PolicyEngine Decision ToolStore Execution ToolRun Strategy Dispatch ModelCall Kernel.
Open Scope go_scope.
Open Scope string_scope.
Open Scope list_scope.

(** ** Operations that leave runs and tasks alone *)

Section keeps.
Context {S : Type}.
Notation KM := (M (KSys S)).

Definition keeps {A} (m : KM A) : Prop :=
  ∀ w s, k_runs (m w s).2 = k_runs s ∧ k_tasks (m w s).2 = k_tasks s.

Lemma kept_ret {A} (a : A) : keeps (ret a).
Proof. by intros w s. Qed.
Lemma keeps_throw {A} e : keeps (throw (A:=A) e).
Proof. by intros w s. Qed.
Lemma keeps_panic {A} : keeps (panic (A:=A)).
Proof. by intros w s. Qed.
Lemma keeps_lift {A} (f : World → A * World) : keeps (lift_env f).
Proof. intros w s. unfold lift_env. by destruct (f w). Qed.
Lemma keeps_effect {A} (m : KM A) : effect_only m → keeps m.
Proof. intros Hm w s. by destruct (Hm w s) as (a & w' & ->). Qed.
Lemma kept_bind {A B} (m : KM A) (f : A → KM B) : keeps m → (∀ a, keeps (f a)) → keeps (bind m f).
Proof.
  intros Hm Hf w s. unfold bind. specialize (Hm w s).
  destruct (m w s) as [[[a|e|] w1] s1]; [|done|done]. cbn in Hm.
  destruct (Hf a w1 s1) as [-> ->]. done.
Qed.
Lemma keeps_if {A} (b : bool) (m n : KM A) : keeps m → keeps n → keeps (if b then m else n).
Proof. by destruct b. Qed.
Lemma keeps_option {A B} (o : option A) (f : A → KM B) (n : KM B) :
  (∀ a, keeps (f a)) → keeps n → keeps (match o with Some a => f a | None => n end).
Proof. by destruct o. Qed.
Lemma keeps_sum {A B C} (o : A + B) (f : A → KM C) (g : B → KM C) :
  (∀ a, keeps (f a)) → (∀ b, keeps (g b)) → keeps (match o with inl a => f a | inr b => g b end).
Proof. by destruct o. Qed.
Lemma keeps_attempt {A} (m : KM A) : keeps m → keeps (attempt m).
Proof. intros Hm w s. unfold attempt. specialize (Hm w s). by destruct (m w s) as [[[a|e|] w1] s1]. Qed.
Lemma keeps_ignore (m : KM unit) : keeps m → keeps (ignore m).
Proof. intros Hm w s. unfold ignore. specialize (Hm w s). by destruct (m w s) as [[[a|e|] w1] s1]. Qed.
Lemma keeps_with_trace (m : KM unit) : keeps m → keeps (with_trace m).
Proof. intros Hm w s. unfold with_trace. destruct (w_trace w); [apply Hm|done]. Qed.
Lemma keeps_on_plans {A} (m : M PlanRepo A) : keeps (on_plans m).
Proof. intros w s. unfold on_plans, zoom. by destruct (m w (k_plans s)) as [[r w'] t]. Qed.
Lemma keeps_on_tools {A} (m : M ToolRepo A) : keeps (on_tools m).
Proof. intros w s. unfold on_tools, zoom. by destruct (m w (k_calls s)) as [[r w'] t]. Qed.
Lemma keeps_on_rules {A} (m : M PolicyStore A) : keeps (on_rules m).
Proof. intros w s. unfold on_rules, zoom. by destruct (m w (k_policies s)) as [[r w'] t]. Qed.
Lemma keeps_on_ext {A} (m : M S A) : keeps (on_ext m).
Proof. intros w s. unfold on_ext, zoom. by destruct (m w (k_ext s)) as [[r w'] t]. Qed.
Lemma kept_read {A} (r : Reader A) : keeps (read r).
Proof. intros w s. unfold read. by destruct (r w s) as [[a w'] ext]. Qed.
Lemma keeps_Get id : keeps (on_runs (RunRepo.Get id)).
Proof.
  intros w s. unfold on_runs, zoom, RunRepo.Get, bind, get, ret, throw.
  destruct (runs (k_runs s) !! id); by destruct s.
Qed.
Lemma keeps_task_Get id : keeps (on_tasks (TaskRepo.Get id)).
Proof.
  intros w s. unfold on_tasks, zoom, TaskRepo.Get, bind, get, ret, throw.
  destruct (tasks (k_tasks s) !! id); by destruct s.
Qed.
End keeps.

(** ... and neither fail nor panic. *)
Section quiet.
Context {S : Type}.
Notation KM := (M (KSys S)).

Definition quiet {A} (m : KM A) : Prop :=
  ∀ w s, ∃ a w' s', m w s = (Ok a, w', s') ∧ k_runs s' = k_runs s ∧ k_tasks s' = k_tasks s.

Lemma quiet_keeps {A} (m : KM A) : quiet m → keeps m.
Proof. intros Hm w s. by destruct (Hm w s) as (a & w' & s' & -> & ?). Qed.
Lemma quiet_ret {A} (a : A) : quiet (ret a).
Proof. intros w s. by exists a, w, s. Qed.
Lemma quiet_lift {A} (f : World → A * World) : quiet (lift_env f).
Proof. intros w s. unfold lift_env. destruct (f w) as [a w']. by exists a, w', s. Qed.
Lemma quiet_bind {A B} (m : KM A) (f : A → KM B) : quiet m → (∀ a, quiet (f a)) → quiet (bind m f).
Proof.
  intros Hm Hf w s. destruct (Hm w s) as (a & w1 & s1 & E & E1 & E2).
  destruct (Hf a w1 s1) as (b & w2 & s2 & F & F1 & F2). exists b, w2, s2.
  rewrite (bind_Ok _ _ _ _ _ _ _ E). split; [done|]. by rewrite F1, F2.
Qed.
Lemma quiet_if {A} (b : bool) (m n : KM A) : quiet m → quiet n → quiet (if b then m else n).
Proof. by destruct b. Qed.
Lemma quiet_with_trace (m : KM unit) : quiet m → quiet (with_trace m).
Proof. intros Hm w s. unfold with_trace. destruct (w_trace w); [apply Hm|]. by exists tt, w, s. Qed.
Lemma quiet_call_back (c : Callback) : quiet (call_back c).
Proof.
  intros w s. unfold call_back, on_ext, zoom. destruct (c w (k_ext s)) as [w' t].
  by exists tt, w', (s <| k_ext := t |>).
Qed.
Lemma quiet_on_ext {A} (f : World → S → A * World * S) :
  quiet (on_ext (λ w s, let '(a, w', s') := f w s in (Ok a, w', s'))).
Proof.
  intros w s. unfold on_ext, zoom. destruct (f w (k_ext s)) as [[a w'] t].
  by exists a, w', (s <| k_ext := t |>).
Qed.
Lemma quiet_read {A} (r : Reader A) : quiet (read r).
Proof. intros w s. unfold read. destruct (r w s) as [[a w'] t]. by exists a, w', (s <| k_ext := t |>). Qed.
End quiet.

Create HintDb quiet discriminated.
#[export] Hint Resolve quiet_ret quiet_lift quiet_bind quiet_if quiet_with_trace quiet_call_back quiet_on_ext
  quiet_read : quiet.
Ltac be_quiet :=
  repeat first
    [ solve [auto 2 with quiet]
    | simple apply quiet_bind; [|intros ?]
    | simple apply quiet_if | simple apply quiet_with_trace
    | match goal with |- quiet (match ?o with _ => _ end) => destruct o end ].

Create HintDb keeps discriminated.
#[export] Hint Resolve kept_ret keeps_throw keeps_panic keeps_lift kept_bind keeps_if keeps_option keeps_sum
  keeps_attempt keeps_ignore keeps_with_trace keeps_on_plans keeps_on_tools keeps_on_rules keeps_on_ext
  kept_read keeps_Get keeps_task_Get : keeps.

(** [keep]: by the lemmas above, through the binds, tests and matches of the operation. *)
Ltac keep :=
  repeat first
    [ solve [auto 3 with keeps]
    | simple apply kept_bind; [|intros ?]
    | simple apply keeps_if | simple apply keeps_attempt | simple apply keeps_ignore
    | simple apply keeps_with_trace
    | match goal with |- keeps (match ?o with _ => _ end) => destruct o end
    | match goal with |- keeps (let '(_, _) := ?p in _) => destruct p end ].

Section operations.
Context `{Env, ProfileDecoder, DecisionDecoder} {Executor S : Type} `{!ExecutorOps Executor S}.
Notation KM := (M (KSys S)).

Lemma quiet_trace_Record e : quiet (S:=S) (trace_Record e).
Proof. apply quiet_lift. Qed.
Lemma quiet_now : quiet (S:=S) now.
Proof. apply quiet_lift. Qed.
Lemma quiet_idgen p : quiet (S:=S) (idgen_New p).
Proof. apply quiet_lift. Qed.
#[local] Hint Resolve quiet_trace_Record quiet_now quiet_idgen : quiet.

Lemma quiet_recordTrace a b c d e f : quiet (S:=S) (recordTrace a b c d e f).
Proof. unfold recordTrace. be_quiet. Qed.
Lemma quiet_recordResponse a b c d e f g : quiet (S:=S) (recordResponse a b c d e f g).
Proof. unfold recordResponse. be_quiet. Qed.
Lemma quiet_observeHook (d : Dispatcher Executor S) a b c e f g : quiet (observeHook d a b c e f g).
Proof. unfold observeHook. be_quiet. Qed.
Lemma quiet_sync (d : Dispatcher Executor S) a b c e : quiet (sync d a b c e).
Proof. unfold sync, externalBinding. be_quiet. Qed.
Lemma quiet_syncReply (d : Dispatcher Executor S) a b c e : quiet (syncReply d a b c e).
Proof. unfold syncReply. destruct e; [apply quiet_sync|be_quiet]. Qed.
#[local] Hint Resolve quiet_recordTrace quiet_recordResponse quiet_observeHook quiet_sync quiet_syncReply : quiet.
Lemma quiet_run_finished (d : Dispatcher Executor S) a b c e f : quiet (run_finished d a b c e f).
Proof. apply quiet_observeHook. Qed.
Lemma quiet_sync_artifacts (d : Dispatcher Executor S) a b c refs : quiet (sync_artifacts d a b c refs).
Proof. induction refs; cbn [sync_artifacts]; be_quiet. Qed.

Lemma keeps_now : keeps (S:=S) now.
Proof. apply keeps_lift. Qed.
Lemma keeps_trace_direct a b c d e f : keeps (S:=S) (trace_direct a b c d e f).
Proof.
  unfold trace_direct. apply kept_bind; [apply keeps_now|intros t w s].
  by destruct (w_trace w).
Qed.
Lemma keeps_lift_sum {A} (r : error + A) : keeps (S:=S) (lift_sum r).
Proof. unfold lift_sum. keep. Qed.
Lemma keeps_throw_if err : keeps (S:=S) (throw_if err).
Proof. unfold throw_if. keep. Qed.
Lemma keeps_ask_client {A} (f : World → S → (error + A) * World * S) : keeps (ask_client f).
Proof. apply keeps_on_ext. Qed.
End operations.

#[export] Hint Resolve quiet_trace_Record quiet_now quiet_idgen quiet_recordTrace quiet_recordResponse
  quiet_observeHook quiet_sync quiet_syncReply quiet_run_finished quiet_sync_artifacts : quiet.
#[export] Hint Resolve keeps_now keeps_trace_direct keeps_lift_sum keeps_throw_if keeps_ask_client : keeps.
#[export] Hint Extern 3 (keeps _) => simple apply quiet_keeps; solve [auto 1 with quiet] : keeps.

Section model_keeps.
Context `{Env, ProfileDecoder, DecisionDecoder} {Executor S : Type} `{!ExecutorOps Executor S}.
Context (json_Marshal : Any → error + string) (sha256_hex : string → string)
  (diagnostics : PromptBundle → Any) (EstimatePromptTokens : PromptBundle → Z)
  (hashed_parts : PromptBundle → Any).

Lemma keeps_stream_loop envelope r t st events : ∀ a, keeps (stream_loop (S:=S) envelope r t st a events).
Proof.
  induction events as [|e events IH]; intros a; cbn [stream_loop]; [keep|].
  destruct (stream_event a e); [keep|]. simple apply kept_bind; [unfold recordModelDelta; keep|].
  intros _. apply IH.
Qed.

Lemma keeps_invokeModel (c : ModelSide (S:=S)) envelope d r t st bundle :
  keeps (invokeModel c envelope d r t st bundle).
Proof.
  unfold invokeModel, streamModel, callModel.
  destruct (modelStreamingEnabled _); destruct (validateModelProviderForDefinition c d); keep.
  apply keeps_stream_loop.
Qed.

Lemma keeps_retry (ask : M (KSys S) ModelResponse) n : keeps ask → keeps (retry_model ask n).
Proof.
  intros Ha. induction n as [|n IH]; cbn [retry_model]; keep; auto.
Qed.

Lemma keeps_attempt_decision (d : Dispatcher Executor S) c envelope def r t st bundle tools n :
  keeps (attempt_decision json_Marshal sha256_hex diagnostics EstimatePromptTokens d c envelope def r t st
           bundle tools n).
Proof.
  unfold attempt_decision, recordModelCalled, recordModelCompleted, completeModel. cbv zeta.
  repeat first [progress keep | apply keeps_retry, keeps_invokeModel].
Qed.

Lemma keeps_modelDecision (d : Dispatcher Executor S) c envelope def r t st bundle policy tools :
  keeps (modelDecision json_Marshal sha256_hex diagnostics EstimatePromptTokens hashed_parts d c envelope
           def r t st bundle policy tools).
Proof.
  unfold modelDecision. cbv zeta. simple apply kept_bind; [|intros o; keep].
  generalize (repair_fuel (repairAttemptLimit policy def)) as fuel.
  generalize (repairAttemptLimit policy def) as max. generalize 0%Z as n. intros n max fuel.
  revert bundle n. induction fuel as [|fuel IH]; intros bundle n; cbn [decide]; [keep|].
  simple apply kept_bind; [apply keeps_attempt_decision|]. intros [dec|err]; [keep|].
  destruct (_ || _); [keep|]. simple apply kept_bind; [unfold repairPrompt; keep|intros b; apply IH].
Qed.
End model_keeps.

(** ** Where the run and its task are *)

Section at_.
Context `{Env, ProfileDecoder, DecisionDecoder} {Executor S : Type} `{!ExecutorOps Executor S}.
Context (runID taskID : string).
Notation KM := (M (KSys S)).

(** The run has made [n] steps. *)
Record at_ (n : Z) (rs : RunStatus) (ts : TaskStatus) (s : KSys S) : Prop := {
  at_run : ∃ run, runs (k_runs s) !! runID = Some run ∧ Run_Status run = rs ∧ Run_StepCount run = n;
  at_task : ∃ task, tasks (k_tasks s) !! taskID = Some task ∧ Task_Status task = ts;
  at_wf : store_wf (k_tasks s)
}.

Lemma at_keeps n rs ts s s' :
  k_runs s' = k_runs s → k_tasks s' = k_tasks s → at_ n rs ts s → at_ n rs ts s'.
Proof. intros Er Et []. constructor; rewrite ?Er, ?Et; done. Qed.

(** Assertions on the runs and the tasks alone. *)
Definition stable (P : KSys S → Prop) : Prop :=
  ∀ s s', k_runs s' = k_runs s → k_tasks s' = k_tasks s → P s → P s'.

Lemma stable_at n rs ts : stable (at_ n rs ts).
Proof. intros s s'. apply at_keeps. Qed.

Lemma triple_keeps {A} P (m : KM A) E :
  stable P → (∀ s, P s → E s) → keeps m → triple P m (λ _, P) E.
Proof.
  intros HP HE Hm w s Hs. destruct (Hm w s) as [Er Et].
  destruct (m w s) as [[[a|e|] w'] s']; cbn in *; try apply HE; by eapply HP.
Qed.

(** A step of the proof: an operation that keeps the run and the task, and the rest. *)
Lemma triple_skip {A B} P (m : KM A) (f : A → KM B) Q E :
  stable P → (∀ s, P s → E s) → keeps m → (∀ a, triple P (f a) Q E) → triple P (bind m f) Q E.
Proof. intros HP HE Hm Hf. eapply triple_bind; [by apply triple_keeps|exact Hf]. Qed.

Lemma triple_weaken {A} P (m : KM A) Q E E' :
  triple P m Q E → (∀ s, E s → E' s) → triple P m Q E'.
Proof. intros Hm HE w s Hs. specialize (Hm w s Hs). destruct (m w s) as [[[a|e|] w'] s']; auto. Qed.

(** *** Runs *)

(** An update of the run that cannot fail. *)
Lemma triple_update n rs ts (set_ : AgentRun → AgentRun) rs' :
  (∀ run, Run_Status run = rs → Run_Status (set_ run) = rs' ∧ Run_StepCount (set_ run) = Run_StepCount run) →
  triple (at_ n rs ts) (on_runs (update_pure runID set_))
    (λ run s, (Run_Status run = rs' ∧ Run_StepCount run = n) ∧ at_ n rs' ts s) (λ _, False).
Proof.
  intros Hset w s [(run & Er & Hrs & Hn) Ht Hw]. unfold on_runs, zoom, update_pure, update, bind, get, put, ret.
  rewrite Er. cbn. destruct (Hset run Hrs) as [E1 E2].
  destruct (Normalize_fields (set_ run)) as (_ & F1 & F2 & _). rewrite F1, F2, E1, E2. split; [done|].
  constructor; [|done|done]. eexists. split; [apply lookup_insert_eq|]. by rewrite F1, F2, E1, E2.
Qed.

Lemma triple_now_then {A} (P : KSys S → Prop) (f : Time → M RunRepo A) Q E :
  (∀ t, triple P (on_runs (f t)) Q E) → triple P (on_runs (bind now f)) Q E.
Proof.
  intros Hf w s Hs. unfold on_runs, zoom. unfold bind at 1, now at 1, time_Now, lift_env.
  specialize (Hf (env_clock (w_reads w)) (w <| w_reads := Datatypes.S (w_reads w) |>) s Hs).
  unfold on_runs, zoom in Hf. exact Hf.
Qed.

Lemma triple_MarkCompleted n rs ts :
  triple (at_ n rs ts) (on_runs (MarkCompleted runID))
    (λ run s, (Run_Status run = RunCompleted ∧ Run_StepCount run = n) ∧ at_ n RunCompleted ts s) (λ _, False).
Proof. apply triple_now_then. intros t. by apply triple_update. Qed.

Lemma triple_MarkFailed n rs ts err :
  triple (at_ n rs ts) (on_runs (MarkFailed runID err))
    (λ run s, (Run_Status run = RunFailed ∧ Run_StepCount run = n) ∧ at_ n RunFailed ts s) (λ _, False).
Proof. apply triple_now_then. intros t. apply triple_update. intros run _. by destruct err. Qed.

Lemma triple_MarkWaitingInput n rs ts :
  triple (at_ n rs ts) (on_runs (MarkWaitingInput runID))
    (λ run s, (Run_Status run = RunWaitingInput ∧ Run_StepCount run = n) ∧ at_ n RunWaitingInput ts s)
    (λ _, False).
Proof. by apply triple_update. Qed.

Lemma triple_MarkWaitingApproval n rs ts :
  triple (at_ n rs ts) (on_runs (MarkWaitingApproval runID))
    (λ run s, (Run_Status run = RunWaitingApproval ∧ Run_StepCount run = n) ∧ at_ n RunWaitingApproval ts s)
    (λ _, False).
Proof. by apply triple_update. Qed.

Lemma triple_MarkRunning n rs ts :
  triple (at_ n rs ts) (on_runs (MarkRunning runID))
    (λ run s, (Run_Status run = RunRunning ∧ Run_StepCount run = n) ∧ at_ n RunRunning ts s) (λ _, False).
Proof. by apply triple_update. Qed.

Lemma triple_UpdateVersionSnapshot n rs ts snap :
  triple (at_ n rs ts) (on_runs (UpdateVersionSnapshot runID snap))
    (λ run s, (Run_Status run = rs ∧ Run_StepCount run = n) ∧ at_ n rs ts s) (λ _, False).
Proof. by apply triple_update. Qed.

Lemma triple_IncrementToolCall n rs ts :
  triple (at_ n rs ts) (on_runs (IncrementToolCall runID))
    (λ run s, (Run_Status run = rs ∧ Run_StepCount run = n) ∧ at_ n rs ts s) (λ _, False).
Proof. by apply triple_update. Qed.

Lemma triple_Get n rs ts :
  triple (at_ n rs ts) (on_runs (RunRepo.Get runID))
    (λ run s, (Run_Status run = rs ∧ Run_StepCount run = n) ∧ at_ n rs ts s) (λ _, False).
Proof.
  intros w s [(run & Er & Hrs & Hn) Ht Hw]. unfold on_runs, zoom, RunRepo.Get, bind, get, ret. rewrite Er.
  split; [done|]. eapply at_keeps; [..|constructor; [exists run; done|exact Ht|exact Hw]]; by destruct s.
Qed.

Lemma triple_IncrementStep n rs ts :
  triple (at_ n rs ts) (on_runs (IncrementStep runID))
    (λ p s, Run_StepCount p.1 = int64 (n + 1) ∧ at_ (int64 (n + 1)) rs ts s) (at_ n rs ts).
Proof.
  intros w s Hat. destruct (Hat) as [(run & Er & Hrs & Hn) Ht Hw].
  unfold on_runs, zoom, IncrementStep, update, bind, get, put, ret, or_panic. rewrite Er. cbn.
  rewrite Hn. destruct (itoa (int64 (n + 1))) as [id|]; cbn; [|by destruct s].
  set (run' := run <| Run_StepCount := int64 (n + 1) |>).
  destruct (Normalize_fields run') as (_ & F1 & F2 & _). rewrite F1. split; [done|].
  constructor; [|done|done]. eexists. split; [apply lookup_insert_eq|]. by rewrite F1, F2.
Qed.

(** *** Tasks *)

Definition task_at (ts : TaskStatus) (s : InMemoryStore) : Prop :=
  (∃ task, tasks s !! taskID = Some task ∧ Task_Status task = ts) ∧ store_wf s.

Lemma effect_transition_audit task event input tr :
  effect_only (S:=InMemoryStore) (recordTransitionAudit task event input tr).
Proof. unfold recordTransitionAudit. auto 8 with effects. Qed.

Lemma ApplyCommand_at ts input w s :
  input.(Input_TaskID) = taskID → task_at ts s →
  match ApplyCommand (Some store_atomic) input w s with
  | (Ok _, _, s') => ∃ tr, Apply ts input.(Input_Command) = Ok tr ∧ task_at (Transition_To tr) s'
  | (Err _, _, s') => task_at ts s'
  | (Panic, _, _) => False
  end.
Proof.
  intros Hin [(task & Et & Hts) Hw]. unfold ApplyCommand.
  pose proof (prepareCommand_run input w s) as Ep. rewrite Hin, Et in Ep.
  destruct (Apply (Task_Status task) (Input_Command input)) as [tr|e|] eqn:Ea;
    [|rewrite (bind_Err _ _ _ _ _ _ _ Ep); split; [by exists task|done]|by apply Apply_not_Panic in Ea].
  rewrite (bind_Ok _ _ _ _ _ _ _ Ep). set (p := prepared_of input task tr w).
  pose proof (wf_tasks _ Hw _ _ Et) as Hid.
  destruct (prepared_ids input task tr w) as [Hpid Hst]. fold p in Hpid, Hst.
  destruct (commit_run p (after_prepare w) s task) as [[_ E]|[Hnin E]];
    [by rewrite Hpid, Hid|done|rewrite (bind_Err _ _ _ _ _ _ _ E); split; [by exists task|done]|].
  rewrite (bind_Ok _ _ _ _ _ _ _ E).
  rewrite (bind_Ok _ _ _ _ _ _ _ (Get_updated _ (prep_updated p) _ _ s _ Hpid)).
  assert (Heff : ∀ stored, effect_only (S:=InMemoryStore)
    (if Transition_Audit (prep_transition p)
     then recordTransitionAudit stored (prep_event p) input (prep_transition p) else ret tt)).
  { intros stored. apply effect_only_if; [apply effect_transition_audit|apply effect_only_ret]. }
  match goal with |- context [bind (if _ then ?m else ret tt) ?f ?w ?s] =>
    destruct (Heff _ w s : ∃ a w', (if Transition_Audit (prep_transition p) then m else ret tt) w s = _)
      as (a & w' & ->%(bind_Ok _ f)) end.
  unfold ret. exists tr. rewrite <- Hts. split; [done|]. split.
  - assert (Hk : Task_TaskID (prep_updated p) = taskID) by congruence.
    eexists. split; [rewrite <- Hk; apply lookup_insert_eq|exact Hst].
  - apply append_event_wf; [by apply update_task_wf|done].
Qed.

Lemma command_at n rs ts definition stepID cmd payload w s :
  at_ n rs ts s →
  match apply_command (S:=S) definition runID taskID stepID cmd payload w s with
  | (Ok _, _, s') => ∃ tr, Apply ts cmd = Ok tr ∧ at_ n rs (Transition_To tr) s'
  | (Err _, _, s') => at_ n rs ts s'
  | (Panic, _, _) => False
  end.
Proof.
  intros [Hr Ht Hw]. unfold apply_command, bind, on_tasks, zoom.
  pose proof (ApplyCommand_at ts (task_command definition runID taskID stepID cmd payload) w (k_tasks s)
                eq_refl (conj Ht Hw)) as Hm.
  destruct (ApplyCommand _ _ w (k_tasks s)) as [[[a|e|] w'] t]; [| |done].
  - destruct Hm as (tr & E & Ht' & Hw'). exists tr. split; [done|]. by constructor.
  - destruct Hm. by constructor.
Qed.

Lemma triple_command n rs ts definition stepID cmd payload :
  triple (at_ n rs ts) (apply_command (S:=S) definition runID taskID stepID cmd payload)
    (λ _ s, ∃ tr, Apply ts cmd = Ok tr ∧ at_ n rs (Transition_To tr) s) (at_ n rs ts).
Proof.
  intros w s Hs. pose proof (command_at n rs ts definition stepID cmd payload w s Hs) as Hm.
  by destruct (apply_command _ _ _ _ _ _ w s) as [[[a|e|] w'] s'].
Qed.

(** A command the machine takes to [ts'], and [_ =] before it. *)
Lemma triple_command_to n rs ts definition stepID cmd payload ts' :
  (∀ tr, Apply ts cmd = Ok tr → Transition_To tr = ts') →
  triple (at_ n rs ts) (apply_command (S:=S) definition runID taskID stepID cmd payload)
    (λ _ s, at_ n rs ts' s) (at_ n rs ts).
Proof.
  intros Hto. eapply triple_conseq; [apply triple_command|done|]. intros _ s (tr & E & Hs).
  by rewrite (Hto tr E) in Hs.
Qed.

Lemma triple_ignored n rs ts definition stepID cmd payload ts' :
  (∀ tr, Apply ts cmd = Ok tr → Transition_To tr = ts') →
  triple (at_ n rs ts) (ignore (apply_command (S:=S) definition runID taskID stepID cmd payload))
    (λ _ s, at_ n rs ts s ∨ at_ n rs ts' s) (at_ n rs ts).
Proof.
  intros Hto w s Hs. pose proof (triple_command_to n rs ts definition stepID cmd payload ts' Hto w s Hs) as Hm.
  unfold ignore. destruct (apply_command _ _ _ _ _ _ w s) as [[[a|e|] w'] s']; auto.
Qed.
End at_.

(** ** Steps end settled *)

(** The statuses of a run that has come to an end or waits, and of its task.  A run may wait for an
    approval while its task runs: when a call is repeated under a key whose result still waits. *)
Definition agree (rs : RunStatus) (ts : TaskStatus) : Prop :=
  (rs = RunCompleted ∧ ts = TaskCompleted) ∨ (rs = RunWaitingInput ∧ ts = TaskWaitingInput) ∨
  (rs = RunWaitingApproval ∧ (ts = TaskWaitingApproval ∨ ts = TaskRunning)).

(** The task of a failed run: failed, or where a refused command left it. *)
Definition failing (ts : TaskStatus) : Prop :=
  ts = TaskFailed ∨ ts = TaskRunning ∨ ts = TaskWaitingTool.

Definition known (decision : Contracts.Decision) : Prop :=
  DecisionType_Validate decision.(Decision_Type) = None.

(** A task moves along a row of its table. *)
Ltac moves := let E := fresh in intros ? E; vm_compute in E; injection E as <-; reflexivity.

Section settled.
Context `{Env, ProfileDecoder, DecisionDecoder} {Executor S : Type} `{!ExecutorOps Executor S}.
Context (runID taskID : string).
Notation KM := (M (KSys S)).
Notation at_ := (at_ (S:=S) runID taskID).

Definition settled (n : Z) (out : StepOutcome) (s : KSys S) : Prop :=
  match out with
  | Continue _ => at_ n RunRunning TaskRunning s
  | Finished res => ∃ rs ts, at_ n rs ts s ∧ agree rs ts ∧
      RR_RunID res = runID ∧ RR_TaskID res = taskID ∧ RR_Status res = rs
  | FailedWith _ _ => ∃ ts, at_ n RunFailed ts s ∧ failing ts
  end.

(** Where an operation may fail. *)
Definition open_ (n : Z) (s : KSys S) : Prop :=
  at_ n RunRunning TaskRunning s ∨ at_ n RunRunning TaskWaitingTool s.

Lemma stable_or P Q : stable (S:=S) P → stable Q → stable (λ s, P s ∨ Q s).
Proof. intros HP HQ s s' Er Et [Hs|Hs]; [left; by eapply HP|right; by eapply HQ]. Qed.

Lemma triple_quiet {A} P (m : KM A) E : stable (S:=S) P → quiet m → triple P m (λ _, P) E.
Proof. intros HP Hm w s Hs. destruct (Hm w s) as (a & w' & s' & -> & Er & Et). by eapply HP. Qed.

Lemma triple_calm {A B} P (m : KM A) (f : A → KM B) Q E :
  stable (S:=S) P → quiet m → (∀ a, triple P (f a) Q E) → triple P (bind m f) Q E.
Proof. intros HP Hm Hf. eapply triple_bind; [by apply triple_quiet|exact Hf]. Qed.

(** A command that the task's status allows, and what follows. *)
Lemma triple_moved {B} n rs ts ts' definition stepID cmd payload (f : KM B) Q E :
  (∀ tr, Apply ts cmd = Ok tr → Transition_To tr = ts') →
  (∀ s, at_ n rs ts s → E s) → triple (at_ n rs ts') f Q E →
  triple (at_ n rs ts) (bind (apply_command definition runID taskID stepID cmd payload) (λ _, f)) Q E.
Proof.
  intros Hto HE Hf. eapply triple_bind; [|intros u; exact Hf].
  eapply triple_weaken; [by apply triple_command_to|exact HE].
Qed.

(** A mark, and what follows with the run in its new status. *)
Lemma triple_mark {B} P n rs' ts (m : KM AgentRun) (f : AgentRun → KM B) Q E :
  triple P m (λ run s, (Run_Status run = rs' ∧ Run_StepCount run = n) ∧ at_ n rs' ts s) (λ _, False) →
  (∀ run, Run_Status run = rs' → Run_StepCount run = n → triple (at_ n rs' ts) (f run) Q E) →
  triple P (bind m f) Q E.
Proof.
  intros Hm Hf. eapply triple_bind; [eapply triple_weaken; [exact Hm|done]|].
  intros run w s [[Hr Hn] Hs]. by apply (Hf run Hr Hn w s).
Qed.

#[local] Hint Resolve stable_at : quiet.

(** The end of a branch: effects, and the result. *)
Ltac conclude :=
  repeat (eapply triple_calm; [apply stable_at|solve [be_quiet]|intros ?]);
  apply triple_ret; cbn [settled]; intros s Hs.

(** The run of a task that is [failing]. *)
Definition failing_at (n : Z) (rs : RunStatus) (s : KSys S) : Prop := ∃ ts, failing ts ∧ at_ n rs ts s.

Lemma stable_failing n rs : stable (S:=S) (failing_at n rs).
Proof. intros s s' Er Et (ts & Hf & Hs). exists ts. split; [done|]. by eapply at_keeps. Qed.

Lemma triple_exists {A X} (P : X → KSys S → Prop) (m : KM A) Q E :
  (∀ x, triple (P x) m Q E) → triple (λ s, ∃ x, P x s) m Q E.
Proof. intros Hm w s [x Hs]. by apply (Hm x w s). Qed.

Lemma triple_fact {A} (F : Prop) P (m : KM A) Q E : (F → triple P m Q E) → triple (λ s, F ∧ P s) m Q E.
Proof. intros Hm w s [HF Hs]. by apply Hm. Qed.

(** [_ = ApplyCommand(CmdFail)] *)
Lemma triple_cmd_fail n rs ts definition stepID payload :
  failing ts →
  triple (at_ n rs ts) (ignore (apply_command definition runID taskID stepID CmdFail payload))
    (λ _, failing_at n rs) (λ _, False).
Proof.
  intros Hf w s Hs. unfold ignore.
  pose proof (command_at runID taskID n rs ts definition stepID CmdFail payload w s Hs) as Hm.
  destruct (apply_command _ _ _ _ _ _ w s) as [[[a|e|] w'] s'] eqn:E; [| |done].
  - destruct Hm as (tr & Et & Hs'). exists (Transition_To tr). split; [|done].
    destruct Hf as [->|[->| ->]]; vm_compute in Et; try discriminate.
    injection Et as <-. by left.
  - by exists ts.
Qed.

Lemma triple_mark_failed {B} n rs (m : KM AgentRun) (f : AgentRun → KM B) Q E :
  (∀ ts, triple (at_ n rs ts) m
     (λ run s, (Run_Status run = RunFailed ∧ Run_StepCount run = n) ∧ at_ n RunFailed ts s) (λ _, False)) →
  (∀ run, triple (failing_at n RunFailed) (f run) Q E) →
  triple (failing_at n rs) (bind m f) Q E.
Proof.
  intros Hm Hf. apply triple_exists. intros ts. apply triple_fact. intros Hts.
  eapply triple_bind; [eapply triple_weaken; [apply Hm|done]|]. intros run.
  eapply triple_conseq; [apply Hf| |done]. intros s [_ Hs]. by exists ts.
Qed.

Lemma settled_failed n res err s : failing_at n RunFailed s → settled n (FailedWith res err) s.
Proof. intros (ts & Hf & Hs). by exists ts. Qed.

Lemma settled_finish rs ts n res s :
  at_ n rs ts s → agree rs ts → RR_RunID res = runID → RR_TaskID res = taskID → RR_Status res = rs →
  settled n (Finished res) s.
Proof. intros. by exists rs, ts. Qed.

Ltac conclude_failed :=
  repeat (eapply triple_calm; [apply stable_failing|solve [be_quiet]|intros ?]);
  apply triple_ret; intros s Hs; by apply settled_failed.

Lemma dispatch_with_settled n tool_calls (c : Dispatcher Executor S) envelope definition stepID decision :
  known decision →
  (∀ calls, triple (at_ n RunRunning TaskRunning) (tool_calls calls) (settled n) (open_ n)) →
  triple (at_ n RunRunning TaskRunning)
    (dispatch_with tool_calls c envelope definition runID taskID stepID decision) (settled n) (open_ n).
Proof.
  intros Hk Htools. unfold dispatch_with. cbv zeta.
  assert (Hopen : ∀ s, at_ n RunRunning TaskRunning s → open_ n s) by (by left).
  apply type_valid in Hk.
  destruct Hk as [Hk|[Hk|[Hk|[Hk|[Hk|Hk]]]]]; rewrite Hk;
    repeat match goal with |- context [String.eqb ?a ?b] =>
      let v := eval vm_compute in (String.eqb a b) in
      match v with true => change (String.eqb a b) with true | false => change (String.eqb a b) with false end
    end; cbv iota.
  - eapply triple_moved; [moves|exact Hopen|].
    eapply triple_mark; [apply triple_MarkCompleted|intros run Hr Hn].
    conclude. eapply settled_finish; [exact Hs|by left|done..].
  - eapply triple_moved; [moves|exact Hopen|].
    eapply triple_mark; [apply triple_MarkCompleted|intros run Hr Hn].
    conclude. eapply settled_finish; [exact Hs|by left|done..].
  - unfold deref. destruct (Decision_Ask decision) as [ask|]; [|by intros w s Hs; apply Hopen].
    eapply triple_moved; [moves|exact Hopen|].
    eapply triple_mark; [apply triple_MarkWaitingInput|intros run Hr Hn].
    conclude. eapply settled_finish; [exact Hs|by right; left|done..].
  - apply Htools.
  - eapply triple_moved; [moves|exact Hopen|].
    eapply triple_mark; [apply triple_MarkCompleted|intros run Hr Hn].
    conclude. eapply settled_finish; [exact Hs|by left|done..].
  - unfold deref. destruct (Decision_Error decision) as [err|]; [|by intros w s Hs; apply Hopen].
    eapply triple_bind; [by apply (triple_ret _ err (λ _, at_ n RunRunning TaskRunning))|intros e].
    eapply triple_bind; [eapply triple_weaken; [apply triple_cmd_fail; by right; left|done]|intros u].
    eapply triple_mark_failed; [intros ts; apply triple_MarkFailed|intros run].
    conclude_failed.
Qed.

(** *** Failures *)

Lemma fail_run_settled n (c : Dispatcher Executor S) envelope definition err also :
  triple (at_ n RunFailed TaskRunning) also (λ _, failing_at n RunFailed) (λ _, False) →
  triple (at_ n RunRunning TaskRunning) (fail_run c envelope definition runID taskID err also)
    (settled n) (open_ n).
Proof.
  intros Ha. unfold fail_run.
  eapply triple_mark; [apply triple_MarkFailed|intros run Hr Hn].
  eapply triple_bind; [eapply triple_weaken; [exact Ha|done]|intros u].
  conclude_failed.
Qed.

Lemma also_nothing n : triple (at_ n RunFailed TaskRunning) (ret tt) (λ _, failing_at n RunFailed) (λ _, False).
Proof. apply triple_ret. intros s Hs. exists TaskRunning. split; [|done]. unfold failing. auto. Qed.

(** *** Tool calls *)

Context (json_Marshal : Any → error + string) (sha256_hex : string → string) (trunc : float64 → Z)
  (as_decision : Any → option Contracts.Decision).

Lemma Normalize_known decision tools validation :
  Normalize decision tools = inr validation → known validation.(VR_Decision).
Proof.
  unfold Normalize, known. destruct (DecisionType_Validate (Decision_Type decision)) eqn:E; [done|].
  repeat (case_match; try done); intros [= <-]; exact E.
Qed.

(** The status of the run and the task, and a fact about the result. *)
Definition known_at (n : Z) (o : option Contracts.Decision) (s : KSys S) : Prop :=
  at_ n RunRunning TaskRunning s ∧ match o with Some decision => known decision | None => True end.

Lemma final_decision_at n (c : Dispatcher Executor S) envelope definition result tools :
  triple (at_ n RunRunning TaskRunning)
    (finalDecisionFromToolResult json_Marshal as_decision c envelope definition runID taskID result tools)
    (known_at n) (open_ n).
Proof.
  unfold finalDecisionFromToolResult, recordFinalToolDecisionValidated. cbv zeta.
  assert (Hopen : ∀ s, at_ n RunRunning TaskRunning s → open_ n s) by (by left).
  assert (Hrefused : ∀ err (m : KM unit), keeps m →
    triple (at_ n RunRunning TaskRunning) (bind m (λ _, throw err)) (known_at n) (open_ n)).
  { intros err m Hm. eapply triple_skip; [apply stable_at|exact Hopen|exact Hm|].
    intros u. by apply triple_throw. }
  destruct (if _ == _ then _ else _) as [raw|]; [|by apply triple_ret].
  destruct (decodeToolFinalDecision _ _ raw) as [err|decision]; [apply Hrefused; keep|].
  destruct (_ == DecisionTypeToolCall); [apply Hrefused; keep|].
  eapply triple_skip; [apply stable_at|exact Hopen|keep|intros stamped].
  eapply triple_skip; [apply stable_at|exact Hopen|keep|intros u].
  destruct (Normalize stamped tools) as [err|validation] eqn:En; [apply Hrefused; keep|].
  destruct (ValidateDecision _ validation) as [err|]; [apply Hrefused; keep|].
  apply Normalize_known in En.
  repeat (eapply triple_skip; [apply stable_at|exact Hopen|solve [keep]|intros ?]).
  by apply triple_ret.
Qed.

Lemma waiting_approval_settled n ts (c : Dispatcher Executor S) envelope definition reason :
  ts = TaskWaitingApproval ∨ ts = TaskRunning →
  triple (at_ n RunRunning ts) (waiting_approval c envelope definition runID taskID reason)
    (settled n) (open_ n).
Proof.
  intros Hts. unfold waiting_approval.
  eapply triple_mark; [apply triple_MarkWaitingApproval|intros run Hr Hn].
  conclude. eapply settled_finish; [exact Hs|by right; right|done..].
Qed.

(** The outcome of a call: an end, or the run goes on. *)
Definition after (n : Z) (o : option StepOutcome) (s : KSys S) : Prop :=
  match o with Some out => settled n out s | None => at_ n RunRunning TaskRunning s end.

Lemma triple_some n P (m : KM StepOutcome) :
  triple P m (settled n) (open_ n) →
  triple P (let! out := m in ret (Some out)) (after n) (open_ n).
Proof. intros Hm. eapply triple_bind; [exact Hm|]. intros out. by apply triple_ret. Qed.

Lemma keeps_shouldContinue (c : Dispatcher Executor S) runtime definition policy call result :
  keeps (shouldContinueAfterToolFailure c runtime definition policy runID call result).
Proof. unfold shouldContinueAfterToolFailure, consecutiveToolFailures. keep. Qed.

Lemma after_result_settled n (c : Dispatcher Executor S) runtime envelope definition policy stepID
    candidates call result :
  triple (at_ n RunRunning TaskRunning)
    (after_result json_Marshal as_decision c runtime envelope definition policy runID taskID stepID
       candidates call result) (after n) (open_ n).
Proof.
  unfold after_result. cbv zeta.
  assert (Hopen : ∀ s, at_ n RunRunning TaskRunning s → open_ n s) by (by left).
  eapply triple_skip; [apply stable_at|exact Hopen|destruct (failed_status _); [apply keeps_shouldContinue|keep]|].
  intros continues. apply triple_if; intros _.
  { apply triple_some, fail_run_settled.
    eapply triple_conseq; [apply triple_cmd_fail; by right; left|done|by intros]. }
  apply triple_if; intros _.
  { eapply triple_moved; [moves|exact Hopen|]. apply triple_some, waiting_approval_settled. by left. }
  eapply triple_moved; [moves|exact Hopen|].
  eapply triple_moved; [moves|by right|].
  eapply triple_calm; [apply stable_at|be_quiet|intros u].
  eapply triple_bind; [apply final_decision_at|]. intros [decision|].
  - apply triple_some. intros w s [Hs Hk]. eapply dispatch_with_settled; [exact Hk| |exact Hs].
    intros calls w1 s1 Hs1. by left.
  - apply triple_ret. by intros s [Hs _].
Qed.

Lemma keeps_recordPlanStepResult (c : Dispatcher Executor S) step result definition :
  keeps (recordPlanStepResult c taskID step result definition).
Proof. unfold recordPlanStepResult. keep. Qed.

Lemma run_call_settled n (c : Dispatcher Executor S) runtime envelope definition policy stepID
    candidates step call :
  triple (at_ n RunRunning TaskRunning)
    (run_call json_Marshal as_decision c runtime envelope definition policy runID taskID stepID
       candidates step call) (after n) (open_ n).
Proof.
  unfold run_call.
  assert (Hopen : ∀ s, at_ n RunRunning TaskRunning s → open_ n s) by (by left).
  do 3 (eapply triple_skip; [apply stable_at|exact Hopen|solve [keep]|intros ?]).
  eapply triple_skip; [apply stable_at|exact Hopen| |intros ?].
  { destruct step; [apply keeps_recordPlanStepResult|keep]. }
  apply after_result_settled.
Qed.

Lemma duplicate_call_settled n (c : Dispatcher Executor S) envelope definition call :
  triple (at_ n RunRunning TaskRunning) (duplicate_call c envelope definition runID taskID call)
    (λ o s, match o with Some out => after n out s | None => at_ n RunRunning TaskRunning s end) (open_ n).
Proof.
  unfold duplicate_call.
  assert (Hopen : ∀ s, at_ n RunRunning TaskRunning s → open_ n s) by (by left).
  eapply triple_skip; [apply stable_at|exact Hopen|keep|intros existing].
  destruct existing as [existing|]; [|by apply triple_ret].
  apply triple_if; intros _; [|by apply triple_ret].
  eapply triple_bind; [apply waiting_approval_settled; by right|]. intros out. by apply triple_ret.
Qed.

Lemma keeps_prepare_call envelope definition candidates call :
  keeps (S:=S) (prepare_call trunc envelope definition runID taskID candidates call).
Proof. unfold prepare_call. keep. Qed.
Lemma keeps_start_plan_step (c : Dispatcher Executor S) definition : keeps (start_plan_step c definition taskID).
Proof. unfold start_plan_step, currentPlanStep. keep. Qed.
Lemma keeps_own_call (runtime : Runtime Executor S) envelope stepID step call :
  keeps (own_call json_Marshal sha256_hex runtime envelope runID taskID stepID step call).
Proof. unfold own_call. keep. Qed.

Lemma dispatch_call_settled n (c : Dispatcher Executor S) runtime envelope definition policy stepID
    candidates call :
  triple (at_ n RunRunning TaskRunning)
    (dispatch_call json_Marshal sha256_hex trunc as_decision c runtime envelope definition policy runID
       taskID stepID candidates call) (after n) (open_ n).
Proof.
  unfold dispatch_call. cbv zeta.
  assert (Hopen : ∀ s, at_ n RunRunning TaskRunning s → open_ n s) by (by left).
  eapply triple_skip; [apply stable_at|exact Hopen|apply keeps_prepare_call|intros prepared].
  apply triple_if; intros _; [apply triple_some, fail_run_settled, also_nothing|].
  eapply triple_skip; [apply stable_at|exact Hopen|apply keeps_start_plan_step|intros step].
  eapply triple_skip; [apply stable_at|exact Hopen|apply keeps_own_call|intros owned].
  eapply triple_mark; [apply triple_IncrementToolCall|intros run _ _].
  apply triple_if; intros _; [apply triple_some, fail_run_settled, also_nothing|].
  eapply triple_skip; [apply stable_at|exact Hopen|keep|intros [saved duplicate]].
  eapply triple_bind.
  { apply (triple_if _ duplicate); intros _; [apply duplicate_call_settled|by apply triple_ret]. }
  intros [out|]; [by apply triple_ret|apply run_call_settled].
Qed.

Lemma dispatch_settled n (c : Dispatcher Executor S) envelope definition policy stepID decision candidates :
  known decision →
  triple (at_ n RunRunning TaskRunning)
    (dispatch json_Marshal sha256_hex trunc as_decision c envelope definition policy runID taskID stepID
       decision candidates) (settled n) (open_ n).
Proof.
  intros Hk. apply dispatch_with_settled; [exact Hk|]. intros calls. unfold dispatchToolCalls.
  destruct (D_ToolRuntime c) as [runtime|]; [|apply fail_run_settled, also_nothing].
  destruct (D_HasToolRepo c); [|apply fail_run_settled, also_nothing].
  induction calls as [|call calls IH]; cbn [dispatch_calls].
  - apply triple_ret. by intros s Hs.
  - eapply triple_bind; [apply dispatch_call_settled|]. intros [out|]; [by apply triple_ret|exact IH].
Qed.
End settled.

(** ** From the prompt to the end of the run *)

Section run.
Context `{Env, ProfileDecoder, DecisionDecoder} {Executor S : Type} `{!ExecutorOps Executor S}.
Context (json_Marshal : Any → error + string) (sha256_hex : string → string) (trunc : float64 → Z)
  (as_decision : Any → option Contracts.Decision)
  (diagnostics : PromptBundle → Any) (EstimatePromptTokens : PromptBundle → Z)
  (hashed_parts : PromptBundle → Any) (to_any : ∀ A : Type, A → Any)
  (strategy_hash : AgentDefinition → PolicySet → EffectiveRunConfig → list GuardrailAdjustment →
                   error + string)
  (hooks_hash : AgentRuntimeHooks → error + string).
Context (c : Coordinator Executor S) (runID taskID : string).
Notation KM := (M (KSys S)).
Notation at_ := (at_ (S:=S) runID taskID).
Notation settled := (settled runID taskID).
Notation open_ := (open_ runID taskID).

(** The prompts and the forced decisions of [c] are of a known type: the code builds a no-op and a tool
    call. *)
Record decides_known : Prop := {
  prompt_known input w s decision candidates w' ext :
    K_Prompt c input w s = (inr (PromptNoOp decision candidates), w', ext) → known decision;
  forced_known input candidates w s decision w' ext :
    K_Forced c input candidates w s = (Some decision, w', ext) → known decision
}.

(** Every definition the loader answers satisfies [good]. *)
Definition loads (good : AgentDefinition → Prop) : Prop :=
  (∀ tenantID agentID version w ext definition w' ext',
     K_Load c tenantID agentID version w ext = (inr definition, w', ext') → good definition) ∧
  ∀ tenantID definition, good definition → good (owned_by tenantID definition).

Lemma open_running n s : at_ n RunRunning TaskRunning s → open_ n s.
Proof. by left. Qed.

Lemma triple_ask {A} n rs ts (f : World → S → (error + A) * World * S) (F : A → Prop) :
  (∀ w s a w' s', f w s = (inr a, w', s') → F a) →
  triple (at_ n rs ts) (ask_client f) (λ a s, F a ∧ at_ n rs ts s) (at_ n rs ts).
Proof.
  intros HF w s Hs. unfold ask_client, on_ext, zoom.
  destruct (f w (k_ext s)) as [[[err|a] w'] t] eqn:E; [|split; [by eapply HF|]];
    by eapply at_keeps; [..|exact Hs].
Qed.

Lemma triple_read {A} n rs ts (r : Reader A) (F : A → Prop) E :
  (∀ w s a w' ext, r w s = (a, w', ext) → F a) →
  triple (at_ n rs ts) (read r) (λ a s, F a ∧ at_ n rs ts s) E.
Proof.
  intros HF w s Hs. unfold read. destruct (r w s) as [[a w'] t] eqn:Er.
  split; [by eapply HF|]. by eapply at_keeps; [..|exact Hs].
Qed.

Lemma keeps_versionSnapshot tenantID definition objective :
  keeps (versionSnapshot json_Marshal sha256_hex strategy_hash hooks_hash c tenantID definition objective).
Proof. unfold versionSnapshot, policySet, currentPolicyVersionID. keep. Qed.

Lemma triple_pin n hash :
  triple (at_ n RunRunning TaskRunning) (pinPromptBundleHash runID hash)
    (λ _, at_ n RunRunning TaskRunning) (open_ n).
Proof.
  unfold pinPromptBundleHash. apply triple_if; intros _; [by apply triple_ret|].
  eapply triple_mark; [apply triple_Get|intros run _ _].
  apply triple_if; intros _; [by apply triple_ret|].
  eapply triple_mark; [apply triple_UpdateVersionSnapshot|intros ? _ _]. by apply triple_ret.
Qed.

Lemma modelDecision_known n (d : Dispatcher Executor S) model envelope definition stepID bundle policy tools :
  triple (at_ n RunRunning TaskRunning)
    (modelDecision json_Marshal sha256_hex diagnostics EstimatePromptTokens hashed_parts d model
       envelope definition runID taskID stepID bundle policy tools)
    (λ decision s, known decision ∧ at_ n RunRunning TaskRunning s) (open_ n).
Proof.
  intros w s Hs.
  destruct (keeps_modelDecision json_Marshal sha256_hex diagnostics EstimatePromptTokens hashed_parts
    d model envelope definition runID taskID stepID bundle policy tools w s) as [Er Et].
  destruct (modelDecision _ _ _ _ _ _ _ _ _ _ _ _ _ _ _ w s) as [[[decision|e|] w'] s'] eqn:E; cbn in Er, Et;
    [|by left; eapply at_keeps; [..|exact Hs]..].
  split; [|by eapply at_keeps; [..|exact Hs]].
  unfold modelDecision in E. apply bind_Ok_inv in E as ([dec|] & w1 & s1 & E1 & E); [|done].
  injection E as <- _ _. eapply decide_accepted in E1.
  destruct E1 as (raw & parsed & validation & _ & (id & En) & _ & ->). by eapply Normalize_known.
Qed.

Lemma decide_and_dispatch_settled n input :
  decides_known →
  triple (at_ n RunRunning TaskRunning)
    (decide_and_dispatch json_Marshal sha256_hex trunc as_decision diagnostics EstimatePromptTokens
       hashed_parts to_any c input runID taskID) (settled n) (open_ n).
Proof.
  intros [Hp Hf]. unfold decide_and_dispatch. cbv zeta.
  eapply triple_bind; [apply (triple_read n RunRunning TaskRunning (K_Prompt c input)
    (λ r, ∀ decision candidates, r = inr (PromptNoOp decision candidates) → known decision))|].
  { intros w s a w' ext E decision candidates ->. by eapply Hp. }
  intros built. apply triple_fact. intros Hbuilt.
  destruct built as [err|prompt]; cbn [lift_sum].
  { intros w s Hs. by left. }
  eapply triple_bind; [by apply (triple_ret _ prompt (λ p s, p = prompt ∧ at_ n RunRunning TaskRunning s))|].
  intros p. apply triple_fact. intros ->.
  destruct prompt as [decision candidates|bundle compression candidates].
  { apply dispatch_settled. by eapply Hbuilt. }
  eapply triple_bind; [apply triple_pin|intros u].
  eapply triple_skip; [apply stable_at|apply open_running|keep|intros u'].
  eapply triple_bind; [apply (triple_read n RunRunning TaskRunning (K_Forced c input candidates)
    (λ o, match o with Some d => known d | None => True end))|].
  { intros w s [d|] w' ext E; [by eapply Hf|done]. }
  intros forced. apply triple_fact. intros Hforced.
  apply (triple_bind _ _ (λ decision s, known decision ∧ at_ n RunRunning TaskRunning s)).
  - destruct forced as [d|]; [by apply triple_ret|].
    eapply triple_bind; [apply modelDecision_known|]. intros decision. apply triple_fact. intros Hk.
    unfold requiredToolExpectationDecision. cbv zeta. apply triple_if; intros _; [by apply triple_ret|].
    eapply triple_bind; [apply (triple_read n RunRunning TaskRunning (K_Forced c input candidates)
      (λ o, match o with Some d => known d | None => True end))|].
    { intros w s [d|] w' ext E; [by eapply Hf|done]. }
    intros [replacement|]; apply triple_fact; intros Hr; [|by apply triple_ret].
    eapply triple_calm; [apply stable_at|be_quiet|intros u3]. by apply triple_ret.
  - intros decision. apply triple_fact. intros Hk.
    eapply triple_calm; [apply stable_at|be_quiet|intros err].
    eapply triple_skip; [apply stable_at|apply open_running|keep|intros u4].
    by apply dispatch_settled.
Qed.

(** *** Steps and the loop *)

Section loop.
Context (good : AgentDefinition → Prop) (Hload : loads good) (Hknown : decides_known).

Lemma triple_load n rs ts tenantID agentID version :
  triple (at_ n rs ts) (load c tenantID agentID version) (λ d s, good d ∧ at_ n rs ts s) (at_ n rs ts).
Proof.
  unfold load. eapply triple_bind.
  - apply (triple_ask n rs ts _ good). destruct Hload as [Hl _]. eauto.
  - intros d. apply triple_fact. intros Hd. apply triple_ret. intros s Hs. split; [|done].
    destruct Hload as [_ Ho]. by apply Ho.
Qed.

Lemma triple_upgrade n traceID tenantID definition task policy :
  triple (at_ n RunRunning TaskRunning) (maybeUpgradeByPolicy c traceID tenantID definition task policy)
    (λ o s, match o with Some d => good d | None => True end ∧ at_ n RunRunning TaskRunning s) (open_ n).
Proof.
  unfold maybeUpgradeByPolicy. cbv zeta. apply triple_if; intros _; [by apply triple_ret|].
  eapply triple_skip; [apply stable_at|apply open_running|keep|intros young].
  apply triple_if; intros _; [by apply triple_ret|].
  eapply triple_bind; [eapply triple_weaken; [apply triple_load|apply open_running]|].
  intros d. apply triple_fact. intros Hd.
  eapply triple_calm; [apply stable_at|be_quiet|intros u]. by apply triple_ret.
Qed.

Lemma keeps_policySetForRun run tenantID policySetID : keeps (policySetForRun c run tenantID policySetID).
Proof. unfold policySetForRun, policySet. keep. Qed.

Lemma triple_current n envelope definition run task :
  good definition →
  triple (at_ n RunRunning TaskRunning)
    (current_definition json_Marshal sha256_hex strategy_hash hooks_hash c envelope definition runID run task)
    (λ p s, good p.1.1 ∧ at_ n RunRunning TaskRunning s) (open_ n).
Proof.
  intros Hd. unfold current_definition. cbv zeta.
  eapply triple_skip; [apply stable_at|apply open_running|apply keeps_policySetForRun|intros policy].
  eapply triple_bind; [apply triple_upgrade|]. intros [upgraded|]; apply triple_fact; intros Hu; [|by apply triple_ret].
  apply (triple_bind _ _ (λ _, at_ n RunRunning TaskRunning)).
  { unfold refreshRunSnapshot. eapply triple_mark; [apply triple_Get|intros r _ _].
    eapply triple_skip; [apply stable_at|apply open_running|apply keeps_versionSnapshot|intros snap].
    eapply triple_mark; [apply triple_UpdateVersionSnapshot|intros r' _ _]. by apply triple_ret. }
  intros snapshot.
  eapply triple_skip; [apply stable_at|apply open_running|apply keeps_policySetForRun|intros policy'].
  by apply triple_ret.
Qed.

Notation step_ := (step json_Marshal sha256_hex trunc as_decision diagnostics EstimatePromptTokens
  hashed_parts to_any strategy_hash hooks_hash c).
Notation loop_ := (loop json_Marshal sha256_hex trunc as_decision diagnostics EstimatePromptTokens
  hashed_parts to_any strategy_hash hooks_hash c).

(** Somewhere in the run. *)
Definition interrupted (s : KSys S) : Prop := ∃ n, open_ n s.

Lemma keeps_check_duration limits run : keeps (S:=S) (check_duration limits run).
Proof. unfold check_duration. keep. Qed.

Lemma step_settled n envelope definition userInput :
  good definition →
  triple (at_ n RunRunning TaskRunning) (step_ envelope definition runID taskID userInput)
    (λ p s, good p.1 ∧ settled (int64 (n + 1)) p.2 s) interrupted.
Proof.
  intros Hd. unfold step.
  eapply triple_bind; [eapply triple_weaken; [apply triple_IncrementStep|]|].
  { intros s Hs. exists n. by left. }
  intros [run stepID]. apply triple_fact. intros _. set (m := int64 (n + 1)).
  assert (Hopen : ∀ s, open_ m s → interrupted s) by (by intros s Hs; exists m).
  eapply triple_weaken; [|exact Hopen].
  eapply triple_skip; [apply stable_at|apply open_running|keep|intros task].
  eapply triple_bind; [by apply triple_current|].
  intros [[definition' run'] policy]. apply triple_fact. cbn [fst]. intros Hd'.
  eapply triple_skip; [apply stable_at|apply open_running|keep|intros [effective report]].
  destruct (applyConversationToolOverlay _ _ _) as [[active tools] ids]. cbv zeta.
  eapply triple_skip; [apply stable_at|apply open_running|keep|intros u1].
  eapply triple_skip; [apply stable_at|apply open_running|apply keeps_check_duration|intros u2].
  eapply triple_skip; [apply stable_at|apply open_running|unfold record_strategies; keep|intros u3].
  eapply triple_bind; [by apply decide_and_dispatch_settled|]. intros outcome.
  apply triple_ret. by intros s Hs.
Qed.

(** The step limits of the definitions are between 1 and [B]. *)
Definition limited_by (B : Z) : Prop :=
  ∀ d, good d → (0 < Limits_MaxSteps (Agent_Runtime d) ≤ B)%Z.

Definition enough (B n : Z) (fuel : nat) : Prop :=
  limited_by B ∧ (B < 2 ^ 63)%Z ∧ (0 ≤ n)%Z ∧ (Z.to_nat (B - n) < fuel)%nat.

(** What the loop comes to. *)
Definition ended (out : StepOutcome) (s : KSys S) : Prop :=
  match out with Continue _ => False | _ => ∃ n, settled n out s end.

Lemma loop_settled B envelope userInput fuel : ∀ n definition,
  good definition →
  triple (at_ n RunRunning TaskRunning) (loop_ envelope runID taskID userInput fuel definition)
    (λ o s, match o with Some out => ended out s | None => ¬ enough B n fuel end) interrupted.
Proof.
  induction fuel as [|fuel IH]; intros n definition Hd; cbn [loop].
  { apply triple_ret. intros s _ (_ & _ & _ & Hf). lia. }
  assert (Hint : ∀ s, at_ n RunRunning TaskRunning s → interrupted s) by (intros s Hs; exists n; by left).
  eapply triple_mark; [apply triple_Get|intros run _ Hn].
  destruct (step_limit _ _) as [err|] eqn:El.
  { intros w s Hs. by apply Hint. }
  eapply triple_calm; [apply stable_at|cbn [throw_if]; be_quiet|intros u1].
  eapply triple_skip; [apply stable_at|exact Hint|apply keeps_check_duration|intros u2].
  eapply triple_bind; [by apply step_settled|]. intros [definition' outcome].
  apply triple_fact. cbn [fst snd]. intros Hd'. destruct outcome as [res|res|res err].
  - eapply triple_conseq; [by apply (IH (int64 (n + 1)) definition')|done|].
    intros [out|] s Hs; [exact Hs|]. intros (Hlim & HB & Hn0 & Hf). apply Hs.
    pose proof (Hlim definition Hd) as [Hpos Hmax]. unfold step_limit in El. rewrite Hn in El.
    assert (Hlt : (n < Limits_MaxSteps (Agent_Runtime definition))%Z).
    { destruct (Z.gtb_spec (Limits_MaxSteps (Agent_Runtime definition)) 0); [|lia].
      destruct (Z.geb_spec n (Limits_MaxSteps (Agent_Runtime definition))); [done|lia]. }
    assert (E : int64 (n + 1) = (n + 1)%Z) by (unfold int64; rewrite Z.mod_small; lia).
    rewrite E. unfold enough. split_and!; [done|done|lia|lia].
  - apply triple_ret. intros s Hs. by exists (int64 (n + 1)).
  - apply triple_ret. intros s Hs. by exists (int64 (n + 1)).
Qed.

(** *** The callers of the loop *)

Notation finish_ := (finish c).
Notation ExecutePreparedRun_ := (ExecutePreparedRun json_Marshal sha256_hex trunc as_decision diagnostics
  EstimatePromptTokens hashed_parts to_any strategy_hash hooks_hash c).
Notation ResumeRun_ := (ResumeRun json_Marshal sha256_hex trunc as_decision diagnostics
  EstimatePromptTokens hashed_parts to_any strategy_hash hooks_hash c).

(** An outcome, or no fuel. *)
Definition outcome_ok (B n : Z) (fuel : nat) (o : option StepOutcome) (s : KSys S) : Prop :=
  match o with Some out => ended out s | None => ¬ enough B n fuel end.

Lemma triple_attempt {A} P (m : KM A) Q E :
  triple P m Q E → triple P (attempt m) (λ r s, match r with inl a => Q a s | inr _ => E s end) E.
Proof. intros Hm w s Hs. specialize (Hm w s Hs). unfold attempt. by destruct (m w s) as [[[a|e|] w'] s']. Qed.

Lemma attempt_no_Err {A} (m : KM A) w s e w' s' : attempt m w s ≠ (Err e, w', s').
Proof. unfold attempt. by destruct (m w s) as [[[a|e1|] w1] s1]. Qed.

Lemma triple_failed n rs envelope definition result err :
  triple (failing_at runID taskID n rs)
    (let runtimeErr := normalizeRuntimeError err in
     let! _ := attempt (on_runs (MarkFailed runID (Some runtimeErr))) in
     do! sync (K_Dispatcher c) envelope runID taskID (SyncRunFailed runtimeErr.(Err_Message)) in
     do! ignore (apply_command definition runID taskID "" CmdFail (ToTracePayload runtimeErr)) in
     ret (Some (FailedWith (result <| RR_Error := Some runtimeErr |>) err)))
    (λ o s, ∃ out, o = Some out ∧ ended out s) (λ _, False).
Proof.
  cbv zeta. apply triple_exists. intros ts. apply triple_fact. intros Hts.
  eapply triple_bind; [apply triple_attempt, triple_MarkFailed|]. intros [run|e]; [|by intros w s].
  apply triple_fact. intros _.
  eapply triple_calm; [apply stable_at|be_quiet|intros u].
  eapply triple_bind; [by apply triple_cmd_fail|intros u2].
  apply triple_ret. intros s Hs. eexists. split; [done|]. exists n. by apply settled_failed.
Qed.

Lemma finish_ended B n fuel envelope definition looped :
  triple (λ s, match looped with inl o => outcome_ok B n fuel o s | inr _ => interrupted s end)
    (finish_ envelope definition runID taskID looped) (outcome_ok B n fuel) (λ _, False).
Proof.
  assert (Hweak : ∀ (P : KSys S → Prop) m, triple P m (λ o s, ∃ out, o = Some out ∧ ended out s) (λ _, False) →
    triple P m (outcome_ok B n fuel) (λ _, False)).
  { intros P m Hm. eapply triple_conseq; [exact Hm|done|]. by intros o s (out & -> & Hs). }
  destruct looped as [[[res|res|res err]|]|err]; cbn [finish outcome_ok ended].
  - by intros w s Hs.
  - by apply triple_ret.
  - apply Hweak. apply triple_exists. intros k. cbn [settled].
    eapply triple_conseq; [apply (triple_failed k RunFailed)| |done].
    intros s (ts & Hs & Hts). by exists ts.
  - by apply triple_ret.
  - apply Hweak. apply triple_exists. intros k.
    eapply triple_conseq; [apply (triple_failed k RunRunning)| |done].
    intros s [Hs|Hs]; eexists; (split; [|exact Hs]); unfold failing; auto.
Qed.

Lemma attempted_loop B n fuel envelope definition caller userInput :
  good definition →
  triple (at_ n RunRunning TaskRunning)
    (let! looped := attempt (loop_ envelope runID taskID userInput fuel definition) in
     finish_ envelope caller runID taskID looped) (outcome_ok B n fuel) interrupted.
Proof.
  intros Hd. eapply triple_bind; [apply triple_attempt; by apply (loop_settled B)|].
  intros looped. eapply triple_weaken; [apply finish_ended|done].
Qed.

(** The task before its first step. *)
Definition opening (n : Z) (rs : RunStatus) (s : KSys S) : Prop :=
  ∃ ts, (ts = TaskCreated ∨ ts = TaskAccepted ∨ ts = TaskPlanning) ∧ at_ n rs ts s.

Lemma apply_commands_at n rs definition :
  triple (at_ n rs TaskCreated)
    (apply_commands definition runID taskID [CmdAccept; CmdPlanStarted; CmdRunStarted])
    (λ _, at_ n rs TaskRunning) (opening n rs).
Proof.
  cbn [apply_commands].
  eapply triple_moved; [moves|intros s Hs; exists TaskCreated; auto|].
  eapply triple_moved; [moves|intros s Hs; exists TaskAccepted; auto|].
  eapply triple_moved; [moves|intros s Hs; exists TaskPlanning; auto|].
  by apply triple_ret.
Qed.

Lemma finish_no_Err envelope definition looped w s e w' s' n :
  match looped with
  | inl (Some (FailedWith _ _)) => failing_at runID taskID n RunFailed s
  | inr _ => failing_at runID taskID n RunRunning s
  | _ => True
  end →
  finish_ envelope definition runID taskID looped w s ≠ (Err e, w', s').
Proof.
  destruct looped as [[[res|res|res err]|]|err]; cbn [finish]; intros Hs E; try done;
    [pose proof (triple_failed n RunFailed envelope definition res err w s Hs) as Hm
    |pose proof (triple_failed n RunRunning envelope definition zeroRunResult err w s Hs) as Hm];
    cbv zeta in Hm; by rewrite E in Hm.
Qed.

(** The loop and its error handling do not fail. *)
Lemma attempted_no_Err n fuel envelope definition caller userInput w s e w' s' :
  good definition → at_ n RunRunning TaskRunning s →
  (let! looped := attempt (loop_ envelope runID taskID userInput fuel definition) in
   finish_ envelope caller runID taskID looped) w s ≠ (Err e, w', s').
Proof.
  intros Hd Hs E.
  pose proof (triple_attempt _ _ _ _ (loop_settled 0 envelope userInput fuel n definition Hd) w s Hs) as Hm.
  unfold bind in E.
  destruct (attempt _ w s) as [[[looped|e1|] w1] s1] eqn:Ea; [|by apply attempt_no_Err in Ea|done].
  destruct looped as [[[res|res|res err]|]|err]; cbn [finish ended settled] in *; try done.
  - destruct Hm as (k & ts & Hs1 & Hts).
    eapply (finish_no_Err _ _ (inl (Some (FailedWith res err))) w1 s1 e w' s' k); [|exact E]. by exists ts.
  - destruct Hm as (k & Hs1).
    eapply (finish_no_Err _ _ (inr err) w1 s1 e w' s' k); [|exact E].
    destruct Hs1 as [Hs1|Hs1]; eexists; (split; [|exact Hs1]); unfold failing; auto.
Qed.

(** More fuel changes nothing once there is an outcome. *)
Lemma loop_more envelope userInput fuel fuel' : ∀ definition w s,
  (fuel ≤ fuel')%nat → (loop_ envelope runID taskID userInput fuel definition w s).1.1 ≠ Ok None →
  loop_ envelope runID taskID userInput fuel' definition w s =
  loop_ envelope runID taskID userInput fuel definition w s.
Proof.
  revert fuel'. induction fuel as [|fuel IH]; intros fuel' definition w s Hf Hn; [by destruct Hn|].
  destruct fuel' as [|fuel']; [lia|]. cbn [loop] in *. unfold bind in *.
  destruct (on_runs _ w s) as [[[run|e|] w1] s1]; [|done..].
  destruct (throw_if _ w1 s1) as [[[u1|e|] w2] s2]; [|done..].
  destruct (check_duration _ _ w2 s2) as [[[u2|e|] w3] s3]; [|done..].
  destruct (step_ _ _ _ _ _ w3 s3) as [[[[definition' outcome]|e|] w4] s4]; [|done..].
  destruct outcome; [|done..]. apply IH; [lia|exact Hn].
Qed.
End loop.

(** *** A prepared run *)

(** The code knows the run and the task by the ids in [prepared]. *)
Definition concerns (prepared : PreparedRun) : Prop :=
  Run_RunID (Prep_Run prepared) = runID ∧ Task_TaskID (Prep_Task prepared) = taskID.

Notation execute := (ExecutePreparedRun json_Marshal sha256_hex trunc as_decision diagnostics
  EstimatePromptTokens hashed_parts to_any strategy_hash hooks_hash c).

Lemma execute_outcome good B n rs fuel prepared w s :
  loads good → decides_known → good (Prep_Definition prepared) → concerns prepared →
  at_ n rs TaskCreated s →
  match execute fuel prepared w s with
  | (Ok out, _, s') => outcome_ok good B n fuel out s'
  | (Err _, _, s') => opening n rs s'
  | (Panic, _, _) => True
  end.
Proof.
  intros Hload Hknown Hd [Er Et] Hs. unfold ExecutePreparedRun. cbv zeta. rewrite Er, Et.
  unfold bind at 1. pose proof (apply_commands_at n rs (Prep_Definition prepared) w s Hs) as Hopen.
  destruct (apply_commands _ _ _ _ w s) as [[[u|e|] w1] s1]; [|exact Hopen|done].
  unfold bind at 1. pose proof (triple_MarkRunning runID taskID n rs TaskRunning w1 s1 Hopen) as Hmark.
  destruct (on_runs (MarkRunning runID) w1 s1) as [[[run|e|] w2] s2]; [|done|done].
  destruct Hmark as [_ Hs2].
  pose proof (attempted_loop good Hload Hknown B n fuel (Prep_Envelope prepared) (Prep_Definition prepared)
    (Prep_Definition prepared) (Prep_UserInput prepared) Hd w2 s2 Hs2) as Hdone.
  destruct (bind _ _ w2 s2) as [[[out|e|] w3] s3] eqn:E; [exact Hdone| |done].
  exfalso. eapply (attempted_no_Err good Hload Hknown); [exact Hd|exact Hs2|exact E].
Qed.

(** C20. However a run that was prepared ends, the run and its task end together: it finishes completed,
    waiting for input or waiting for an approval with its task in the status that goes with it, and
    the result names them; or it fails, the run marked failed and the task failed or where a
    refused command left it.  The only error not turned into a failure is that of the three opening
    commands: it leaves the run as it was and the task short of running. *)
Theorem run_ends_settled n rs fuel prepared w s :
  decides_known → concerns prepared → at_ n rs TaskCreated s →
  match execute fuel prepared w s with
  | (Ok (Some (Continue _)), _, _) => False
  | (Ok (Some (Finished res)), _, s') => ∃ k rs' ts', at_ k rs' ts' s' ∧ agree rs' ts' ∧
      RR_RunID res = runID ∧ RR_TaskID res = taskID ∧ RR_Status res = rs'
  | (Ok (Some (FailedWith _ _)), _, s') => ∃ k ts', at_ k RunFailed ts' s' ∧ failing ts'
  | (Err _, _, s') =>
      ∃ ts', (ts' = TaskCreated ∨ ts' = TaskAccepted ∨ ts' = TaskPlanning) ∧ at_ n rs ts' s'
  | (Ok None, _, _) | (Panic, _, _) => True
  end.
Proof.
  intros Hknown Hids Hs.
  assert (Hl : loads (λ _, True)) by done.
  pose proof (execute_outcome (λ _, True) 0 n rs fuel prepared w s Hl Hknown I Hids Hs) as Hm.
  destruct (execute fuel prepared w s) as [[[[out|]|e|] w'] s']; [|done|exact Hm|done].
  destruct out; exact Hm.
Qed.

(** The step limit of a definition is positive and at most [B]. *)
Definition bounded (B : Z) (d : AgentDefinition) : Prop := (0 < Limits_MaxSteps (Agent_Runtime d) ≤ B)%Z.

(** C21. A run terminates: when every definition the loader answers has a step limit between 1 and [B], a
    run that has made [n] steps comes to an end within [B - n] further rounds of the loop, whatever the
    model, the tools and the stores answer; more fuel changes nothing. *)
Theorem run_terminates B n rs fuel prepared w s :
  decides_known → loads (bounded B) → bounded B (Prep_Definition prepared) → concerns prepared →
  (B < 2 ^ 63)%Z → (0 ≤ n)%Z → at_ n rs TaskCreated s → (Z.to_nat (B - n) < fuel)%nat →
  (execute fuel prepared w s).1.1 ≠ Ok None ∧
  ∀ fuel', (fuel ≤ fuel')%nat → execute fuel' prepared w s = execute fuel prepared w s.
Proof.
  intros Hknown Hload Hd Hids HB Hn Hs Hf.
  assert (Hsome : (execute fuel prepared w s).1.1 ≠ Ok None).
  { pose proof (execute_outcome (bounded B) B n rs fuel prepared w s Hload Hknown Hd Hids Hs) as Hm.
    destruct (execute fuel prepared w s) as [[[[out|]|e|] w'] s']; [done| |done|done].
    intros _. apply Hm. unfold enough. split_and!; [by intros d Hgood|done|done|done]. }
  split; [exact Hsome|]. intros fuel' Hle. revert Hsome.
  unfold ExecutePreparedRun. cbv zeta. destruct Hids as [-> ->]. unfold bind.
  destruct (apply_commands _ _ _ _ w s) as [[[u|e|] w1] s1]; [|done|done].
  destruct (on_runs _ w1 s1) as [[[run|e|] w2] s2]; [|done|done]. intros Hsome. unfold attempt in *.
  rewrite (loop_more _ _ fuel fuel'); [done|exact Hle|]. intros E. apply Hsome.
  destruct (loop _ _ _ _ _ _ _ _ _ _ _ _ _ _ _ fuel _ w2 s2) as [[[[out|]|e|] w3] s3]; done.
Qed.
End run.
