(* ===== verification/RunStart.v ===== *)
(** * From an envelope to the end of its run

    Preparing a run ([PrepareEnvelopeRun]) files a new run, created and at step 0, for a task of the
    store; with RunLife.v, what comes of an envelope. *)

From stdpp Require Import base list strings gmap fin_maps.
From Stdlib Require Import Lia.
From S2P Require Import Prelude Contracts GoMonad Storage TaskState TaskRepo TaskRuntime Plan RunRepo Policies PolicyEngine Decision ToolStore Execution ToolRun Strategy Dispatch ModelCall Kernel RunLife.
Open Scope go_scope.
Open Scope string_scope.
Open Scope list_scope.

Lemma accept_created ts tr : Apply ts CmdAccept = Ok tr → ts = TaskCreated.
Proof.
  unfold Apply. change (CmdAccept == CmdCancel) with false. cbv iota.
  destruct (find_transition transitions ts CmdAccept) as [t|] eqn:E; [|done]. intros _.
  apply find_transition_In in E as (Hin & <- & Hc). revert Hc. unfold transitions in Hin.
  repeat (apply elem_of_cons in Hin as [->|Hin]; [cbn; done || (intros; discriminate)|]).
  by apply not_elem_of_nil in Hin.
Qed.

Section start.
Context `{Env, ProfileDecoder, DecisionDecoder} {Executor S : Type} `{!ExecutorOps Executor S}.
Context (json_Marshal : Any → error + string) (sha256_hex : string → string) (trunc : float64 → Z)
  (as_decision : Any → option Contracts.Decision)
  (diagnostics : PromptBundle → Any) (EstimatePromptTokens : PromptBundle → Z)
  (hashed_parts : PromptBundle → Any) (to_any : ∀ A : Type, A → Any)
  (strategy_hash : AgentDefinition → PolicySet → EffectiveRunConfig → list GuardrailAdjustment →
                   error + string)
  (hooks_hash : AgentRuntimeHooks → error + string).
Context (c : Coordinator Executor S).
Notation KM := (M (KSys S)).
Notation execute := (ExecutePreparedRun json_Marshal sha256_hex trunc as_decision diagnostics
  EstimatePromptTokens hashed_parts to_any strategy_hash hooks_hash c).
Notation prepare := (PrepareEnvelopeRun json_Marshal sha256_hex to_any strategy_hash hooks_hash c).
Notation handle := (HandleEnvelope json_Marshal sha256_hex trunc as_decision diagnostics
  EstimatePromptTokens hashed_parts to_any strategy_hash hooks_hash c).
Notation any_state := (λ _ : KSys S, True).

(** ** Preparing *)

(** Before the run is filed: the runs are those of the beginning. *)
Definition task_ready (rs : gmap string AgentRun) (taskID : string) (ts : TaskStatus) (s : KSys S) : Prop :=
  runs (k_runs s) = rs ∧ task_at taskID ts (k_tasks s).
Definition untouched (rs : gmap string AgentRun) (s : KSys S) : Prop :=
  runs (k_runs s) = rs ∧ store_wf (k_tasks s).

Lemma stable_task_ready rs taskID ts : stable (task_ready rs taskID ts).
Proof. intros s s' Er Et. unfold task_ready. by rewrite Er, Et. Qed.
Lemma stable_untouched rs : stable (untouched rs).
Proof. intros s s' Er Et. unfold untouched. by rewrite Er, Et. Qed.

(** The prepared run is new, and at its beginning. *)
Definition ready (good : AgentDefinition → Prop) (rs : gmap string AgentRun) (prepared : PreparedRun)
    (s : KSys S) : Prop :=
  good (Prep_Definition prepared) ∧ rs !! Run_RunID (Prep_Run prepared) = None ∧
  ∃ ts, at_ (Run_RunID (Prep_Run prepared)) (Task_TaskID (Prep_Task prepared)) 0 RunCreated ts s.

Lemma append_event_at taskID ts event w s :
  task_at taskID ts s → task_at taskID ts (AppendEvent event w s).2.
Proof.
  intros [Ht Hw].
  assert (E : ∃ e w', AppendEvent event w s = Append e w' s).
  { unfold AppendEvent, bind. destruct (IsZero _).
    - by exists (event <| TaskEvent_CreatedAt := env_clock (w_reads w) |>),
        (w <| w_reads := Datatypes.S (w_reads w) |>).
    - by exists event, w. }
  destruct E as (e & w' & ->).
  destruct (Append e w' s) as [[r w2] s2] eqn:E. cbn [snd].
  split; [|by apply (store_step_wf s s2 (store_step_op (OpAppend e) w' s r w2 s2 E))].
  unfold Append, bind, get, put, throw in E. simpl in E. case_bool_decide; simplify_eq; [done|].
  rewrite appendEventLocked_run in E. by simplify_eq.
Qed.

Lemma triple_append_event n rs runID taskID ts event :
  triple (at_ runID taskID n rs ts) (on_tasks (S:=S) (AppendEvent event)) (λ _, at_ runID taskID n rs ts)
    (at_ runID taskID n rs ts).
Proof.
  intros w s [Hr Ht Hw]. unfold on_tasks, zoom.
  pose proof (append_event_at taskID ts event w (k_tasks s) (conj Ht Hw)) as [Ht' Hw'].
  destruct (AppendEvent event w (k_tasks s)) as [[[u|e|] w'] t]; by constructor.
Qed.

Lemma triple_recordInputFacts n rs taskID ts envelope run task input eventType runID :
  triple (at_ runID taskID n rs ts) (recordInputFacts c envelope run task input eventType)
    (λ _, at_ runID taskID n rs ts) any_state.
Proof.
  unfold recordInputFacts.
  apply (triple_bind _ _ (λ _, at_ runID taskID n rs ts)).
  - unfold appendConversationInputEvent. apply triple_if; intros _; [by apply triple_ret|].
    destruct (input_event _ _ _ _ _) as [[payload actorID] actorType]. cbv zeta.
    eapply triple_skip; [apply stable_at|done|apply keeps_lift|intros id].
    eapply triple_skip; [apply stable_at|done|apply keeps_now|intros t].
    eapply triple_bind; [eapply triple_weaken; [apply triple_attempt, triple_append_event|done]|].
    intros [u|err].
    + eapply triple_keeps; [apply stable_at|done|apply quiet_keeps, quiet_recordTrace].
    + eapply triple_skip; [apply stable_at|done|apply quiet_keeps, quiet_recordTrace|intros u].
      by intros w s Hs.
  - intros u. eapply triple_skip; [apply stable_at|done|apply kept_read|intros err].
    eapply triple_keeps; [apply stable_at|done|apply keeps_throw_if].
Qed.

Lemma triple_create_run_record rs taskID ts run :
  Run_Status run = RunCreated → Run_StepCount run = 0%Z →
  triple (task_ready rs taskID ts) (on_runs (S:=S) (RunRepo.Create run))
    (λ _ s, rs !! Run_RunID run = None ∧ at_ (Run_RunID run) taskID 0 RunCreated ts s) any_state.
Proof.
  intros Hst Hn w s (Hr & Ht & Hw). unfold on_runs, zoom, RunRepo.Create, bind, get, put, throw.
  cbn. rewrite Hr. destruct (rs !! Run_RunID run) eqn:E; [done|]. cbn. split; [done|].
  destruct (Normalize_fields run) as (F0 & F1 & F2 & _). constructor; [|done|done].
  eexists. split; [rewrite F0; apply lookup_insert_eq|]. by rewrite F1, F2.
Qed.

Lemma triple_create_run good rs ts envelope definition tenantID objective task userInput source also t :
  good definition →
  triple (task_ready rs (Task_TaskID task) ts)
    (create_run json_Marshal sha256_hex strategy_hash hooks_hash c envelope definition tenantID objective
       task userInput source also t) (ready good rs) any_state.
Proof.
  intros Hd. unfold create_run.
  eapply triple_skip; [apply stable_task_ready|done|apply keeps_versionSnapshot|intros snapshot].
  eapply triple_skip; [apply stable_task_ready|done|apply keeps_lift|intros runID]. cbv zeta.
  eapply triple_bind; [by apply triple_create_run_record|intros u].
  apply triple_fact. intros Hnew.
  eapply triple_bind; [apply triple_recordInputFacts|intros u1].
  eapply triple_skip; [apply stable_at|done|apply quiet_keeps, quiet_observeHook|intros u2].
  eapply triple_skip; [apply stable_at|done| |intros u3].
  { unfold record_created. apply kept_bind; [apply keeps_lift|intros span w s].
    by destruct (w_trace w). }
  apply triple_ret. intros s Hs. split_and!; [done|done|]. by exists ts.
Qed.

Lemma triple_load_good good P tenantID agentID version :
  stable P → loads c good →
  triple P (load c tenantID agentID version) (λ definition s, good definition ∧ P s) any_state.
Proof.
  intros HP [Hl Ho]. unfold load, ask_client. intros w s Hs. unfold bind, on_ext, zoom.
  destruct (K_Load c tenantID agentID version w (k_ext s)) as [[[err|d] w'] ext] eqn:E; [done|].
  cbn. split; [by eapply Ho, Hl|]. by eapply HP; [..|exact Hs].
Qed.

Lemma triple_CreateTask rs task actorID actorType :
  Task_Status task = TaskCreated →
  triple (untouched rs) (on_tasks (S:=S) (CreateTask (Some store_atomic) task actorID actorType))
    (λ task' s, task_ready rs (Task_TaskID task') TaskCreated s) any_state.
Proof.
  intros Hst w s (Hr & Hw). unfold on_tasks, zoom, CreateTask, bind.
  assert (Hnew : ∃ te w1, newTaskEvent task actorID actorType w (k_tasks s) = (Ok te, w1, k_tasks s) ∧
                   Task_Status te.1 = TaskCreated).
  { unfold newTaskEvent, bind, now, idgen_New, lift_env. cbn.
    destruct (IsZero (Task_CreatedAt task)); cbn; destruct (IsZero _); cbn; rewrite Hst; cbn;
      eexists _, _; by split. }
  destruct Hnew as ([task' event] & w1 & -> & Hst'). cbn [fst snd] in *.
  change (storeNewTask (Some store_atomic) task' event) with (CreateTaskAndAppendEvent task' event).
  destruct (CreateTaskAndAppendEvent task' event w1 (k_tasks s)) as [[[u|e|] w2] s2] eqn:E; [|done|done].
  cbn. split; [done|].
  split; [|by eapply (store_step_wf _ _ (store_step_op (OpCreateTaskAndAppendEvent task' event) _ _ _ _ _ E))].
  unfold CreateTaskAndAppendEvent, bind, get, put, throw in E. simpl in E.
  case_match; simplify_eq. case_bool_decide; simplify_eq.
  rewrite appendEventLocked_run in E. simplify_eq. exists task'. split; [apply lookup_insert_eq|done].
Qed.

Lemma keeps_normalizeRunEnvelope envelope : keeps (S:=S) (normalizeRunEnvelope envelope).
Proof. unfold normalizeRunEnvelope, normalize_conversation, normalize_message. keep. Qed.

Lemma triple_prepareNew good rs envelope userInput :
  loads c good →
  triple (untouched rs)
    (prepareNewTaskRun json_Marshal sha256_hex strategy_hash hooks_hash c envelope userInput)
    (ready good rs) any_state.
Proof.
  intros Hload. unfold prepareNewTaskRun. cbv zeta.
  eapply triple_skip; [apply stable_untouched|done|apply keeps_now|intros t].
  eapply triple_bind; [apply triple_load_good, Hload; apply stable_untouched|intros definition].
  apply triple_fact. intros Hd.
  eapply triple_skip; [apply stable_untouched|done|apply quiet_keeps, quiet_recordTrace|intros u].
  eapply triple_skip; [apply stable_untouched|done|apply keeps_lift|intros taskID].
  eapply triple_bind; [by apply triple_CreateTask|intros task].
  eapply triple_skip; [apply stable_task_ready|done|apply quiet_keeps, quiet_recordTrace|intros u1].
  by apply triple_create_run.
Qed.

Lemma triple_prepareTask good rs ts envelope task userInput :
  loads c good →
  triple (task_ready rs (Task_TaskID task) ts)
    (prepareTaskRun json_Marshal sha256_hex strategy_hash hooks_hash c envelope task userInput)
    (ready good rs) any_state.
Proof.
  intros Hload. unfold prepareTaskRun. cbv zeta.
  eapply triple_bind; [apply triple_load_good, Hload; apply stable_task_ready|intros definition].
  apply triple_fact. intros Hd.
  eapply triple_skip; [apply stable_task_ready|done|apply quiet_keeps, quiet_recordTrace|intros u].
  eapply triple_skip; [apply stable_task_ready|done|apply quiet_keeps, quiet_recordTrace|intros u1].
  eapply triple_skip; [apply stable_task_ready|done|apply keeps_now|intros t].
  by apply triple_create_run.
Qed.

(** A task the store answers. *)
Lemma triple_found rs taskID :
  triple (untouched rs) (on_tasks (S:=S) (TaskRepo.Get taskID))
    (λ task s, task_ready rs (Task_TaskID task) (Task_Status task) s) any_state.
Proof.
  intros w s (Hr & Hw). unfold on_tasks, zoom, TaskRepo.Get, bind, get, ret, throw.
  destruct (tasks (k_tasks s) !! taskID) as [task|] eqn:E; [|done].
  split; [done|]. split; [|done]. exists task. split; [|done].
  by rewrite <- (wf_tasks _ Hw _ _ E) in E.
Qed.

Lemma triple_prepare good rs envelope :
  loads c good → triple (untouched rs) (prepare envelope) (ready good rs) any_state.
Proof.
  intros Hload. unfold PrepareEnvelopeRun. apply triple_if; intros _; [by intros w s Hs|].
  eapply triple_skip; [apply stable_untouched|done|apply keeps_normalizeRunEnvelope|intros [env input]].
  cbv zeta.
  eapply triple_skip; [apply stable_untouched|done|apply quiet_keeps, quiet_recordTrace|intros u].
  apply triple_if; intros _; [|by apply triple_prepareNew].
  eapply triple_bind; [apply triple_found|intros task].
  apply triple_if; intros _; [by intros w s Hs|]. by apply triple_prepareTask.
Qed.

(** ** Executing what was prepared *)

(** A task that is not new refuses the first command. *)
Lemma execute_refused runID taskID n rs ts fuel prepared w s :
  ts ≠ TaskCreated → concerns runID taskID prepared → at_ runID taskID n rs ts s →
  match execute fuel prepared w s with
  | (Err _, _, s') => at_ runID taskID n rs ts s'
  | _ => False
  end.
Proof.
  intros Hne [Er Et] Hs. unfold ExecutePreparedRun. cbv zeta. rewrite Er, Et.
  cbn [apply_commands]. unfold bind at 1. unfold bind at 1.
  pose proof (command_at runID taskID n rs ts (Prep_Definition prepared) "" CmdAccept ∅ w s Hs) as Hm.
  destruct (apply_command _ _ _ _ _ _ w s) as [[[u|e|] w1] s1]; [|exact Hm|done].
  destruct Hm as (tr & Ha & _). by apply accept_created in Ha.
Qed.

(** What executing [prepared] comes to. *)
Definition run_end (prepared : PreparedRun) (r : Res (option StepOutcome)) (s : KSys S) : Prop :=
  let runID := Run_RunID (Prep_Run prepared) in
  let taskID := Task_TaskID (Prep_Task prepared) in
  match r with
  | Ok (Some (Finished res)) => RR_RunID res = runID ∧ RR_TaskID res = taskID ∧
      ∃ k ts, at_ runID taskID k (RR_Status res) ts s ∧ agree (RR_Status res) ts
  | Ok (Some (FailedWith _ _)) => ∃ k ts, at_ runID taskID k RunFailed ts s ∧ failing ts
  | Ok (Some (Continue _)) | Ok None => False
  | Err _ => ∃ ts, at_ runID taskID 0 RunCreated ts s
  | Panic => True
  end.

Lemma execute_end good B fuel prepared rs w s :
  decides_known c → loads c good → limited_by good B → (B < 2 ^ 63)%Z → (Z.to_nat B < fuel)%nat →
  ready good rs prepared s →
  let '(r, _, s') := execute fuel prepared w s in run_end prepared r s'.
Proof.
  intros Hknown Hload Hlim HB Hf (Hd & _ & ts & Hs).
  assert (Hids : concerns (Run_RunID (Prep_Run prepared)) (Task_TaskID (Prep_Task prepared)) prepared) by done.
  destruct (base.decide (ts = TaskCreated)) as [->|Hne].
  - pose proof (execute_outcome json_Marshal sha256_hex trunc as_decision diagnostics EstimatePromptTokens
      hashed_parts to_any strategy_hash hooks_hash c _ _ good B 0 RunCreated fuel prepared w s
      Hload Hknown Hd Hids Hs) as Hm.
    destruct (execute fuel prepared w s) as [[[[out|]|e|] w'] s']; [| | |done].
    + destruct out; cbn in Hm |- *; [done| |exact Hm].
      destruct Hm as (k & rs' & ts' & Ha & Hag & E1 & E2 & <-). split_and!; [done|done|]. by exists k, ts'.
    + apply Hm. unfold enough. split_and!; [done|done|lia|by rewrite Z.sub_0_r].
    + destruct Hm as (ts & _ & Ha). by exists ts.
  - pose proof (execute_refused _ _ 0 RunCreated ts fuel prepared w s Hne Hids Hs) as Hm.
    destruct (execute fuel prepared w s) as [[[out|e|] w'] s']; [done| |done]. by exists ts.
Qed.

(** C22. From an envelope to the end of its run.  With definitions whose step limits are between 1 and [B],
    [HandleEnvelope] always comes to an end within [B] rounds of the loop, whatever the model, the tools
    and the other services answer.  When the run could not be prepared the answer is that error.
    Otherwise the run is one the store did not hold, and it finishes with run and task in
    agreeing statuses and a result that names them; or it fails and is marked failed, its task failed or
    where a refused command left it; or the task refused to start, and the run stays created. *)
Theorem envelope_run_ends B fuel envelope w s :
  store_wf (k_tasks s) → decides_known c → loads c (bounded B) → (B < 2 ^ 63)%Z →
  (Z.to_nat B < fuel)%nat →
  let '(r, _, s') := handle fuel envelope w s in
  match prepare envelope w s with
  | (Ok prepared, _, _) =>
      runs (k_runs s) !! Run_RunID (Prep_Run prepared) = None ∧ run_end prepared r s'
  | (Err err, _, _) => ∃ res, r = Ok (Some (FailedWith res err))
  | (Panic, _, _) => r = Panic
  end.
Proof.
  intros Hw Hknown Hload HB Hf. unfold HandleEnvelope, bind, attempt.
  pose proof (triple_prepare (bounded B) (runs (k_runs s)) envelope Hload w s (conj eq_refl Hw)) as Hm.
  destruct (prepare envelope w s) as [[[prepared|err|] w1] s1]; [|by eexists|done].
  pose proof (execute_end (bounded B) B fuel prepared _ w1 s1 Hknown Hload ltac:(by intros d) HB Hf Hm) as He.
  destruct (execute fuel prepared w1 s1) as [[r w2] s2]. split; [apply Hm|exact He].
Qed.

(** ** Resuming *)

Notation resume := (ResumeRun json_Marshal sha256_hex trunc as_decision diagnostics
  EstimatePromptTokens hashed_parts to_any strategy_hash hooks_hash c).

(** The run and the task the envelope is to resume, both of its tenant. *)
Definition resumable (envelope : AgentEnvelope) (runID taskID : string) (run : AgentRun) (task : Task)
    (s : KSys S) : Prop :=
  runs (k_runs s) !! runID = Some run ∧ tasks (k_tasks s) !! taskID = Some task ∧ store_wf (k_tasks s) ∧
  Run_TenantID run = Ctx_TenantID (Env_Context envelope) ∧
  Task_TenantID task = Ctx_TenantID (Env_Context envelope).

Lemma quiet_then {A B} (m : KM A) (f : A → KM B) P (Q : Res B → KSys S → Prop) w s :
  quiet m → stable P → P s → (∀ a w s, P s → let '(r, _, s') := f a w s in Q r s') →
  let '(r, _, s') := bind m f w s in Q r s'.
Proof.
  intros Hm HP Hs Hf. destruct (Hm w s) as (a & w' & s' & E & Er & Et).
  rewrite (bind_Ok _ _ _ _ _ _ _ E). apply Hf. by eapply HP.
Qed.

(** Resuming a run that has no input of its own with an envelope that has none either is refused only
    after the run was marked running: whatever its status was, for example completed, the run
    stays running with nobody running it. *)
Theorem resume_without_input fuel envelope runID taskID run task definition w s w' ext :
  resumable envelope runID taskID run task s →
  K_Load c (Ctx_TenantID (Env_Context envelope)) (Run_AgentID run) (Run_AgentVersion run) w (k_ext s) =
    (inr definition, w', ext) →
  input_of envelope = "" → TrimSpace (Run_Input run) = "" →
  let '(r, _, s') := resume fuel envelope runID taskID w s in
  r = Err (schema_error "resume requires run.input or non-empty payload.input") ∧
  at_ runID taskID (Run_StepCount run) RunRunning (Task_Status task) s'.
Proof.
  intros (Er & Et & Hw & Hrt & Htt) Hload Hin Hri. unfold ResumeRun. cbv zeta.
  set (P := λ s : KSys S, runs (k_runs s) !! runID = Some run ∧ tasks (k_tasks s) !! taskID = Some task ∧
              store_wf (k_tasks s)).
  assert (HP : stable P) by (intros s1 s2 E1 E2; unfold P; by rewrite E1, E2).
  assert (Hrun : ∀ w s, P s → on_runs (S:=S) (RunRepo.Get runID) w s = (Ok run, w, s)).
  { intros w0 s0 (E & _). unfold on_runs, zoom, RunRepo.Get, bind, get, ret. rewrite E. by destruct s0. }
  assert (Htask : ∀ w s, P s → on_tasks (S:=S) (TaskRepo.Get taskID) w s = (Ok task, w, s)).
  { intros w0 s0 (_ & E & _). unfold on_tasks, zoom, TaskRepo.Get, bind, get, ret. rewrite E. by destruct s0. }
  assert (Hs : P s) by done.
  rewrite (bind_Ok _ _ _ _ _ _ _ (Hrun w s Hs)). rewrite Hrt, String.eqb_refl. cbn [negb].
  unfold load at 1. unfold bind at 1. unfold bind at 1. unfold ask_client, on_ext, zoom at 1. rewrite Hload.
  cbn [ret]. eapply quiet_then; [apply quiet_recordTrace|exact HP| |intros u w1 s1 Hs1].
  { by eapply HP; [..|exact Hs]. }
  rewrite (bind_Ok _ _ _ _ _ _ _ (Htask w1 s1 Hs1)). rewrite Htt, String.eqb_refl. cbn [negb].
  eapply quiet_then; [apply quiet_recordTrace|exact HP|exact Hs1|intros u1 w2 s2 Hs2].
  assert (Hat : at_ runID taskID (Run_StepCount run) (Run_Status run) (Task_Status task) s2).
  { destruct Hs2 as (E1 & E2 & E3). constructor; [by exists run|by exists task|done]. }
  pose proof (triple_MarkRunning runID taskID _ _ _ w2 s2 Hat) as Hm. unfold bind at 1.
  destruct (on_runs (MarkRunning runID) w2 s2) as [[[r|e|] w3] s3]; [|done|done].
  rewrite Hin. change ("" == "") with true. cbn [negb]. unfold bind at 1. unfold ret at 1.
  rewrite Hri. change ("" == "") with true. cbv iota. unfold throw. split; [done|apply Hm].
Qed.
End start.

(** ** Instances *)

(** A kernel whose loader knows one agent, of at most three steps. *)
Definition sample_kernel : Coordinator unit (list ToolCall) :=
  mkCoordinator sample_dispatcher sample_model (λ _ _ _ w s, (inr sample_agent, w, s)) None false
    zeroContextStrategy (λ _ w s, (inr (PromptBundleFor zeroPromptBundle None zeroCandidateSet), w, k_ext s))
    (λ _ _ w s, (None, w, k_ext s)) (λ _ _ _ _ w s, (None, w, k_ext s)) (λ _ _ _ w s, (None, w, k_ext s)).

Definition sample_envelope : AgentEnvelope :=
  zeroAgentEnvelope <| Env_Command := "agent.run" |> <| Env_Payload := {["input" := AString "hello"]} |>.

Lemma sample_decides : decides_known sample_kernel.
Proof. by split. Qed.
Lemma sample_loads : loads sample_kernel (bounded 3).
Proof.
  split; [|by intros tenantID d Hd; unfold owned_by; destruct (_ == _)].
  intros tenantID agentID version w ext definition w' ext' [= <- _ _].
  split; [done|]. by apply Z.leb_le.
Qed.

Definition sample_run : AgentRun := 
  zeroAgentRun <| Run_RunID := "r1" |> <| Run_TenantID := "tenant" |> <| Run_Status := RunCompleted |>.
Definition sample_prepared : PreparedRun :=
  mkPreparedRun sample_envelope sample_agent test_task sample_run "hello" "new_task".
(** A task that is created, with a run. *)
Definition kernel1 : KSys (list ToolCall) :=
  mkKSys (NewRunRepo <| runs := {["r1" := sample_run]} |>) test_store NewInMemoryRepository NewToolRepo
    (NewPolicyStore []) [].

Lemma kernel1_at : at_ "r1" "t1" 0 RunCompleted TaskCreated kernel1.
Proof.
  constructor; [by exists sample_run| |apply test_store_wf].
  eexists. split; [vm_compute; reflexivity|reflexivity].
Qed.

#[local] Notation sample_handle := (HandleEnvelope (λ _, inr "{}") (λ s, s) (λ _, 0%Z) (λ _, None) (λ _, ANil)
  (λ _, 0%Z) (λ _, ANil) (λ _ _, ANil) (λ _ _ _ _, inr "h") (λ _, inr "h") sample_kernel 4 sample_envelope
  world0 (kernel0 [])).
#[local] Notation sample_prepare := (PrepareEnvelopeRun (λ _, inr "{}") (λ s, s) (λ _ _, ANil)
  (λ _ _ _ _, inr "h") (λ _, inr "h") sample_kernel sample_envelope world0 (kernel0 [])).
#[local] Notation sample_execute fuel := (ExecutePreparedRun (λ _, inr "{}") (λ s, s) (λ _, 0%Z) (λ _, None)
  (λ _, ANil) (λ _, 0%Z) (λ _, ANil) (λ _ _, ANil) (λ _ _ _ _, inr "h") (λ _, inr "h") sample_kernel fuel
  sample_prepared world0 kernel1).

Lemma envelope_run_ends_witness :
  match sample_handle, sample_prepare with
  | (Ok (Some (Finished res)), _, s), (Ok prepared, _, _) =>
      RR_Status res = RunCompleted ∧ run_end prepared (Ok (Some (Finished res))) s
  | _, _ => False
  end.
Proof.
  assert (Hv : match sample_handle, sample_prepare with
    | (Ok (Some (Finished res)), _, _), (Ok _, _, _) => RR_Status res = RunCompleted
    | _, _ => False end) by (vm_compute; reflexivity).
  pose proof (envelope_run_ends (λ _, inr "{}") (λ s, s) (λ _, 0%Z) (λ _, None) (λ _, ANil) (λ _, 0%Z)
    (λ _, ANil) (λ _ _, ANil) (λ _ _ _ _, inr "h") (λ _, inr "h") sample_kernel 3 4 sample_envelope world0
    (kernel0 []) NewInMemoryStore_wf sample_decides sample_loads eq_refl ltac:(apply Nat.ltb_lt; reflexivity))
    as Hm.
  destruct sample_handle as [[[[[| res|]|]|e|] w1] s1];
    [destruct Hv| |destruct Hv|destruct Hv|destruct Hv|destruct Hv].
  destruct sample_prepare as [[[prepared|e|] w2] s2]; [|destruct Hv|destruct Hv].
  split; [exact Hv|exact (proj2 Hm)].
Defined.

Lemma run_ends_settled_witness :
  match sample_execute 4 with
  | (Ok (Some (Finished res)), _, s) => RR_RunID res = "r1" ∧
      ∃ k rs ts, at_ "r1" "t1" k rs ts s ∧ agree rs ts
  | _ => False
  end.
Proof.
  assert (Hv : match sample_execute 4 with (Ok (Some (Finished _)), _, _) => True | _ => False end)
    by (vm_compute; exact I).
  pose proof (run_ends_settled (λ _, inr "{}") (λ s, s) (λ _, 0%Z) (λ _, None) (λ _, ANil) (λ _, 0%Z)
    (λ _, ANil) (λ _ _, ANil) (λ _ _ _ _, inr "h") (λ _, inr "h") sample_kernel "r1" "t1" 0 RunCompleted 4
    sample_prepared world0 kernel1 sample_decides (conj eq_refl eq_refl) kernel1_at) as Hm.
  destruct (sample_execute 4) as [[[[[| res|]|]|e|] w1] s1];
    [destruct Hv| |destruct Hv|destruct Hv|destruct Hv|destruct Hv].
  destruct Hm as (k & rs & ts & Ha & Hg & Hr & _). split; [exact Hr|]. by exists k, rs, ts.
Defined.

Lemma run_terminates_witness :
  at_ "r1" "t1" 0 RunCompleted TaskCreated kernel1 ∧ (sample_execute 4).1.1 ≠ Ok None ∧
  ∀ fuel, (4 ≤ fuel)%nat → sample_execute fuel = sample_execute 4.
Proof.
  split; [exact kernel1_at|].
  assert (Hb : bounded 3 (Prep_Definition sample_prepared)) by (split; [reflexivity|by apply Z.leb_le]).
  assert (Hf : (Z.to_nat (3 - 0) < 4)%nat) by (apply Nat.ltb_lt; reflexivity).
  pose proof (run_terminates (λ _, inr "{}") (λ s, s) (λ _, 0%Z) (λ _, None) (λ _, ANil) (λ _, 0%Z)
    (λ _, ANil) (λ _ _, ANil) (λ _ _ _ _, inr "h") (λ _, inr "h") sample_kernel "r1" "t1" 3 0 RunCompleted 4
    sample_prepared world0 kernel1 sample_decides sample_loads Hb (conj eq_refl eq_refl) eq_refl
    (Z.le_refl 0) kernel1_at Hf) as Hm.
  exact Hm.
Defined.

Definition resuming : AgentEnvelope :=
  zeroAgentEnvelope <| Env_Context := zeroRuntimeContext <| Ctx_TenantID := "tenant" |> |>.

Lemma resume_without_input_witness :
  runs (k_runs kernel1) !! "r1" = Some sample_run ∧ Run_Status sample_run = RunCompleted ∧
  let '(r, _, s) := ResumeRun (λ _, inr "{}") (λ s, s) (λ _, 0%Z) (λ _, None) (λ _, ANil) (λ _, 0%Z)
      (λ _, ANil) (λ _ _, ANil) (λ _ _ _ _, inr "h") (λ _, inr "h") sample_kernel 4 resuming "r1" "t1" world0
      kernel1 in
  r = Err (schema_error "resume requires run.input or non-empty payload.input") ∧
  at_ "r1" "t1" 0 RunRunning TaskCreated s.
Proof.
  split; [reflexivity|]. split; [reflexivity|].
  exact (resume_without_input (λ _, inr "{}") (λ s, s) (λ _, 0%Z) (λ _, None) (λ _, ANil) (λ _, 0%Z)
    (λ _, ANil) (λ _ _, ANil) (λ _ _ _ _, inr "h") (λ _, inr "h") sample_kernel 4 resuming "r1" "t1"
    sample_run test_task sample_agent world0 kernel1 world0 []
    (conj eq_refl (conj eq_refl (conj test_store_wf (conj eq_refl eq_refl)))) eq_refl eq_refl eq_refl).
Defined.
