(* ===== verification/Permission.v ===== *)
(** * Group permissions: internal/permission/service.go

    The service keeps its policies in memory and, where it has one, in a store
    (internal/storage/postgres), which is a record of operations here.  Those who ask the service
    rely on the class [PermissionChecker] only. *)

From stdpp Require Import base list strings gmap fin_maps sorting.
From Stdlib Require Import Lia.
From S2P Require Import Prelude Contracts GoMonad Storage Policies.
Open Scope go_scope.
Open Scope string_scope.
Open Scope list_scope.

(** ** Matching *)

Definition requiresExplicitPolicy (action : string) : bool := action == PermissionActionCrossGroupSearch.

Definition containsAction (actions : list string) (action : string) : bool :=
  existsb (λ candidate, (candidate == "*") || (candidate == action)) actions.

Definition scopeMatches (scopes : list string) (input : PermissionCheckInput) : bool :=
  negb (nonempty scopes) ||
  existsb (λ scope, (scope == "*") ||
             mem_string scope [input.(Check_ResourceScope); input.(Check_ResourceID);
                               input.(Check_ResourceType); input.(Check_GroupID)]) scopes.

(** The values that are not empty, each once. *)
Fixpoint distinct (seen values : list string) : list string :=
  match values with
  | [] => []
  | value :: values =>
      if (value == "") || mem_string value seen then distinct seen values
      else value :: distinct (value :: seen) values
  end.
Definition uniqueStrings (values : list string) : list string := stable_sort string_lt (distinct [] values).

Definition firstNonEmpty (a b : string) : string := if a != "" then a else b.

Definition subjectMatches (input : PermissionCheckInput) (roles : list string)
    (policy : GroupPermissionPolicy) : bool :=
  let subject := policy.(Perm_SubjectID) in
  let type := policy.(Perm_SubjectType) in
  if type == PermissionSubjectUser then
    (subject == input.(Check_ActorID)) ||
    match input.(Check_Member) with
    | Some member => (subject == member.(Member_MemberID)) || (subject == member.(Member_ExternalUserID))
    | None => false
    end
  else if type == PermissionSubjectRole then mem_string subject roles
  else if type == PermissionSubjectAgent then subject == input.(Check_ActorID)
  else false.

Definition policyMatches (input : PermissionCheckInput) (roles : list string)
    (policy : GroupPermissionPolicy) : bool :=
  if (policy.(Perm_TenantID) != "") && (policy.(Perm_TenantID) != input.(Check_TenantID)) then false else
  if (policy.(Perm_GroupID) != "") && (policy.(Perm_GroupID) != input.(Check_GroupID)) then false else
  if negb (containsAction policy.(Perm_Actions) input.(Check_Action)) then false else
  if negb (scopeMatches policy.(Perm_ResourceScopes) input) then false else
  subjectMatches input roles policy.

(** [sortPolicies] *)
Definition policyLess (a b : GroupPermissionPolicy) : bool :=
  if a.(Perm_TenantID) != b.(Perm_TenantID) then string_lt a.(Perm_TenantID) b.(Perm_TenantID) else
  if a.(Perm_GroupID) != b.(Perm_GroupID) then string_lt a.(Perm_GroupID) b.(Perm_GroupID) else
  if a.(Perm_SubjectType) != b.(Perm_SubjectType) then string_lt a.(Perm_SubjectType) b.(Perm_SubjectType)
  else string_lt a.(Perm_SubjectID) b.(Perm_SubjectID).
Definition sortPolicies (policies : list GroupPermissionPolicy) : list GroupPermissionPolicy :=
  stable_sort policyLess policies.

Definition same_subject (existing policy : GroupPermissionPolicy) : bool :=
  (existing.(Perm_TenantID) == policy.(Perm_TenantID)) &&
  (existing.(Perm_GroupID) == policy.(Perm_GroupID)) &&
  (existing.(Perm_SubjectType) == policy.(Perm_SubjectType)) &&
  (existing.(Perm_SubjectID) == policy.(Perm_SubjectID)).

(** The loop of [UpsertPolicy]: the first policy for the subject is replaced, if there is one. *)
Fixpoint replace_policy (policy : GroupPermissionPolicy) (policies : list GroupPermissionPolicy)
    : option (list GroupPermissionPolicy) :=
  match policies with
  | [] => None
  | existing :: policies =>
      if same_subject existing policy then Some (policy :: policies)
      else option_map (cons existing) (replace_policy policy policies)
  end.

(** ** The service *)

(** [Store] *)
Record PolicyStoreOps (S : Type) := mkPolicyStoreOps {
  SavePolicy : GroupPermissionPolicy → M S unit;
  ListPolicies : string → string → M S (list GroupPermissionPolicy)
}.
Arguments SavePolicy {S}. Arguments ListPolicies {S}.

Record Permissions (S : Type) := mkPermissions {
  perm_policies : list GroupPermissionPolicy;
  perm_stored : S
}.
Arguments mkPermissions {S}. Arguments perm_policies {S}. Arguments perm_stored {S}.

Definition adminRoles : list string := ["owner"; "admin"; "group_admin"; "agent_admin"].

Section service.
Context `{Env} {S : Type} (store : option (PolicyStoreOps S)).
Notation PM := (M (Permissions S)).

Definition on_store {A} (m : M S A) : PM A :=
  zoom perm_stored (λ t s, mkPermissions s.(perm_policies) t) m.

Definition UpsertPolicy (policy : GroupPermissionPolicy) : PM unit :=
  let! now := now in
  let policy := if IsZero policy.(Perm_CreatedAt) then policy <| Perm_CreatedAt := now |> else policy in
  let policy := policy <| Perm_UpdatedAt := now |> in
  let! s := get in
  match replace_policy policy s.(perm_policies) with
  | Some policies => put (mkPermissions policies s.(perm_stored))
  | None =>
      do! put (mkPermissions (sortPolicies (s.(perm_policies) ++ [policy])) s.(perm_stored)) in
      match store with Some store => on_store (store.(SavePolicy) policy) | None => ret tt end
  end.

Definition policiesFor (tenantID groupID : string) : PM (list GroupPermissionPolicy) :=
  let! stored :=
    match store with Some store => on_store (store.(ListPolicies) tenantID groupID) | None => ret [] end in
  if nonempty stored then ret stored else
  let! s := get in ret s.(perm_policies).

Definition decision (kind reason reasonCode : string) (requiresApproval : bool) (policyIDs : list string)
    : PM PermissionDecision :=
  let! now := now in
  ret (mkPermissionDecision kind reason reasonCode requiresApproval policyIDs now).

(** The roles of the caller and of the member. *)
Definition rolesOf (input : PermissionCheckInput) : list string :=
  let roles := uniqueStrings input.(Check_Roles) in
  match input.(Check_Member) with
  | Some member => uniqueStrings (roles ++ member.(Member_Roles))
  | None => roles
  end.

Definition decide_by (policy : GroupPermissionPolicy) : PM PermissionDecision :=
  let policyID := policy.(Perm_SubjectType) +:+ ":" +:+ policy.(Perm_SubjectID) in
  if policy.(Perm_RequiresApproval)
  then decision PermissionDecisionApprovalRequired
         (firstNonEmpty policy.(Perm_Reason) "policy requires approval") "approval_required" true [policyID]
  else decision PermissionDecisionAllowed
         (firstNonEmpty policy.(Perm_Reason) "policy allows action") "policy_allowed" false [policyID].

Definition evaluate (input : PermissionCheckInput) : PM PermissionDecision :=
  if input.(Check_Action) == "" then
    decision PermissionDecisionDenied "missing action" "missing_action" false [] else
  let roles := rolesOf input in
  match (if requiresExplicitPolicy input.(Check_Action) then None
         else List.find (λ role, mem_string role adminRoles) roles) with
  | Some role => decision PermissionDecisionAllowed "admin role allows action" "admin_role" false
                   ["role:" +:+ role]
  | None =>
      let! policies := policiesFor input.(Check_TenantID) input.(Check_GroupID) in
      match List.find (policyMatches input roles) policies with
      | Some policy => decide_by policy
      | None => decision PermissionDecisionDenied "no matching permission policy" "no_matching_policy"
                  false []
      end
  end.

Definition record_check (input : PermissionCheckInput) (d : PermissionDecision) : PM unit :=
  do! (if input.(Check_TraceID) == "" then ret tt else with_trace (
    let! span := idgen_New "span" in
    let! now := now in
    trace_Record (zeroTraceEvent
      <| Trace_TraceID := input.(Check_TraceID) |> <| Trace_TenantID := input.(Check_TenantID) |>
      <| Trace_SpanID := span |> <| Trace_RunID := input.(Check_RunID) |>
      <| Trace_TaskID := input.(Check_TaskID) |> <| Trace_Type := TracePermissionChecked |>
      <| Trace_Payload := {["group_id" := AString input.(Check_GroupID);
           "actor_id" := AString input.(Check_ActorID); "action" := AString input.(Check_Action);
           "resource_id" := AString input.(Check_ResourceID); "decision" := AString d.(PermD_Decision);
           "reason_code" := AString d.(PermD_ReasonCode)]} |>
      <| Trace_CreatedAt := now |>))) in
  with_audit (
    let! id := idgen_New "audit" in
    let! now := now in
    audit_Log (zeroAuditEvent
      <| Audit_AuditID := id |> <| Audit_TenantID := input.(Check_TenantID) |>
      <| Audit_ActorID := input.(Check_ActorID) |>
      <| Audit_ActorType := firstNonEmpty input.(Check_ActorType) "member" |>
      <| Audit_Action := if d.(PermD_Decision) == PermissionDecisionDenied
                         then AuditPermissionDenied else AuditPermissionChecked |>
      <| Audit_ResourceType := firstNonEmpty input.(Check_ResourceType) "permission" |>
      <| Audit_ResourceID := firstNonEmpty input.(Check_ResourceID) input.(Check_Action) |>
      <| Audit_Decision := d.(PermD_Decision) |> <| Audit_Reason := d.(PermD_ReasonCode) |>
      <| Audit_TraceID := input.(Check_TraceID) |> <| Audit_TaskID := input.(Check_TaskID) |>
      <| Audit_RunID := input.(Check_RunID) |> <| Audit_CreatedAt := now |>)).

Definition Check_ (input : PermissionCheckInput) : PM PermissionDecision :=
  let! d := evaluate input in
  do! record_check input d in
  ret d.
End service.

(** ** Which decision *)

Section decisions.
Context `{Env} {S : Type} (store : option (PolicyStoreOps S)).

Definition is_admin (input : PermissionCheckInput) : Prop :=
  ∃ role, role ∈ rolesOf input ∧ role ∈ adminRoles.

(** To whom a policy applies, and to what. *)
Definition for_subject (input : PermissionCheckInput) (policy : GroupPermissionPolicy) : Prop :=
  (policy.(Perm_SubjectType) = PermissionSubjectUser ∧
    (policy.(Perm_SubjectID) = input.(Check_ActorID) ∨
     ∃ member, input.(Check_Member) = Some member ∧
       (policy.(Perm_SubjectID) = member.(Member_MemberID) ∨
        policy.(Perm_SubjectID) = member.(Member_ExternalUserID)))) ∨
  (policy.(Perm_SubjectType) = PermissionSubjectRole ∧ policy.(Perm_SubjectID) ∈ rolesOf input) ∨
  (policy.(Perm_SubjectType) = PermissionSubjectAgent ∧ policy.(Perm_SubjectID) = input.(Check_ActorID)).

Record applies (input : PermissionCheckInput) (policy : GroupPermissionPolicy) : Prop := {
  ap_tenant : policy.(Perm_TenantID) = "" ∨ policy.(Perm_TenantID) = input.(Check_TenantID);
  ap_group : policy.(Perm_GroupID) = "" ∨ policy.(Perm_GroupID) = input.(Check_GroupID);
  ap_action : "*" ∈ policy.(Perm_Actions) ∨ input.(Check_Action) ∈ policy.(Perm_Actions);
  ap_scope : policy.(Perm_ResourceScopes) = [] ∨ ∃ scope, scope ∈ policy.(Perm_ResourceScopes) ∧
    scope ∈ ["*"; input.(Check_ResourceScope); input.(Check_ResourceID); input.(Check_ResourceType);
             input.(Check_GroupID)];
  ap_subject : for_subject input policy
}.

Lemma subjectMatches_iff input policy :
  subjectMatches input (rolesOf input) policy = true ↔ for_subject input policy.
Proof.
  unfold subjectMatches, for_subject. unfold PermissionSubjectUser, PermissionSubjectRole, PermissionSubjectAgent.
  destruct (String.eqb_spec (Perm_SubjectType policy) "user") as [->|Hu];
    [|destruct (String.eqb_spec (Perm_SubjectType policy) "role") as [->|Hr];
      [|destruct (String.eqb_spec (Perm_SubjectType policy) "agent") as [->|Ha]]].
  - rewrite orb_true_iff, String.eqb_eq. destruct (Check_Member input) as [member|].
    + rewrite orb_true_iff, !String.eqb_eq. naive_solver.
    + naive_solver.
  - rewrite mem_string_elem. naive_solver.
  - rewrite String.eqb_eq. naive_solver.
  - naive_solver.
Qed.

Lemma existsb_elem_of {A} (f : A → bool) l : existsb f l = true ↔ ∃ x, x ∈ l ∧ f x = true.
Proof. rewrite existsb_exists. by setoid_rewrite list_elem_of_In. Qed.

Lemma action_iff actions action :
  containsAction actions action = true ↔ "*" ∈ actions ∨ action ∈ actions.
Proof.
  unfold containsAction. rewrite existsb_elem_of. setoid_rewrite orb_true_iff. setoid_rewrite String.eqb_eq. naive_solver.
Qed.

Lemma scope_iff scopes input :
  scopeMatches scopes input = true ↔ scopes = [] ∨ ∃ scope, scope ∈ scopes ∧
    scope ∈ ["*"; input.(Check_ResourceScope); input.(Check_ResourceID); input.(Check_ResourceType);
             input.(Check_GroupID)].
Proof.
  unfold scopeMatches. rewrite orb_true_iff, negb_true_iff, nonempty_false, existsb_elem_of.
  setoid_rewrite orb_true_iff. setoid_rewrite String.eqb_eq. setoid_rewrite mem_string_elem.
  by setoid_rewrite (elem_of_cons _ _ "*").
Qed.

Lemma unless_empty_iff a b : ((a != "") && (a != b) = false) ↔ a = "" ∨ a = b.
Proof. rewrite andb_false_iff, !negb_false_iff. by rewrite !String.eqb_eq. Qed.

Lemma policyMatches_iff input policy : policyMatches input (rolesOf input) policy = true ↔ applies input policy.
Proof.
  unfold policyMatches. split.
  - destruct (_ && _) eqn:E1; [done|]. destruct (_ && _) eqn:E2 in |- *; [done|].
    destruct (containsAction _ _) eqn:E3; [|done]. destruct (scopeMatches _ _) eqn:E4; [|done].
    cbn [negb]. intros E5. apply unless_empty_iff in E1, E2. apply action_iff in E3. apply scope_iff in E4.
    apply subjectMatches_iff in E5. by constructor.
  - intros [H1 H2 H3 H4 H5]. rewrite (proj2 (unless_empty_iff _ _) H1), (proj2 (unless_empty_iff _ _) H2).
    rewrite (proj2 (action_iff _ _) H3), (proj2 (scope_iff _ _) H4). by apply subjectMatches_iff.
Qed.

(** The first policy that applies. *)
Definition governs (policies : list GroupPermissionPolicy) (input : PermissionCheckInput)
    (policy : GroupPermissionPolicy) : Prop :=
  ∃ before after, policies = before ++ policy :: after ∧
    applies input policy ∧ Forall (λ p, ¬ applies input p) before.

Lemma find_governs policies input policy :
  List.find (policyMatches input (rolesOf input)) policies = Some policy ↔ governs policies input policy.
Proof.
  unfold governs. induction policies as [|p policies IH]; cbn [List.find].
  { split; [done|]. intros (before & after & E & _). by destruct before. }
  pose proof (policyMatches_iff input p) as Hp. destruct (policyMatches input (rolesOf input) p).
  - split.
    + intros [= ->]. exists [], policies. split_and!; [done|by apply Hp|done].
    + intros (before & after & E & _ & Hb). destruct before as [|q before]; [by injection E as -> _|].
      injection E as -> _. apply Forall_inv in Hb. destruct Hb. by apply Hp.
  - rewrite IH. split.
    + intros (before & after & -> & Hm & Hb). exists (p :: before), after.
      split_and!; [done|done|constructor; [|done]]. by intros Ha%Hp.
    + intros (before & after & E & Hm & Hb). destruct before as [|q before].
      { injection E as -> _. by apply Hp in Hm. }
      injection E as -> ->. exists before, after. split_and!; [done|done|by apply Forall_inv_tail in Hb].
Qed.

Lemma decision_run kind reason code approval ids w (s : Permissions S) :
  ∃ w' t, decision kind reason code approval ids w s =
    (Ok (mkPermissionDecision kind reason code approval ids t), w', s).
Proof. by eexists _, _. Qed.

Lemma effect_record_check input d : effect_only (S:=Permissions S) (record_check input d).
Proof. unfold record_check. auto 10 with effects. Qed.

Lemma find_admin input :
  match List.find (λ role, mem_string role adminRoles) (rolesOf input) with
  | Some role => role ∈ rolesOf input ∧ role ∈ adminRoles
  | None => ¬ is_admin input
  end.
Proof.
  destruct (List.find _ _) as [role|] eqn:E.
  - apply find_some in E as [Hin Hr]. split; [by apply list_elem_of_In|]. by apply mem_string_elem.
  - intros (role & Hin & Hr). apply list_elem_of_In in Hin.
    pose proof (find_none _ _ E role Hin) as Hf. cbn beta in Hf. by apply mem_string_false in Hf.
Qed.

(** The ways a check ends. *)
Inductive checked (policies : list GroupPermissionPolicy) (input : PermissionCheckInput)
    : PermissionDecision → Prop :=
| checked_missing d : input.(Check_Action) = "" →
    d.(PermD_Decision) = PermissionDecisionDenied → checked policies input d
| checked_admin d : input.(Check_Action) ≠ "" → requiresExplicitPolicy input.(Check_Action) = false →
    is_admin input → d.(PermD_Decision) = PermissionDecisionAllowed → checked policies input d
| checked_policy policy d : input.(Check_Action) ≠ "" →
    (requiresExplicitPolicy input.(Check_Action) = false → ¬ is_admin input) →
    governs policies input policy →
    d.(PermD_Decision) = (if policy.(Perm_RequiresApproval) then PermissionDecisionApprovalRequired
                          else PermissionDecisionAllowed) →
    d.(PermD_AppliedPolicyIDs) = [policy.(Perm_SubjectType) +:+ ":" +:+ policy.(Perm_SubjectID)] →
    checked policies input d
| checked_none d : input.(Check_Action) ≠ "" →
    (requiresExplicitPolicy input.(Check_Action) = false → ¬ is_admin input) →
    (∀ policy, policy ∈ policies → ¬ applies input policy) →
    d.(PermD_Decision) = PermissionDecisionDenied → checked policies input d.

Lemma evaluate_with policies input w (s : Permissions S) :
  (∀ w, ∃ w', policiesFor store input.(Check_TenantID) input.(Check_GroupID) w s = (Ok policies, w', s)) →
  ∃ d w', evaluate store input w s = (Ok d, w', s) ∧ checked policies input d.
Proof.
  intros Hp. unfold evaluate.
  destruct (String.eqb_spec (Check_Action input) "") as [Ea|Ea].
  { destruct (decision_run PermissionDecisionDenied "missing action" "missing_action" false [] w s)
      as (w' & t & ->). eexists _, w'. split; [done|]. by apply checked_missing. }
  assert (Hno : match (if requiresExplicitPolicy (Check_Action input) then None
                  else List.find (λ role, mem_string role adminRoles) (rolesOf input)) with
                | Some role => requiresExplicitPolicy (Check_Action input) = false ∧ is_admin input
                | None => requiresExplicitPolicy (Check_Action input) = false → ¬ is_admin input end).
  { destruct (requiresExplicitPolicy _); [done|]. pose proof (find_admin input) as Hf.
    destruct (List.find _ _) as [role|]; [|by intros _]. split; [done|by exists role]. }
  destruct (if requiresExplicitPolicy _ then None else _) as [role|].
  { destruct Hno as [He Hadm].
    destruct (decision_run PermissionDecisionAllowed "admin role allows action" "admin_role" false
      ["role:" +:+ role] w s) as (w' & t & ->). eexists _, w'. split; [done|]. by apply checked_admin. }
  destruct (Hp w) as (w1 & E1). rewrite (bind_Ok _ _ _ _ _ _ _ E1).
  destruct (List.find _ policies) as [policy|] eqn:Ef.
  - apply find_governs in Ef.
    unfold decide_by. destruct (Perm_RequiresApproval policy) eqn:Er; eexists _, _; (split; [reflexivity|]);
      eapply checked_policy; try done; by rewrite Er.
  - eexists _, _. split; [reflexivity|]. apply checked_none; [done|done| |done].
    intros policy Hin Ha. apply list_elem_of_In in Hin. apply policyMatches_iff in Ha.
    pose proof (find_none _ _ Ef policy Hin) as Hf. congruence.
Qed.

Lemma Check_with policies input w (s : Permissions S) :
  (∀ w, ∃ w', policiesFor store input.(Check_TenantID) input.(Check_GroupID) w s = (Ok policies, w', s)) →
  ∃ d w', Check_ store input w s = (Ok d, w', s) ∧ checked policies input d.
Proof.
  intros Hp. destruct (evaluate_with policies input w s Hp) as (d & w1 & E & Hd).
  unfold Check_. rewrite (bind_Ok _ _ _ _ _ _ _ E).
  destruct (effect_record_check input d w1 s) as ([] & w2 & E2). rewrite (bind_Ok _ _ _ _ _ _ _ E2).
  by exists d, w2.
Qed.
End decisions.

(** ** What the service promises to those who ask it

    A check answers with a decision that the state it finds [permits], and changes nothing. *)
Class PermissionChecker (P : Type) := {
  permission_check : PermissionCheckInput → M P PermissionDecision;
  permits : P → PermissionCheckInput → string → Prop;
  permission_check_ok : ∀ input w p, ∃ d w',
    permission_check input w p = (Ok d, w', p) ∧ permits p input d.(PermD_Decision)
}.

#[export] Program Instance in_memory_checker `{Env} : PermissionChecker (Permissions unit) := {|
  permission_check := Check_ None;
  permits s input kind := ∃ d, checked s.(perm_policies) input d ∧ d.(PermD_Decision) = kind
|}.
Next Obligation.
  intros ? input w p. destruct (Check_with None (perm_policies p) input w p) as (d & w' & E & Hd).
  { intros w0. by exists w0. }
  exists d, w'. split; [done|]. by exists d.
Qed.

(** C23. A check of an in-memory service always answers, and leaves the policies alone.  A missing action is
    denied; an administrator is allowed every action that does not require an explicit policy; otherwise
    the first policy of the list that matches the tenant, the group, the action, the scope and the subject
    decides, between allowed and approval required, and is named; and without one the action is denied. *)
Theorem check_decision `{Env} (input : PermissionCheckInput) w (s : Permissions unit) :
  ∃ d w', Check_ None input w s = (Ok d, w', s) ∧ checked (perm_policies s) input d.
Proof. apply Check_with. intros w0. by exists w0. Qed.

(** ** The policies as a map from subjects *)

(** Lexicographic orders on string fields. *)
Section lex.
Context {A : Type} (f : A → string) (rest : A → A → bool).
Definition lex_less (a b : A) : bool := if f a != f b then string_lt (f a) (f b) else rest a b.

Context (rest_trans : ∀ a b c, le_of rest a b → le_of rest b c → le_of rest a c)
  (rest_asym : ∀ a b, rest a b = true → le_of rest a b).

Lemma lex_asym a b : lex_less a b = true → le_of lex_less a b.
Proof.
  unfold lex_less, le_of. destruct (String.eqb_spec (f a) (f b)) as [E|E]; cbn.
  - rewrite (proj2 (String.eqb_eq _ _) (eq_sym E)). cbn. by apply rest_asym.
  - rewrite eqb_neq_false by auto. cbn. apply string_lt_asym.
Qed.

Lemma lex_trans a b c : le_of lex_less a b → le_of lex_less b c → le_of lex_less a c.
Proof.
  unfold lex_less, le_of.
  destruct (String.eqb_spec (f b) (f a)) as [E1|E1], (String.eqb_spec (f c) (f b)) as [E2|E2]; cbn.
  - rewrite E2, E1, String.eqb_refl. cbn. intros. by eapply rest_trans.
  - rewrite <- E1, eqb_neq_false by done. by intros _.
  - rewrite E2, eqb_neq_false by done. by cbn.
  - intros Hba Hcb. destruct (String.eqb_spec (f c) (f a)) as [E3|E3]; cbn; [|by eapply string_lt_le_trans].
    rewrite E3 in Hcb. destruct E1. by apply string_lt_total.
Qed.
End lex.

Lemma field_trans {A} (f : A → string) a b c :
  le_of (λ a b, string_lt (f a) (f b)) a b → le_of (λ a b, string_lt (f a) (f b)) b c →
  le_of (λ a b, string_lt (f a) (f b)) a c.
Proof. unfold le_of. apply string_lt_le_trans. Qed.
Lemma field_asym {A} (f : A → string) a b :
  string_lt (f a) (f b) = true → le_of (λ a b, string_lt (f a) (f b)) a b.
Proof. apply string_lt_asym. Qed.

Lemma policyLess_trans a b c : le_of policyLess a b → le_of policyLess b c → le_of policyLess a c.
Proof.
  exact (lex_trans Perm_TenantID _ (lex_trans Perm_GroupID _ (lex_trans Perm_SubjectType _
    (field_trans Perm_SubjectID))) a b c).
Qed.
Lemma policyLess_asym a b : policyLess a b = true → le_of policyLess a b.
Proof.
  exact (lex_asym Perm_TenantID _ (lex_asym Perm_GroupID _ (lex_asym Perm_SubjectType _
    (field_asym Perm_SubjectID))) a b).
Qed.

(** Whom a policy is for. *)
Definition subject : Type := string * string * string * string.
Definition subject_of (p : GroupPermissionPolicy) : subject :=
  (Perm_TenantID p, Perm_GroupID p, Perm_SubjectType p, Perm_SubjectID p).

Definition by_subject (l : list GroupPermissionPolicy) : gmap subject GroupPermissionPolicy :=
  list_to_map (map (λ p, (subject_of p, p)) l).

(** One policy for a subject, in the order of the subjects. *)
Record policies_wf (l : list GroupPermissionPolicy) : Prop := {
  pwf_once : NoDup (map subject_of l);
  pwf_sorted : StronglySorted (le_of policyLess) l
}.

Lemma same_subject_iff p q : same_subject p q = true ↔ subject_of p = subject_of q.
Proof.
  unfold same_subject, subject_of. rewrite !andb_true_iff, !String.eqb_eq. split.
  - intros [[[-> ->] ->] ->]. done.
  - by intros [= -> -> -> ->].
Qed.

Lemma policyLess_subject p p' q : subject_of p = subject_of p' →
  policyLess p q = policyLess p' q ∧ policyLess q p = policyLess q p'.
Proof. intros [= E1 E2 E3 E4]. unfold policyLess. by rewrite E1, E2, E3, E4. Qed.

Lemma fst_pairs l : (map (λ p, (subject_of p, p)) l).*1 = map subject_of l.
Proof. induction l; cbn; congruence. Qed.

Lemma by_subject_cons p l : by_subject (p :: l) = <[subject_of p := p]> (by_subject l).
Proof. done. Qed.

Lemma by_subject_none l p : subject_of p ∉ map subject_of l → by_subject l !! subject_of p = None.
Proof. intros Hn. apply not_elem_of_list_to_map_1. by rewrite fst_pairs. Qed.

Lemma replace_none p l : replace_policy p l = None → subject_of p ∉ map subject_of l.
Proof.
  induction l as [|q l IH]; cbn; [intros _; apply not_elem_of_nil|].
  destruct (same_subject q p) eqn:E; [done|]. destruct (replace_policy p l); [done|]. intros _.
  rewrite not_elem_of_cons. split; [|by apply IH].
  intros Hs. symmetry in Hs. apply same_subject_iff in Hs. congruence.
Qed.

Lemma replace_some p l l' : replace_policy p l = Some l' →
  map subject_of l' = map subject_of l ∧ by_subject l' = <[subject_of p := p]> (by_subject l) ∧
  (StronglySorted (le_of policyLess) l → StronglySorted (le_of policyLess) l').
Proof.
  revert l'. induction l as [|q l IH]; cbn [replace_policy]; intros l' E; [done|].
  destruct (same_subject q p) eqn:Es.
  - injection E as <-. apply same_subject_iff in Es. cbn [map]. rewrite !by_subject_cons, Es.
    split_and!; [done| |].
    + by rewrite insert_insert_eq.
    + intros Hs. inversion_clear Hs as [|? ? Hl Hq]. constructor; [done|].
      eapply Forall_impl; [exact Hq|]. unfold le_of. intros x Hx. cbn beta in *.
      destruct (policyLess_subject q p x Es) as [_ <-]. exact Hx.
  - destruct (replace_policy p l) as [k|]; [|done]. injection E as <-.
    destruct (IH k eq_refl) as (Hk & Hm & Hs). cbn [map]. rewrite Hk, !by_subject_cons, Hm.
    split_and!; [done| |].
    + apply insert_insert_ne.
      intros Eq. symmetry in Eq. apply not_true_iff_false in Es. apply Es. by apply same_subject_iff.
    + intros Hsort. inversion_clear Hsort as [|? ? Hl Hq]. constructor; [by apply Hs|].
      assert (Hkeys : ∀ x, x ∈ k → ∃ y, y ∈ l ∧ subject_of x = subject_of y).
      { intros x Hx. assert (Hin : subject_of x ∈ map subject_of l).
        { rewrite <- Hk. apply list_elem_of_In, in_map, list_elem_of_In. done. }
        apply list_elem_of_In, in_map_iff in Hin as (y & Ey & Hy). exists y.
        split; [by apply list_elem_of_In|done]. }
      apply Forall_forall. intros x Hx. destruct (Hkeys x Hx) as (y & Hy & Ey).
      rewrite Forall_forall in Hq. unfold le_of in *.
      destruct (policyLess_subject x y q Ey) as [-> _]. by apply Hq.
Qed.

(** What [UpsertPolicy] makes of a policy at time [t]. *)
Definition stamped (t : Time) (policy : GroupPermissionPolicy) : GroupPermissionPolicy :=
  (if IsZero policy.(Perm_CreatedAt) then policy <| Perm_CreatedAt := t |> else policy)
    <| Perm_UpdatedAt := t |>.

Lemma stamped_subject t policy : subject_of (stamped t policy) = subject_of policy.
Proof. unfold stamped. by destruct (IsZero _). Qed.

(** The policies are a map from subjects (tenant, group, type and id of the subject), kept in order:
    [UpsertPolicy] inserts the policy, stamped with the clock, whether the subject had one or not, and
    keeps the list ordered with one policy for a subject. *)
Theorem upsert_inserts `{Env} (policy : GroupPermissionPolicy) w (s : Permissions unit) :
  policies_wf (perm_policies s) →
  ∃ w' s' t, UpsertPolicy None policy w s = (Ok tt, w', s') ∧ policies_wf (perm_policies s') ∧
    by_subject (perm_policies s') = <[subject_of policy := stamped t policy]> (by_subject (perm_policies s)).
Proof.
  intros [Hnd Hs]. unfold UpsertPolicy. unfold bind at 1, now, time_Now, lift_env. cbn beta iota zeta.
  set (t := env_clock _). set (p := _ <| Perm_UpdatedAt := t |>).
  assert (Hp : p = stamped t policy) by done.
  assert (Hk : subject_of p = subject_of policy) by (rewrite Hp; apply stamped_subject).
  clearbody p. unfold bind, get, put, ret.
  destruct (replace_policy p (perm_policies s)) as [l|] eqn:E.
  - apply replace_some in E as (Ek & Em & Esort). eexists _, _, t. split; [reflexivity|]. cbn.
    rewrite <- Hp, <- Hk. split; [|exact Em]. constructor; [by rewrite Ek|by apply Esort].
  - apply replace_none in E. eexists _, _, t. split; [reflexivity|]. cbn. rewrite <- Hp, <- Hk.
    assert (Hperm : sortPolicies (perm_policies s ++ [p]) ≡ₚ p :: perm_policies s).
    { unfold sortPolicies. rewrite stable_sort_perm. by rewrite Permutation_app_comm. }
    assert (Hnd' : NoDup (map subject_of (p :: perm_policies s))) by (cbn; by constructor).
    split; [constructor|].
    + eapply NoDup_Permutation_proper; [|exact Hnd']. by apply Permutation_map.
    + unfold sortPolicies. apply stable_sort_Sorted; [apply policyLess_trans|apply policyLess_asym].
    + rewrite <- by_subject_cons. unfold by_subject.
      apply list_to_map_proper; [|by apply Permutation_map]. rewrite fst_pairs.
      eapply NoDup_Permutation_proper; [|exact Hnd']. by apply Permutation_map.
Qed.

(** With a store, the policies it lists decide; but a policy that is in memory already is never saved. *)
Theorem revocation_lost `{Env} {S} (store : PolicyStoreOps S) (policy : GroupPermissionPolicy)
    (stored : list GroupPermissionPolicy) w (s : Permissions S) :
  subject_of policy ∈ map subject_of (perm_policies s) → stored ≠ [] →
  (∀ t g w, ∃ w', ListPolicies store t g w (perm_stored s) = (Ok stored, w', perm_stored s)) →
  ∃ w' s' t, UpsertPolicy (Some store) policy w s = (Ok tt, w', s') ∧
    by_subject (perm_policies s') = <[subject_of policy := stamped t policy]> (by_subject (perm_policies s)) ∧
    perm_stored s' = perm_stored s ∧
    ∀ input w2, ∃ d w3, Check_ (Some store) input w2 s' = (Ok d, w3, s') ∧ checked stored input d.
Proof.
  intros Hin Hne Hlist. unfold UpsertPolicy. unfold bind at 1, now, time_Now, lift_env. cbn beta iota zeta.
  set (t := env_clock _). set (p := _ <| Perm_UpdatedAt := t |>).
  assert (Hp : p = stamped t policy) by done.
  assert (Hk : subject_of p = subject_of policy) by (rewrite Hp; apply stamped_subject).
  clearbody p. unfold bind at 1, get.
  destruct (replace_policy p (perm_policies s)) as [l|] eqn:E.
  2: { apply replace_none in E. by rewrite Hk in E. }
  apply replace_some in E as (_ & Em & _). unfold put. eexists _, _, t.
  split; [reflexivity|]. cbn [perm_policies perm_stored].
  split; [by rewrite <- Hp, <- Hk|]. split; [done|]. intros input w2. apply Check_with. intros w3.
  unfold policiesFor. destruct (Hlist (Check_TenantID input) (Check_GroupID input) w3) as (w4 & E4).
  exists w4. unfold bind, on_store, zoom. cbn [perm_stored perm_policies]. rewrite E4. by destruct stored.
Qed.

(** ** Examples *)

Definition writers : GroupPermissionPolicy :=
  zeroGroupPermissionPolicy <| Perm_TenantID := "t" |> <| Perm_GroupID := "g" |>
    <| Perm_SubjectType := PermissionSubjectRole |> <| Perm_SubjectID := "writer" |>
    <| Perm_Actions := ["post"] |>.
Definition revoked : GroupPermissionPolicy := writers <| Perm_Actions := [] |>.
Definition asks_to_post : PermissionCheckInput :=
  zeroPermissionCheckInput <| Check_TenantID := "t" |> <| Check_GroupID := "g" |>
    <| Check_ActorID := "ann" |> <| Check_Roles := ["writer"] |> <| Check_Action := "post" |>.

(** A store that keeps what it is given. *)
Definition list_store : PolicyStoreOps (list GroupPermissionPolicy) := {|
  SavePolicy policy := let! l := get in put (l ++ [policy]);
  ListPolicies _ _ := get
|}.

Lemma upsert_inserts_witness :
  policies_wf [writers] ∧
  ∃ w' s' t, UpsertPolicy None revoked world0 (mkPermissions [writers] tt) = (Ok tt, w', s') ∧
    policies_wf (perm_policies s') ∧
    by_subject (perm_policies s') = <[subject_of revoked := stamped t revoked]> (by_subject [writers]).
Proof.
  assert (Hwf : policies_wf [writers]).
  { constructor; [apply NoDup_cons_2; [apply not_elem_of_nil|apply NoDup_nil_2]|].
    constructor; [constructor|constructor]. }
  split; [exact Hwf|].
  exact (upsert_inserts revoked world0 (mkPermissions [writers] tt) Hwf).
Defined.

(** The writers are allowed to post after the policy that allowed it was taken back. *)
Lemma revocation_lost_witness :
  subject_of revoked ∈ map subject_of [writers] ∧
  ∃ w' s' t, UpsertPolicy (Some list_store) revoked world0 (mkPermissions [writers] [writers]) = (Ok tt, w', s') ∧
    by_subject (perm_policies s') = <[subject_of revoked := stamped t revoked]> (by_subject [writers]) ∧
    perm_stored s' = [writers] ∧
    ∀ input w2, ∃ d w3, Check_ (Some list_store) input w2 s' = (Ok d, w3, s') ∧ checked [writers] input d.
Proof.
  assert (Hin : subject_of revoked ∈ map subject_of [writers]).
  { apply list_elem_of_here. }
  split; [exact Hin|].
  exact (revocation_lost list_store revoked [writers] world0 (mkPermissions [writers] [writers]) Hin
    ltac:(discriminate) (λ t g w, ex_intro _ w eq_refl)).
Defined.

Example writers_governs : governs [writers] asks_to_post writers.
Proof. exists [], []. split; [done|]. split; [by apply policyMatches_iff|constructor]. Qed.
