(* ===== verification/SkillUpdate.v ===== *)
(** * Requests for changes of skills: internal/skillupdate/service.go

    The service asks a [PermissionChecker] before it keeps a request; the theorems are about any
    such checker, and about the group permissions of [Permission] as one. *)

From stdpp Require Import base list strings gmap fin_maps.
From S2P Require Import Prelude Contracts GoMonad Storage Policies Permission.
Open Scope go_scope.
Open Scope string_scope.
Open Scope list_scope.

Record ProposeInput := mkProposeInput {
  Propose_TenantID : string;
  Propose_GroupID : string;
  Propose_AgentID : string;
  Propose_RequestedBy : string;
  Propose_Roles : list string;
  Propose_Objective : string;
  Propose_TargetSkillID : string;
  Propose_ProposedPatch : gmap string Any;
  Propose_TraceID : string;
  Propose_TaskID : string;
  Propose_RunID : string
}.

(** [Store] *)
Record SkillStoreOps (T : Type) := mkSkillStoreOps {
  skill_Save : SkillUpdateRequest → M T unit;
  skill_Get : string → M T (option SkillUpdateRequest)
}.
Arguments skill_Save {T}. Arguments skill_Get {T}.

(** [Service], with the state of its checker and of its store. *)
Record Skills (P T : Type) := mkSkills {
  sk_requests : gmap string SkillUpdateRequest;
  sk_permissions : P;
  sk_stored : T
}.
Arguments mkSkills {P T}. Arguments sk_requests {P T}.
Arguments sk_permissions {P T}. Arguments sk_stored {P T}.

Section service.
Context `{Env} {P T : Type} `{PermissionChecker P} (configured : bool) (store : option (SkillStoreOps T)).
Notation SM := (M (Skills P T)).

(** [s.permissions.Check] *)
Definition ask (input : PermissionCheckInput) : SM PermissionDecision :=
  zoom sk_permissions (λ p s, mkSkills s.(sk_requests) p s.(sk_stored)) (permission_check input).

Definition on_skill_store {A} (m : M T A) : SM A :=
  zoom sk_stored (λ t s, mkSkills s.(sk_requests) s.(sk_permissions) t) m.

Definition skill_question (input : ProposeInput) : PermissionCheckInput :=
  zeroPermissionCheckInput
    <| Check_TenantID := input.(Propose_TenantID) |> <| Check_GroupID := input.(Propose_GroupID) |>
    <| Check_ActorID := input.(Propose_RequestedBy) |> <| Check_ActorType := "member" |>
    <| Check_Roles := input.(Propose_Roles) |> <| Check_Action := PermissionActionSkillProposeUpdate |>
    <| Check_ResourceType := "skill" |> <| Check_ResourceID := input.(Propose_TargetSkillID) |>
    <| Check_TraceID := input.(Propose_TraceID) |> <| Check_TaskID := input.(Propose_TaskID) |>
    <| Check_RunID := input.(Propose_RunID) |>.

Definition record_proposal (input : ProposeInput) (request : SkillUpdateRequest) (decision : PermissionDecision)
    : SM unit :=
  do! (if input.(Propose_TraceID) == "" then ret tt else with_trace (
    let! span := idgen_New "span" in
    let! now := now in
    trace_Record (zeroTraceEvent
      <| Trace_TraceID := input.(Propose_TraceID) |> <| Trace_TenantID := input.(Propose_TenantID) |>
      <| Trace_SpanID := span |> <| Trace_RunID := input.(Propose_RunID) |>
      <| Trace_TaskID := input.(Propose_TaskID) |> <| Trace_Type := TraceSkillUpdateRequested |>
      <| Trace_Payload := {["request_id" := AString request.(SkillReq_RequestID);
           "agent_id" := AString request.(SkillReq_AgentID);
           "group_id" := AString request.(SkillReq_GroupID);
           "status" := AString request.(SkillReq_Status);
           "decision" := AString decision.(PermD_Decision)]} |>
      <| Trace_CreatedAt := now |>))) in
  with_audit (
    let! id := idgen_New "audit" in
    let! now := now in
    audit_Log (zeroAuditEvent
      <| Audit_AuditID := id |> <| Audit_TenantID := input.(Propose_TenantID) |>
      <| Audit_ActorID := input.(Propose_RequestedBy) |> <| Audit_ActorType := "member" |>
      <| Audit_Action := AuditSkillUpdateRequested |> <| Audit_ResourceType := "skill_update_request" |>
      <| Audit_ResourceID := request.(SkillReq_RequestID) |>
      <| Audit_Decision := decision.(PermD_Decision) |> <| Audit_Reason := decision.(PermD_Reason) |>
      <| Audit_TraceID := input.(Propose_TraceID) |> <| Audit_TaskID := input.(Propose_TaskID) |>
      <| Audit_RunID := input.(Propose_RunID) |> <| Audit_CreatedAt := now |>)).

Definition missing_field (input : ProposeInput) : bool :=
  (input.(Propose_TenantID) == "") || (input.(Propose_GroupID) == "") || (input.(Propose_AgentID) == "") ||
  (input.(Propose_RequestedBy) == "") || (input.(Propose_Objective) == "").

(** The request that [Propose] keeps. *)
Definition new_request (input : ProposeInput) (decision : PermissionDecision) : SM SkillUpdateRequest :=
  let! now := now in
  let! id := idgen_New "skillreq" in
  ret (zeroSkillUpdateRequest
    <| SkillReq_RequestID := id |> <| SkillReq_TenantID := input.(Propose_TenantID) |>
    <| SkillReq_AgentID := input.(Propose_AgentID) |> <| SkillReq_GroupID := input.(Propose_GroupID) |>
    <| SkillReq_RequestedBy := input.(Propose_RequestedBy) |>
    <| SkillReq_Objective := input.(Propose_Objective) |>
    <| SkillReq_TargetSkillID := input.(Propose_TargetSkillID) |>
    <| SkillReq_ProposedPatch := input.(Propose_ProposedPatch) |>
    <| SkillReq_Status := if decision.(PermD_Decision) == PermissionDecisionApprovalRequired
                          then SkillUpdateWaitingApproval else SkillUpdateDraft |>
    <| SkillReq_Reason := decision.(PermD_Reason) |>
    <| SkillReq_CreatedAt := now |> <| SkillReq_UpdatedAt := now |>).

Definition keep_request (request : SkillUpdateRequest) : SM unit :=
  let! s := get in
  do! put (mkSkills (<[request.(SkillReq_RequestID) := request]> s.(sk_requests)) s.(sk_permissions)
             s.(sk_stored)) in
  match store with Some store => on_skill_store (store.(skill_Save) request) | None => ret tt end.

(** [Propose] returns its decision beside the error. *)
Definition Propose (input : ProposeInput) : SM (PermissionDecision * (SkillUpdateRequest + error)) :=
  if missing_field input then
    ret (zeroPermissionDecision,
      inr (Errorf "tenant_id, group_id, agent_id, requested_by and objective are required" [])) else
  let! checkedAt := now in
  let! asked :=
    (if configured then attempt (ask (skill_question input))
     else ret (inl (zeroPermissionDecision <| PermD_Decision := PermissionDecisionAllowed |>
                 <| PermD_Reason := "no permission checker configured" |> <| PermD_CheckedAt := checkedAt |>))) in
  match asked with
  | inr err => ret (zeroPermissionDecision, inr err)
  | inl decision =>
      if decision.(PermD_Decision) == PermissionDecisionDenied then
        ret (decision, inr (ErrRuntime (NewRuntimeError CodeToolPolicyDenied decision.(PermD_Reason)
               {["reason_code" := AString decision.(PermD_ReasonCode)]}))) else
      let! request := new_request input decision in
      let! saved := attempt (keep_request request) in
      match saved with
      | inr err => ret (decision, inr err)
      | inl _ =>
          do! record_proposal input request decision in
          ret (decision, inl request)
      end
  end.

Definition GetRequest (requestID : string) : SM (option SkillUpdateRequest) :=
  let! stored := match store with Some store => on_skill_store (store.(skill_Get) requestID) | None => ret None end in
  match stored with
  | Some request => ret (Some request)
  | None => let! s := get in ret (s.(sk_requests) !! requestID)
  end.
End service.

(** ** Requests are kept exactly when the checker does not deny them *)

Section proposals.
Context `{Env} {P T : Type} `{PermissionChecker P}.
Implicit Types (s : Skills P T) (input : ProposeInput).

Lemma effect_record_proposal input request decision :
  effect_only (S:=Skills P T) (record_proposal input request decision).
Proof. unfold record_proposal. auto 10 with effects. Qed.

Lemma new_request_run input decision w s : ∃ request w', new_request input decision w s = (Ok request, w', s) ∧
  request.(SkillReq_Status) = (if decision.(PermD_Decision) == PermissionDecisionApprovalRequired
                               then SkillUpdateWaitingApproval else SkillUpdateDraft) ∧
  request.(SkillReq_RequestedBy) = input.(Propose_RequestedBy) ∧
  request.(SkillReq_ProposedPatch) = input.(Propose_ProposedPatch).
Proof. eexists _, _. split; [reflexivity|]. done. Qed.

Lemma ask_run question w s : ∃ d w', attempt (ask question) w s = (Ok (inl d), w', s) ∧
  permits s.(sk_permissions) question d.(PermD_Decision).
Proof.
  destruct (permission_check_ok question w (sk_permissions s)) as (d & w' & E & Hp).
  exists d, w'. split; [|done]. unfold attempt, ask, zoom. rewrite E. by destruct s.
Qed.

(** The ways a proposal ends. *)
Definition proposed input s (d : PermissionDecision) (r : SkillUpdateRequest + error) s' : Prop :=
  match r with
  | inr _ => s' = s ∧ (missing_field input = true ∨
      permits s.(sk_permissions) (skill_question input) PermissionDecisionDenied)
  | inl request =>
      missing_field input = false ∧
      permits s.(sk_permissions) (skill_question input) d.(PermD_Decision) ∧
      d.(PermD_Decision) ≠ PermissionDecisionDenied ∧
      s' = mkSkills (<[request.(SkillReq_RequestID) := request]> s.(sk_requests)) s.(sk_permissions)
             s.(sk_stored) ∧
      (request.(SkillReq_Status) = SkillUpdateWaitingApproval ↔
         d.(PermD_Decision) = PermissionDecisionApprovalRequired) ∧
      request.(SkillReq_RequestedBy) = input.(Propose_RequestedBy) ∧
      request.(SkillReq_ProposedPatch) = input.(Propose_ProposedPatch) ∧
      ∀ w, GetRequest None request.(SkillReq_RequestID) w s' = (Ok (Some request), w, s')
  end.

(** A proposal always answers.  It is refused, and nothing is kept, when a field is missing or the
    permissions deny it; otherwise exactly one request is kept, can be read back, and waits for an approval
    exactly when the permissions ask for one.  The permissions are not changed. *)
Theorem propose_permitted input w s :
  ∃ d r w' s', Propose true None input w s = (Ok (d, r), w', s') ∧ proposed input s d r s'.
Proof.
  unfold Propose. destruct (missing_field input) eqn:Em.
  { eexists _, _, _, _. split; [reflexivity|]. cbn. auto. }
  unfold bind at 1, now, time_Now, lift_env.
  destruct (ask_run (skill_question input) (w <| w_reads := Datatypes.S (w_reads w) |>) s) as (d & w1 & E1 & Hp).
  rewrite (bind_Ok _ _ _ _ _ _ _ E1).
  destruct (String.eqb_spec d.(PermD_Decision) PermissionDecisionDenied) as [Ed|Ed].
  { eexists _, _, _, _. split; [reflexivity|]. cbn. split; [done|]. right. by rewrite <- Ed. }
  destruct (new_request_run input d w1 s) as (request & w2 & E2 & Hs & Hb & Hpatch).
  rewrite (bind_Ok _ _ _ _ _ _ _ E2).
  set (s' := mkSkills (<[request.(SkillReq_RequestID) := request]> s.(sk_requests)) s.(sk_permissions)
               s.(sk_stored)).
  assert (E3 : attempt (keep_request None request) w2 s = (Ok (inl tt), w2, s')) by done.
  rewrite (bind_Ok _ _ _ _ _ _ _ E3).
  destruct (effect_record_proposal input request d w2 s') as ([] & w3 & E4).
  rewrite (bind_Ok _ _ _ _ _ _ _ E4). eexists _, _, _, _. split; [reflexivity|].
  cbn [proposed]. split_and!; try done.
  - rewrite Hs. destruct (String.eqb_spec (PermD_Decision d) PermissionDecisionApprovalRequired); by split.
  - intros w4. unfold GetRequest. cbn. by rewrite lookup_insert_eq.
Qed.
End proposals.

(** With the group permissions as the checker: a member who has no administrator's role, and whom no policy
    lets propose an update, leaves nothing behind. *)
Lemma stranger_proposes_nothing `{Env} {T} (input : ProposeInput) (s : Skills (Permissions unit) T) d r s' :
  proposed input s d r s' → ¬ is_admin (skill_question input) →
  (∀ policy, policy ∈ s.(sk_permissions).(perm_policies) →
     ¬ applies (skill_question input) policy) →
  s' = s.
Proof.
  intros Hp Hadm Hno. destruct r as [request|e]; cbn in Hp; [|by destruct Hp]. exfalso.
  destruct Hp as (_ & (d' & Hc & Ed) & Hd & _). rewrite <- Ed in Hd.
  destruct Hc as [|? _ _ Hadm'|policy ? _ _ (before & after & El & Hm & _)|]; try done.
  apply (Hno policy); [|done]. rewrite El. apply elem_of_app. right. apply list_elem_of_here.
Qed.
