(* ===== verification/MemoryScope.v ===== *)
(** * Scopes of memories: internal/memoryscope/service.go

    Which groups may read and write a memory.  As for the group permissions, the service keeps its
    scopes in memory and, where it has one, in a store. *)

From stdpp Require Import base list strings gmap fin_maps.
From S2P Require Import Prelude Contracts GoMonad Storage Policies.
Open Scope go_scope.
Open Scope string_scope.
Open Scope list_scope.

Record AccessInput := mkAccessInput {
  Access_TenantID : string;
  Access_GroupID : string;
  Access_MemoryID : string;
  Access_Roles : list string;
  Access_TraceID : string;
  Access_TaskID : string;
  Access_RunID : string
}.

(** ** The decision *)

Definition scope_key (tenantID memoryID : string) : string := tenantID +:+ NUL +:+ memoryID.

Definition intersects (a b : list string) : bool := existsb (λ left, existsb (λ right, left == right) b) a.
Definition containsGroup (values : list string) (target : string) : bool :=
  existsb (λ value, value == target) values.

Definition allows (scope : MemoryScope) (groupID : string) (roles : list string) (read : bool)
    : bool * string :=
  let roleGate := if read then scope.(Scope_ReadRoles) else scope.(Scope_WriteRoles) in
  if nonempty roleGate && negb (intersects roleGate roles) then (false, "role not allowed") else
  let own := (scope.(Scope_OwnerGroupID) == groupID) || (scope.(Scope_ScopeID) == groupID) in
  if scope.(Scope_Visibility) == VisibilityTenant then (true, "tenant visibility")
  else if (scope.(Scope_Visibility) == VisibilityGroup) || (scope.(Scope_Visibility) == VisibilityPrivate) then
    if own then (true, "same group") else (false, "scope denied")
  else if (scope.(Scope_Visibility) == VisibilitySharedGroups) || (scope.(Scope_Visibility) == VisibilityShared) then
    if own || containsGroup scope.(Scope_SharedWithGroupIDs) groupID then (true, "shared group")
    else (false, "scope denied")
  else (false, "scope denied").

(** ** The service *)

(** [Store] *)
Record ScopeStoreOps (T : Type) := mkScopeStoreOps {
  store_SaveScope : MemoryScope → M T unit;
  store_GetScope : string → string → M T (option MemoryScope)
}.
Arguments store_SaveScope {T}. Arguments store_GetScope {T}.

Record Scopes (T : Type) := mkScopes { scope_items : gmap string MemoryScope; scope_stored : T }.
Arguments mkScopes {T}. Arguments scope_items {T}. Arguments scope_stored {T}.

Section service.
Context `{Env} {T : Type} (store : option (ScopeStoreOps T)).
Notation CM := (M (Scopes T)).

Definition on_scope_store {A} (m : M T A) : CM A :=
  zoom scope_stored (λ t s, mkScopes s.(scope_items) t) m.

(** A scope goes to the map and, where there is one, to the store. *)
Definition put_scope (scope : MemoryScope) (key : string) : CM unit :=
  let! s := get in
  do! put (mkScopes (<[key := scope]> s.(scope_items)) s.(scope_stored)) in
  match store with Some store => on_scope_store (store.(store_SaveScope) scope) | None => ret tt end.

Definition SaveScope (scope : MemoryScope) : CM MemoryScope :=
  if (scope.(Scope_TenantID) == "") || (scope.(Scope_MemoryID) == "") then
    throw (Errorf "tenant_id and memory_id are required" []) else
  let scope := if scope.(Scope_Visibility) == "" then scope <| Scope_Visibility := VisibilityPrivate |> else scope in
  let scope := if scope.(Scope_ScopeType) == "" then scope <| Scope_ScopeType := MemoryScopeGroup |> else scope in
  let! now := now in
  let scope := if IsZero scope.(Scope_CreatedAt) then scope <| Scope_CreatedAt := now |> else scope in
  let scope := scope <| Scope_UpdatedAt := now |> in
  do! put_scope scope (scope_key scope.(Scope_TenantID) scope.(Scope_MemoryID)) in
  ret scope.

Definition GetScope (tenantID memoryID : string) : CM (option MemoryScope) :=
  let! stored :=
    match store with Some store => on_scope_store (store.(store_GetScope) tenantID memoryID) | None => ret None end in
  match stored with
  | Some scope => ret (Some scope)
  | None => let! s := get in ret (s.(scope_items) !! scope_key tenantID memoryID)
  end.

Definition record_access (input : AccessInput) (scope : MemoryScope) (read allowed : bool) (reason : string)
    : CM unit :=
  if input.(Access_TraceID) == "" then ret tt else with_trace (
    let! span := idgen_New "span" in
    let! now := now in
    trace_Record (zeroTraceEvent
      <| Trace_TraceID := input.(Access_TraceID) |> <| Trace_TenantID := input.(Access_TenantID) |>
      <| Trace_SpanID := span |> <| Trace_RunID := input.(Access_RunID) |>
      <| Trace_TaskID := input.(Access_TaskID) |> <| Trace_Type := TraceMemoryScopeChecked |>
      <| Trace_Payload := {["memory_id" := AString input.(Access_MemoryID);
           "group_id" := AString input.(Access_GroupID);
           "operation" := AString (if read then "read" else "write");
           "allowed" := ABool allowed; "visibility" := AString scope.(Scope_Visibility);
           "reason" := AString reason]} |>
      <| Trace_CreatedAt := now |>)).

Definition check_access (input : AccessInput) (read : bool) : CM (bool * string) :=
  let! found := GetScope input.(Access_TenantID) input.(Access_MemoryID) in
  match found with
  | None => ret (false, "memory scope not found")
  | Some scope =>
      let '(allowed, reason) := allows scope input.(Access_GroupID) input.(Access_Roles) read in
      do! record_access input scope read allowed reason in
      ret (allowed, reason)
  end.
Definition CanRead (input : AccessInput) : CM (bool * string) := check_access input true.
Definition CanWrite (input : AccessInput) : CM (bool * string) := check_access input false.

(** What a grant makes of a scope. *)
Definition shared_with (targetGroupID : string) (scope : MemoryScope) : MemoryScope :=
  let scope :=
    if containsGroup scope.(Scope_SharedWithGroupIDs) targetGroupID then scope
    else scope <| Scope_SharedWithGroupIDs := scope.(Scope_SharedWithGroupIDs) ++ [targetGroupID] |> in
  scope <| Scope_Visibility := VisibilitySharedGroups |> <| Scope_ScopeType := MemoryScopeShared |>.

Definition find_scope (tenantID memoryID : string) : CM (option MemoryScope) :=
  let! s := get in
  match s.(scope_items) !! scope_key tenantID memoryID, store with
  | Some scope, _ => ret (Some scope)
  | None, Some store => on_scope_store (store.(store_GetScope) tenantID memoryID)
  | None, None => ret None
  end.

Definition GrantShare (tenantID memoryID targetGroupID actorID : string) : CM MemoryScope :=
  let! found := find_scope tenantID memoryID in
  match found with
  | None => throw (Errorf "memory scope %s not found" [memoryID])
  | Some scope =>
      let! now1 := now in
      let scope := (shared_with targetGroupID scope) <| Scope_UpdatedAt := now1 |> in
      do! put_scope scope (scope_key tenantID memoryID) in
      do! with_audit (
        let! id := idgen_New "audit" in
        let! now := now in
        audit_Log (zeroAuditEvent
          <| Audit_AuditID := id |> <| Audit_TenantID := tenantID |> <| Audit_ActorID := actorID |>
          <| Audit_ActorType := "member" |> <| Audit_Action := AuditMemoryShared |>
          <| Audit_ResourceType := "memory" |> <| Audit_ResourceID := memoryID |>
          <| Audit_Decision := "allowed" |>
          <| Audit_Reason := "shared_with_group=" +:+ targetGroupID |>
          <| Audit_CreatedAt := now |>)) in
      ret scope
  end.
End service.

(** ** Who may reach a memory *)

Definition own_group (scope : MemoryScope) (g : string) : Prop :=
  scope.(Scope_OwnerGroupID) = g ∨ scope.(Scope_ScopeID) = g.

Definition shared_visibility (v : string) : Prop := v = VisibilitySharedGroups ∨ v = VisibilityShared.

(** The groups that see a memory. *)
Definition visible_to (scope : MemoryScope) (g : string) : Prop :=
  let v := scope.(Scope_Visibility) in
  v = VisibilityTenant ∨
  (own_group scope g ∧ (v = VisibilityGroup ∨ v = VisibilityPrivate ∨ shared_visibility v)) ∨
  (g ∈ scope.(Scope_SharedWithGroupIDs) ∧ shared_visibility v).

(** The roles of the caller pass the gate of the operation. *)
Definition gate_open (scope : MemoryScope) (roles : list string) (read : bool) : Prop :=
  let gate := if read then scope.(Scope_ReadRoles) else scope.(Scope_WriteRoles) in
  gate = [] ∨ ∃ role, role ∈ gate ∧ role ∈ roles.

Lemma existsb_elem {A} (f : A → bool) l : existsb f l = true ↔ ∃ x, x ∈ l ∧ f x = true.
Proof. rewrite existsb_exists. by setoid_rewrite list_elem_of_In. Qed.

Lemma containsGroup_elem l g : containsGroup l g = true ↔ g ∈ l.
Proof.
  unfold containsGroup. rewrite existsb_elem. split.
  - intros (x & Hx & ->%String.eqb_eq). done.
  - intros Hg. exists g. by rewrite String.eqb_refl.
Qed.

Lemma intersects_elem a b : intersects a b = true ↔ ∃ x, x ∈ a ∧ x ∈ b.
Proof.
  unfold intersects. rewrite existsb_elem. split.
  - intros (x & Hx & (y & Hy & ->%String.eqb_eq)%existsb_elem). by exists y.
  - intros (x & Ha & Hb). exists x. split; [done|]. apply existsb_elem. exists x. by rewrite String.eqb_refl.
Qed.

Lemma own_group_bool scope g :
  (scope.(Scope_OwnerGroupID) == g) || (scope.(Scope_ScopeID) == g) = true ↔ own_group scope g.
Proof. unfold own_group. by rewrite orb_true_iff, !String.eqb_eq. Qed.

Lemma gate_bool (gate roles : list string) :
  nonempty gate && negb (intersects gate roles) = false ↔ gate = [] ∨ ∃ r, r ∈ gate ∧ r ∈ roles.
Proof.
  rewrite <- intersects_elem. destruct gate as [|r gate]; [by split; [left|]|].
  destruct (intersects _ _); cbn; split; auto. by intros [|].
Qed.

Lemma allows_iff scope g roles read :
  (allows scope g roles read).1 = true ↔ gate_open scope roles read ∧ visible_to scope g.
Proof.
  unfold allows, gate_open. rewrite <- gate_bool. unfold visible_to, shared_visibility.
  destruct (nonempty _ && _); cbn [fst]; [by split; [|intros []]|].
  rewrite <- own_group_bool, <- containsGroup_elem. generalize (Scope_Visibility scope) as v. intros v.
  generalize ((Scope_OwnerGroupID scope == g) || (Scope_ScopeID scope == g)) as own. intros own.
  unfold VisibilityTenant, VisibilityGroup, VisibilityPrivate, VisibilitySharedGroups, VisibilityShared.
  destruct (String.eqb_spec v "tenant"); [by split; [auto|]|].
  destruct (String.eqb_spec v "group"), (String.eqb_spec v "private"), (String.eqb_spec v "shared_groups"),
    (String.eqb_spec v "shared"); try congruence; cbn [orb].
  all: destruct own; cbn [orb fst]; try (by naive_solver).
  all: destruct (containsGroup _ _); cbn [orb fst]; naive_solver.
Qed.

(** ** The operations *)

Section memory.
Context `{Env}.
Implicit Types s : Scopes unit.

Lemma effect_record_access {T} input scope read allowed reason :
  effect_only (S:=Scopes T) (record_access input scope read allowed reason).
Proof. unfold record_access. auto 10 with effects. Qed.

(** Reading and writing: access is given exactly when the memory has a scope whose gate for the
    operation the roles pass, and which the group sees: by the visibility of the tenant, as the own group,
    or as a group it is shared with.  Asking changes nothing. *)
Theorem memory_access_iff (input : AccessInput) (read : bool) w s :
  ∃ b reason w', (if read then CanRead (T:=unit) None input else CanWrite None input) w s = (Ok (b, reason), w', s) ∧
    (b = true ↔ ∃ scope, s.(scope_items) !! scope_key input.(Access_TenantID) input.(Access_MemoryID) = Some scope ∧
       gate_open scope input.(Access_Roles) read ∧ visible_to scope input.(Access_GroupID)).
Proof.
  assert (E : (if read then CanRead (T:=unit) None input else CanWrite None input) = check_access None input read)
    by (by destruct read).
  rewrite E. clear E. unfold check_access.
  assert (Eg : GetScope None (Access_TenantID input) (Access_MemoryID input) w s =
    (Ok (scope_items s !! scope_key (Access_TenantID input) (Access_MemoryID input)), w, s)) by done.
  rewrite (bind_Ok _ _ _ _ _ _ _ Eg). destruct (scope_items s !! _) as [scope|] eqn:El.
  - pose proof (allows_iff scope (Access_GroupID input) (Access_Roles input) read) as Ha.
    destruct (allows _ _ _ _) as [b reason].
    destruct (effect_record_access (T:=unit) input scope read b reason w s) as ([] & w' & E').
    rewrite (bind_Ok _ _ _ _ _ _ _ E'). eexists _, _, _. split; [reflexivity|]. cbn [fst] in Ha. rewrite Ha.
    split; [by exists scope|]. intros (scope' & Es & Hg). by injection Es as ->.
  - eexists _, _, _. split; [reflexivity|]. split; [done|]. by intros (scope' & Es & _).
Qed.

Lemma shared_with_visible target scope g :
  visible_to (shared_with target scope) g ↔
  own_group scope g ∨ g ∈ scope.(Scope_SharedWithGroupIDs) ∨ g = target.
Proof.
  unfold visible_to, shared_with, shared_visibility, own_group.
  pose proof (containsGroup_elem (Scope_SharedWithGroupIDs scope) target) as Hc.
  destruct (containsGroup _ _); cbn; [|rewrite elem_of_app, list_elem_of_singleton]; naive_solver.
Qed.

Lemma shared_with_gate target scope roles read :
  gate_open (shared_with target scope) roles read ↔ gate_open scope roles read.
Proof. unfold gate_open, shared_with. by destruct (containsGroup _ _). Qed.

(** Sharing a memory with a group: afterwards exactly its own group, the groups it names and the new
    group see it, under the same gates; no other memory is touched; and sharing a memory without a scope
    is an error that changes nothing. *)
Theorem grant_share_correct (tenantID memoryID target actorID : string) w s :
  let key := scope_key tenantID memoryID in
  match s.(scope_items) !! key with
  | None => GrantShare None tenantID memoryID target actorID w s =
              (Err (Errorf "memory scope %s not found" [memoryID]), w, s)
  | Some scope => ∃ scope' w',
      GrantShare None tenantID memoryID target actorID w s =
        (Ok scope', w', mkScopes (<[key := scope']> s.(scope_items)) tt) ∧
      ∀ g roles read, (allows scope' g roles read).1 = true ↔
        gate_open scope roles read ∧ (own_group scope g ∨ g ∈ scope.(Scope_SharedWithGroupIDs) ∨ g = target)
  end.
Proof.
  cbn zeta. destruct s as [items []]. cbn [scope_items].
  destruct (items !! _) as [scope|] eqn:E.
  - unfold GrantShare, find_scope. unfold bind at 1 2, get. cbn [scope_items]. rewrite E. unfold ret at 1.
    rewrite bind_now. set (scope' := _ <| Scope_UpdatedAt := _ |>).
    unfold bind at 1, put_scope, bind at 1 2, get, put, ret at 1. cbn [scope_items scope_stored].
    match goal with |- context[bind (with_audit ?m) ?f ?w1 ?s1] =>
      destruct ((ltac:(auto 10 with effects) : effect_only (with_audit m)) w1 s1) as ([] & w' & E') end.
    rewrite (bind_Ok _ _ _ _ _ _ _ E'). eexists _, _. split; [reflexivity|].
    intros g roles read. rewrite allows_iff.
    assert (Hv : visible_to scope' g ↔ visible_to (shared_with target scope) g) by done.
    assert (Hg : gate_open scope' roles read ↔ gate_open (shared_with target scope) roles read) by done.
    by rewrite Hv, Hg, shared_with_visible, shared_with_gate.
  - unfold GrantShare, find_scope. unfold bind, get. cbn [scope_items]. by rewrite E.
Qed.
End memory.

(** Sharing a memory that the whole tenant sees takes it away from the groups that are not named. *)
Lemma grant_narrows target scope g :
  scope.(Scope_Visibility) = VisibilityTenant → ¬ own_group scope g →
  g ∉ scope.(Scope_SharedWithGroupIDs) → g ≠ target →
  visible_to scope g ∧ ¬ visible_to (shared_with target scope) g.
Proof. intros Hv Ho Hs Ht. split; [by left|]. rewrite shared_with_visible. naive_solver. Qed.

(** A scope that is saved is the one that is read. *)
Lemma save_get `{Env} scope w (s : Scopes unit) :
  Scope_TenantID scope ≠ "" → Scope_MemoryID scope ≠ "" →
  ∃ scope' w' s', SaveScope None scope w s = (Ok scope', w', s') ∧
    (∀ w2, GetScope None (Scope_TenantID scope) (Scope_MemoryID scope) w2 s' = (Ok (Some scope'), w2, s')) ∧
    Scope_OwnerGroupID scope' = Scope_OwnerGroupID scope ∧
    Scope_SharedWithGroupIDs scope' = Scope_SharedWithGroupIDs scope ∧
    Scope_Visibility scope' = (if Scope_Visibility scope == "" then VisibilityPrivate else Scope_Visibility scope).
Proof.
  intros Ht Hm. unfold SaveScope. rewrite !eqb_neq_false by done. cbn [orb]. rewrite bind_now.
  set (scope' := _ <| Scope_UpdatedAt := _ |>).
  assert (Ek : scope_key (Scope_TenantID scope') (Scope_MemoryID scope') =
    scope_key (Scope_TenantID scope) (Scope_MemoryID scope)).
  { subst scope'. by destruct (_ == _), (_ == _), (IsZero _). }
  rewrite Ek. eexists scope', _, _. split; [reflexivity|].
  split; [intros w2; unfold GetScope; cbn; by rewrite lookup_insert_eq|].
  subst scope'. by destruct (Scope_Visibility scope == ""), (_ == _), (IsZero _).
Qed.
