(* ===== verification/HandoffPackage.v ===== *)
(** * What one agent hands to another: internal/context/handoffpkg/builder.go

    The package of context of a handoff, cut down to what the policy opens and to its budget of
    tokens.  A token is a field of a text: [strings.Fields] on ASCII white space. *)

From stdpp Require Import base list strings gmap fin_maps.
From Stdlib Require Import Lia Ascii.
From S2P Require Import Prelude Contracts GoMonad Storage Policies Dispatch ModelCall.
Open Scope go_scope.
Open Scope string_scope.
Open Scope list_scope.

(** ** Fields of a text *)

(** [strings.Fields]; [word] is the field that is being read. *)
Fixpoint fields_from (word s : string) : list string :=
  match s with
  | EmptyString => if word == "" then [] else [word]
  | String c s' =>
      if ascii_space c then if word == "" then fields_from "" s' else word :: fields_from "" s'
      else fields_from (word +:+ String c EmptyString) s'
  end.
Definition Fields (s : string) : list string := fields_from "" s.

(** [strings.Join(words, " ")] *)
Fixpoint join_words (words : list string) : string :=
  match words with
  | [] => ""
  | [w] => w
  | w :: words => w +:+ String " " (join_words words)
  end.

(** ** The builder *)

Record PackageInput := mkPackageInput {
  PI_TenantID : string;
  PI_ParentTaskID : string;
  PI_SourceRunID : string;
  PI_FromAgentID : string;
  PI_ToAgentID : string;
  PI_Objective : string;
  PI_Reason : string;
  PI_Summary : string;
  PI_ArtifactRefs : list ArtifactRef;
  PI_MemoryRefs : list string;
  PI_ExpectedOutput : ExpectedOutput;
  PI_Mode : HandoffMode;
  PI_Policy : HandoffPolicy
}.

(** A scope, under the names that are allowed or those that are denied. *)
Definition grade (allow : bool) (scope : string) (scopes : list string * list string)
    : list string * list string :=
  if allow then (scopes.1 ++ [scope], scopes.2) else (scopes.1, scopes.2 ++ [scope]).

Record PackageScope := mkPackageScope {
  ps_allowed : list string;
  ps_denied : list string;
  ps_artifacts : list ArtifactRef;
  ps_memories : list string;
  ps_summary : string
}.

Definition packageScope (input : PackageInput) (mode : HandoffMode) : PackageScope :=
  let policy := input.(PI_Policy) in
  let summary := if input.(PI_Summary) == "" then input.(PI_Objective) else input.(PI_Summary) in
  let artifacts := if policy.(HandoffPolicy_AllowArtifactRead) then input.(PI_ArtifactRefs) else [] in
  let memories := if policy.(HandoffPolicy_AllowMemoryRead) then input.(PI_MemoryRefs) else [] in
  let grade_artifacts := grade policy.(HandoffPolicy_AllowArtifactRead) "artifact_refs" in
  let grade_memories := grade policy.(HandoffPolicy_AllowMemoryRead) "memory_refs" in
  if mode == HandoffFullContext then
    let '(allowed, denied) :=
      grade_memories (grade policy.(HandoffPolicy_AllowTaskEventRead) "task_events"
        (grade_artifacts (["summary"], []))) in
    mkPackageScope allowed denied artifacts memories summary
  else if mode == HandoffSummaryOnly then
    mkPackageScope ["summary"] ["artifact_refs"; "task_events"; "memory_refs"] [] [] summary
  else if mode == HandoffReferenceOnly then
    let '(allowed, denied) := grade_memories (grade_artifacts ([], ["summary"; "task_events"])) in
    mkPackageScope allowed denied artifacts memories ""
  else
    let '(allowed, denied) := grade_memories (grade_artifacts (["summary"], [])) in
    mkPackageScope allowed
      (if policy.(HandoffPolicy_AllowTaskEventRead) then denied else denied ++ ["task_events"])
      artifacts memories summary.

Definition artifactTokenCount (artifact : ArtifactRef) : Z :=
  len (Fields (join_words [artifact.(ArtifactRef_ArtifactID); artifact.(ArtifactRef_Type);
    artifact.(ArtifactRef_URI); artifact.(ArtifactRef_Summary); artifact.(ArtifactRef_Hash)])).

(** The total of the costs of the artifacts. *)
Definition artifactsTokenCount (artifacts : list ArtifactRef) : Z :=
  fold_right (λ artifact total, artifactTokenCount artifact + total)%Z 0%Z artifacts.
Definition handoffTokenCount (summary : string) (artifacts : list ArtifactRef) : Z :=
  (len (Fields summary) + artifactsTokenCount artifacts)%Z.

Definition truncateWords (value : string) (limit : Z) : string :=
  if (limit <=? 0)%Z then "" else
  let words := Fields value in
  if (len words <=? limit)%Z then value else join_words (take (Z.to_nat limit) words).

(** The loop of [enforceTokenBudget]: an artifact is kept while its cost fits. *)
Fixpoint keep_artifacts (remaining : Z) (artifacts : list ArtifactRef) : list ArtifactRef :=
  match artifacts with
  | [] => []
  | artifact :: artifacts =>
      let cost := artifactTokenCount artifact in
      if (cost <=? remaining)%Z then artifact :: keep_artifacts (remaining - cost) artifacts
      else keep_artifacts remaining artifacts
  end.

Definition enforceTokenBudget (summary : string) (artifacts : list ArtifactRef) (maxTokens : Z)
    : string * list ArtifactRef * bool :=
  if (maxTokens <=? 0)%Z || (handoffTokenCount summary artifacts <=? maxTokens)%Z
  then (summary, artifacts, false) else
  let summary := truncateWords summary maxTokens in
  let remaining := (maxTokens - len (Fields summary))%Z in
  if (remaining <=? 0)%Z then (summary, [], true)
  else (summary, keep_artifacts remaining artifacts, true).

Definition handoffConstraints (input : PackageInput) (mode : HandoffMode) (compressed : bool)
    : list string :=
  ["downstream agent must rebuild WorkView"] ++
  (if (input.(PI_Policy).(HandoffPolicy_MaxContextTokens) >? 0)%Z
   then ["handoff context max tokens enforced by policy"] else []) ++
  (if compressed then ["handoff context compressed by max_context_tokens policy"] else []) ++
  (if mode == HandoffReferenceOnly
   then ["reference_only handoff must dereference approved artifacts before use"] else []).

Definition expected_any (expected : ExpectedOutput) : Any :=
  AStruct "ExpectedOutput" [("Format", AString expected.(Expected_Format));
    ("Requirements", AStrings expected.(Expected_Requirements))].

(** The mode of a package. *)
Definition package_mode (input : PackageInput) : HandoffMode :=
  let mode := if input.(PI_Mode) == "" then input.(PI_Policy).(HandoffPolicy_DefaultMode) else input.(PI_Mode) in
  if mode == "" then HandoffHybrid else mode.

(** What is hashed of a package. *)
Definition package_content (input : PackageInput) (mode : HandoffMode) (scope : PackageScope)
    (summary : string) (artifacts : list ArtifactRef) (expected : ExpectedOutput) : Any :=
  any_map {["parent_task_id" := AString input.(PI_ParentTaskID);
    "source_run_id" := AString input.(PI_SourceRunID); "from_agent_id" := AString input.(PI_FromAgentID);
    "to_agent_id" := AString input.(PI_ToAgentID); "objective" := AString input.(PI_Objective);
    "reason" := AString input.(PI_Reason); "summary" := AString summary;
    "artifact_refs" := AList (map artifact_any artifacts);
    "memory_refs" := AStrings scope.(ps_memories); "expected_output" := expected_any expected;
    "mode" := AString mode; "allowed_scopes" := AStrings scope.(ps_allowed);
    "denied_scopes" := AStrings scope.(ps_denied)]}.

Section build.
Context `{Env} {S : Type} (json_Marshal : Any → error + string) (sha256_hex : string → string).

Definition Build (input : PackageInput) : M S HandoffContextPackage :=
  let mode := package_mode input in
  let scope := packageScope input mode in
  let '(summary, artifacts, compressed) :=
    enforceTokenBudget scope.(ps_summary) scope.(ps_artifacts)
      input.(PI_Policy).(HandoffPolicy_MaxContextTokens) in
  let expected := input.(PI_ExpectedOutput) in
  let expected := if expected.(Expected_Format) == "" then expected <| Expected_Format := "text" |> else expected in
  match StableJSON_any json_Marshal sha256_hex (package_content input mode scope summary artifacts expected) with
  | inl err => throw err
  | inr stableHash =>
      let! id := idgen_New "ctxpkg" in
      let! now := now in
      ret (zeroHandoffContextPackage
        <| Package_PackageID := id |> <| Package_TenantID := input.(PI_TenantID) |>
        <| Package_ParentTaskID := input.(PI_ParentTaskID) |>
        <| Package_SourceRunID := input.(PI_SourceRunID) |>
        <| Package_FromAgentID := input.(PI_FromAgentID) |> <| Package_ToAgentID := input.(PI_ToAgentID) |>
        <| Package_Objective := input.(PI_Objective) |> <| Package_Reason := input.(PI_Reason) |>
        <| Package_Summary := summary |> <| Package_Constraints := handoffConstraints input mode compressed |>
        <| Package_ArtifactRefs := artifacts |> <| Package_MemoryRefs := scope.(ps_memories) |>
        <| Package_AllowedContextScopes := scope.(ps_allowed) |>
        <| Package_DeniedContextScopes := scope.(ps_denied) |>
        <| Package_ExpectedOutput := expected |> <| Package_Mode := mode |>
        <| Package_Hash := stableHash |> <| Package_CreatedAt := now |>)
  end.
End build.

(** ** Fields and joining them *)

Fixpoint no_space (s : string) : bool :=
  match s with EmptyString => true | String c s' => negb (ascii_space c) && no_space s' end.
Definition is_word (w : string) : Prop := w ≠ "" ∧ no_space w = true.

Lemma no_space_app s t : no_space (s +:+ t) = no_space s && no_space t.
Proof.
  induction s as [|c s IH]; [done|]. rewrite string_app_cons. cbn [no_space]. rewrite IH. by destruct (ascii_space c).
Qed.

Lemma app_nonempty s t : t ≠ "" → s +:+ t ≠ "".
Proof. intros Ht. destruct s; [done|]. by rewrite string_app_cons. Qed.

Lemma fields_words word s : no_space word = true → Forall is_word (fields_from word s).
Proof.
  revert word. induction s as [|c s IH]; intros word Hw; cbn [fields_from].
  - destruct (String.eqb_spec word ""); repeat constructor; done.
  - destruct (ascii_space c) eqn:Ec.
    + destruct (String.eqb_spec word ""); [by apply IH|]. constructor; [by split|by apply IH].
    + apply IH. rewrite no_space_app, Hw. cbn. by rewrite Ec.
Qed.

Lemma string_app_snoc word c s : (word +:+ String c EmptyString) +:+ s = word +:+ String c s.
Proof. induction word as [|d word IH]; [done|]. rewrite !string_app_cons. by rewrite IH. Qed.

Lemma fields_read word w s : no_space w = true → fields_from word (w +:+ s) = fields_from (word +:+ w) s.
Proof.
  revert word. induction w as [|c w IH]; intros word Hw.
  - replace (word +:+ "") with word; [done|]. clear. induction word as [|c w IH]; [done|].
    rewrite string_app_cons. by rewrite <- IH.
  - cbn [no_space] in Hw. apply andb_true_iff in Hw as [Hc Hw]. rewrite string_app_cons.
    cbn [fields_from]. rewrite (proj1 (negb_true_iff _) Hc), IH by done. by rewrite string_app_snoc.
Qed.

(** Splitting undoes joining. *)
Lemma Fields_join words : Forall is_word words → Fields (join_words words) = words.
Proof.
  unfold Fields. induction 1 as [|w words [Hw Hs] Hall IH]; [done|]. destruct words as [|v words].
  - cbn [join_words]. replace w with (w +:+ "") at 1.
    2: { clear. induction w as [|c w IH]; [done|]. rewrite string_app_cons. by rewrite IH. }
    rewrite fields_read by done. cbn [fields_from]. change ("" +:+ w) with w. by rewrite (eqb_neq_false _ _ Hw).
  - change (join_words (w :: v :: words)) with (w +:+ String " " (join_words (v :: words))).
    rewrite fields_read by done. change ("" +:+ w) with w. cbn [fields_from ascii_space].
    rewrite (eqb_neq_false _ _ Hw). cbn. f_equal. exact IH.
Qed.

Lemma truncate_bound value limit : (0 < limit)%Z → (len (Fields (truncateWords value limit)) ≤ limit)%Z.
Proof.
  intros Hl. unfold truncateWords. rewrite (proj2 (Z.leb_gt _ _)) by done.
  destruct (Z.leb_spec (len (Fields value)) limit); [done|].
  rewrite Fields_join; [|apply Forall_take; by apply fields_words].
  unfold len. rewrite length_take. lia.
Qed.

Lemma truncate_empty limit : truncateWords "" limit = "".
Proof.
  unfold truncateWords. destruct (_ <=? 0)%Z; [done|]. destruct (_ <=? limit)%Z; [done|].
  change (Fields "") with (@nil string). by rewrite take_nil.
Qed.

Lemma artifact_cost a : (0 ≤ artifactTokenCount a)%Z.
Proof. unfold artifactTokenCount, len. lia. Qed.

Lemma keep_bound artifacts : ∀ remaining, (0 ≤ remaining)%Z →
  (artifactsTokenCount (keep_artifacts remaining artifacts) ≤ remaining)%Z ∧
  keep_artifacts remaining artifacts `sublist_of` artifacts.
Proof.
  induction artifacts as [|a artifacts IH]; intros remaining Hr; cbn [keep_artifacts]; [by split|].
  destruct (Z.leb_spec (artifactTokenCount a) remaining).
  - destruct (IH (remaining - artifactTokenCount a)%Z ltac:(lia)) as [Hb Hs].
    split; [|by apply sublist_skip]. cbn [artifactsTokenCount fold_right]. fold (artifactsTokenCount).
    change (fold_right _ _ ?l) with (artifactsTokenCount l). lia.
  - destruct (IH remaining Hr) as [Hb Hs]. split; [done|by apply sublist_cons].
Qed.

(** The budget, and that nothing is added to what was there. *)
Lemma budget_bound summary artifacts maxTokens :
  let '(summary', artifacts', compressed) := enforceTokenBudget summary artifacts maxTokens in
  ((0 < maxTokens)%Z → (handoffTokenCount summary' artifacts' ≤ maxTokens)%Z) ∧
  artifacts' `sublist_of` artifacts ∧
  (compressed = false → summary' = summary ∧ artifacts' = artifacts) ∧
  (compressed = true → (0 < maxTokens < handoffTokenCount summary artifacts)%Z).
Proof.
  unfold enforceTokenBudget. destruct (Z.leb_spec maxTokens 0) as [Hm|Hm]; cbn [orb].
  { split_and!; try done. lia. }
  destruct (Z.leb_spec (handoffTokenCount summary artifacts) maxTokens); [by split_and!|].
  pose proof (truncate_bound summary maxTokens Hm) as Ht. set (summary' := truncateWords _ _) in *.
  destruct (Z.leb_spec (maxTokens - len (Fields summary')) 0) as [Hr|Hr].
  { split_and!; try done; [|apply sublist_nil_l]. intros _. unfold handoffTokenCount. cbn. lia. }
  destruct (keep_bound artifacts (maxTokens - len (Fields summary'))%Z ltac:(lia)) as [Hb Hs].
  split_and!; try done. intros _. unfold handoffTokenCount. lia.
Qed.

(** ** What a package may hold *)

(** A package that carries only what its scopes allow and the policy opens. *)
Record within_policy (input : PackageInput) (pkg : HandoffContextPackage) : Prop := {
  wp_artifacts : pkg.(Package_ArtifactRefs) ≠ [] →
    input.(PI_Policy).(HandoffPolicy_AllowArtifactRead) = true ∧
    "artifact_refs" ∈ pkg.(Package_AllowedContextScopes);
  wp_artifacts_given : pkg.(Package_ArtifactRefs) `sublist_of` input.(PI_ArtifactRefs);
  wp_memories : pkg.(Package_MemoryRefs) ≠ [] →
    input.(PI_Policy).(HandoffPolicy_AllowMemoryRead) = true ∧
    "memory_refs" ∈ pkg.(Package_AllowedContextScopes) ∧ pkg.(Package_MemoryRefs) = input.(PI_MemoryRefs);
  wp_summary : pkg.(Package_Summary) ≠ "" → "summary" ∈ pkg.(Package_AllowedContextScopes);
  wp_disjoint : ∀ scope, scope ∈ pkg.(Package_AllowedContextScopes) →
    scope ∉ pkg.(Package_DeniedContextScopes);
  wp_budget : (0 < input.(PI_Policy).(HandoffPolicy_MaxContextTokens))%Z →
    (handoffTokenCount pkg.(Package_Summary) pkg.(Package_ArtifactRefs) ≤
       input.(PI_Policy).(HandoffPolicy_MaxContextTokens))%Z
}.

Lemma scope_within input mode :
  let scope := packageScope input mode in
  (scope.(ps_artifacts) ≠ [] → input.(PI_Policy).(HandoffPolicy_AllowArtifactRead) = true ∧
     "artifact_refs" ∈ scope.(ps_allowed)) ∧
  scope.(ps_artifacts) `sublist_of` input.(PI_ArtifactRefs) ∧
  (scope.(ps_memories) ≠ [] → input.(PI_Policy).(HandoffPolicy_AllowMemoryRead) = true ∧
     "memory_refs" ∈ scope.(ps_allowed) ∧ scope.(ps_memories) = input.(PI_MemoryRefs)) ∧
  (scope.(ps_summary) ≠ "" → "summary" ∈ scope.(ps_allowed)) ∧
  (∀ name, name ∈ scope.(ps_allowed) → name ∉ scope.(ps_denied)).
Proof.
  cbv zeta. unfold packageScope.
  destruct (HandoffPolicy_AllowArtifactRead _), (HandoffPolicy_AllowMemoryRead _),
    (HandoffPolicy_AllowTaskEventRead _), (mode == HandoffFullContext), (mode == HandoffSummaryOnly),
    (mode == HandoffReferenceOnly); cbn.
  all: split_and!; [set_solver|try apply sublist_nil_l; done|set_solver|set_solver|].
  all: intros name Hin Hout; set_unfold in Hin; set_unfold in Hout; intuition congruence.
Qed.

Lemma build_run `{Env} {S} (json_Marshal : Any → error + string)
    (sha256_hex : string → string) (input : PackageInput) w (s : S) :
  match Build json_Marshal sha256_hex input w s with
  | (Ok pkg, w', s') => s' = s ∧ (w_draws w ≤ w_draws w')%nat ∧ within_policy input pkg ∧ Package_Mode pkg = package_mode input
  | (Err e, _, s') => s' = s ∧ ∃ content, json_Marshal content = inl e
  | (Panic, _, _) => False
  end.
Proof.
  unfold Build. destruct (scope_within input (package_mode input)) as (Ha & Hg & Hm & Hs & Hd).
  set (scope := packageScope _ _) in *.
  pose proof (budget_bound (ps_summary scope) (ps_artifacts scope)
    (HandoffPolicy_MaxContextTokens (PI_Policy input))) as Hb.
  assert (Hne : let '(summary, artifacts, _) := enforceTokenBudget (ps_summary scope) (ps_artifacts scope)
    (HandoffPolicy_MaxContextTokens (PI_Policy input)) in
    (artifacts ≠ [] → ps_artifacts scope ≠ []) ∧ (summary ≠ "" → ps_summary scope ≠ "")).
  { unfold enforceTokenBudget. destruct (_ || _); [done|]. destruct (_ <=? _)%Z.
    all: split; [try done; intros Hk; by destruct (ps_artifacts scope)|].
    all: intros Ht E; apply Ht; rewrite E; apply truncate_empty. }
  destruct (enforceTokenBudget _ _ _) as [[summary artifacts] compressed].
  destruct Hb as (Hb & Hsub & _), Hne as [Hne1 Hne2].
  destruct (StableJSON_any _ _ _) as [e|hash] eqn:Eh.
  { split; [done|]. unfold StableJSON_any in Eh. eexists. destruct (json_Marshal _) eqn:Ej; [|done].
    rewrite Ej. congruence. }
  split; [done|]. split; [cbn; lia|]. split; [|done]. constructor; cbn; auto. by etrans.
Qed.

(** C35. A package holds only what the policy opens: artifacts and memories that were given, if their reading
    is allowed and then under an allowed scope; a summary only under the scope of summaries; no scope both
    allowed and denied; and, where the policy sets a budget, no more tokens than that.  Building either
    gives such a package or fails with the error of the hash, and changes nothing. *)
Theorem package_within_policy `{Env} {S} (json_Marshal : Any → error + string)
    (sha256_hex : string → string) (input : PackageInput) w (s : S) :
  match Build json_Marshal sha256_hex input w s with
  | (Ok pkg, _, s') => s' = s ∧ within_policy input pkg ∧ Package_Mode pkg = package_mode input
  | (Err e, _, s') => s' = s ∧ ∃ content, json_Marshal content = inl e
  | (Panic, _, _) => False
  end.
Proof.
  pose proof (build_run json_Marshal sha256_hex input w s) as Hb.
  destruct (Build _ _ _ w s) as [[[pkg|e|] w'] s']; [|done|done]. by destruct Hb as (? & _ & ?).
Qed.
