(* ===== verification/Handoff.v ===== *)
(** * Handoffs between agents: internal/task/handoff

    A handoff gives work of one task to another agent: the policy is asked, the context is packaged,
    a child task is made when the policy allows it, and the handoff is kept with its status.  The
    service works over the in-memory task store; its own repository is a record of operations, of
    which [in_memory] is the one of internal/task/handoff/repository.go. *)

From stdpp Require Import base list strings gmap fin_maps.
From Stdlib Require Import Lia.
From S2P Require Import Prelude Contracts GoMonad Storage TaskState TaskRepo TaskRuntime Policies Dispatch ModelCall HandoffPackage.
Open Scope go_scope.
Open Scope string_scope.
Open Scope list_scope.

(** ** The repository *)

Record HandoffRepo := mkHandoffRepo {
  handoffs : gmap string AgentHandoff;
  packages : gmap string HandoffContextPackage
}.
Definition NewHandoffRepo : HandoffRepo := mkHandoffRepo ∅ ∅.

(** [Repository], and [AtomicRepository] where the repository is one. *)
Record HandoffStoreOps (R : Type) := mkHandoffStoreOps {
  handoff_Save : AgentHandoff → HandoffContextPackage → M R unit;
  handoff_Get : string → M R (option AgentHandoff);
  handoff_Update : AgentHandoff → M R unit;
  CreateWithChild : option (AgentHandoff → HandoffContextPackage → option Task → option TaskEvent →
    TaskEvent → M R unit)
}.
Arguments handoff_Save {R}. Arguments handoff_Get {R}. Arguments handoff_Update {R}.
Arguments CreateWithChild {R}.

Definition SaveHandoff (handoff : AgentHandoff) (pkg : HandoffContextPackage) : M HandoffRepo unit :=
  let! r := get in
  match r.(handoffs) !! handoff.(Handoff_HandoffID) with
  | Some _ => throw ErrDuplicateRequest
  | None => put (mkHandoffRepo (<[handoff.(Handoff_HandoffID) := handoff]> r.(handoffs))
              (if pkg.(Package_PackageID) == "" then r.(packages)
               else <[pkg.(Package_PackageID) := pkg]> r.(packages)))
  end.
Definition GetHandoff (handoffID : string) : M HandoffRepo (option AgentHandoff) :=
  let! r := get in ret (r.(handoffs) !! handoffID).
Definition UpdateHandoff (handoff : AgentHandoff) : M HandoffRepo unit :=
  let! r := get in
  match r.(handoffs) !! handoff.(Handoff_HandoffID) with
  | None => throw ErrNotFound
  | Some _ => put (mkHandoffRepo (<[handoff.(Handoff_HandoffID) := handoff]> r.(handoffs)) r.(packages))
  end.
Definition in_memory : HandoffStoreOps HandoffRepo :=
  mkHandoffStoreOps _ SaveHandoff GetHandoff UpdateHandoff None.

(** ** Statuses *)

Definition validateTransition (current next : HandoffStatus) : option error :=
  let ok :=
    if current == next then true
    else if next == HandoffAccepted then current == HandoffCreated
    else if next == HandoffRejected then current == HandoffCreated
    else if next == HandoffRunning then (current == HandoffAccepted) || (current == HandoffCreated)
    else if next == HandoffCompleted then (current == HandoffRunning) || (current == HandoffAccepted)
    else if (next == HandoffFailed) || (next == HandoffCancelled)
    then (current != HandoffCompleted) && (current != HandoffRejected)
    else false in
  if ok then None else Some (Errorf "invalid handoff transition from %s to %s" [current; next]).

(** ** The service *)

Record CreateInput := mkCreateInput {
  CI_TenantID : string;
  CI_TraceID : string;
  CI_ParentTaskID : string;
  CI_SourceRunID : string;
  CI_FromAgentID : string;
  CI_ToAgentID : string;
  CI_ToAgentVersion : string;
  CI_ToPolicySetID : string;
  CI_TargetTenantID : string;
  CI_Objective : string;
  CI_Reason : string;
  CI_Mode : HandoffMode;
  CI_ArtifactRefs : list ArtifactRef;
  CI_MemoryRefs : list string;
  CI_ExpectedOutput : ExpectedOutput;
  CI_Policy : HandoffPolicy;
  CI_ToAgentExists : bool;
  CI_CapabilityMatched : bool;
  CI_CapabilityChecked : bool;
  CI_ActorID : string
}.
#[export] Instance eta_CreateInput : Settable CreateInput :=
  fields! mkCreateInput < CI_TenantID ; CI_TraceID ; CI_ParentTaskID ; CI_SourceRunID ; CI_FromAgentID ;
    CI_ToAgentID ; CI_ToAgentVersion ; CI_ToPolicySetID ; CI_TargetTenantID ; CI_Objective ; CI_Reason ;
    CI_Mode ; CI_ArtifactRefs ; CI_MemoryRefs ; CI_ExpectedOutput ; CI_Policy ; CI_ToAgentExists ;
    CI_CapabilityMatched ; CI_CapabilityChecked ; CI_ActorID >.

Record CreateResult := mkCreateResult {
  Created_Handoff : AgentHandoff;
  Created_Package : HandoffContextPackage;
  Created_Decision : PolicyDecision;
  Created_ChildTask : option Task
}.

(** What the external system is told. *)
Inductive HandoffMessage :=
| TellCreated (handoff : AgentHandoff)
| TellReply (text : string).

Section service.
Context `{Env} {R S : Type}.

(** The handoffs, the tasks with their events, and what is outside. *)
Record HSys := mkHSys { h_repo : R; h_tasks : InMemoryStore; h_ext : S }.

(** The fields of [Service]; [None] and [false] stand for nil. *)
Record HandoffService := mkHandoffService {
  HS_Repository : HandoffStoreOps R;
  HS_HasTaskRepo : bool;
  HS_HasEvents : bool;
  HS_ContextPackages : option (HandoffContextPackage → M S unit);
  HS_ExternalBinding : option (string → string → World → S → option ExternalTaskBinding * World * S);
  HS_ExternalSync : ExternalTaskBinding → SyncContext → HandoffMessage → World → S → World * S
}.

Context (json_Marshal : Any → error + string) (sha256_hex : string → string).
Context (hs : HandoffService).
Notation HM := (M HSys).

Definition on_repo {A} (m : M R A) : HM A := zoom h_repo (λ t s, mkHSys t s.(h_tasks) s.(h_ext)) m.
Definition on_task_store {A} (m : M InMemoryStore A) : HM A :=
  zoom h_tasks (λ t s, mkHSys s.(h_repo) t s.(h_ext)) m.
Definition on_outside {A} (m : M S A) : HM A := zoom h_ext (λ t s, mkHSys s.(h_repo) s.(h_tasks) t) m.

(** *** Records and messages *)

Definition handoff_audit (input : CreateInput) (action resourceID decision reason : string) : HM unit :=
  with_audit (
    let resourceID := if resourceID == "" then input.(CI_ParentTaskID) else resourceID in
    let! now := now in
    audit_Log (zeroAuditEvent
      <| Audit_TenantID := input.(CI_TenantID) |> <| Audit_ActorID := input.(CI_ActorID) |>
      <| Audit_ActorType := "agent" |> <| Audit_Action := action |>
      <| Audit_ResourceType := "handoff" |> <| Audit_ResourceID := resourceID |>
      <| Audit_Decision := decision |> <| Audit_Reason := reason |>
      <| Audit_TaskID := input.(CI_ParentTaskID) |> <| Audit_RunID := input.(CI_SourceRunID) |>
      <| Audit_CreatedAt := now |>)).

Definition handoff_trace (input : CreateInput) (eventType handoffID : string) (payload : gmap string Any)
    : HM unit :=
  with_trace (if input.(CI_TraceID) == "" then ret tt else
    let payload := if handoffID == "" then payload else <["handoff_id" := AString handoffID]> payload in
    let! span := idgen_New "span" in
    let! now := now in
    trace_Record (zeroTraceEvent
      <| Trace_TraceID := input.(CI_TraceID) |> <| Trace_TenantID := input.(CI_TenantID) |>
      <| Trace_SpanID := span |> <| Trace_RunID := input.(CI_SourceRunID) |>
      <| Trace_TaskID := input.(CI_ParentTaskID) |> <| Trace_Type := eventType |>
      <| Trace_Payload := payload |> <| Trace_CreatedAt := now |>)).

Definition traceHandoff (h : AgentHandoff) (traceID eventType : string) (payload : gmap string Any) : HM unit :=
  with_trace (if traceID == "" then ret tt else
    let! span := idgen_New "span" in
    let! now := now in
    trace_Record (zeroTraceEvent
      <| Trace_TraceID := traceID |> <| Trace_TenantID := h.(Handoff_TenantID) |>
      <| Trace_SpanID := span |> <| Trace_TaskID := h.(Handoff_ParentTaskID) |>
      <| Trace_Type := eventType |> <| Trace_Payload := payload |> <| Trace_CreatedAt := now |>)).

Definition binding_of (tenantID taskID : string) : HM (option ExternalTaskBinding) :=
  match hs.(HS_ExternalBinding) with
  | None => ret None
  | Some find => if taskID == "" then ret None
                 else on_outside (λ w s, let '(b, w', s') := find tenantID taskID w s in (Ok b, w', s'))
  end.

Definition tell (h : AgentHandoff) (ctx : SyncContext) (message : HandoffMessage) : HM unit :=
  let! binding := binding_of h.(Handoff_TenantID) h.(Handoff_ParentTaskID) in
  match binding with
  | None => ret tt
  | Some binding => on_outside (λ w s, let '(w', s') := hs.(HS_ExternalSync) binding ctx message w s in
                                       (Ok tt, w', s'))
  end.

Definition syncHandoffCreated (input : CreateInput) (h : AgentHandoff) : HM unit :=
  tell h (mkSyncContext h.(Handoff_TenantID) input.(CI_TraceID) input.(CI_SourceRunID)
            h.(Handoff_ParentTaskID) input.(CI_ActorID) "agent") (TellCreated h).
Definition syncHandoffMessage (h : AgentHandoff) (traceID runID actorID actorType eventType message : string)
    : HM unit :=
  tell h (mkSyncContext h.(Handoff_TenantID) traceID runID h.(Handoff_ParentTaskID) actorID actorType)
    (TellReply ("[" +:+ eventType +:+ "] " +:+ message)).

(** [s.Events.Append]; a nil [Events] panics. *)
Definition append_task_event (event : TaskEvent) : HM unit :=
  if hs.(HS_HasEvents) then on_task_store (Append event) else panic.

(** *** Creating a handoff *)

Definition cancelCreatedChild (input : CreateInput) (childTask : option Task) (reason : string) : HM unit :=
  match childTask with
  | None => ret tt
  | Some child =>
      ignore (let! _ := on_task_store (ApplyCommand (Some store_atomic)
        (mkCommandInput child.(Task_TaskID) CmdCancel input.(CI_ActorID) "agent"
           {["reason" := AString reason]} input.(CI_SourceRunID) "")) in ret tt)
  end.

Definition failCreatedChild (input : CreateInput) (h : AgentHandoff) (childTask : option Task) (reason : string)
    : HM unit :=
  do! cancelCreatedChild input childTask reason in
  ignore (on_repo (hs.(HS_Repository).(handoff_Update) (h <| Handoff_Status := HandoffFailed |>))).

(** The parent task is there, and of the tenant. *)
Definition check_parent (input : CreateInput) : HM unit :=
  if hs.(HS_HasTaskRepo) then
    let! parent := on_task_store (repo_Get input.(CI_ParentTaskID)) in
    if parent.(Task_TenantID) != input.(CI_TenantID)
    then throw (ErrRuntime (NewRuntimeError CodeToolPolicyDenied
           "parent task tenant does not match handoff tenant" ∅))
    else ret tt
  else ret tt.

Definition handoff_mode (input : CreateInput) : HandoffMode :=
  let mode := if input.(CI_Mode) == "" then input.(CI_Policy).(HandoffPolicy_DefaultMode) else input.(CI_Mode) in
  if mode == "" then HandoffHybrid else mode.

Definition policy_request (input : CreateInput) : HandoffRequest :=
  mkHandoffRequest input.(CI_Policy) (handoff_mode input) input.(CI_TenantID) input.(CI_TargetTenantID)
    input.(CI_FromAgentID) input.(CI_ToAgentID)
    (input.(CI_ToAgentExists) || (input.(CI_ToAgentID) != ""))
    (if input.(CI_CapabilityChecked) then input.(CI_CapabilityMatched) else true)
    input.(CI_ArtifactRefs) input.(CI_MemoryRefs).

Definition package_input (input : CreateInput) : PackageInput :=
  mkPackageInput input.(CI_TenantID) input.(CI_ParentTaskID) input.(CI_SourceRunID) input.(CI_FromAgentID)
    input.(CI_ToAgentID) input.(CI_Objective) input.(CI_Reason) input.(CI_Objective) input.(CI_ArtifactRefs)
    input.(CI_MemoryRefs) input.(CI_ExpectedOutput) (handoff_mode input) input.(CI_Policy).

(** The decision of the policy, with its records. *)
Definition ask_policy (input : CreateInput) : HM (PolicyDecision * option error) :=
  let '(decision, err) := EvaluateRequest Error (policy_request input) in
  do! handoff_audit input AuditHandoffPolicyChecked "" decision.(PD_Decision) decision.(PD_Reason) in
  do! handoff_trace input TraceHandoffPolicyChecked ""
        {["from_agent_id" := AString input.(CI_FromAgentID); "to_agent_id" := AString input.(CI_ToAgentID);
          "mode" := AString (handoff_mode input); "decision" := AString decision.(PD_Decision);
          "reason" := AString decision.(PD_Reason)]} in
  ret (decision, err).

Definition package (input : CreateInput) : HM HandoffContextPackage :=
  let! pkg := Build json_Marshal sha256_hex (package_input input) in
  do! handoff_trace input TraceHandoffPackaged ""
        {["package_id" := AString pkg.(Package_PackageID); "package_hash" := AString pkg.(Package_Hash);
          "allowed_scopes" := AStrings pkg.(Package_AllowedContextScopes);
          "denied_scopes" := AStrings pkg.(Package_DeniedContextScopes)]} in
  ret pkg.

Definition new_handoff (input : CreateInput) (decision : PolicyDecision) (pkg : HandoffContextPackage)
    : HM AgentHandoff :=
  let! id := idgen_New "handoff" in
  let! now := now in
  ret (zeroAgentHandoff
    <| Handoff_HandoffID := id |> <| Handoff_TenantID := input.(CI_TenantID) |>
    <| Handoff_ParentTaskID := input.(CI_ParentTaskID) |> <| Handoff_FromAgentID := input.(CI_FromAgentID) |>
    <| Handoff_ToAgentID := input.(CI_ToAgentID) |> <| Handoff_Objective := input.(CI_Objective) |>
    <| Handoff_Reason := input.(CI_Reason) |> <| Handoff_ContextPackageRef := pkg.(Package_PackageID) |>
    <| Handoff_ArtifactRefs := input.(CI_ArtifactRefs) |>
    <| Handoff_ExpectedOutput := input.(CI_ExpectedOutput) |>
    <| Handoff_Status := if decision.(PD_Decision) == PolicyDecisionApprovalRequired
                         then HandoffCreated else HandoffAccepted |>
    <| Handoff_CreatedAt := now |>).

(** The child task of an allowed handoff. *)
Definition new_child (input : CreateInput) (decision : PolicyDecision) (h : AgentHandoff)
    : HM (AgentHandoff * option Task) :=
  if decision.(PD_Decision) == PolicyDecisionAllowed then
    let agentVersion := if input.(CI_ToAgentVersion) == "" then "v1" else input.(CI_ToAgentVersion) in
    let policySetID := if input.(CI_ToPolicySetID) == "" then "policy_default" else input.(CI_ToPolicySetID) in
    let! id := idgen_New "task" in
    let! now := now in
    let task := NewTask id input.(CI_TenantID) input.(CI_ToAgentID) agentVersion policySetID "handoff"
                  input.(CI_Objective) now in
    let task := task <| Task_ParentTaskID := Some input.(CI_ParentTaskID) |>
                     <| Task_SourceHandoffID := Some h.(Handoff_HandoffID) |> in
    ret (h <| Handoff_ChildTaskID := Some id |> <| Handoff_Status := HandoffRunning |>, Some task)
  else ret (h, None).

Definition parent_event (input : CreateInput) (decision : PolicyDecision) (h : AgentHandoff) : HM TaskEvent :=
  let! id := idgen_New "taskevt" in
  let! now := now in
  ret (zeroTaskEvent
    <| TaskEvent_EventID := id |> <| TaskEvent_TaskID := input.(CI_ParentTaskID) |>
    <| TaskEvent_TenantID := input.(CI_TenantID) |> <| TaskEvent_Type := "handoff.created" |>
    <| TaskEvent_ActorID := input.(CI_ActorID) |> <| TaskEvent_ActorType := "agent" |>
    <| TaskEvent_Payload := {["handoff_id" := AString h.(Handoff_HandoffID);
         "to_agent_id" := AString h.(Handoff_ToAgentID); "decision" := AString decision.(PD_Decision)]} |>
    <| TaskEvent_RunID := input.(CI_SourceRunID) |> <| TaskEvent_CreatedAt := now |>).

Definition taskCreatedEvent (input : CreateInput) (childTask : option Task) (now : Time)
    : HM (option TaskEvent) :=
  match childTask with
  | None => ret None
  | Some child =>
      let! id := idgen_New "taskevt" in
      ret (Some (zeroTaskEvent
        <| TaskEvent_EventID := id |> <| TaskEvent_TaskID := child.(Task_TaskID) |>
        <| TaskEvent_TenantID := child.(Task_TenantID) |> <| TaskEvent_Type := "task.created" |>
        <| TaskEvent_ActorID := input.(CI_ActorID) |> <| TaskEvent_ActorType := "agent" |>
        <| TaskEvent_Payload := {["status" := AString child.(Task_Status)]} |>
        <| TaskEvent_CreatedAt := now |>))
  end.

(** The records of a created handoff. *)
Definition announce (input : CreateInput) (h : AgentHandoff) : HM unit :=
  do! handoff_audit input AuditHandoffCreated h.(Handoff_HandoffID) "allowed" "" in
  do! handoff_trace input TraceHandoffCreated h.(Handoff_HandoffID)
        {["handoff_id" := AString h.(Handoff_HandoffID); "context_ref" := AString h.(Handoff_ContextPackageRef);
          "child_task_id" := match h.(Handoff_ChildTaskID) with Some id => AString id | None => ANil end;
          "handoff_status" := AString h.(Handoff_Status)]} in
  syncHandoffCreated input h.

(** Where the repository cannot keep everything in one step: the child task, the handoff, its package
    and the event of the parent, one after the other, undoing what was done on a failure. *)
Definition keep_in_steps (input : CreateInput) (h : AgentHandoff) (pkg : HandoffContextPackage)
    (childTask : option Task) (event : TaskEvent) : HM (option Task) :=
  let! childTask :=
    match childTask with
    | None => ret None
    | Some child =>
        let! created := on_task_store (CreateTask (Some store_atomic) child input.(CI_ActorID) "agent") in
        ret (Some created)
    end in
  let! saved := attempt (on_repo (hs.(HS_Repository).(handoff_Save) h pkg)) in
  match saved with
  | inr err => do! cancelCreatedChild input childTask "handoff save failed" in throw err
  | inl _ =>
      let! packaged :=
        match hs.(HS_ContextPackages) with
        | None => ret (inl tt)
        | Some save => attempt (on_outside (save pkg))
        end in
      match packaged with
      | inr err => do! failCreatedChild input h childTask "context package save failed" in throw err
      | inl _ =>
          let! appended := attempt (append_task_event event) in
          match appended with
          | inr err => do! failCreatedChild input h childTask "handoff event append failed" in throw err
          | inl _ => ret childTask
          end
      end
  end.

Definition keep_handoff (input : CreateInput) (h : AgentHandoff) (pkg : HandoffContextPackage)
    (childTask : option Task) (event : TaskEvent) : HM (option Task) :=
  match hs.(HS_Repository).(CreateWithChild) with
  | Some create =>
      let! t := now in
      let! childEvent := taskCreatedEvent input childTask t in
      do! on_repo (create h pkg childTask childEvent event) in
      ret childTask
  | None => keep_in_steps input h pkg childTask event
  end.

(** A refusal by the policy comes with its decision: [CreateResult{Decision: decision}]. *)
Definition CreateHandoff (input : CreateInput) : HM (CreateResult + PolicyDecision * error) :=
  if (input.(CI_ParentTaskID) == "") || (input.(CI_ToAgentID) == "") || (input.(CI_Objective) == "") then
    throw (ErrRuntime (NewRuntimeError CodeDecisionSchemaError
      "handoff requires parent_task_id, to_agent_id, and objective" ∅)) else
  do! check_parent input in
  let! asked := ask_policy input in
  match asked with
  | (decision, Some err) => ret (inr (decision, err))
  | (decision, None) =>
      let! pkg := package input in
      let! h := new_handoff input decision pkg in
      let! hc := new_child input decision h in
      let! event := parent_event input decision hc.1 in
      let! childTask := keep_handoff input hc.1 pkg hc.2 event in
      do! announce input hc.1 in
      ret (inl (mkCreateResult hc.1 pkg decision childTask))
  end.

(** [Get] answers an error with nothing. *)
Definition GetByID (handoffID : string) : HM (option AgentHandoff) :=
  let! r := attempt (on_repo (hs.(HS_Repository).(handoff_Get) handoffID)) in
  ret match r with inl h => h | inr _ => None end.

Definition find_handoff (handoffID : string) : HM AgentHandoff :=
  let! found := on_repo (hs.(HS_Repository).(handoff_Get) handoffID) in
  match found with
  | None => throw (Errorf "handoff %s not found" [handoffID])
  | Some h => ret h
  end.

(** The event, the audit and the trace of a change of status at time [t]. *)
Definition status_event (h : AgentHandoff) (eventType actorID actorType : string) (payload : gmap string Any)
    (t : Time) : HM TaskEvent :=
  let! id := idgen_New "taskevt" in
  ret (zeroTaskEvent
    <| TaskEvent_EventID := id |> <| TaskEvent_TaskID := h.(Handoff_ParentTaskID) |>
    <| TaskEvent_TenantID := h.(Handoff_TenantID) |> <| TaskEvent_Type := eventType |>
    <| TaskEvent_ActorID := actorID |> <| TaskEvent_ActorType := actorType |>
    <| TaskEvent_Payload := payload |> <| TaskEvent_CreatedAt := t |>).

Definition status_audit (h : AgentHandoff) (auditID eventType actorID actorType reason : string) (t : Time)
    : AuditEvent :=
  zeroAuditEvent
    <| Audit_AuditID := auditID |> <| Audit_TenantID := h.(Handoff_TenantID) |> <| Audit_ActorID := actorID |>
    <| Audit_ActorType := actorType |> <| Audit_Action := eventType |> <| Audit_ResourceType := "handoff" |>
    <| Audit_ResourceID := h.(Handoff_HandoffID) |> <| Audit_Decision := "allowed" |>
    <| Audit_Reason := reason |> <| Audit_TaskID := h.(Handoff_ParentTaskID) |> <| Audit_CreatedAt := t |>.

Definition CompleteHandoff (handoffID actorID traceID : string) (output : gmap string Any) : HM AgentHandoff :=
  let! h := find_handoff handoffID in
  let! now := now in
  let h := h <| Handoff_Status := HandoffCompleted |> <| Handoff_CompletedAt := Some now |> in
  do! on_repo (hs.(HS_Repository).(handoff_Update) h) in
  let payload : gmap string Any :=
    {["handoff_id" := AString h.(Handoff_HandoffID); "output" := any_map output]} in
  let! event := status_event h "handoff.completed" actorID "agent" payload now in
  do! ignore (append_task_event event) in
  do! with_audit (audit_Log (status_audit h "" "handoff.completed" actorID "agent" "" now)) in
  do! traceHandoff h traceID TraceHandoffCompleted payload in
  do! syncHandoffMessage h traceID "" actorID "agent" "handoff.completed"
        (Sprintf "handoff %s completed" [h.(Handoff_HandoffID)]) in
  ret h.

Definition TransitionHandoff (handoffID : string) (next : HandoffStatus)
    (actorID actorType traceID reason : string) : HM AgentHandoff :=
  let! h := find_handoff handoffID in
  match validateTransition h.(Handoff_Status) next with
  | Some err => throw err
  | None =>
      let! now := now in
      let h := h <| Handoff_Status := next |> in
      let h := if mem_string next [HandoffCompleted; HandoffFailed; HandoffCancelled; HandoffRejected]
               then h <| Handoff_CompletedAt := Some now |> else h in
      do! on_repo (hs.(HS_Repository).(handoff_Update) h) in
      let eventType := "handoff." +:+ next in
      let payload : gmap string Any :=
        {["handoff_id" := AString h.(Handoff_HandoffID); "status" := AString h.(Handoff_Status);
          "reason" := AString reason]} in
      do! (if hs.(HS_HasEvents) then
             let! event := status_event h eventType actorID actorType payload now in
             ignore (append_task_event event)
           else ret tt) in
      do! with_audit (let! id := idgen_New "audit" in
            audit_Log (status_audit h id eventType actorID actorType reason now)) in
      do! traceHandoff h traceID eventType payload in
      do! syncHandoffMessage h traceID "" actorID actorType eventType reason in
      ret h
  end.
End service.

(** ** The statuses of a handoff as a state machine *)

Inductive moved : HandoffStatus → HandoffStatus → Prop :=
| moved_refl st : moved st st
| moved_step a b c : moved a b → validateTransition b c = None → moved a c.

Definition handoff_closed (st : HandoffStatus) : Prop :=
  st ∈ [HandoffCompleted; HandoffRejected; HandoffFailed; HandoffCancelled].

(** The statuses that can follow a status. *)
Definition handoff_next (st : HandoffStatus) : list HandoffStatus :=
  st ::
  (if st == HandoffCreated then [HandoffAccepted; HandoffRejected; HandoffRunning] else []) ++
  (if st == HandoffAccepted then [HandoffRunning; HandoffCompleted] else []) ++
  (if st == HandoffRunning then [HandoffCompleted] else []) ++
  (if (st == HandoffCompleted) || (st == HandoffRejected) then [] else [HandoffFailed; HandoffCancelled]).

Lemma validateTransition_next a b : validateTransition a b = None ↔ b ∈ handoff_next a.
Proof.
  unfold validateTransition, handoff_next.
  unfold HandoffCreated, HandoffAccepted, HandoffRejected, HandoffRunning, HandoffCompleted, HandoffFailed,
    HandoffCancelled.
  destruct (String.eqb_spec a b) as [->|Hab]; [split; [left|done]|].
  destruct (String.eqb_spec b "accepted") as [->|]; [|destruct (String.eqb_spec b "rejected") as [->|];
    [|destruct (String.eqb_spec b "running") as [->|]; [|destruct (String.eqb_spec b "completed") as [->|];
    [|destruct (String.eqb_spec b "failed") as [->|]; [|destruct (String.eqb_spec b "cancelled") as [->|]]]]]].
  all: destruct (String.eqb_spec a "created") as [->|]; [|destruct (String.eqb_spec a "accepted") as [->|];
    [|destruct (String.eqb_spec a "running") as [->|]; [|destruct (String.eqb_spec a "completed") as [->|];
    [|destruct (String.eqb_spec a "rejected") as [->|]]]]]; cbn.
  all: split; intros; set_unfold; intuition congruence.
Qed.

Lemma moved_invariant (P : HandoffStatus → Prop) a b :
  (∀ x y, P x → y ∈ handoff_next x → P y) → moved a b → P a → P b.
Proof. intros Hstep Hm Ha. induction Hm as [|a b c _ IH Hv]; [done|]. eapply Hstep; [by apply IH|by apply validateTransition_next]. Qed.

Lemma moved_final a b : a = HandoffCompleted ∨ a = HandoffRejected → moved a b → b = a.
Proof.
  intros Ha Hm. apply (moved_invariant (λ x, x = a) a b); [|done|done].
  intros x y -> Hy. destruct Ha as [-> | ->]; cbn in Hy; by apply list_elem_of_singleton in Hy.
Qed.

Lemma moved_closed a b : handoff_closed a → moved a b → handoff_closed b.
Proof.
  intros Ha Hm. apply (moved_invariant handoff_closed a b); [|done|done]. unfold handoff_closed.
  intros x y Hx Hy. set_unfold in Hx. destruct Hx as [->|[->|[->|[->|[]]]]]; cbn in Hy; set_unfold in Hy; set_unfold; intuition.
Qed.

Definition handoff_known (st : HandoffStatus) : Prop :=
  st ∈ [HandoffCreated; HandoffAccepted; HandoffRejected; HandoffRunning; HandoffCompleted; HandoffFailed;
        HandoffCancelled].

(** From [created], exactly the known statuses. *)
Lemma moved_created b : moved HandoffCreated b ↔ handoff_known b.
Proof.
  unfold handoff_known. split.
  - intros Hm. apply (moved_invariant handoff_known HandoffCreated b); [|done|unfold handoff_known; set_unfold; auto].
    unfold handoff_known. intros x y Hx Hy. set_unfold in Hx.
    destruct Hx as [->|[->|[->|[->|[->|[->|[->|[]]]]]]]]; cbn in Hy; set_unfold in Hy; set_unfold; intuition.
  - assert (Hd : ∀ c, c ∈ handoff_next HandoffCreated → moved HandoffCreated c).
    { intros c Hc. eapply moved_step; [apply moved_refl|by apply validateTransition_next]. }
    intros Hb. set_unfold in Hb. destruct Hb as [->|[->|[->|[->|[->|[->|[->|[]]]]]]]].
    5: { eapply (moved_step _ HandoffRunning); [apply Hd|apply validateTransition_next]; cbn; set_unfold; auto 10. }
    all: apply Hd; cbn; set_unfold; auto 10.
Qed.

(** ** The operations on statuses *)

Section status.
Context `{Env} {S : Type} (hs : HandoffService (R:=HandoffRepo) (S:=S)).
Context (Hrepo : HS_Repository hs = in_memory).
Notation Sys := (HSys (R:=HandoffRepo) (S:=S)).
Notation HM := (M Sys).

(** [m] leaves the handoffs alone. *)
Definition spares {A} (m : HM A) : Prop := ∀ w s r w' s', m w s = (r, w', s') → h_repo s' = h_repo s.

Lemma spares_effect {A} (m : HM A) : effect_only m → spares m.
Proof. intros Hm w s r w' s' E. destruct (Hm w s) as (a & w1 & E1). congruence. Qed.
Lemma spares_ret {A} (a : A) : spares (ret a).
Proof. apply spares_effect, effect_only_ret. Qed.
Lemma spares_panic {A} : spares (panic (A:=A)).
Proof. intros w s r w' s' E. unfold panic in E. congruence. Qed.
Lemma spares_bind {A B} (m : HM A) (f : A → HM B) : spares m → (∀ a, spares (f a)) → spares (bind m f).
Proof.
  intros Hm Hf w s r w' s' E. unfold bind in E. destruct (m w s) as [[[a|e|] w1] s1] eqn:E1; apply Hm in E1.
  - apply Hf in E. congruence.
  - congruence.
  - congruence.
Qed.
Lemma spares_ignore (m : HM unit) : spares m → spares (ignore m).
Proof.
  intros Hm w s r w' s' E. unfold ignore in E. destruct (m w s) as [[[a|e|] w1] s1] eqn:E1; apply Hm in E1; congruence.
Qed.
Lemma spares_if {A} (b : bool) (m n : HM A) : spares m → spares n → spares (if b then m else n).
Proof. by destruct b. Qed.
Lemma spares_task_store {A} (m : M InMemoryStore A) : spares (on_task_store m).
Proof. intros w s r w' s' E. unfold on_task_store, zoom in E. destruct (m w (h_tasks s)) as [[? ?] ?]. by injection E as <- <- <-. Qed.
Lemma spares_outside {A} (m : M S A) : spares (on_outside m).
Proof. intros w s r w' s' E. unfold on_outside, zoom in E. destruct (m w (h_ext s)) as [[? ?] ?]. by injection E as <- <- <-. Qed.

Lemma spares_tell h ctx msg : spares (tell hs h ctx msg).
Proof.
  unfold tell, binding_of. apply spares_bind.
  - destruct (HS_ExternalBinding hs); [|apply spares_ret]. apply spares_if; [apply spares_ret|apply spares_outside].
  - intros [b|]; [apply spares_outside|apply spares_ret].
Qed.
Lemma spares_append_event e : spares (append_task_event hs e).
Proof. unfold append_task_event. apply spares_if; [apply spares_task_store|apply spares_panic]. Qed.
Lemma effect_status_event h a b c d t : effect_only (S:=Sys) (status_event h a b c d t).
Proof. unfold status_event. auto with effects. Qed.
Lemma effect_traceHandoff h a b c : effect_only (S:=Sys) (traceHandoff h a b c).
Proof. unfold traceHandoff. auto 8 with effects. Qed.

Lemma spares_sync h a b c d e f : spares (syncHandoffMessage hs h a b c d e f).
Proof. apply spares_tell. Qed.
Lemma spares_status_event h a b c d t : spares (status_event h a b c d t).
Proof. apply spares_effect, effect_status_event. Qed.
Lemma spares_traceHandoff h a b c : spares (traceHandoff h a b c).
Proof. apply spares_effect, effect_traceHandoff. Qed.
Lemma spares_audit e : spares (with_audit (audit_Log e)).
Proof. apply spares_effect. auto with effects. Qed.

(** Splits an operation into parts that spare the handoffs. *)
#[local] Hint Resolve spares_ret spares_task_store spares_outside spares_tell spares_append_event spares_sync
  spares_status_event spares_traceHandoff spares_audit : effects.
Ltac spare :=
  repeat (first [solve [auto 2 with effects] | simple apply spares_bind; [|intros ?] | simple apply spares_if
    | simple apply spares_ignore | simple apply spares_effect; solve [auto 8 with effects]]).

(** What a change of status leaves as it was. *)
Definition same_handoff (h h' : AgentHandoff) : Prop :=
  ∃ st c, h' = h <| Handoff_Status := st |> <| Handoff_CompletedAt := c |>.

Definition filed (s : Sys) : Prop := ∀ id h, handoffs (h_repo s) !! id = Some h → Handoff_HandoffID h = id.

Lemma find_run handoffID w s : find_handoff hs handoffID w s =
  match handoffs (h_repo s) !! handoffID with
  | Some h => (Ok h, w, s)
  | None => (Err (Errorf "handoff %s not found" [handoffID]), w, s)
  end.
Proof.
  unfold find_handoff. rewrite Hrepo. unfold bind, on_repo, zoom. cbn.
  destruct s, h_repo0. cbn. by destruct (_ !! handoffID).
Qed.

Lemma handoff_update_run s id h h' w : handoffs (h_repo s) !! id = Some h → filed s → same_handoff h h' →
  on_repo (UpdateHandoff h') w s =
    (Ok tt, w, mkHSys (mkHandoffRepo (<[Handoff_HandoffID h' := h']> (handoffs (h_repo s))) (packages (h_repo s)))
       (h_tasks s) (h_ext s)).
Proof.
  intros El Hf (st & c & ->). unfold on_repo, zoom, UpdateHandoff, bind, get. cbn -[set_field].
  assert (Hid : Handoff_HandoffID (h <| Handoff_Status := st |> <| Handoff_CompletedAt := c |>) = id)
    by exact (Hf _ _ El).
  rewrite Hid, El. done.
Qed.

(** [Transition] either leaves the handoffs alone or moves the one it names. *)
Lemma transition_moves handoffID next actorID actorType traceID reason w s r w' s' :
  TransitionHandoff hs handoffID next actorID actorType traceID reason w s = (r, w', s') → filed s →
  h_repo s' = h_repo s ∨
  ∃ h h', handoffs (h_repo s) !! handoffID = Some h ∧ validateTransition (Handoff_Status h) next = None ∧
    same_handoff h h' ∧ Handoff_Status h' = next ∧
    handoffs (h_repo s') = <[handoffID := h']> (handoffs (h_repo s)).
Proof.
  intros E Hf. unfold TransitionHandoff in E. pose proof (find_run handoffID w s) as Ef.
  destruct (handoffs (h_repo s) !! handoffID) as [h|] eqn:El.
  2: { left. rewrite (bind_Err _ _ _ _ _ _ _ Ef) in E. by injection E as <- <- <-. }
  rewrite (bind_Ok _ _ _ _ _ _ _ Ef) in E. destruct (validateTransition (Handoff_Status h) next) as [e|] eqn:Ev.
  { left. unfold throw in E. by injection E as <- <- <-. }
  rewrite Hrepo in E. cbn [in_memory handoff_Update] in E.
  rewrite bind_now in E. right. set (t := env_clock _) in E. set (h' := if mem_string _ _ then _ else _) in E.
  assert (Hh' : same_handoff h h' ∧ Handoff_Status h' = next).
  { subst h'. destruct (mem_string _ _); (split; [|done]); [by exists next, (Some t)|exists next, (Handoff_CompletedAt h)].
    by destruct h. }
  clearbody h'. destruct Hh' as [Hs Hn]. exists h, h'. split_and!; try done.
  rewrite (bind_Ok _ _ _ _ _ _ _ (handoff_update_run s handoffID h h' _ El Hf Hs)) in E.
  match type of E with ?m ?w1 ?s1 = _ => assert (Hsp : spares m) end.
  { spare. }
  apply Hsp in E. rewrite E. cbn. f_equal. destruct Hs as (st & c & ->). cbn. by apply Hf.
Qed.
(** A call of [Transition], successful or not. *)
Inductive transition_call : Sys → Sys → Prop :=
| called handoffID next actorID actorType traceID reason w s r w' s' :
    TransitionHandoff hs handoffID next actorID actorType traceID reason w s = (r, w', s') →
    transition_call s s'.

(** [h'] is what became of [h]. *)
Definition became (h h' : AgentHandoff) : Prop :=
  moved (Handoff_Status h) (Handoff_Status h') ∧ same_handoff h h'.

Lemma became_refl h : became h h.
Proof. split; [apply moved_refl|]. exists (Handoff_Status h), (Handoff_CompletedAt h). by destruct h. Qed.

Lemma call_became s s' : transition_call s s' → filed s →
  filed s' ∧ ∀ id h, handoffs (h_repo s) !! id = Some h → ∃ h', handoffs (h_repo s') !! id = Some h' ∧
    validateTransition (Handoff_Status h) (Handoff_Status h') = None ∧ same_handoff h h'.
Proof.
  intros [handoffID next actorID actorType traceID reason w s1 r w' s1' E] Hf.
  assert (Hself : ∀ h, validateTransition (Handoff_Status h) (Handoff_Status h) = None ∧ same_handoff h h).
  { intros h. split; [apply validateTransition_next; left|apply became_refl]. }
  destruct (transition_moves _ _ _ _ _ _ _ _ _ _ _ E Hf) as [Er|(h & h' & El & Ev & Hs & Hn & Er)].
  { unfold filed. rewrite Er. split; [done|]. intros id h El. by exists h. }
  split.
  - intros id k. rewrite Er, lookup_insert. case_decide as Eid; [subst id|by apply Hf].
    intros [= <-]. destruct Hs as (st & c & ->). exact (Hf _ _ El).
  - intros id k Ek. rewrite Er, lookup_insert. case_decide as Eid; [subst id|by exists k].
    exists h'. assert (k = h) as -> by congruence. rewrite Hn. done.
Qed.

(** C36. Whatever transitions are asked for, in whatever order: no handoff is lost, only its status and the
    time of its end change, and its status moves along the machine, so that one that was created by an
    agent is always in a known status, one that is closed stays closed, and a completed or rejected one is
    never changed again. *)
Theorem handoff_history s s' :
  rtc transition_call s s' → filed s → ∀ id h, handoffs (h_repo s) !! id = Some h →
  ∃ h', handoffs (h_repo s') !! id = Some h' ∧ same_handoff h h' ∧
    (Handoff_Status h = HandoffCreated → handoff_known (Handoff_Status h')) ∧
    (handoff_closed (Handoff_Status h) → handoff_closed (Handoff_Status h')) ∧
    (Handoff_Status h = HandoffCompleted ∨ Handoff_Status h = HandoffRejected →
       Handoff_Status h' = Handoff_Status h).
Proof.
  intros Hr Hf id h El.
  assert (Hb : filed s' ∧ ∃ h', handoffs (h_repo s') !! id = Some h' ∧ became h h').
  { revert h El. induction Hr as [s|s1 s2 s3 Hc _ IH]; intros h El; [split; [done|]; exists h; auto using became_refl|].
    destruct (call_became _ _ Hc Hf) as [Hf2 Hk]. destruct (Hk _ _ El) as (h2 & E2 & Hv & Hs).
    destruct (IH Hf2 h2 E2) as (Hf3 & h3 & E3 & Hm & Hs3). split; [done|]. exists h3. split; [done|].
    split; [|destruct Hs as (? & ? & ->), Hs3 as (st & c & ->); by exists st, c].
    clear - Hv Hm. remember (Handoff_Status h2) as b eqn:Eb. clear Eb.
    induction Hm as [|a b c _ IH Hbc]; [eapply moved_step; [apply moved_refl|done]|].
    eapply moved_step; [by apply IH|done]. }
  destruct Hb as (_ & h' & E' & Hm & Hs). exists h'. split_and!; try done.
  - intros Hc. apply moved_created. by rewrite <- Hc.
  - intros Hc. by eapply moved_closed.
  - intros Hc. by apply moved_final.
Qed.

(** [Complete] does not ask the machine: it completes a rejected handoff as well. *)
Lemma complete_reopens handoffID actorID traceID output w s h :
  filed s → handoffs (h_repo s) !! handoffID = Some h → Handoff_Status h = HandoffRejected →
  ∃ t h', validateTransition HandoffRejected HandoffCompleted ≠ None ∧
    h' = h <| Handoff_Status := HandoffCompleted |> <| Handoff_CompletedAt := Some t |> ∧
    ∀ r w' s', CompleteHandoff hs handoffID actorID traceID output w s = (r, w', s') →
      handoffs (h_repo s') = <[handoffID := h']> (handoffs (h_repo s)).
Proof.
  intros Hf El Hst. eexists (env_clock (w_reads w)), _. split; [done|]. split; [reflexivity|].
  intros r w' s' E. unfold CompleteHandoff in E. pose proof (find_run handoffID w s) as Ef. rewrite El in Ef.
  rewrite (bind_Ok _ _ _ _ _ _ _ Ef), bind_now in E. rewrite Hrepo in E. cbn [in_memory handoff_Update] in E.
  set (h' := h <| Handoff_Status := _ |> <| Handoff_CompletedAt := _ |>) in *.
  assert (Hs : same_handoff h h') by (eexists _, _; reflexivity).
  rewrite (bind_Ok _ _ _ _ _ _ _ (handoff_update_run s handoffID h h' _ El Hf Hs)) in E.
  match type of E with ?m ?w1 ?s1 = _ => assert (Hsp : spares m) by spare end.
  apply Hsp in E. rewrite E. cbn. f_equal. exact (Hf _ _ El).
Qed.
End status.

(** ** Creating a handoff *)

Section creation.
Context `{Env} {S : Type} (hs : HandoffService (R:=HandoffRepo) (S:=S)).
Context (json_Marshal : Any → error + string) (sha256_hex : string → string).
Notation Sys := (HSys (R:=HandoffRepo) (S:=S)).
Notation HM := (M Sys).

Definition event_id (n : nat) : string := "taskevt" +:+ "_" +:+ env_rand n.

(** The ids that are drawn for events from now on are new to the store. *)
Definition fresh_events (w : World) (st : InMemoryStore) : Prop :=
  ∀ n, (w_draws w ≤ n)%nat → event_id n ∉ ids st.

Lemma fresh_lasting w w' st : (w_draws w ≤ w_draws w')%nat → fresh_events w st → fresh_events w' st.
Proof. intros Hw Hf n Hn. apply Hf. lia. Qed.

Lemma fresh_drawn w w' id st st' : rand_unique → fresh_events w st →
  id = event_id (w_draws w) → (w_draws w < w_draws w')%nat →
  ids st' = {[id]} ∪ ids st → fresh_events w' st'.
Proof.
  intros Hu Hf He Hw Hids n Hn. rewrite Hids, He, elem_of_union, elem_of_singleton.
  intros [Eq|Hin]; [|by apply (Hf n); [lia|]]. apply idgen_inj, Hu in Eq. lia.
Qed.

(** A child task as it is made, up to the times. *)
Definition same_task (t t' : Task) : Prop :=
  Task_TaskID t' = Task_TaskID t ∧ Task_TenantID t' = Task_TenantID t ∧ Task_AgentID t' = Task_AgentID t ∧
  Task_Objective t' = Task_Objective t ∧ Task_ParentTaskID t' = Task_ParentTaskID t ∧
  Task_SourceHandoffID t' = Task_SourceHandoffID t ∧ Task_Status t' = Task_Status t.

Lemma create_task_run child actorID w (st : InMemoryStore) :
  rand_unique → fresh_events w st → Task_Status child = TaskCreated →
  match CreateTask (Some store_atomic) child actorID "agent" w st with
  | (Ok t, w', st') => same_task child t ∧ tasks st !! Task_TaskID child = None ∧
      tasks st' = <[Task_TaskID child := t]> (tasks st) ∧ fresh_events w' st' ∧
      (∀ n, (n < w_draws w)%nat → event_id n ∉ ids st → event_id n ∉ ids st')
  | (Err _, w', st') => st' = st ∧ fresh_events w' st'
  | (Panic, _, _) => False
  end.
Proof.
  intros Hu Hf Hst. unfold CreateTask.
  assert (Ht : ∃ t e w1, newTaskEvent child actorID "agent" w st = (Ok (t, e), w1, st) ∧ same_task child t ∧
    TaskEvent_EventID e = event_id (w_draws w) ∧ (w_draws w < w_draws w1)%nat).
  { unfold newTaskEvent, bind, now, time_Now, idgen_New, lift_env, ret; cbn.
    destruct (IsZero (Task_CreatedAt child)); cbn; eexists _, _, _; (split; [reflexivity|]); cbn.
    all: split; [|split; [done|lia]].
    all: destruct (IsZero (Task_UpdatedAt child)); cbn; rewrite Hst; done. }
  destruct Ht as (t & e & w1 & E & Hs & He & Hw). rewrite (bind_Ok _ _ _ _ _ _ _ E). cbn [fst snd].
  unfold storeNewTask, repo_CreateTaskAndAppendEvent, store_atomic, CreateTaskAndAppendEvent, bind, get, throw, put, ret.
  cbn. assert (Eid : Task_TaskID t = Task_TaskID child) by apply Hs. rewrite Eid.
  destruct (tasks st !! Task_TaskID child) eqn:Ek; [split; [done|]; by eapply fresh_lasting, Hf; lia|].
  rewrite bool_decide_eq_false_2 by (rewrite He; apply Hf; lia). cbn.
  split; [done|]. split; [done|]. split; [done|].
  split; [by apply (fresh_drawn w w1 (TaskEvent_EventID e) st)|].
  intros n Hn Hin. cbn. rewrite He, elem_of_union, elem_of_singleton. intros [Eq|?]; [|done].
  apply idgen_inj, Hu in Eq. lia.
Qed.

(** The cancellation of a task that was just created does not fail. *)
Lemma cancel_run input w (st : InMemoryStore) task :
  tasks st !! Input_TaskID input = Some task → Task_TaskID task = Input_TaskID input →
  Task_Status task = TaskCreated → Input_Command input = CmdCancel → fresh_events w st →
  ∃ r w' t, ApplyCommand (Some store_atomic) input w st = (Ok r, w', t) ∧
    ∃ task', tasks t = <[Input_TaskID input := task']> (tasks st) ∧ Task_Status task' = TaskCancelled.
Proof.
  intros El Hid Hst Hc Hf. unfold ApplyCommand. pose proof (prepareCommand_run input w st) as Ep.
  rewrite El, Hst, Hc in Ep. cbn [Apply] in Ep.
  assert (Ea : Apply TaskCreated CmdCancel = Ok (mkTransition TaskCreated CmdCancel TaskCancelled true "task.cancelled")) by done.
  rewrite Ea in Ep. rewrite (bind_Ok _ _ _ _ _ _ _ Ep). set (tr := mkTransition _ _ _ _ _) in *.
  set (p := prepared_of input task tr w).
  destruct (prepared_ids input task tr w) as [Hpid Hpst]. fold p in Hpid, Hpst.
  destruct (commit_run p (after_prepare w) st task) as [[Hin _]|[_ E]]; [by rewrite Hpid, Hid|done| |].
  { destruct (Hf (w_draws w)); [lia|done]. }
  rewrite (bind_Ok _ _ _ _ _ _ _ E), (bind_Ok _ _ _ _ _ _ _ (Get_updated _ (prep_updated p) _ _ st _ Hpid)).
  match goal with |- context [bind (if _ then ?m else ret tt) ?f ?w ?s] =>
    assert (Heff : effect_only (S:=InMemoryStore) m)
      by (unfold recordTransitionAudit; auto 8 with effects);
    destruct (effect_only_if (Transition_Audit (prep_transition p)) m (ret tt) Heff (effect_only_ret tt) w s)
      as (a & w' & ->%(bind_Ok _ f)) end.
  eexists _, _, _. split; [reflexivity|]. assert (Hk : Task_TaskID (prep_updated p) = Input_TaskID input) by congruence.
  eexists. split; [rewrite <- Hk; reflexivity|exact Hpst].
Qed.

(** [m'] is [m] with some entries more, all of which are [P]. *)
Definition grown {A} (P : A → Prop) (m m' : gmap string A) : Prop :=
  m ⊆ m' ∧ ∀ id x, m' !! id = Some x → m !! id = Some x ∨ P x.

Lemma grown_refl {A} (P : A → Prop) m : grown P m m.
Proof. split; auto. Qed.
Lemma grown_insert {A} (P : A → Prop) (m : gmap string A) id x : m !! id = None → P x → grown P m (<[id := x]> m).
Proof.
  intros Hn Hx. split; [by apply insert_subseteq|]. intros k y. rewrite lookup_insert.
  case_decide as Ek; [|by left]. intros [= <-]. by right.
Qed.

(** What a failed creation may leave behind: handoffs marked failed and tasks that were cancelled. *)
Definition undone (s s' : Sys) : Prop :=
  grown (λ h, Handoff_Status h = HandoffFailed) (handoffs (h_repo s)) (handoffs (h_repo s')) ∧
  grown (λ t, Task_Status t = TaskCancelled) (tasks (h_tasks s)) (tasks (h_tasks s')).

(** The child task of a creation, if it makes one. *)
Definition child_made (wanted made : option Task) (m m' : gmap string Task) : Prop :=
  match wanted, made with
  | None, None => m' = m
  | Some child, Some t => same_task child t ∧ m !! Task_TaskID child = None ∧ m' = <[Task_TaskID child := t]> m
  | _, _ => False
  end.

(** A child that was made, if any, is cancelled. *)
Lemma cancel_child_run (input : CreateInput) wanted made reason w (s : Sys) (m : gmap string Task) :
  child_made wanted made m (tasks (h_tasks s)) → (∀ child, wanted = Some child → Task_Status child = TaskCreated) →
  fresh_events w (h_tasks s) →
  ∃ w' t, cancelCreatedChild input made reason w s = (Ok tt, w', mkHSys (h_repo s) t (h_ext s)) ∧
    grown (λ t, Task_Status t = TaskCancelled) m (tasks t).
Proof.
  intros Hm Hst Hf. unfold cancelCreatedChild. destruct wanted as [child|], made as [t|]; cbn in Hm; try done.
  2: { exists w, (h_tasks s). split; [by destruct s|]. rewrite Hm. apply grown_refl. }
  destruct Hm as (Hs & Hn & Hm). assert (Hid : Task_TaskID t = Task_TaskID child) by apply Hs.
  set (command := mkCommandInput _ _ _ _ _ _ _).
  destruct (cancel_run command w (h_tasks s) t) as (r & w' & st & E & t' & Et & Hc); try done.
  { cbn. rewrite Hm, Hid. apply lookup_insert_eq. }
  { destruct Hs as (_ & _ & _ & _ & _ & _ & ->). by apply Hst. }
  exists w', st. split.
  { unfold ignore, bind, on_task_store, zoom. by rewrite E. }
  rewrite Et, Hm. cbn. rewrite Hid, insert_insert_eq. by apply grown_insert.
Qed.

Context (Hrepo : HS_Repository hs = in_memory) (Hevents : HS_HasEvents hs = true).
(** The store of packages draws no identifier twice and does not panic. *)
Context (Hpackages : ∀ save, HS_ContextPackages hs = Some save →
  ∀ pkg, forward (save pkg) ∧ ∀ w t, (save pkg w t).1.1 ≠ Panic).

Lemma fail_child_run (input : CreateInput) h wanted made reason w (s : Sys) m (hm : gmap string AgentHandoff) :
  child_made wanted made m (tasks (h_tasks s)) → (∀ child, wanted = Some child → Task_Status child = TaskCreated) →
  fresh_events w (h_tasks s) →
  hm !! Handoff_HandoffID h = None → handoffs (h_repo s) = <[Handoff_HandoffID h := h]> hm →
  ∃ w' s', failCreatedChild hs input h made reason w s = (Ok tt, w', s') ∧
    grown (λ t, Task_Status t = TaskCancelled) m (tasks (h_tasks s')) ∧
    grown (λ h, Handoff_Status h = HandoffFailed) hm (handoffs (h_repo s')).
Proof.
  intros Hm Hst Hf Hn Hh. unfold failCreatedChild.
  destruct (cancel_child_run input wanted made reason w s m Hm Hst Hf) as (w1 & t & E & Hg).
  rewrite (bind_Ok _ _ _ _ _ _ _ E). rewrite Hrepo. unfold ignore, on_repo, zoom. cbn [in_memory handoff_Update].
  unfold UpdateHandoff, bind, get. cbn [h_repo]. set (h' := h <| Handoff_Status := HandoffFailed |>).
  change (Handoff_HandoffID h') with (Handoff_HandoffID h). rewrite Hh, lookup_insert_eq. unfold put.
  eexists _, _. split; [reflexivity|]. split; [exact Hg|]. cbn. rewrite insert_insert_eq. by apply grown_insert.
Qed.

Lemma make_child_run (input : CreateInput) wanted w (s : Sys) :
  rand_unique → fresh_events w (h_tasks s) → (∀ child, wanted = Some child → Task_Status child = TaskCreated) →
  match (match wanted with
         | None => ret None
         | Some child =>
             let! created := on_task_store (CreateTask (Some store_atomic) child input.(CI_ActorID) "agent") in
             ret (Some created)
         end) w s with
  | (Ok made, w', s') => h_repo s' = h_repo s ∧ child_made wanted made (tasks (h_tasks s)) (tasks (h_tasks s')) ∧
      fresh_events w' (h_tasks s') ∧
      (∀ n, (n < w_draws w)%nat → event_id n ∉ ids (h_tasks s) → event_id n ∉ ids (h_tasks s'))
  | (Err _, _, s') => s' = s
  | (Panic, _, _) => False
  end.
Proof.
  intros Hu Hf Hst. destruct wanted as [child|]; [|by cbn].
  pose proof (create_task_run child (CI_ActorID input) w (h_tasks s) Hu Hf (Hst child eq_refl)) as Hc.
  unfold bind, on_task_store, zoom. destruct (CreateTask _ _ _ _ w (h_tasks s)) as [[[t|e|] w1] st]; [| |done].
  - destruct Hc as (Hs & Hn & Et & Hf1 & Ho). unfold ret. cbn. done.
  - destruct Hc as [-> _]. by destruct s.
Qed.

Lemma save_run h pkg w (s : Sys) :
  ∃ repo, attempt (on_repo (SaveHandoff h pkg)) w s =
    match handoffs (h_repo s) !! Handoff_HandoffID h with
    | Some _ => (Ok (inr ErrDuplicateRequest), w, s)
    | None => (Ok (inl tt), w, mkHSys repo (h_tasks s) (h_ext s))
    end ∧ handoffs repo = <[Handoff_HandoffID h := h]> (handoffs (h_repo s)) ∧
    packages repo = (if Package_PackageID pkg == "" then packages (h_repo s)
                     else <[Package_PackageID pkg := pkg]> (packages (h_repo s))).
Proof.
  eexists (mkHandoffRepo _ _). split; [|split; reflexivity].
  unfold attempt, on_repo, zoom, SaveHandoff, bind, get.
  destruct (handoffs (h_repo s) !! _); [|done]. by destruct s.
Qed.

Lemma packages_run pkg w (s : Sys) :
  ∃ packaged w' s', (match HS_ContextPackages hs with
      | None => ret (inl tt)
      | Some save => attempt (on_outside (save pkg))
      end) w s = (Ok packaged, w', s') ∧ (w_draws w ≤ w_draws w')%nat ∧ h_repo s' = h_repo s ∧
    h_tasks s' = h_tasks s.
Proof.
  destruct (HS_ContextPackages hs) as [save|] eqn:Es.
  - destruct (Hpackages save eq_refl pkg) as [Hfw Hnp]. unfold attempt, on_outside, zoom.
    specialize (Hnp w (h_ext s)). destruct (save pkg w (h_ext s)) as [[r w'] t] eqn:E. apply Hfw in E.
    destruct r as [[]|e|]; [| |done]; by eexists _, _, _.
  - eexists _, _, _. by split.
Qed.

Lemma keep_in_steps_run input h pkg wanted event w0 w (s : Sys) :
  rand_unique → fresh_events w0 (h_tasks s) → (w_draws w0 < w_draws w)%nat →
  TaskEvent_EventID event = event_id (w_draws w0) →
  (∀ child, wanted = Some child → Task_Status child = TaskCreated) →
  match keep_in_steps hs input h pkg wanted event w s with
  | (Ok made, w', s') => handoffs (h_repo s) !! Handoff_HandoffID h = None ∧
      handoffs (h_repo s') = <[Handoff_HandoffID h := h]> (handoffs (h_repo s)) ∧
      child_made wanted made (tasks (h_tasks s)) (tasks (h_tasks s'))
  | (Err _, _, s') => undone s s'
  | (Panic, _, _) => False
  end.
Proof.
  intros Hu Hf Hw He Hst. unfold keep_in_steps.
  pose proof (make_child_run input wanted w s Hu (fresh_lasting _ _ _ (Nat.lt_le_incl _ _ Hw) Hf) Hst) as Hc.
  match type of Hc with match ?m _ _ with _ => _ end => destruct (m w s) as [[[made|e|] w1] s1] eqn:E1 end;
    [|rewrite (bind_Err _ _ _ _ _ _ _ E1); subst s1; split; apply grown_refl|done].
  rewrite (bind_Ok _ _ _ _ _ _ _ E1). destruct Hc as (Er & Hm & Hf1 & Hold).
  assert (Hev : TaskEvent_EventID event ∉ ids (h_tasks s1)).
  { rewrite He. apply Hold; [lia|]. apply Hf. lia. }
  destruct (save_run h pkg w1 s1) as (repo & Es & Ehs & _). rewrite Er in Es, Ehs.
  rewrite Hrepo. cbn [in_memory handoff_Save].
  destruct (handoffs (h_repo s) !! Handoff_HandoffID h) as [old|] eqn:Eh;
    rewrite (bind_Ok _ _ _ _ _ _ _ Es); clear Es.
  { destruct (cancel_child_run input wanted made "handoff save failed" w1 s1 (tasks (h_tasks s)) Hm Hst Hf1)
      as (w2 & t & E2 & Hg).
    rewrite (bind_Ok _ _ _ _ _ _ _ E2). split; [|exact Hg]. cbn. rewrite Er. apply grown_refl. }
  set (s2 := mkHSys repo (h_tasks s1) (h_ext s1)).
  destruct (packages_run pkg w1 s2) as (packaged & w2 & s3 & E3 & Hw2 & Er3 & Et3).
  rewrite (bind_Ok _ _ _ _ _ _ _ E3).
  assert (Hf3 : fresh_events w2 (h_tasks s3)) by (rewrite Et3; by eapply fresh_lasting).
  assert (Hm3 : child_made wanted made (tasks (h_tasks s)) (tasks (h_tasks s3))) by (by rewrite Et3).
  destruct packaged as [u|e].
  2: { destruct (fail_child_run input h wanted made "context package save failed" w2 s3 (tasks (h_tasks s))
         (handoffs (h_repo s)) Hm3 Hst Hf3 Eh) as (w4 & s4 & E4 & Hg1 & Hg2); [by rewrite Er3|].
       rewrite (bind_Ok _ _ _ _ _ _ _ E4). by split. }
  assert (E4 : attempt (append_task_event hs event) w2 s3 =
    (Ok (inl tt), w2, mkHSys (h_repo s3) (append_event event (h_tasks s3)) (h_ext s3))).
  { unfold attempt, append_task_event, on_task_store, zoom. rewrite Hevents. unfold Append, bind, get.
    rewrite bool_decide_eq_false_2 by (by rewrite Et3). done. }
  rewrite (bind_Ok _ _ _ _ _ _ _ E4). unfold ret. cbn [h_repo h_tasks]. split; [done|].
  split; [by rewrite Er3|]. exact Hm3.
Qed.

Lemma check_parent_run input w (s : Sys) :
  match check_parent hs input w s with
  | (Ok _, w', s') => w' = w ∧ s' = s
  | (Err _, _, s') => s' = s
  | (Panic, _, _) => False
  end.
Proof.
  unfold check_parent. destruct (HS_HasTaskRepo hs); [|done].
  unfold bind, on_task_store, zoom, repo_Get, store_tasks, Get, bind, get, throw, ret.
  destruct (tasks (h_tasks s) !! _) as [parent|]; [|by destruct s].
  destruct (Task_TenantID parent != CI_TenantID input); by destruct s.
Qed.

(** Drawing identifiers, reading the clock and writing records only. *)
Definition recording {A} (m : HM A) : Prop := effect_only m ∧ forward m.

Lemma recording_bind_run {A B} (m : HM A) (f : A → HM B) w s : recording m →
  ∃ a w', bind m f w s = f a w' s ∧ (w_draws w ≤ w_draws w')%nat ∧ m w s = (Ok a, w', s).
Proof.
  intros [He Hf]. destruct (He w s) as (a & w' & E). exists a, w'. split; [by apply bind_Ok|]. split; [by eapply Hf|done].
Qed.

Lemma recording_audit (input : CreateInput) a b c d : recording (handoff_audit input a b c d).
Proof. unfold handoff_audit. split; auto 8 with effects forward. Qed.
Lemma recording_trace (input : CreateInput) a b c : recording (handoff_trace input a b c).
Proof. unfold handoff_trace. split; auto 10 with effects forward. Qed.

Ltac record_step w' Hw :=
  match goal with |- context[bind ?m ?f ?w ?s] =>
    destruct (recording_bind_run m f w s) as ([] & w' & -> & Hw & _);
      [first [apply recording_audit | apply recording_trace]|] end.

Lemma ask_policy_run input w (s : Sys) : ∃ w',
  ask_policy input w s = (Ok (EvaluateRequest Error (policy_request input)), w', s) ∧ (w_draws w ≤ w_draws w')%nat.
Proof.
  unfold ask_policy. destruct (EvaluateRequest Error _) as [decision err].
  record_step w1 Hw1. record_step w2 Hw2.
  exists w2. split; [done|lia].
Qed.

Lemma package_run input w (s : Sys) :
  match package json_Marshal sha256_hex input w s with
  | (Ok pkg, w', s') => s' = s ∧ (w_draws w ≤ w_draws w')%nat ∧ within_policy (package_input input) pkg
  | (Err _, _, s') => s' = s
  | (Panic, _, _) => False
  end.
Proof.
  unfold package. pose proof (build_run json_Marshal sha256_hex (package_input input) w s) as Hb.
  destruct (Build _ _ _ w s) as [[[pkg|e|] w1] s1] eqn:E; [|by rewrite (bind_Err _ _ _ _ _ _ _ E); destruct Hb|done].
  rewrite (bind_Ok _ _ _ _ _ _ _ E). destruct Hb as (-> & Hw1 & Hp & _).
  record_step w2 Hw2. cbn. split; [done|]. split; [lia|done].
Qed.

Lemma announce_run input h w (s : Sys) : ∃ w' ext,
  announce hs input h w s = (Ok tt, w', mkHSys (h_repo s) (h_tasks s) ext).
Proof.
  unfold announce. record_step w1 Hw1. record_step w2 Hw2. unfold syncHandoffCreated, tell, binding_of.
  assert (Hb : ∃ b w3 ext, (match HS_ExternalBinding hs with
    | None => ret None
    | Some find => if Handoff_ParentTaskID h == "" then ret None
        else on_outside (λ w s, let '(b, w', s') := find (Handoff_TenantID h) (Handoff_ParentTaskID h) w s in (Ok b, w', s'))
    end) w2 s = (Ok b, w3, mkHSys (h_repo s) (h_tasks s) ext)).
  { destruct (HS_ExternalBinding hs) as [find|]; [destruct (_ == _)|]; [by eexists None, _, (h_ext s); destruct s| |by eexists None, _, (h_ext s); destruct s].
    unfold on_outside, zoom. destruct (find _ _ _ _) as [[b w3] ext]. by eexists _, _, _. }
  destruct Hb as (b & w3 & ext & Eb). rewrite (bind_Ok _ _ _ _ _ _ _ Eb).
  destruct b as [b|]; [|by eexists _, _]. unfold on_outside, zoom. cbn.
  destruct (HS_ExternalSync hs _ _ _ _ _) as [w4 ext4]. by eexists _, _.
Qed.

(** What a handoff and its child task are made of. *)
Record made_from (input : CreateInput) (pkg : HandoffContextPackage) (h : AgentHandoff) : Prop := {
  mf_tenant : Handoff_TenantID h = CI_TenantID input;
  mf_parent : Handoff_ParentTaskID h = CI_ParentTaskID input;
  mf_agents : Handoff_FromAgentID h = CI_FromAgentID input ∧ Handoff_ToAgentID h = CI_ToAgentID input;
  mf_package : Handoff_ContextPackageRef h = Package_PackageID pkg
}.

(** A created handoff and its child: one that waits for an approval has none. *)
Definition status_fits (input : CreateInput) (h : AgentHandoff) (wanted : option Task) : Prop :=
  match wanted with
  | Some t => ¬ handoff_needs_approval (policy_request input) ∧ Handoff_Status h = HandoffRunning ∧
      Handoff_ChildTaskID h = Some (Task_TaskID t) ∧ Task_Status t = TaskCreated ∧
      Task_ParentTaskID t = Some (CI_ParentTaskID input) ∧
      Task_SourceHandoffID t = Some (Handoff_HandoffID h) ∧ Task_AgentID t = CI_ToAgentID input ∧
      Task_TenantID t = CI_TenantID input
  | None => handoff_needs_approval (policy_request input) ∧ Handoff_Status h = HandoffCreated ∧
      Handoff_ChildTaskID h = None
  end.

Lemma new_handoff_run input decision pkg w (s : Sys) :
  ∃ h w', new_handoff input decision pkg w s = (Ok h, w', s) ∧ (w_draws w ≤ w_draws w')%nat ∧
    made_from input pkg h ∧ Handoff_ChildTaskID h = None ∧
    Handoff_Status h = (if PD_Decision decision == PolicyDecisionApprovalRequired then HandoffCreated
                        else HandoffAccepted).
Proof. eexists _, _. split; [reflexivity|]. split; [cbn; lia|]. done. Qed.

Lemma new_child_run input decision pkg h w (s : Sys) :
  handed (decision, None) (handoff_permitted (policy_request input)) (handoff_needs_approval (policy_request input)) →
  made_from input pkg h → Handoff_ChildTaskID h = None →
  Handoff_Status h = (if PD_Decision decision == PolicyDecisionApprovalRequired then HandoffCreated
                      else HandoffAccepted) →
  ∃ h' wanted w', new_child input decision h w s = (Ok (h', wanted), w', s) ∧ (w_draws w ≤ w_draws w')%nat ∧
    made_from input pkg h' ∧ status_fits input h' wanted.
Proof.
  intros (_ & [Hperm _] & Hreq & Hal) [] Hc Hst. cbn in Hperm, Hreq, Hal. specialize (Hperm eq_refl). unfold new_child.
  destruct (String.eqb_spec (PD_Decision decision) PolicyDecisionAllowed) as [Ed|Ed].
  - destruct (proj1 Hal Ed) as [_ Hn]. eexists _, _, _. split; [reflexivity|]. split; [cbn; lia|]. done.
  - assert (Ha : handoff_needs_approval (policy_request input)).
    { pose proof (handoff_needs_approval_spec (policy_request input)) as Hspec. rewrite Hspec in *.
      destruct (nonempty _ && _), (_ && HandoffPolicy_RequireApprovalForCrossAgent _); auto.
      destruct Ed. apply Hal. split; [done|]. by intros [|]. }
    rewrite (proj2 Hreq (conj Hperm Ha)) in Hst. eexists _, _, _. split; [reflexivity|]. done.
Qed.

Lemma parent_event_run input decision h w (s : Sys) : ∃ event w',
  parent_event input decision h w s = (Ok event, w', s) ∧ TaskEvent_EventID event = event_id (w_draws w) ∧
  (w_draws w < w_draws w')%nat.
Proof. eexists _, _. split; [reflexivity|]. split; [done|]. cbn. lia. Qed.

Lemma keep_handoff_run input h pkg wanted event w (s : Sys) :
  keep_handoff hs input h pkg wanted event w s = keep_in_steps hs input h pkg wanted event w s.
Proof. unfold keep_handoff. by rewrite Hrepo. Qed.

(** C37. A handoff is created in full or not at all.  It is created exactly as far as the policy permits it: a
    handoff that is refused changes nothing; one that is permitted is kept under a new id with a package
    within the policy, running with a child task of the parent that is assigned to the target agent, or
    created without a child where the policy asks for an approval; and a creation that fails on the way
    leaves no running handoff and no open task behind, only failed handoffs and cancelled tasks. *)
Theorem create_all_or_nothing input w (s : Sys) :
  rand_unique → fresh_events w (h_tasks s) →
  match CreateHandoff json_Marshal sha256_hex hs input w s with
  | (Ok (inl res), _, s') =>
      handoff_permitted (policy_request input) ∧
      made_from input (Created_Package res) (Created_Handoff res) ∧
      within_policy (package_input input) (Created_Package res) ∧
      handoffs (h_repo s) !! Handoff_HandoffID (Created_Handoff res) = None ∧
      handoffs (h_repo s') = <[Handoff_HandoffID (Created_Handoff res) := Created_Handoff res]> (handoffs (h_repo s)) ∧
      ∃ wanted, status_fits input (Created_Handoff res) wanted ∧
        child_made wanted (Created_ChildTask res) (tasks (h_tasks s)) (tasks (h_tasks s'))
  | (Ok (inr _), _, s') => ¬ handoff_permitted (policy_request input) ∧ s' = s
  | (Err _, _, s') => undone s s'
  | (Panic, _, _) => False
  end.
Proof.
  intros Hu Hf. unfold CreateHandoff. destruct (_ || _); [split; apply grown_refl|].
  pose proof (check_parent_run input w s) as Hp. destruct (check_parent hs input w s) as [[[[]|e|] w1] s1] eqn:E1;
    [destruct Hp as [-> ->]|rewrite (bind_Err _ _ _ _ _ _ _ E1); subst s1; split; apply grown_refl|done].
  rewrite (bind_Ok _ _ _ _ _ _ _ E1). destruct (ask_policy_run input w s) as (w2 & E2 & Hw2).
  rewrite (bind_Ok _ _ _ _ _ _ _ E2). pose proof (handoff_decided Error (policy_request input)) as Hd.
  destruct (EvaluateRequest Error (policy_request input)) as [decision [err|]].
  { cbn. split; [|done]. destruct Hd as (_ & Hn & _). intros Hperm. by apply Hn in Hperm. }
  assert (Hperm : handoff_permitted (policy_request input)) by (destruct Hd as (_ & Hn & _); by apply Hn).
  pose proof (package_run input w2 s) as Hpk. destruct (package json_Marshal sha256_hex input w2 s) as [[[pkg|e|] w3] s3] eqn:E3;
    [destruct Hpk as (-> & Hw3 & Hpol)|rewrite (bind_Err _ _ _ _ _ _ _ E3); subst s3; split; apply grown_refl|done].
  rewrite (bind_Ok _ _ _ _ _ _ _ E3).
  destruct (new_handoff_run input decision pkg w3 s) as (h0 & w4 & E4 & Hw4 & Hm0 & Hc0 & Hs0).
  rewrite (bind_Ok _ _ _ _ _ _ _ E4).
  destruct (new_child_run input decision pkg h0 w4 s Hd Hm0 Hc0 Hs0) as (h & wanted & w5 & E5 & Hw5 & Hm & Hfit).
  rewrite (bind_Ok _ _ _ _ _ _ _ E5). cbn [fst snd].
  destruct (parent_event_run input decision h w5 s) as (event & w6 & E6 & He & Hw6).
  rewrite (bind_Ok _ _ _ _ _ _ _ E6).
  assert (Hf5 : fresh_events w5 (h_tasks s)) by (eapply fresh_lasting; [|exact Hf]; lia).
  assert (Hcreated : ∀ child, wanted = Some child → Task_Status child = TaskCreated).
  { intros child ->. by destruct Hfit as (_ & _ & _ & ? & _). }
  pose proof (keep_in_steps_run input h pkg wanted event w5 w6 s Hu Hf5 Hw6 He Hcreated) as Hk.
  rewrite <- keep_handoff_run in Hk.
  destruct (keep_handoff hs input h pkg wanted event w6 s) as [[[made|e|] w7] s7] eqn:E7;
    [|by rewrite (bind_Err _ _ _ _ _ _ _ E7)|done].
  rewrite (bind_Ok _ _ _ _ _ _ _ E7). destruct (announce_run input h w7 s7) as (w8 & ext & E8).
  rewrite (bind_Ok _ _ _ _ _ _ _ E8). cbn. destruct Hk as (Hn & Hh & Hch). split_and!; try done. by exists wanted.
Qed.
End creation.

(** ** Examples *)

Definition sample_handoffs : HandoffService (R:=HandoffRepo) (S:=unit) :=
  mkHandoffService in_memory true true None None (λ _ _ _ w s, (w, s)).
Definition sample_sys : HSys (R:=HandoffRepo) (S:=unit) := mkHSys NewHandoffRepo test_store tt.
Definition sample_request : CreateInput :=
  mkCreateInput "tenant" "" "t1" "r1" "writer" "reviewer" "" "" "" "review the text" "" "" [] [] zeroExpectedOutput
    zeroHandoffPolicy false false false "writer".

Lemma create_all_or_nothing_witness :
  match CreateHandoff (λ _, inr "{}") (λ s, s) sample_handoffs sample_request world0 sample_sys with
  | (Ok (inl res), _, s') =>
      Handoff_Status (Created_Handoff res) = HandoffRunning ∧
      handoffs (h_repo s') = {[Handoff_HandoffID (Created_Handoff res) := Created_Handoff res]} ∧
      ∃ wanted, status_fits sample_request (Created_Handoff res) wanted ∧
        child_made wanted (Created_ChildTask res) (tasks test_store) (tasks (h_tasks s'))
  | _ => False
  end.
Proof.
  assert (Hv : match CreateHandoff (λ _, inr "{}") (λ s, s) sample_handoffs sample_request world0 sample_sys with
    | (Ok (inl res), _, _) => Handoff_Status (Created_Handoff res) = HandoffRunning | _ => False end)
    by (vm_compute; reflexivity).
  assert (Hf : fresh_events world0 test_store).
  { intros n _ Hin. apply elem_of_union in Hin as [E%elem_of_singleton|Hin]; [discriminate E|by apply not_elem_of_empty in Hin]. }
  pose proof (create_all_or_nothing sample_handoffs (λ _, inr "{}") (λ s, s) eq_refl eq_refl
    ltac:(intros save E; discriminate E) sample_request world0 sample_sys test_rand_unique Hf) as Hm.
  destruct (CreateHandoff _ _ _ _ _ _) as [[[[res|x]|e|] w'] s']; [|destruct Hv..].
  destruct Hm as (_ & _ & _ & _ & Hh & Hc). split; [exact Hv|]. split; [exact Hh|exact Hc].
Defined.

Definition waiting_handoff : AgentHandoff :=
  zeroAgentHandoff <| Handoff_HandoffID := "h1" |> <| Handoff_Status := HandoffCreated |>.
Definition waiting_sys : HSys (R:=HandoffRepo) (S:=unit) :=
  mkHSys (mkHandoffRepo {["h1" := waiting_handoff]} ∅) NewInMemoryStore tt.

(** After a call of [Transition]. *)
Definition after_call (next : HandoffStatus) (s : HSys (R:=HandoffRepo) (S:=unit)) : HSys :=
  (TransitionHandoff sample_handoffs "h1" next "reviewer" "agent" "" "no" world0 s).2.

Lemma handoff_history_witness :
  let s' := after_call HandoffRunning (after_call HandoffRejected waiting_sys) in
  option_map Handoff_Status (handoffs (h_repo s') !! "h1") = Some HandoffRejected ∧
  ∃ h', handoffs (h_repo s') !! "h1" = Some h' ∧ handoff_known (Handoff_Status h').
Proof.
  intros s'. split; [vm_compute; reflexivity|].
  assert (Hcall : ∀ next s, transition_call sample_handoffs s (after_call next s)).
  { intros next s. unfold after_call.
    destruct (TransitionHandoff sample_handoffs "h1" next "reviewer" "agent" "" "no" world0 s) as [[r w'] s1] eqn:E.
    exact (called _ _ _ _ _ _ _ _ _ _ _ _ E). }
  assert (Hr : rtc (transition_call sample_handoffs) waiting_sys s').
  { eapply rtc_l; [apply (Hcall HandoffRejected)|]. eapply rtc_l; [apply (Hcall HandoffRunning)|]. apply rtc_refl. }
  assert (Hf : filed waiting_sys).
  { intros id h E. cbn [waiting_sys h_repo handoffs] in E. apply lookup_singleton_Some in E as [<- <-]. reflexivity. }
  destruct (handoff_history sample_handoffs eq_refl waiting_sys s' Hr Hf "h1" waiting_handoff
    (lookup_singleton_eq "h1" waiting_handoff)) as (h' & E & _ & Hk & _).
  exists h'. split; [exact E|exact (Hk eq_refl)].
Defined.
