(* ===== verification/Discovery.v ===== *)
(** * What an agent is offered: internal/discovery/tool and internal/discovery/agent

    The candidates of a run: skills, collaborators, tools and capabilities, ranked by the words they
    share with the objective, and the strategies that cut and order them.  The theorems connect the
    tools that are offered with the registry they come from and with the policy that is asked when
    one of them is called. *)

From stdpp Require Import base list strings gmap fin_maps.
From Stdlib Require Import Lia Ascii.
From S2P Require Import Prelude Contracts GoMonad Storage Policies ToolStore Dispatch HandoffPackage.
Open Scope go_scope.
Open Scope string_scope.
Open Scope list_scope.

(** ** Scores: static.go *)

(** The bytes of the cutset [.,;:!?()[]{}] and the two quotes. *)
Definition cut_byte (c : ascii) : bool :=
  existsb (Nat.eqb (nat_of_ascii c)) [46; 44; 59; 58; 33; 63; 40; 41; 91; 93; 123; 125; 34; 39]%nat.
Fixpoint cut_left (s : string) : string :=
  match s with
  | EmptyString => ""
  | String c s' => if cut_byte c then cut_left s' else s
  end.
Fixpoint cut_right (s : string) : string :=
  match s with
  | EmptyString => ""
  | String c s' => let rest := cut_right s' in if (rest == "") && cut_byte c then "" else String c rest
  end.
Definition trim_punctuation (s : string) : string := cut_right (cut_left s).

Definition needle_score (haystack needle : string) : Z :=
  let needle := trim_punctuation needle in
  if (String.length needle <? 3)%nat then 0%Z else if Contains haystack needle then 1%Z else 0%Z.
Definition term_score (objective term : string) : Z :=
  let term := ToLower (TrimSpace term) in
  if (term != "") && Contains (ToLower objective) term then 2%Z else 0%Z.
Definition sum_of {A} (f : A → Z) (l : list A) : Z := fold_right (λ a total, f a + total)%Z 0%Z l.

Definition matchScore (objective name description : string) (terms : list string) : Z :=
  let haystack := ToLower (join_words (name :: description :: terms)) in
  (sum_of (needle_score haystack) (Fields (ToLower objective)) + sum_of (term_score objective) terms)%Z.

(** ** Strategies: strategy.go *)

Definition toolPreferred (tool : ToolCard) (preferred : list string) : bool :=
  mem_string tool.(Card_ToolID) preferred || mem_string tool.(Card_Name) preferred.

Definition toolRiskRank (level : RiskLevel) : Z :=
  if level == RiskLow then 1 else if level == RiskMedium then 2 else if level == RiskHigh then 3
  else if level == RiskCritical then 4 else 100.

(** [stringSet]; a set is the list of its members. *)
Definition stringSet (values : list string) : list string :=
  List.filter (λ value, value != "") (map TrimSpace values).

Definition filterNonToolCapabilities (capabilities : list CapabilityCard) : list CapabilityCard :=
  List.filter (λ capability, capability.(Capability_Type) != "tool") capabilities.

(** The order of the tools under a strategy. *)
Definition tool_before (mode : string) (preferred : list string) (a b : ToolCard) : bool :=
  let leftPreferred := toolPreferred a preferred in
  let rightPreferred := toolPreferred b preferred in
  if negb (Bool.eqb leftPreferred rightPreferred) then leftPreferred else
  if (mode == "conservative") &&
     negb (toolRiskRank a.(Card_RiskLevel) =? toolRiskRank b.(Card_RiskLevel))%Z
  then (toolRiskRank a.(Card_RiskLevel) <? toolRiskRank b.(Card_RiskLevel))%Z else false.

Definition ApplyToolUseStrategy (candidates : CandidateSet) (strategy : ToolUseStrategy) : CandidateSet :=
  let mode := TrimSpace strategy.(ToolS_ToolChoiceMode) in
  if mode == "no_tools" then
    mkCandidateSet (filterNonToolCapabilities candidates.(Cand_Capabilities)) candidates.(Cand_Skills)
      candidates.(Cand_SkillInstructions) [] candidates.(Cand_Collaborators)
  else
    let capabilities :=
      if mode == "tool_first"
      then stable_sort (λ a b, (a.(Capability_Type) == "tool") && negb (b.(Capability_Type) == "tool"))
             candidates.(Cand_Capabilities)
      else candidates.(Cand_Capabilities) in
    let preferred := stringSet strategy.(ToolS_PreferredToolIDs) in
    let tools :=
      if negb (nonempty preferred) && (mode != "conservative") then candidates.(Cand_Tools)
      else stable_sort (tool_before mode preferred) candidates.(Cand_Tools) in
    mkCandidateSet capabilities candidates.(Cand_Skills) candidates.(Cand_SkillInstructions) tools
      candidates.(Cand_Collaborators).

Definition skillCapabilityID (capability : CapabilityCard) : string :=
  TrimPrefix (TrimSpace capability.(Capability_ID)) "skill.".

Definition filterSkillInstructions (instructions : list SkillInstruction) (selected : list string)
    : list SkillInstruction :=
  if negb (nonempty selected) then []
  else List.filter (λ instruction, mem_string (TrimSpace instruction.(SkillInstr_SkillID)) selected) instructions.

(** The tests on an id that a skill and a capability of a skill share. *)
Definition id_selectable (enabled disabled : list string) (explicitOnly : bool) (id : string) : bool :=
  if mem_string id disabled then false else
  if nonempty enabled then mem_string id enabled else negb explicitOnly.

Definition filterSkillCapabilities (capabilities : list CapabilityCard)
    (selected known enabled disabled : list string) (explicitOnly : bool) : list CapabilityCard :=
  List.filter (λ capability,
    (capability.(Capability_Type) != "skill") ||
    let id := skillCapabilityID capability in
    id_selectable enabled disabled explicitOnly id &&
    (if mem_string id known then mem_string id selected else true)) capabilities.

(** The loop of [ApplySkillUseStrategy]; [count] skills are selected already. *)
Fixpoint select_skills (selectable : string → bool) (max : Z) (count : Z) (skills : list SkillCard)
    : list SkillCard :=
  match skills with
  | [] => []
  | skill :: skills =>
      let id := TrimSpace skill.(SkillCard_SkillID) in
      if id == "" then select_skills selectable max count skills else
      if TrimSpace skill.(SkillCard_Status) == "disabled" then select_skills selectable max count skills else
      if negb (selectable id) then select_skills selectable max count skills else
      if (max >? 0)%Z && (count >=? max)%Z then select_skills selectable max count skills else
      skill :: select_skills selectable max (count + 1) skills
  end.

Definition skill_ids (skills : list SkillCard) : list string :=
  List.filter (λ id, id != "") (map (λ skill, TrimSpace skill.(SkillCard_SkillID)) skills).

Definition ApplySkillUseStrategy (candidates : CandidateSet) (strategy : SkillUseStrategy) : CandidateSet :=
  let enabled := stringSet strategy.(SkillS_EnabledSkillIDs) in
  let disabled := stringSet strategy.(SkillS_DisabledSkillIDs) in
  let explicitOnly := TrimSpace strategy.(SkillS_SelectionMode) == "explicit_only" in
  if negb (nonempty enabled) && negb (nonempty disabled) && negb explicitOnly &&
     (strategy.(SkillS_MaxSelectedSkills) <=? 0)%Z
  then candidates else
  let skills := select_skills (id_selectable enabled disabled explicitOnly) strategy.(SkillS_MaxSelectedSkills) 0
                  candidates.(Cand_Skills) in
  let selected := skill_ids skills in
  mkCandidateSet
    (filterSkillCapabilities candidates.(Cand_Capabilities) selected (skill_ids candidates.(Cand_Skills))
       enabled disabled explicitOnly)
    skills (filterSkillInstructions candidates.(Cand_SkillInstructions) selected)
    candidates.(Cand_Tools) candidates.(Cand_Collaborators).

Definition isKnowledgeToolID (toolID : string) : bool := HasPrefix (TrimSpace toolID) "origin.knowledge.".

Definition ApplyKnowledgeUseStrategy (candidates : CandidateSet) (strategy : KnowledgeUseStrategy)
    : CandidateSet :=
  match strategy.(KnowS_Enabled) with
  | Some false =>
      mkCandidateSet
        (List.filter (λ c, negb ((c.(Capability_Type) == "tool") && isKnowledgeToolID c.(Capability_ID)))
           candidates.(Cand_Capabilities))
        candidates.(Cand_Skills) candidates.(Cand_SkillInstructions)
        (List.filter (λ tool, negb (isKnowledgeToolID tool.(Card_ToolID))) candidates.(Cand_Tools))
        candidates.(Cand_Collaborators)
  | _ => candidates
  end.

(** ** Skills: static.go *)

Definition skillKey (skillID version : string) : string := skillID +:+ "@" +:+ version.
Definition card_key (card : SkillCard) : string := skillKey card.(SkillCard_SkillID) card.(SkillCard_Version).

Definition enabled_definitions (agent : AgentDefinition) : list SkillDefinition :=
  List.filter (λ d, TrimSpace d.(Skill_Card).(SkillCard_Status) != "disabled") agent.(Agent_SkillDefinitions).

(** The skills the agent names, with the version it wants. *)
Definition allowed_skills (agent : AgentDefinition) : gmap string string :=
  fold_left (λ allowed d,
      let card := d.(Skill_Card) in
      match allowed !! card.(SkillCard_SkillID) with
      | Some _ => allowed
      | None => <[card.(SkillCard_SkillID) := card.(SkillCard_Version)]> allowed
      end)
    (enabled_definitions agent)
    (fold_left (λ allowed ref, <[ref.(SkillRef_SkillID) := ref.(SkillRef_Version)]> allowed)
       agent.(Agent_Skills) ∅).

Definition instructions_by_key (agent : AgentDefinition) : gmap string SkillInstruction :=
  fold_left (λ m d, if d.(Skill_Instruction).(SkillInstr_Content) == "" then m
                    else <[card_key d.(Skill_Card) := d.(Skill_Instruction)]> m)
    (enabled_definitions agent) ∅.

Fixpoint once_per_key (seen : list string) (cards : list SkillCard) : list SkillCard :=
  match cards with
  | [] => []
  | card :: cards => if mem_string (card_key card) seen then once_per_key seen cards
                     else card :: once_per_key (card_key card :: seen) cards
  end.

Definition skill_score (objective : string) (card : SkillCard) : Z :=
  matchScore objective card.(SkillCard_Name) card.(SkillCard_Description)
    (card.(SkillCard_Tags) ++ card.(SkillCard_WhenToUse)).

Definition skill_offered (allowed : gmap string string) (objective : string) (card : SkillCard) : bool :=
  if (size allowed =? 0)%nat then negb (skill_score objective card =? 0)%Z else
  match allowed !! card.(SkillCard_SkillID) with
  | None => false
  | Some version => (version == "") || (version == card.(SkillCard_Version))
  end.

(** By descending score, then by id. *)
Definition by_score {A} (score : A → Z) (id : A → string) (a b : A) : bool :=
  if (score a =? score b)%Z then string_lt (id a) (id b) else (score a >? score b)%Z.

Record StaticCandidateProvider (S : Type) := mkProvider {
  SP_Capabilities : list CapabilityCard;
  SP_Skills : list SkillCard;
  SP_Cards : list ToolCard;
  SP_Registry : option (string → M S (list ToolCard))    (* [CardsForTenant] *)
}.
Arguments SP_Capabilities {S}. Arguments SP_Skills {S}. Arguments SP_Cards {S}. Arguments SP_Registry {S}.
Arguments mkProvider {S}.

Definition skillCandidates (skills : list SkillCard) (agent : AgentDefinition) (objective : string)
    : list SkillCard * list SkillInstruction :=
  let allowed := allowed_skills agent in
  let cards := once_per_key [] (map Skill_Card (enabled_definitions agent) ++ skills) in
  let out := stable_sort (by_score (skill_score objective) SkillCard_SkillID)
               (List.filter (skill_offered allowed objective) cards) in
  let out := (ApplySkillUseStrategy (mkCandidateSet [] out [] [] [])
                agent.(Agent_Strategies).(Strat_Skills)).(Cand_Skills) in
  (out, omap (λ card, instructions_by_key agent !! card_key card) out).

(** ** Collaborators *)

Definition collaborator_card (ref : AgentCollaboratorRef) : CollaboratorCard :=
  mkCollaboratorCard ref.(Collab_AgentID) ref.(Collab_Version) ref.(Collab_Alias)
    (if ref.(Collab_Name) == "" then ref.(Collab_AgentID) else ref.(Collab_Name))
    ref.(Collab_Description) ref.(Collab_WhenToUse) ref.(Collab_Capabilities).
Definition collaborator_score (objective : string) (card : CollaboratorCard) : Z :=
  matchScore objective card.(Collaborator_Name) card.(Collaborator_Description)
    (card.(Collaborator_WhenToUse) ++ card.(Collaborator_Capabilities)).

Definition collaboratorCandidates (agent : AgentDefinition) (objective : string) : list CollaboratorCard :=
  stable_sort (by_score (collaborator_score objective) Collaborator_AgentID)
    (List.filter (λ card, negb (collaborator_score objective card =? 0)%Z)
       (map collaborator_card
          (List.filter (λ ref, negb ((ref.(Collab_AgentID) == "") || (ref.(Collab_Status) == "disabled")))
             agent.(Agent_Collaborators)))).

(** ** Tools *)

(** The tools that the selected skills allow and recommend. *)
Definition skillToolGuidance (agent : AgentDefinition) (skills : list SkillCard) : list string * list string :=
  let selected := map card_key skills in
  let chosen := List.filter (λ d, mem_string (card_key d.(Skill_Card)) selected) agent.(Agent_SkillDefinitions) in
  let ids f := List.filter (λ id, id != "") (concat (map f chosen)) in
  (ids Skill_AllowedTools, ids Skill_RecommendedTools).

Definition toolGroupBoosts (agentAllowedGroups policyAllowedGroups : list string) : list string :=
  agentAllowedGroups ++ policyAllowedGroups.

Definition toolCandidateScore (objective : string) (skillTerms recommended allowed groupBoosts : list string)
    (card : ToolCard) : Z :=
  (matchScore objective card.(Card_Name) card.(Card_Description) (card.(Card_WhenToUse) ++ skillTerms) +
   (if mem_string card.(Card_ToolID) recommended then 100 else 0) +
   (if mem_string card.(Card_ToolID) allowed then 50 else 0) +
   (if card.(Card_GroupID) == "" then 0 else
      (if mem_string card.(Card_GroupID) groupBoosts then 80 else 0) +
      (if (matchScore objective card.(Card_GroupID) "" [] >? 0)%Z then 40 else 0)))%Z.

(** A list of allowed ids and one of allowed groups, if there is either. *)
Definition listed (ids groups : list string) (card : ToolCard) : bool :=
  if negb (nonempty ids) && negb (nonempty groups) then true else
  mem_string card.(Card_ToolID) ids ||
  ((card.(Card_GroupID) != "") && mem_string card.(Card_GroupID) groups).

(** The tests of the loop of [toolCandidates] that do not look at the score. *)
Definition tool_permitted (agent : AgentDefinition) (policy : PolicySet) (skillAllowed : list string)
    (card : ToolCard) : bool :=
  let a := agent.(Agent_Tools) in
  let p := policy.(PolicySet_ToolPolicy) in
  if card.(Card_Visibility) == ToolPrivate then false else
  if mem_string card.(Card_ToolID) (a.(ToolsCfg_DeniedToolIDs) ++ p.(ToolPolicy_DeniedToolIDs)) then false else
  if (card.(Card_GroupID) != "") &&
     mem_string card.(Card_GroupID) (a.(ToolsCfg_DeniedToolGroupIDs) ++ p.(ToolPolicy_DeniedToolGroupIDs))
  then false else
  if negb (listed a.(ToolsCfg_AllowedToolIDs) a.(ToolsCfg_AllowedToolGroupIDs) card) then false else
  if negb (listed p.(ToolPolicy_AllowedToolIDs) p.(ToolPolicy_AllowedToolGroupIDs) card) then false else
  if nonempty skillAllowed && negb (mem_string card.(Card_ToolID) skillAllowed) then false else true.

(** Neither the agent nor the policy lists what is allowed. *)
Definition unlisted (agent : AgentDefinition) (policy : PolicySet) : bool :=
  negb (nonempty agent.(Agent_Tools).(ToolsCfg_AllowedToolIDs)) &&
  negb (nonempty agent.(Agent_Tools).(ToolsCfg_AllowedToolGroupIDs)) &&
  negb (nonempty policy.(PolicySet_ToolPolicy).(ToolPolicy_AllowedToolIDs)) &&
  negb (nonempty policy.(PolicySet_ToolPolicy).(ToolPolicy_AllowedToolGroupIDs)).

(** The score of a tool among the candidates of an agent with the selected skills. *)
Definition tool_score (agent : AgentDefinition) (policy : PolicySet) (objective : string)
    (skills : list SkillCard) : ToolCard → Z :=
  let skillTerms := concat (map (λ skill, skill.(SkillCard_Tags) ++ skill.(SkillCard_WhenToUse)) skills) in
  let '(skillAllowed, skillRecommended) := skillToolGuidance agent skills in
  let groupBoosts := toolGroupBoosts agent.(Agent_Tools).(ToolsCfg_AllowedToolGroupIDs)
                       policy.(PolicySet_ToolPolicy).(ToolPolicy_AllowedToolGroupIDs) in
  toolCandidateScore objective skillTerms skillRecommended skillAllowed groupBoosts.

Definition toolCandidates (cards : list ToolCard) (agent : AgentDefinition) (policy : PolicySet)
    (objective : string) (skills : list SkillCard) : list ToolCard :=
  let score := tool_score agent policy objective skills in
  stable_sort (by_score score Card_ToolID)
    (List.filter (λ card, tool_permitted agent policy (skillToolGuidance agent skills).1 card &&
                          negb (unlisted agent policy && (score card =? 0)%Z)) cards).

Definition capabilityCandidates (capabilities : list CapabilityCard) (objective : string)
    (skills : list SkillCard) (tools : list ToolCard) : list CapabilityCard :=
  List.filter (λ c, (matchScore objective c.(Capability_Name) c.(Capability_Description) c.(Capability_Tags) >? 0)%Z)
    capabilities ++
  map (λ s, mkCapabilityCard s.(SkillCard_SkillID) "skill" s.(SkillCard_Name) s.(SkillCard_Description)
              s.(SkillCard_Tags)) skills ++
  map (λ t, mkCapabilityCard t.(Card_ToolID) "tool" t.(Card_Name) t.(Card_Description) []) tools.

Section provider.
Context {S : Type} (p : StaticCandidateProvider S).

Definition cards (tenantID : string) : M S (list ToolCard) :=
  match p.(SP_Registry) with Some registry => registry tenantID | None => ret p.(SP_Cards) end.

Definition candidate_tenant (agent : AgentDefinition) (policy : PolicySet) : string :=
  if agent.(Agent_TenantID) == "" then policy.(PolicySet_TenantID) else agent.(Agent_TenantID).

Definition Candidates (agent : AgentDefinition) (policy : PolicySet) (objective : string) : M S CandidateSet :=
  let '(skills, instructions) := skillCandidates p.(SP_Skills) agent objective in
  let collaborators := collaboratorCandidates agent objective in
  let! cards := cards (candidate_tenant agent policy) in
  let tools := toolCandidates cards agent policy objective skills in
  let capabilities := capabilityCandidates p.(SP_Capabilities) objective skills tools in
  ret (mkCandidateSet capabilities skills instructions tools collaborators).
End provider.

(** ** The index of agents: internal/discovery/agent/index.go *)

Record AgentCapability := mkAgentCapability {
  Index_AgentID : string;
  Index_Version : string;
  Index_Name : string;
  Index_Description : string;
  Index_PolicySetID : string;
  Index_Skills : list string;
  Index_Tools : list string;
  Index_Capabilities : list CapabilityCard
}.

Definition capabilitiesFromDefinition (definition : AgentDefinition) : list CapabilityCard :=
  (if definition.(Agent_Description) == "" then []
   else [mkCapabilityCard definition.(Agent_AgentID) "agent" definition.(Agent_Name)
           definition.(Agent_Description) []]) ++
  map (λ d, mkCapabilityCard d.(Skill_Card).(SkillCard_SkillID) "skill" d.(Skill_Card).(SkillCard_Name)
              d.(Skill_Card).(SkillCard_Description) d.(Skill_Card).(SkillCard_Tags))
    definition.(Agent_SkillDefinitions).

Definition index_entry (definition : AgentDefinition) : AgentCapability :=
  mkAgentCapability definition.(Agent_AgentID) definition.(Agent_Version) definition.(Agent_Name)
    definition.(Agent_Description) definition.(Agent_PolicyRefs).(PolicyRefs_PolicySetID)
    (map (λ ref, skillKey ref.(SkillRef_SkillID) ref.(SkillRef_Version))
       (List.filter (λ ref, ref.(SkillRef_SkillID) != "") definition.(Agent_Skills)) ++
     map (λ d, card_key d.(Skill_Card))
       (List.filter (λ d, d.(Skill_Card).(SkillCard_SkillID) != "") definition.(Agent_SkillDefinitions)))
    definition.(Agent_Tools).(ToolsCfg_AllowedToolIDs) (capabilitiesFromDefinition definition).
Definition BuildIndex (definitions : list AgentDefinition) : list AgentCapability :=
  map index_entry definitions.

(** ** What is offered can be called *)

(** A tool and the card it is shown by. *)
Definition shows (card : ToolCard) (tool : ToolDefinition) : Prop :=
  card.(Card_ToolID) = tool.(Tool_ToolID) ∧ card.(Card_GroupID) = tool.(Tool_GroupID) ∧
  card.(Card_Visibility) = tool.(Tool_Visibility).

(** The selected skills let the tool be used: one of them allows it, or none of them says anything. *)
Definition skills_let (skillAllowed : list string) (id : string) : Prop :=
  skillAllowed = [] ∨ id ∈ skillAllowed.

Lemma contains_mem values target : target ≠ "" → contains values target = mem_string target values.
Proof. intros Ht. unfold contains. by rewrite (eqb_neq_false _ _ Ht). Qed.

Lemma contains_group values target : contains values target = (target != "") && mem_string target values.
Proof. unfold contains. by destruct (target == ""). Qed.

Lemma mem_string_app x l k : mem_string x (l ++ k) = mem_string x l || mem_string x k.
Proof. apply Bool.eq_iff_eq_true. by rewrite orb_true_iff, !mem_string_elem, elem_of_app. Qed.

Lemma evaluate_denied_iff req : PD_Decision (Policies.evaluate req) = PolicyDecisionDenied ↔
  let tool := TR_Tool req in
  let a := Agent_Tools (TR_Agent req) in
  let p := PolicySet_ToolPolicy (TR_Policy req) in
  contains (ToolsCfg_DeniedToolIDs a) (Tool_ToolID tool) || contains (ToolPolicy_DeniedToolIDs p) (Tool_ToolID tool) ||
  (contains (ToolsCfg_DeniedToolGroupIDs a) (Tool_GroupID tool) ||
     contains (ToolPolicy_DeniedToolGroupIDs p) (Tool_GroupID tool)) ||
  (nonempty (ToolsCfg_AllowedToolIDs a) || nonempty (ToolsCfg_AllowedToolGroupIDs a)) && negb (allowedByAgent a tool) ||
  (nonempty (ToolPolicy_AllowedToolIDs p) || nonempty (ToolPolicy_AllowedToolGroupIDs p)) && negb (allowedByPolicy p tool) ||
  (Tool_Visibility tool == ToolPrivate) = true.
Proof.
  cbn zeta. unfold Policies.evaluate. cbn zeta.
  repeat (match goal with |- context[if ?b then _ else _] => destruct b end; [cbn; rewrite ?orb_true_r; done|]).
  by split.
Qed.

Lemma listed_agent card tool a : shows card tool → Tool_ToolID tool ≠ "" →
  listed (ToolsCfg_AllowedToolIDs a) (ToolsCfg_AllowedToolGroupIDs a) card =
  negb ((nonempty (ToolsCfg_AllowedToolIDs a) || nonempty (ToolsCfg_AllowedToolGroupIDs a)) &&
        negb (allowedByAgent a tool)).
Proof.
  intros (E1 & E2 & _) Ht. unfold listed, allowedByAgent. rewrite contains_mem, contains_group, E1, E2 by done.
  destruct (nonempty _), (nonempty _), (mem_string _ _); try done; cbn; by destruct (_ && _).
Qed.
Lemma listed_policy card tool p : shows card tool → Tool_ToolID tool ≠ "" →
  listed (ToolPolicy_AllowedToolIDs p) (ToolPolicy_AllowedToolGroupIDs p) card =
  negb ((nonempty (ToolPolicy_AllowedToolIDs p) || nonempty (ToolPolicy_AllowedToolGroupIDs p)) &&
        negb (allowedByPolicy p tool)).
Proof.
  intros (E1 & E2 & _) Ht. unfold listed, allowedByPolicy. rewrite contains_mem, contains_group, E1, E2 by done.
  destruct (nonempty _), (nonempty _), (mem_string _ _); try done; cbn; by destruct (_ && _).
Qed.

(** The tests of the offer are those of the policy. *)
Lemma permitted_iff agent policy skillAllowed card tool req :
  shows card tool → Tool_ToolID tool ≠ "" →
  TR_Agent req = agent → TR_Policy req = policy → TR_Tool req = tool →
  (tool_permitted agent policy skillAllowed card = true ↔
   PD_Decision (Policies.evaluate req) ≠ PolicyDecisionDenied ∧ skills_let skillAllowed (Tool_ToolID tool)).
Proof.
  intros Hs Ht Ha Hp Htool. rewrite evaluate_denied_iff, Ha, Hp, Htool. cbn zeta.
  unfold tool_permitted, skills_let. rewrite (listed_agent card tool), (listed_policy card tool), !mem_string_app by done.
  destruct Hs as (E1 & E2 & E3). rewrite E1, E2, E3, !contains_mem, !contains_group by done.
  assert (Hsk : nonempty skillAllowed && negb (mem_string (Tool_ToolID tool) skillAllowed) = false ↔
    skillAllowed = [] ∨ Tool_ToolID tool ∈ skillAllowed).
  { rewrite <- mem_string_elem, <- nonempty_false. destruct (nonempty _), (mem_string _ _); cbn; intuition congruence. }
  rewrite <- Hsk.
  generalize ((nonempty (ToolsCfg_AllowedToolIDs (Agent_Tools agent)) ||
    nonempty (ToolsCfg_AllowedToolGroupIDs (Agent_Tools agent))) && negb (allowedByAgent (Agent_Tools agent) tool)) as x.
  generalize ((nonempty (ToolPolicy_AllowedToolIDs (PolicySet_ToolPolicy policy)) ||
    nonempty (ToolPolicy_AllowedToolGroupIDs (PolicySet_ToolPolicy policy))) &&
    negb (allowedByPolicy (PolicySet_ToolPolicy policy) tool)) as y.
  generalize (nonempty skillAllowed && negb (mem_string (Tool_ToolID tool) skillAllowed)) as z.
  generalize (Tool_Visibility tool == ToolPrivate) as v. generalize (Tool_GroupID tool != "") as g.
  generalize (mem_string (Tool_ToolID tool) (ToolsCfg_DeniedToolIDs (Agent_Tools agent))) as d1.
  generalize (mem_string (Tool_ToolID tool) (ToolPolicy_DeniedToolIDs (PolicySet_ToolPolicy policy))) as d2.
  generalize (mem_string (Tool_GroupID tool) (ToolsCfg_DeniedToolGroupIDs (Agent_Tools agent))) as d3.
  generalize (mem_string (Tool_GroupID tool) (ToolPolicy_DeniedToolGroupIDs (PolicySet_ToolPolicy policy))) as d4.
  clear. intros d4 d3 d2 d1 g v z y x. destruct d4, d3, d2, d1, g, v, z, y, x; cbn; intuition congruence.
Qed.

Section offers.
Context `{Env} {Executor : Type} (p : StaticCandidateProvider (Registry Executor)).
Context (Hp : SP_Registry p = Some CardsForTenant).

(** C7. The tools an agent is offered are those it may call.  For a registry that its own methods built: the
    candidates hold only tools that the tenant can get from the registry; and a tool of the tenant is
    offered exactly when the policy would not deny its call, the selected skills let it be used, and it has
    a word in common with the objective, which matters only where neither the agent nor the policy lists
    what is allowed. *)
Theorem offered_iff_callable agent policy objective w r :
  let tenant := candidate_tenant agent policy in
  registry_history r → nul_free tenant →
  ∃ cs w', Candidates p agent policy objective w r = (Ok cs, w', r) ∧
    (∀ card, card ∈ Cand_Tools cs → ∃ id tool, GetForTenant r tenant id = Some tool ∧ card = RenderCard tool) ∧
    (∀ id tool req, GetForTenant r tenant id = Some tool → id ≠ "" →
       TR_Agent req = agent → TR_Policy req = policy → TR_Tool req = RTool_Definition tool →
       (RenderCard tool ∈ Cand_Tools cs ↔
        PD_Decision (Policies.evaluate req) ≠ PolicyDecisionDenied ∧
        skills_let (skillToolGuidance agent (Cand_Skills cs)).1 id ∧
        (unlisted agent policy = true →
         tool_score agent policy objective (Cand_Skills cs) (RenderCard tool) ≠ 0%Z))).
Proof.
  intros tenant Hr Hn. destruct (cards_are_the_tools r tenant w Hr Hn) as (cs & w' & E & _ & Hcards & _).
  unfold Candidates. destruct (skillCandidates (SP_Skills p) agent objective) as [skills instructions].
  unfold cards. rewrite Hp. fold tenant. rewrite (bind_Ok _ _ _ _ _ _ _ E).
  eexists _, w'. split; [reflexivity|]. cbn [Cand_Tools Cand_Skills].
  assert (Hin : ∀ card, card ∈ toolCandidates cs agent policy objective skills ↔ card ∈ cs ∧
    tool_permitted agent policy (skillToolGuidance agent skills).1 card = true ∧
    (unlisted agent policy = true → tool_score agent policy objective skills card ≠ 0%Z)).
  { intros card. unfold toolCandidates. rewrite stable_sort_elem, filter_bool_elem, andb_true_iff, negb_true_iff.
    rewrite andb_false_iff, Z.eqb_neq. destruct (unlisted agent policy); intuition congruence. }
  split.
  - intros card (Hc & _)%Hin. by apply Hcards.
  - intros id tool req Hg Hid Ha Hpol Ht. rewrite Hin.
    assert (Etool : tool_id tool = id).
    { apply (GetForTenant_iff r tenant id tool) in Hg as [? _]; [done|by apply registry_history_ok|done]. }
    rewrite (permitted_iff agent policy _ (RenderCard tool) (RTool_Definition tool) req) by (try done; by rewrite <- Etool in Hid).
    assert (Hc : RenderCard tool ∈ cs) by (apply Hcards; by exists id, tool).
    unfold tool_id in Etool. rewrite Etool. tauto.
Qed.
End offers.

(** ** Strategies only cut and order *)

Lemma select_skills_spec selectable max : ∀ skills count, (0 ≤ count)%Z →
  let out := select_skills selectable max count skills in
  out `sublist_of` skills ∧
  Forall (λ s, TrimSpace (SkillCard_SkillID s) ≠ "" ∧ TrimSpace (SkillCard_Status s) ≠ "disabled" ∧
               selectable (TrimSpace (SkillCard_SkillID s)) = true) out ∧
  ((0 < max)%Z → (count ≤ max)%Z → (count + len out ≤ max)%Z).
Proof.
  induction skills as [|s skills IH]; intros count Hc; cbn [select_skills]; [cbn zeta; split_and!; [done|by apply Forall_nil|unfold len; cbn; lia]|].
  destruct (IH count Hc) as (H1 & H2 & H3). destruct (IH (count + 1)%Z ltac:(lia)) as (G1 & G2 & G3).
  assert (Hskip : let out := select_skills selectable max count skills in
    out `sublist_of` (s :: skills) ∧ Forall (λ s, TrimSpace (SkillCard_SkillID s) ≠ "" ∧
      TrimSpace (SkillCard_Status s) ≠ "disabled" ∧ selectable (TrimSpace (SkillCard_SkillID s)) = true) out ∧
    ((0 < max)%Z → (count ≤ max)%Z → (count + len out ≤ max)%Z)) by (split_and!; [by apply sublist_cons|done|done]).
  destruct (String.eqb_spec (TrimSpace (SkillCard_SkillID s)) ""); [done|].
  destruct (String.eqb_spec (TrimSpace (SkillCard_Status s)) "disabled"); [done|].
  destruct (selectable (TrimSpace (SkillCard_SkillID s))) eqn:Es; cbn [negb]; [|done].
  destruct (Z.gtb_spec max 0); cbn [andb]; [destruct (Z.geb_spec count max); [done|]|].
  all: split_and!; [by apply sublist_skip|by constructor|]; unfold len in *; cbn [length]; lia.
Qed.

(** The skills that a strategy selects: in the order they were in, at most as many as it says, none that is
    disabled, and only enabled ones where it enables some or asks for explicit ones. *)
Theorem skill_strategy_respected candidates strategy :
  let out := Cand_Skills (ApplySkillUseStrategy candidates strategy) in
  out `sublist_of` Cand_Skills candidates ∧
  ((0 < SkillS_MaxSelectedSkills strategy)%Z → (len out ≤ SkillS_MaxSelectedSkills strategy)%Z) ∧
  (∀ s, s ∈ out → TrimSpace (SkillCard_SkillID s) ∉ stringSet (SkillS_DisabledSkillIDs strategy)) ∧
  (stringSet (SkillS_EnabledSkillIDs strategy) ≠ [] ∨ TrimSpace (SkillS_SelectionMode strategy) = "explicit_only" →
   ∀ s, s ∈ out → TrimSpace (SkillCard_SkillID s) ∈ stringSet (SkillS_EnabledSkillIDs strategy)).
Proof.
  unfold ApplySkillUseStrategy. set (enabled := stringSet _). set (disabled := stringSet _).
  set (explicitOnly := TrimSpace _ == "explicit_only").
  assert (Hx : TrimSpace (SkillS_SelectionMode strategy) = "explicit_only" ↔ explicitOnly = true)
    by (unfold explicitOnly; by rewrite String.eqb_eq).
  rewrite Hx. clear Hx. clearbody explicitOnly. destruct (_ && _) eqn:Enone; cbn zeta.
  - rewrite !andb_true_iff, !negb_true_iff, !nonempty_false, Z.leb_le in Enone.
    destruct Enone as [[[-> ->] ->] Hmax]. split_and!; [done|lia|intros s _; apply not_elem_of_nil|intros [?|?]; done].
  - destruct (select_skills_spec (id_selectable enabled disabled explicitOnly) (SkillS_MaxSelectedSkills strategy)
      (Cand_Skills candidates) 0 ltac:(lia)) as (H1 & H2 & H3).
    cbn [Cand_Skills]. rewrite Forall_forall in H2. split_and!; [done|lia| |].
    + intros s Hs. destruct (H2 s Hs) as (_ & _ & Hsel). unfold id_selectable in Hsel.
      apply mem_string_false. by destruct (mem_string _ disabled).
    + intros Hex s Hs. destruct (H2 s Hs) as (_ & _ & Hsel). unfold id_selectable in Hsel.
      destruct (mem_string _ disabled); [done|]. apply mem_string_elem.
      destruct (nonempty enabled) eqn:En; [done|]. apply nonempty_false in En. destruct Hex as [?| ->]; done.
Qed.

(** In the mode without tools no tool is left; in every other mode the same tools are, in an order of the strategy's. *)
Theorem tool_strategy_reorders candidates strategy :
  (TrimSpace (ToolS_ToolChoiceMode strategy) = "no_tools" → Cand_Tools (ApplyToolUseStrategy candidates strategy) = []) ∧
  (TrimSpace (ToolS_ToolChoiceMode strategy) ≠ "no_tools" →
   Cand_Tools (ApplyToolUseStrategy candidates strategy) ≡ₚ Cand_Tools candidates).
Proof.
  unfold ApplyToolUseStrategy. destruct (String.eqb_spec (TrimSpace (ToolS_ToolChoiceMode strategy)) "no_tools"); [done|].
  split; [done|]. intros _. cbn. destruct (negb _ && _); [done|]. apply stable_sort_perm.
Qed.

(** ** An example *)

Definition sample_provider : StaticCandidateProvider (Registry unit) := mkProvider [] [] [] (Some CardsForTenant).
Definition searching_agent : AgentDefinition := zeroAgentDefinition <| Agent_TenantID := "acme" |>.
Definition search_request : ToolRequest :=
  mkToolRequest "acme" "" "" "" searching_agent zeroPolicySet (RTool_Definition sample_tool) zeroToolCall false.

Lemma offered_iff_callable_witness :
  GetForTenant sample_registry "acme" "search" = Some sample_tool ∧
  ∃ cs w', Candidates sample_provider searching_agent zeroPolicySet "search the web" world0 sample_registry =
      (Ok cs, w', sample_registry) ∧
    (RenderCard sample_tool ∈ Cand_Tools cs ↔
     PD_Decision (Policies.evaluate search_request) ≠ PolicyDecisionDenied ∧
     skills_let (skillToolGuidance searching_agent (Cand_Skills cs)).1 "search" ∧
     (unlisted searching_agent zeroPolicySet = true →
      tool_score searching_agent zeroPolicySet "search the web" (Cand_Skills cs) (RenderCard sample_tool) ≠ 0%Z)).
Proof.
  assert (Hn : nul_free (candidate_tenant searching_agent zeroPolicySet)) by (vm_compute; repeat split; discriminate).
  assert (Hg : GetForTenant sample_registry "acme" "search" = Some sample_tool) by (vm_compute; reflexivity).
  split; [exact Hg|].
  destruct (offered_iff_callable sample_provider eq_refl searching_agent zeroPolicySet "search the web" world0
    sample_registry sample_registry_history Hn) as (cs & w' & E & _ & Hiff).
  exists cs, w'. split; [exact E|].
  exact (Hiff "search" sample_tool search_request Hg ltac:(discriminate) eq_refl eq_refl eq_refl).
Defined.

Example search_is_offered :
  match Candidates sample_provider searching_agent zeroPolicySet "search the web" world0 sample_registry with
  | (Ok cs, _, _) => map Card_ToolID (Cand_Tools cs) = ["search"]
  | _ => False
  end.
Proof. vm_compute. reflexivity. Qed.
