(* ===== verification/Compile.v ===== *)
(** * The compiler of agent packages: internal/agentdef/package/compiler.go

    From the source of a package to the definition of the agent that runs, or the first error in
    the source.  A validator returns its first error.  [Compile] fills in the defaults of the exported
    tools in the slice that the source holds, so that it also returns the source as it leaves it. *)

From stdpp Require Import base list strings gmap fin_maps.
From Stdlib Require Import Ascii Lia SpecFloat.
From S2P Require Import Prelude Contracts GoMonad Policies.
Open Scope go_scope.
Open Scope string_scope.
Open Scope list_scope.

Record AgentPackageSource := mkAgentPackageSource {
  Src_SourceKind : AgentSourceKind;
  Src_ProviderID : string;
  Src_ManifestVersion : string;
  Src_AgentsMD : string;
  Src_Prompt : string;
  Src_Strategies : AgentStrategies;
  Src_ToolBindings : AgentToolsConfig;
  Src_Skills : list SkillDefinitionRef;
  Src_SkillDefinitions : list SkillDefinition;
  Src_Collaborators : list AgentCollaboratorRef;
  Src_Exports : AgentExports;
  Src_RuntimeHooks : AgentRuntimeHooks;
  Src_Metadata : gmap string Any
}.
#[export] Instance eta_AgentPackageSource : Settable AgentPackageSource :=
  fields! mkAgentPackageSource < Src_SourceKind ; Src_ProviderID ; Src_ManifestVersion ; Src_AgentsMD ;
    Src_Prompt ; Src_Strategies ; Src_ToolBindings ; Src_Skills ; Src_SkillDefinitions ;
    Src_Collaborators ; Src_Exports ; Src_RuntimeHooks ; Src_Metadata >.
Definition zeroAgentPackageSource : AgentPackageSource :=
  mkAgentPackageSource "" "" "" "" "" zeroAgentStrategies zeroAgentToolsConfig [] [] [] zeroAgentExports
    zeroAgentRuntimeHooks ∅.

(** The fields of a plugin are those of a source but for the kind. *)
Record AgentPluginSource := mkAgentPluginSource {
  Plugin_ProviderID : string;
  Plugin_ManifestVersion : string;
  Plugin_AgentsMD : string;
  Plugin_Prompt : string;
  Plugin_Strategies : AgentStrategies;
  Plugin_ToolBindings : AgentToolsConfig;
  Plugin_Skills : list SkillDefinitionRef;
  Plugin_SkillDefinitions : list SkillDefinition;
  Plugin_Collaborators : list AgentCollaboratorRef;
  Plugin_Exports : AgentExports;
  Plugin_RuntimeHooks : AgentRuntimeHooks;
  Plugin_Metadata : gmap string Any
}.

Definition PackageSourceFromPlugin (plugin : AgentPluginSource) : AgentPackageSource :=
  mkAgentPackageSource AgentSourceKindPlugin plugin.(Plugin_ProviderID) plugin.(Plugin_ManifestVersion)
    plugin.(Plugin_AgentsMD) plugin.(Plugin_Prompt) plugin.(Plugin_Strategies) plugin.(Plugin_ToolBindings)
    plugin.(Plugin_Skills) plugin.(Plugin_SkillDefinitions) plugin.(Plugin_Collaborators)
    plugin.(Plugin_Exports) plugin.(Plugin_RuntimeHooks) plugin.(Plugin_Metadata).

(** ** Validation *)

(** The first error of several checks; each later check runs only when the earlier ones pass. *)
Fixpoint first_of (checks : list (option error)) : option error :=
  match checks with
  | [] => None
  | Some err :: _ => Some err
  | None :: checks => first_of checks
  end.
Definition fails (bad : bool) (path message : string) : option error :=
  if bad then Some (ErrCompile path message) else None.
(** An error of a value, under the path it was found at. *)
Definition at_path (path : string) (err : option error) : option error :=
  option_map (λ err, ErrCompile path (Error err)) err.
Definition unless_empty (value : string) (err : option error) : option error :=
  if value == "" then None else err.

(** A loop over a list with the set of what it has seen. *)
Fixpoint check_seen {A} (key : A → string) (check : list string → A → option error) (seen : list string)
    (l : list A) : option error :=
  match l with
  | [] => None
  | x :: l =>
      match check seen x with Some err => Some err | None => check_seen key check (key x :: seen) l end
  end.

Definition or_default (value fallback : string) : string := if value == "" then fallback else value.
Definition blank (s : string) : bool := TrimSpace s == "".
Definition negative (z : Z) : bool := (z <? 0)%Z.
Definition some_and {A} (bad : A → bool) (value : option A) : bool :=
  match value with Some a => bad a | None => false end.

Definition validStrategyMode (value : string) (allowed : list string) : bool :=
  mem_string (TrimSpace value) allowed.

Definition must_be_natural : string := "must be greater than or equal to 0".

(** A list of ids: none empty, none twice. *)
Definition validateStringIDs (path : string) (values : list string) : option error :=
  check_seen TrimSpace (λ seen value, first_of [
    fails (TrimSpace value == "") path "contains empty value";
    fails (mem_string (TrimSpace value) seen) path
      (Sprintf "contains duplicate value %q" [TrimSpace value])]) [] values.
Definition validateKnowledgeBaseIDs (path : string) (values : list string) : option error :=
  check_seen TrimSpace (λ seen value, first_of [
    fails (TrimSpace value == "") path "contains empty value";
    fails (mem_string (TrimSpace value) seen) path
      (Sprintf "contains duplicate value %q" [TrimSpace value])]) [] values.

(** The first id of the right that is one of the left. *)
Definition firstStringConflict (left right : list string) : string :=
  let seen := List.filter (λ value, value != "") (map TrimSpace left) in
  default "" (List.find (λ value, mem_string value seen) (map TrimSpace right)).
Definition no_conflict (left right : list string) (message : string) : option error :=
  let conflict := firstStringConflict left right in
  if conflict == "" then None else Some (ErrCompile "strategies.tools" (Sprintf message [conflict])).

Definition appendUniqueString (values : list string) (value : string) : list string :=
  let value := TrimSpace value in
  if value == "" then values else if mem_string value values then values else values ++ [value].

Definition normalizeSourceKind (kind : AgentSourceKind) : error + AgentSourceKind :=
  if (kind == "") || (kind == AgentSourceKindPackage) then inr AgentSourceKindPackage
  else if kind == AgentSourceKindPlugin then inr AgentSourceKindPlugin
  else inl (ErrCompile "source_kind" (Sprintf "unknown agent source kind %q" [kind])).

(** No key of the metadata may be one of these. *)
Definition keys_absent (metadata : gmap string Any) (prefix message : string) (keys : list string)
    : option error :=
  first_of (map (λ key, fails (bool_decide (is_Some (metadata !! key))) (prefix +:+ key) message) keys).

Definition ValidatePluginSourceMetadata (metadata : gmap string Any) : option error :=
  keys_absent metadata "plugin.metadata."
    "connection facts for plugin_service sources must come from ToolProvider.service_connection_id"
    ["service_connection_id"; "connection_id"; "base_url"; "endpoint"; "auth_ref"; "token_ref"; "secret_ref"].

Definition ValidateSourceMetadata (metadata : gmap string Any) : option error :=
  keys_absent metadata "metadata." "agent behavior fields must use structured source fields or strategies"
    ["identity_prompt"; "system_prompt"; "developer_prompt"; "skills"; "skill_definitions"; "tool_bindings";
     "collaborators"; "exports"; "runtime_hooks"; "strategies"; "runtime"; "max_steps"; "max_tool_calls";
     "max_duration_seconds"; "max_prompt_tokens"; "max_handoff_depth"; "max_child_tasks";
     "max_model_retries"; "max_repair_attempts"; "max_consecutive_tool_failures"].

(** One list of [tool-bindings.yaml]: no empty id, and none that is denied. *)
Definition check_bindings (field kind what : string) (denied ids : list string) : option error :=
  first_of (map (λ id, first_of [
    fails (blank id) "tool-bindings.yaml" (field +:+ " contains empty " +:+ kind +:+ " id");
    fails (mem_string id denied) "tool-bindings.yaml" (Sprintf (what +:+ " %q appears in both " +:+ field +:+
      " and denied_" +:+ (if kind == "tool" then "tool_ids" else "tool_group_ids")) [id])]) ids).

Definition validateToolBindings (tools : AgentToolsConfig) : option error :=
  first_of [
    check_bindings "denied_tool_ids" "tool" "tool" [] tools.(ToolsCfg_DeniedToolIDs);
    check_bindings "allowed_tool_ids" "tool" "tool" tools.(ToolsCfg_DeniedToolIDs) tools.(ToolsCfg_AllowedToolIDs);
    check_bindings "exposed_tool_ids" "tool" "tool" tools.(ToolsCfg_DeniedToolIDs) tools.(ToolsCfg_ExposedToolIDs);
    check_bindings "denied_tool_group_ids" "group" "tool group" [] tools.(ToolsCfg_DeniedToolGroupIDs);
    check_bindings "allowed_tool_group_ids" "group" "tool group" tools.(ToolsCfg_DeniedToolGroupIDs)
      tools.(ToolsCfg_AllowedToolGroupIDs)].

Definition validCollaboratorStatus (status : string) : bool :=
  mem_string (ToLower (TrimSpace status)) ["enabled"; "active"; "disabled"; "deleted"].

Definition check_collaborator (seen : list string) (c : AgentCollaboratorRef) : option error :=
  let path := "collaborators." +:+ c.(Collab_AgentID) in
  first_of [
    fails (c.(Collab_AgentID) == "") "collaborators" "agent_id is required";
    fails (mem_string c.(Collab_AgentID) seen) "collaborators"
      (Sprintf "duplicate collaborator %q" [c.(Collab_AgentID)]);
    unless_empty c.(Collab_DefaultHandoffMode)
      (at_path (path +:+ ".default_handoff_mode") (HandoffMode_Validate c.(Collab_DefaultHandoffMode)));
    first_of (map (λ mode, at_path (path +:+ ".allowed_handoff_modes") (HandoffMode_Validate mode))
      c.(Collab_AllowedHandoffModes));
    fails (negative c.(Collab_MaxContextTokens)) (path +:+ ".max_context_tokens") must_be_natural;
    fails ((c.(Collab_Status) != "") && negb (validCollaboratorStatus c.(Collab_Status))) (path +:+ ".status")
      (Sprintf "unknown collaborator status %q" [c.(Collab_Status)])].
Definition validateCollaborators (collaborators : list AgentCollaboratorRef) : option error :=
  check_seen Collab_AgentID check_collaborator [] collaborators.

(** ** Hooks *)

Definition hook_phases : list string :=
  ["before_context_build"; "after_candidate_retrieval"; "before_model_call"; "before_memory_write"].
Definition unknown_value (path what : string) (allowed : list string) (value : string) : option error :=
  fails (negb (mem_string (TrimSpace value) allowed)) path
    (Sprintf ("unknown runtime hook " +:+ what +:+ " %q") [value]).

Definition validateRuntimeHookApprovalPolicy (hookID : string) (policy : RuntimeHookApprovalPolicy)
    : option error :=
  let path := "runtime_hooks.hooks." +:+ hookID +:+ ".approval_policy." in
  first_of [
    first_of (map (unknown_value (path +:+ "provider_types") "provider_type" [""; "go"; "static_hook_host"])
      policy.(HookAppr_ProviderTypes));
    first_of (map (unknown_value (path +:+ "phases") "phase" ("" :: hook_phases)) policy.(HookAppr_Phases));
    first_of (map (unknown_value (path +:+ "failure_policies") "failure_policy" [""; "ignore"; "reject"])
      policy.(HookAppr_FailurePolicies))].

Definition check_hook (seen : list string) (hook : AgentRuntimeHookBinding) : option error :=
  let path := "runtime_hooks.hooks." +:+ hook.(HookBind_HookID) in
  first_of [
    fails (blank hook.(HookBind_HookID)) "runtime_hooks.hooks" "hook_id is required";
    fails (mem_string hook.(HookBind_HookID) seen) "runtime_hooks.hooks"
      (Sprintf "duplicate hook %q" [hook.(HookBind_HookID)]);
    fails (blank hook.(HookBind_Phase)) path "phase is required";
    unknown_value (path +:+ ".phase") "phase" hook_phases hook.(HookBind_Phase);
    unknown_value (path +:+ ".provider_type") "provider_type" [""; "go"; "static_hook_host"]
      hook.(HookBind_ProviderType);
    unknown_value (path +:+ ".failure_policy") "failure_policy" [""; "ignore"; "reject"]
      hook.(HookBind_FailurePolicy);
    validateRuntimeHookApprovalPolicy hook.(HookBind_HookID) hook.(HookBind_ApprovalPolicy)].

Definition validateRuntimeHooks (runtimeHooks : AgentRuntimeHooks) : option error :=
  let mode := TrimSpace runtimeHooks.(Hooks_Mode) in
  if (mode == "") && negb (nonempty runtimeHooks.(Hooks_Hooks)) then None else
  first_of [
    fails ((mode != "") && negb (mem_string mode ["disabled"; "data_hooks"; "strategy_hooks"]))
      "runtime_hooks.mode" (Sprintf "unknown runtime_hooks mode %q" [mode]);
    check_seen HookBind_HookID check_hook [] runtimeHooks.(Hooks_Hooks)].

(** ** Strategies *)

Definition natural_at (prefix : string) (check : string * option Z) : option error :=
  fails (some_and negative check.2) (prefix +:+ check.1) must_be_natural.
Definition unknown_mode (path what value : string) (allowed : list string) : option error :=
  fails (negb (validStrategyMode value allowed)) path (Sprintf ("unknown " +:+ what +:+ " %q") [value]).

(** The float 2. *)
Definition float64_two : float64 := S754_finite false 4503599627370496 (-51).

Definition validateModelStrategy (s : ModelStrategy) : option error :=
  if blank s.(ModelS_Provider) && blank s.(ModelS_Model) && (s.(ModelS_MaxOutputTokens) =? 0)%Z &&
     negb (some_and (λ _, true) s.(ModelS_Temperature)) && blank s.(ModelS_Thinking) &&
     blank s.(ModelS_ReasoningEffort) && (s.(ModelS_TimeoutMS) =? 0)%Z &&
     negb (some_and (λ _, true) s.(ModelS_Streaming))
  then None else
  first_of [
    fails (negative s.(ModelS_MaxOutputTokens)) "strategies.model.max_output_tokens" must_be_natural;
    fails (negative s.(ModelS_TimeoutMS)) "strategies.model.timeout_ms" must_be_natural;
    fails (some_and (λ t, SFltb t float64_zero || SFltb float64_two t) s.(ModelS_Temperature))
      "strategies.model.temperature" "must be between 0 and 2"].

Definition validateContextCompressionStrategy (s : ContextCompressionStrategy) : option error :=
  let path := "strategies.context.compression." in
  first_of [
    unknown_mode (path +:+ "mode") "compression mode" s.(Compr_Mode)
      [""; "none"; "truncate"; "llm"; "llm_then_truncate"];
    unknown_mode (path +:+ "failure_mode") "compression failure_mode" s.(Compr_FailureMode)
      [""; "continue"; "reject"];
    first_of (map (λ check : string * Z, fails (negative check.2) (path +:+ check.1) must_be_natural)
      [("trigger_ratio", s.(Compr_TriggerRatio)); ("target_tokens", s.(Compr_TargetTokens));
       ("max_tokens", s.(Compr_MaxTokens))]);
    fails (s.(Compr_TriggerRatio) >? 100)%Z (path +:+ "trigger_ratio") "must be less than or equal to 100";
    fails s.(Compr_WriteSummaryToMemory) (path +:+ "write_summary_to_memory")
      "is reserved for a future memory summary feature";
    fails (some_and (λ p, blank p.(Profile_ProfileID)) s.(Compr_InlinePrompt))
      (path +:+ "inline_prompt.profile_id") "profile_id is required";
    fails (some_and (λ p, blank p.(Profile_SystemPrompt)) s.(Compr_InlinePrompt))
      (path +:+ "inline_prompt.system_prompt") "system_prompt is required"].

Definition check_budget (entry : string * Z) : option error :=
  first_of [
    fails (blank entry.1) "strategies.context.source_budgets" "contains empty source";
    fails (negative entry.2) ("strategies.context.source_budgets." +:+ entry.1) must_be_natural].

(** The budgets of the sources are a map: [budgets] is the order of this iteration over it. *)
Definition validateContextStrategy (budgets : list (string * Z)) (s : ContextStrategy) : option error :=
  first_of [
    unknown_mode "strategies.context.mode" "context mode" s.(CtxS_Mode)
      [""; "auto"; "concise"; "balanced"; "long_context"; "full_debug"];
    first_of (map (natural_at "strategies.context.")
      [("recent_message_limit", s.(CtxS_RecentMessageLimit));
       ("retrieval_max_results", s.(CtxS_RetrievalMaxResults));
       ("task_history_max_items", s.(CtxS_TaskHistoryMaxItems));
       ("memory_max_items", s.(CtxS_MemoryMaxItems));
       ("artifact_ref_max_items", s.(CtxS_ArtifactRefMaxItems));
       ("tool_result_max_items", s.(CtxS_ToolResultMaxItems));
       ("context_token_budget", s.(CtxS_ContextTokenBudget))]);
    first_of (map (λ source, fails (blank source) "strategies.context.enabled_sources" "contains empty source")
      s.(CtxS_EnabledSources));
    first_of (map check_budget budgets);
    validateContextCompressionStrategy s.(CtxS_Compression)].

Definition validateToolUseStrategy (s : ToolUseStrategy) : option error :=
  first_of [
    unknown_mode "strategies.tools.tool_choice_mode" "tool_choice_mode" s.(ToolS_ToolChoiceMode)
      [""; "auto"; "conservative"; "tool_first"; "no_tools"];
    natural_at "strategies.tools." ("max_tool_calls", s.(ToolS_MaxToolCalls));
    unless_empty s.(ToolS_RequireApprovalAtRiskLevel)
      (at_path "strategies.tools.require_approval_at_risk_level"
         (RiskLevel_Validate s.(ToolS_RequireApprovalAtRiskLevel)));
    validateStringIDs "strategies.tools.allowed_tool_ids" s.(ToolS_AllowedToolIDs);
    validateStringIDs "strategies.tools.allowed_tool_group_ids" s.(ToolS_AllowedToolGroupIDs);
    validateStringIDs "strategies.tools.denied_tool_ids" s.(ToolS_DeniedToolIDs);
    validateStringIDs "strategies.tools.denied_tool_group_ids" s.(ToolS_DeniedToolGroupIDs);
    validateStringIDs "strategies.tools.preferred_tool_ids" s.(ToolS_PreferredToolIDs);
    no_conflict s.(ToolS_AllowedToolIDs) s.(ToolS_DeniedToolIDs)
      "tool %q appears in both allowed_tool_ids and denied_tool_ids";
    no_conflict s.(ToolS_AllowedToolGroupIDs) s.(ToolS_DeniedToolGroupIDs)
      "tool group %q appears in both allowed_tool_group_ids and denied_tool_group_ids"].

Definition validateSkillUseStrategy (s : SkillUseStrategy) : option error :=
  first_of [
    unknown_mode "strategies.skills.selection_mode" "selection_mode" s.(SkillS_SelectionMode)
      [""; "auto"; "explicit_only"; "all_enabled"];
    fails (negative s.(SkillS_MaxSelectedSkills)) "strategies.skills.max_selected_skills" must_be_natural;
    validateStringIDs "strategies.skills.enabled_skill_ids" s.(SkillS_EnabledSkillIDs);
    validateStringIDs "strategies.skills.disabled_skill_ids" s.(SkillS_DisabledSkillIDs);
    let conflict := firstStringConflict s.(SkillS_EnabledSkillIDs) s.(SkillS_DisabledSkillIDs) in
    fails (conflict != "") "strategies.skills"
      (Sprintf "skill %q appears in both enabled_skill_ids and disabled_skill_ids" [conflict])].

Definition validateRuntimeStrategy (s : RuntimeStrategy) : option error :=
  first_of [
    fails (some_and (λ n, (n <=? 0)%Z) s.(RunS_MaxSteps)) "strategies.runtime.max_steps"
      "must be greater than 0";
    fails (some_and (λ n, (n <=? 0)%Z) s.(RunS_MaxDurationSeconds))
      "strategies.runtime.max_duration_seconds" "must be greater than 0";
    natural_at "strategies.runtime." ("max_model_retries", s.(RunS_MaxModelRetries));
    natural_at "strategies.runtime." ("max_consecutive_tool_failures", s.(RunS_MaxConsecutiveToolFailures));
    unknown_mode "strategies.runtime.execution_mode" "execution_mode" s.(RunS_ExecutionMode)
      [""; "sync"; "async"]].

Definition validateRepairStrategy (s : RepairStrategy) : option error :=
  first_of [
    natural_at "strategies.repair." ("max_repair_attempts", s.(RepS_MaxRepairAttempts));
    unknown_mode "strategies.repair.failure_mode" "failure_mode" s.(RepS_FailureMode)
      [""; "stop"; "continue"; "request_model_repair"];
    first_of (map (λ code, fails (blank code) "strategies.repair.repairable_error_codes"
      "contains empty error code") s.(RepS_RepairableErrorCodes))].

Definition validateCollaborationStrategy (s : CollaborationStrategy) : option error :=
  first_of [
    unknown_mode "strategies.collaboration.delegation_mode" "delegation_mode" s.(CollabS_DelegationMode)
      [""; "disabled"; "explicit"; "auto"];
    natural_at "strategies.collaboration." ("max_handoff_depth", s.(CollabS_MaxHandoffDepth));
    natural_at "strategies.collaboration." ("max_child_tasks", s.(CollabS_MaxChildTasks));
    natural_at "strategies.collaboration." ("max_context_tokens", s.(CollabS_MaxContextTokens));
    unless_empty s.(CollabS_DefaultHandoffMode)
      (at_path "strategies.collaboration.default_handoff_mode"
         (HandoffMode_Validate s.(CollabS_DefaultHandoffMode)))].

Definition validateMemoryStrategy (s : MemoryUseStrategy) : option error :=
  let no_blank path := map (λ scope, fails (blank scope) path "contains empty scope") in
  first_of [
    natural_at "strategies.memory." ("max_memory_items", s.(MemS_MaxMemoryItems));
    unknown_mode "strategies.memory.auto_write_mode" "auto_write_mode" s.(MemS_AutoWriteMode)
      [""; "disabled"; "explicit_intent"];
    first_of (no_blank "strategies.memory.read_scopes" s.(MemS_ReadScopes));
    first_of (no_blank "strategies.memory.write_scopes" s.(MemS_WriteScopes))].

Definition validateKnowledgeStrategy (s : KnowledgeUseStrategy) : option error :=
  first_of [
    unknown_mode "strategies.knowledge.search_mode" "search_mode" s.(KnowS_SearchMode)
      [""; KnowledgeSearchBM25; KnowledgeSearchEmbedding; KnowledgeSearchHybrid];
    unknown_mode "strategies.knowledge.inject_mode" "inject_mode" s.(KnowS_InjectMode) [""; "tool_only"];
    fails (negative s.(KnowS_MaxResults)) "strategies.knowledge.max_results" must_be_natural;
    validateKnowledgeBaseIDs "strategies.knowledge.knowledge_base_ids" s.(KnowS_KnowledgeBaseIDs)].

Definition validateOutputStrategy (s : OutputStrategy) : option error :=
  first_of [
    unknown_mode "strategies.output.output_mode" "output_mode" s.(OutS_OutputMode) [""; "decision_json"];
    fails (0 <? size s.(OutS_OutputSchema))%nat "strategies.output.output_schema"
      "agent-level output schema is reserved for a future output strategy feature"].

Definition validateAgentStrategies (budgets : list (string * Z)) (s : AgentStrategies) : option error :=
  first_of [
    validateContextStrategy budgets s.(Strat_Context);
    validateModelStrategy s.(Strat_Model);
    validateToolUseStrategy s.(Strat_Tools);
    validateSkillUseStrategy s.(Strat_Skills);
    validateRuntimeStrategy s.(Strat_Runtime);
    validateRepairStrategy s.(Strat_Repair);
    validateCollaborationStrategy s.(Strat_Collaboration);
    validateMemoryStrategy s.(Strat_Memory);
    validateKnowledgeStrategy s.(Strat_Knowledge);
    validateOutputStrategy s.(Strat_Output)].

(** ** What the strategies change *)

Definition applyPromptStrategy (strategy : PromptStrategy) (d : AgentDefinition) : AgentDefinition :=
  let d := if blank strategy.(PromptS_IdentityPrompt) then d
           else d <| Agent_IdentityPrompt := TrimSpace strategy.(PromptS_IdentityPrompt) |> in
  let d := if blank strategy.(PromptS_SystemPrompt) then d
           else d <| Agent_SystemPrompt := TrimSpace strategy.(PromptS_SystemPrompt) |> in
  if blank strategy.(PromptS_DeveloperPrompt) then d
  else d <| Agent_DeveloperPrompt := TrimSpace strategy.(PromptS_DeveloperPrompt) |>.

(** A list of the strategy replaces that of the bindings, unless it is empty. *)
Definition replace_list (strategy bindings : list string) : list string :=
  if nonempty strategy then strategy else bindings.

Definition applyToolUseStrategy (strategy : ToolUseStrategy) (d : AgentDefinition) : AgentDefinition :=
  let t := d.(Agent_Tools) in
  let d := d <| Agent_Tools := t
    <| ToolsCfg_AllowedToolIDs := replace_list strategy.(ToolS_AllowedToolIDs) t.(ToolsCfg_AllowedToolIDs) |>
    <| ToolsCfg_AllowedToolGroupIDs :=
         replace_list strategy.(ToolS_AllowedToolGroupIDs) t.(ToolsCfg_AllowedToolGroupIDs) |>
    <| ToolsCfg_DeniedToolIDs := replace_list strategy.(ToolS_DeniedToolIDs) t.(ToolsCfg_DeniedToolIDs) |>
    <| ToolsCfg_DeniedToolGroupIDs :=
         replace_list strategy.(ToolS_DeniedToolGroupIDs) t.(ToolsCfg_DeniedToolGroupIDs) |> |> in
  d <| Agent_Runtime := d.(Agent_Runtime)
    <| Limits_MaxToolCalls := default d.(Agent_Runtime).(Limits_MaxToolCalls) strategy.(ToolS_MaxToolCalls) |> |>.

(** [time.Duration(seconds) * time.Second] *)
Definition duration_of_seconds (seconds : Z) : Z := int64 (seconds * 1000000000).

Definition applyRuntimeStrategy (strategy : RuntimeStrategy) (d : AgentDefinition) : AgentDefinition :=
  let r := d.(Agent_Runtime) in
  d <| Agent_Runtime := r
    <| Limits_MaxSteps := default r.(Limits_MaxSteps) strategy.(RunS_MaxSteps) |>
    <| Limits_MaxDuration :=
         from_option duration_of_seconds r.(Limits_MaxDuration) strategy.(RunS_MaxDurationSeconds) |>
    <| Limits_MaxModelRetries := default r.(Limits_MaxModelRetries) strategy.(RunS_MaxModelRetries) |>
    <| Limits_MaxConsecutiveToolFailures :=
         default r.(Limits_MaxConsecutiveToolFailures) strategy.(RunS_MaxConsecutiveToolFailures) |> |>.

Definition applyRepairStrategy (strategy : RepairStrategy) (d : AgentDefinition) : AgentDefinition :=
  let r := d.(Agent_Runtime) in
  d <| Agent_Runtime := r <| Limits_MaxRepairAttempts :=
    match strategy.(RepS_Enabled) with
    | Some false => 0%Z
    | _ => default r.(Limits_MaxRepairAttempts) strategy.(RepS_MaxRepairAttempts)
    end |> |>.

Definition applyCollaborationStrategy (strategy : CollaborationStrategy) (d : AgentDefinition)
    : AgentDefinition :=
  let r := d.(Agent_Runtime) in
  let d := d <| Agent_Runtime := r
    <| Limits_MaxHandoffDepth := default r.(Limits_MaxHandoffDepth) strategy.(CollabS_MaxHandoffDepth) |>
    <| Limits_MaxChildTasks := default r.(Limits_MaxChildTasks) strategy.(CollabS_MaxChildTasks) |> |> in
  if TrimSpace strategy.(CollabS_DelegationMode) == "disabled"
  then d <| Agent_Tools := d.(Agent_Tools) <| ToolsCfg_DeniedToolIDs :=
         appendUniqueString d.(Agent_Tools).(ToolsCfg_DeniedToolIDs) "origin.agent.delegate" |> |>
  else d.

Definition applyCompiledStrategies (strategies : AgentStrategies) (d : AgentDefinition) : AgentDefinition :=
  let d := applyPromptStrategy strategies.(Strat_Prompt) d in
  let d := applyToolUseStrategy strategies.(Strat_Tools) d in
  let d := applyRuntimeStrategy strategies.(Strat_Runtime) d in
  let d := applyRepairStrategy strategies.(Strat_Repair) d in
  applyCollaborationStrategy strategies.(Strat_Collaboration) d.

Definition validateRuntimeLimits (limits : RuntimeLimits) : option error :=
  let path := "agent.yaml.runtime." in
  let positive (name : string) (value : Z) := fails (value <=? 0)%Z (path +:+ name) "must be greater than 0" in
  let natural (name : string) (value : Z) := fails (negative value) (path +:+ name) must_be_natural in
  first_of [
    positive "max_steps" limits.(Limits_MaxSteps);
    natural "max_tool_calls" limits.(Limits_MaxToolCalls);
    positive "max_duration_seconds" limits.(Limits_MaxDuration);
    positive "max_prompt_tokens" limits.(Limits_MaxPromptTokens);
    natural "max_handoff_depth" limits.(Limits_MaxHandoffDepth);
    natural "max_child_tasks" limits.(Limits_MaxChildTasks);
    natural "max_model_retries" limits.(Limits_MaxModelRetries);
    natural "max_repair_attempts" limits.(Limits_MaxRepairAttempts);
    natural "max_consecutive_tool_failures" limits.(Limits_MaxConsecutiveToolFailures)].

(** ** Exported tools *)

Definition validToolVisibility (visibility : ToolVisibility) : bool :=
  mem_string visibility [ToolPrivate; ToolProtected; ToolExposed].

(** The checks before any default is filled in. *)
Definition check_export (seen : list string) (tool : AgentExportedTool) : option error :=
  let path := "exports.tools." +:+ tool.(Exported_ToolID) in
  first_of [
    fails (blank tool.(Exported_ToolID)) "exports.tools" "tool_id is required";
    fails (mem_string tool.(Exported_ToolID) seen) "exports.tools"
      (Sprintf "duplicate exported tool %q" [tool.(Exported_ToolID)]);
    fails (blank tool.(Exported_Name)) path "name is required";
    fails (blank tool.(Exported_Description)) path "description is required";
    fails (negb (some_and (λ _, true) tool.(Exported_InputSchema))) path "input_schema is required"].

(** The body of the loop on one tool: its first error and what it has become. *)
Definition normalize_export (seen : list string) (tool : AgentExportedTool) : option error * AgentExportedTool :=
  let path := "exports.tools." +:+ tool.(Exported_ToolID) in
  match check_export seen tool with
  | Some err => (Some err, tool)
  | None =>
      let tool := tool <| Exported_RiskLevel := or_default tool.(Exported_RiskLevel) RiskLow |> in
      match RiskLevel_Validate tool.(Exported_RiskLevel) with
      | Some err => (Some (ErrCompile (path +:+ ".risk_level") (Error err)), tool)
      | None =>
          let tool := tool <| Exported_Visibility := or_default tool.(Exported_Visibility) ToolProtected |> in
          if negb (validToolVisibility tool.(Exported_Visibility)) then
            (Some (ErrCompile (path +:+ ".visibility")
               (Sprintf "unknown tool visibility %q" [tool.(Exported_Visibility)])), tool)
          else
            (None, tool <| Exported_Status := or_default tool.(Exported_Status) "enabled" |>
                        <| Exported_Version := or_default tool.(Exported_Version) "v1" |>
                        <| Exported_Operation := or_default tool.(Exported_Operation) tool.(Exported_ToolID) |>)
      end
  end.

Fixpoint normalize_exports (seen : list string) (tools : list AgentExportedTool)
    : option error * list AgentExportedTool :=
  match tools with
  | [] => (None, [])
  | tool :: tools =>
      match normalize_export seen tool with
      | (Some err, tool') => (Some err, tool' :: tools)
      | (None, tool') =>
          let '(err, tools') := normalize_exports (tool.(Exported_ToolID) :: seen) tools in
          (err, tool' :: tools')
      end
  end.

(** It works on the slice of tools in place. *)
Definition validateExports (exports : AgentExports) : option error * AgentExports :=
  let '(err, tools) := normalize_exports [] exports.(Exports_Tools) in (err, mkAgentExports tools).

(** ** Metadata *)

(** [strings.Split] at line feeds. *)
Fixpoint split_lines (s part : string) : list string :=
  match s with
  | EmptyString => [part]
  | String c s => if Ascii.eqb c (ascii_of_nat 10) then part :: split_lines s ""
                  else split_lines s (part +:+ String c EmptyString)
  end.
Definition firstLine (value fallback : string) : string :=
  default fallback (List.find (λ line, line != "")
    (map (λ line, TrimSpace (TrimPrefix line "#")) (split_lines value ""))).

Definition metadataString (metadata : gmap string Any) (key fallback : string) : string :=
  match metadata !! key with
  | Some (AString value) => if blank value then fallback else TrimSpace value
  | _ => fallback
  end.

(** ** Skills *)

Definition skill_identity (skillID version : string) : string := TrimSpace skillID +:+ "@" +:+ TrimSpace version.

Definition validateSkillRefs (refs : list SkillDefinitionRef) : option error :=
  let identity ref := skill_identity ref.(SkillRef_SkillID) ref.(SkillRef_Version) in
  check_seen identity (λ seen ref, first_of [
    fails (blank ref.(SkillRef_SkillID)) "skills" "skill_id is required";
    fails (mem_string (identity ref) seen) "skills" (Sprintf "duplicate skill ref %q" [identity ref])]) [] refs.

Definition skillResourceIDs (resources : list SkillResourceRef) : list string := map SkillRes_ResourceID resources.

Definition definition_identity (d : SkillDefinition) : string :=
  skill_identity d.(Skill_Card).(SkillCard_SkillID) d.(Skill_Card).(SkillCard_Version).

(** The card of a definition with its defaults. *)
Definition normal_card (d : SkillDefinition) : SkillCard :=
  let card := d.(Skill_Card) in
  let card := card <| SkillCard_SkillID := TrimSpace card.(SkillCard_SkillID) |>
                   <| SkillCard_Version := TrimSpace card.(SkillCard_Version) |> in
  let card := if blank card.(SkillCard_Name) then card <| SkillCard_Name := card.(SkillCard_SkillID) |> else card in
  let card := if blank card.(SkillCard_Description)
              then card <| SkillCard_Description := card.(SkillCard_Name) |> else card in
  let card := if blank card.(SkillCard_Status) then card <| SkillCard_Status := "enabled" |> else card in
  let card := card <| SkillCard_RiskLevel := or_default card.(SkillCard_RiskLevel) RiskLow |> in
  if nonempty d.(Skill_Resources) && negb (nonempty card.(SkillCard_ResourceRefs))
  then card <| SkillCard_ResourceRefs := skillResourceIDs d.(Skill_Resources) |> else card.

Definition normal_instruction (d : SkillDefinition) : SkillInstruction :=
  let instruction := d.(Skill_Instruction) in
  if blank instruction.(SkillInstr_SkillID)
  then instruction <| SkillInstr_SkillID := TrimSpace d.(Skill_Card).(SkillCard_SkillID) |> else instruction.

Definition normal_skill (d : SkillDefinition) : SkillDefinition :=
  d <| Skill_Card := normal_card d |> <| Skill_Instruction := normal_instruction d |>.

Definition check_skill (seen : list string) (d : SkillDefinition) : option error :=
  let skillID := TrimSpace d.(Skill_Card).(SkillCard_SkillID) in
  let path := "skill_definitions." +:+ skillID in
  let n := normal_skill d in
  first_of [
    fails (skillID == "") "skill_definitions.card.skill_id" "skill_id is required";
    fails (mem_string (definition_identity d) seen) "skill_definitions"
      (Sprintf "duplicate skill definition %q" [definition_identity d]);
    fails (negb (mem_string n.(Skill_Card).(SkillCard_Status) ["enabled"; "disabled"])) (path +:+ ".status")
      (Sprintf "unknown skill status %q" [n.(Skill_Card).(SkillCard_Status)]);
    at_path (path +:+ ".risk_level") (RiskLevel_Validate n.(Skill_Card).(SkillCard_RiskLevel));
    fails (n.(Skill_Instruction).(SkillInstr_SkillID) != skillID) (path +:+ ".instruction.skill_id")
      "must match card.skill_id";
    first_of (map (λ r, fails (blank r.(SkillRes_ResourceID) || blank r.(SkillRes_Type) || blank r.(SkillRes_URI))
      (path +:+ ".resources") "resource_id, type, and uri are required") d.(Skill_Resources))].

Definition normalizeSkillDefinitions (definitions : list SkillDefinition) : error + list SkillDefinition :=
  match check_seen definition_identity check_skill [] definitions with
  | Some err => inl err
  | None => inr (map normal_skill definitions)
  end.

(** ** Compilation *)

(** The checks before those of the exported tools. *)
Definition check_source (budgets : list (string * Z)) (agentID version : string) (sourceKind : AgentSourceKind)
    (source : AgentPackageSource) : option error :=
  first_of [
    fails (agentID == "") "agent.yaml" "agent_id is required";
    fails (version == "") "agent.yaml" "version is required";
    fails ((sourceKind == AgentSourceKindPlugin) && blank source.(Src_ProviderID)) "plugin.provider_id"
      "provider_id is required for plugin_service source";
    ValidateSourceMetadata source.(Src_Metadata);
    if sourceKind == AgentSourceKindPlugin then ValidatePluginSourceMetadata source.(Src_Metadata) else None;
    fails (blank source.(Src_AgentsMD) && blank source.(Src_Prompt)) "AGENTS.md" "agents_md or prompt is required";
    validateToolBindings source.(Src_ToolBindings);
    validateCollaborators source.(Src_Collaborators);
    validateRuntimeHooks source.(Src_RuntimeHooks);
    validateAgentStrategies budgets source.(Src_Strategies)].

Definition default_limits : RuntimeLimits := mkRuntimeLimits 8 8 60000000000 4000 0 0 1 1 2.

Definition initial_definition (agentID version : string) (sourceKind : AgentSourceKind)
    (source : AgentPackageSource) (exports : AgentExports) (now : Time) : AgentDefinition :=
  let text key fallback := metadataString source.(Src_Metadata) key fallback in
  zeroAgentDefinition
    <| Agent_AgentID := agentID |> <| Agent_Version := version |> <| Agent_SourceKind := sourceKind |>
    <| Agent_SourceProviderID := TrimSpace source.(Src_ProviderID) |>
    <| Agent_ManifestVersion := TrimSpace source.(Src_ManifestVersion) |>
    <| Agent_ManifestHash := text "manifest_hash" "" |>
    <| Agent_CarrierKind := CarrierKindForSource sourceKind |>
    <| Agent_RuntimeContract := RuntimeContractManaged |>
    <| Agent_ConformanceStatus := RuntimeConformanceUnknown |>
    <| Agent_Name := text "name" agentID |>
    <| Agent_Description := text "description" (firstLine source.(Src_AgentsMD) "Published agent package definition.") |>
    <| Agent_IdentityPrompt := if blank source.(Src_Prompt) then TrimSpace source.(Src_AgentsMD)
                               else TrimSpace source.(Src_Prompt) |>
    <| Agent_SystemPrompt := "Return decisions as JSON." |>
    <| Agent_Tools := source.(Src_ToolBindings) |> <| Agent_Skills := source.(Src_Skills) |>
    <| Agent_Collaborators := source.(Src_Collaborators) |> <| Agent_Exports := exports |>
    <| Agent_RuntimeHooks := source.(Src_RuntimeHooks) |>
    <| Agent_PolicyRefs := mkAgentPolicyRefs (text "policy_set_id" "policy_default") |>
    <| Agent_Strategies := source.(Src_Strategies) |> <| Agent_Runtime := default_limits |>
    <| Agent_ContractVersion := "v1.0-alpha" |> <| Agent_CreatedAt := now |>.

(** The checks after the strategies are applied. *)
Definition finish_definition (source : AgentPackageSource) (definition : AgentDefinition)
    : error + AgentDefinition :=
  match first_of [validateRuntimeLimits definition.(Agent_Runtime); validateSkillRefs definition.(Agent_Skills)] with
  | Some err => inl err
  | None =>
      match normalizeSkillDefinitions source.(Src_SkillDefinitions) with
      | inl err => inl err
      | inr skillDefinitions => inr (definition <| Agent_SkillDefinitions := skillDefinitions |>)
      end
  end.

Section compile.
Context `{Env} {S : Type}.

(** The result, and the source with the exported tools as [validateExports] left them. *)
Definition Compile (agentID version : string) (source : AgentPackageSource)
    : M S ((error + AgentDefinition) * AgentPackageSource) :=
  match normalizeSourceKind source.(Src_SourceKind) with
  | inl err => ret (inl err, source)
  | inr sourceKind =>
      let! budgets := range_map source.(Src_Strategies).(Strat_Context).(CtxS_SourceBudgets) in
      match check_source budgets agentID version sourceKind source with
      | Some err => ret (inl err, source)
      | None =>
          let '(err, exports) := validateExports source.(Src_Exports) in
          let source := source <| Src_Exports := exports |> in
          match err with
          | Some err => ret (inl err, source)
          | None =>
              let! now := time_Now in
              let definition := initial_definition agentID version sourceKind source exports now in
              let definition := applyCompiledStrategies source.(Src_Strategies) definition in
              ret (finish_definition source definition, source)
          end
      end
  end.

Definition CompilePlugin (agentID version : string) (plugin : AgentPluginSource) : M S (error + AgentDefinition) :=
  let! compiled := Compile agentID version (PackageSourceFromPlugin plugin) in ret compiled.1.
End compile.

(** ** Checks that pass *)

Arguments blank : simpl never.
Arguments or_default : simpl never.
Arguments validToolVisibility : simpl never.
Arguments RiskLevel_Validate : simpl never.
Arguments HandoffMode_Validate : simpl never.

Lemma first_of_None checks : first_of checks = None ↔ Forall (λ c, c = None) checks.
Proof.
  induction checks as [|[err|] checks IH]; cbn.
  - split; [constructor|done].
  - split; [done|]. intros H. by inversion H.
  - rewrite IH. split; [by constructor|intros H; by inversion H].
Qed.
Lemma first_of_map {A} (check : A → option error) l :
  first_of (map check l) = None ↔ ∀ x, x ∈ l → check x = None.
Proof. by rewrite first_of_None, Forall_map, Forall_forall. Qed.
Lemma fails_None bad path message : fails bad path message = None ↔ bad = false.
Proof. by destruct bad. Qed.
Lemma at_path_None path err : at_path path err = None ↔ err = None.
Proof. by destruct err. Qed.

(** Takes a chain of checks that all pass apart. *)
Ltac passed H := rewrite first_of_None in H; rewrite ?Forall_cons in H; rewrite ?fails_None, ?at_path_None in H.

Lemma check_seen_None {A} (key : A → string) check (P : A → Prop) (l : list A) :
  (∀ seen x, check seen x = None → key x ∉ seen ∧ P x) →
  ∀ seen, check_seen key check seen l = None →
  NoDup (map key l) ∧ ∀ x, x ∈ l → key x ∉ seen ∧ P x.
Proof.
  intros Hc. induction l as [|x l IH]; intros seen; cbn [check_seen map].
  { intros _. split; [constructor|intros x Hx; by apply not_elem_of_nil in Hx]. }
  destruct (check seen x) eqn:E; [done|]. intros H. destruct (Hc _ _ E) as [Hx Px].
  destruct (IH _ H) as [Hn Hl]. split.
  - constructor; [|done]. intros (y & Ey & Hy)%list_elem_of_fmap. destruct (Hl y Hy) as [Hy' _]. set_solver.
  - intros y [->|Hy]%elem_of_cons; [done|]. destruct (Hl y Hy). set_solver.
Qed.

(** A check of each element against what came before passes or fails by the elements alone, where it only
    asks that the keys are distinct. *)
Lemma check_seen_pass {A} (key : A → string) check (l : list A) :
  (∀ seen x, x ∈ l → key x ∉ seen → check seen x = None) →
  ∀ seen, NoDup (map key l) → (∀ x, x ∈ l → key x ∉ seen) → check_seen key check seen l = None.
Proof.
  induction l as [|x l IH]; intros Hc seen; cbn [check_seen map]; [done|]. intros [Hx Hn]%NoDup_cons Hs.
  rewrite Hc by (try apply Hs; left). apply IH; [intros seen' y Hy; apply Hc; by right|done|].
  intros y Hy [E|Hin]%elem_of_cons.
  - apply Hx. rewrite <- E. by apply (list_elem_of_fmap_2 key).
  - by apply (Hs y); [right|].
Qed.

(** ** Exported tools *)

Definition wf_export (tool : AgentExportedTool) : Prop :=
  blank (Exported_ToolID tool) = false ∧ blank (Exported_Name tool) = false ∧
  blank (Exported_Description tool) = false ∧ is_Some (Exported_InputSchema tool) ∧
  RiskLevel_Validate (Exported_RiskLevel tool) = None ∧ validToolVisibility (Exported_Visibility tool) = true ∧
  Exported_Status tool ≠ "" ∧ Exported_Version tool ≠ "" ∧ Exported_Operation tool ≠ "".

Lemma check_export_None seen tool : check_export seen tool = None ↔
  blank (Exported_ToolID tool) = false ∧ Exported_ToolID tool ∉ seen ∧ blank (Exported_Name tool) = false ∧
  blank (Exported_Description tool) = false ∧ is_Some (Exported_InputSchema tool).
Proof.
  unfold check_export. rewrite first_of_None, !Forall_cons, !fails_None, mem_string_false.
  unfold is_Some. destruct (Exported_InputSchema tool); cbn; split.
  - intros (? & ? & ? & ? & _). eauto 10.
  - intros (? & ? & ? & ? & _). eauto 10.
  - by intros (_ & _ & _ & _ & ? & _).
  - by intros (_ & _ & _ & _ & ? & ?).
Qed.

Lemma blank_nonempty s : blank s = false → s ≠ "".
Proof. intros H ->. discriminate. Qed.

Lemma or_default_nonempty value fallback : fallback ≠ "" → or_default value fallback ≠ "".
Proof. unfold or_default. by destruct (String.eqb_spec value ""). Qed.
Lemma or_default_id value fallback : value ≠ "" → or_default value fallback = value.
Proof. intros H. unfold or_default. by rewrite eqb_neq_false. Qed.

Lemma normalize_export_None seen tool tool' :
  normalize_export seen tool = (None, tool') →
  wf_export tool' ∧ Exported_ToolID tool' = Exported_ToolID tool ∧ Exported_ToolID tool ∉ seen.
Proof.
  unfold normalize_export. destruct (check_export seen tool) eqn:E; [done|].
  apply check_export_None in E as (Hid & Hs & Hn & Hd & Hi). cbn.
  destruct (RiskLevel_Validate _) eqn:Er; [done|]. cbn. destruct (validToolVisibility _) eqn:Ev; [|done].
  cbn. intros [= <-]. unfold wf_export. cbn.
  split_and!; try done; try by apply or_default_nonempty. by apply or_default_nonempty, blank_nonempty.
Qed.

(** A well-formed tool is left as it is. *)
Lemma normalize_export_wf seen tool :
  wf_export tool → Exported_ToolID tool ∉ seen → normalize_export seen tool = (None, tool).
Proof.
  intros (Hid & Hn & Hd & Hi & Hr & Hv & Hst & Hve & Hop) Hs. unfold normalize_export.
  assert (E : check_export seen tool = None) by by apply check_export_None. rewrite E. cbn.
  assert (Hr' : Exported_RiskLevel tool ≠ "") by (intros E'; rewrite E' in Hr; discriminate).
  assert (Hv' : Exported_Visibility tool ≠ "") by (intros E'; rewrite E' in Hv; discriminate).
  rewrite !or_default_id by done. rewrite Hr. cbn. rewrite Hv. by destruct tool.
Qed.

Definition wf_exports (tools : list AgentExportedTool) : Prop :=
  NoDup (map Exported_ToolID tools) ∧ Forall wf_export tools.

Lemma normalize_exports_None tools : ∀ seen tools',
  normalize_exports seen tools = (None, tools') →
  wf_exports tools' ∧ map Exported_ToolID tools' = map Exported_ToolID tools ∧
  Forall (λ tool, Exported_ToolID tool ∉ seen) tools.
Proof.
  induction tools as [|tool tools IH]; intros seen tools'; cbn [normalize_exports].
  { intros [= <-]. repeat split; constructor. }
  destruct (normalize_export seen tool) as [[err|] t'] eqn:E; [done|].
  destruct (normalize_exports _ tools) as [err ts'] eqn:Es. intros [= -> <-].
  apply normalize_export_None in E as (Hwf & Hid & Hs). destruct (IH _ _ Es) as ((Hnd & Hf) & Hm & Hseen).
  rewrite Forall_forall in Hseen. split_and!.
  - split; [|by constructor]. cbn [map]. constructor; [|done]. rewrite Hm, Hid.
    intros (y & Ey & Hy)%list_elem_of_fmap. specialize (Hseen y Hy). set_solver.
  - cbn [map]. by rewrite Hid, Hm.
  - constructor; [done|]. apply Forall_forall. intros y Hy. specialize (Hseen y Hy). set_solver.
Qed.

Lemma normalize_exports_wf tools : ∀ seen,
  wf_exports tools → (∀ tool, tool ∈ tools → Exported_ToolID tool ∉ seen) →
  normalize_exports seen tools = (None, tools).
Proof.
  induction tools as [|tool tools IH]; intros seen [Hn Hf] Hs; cbn [normalize_exports]; [done|].
  cbn [map] in Hn. apply NoDup_cons in Hn as [Hx Hn]. inversion_clear Hf.
  rewrite normalize_export_wf by (try done; apply Hs; left). rewrite IH; [done|by split|].
  intros t Ht. specialize (Hs t (list_elem_of_further _ _ _ Ht)). intros [E|?]%elem_of_cons; [|done].
  apply Hx. rewrite <- E. by apply (list_elem_of_fmap_2 Exported_ToolID).
Qed.

Lemma validateExports_stable exports exports' :
  validateExports exports = (None, exports') →
  wf_exports (Exports_Tools exports') ∧ validateExports exports' = (None, exports').
Proof.
  unfold validateExports. destruct (normalize_exports [] _) as [err tools] eqn:E. intros [= -> <-]. cbn.
  apply normalize_exports_None in E as (Hwf & _). split; [done|].
  rewrite normalize_exports_wf; [done|done|]. intros t _. apply not_elem_of_nil.
Qed.

(** ** Skills *)

Definition wf_skill (d : SkillDefinition) : Prop :=
  let card := Skill_Card d in
  SkillCard_SkillID card ≠ "" ∧ TrimSpace (SkillCard_SkillID card) = SkillCard_SkillID card ∧
  blank (SkillCard_Name card) = false ∧ SkillCard_Status card ∈ ["enabled"; "disabled"] ∧
  RiskLevel_Validate (SkillCard_RiskLevel card) = None ∧
  SkillInstr_SkillID (Skill_Instruction d) = SkillCard_SkillID card ∧
  Forall (λ r, blank (SkillRes_ResourceID r) = false ∧ blank (SkillRes_Type r) = false ∧
               blank (SkillRes_URI r) = false) (Skill_Resources d).

Lemma normal_card_fields d :
  let card := normal_card d in
  SkillCard_SkillID card = TrimSpace (SkillCard_SkillID (Skill_Card d)) ∧
  SkillCard_Version card = TrimSpace (SkillCard_Version (Skill_Card d)) ∧
  (TrimSpace (SkillCard_SkillID (Skill_Card d)) ≠ "" → blank (SkillCard_Name card) = false).
Proof.
  unfold normal_card. cbn. set (id := TrimSpace (SkillCard_SkillID (Skill_Card d))).
  assert (Hid : id ≠ "" → blank id = false).
  { intros H. unfold blank, id. rewrite TrimSpace_idemp. by apply eqb_neq_false. }
  destruct (blank (SkillCard_Name (Skill_Card d))) eqn:E; cbn;
    destruct (blank (SkillCard_Description (Skill_Card d))); cbn;
    destruct (blank (SkillCard_Status (Skill_Card d))); cbn; destruct (_ && _); cbn; auto.
Qed.

Lemma normal_identity d : definition_identity (normal_skill d) = definition_identity d.
Proof.
  unfold definition_identity, skill_identity. cbn. destruct (normal_card_fields d) as (-> & -> & _).
  by rewrite !TrimSpace_idemp.
Qed.

Lemma check_skill_None seen d :
  check_skill seen d = None → definition_identity d ∉ seen ∧ wf_skill (normal_skill d).
Proof.
  unfold check_skill. cbn zeta. intros H. rewrite first_of_None, !Forall_cons, !fails_None, at_path_None in H.
  destruct H as (Hid & Hseen & Hst & Hr & Hi & Hres & _). apply mem_string_false in Hseen.
  apply String.eqb_neq in Hid. apply negb_false_iff, mem_string_elem in Hst.
  apply negb_false_iff, String.eqb_eq in Hi. rewrite first_of_map in Hres. split; [done|].
  destruct (normal_card_fields d) as (Ei & _ & Hn). unfold wf_skill. cbn zeta.
  change (Skill_Card (normal_skill d)) with (normal_card d) in *. rewrite Ei, TrimSpace_idemp. split_and!; auto.
  apply Forall_forall. intros r Hin. specialize (Hres r Hin). rewrite fails_None in Hres.
  rewrite !orb_false_iff in Hres. tauto.
Qed.

Lemma normalizeSkillDefinitions_wf definitions out :
  normalizeSkillDefinitions definitions = inr out →
  NoDup (map definition_identity out) ∧ Forall wf_skill out.
Proof.
  unfold normalizeSkillDefinitions. destruct (check_seen _ _ _ _) eqn:E; [done|]. intros [= <-].
  apply (check_seen_None _ _ (λ d, wf_skill (normal_skill d)) _ check_skill_None) in E as [Hn Hw]. split.
  - rewrite map_map. rewrite (map_ext _ definition_identity) by apply normal_identity. done.
  - rewrite Forall_map, Forall_forall. intros d Hd. by apply Hw.
Qed.

(** ** What a definition that was compiled is *)

Definition wf_limits (l : RuntimeLimits) : Prop :=
  (0 < Limits_MaxSteps l ∧ 0 ≤ Limits_MaxToolCalls l ∧ 0 < Limits_MaxDuration l ∧ 0 < Limits_MaxPromptTokens l ∧
   0 ≤ Limits_MaxHandoffDepth l ∧ 0 ≤ Limits_MaxChildTasks l ∧ 0 ≤ Limits_MaxModelRetries l ∧
   0 ≤ Limits_MaxRepairAttempts l ∧ 0 ≤ Limits_MaxConsecutiveToolFailures l)%Z.

Lemma validateRuntimeLimits_None l : validateRuntimeLimits l = None ↔ wf_limits l.
Proof.
  unfold validateRuntimeLimits. cbn zeta. rewrite first_of_None, !Forall_cons, !fails_None, Forall_nil.
  unfold negative, wf_limits. rewrite !Z.leb_gt, !Z.ltb_ge. tauto.
Qed.

Definition wf_definition (d : AgentDefinition) : Prop :=
  Agent_AgentID d ≠ "" ∧ Agent_Version d ≠ "" ∧
  (Agent_SourceKind d = AgentSourceKindPackage ∨
   Agent_SourceKind d = AgentSourceKindPlugin ∧ Agent_SourceProviderID d ≠ "") ∧
  Agent_CarrierKind d = CarrierKindForSource (Agent_SourceKind d) ∧
  Agent_IdentityPrompt d ≠ "" ∧
  wf_limits (Agent_Runtime d) ∧
  wf_exports (Exports_Tools (Agent_Exports d)) ∧
  (NoDup (map Collab_AgentID (Agent_Collaborators d)) ∧
   ∀ c, c ∈ Agent_Collaborators d → Collab_AgentID c ≠ "" ∧ (0 ≤ Collab_MaxContextTokens c)%Z) ∧
  (NoDup (map HookBind_HookID (Hooks_Hooks (Agent_RuntimeHooks d))) ∧
   ∀ h, h ∈ Hooks_Hooks (Agent_RuntimeHooks d) → TrimSpace (HookBind_Phase h) ∈ hook_phases) ∧
  (NoDup (map definition_identity (Agent_SkillDefinitions d)) ∧ Forall wf_skill (Agent_SkillDefinitions d)).

Lemma validateCollaborators_None l : validateCollaborators l = None →
  NoDup (map Collab_AgentID l) ∧ ∀ c, c ∈ l → Collab_AgentID c ≠ "" ∧ (0 ≤ Collab_MaxContextTokens c)%Z.
Proof.
  intros [Hn Hl]%(check_seen_None _ _ (λ c, Collab_AgentID c ≠ "" ∧ (0 ≤ Collab_MaxContextTokens c)%Z)).
  { split; [done|]. intros c Hc. by apply Hl. }
  intros seen c. unfold check_collaborator. cbn zeta. rewrite first_of_None, !Forall_cons, !fails_None.
  intros (Hid & Hs & _ & _ & Ht & _). apply String.eqb_neq in Hid. apply mem_string_false in Hs.
  apply Z.ltb_ge in Ht. done.
Qed.

Lemma validateRuntimeHooks_None hooks : validateRuntimeHooks hooks = None →
  NoDup (map HookBind_HookID (Hooks_Hooks hooks)) ∧
  ∀ h, h ∈ Hooks_Hooks hooks → TrimSpace (HookBind_Phase h) ∈ hook_phases.
Proof.
  unfold validateRuntimeHooks. destruct (_ && _) eqn:E.
  { apply andb_true_iff in E as [_ E]. apply negb_true_iff, nonempty_false in E as ->. intros _.
    split; [constructor|intros h Hh; by apply not_elem_of_nil in Hh]. }
  rewrite first_of_None, !Forall_cons.
  intros (_ & [Hn Hl]%(check_seen_None _ _ (λ h, TrimSpace (HookBind_Phase h) ∈ hook_phases)) & _).
  { split; [done|]. intros h Hh. by apply Hl. }
  intros seen h. unfold check_hook, unknown_value. cbn zeta. rewrite first_of_None, !Forall_cons, !fails_None.
  intros (_ & Hs & _ & Hp & _). apply mem_string_false in Hs. apply negb_false_iff, mem_string_elem in Hp. done.
Qed.

(** ** Compilation *)

(** [Compile], given how it iterates over the budgets and the time. *)
Definition compile_at (budgets : list (string * Z)) (now : Time) (agentID version : string)
    (source : AgentPackageSource) : (error + AgentDefinition) * AgentPackageSource :=
  match normalizeSourceKind source.(Src_SourceKind) with
  | inl err => (inl err, source)
  | inr sourceKind =>
      match check_source budgets agentID version sourceKind source with
      | Some err => (inl err, source)
      | None =>
          let '(err, exports) := validateExports source.(Src_Exports) in
          let source := source <| Src_Exports := exports |> in
          match err with
          | Some err => (inl err, source)
          | None =>
              (finish_definition source (applyCompiledStrategies source.(Src_Strategies)
                 (initial_definition agentID version sourceKind source exports now)), source)
          end
      end
  end.

Notation source_budgets source := (CtxS_SourceBudgets (Strat_Context (Src_Strategies source))).

(** It always returns, and changes no state. *)
Lemma Compile_run `{Env} {S : Type} agentID version source w (s : S) :
  ∃ budgets now w', budgets ≡ₚ map_to_list (source_budgets source) ∧
    Compile agentID version source w s = (Ok (compile_at budgets now agentID version source), w', s).
Proof.
  unfold Compile, compile_at. destruct (normalizeSourceKind _) as [err|kind].
  { by eexists (map_to_list _), 0%Z, w. }
  destruct (range_map_run (source_budgets source) w s) as (budgets & w1 & E & Hb). rewrite (bind_Ok _ _ _ _ _ _ _ E).
  exists budgets. destruct (check_source _ _ _ _ _) as [err|]; [by exists 0%Z, w1|].
  destruct (validateExports _) as [[err|] exports]; [by exists 0%Z, w1|].
  cbn zeta. eexists _, _. split; [done|]. unfold time_Now, bind, lift_env. reflexivity.
Qed.

Lemma Forall_None_perm {A} (check : A → option error) l k :
  l ≡ₚ k → first_of (map check l) = None → first_of (map check k) = None.
Proof. intros Hp. rewrite !first_of_map. intros H x Hx. apply H. by rewrite Hp. Qed.

Lemma first_of_swap pre c c' post :
  (c = None → c' = None) → first_of (pre ++ c :: post) = None → first_of (pre ++ c' :: post) = None.
Proof. rewrite !first_of_None, !Forall_app, !Forall_cons. tauto. Qed.

(** The order of the iteration does not decide whether a source is accepted. *)
Lemma check_source_perm budgets budgets' agentID version kind source :
  budgets ≡ₚ budgets' → check_source budgets agentID version kind source = None →
  check_source budgets' agentID version kind source = None.
Proof.
  intros Hp. unfold check_source. apply (first_of_swap [_; _; _; _; _; _; _; _; _] _ _ []).
  apply (first_of_swap [] _ _ [_; _; _; _; _; _; _; _; _]). apply (first_of_swap [_; _; _] _ _ [_]).
  by apply Forall_None_perm.
Qed.

(** The fields that no strategy changes. *)
Definition unapplied (d : AgentDefinition) :=
  (Agent_AgentID d, Agent_Version d, Agent_SourceKind d, Agent_SourceProviderID d, Agent_CarrierKind d,
   Agent_Exports d, Agent_Collaborators d, Agent_RuntimeHooks d, Agent_Skills d).

Lemma prompt_fields strategy d : let d' := applyPromptStrategy strategy d in
  unapplied d' = unapplied d ∧ (Agent_IdentityPrompt d ≠ "" → Agent_IdentityPrompt d' ≠ "").
Proof.
  unfold applyPromptStrategy. destruct (blank (PromptS_IdentityPrompt _)) eqn:E1;
    destruct (blank (PromptS_SystemPrompt _)); destruct (blank (PromptS_DeveloperPrompt _)); destruct d; cbn;
    split; try done; intros _; by apply String.eqb_neq.
Qed.
Lemma collaboration_fields strategy d : let d' := applyCollaborationStrategy strategy d in
  unapplied d' = unapplied d ∧ Agent_IdentityPrompt d' = Agent_IdentityPrompt d.
Proof. unfold applyCollaborationStrategy. cbn zeta. destruct (_ == "disabled"); by destruct d. Qed.

Lemma applied_fields strategies d : let d' := applyCompiledStrategies strategies d in
  unapplied d' = unapplied d ∧ (Agent_IdentityPrompt d ≠ "" → Agent_IdentityPrompt d' ≠ "").
Proof.
  unfold applyCompiledStrategies. cbn zeta. set (d1 := applyPromptStrategy _ d).
  set (d4 := applyRepairStrategy _ _). destruct (collaboration_fields (Strat_Collaboration strategies) d4) as [-> ->].
  assert (H4 : unapplied d4 = unapplied d1 ∧ Agent_IdentityPrompt d4 = Agent_IdentityPrompt d1) by by destruct d1.
  destruct H4 as [-> ->]. apply prompt_fields.
Qed.

Lemma prompt_at strategy d t :
  applyPromptStrategy strategy (d <| Agent_CreatedAt := t |>) = (applyPromptStrategy strategy d) <| Agent_CreatedAt := t |>.
Proof.
  unfold applyPromptStrategy. destruct (blank (PromptS_IdentityPrompt _)); destruct (blank (PromptS_SystemPrompt _));
    destruct (blank (PromptS_DeveloperPrompt _)); by destruct d.
Qed.
Lemma collaboration_at strategy d t :
  applyCollaborationStrategy strategy (d <| Agent_CreatedAt := t |>) =
  (applyCollaborationStrategy strategy d) <| Agent_CreatedAt := t |>.
Proof. unfold applyCollaborationStrategy. cbn zeta. destruct (_ == "disabled"); by destruct d. Qed.

Lemma applied_at strategies d t :
  applyCompiledStrategies strategies (d <| Agent_CreatedAt := t |>) =
  (applyCompiledStrategies strategies d) <| Agent_CreatedAt := t |>.
Proof.
  unfold applyCompiledStrategies. cbn zeta. rewrite prompt_at. set (d1 := applyPromptStrategy _ d). clearbody d1.
  rewrite <- collaboration_at. reflexivity.
Qed.

(** What [compile_at] needs to succeed, and its result. *)
Lemma compile_at_inr budgets now agentID version source d source' :
  compile_at budgets now agentID version source = (inr d, source') →
  ∃ kind exports skills,
    normalizeSourceKind (Src_SourceKind source) = inr kind ∧
    check_source budgets agentID version kind source = None ∧
    validateExports (Src_Exports source) = (None, exports) ∧ source' = source <| Src_Exports := exports |> ∧
    normalizeSkillDefinitions (Src_SkillDefinitions source) = inr skills ∧
    let d0 := applyCompiledStrategies (Src_Strategies source)
                (initial_definition agentID version kind source' exports now) in
    wf_limits (Agent_Runtime d0) ∧ validateSkillRefs (Src_Skills source) = None ∧
    d = d0 <| Agent_SkillDefinitions := skills |>.
Proof.
  unfold compile_at. destruct (normalizeSourceKind _) as [|kind]; [done|].
  destruct (check_source _ _ _ _ _) eqn:Ec; [done|]. destruct (validateExports _) as [[|] exports] eqn:Ee; [done|].
  cbn zeta. intros H. inversion H as [[Hf Hs]]. exists kind, exports. unfold finish_definition in Hf.
  destruct (first_of _) eqn:El; [done|]. cbn in Hf.
  destruct (normalizeSkillDefinitions (Src_SkillDefinitions source)) as [|skills] eqn:Ek; [done|].
  exists skills. inversion Hf. rewrite first_of_None, !Forall_cons in El. destruct El as (Hl & Hr & _).
  apply validateRuntimeLimits_None in Hl.
  destruct (applied_fields (Src_Strategies source) (initial_definition agentID version kind
    (source <| Src_Exports := exports |>) exports now)) as [Hf' _].
  apply (f_equal snd) in Hf'. cbn [snd unapplied] in Hf'. change (Src_Strategies (source <| Src_Exports := exports |>))
    with (Src_Strategies source) in *. rewrite Hf' in Hr. split_and!; try done.
Qed.

Lemma blank_false s : blank s = false ↔ TrimSpace s ≠ "".
Proof. unfold blank. apply String.eqb_neq. Qed.

Lemma initial_prompt agentID version kind source exports now :
  blank (Src_AgentsMD source) && blank (Src_Prompt source) = false →
  Agent_IdentityPrompt (initial_definition agentID version kind source exports now) ≠ "".
Proof.
  intros H. cbn. destruct (blank (Src_Prompt source)) eqn:E.
  - rewrite andb_true_r in H. by apply blank_false.
  - by apply blank_false.
Qed.

Lemma normalizeSourceKind_inr kind kind' : normalizeSourceKind kind = inr kind' →
  kind' = AgentSourceKindPackage ∨ kind' = AgentSourceKindPlugin.
Proof.
  unfold normalizeSourceKind. destruct (_ || _); [intros [= <-]; by left|].
  destruct (_ == _); [intros [= <-]; by right|done].
Qed.

Lemma compile_at_wf budgets now agentID version source d source' :
  compile_at budgets now agentID version source = (inr d, source') → wf_definition d.
Proof.
  intros (kind & exports & skills & Hk & Hc & He & -> & Hs & Hl & _ & ->)%compile_at_inr.
  unfold check_source in Hc. rewrite first_of_None, !Forall_cons, !fails_None in Hc.
  destruct Hc as (Hid & Hver & Hprov & _ & _ & Hmd & _ & Hcol & Hhook & _).
  apply String.eqb_neq in Hid, Hver. apply validateCollaborators_None in Hcol.
  apply validateRuntimeHooks_None in Hhook. apply normalizeSkillDefinitions_wf in Hs.
  apply validateExports_stable in He as [He _]. apply normalizeSourceKind_inr in Hk.
  set (d0 := initial_definition agentID version kind _ exports now) in *.
  destruct (applied_fields (Src_Strategies source) d0) as [Hf Hp].
  assert (Hq : Agent_IdentityPrompt d0 ≠ "") by (apply initial_prompt; exact Hmd). specialize (Hp Hq). clear Hq.
  set (d1 := applyCompiledStrategies _ d0) in *. unfold unapplied in Hf. unfold d0 in Hf. cbn in Hf.
  injection Hf as Ei Ev Ek Ep Ec Ee Eco Eh _. unfold wf_definition. cbn.
  rewrite Ei, Ev, Ek, Ep, Ec, Ee, Eco, Eh. split_and!; try done; try apply Hcol; try apply Hhook; try apply Hs.
  destruct Hk as [->| ->]; [by left|right]. split; [done|]. by apply blank_false.
Qed.

Lemma Compile_wf `{Env} {S : Type} agentID version source w (s : S) d source' w' s' :
  Compile agentID version source w s = (Ok (inr d, source'), w', s') →
  wf_definition d ∧ Agent_AgentID d = agentID ∧ Agent_Version d = version ∧
  Agent_Exports d = Src_Exports source' ∧ source' = source <| Src_Exports := Src_Exports source' |> ∧ s' = s.
Proof.
  destruct (Compile_run agentID version source w s) as (budgets & now & w1 & _ & ->). intros [= E _ <-].
  split; [by eapply compile_at_wf|]. apply compile_at_inr in E as (kind & exports & skills & E). cbn zeta in E.
  destruct E as (_ & _ & _ & -> & _ & _ & _ & ->).
  destruct (applied_fields (Src_Strategies source) (initial_definition agentID version kind
    (source <| Src_Exports := exports |>) exports now)) as [Hf _]. unfold unapplied in Hf. cbn in Hf.
  injection Hf as Ei Ev _ _ _ Ee _ _ _. cbn. by rewrite Ei, Ev, Ee.
Qed.

(** C8. A definition that the compiler makes is well formed: its id and version are those it was asked for,
    a plugin names its provider, its identity prompt is not empty, all limits are in range, exported tools,
    collaborators, hooks and skills have distinct ids and valid fields; and the compiler changes no state. *)
Theorem compile_sound `{Env} {S : Type} agentID version source w (s : S) d source' w' s' :
  Compile agentID version source w s = (Ok (inr d, source'), w', s') →
  wf_definition d ∧ Agent_AgentID d = agentID ∧ Agent_Version d = version ∧
  Agent_Exports d = Src_Exports source' ∧ source' = source <| Src_Exports := Src_Exports source' |> ∧ s' = s.
Proof. apply Compile_wf. Qed.

(** Compiling is repeatable: the source as the compiler left it compiles again, at any time and in any order of
    iteration, to the same definition but for its time, and is left as it is. *)
Theorem compile_again `{Env} {S : Type} agentID version source w (s : S) d source' w' s' :
  Compile agentID version source w s = (Ok (inr d, source'), w', s') → ∀ w2 (s2 : S), ∃ now w3,
  Compile agentID version source' w2 s2 = (Ok (inr (d <| Agent_CreatedAt := now |>), source'), w3, s2).
Proof.
  destruct (Compile_run agentID version source w s) as (budgets & now1 & w1 & Hb & ->). intros [= E _ _] w2 s2.
  apply compile_at_inr in E as (kind & exports & skills & Hk & Hc & He & -> & Hs & Hl & Hr & ->).
  destruct (Compile_run agentID version (source <| Src_Exports := exports |>) w2 s2) as (budgets' & now & w3 & Hb' & ->).
  exists now, w3. do 3 f_equal. unfold compile_at. cbn [Src_SourceKind].
  change (Src_SourceKind (source <| Src_Exports := exports |>)) with (Src_SourceKind source). rewrite Hk.
  change (check_source budgets' agentID version kind (source <| Src_Exports := exports |>))
    with (check_source budgets' agentID version kind source).
  change (CtxS_SourceBudgets _) with (source_budgets source) in Hb'.
  rewrite (check_source_perm budgets budgets' _ _ _ _ ltac:(by rewrite Hb, Hb') Hc).
  change (Src_Exports (source <| Src_Exports := exports |>)) with exports.
  rewrite (proj2 (validateExports_stable _ _ He)). cbn zeta.
  change (source <| Src_Exports := exports |> <| Src_Exports := exports |>) with (source <| Src_Exports := exports |>).
  change (initial_definition agentID version kind (source <| Src_Exports := exports |>) exports now) with
    ((initial_definition agentID version kind (source <| Src_Exports := exports |>) exports now1)
       <| Agent_CreatedAt := now |>).
  change (Src_Strategies (source <| Src_Exports := exports |>)) with (Src_Strategies source). rewrite applied_at.
  unfold finish_definition.
  set (d1 := applyCompiledStrategies _ _) in *. cbn [Agent_Runtime].
  assert (Hsk : Agent_Skills d1 = Src_Skills source).
  { unfold d1. destruct (applied_fields (Src_Strategies source) (initial_definition agentID version kind
      (source <| Src_Exports := exports |>) exports now1)) as [Hf _]. by apply (f_equal snd) in Hf. }
  assert (Hnone : first_of [validateRuntimeLimits (Agent_Runtime (d1 <| Agent_CreatedAt := now |>));
    validateSkillRefs (Agent_Skills (d1 <| Agent_CreatedAt := now |>))] = None).
  { rewrite first_of_None, !Forall_cons. split_and!; [by apply validateRuntimeLimits_None| |by constructor].
    by change (Agent_Skills (d1 <| Agent_CreatedAt := now |>)) with (Agent_Skills d1); rewrite Hsk. }
  rewrite Hnone. change (Src_SkillDefinitions (source <| Src_Exports := exports |>)) with (Src_SkillDefinitions source).
  by rewrite Hs.
Qed.

(** ** Limits of time *)

Lemma duration_exact seconds : (0 ≤ seconds ≤ 9223372036)%Z → duration_of_seconds seconds = (seconds * 1000000000)%Z.
Proof. intros H. apply int64_id. unfold is_int64. lia. Qed.

(** Beyond 292 years the product wraps around; a limit may come out as a fraction of a second. *)
Example duration_wraps : duration_of_seconds 18446744074 = 290448384%Z.
Proof. vm_compute. reflexivity. Qed.

(** ** An example *)

Definition sample_export : AgentExportedTool :=
  zeroAgentExportedTool <| Exported_ToolID := "summarize" |> <| Exported_Name := "Summarize" |>
    <| Exported_Description := "Summarizes a text." |> <| Exported_InputSchema := Some ∅ |>.
Definition sample_skill : SkillDefinition :=
  zeroSkillDefinition <| Skill_Card := zeroSkillCard <| SkillCard_SkillID := " writing " |> |>.
Definition sample_source : AgentPackageSource :=
  zeroAgentPackageSource <| Src_AgentsMD := "# Writer" |>
    <| Src_ToolBindings := zeroAgentToolsConfig <| ToolsCfg_DeniedToolIDs := ["shell"] |> |>
    <| Src_SkillDefinitions := [sample_skill] |>
    <| Src_Exports := mkAgentExports [sample_export] |>.

Definition compiled (source : AgentPackageSource) : option AgentDefinition :=
  match Compile (H:=test_env) (S:=unit) "writer" "v1" source world0 tt with
  | (Ok (inr d, _), _, _) => Some d
  | _ => None
  end.

Example sample_compiles : match compiled sample_source with
  | Some d => Agent_Description d = "Writer" ∧
      map Exported_RiskLevel (Exports_Tools (Agent_Exports d)) = [RiskLow] ∧
      map (λ s, SkillCard_SkillID (Skill_Card s)) (Agent_SkillDefinitions d) = ["writing"]
  | None => False
  end.
Proof. vm_compute. by repeat split. Qed.

(** A strategy that denies a tool drops what the bindings deny, and one that allows a tool which they deny
    makes a definition that allows and denies it. *)
Example denial_replaced :
  let deny := zeroToolUseStrategy <| ToolS_DeniedToolIDs := ["browser"] |> in
  let allow := zeroToolUseStrategy <| ToolS_AllowedToolIDs := ["shell"] |> in
  let tools strategy := option_map Agent_Tools (compiled (sample_source
    <| Src_Strategies := zeroAgentStrategies <| Strat_Tools := strategy |> |>)) in
  tools deny = Some (zeroAgentToolsConfig <| ToolsCfg_DeniedToolIDs := ["browser"] |>) ∧
  tools allow = Some (zeroAgentToolsConfig <| ToolsCfg_AllowedToolIDs := ["shell"] |>
                                            <| ToolsCfg_DeniedToolIDs := ["shell"] |>).
Proof. vm_compute. by split. Qed.

Lemma compile_sound_witness : ∃ d source' w',
  Compile (H:=test_env) (S:=unit) "writer" "v1" sample_source world0 tt = (Ok (inr d, source'), w', tt) ∧
  wf_definition d ∧ Agent_AgentID d = "writer" ∧ Agent_Version d = "v1" ∧ source' ≠ sample_source.
Proof.
  destruct (Compile (H:=test_env) (S:=unit) "writer" "v1" sample_source world0 tt) as [[r w'] []] eqn:E.
  destruct r as [[[e|d] source']| |]; [vm_compute in E; discriminate|..|vm_compute in E; discriminate
    |vm_compute in E; discriminate].
  destruct (compile_sound (H:=test_env) (S:=unit) _ _ _ _ _ _ _ _ _ E) as (H1 & H2 & H3 & _).
  exists d, source', w'. split; [done|]. split_and!; try done.
  intros ->. apply (f_equal (λ r, match r with (Ok (_, s), _, _) =>
    map Exported_RiskLevel (Exports_Tools (Src_Exports s)) | _ => [] end)) in E. vm_compute in E. discriminate.
Defined.

Lemma compile_again_witness : ∃ d source' now w',
  Compile (H:=test_env) (S:=unit) "writer" "v1" source' world0 tt =
    (Ok (inr (d <| Agent_CreatedAt := now |>), source'), w', tt) ∧ Agent_Description d = "Writer".
Proof.
  destruct (Compile (H:=test_env) (S:=unit) "writer" "v1" sample_source world0 tt) as [[r w'] []] eqn:E.
  destruct r as [[[e|d] source']| |]; [vm_compute in E; discriminate|..|vm_compute in E; discriminate
    |vm_compute in E; discriminate].
  destruct (compile_again (H:=test_env) (S:=unit) _ _ _ _ _ _ _ _ _ E world0 tt) as (now & w3 & E2).
  exists d, source', now, w3. split; [exact E2|].
  apply (f_equal (λ r, match r with (Ok (inr d, _), _, _) => Agent_Description d | _ => "" end)) in E.
  vm_compute in E. by symmetry.
Defined.
