(* ===== verification/AgentPackage.v ===== *)
(** * Agent packages: internal/agentdef/package/service.go

    Agents, drafts, proposals and releases: from a draft that is edited, compiled and reviewed to a release that is
    published, evaluated, tried on a part of the calls and made stable, or rolled back.  (The projections of the same
    service are in [Projection], the theorems in [PackageLife].)  The service keeps everything in memory and, where it has one, in a
    store.  A call runs here without others in between; with a store the code gives its mutex up while it
    reads the store.

    [Compile] fills in the defaults of the exported tools in place, in the slice that the draft in memory
    holds: [compile_draft] does so.  Callers are taken to hand each slice over once. *)

From stdpp Require Import base list strings gmap fin_maps.
From Stdlib Require Import Ascii Lia.
From S2P Require Import Prelude Contracts GoMonad Storage Policies Compile.
Open Scope go_scope.
Open Scope string_scope.
Open Scope list_scope.

(** ** Data *)

Definition AgentAssetActive : string := "active".
Definition AgentAssetDisabled : string := "disabled".
Definition AgentAssetDeleted : string := "deleted".

Record AgentAsset := mkAgentAsset {
  Asset_TenantID : string;
  Asset_AgentID : string;
  Asset_Name : string;
  Asset_Description : string;
  Asset_OwnerID : string;
  Asset_Status : string;
  Asset_ActiveVersion : string;
  Asset_DefaultVersion : string;
  Asset_CarrierKind : AgentCarrierKind;
  Asset_RuntimeContract : RuntimeContractKind;
  Asset_SourceKind : AgentSourceKind;
  Asset_SourceProviderID : string;
  Asset_ManifestHash : string;
  Asset_ConformanceStatus : RuntimeConformanceStatus;
  Asset_CreatedBy : string;
  Asset_CreatedAt : Time;
  Asset_UpdatedAt : Time;
  Asset_DeletedAt : option Time
}.
#[export] Instance eta_AgentAsset : Settable AgentAsset :=
  fields! mkAgentAsset < Asset_TenantID ; Asset_AgentID ; Asset_Name ; Asset_Description ; Asset_OwnerID ;
    Asset_Status ; Asset_ActiveVersion ; Asset_DefaultVersion ; Asset_CarrierKind ; Asset_RuntimeContract ;
    Asset_SourceKind ; Asset_SourceProviderID ; Asset_ManifestHash ; Asset_ConformanceStatus ;
    Asset_CreatedBy ; Asset_CreatedAt ; Asset_UpdatedAt ; Asset_DeletedAt >.

Record AgentAssetPatch := mkAgentAssetPatch {
  Patch_Name : option string;
  Patch_Description : option string;
  Patch_OwnerID : option string;
  Patch_Status : option string;
  Patch_ActiveVersion : option string;
  Patch_DefaultVersion : option string
}.

Record SkillDraftInput := mkSkillDraftInput {
  SkillIn_SkillID : string;
  SkillIn_Version : string;
  SkillIn_Name : string;
  SkillIn_Description : string;
  SkillIn_Instruction : string;
  SkillIn_Status : string;
  SkillIn_RiskLevel : RiskLevel;
  SkillIn_Tags : list string;
  SkillIn_WhenToUse : list string;
  SkillIn_OutputRequirements : list string;
  SkillIn_Constraints : list string;
  SkillIn_Resources : list SkillResourceRef;
  SkillIn_RecommendedTools : list string;
  SkillIn_AllowedTools : list string;
  SkillIn_RecommendedMemoryReads : list string;
  SkillIn_RecommendedMemoryWrites : list string;
  SkillIn_RecommendedHandoffs : list string;
  SkillIn_CompletionCriteria : list string;
  SkillIn_OutputSchema : gmap string Any
}.
#[export] Instance eta_SkillDraftInput : Settable SkillDraftInput :=
  fields! mkSkillDraftInput < SkillIn_SkillID ; SkillIn_Version ; SkillIn_Name ; SkillIn_Description ;
    SkillIn_Instruction ; SkillIn_Status ; SkillIn_RiskLevel ; SkillIn_Tags ; SkillIn_WhenToUse ;
    SkillIn_OutputRequirements ; SkillIn_Constraints ; SkillIn_Resources ; SkillIn_RecommendedTools ;
    SkillIn_AllowedTools ; SkillIn_RecommendedMemoryReads ; SkillIn_RecommendedMemoryWrites ;
    SkillIn_RecommendedHandoffs ; SkillIn_CompletionCriteria ; SkillIn_OutputSchema >.

Record Draft := mkDraft {
  PDraft_DraftID : string;
  PDraft_TenantID : string;
  PDraft_AgentID : string;
  PDraft_Version : string;
  PDraft_Source : AgentPackageSource;
  PDraft_Status : ReleaseStatus;
  PDraft_CreatedBy : string;
  PDraft_CreatedAt : Time;
  PDraft_UpdatedAt : Time
}.
#[export] Instance eta_Draft : Settable Draft :=
  fields! mkDraft < PDraft_DraftID ; PDraft_TenantID ; PDraft_AgentID ; PDraft_Version ; PDraft_Source ;
    PDraft_Status ; PDraft_CreatedBy ; PDraft_CreatedAt ; PDraft_UpdatedAt >.

Record Proposal := mkProposal {
  Proposal_ProposalID : string;
  Proposal_TenantID : string;
  Proposal_DraftID : string;
  Proposal_AgentID : string;
  Proposal_Version : string;
  Proposal_Type : string;
  Proposal_Title : string;
  Proposal_Reason : string;
  Proposal_Patch : gmap string Any;
  Proposal_Status : ProposalStatus;
  Proposal_CreatedBy : string;
  Proposal_ReviewedBy : string;
  Proposal_CreatedAt : Time;
  Proposal_UpdatedAt : Time
}.
#[export] Instance eta_Proposal : Settable Proposal :=
  fields! mkProposal < Proposal_ProposalID ; Proposal_TenantID ; Proposal_DraftID ; Proposal_AgentID ;
    Proposal_Version ; Proposal_Type ; Proposal_Title ; Proposal_Reason ; Proposal_Patch ; Proposal_Status ;
    Proposal_CreatedBy ; Proposal_ReviewedBy ; Proposal_CreatedAt ; Proposal_UpdatedAt >.

(** [Store] *)
Record PackageStoreOps (T : Type) := mkPackageStoreOps {
  store_SaveAgentAsset : AgentAsset → M T unit;
  store_GetAgentAsset : string → string → M T (option AgentAsset);
  store_ListAgentAssets : string → M T (list AgentAsset);
  store_SaveDraft : Draft → M T unit;
  store_GetDraft : string → M T (option Draft);
  store_ListDrafts : string → string → M T (list Draft);
  store_SaveProposal : Proposal → M T unit;
  store_GetProposal : string → M T (option Proposal);
  store_SaveRelease : AgentPackageVersion → AgentPackageSource → AgentDefinition → M T unit;
  store_UpdateReleaseStatus : string → ReleaseStatus → M T unit;
  store_UpdateReleaseCanary : string → ReleaseStatus → Z → list string → M T unit;
  store_MarkEvalResult : string → bool → M T unit;
  store_GetRelease : string → M T (option AgentPackageVersion);
  store_ListReleases : M T (list AgentPackageVersion);
  store_RecordCanaryHit : CanaryHit → M T unit;
  store_ListCanaryHits : string → string → M T (list CanaryHit)
}.
Arguments store_SaveAgentAsset {T}. Arguments store_GetAgentAsset {T}. Arguments store_ListAgentAssets {T}.
Arguments store_SaveDraft {T}. Arguments store_GetDraft {T}. Arguments store_ListDrafts {T}.
Arguments store_SaveProposal {T}. Arguments store_GetProposal {T}. Arguments store_SaveRelease {T}.
Arguments store_UpdateReleaseStatus {T}. Arguments store_UpdateReleaseCanary {T}.
Arguments store_MarkEvalResult {T}. Arguments store_GetRelease {T}. Arguments store_ListReleases {T}.
Arguments store_RecordCanaryHit {T}. Arguments store_ListCanaryHits {T}.

Record Packages (T : Type) := mkPackages {
  assets : gmap string AgentAsset;
  package_drafts : gmap string Draft;
  proposals : gmap string Proposal;
  releases : gmap string AgentPackageVersion;
  evalPass : gmap string bool;
  package_stored : T
}.
Arguments mkPackages {T}. Arguments assets {T}. Arguments package_drafts {T}. Arguments proposals {T}.
Arguments releases {T}. Arguments evalPass {T}. Arguments package_stored {T}.
#[export] Instance eta_Packages {T} : Settable (Packages T) :=
  fields! mkPackages < assets ; package_drafts ; proposals ; releases ; evalPass ; package_stored >.

Definition NewPackages {T} (stored : T) : Packages T := mkPackages ∅ ∅ ∅ ∅ ∅ stored.

(** ** Lists of a draft *)

(** The elements with the key of [x] become [x]; without any, [x] is added. *)
Definition upsert_by {A} (key : A → string) (x : A) (l : list A) : list A :=
  let out := map (λ current, if key current == key x then x else current) l in
  if existsb (λ current, key current == key x) l then out else out ++ [x].

Definition upsertCollaborator (collaborators : list AgentCollaboratorRef) (collaborator : AgentCollaboratorRef) :=
  upsert_by Collab_AgentID collaborator collaborators.
Definition upsertExportedTool (tools : list AgentExportedTool) (tool : AgentExportedTool) :=
  upsert_by Exported_ToolID tool tools.
Definition upsertSkillRef (refs : list SkillDefinitionRef) (ref : SkillDefinitionRef) :=
  upsert_by SkillRef_SkillID ref refs.

(** Not this skill, or not this version of it. *)
Definition other_skill (skillID version currentID currentVersion : string) : bool :=
  negb ((currentID == skillID) && ((version == "") || (currentVersion == version))).
Definition removeSkillRef (refs : list SkillDefinitionRef) (skillID version : string) : list SkillDefinitionRef :=
  List.filter (λ ref, other_skill skillID version ref.(SkillRef_SkillID) ref.(SkillRef_Version)) refs.

(** The first definition of this version of the skill is replaced; without any, it is added. *)
Fixpoint replace_skill (replacement : SkillDefinition) (skillID version : string) (definitions : list SkillDefinition)
    : list SkillDefinition :=
  match definitions with
  | [] => [replacement]
  | current :: definitions =>
      if (current.(Skill_Card).(SkillCard_SkillID) == skillID) && (current.(Skill_Card).(SkillCard_Version) == version)
      then replacement :: definitions
      else current :: replace_skill replacement skillID version definitions
  end.

Definition skillDefinitionFromInput (skill : SkillDraftInput) : SkillDefinition :=
  let name := or_default skill.(SkillIn_Name) skill.(SkillIn_SkillID) in
  let description := or_default skill.(SkillIn_Description) name in
  mkSkillDefinition
    (zeroSkillCard <| SkillCard_SkillID := skill.(SkillIn_SkillID) |> <| SkillCard_Version := skill.(SkillIn_Version) |>
       <| SkillCard_Name := name |> <| SkillCard_Description := description |>
       <| SkillCard_Tags := skill.(SkillIn_Tags) |> <| SkillCard_WhenToUse := skill.(SkillIn_WhenToUse) |>
       <| SkillCard_RiskLevel := or_default skill.(SkillIn_RiskLevel) RiskLow |>
       <| SkillCard_ResourceRefs := skillResourceIDs skill.(SkillIn_Resources) |>)
    (mkSkillInstruction skill.(SkillIn_SkillID) skill.(SkillIn_Instruction) skill.(SkillIn_OutputRequirements)
       skill.(SkillIn_Constraints))
    skill.(SkillIn_Resources) skill.(SkillIn_RecommendedTools) skill.(SkillIn_AllowedTools)
    skill.(SkillIn_RecommendedMemoryReads) skill.(SkillIn_RecommendedMemoryWrites)
    skill.(SkillIn_RecommendedHandoffs) skill.(SkillIn_CompletionCriteria) skill.(SkillIn_OutputSchema).

Fixpoint clean_scope (seen values : list string) : list string :=
  match values with
  | [] => []
  | value :: values =>
      if (value == "") || mem_string value seen then clean_scope seen values
      else value :: clean_scope (value :: seen) values
  end.
Definition cleanScope (values : list string) : list string := clean_scope [] values.

(** ** The life of a release *)

Definition validateReleaseTransition (current next : ReleaseStatus) : option error :=
  let allowed :=
    if next == ReleaseCanary then mem_string current [ReleasePublished; ReleaseEvaluated; ReleaseReviewed]
    else if next == ReleaseEvaluated then
      mem_string current [ReleasePublished; ReleaseCanary; ReleaseEvaluated; ReleaseReviewed]
    else if next == ReleaseStable then mem_string current [ReleaseEvaluated; ReleaseCanary]
    else if next == ReleaseRolledBack then negb (mem_string current [ReleaseRolledBack; ReleaseDraft])
    else true in
  if allowed then None else Some (Errorf "invalid release transition from %s to %s" [current; next]).

(** ** The carrier of an agent *)

Definition applyReleaseCarrierSnapshot (asset : AgentAsset) (release : AgentPackageVersion) : AgentAsset :=
  let carrier := NormalizeCarrierKind release.(Rel_SourceKind) release.(Rel_CarrierKind) in
  asset <| Asset_CarrierKind := carrier |>
    <| Asset_RuntimeContract := NormalizeRuntimeContract carrier release.(Rel_RuntimeContract) |>
    <| Asset_SourceKind := NormalizeSourceKind release.(Rel_SourceKind) |>
    <| Asset_SourceProviderID := release.(Rel_SourceProviderID) |>
    <| Asset_ManifestHash := release.(Rel_ManifestHash) |>
    <| Asset_ConformanceStatus := or_default release.(Rel_ConformanceStatus) RuntimeConformanceUnknown |>.

Definition ensureAgentAssetCarrierDefaults (asset : AgentAsset) : AgentAsset :=
  let sourceKind := or_default asset.(Asset_SourceKind) AgentSourceKindPackage in
  let carrier := NormalizeCarrierKind sourceKind asset.(Asset_CarrierKind) in
  asset <| Asset_SourceKind := sourceKind |> <| Asset_CarrierKind := carrier |>
    <| Asset_RuntimeContract := NormalizeRuntimeContract carrier asset.(Asset_RuntimeContract) |>
    <| Asset_ConformanceStatus := or_default asset.(Asset_ConformanceStatus) RuntimeConformanceUnknown |>.

Definition is_version (tenantID agentID version : string) (release : AgentPackageVersion) : bool :=
  (release.(Rel_TenantID) == tenantID) && (release.(Rel_AgentID) == agentID) && (release.(Rel_Version) == version).

Definition validAgentAssetStatus (status : string) : bool :=
  mem_string status [AgentAssetActive; AgentAssetDisabled; AgentAssetDeleted].
Definition agentAssetKey (tenantID agentID : string) : string := tenantID +:+ NUL +:+ agentID.

(** A runtime error. *)
Definition runtime_error (code : ErrorCode) (message : string) (details : gmap string Any) : error :=
  ErrRuntime (NewRuntimeError code message details).
Definition tenant_mismatch (what : string) : error :=
  runtime_error CodeToolPolicyDenied (what +:+ " tenant does not match caller tenant") ∅.

(** [json.Marshal] of a type. *)
Class Marshal (A : Type) := json_Marshal : A → error + string.

(** ** The service *)
Section service.
Context `{Env} {T : Type} (store : option (PackageStoreOps T)).
Notation PM := (M (Packages T)).

Definition on_store {A} (m : M T A) : PM A :=
  zoom package_stored (λ t s, s <| package_stored := t |>) m.
(** [if s.store != nil { if err := f(s.store); err != nil { return err } }] *)
Definition to_store (f : PackageStoreOps T → M T unit) : PM unit :=
  match store with Some store => on_store (f store) | None => ret tt end.
(** What is not in memory is looked up in the store. *)
Definition or_stored {A} (found : option A) (f : PackageStoreOps T → M T (option A)) : PM (option A) :=
  match found, store with
  | None, Some store => on_store (f store)
  | _, _ => ret found
  end.

Definition package_audit (tenantID actorID action resourceID decision reason : string) : PM unit := with_audit (
  let! id := idgen_New "audit" in
  let! now := now in
  ignore (audit_Log (zeroAuditEvent
    <| Audit_AuditID := id |> <| Audit_TenantID := tenantID |> <| Audit_ActorID := actorID |>
    <| Audit_ActorType := "optimizer" |> <| Audit_Action := action |> <| Audit_ResourceType := "agent_package" |>
    <| Audit_ResourceID := resourceID |> <| Audit_Decision := decision |> <| Audit_Reason := reason |>
    <| Audit_CreatedAt := now |>))).

(** *** Agents *)

Definition GetAgentAsset (tenantID agentID : string) : PM (option AgentAsset) :=
  let! s := get in
  or_stored (s.(assets) !! agentAssetKey tenantID agentID) (λ store, store.(store_GetAgentAsset) tenantID agentID).

Definition saveAgentAsset (asset : AgentAsset) : PM unit :=
  let! s := get in
  do! put (s <| assets := <[agentAssetKey asset.(Asset_TenantID) asset.(Asset_AgentID) := asset]> s.(assets) |>) in
  to_store (λ store, store.(store_SaveAgentAsset) asset).

Definition CreateAgentAssetForTenant (tenantID agentID name description ownerID actorID : string) : PM AgentAsset :=
  if (tenantID == "") || (agentID == "") then
    throw (runtime_error CodeDecisionSchemaError "agent asset requires tenant_id and agent_id" ∅) else
  let! existing := GetAgentAsset tenantID agentID in
  if match existing with Some asset => asset.(Asset_Status) != AgentAssetDeleted | None => false end then
    throw (runtime_error CodePackageVersionConflict "agent asset already exists" {["agent_id" := AString agentID]}) else
  let! now := now in
  let asset := mkAgentAsset tenantID agentID (or_default name agentID) description ownerID AgentAssetActive "" ""
    AgentCarrierKindNativeAgent RuntimeContractManaged AgentSourceKindPackage "" "" RuntimeConformanceUnknown
    actorID now now None in
  do! saveAgentAsset asset in
  do! package_audit tenantID actorID "agent.asset.create" agentID "allowed" "" in
  ret asset.

Definition ListAgentAssets (tenantID : string) : PM (list AgentAsset) :=
  match store with
  | Some store => on_store (store.(store_ListAgentAssets) tenantID)
  | None =>
      let! s := get in
      let! entries := range_map s.(assets) in
      ret (List.filter (λ asset, negb ((tenantID != "") && (asset.(Asset_TenantID) != tenantID))) (map snd entries))
  end.

(** The fields of a patch but for the status. *)
Definition patch_asset (patch : AgentAssetPatch) (asset : AgentAsset) : AgentAsset :=
  let trimmed old value := from_option TrimSpace old value in
  asset <| Asset_Name := trimmed asset.(Asset_Name) patch.(Patch_Name) |>
    <| Asset_Description := trimmed asset.(Asset_Description) patch.(Patch_Description) |>
    <| Asset_OwnerID := trimmed asset.(Asset_OwnerID) patch.(Patch_OwnerID) |>
    <| Asset_ActiveVersion := default asset.(Asset_ActiveVersion) patch.(Patch_ActiveVersion) |>
    <| Asset_DefaultVersion := default asset.(Asset_DefaultVersion) patch.(Patch_DefaultVersion) |>.

Definition patch_status (patch : AgentAssetPatch) (asset : AgentAsset) : PM AgentAsset :=
  match patch.(Patch_Status) with
  | None => ret asset
  | Some status =>
      let status := ToLower (TrimSpace status) in
      if negb (validAgentAssetStatus status) then
        throw (runtime_error CodeDecisionSchemaError "invalid agent asset status" {["status" := AString status]}) else
      let asset := asset <| Asset_Status := status |> in
      if status == AgentAssetDeleted then
        let! now := now in ret (asset <| Asset_DeletedAt := Some now |>)
      else ret (asset <| Asset_DeletedAt := None |>)
  end.

Definition PatchAgentAssetForTenant (tenantID agentID : string) (patch : AgentAssetPatch) (actorID : string)
    : PM AgentAsset :=
  let! found := GetAgentAsset tenantID agentID in
  match found with
  | None => throw (runtime_error CodeAgentNotFound "agent asset not found" {["agent_id" := AString agentID]})
  | Some asset =>
      let! asset := patch_status patch (patch_asset patch asset) in
      let! now := now in
      let asset := asset <| Asset_UpdatedAt := now |> in
      do! saveAgentAsset asset in
      do! package_audit tenantID actorID "agent.asset.update" agentID "allowed" "" in
      ret asset
  end.

Definition DeleteAgentAssetForTenant (tenantID agentID actorID : string) : PM AgentAsset :=
  let! asset := PatchAgentAssetForTenant tenantID agentID
    (mkAgentAssetPatch None None None (Some AgentAssetDeleted) None None) actorID in
  do! package_audit tenantID actorID "agent.asset.delete" agentID "allowed" "" in
  ret asset.

(** The first release of the version in memory, or in the store. *)
Definition find_version (tenantID agentID version : string) : PM (option AgentPackageVersion) :=
  let! s := get in
  let! entries := range_map s.(releases) in
  match List.find (is_version tenantID agentID version) (map snd entries) with
  | Some release => ret (Some release)
  | None =>
      match store with
      | None => ret None
      | Some store =>
          let! releases := on_store store.(store_ListReleases) in
          ret (List.find (is_version tenantID agentID version) releases)
      end
  end.

(** An error of the store is as good as no release. *)
Definition applyReleaseCarrierToAsset (asset : AgentAsset) (version : string) : PM AgentAsset :=
  let! found := attempt (find_version asset.(Asset_TenantID) asset.(Asset_AgentID) version) in
  ret (match found with
       | inl (Some release) => applyReleaseCarrierSnapshot asset release
       | _ => ensureAgentAssetCarrierDefaults asset
       end).

Definition EnsureAgentAssetVersionForTenant (tenantID agentID version actorID : string) : PM AgentAsset :=
  let! found := GetAgentAsset tenantID agentID in
  let! asset :=
    match found with
    | Some asset => ret asset
    | None => CreateAgentAssetForTenant tenantID agentID agentID "" "" actorID
    end in
  let asset := asset <| Asset_ActiveVersion := version |> <| Asset_DefaultVersion := version |> in
  let! asset := applyReleaseCarrierToAsset asset version in
  let asset := if (asset.(Asset_Status) == "") || (asset.(Asset_Status) == AgentAssetDeleted)
               then asset <| Asset_Status := AgentAssetActive |> <| Asset_DeletedAt := None |> else asset in
  let! now := now in
  let asset := asset <| Asset_UpdatedAt := now |> in
  do! saveAgentAsset asset in
  do! package_audit tenantID actorID "agent.asset.activate_version" agentID "allowed" version in
  ret asset.

(** *** Drafts *)

Definition keep_draft (draft : Draft) : PM unit :=
  let! s := get in put (s <| package_drafts := <[draft.(PDraft_DraftID) := draft]> s.(package_drafts) |>).

Definition getDraft (draftID : string) : PM (option Draft) :=
  let! s := get in or_stored (s.(package_drafts) !! draftID) (λ store, store.(store_GetDraft) draftID).

Definition CreateDraft (tenantID agentID version : string) (source : AgentPackageSource) (actorID : string) : PM Draft :=
  let! now := now in
  let! id := idgen_New "draft" in
  let draft := mkDraft id tenantID agentID version source ReleaseDraft actorID now now in
  do! keep_draft draft in
  do! to_store (λ store, store.(store_SaveDraft) draft) in
  do! package_audit tenantID actorID "agent.package.draft_create" id "allowed" "" in
  ret draft.

(** The draft, or an error. *)
Definition find_draft (draftID : string) : PM Draft :=
  let! found := getDraft draftID in
  match found with Some draft => ret draft | None => throw (Errorf "draft %s not found" [draftID]) end.
Definition require_tenant (what tenantID owner : string) : PM unit :=
  if owner != tenantID then throw (tenant_mismatch what) else ret tt.
Definition find_own_draft (tenantID draftID : string) : PM Draft :=
  let! draft := find_draft draftID in
  do! require_tenant "draft" tenantID draft.(PDraft_TenantID) in
  ret draft.

(** The key of the map is the id that was asked for. *)
Definition patchForTenant (tenantID draftID actorID : string) (fn : Draft → Draft) : PM Draft :=
  let! draft := find_draft draftID in
  if (tenantID != "") && (draft.(PDraft_TenantID) != tenantID) then throw (tenant_mismatch "draft") else
  let draft := fn draft in
  let! now := now in
  let draft := draft <| PDraft_UpdatedAt := now |> in
  let! s := get in
  do! put (s <| package_drafts := <[draftID := draft]> s.(package_drafts) |>) in
  do! to_store (λ store, store.(store_SaveDraft) draft) in
  do! package_audit draft.(PDraft_TenantID) actorID "agent.package.draft_update" draftID "allowed" "" in
  ret draft.
Definition patch (draftID actorID : string) (fn : Draft → Draft) : PM Draft := patchForTenant "" draftID actorID fn.

Definition on_source (f : AgentPackageSource → AgentPackageSource) (draft : Draft) : Draft :=
  draft <| PDraft_Source := f draft.(PDraft_Source) |>.
(** [patchForTenant], unless the arguments are bad. *)
Definition patch_unless (bad : option error) (tenantID draftID actorID : string)
    (f : AgentPackageSource → AgentPackageSource) : PM Draft :=
  match bad with Some err => throw err | None => patchForTenant tenantID draftID actorID (on_source f) end.
Definition required (missing : bool) (what : string) : option error :=
  if missing then Some (Errorf (what +:+ " is required") []) else None.

Definition PatchSourceForTenant (tenantID draftID : string) (source : AgentPackageSource) (actorID : string) : PM Draft :=
  patch_unless (ValidateSourceMetadata source.(Src_Metadata)) tenantID draftID actorID (λ _, source).
Definition PatchStrategiesForTenant (tenantID draftID : string) (strategies : AgentStrategies) (actorID : string) : PM Draft :=
  patch_unless None tenantID draftID actorID (λ source, source <| Src_Strategies := strategies |>).
Definition PatchCollaboratorsForTenant (tenantID draftID : string) (collaborators : list AgentCollaboratorRef)
    (actorID : string) : PM Draft :=
  patch_unless None tenantID draftID actorID (λ source, source <| Src_Collaborators := collaborators |>).
Definition PatchExportsForTenant (tenantID draftID : string) (exports : AgentExports) (actorID : string) : PM Draft :=
  patch_unless None tenantID draftID actorID (λ source, source <| Src_Exports := exports |>).

Definition UpsertCollaboratorForTenant (tenantID draftID : string) (collaborator : AgentCollaboratorRef)
    (actorID : string) : PM Draft :=
  patch_unless (required (collaborator.(Collab_AgentID) == "") "agent_id") tenantID draftID actorID
    (λ source, source <| Src_Collaborators := upsertCollaborator source.(Src_Collaborators) collaborator |>).
Definition RemoveCollaboratorForTenant (tenantID draftID agentID actorID : string) : PM Draft :=
  patch_unless (required (agentID == "") "agent_id") tenantID draftID actorID
    (λ source, source <| Src_Collaborators :=
       List.filter (λ c, c.(Collab_AgentID) != agentID) source.(Src_Collaborators) |>).

Definition on_tools (f : list AgentExportedTool → list AgentExportedTool) (source : AgentPackageSource)
    : AgentPackageSource :=
  source <| Src_Exports := mkAgentExports (f source.(Src_Exports).(Exports_Tools)) |>.
Definition UpsertExportedToolForTenant (tenantID draftID : string) (tool : AgentExportedTool) (actorID : string) : PM Draft :=
  patch_unless (required (blank tool.(Exported_ToolID)) "tool_id") tenantID draftID actorID
    (on_tools (λ tools, upsertExportedTool tools tool)).
Definition RemoveExportedToolForTenant (tenantID draftID toolID actorID : string) : PM Draft :=
  patch_unless (required (blank toolID) "tool_id") tenantID draftID actorID
    (on_tools (List.filter (λ tool, tool.(Exported_ToolID) != toolID))).

Definition UpsertSkillForTenant (tenantID draftID : string) (skill : SkillDraftInput) (actorID : string) : PM Draft :=
  let skill := skill <| SkillIn_RiskLevel := or_default skill.(SkillIn_RiskLevel) RiskLow |> in
  patch_unless (first_of [required (skill.(SkillIn_SkillID) == "") "skill_id";
                          RiskLevel_Validate skill.(SkillIn_RiskLevel)]) tenantID draftID actorID
    (λ source, source
       <| Src_SkillDefinitions := replace_skill (skillDefinitionFromInput skill) skill.(SkillIn_SkillID)
            skill.(SkillIn_Version) source.(Src_SkillDefinitions) |>
       <| Src_Skills := upsertSkillRef source.(Src_Skills)
            (mkSkillDefinitionRef skill.(SkillIn_SkillID) skill.(SkillIn_Version)) |>).
Definition RemoveSkillForTenant (tenantID draftID skillID version actorID : string) : PM Draft :=
  patch_unless (required (skillID == "") "skill_id") tenantID draftID actorID
    (λ source, source
       <| Src_SkillDefinitions := List.filter (λ d, other_skill skillID version d.(Skill_Card).(SkillCard_SkillID)
            d.(Skill_Card).(SkillCard_Version)) source.(Src_SkillDefinitions) |>
       <| Src_Skills := removeSkillRef source.(Src_Skills) skillID version |>).

(** Compiles a draft; a draft in memory shares the slice of tools that the compiler works on. *)
Definition compile_draft (draftID : string) (draft : Draft) : PM AgentDefinition :=
  let! compiled := Compile draft.(PDraft_AgentID) draft.(PDraft_Version) draft.(PDraft_Source) in
  let! s := get in
  do! put (s <| package_drafts := alter (λ d : Draft, d <| PDraft_Source := compiled.2 |>)
                                    draftID s.(package_drafts) |>) in
  match compiled.1 with inl err => throw err | inr definition => ret definition end.

Definition set_status (status : ReleaseStatus) (draft : Draft) : Draft := draft <| PDraft_Status := status |>.

Definition ValidateDraft (draftID : string) : PM Draft :=
  let! draft := find_draft draftID in
  let! _ := compile_draft draftID draft in
  patch draftID "system" (set_status ReleaseValidated).
Definition ValidateDraftForTenant (tenantID draftID actorID : string) : PM Draft :=
  let! draft := find_own_draft tenantID draftID in
  let! _ := compile_draft draftID draft in
  patchForTenant tenantID draftID actorID (set_status ReleaseValidated).

Definition ready_for_review (draftID : string) (draft : Draft) : PM unit :=
  if mem_string draft.(PDraft_Status) [ReleaseValidated; ReleaseEvaluated] then ret tt
  else throw (Errorf "draft %s is not ready for review" [draftID]).
Definition MarkReviewed (draftID actorID : string) : PM Draft :=
  let! draft := find_draft draftID in
  do! ready_for_review draftID draft in
  patch draftID actorID (set_status ReleaseReviewed).
Definition MarkReviewedForTenant (tenantID draftID actorID : string) : PM Draft :=
  let! draft := find_own_draft tenantID draftID in
  do! ready_for_review draftID draft in
  patchForTenant tenantID draftID actorID (set_status ReleaseReviewed).

Definition ListDrafts (tenantID agentID : string) : PM (list Draft) :=
  match store with
  | Some store => on_store (store.(store_ListDrafts) tenantID agentID)
  | None =>
      let! s := get in
      let! entries := range_map s.(package_drafts) in
      ret (List.filter (λ draft, (draft.(PDraft_TenantID) == tenantID) &&
                                 ((agentID == "") || (draft.(PDraft_AgentID) == agentID))) (map snd entries))
  end.

(** *** Proposals *)

Definition getProposal (proposalID : string) : PM (option Proposal) :=
  let! s := get in or_stored (s.(proposals) !! proposalID) (λ store, store.(store_GetProposal) proposalID).
Definition keep_proposal (proposal : Proposal) : PM unit :=
  let! s := get in
  do! put (s <| proposals := <[proposal.(Proposal_ProposalID) := proposal]> s.(proposals) |>) in
  to_store (λ store, store.(store_SaveProposal) proposal).

Definition CreateProposalForTenant (tenantID draftID proposalType title reason : string) (patch : gmap string Any)
    (actorID : string) : PM Proposal :=
  let! draft := find_own_draft tenantID draftID in
  let! now := now in
  let! id := idgen_New "proposal" in
  let proposal := mkProposal id tenantID draft.(PDraft_DraftID) draft.(PDraft_AgentID) draft.(PDraft_Version)
    (or_default proposalType "package_change") title reason patch ProposalDraft actorID "" now now in
  do! keep_proposal proposal in
  do! package_audit tenantID actorID "agent.package.proposal.create" id "allowed" reason in
  ret proposal.

Definition find_own_proposal (tenantID proposalID : string) : PM Proposal :=
  let! found := getProposal proposalID in
  match found with
  | None => throw (Errorf "proposal %s not found" [proposalID])
  | Some proposal => do! require_tenant "proposal" tenantID proposal.(Proposal_TenantID) in ret proposal
  end.

Definition updateProposalForTenant (tenantID proposalID actorID action : string)
    (update : Proposal → error + Proposal) : PM Proposal :=
  let! proposal := find_own_proposal tenantID proposalID in
  match update proposal with
  | inl err => throw err
  | inr proposal =>
      let! now := now in
      let proposal := proposal <| Proposal_UpdatedAt := now |> in
      do! keep_proposal proposal in
      do! package_audit tenantID actorID action proposal.(Proposal_ProposalID) "allowed" proposal.(Proposal_Reason) in
      ret proposal
  end.

Definition submit (proposalID : string) (proposal : Proposal) : error + Proposal :=
  if proposal.(Proposal_Status) != ProposalDraft then inl (Errorf "proposal %s is not draft" [proposalID])
  else inr (proposal <| Proposal_Status := ProposalPendingReview |>).
(** A review of a proposal that waits for one. *)
Definition review (proposalID actorID : string) (status : ProposalStatus) (proposal : Proposal) : error + Proposal :=
  if proposal.(Proposal_Status) != ProposalPendingReview then
    inl (Errorf "proposal %s is not pending review" [proposalID])
  else inr (proposal <| Proposal_Status := status |> <| Proposal_ReviewedBy := actorID |>).
Definition reject (proposalID actorID reason : string) (proposal : Proposal) : error + Proposal :=
  match review proposalID actorID ProposalRejected proposal with
  | inr proposal => inr (if reason != "" then proposal <| Proposal_Reason := reason |> else proposal)
  | inl err => inl err
  end.

Definition SubmitProposalForTenant (tenantID proposalID actorID : string) : PM Proposal :=
  updateProposalForTenant tenantID proposalID actorID "agent.package.proposal.submit" (submit proposalID).
Definition ApproveProposalForTenant (tenantID proposalID actorID : string) : PM Proposal :=
  updateProposalForTenant tenantID proposalID actorID "agent.package.proposal.approve"
    (review proposalID actorID ProposalApproved).
Definition RejectProposalForTenant (tenantID proposalID actorID reason : string) : PM Proposal :=
  updateProposalForTenant tenantID proposalID actorID "agent.package.proposal.reject"
    (reject proposalID actorID reason).

(** *** Publication *)

Definition keep_release (release : AgentPackageVersion) : PM unit :=
  let! s := get in
  put (s <| releases := <[release.(Rel_PackageVersionID) := release]> s.(releases) |>).

Definition releaseVersionExists (tenantID agentID version : string) : PM bool :=
  let! found := find_version tenantID agentID version in
  ret (match found with Some _ => true | None => false end).

Context (sha256_hex : string → string).
Context `{!Marshal AgentPackageSource, !Marshal AgentStrategies, !Marshal AgentDefinition}.

(** [hash.StableJSON] *)
Definition StableJSON {A} `{!Marshal A} (v : A) : PM string :=
  match json_Marshal v with inl err => throw err | inr data => ret (sha256_hex data) end.

Definition new_release (draft : Draft) (id sourceHash compiledHash strategyHash : string) (compiled : AgentDefinition)
    (now : Time) : AgentPackageVersion :=
  mkAgentPackageVersion id draft.(PDraft_TenantID) draft.(PDraft_AgentID) draft.(PDraft_Version) ReleasePublished
    sourceHash compiledHash strategyHash compiled.(Agent_SourceKind) compiled.(Agent_SourceProviderID)
    compiled.(Agent_ManifestVersion) compiled.(Agent_ManifestHash) compiled.(Agent_CarrierKind)
    compiled.(Agent_RuntimeContract) compiled.(Agent_ConformanceStatus) 0 [] draft.(PDraft_CreatedBy)
    draft.(PDraft_CreatedAt) (Some now).

(** The release of a draft, with its definition. *)
Definition build_release (draftID : string) (draft : Draft) : PM (AgentPackageVersion * AgentDefinition) :=
  let! sourceHash := StableJSON draft.(PDraft_Source) in
  let! compiled := compile_draft draftID draft in
  let! id := idgen_New "pkgver" in
  let compiled := compiled <| Agent_TenantID := draft.(PDraft_TenantID) |> <| Agent_PackageVersionID := id |> in
  let! strategyHash := StableJSON compiled.(Agent_Strategies) in
  let! compiledHash := StableJSON compiled in
  let! now := now in
  ret (new_release draft id sourceHash compiledHash strategyHash compiled now, compiled).

(** The draft's source is the one the compiler has left. *)
Definition PublishDraft (draftID actorID : string) : PM AgentPackageVersion :=
  let! draft := find_draft draftID in
  if negb (mem_string draft.(PDraft_Status) [ReleaseValidated; ReleaseEvaluated; ReleaseReviewed]) then
    throw (Errorf "draft %s is not ready to publish" [draftID]) else
  let! exists_ := releaseVersionExists draft.(PDraft_TenantID) draft.(PDraft_AgentID) draft.(PDraft_Version) in
  if exists_ then
    throw (runtime_error CodePackageVersionConflict "agent package version already exists"
      {["tenant_id" := AString draft.(PDraft_TenantID); "agent_id" := AString draft.(PDraft_AgentID);
        "version" := AString draft.(PDraft_Version)]}) else
  let! built := build_release draftID draft in
  let '(release, compiled) := built in
  do! keep_release release in
  let draft := draft <| PDraft_Source := draft.(PDraft_Source) <| Src_Exports := compiled.(Agent_Exports) |> |>
                     <| PDraft_Status := ReleasePublished |>
                     <| PDraft_UpdatedAt := default zeroTime release.(Rel_PublishedAt) |> in
  let! s := get in
  do! put (s <| package_drafts := <[draftID := draft]> s.(package_drafts) |>) in
  do! to_store (λ store, store.(store_SaveRelease) release draft.(PDraft_Source) compiled) in
  do! to_store (λ store, store.(store_SaveDraft) draft) in
  do! package_audit draft.(PDraft_TenantID) actorID AuditAgentPackagePublish release.(Rel_PackageVersionID) "allowed" "" in
  ret release.

Definition PublishDraftForTenant (tenantID draftID actorID : string) : PM AgentPackageVersion :=
  let! _ := find_own_draft tenantID draftID in PublishDraft draftID actorID.

Definition PublishProposalForTenant (tenantID proposalID actorID : string) : PM AgentPackageVersion :=
  let! proposal := find_own_proposal tenantID proposalID in
  if proposal.(Proposal_Status) != ProposalApproved then throw (Errorf "proposal %s is not approved" [proposalID]) else
  let! release := PublishDraftForTenant tenantID proposal.(Proposal_DraftID) actorID in
  let! _ := updateProposalForTenant tenantID proposalID actorID "agent.package.proposal.publish"
    (λ proposal, inr (proposal <| Proposal_Status := ProposalPublished |>)) in
  ret release.

(** *** Releases *)

Definition find_release (packageVersionID : string) : PM AgentPackageVersion :=
  let! s := get in
  let! found := or_stored (s.(releases) !! packageVersionID) (λ store, store.(store_GetRelease) packageVersionID) in
  match found with
  | Some release => ret release
  | None => throw (Errorf "package version %s not found" [packageVersionID])
  end.
Definition set_release (packageVersionID : string) (release : AgentPackageVersion) : PM unit :=
  let! s := get in put (s <| releases := <[packageVersionID := release]> s.(releases) |>).
Definition allow_transition (current next : ReleaseStatus) : PM unit :=
  match validateReleaseTransition current next with Some err => throw err | None => ret tt end.

Definition markRelease (packageVersionID : string) (status : ReleaseStatus) (actorID action : string)
    : PM AgentPackageVersion :=
  let! release := find_release packageVersionID in
  do! allow_transition release.(Rel_Status) status in
  let release := release <| Rel_Status := status |> in
  do! set_release packageVersionID release in
  do! to_store (λ store, store.(store_UpdateReleaseStatus) packageVersionID status) in
  do! package_audit release.(Rel_TenantID) actorID action packageVersionID "allowed" "" in
  ret release.

Definition MarkCanaryWithRule (packageVersionID actorID : string) (percent : Z) (scope : list string)
    : PM AgentPackageVersion :=
  let! release := markRelease packageVersionID ReleaseCanary actorID "agent.package.canary" in
  let release := if (percent >? 0)%Z then release <| Rel_CanaryPercent := percent |> else release in
  let release := release <| Rel_CanaryScope := cleanScope scope |> in
  do! set_release packageVersionID release in
  do! to_store (λ store, store.(store_UpdateReleaseCanary) packageVersionID ReleaseCanary
    release.(Rel_CanaryPercent) release.(Rel_CanaryScope)) in
  ret release.
Definition MarkCanary (packageVersionID actorID : string) : PM AgentPackageVersion :=
  MarkCanaryWithRule packageVersionID actorID 0 [].

(** A release that no evaluation in memory has passed may have passed one by the store. *)
Definition has_passed (packageVersionID : string) : PM bool :=
  let! s := get in
  match default false (s.(evalPass) !! packageVersionID), store with
  | false, Some store =>
      let! found := on_store (store.(store_GetRelease) packageVersionID) in
      ret (match found with Some release => release.(Rel_Status) == ReleaseEvaluated | None => false end)
  | passed, _ => ret passed
  end.
Definition MarkStable (packageVersionID actorID : string) : PM AgentPackageVersion :=
  let! passed := has_passed packageVersionID in
  if negb passed then
    throw (Errorf "package version %s cannot become stable before passing eval" [packageVersionID]) else
  markRelease packageVersionID ReleaseStable actorID "agent.package.stable".

Definition MarkEvalResult (packageVersionID : string) (passed : bool) (actorID reason : string) : PM AgentPackageVersion :=
  let! release := find_release packageVersionID in
  let statusChanged := passed && (release.(Rel_Status) != ReleaseStable) in
  let! release :=
    if statusChanged then
      do! allow_transition release.(Rel_Status) ReleaseEvaluated in
      let release := release <| Rel_Status := ReleaseEvaluated |> in
      do! set_release packageVersionID release in
      ret release
    else ret release in
  let! s := get in
  do! put (s <| evalPass := <[packageVersionID := passed]> s.(evalPass) |>) in
  do! to_store (λ store, store.(store_MarkEvalResult) packageVersionID passed) in
  do! (if statusChanged then
         to_store (λ store, store.(store_UpdateReleaseStatus) packageVersionID release.(Rel_Status))
       else ret tt) in
  do! package_audit release.(Rel_TenantID) actorID "agent.package.eval" packageVersionID
        (if passed then "allowed" else "denied") reason in
  ret release.

Definition Rollback (packageVersionID actorID reason : string) : PM AgentPackageVersion :=
  let! release := markRelease packageVersionID ReleaseRolledBack actorID AuditAgentPackageRollback in
  do! package_audit release.(Rel_TenantID) actorID AuditAgentPackageRollback packageVersionID "allowed" reason in
  ret release.

(** An error of the store is not reported. *)
Definition GetRelease (packageVersionID : string) : PM (option AgentPackageVersion) :=
  let! s := get in
  let! found := attempt (or_stored (s.(releases) !! packageVersionID) (λ store, store.(store_GetRelease) packageVersionID)) in
  ret (match found with inl release => release | inr _ => None end).

Definition ListReleases : PM (list AgentPackageVersion) :=
  let! stored :=
    match store with
    | Some store => let! listed := attempt (on_store store.(store_ListReleases)) in
                    ret (match listed with inl releases => Some releases | inr _ => None end)
    | None => ret None
    end in
  match stored with
  | Some releases => ret releases
  | None => let! s := get in let! entries := range_map s.(releases) in ret (map snd entries)
  end.

Definition RecordCanaryHit (hit : CanaryHit) : PM unit :=
  let! hit := (if hit.(Hit_HitID) == "" then let! id := idgen_New "canaryhit" in ret (hit <| Hit_HitID := id |>)
               else ret hit) in
  let! hit := (if IsZero hit.(Hit_CreatedAt) then let! now := now in ret (hit <| Hit_CreatedAt := now |>)
               else ret hit) in
  to_store (λ store, store.(store_RecordCanaryHit) hit).
Definition ListCanaryHits (tenantID agentID : string) : PM (list CanaryHit) :=
  match store with Some store => on_store (store.(store_ListCanaryHits) tenantID agentID) | None => ret [] end.
End service.
