(* ===== verification/PackageLife.v ===== *)
(** * The life of agent packages

    Theorems about [AgentPackage], for a service without a store: publishing a draft on every branch, and the
    invariants of any sequence of calls.  [leaves] takes apart the operations that leave releases, proposals and
    evaluations alone; [marks] gives the outcome of those that move a release; [sound_step] is what every
    call keeps. *)

From stdpp Require Import base list strings gmap fin_maps relations.
From Stdlib Require Import Ascii Lia.
From S2P Require Import Prelude Contracts GoMonad Storage Policies Compile AgentPackage.
Open Scope go_scope.
Open Scope string_scope.
Open Scope list_scope.

(** ** Operations that leave them *)
Section leaves.
Context `{Env}.
Notation St := (Packages unit).
Notation NoStore := (None : option (PackageStoreOps unit)).

Definition core (s : St) := (releases s, proposals s, evalPass s).

(** From the state [s], [m] leaves releases, proposals and evaluations as they are. *)
Definition leaves_at {A} (s : St) (m : M St A) : Prop :=
  ∀ w, match m w s with (_, w', s') => core s' = core s ∧ (w_draws w ≤ w_draws w')%nat end.
Definition leaves {A} (m : M St A) : Prop := ∀ s, leaves_at s m.

Lemma leaves_effect {A} (m : M St A) : effect_only m → forward m → leaves m.
Proof.
  intros He Hf s w. destruct (He w s) as (a & w' & E). rewrite E. split; [done|by eapply Hf].
Qed.
Lemma leaves_ret {A} (a : A) : leaves (ret a).
Proof. intros s w. by split. Qed.
Lemma leaves_throw {A} e : leaves (throw (A:=A) e).
Proof. intros s w. by split. Qed.
Lemma leaves_bind {A B} (m : M St A) (f : A → M St B) : leaves m → (∀ a, leaves (f a)) → leaves (bind m f).
Proof.
  intros Hm Hf s w. specialize (Hm s w). unfold bind. destruct (m w s) as [[[a|e|] w1] s1]; [|done..].
  specialize (Hf a s1 w1). destruct (f a w1 s1) as [[r w2] s2]. destruct Hm, Hf. split; [congruence|lia].
Qed.
Lemma leaves_get {B} (f : St → M St B) : (∀ s, leaves_at s (f s)) → leaves (bind get f).
Proof. intros Hf s. exact (Hf s). Qed.
Lemma leaves_at_put s t : core t = core s → leaves_at s (put t).
Proof. intros E w. by split. Qed.
Lemma leaves_at_bind {A B} s (m : M St A) (f : A → M St B) :
  leaves_at s m → (∀ a, leaves (f a)) → leaves_at s (bind m f).
Proof.
  intros Hm Hf w. specialize (Hm w). unfold bind. destruct (m w s) as [[[a|e|] w1] s1]; [|done..].
  specialize (Hf a s1 w1). destruct (f a w1 s1) as [[r w2] s2]. destruct Hm, Hf. split; [congruence|lia].
Qed.
Lemma leaves_if {A} (b : bool) (m n : M St A) : leaves m → leaves n → leaves (if b then m else n).
Proof. by destruct b. Qed.
Lemma leaves_attempt {A} (m : M St A) : leaves m → leaves (attempt m).
Proof. intros Hm s w. specialize (Hm s w). unfold attempt. by destruct (m w s) as [[[a|e|] w1] s1]. Qed.

Lemma leaves_now : leaves now.
Proof. apply leaves_effect; [apply effect_only_now|apply forward_now]. Qed.
Lemma leaves_idgen p : leaves (idgen_New p).
Proof. apply leaves_effect; [apply effect_only_idgen|apply forward_idgen]. Qed.
Lemma leaves_range {V} (m : gmap string V) : leaves (range_map m).
Proof. apply leaves_effect; [apply effect_only_range|apply forward_range]. Qed.
Lemma leaves_to_store f : leaves (to_store NoStore f).
Proof. apply leaves_ret. Qed.
Lemma leaves_or_stored {A} (found : option A) f : leaves (or_stored NoStore found f).
Proof. destruct found; apply leaves_ret. Qed.
Lemma package_audit_effect {T} tenantID actorID action id decision reason :
  effect_only (S:=Packages T) (package_audit tenantID actorID action id decision reason) ∧
  forward (S:=Packages T) (package_audit tenantID actorID action id decision reason).
Proof.
  unfold package_audit. split.
  - auto 10 with effects.
  - auto 10 with forward.
Qed.
Lemma leaves_audit tenantID actorID action id decision reason :
  leaves (package_audit tenantID actorID action id decision reason).
Proof. apply leaves_effect; apply package_audit_effect. Qed.
Lemma leaves_compile agentID version source : leaves (Compile agentID version source).
Proof.
  apply leaves_effect.
  - intros w s. destruct (Compile_run agentID version source w s) as (? & ? & w' & _ & E). by eexists _, w'.
  - unfold Compile. intros w s r w' s'. destruct (normalizeSourceKind _); [intros [= _ <- _]; lia|].
    unfold bind at 1, range_map, lift_env. destruct (check_source _ _ _ _ _); [intros [= _ <- _]; cbn; lia|].
    destruct (validateExports _) as [[|] ?]; [intros [= _ <- _]; cbn; lia|].
    unfold bind, time_Now, lift_env. intros [= _ <- _]. cbn. lia.
Qed.
End leaves.
Create HintDb leaves.
#[export] Hint Resolve leaves_ret leaves_throw leaves_now leaves_idgen leaves_range leaves_to_store
  leaves_or_stored leaves_audit leaves_compile : leaves.
(** Takes an operation apart into parts that leave the releases. *)
Ltac leave_step := cbv beta zeta; match goal with
  | |- leaves (bind get _) => apply leaves_get; intros ?
  | |- leaves (bind _ _) => apply leaves_bind; [|intros ?]
  | |- leaves (if _ then _ else _) => apply leaves_if
  | |- leaves (match ?o with Some _ => _ | None => _ end) => destruct o
  | |- leaves (match ?o with inl _ => _ | inr _ => _ end) => destruct o
  | |- leaves (attempt _) => apply leaves_attempt
  | |- leaves_at _ (put _) => apply leaves_at_put; reflexivity
  | |- leaves_at _ (bind (put _) _) => apply leaves_at_bind; [apply leaves_at_put; reflexivity|intros ?]
  | |- leaves_at ?s ?m => apply (λ H : leaves m, H s)
  | |- leaves _ => solve [auto with leaves]
  end.
Ltac leave := repeat leave_step.

Section left.
Context `{Env}.
Notation NoStore := (None : option (PackageStoreOps unit)).

Lemma leaves_GetAgentAsset t a : leaves (GetAgentAsset NoStore t a).
Proof. unfold GetAgentAsset. leave. Qed.
Lemma leaves_saveAgentAsset asset : leaves (saveAgentAsset NoStore asset).
Proof. unfold saveAgentAsset. leave. Qed.
Lemma leaves_find_version t a v : leaves (find_version NoStore t a v).
Proof. unfold find_version. leave. Qed.
Lemma leaves_find_draft id : leaves (find_draft NoStore id).
Proof. unfold find_draft, getDraft. leave. Qed.
Lemma leaves_require_tenant what t o : leaves (require_tenant (T:=unit) what t o).
Proof. unfold require_tenant. leave. Qed.
End left.
#[export] Hint Resolve leaves_GetAgentAsset leaves_saveAgentAsset leaves_find_version leaves_find_draft
  leaves_require_tenant : leaves.

Section left2.
Context `{Env}.
Notation NoStore := (None : option (PackageStoreOps unit)).

Lemma leaves_find_own_draft t id : leaves (find_own_draft NoStore t id).
Proof. unfold find_own_draft. leave. Qed.
Lemma leaves_CreateAsset t a n d o actor : leaves (CreateAgentAssetForTenant NoStore t a n d o actor).
Proof. unfold CreateAgentAssetForTenant. leave. Qed.
Lemma leaves_PatchAsset t a p actor : leaves (PatchAgentAssetForTenant NoStore t a p actor).
Proof. unfold PatchAgentAssetForTenant, patch_status. leave. Qed.
Lemma leaves_EnsureVersion t a v actor : leaves (EnsureAgentAssetVersionForTenant NoStore t a v actor).
Proof.
  unfold EnsureAgentAssetVersionForTenant, applyReleaseCarrierToAsset. leave. apply leaves_CreateAsset.
Qed.
Lemma leaves_CreateDraft t a v src actor : leaves (CreateDraft NoStore t a v src actor).
Proof. unfold CreateDraft, keep_draft. leave. Qed.
Lemma leaves_patchForTenant t id actor f : leaves (patchForTenant NoStore t id actor f).
Proof. unfold patchForTenant. leave. Qed.
Lemma leaves_compile_draft id d : leaves (compile_draft (T:=unit) id d).
Proof. unfold compile_draft. leave. Qed.
End left2.
#[export] Hint Resolve leaves_find_own_draft leaves_CreateAsset leaves_PatchAsset leaves_EnsureVersion
  leaves_CreateDraft leaves_patchForTenant leaves_compile_draft : leaves.

(** ** Publication, on every branch *)
Section publication.
Context `{Env} (sha256_hex : string → string).
Context `{!Marshal AgentPackageSource, !Marshal AgentStrategies, !Marshal AgentDefinition}.
Notation St := (Packages unit).
Notation NoStore := (None : option (PackageStoreOps unit)).
Implicit Types s : St.

(** No release has this version of the agent. *)
Definition version_free (t a v : string) s : Prop :=
  ∀ id r, releases s !! id = Some r → is_version t a v r = false.

Lemma find_version_run t a v w s : ∃ found w',
  find_version NoStore t a v w s = (Ok found, w', s) ∧ w_draws w' = w_draws w ∧
  match found with
  | Some r => is_version t a v r = true ∧ ∃ id, releases s !! id = Some r
  | None => version_free t a v s
  end.
Proof.
  unfold find_version. rewrite bind_get. unfold bind at 1, range_map, lift_env.
  set (entries := env_range _ _). assert (Hp : entries ≡ₚ map_to_list (releases s)) by apply env_range_perm.
  destruct (List.find _ _) as [r|] eqn:E; eexists _, _; (split; [reflexivity|split; [reflexivity|]]).
  - apply find_some in E as [Hin Hv]. split; [done|]. apply list_elem_of_In, elem_of_map_snd in Hin as [id Hin].
    exists id. apply elem_of_map_to_list. by rewrite <- Hp.
  - intros id r Hr. apply (find_none _ _ E). apply list_elem_of_In, elem_of_map_snd. exists id.
    rewrite Hp. by apply elem_of_map_to_list.
Qed.

Lemma find_draft_run id w s : find_draft NoStore id w s =
  match package_drafts s !! id with Some d => (Ok d, w, s) | None => (Err (Errorf "draft %s not found" [id]), w, s) end.
Proof. unfold find_draft, getDraft, or_stored, bind, get, ret. by destruct (package_drafts s !! id). Qed.

Definition with_source (id : string) (src : AgentPackageSource) s : St :=
  s <| package_drafts := alter (λ d : Draft, d <| PDraft_Source := src |>) id (package_drafts s) |>.

Lemma compile_draft_run id d w s : ∃ r src w',
  compile_draft id d w s = (match r with inl e => Err e | inr c => Ok c end, w', with_source id src s) ∧
  Compile (PDraft_AgentID d) (PDraft_Version d) (PDraft_Source d) w s = (Ok (r, src), w', s) ∧ (w_draws w ≤ w_draws w')%nat.
Proof.
  destruct (Compile_run (PDraft_AgentID d) (PDraft_Version d) (PDraft_Source d) w s) as (budgets & now & w' & _ & E).
  pose proof (leaves_compile (PDraft_AgentID d) (PDraft_Version d) (PDraft_Source d) s w) as Hd. rewrite E in Hd.
  destruct (compile_at budgets now (PDraft_AgentID d) (PDraft_Version d) (PDraft_Source d)) as [r src].
  exists r, src, w'. split; [|split; [done|apply Hd]]. unfold compile_draft. rewrite (bind_Ok _ _ _ _ _ _ _ E), bind_get, bind_put.
  by destruct r.
Qed.

Lemma StableJSON_run {A} `{!Marshal A} (v : A) w s :
  ∃ r, StableJSON sha256_hex v w s = (match r with inl e => Err e | inr h => Ok h end, w, s).
Proof. unfold StableJSON. destruct (json_Marshal v) as [e|data]; [by exists (inl e)|by exists (inr (sha256_hex data))]. Qed.

(** What the release of a draft says. *)
Definition releases_draft (d : Draft) (c : AgentDefinition) (r : AgentPackageVersion) : Prop :=
  Rel_TenantID r = PDraft_TenantID d ∧ Rel_AgentID r = PDraft_AgentID d ∧ Rel_Version r = PDraft_Version d ∧
  Rel_Status r = ReleasePublished ∧ Rel_SourceKind r = Agent_SourceKind c ∧ Rel_CarrierKind r = Agent_CarrierKind c ∧
  Rel_CreatedBy r = PDraft_CreatedBy d ∧ Rel_CanaryPercent r = 0%Z.

Lemma build_release_run id d w s : ∃ src w',
  match build_release sha256_hex id d w s with
  | (Ok (r, c), w'', s') => w'' = w' ∧ s' = with_source id src s ∧ releases_draft d c r ∧ wf_definition c ∧
      Agent_Exports c = Src_Exports src ∧ src = (PDraft_Source d) <| Src_Exports := Src_Exports src |> ∧
      (∃ n, Rel_PackageVersionID r = "pkgver" +:+ "_" +:+ env_rand n ∧ (w_draws w ≤ n < w_draws w')%nat) ∧
      is_Some (Rel_PublishedAt r)
  | (Err _, w'', s') => (w_draws w ≤ w_draws w'')%nat ∧ (s' = s ∨ s' = with_source id src s)
  | (Panic, _, _) => False
  end.
Proof.
  destruct (compile_draft_run id d w s) as (r & src & w' & E & Ec & Hw).
  exists src. unfold build_release. destruct (StableJSON_run (PDraft_Source d) w s) as ([e|h1] & E1).
  { exists w. rewrite (bind_Err _ _ _ _ _ _ _ E1). auto. }
  rewrite (bind_Ok _ _ _ _ _ _ _ E1). destruct r as [e|c].
  { exists w'. rewrite (bind_Err _ _ _ _ _ _ _ E). auto. }
  rewrite (bind_Ok _ _ _ _ _ _ _ E), (bind_Ok _ _ _ _ _ _ _ (idgen_New_run _ _ _)).
  set (id' := "pkgver" +:+ _). set (w2 := w' <| w_draws := _ |>).
  set (c' := c <| Agent_TenantID := _ |> <| Agent_PackageVersionID := _ |>).
  destruct (StableJSON_run (Agent_Strategies c') w2 (with_source id src s)) as ([e|h2] & E2).
  { exists w2. rewrite (bind_Err _ _ _ _ _ _ _ E2). split; [cbn; lia|by right]. }
  rewrite (bind_Ok _ _ _ _ _ _ _ E2). destruct (StableJSON_run c' w2 (with_source id src s)) as ([e|h3] & E3).
  { exists w2. rewrite (bind_Err _ _ _ _ _ _ _ E3). split; [cbn; lia|by right]. }
  rewrite (bind_Ok _ _ _ _ _ _ _ E3), bind_now. unfold ret. cbn iota beta. eexists. split; [reflexivity|].
  destruct (Compile_wf _ _ _ _ _ _ _ _ _ Ec) as (Hwf & _ & _ & He & Hs & _).
  split_and!; try done. exists (w_draws w'). split; [done|]. cbn. lia.
Qed.

Lemma audit_run t a act id dec why w s : ∃ w',
  package_audit (T:=unit) t a act id dec why w s = (Ok tt, w', s) ∧ (w_draws w ≤ w_draws w')%nat.
Proof.
  destruct (package_audit_effect (T:=unit) t a act id dec why) as [He Hf]. destruct (He w s) as ([] & w' & E).
  exists w'. split; [done|]. by eapply Hf.
Qed.

Lemma insert_with_source id src s d : <[id := d]> (package_drafts (with_source id src s)) = <[id := d]> (package_drafts s).
Proof.
  apply map_eq. intros i. destruct (decide (i = id)) as [->|]; [by rewrite !lookup_insert_eq|].
  rewrite !lookup_insert_ne by done. cbn. by rewrite lookup_alter_ne.
Qed.
Lemma with_source_status id src s i :
  PDraft_Status <$> package_drafts (with_source id src s) !! i = PDraft_Status <$> package_drafts s !! i.
Proof.
  cbn. destruct (decide (i = id)) as [->|]; [|by rewrite lookup_alter_ne].
  rewrite lookup_alter_eq. by destruct (package_drafts s !! id).
Qed.

Definition publishable : list ReleaseStatus := [ReleaseValidated; ReleaseEvaluated; ReleaseReviewed].

(** What publishing a draft does from [s]: it succeeds only for a draft that was validated, of a version that is not
    released yet, whose source compiles now. *)
Definition publishes (draftID : string) w s (outcome : Res AgentPackageVersion * World * St) : Prop :=
  match outcome with
  | (Ok release, w', s') => ∃ d c src t,
      package_drafts s !! draftID = Some d ∧ PDraft_Status d ∈ publishable ∧
      version_free (PDraft_TenantID d) (PDraft_AgentID d) (PDraft_Version d) s ∧
      wf_definition c ∧ releases_draft d c release ∧
      (∃ n, Rel_PackageVersionID release = "pkgver" +:+ "_" +:+ env_rand n ∧ (w_draws w ≤ n < w_draws w')%nat) ∧
      src = (PDraft_Source d) <| Src_Exports := Agent_Exports c |> ∧
      assets s' = assets s ∧ proposals s' = proposals s ∧ evalPass s' = evalPass s ∧
      releases s' = <[Rel_PackageVersionID release := release]> (releases s) ∧
      package_drafts s' = <[draftID := d <| PDraft_Source := src |> <| PDraft_Status := ReleasePublished |>
                                         <| PDraft_UpdatedAt := t |>]> (package_drafts s)
  | (Err _, w', s') => core s' = core s ∧ (w_draws w ≤ w_draws w')%nat ∧
      ∀ id, PDraft_Status <$> package_drafts s' !! id = PDraft_Status <$> package_drafts s !! id
  | (Panic, _, _) => False
  end.

Lemma PublishDraft_run draftID actorID w s :
  publishes draftID w s (PublishDraft NoStore sha256_hex draftID actorID w s).
Proof.
  unfold publishes, PublishDraft. unfold bind at 1. rewrite find_draft_run. destruct (package_drafts s !! draftID) as [d|] eqn:Ed; [|done].
  destruct (mem_string (PDraft_Status d) _) eqn:Est; cbn [negb]; [|done]. apply mem_string_elem in Est.
  destruct (find_version_run (PDraft_TenantID d) (PDraft_AgentID d) (PDraft_Version d) w s) as (found & w1 & E1 & Hw1 & Hf).
  assert (Ex : releaseVersionExists NoStore (PDraft_TenantID d) (PDraft_AgentID d) (PDraft_Version d) w s =
    (Ok (match found with Some _ => true | None => false end), w1, s))
    by (unfold releaseVersionExists; by rewrite (bind_Ok _ _ _ _ _ _ _ E1)).
  rewrite (bind_Ok _ _ _ _ _ _ _ Ex). destruct found as [r|]; [split; [done|]; split; [|done]; cbn; lia|].
  destruct (build_release_run draftID d w1 s) as (src & w2 & Hb).
  unfold bind at 1. destruct (build_release sha256_hex draftID d w1 s) as [[[[release c]|e|] w2'] s2]; [..|done].
  2:{ destruct Hb as [Hw Hs]. assert (w_draws w ≤ w_draws w2')%nat by lia. destruct Hs as [->| ->]; [done|].
      split; [done|]. split; [done|]. apply with_source_status. }
  destruct Hb as (-> & -> & Hrel & Hwf & He & Hsrc & (n & Hn & Hdraws) & Ht).
  unfold keep_release, bind at 1 2, get, put at 1. cbn zeta. unfold bind at 1 2, get, put. cbn zeta.
  unfold to_store, bind at 1 2, ret at 1 2.
  match goal with |- context [package_audit ?t ?a ?act ?id ?dec ?why] =>
    match goal with |- context [bind (package_audit t a act id dec why) _ ?w0 ?s0] =>
      destruct (audit_run t a act id dec why w0 s0) as (w3 & E3 & Hw3); rewrite (bind_Ok _ _ _ _ _ _ _ E3) end end.
  exists d, c, src. eexists. unfold ret. split_and!; try done.
  - exists n. split; [done|]. lia.
  - by rewrite He.
  - cbn. rewrite He. rewrite <- Hsrc. apply insert_with_source.
Qed.

(** Publishing a draft, on every branch.  It succeeds only for a draft that was validated, of a version that is not
    released yet, whose source compiles now; it then adds one published release of the draft under a new id and
    marks the draft as published, with the source as the compiler left it.  Otherwise no release, proposal or
    evaluation and no status of a draft changes. *)
Theorem publish_correct draftID actorID w s :
  publishes draftID w s (PublishDraft NoStore sha256_hex draftID actorID w s).
Proof. apply PublishDraft_run. Qed.
End publication.

(** ** Releases *)
Section release_runs.
Context `{Env}.
Notation St := (Packages unit).
Notation NoStore := (None : option (PackageStoreOps unit)).
Implicit Types s : St.

Definition with_release (id : string) (r : AgentPackageVersion) s : St := s <| releases := <[id := r]> (releases s) |>.

(** [m] ends with the release in the state, or with an error in the state it began in. *)
Definition marks (m : M St AgentPackageVersion) w s (outcome : option (AgentPackageVersion * St)) : Prop :=
  match outcome with
  | Some (r, s') => ∃ w', m w s = (Ok r, w', s') ∧ (w_draws w ≤ w_draws w')%nat
  | None => ∃ e w', m w s = (Err e, w', s) ∧ (w_draws w ≤ w_draws w')%nat
  end.

Definition allowed (a b : ReleaseStatus) : bool := negb (some_and (λ _, true) (validateReleaseTransition a b)).

Lemma find_release_run id w s : find_release NoStore id w s =
  match releases s !! id with Some r => (Ok r, w, s) | None => (Err (Errorf "package version %s not found" [id]), w, s) end.
Proof. unfold find_release, or_stored, bind, get, ret. by destruct (releases s !! id). Qed.

Lemma marks_found id w s f outcome :
  (∀ r, releases s !! id = Some r → marks (f r) w s (outcome r)) →
  marks (bind (find_release NoStore id) f) w s (match releases s !! id with Some r => outcome r | None => None end).
Proof.
  intros Hf. destruct (releases s !! id) as [r|] eqn:Er.
  - specialize (Hf r eq_refl). assert (E : find_release NoStore id w s = (Ok r, w, s)) by by rewrite find_release_run, Er.
    unfold marks in *. rewrite (bind_Ok _ _ _ _ _ _ _ E). done.
  - eexists _, w. split; [|lia]. apply bind_Err. by rewrite find_release_run, Er.
Qed.

Lemma allow_transition_run a b w s : ∃ e, allow_transition (T:=unit) a b w s = (if allowed a b then Ok tt else Err e, w, s).
Proof.
  unfold allow_transition, allowed. destruct (validateReleaseTransition a b) as [e|]; [by exists e|].
  by exists (ErrSentinel "").
Qed.

Definition marked (id : string) (status : ReleaseStatus) s : option (AgentPackageVersion * St) :=
  match releases s !! id with
  | Some r => if allowed (Rel_Status r) status
              then Some (r <| Rel_Status := status |>, with_release id (r <| Rel_Status := status |>) s) else None
  | None => None
  end.

Lemma markRelease_run id status actor action w s :
  marks (markRelease NoStore id status actor action) w s (marked id status s).
Proof.
  unfold marked, markRelease. apply (marks_found id w s). intros r Er.
  destruct (allow_transition_run (Rel_Status r) status w s) as [e E]. destruct (allowed _ _).
  - cbn [marks]. rewrite (bind_Ok _ _ _ _ _ _ _ E). cbn zeta. unfold set_release, to_store, bind at 1 2 3, get, put, ret at 1. cbn zeta.
    match goal with |- context [bind (package_audit ?t ?a ?act ?i ?dec ?why) _ ?w0 ?s0] =>
      destruct (audit_run t a act i dec why w0 s0) as (w' & Ea & Hw); rewrite (bind_Ok _ _ _ _ _ _ _ Ea) end.
    by exists w'.
  - exists e, w. rewrite (bind_Err _ _ _ _ _ _ _ E). by split; [|lia].
Qed.

Lemma marks_bind m w s outcome f outcome' :
  marks m w s outcome →
  match outcome with
  | Some (r, s1) => ∀ w1, marks (f r) w1 s1 outcome' ∧ outcome' ≠ None
  | None => outcome' = None
  end → marks (bind m f) w s outcome'.
Proof.
  destruct outcome as [[r s1]|]; cbn.
  - intros (w1 & E & Hw) Hf. destruct (Hf w1) as [Hm Hn]. destruct outcome' as [[r' s']|]; [|done].
    destruct Hm as (w2 & E2 & Hw2). exists w2. rewrite (bind_Ok _ _ _ _ _ _ _ E). split; [done|lia].
  - intros (e & w1 & E & Hw) ->. exists e, w1. by rewrite (bind_Err _ _ _ _ _ _ _ E).
Qed.

Definition canary_rule (percent : Z) (scope : list string) (r : AgentPackageVersion) : AgentPackageVersion :=
  (if (percent >? 0)%Z then r <| Rel_CanaryPercent := percent |> else r) <| Rel_CanaryScope := cleanScope scope |>.

Lemma MarkCanaryWithRule_run id actor percent scope w s :
  marks (MarkCanaryWithRule NoStore id actor percent scope) w s
    (match marked id ReleaseCanary s with
     | Some (r, _) => Some (canary_rule percent scope r, with_release id (canary_rule percent scope r) s)
     | None => None end).
Proof.
  eapply marks_bind; [apply markRelease_run|]. unfold marked. destruct (releases s !! id) as [r|]; [|done].
  destruct (allowed _ _); [|done]. intros w1. split; [|done]. cbn zeta. exists w1. split; [|lia].
  unfold set_release, to_store, bind, get, put, ret. cbn. unfold with_release. cbn. by rewrite insert_insert_eq.
Qed.

Lemma MarkStable_run id actor w s :
  marks (MarkStable NoStore id actor) w s
    (if default false (evalPass s !! id) then marked id ReleaseStable s else None).
Proof.
  assert (E : has_passed NoStore id w s = (Ok (default false (evalPass s !! id)), w, s)).
  { unfold has_passed. rewrite bind_get. by destruct (default false (evalPass s !! id)). }
  pose proof (markRelease_run id ReleaseStable actor "agent.package.stable" w s) as Hm.
  unfold MarkStable. destruct (default false (evalPass s !! id)).
  - unfold marks in *. destruct (marked _ _ _) as [[r s1]|]; by rewrite (bind_Ok _ _ _ _ _ _ _ E).
  - eexists _, w. rewrite (bind_Ok _ _ _ _ _ _ _ E). split; [reflexivity|lia].
Qed.

Definition with_eval (id : string) (passed : bool) s : St := s <| evalPass := <[id := passed]> (evalPass s) |>.

Lemma release_eval_run id passed actor reason w s :
  marks (MarkEvalResult NoStore id passed actor reason) w s
    (match releases s !! id with
     | None => None
     | Some r =>
         if passed && (Rel_Status r != ReleaseStable) then
           match marked id ReleaseEvaluated s with Some (r', s') => Some (r', with_eval id passed s') | None => None end
         else Some (r, with_eval id passed s)
     end).
Proof.
  unfold MarkEvalResult. apply (marks_found id w s). intros r Er. unfold marked. rewrite Er. cbn zeta.
  set (m := if passed && _ then _ else _).
  assert (Hm : marks m w s (if passed && (Rel_Status r != ReleaseStable) then
      (if allowed (Rel_Status r) ReleaseEvaluated
       then Some (r <| Rel_Status := ReleaseEvaluated |>, with_release id (r <| Rel_Status := ReleaseEvaluated |>) s) else None)
    else Some (r, s))).
  { unfold m. destruct (_ && _); [|exists w; by split; [|lia]].
    destruct (allow_transition_run (Rel_Status r) ReleaseEvaluated w s) as [e E]. destruct (allowed _ _).
    - exists w. rewrite (bind_Ok _ _ _ _ _ _ _ E). by split; [|lia].
    - exists e, w. rewrite (bind_Err _ _ _ _ _ _ _ E). by split; [|lia]. }
  eapply marks_bind; [exact Hm|]. clear Hm. clearbody m.
  assert (Hrest : ∀ r' s1 w1, marks (let! s := get in
      do! put (s <| evalPass := <[id := passed]> (evalPass s) |>) in
      do! to_store NoStore (λ store, store_MarkEvalResult store id passed) in
      do! (if passed && (Rel_Status r != ReleaseStable)
           then to_store NoStore (λ store, store_UpdateReleaseStatus store id (Rel_Status r')) else ret tt) in
      do! package_audit (Rel_TenantID r') actor "agent.package.eval" id (if passed then "allowed" else "denied") reason in
      ret r') w1 s1 (Some (r', with_eval id passed s1))).
  { intros r' s1 w1. unfold marks.
    destruct (audit_run (Rel_TenantID r') actor "agent.package.eval" id (if passed then "allowed" else "denied") reason
      w1 (with_eval id passed s1)) as (w' & Ea & Hw).
    exists w'. split; [|done]. rewrite bind_get, bind_put. unfold to_store. rewrite bind_ret.
    destruct (_ && _); rewrite bind_ret; by rewrite (bind_Ok _ _ _ _ _ _ _ Ea). }
  destruct (_ && _); [destruct (allowed _ _); [|done]|]; intros w1; (split; [apply Hrest|done]).
Qed.

Lemma Rollback_run id actor reason w s :
  marks (Rollback NoStore id actor reason) w s (marked id ReleaseRolledBack s).
Proof.
  eapply marks_bind; [apply markRelease_run|]. destruct (marked _ _ _) as [[r s1]|]; [|done].
  intros w1. split; [|done]. destruct (audit_run (Rel_TenantID r) actor AuditAgentPackageRollback id "allowed" reason
    w1 s1) as (w' & Ea & Hw). exists w'. by rewrite (bind_Ok _ _ _ _ _ _ _ Ea).
Qed.
End release_runs.

(** ** Any sequence of calls *)
Section history.
Context `{Env} (sha256_hex : string → string).
Context `{!Marshal AgentPackageSource, !Marshal AgentStrategies, !Marshal AgentDefinition}.
Notation St := (Packages unit).
Notation NoStore := (None : option (PackageStoreOps unit)).
Implicit Types s : St.

(** The calls that change the state. *)
Inductive package_op : ∀ A, M St A → Prop :=
| op_CreateAsset t a n d o actor : package_op _ (CreateAgentAssetForTenant NoStore t a n d o actor)
| op_PatchAsset t a p actor : package_op _ (PatchAgentAssetForTenant NoStore t a p actor)
| op_DeleteAsset t a actor : package_op _ (DeleteAgentAssetForTenant NoStore t a actor)
| op_EnsureVersion t a v actor : package_op _ (EnsureAgentAssetVersionForTenant NoStore t a v actor)
| op_CreateDraft t a v source actor : package_op _ (CreateDraft NoStore t a v source actor)
| op_PatchSource t d source actor : package_op _ (PatchSourceForTenant NoStore t d source actor)
| op_PatchStrategies t d strategies actor : package_op _ (PatchStrategiesForTenant NoStore t d strategies actor)
| op_PatchCollaborators t d cs actor : package_op _ (PatchCollaboratorsForTenant NoStore t d cs actor)
| op_PatchExports t d exports actor : package_op _ (PatchExportsForTenant NoStore t d exports actor)
| op_UpsertCollaborator t d c actor : package_op _ (UpsertCollaboratorForTenant NoStore t d c actor)
| op_RemoveCollaborator t d a actor : package_op _ (RemoveCollaboratorForTenant NoStore t d a actor)
| op_UpsertTool t d tool actor : package_op _ (UpsertExportedToolForTenant NoStore t d tool actor)
| op_RemoveTool t d tool actor : package_op _ (RemoveExportedToolForTenant NoStore t d tool actor)
| op_UpsertSkill t d skill actor : package_op _ (UpsertSkillForTenant NoStore t d skill actor)
| op_RemoveSkill t d skill v actor : package_op _ (RemoveSkillForTenant NoStore t d skill v actor)
| op_Validate d : package_op _ (ValidateDraft NoStore d)
| op_ValidateFor t d actor : package_op _ (ValidateDraftForTenant NoStore t d actor)
| op_Review d actor : package_op _ (MarkReviewed NoStore d actor)
| op_ReviewFor t d actor : package_op _ (MarkReviewedForTenant NoStore t d actor)
| op_CreateProposal t d ty title reason patch actor :
    package_op _ (CreateProposalForTenant NoStore t d ty title reason patch actor)
| op_Submit t p actor : package_op _ (SubmitProposalForTenant NoStore t p actor)
| op_Approve t p actor : package_op _ (ApproveProposalForTenant NoStore t p actor)
| op_Reject t p actor reason : package_op _ (RejectProposalForTenant NoStore t p actor reason)
| op_PublishProposal t p actor : package_op _ (PublishProposalForTenant NoStore sha256_hex t p actor)
| op_Publish d actor : package_op _ (PublishDraft NoStore sha256_hex d actor)
| op_PublishFor t d actor : package_op _ (PublishDraftForTenant NoStore sha256_hex t d actor)
| op_Canary r actor percent scope : package_op _ (MarkCanaryWithRule NoStore r actor percent scope)
| op_Stable r actor : package_op _ (MarkStable NoStore r actor)
| op_Eval r passed actor reason : package_op _ (MarkEvalResult NoStore r passed actor reason)
| op_Rollback r actor reason : package_op _ (Rollback NoStore r actor reason)
| op_CanaryHit hit : package_op _ (RecordCanaryHit NoStore hit).

Definition package_step (c c' : World * St) : Prop :=
  ∃ A (m : M St A) r, package_op A m ∧ m c.1 c.2 = (r, c'.1, c'.2).

(** How a release and a proposal move. *)
Definition release_edge (a b : ReleaseStatus) : Prop :=
  allowed a b = true ∧ b ∈ [ReleaseCanary; ReleaseEvaluated; ReleaseStable; ReleaseRolledBack].
Definition release_identity (r : AgentPackageVersion) :=
  (Rel_PackageVersionID r, Rel_TenantID r, Rel_AgentID r, Rel_Version r, Rel_SourceHash r, Rel_CompiledHash r,
   Rel_StrategyHash r, Rel_CreatedBy r, Rel_PublishedAt r).
Definition release_moves (r r' : AgentPackageVersion) : Prop :=
  release_identity r' = release_identity r ∧ rtc release_edge (Rel_Status r) (Rel_Status r') ∧
  (Rel_Status r = ReleaseRolledBack → r' = r).

Definition proposal_edge (a b : ProposalStatus) : Prop :=
  (a = ProposalDraft ∧ b = ProposalPendingReview) ∨
  (a = ProposalPendingReview ∧ (b = ProposalApproved ∨ b = ProposalRejected)) ∨
  (a = ProposalApproved ∧ b = ProposalPublished).
Definition proposal_identity (p : Proposal) :=
  (Proposal_ProposalID p, Proposal_TenantID p, Proposal_DraftID p, Proposal_AgentID p, Proposal_Version p,
   Proposal_CreatedBy p).
Definition proposal_moves (p p' : Proposal) : Prop :=
  proposal_identity p' = proposal_identity p ∧ rtc proposal_edge (Proposal_Status p) (Proposal_Status p').

Definition evolves s s' : Prop :=
  (∀ id r, releases s !! id = Some r → ∃ r', releases s' !! id = Some r' ∧ release_moves r r') ∧
  (∀ id p, proposals s !! id = Some p → ∃ p', proposals s' !! id = Some p' ∧ proposal_moves p p').

Definition versions_unique s : Prop := ∀ i j r r', releases s !! i = Some r → releases s !! j = Some r' →
  is_version (Rel_TenantID r) (Rel_AgentID r) (Rel_Version r) r' = true → i = j.
Definition stable_evaluated s : Prop := ∀ id r, releases s !! id = Some r → Rel_Status r = ReleaseStable →
  is_Some (evalPass s !! id).

(** The identifiers that were drawn. *)
Definition drawn (p : string) w (id : string) : Prop := ∃ n, id = p +:+ "_" +:+ env_rand n ∧ (n < w_draws w)%nat.
Definition package_inv w s : Prop :=
  (∀ id r, releases s !! id = Some r → Rel_PackageVersionID r = id ∧ drawn "pkgver" w id) ∧
  (∀ id p, proposals s !! id = Some p → Proposal_ProposalID p = id ∧ drawn "proposal" w id) ∧
  versions_unique s ∧ stable_evaluated s.

(** What a call keeps. *)
Definition sound_step {A} (m : M St A) : Prop := ∀ w s, package_inv w s →
  match m w s with (_, w', s') => package_inv w' s' ∧ evolves s s' ∧ (w_draws w ≤ w_draws w')%nat end.

Lemma release_moves_refl r : release_moves r r.
Proof. by split_and!. Qed.
Lemma proposal_moves_refl p : proposal_moves p p.
Proof. by split. Qed.
Lemma evolves_refl s : evolves s s.
Proof. split; [intros id r Hr; exists r|intros id p Hp; exists p]; (split; [done|]);
  [apply release_moves_refl|apply proposal_moves_refl]. Qed.
Lemma release_moves_trans r1 r2 r3 : release_moves r1 r2 → release_moves r2 r3 → release_moves r1 r3.
Proof.
  intros (E1 & H1 & F1) (E2 & H2 & F2). split_and!; [congruence|by etrans|].
  intros Hr. specialize (F1 Hr) as ->. by apply F2.
Qed.
Lemma evolves_trans s1 s2 s3 : evolves s1 s2 → evolves s2 s3 → evolves s1 s3.
Proof.
  intros [R1 P1] [R2 P2]. split.
  - intros id r (r2 & E2 & M2)%R1. destruct (R2 _ _ E2) as (r3 & E3 & M3). exists r3.
    split; [done|by eapply release_moves_trans].
  - intros id p (p2 & E2 & I2 & M2)%P1. destruct (P2 _ _ E2) as (p3 & E3 & I3 & M3). exists p3.
    split; [done|]. split; [congruence|by etrans].
Qed.

Lemma drawn_le p w w' id : (w_draws w ≤ w_draws w')%nat → drawn p w id → drawn p w' id.
Proof. intros Hw (n & -> & Hn). exists n. split; [done|lia]. Qed.
Lemma package_inv_world w w' s : (w_draws w ≤ w_draws w')%nat → package_inv w s → package_inv w' s.
Proof.
  intros Hw (Hr & Hp & Hu & Hs). split_and!; [| |done|done].
  - intros id r E. destruct (Hr id r E). split; [done|by eapply drawn_le].
  - intros id p E. destruct (Hp id p E). split; [done|by eapply drawn_le].
Qed.
(** Both look at the core of a state only. *)
Lemma package_inv_core w s s' : core s' = core s → package_inv w s → package_inv w s'.
Proof. unfold core, package_inv, versions_unique, stable_evaluated. by intros [= -> -> ->]. Qed.
Lemma evolves_core s s' : core s' = core s → evolves s s'.
Proof.
  unfold core. intros [= Er Ep _]. destruct (evolves_refl s) as [R P]. split; [by rewrite Er|by rewrite Ep].
Qed.

Lemma sound_spares {A} (m : M St A) : leaves m → sound_step m.
Proof.
  intros Hm w s HJ. specialize (Hm s w). destruct (m w s) as [[r w'] s']. destruct Hm as [Hc Hw].
  split_and!; [|by apply evolves_core|done]. eapply package_inv_core; [done|]. by eapply package_inv_world.
Qed.
Lemma sound_bind {A B} (m : M St A) (f : A → M St B) : sound_step m → (∀ a, sound_step (f a)) → sound_step (bind m f).
Proof.
  intros Hm Hf w s HJ. specialize (Hm w s HJ). unfold bind. destruct (m w s) as [[[a|e|] w1] s1]; [|done..].
  destruct Hm as (HJ1 & He1 & Hw1). specialize (Hf a w1 s1 HJ1). destruct (f a w1 s1) as [[r w2] s2].
  destruct Hf as (HJ2 & He2 & Hw2). split_and!; [done|by eapply evolves_trans|lia].
Qed.

(** *** Releases *)

(** A release that is in the state moves along an edge. *)
Lemma release_set id r r' w s : releases s !! id = Some r → release_moves r r' →
  (Rel_Status r' = ReleaseStable → Rel_Status r ≠ ReleaseStable → is_Some (evalPass s !! id)) →
  package_inv w s → package_inv w (with_release id r' s) ∧ evolves s (with_release id r' s).
Proof.
  intros Er Hm Hs (Hr & Hp & Hu & Hst). pose proof Hm as (Hid & _ & _). unfold release_identity in Hid.
  assert (Hv : ∀ a b c, is_version a b c r' = is_version a b c r) by (intros; unfold is_version; congruence).
  assert (Hl : ∀ i x, releases (with_release id r' s) !! i = Some x →
    ∃ y, releases s !! i = Some y ∧ release_identity x = release_identity y ∧ (i ≠ id ∧ x = y ∨ i = id ∧ x = r' ∧ y = r)).
  { intros i x Hx. cbn in Hx. apply lookup_insert_Some in Hx as [[<- <-]|[Hne Hx]]; [exists r|exists x].
    - split; [done|]. split; [done|by right].
    - split; [done|]. split; [done|]. left. by split. }
  split.
  - split_and!; [..|done| |].
    + intros i x (y & Hy & Hxy & _)%Hl. destruct (Hr _ _ Hy). unfold release_identity in Hxy. split; [congruence|done].
    + intros i j x x' (y & Hy & Hxy & _)%Hl (y' & Hy' & Hxy' & _)%Hl Hx. apply (Hu i j y y' Hy Hy').
      unfold is_version, release_identity in *. congruence.
    + intros i x (y & Hy & _ & Hc)%Hl Hx. destruct Hc as [[? ->]|(-> & -> & ->)]; [by eapply Hst|].
      destruct (decide (Rel_Status r = ReleaseStable)); [by eapply Hst|by apply Hs].
  - split; [|intros i x Hx; exists x; split; [done|apply proposal_moves_refl]].
    intros i x Hx. destruct (decide (i = id)) as [->|Hne].
    + exists r'. cbn. rewrite lookup_insert_eq. rewrite Er in Hx. injection Hx as <-. by split.
    + exists x. cbn. rewrite lookup_insert_ne by done. split; [done|apply release_moves_refl].
Qed.

Lemma marked_sound id status w s r' s' :
  status ∈ [ReleaseCanary; ReleaseEvaluated; ReleaseStable; ReleaseRolledBack] →
  (status = ReleaseStable → is_Some (evalPass s !! id)) →
  marked id status s = Some (r', s') →
  ∃ r, releases s !! id = Some r ∧ release_moves r r' ∧ Rel_Status r ≠ ReleaseRolledBack ∧ Rel_Status r' = status ∧
       s' = with_release id r' s ∧ (package_inv w s → package_inv w s' ∧ evolves s s').
Proof.
  intros Hin Hs. unfold marked. destruct (releases s !! id) as [r|] eqn:Er; [|done].
  destruct (allowed _ _) eqn:Ea; [|done]. intros [= <- <-]. exists r.
  assert (Hne : Rel_Status r ≠ ReleaseRolledBack).
  { intros E. rewrite E in Ea. revert Ea. set_unfold. destruct Hin as [->|[->|[->|[->|[]]]]]; vm_compute; discriminate. }
  assert (Hm : release_moves r (r <| Rel_Status := status |>)).
  { split_and!; [done|apply rtc_once; by split|by intros]. }
  split_and!; try done. apply release_set with r; [done..|]. cbn. intros -> _. by apply Hs.
Qed.

Lemma sound_marks (m : M St AgentPackageVersion) :
  (∀ w s, ∃ outcome, marks m w s outcome ∧
     match outcome with Some (_, s') => package_inv w s → package_inv w s' ∧ evolves s s' | None => True end) →
  sound_step m.
Proof.
  intros Hm w s HJ. destruct (Hm w s) as ([[r s']|] & Ho & HJ').
  - destruct Ho as (w' & -> & Hw). destruct (HJ' HJ) as [HJ1 He]. split_and!; [by eapply package_inv_world|done..].
  - destruct Ho as (e & w' & -> & Hw). split_and!; [by eapply package_inv_world|apply evolves_refl|done].
Qed.

Lemma sound_canary id actor percent scope : sound_step (MarkCanaryWithRule NoStore id actor percent scope).
Proof.
  apply sound_marks. intros w s. eexists. split; [apply MarkCanaryWithRule_run|].
  destruct (marked _ _ _) as [[r' s']|] eqn:E; [|done].
  apply (marked_sound _ _ w) in E as (r & Er & (Hid & Ht & _) & Hne & Hst & _); [|set_unfold; tauto|done].
  intros HJ. apply release_set with r; [done| |by unfold canary_rule; destruct (_ >? 0)%Z; cbn; rewrite Hst|done].
  unfold canary_rule. destruct (_ >? 0)%Z; by split_and!.
Qed.
Lemma sound_stable id actor : sound_step (MarkStable NoStore id actor).
Proof.
  apply sound_marks. intros w s. eexists. split; [apply MarkStable_run|].
  destruct (evalPass s !! id) as [[|]|] eqn:Ee; cbn; [|done..].
  destruct (marked _ _ _) as [[r' s']|] eqn:E; [|done].
  apply (marked_sound _ _ w) in E as (r & _ & _ & _ & _ & _ & H'); [done|set_unfold; tauto|by rewrite Ee].
Qed.
Lemma sound_rollback id actor reason : sound_step (Rollback NoStore id actor reason).
Proof.
  apply sound_marks. intros w s. eexists. split; [apply Rollback_run|].
  destruct (marked _ _ _) as [[r' s']|] eqn:E; [|done].
  apply (marked_sound _ _ w) in E as (r & _ & _ & _ & _ & _ & H'); [done|set_unfold; tauto|done].
Qed.

Lemma with_eval_sound id passed w s : package_inv w s → package_inv w (with_eval id passed s) ∧ evolves s (with_eval id passed s).
Proof.
  intros (Hr & Hp & Hu & Hs). split; [|exact (evolves_refl s)]. split_and!; [done..|].
  intros i r Er Hst. cbn. destruct (decide (i = id)) as [->|]; [by rewrite lookup_insert_eq|].
  rewrite lookup_insert_ne by done. by eapply Hs.
Qed.
Lemma sound_eval id passed actor reason : sound_step (MarkEvalResult NoStore id passed actor reason).
Proof.
  apply sound_marks. intros w s. eexists. split; [apply release_eval_run|].
  destruct (releases s !! id) as [r|]; [|done]. destruct (_ && _).
  - destruct (marked _ _ _) as [[r' s']|] eqn:E; [|done].
    apply (marked_sound _ _ w) in E as (_ & _ & _ & _ & _ & _ & HJ); [|set_unfold; tauto|done].
    intros [HJ1 He1]%HJ. destruct (with_eval_sound id passed _ _ HJ1) as [HJ2 He2].
    split; [done|by eapply evolves_trans].
  - apply with_eval_sound.
Qed.

(** *** Publication *)

Lemma drawn_fresh p n w id : rand_unique → id = p +:+ "_" +:+ env_rand n → (w_draws w ≤ n)%nat → ¬ drawn p w id.
Proof. intros HU -> Hn (m & Hm%idgen_inj%HU & Hlt). lia. Qed.

Lemma is_version_fields t a v r : is_version t a v r = true ↔ Rel_TenantID r = t ∧ Rel_AgentID r = a ∧ Rel_Version r = v.
Proof. unfold is_version. rewrite !andb_true_iff, !String.eqb_eq. tauto. Qed.

Lemma sound_publish id actor : rand_unique → sound_step (PublishDraft NoStore sha256_hex id actor).
Proof.
  intros HU w s HJ. pose proof (PublishDraft_run sha256_hex id actor w s) as Hp. unfold publishes in Hp.
  destruct (PublishDraft _ _ _ _ _ _) as [[[r|e|] w'] s']; [|destruct Hp as (Hc & Hw & _)|done].
  2:{ split_and!; [|by apply evolves_core|done]. eapply package_inv_core; [done|]. by eapply package_inv_world. }
  destruct Hp as (d & c & src & t & _ & _ & Hfree & _ & Hrel & (n & Hid & Hn) & _ & _ & Ep & Ee & Er & _).
  destruct HJ as (Hr & Hpr & Hu & Hs). assert (Hnew : releases s !! Rel_PackageVersionID r = None).
  { destruct (releases s !! _) as [x|] eqn:Ex; [|done]. destruct (Hr _ _ Ex) as [_ Hd].
    exfalso. eapply (drawn_fresh _ n); eauto. lia. }
  destruct Hrel as (Ht & Ha & Hv & Hst & _).
  assert (Hother : ∀ i x, releases s !! i = Some x → is_version (Rel_TenantID r) (Rel_AgentID r) (Rel_Version r) x = false).
  { intros i x Hx. rewrite Ht, Ha, Hv. by eapply Hfree. }
  split; [|split; [|lia]].
  - split_and!.
    + intros i x. rewrite Er. intros [[<- <-]|[_ Hx]]%lookup_insert_Some.
      * split; [done|]. exists n. split; [done|lia].
      * destruct (Hr _ _ Hx). split; [done|]. eapply drawn_le; [|done]. lia.
    + intros i x. rewrite Ep. intros Hx. destruct (Hpr _ _ Hx). split; [done|]. eapply drawn_le; [|done]. lia.
    + intros i j x y. rewrite Er. intros [[<- <-]|[_ Hx]]%lookup_insert_Some [[<- <-]|[_ Hy]]%lookup_insert_Some Hxy; [done|..].
      * by rewrite (Hother _ _ Hy) in Hxy.
      * apply is_version_fields in Hxy as (E1 & E2 & E3). pose proof (Hother _ _ Hx) as Hf.
        rewrite (proj2 (is_version_fields _ _ _ x)) in Hf; done.
      * by eapply Hu.
    + intros i x. rewrite Er, Ee. intros [[<- <-]|[_ Hx]]%lookup_insert_Some Hx'; [by rewrite Hst in Hx'|by eapply Hs].
  - split.
    + intros i x Hx. exists x. rewrite Er, lookup_insert_ne by congruence. split; [done|apply release_moves_refl].
    + intros i x Hx. exists x. rewrite Ep. split; [done|apply proposal_moves_refl].
Qed.
Lemma sound_publish_for t id actor : rand_unique → sound_step (PublishDraftForTenant NoStore sha256_hex t id actor).
Proof.
  intros HU. apply sound_bind; [apply sound_spares, leaves_find_own_draft|intros _; by apply sound_publish].
Qed.

(** *** Proposals *)

Lemma keep_proposal_sound p p' w s :
  proposals s !! Proposal_ProposalID p = Some p → proposal_moves p p' →
  package_inv w s → package_inv w (s <| proposals := <[Proposal_ProposalID p' := p']> (proposals s) |>) ∧
  evolves s (s <| proposals := <[Proposal_ProposalID p' := p']> (proposals s) |>).
Proof.
  intros Ep Hm (Hr & Hp & Hu & Hs). pose proof Hm as [Hid _]. unfold proposal_identity in Hid.
  assert (E : Proposal_ProposalID p' = Proposal_ProposalID p) by congruence. rewrite E. split.
  - split_and!; [done| |done..]. intros i x Hx. cbn in Hx.
    apply lookup_insert_Some in Hx as [[<- <-]|[_ Hx]]; [|by apply Hp].
    split; [done|]. by eapply Hp.
  - split; [intros i x Hx; exists x; split; [done|apply release_moves_refl]|].
    intros i x Hx. cbn. destruct (decide (i = Proposal_ProposalID p)) as [->|Hne].
    + exists p'. rewrite lookup_insert_eq. split; [done|]. congruence.
    + exists x. rewrite lookup_insert_ne by done. split; [done|apply proposal_moves_refl].
Qed.

Lemma find_own_proposal_run t id w s : ∃ e, find_own_proposal NoStore t id w s =
  (match proposals s !! id with
   | Some p => if Proposal_TenantID p != t then Err e else Ok p
   | None => Err e end, w, s).
Proof.
  unfold find_own_proposal, getProposal, or_stored, require_tenant.
  unfold bind, get, ret. destruct (proposals s !! id) as [p|]; [|by eexists].
  destruct (_ != _); [by eexists|]. by exists (ErrSentinel "").
Qed.

(** An update moves the proposal that it finds. *)
Lemma sound_update t id actor action f : ∀ w s, package_inv w s →
  (∀ p p', proposals s !! id = Some p → f p = inr p' → proposal_moves p p') →
  match updateProposalForTenant NoStore t id actor action f w s with
  | (_, w', s') => package_inv w' s' ∧ evolves s s' ∧ (w_draws w ≤ w_draws w')%nat end.
Proof.
  intros w s HJ Hf. unfold updateProposalForTenant. destruct (find_own_proposal_run t id w s) as [e E].
  destruct (proposals s !! id) as [p|] eqn:Ep; [destruct (_ != _)|].
  1,3: rewrite (bind_Err _ _ _ _ _ _ _ E); by split_and!; [|apply evolves_refl|].
  rewrite (bind_Ok _ _ _ _ _ _ _ E). destruct (f p) as [e'|p'] eqn:Ef; [by split_and!; [|apply evolves_refl|]|].
  pose proof (Hf _ _ eq_refl Ef) as Hm. destruct HJ as (Hr & Hp & Hrest). destruct (Hp _ _ Ep) as [Hid _].
  rewrite bind_now. cbn zeta. unfold keep_proposal, bind at 1 2 3, get, put, to_store, ret at 1. cbn zeta.
  match goal with |- context [bind (package_audit ?t ?a ?act ?i ?dec ?why) _ ?w0 ?s0] =>
    destruct (audit_run t a act i dec why w0 s0) as (w' & Ea & Hw); rewrite (bind_Ok _ _ _ _ _ _ _ Ea) end.
  unfold ret. cbn in Hw.
  assert (HJ : package_inv w s) by by split; [|split].
  destruct (keep_proposal_sound p (p' <| Proposal_UpdatedAt := env_clock (w_reads w) |>) w s) as [HJ' He];
    [by rewrite Hid|done|done|]. split_and!; [by eapply package_inv_world|done..].
Qed.

(** Updates whose edge the state of the proposal does not matter for. *)
Lemma sound_update_all t id actor action f : (∀ p p', f p = inr p' → proposal_moves p p') →
  sound_step (updateProposalForTenant NoStore t id actor action f).
Proof. intros Hf w s HJ. apply sound_update; [done|]. intros p p' _. apply Hf. Qed.

Lemma review_moves id actor status p p' : status ∈ [ProposalApproved; ProposalRejected] →
  review id actor status p = inr p' → proposal_moves p p'.
Proof.
  intros Hin. unfold review. destruct (_ != _) eqn:E; [done|]. intros [= <-]. split; [done|].
  apply negb_false_iff, String.eqb_eq in E. apply rtc_once. right. left. split; [done|]. set_unfold. tauto.
Qed.
Lemma sound_submit t id actor : sound_step (SubmitProposalForTenant NoStore t id actor).
Proof.
  apply sound_update_all. intros p p'. unfold submit. destruct (_ != _) eqn:E; [done|]. intros [= <-]. split; [done|].
  apply negb_false_iff, String.eqb_eq in E. apply rtc_once. by left.
Qed.
Lemma sound_approve t id actor : sound_step (ApproveProposalForTenant NoStore t id actor).
Proof. apply sound_update_all. intros p p'. apply review_moves. set_unfold. tauto. Qed.
Lemma sound_reject t id actor reason : sound_step (RejectProposalForTenant NoStore t id actor reason).
Proof.
  apply sound_update_all. intros p p'. unfold reject. destruct (review _ _ _ _) as [|q] eqn:E; [done|]. intros [= <-].
  apply review_moves in E; [|set_unfold; tauto]. destruct (_ != _); [|done]. destruct E as [Hid Hm]. by split.
Qed.

Lemma sound_create_proposal t d ty title reason patch actor : rand_unique →
  sound_step (CreateProposalForTenant NoStore t d ty title reason patch actor).
Proof.
  intros HU w s HJ. pose proof (leaves_find_own_draft t d s w) as Hs. unfold CreateProposalForTenant, bind at 1.
  destruct (find_own_draft _ _ _ _ _) as [[[draft|e|] w1] s1]; destruct Hs as [Hc Hw];
    (assert (HJ1 : package_inv w1 s1) by (eapply package_inv_core; [done|]; by eapply package_inv_world));
    [|split_and!; [done|by apply evolves_core|done]..].
  rewrite bind_now, (bind_Ok _ _ _ _ _ _ _ (idgen_New_run _ _ _)). cbn zeta.
  unfold keep_proposal, bind at 1 2 3, get, put, to_store, ret at 1. cbn zeta.
  match goal with |- context [bind (package_audit ?t ?a ?act ?i ?dec ?why) _ ?w0 ?s0] =>
    destruct (audit_run t a act i dec why w0 s0) as (w' & Ea & Hw'); rewrite (bind_Ok _ _ _ _ _ _ _ Ea) end.
  unfold ret. clear Ea. cbn in Hw'. cbn zeta. set (id := "proposal" +:+ _). set (p := mkProposal _ _ _ _ _ _ _ _ _ _ _ _ _ _).
  destruct HJ1 as (Hr & Hp & Hu & Hst). assert (Hnew : proposals s1 !! id = None).
  { destruct (proposals s1 !! id) as [x|] eqn:Ex; [|done]. destruct (Hp _ _ Ex) as [_ Hd].
    destruct (drawn_fresh "proposal" (w_draws w1) w1 _ HU eq_refl (Nat.le_refl _) Hd). }
  change (Proposal_ProposalID p) with id. split; [split_and!; [| |done|done]|split; [|lia]].
  - intros i x Hx. destruct (Hr _ _ Hx). split; [done|]. eapply drawn_le; [|done]. lia.
  - intros i x Hx. cbn in Hx. apply lookup_insert_Some in Hx as [[<- <-]|[_ Hx]].
    + split; [done|]. exists (w_draws w1). split; [done|lia].
    + destruct (Hp _ _ Hx). split; [done|]. eapply drawn_le; [|done]. lia.
  - eapply evolves_trans; [by apply (evolves_core s s1)|]. split.
    + intros i x Hx. exists x. split; [done|apply release_moves_refl].
    + intros i x Hx. exists x. cbn. rewrite lookup_insert_ne by congruence. split; [done|apply proposal_moves_refl].
Qed.

(** The proposal is still approved when the release of its draft is there. *)
Lemma sound_publish_proposal t id actor : rand_unique → sound_step (PublishProposalForTenant NoStore sha256_hex t id actor).
Proof.
  intros HU w s HJ. unfold PublishProposalForTenant. destruct (find_own_proposal_run t id w s) as [e E].
  destruct (proposals s !! id) as [p|] eqn:Ep; [destruct (Proposal_TenantID p != t)|].
  1,3: rewrite (bind_Err _ _ _ _ _ _ _ E); by split_and!; [|apply evolves_refl|].
  rewrite (bind_Ok _ _ _ _ _ _ _ E). destruct (Proposal_Status p != ProposalApproved) eqn:Est;
    [by split_and!; [|apply evolves_refl|]|].
  apply negb_false_iff, String.eqb_eq in Est.
  pose proof (sound_publish_for t (Proposal_DraftID p) actor HU w s HJ) as H1.
  assert (Hkept : match PublishDraftForTenant NoStore sha256_hex t (Proposal_DraftID p) actor w s with
                  | (_, _, s') => proposals s' = proposals s end).
  { unfold PublishDraftForTenant, bind at 1. pose proof (leaves_find_own_draft t (Proposal_DraftID p) s w) as Hs.
    destruct (find_own_draft _ _ _ _ _) as [[[d|e'|] w1] s1]; destruct Hs as [Hc _]; unfold core in Hc; try congruence.
    pose proof (PublishDraft_run sha256_hex (Proposal_DraftID p) actor w1 s1) as Hp. unfold publishes in Hp.
    destruct (PublishDraft _ _ _ _ _ _) as [[[r|e'|] w2] s2]; [|destruct Hp as (Hp & _); unfold core in Hp; congruence|done].
    destruct Hp as (? & ? & ? & ? & _ & _ & _ & _ & _ & _ & _ & _ & Hp & _). congruence. }
  unfold bind at 1. destruct (PublishDraftForTenant _ _ _ _ _ _ _) as [[[release|e'|] w1] s1]; [|done..].
  destruct H1 as (HJ1 & He1 & Hw1).
  pose proof (sound_update t id actor "agent.package.proposal.publish"
    (λ proposal, inr (proposal <| Proposal_Status := ProposalPublished |>)) w1 s1 HJ1) as H2.
  unfold bind. destruct (updateProposalForTenant _ _ _ _ _ _ _ _) as [[r w2] s2].
  assert (H3 : package_inv w2 s2 ∧ evolves s1 s2 ∧ (w_draws w1 ≤ w_draws w2)%nat).
  { apply H2. intros q q' Hq [= <-]. rewrite Hkept, Ep in Hq. injection Hq as <-. split; [done|].
    apply rtc_once. right. by right. }
  destruct H3 as (HJ2 & He2 & Hw2). destruct r; (split_and!; [done|by eapply evolves_trans|lia]).
Qed.

(** *** Agents and drafts leave releases and proposals *)

Lemma leaves_patch_unless bad t id actor f : leaves (patch_unless NoStore bad t id actor f).
Proof. unfold patch_unless. leave. Qed.
Lemma leaves_set_status t id actor d status :
  leaves (let! _ := compile_draft id d in patchForTenant NoStore t id actor (set_status status)).
Proof. leave. Qed.
Lemma leaves_ready id d : leaves (ready_for_review (T:=unit) id d).
Proof. unfold ready_for_review. leave. Qed.
Lemma leaves_review t id actor d :
  leaves (let! _ := ready_for_review id d in patchForTenant NoStore t id actor (set_status ReleaseReviewed)).
Proof. apply leaves_bind; [apply leaves_ready|intros _; apply leaves_patchForTenant]. Qed.

(** Every call keeps the invariant, and what it does to releases and proposals is a move. *)
Lemma op_sound A m : rand_unique → package_op A m → sound_step m.
Proof.
  intros HU Hop. destruct Hop; try (apply sound_spares; apply leaves_patch_unless).
  - apply sound_spares. auto with leaves.
  - apply sound_spares. auto with leaves.
  - apply sound_spares. unfold DeleteAgentAssetForTenant. leave.
  - apply sound_spares. auto with leaves.
  - apply sound_spares. auto with leaves.
  - apply sound_spares, leaves_bind; [auto with leaves|intros draft; apply leaves_set_status].
  - apply sound_spares, leaves_bind; [auto with leaves|intros draft; apply leaves_set_status].
  - apply sound_spares, leaves_bind; [auto with leaves|intros draft; apply leaves_review].
  - apply sound_spares, leaves_bind; [auto with leaves|intros draft; apply leaves_review].
  - by apply sound_create_proposal.
  - apply sound_submit.
  - apply sound_approve.
  - apply sound_reject.
  - by apply sound_publish_proposal.
  - by apply sound_publish.
  - by apply sound_publish_for.
  - apply sound_canary.
  - apply sound_stable.
  - apply sound_eval.
  - apply sound_rollback.
  - apply sound_spares. unfold RecordCanaryHit. leave.
Qed.

Lemma package_inv_new w : package_inv w (NewPackages tt).
Proof. split_and!; intros ?; intros; by rewrite ?lookup_empty in *. Qed.

Lemma steps_sound c c' : rand_unique → rtc package_step c c' → package_inv c.1 c.2 →
  package_inv c'.1 c'.2 ∧ evolves c.2 c'.2.
Proof.
  intros HU. induction 1 as [c|c c1 c2 (A & m & r & Hop & E) _ IH]; intros HJ; [split; [done|apply evolves_refl]|].
  pose proof (op_sound A m HU Hop _ _ HJ) as Hs. rewrite E in Hs. destruct Hs as (HJ1 & He1 & _).
  destruct (IH HJ1) as [HJ2 He2]. split; [done|]. by eapply evolves_trans.
Qed.

(** C9. Any sequence of calls, from an empty service.  No two releases are of the same version of an agent; a stable
    release was evaluated; a release keeps its identity, its hashes and its publisher for good, and its status only
    follows the allowed transitions, none of which leaves rolled back; a proposal is reviewed at most once, after it
    was submitted, and only an approved one is published. *)
Theorem package_history w0 w s w' s' :
  rand_unique → rtc package_step (w0, NewPackages tt) (w, s) → rtc package_step (w, s) (w', s') →
  versions_unique s' ∧ stable_evaluated s' ∧ evolves s s'.
Proof.
  intros HU H1 H2. destruct (steps_sound _ _ HU H1 (package_inv_new w0)) as [HJ _].
  destruct (steps_sound _ _ HU H2 HJ) as [(_ & _ & Hu & Hs) He]. done.
Qed.
End history.

(** ** A release from its draft to stable *)
Section demo.
Let env : Env := test_env.
#[local] Existing Instance env.
Let demo_marshal {A} : Marshal A := λ _, inr "{}".
#[local] Existing Instance demo_marshal.
Notation NoStore := (None : option (PackageStoreOps unit)).

Definition call {T A} (m : M (Packages T) A) (c : World * Packages T) : World * Packages T :=
  match m c.1 c.2 with (_, w, s) => (w, s) end.

Definition demo_published : World * Packages unit :=
  call (PublishDraft NoStore (λ data, data) "draft_0" "ann") (
  call (ValidateDraft NoStore "draft_0") (
  call (CreateDraft NoStore "acme" "writer" "v1" sample_source "ann") (world0, NewPackages tt))).
Definition demo_stable : World * Packages unit :=
  call (MarkStable NoStore "pkgver_3" "ann") (call (MarkEvalResult NoStore "pkgver_3" true "ann" "") demo_published).

Lemma call_step A (m : M (Packages unit) A) c : package_op (λ data, data) A m → package_step (λ data, data) c (call m c).
Proof. intros Hop. exists A, m, (m c.1 c.2).1.1. split; [done|]. unfold call. by destruct (m c.1 c.2) as [[r w] s]. Qed.
Lemma demo_releases : rtc (package_step (λ data, data)) (world0, NewPackages tt) demo_published ∧
  rtc (package_step (λ data, data)) demo_published demo_stable.
Proof.
  split.
  - eapply rtc_r; [|apply call_step, op_Publish]. eapply rtc_r; [|apply call_step, op_Validate].
    apply rtc_once, call_step, op_CreateDraft.
  - eapply rtc_r; [|apply call_step, op_Stable]. apply rtc_once, call_step, op_Eval.
Qed.

Lemma package_history_witness : ∃ w s w' s',
  rtc (package_step (λ data, data)) (w, s) (w', s') ∧
  Rel_Status <$> releases s !! "pkgver_3" = Some ReleasePublished ∧
  Rel_Status <$> releases s' !! "pkgver_3" = Some ReleaseStable ∧
  versions_unique s' ∧ stable_evaluated s' ∧ evolves s s'.
Proof.
  exists demo_published.1, demo_published.2, demo_stable.1, demo_stable.2.
  destruct demo_releases as [H1 H2]. rewrite <- !surjective_pairing. split_and!; [done|vm_compute; reflexivity..| | |];
  eapply (package_history (λ data, data) world0 demo_published.1 demo_published.2 demo_stable.1 demo_stable.2 test_rand_unique);
    by rewrite <- ?surjective_pairing.
Defined.

(** A change to a draft keeps its status: what is published here was neither validated nor reviewed. *)
Definition demo_patched : World * Packages unit :=
  call (PatchSourceForTenant NoStore "acme" "draft_0" (sample_source <| Src_AgentsMD := "# Other" |>) "bob") (
  call (MarkReviewed NoStore "draft_0" "ann") (
  call (ValidateDraft NoStore "draft_0") (
  call (CreateDraft NoStore "acme" "writer" "v1" sample_source "ann") (world0, NewPackages tt)))).
Example review_kept_by_patch :
  match PublishDraft NoStore (λ data, data) "draft_0" "ann" demo_patched.1 demo_patched.2 with
  | (Ok release, _, s) => Rel_Status release = ReleasePublished ∧
      (λ d, Src_AgentsMD (PDraft_Source d)) <$> package_drafts s !! "draft_0" = Some "# Other"
  | _ => False
  end.
Proof. vm_compute. by split. Qed.

(** A store that keeps the releases, as the tables of postgres.go do: an evaluation does not change their status. *)
Definition release_table : PackageStoreOps (gmap string AgentPackageVersion) :=
  let set_status id status : M (gmap string AgentPackageVersion) unit :=
    let! t := get in put (alter (λ r, r <| Rel_Status := status |>) id t) in
  mkPackageStoreOps _ (λ _, ret tt) (λ _ _, ret None) (λ _, ret []) (λ _, ret tt) (λ _, ret None) (λ _ _, ret [])
    (λ _, ret tt) (λ _, ret None) (λ r _ _, let! t := get in put (<[Rel_PackageVersionID r := r]> t))
    set_status (λ id status _ _, set_status id status) (λ _ _, ret tt) (λ id, let! t := get in ret (t !! id)) (ret [])
    (λ _, ret tt) (λ _ _, ret []).

(** With such a store a release becomes stable although its last evaluation failed; without one it does not. *)
Definition evaluated_twice {T} (store : option (PackageStoreOps T)) (stored : T) : Res AgentPackageVersion :=
  let c := call (MarkEvalResult store "pkgver_3" false "ann" "regression") (
    call (MarkEvalResult store "pkgver_3" true "ann" "") (
    call (PublishDraft store (λ data, data) "draft_0" "ann") (
    call (ValidateDraft store "draft_0") (
    call (CreateDraft store "acme" "writer" "v1" sample_source "ann") (world0, NewPackages stored))))) in
  (MarkStable store "pkgver_3" "ann" c.1 c.2).1.1.
Example failed_evaluation_ignored :
  match evaluated_twice (Some release_table) ∅ with Ok release => Rel_Status release = ReleaseStable | _ => False end ∧
  match evaluated_twice NoStore tt with Err _ => True | _ => False end.
Proof. vm_compute. by split. Qed.
End demo.
