(* ===== verification/Projection.v ===== *)
(** * Projections of agents: internal/agentdef/package/service.go

    What the screens edit of an agent beside its packages: the prompt profile, the tool bindings, the skills, the
    collaborators and the exported tools that are active, each with its life of its own.  They are the second half
    of the service of [AgentPackage], over maps of their own; where the store implements the interface
    of a kind, that kind lives in the store only.

    The theorems about the versions of a skill are in [SkillVersions]. *)

From stdpp Require Import base list strings gmap fin_maps relations.
From Stdlib Require Import Ascii Lia.
From S2P Require Import Prelude Contracts GoMonad Storage Compile AgentPackage.
Open Scope go_scope.
Open Scope string_scope.
Open Scope list_scope.

(** ** Data *)

Definition PromptProfileSourceKind : string := "profile".
Definition SkillDefinitionSourceKind : string := "skill".
Definition ToolBindingSourceKind : string := "tool_binding".
Definition CollaboratorSourceKind : string := "collaborator".
Definition ExportedToolSourceKind : string := "exported_tool".

Record PromptProfileProjection := mkPromptProfile {
  Profile_TenantID : string;
  Profile_AgentID : string;
  Profile_Version : string;
  Profile_SourceKind : string;
  Profile_SourceID : string;
  Profile_PackageVersionID : string;
  Profile_DraftID : string;
  Profile_Status : ReleaseStatus;
  Profile_IdentityPrompt : string;
  Profile_SystemPrompt : string;
  Profile_DeveloperPrompt : string;
  Profile_AgentsMD : string;
  Profile_UpdatedAt : Time
}.

Record ToolBindingProjection := mkToolBinding {
  ToolBind_TenantID : string;
  ToolBind_AgentID : string;
  ToolBind_Version : string;
  ToolBind_SourceKind : string;
  ToolBind_SourceID : string;
  ToolBind_PackageVersionID : string;
  ToolBind_DraftID : string;
  ToolBind_Status : ReleaseStatus;
  ToolBind_Bindings : AgentToolsConfig;
  ToolBind_UpdatedAt : Time
}.

Record SkillDefinitionProjection := mkSkillProjection {
  SkillProj_TenantID : string;
  SkillProj_AgentID : string;
  SkillProj_Version : string;
  SkillProj_SourceKind : string;
  SkillProj_SourceID : string;
  SkillProj_PackageVersionID : string;
  SkillProj_DraftID : string;
  SkillProj_Status : ReleaseStatus;
  SkillProj_SkillID : string;
  SkillProj_SkillVersion : string;
  SkillProj_Definition : SkillDefinition;
  SkillProj_UpdatedAt : Time
}.
#[export] Instance eta_SkillDefinitionProjection : Settable SkillDefinitionProjection :=
  fields! mkSkillProjection < SkillProj_TenantID ; SkillProj_AgentID ; SkillProj_Version ; SkillProj_SourceKind ;
    SkillProj_SourceID ; SkillProj_PackageVersionID ; SkillProj_DraftID ; SkillProj_Status ; SkillProj_SkillID ;
    SkillProj_SkillVersion ; SkillProj_Definition ; SkillProj_UpdatedAt >.

Record CollaboratorProjection := mkCollaboratorProjection {
  CollabProj_TenantID : string;
  CollabProj_AgentID : string;
  CollabProj_Version : string;
  CollabProj_SourceKind : string;
  CollabProj_SourceID : string;
  CollabProj_PackageVersionID : string;
  CollabProj_DraftID : string;
  CollabProj_Status : ReleaseStatus;
  CollabProj_CollaboratorAgentID : string;
  CollabProj_CollaboratorVersion : string;
  CollabProj_Collaborator : AgentCollaboratorRef;
  CollabProj_UpdatedAt : Time
}.

Record ExportedToolProjection := mkExportedToolProjection {
  ToolProj_TenantID : string;
  ToolProj_AgentID : string;
  ToolProj_Version : string;
  ToolProj_SourceKind : string;
  ToolProj_SourceID : string;
  ToolProj_PackageVersionID : string;
  ToolProj_DraftID : string;
  ToolProj_Status : ReleaseStatus;
  ToolProj_ToolID : string;
  ToolProj_ToolVersion : string;
  ToolProj_Tool : AgentExportedTool;
  ToolProj_UpdatedAt : Time
}.

(** ** Interfaces of a store *)

Record ProjectionStore (T : Type) := mkProjectionStore {
  proj_PromptProfile : string → string → string → string → M T (option PromptProfileProjection);
  proj_ToolBinding : string → string → string → string → M T (option ToolBindingProjection);
  proj_Skills : string → string → string → string → M T (list SkillDefinitionProjection);
  proj_Skill : string → string → string → string → string → M T (option SkillDefinitionProjection);
  proj_Collaborators : string → string → string → string → M T (list CollaboratorProjection);
  proj_Collaborator : string → string → string → string → string → M T (option CollaboratorProjection);
  proj_ExportedTools : string → string → string → string → M T (list ExportedToolProjection);
  proj_ExportedTool : string → string → string → string → string → M T (option ExportedToolProjection)
}.
Record PromptProfileStore (T : Type) := mkPromptProfileStore {
  profile_GetActive : string → string → M T (option PromptProfileProjection);
  profile_Upsert : PromptProfileProjection → M T unit;
  profile_Delete : string → string → M T unit
}.
Record SkillDefinitionStore (T : Type) := mkSkillDefinitionStore {
  skill_ListActive : string → string → M T (list SkillDefinitionProjection);
  skill_GetActive : string → string → string → M T (option SkillDefinitionProjection);
  skill_Upsert : SkillDefinitionProjection → M T unit;
  skill_Delete : string → string → string → M T unit
}.
Record SkillDefinitionVersionStore (T : Type) := mkSkillDefinitionVersionStore {
  skill_Versions : string → string → string → M T (list SkillDefinitionProjection);
  skill_Activate : string → string → string → string → M T unit
}.
Record ToolBindingStore (T : Type) := mkToolBindingStore {
  binding_GetActive : string → string → M T (option ToolBindingProjection);
  binding_Upsert : ToolBindingProjection → M T unit;
  binding_Delete : string → string → M T unit
}.
Record CollaboratorStore (T : Type) := mkCollaboratorStore {
  collaborator_ListActive : string → string → M T (list CollaboratorProjection);
  collaborator_GetActive : string → string → string → M T (option CollaboratorProjection);
  collaborator_Upsert : CollaboratorProjection → M T unit;
  collaborator_Delete : string → string → string → M T unit
}.
Record ExportedToolStore (T : Type) := mkExportedToolStore {
  exported_ListActive : string → string → M T (list ExportedToolProjection);
  exported_GetActive : string → string → string → M T (option ExportedToolProjection);
  exported_Upsert : ExportedToolProjection → M T unit;
  exported_Delete : string → string → string → M T unit
}.
Arguments proj_PromptProfile {T}. Arguments proj_ToolBinding {T}. Arguments proj_Skills {T}. Arguments proj_Skill {T}.
Arguments proj_Collaborators {T}. Arguments proj_Collaborator {T}. Arguments proj_ExportedTools {T}.
Arguments proj_ExportedTool {T}. Arguments profile_GetActive {T}. Arguments profile_Upsert {T}.
Arguments profile_Delete {T}. Arguments skill_ListActive {T}. Arguments skill_GetActive {T}.
Arguments skill_Upsert {T}. Arguments skill_Delete {T}. Arguments skill_Versions {T}. Arguments skill_Activate {T}.
Arguments binding_GetActive {T}. Arguments binding_Upsert {T}. Arguments binding_Delete {T}.
Arguments collaborator_ListActive {T}. Arguments collaborator_GetActive {T}. Arguments collaborator_Upsert {T}.
Arguments collaborator_Delete {T}. Arguments exported_ListActive {T}. Arguments exported_GetActive {T}.
Arguments exported_Upsert {T}. Arguments exported_Delete {T}.

(** The interfaces that [s.store] implements. *)
Record StoreKinds (T : Type) := mkStoreKinds {
  as_ProjectionStore : option (ProjectionStore T);
  as_PromptProfileStore : option (PromptProfileStore T);
  as_SkillDefinitionStore : option (SkillDefinitionStore T);
  as_SkillDefinitionVersionStore : option (SkillDefinitionVersionStore T);
  as_ToolBindingStore : option (ToolBindingStore T);
  as_CollaboratorStore : option (CollaboratorStore T);
  as_ExportedToolStore : option (ExportedToolStore T)
}.
Arguments mkStoreKinds {T}. Arguments as_ProjectionStore {T}. Arguments as_PromptProfileStore {T}.
Arguments as_SkillDefinitionStore {T}. Arguments as_SkillDefinitionVersionStore {T}.
Arguments as_ToolBindingStore {T}. Arguments as_CollaboratorStore {T}. Arguments as_ExportedToolStore {T}.
Definition no_store {T} : StoreKinds T := mkStoreKinds None None None None None None None.

Record Projections (T : Type) := mkProjections {
  promptProfiles : gmap string PromptProfileProjection;
  skills : gmap string SkillDefinitionProjection;
  toolBindings : gmap string ToolBindingProjection;
  collaborators : gmap string CollaboratorProjection;
  exportedTools : gmap string ExportedToolProjection;
  projection_stored : T
}.
Arguments mkProjections {T}. Arguments promptProfiles {T}. Arguments skills {T}. Arguments toolBindings {T}.
Arguments collaborators {T}. Arguments exportedTools {T}. Arguments projection_stored {T}.
#[export] Instance eta_Projections {T} : Settable (Projections T) :=
  fields! mkProjections < promptProfiles ; skills ; toolBindings ; collaborators ; exportedTools ; projection_stored >.
Definition NewProjections {T} (stored : T) : Projections T := mkProjections ∅ ∅ ∅ ∅ ∅ stored.

(** ** Keys *)

Definition promptProfileKey (tenantID agentID : string) : string := tenantID +:+ NUL +:+ agentID.
(** Without a version, and with one. *)
Definition skillKey (tenantID agentID skillID : string) : string := promptProfileKey tenantID agentID +:+ NUL +:+ skillID.
Definition skillDefinitionKey (tenantID agentID skillID skillVersion : string) : string :=
  let key := skillKey tenantID agentID skillID in
  if TrimSpace skillVersion != "" then key +:+ NUL +:+ TrimSpace skillVersion else key.
Definition collaboratorKey (tenantID agentID collaboratorAgentID : string) : string :=
  promptProfileKey tenantID agentID +:+ NUL +:+ collaboratorAgentID.
Definition exportedToolKey (tenantID agentID toolID : string) : string :=
  promptProfileKey tenantID agentID +:+ NUL +:+ TrimSpace toolID.
(** [key == strings.TrimSuffix(prefix, "\x00") || strings.HasPrefix(key, prefix)] *)
Definition under (skill key : string) : bool := (key == skill) || HasPrefix key (skill +:+ NUL).

(** ** The service *)
Section service.
Context `{Env} {T : Type} (store : StoreKinds T).
Notation PM := (M (Projections T)).

Definition on_store {A} (m : M T A) : PM A :=
  zoom projection_stored (λ t s, s <| projection_stored := t |>) m.
(** [if store, ok := s.store.(I); ok { f(store) } else { local }] *)
Definition by_store {I A} (store : option I) (f : I → M T A) (local : PM A) : PM A :=
  match store with Some store => on_store (f store) | None => local end.

Definition audit_projection (tenantID actorID action resourceID : string) : PM unit := with_audit (
  let! id := idgen_New "audit" in
  let! now := now in
  ignore (audit_Log (zeroAuditEvent
    <| Audit_AuditID := id |> <| Audit_TenantID := tenantID |> <| Audit_ActorID := actorID |>
    <| Audit_ActorType := "optimizer" |> <| Audit_Action := action |> <| Audit_ResourceType := "agent_package" |>
    <| Audit_ResourceID := resourceID |> <| Audit_Decision := "allowed" |> <| Audit_CreatedAt := now |>))).

Definition schema_error (message : string) (details : gmap string Any) : error :=
  runtime_error CodeDecisionSchemaError message details.
(** The guards that all kinds share. *)
Definition refuse_if (bad : bool) (err : error) : PM unit := if bad then throw err else ret tt.
Definition require_owner (what tenantID agentID version : string) : PM unit :=
  do! refuse_if ((tenantID == "") || (agentID == "")) (schema_error (what +:+ " requires tenant_id and agent_id") ∅) in
  refuse_if (version == "")
    (schema_error (what +:+ " requires agent version") {["agent_id" := AString agentID]}).
Definition refuse_error (err : option error) : PM unit := match err with Some err => throw err | None => ret tt end.

(** A read of the projections of a package or a draft: there are some in a store only. *)
Definition projected {A} (f : ProjectionStore T → M T (option A)) : PM (option A) :=
  by_store store.(as_ProjectionStore) f (ret None).
Definition projected_list {A} (version draftID : string) (f : ProjectionStore T → M T (list A)) : PM (list A * bool) :=
  match store.(as_ProjectionStore) with
  | Some store =>
      if (version == "") && (TrimSpace draftID == "") then ret ([], false) else
      let! found := on_store (f store) in ret (found, true)
  | None => ret ([], false)
  end.

(** *** Prompt profiles *)

Definition GetPromptProfileProjection (tenantID agentID version draftID : string) : PM (option PromptProfileProjection) :=
  projected (λ store, store.(proj_PromptProfile) tenantID agentID version (TrimSpace draftID)).
Definition GetActivePromptProfileProjection (tenantID agentID : string) : PM (option PromptProfileProjection) :=
  by_store store.(as_PromptProfileStore) (λ store, store.(profile_GetActive) tenantID agentID)
    (let! s := get in ret (s.(promptProfiles) !! promptProfileKey tenantID agentID)).

Definition UpsertPromptProfileProjection
    (tenantID agentID version identityPrompt systemPrompt developerPrompt agentsMD actorID : string)
    : PM PromptProfileProjection :=
  do! require_owner "prompt profile" tenantID agentID version in
  do! refuse_if (blank identityPrompt && blank agentsMD)
        (schema_error "prompt profile requires identity_prompt or agents_md" {["agent_id" := AString agentID]}) in
  let! now := now in
  let profile := mkPromptProfile tenantID agentID version PromptProfileSourceKind agentID "" "" ReleaseStable
    identityPrompt systemPrompt developerPrompt agentsMD now in
  do! by_store store.(as_PromptProfileStore) (λ store, store.(profile_Upsert) profile)
        (let! s := get in
         put (s <| promptProfiles := <[promptProfileKey tenantID agentID := profile]> s.(promptProfiles) |>)) in
  do! audit_projection tenantID actorID "agent.prompt_profile.upsert" agentID in
  ret profile.

Definition DeleteActivePromptProfileProjection (tenantID agentID actorID : string) : PM unit :=
  do! refuse_if ((tenantID == "") || (agentID == ""))
        (schema_error "prompt profile delete requires tenant_id and agent_id" ∅) in
  do! by_store store.(as_PromptProfileStore) (λ store, store.(profile_Delete) tenantID agentID)
        (let! s := get in
         put (s <| promptProfiles := delete (promptProfileKey tenantID agentID) s.(promptProfiles) |>)) in
  audit_projection tenantID actorID "agent.prompt_profile.delete" agentID.

(** *** Tool bindings *)

Definition GetToolBindingProjection (tenantID agentID version draftID : string) : PM (option ToolBindingProjection) :=
  projected (λ store, store.(proj_ToolBinding) tenantID agentID version (TrimSpace draftID)).
Definition GetActiveToolBindingProjection (tenantID agentID : string) : PM (option ToolBindingProjection) :=
  by_store store.(as_ToolBindingStore) (λ store, store.(binding_GetActive) tenantID agentID)
    (let! s := get in ret (s.(toolBindings) !! promptProfileKey tenantID agentID)).

Definition UpsertToolBindingProjection (tenantID agentID version : string) (bindings : AgentToolsConfig)
    (actorID : string) : PM ToolBindingProjection :=
  do! require_owner "tool binding" tenantID agentID version in
  do! refuse_error (validateToolBindings bindings) in
  let! now := now in
  let binding := mkToolBinding tenantID agentID version ToolBindingSourceKind agentID "" "" ReleaseStable bindings now in
  do! by_store store.(as_ToolBindingStore) (λ store, store.(binding_Upsert) binding)
        (let! s := get in
         put (s <| toolBindings := <[promptProfileKey tenantID agentID := binding]> s.(toolBindings) |>)) in
  do! audit_projection tenantID actorID "agent.tool_binding.upsert" agentID in
  ret binding.

Definition DeleteActiveToolBindingProjection (tenantID agentID actorID : string) : PM unit :=
  do! refuse_if ((tenantID == "") || (agentID == ""))
        (schema_error "tool binding delete requires tenant_id and agent_id" ∅) in
  do! by_store store.(as_ToolBindingStore) (λ store, store.(binding_Delete) tenantID agentID)
        (let! s := get in
         put (s <| toolBindings := delete (promptProfileKey tenantID agentID) s.(toolBindings) |>)) in
  audit_projection tenantID actorID "agent.tool_binding.delete" agentID.

(** *** Skills *)

Definition ListSkillDefinitionProjections (tenantID agentID version draftID : string)
    : PM (list SkillDefinitionProjection * bool) :=
  projected_list version draftID (λ store, store.(proj_Skills) tenantID agentID version (TrimSpace draftID)).
Definition GetSkillDefinitionProjection (tenantID agentID version draftID skillID : string)
    : PM (option SkillDefinitionProjection) :=
  projected (λ store, store.(proj_Skill) tenantID agentID version (TrimSpace draftID) (TrimSpace skillID)).

Definition stable_skill (skill : SkillDefinitionProjection) : bool := skill.(SkillProj_Status) == ReleaseStable.
Definition skill_order (a b : SkillDefinitionProjection) : bool :=
  if a.(SkillProj_SkillID) == b.(SkillProj_SkillID)
  then string_lt a.(SkillProj_SkillVersion) b.(SkillProj_SkillVersion)
  else string_lt a.(SkillProj_SkillID) b.(SkillProj_SkillID).

Definition ListActiveSkillDefinitionProjections (tenantID agentID : string) : PM (list SkillDefinitionProjection) :=
  by_store store.(as_SkillDefinitionStore) (λ store, store.(skill_ListActive) tenantID agentID)
    (let! s := get in
     let! entries := range_map s.(skills) in
     let prefix := promptProfileKey tenantID agentID +:+ NUL in
     ret (stable_sort skill_order (map snd
       (List.filter (λ entry, HasPrefix entry.1 prefix && stable_skill entry.2) entries)))).

(** The loop of [GetActiveSkillDefinitionProjection]: the newest stable version. *)
Fixpoint newest_skill (key : string) (newest : option SkillDefinitionProjection)
    (entries : list (string * SkillDefinitionProjection)) : option SkillDefinitionProjection :=
  match entries with
  | [] => newest
  | (k, skill) :: entries =>
      newest_skill key
        (if under key k && stable_skill skill
         then match newest with
              | Some best => if After skill.(SkillProj_UpdatedAt) best.(SkillProj_UpdatedAt) then Some skill else newest
              | None => Some skill
              end
         else newest) entries
  end.
Definition GetActiveSkillDefinitionProjection (tenantID agentID skillID : string)
    : PM (option SkillDefinitionProjection) :=
  by_store store.(as_SkillDefinitionStore) (λ store, store.(skill_GetActive) tenantID agentID (TrimSpace skillID))
    (let! s := get in
     let! entries := range_map s.(skills) in
     ret (newest_skill (skillKey tenantID agentID (TrimSpace skillID)) None entries)).

(** The defaults of a definition. *)
Definition complete_skill (d : SkillDefinition) : SkillDefinition :=
  let card := d.(Skill_Card) <| SkillCard_Version := or_default d.(Skill_Card).(SkillCard_Version) "v1" |>
                             <| SkillCard_RiskLevel := or_default d.(Skill_Card).(SkillCard_RiskLevel) RiskLow |> in
  d <| Skill_Card := card |>
    <| Skill_Instruction := d.(Skill_Instruction)
         <| SkillInstr_SkillID := or_default d.(Skill_Instruction).(SkillInstr_SkillID) card.(SkillCard_SkillID) |> |>.
(** Another stable version of the skill is no longer stable. *)
Definition demote (tenantID agentID skillID : string) (current : SkillDefinitionProjection) : SkillDefinitionProjection :=
  if (current.(SkillProj_SkillID) == skillID) && (current.(SkillProj_TenantID) == tenantID) &&
     (current.(SkillProj_AgentID) == agentID) && stable_skill current
  then current <| SkillProj_Status := ReleasePublished |> else current.

Definition UpsertSkillDefinitionProjection (tenantID agentID version : string) (definition : SkillDefinition)
    (actorID : string) : PM SkillDefinitionProjection :=
  do! require_owner "skill definition" tenantID agentID version in
  do! refuse_if (blank definition.(Skill_Card).(SkillCard_SkillID))
        (schema_error "skill definition requires skill_id" {["agent_id" := AString agentID]}) in
  let definition := complete_skill definition in
  do! refuse_error (RiskLevel_Validate definition.(Skill_Card).(SkillCard_RiskLevel)) in
  let! now := now in
  let skill := mkSkillProjection tenantID agentID version SkillDefinitionSourceKind agentID "" "" ReleaseStable
    definition.(Skill_Card).(SkillCard_SkillID) definition.(Skill_Card).(SkillCard_Version) definition now in
  do! by_store store.(as_SkillDefinitionStore) (λ store, store.(skill_Upsert) skill)
        (let! s := get in
         put (s <| skills := <[skillDefinitionKey tenantID agentID skill.(SkillProj_SkillID) skill.(SkillProj_SkillVersion)
                               := skill]> (demote tenantID agentID skill.(SkillProj_SkillID) <$> s.(skills)) |>)) in
  do! audit_projection tenantID actorID "agent.skill_definition.upsert" (agentID +:+ "/" +:+ skill.(SkillProj_SkillID)) in
  ret skill.

Definition keep_skill (key : string) (skill : SkillDefinitionProjection) : PM unit :=
  let! s := get in put (s <| skills := <[key := skill]> s.(skills) |>).

(** Every version of the skill is marked as deleted, each at a time of its own. *)
Fixpoint delete_skills (key : string) (entries : list (string * SkillDefinitionProjection)) : PM unit :=
  match entries with
  | [] => ret tt
  | (k, skill) :: entries =>
      do! (if under key k then
             let! now := now in
             let definition := skill.(SkillProj_Definition) in
             keep_skill k (skill <| SkillProj_Status := ReleaseDeprecated |>
               <| SkillProj_Definition := definition
                    <| Skill_Card := definition.(Skill_Card) <| SkillCard_Status := "deleted" |> |> |>
               <| SkillProj_UpdatedAt := now |>)
           else ret tt) in
      delete_skills key entries
  end.
Definition DeleteActiveSkillDefinitionProjection (tenantID agentID skillID actorID : string) : PM unit :=
  do! refuse_if ((tenantID == "") || (agentID == "") || blank skillID)
        (schema_error "skill delete requires tenant_id, agent_id and skill_id" ∅) in
  do! by_store store.(as_SkillDefinitionStore) (λ store, store.(skill_Delete) tenantID agentID (TrimSpace skillID))
        (let! s := get in
         let! entries := range_map s.(skills) in
         delete_skills (skillKey tenantID agentID (TrimSpace skillID)) entries) in
  audit_projection tenantID actorID "agent.skill_definition.delete" (agentID +:+ "/" +:+ TrimSpace skillID).

Definition version_order (a b : SkillDefinitionProjection) : bool :=
  if a.(SkillProj_Status) != b.(SkillProj_Status) then stable_skill a
  else After a.(SkillProj_UpdatedAt) b.(SkillProj_UpdatedAt).
Definition ListSkillDefinitionProjectionVersions (tenantID agentID skillID : string) : PM (list SkillDefinitionProjection) :=
  let skillID := TrimSpace skillID in
  if (tenantID == "") || (agentID == "") then ret [] else
  by_store store.(as_SkillDefinitionVersionStore) (λ store, store.(skill_Versions) tenantID agentID skillID)
    (let! s := get in
     let! entries := range_map s.(skills) in
     let mine (entry : string * SkillDefinitionProjection) :=
       if skillID == "" then (entry.2.(SkillProj_TenantID) == tenantID) && (entry.2.(SkillProj_AgentID) == agentID)
       else under (skillKey tenantID agentID skillID) entry.1 in
     ret (stable_sort version_order (map snd (List.filter mine entries)))).

(** The loop of [ActivateSkillDefinitionProjection]: the version becomes stable and no other version is. *)
Fixpoint activate_skills (key skillID skillVersion : string) (activated : option SkillDefinitionProjection)
    (entries : list (string * SkillDefinitionProjection)) : PM (option SkillDefinitionProjection) :=
  match entries with
  | [] => ret activated
  | (k, skill) :: entries =>
      if negb (under key k) || (skill.(SkillProj_SkillID) != skillID)
      then activate_skills key skillID skillVersion activated entries else
      if skill.(SkillProj_SkillVersion) == skillVersion then
        let! now := now in
        let skill := skill <| SkillProj_Status := ReleaseStable |> <| SkillProj_UpdatedAt := now |> in
        do! keep_skill k skill in
        activate_skills key skillID skillVersion (Some skill) entries
      else
        do! keep_skill k (if stable_skill skill then skill <| SkillProj_Status := ReleasePublished |> else skill) in
        activate_skills key skillID skillVersion activated entries
  end.
Definition audit_activation (tenantID actorID agentID : string) (skill : SkillDefinitionProjection) : PM unit :=
  audit_projection tenantID actorID "agent.skill_definition.activate"
    (agentID +:+ "/" +:+ skill.(SkillProj_SkillID) +:+ "/" +:+ skill.(SkillProj_SkillVersion)).
(** [None] is the zero projection, which the code returns without an error when the store has no active version. *)
Definition ActivateSkillDefinitionProjection (tenantID agentID skillID skillVersion actorID : string)
    : PM (option SkillDefinitionProjection) :=
  let skillID := TrimSpace skillID in
  let skillVersion := TrimSpace skillVersion in
  do! refuse_if ((tenantID == "") || (agentID == "") || (skillID == "") || (skillVersion == ""))
        (schema_error "skill activation requires tenant_id, agent_id, skill_id and skill_version" ∅) in
  match store.(as_SkillDefinitionVersionStore) with
  | Some versions =>
      do! on_store (versions.(skill_Activate) tenantID agentID skillID skillVersion) in
      let! found := GetActiveSkillDefinitionProjection tenantID agentID skillID in
      match found with
      | Some skill => do! audit_activation tenantID actorID agentID skill in ret (Some skill)
      | None => ret None
      end
  | None =>
      let! s := get in
      let! entries := range_map s.(skills) in
      let! activated := activate_skills (skillKey tenantID agentID skillID) skillID skillVersion None entries in
      match activated with
      | Some skill => do! audit_activation tenantID actorID agentID skill in ret (Some skill)
      | None => throw (runtime_error CodeAgentVersionNotFound "skill version not found"
                  {["skill_id" := AString skillID; "skill_version" := AString skillVersion]})
      end
  end.

(** *** Collaborators *)

Definition ListCollaboratorProjections (tenantID agentID version draftID : string)
    : PM (list CollaboratorProjection * bool) :=
  projected_list version draftID (λ store, store.(proj_Collaborators) tenantID agentID version (TrimSpace draftID)).
Definition GetCollaboratorProjection (tenantID agentID version draftID collaboratorAgentID : string)
    : PM (option CollaboratorProjection) :=
  projected (λ store, store.(proj_Collaborator) tenantID agentID version (TrimSpace draftID) collaboratorAgentID).

Definition collaborator_order (a b : CollaboratorProjection) : bool :=
  if a.(CollabProj_CollaboratorAgentID) == b.(CollabProj_CollaboratorAgentID)
  then string_lt a.(CollabProj_CollaboratorVersion) b.(CollabProj_CollaboratorVersion)
  else string_lt a.(CollabProj_CollaboratorAgentID) b.(CollabProj_CollaboratorAgentID).
Definition ListActiveCollaboratorProjections (tenantID agentID : string) : PM (list CollaboratorProjection) :=
  by_store store.(as_CollaboratorStore) (λ store, store.(collaborator_ListActive) tenantID agentID)
    (let! s := get in
     let! entries := range_map s.(collaborators) in
     let prefix := promptProfileKey tenantID agentID +:+ NUL in
     ret (stable_sort collaborator_order (map snd (List.filter (λ entry, HasPrefix entry.1 prefix) entries)))).
Definition GetActiveCollaboratorProjection (tenantID agentID collaboratorAgentID : string)
    : PM (option CollaboratorProjection) :=
  by_store store.(as_CollaboratorStore) (λ store, store.(collaborator_GetActive) tenantID agentID collaboratorAgentID)
    (let! s := get in ret (s.(collaborators) !! collaboratorKey tenantID agentID collaboratorAgentID)).

Definition UpsertCollaboratorProjection (tenantID agentID version : string) (collaborator : AgentCollaboratorRef)
    (actorID : string) : PM CollaboratorProjection :=
  do! require_owner "collaborator" tenantID agentID version in
  do! refuse_error (validateCollaborators [collaborator]) in
  let! now := now in
  let projection := mkCollaboratorProjection tenantID agentID version CollaboratorSourceKind agentID "" "" ReleaseStable
    collaborator.(Collab_AgentID) collaborator.(Collab_Version) collaborator now in
  do! by_store store.(as_CollaboratorStore) (λ store, store.(collaborator_Upsert) projection)
        (let! s := get in
         put (s <| collaborators := <[collaboratorKey tenantID agentID collaborator.(Collab_AgentID) := projection]>
                                      s.(collaborators) |>)) in
  do! audit_projection tenantID actorID "agent.collaborator.upsert" (agentID +:+ "/" +:+ collaborator.(Collab_AgentID)) in
  ret projection.

Definition DeleteActiveCollaboratorProjection (tenantID agentID collaboratorAgentID actorID : string) : PM unit :=
  do! refuse_if ((tenantID == "") || (agentID == "") || (collaboratorAgentID == ""))
        (schema_error "collaborator delete requires tenant_id, agent_id and collaborator_agent_id" ∅) in
  do! by_store store.(as_CollaboratorStore) (λ store, store.(collaborator_Delete) tenantID agentID collaboratorAgentID)
        (let! s := get in
         put (s <| collaborators := delete (collaboratorKey tenantID agentID collaboratorAgentID) s.(collaborators) |>)) in
  audit_projection tenantID actorID "agent.collaborator.delete" (agentID +:+ "/" +:+ collaboratorAgentID).

(** *** Exported tools *)

Definition ListExportedToolProjections (tenantID agentID version draftID : string)
    : PM (list ExportedToolProjection * bool) :=
  projected_list version draftID (λ store, store.(proj_ExportedTools) tenantID agentID version (TrimSpace draftID)).
Definition GetExportedToolProjection (tenantID agentID version draftID toolID : string)
    : PM (option ExportedToolProjection) :=
  projected (λ store, store.(proj_ExportedTool) tenantID agentID version (TrimSpace draftID) (TrimSpace toolID)).

Definition exported_order (a b : ExportedToolProjection) : bool :=
  if a.(ToolProj_ToolID) == b.(ToolProj_ToolID) then string_lt a.(ToolProj_ToolVersion) b.(ToolProj_ToolVersion)
  else string_lt a.(ToolProj_ToolID) b.(ToolProj_ToolID).
Definition ListActiveExportedToolProjections (tenantID agentID : string) : PM (list ExportedToolProjection) :=
  by_store store.(as_ExportedToolStore) (λ store, store.(exported_ListActive) tenantID agentID)
    (let! s := get in
     let! entries := range_map s.(exportedTools) in
     let prefix := promptProfileKey tenantID agentID +:+ NUL in
     ret (stable_sort exported_order (map snd (List.filter (λ entry, HasPrefix entry.1 prefix) entries)))).
Definition GetActiveExportedToolProjection (tenantID agentID toolID : string) : PM (option ExportedToolProjection) :=
  by_store store.(as_ExportedToolStore) (λ store, store.(exported_GetActive) tenantID agentID (TrimSpace toolID))
    (let! s := get in ret (s.(exportedTools) !! exportedToolKey tenantID agentID (TrimSpace toolID))).

(** The tool is the one that the validation of a list of one tool leaves. *)
Definition normalized_tool (tool : AgentExportedTool) : error + AgentExportedTool :=
  match validateExports (mkAgentExports [tool]) with
  | (Some err, _) => inl err
  | (None, exports) => inr (hd tool exports.(Exports_Tools))
  end.
Definition UpsertExportedToolProjection (tenantID agentID version : string) (tool : AgentExportedTool)
    (actorID : string) : PM ExportedToolProjection :=
  do! require_owner "exported tool" tenantID agentID version in
  match normalized_tool tool with
  | inl err => throw err
  | inr tool =>
      let! now := now in
      let projection := mkExportedToolProjection tenantID agentID version ExportedToolSourceKind agentID "" ""
        ReleaseStable tool.(Exported_ToolID) tool.(Exported_Version) tool now in
      do! by_store store.(as_ExportedToolStore) (λ store, store.(exported_Upsert) projection)
            (let! s := get in
             put (s <| exportedTools := <[exportedToolKey tenantID agentID tool.(Exported_ToolID) := projection]>
                                          s.(exportedTools) |>)) in
      do! audit_projection tenantID actorID "agent.exported_tool.upsert" (agentID +:+ "/" +:+ tool.(Exported_ToolID)) in
      ret projection
  end.

Definition DeleteActiveExportedToolProjection (tenantID agentID toolID actorID : string) : PM unit :=
  do! refuse_if ((tenantID == "") || (agentID == "") || blank toolID)
        (schema_error "exported tool delete requires tenant_id, agent_id and tool_id" ∅) in
  let toolID := TrimSpace toolID in
  do! by_store store.(as_ExportedToolStore) (λ store, store.(exported_Delete) tenantID agentID toolID)
        (let! s := get in
         put (s <| exportedTools := delete (exportedToolKey tenantID agentID toolID) s.(exportedTools) |>)) in
  audit_projection tenantID actorID "agent.exported_tool.delete" (agentID +:+ "/" +:+ toolID).
End service.
