(* ===== verification/SkillVersions.v ===== *)
(** * The versions of a skill, in memory

    Theorems about [Projection], for a service without a store: at most one version of a skill is stable, whatever
    the calls, and what activating a version does on every branch.  The passes over all skills ([delete_skills],
    [activate_skills]) move each entry by a relation, in any order of iteration ([moved_on]). *)

From stdpp Require Import base list strings gmap fin_maps relations.
From Stdlib Require Import Ascii Lia.
From S2P Require Import Prelude Contracts GoMonad Storage Compile AgentPackage Projection.
Open Scope go_scope.
Open Scope string_scope.
Open Scope list_scope.

(** ** Keys *)

Lemma nul_free_join a b : ¬ nul_free (a +:+ NUL +:+ b).
Proof. induction a as [|c a IH]; [by intros [[] _]|]. by intros [_ ?%IH]. Qed.

(** Two identifiers without a NUL, where the second may have something joined to it. *)
Lemma nul_join_cases a b rest more : nul_free a → nul_free b → more = "" ∨ (∃ v, more = NUL +:+ v) →
  (a = b +:+ more ↔ a = b ∧ more = "") ∧ (a +:+ NUL +:+ rest = b +:+ more ↔ a = b ∧ more = NUL +:+ rest).
Proof.
  intros Ha Hb Hm. split; split.
  - intros ->. destruct Hm as [->|[v ->]]; [|by destruct (nul_free_join _ _ Ha)].
    split; [apply string_app_nil_r|done].
  - intros [-> ->]. by rewrite string_app_nil_r.
  - intros E. destruct Hm as [->|[v ->]].
    + rewrite string_app_nil_r in E. subst b. by destruct (nul_free_join _ _ Hb).
    + apply nul_join_inj in E as [-> ->]; done.
  - by intros [-> ->].
Qed.

Lemma under_iff t a sk t' a' sk' v : nul_free t → nul_free t' → nul_free a → nul_free a' → nul_free sk → nul_free sk' →
  under (skillKey t a sk) (skillDefinitionKey t' a' sk' v) = true ↔ t = t' ∧ a = a' ∧ sk = sk'.
Proof.
  intros Ht Ht' Ha Ha' Hs Hs'. set (more := if TrimSpace v != "" then NUL +:+ TrimSpace v else "").
  assert (Hm : more = "" ∨ ∃ x, more = NUL +:+ x) by (unfold more; destruct (_ != _); [right; by eexists|by left]).
  assert (Ek : skillDefinitionKey t' a' sk' v = t' +:+ NUL +:+ a' +:+ NUL +:+ sk' +:+ more).
  { unfold skillDefinitionKey, skillKey, promptProfileKey, more. destruct (_ != _); rewrite !string_app_assoc; [done|].
    by rewrite string_app_nil_r. }
  assert (Es : skillKey t a sk = t +:+ NUL +:+ a +:+ NUL +:+ sk) by (unfold skillKey, promptProfileKey; by rewrite !string_app_assoc).
  unfold under. rewrite orb_true_iff, String.eqb_eq, HasPrefix_iff, Ek, Es. split.
  - intros [E|[rest E]].
    + symmetry in E. apply nul_join_inj in E as [-> E]; [|done..]. apply nul_join_inj in E as [-> E]; [|done..].
      apply (nul_join_cases _ _ "" _ Hs Hs' Hm) in E as [-> _]. done.
    + rewrite !string_app_assoc in E. symmetry in E.
      apply nul_join_inj in E as [-> E]; [|done..]. apply nul_join_inj in E as [-> E]; [|done..].
      apply (nul_join_cases _ _ rest _ Hs Hs' Hm) in E as [-> _]. done.
  - intros (-> & -> & ->). unfold more. destruct (_ != _); [right|left].
    + exists (TrimSpace v). by rewrite !string_app_assoc.
    + by rewrite string_app_nil_r.
Qed.

(** A key of the skill is under it, whatever the identifiers hold. *)
Lemma under_own t a sk v : under (skillKey t a sk) (skillDefinitionKey t a sk v) = true.
Proof.
  unfold under, skillDefinitionKey. destruct (_ != _).
  - apply orb_true_iff. right. apply HasPrefix_iff. exists (TrimSpace v). by rewrite !string_app_assoc.
  - by rewrite String.eqb_refl.
Qed.

(** ** Passes over the skills *)
Section passes.
Context `{Env}.
Notation PS := (Projections unit).
Implicit Types (s : PS) (p : SkillDefinitionProjection).

Definition card_id p : string := SkillCard_SkillID (Skill_Card (SkillProj_Definition p)).
Definition same_version p p' : Prop :=
  SkillProj_TenantID p' = SkillProj_TenantID p ∧ SkillProj_AgentID p' = SkillProj_AgentID p ∧
  SkillProj_SkillID p' = SkillProj_SkillID p ∧ SkillProj_SkillVersion p' = SkillProj_SkillVersion p ∧
  card_id p' = card_id p.

(** From [s] to [s'] the entries under [keys] have moved along [R], and no others have. *)
Definition moved_on (R : string → SkillDefinitionProjection → SkillDefinitionProjection → Prop) (keys : list string)
    s s' : Prop :=
  ∀ k, match skills s !! k, skills s' !! k with
       | Some p, Some p' => if decide (k ∈ keys) then R k p p' else p' = p
       | None, None => True
       | _, _ => False
       end.

Lemma moved_none R s : moved_on R [] s s.
Proof. intros k. by destruct (skills s !! k). Qed.
Lemma moved_step R k keys p p' s s1 s' : skills s !! k = Some p → R k p p' → k ∉ keys →
  skills s1 = <[k := p']> (skills s) → moved_on R keys s1 s' → moved_on R (k :: keys) s s'.
Proof.
  intros Hp HR Hk E Hm i. specialize (Hm i). rewrite E in Hm. destruct (decide (i = k)) as [->|Hne].
  - rewrite lookup_insert_eq in Hm. rewrite Hp. destruct (skills s' !! k); [|done].
    rewrite (decide_False _ _ Hk) in Hm. subst. rewrite decide_True; [done|set_solver].
  - rewrite lookup_insert_ne in Hm by done. destruct (skills s !! i), (skills s' !! i); [|done..].
    destruct (decide (i ∈ keys)) as [Hin|Hin].
    + rewrite decide_True; [done|set_solver].
    + rewrite decide_False; [done|set_solver].
Qed.
Lemma moved_keep R k keys p p' s s' : moved_on R keys (s <| skills := <[k := p']> (skills s) |>) s' →
  skills s !! k = Some p → k ∉ keys → R k p p' → moved_on R (k :: keys) s s'.
Proof. intros Hm Hp Hk HR. by apply (moved_step R k keys p p' s (s <| skills := <[k := p']> (skills s) |>) s'). Qed.
Lemma moved_skip R k keys p s s' : moved_on R keys s s' → skills s !! k = Some p → k ∉ keys → R k p p →
  moved_on R (k :: keys) s s'.
Proof. intros Hm Hp Hk HR. apply (moved_step R k keys p p s s s'); [done..|by rewrite insert_id|done]. Qed.

Definition entries_of (entries : list (string * SkillDefinitionProjection)) s : Prop :=
  NoDup entries.*1 ∧ ∀ k p, (k, p) ∈ entries → skills s !! k = Some p.
Lemma entries_cons k p entries s : entries_of ((k, p) :: entries) s →
  skills s !! k = Some p ∧ k ∉ entries.*1 ∧ entries_of entries s ∧
  ∀ s1 p', skills s1 = <[k := p']> (skills s) → entries_of entries s1.
Proof.
  intros [[Hk Hnd]%NoDup_cons Hl]. split_and!; [apply Hl; by left|done|split; [done|]; intros; apply Hl; by right|].
  intros s1 p' E. split; [done|]. intros i q Hi. rewrite E, lookup_insert_ne; [apply Hl; by right|].
  intros ->. apply Hk. by apply (list_elem_of_fmap_2 fst) in Hi.
Qed.

Lemma range_entries s w : ∃ entries w', range_map (skills s) w s = (Ok entries, w', s) ∧ entries_of entries s ∧
  ∀ k p, skills s !! k = Some p → (k, p) ∈ entries.
Proof.
  destruct (range_map_run (skills s) w s) as (l & w' & E & Hp). exists l, w'. split; [done|]. split.
  - split; [rewrite Hp; apply NoDup_fst_map_to_list|]. intros k p. rewrite Hp. apply elem_of_map_to_list.
  - intros k p. rewrite Hp. apply elem_of_map_to_list.
Qed.
Lemma moved_all R entries s s' : (∀ k p, skills s !! k = Some p → (k, p) ∈ entries) → moved_on R entries.*1 s s' →
  ∀ k, match skills s !! k, skills s' !! k with
       | Some p, Some p' => R k p p' | None, None => True | _, _ => False end.
Proof.
  intros Hall Hm k. specialize (Hm k). destruct (skills s !! k) as [p|] eqn:E; [|done]. destruct (skills s' !! k); [|done].
  rewrite decide_True in Hm; [done|]. apply Hall in E. by apply (list_elem_of_fmap_2 fst) in E.
Qed.

Lemma keep_skill_run k p w s : keep_skill k p w s = (Ok tt, w, s <| skills := <[k := p]> (skills s) |>).
Proof. reflexivity. Qed.

Definition deleted_under key k p p' : Prop :=
  same_version p p' ∧ if under key k then stable_skill p' = false else p' = p.
Lemma delete_skills_run key entries w s : entries_of entries s →
  ∃ w' s', delete_skills key entries w s = (Ok tt, w', s') ∧ moved_on (deleted_under key) entries.*1 s s'.
Proof.
  revert w s. induction entries as [|[k p] entries IH]; intros w s He; [by exists w, s; split; [|apply moved_none]|].
  apply entries_cons in He as (Hp & Hk & He & He'). cbn [delete_skills]. destruct (under key k) eqn:Eu.
  - cbn [fmap list_fmap]. unfold bind at 1. rewrite bind_now. cbn zeta. rewrite keep_skill_run.
    match goal with |- context [delete_skills _ _ ?w1 ?s1] => destruct (IH w1 s1) as (w' & s' & E & Hm); [by eapply He'|] end.
    exists w', s'. split; [exact E|]. apply (moved_keep _ _ _ _ _ _ _ Hm Hp Hk). split; [done|]. by rewrite Eu.
  - rewrite bind_ret. destruct (IH w s He) as (w' & s' & E & Hm). exists w', s'. split; [done|].
    apply (moved_skip _ _ _ _ _ _ Hm Hp Hk). split; [done|]. by rewrite Eu.
Qed.

Definition is_activated key skillID skillVersion k p : bool :=
  under key k && (SkillProj_SkillID p == skillID) && (SkillProj_SkillVersion p == skillVersion).
Definition activates key skillID skillVersion k p p' : Prop :=
  same_version p p' ∧
  if under key k && (SkillProj_SkillID p == skillID) then stable_skill p' = (SkillProj_SkillVersion p == skillVersion)
  else p' = p.
Lemma activate_skills_run key skillID v entries acc w s : entries_of entries s →
  ∃ acc' w' s', activate_skills key skillID v acc entries w s = (Ok acc', w', s') ∧
    moved_on (activates key skillID v) entries.*1 s s' ∧
    ((∃ k p p', (k, p) ∈ entries ∧ is_activated key skillID v k p = true ∧ acc' = Some p' ∧ skills s' !! k = Some p') ∨
     (∀ k p, (k, p) ∈ entries → is_activated key skillID v k p = false) ∧ acc' = acc).
Proof.
  revert acc w s. induction entries as [|[k p] entries IH]; intros acc w s He.
  { exists acc, w, s. split_and!; [done|apply moved_none|right]. split; [|done]. intros k p Hk. by apply not_elem_of_nil in Hk. }
  apply entries_cons in He as (Hp & Hk & He & He'). cbn [activate_skills].
  assert (Hstill : ∀ s1 s' p', skills s1 = <[k := p']> (skills s) →
    moved_on (activates key skillID v) entries.*1 s1 s' → skills s' !! k = Some p').
  { intros s1 s' p' E1 Hm. specialize (Hm k). rewrite E1, lookup_insert_eq in Hm.
    destruct (skills s' !! k); [|done]. rewrite (decide_False _ _ Hk) in Hm. by subst. }
  destruct (negb (under key k) || _) eqn:Eu; [|apply orb_false_iff in Eu as [Eu1%negb_false_iff Eu2%negb_false_iff];
    destruct (SkillProj_SkillVersion p == v) eqn:Ev].
  - assert (Hn : under key k && (SkillProj_SkillID p == skillID) = false)
      by (destruct (under key k), (SkillProj_SkillID p == skillID); done).
    destruct (IH acc w s He) as (acc' & w' & s' & E & Hm & Hacc). exists acc', w', s'. split_and!; [done| |].
    + apply (moved_skip _ _ _ _ _ _ Hm Hp Hk). split; [done|]. by rewrite Hn.
    + destruct Hacc as [(k' & q & q' & Hin & H')|[Hno ->]]; [left; exists k', q, q'; split; [by right|done]|].
      right. split; [|done]. intros k' q [[= -> ->]|Hin]%elem_of_cons; [|by apply Hno]. unfold is_activated. by rewrite Hn.
  - rewrite bind_now. cbn zeta. rewrite (bind_Ok _ _ _ _ _ _ _ (keep_skill_run _ _ _ _)). set (p' := p <| SkillProj_Status := _ |> <| _ := _ |>).
    match goal with |- context [activate_skills _ _ _ _ _ ?w1 ?s1] =>
      destruct (IH (Some p') w1 s1) as (acc' & w' & s' & E & Hm & Hacc); [by eapply He'|] end.
    exists acc', w', s'. split_and!; [exact E| |left].
    + apply (moved_keep _ _ _ _ _ _ _ Hm Hp Hk). split; [done|]. rewrite Eu1, Eu2. by rewrite Ev.
    + destruct Hacc as [(k' & q & q' & Hin & H')|[Hno ->]]; [exists k', q, q'; split; [by right|done]|].
      exists k, p, p'. split_and!; [by left|unfold is_activated; by rewrite Eu1, Eu2, Ev|done|]. refine (Hstill _ _ p' _ Hm). reflexivity.
  - rewrite (bind_Ok _ _ _ _ _ _ _ (keep_skill_run _ _ _ _)). set (p' := if stable_skill p then _ else p).
    assert (Hp' : same_version p p' ∧ stable_skill p' = false) by (unfold p'; destruct (stable_skill p) eqn:Es; by split).
    match goal with |- context [activate_skills _ _ _ _ _ ?w1 ?s1] =>
      destruct (IH acc w1 s1) as (acc' & w' & s' & E & Hm & Hacc); [by eapply He'|] end.
    exists acc', w', s'. split_and!; [exact E| |].
    + apply (moved_keep _ _ _ _ _ _ _ Hm Hp Hk). split; [apply Hp'|]. rewrite Eu1, Eu2. cbn. rewrite Ev. apply Hp'.
    + destruct Hacc as [(k' & q & q' & Hin & H')|[Hno ->]]; [left; exists k', q, q'; split; [by right|done]|].
      right. split; [|done]. intros k' q [[= -> ->]|Hin]%elem_of_cons; [|by apply Hno]. unfold is_activated. by rewrite Ev, andb_false_r.
Qed.
End passes.

(** ** Invariants *)
Section history.
Context `{Env}.
Notation PS := (Projections unit).
Implicit Types (s : PS) (p : SkillDefinitionProjection).

Definition skill_of p : string * string * string := (SkillProj_TenantID p, SkillProj_AgentID p, SkillProj_SkillID p).
Definition nul_free_ids (ids : string * string * string) : Prop := nul_free ids.1.1 ∧ nul_free ids.1.2 ∧ nul_free ids.2.

(** Every version is under its own key with a definition of its skill, and no identifier holds a NUL byte. *)
Definition filed s : Prop := ∀ k p, skills s !! k = Some p → nul_free_ids (skill_of p) ∧ card_id p = SkillProj_SkillID p ∧
  k = skillDefinitionKey (SkillProj_TenantID p) (SkillProj_AgentID p) (SkillProj_SkillID p) (SkillProj_SkillVersion p).
Definition one_stable s : Prop := ∀ k k' p p', skills s !! k = Some p → skills s !! k' = Some p' →
  stable_skill p = true → stable_skill p' = true → skill_of p = skill_of p' → k = k'.
Definition skills_inv s : Prop := filed s ∧ one_stable s.

Lemma under_filed s t a sk k p : filed s → nul_free_ids (t, a, sk) → skills s !! k = Some p →
  under (skillKey t a sk) k = true ↔ skill_of p = (t, a, sk).
Proof.
  intros Hf (Ht & Ha & Hs) Hp. destruct (Hf _ _ Hp) as ((Ht' & Ha' & Hs') & _ & ->). rewrite under_iff by done.
  unfold skill_of. split; [by intros (-> & -> & ->)|by intros [= -> -> ->]].
Qed.

Lemma same_version_skill p p' : same_version p p' → skill_of p' = skill_of p ∧ SkillProj_SkillVersion p' = SkillProj_SkillVersion p.
Proof. intros (E1 & E2 & E3 & E4 & _). unfold skill_of. split; congruence. Qed.

(** What a pass leaves of the invariant. *)
Lemma filed_moved R s s' : (∀ k p p', R k p p' → same_version p p') →
  (∀ k, match skills s !! k, skills s' !! k with Some p, Some p' => R k p p' | None, None => True | _, _ => False end) →
  filed s → filed s'.
Proof.
  intros HR Hm Hf k p' Hp'. specialize (Hm k). rewrite Hp' in Hm. destruct (skills s !! k) as [p|] eqn:Hp; [|done].
  destruct (HR _ _ _ Hm) as (E1 & E2 & E3 & E4 & E5). destruct (Hf _ _ Hp) as (Hn & Hc & Hk). unfold skill_of in *.
  rewrite E1, E2, E3, E4, E5. done.
Qed.

Lemma deleted_inv t a sk s s' : nul_free_ids (t, a, sk) → skills_inv s →
  (∀ k, match skills s !! k, skills s' !! k with
        | Some p, Some p' => deleted_under (skillKey t a sk) k p p' | None, None => True | _, _ => False end) →
  skills_inv s' ∧ ∀ k p, skills s' !! k = Some p → skill_of p = (t, a, sk) → stable_skill p = false.
Proof.
  intros Hn [Hf Ho] Hm.
  assert (Hf' : filed s') by (eapply filed_moved; [|exact Hm|done]; intros k p p' [Hv _]; exact Hv).
  assert (Hback : ∀ k p', skills s' !! k = Some p' → ∃ p, skills s !! k = Some p ∧ deleted_under (skillKey t a sk) k p p').
  { intros k p' Hp'. specialize (Hm k). rewrite Hp' in Hm. destruct (skills s !! k) as [p|]; [by exists p|done]. }
  split; [split; [done|]|].
  - intros k k' p p' (q & Hq & _ & Hd)%Hback (q' & Hq' & _ & Hd')%Hback Hs Hs' E.
    destruct (under _ k), (under _ k'); [congruence..|]. subst. by eapply Ho.
  - intros k p Hp E. destruct (Hback _ _ Hp) as (q & Hq & _ & Hd). by rewrite (proj2 (under_filed s' t a sk k p Hf' Hn Hp) E) in Hd.
Qed.

Lemma activated_inv t a sk v s s' : nul_free_ids (t, a, sk) → skills_inv s →
  (∀ k, match skills s !! k, skills s' !! k with
        | Some p, Some p' => activates (skillKey t a sk) sk v k p p' | None, None => True | _, _ => False end) →
  skills_inv s' ∧ ∀ k p, skills s' !! k = Some p → skill_of p = (t, a, sk) → stable_skill p = (SkillProj_SkillVersion p == v).
Proof.
  intros Hn [Hf Ho] Hm.
  assert (Hf' : filed s') by (eapply filed_moved; [|exact Hm|done]; intros k p p' [Hv _]; exact Hv).
  assert (Hback : ∀ k p', skills s' !! k = Some p' → ∃ p, skills s !! k = Some p ∧ skill_of p' = skill_of p ∧
    if decide (skill_of p' = (t, a, sk)) then stable_skill p' = (SkillProj_SkillVersion p' == v) else p' = p).
  { intros k p' Hp'. specialize (Hm k). rewrite Hp' in Hm. destruct (skills s !! k) as [p|] eqn:Hp; [|done]. exists p.
    destruct Hm as [[E Ev]%same_version_skill Hm]. split; [done|]. split; [done|].
    destruct (decide _) as [Ed|Ed].
    - rewrite (proj2 (under_filed s' t a sk k p' Hf' Hn Hp') Ed) in Hm. rewrite Ev.
      rewrite E in Ed. injection Ed as Et Ea Es. by rewrite Es, String.eqb_refl in Hm.
    - destruct (under _ k) eqn:Eu; [|done]. by apply (under_filed s' t a sk k p' Hf' Hn Hp') in Eu. }
  assert (Hlast : ∀ k p, skills s' !! k = Some p → skill_of p = (t, a, sk) → stable_skill p = (SkillProj_SkillVersion p == v)).
  { intros k p (q & _ & _ & Hd)%Hback E. by rewrite decide_True in Hd. }
  split; [split; [done|]|done]. intros k k' p p' Hp Hp' Hs Hs' E. destruct (decide (skill_of p = (t, a, sk))) as [Ed|Ed].
  - rewrite (Hlast _ _ Hp Ed) in Hs. rewrite E in Ed. rewrite (Hlast _ _ Hp' Ed) in Hs'.
    apply String.eqb_eq in Hs, Hs'. destruct (Hf' _ _ Hp) as (_ & _ & ->), (Hf' _ _ Hp') as (_ & _ & ->).
    injection E as E1 E2 E3. congruence.
  - destruct (Hback _ _ Hp) as (q & Hq & Eq & Hd), (Hback _ _ Hp') as (q' & Hq' & Eq' & Hd').
    rewrite decide_False in Hd by done. rewrite decide_False in Hd' by congruence. subst. by eapply Ho.
Qed.

Lemma demote_skill t a sk p : same_version p (demote t a sk p) ∧
  stable_skill (demote t a sk p) = stable_skill p && negb (bool_decide (skill_of p = (t, a, sk))).
Proof.
  unfold demote. split; [by destruct (_ && _)|].
  destruct (_ && _) eqn:E; rewrite ?andb_true_iff, ?String.eqb_eq in E.
  - destruct E as (((<- & <-) & <-) & ->). by rewrite bool_decide_eq_true_2.
  - destruct (stable_skill p) eqn:Es; [|done]. rewrite bool_decide_eq_false_2; [done|]. intros Ep.
    injection Ep as E1 E2 E3. by rewrite E1, E2, E3, !String.eqb_refl in E.
Qed.

Lemma upserted_inv t a sk v p s s' : nul_free_ids (t, a, sk) → skill_of p = (t, a, sk) → SkillProj_SkillVersion p = v → card_id p = sk →
  skills s' = <[skillDefinitionKey t a sk v := p]> (demote t a sk <$> skills s) → skills_inv s → skills_inv s'.
Proof.
  intros Hn Ep Ev Ec E [Hf Ho].
  assert (Hback : ∀ k q, skills s' !! k = Some q → k = skillDefinitionKey t a sk v ∧ q = p ∨
    k ≠ skillDefinitionKey t a sk v ∧ ∃ q0, skills s !! k = Some q0 ∧ q = demote t a sk q0).
  { intros k q. rewrite E. intros [[<- <-]|[Hne Hq]]%lookup_insert_Some; [by left|right]. split; [done|].
    rewrite lookup_fmap in Hq. destruct (skills s !! k) as [q0|]; [|done]. exists q0. by simplify_eq/=. }
  split.
  - intros k q [[-> ->]|(Hne & q0 & Hq & ->)]%Hback.
    + rewrite Ep. split; [done|]. injection Ep as E1 E2 E3. split; congruence.
    + destruct (demote_skill t a sk q0) as [(E1 & E2 & E3 & E4 & E5) _]. unfold skill_of. rewrite E1, E2, E3, E4, E5. by apply Hf.
  - assert (Hother : ∀ k q0, skills s !! k = Some q0 → stable_skill (demote t a sk q0) = true →
      stable_skill q0 = true ∧ skill_of (demote t a sk q0) = skill_of q0 ∧ skill_of q0 ≠ (t, a, sk)).
    { intros k q0 Hq0 Hs. destruct (demote_skill t a sk q0) as [[Es _]%same_version_skill Eb]. rewrite Eb in Hs.
      apply andb_true_iff in Hs as [Hs Hd%negb_true_iff%bool_decide_eq_false]. done. }
    intros k k' q q' [[-> ->]|(Hne & q0 & Hq & ->)]%Hback [[-> ->]|(Hne' & q0' & Hq' & ->)]%Hback Hs Hs' Eq; [done|..].
    + destruct (Hother _ _ Hq' Hs') as (_ & E2 & Hno). congruence.
    + destruct (Hother _ _ Hq Hs) as (_ & E2 & Hno). congruence.
    + destruct (Hother _ _ Hq Hs) as (H1 & E1 & _), (Hother _ _ Hq' Hs') as (H2 & E2 & _).
      eapply Ho; [exact Hq|exact Hq'|done..|congruence].
Qed.
End history.

(** ** Any sequence of calls *)
Section calls.
Context `{Env}.
Notation PS := (Projections unit).
Notation NoStore := (no_store : StoreKinds unit).
Implicit Types (s : PS) (p : SkillDefinitionProjection).

(** The calls that change the state; the identifiers of a skill hold no NUL byte. *)
Inductive projection_op : ∀ A, M PS A → Prop :=
| op_UpsertProfile t a v i sy d md actor : projection_op _ (UpsertPromptProfileProjection NoStore t a v i sy d md actor)
| op_DeleteProfile t a actor : projection_op _ (DeleteActivePromptProfileProjection NoStore t a actor)
| op_UpsertBinding t a v b actor : projection_op _ (UpsertToolBindingProjection NoStore t a v b actor)
| op_DeleteBinding t a actor : projection_op _ (DeleteActiveToolBindingProjection NoStore t a actor)
| op_UpsertSkillProjection t a v d actor : nul_free_ids (t, a, SkillCard_SkillID (Skill_Card d)) →
    projection_op _ (UpsertSkillDefinitionProjection NoStore t a v d actor)
| op_DeleteSkillProjection t a sk actor : nul_free_ids (t, a, TrimSpace sk) →
    projection_op _ (DeleteActiveSkillDefinitionProjection NoStore t a sk actor)
| op_ActivateSkill t a sk v actor : nul_free_ids (t, a, TrimSpace sk) →
    projection_op _ (ActivateSkillDefinitionProjection NoStore t a sk v actor)
| op_UpsertCollaboratorProjection t a v c actor : projection_op _ (UpsertCollaboratorProjection NoStore t a v c actor)
| op_DeleteCollaborator t a c actor : projection_op _ (DeleteActiveCollaboratorProjection NoStore t a c actor)
| op_UpsertToolProjection t a v tool actor : projection_op _ (UpsertExportedToolProjection NoStore t a v tool actor)
| op_DeleteTool t a tool actor : projection_op _ (DeleteActiveExportedToolProjection NoStore t a tool actor).
Definition projection_step (c c' : World * PS) : Prop :=
  ∃ A (m : M PS A) r, projection_op A m ∧ m c.1 c.2 = (r, c'.1, c'.2).

Lemma audit_projection_effect t actor action id : effect_only (S:=PS) (audit_projection t actor action id).
Proof. unfold audit_projection. auto 10 with effects. Qed.

Section keeping.
Context (I : PS → Prop).
Definition holds {A} (m : M PS A) : Prop := triple I m (λ _, I) I.

Lemma holds_bind {A B} (m : M PS A) (f : A → M PS B) : holds m → (∀ a, holds (f a)) → holds (bind m f).
Proof. apply triple_bind. Qed.
Lemma holds_ret {A} (a : A) : holds (ret a).
Proof. by apply triple_ret. Qed.
Lemma holds_throw {A} e : holds (throw (A:=A) e).
Proof. by apply triple_throw. Qed.
Lemma holds_refuse_if bad e : holds (refuse_if bad e).
Proof. destruct bad; [apply holds_throw|apply holds_ret]. Qed.
Lemma holds_refuse_error e : holds (refuse_error e).
Proof. destruct e; [apply holds_throw|apply holds_ret]. Qed.
Lemma holds_require_owner what t a v : holds (require_owner what t a v).
Proof. apply holds_bind; [|intros _]; apply holds_refuse_if. Qed.
Lemma holds_now : holds now.
Proof. apply triple_effect, effect_only_now. Qed.
Lemma holds_audit t actor action id : holds (audit_projection t actor action id).
Proof. apply triple_effect, audit_projection_effect. Qed.
Lemma holds_update f : (∀ s, I s → I (f s)) → holds (let! s := get in put (f s)).
Proof. intros Hf w s Hs. by apply Hf. Qed.
End keeping.
#[local] Hint Resolve holds_bind holds_ret holds_throw holds_refuse_if holds_refuse_error holds_require_owner
  holds_now holds_audit holds_update : core.

(** A change of another kind leaves the skills alone. *)
Lemma other_kinds (g : PS → PS) s : skills (g s) = skills s → skills_inv s → skills_inv (g s).
Proof. unfold skills_inv, filed, one_stable. by intros ->. Qed.

Lemma projection_op_inv A m : projection_op A m → holds skills_inv m.
Proof.
  intros Hop. destruct Hop as [| | | |t a v d actor Hn|t a sk actor Hn|t a sk v actor Hn| | | |].
  1-4,8,9,11: unfold UpsertPromptProfileProjection, DeleteActivePromptProfileProjection, UpsertToolBindingProjection,
    DeleteActiveToolBindingProjection, UpsertCollaboratorProjection, DeleteActiveCollaboratorProjection,
    DeleteActiveExportedToolProjection; cbn zeta; cbn [by_store as_PromptProfileStore as_ToolBindingStore
    as_CollaboratorStore as_ExportedToolStore no_store].
  1-7: solve [repeat (apply holds_bind; [solve [auto|apply holds_update; intros s; by apply other_kinds]|intros ?]); auto].
  4: { unfold UpsertExportedToolProjection. apply holds_bind; [auto|intros _]. destruct (normalized_tool tool); [auto|].
    apply holds_bind; [auto|intros now]. cbn zeta. cbn [by_store as_ExportedToolStore no_store].
    apply holds_bind; [apply holds_update; intros s; by apply other_kinds|intros _]. auto. }
  - unfold UpsertSkillDefinitionProjection. apply holds_bind; [auto|intros _]. apply holds_bind; [auto|intros _].
    cbn zeta. apply holds_bind; [auto|intros _]. apply holds_bind; [auto|intros now].
    cbn [by_store as_SkillDefinitionStore no_store]. apply holds_bind; [|intros _; auto].
    match goal with |- context [mkSkillProjection ?a ?b ?c ?d ?e ?f ?g ?h ?i ?j ?k ?l] =>
      set (p := mkSkillProjection a b c d e f g h i j k l) end.
    apply holds_update. intros s.
    by apply (upserted_inv t a (SkillCard_SkillID (Skill_Card d)) (SkillProj_SkillVersion p) p s).
  - unfold DeleteActiveSkillDefinitionProjection. apply holds_bind; [auto|intros _].
    cbn [by_store as_SkillDefinitionStore no_store]. apply holds_bind; [|intros _; auto].
    intros w s HI. rewrite bind_get. destruct (range_entries s w) as (entries & w1 & E & He & Hall).
    rewrite (bind_Ok _ _ _ _ _ _ _ E).
    destruct (delete_skills_run (skillKey t a (TrimSpace sk)) entries w1 s He) as (w' & s' & -> & Hm).
    by eapply deleted_inv; [exact Hn|exact HI|apply (moved_all _ _ _ _ Hall Hm)].
  - unfold ActivateSkillDefinitionProjection. cbn zeta. apply holds_bind; [auto|intros _].
    cbn [as_SkillDefinitionVersionStore no_store]. intros w s HI. rewrite bind_get.
    destruct (range_entries s w) as (entries & w1 & E & He & Hall). rewrite (bind_Ok _ _ _ _ _ _ _ E).
    destruct (activate_skills_run (skillKey t a (TrimSpace sk)) (TrimSpace sk) (TrimSpace v) entries None w1 s He)
      as (acc & w' & s' & E' & Hm & _). rewrite (bind_Ok _ _ _ _ _ _ _ E').
    assert (HI' : skills_inv s') by (by eapply activated_inv; [exact Hn|exact HI|apply (moved_all _ _ _ _ Hall Hm)]).
    destruct acc as [p|]; [|done]. apply (holds_bind skills_inv); [apply holds_audit|intros _; apply holds_ret|done].
Qed.

Lemma projection_inv_new : skills_inv (NewProjections tt).
Proof.
  assert (Hn : ∀ k p, skills (NewProjections tt) !! k ≠ Some p) by (intros k p; cbn; by rewrite lookup_empty).
  split; [intros k p Hp|intros k k' p p' Hp]; by destruct (Hn _ _ Hp).
Qed.

Lemma projection_steps_inv c c' : rtc projection_step c c' → skills_inv c.2 → skills_inv c'.2.
Proof.
  induction 1 as [|c c1 c2 (A & m & r & Hop & E) _ IH]; [done|]. intros HI. apply IH.
  exact (triple_inv skills_inv m _ _ _ _ _ (projection_op_inv A m Hop) HI E).
Qed.

(** C38. Any sequence of calls, from an empty service: every version of a skill is found under its own key, and no
    two versions of a skill of an agent are stable at a time. *)
Theorem skills_history w0 w s : rtc projection_step (w0, NewProjections tt) (w, s) → filed s ∧ one_stable s.
Proof. intros Hs. by apply projection_steps_inv in Hs; [|apply projection_inv_new]. Qed.

(** ** The active version *)

Definition is_active s (ids : string * string * string) p : Prop :=
  stable_skill p = true ∧ skill_of p = ids ∧ ∃ k, skills s !! k = Some p.

Lemma newest_skill_some key entries acc p : newest_skill key acc entries = Some p →
  acc = Some p ∨ ∃ k, (k, p) ∈ entries ∧ under key k = true ∧ stable_skill p = true.
Proof.
  revert acc. induction entries as [|[k q] entries IH]; intros acc; cbn; [by left|]. intros [E|(k' & Hin & Hk)]%IH.
  - destruct (under key k) eqn:Eu; [|by left]. destruct (stable_skill q) eqn:Es; [|by left]. cbn in E.
    assert (Hq : Some q = Some p ∨ acc = Some p) by (destruct acc; [destruct (After _ _)|]; auto).
    destruct Hq as [[= ->]|Hq]; [right; exists k; split; [by left|done]|by left].
  - right. exists k'. split; [by right|done].
Qed.
Lemma newest_skill_none key entries acc : newest_skill key acc entries = None →
  acc = None ∧ ∀ k p, (k, p) ∈ entries → under key k && stable_skill p = false.
Proof.
  revert acc. induction entries as [|[k q] entries IH]; intros acc; cbn.
  - intros ->. split; [done|]. intros k p Hin. by apply not_elem_of_nil in Hin.
  - intros [E Hall]%IH. destruct (under key k && stable_skill q) eqn:Eu; [by destruct acc; [destruct (After _ _)|]|].
    split; [done|]. intros k' p [[= -> ->]|Hin]%elem_of_cons; [done|by apply Hall].
Qed.

Lemma GetActiveSkill_run t a sk w s : skills_inv s → nul_free_ids (t, a, TrimSpace sk) →
  ∃ found w', GetActiveSkillDefinitionProjection NoStore t a sk w s = (Ok found, w', s) ∧
    ∀ p, found = Some p ↔ is_active s (t, a, TrimSpace sk) p.
Proof.
  intros [Hf Ho] Hn. unfold GetActiveSkillDefinitionProjection. cbn [by_store as_SkillDefinitionStore no_store].
  rewrite bind_get. destruct (range_entries s w) as (entries & w1 & E & [_ Hin] & Hall). rewrite (bind_Ok _ _ _ _ _ _ _ E).
  set (found := newest_skill _ _ _). exists found, w1. split; [done|].
  assert (Hsome : ∀ p, found = Some p → is_active s (t, a, TrimSpace sk) p).
  { intros p [|(k & Hk & Hu & Hs)]%newest_skill_some; [done|]. apply Hin in Hk. split; [done|].
    split; [by apply (under_filed s _ _ _ k p Hf Hn Hk)|by exists k]. }
  intros p. split; [by apply Hsome|]. intros (Hs & Ep & k & Hk). destruct found as [q|] eqn:Ef.
  - destruct (Hsome q eq_refl) as (Hs' & Eq & k' & Hk'). assert (k = k') as -> by (eapply Ho; eauto; congruence). congruence.
  - apply newest_skill_none in Ef as [_ Hno]. pose proof (Hno _ _ (Hall _ _ Hk)) as Hno'.
    by rewrite (proj2 (under_filed s _ _ _ k p Hf Hn Hk) Ep), Hs in Hno'.
Qed.

(** What activating version [v] of the skill [ids] makes of the versions, when the arguments are complete. *)
Lemma activate_run t a sk v actor w s : skills_inv s → nul_free_ids (t, a, TrimSpace sk) →
  t ≠ "" → a ≠ "" → TrimSpace sk ≠ "" → TrimSpace v ≠ "" → ∃ w' s',
  skills_inv s' ∧ (∀ k p, skill_of p ≠ (t, a, TrimSpace sk) → skills s !! k = Some p ↔ skills s' !! k = Some p) ∧
  (∀ k p, skills s' !! k = Some p → skill_of p = (t, a, TrimSpace sk) →
     stable_skill p = (SkillProj_SkillVersion p == TrimSpace v)) ∧
  ((∃ p, ActivateSkillDefinitionProjection NoStore t a sk v actor w s = (Ok (Some p), w', s') ∧
     SkillProj_SkillVersion p = TrimSpace v ∧ is_active s' (t, a, TrimSpace sk) p) ∨
   (∃ e, ActivateSkillDefinitionProjection NoStore t a sk v actor w s = (Err e, w', s') ∧
     (∀ k p, skills s !! k = Some p → skill_of p = (t, a, TrimSpace sk) → SkillProj_SkillVersion p ≠ TrimSpace v) ∧
     ∀ p, ¬ is_active s' (t, a, TrimSpace sk) p)).
Proof.
  intros HI Hn Ht%eqb_neq_false Ha%eqb_neq_false Hs%eqb_neq_false Hv%eqb_neq_false.
  unfold ActivateSkillDefinitionProjection. cbn zeta. rewrite Ht, Ha, Hs, Hv. cbn [orb refuse_if]. rewrite bind_ret.
  cbn [as_SkillDefinitionVersionStore no_store]. rewrite bind_get.
  destruct (range_entries s w) as (entries & w1 & E & He & Hall). rewrite (bind_Ok _ _ _ _ _ _ _ E).
  destruct (activate_skills_run (skillKey t a (TrimSpace sk)) (TrimSpace sk) (TrimSpace v) entries None w1 s He)
    as (acc & w' & s' & E' & Hm & Hacc). rewrite (bind_Ok _ _ _ _ _ _ _ E').
  pose proof (moved_all _ _ _ _ Hall Hm) as Hm'. destruct (activated_inv _ _ _ _ _ _ Hn HI Hm') as [HI' Hst].
  assert (Hact : ∀ k p, skills s !! k = Some p → skill_of p = (t, a, TrimSpace sk) → SkillProj_SkillVersion p = TrimSpace v →
    is_activated (skillKey t a (TrimSpace sk)) (TrimSpace sk) (TrimSpace v) k p = true).
  { intros k p Hp Ep Ev. unfold is_activated. rewrite (proj2 (under_filed s _ _ _ k p (proj1 HI) Hn Hp) Ep), Ev.
    injection Ep as _ _ ->. by rewrite !String.eqb_refl. }
  assert (Hothers : ∀ k p, skill_of p ≠ (t, a, TrimSpace sk) → skills s !! k = Some p ↔ skills s' !! k = Some p).
  { intros k p Hne. specialize (Hm' k). destruct (skills s !! k) as [q|] eqn:Eq, (skills s' !! k) as [q'|] eqn:Eq'; [|done..].
    destruct Hm' as [[Es _]%same_version_skill Hr]. destruct (under _ k) eqn:Eu; [|by rewrite Hr].
    apply (under_filed s _ _ _ k q (proj1 HI) Hn Eq) in Eu. split; intros [= ->]; congruence. }
  destruct Hacc as [(k & p & p' & Hin & Hia & -> & Hk)|[Hno ->]].
  - unfold is_activated in Hia. apply andb_true_iff in Hia as [[Hu _]%andb_true_iff Hver%String.eqb_eq].
    destruct (audit_projection_effect t actor "agent.skill_definition.activate"
      (a +:+ "/" +:+ SkillProj_SkillID p' +:+ "/" +:+ SkillProj_SkillVersion p') w' s') as ([] & w2 & Ea).
    exists w2, s'. split_and!; [done..|left]. exists p'. unfold audit_activation. rewrite (bind_Ok _ _ _ _ _ _ _ Ea).
    assert (Hp : skills s !! k = Some p) by by apply He. specialize (Hm' k). rewrite Hp, Hk in Hm'.
    destruct Hm' as [[Es Ev]%same_version_skill _]. rewrite (under_filed s _ _ _ k p (proj1 HI) Hn Hp) in Hu.
    split_and!; [done|congruence|]. split_and!; [|congruence|by exists k].
    rewrite (Hst k p' Hk) by congruence. rewrite Ev, Hver. apply String.eqb_refl.
  - assert (Hnone : ∀ k p, skills s !! k = Some p → skill_of p = (t, a, TrimSpace sk) → SkillProj_SkillVersion p ≠ TrimSpace v).
    { intros k p Hp Ep Ev. pose proof (Hact _ _ Hp Ep Ev) as Ht'. by rewrite (Hno k p (Hall _ _ Hp)) in Ht'. }
    exists w', s'. split_and!; [done..|right]. eexists. split; [reflexivity|]. split; [done|].
    intros p' (Hs' & Ep & k & Hk). rewrite (Hst _ _ Hk Ep) in Hs'. apply String.eqb_eq in Hs'.
    specialize (Hm' k). rewrite Hk in Hm'. destruct (skills s !! k) as [p|] eqn:Hp; [|done].
    destruct Hm' as [[Es Ev]%same_version_skill _]. apply (Hnone _ _ Hp); congruence.
Qed.

(** Activating a version of a skill, on every branch.  With incomplete arguments nothing happens.  Where the
    version exists, it is the active one afterwards.  Where it does not the call fails, and the version that was
    active no longer is: the skill is left without one.  Other skills are not touched. *)
Theorem activate_correct t a sk v actor w s : skills_inv s → nul_free_ids (t, a, TrimSpace sk) →
  match ActivateSkillDefinitionProjection NoStore t a sk v actor w s with
  | (Ok activated, w', s') => ∃ p w2, activated = Some p ∧ SkillProj_SkillVersion p = TrimSpace v ∧
      GetActiveSkillDefinitionProjection NoStore t a sk w' s' = (Ok (Some p), w2, s') ∧
      ∀ k q, skill_of q ≠ (t, a, TrimSpace sk) → skills s !! k = Some q ↔ skills s' !! k = Some q
  | (Err _, w', s') => (t = "" ∨ a = "" ∨ TrimSpace sk = "" ∨ TrimSpace v = "") ∧ s' = s ∨
      (∀ k p, skills s !! k = Some p → skill_of p = (t, a, TrimSpace sk) → SkillProj_SkillVersion p ≠ TrimSpace v) ∧
      (∃ w2, GetActiveSkillDefinitionProjection NoStore t a sk w' s' = (Ok None, w2, s')) ∧
      ∀ k q, skill_of q ≠ (t, a, TrimSpace sk) → skills s !! k = Some q ↔ skills s' !! k = Some q
  | (Panic, _, _) => False
  end.
Proof.
  intros HI Hn. destruct (decide (t = "" ∨ a = "" ∨ TrimSpace sk = "" ∨ TrimSpace v = "")) as [Hb|Hb].
  { unfold ActivateSkillDefinitionProjection. cbn zeta. replace (_ || _ || _ || _) with true; [by left|].
    symmetry. rewrite !orb_true_iff, !String.eqb_eq. tauto. }
  destruct (activate_run t a sk v actor w s HI Hn) as (w' & s' & HI' & Hot & Hst & Hr); [tauto..|].
  destruct (GetActiveSkill_run t a sk w' s' HI' Hn) as (found & w2 & Eg & Hfound).
  destruct Hr as [(p & -> & Hv & Hp)|(e & -> & Hno & Hnone)].
  - exists p, w2. rewrite Eg. by rewrite (proj2 (Hfound p) Hp).
  - right. split; [done|]. split; [|done]. exists w2. rewrite Eg. destruct found as [p|]; [|done].
    by destruct (Hnone p); apply Hfound.
Qed.
End calls.

(** ** A skill with two versions *)
Section demo.
Let env : Env := test_env.
#[local] Existing Instance env.
Notation PS := (Projections unit).
Notation NoStore := (no_store : StoreKinds unit).

Definition demo_skill (version : string) : SkillDefinition :=
  zeroSkillDefinition <| Skill_Card := zeroSkillCard <| SkillCard_SkillID := "writing" |>
                                                     <| SkillCard_Version := version |> |>.
Definition run_call {A} (m : M PS A) (c : World * PS) : World * PS := match m c.1 c.2 with (_, w, s) => (w, s) end.
Definition demo_upsert (version : string) : World * PS → World * PS :=
  run_call (UpsertSkillDefinitionProjection NoStore "acme" "writer" "v1" (demo_skill version) "ann").
Definition demo_versions : World * PS := demo_upsert "2" (demo_upsert "1" (world0, NewProjections tt)).
Definition statuses (s : PS) : list (string * ReleaseStatus) :=
  map (λ entry, (entry.2.(SkillProj_SkillVersion), entry.2.(SkillProj_Status))) (map_to_list (skills s)).

Lemma run_call_step A (m : M PS A) c : projection_op A m → projection_step c (run_call m c).
Proof. intros Hop. exists A, m, (m c.1 c.2).1.1. split; [done|]. unfold run_call. by destruct (m c.1 c.2) as [[r w] s]. Qed.
Lemma demo_versions_reached : rtc projection_step (world0, NewProjections tt) demo_versions.
Proof.
  assert (Hop : ∀ c version, projection_step c (demo_upsert version c)).
  { intros c version. apply run_call_step, op_UpsertSkillProjection. vm_compute. repeat split; discriminate. }
  eapply rtc_l; [apply Hop|]. apply rtc_once, Hop.
Qed.

Lemma skills_history_witness : filed demo_versions.2 ∧ one_stable demo_versions.2 ∧
  statuses demo_versions.2 ≡ₚ [("1", ReleasePublished); ("2", ReleaseStable)].
Proof.
  destruct (skills_history world0 demo_versions.1 demo_versions.2) as [Hf Ho];
    [rewrite <- surjective_pairing; exact demo_versions_reached|]. split; [exact Hf|]. split; [exact Ho|].
  vm_compute. (reflexivity || apply perm_swap).
Defined.

Lemma activate_correct_witness : ∃ p w s w2,
  ActivateSkillDefinitionProjection NoStore "acme" "writer" "writing" "1" "ann" demo_versions.1 demo_versions.2 =
    (Ok (Some p), w, s) ∧ SkillProj_SkillVersion p = "1" ∧
  GetActiveSkillDefinitionProjection NoStore "acme" "writer" "writing" w s = (Ok (Some p), w2, s).
Proof.
  pose proof (projection_steps_inv _ _ demo_versions_reached projection_inv_new) as HI.
  assert (Hn : nul_free_ids ("acme", "writer", TrimSpace "writing")) by (vm_compute; repeat split; discriminate).
  pose proof (activate_correct "acme" "writer" "writing" "1" "ann" demo_versions.1 demo_versions.2 HI Hn) as Hc.
  destruct (ActivateSkillDefinitionProjection NoStore "acme" "writer" "writing" "1" "ann" demo_versions.1 demo_versions.2)
    as [[[r|e|] w] s] eqn:E; [|exfalso|exfalso].
  - destruct Hc as (p & w2 & -> & Hv & Hg & _). exists p, w, s, w2. split; [done|]. split; [exact Hv|exact Hg].
  - vm_compute in E. discriminate.
  - exact Hc.
Defined.

(** A version that does not exist: the call fails and no version is active any more. *)
Example failed_activation_deactivates :
  let s := (run_call (ActivateSkillDefinitionProjection NoStore "acme" "writer" "writing" "3" "ann") demo_versions).2 in
  statuses s ≡ₚ [("1", ReleasePublished); ("2", ReleasePublished)].
Proof. vm_compute. (reflexivity || apply perm_swap). Qed.

(** A skill that was deleted and activated again is stable, but its card still says that it is deleted. *)
Example activated_still_deleted :
  let c := run_call (ActivateSkillDefinitionProjection NoStore "acme" "writer" "writing" "2" "ann")
             (run_call (DeleteActiveSkillDefinitionProjection NoStore "acme" "writer" "writing" "ann") demo_versions) in
  match GetActiveSkillDefinitionProjection NoStore "acme" "writer" "writing" c.1 c.2 with
  | (Ok (Some p), _, _) => SkillProj_SkillVersion p = "2" ∧
      SkillCard_Status (Skill_Card (SkillProj_Definition p)) = "deleted"
  | _ => False
  end.
Proof. vm_compute. by split. Qed.
End demo.
