(* ===== verification/Loader.v ===== *)
(** * The loaders of agent definitions: internal/agentdef/loader/loader.go

    [StaticLoader] keeps definitions by tenant, agent and version, with a default version for each agent;
    [LoadOverlay] is the loader of the server, which lays the active projections of an agent ([Projection]) over
    the definition that the static loader finds. *)

From stdpp Require Import base list strings gmap fin_maps.
From Stdlib Require Import Ascii Lia.
From S2P Require Import Prelude Contracts GoMonad Storage Compile AgentPackage Projection SkillVersions.
Open Scope go_scope.
Open Scope string_scope.
Open Scope list_scope.

(** ** Definitions in memory *)

Record StaticLoader := mkStaticLoader {
  definitions : gmap string AgentDefinition;
  defaults : gmap string string
}.
#[export] Instance eta_StaticLoader : Settable StaticLoader := fields! mkStaticLoader < definitions ; defaults >.

Definition definitionKey (tenantID agentID version : string) : string :=
  tenantID +:+ NUL +:+ agentID +:+ "@" +:+ version.
Definition defaultKey (tenantID agentID : string) : string := tenantID +:+ NUL +:+ agentID.
(** A default that is missing is the empty version. *)
Definition default_of (l : StaticLoader) (tenantID agentID : string) : string :=
  default "" (l.(defaults) !! defaultKey tenantID agentID).

Definition put_definition (definition : AgentDefinition) (setDefaultIfMissing : bool) (l : StaticLoader) : StaticLoader :=
  let tenantID := definition.(Agent_TenantID) in
  let agentID := definition.(Agent_AgentID) in
  let version := definition.(Agent_Version) in
  let l := l <| definitions := <[definitionKey tenantID agentID version := definition]> l.(definitions) |> in
  if negb setDefaultIfMissing then l else
  match l.(defaults) !! defaultKey tenantID agentID with
  | Some _ => l
  | None => l <| defaults := <[defaultKey tenantID agentID := version]> l.(defaults) |>
  end.
Definition Put (definition : AgentDefinition) : StaticLoader → StaticLoader := put_definition definition true.
Definition PutVersion (definition : AgentDefinition) : StaticLoader → StaticLoader := put_definition definition false.
Definition NewStaticLoader (ds : list AgentDefinition) : StaticLoader :=
  fold_left (λ l d, Put d l) ds (mkStaticLoader ∅ ∅).

Definition version_not_found (agentID version : string) : error :=
  runtime_error CodeAgentVersionNotFound (Sprintf "agent %s version %s not found" [agentID; version]) ∅.

Definition default_version (l : StaticLoader) (tenantID agentID : string) : string :=
  let version := default_of l tenantID agentID in
  if version != "" then version else default_of l "" agentID.
Definition LoadStatic (l : StaticLoader) (tenantID agentID version : string) : error + AgentDefinition :=
  let version := if version == "" then or_default (default_version l tenantID agentID) "v1" else version in
  match l.(definitions) !! definitionKey tenantID agentID version with
  | Some definition => inr definition
  | None =>
      match (if tenantID != "" then l.(definitions) !! definitionKey "" agentID version else None) with
      | Some definition => inr definition
      | None => inl (version_not_found agentID version)
      end
  end.

Definition SetDefaultForTenant (tenantID agentID version : string) (l : StaticLoader) : error + StaticLoader :=
  let keep := l <| defaults := <[defaultKey tenantID agentID := version]> l.(defaults) |> in
  match l.(definitions) !! definitionKey tenantID agentID version with
  | Some _ => inr keep
  | None =>
      match (if tenantID != "" then l.(definitions) !! definitionKey "" agentID version else None) with
      | Some _ => inr keep
      | None => inl (version_not_found agentID version)
      end
  end.
Definition SetDefault (agentID version : string) : StaticLoader → error + StaticLoader :=
  SetDefaultForTenant "" agentID version.
Definition DefaultVersion (l : StaticLoader) (agentID : string) : string := default_of l "" agentID.
Definition DefaultVersionForTenant (l : StaticLoader) (tenantID agentID : string) : string :=
  default_version l tenantID agentID.

(** The loop of [ListByTenant]: of two definitions of the same version the one that comes first. *)
Fixpoint first_versions (tenantID : string) (seen : list string) (ds : list AgentDefinition) : list AgentDefinition :=
  match ds with
  | [] => []
  | d :: ds =>
      let key := d.(Agent_AgentID) +:+ "@" +:+ d.(Agent_Version) in
      if (d.(Agent_TenantID) != "") && (d.(Agent_TenantID) != tenantID) || mem_string key seen
      then first_versions tenantID seen ds
      else d :: first_versions tenantID (key :: seen) ds
  end.
Definition ListByTenant `{Env} {S} (l : StaticLoader) (tenantID : string) : M S (list AgentDefinition) :=
  let! entries := range_map l.(definitions) in ret (first_versions tenantID [] (map snd entries)).

(** ** What is laid over a definition *)

Definition applyPromptProfile (profile : PromptProfileProjection) (d : AgentDefinition) : AgentDefinition :=
  let identity := or_default (TrimSpace profile.(Profile_IdentityPrompt)) (TrimSpace profile.(Profile_AgentsMD)) in
  (if identity != "" then d <| Agent_IdentityPrompt := identity |> else d)
    <| Agent_SystemPrompt := profile.(Profile_SystemPrompt) |>
    <| Agent_DeveloperPrompt := profile.(Profile_DeveloperPrompt) |>.

(** The upserts of the loader: the first element with the key of [x] becomes [x]; without any, [x] is added. *)
Fixpoint replace_first {A} (key : A → string) (x : A) (l : list A) : list A :=
  match l with
  | [] => [x]
  | current :: l => if key current == key x then x :: l else current :: replace_first key x l
  end.
Definition skillID_of (d : SkillDefinition) : string := d.(Skill_Card).(SkillCard_SkillID).
Definition upsertSkillDefinition (ds : list SkillDefinition) (skill : SkillDefinition) : list SkillDefinition :=
  replace_first skillID_of skill ds.
Definition upsertSkillRef (refs : list SkillDefinitionRef) (ref : SkillDefinitionRef) : list SkillDefinitionRef :=
  replace_first SkillRef_SkillID ref refs.
Definition upsertCollaborator (collaborators : list AgentCollaboratorRef) (collaborator : AgentCollaboratorRef) :=
  replace_first Collab_AgentID collaborator collaborators.
Definition upsertExportedTool (tools : list AgentExportedTool) (tool : AgentExportedTool) :=
  replace_first Exported_ToolID tool tools.

(** A projection of another version is left out when a version was asked for. *)
Definition applicable (requestedVersion version : string) (d : AgentDefinition) : bool :=
  (requestedVersion == "") || (version == "") || (version == d.(Agent_Version)).

Definition projected_skill (p : SkillDefinitionProjection) : SkillDefinition :=
  let d := p.(SkillProj_Definition) in
  let card := d.(Skill_Card) <| SkillCard_SkillID := or_default (skillID_of d) p.(SkillProj_SkillID) |>
                             <| SkillCard_Version := or_default d.(Skill_Card).(SkillCard_Version) p.(SkillProj_SkillVersion) |> in
  d <| Skill_Card := card |>
    <| Skill_Instruction := d.(Skill_Instruction)
         <| SkillInstr_SkillID := or_default d.(Skill_Instruction).(SkillInstr_SkillID) card.(SkillCard_SkillID) |> |>.
Definition applySkillDefinitions (projections : list SkillDefinitionProjection) (requestedVersion : string)
    (d : AgentDefinition) : AgentDefinition :=
  let ps := map projected_skill (List.filter (λ p, applicable requestedVersion p.(SkillProj_Version) d) projections) in
  d <| Agent_SkillDefinitions := fold_left upsertSkillDefinition ps d.(Agent_SkillDefinitions) |>
    <| Agent_Skills := fold_left upsertSkillRef
         (map (λ s, mkSkillDefinitionRef s.(Skill_Card).(SkillCard_SkillID) s.(Skill_Card).(SkillCard_Version)) ps)
         d.(Agent_Skills) |>.

Definition projected_collaborator (p : CollaboratorProjection) : AgentCollaboratorRef :=
  let c := p.(CollabProj_Collaborator) in
  c <| Collab_AgentID := or_default c.(Collab_AgentID) p.(CollabProj_CollaboratorAgentID) |>
    <| Collab_Version := or_default c.(Collab_Version) p.(CollabProj_CollaboratorVersion) |>.
Definition applyCollaborators (projections : list CollaboratorProjection) (requestedVersion : string)
    (d : AgentDefinition) : AgentDefinition :=
  d <| Agent_Collaborators := fold_left upsertCollaborator
    (map projected_collaborator (List.filter (λ p, applicable requestedVersion p.(CollabProj_Version) d) projections))
    d.(Agent_Collaborators) |>.

Definition projected_tool (p : ExportedToolProjection) : AgentExportedTool :=
  let tool := p.(ToolProj_Tool) in
  tool <| Exported_ToolID := or_default tool.(Exported_ToolID) p.(ToolProj_ToolID) |>
       <| Exported_Version := or_default tool.(Exported_Version) p.(ToolProj_ToolVersion) |>.
Definition applyExportedTools (projections : list ExportedToolProjection) (requestedVersion : string)
    (d : AgentDefinition) : AgentDefinition :=
  d <| Agent_Exports := mkAgentExports (fold_left upsertExportedTool
    (map projected_tool (List.filter (λ p, applicable requestedVersion p.(ToolProj_Version) d) projections))
    d.(Agent_Exports).(Exports_Tools)) |>.

(** ** The loader of the server *)

(** The static loader and the projections it is overlaid with. *)
Record Loaders (T : Type) := mkLoaders { static_loader : StaticLoader; projections_of : Projections T }.
Arguments mkLoaders {T}. Arguments static_loader {T}. Arguments projections_of {T}.

Section overlay.
Context `{Env} {T : Type} (store : StoreKinds T).
Notation LM := (M (Loaders T)).

Definition on_profiles {A} (m : M (Projections T) A) : LM A :=
  zoom projections_of (λ p s, mkLoaders s.(static_loader) p) m.

(** [PromptProfileOverlayLoader.Load] over a static loader, with the service of packages as its profiles: the
    service implements all interfaces that the loader asks for. *)
Definition LoadOverlay (tenantID agentID version : string) : LM AgentDefinition :=
  let! s := get in
  match LoadStatic s.(static_loader) tenantID agentID version with
  | inl err => throw err
  | inr d =>
      let! profile := on_profiles (GetActivePromptProfileProjection store tenantID agentID) in
      let d := match profile with
               | Some profile => if applicable version profile.(Profile_Version) d then applyPromptProfile profile d else d
               | None => d
               end in
      let! binding := on_profiles (GetActiveToolBindingProjection store tenantID agentID) in
      let d := match binding with
               | Some binding => if applicable version binding.(ToolBind_Version) d
                                 then d <| Agent_Tools := binding.(ToolBind_Bindings) |> else d
               | None => d
               end in
      let! skills := on_profiles (ListActiveSkillDefinitionProjections store tenantID agentID) in
      let d := applySkillDefinitions skills version d in
      let! collaborators := on_profiles (ListActiveCollaboratorProjections store tenantID agentID) in
      let d := applyCollaborators collaborators version d in
      let! tools := on_profiles (ListActiveExportedToolProjections store tenantID agentID) in
      ret (applyExportedTools tools version d)
  end.
End overlay.

(** * The static loader finds what was put last *)

Fixpoint free_of (c : ascii) (s : string) : Prop :=
  match s with EmptyString => True | String d s' => d ≠ c ∧ free_of c s' end.
Lemma char_join_inj c s t a b : free_of c s → free_of c t → s +:+ String c a = t +:+ String c b → s = t ∧ a = b.
Proof.
  revert t. induction s as [|x s IH]; intros [|y t] Hs Ht E.
  - by injection E as ->.
  - injection E as E _. by destruct Ht.
  - injection E as E _. by destruct Hs.
  - change (String x (s +:+ String c a) = String y (t +:+ String c b)) in E. injection E as -> E.
    destruct Hs, Ht. by destruct (IH t) as [-> ->].
Qed.

(** No NUL in the tenant, no at sign in the agent. *)
Definition plain_agent (t a : string) : Prop := nul_free t ∧ free_of "@" a.
Definition plain_definition (d : AgentDefinition) : Prop := plain_agent (Agent_TenantID d) (Agent_AgentID d).

Lemma definitionKey_inj t a v t' a' v' : plain_agent t a → plain_agent t' a' →
  definitionKey t a v = definitionKey t' a' v' ↔ t = t' ∧ a = a' ∧ v = v'.
Proof.
  intros [Ht Ha] [Ht' Ha']. split; [|by intros (-> & -> & ->)].
  intros [-> E]%nul_join_inj; [|done..]. by apply char_join_inj in E as [-> ->].
Qed.

Definition put_all (puts : list (AgentDefinition * bool)) : StaticLoader :=
  fold_left (λ l put, put_definition put.1 put.2 l) puts (mkStaticLoader ∅ ∅).
Definition of_agent (t a : string) (d : AgentDefinition) : bool := (Agent_TenantID d == t) && (Agent_AgentID d == a).
(** The definition of this version that was put last, and the version of the agent that was put first by [Put]. *)
Definition latest (puts : list (AgentDefinition * bool)) (t a v : string) : option AgentDefinition :=
  fst <$> List.find (λ put, of_agent t a put.1 && (Agent_Version put.1 == v)) (rev puts).
Definition first_put (puts : list (AgentDefinition * bool)) (t a : string) : option string :=
  (λ put, Agent_Version put.1) <$> List.find (λ put, of_agent t a put.1 && put.2) puts.

Lemma find_snoc {A} (f : A → bool) l x : List.find f (l ++ [x]) =
  match List.find f l with Some y => Some y | None => if f x then Some x else None end.
Proof. induction l as [|y l IH]; cbn; [done|]. by destruct (f y). Qed.

Lemma put_all_lookup puts t a : Forall (λ put, plain_definition put.1) puts → plain_agent t a →
  (∀ v, definitions (put_all puts) !! definitionKey t a v = latest puts t a v) ∧
  defaults (put_all puts) !! defaultKey t a = first_put puts t a.
Proof.
  intros Hp Ha. induction puts as [|[d b] puts IH] using rev_ind; [split; intros; cbn; by rewrite lookup_empty|].
  apply Forall_app in Hp as [Hp [Hd _]%Forall_cons]. destruct (IH Hp) as [IHd IHf]. clear IH. cbn [fst] in Hd.
  unfold put_all. rewrite fold_left_app. cbn [fold_left fst snd]. fold (put_all puts).
  assert (Hdef : ∀ l, definitions (put_definition d b l) =
    <[definitionKey (Agent_TenantID d) (Agent_AgentID d) (Agent_Version d) := d]> (definitions l)).
  { intros l. unfold put_definition. cbn zeta. destruct b; cbn [negb]; [by case_match|done]. }
  split.
  - intros v. rewrite Hdef. unfold latest. rewrite rev_app_distr. cbn [rev app List.find fst].
    destruct (of_agent t a d && (Agent_Version d == v)) eqn:E.
    + apply andb_true_iff in E as [[<-%String.eqb_eq <-%String.eqb_eq]%andb_true_iff <-%String.eqb_eq].
      by rewrite lookup_insert_eq.
    + rewrite lookup_insert_ne; [apply IHd|]. intros (<- & <- & <-)%definitionKey_inj; [|done..].
      unfold of_agent in E. by rewrite !String.eqb_refl in E.
  - unfold first_put. rewrite find_snoc. unfold first_put in IHf. cbn [fst snd].
    unfold put_definition. cbn zeta. destruct b; cbn [negb].
    + rewrite andb_true_r. cbn. destruct (of_agent t a d) eqn:E.
      * apply andb_true_iff in E as [<-%String.eqb_eq <-%String.eqb_eq]. rewrite IHf.
        destruct (List.find _ puts) as [[q c]|]; cbn; [exact IHf|by rewrite lookup_insert_eq].
      * destruct (defaults _ !! defaultKey (Agent_TenantID d) _); cbn; [by rewrite IHf; destruct (List.find _ _)|].
        rewrite lookup_insert_ne, IHf; [by destruct (List.find _ _)|].
        intros [<- <-]%nul_join_inj; [|apply Hd|apply Ha]. unfold of_agent in E. by rewrite !String.eqb_refl in E.
    + rewrite andb_false_r. cbn. rewrite IHf. by destruct (List.find _ _).
Qed.

(** The static loader returns the definition that was put last for the tenant, or else for all tenants; the
    version that is asked for without one is the first that was put for the tenant, or else for all, or else v1.
    (For identifiers that the keys can tell apart: [keys_collide].) *)
Theorem static_load_correct puts t a v : Forall (λ put, plain_definition put.1) puts → plain_agent t a →
  LoadStatic (put_all puts) t a v =
    let wanted := if v == "" then or_default (or_default (default "" (first_put puts t a))
                                                         (default "" (first_put puts "" a))) "v1" else v in
    match latest puts t a wanted, latest puts "" a wanted with
    | Some d, _ | None, Some d => inr d
    | None, None => inl (version_not_found a wanted)
    end.
Proof.
  intros Hp Ha. assert (Ha0 : plain_agent "" a) by (split; [done|apply Ha]).
  destruct (put_all_lookup puts t a Hp Ha) as [Hd Hf], (put_all_lookup puts "" a Hp Ha0) as [Hd0 Hf0].
  unfold LoadStatic, default_version, default_of. rewrite Hf, Hf0. cbn zeta. set (wanted := if v == "" then _ else v).
  replace (if v == "" then _ else v) with wanted by (unfold wanted, or_default; by destruct (default "" (first_put puts t a) == "")).
  rewrite Hd, Hd0. destruct (t == "") eqn:Et; cbn [negb]; [|done]. apply String.eqb_eq in Et as ->.
  by destruct (latest puts "" a wanted).
Qed.

Definition named (t a v name : string) : AgentDefinition :=
  zeroAgentDefinition <| Agent_TenantID := t |> <| Agent_AgentID := a |> <| Agent_Version := v |> <| Agent_Name := name |>.
Definition demo_puts : list (AgentDefinition * bool) :=
  [(named "" "writer" "v1" "shared", true); (named "acme" "writer" "v2" "own", true); (named "acme" "writer" "v2" "newer", false)].
Lemma static_load_correct_witness :
  LoadStatic (put_all demo_puts) "acme" "writer" "" = inr (named "acme" "writer" "v2" "newer") ∧
  LoadStatic (put_all demo_puts) "acme" "writer" "v1" = inr (named "" "writer" "v1" "shared").
Proof.
  assert (Hp : Forall (λ put, plain_definition put.1) demo_puts).
  { repeat constructor; vm_compute; repeat split; discriminate. }
  assert (Ha : plain_agent "acme" "writer") by (vm_compute; repeat split; discriminate).
  split; [rewrite (static_load_correct demo_puts "acme" "writer" "" Hp Ha)
         |rewrite (static_load_correct demo_puts "acme" "writer" "v1" Hp Ha)]; vm_compute; reflexivity.
Defined.

(** An agent and a version may join to the key of another agent and version. *)
Example keys_collide : LoadStatic (put_all [(named "" "a@b" "c" "one", true); (named "" "a" "b@c" "two", true)]) "" "a@b" "c" =
  inr (named "" "a" "b@c" "two").
Proof. vm_compute. reflexivity. Qed.

(** * What is served for a skill *)
Section served.
Context `{Env}.
Notation NoStore := (no_store : StoreKinds unit).
Implicit Types (s : Loaders unit) (ps : Projections unit) (p : SkillDefinitionProjection).

Lemma find_replace_first {A} (key : A → string) x l k :
  List.find (λ y, key y == k) (replace_first key x l) = if key x == k then Some x else List.find (λ y, key y == k) l.
Proof.
  induction l as [|y l IH]; cbn; [done|]. destruct (key y == key x) eqn:E; cbn.
  - apply String.eqb_eq in E. rewrite E. by destruct (key x == k).
  - rewrite IH. destruct (key y == k) eqn:Ey; [|done]. destruct (key x == k) eqn:Ex; [|done].
    apply String.eqb_eq in Ey, Ex. by rewrite Ey, Ex, String.eqb_refl in E.
Qed.
Lemma find_upserts {A} (key : A → string) xs l k :
  List.find (λ y, key y == k) (fold_left (λ l x, replace_first key x l) xs l) =
  match List.find (λ y, key y == k) (rev xs) with Some x => Some x | None => List.find (λ y, key y == k) l end.
Proof.
  revert l. induction xs as [|x xs IH]; intros l; cbn; [done|]. rewrite IH, find_snoc, find_replace_first.
  by destruct (List.find _ (rev xs)), (key x == k).
Qed.

Lemma agent_prefix t a t' a' sk v : nul_free t → nul_free t' → nul_free a → nul_free a' →
  HasPrefix (skillDefinitionKey t' a' sk v) (promptProfileKey t a +:+ NUL) = true ↔ t' = t ∧ a' = a.
Proof.
  intros Ht Ht' Ha Ha'. rewrite HasPrefix_iff. unfold skillDefinitionKey, skillKey, promptProfileKey. split.
  - intros [rest E]. set (tail := if TrimSpace v != "" then sk +:+ NUL +:+ TrimSpace v else sk).
    assert (E' : t' +:+ NUL +:+ a' +:+ NUL +:+ tail = t +:+ NUL +:+ a +:+ NUL +:+ rest).
    { rewrite !string_app_assoc in E. rewrite <- E. unfold tail. by destruct (_ != _); rewrite ?string_app_assoc. }
    apply nul_join_inj in E' as [-> E']; [|done..]. by apply nul_join_inj in E' as [-> _].
  - intros [-> ->]. destruct (_ != _); eexists; by rewrite ?string_app_assoc.
Qed.

Lemma ListActiveSkills_run t a w ps : filed ps → nul_free t → nul_free a →
  ∃ l w', ListActiveSkillDefinitionProjections NoStore t a w ps = (Ok l, w', ps) ∧
    ∀ p, p ∈ l ↔ ∃ sk, is_active ps (t, a, sk) p.
Proof.
  intros Hf Ht Ha. unfold ListActiveSkillDefinitionProjections. cbn [by_store as_SkillDefinitionStore no_store].
  rewrite bind_get. destruct (range_entries ps w) as (entries & w1 & E & [_ Hin] & Hall). rewrite (bind_Ok _ _ _ _ _ _ _ E).
  eexists _, w1. split; [reflexivity|]. intros p. rewrite stable_sort_elem, list_elem_of_In, in_map_iff. split.
  - intros ([k q] & <- & [Hk [Hpre Hst]%andb_true_iff]%filter_In). apply list_elem_of_In, Hin in Hk. cbn [fst snd] in *.
    destruct (Hf _ _ Hk) as ((Ht' & Ha' & _) & _ & ->). apply agent_prefix in Hpre as [E1 E2]; [|done..].
    exists (SkillProj_SkillID q). split_and!; [done|unfold skill_of; congruence|by eexists].
  - intros (sk & Hs & Ep & k & Hk). exists (k, p). split; [done|]. apply filter_In. split; [by apply list_elem_of_In, Hall|].
    cbn [fst snd]. rewrite Hs, andb_true_r. destruct (Hf _ _ Hk) as ((Ht' & Ha' & _) & _ & ->).
    injection Ep as E1 E2 _. by apply agent_prefix.
Qed.

Definition find_skill (sk : string) (d : AgentDefinition) : option SkillDefinition :=
  List.find (λ y, skillID_of y == sk) (Agent_SkillDefinitions d).

Lemma applied_skills l v d : Agent_SkillDefinitions (applySkillDefinitions l v d) =
  fold_left (λ l x, replace_first skillID_of x l)
    (map projected_skill (List.filter (λ p, applicable v (SkillProj_Version p) d) l)) (Agent_SkillDefinitions d).
Proof. reflexivity. Qed.
Lemma find_applied l v sk d : (∀ p, p ∈ l → card_id p = SkillProj_SkillID p) →
  (∀ p p', p ∈ l → p' ∈ l → SkillProj_SkillID p = SkillProj_SkillID p' → p = p') →
  let skill := find_skill sk (applySkillDefinitions l v d) in
  (∀ p, p ∈ l → SkillProj_SkillID p = sk → applicable v (SkillProj_Version p) d = true → skill = Some (projected_skill p)) ∧
  ((∀ p, p ∈ l → SkillProj_SkillID p = sk → applicable v (SkillProj_Version p) d = false) → skill = find_skill sk d).
Proof.
  intros Hid Hone. cbn zeta. unfold find_skill. rewrite applied_skills. set (xs' := map _ _).
  rewrite find_upserts.
  assert (Hkey : ∀ p, p ∈ l → skillID_of (projected_skill p) = SkillProj_SkillID p).
  { intros p Hp. unfold skillID_of at 1, projected_skill. cbn. pose proof (Hid p Hp) as Hc. unfold card_id in Hc.
    unfold or_default, skillID_of. rewrite Hc. by destruct (SkillProj_SkillID p == "") . }
  assert (Hxs : ∀ x, x ∈ rev xs' ↔ ∃ p, p ∈ l ∧ applicable v (SkillProj_Version p) d = true ∧ x = projected_skill p).
  { intros x. rewrite list_elem_of_In, <- in_rev. unfold xs'. rewrite in_map_iff. split.
    - intros (p & <- & [Hp Ha]%filter_In). exists p. by rewrite list_elem_of_In.
    - intros (p & Hp & Ha & ->). exists p. split; [done|]. apply filter_In. by rewrite <- list_elem_of_In. }
  split.
  - intros p Hp Hsk Ha. destruct (List.find _ (rev xs')) as [x|] eqn:E.
    + apply find_some in E as [Hx Hk%String.eqb_eq]. apply list_elem_of_In, Hxs in Hx as (p' & Hp' & _ & ->).
      rewrite Hkey in Hk by done. by rewrite (Hone p p' Hp Hp') by congruence.
    + pose proof (find_none _ _ E (projected_skill p)) as Hn. rewrite <- list_elem_of_In in Hn.
      specialize (Hn (proj2 (Hxs _) (ex_intro _ p (conj Hp (conj Ha eq_refl))))). by rewrite Hkey, Hsk, String.eqb_refl in Hn.
  - intros Hno. destruct (List.find _ (rev xs')) as [x|] eqn:E; [|done].
    apply find_some in E as [Hx Hk%String.eqb_eq]. apply list_elem_of_In, Hxs in Hx as (p' & Hp' & Ha & ->).
    rewrite Hkey in Hk by done. by rewrite Hno in Ha.
Qed.

Lemma on_profiles_run {A} (m : M (Projections unit) A) w s a w' :
  m w (projections_of s) = (Ok a, w', projections_of s) → on_profiles m w s = (Ok a, w', s).
Proof. intros E. unfold on_profiles, zoom. rewrite E. by destruct s. Qed.

Definition laid_over {P} (found : option P) (version : P → string) (f : P → AgentDefinition → AgentDefinition)
    (v : string) (d : AgentDefinition) : AgentDefinition :=
  match found with Some x => if applicable v (version x) d then f x d else d | None => d end.
Lemma laid_over_fields {P B} (field : AgentDefinition → B) (found : option P) version f (v : string) d :
  (∀ x : P, field (f x d) = field d) → field (laid_over found version f v d) = field d.
Proof. intros Hf. unfold laid_over. destruct found as [x|]; [|done]. destruct (applicable _ _ _); [apply Hf|done]. Qed.

Lemma LoadOverlay_run t a v base w s : filed (projections_of s) → nul_free t → nul_free a →
  LoadStatic (static_loader s) t a v = inr base → ∃ skills cs tools w',
  (∀ p, p ∈ skills ↔ ∃ sk, is_active (projections_of s) (t, a, sk) p) ∧
  let profiled := laid_over (promptProfiles (projections_of s) !! promptProfileKey t a) Profile_Version applyPromptProfile v base in
  let bound := laid_over (toolBindings (projections_of s) !! promptProfileKey t a) ToolBind_Version
                 (λ b d, d <| Agent_Tools := ToolBind_Bindings b |>) v profiled in
  LoadOverlay NoStore t a v w s =
    (Ok (applyExportedTools tools v (applyCollaborators cs v (applySkillDefinitions skills v bound))), w', s).
Proof.
  intros Hf Ht Ha El. cbn zeta.
  destruct (ListActiveSkills_run t a w (projections_of s) Hf Ht Ha) as (l & w1 & E1 & Hl).
  assert (E2 : ∃ cs w2, ListActiveCollaboratorProjections NoStore t a w1 (projections_of s) = (Ok cs, w2, projections_of s)).
  { unfold ListActiveCollaboratorProjections. cbn [by_store as_CollaboratorStore no_store]. rewrite bind_get.
    destruct (range_map_run (collaborators (projections_of s)) w1 (projections_of s)) as (e & w2 & E & _).
    rewrite (bind_Ok _ _ _ _ _ _ _ E). by eexists _, _. }
  destruct E2 as (cs & w2 & E2).
  assert (E3 : ∃ tools w3, ListActiveExportedToolProjections NoStore t a w2 (projections_of s) = (Ok tools, w3, projections_of s)).
  { unfold ListActiveExportedToolProjections. cbn [by_store as_ExportedToolStore no_store]. rewrite bind_get.
    destruct (range_map_run (exportedTools (projections_of s)) w2 (projections_of s)) as (e & w3 & E & _).
    rewrite (bind_Ok _ _ _ _ _ _ _ E). by eexists _, _. }
  destruct E3 as (tools & w3 & E3). exists l, cs, tools, w3. split; [done|].
  unfold LoadOverlay. rewrite bind_get, El.
  rewrite (bind_Ok _ _ _ _ _ _ _ (on_profiles_run (GetActivePromptProfileProjection NoStore t a) w s _ w eq_refl)). cbn zeta.
  rewrite (bind_Ok _ _ _ _ _ _ _ (on_profiles_run (GetActiveToolBindingProjection NoStore t a) w s _ w eq_refl)). cbn zeta.
  rewrite (bind_Ok _ _ _ _ _ _ _ (on_profiles_run _ w s _ _ E1)). cbn zeta.
  rewrite (bind_Ok _ _ _ _ _ _ _ (on_profiles_run _ w1 s _ _ E2)). cbn zeta.
  by rewrite (bind_Ok _ _ _ _ _ _ _ (on_profiles_run _ w2 s _ _ E3)).
Qed.

(** What the loader serves of an agent, after any calls of the service: for each skill the definition of its
    active version, where that applies to the version that was loaded, and else the definition of the package;
    identity, limits and policies of the agent are always those of the package. *)
Theorem served_skill w0 w1 t a v sk base w s :
  rtc projection_step (w0, NewProjections tt) (w1, projections_of s) → nul_free t → nul_free a →
  LoadStatic (static_loader s) t a v = inr base → ∃ d w',
  LoadOverlay NoStore t a v w s = (Ok d, w', s) ∧
  (∀ p, is_active (projections_of s) (t, a, sk) p → applicable v (SkillProj_Version p) base = true →
     find_skill sk d = Some (projected_skill p)) ∧
  ((∀ p, is_active (projections_of s) (t, a, sk) p → applicable v (SkillProj_Version p) base = false) →
     find_skill sk d = find_skill sk base) ∧
  (Agent_AgentID d, Agent_Version d, Agent_PackageVersionID d, Agent_Runtime d, Agent_PolicyRefs d, Agent_Strategies d) =
  (Agent_AgentID base, Agent_Version base, Agent_PackageVersionID base, Agent_Runtime base, Agent_PolicyRefs base,
   Agent_Strategies base).
Proof.
  intros Hs Ht Ha El. destruct (projection_steps_inv _ _ Hs projection_inv_new) as [Hf Ho]. cbn [snd] in Hf, Ho.
  destruct (LoadOverlay_run t a v base w s Hf Ht Ha El) as (l & cs & tools & w' & Hl & E). cbn zeta in E.
  eexists _, w'. split; [exact E|]. clear E.
  set (bound := laid_over _ _ _ _ (laid_over _ _ _ _ _)).
  assert (Hfields : (Agent_AgentID bound, Agent_Version bound, Agent_PackageVersionID bound, Agent_Runtime bound,
    Agent_PolicyRefs bound, Agent_Strategies bound, Agent_SkillDefinitions bound) =
    (Agent_AgentID base, Agent_Version base, Agent_PackageVersionID base, Agent_Runtime base, Agent_PolicyRefs base,
     Agent_Strategies base, Agent_SkillDefinitions base)).
  { unfold bound. rewrite (laid_over_fields (λ d, (Agent_AgentID d, Agent_Version d, Agent_PackageVersionID d, Agent_Runtime d,
      Agent_PolicyRefs d, Agent_Strategies d, Agent_SkillDefinitions d))) by done.
    apply (laid_over_fields (λ d, (Agent_AgentID d, Agent_Version d, Agent_PackageVersionID d, Agent_Runtime d,
      Agent_PolicyRefs d, Agent_Strategies d, Agent_SkillDefinitions d))). intros x. unfold applyPromptProfile.
    by destruct (_ != _). }
  injection Hfields as Ei Ev Ep Er Epol Est Esk.
  assert (Happ : ∀ version, applicable v version bound = applicable v version base) by (intros; unfold applicable; by rewrite Ev).
  destruct (find_applied l v sk bound) as [H1 H2].
  { intros p (sk' & _ & _ & k & Hk)%Hl. by apply (Hf k p Hk). }
  { intros p p' (sk1 & Hs1 & E1 & k1 & Hk1)%Hl (sk2 & Hs2 & E2 & k2 & Hk2)%Hl Esame.
    assert (k1 = k2) as ->; [|congruence]. eapply Ho; eauto. unfold skill_of in *. congruence. }
  split_and!.
  - intros p Hp Happl. apply (H1 p); [by apply Hl; exists sk| |by rewrite Happ]. destruct Hp as (_ & Ep' & _). by injection Ep'.
  - intros Hno. unfold find_skill in H2 |- *. rewrite <- Esk. apply H2. intros p (sk' & Hs' & E' & k & Hk)%Hl <-.
    rewrite Happ. apply Hno. split_and!; [done| |by exists k]. unfold skill_of in *. congruence.
  - cbn. congruence.
Qed.
End served.

(** ** The demo skill over a definition that has an older one *)
Section demo.
Let env : Env := test_env.
#[local] Existing Instance env.

Definition demo_base : AgentDefinition :=
  (named "acme" "writer" "v1" "Writer") <| Agent_SkillDefinitions := [demo_skill "0"] |>.
Definition demo_loaders : Loaders unit := mkLoaders (put_all [(demo_base, true)]) demo_versions.2.

Lemma served_skill_witness : ∃ d w,
  LoadOverlay no_store "acme" "writer" "" demo_versions.1 demo_loaders = (Ok d, w, demo_loaders) ∧
  (λ skill, SkillCard_Version (Skill_Card skill)) <$> find_skill "writing" d = Some "2" ∧ Agent_Version d = "v1".
Proof.
  assert (Hr : rtc projection_step (world0, NewProjections tt) (demo_versions.1, projections_of demo_loaders))
    by (rewrite <- surjective_pairing; exact demo_versions_reached).
  assert (Hl : LoadStatic (static_loader demo_loaders) "acme" "writer" "" = inr demo_base) by (vm_compute; reflexivity).
  destruct (served_skill world0 demo_versions.1 "acme" "writer" "" "writing" demo_base demo_versions.1 demo_loaders Hr
    ltac:(vm_compute; repeat split; discriminate) ltac:(vm_compute; repeat split; discriminate) Hl)
    as (d & w & E & Hact & _ & Hid).
  exists d, w. split; [exact E|]. split; [|exact (f_equal (λ x, x.1.1.1.1.2) Hid)].
  set (key := skillDefinitionKey "acme" "writer" "writing" "2").
  assert (Ev : (λ p, (stable_skill p, skill_of p, SkillCard_Version (Skill_Card (projected_skill p)))) <$>
    skills (projections_of demo_loaders) !! key = Some (true, ("acme", "writer", "writing"), "2")) by (vm_compute; reflexivity).
  destruct (skills (projections_of demo_loaders) !! key) as [p|] eqn:Ep; [|discriminate Ev].
  change (Some (stable_skill p, skill_of p, SkillCard_Version (Skill_Card (projected_skill p))) =
    Some (true, ("acme", "writer", "writing"), "2")) in Ev. injection Ev as Es Eo1 Eo2 Eo3 Ec.
  rewrite (Hact p); [exact (f_equal Some Ec)| |reflexivity].
  split; [exact Es|]. split; [unfold skill_of; congruence|by exists key].
Defined.
End demo.
