(* ===== verification/Server.v ===== *)
(** * Running an agent over HTTP: internal/server (agent_routing.go, server.go), internal/app/auth, internal/runtime/driver

    From a command of a caller to the run of an agent: the role that the command asks for, the slot of the limiter
    ([Admission]), the version of the agent that the request is routed to ([AgentPackage]: an explicit version,
    the active one, the default or the latest stable one, or a canary for a part of the requests), the
    driver of that release, and the run, at once or in the background.

    Drivers are parameters; a nil limiter, registry of agents or metrics is [None].  A command runs without others
    in between; the runs that it leaves in the background are steps of their own ([run_job]).  What the
    other commands do is a parameter as well ([commands]). *)

From stdpp Require Import base list strings gmap fin_maps relations.
From Stdlib Require Import Ascii Lia.
From S2P Require Import Prelude Contracts GoMonad Storage Compile AgentPackage Projection Loader Admission Kernel Dispatch.
Open Scope go_scope.
Open Scope string_scope.
Open Scope list_scope.

(** ** Callers and roles: internal/app/auth/auth.go *)

Definition Role : Type := string.
Definition RoleRuntimeCaller : Role := "runtime_caller".
Definition RoleOptimizer : Role := "optimizer".
Definition RoleAdmin : Role := "admin".

Record CallerIdentity := mkCallerIdentity {
  Who_CallerID : string;
  Who_CallerType : string;
  Who_DisplayName : string;
  Who_TenantID : string;
  Who_Roles : list Role
}.
Definition HasRole (c : CallerIdentity) (role : Role) : bool := mem_string role c.(Who_Roles).

(** The headers of a request; [http.Header.Get] gives the empty string for one that is missing. *)
Definition Headers : Type := string → string.
Fixpoint split_commas (s part : string) : list string :=
  match s with
  | EmptyString => [part]
  | String c s => if Ascii.eqb c "," then part :: split_commas s "" else split_commas s (part +:+ String c "")
  end.
Definition parseRoles (raw : string) : list Role :=
  let roles := List.filter (λ part, part != "") (map TrimSpace (split_commas raw "")) in
  match roles with [] => [RoleRuntimeCaller] | _ => roles end.
Definition display_headers : list string :=
  ["X-Caller-Display-Name"; "X-Caller-Name"; "X-User-Display-Name"; "X-User-Name"; "X-User-Nickname"].
Definition callerDisplayName (h : Headers) : string :=
  default "" (List.find (λ value, value != "") (map (λ name, TrimSpace (h name)) display_headers)).
Definition Authenticate (serviceToken : string) (h : Headers) : option CallerIdentity :=
  let tenantID := TrimSpace (h "X-Tenant-ID") in
  let callerID := TrimSpace (h "X-Caller-ID") in
  if tenantID == "" then None else
  let token := TrimPrefix (h "Authorization") "Bearer " in
  if (serviceToken != "") && (token != serviceToken) then None else
  let raw := TrimSpace (h "X-Roles") in
  Some (mkCallerIdentity (or_default callerID "anonymous") (or_default (TrimSpace (h "X-Caller-Type")) "service")
          (callerDisplayName h) tenantID (if raw != "" then parseRoles raw else [RoleRuntimeCaller])).

(** ** Runtime drivers: internal/runtime/driver *)

(** What a driver does, on a state [K]; the two parts of a prepared run where it has them. *)
Record Driver (K : Type) := mkDriver {
  driver_Kind : AgentCarrierKind;
  driver_Contract : RuntimeContractKind;
  driver_StartRun : AgentEnvelope → M K RunResult;
  driver_Prepared : option ((AgentEnvelope → M K PreparedRun) * (PreparedRun → M K RunResult))
}.
Arguments mkDriver {K}. Arguments driver_Kind {K}. Arguments driver_Contract {K}. Arguments driver_StartRun {K}. Arguments driver_Prepared {K}.

Definition Registry (K : Type) : Type := gmap string (Driver K).
Definition driverKey (kind : AgentCarrierKind) (contract : RuntimeContractKind) : string := kind +:+ NUL +:+ contract.
Definition driver_details (kind : AgentCarrierKind) (contract : RuntimeContractKind) : gmap string Any :=
  {["carrier_kind" := AString kind; "runtime_contract" := AString contract]}.
Definition unavailable (kind : AgentCarrierKind) (contract : RuntimeContractKind) : error :=
  runtime_error CodeAgentRuntimeDriverUnavailable "agent runtime driver is unavailable" (driver_details kind contract).
(** A nil driver is [None]. *)
Definition Register {K} (item : option (Driver K)) (r : Registry K) : error + Registry K :=
  match item with
  | None => inl (runtime_error CodeAgentRuntimeDriverUnavailable "runtime driver is nil" ∅)
  | Some item =>
      let kind := item.(driver_Kind) in
      let contract := item.(driver_Contract) in
      if (kind == "") || (contract == "") then
        inl (runtime_error CodeAgentRuntimeDriverUnavailable "runtime driver requires kind and contract"
               (driver_details kind contract))
      else inr (<[driverKey kind contract := item]> r)
  end.
Fixpoint register_all {K} (items : list (option (Driver K))) (r : Registry K) : error + Registry K :=
  match items with
  | [] => inr r
  | item :: items => match Register item r with inl err => inl err | inr r => register_all items r end
  end.
Definition NewRegistry {K} (items : list (option (Driver K))) : error + Registry K := register_all items ∅.
(** A nil registry is [None]. *)
Definition driver_Get {K} (r : option (Registry K)) (kind : AgentCarrierKind) (contract : RuntimeContractKind)
    : error + Driver K :=
  match r with
  | None => inl (unavailable kind contract)
  | Some r =>
      let kind := NormalizeCarrierKind "" kind in
      let contract := NormalizeRuntimeContract kind contract in
      match r !! driverKey kind contract with Some item => inr item | None => inl (unavailable kind contract) end
  end.
Definition DefaultNative {K} (r : option (Registry K)) : error + Driver K :=
  driver_Get r AgentCarrierKindNativeAgent RuntimeContractManaged.

(** ** The version that a request is routed to: internal/server/agent_routing.go *)

Record agentRoute := mkRoute {
  RequestedVersion : string;
  ResolvedVersion : string;
  Route_Release : AgentPackageVersion;
  Canary : bool;
  RouteReason : string;
  Route_ReleaseStatus : ReleaseStatus;
  AssignmentKey : string
}.
#[export] Instance eta_agentRoute : Settable agentRoute :=
  fields! mkRoute < RequestedVersion ; ResolvedVersion ; Route_Release ; Canary ; RouteReason ; Route_ReleaseStatus ;
    AssignmentKey >.

(** The loop of both selections: the last published release among those that [want], the first one of equal time. *)
Definition published_at (r : AgentPackageVersion) : Time := default r.(Rel_CreatedAt) r.(Rel_PublishedAt).
Fixpoint latest_release (want : AgentPackageVersion → bool) (selected : AgentPackageVersion) (selectedAt : Time)
    (releases : list AgentPackageVersion) : AgentPackageVersion :=
  match releases with
  | [] => selected
  | release :: releases =>
      let at_ := published_at release in
      if want release && ((selected.(Rel_PackageVersionID) == "") || After at_ selectedAt)
      then latest_release want release at_ releases
      else latest_release want selected selectedAt releases
  end.
Definition select_release (want : AgentPackageVersion → bool) (releases : list AgentPackageVersion)
    : option AgentPackageVersion :=
  let selected := latest_release want zeroAgentPackageVersion zeroTime releases in
  if selected.(Rel_PackageVersionID) != "" then Some selected else None.
Definition latestReleaseWithStatus (releases : list AgentPackageVersion) (tenantID agentID : string)
    (status : ReleaseStatus) : option AgentPackageVersion :=
  select_release (λ r, (r.(Rel_TenantID) == tenantID) && (r.(Rel_AgentID) == agentID) && (r.(Rel_Status) == status)) releases.
Definition releaseForAgentVersion (releases : list AgentPackageVersion) (tenantID agentID version : string)
    : option AgentPackageVersion :=
  select_release (is_version tenantID agentID version) releases.

(** FNV-1a of the bytes, on 32 bits, in a hundred buckets. *)
Definition fnv_step (sum : Z) (b : ascii) : Z := (Z.lxor sum (Z.of_nat (nat_of_ascii b)) * 16777619) mod 2 ^ 32.
Fixpoint fnv (sum : Z) (value : string) : Z :=
  match value with EmptyString => sum | String b value => fnv (fnv_step sum b) value end.
Definition stablePercent (value : string) : Z := fnv 2166136261 value mod 100.

Definition canaryAssignmentKey (caller : CallerIdentity) (ctx : RuntimeContext) (traceID : string) : string :=
  if ctx.(Ctx_UserID) != "" then ctx.(Ctx_UserID) else
  if caller.(Who_CallerID) != "" then caller.(Who_CallerID) else
  let of_conversation :=
    match ctx.(Ctx_Conversation) with
    | None => None
    | Some c =>
        if c.(Conv_ThreadID) != "" then Some c.(Conv_ThreadID) else
        if c.(Conv_ConversationID) != "" then Some c.(Conv_ConversationID) else
        match c.(Conv_CurrentMessage) with
        | Some m => if m.(Msg_ThreadID) != "" then Some m.(Msg_ThreadID) else None
        | None => None
        end
    end in
  match of_conversation, ctx.(Ctx_ExternalTask) with
  | Some key, _ => key
  | None, Some task => task.(ERef_Provider) +:+ ":" +:+ task.(ERef_ExternalTaskID)
  | None, None => if ctx.(Ctx_RequestID) != "" then ctx.(Ctx_RequestID) else traceID
  end.

Definition canary_bucket (release : AgentPackageVersion) (agentID assignmentKey : string) : Z :=
  stablePercent (release.(Rel_TenantID) +:+ "|" +:+ agentID +:+ "|" +:+ release.(Rel_PackageVersionID) +:+ "|" +:+ assignmentKey).
Definition shouldRouteCanary (release : AgentPackageVersion) (caller : CallerIdentity) (ctx : RuntimeContext)
    (traceID agentID : string) : bool :=
  let percent := release.(Rel_CanaryPercent) in
  if (percent <=? 0)%Z then false else
  if (percent >=? 100)%Z then true else
  (canary_bucket release agentID (canaryAssignmentKey caller ctx traceID) <? percent)%Z.

Section routing.
Context `{Env} {T : Type} (store : option (PackageStoreOps T)) (registry : option StaticLoader).
Notation PM := (M (Packages T)).

(** [Core.EnsureAgentRunnable] *)
Definition EnsureAgentRunnable (tenantID agentID : string) : PM unit :=
  if agentID == "" then ret tt else
  let! found := GetAgentAsset store tenantID agentID in
  match found with
  | None => ret tt
  | Some asset =>
      if (asset.(Asset_Status) == "") || (asset.(Asset_Status) == AgentAssetActive) then ret tt
      else throw (runtime_error CodeAgentNotFound "agent asset is not active"
             {["agent_id" := AString agentID; "status" := AString asset.(Asset_Status)]})
  end.

Definition registry_default (tenantID agentID : string) : string :=
  match registry with Some l => DefaultVersionForTenant l tenantID agentID | None => "" end.

Definition not_runnable (target : AgentTarget) (version : string) (release : AgentPackageVersion) : error :=
  runtime_error CodeAgentVersionNotFound "agent package version is not runnable before canary or stable"
    {["agent_id" := AString target.(Target_AgentID); "agent_version" := AString version;
      "package_version_id" := AString release.(Rel_PackageVersionID); "release_status" := AString release.(Rel_Status)]}.
Definition ensureRunnableAgentVersion (tenantID : string) (target : AgentTarget) : PM unit :=
  do! EnsureAgentRunnable tenantID target.(Target_AgentID) in
  let version := or_default target.(Target_Version) (registry_default tenantID target.(Target_AgentID)) in
  if version == "" then ret tt else
  let! releases := ListReleases store in
  match releaseForAgentVersion releases tenantID target.(Target_AgentID) version with
  | None => ret tt
  | Some release =>
      if (release.(Rel_Status) == ReleaseCanary) || (release.(Rel_Status) == ReleaseStable) then ret tt
      else throw (not_runnable target version release)
  end.

Definition activeAgentVersion (tenantID agentID : string) : PM (option string) :=
  let! found := GetAgentAsset store tenantID agentID in
  ret (match found with
       | None => None
       | Some asset =>
           if asset.(Asset_ActiveVersion) != "" then Some asset.(Asset_ActiveVersion) else
           if asset.(Asset_DefaultVersion) != "" then Some asset.(Asset_DefaultVersion) else None
       end).

(** The version without one asked for, and why. *)
Definition default_route (tenantID agentID : string) : PM (string * string) :=
  let! active := activeAgentVersion tenantID agentID in
  ret (match active with
       | Some version => (version, "active_default")
       | None => let version := registry_default tenantID agentID in
                 (version, if version != "" then "registry_default" else "")
       end).

Definition of_release (route : agentRoute) (release : AgentPackageVersion) : agentRoute :=
  route <| Route_Release := release |> <| Route_ReleaseStatus := release.(Rel_Status) |>.
Definition released_as (releases : list AgentPackageVersion) (tenantID agentID : string) (route : agentRoute) : agentRoute :=
  of_release route (default zeroAgentPackageVersion
    (releaseForAgentVersion releases tenantID agentID route.(ResolvedVersion))).
(** The default version and its release, or the latest stable release without one. *)
Definition route_default (releases : list AgentPackageVersion) (tenantID agentID : string) (route : agentRoute)
    : agentRoute :=
  if route.(ResolvedVersion) == "" then
    match latestReleaseWithStatus releases tenantID agentID ReleaseStable with
    | Some stable => (of_release route stable) <| ResolvedVersion := stable.(Rel_Version) |>
                       <| RouteReason := "latest_stable_fallback" |>
    | None => route
    end
  else released_as releases tenantID agentID route.
Definition route_canary (releases : list AgentPackageVersion) (tenantID agentID : string) (caller : CallerIdentity)
    (ctx : RuntimeContext) (traceID : string) (route : agentRoute) : agentRoute :=
  match latestReleaseWithStatus releases tenantID agentID ReleaseCanary with
  | Some canary =>
      if shouldRouteCanary canary caller ctx traceID agentID
      then (of_release route canary) <| ResolvedVersion := canary.(Rel_Version) |> <| Canary := true |>
             <| RouteReason := "canary_percent" |>
      else route
  | None => route
  end.

Definition resolveRunnableAgentTarget (tenantID : string) (target : AgentTarget) (ctx : RuntimeContext)
    (traceID : string) (caller : CallerIdentity) : PM agentRoute :=
  let agentID := target.(Target_AgentID) in
  let route := mkRoute target.(Target_Version) target.(Target_Version) zeroAgentPackageVersion false "" "" "" in
  if target.(Target_Version) != "" then
    do! ensureRunnableAgentVersion tenantID target in
    let! releases := ListReleases store in
    ret (released_as releases tenantID agentID (route <| RouteReason := "explicit" |>))
  else
    let! chosen := default_route tenantID agentID in
    let! releases := ListReleases store in
    let route := route_default releases tenantID agentID
                   (route <| ResolvedVersion := chosen.1 |> <| RouteReason := chosen.2 |>) in
    let route := route_canary releases tenantID agentID caller ctx traceID
                   (route <| AssignmentKey := canaryAssignmentKey caller ctx traceID |>) in
    if route.(ResolvedVersion) == "" then ret route else
    do! ensureRunnableAgentVersion tenantID (mkAgentTarget agentID route.(ResolvedVersion)) in
    ret route.

(** A release of this tenant, or an error. *)
Definition ensurePackageReleaseTenant (packageVersionID tenantID : string) : PM AgentPackageVersion :=
  let details := {["package_version_id" := AString packageVersionID]} in
  let! found := GetRelease store packageVersionID in
  match found with
  | None => throw (runtime_error CodeAgentVersionNotFound "package version not found" details)
  | Some release =>
      if release.(Rel_TenantID) != tenantID
      then throw (runtime_error CodeToolPolicyDenied "package tenant does not match caller tenant" details)
      else ret release
  end.

Definition release_carrier (release : AgentPackageVersion) : AgentCarrierKind * RuntimeContractKind :=
  let carrier := NormalizeCarrierKind release.(Rel_SourceKind) release.(Rel_CarrierKind) in
  (carrier, NormalizeRuntimeContract carrier release.(Rel_RuntimeContract)).
Definition driverForRoute {K} (drivers : option (Registry K)) (route : agentRoute) : error + Driver K :=
  match drivers with
  | None => inl (runtime_error CodeAgentRuntimeDriverUnavailable "runtime driver registry is unavailable" ∅)
  | Some _ =>
      let sourceKind := NormalizeSourceKind route.(Route_Release).(Rel_SourceKind) in
      let carrierKind := NormalizeCarrierKind sourceKind route.(Route_Release).(Rel_CarrierKind) in
      driver_Get drivers carrierKind (NormalizeRuntimeContract carrierKind route.(Route_Release).(Rel_RuntimeContract))
  end.

Definition release_payload (release : AgentPackageVersion) : gmap string Any :=
  {["package_version_id" := AString release.(Rel_PackageVersionID);
    "carrier_kind" := AString (release_carrier release).1; "runtime_contract" := AString (release_carrier release).2;
    "source_kind" := AString release.(Rel_SourceKind); "source_provider_id" := AString release.(Rel_SourceProviderID);
    "manifest_version" := AString release.(Rel_ManifestVersion); "manifest_hash" := AString release.(Rel_ManifestHash);
    "strategy_hash" := AString release.(Rel_StrategyHash); "canary_percent" := AInt release.(Rel_CanaryPercent)]}.
Definition route_trace (tenantID traceID runID eventType : string) (payload : gmap string Any) : PM unit :=
  with_trace (if traceID == "" then ret tt else
    let! span := idgen_New "span" in
    let! now := now in
    ignore (trace_Record (zeroTraceEvent
      <| Trace_TraceID := traceID |> <| Trace_TenantID := tenantID |> <| Trace_SpanID := span |>
      <| Trace_RunID := runID |> <| Trace_Type := eventType |> <| Trace_Payload := payload |>
      <| Trace_CreatedAt := now |>))).

Definition recordCanaryRoute (tenantID traceID : string) (caller : CallerIdentity) (agentID runID : string)
    (release : AgentPackageVersion) : PM unit :=
  let! now := now in
  do! RecordCanaryHit store (zeroCanaryHit
        <| Hit_TenantID := tenantID |> <| Hit_AgentID := agentID |> <| Hit_ResolvedVersion := release.(Rel_Version) |>
        <| Hit_PackageVersionID := release.(Rel_PackageVersionID) |> <| Hit_RunID := runID |>
        <| Hit_TraceID := traceID |> <| Hit_CallerID := caller.(Who_CallerID) |>
        <| Hit_CanaryPercent := release.(Rel_CanaryPercent) |> <| Hit_Reason := "default_version_canary_route" |>
        <| Hit_CreatedAt := now |>) in
  route_trace tenantID traceID runID TraceCanaryRouted
    (<["agent_id" := AString agentID]> (<["agent_version" := AString release.(Rel_Version)]> (release_payload release))).

(** [hex(sha256(value))], its first 16 digits. *)
Context (sha256_hex : string → string).
Definition hashRouteAssignmentKey (value : string) : string := if value == "" then "" else string_take 16 (sha256_hex value).
Definition recordAgentRouteResolved (tenantID traceID agentID runID : string) (route : agentRoute) : PM unit :=
  route_trace tenantID traceID runID TraceAgentRouteResolved
    ({["agent_id" := AString agentID; "requested_version" := AString route.(RequestedVersion);
       "resolved_version" := AString route.(ResolvedVersion);
       "release_status" := AString (or_default route.(Route_ReleaseStatus) route.(Route_Release).(Rel_Status));
       "route_reason" := AString route.(RouteReason); "canary" := ABool route.(Canary);
       "assignment_key_hash" := AString (hashRouteAssignmentKey route.(AssignmentKey))]}
     ∪ release_payload route.(Route_Release)).
End routing.

(** ** The commands: internal/server/server.go *)

(** The counters of agent runs. *)
Record RunMetrics := mkRunMetrics {
  agentRunsTotal : Z;
  agentRunFailures : Z;
  agentRunDurationTotalMS : Z;
  agentRunDurationMaxMS : Z
}.
Definition observe_run (duration : Z) (failed : bool) (m : RunMetrics) : RunMetrics :=
  let ms := Z.quot duration 1000000 in
  mkRunMetrics (int64 (m.(agentRunsTotal) + 1))
    (if failed then int64 (m.(agentRunFailures) + 1) else m.(agentRunFailures))
    (int64 (m.(agentRunDurationTotalMS) + ms)) (Z.max m.(agentRunDurationMaxMS) ms).

(** A run that goes on in the background, with the slot that it gives back. *)
Record Job (K : Type) := mkJob {
  job_Prepared : PreparedRun;
  job_Execute : PreparedRun → M K RunResult;
  job_Slot : option agentKey
}.
Arguments mkJob {K}. Arguments job_Prepared {K}. Arguments job_Execute {K}. Arguments job_Slot {K}.

Record ServerState (T K : Type) := mkServerState {
  srv_packages : Packages T;
  srv_limiter : option Limiter;
  srv_metrics : option RunMetrics;
  srv_kernel : K;
  srv_jobs : list (Job K)
}.
Arguments mkServerState {T K}. Arguments srv_packages {T K}. Arguments srv_limiter {T K}. Arguments srv_metrics {T K}.
Arguments srv_kernel {T K}. Arguments srv_jobs {T K}.
#[export] Instance eta_ServerState {T K} : Settable (ServerState T K) :=
  fields! mkServerState < srv_packages ; srv_limiter ; srv_metrics ; srv_kernel ; srv_jobs >.

(** [appCore]: its configuration and what it is wired with. *)
Record ServerCore (T K : Type) := mkServerCore {
  core_Store : option (PackageStoreOps T);
  core_AgentRegistry : option StaticLoader;
  core_RuntimeDrivers : option (Registry K);
  core_DisabledAgentIDs : list string;
  core_AgentRunExecutionMode : string
}.
Arguments mkServerCore {T K}. Arguments core_Store {T K}. Arguments core_AgentRegistry {T K}.
Arguments core_RuntimeDrivers {T K}. Arguments core_DisabledAgentIDs {T K}. Arguments core_AgentRunExecutionMode {T K}.

(** [Config.EffectiveAgentRunExecutionMode] *)
Definition EffectiveAgentRunExecutionMode (mode : string) : string :=
  if ToLower (TrimSpace mode) == "async" then "async" else "sync".
(** [PreparedRun.Result] *)
Definition prepared_result (p : PreparedRun) : RunResult :=
  mkRunResult p.(Prep_Run).(Run_RunID) p.(Prep_Task).(Task_TaskID) p.(Prep_Run).(Run_Status) None None [] None.

Section commands.
Context `{Env} {T K : Type} (sha256_hex : string → string) (core : ServerCore T K).
Notation SM := (M (ServerState T K)).

Definition on_packages {A} (m : M (Packages T) A) : SM A := zoom srv_packages (λ p s, s <| srv_packages := p |>) m.
Definition on_kernel {A} (m : M K A) : SM A := zoom srv_kernel (λ k s, s <| srv_kernel := k |>) m.
Definition on_limiter {A} (m : M (option Limiter) A) : SM A := zoom srv_limiter (λ l s, s <| srv_limiter := l |>) m.

(** [defer cleanup()] *)
Definition deferred {A} (cleanup : SM unit) (m : SM A) : SM A := λ w s,
  match m w s with (r, w, s) => match cleanup w s with (_, w, s) => (r, w, s) end end.

(** The release function of a slot; each path calls it once. *)
Definition release_slot (slot : option agentKey) : SM unit :=
  match slot with
  | None => ret tt
  | Some key =>
      let! s := get in put (s <| srv_limiter := option_map (releaseRun key.1 key.2) s.(srv_limiter) |>)
  end.
Definition observeRun (started : Time) (failed : bool) : SM unit :=
  let! s := get in
  match s.(srv_metrics) with
  | None => ret tt
  | Some m => let! now := time_Now in put (s <| srv_metrics := Some (observe_run (now - started)%Z failed m) |>)
  end.
(** A run that ends here with an error. *)
Definition fail_run {A} (slot : option agentKey) (started : Time) (err : error) : SM A :=
  do! release_slot slot in do! observeRun started true in throw err.

Definition record_resolved (envelope : AgentEnvelope) (caller : CallerIdentity) (route : agentRoute) (runID : string) : SM unit :=
  ignore (on_packages (recordAgentRouteResolved sha256_hex caller.(Who_TenantID) envelope.(Env_TraceID)
    envelope.(Env_Target).(Target_AgentID) runID route)).
Definition record_canary (envelope : AgentEnvelope) (caller : CallerIdentity) (route : agentRoute) (runID : string) : SM unit :=
  if route.(Canary) then
    ignore (on_packages (recordCanaryRoute core.(core_Store) caller.(Who_TenantID) envelope.(Env_TraceID) caller
      envelope.(Env_Target).(Target_AgentID) runID route.(Route_Release)))
  else ret tt.
(** A result, and the canary that it was a run of. *)
Definition finish_run (envelope : AgentEnvelope) (caller : CallerIdentity) (route : agentRoute) (started : Time)
    (outcome : RunResult + error) : SM RunResult :=
  match outcome with
  | inr err => do! observeRun started true in throw err
  | inl result =>
      do! observeRun started false in
      do! record_canary envelope caller route result.(RR_RunID) in
      ret result
  end.

(** The driver starts the run in the background, or runs it now. *)
Definition run_async (envelope : AgentEnvelope) (caller : CallerIdentity) (route : agentRoute) (driver : Driver K)
    (slot : option agentKey) (started : Time) : SM RunResult :=
  match driver.(driver_Prepared) with
  | None => fail_run slot started (runtime_error CodeAgentRuntimeDriverUnavailable
              "runtime driver does not support async prepared execution"
              (driver_details driver.(driver_Kind) driver.(driver_Contract)))
  | Some (prepare, execute) =>
      let! prepared := attempt (on_kernel (prepare envelope)) in
      match prepared with
      | inr err => fail_run slot started err
      | inl prepared =>
          do! record_resolved envelope caller route prepared.(Prep_Run).(Run_RunID) in
          do! record_canary envelope caller route prepared.(Prep_Run).(Run_RunID) in
          let! s := get in
          do! put (s <| srv_jobs := s.(srv_jobs) ++ [mkJob prepared execute slot] |>) in
          do! observeRun started false in
          ret (prepared_result prepared)
      end
  end.
Definition run_now (envelope : AgentEnvelope) (caller : CallerIdentity) (route : agentRoute) (driver : Driver K)
    (started : Time) : SM RunResult :=
  match driver.(driver_Prepared) with
  | None =>
      let! outcome := attempt (on_kernel (driver.(driver_StartRun) envelope)) in
      finish_run envelope caller route started outcome
  | Some (prepare, execute) =>
      let! prepared := attempt (on_kernel (prepare envelope)) in
      match prepared with
      | inr err => do! observeRun started true in throw err
      | inl prepared =>
          do! record_resolved envelope caller route prepared.(Prep_Run).(Run_RunID) in
          let! outcome := attempt (on_kernel (execute prepared)) in
          finish_run envelope caller route started outcome
      end
  end.

(** The case [agent.run] of [dispatchCommand]. *)
Definition runAgent (envelope : AgentEnvelope) (caller : CallerIdentity) : SM RunResult :=
  let target := envelope.(Env_Target) in
  let agentID := target.(Target_AgentID) in
  if mem_string agentID core.(core_DisabledAgentIDs) then
    throw (runtime_error CodeAgentVersionNotFound "agent is disabled by release switch" {["agent_id" := AString agentID]})
  else
    let! slot := on_limiter (AcquireRun caller.(Who_TenantID) agentID) in
    let! started := time_Now in
    let! routed := attempt (on_packages (resolveRunnableAgentTarget core.(core_Store) core.(core_AgentRegistry)
      caller.(Who_TenantID) target envelope.(Env_Context) envelope.(Env_TraceID) caller)) in
    match routed with
    | inr err => fail_run slot started err
    | inl route =>
        match driverForRoute core.(core_RuntimeDrivers) route with
        | inl err => fail_run slot started err
        | inr driver =>
            let envelope := envelope <| Env_Target := target <| Target_Version := route.(ResolvedVersion) |> |> in
            if EffectiveAgentRunExecutionMode core.(core_AgentRunExecutionMode) == "async"
            then run_async envelope caller route driver slot started
            else deferred (release_slot slot) (run_now envelope caller route driver started)
        end
    end.

(** A goroutine that [run_async] has started. *)
Definition run_job (i : nat) : SM unit :=
  let! s := get in
  match s.(srv_jobs) !! i with
  | None => ret tt
  | Some job =>
      do! put (s <| srv_jobs := delete i s.(srv_jobs) |>) in
      deferred (release_slot job.(job_Slot))
        (let! _ := attempt (on_kernel (job.(job_Execute) job.(job_Prepared))) in ret tt)
  end.

(** *** Which role a command asks for *)

Definition runtime_commands : list string :=
  ["agent.run"; "task.start"; "task.command"; "tools.invoke"; "artifact.read"; "origin.agent.delegate"].
Definition management_commands : list string :=
  ["prompt.preview"; "agent.plugin.sync"; "agent.package.draft.create"; "agent.package.draft.patch_strategies";
   "agent.package.collaborator.add"; "agent.package.collaborator.update"; "agent.package.collaborator.replace";
   "agent.package.collaborator.remove"; "agent.package.exported_tool.add"; "agent.package.exported_tool.update";
   "agent.package.exported_tool.replace"; "agent.package.exported_tool.remove"; "agent.package.skill.add";
   "agent.package.skill.update"; "agent.package.skill.remove"; "agent.package.proposal.create";
   "agent.package.proposal.submit"; "agent.package.proposal.approve"; "agent.package.proposal.reject";
   "agent.package.proposal.publish"; "agent.package.draft.validate"; "agent.package.review"; "agent.package.publish";
   "agent.package.canary"; "agent.package.stable"; "agent.package.rollback"; "permission.policy.upsert";
   "tool.provider.upsert"; "tool.provider.sync"; "tool.group.upsert"; "tool.group.list"; "tool.manifest.upsert";
   "tool.manifest.list"; "runtime_hook.provider.upsert"; "runtime_hook.provider.list"; "runtime_hook.binding.upsert";
   "runtime_hook.binding.list"; "runtime_hook.preview"; "policy.draft.create"; "policy.update"; "policy.draft.validate";
   "policy.review"; "policy.publish"; "policy.canary"; "policy.stable"; "policy.rollback"; "approval.approve";
   "approval.reject"; "eval.suite.create"; "eval.suite.add_case"; "eval.suite.run"; "eval.run";
   "external.delivery.replay"; "artifact.delete"].
Definition allowedCommand (command : string) (caller : CallerIdentity) : bool :=
  if mem_string command runtime_commands then HasRole caller RoleRuntimeCaller || HasRole caller RoleAdmin
  else if mem_string command management_commands then HasRole caller RoleOptimizer || HasRole caller RoleAdmin
  else true.

(** The commands that [dispatchCommand] has a case for, beside [agent.run]. *)
Definition dispatched_commands : list string :=
  ["task.start"; "task.command"; "tools.invoke"; "artifact.read"; "artifact.delete"; "origin.agent.delegate";
   "tool.provider.upsert"; "tool.provider.sync"; "tool.group.upsert"; "tool.group.list"; "tool.manifest.upsert";
   "tool.manifest.list"; "runtime_hook.provider.upsert"; "runtime_hook.provider.list"; "runtime_hook.binding.upsert";
   "runtime_hook.binding.list"; "runtime_hook.preview"; "prompt.preview"; "agent.plugin.sync";
   "agent.package.draft.create"; "agent.package.draft.patch_strategies"; "agent.package.collaborator.replace";
   "agent.package.collaborator.add"; "agent.package.collaborator.update"; "agent.package.collaborator.remove";
   "agent.package.exported_tool.replace"; "agent.package.exported_tool.add"; "agent.package.exported_tool.update";
   "agent.package.exported_tool.remove"; "agent.package.skill.add"; "agent.package.skill.update";
   "agent.package.skill.remove"; "agent.package.proposal.create"; "agent.package.proposal.submit";
   "agent.package.proposal.approve"; "agent.package.proposal.reject"; "agent.package.proposal.publish";
   "agent.package.draft.validate"; "agent.package.review"; "agent.package.publish"; "agent.package.canary";
   "agent.package.stable"; "agent.package.rollback"; "policy.draft.create"; "policy.update"; "policy.draft.validate";
   "policy.review"; "policy.publish"; "policy.canary"; "policy.stable"; "policy.rollback"; "permission.policy.upsert";
   "approval.approve"; "approval.reject"; "eval.suite.create"; "eval.suite.add_case"; "eval.suite.run"; "eval.run";
   "external.delivery.replay"].

(** What the other commands answer; [Response] is the JSON of an answer. *)
Context {Response : Type} (run_response : RunResult → Response).
Context (commands : string → AgentEnvelope → CallerIdentity → SM Response).

Definition dispatchCommand (envelope : AgentEnvelope) (caller : CallerIdentity) : SM Response :=
  let command := envelope.(Env_Command) in
  let details := {["command" := AString command]} in
  if negb (allowedCommand command caller) then
    throw (runtime_error CodeToolPolicyDenied "caller role is not allowed for command" details)
  else if command == "agent.run" then let! result := runAgent envelope caller in ret (run_response result)
  else if mem_string command dispatched_commands then commands command envelope caller
  else throw (runtime_error CodeDecisionSchemaError "unsupported command" details).
End commands.
