(* ===== verification/Serving.v ===== *)
(** * Serving agents

    Theorems about [Server]: which callers reach which commands, how a canary takes its share of the requests, which
    releases a request is routed to, and that no slot of the limiter is lost or given back twice, whatever the
    drivers do short of a panic. *)

From stdpp Require Import base list strings gmap fin_maps relations.
From Stdlib Require Import Ascii Lia.
From S2P Require Import Prelude Contracts GoMonad Storage Compile AgentPackage PackageLife Projection Loader Admission Kernel Dispatch Server.
Open Scope go_scope.
Open Scope string_scope.
Open Scope list_scope.

(** ** Roles *)
Section roles.
Context `{Env} {T K Response : Type} (sha256_hex : string → string) (core : ServerCore T K)
  (run_response : RunResult → Response) (commands : string → AgentEnvelope → CallerIdentity → M (ServerState T K) Response).

(** The role that a command asks for, beside the administrator. *)
Definition wanted_role (command : string) : Role :=
  if mem_string command runtime_commands then RoleRuntimeCaller else RoleOptimizer.

Lemma dispatched_listed command : mem_string command ("agent.run" :: dispatched_commands) = true →
  mem_string command runtime_commands || mem_string command management_commands = true.
Proof.
  intros Hd%mem_string_elem. rewrite orb_true_iff, !mem_string_elem.
  assert (Hall : forallb (λ c, mem_string c runtime_commands || mem_string c management_commands)
    ("agent.run" :: dispatched_commands) = true) by (vm_compute; reflexivity).
  rewrite forallb_forall in Hall. apply list_elem_of_In in Hd. specialize (Hall _ Hd).
  by rewrite orb_true_iff, !mem_string_elem in Hall.
Qed.

(** A caller who is not an administrator and lacks the role that a command asks for gets an error, and nothing
    changes, whatever the command is: there is no command that runs without a role. *)
Theorem dispatch_guarded envelope caller w s : HasRole caller RoleAdmin = false →
  HasRole caller (wanted_role (Env_Command envelope)) = false →
  ∃ e, dispatchCommand sha256_hex core run_response commands envelope caller w s = (Err e, w, s).
Proof.
  intros Ha Hr. unfold dispatchCommand, wanted_role, allowedCommand in *.
  destruct (mem_string (Env_Command envelope) runtime_commands) eqn:Er; [rewrite Hr, Ha; by eexists|].
  destruct (mem_string (Env_Command envelope) management_commands) eqn:Em; [rewrite Hr, Ha; by eexists|].
  cbn [negb]. assert (Hd : mem_string (Env_Command envelope) ("agent.run" :: dispatched_commands) = false).
  { apply not_true_is_false. intros Hd%dispatched_listed. by rewrite Er, Em in Hd. }
  cbn [mem_string] in Hd. rewrite String.eqb_sym in Hd.
  destruct (Env_Command envelope == "agent.run"); [done|]. rewrite Hd. by eexists.
Qed.
End roles.

(** ** Canaries *)

Lemma fnv_step_range sum b : (0 ≤ fnv_step sum b < 2 ^ 32)%Z.
Proof. apply Z.mod_pos_bound. lia. Qed.
Lemma stablePercent_range value : (0 ≤ stablePercent value < 100)%Z.
Proof. apply Z.mod_pos_bound. lia. Qed.

(** The vectors of the FNV-1a specification. *)
Example fnv_vectors : map (fnv 2166136261) [""; "a"; "foobar"] = [2166136261; 3826002220; 3214735720]%Z.
Proof. vm_compute. reflexivity. Qed.

(** The bucket of a request, one of a hundred. *)
Definition request_bucket (release : AgentPackageVersion) (caller : CallerIdentity) (ctx : RuntimeContext) (traceID agentID : string) : Z :=
  canary_bucket release agentID (canaryAssignmentKey caller ctx traceID).

Lemma shouldRouteCanary_bucket r c x t agentID : shouldRouteCanary r c x t agentID =
  (canary_bucket r agentID (canaryAssignmentKey c x t) <? Rel_CanaryPercent r)%Z.
Proof.
  unfold shouldRouteCanary. cbn zeta.
  pose proof (stablePercent_range (Rel_TenantID r +:+ "|" +:+ agentID +:+ "|" +:+ Rel_PackageVersionID r +:+ "|" +:+
    canaryAssignmentKey c x t)) as Hb. fold (canary_bucket r agentID (canaryAssignmentKey c x t)) in Hb.
  destruct (Z.leb_spec (Rel_CanaryPercent r) 0); [symmetry; apply Z.ltb_ge; lia|].
  destruct (Z.geb_spec (Rel_CanaryPercent r) 100); [symmetry; apply Z.ltb_lt; lia|done].
Qed.

(** C39. A request goes to the canary exactly when its bucket, one of a hundred, is below the percentage of the
    release.  The bucket depends on the release, the agent and the assignment key only: so requests with the same
    key are routed alike, and raising the percentage takes no request back from the canary. *)
Theorem canary_share release caller ctx traceID agentID :
  let bucket := request_bucket release caller ctx traceID agentID in
  (0 ≤ bucket < 100)%Z ∧
  shouldRouteCanary release caller ctx traceID agentID = (bucket <? Rel_CanaryPercent release)%Z ∧
  ∀ percent caller' ctx' traceID', (Rel_CanaryPercent release ≤ percent)%Z →
    canaryAssignmentKey caller' ctx' traceID' = canaryAssignmentKey caller ctx traceID →
    shouldRouteCanary release caller ctx traceID agentID = true →
    shouldRouteCanary (release <| Rel_CanaryPercent := percent |>) caller' ctx' traceID' agentID = true.
Proof.
  cbn zeta.
  split; [apply stablePercent_range|]. split; [apply shouldRouteCanary_bucket|].
  intros percent caller' ctx' traceID' Hp Hk. rewrite !shouldRouteCanary_bucket, Hk, !Z.ltb_lt. cbn.
  change (canary_bucket (release <| Rel_CanaryPercent := percent |>) agentID (canaryAssignmentKey caller ctx traceID))
    with (canary_bucket release agentID (canaryAssignmentKey caller ctx traceID)). lia.
Qed.

(** ** The slots of the limiter *)

(** The state that the slots live in: the limiter and the runs in the background. *)
Section slots.
Context `{Env} {T K : Type}.
Notation SM := (M (ServerState T K)).
Notation Slots := (option Limiter * list (Job K))%type.
Implicit Types P E X : Slots → Prop.

Definition slots_of (s : ServerState T K) : Slots := (srv_limiter s, srv_jobs s).

(** Like [triple], with assertions on the slots only, and one of its own for a panic. *)
Definition slots {A} P (m : SM A) (Q : A → Slots → Prop) E X : Prop := ∀ w s, P (slots_of s) →
  match m w s with (Ok a, _, s') => Q a (slots_of s') | (Err _, _, s') => E (slots_of s') | (Panic, _, s') => X (slots_of s') end.
(** An operation that leaves the slots alone, however it ends. *)
Definition idle {A} (m : SM A) : Prop := ∀ w s, slots_of (m w s).2 = slots_of s.

Lemma slots_bind {A B} P (m : SM A) Q (f : A → SM B) R E X :
  slots P m Q E X → (∀ a, slots (Q a) (f a) R E X) → slots P (bind m f) R E X.
Proof.
  intros Hm Hf w s Hs. specialize (Hm w s Hs). unfold bind. destruct (m w s) as [[[a|e|] w'] s']; [by apply Hf|done..].
Qed.
Lemma slots_mono {A} P (m : SM A) Q Q' E E' X X' : slots P m Q E X → (∀ a y, Q a y → Q' a y) → (∀ y, E y → E' y) →
  (∀ y, X y → X' y) → slots P m Q' E' X'.
Proof. intros Hm HQ HE HX w s Hs. specialize (Hm w s Hs). destruct (m w s) as [[[a|e|] w'] s']; auto. Qed.
Lemma slots_idle {A} P (m : SM A) X : (∀ y, P y → X y) → idle m → slots P m (λ _, P) P X.
Proof. intros HX Hm w s Hs. specialize (Hm w s). destruct (m w s) as [[[a|e|] w'] s']; cbn in Hm; rewrite Hm; auto. Qed.
(** An operation whose errors are dropped. *)
Definition calm {A} (m : SM A) : Prop := idle m ∧ ∀ w s e, (m w s).1.1 ≠ Err e.
Lemma slots_calm {A B} P (m : SM A) (f : A → SM B) Q E X :
  calm m → (∀ y, P y → X y) → (∀ a, slots P (f a) Q E X) → slots P (bind m f) Q E X.
Proof.
  intros [Hm He] HX Hf. eapply (slots_bind _ _ (λ _, P)); [|done]. intros w s Hs. specialize (Hm w s). specialize (He w s).
  destruct (m w s) as [[[a|e|] w'] s']; cbn in Hm; [by rewrite Hm|by destruct (He e)|rewrite Hm; auto].
Qed.
(** An operation that leaves the slots alone, has no error and does not panic. *)
Definition sure {A} (m : SM A) : Prop := idle m ∧ ∀ w s, ∃ a, (m w s).1.1 = Ok a.
Lemma slots_sure {A B} P (m : SM A) (f : A → SM B) Q E X :
  sure m → (∀ a, slots P (f a) Q E X) → slots P (bind m f) Q E X.
Proof.
  intros [Hm Ha] Hf w s Hs. specialize (Hm w s). destruct (Ha w s) as [a Ea]. unfold bind.
  destruct (m w s) as [[r w'] s']. cbn in Hm, Ea. subst r. apply Hf. by rewrite Hm.
Qed.
Lemma calm_attempt {A} (m : SM A) : idle m → calm (attempt m).
Proof.
  intros Hm. split; [by intros w s; specialize (Hm w s); unfold attempt; destruct (m w s) as [[[a|e|] w'] s']|].
  intros w s e. unfold attempt. by destruct (m w s) as [[[a|e'|] w'] s'].
Qed.
Lemma calm_ignore (m : SM unit) : idle m → calm (ignore m).
Proof.
  intros Hm. split; [by intros w s; specialize (Hm w s); unfold ignore; destruct (m w s) as [[[a|e|] w'] s']|].
  intros w s e. unfold ignore. by destruct (m w s) as [[[a|e'|] w'] s'].
Qed.
(** An operation that does not panic. *)
Definition no_panic {S A} (m : M S A) : Prop := ∀ w s, (m w s).1.1 ≠ Panic.
Lemma no_panic_bind {S A B} (m : M S A) (f : A → M S B) : no_panic m → (∀ a, no_panic (f a)) → no_panic (bind m f).
Proof. intros Hm Hf w s. specialize (Hm w s). unfold bind. destruct (m w s) as [[[a|e|] w'] s']; [apply Hf|done..]. Qed.
Lemma no_panic_packages {A} (m : M (Packages T) A) : no_panic m → no_panic (on_packages (K:=K) m).
Proof. intros Hm w s. specialize (Hm w (srv_packages s)). unfold on_packages, zoom. by destruct (m w _) as [[r w'] p]. Qed.
Lemma sure_attempt {A} (m : SM A) : idle m → no_panic m → sure (attempt m).
Proof.
  intros Hm Hp. split; [by apply calm_attempt|]. intros w s. specialize (Hp w s). unfold attempt.
  destruct (m w s) as [[[a|e|] w'] s']; [by eexists..|by destruct Hp].
Qed.
Lemma slots_ret {A} P (a : A) (Q : A → Slots → Prop) E X : (∀ y, P y → Q a y) → slots P (ret a) Q E X.
Proof. intros HQ w s Hs. by apply HQ. Qed.
Lemma slots_throw {A} P e (Q : A → Slots → Prop) E X : (∀ y, P y → E y) → slots P (throw e) Q E X.
Proof. intros HQ w s Hs. by apply HQ. Qed.
Lemma slots_deferred {A} (cleanup : SM unit) (m : SM A) P F R :
  slots P m (λ _, F) F F → slots F cleanup (λ _, R) R R → slots P (deferred cleanup m) (λ _, R) R R.
Proof.
  intros Hm Hc w s Hs. specialize (Hm w s Hs). unfold deferred.
  destruct (m w s) as [[[a|e|] w'] s']; specialize (Hc w' s' Hm); by destruct (cleanup w' s') as [[[?|?|] ?] ?].
Qed.

Lemma idle_bind {A B} (m : SM A) (f : A → SM B) : idle m → (∀ a, idle (f a)) → idle (bind m f).
Proof.
  intros Hm Hf w s. specialize (Hm w s). unfold bind. destruct (m w s) as [[[a|e|] w'] s']; [|done..].
  by rewrite (Hf a w' s').
Qed.
Lemma idle_get {A} (f : ServerState T K → SM A) : (∀ s w, slots_of (f s w s).2 = slots_of s) → idle (bind get f).
Proof. intros Hf w s. apply Hf. Qed.
Lemma idle_ret {A} (a : A) : idle (ret a). Proof. done. Qed.
Lemma idle_throw {A} e : idle (throw (A:=A) e). Proof. done. Qed.
Lemma idle_now : idle time_Now. Proof. done. Qed.
Lemma idle_attempt {A} (m : SM A) : idle m → idle (attempt m).
Proof. intros Hm w s. specialize (Hm w s). unfold attempt. by destruct (m w s) as [[[a|e|] w'] s']. Qed.
Lemma idle_ignore (m : SM unit) : idle m → idle (ignore m).
Proof. intros Hm w s. specialize (Hm w s). unfold ignore. by destruct (m w s) as [[[a|e|] w'] s']. Qed.
Lemma idle_if {A} (b : bool) (m n : SM A) : idle m → idle n → idle (if b then m else n).
Proof. by destruct b. Qed.
Lemma idle_packages {A} (m : M (Packages T) A) : idle (on_packages (K:=K) m).
Proof. intros w s. unfold on_packages, zoom. by destruct (m w (srv_packages s)) as [[r w'] p]. Qed.
Lemma idle_kernel {A} (m : M K A) : idle (on_kernel (T:=T) m).
Proof. intros w s. unfold on_kernel, zoom. by destruct (m w (srv_kernel s)) as [[r w'] p]. Qed.
Lemma sure_now : sure time_Now.
Proof. split; [done|]. intros w s. by eexists. Qed.
Lemma sure_observeRun started failed : sure (observeRun started failed).
Proof.
  split; [apply idle_get; intros s w; by destruct (srv_metrics s)|]. intros w s. unfold observeRun, bind at 1, get.
  destruct (srv_metrics s); by eexists.
Qed.
Lemma idle_observeRun started failed : idle (observeRun started failed).
Proof. apply idle_get. intros s w. by destruct (srv_metrics s). Qed.
End slots.

Create HintDb idle discriminated.
#[export] Hint Resolve @idle_bind @idle_ret @idle_throw @idle_now @idle_attempt @idle_ignore @idle_if @idle_packages
  @idle_kernel @idle_observeRun : idle.

(** A slot that is held, as a handle of [Admission]. *)
Definition slot_handles (slot : option agentKey) : list Handle :=
  match slot with Some key => [mkHandle key false] | None => [] end.
(** The handles of the runs in the background. *)
Definition job_handles {K} (jobs : list (Job K)) : list Handle := flat_map (λ j, slot_handles j.(job_Slot)) jobs.

Lemma running_perm p hs hs' : hs ≡ₚ hs' → running p hs = running p hs'.
Proof.
  intros Hp. unfold running, live, len.
  by rewrite (filter_bool_perm _ _ _ (Permutation_map h_key (filter_bool_perm _ _ _ Hp))).
Qed.

(** The counters are those of the handles [hs], which keep the limits, of at most [n] runs. *)
Definition balanced (c : Config) (n : Z) (l : Limiter) (hs : list Handle) : Prop :=
  cfg l = c ∧ (len hs ≤ n)%Z ∧ counts_ok l hs ∧ limits_ok c hs.

Lemma balanced_perm c n l hs hs' : hs ≡ₚ hs' → balanced c n l hs → balanced c n l hs'.
Proof.
  intros Hp (Hc & Hn & [Hg Ht Ha] & [Lg Lt La]). pose proof (λ p, running_perm p hs hs' Hp) as Hr.
  split_and!; [done|unfold len in *; by rewrite <- Hp| |]; split.
  - by rewrite <- Hr.
  - intros t. rewrite <- Hr. apply Ht.
  - intros k. rewrite <- Hr. apply Ha.
  - rewrite <- Hr. apply Lg.
  - intros t. rewrite <- Hr. apply Lt.
  - intros k. rewrite <- Hr. apply La.
Qed.

(** A release gives back the slot at the head of the handles. *)
Lemma balanced_release c n l key hs : (n < 2 ^ 63)%Z → balanced c n l (mkHandle key false :: hs) →
  balanced c n (releaseRun key.1 key.2 l) hs.
Proof.
  intros Hn (Hc & Hl & Hcnt & Hlim).
  pose proof (released_counts l (mkHandle key false :: hs) 0 (mkHandle key false) (Z.le_lt_trans _ _ _ Hl Hn) eq_refl eq_refl Hcnt) as [Hg Ht Ha].
  pose proof (released_limits c (mkHandle key false :: hs) 0 (mkHandle key false) eq_refl eq_refl Hlim) as [Lg Lt La].
  split_and!; [|unfold len in *; cbn in Hl; lia|by split|by split].
  unfold releaseRun. by destruct (globalRunning l >? 0)%Z.
Qed.
(** An acquisition adds one, or changes the number of rejections only. *)
Lemma balanced_acquire c n l hs t a w : (n < 2 ^ 63 - 1)%Z → balanced c n l hs →
  match AcquireRun t a w (Some l) with
  | (Ok slot, _, l') => slot = Some (t, a) ∧ ∃ l1, l' = Some l1 ∧ balanced c (n + 1) l1 (slot_handles slot ++ hs)
  | (Err _, _, l') => ∃ l1, l' = Some l1 ∧ balanced c n l1 hs
  | (Panic, _, _) => False
  end.
Proof.
  intros Hn (Hc & Hl & Hcnt & Hlim). pose proof (AcquireRun_run t a w l hs Hcnt) as Hrun.
  destruct (has_room (cfg l) hs t a) eqn:Hroom; [|destruct Hrun as [e ->]; eexists; split; [done|]; split_and!; try done; by destruct Hcnt].
  rewrite Hrun. split; [done|]. eexists; split; [done|]. split_and!; [done|unfold len in *; cbn; lia|by apply acquired_counts; [lia|]|].
  rewrite Hc in Hroom. by apply acquired_limits.
Qed.
(** Nothing is held. *)
Lemma balanced_none c n l : balanced c n l [] → globalRunning l = 0%Z ∧ tenantRunning l = ∅ ∧ agentRunning l = ∅.
Proof. intros (_ & _ & [Hg Ht Ha] & _). split; [done|]. split; apply map_eq; intros k; rewrite lookup_empty; [apply (Ht k)|apply (Ha k)]. Qed.

Section serving.
Context `{Env} {T K : Type} (sha256_hex : string → string) (core : ServerCore T K) (c : Config).
Notation SM := (M (ServerState T K)).

Lemma calm_record_resolved envelope caller route runID : calm (record_resolved sha256_hex (T:=T) (K:=K) envelope caller route runID).
Proof. apply calm_ignore, idle_packages. Qed.
Lemma calm_record_canary envelope caller route runID : calm (record_canary core envelope caller route runID).
Proof. unfold record_canary. destruct (Canary route); [apply calm_ignore, idle_packages|done]. Qed.
Lemma calm_idle {A} (m : SM A) : calm m → idle m. Proof. by intros []. Qed.
#[local] Hint Resolve calm_record_resolved calm_record_canary calm_idle : idle.
Lemma idle_finish_run envelope caller route started outcome : idle (finish_run core envelope caller route started outcome).
Proof. unfold finish_run. destruct outcome; auto 10 with idle. Qed.
#[local] Hint Resolve idle_finish_run : idle.
Lemma idle_run_now envelope caller route driver started : idle (run_now sha256_hex core envelope caller route driver started).
Proof.
  unfold run_now. destruct (driver_Prepared driver) as [[prepare execute]|]; [|auto with idle].
  apply idle_bind; [auto with idle|]. intros [prepared|err]; auto 10 with idle.
Qed.

(** The slots that are gone for good. *)
Definition lost_handles (lost : list agentKey) : list Handle := map (λ key, mkHandle key false) lost.

Section lost.
Context (lost : list agentKey).
(** At most [n] slots are taken: those of the runs in the background, the one of [slot], and the lost ones. *)
Definition held (n : Z) (slot : option agentKey) (y : option Limiter * list (Job K)) : Prop :=
  ∃ l, y.1 = Some l ∧ balanced c n l (slot_handles slot ++ job_handles y.2 ++ lost_handles lost).

Lemma held_mono n m slot y : (n ≤ m)%Z → held n slot y → held m slot y.
Proof. intros Hnm (l & El & Hc & Hl & Hb). exists l. repeat split; try apply Hb; [done..|lia]. Qed.
Lemma slots_release n slot : (n < 2 ^ 63)%Z →
  slots (T:=T) (held n slot) (release_slot slot) (λ _, held n None) (λ _, False) (λ _, False).
Proof.
  intros Hn w s (l & El & Hb). destruct slot as [key|]; cbn in *; [|by exists l].
  rewrite El. eexists; split; [done|]. by apply balanced_release.
Qed.
Lemma slots_fail {A} n slot started err : (n < 2 ^ 63)%Z →
  slots (T:=T) (held n slot) (fail_run (A:=A) slot started err) (λ _, held n None) (held n None) (λ _, False).
Proof.
  intros Hn. unfold fail_run. eapply slots_bind; [eapply slots_mono; [by apply slots_release|done..]|intros []].
  apply slots_sure; [apply sure_observeRun|intros []]. by apply slots_throw.
Qed.
Lemma slots_acquire n t a : (n < 2 ^ 63 - 1)%Z →
  slots (T:=T) (K:=K) (held n None) (on_limiter (AcquireRun t a)) (λ slot y, slot = Some (t, a) ∧ held (n + 1) slot y)
    (held n None) (λ _, False).
Proof.
  intros Hn w s (l & El & Hb). cbn in El. unfold on_limiter, zoom. rewrite El.
  pose proof (balanced_acquire c n l (job_handles (srv_jobs s) ++ lost_handles lost) t a w Hn Hb) as Ha.
  destruct (AcquireRun t a w (Some l)) as [[[slot|e|] w'] l']; [destruct Ha as (-> & l1 & -> & Hl)|destruct Ha as (l1 & -> & Hl)|done];
    [split; [done|]|]; by exists l1.
Qed.
(** A run that goes on in the background takes the slot with it. *)
Lemma slots_background n slot prepared execute :
  slots (T:=T) (held n slot) (let! s := get in put (s <| srv_jobs := srv_jobs s ++ [mkJob prepared execute slot] |>))
    (λ _, held n None) (λ _, False) (λ _, False).
Proof.
  intros w s (l & El & Hb). exists l. split; [done|]. cbn in Hb |- *. unfold job_handles in *.
  rewrite flat_map_app. cbn. rewrite app_nil_r. eapply balanced_perm; [|exact Hb].
  by rewrite (Permutation_app_comm (flat_map _ _) (slot_handles slot)), <- app_assoc.
Qed.

Lemma slots_run_async n envelope caller route driver slot started : (n < 2 ^ 63)%Z →
  slots (held n slot) (run_async sha256_hex core envelope caller route driver slot started)
    (λ _, held n None) (held n None) (held n slot).
Proof.
  intros Hn. assert (Hfail : ∀ err, slots (T:=T) (held n slot) (fail_run (A:=RunResult) slot started err) (λ _, held n None) (held n None) (held n slot)).
  { intros err. eapply slots_mono; [by apply slots_fail|done..]. }
  unfold run_async. destruct (driver_Prepared driver) as [[prepare execute]|]; [|apply Hfail].
  apply slots_calm; [apply calm_attempt, idle_kernel|done|]. intros [prepared|err]; [|apply Hfail].
  apply slots_calm; [auto with idle|done|intros _]. apply slots_calm; [auto with idle|done|intros _].
  intros w s Hs. pose proof (slots_background n slot prepared execute w s Hs) as Hb. revert Hb.
  unfold bind, get, put, ret. cbn. destruct (srv_metrics s); done.
Qed.
Lemma slots_run_now n envelope caller route driver slot started : (n < 2 ^ 63)%Z →
  slots (held n slot) (deferred (release_slot slot) (run_now sha256_hex core envelope caller route driver started))
    (λ _, held n None) (held n None) (held n None).
Proof.
  intros Hn. eapply slots_deferred; [by apply slots_idle; [|apply idle_run_now]|].
  eapply slots_mono; [by apply slots_release|done..].
Qed.
End lost.

Notation async := (EffectiveAgentRunExecutionMode core.(core_AgentRunExecutionMode) == "async").
(** Routing a request comes to an end: it panics only where the store of packages does, see [routing_in_memory]. *)
Definition routing_returns : Prop := ∀ tenantID target ctx traceID caller,
  no_panic (resolveRunnableAgentTarget core.(core_Store) core.(core_AgentRegistry) tenantID target ctx traceID caller).

Lemma routing_in_memory : core.(core_Store) = None → routing_returns.
Proof.
  intros Hst t target ctx tr caller. rewrite Hst.
  assert (Hasset : ∀ t a, no_panic (GetAgentAsset (T:=T) None t a)).
  { intros t' a. apply no_panic_bind; [done|]. intros p. unfold or_stored. by destruct (assets p !! _). }
  assert (Hlist : no_panic (ListReleases (T:=T) None)).
  { apply no_panic_bind; [done|]. intros [l|]; [done|]. apply no_panic_bind; [done|]. intros p. by apply no_panic_bind. }
  assert (Hensure : ∀ t target, no_panic (ensureRunnableAgentVersion (T:=T) None core.(core_AgentRegistry) t target)).
  { intros t' target'. apply no_panic_bind.
    - unfold EnsureAgentRunnable. destruct (Target_AgentID target' == ""); [done|]. apply no_panic_bind; [apply Hasset|]. intros [asset|]; [|done]. by destruct (_ || _).
    - intros []. cbv zeta. destruct (or_default _ _ == ""); [done|]. apply no_panic_bind; [apply Hlist|]. intros l.
      destruct (releaseForAgentVersion _ _ _ _); [|done]. by destruct (_ || _). }
  unfold resolveRunnableAgentTarget. destruct (Target_Version target != "").
  - apply no_panic_bind; [apply Hensure|intros []]. by apply no_panic_bind; [apply Hlist|].
  - apply no_panic_bind; [|intros chosen].
    { unfold default_route, activeAgentVersion. apply no_panic_bind; [|done]. by apply no_panic_bind; [apply Hasset|]. }
    apply no_panic_bind; [apply Hlist|intros l]. cbv zeta.
    match goal with |- context [if ?b then _ else _] => destruct b end; [done|]. by apply no_panic_bind; [apply Hensure|intros []].
Qed.

(** A run that panics has given its slot back, where the server waits for it; where it does not, the slot is gone. *)
Lemma slots_runAgent lost n envelope caller : routing_returns → (0 ≤ n < 2 ^ 63 - 1)%Z →
  slots (held lost n None) (runAgent sha256_hex core envelope caller) (λ _, held lost (n + 1) None) (held lost (n + 1) None)
    (held lost (n + 1) (if async then Some (caller.(Who_TenantID), envelope.(Env_Target).(Target_AgentID)) else None)).
Proof.
  intros Hroute Hn. assert (Hm : ∀ y, held lost n None y → held lost (n + 1) None y) by (intros y; apply held_mono; lia).
  unfold runAgent. destruct (mem_string _ _); [by apply slots_throw|].
  eapply slots_bind; [eapply slots_mono; [apply slots_acquire; lia|done|done|done]|intros slot].
  intros w s [-> Hs]. revert w s Hs.
  match goal with |- ∀ w s, _ → match ?m w s with _ => _ end =>
    change (slots (held lost (n + 1) (Some (caller.(Who_TenantID), envelope.(Env_Target).(Target_AgentID)))) m
      (λ _, held lost (n + 1) None) (held lost (n + 1) None)
      (held lost (n + 1) (if async then Some (caller.(Who_TenantID), envelope.(Env_Target).(Target_AgentID)) else None))) end.
  apply slots_sure; [apply sure_now|intros started]. apply slots_sure; [apply sure_attempt; [apply idle_packages|apply no_panic_packages, Hroute]|].
  assert (Hfail : ∀ X err, slots (T:=T) (held lost (n + 1) (Some (caller.(Who_TenantID), envelope.(Env_Target).(Target_AgentID))))
    (fail_run (A:=RunResult) (Some (caller.(Who_TenantID), envelope.(Env_Target).(Target_AgentID))) started err)
    (λ _, held lost (n + 1) None) (held lost (n + 1) None) X).
  { intros X err. eapply slots_mono; [apply slots_fail; lia|done..]. }
  intros [route|err]; [|apply Hfail].
  destruct (driverForRoute _ route) as [err|driver]; [apply Hfail|].
  destruct async; [apply slots_run_async; lia|apply slots_run_now; lia].
Qed.
Lemma slots_run_job lost n i : (n < 2 ^ 63)%Z →
  slots (T:=T) (held lost n None) (run_job i) (λ _, held lost n None) (held lost n None) (held lost n None).
Proof.
  intros Hn w s (l & El & Hb). unfold run_job, bind at 1, get. destruct (srv_jobs s !! i) as [job|] eqn:Ej; [|by exists l].
  unfold bind at 1, put.
  apply (slots_deferred _ _ (held lost n (job_Slot job)) (held lost n (job_Slot job)) (held lost n None)).
  - apply slots_idle; [done|]. apply idle_bind; [auto with idle|by intros []].
  - eapply slots_mono; [by apply slots_release|done..].
  - exists l. split; [done|]. cbn in Hb |- *. eapply balanced_perm; [|exact Hb].
    apply delete_Permutation in Ej. rewrite app_assoc. apply Permutation_app_tail.
    apply (Permutation_flat_map (λ j, slot_handles (job_Slot j)) Ej).
Qed.

(** Commands that run agents, and the runs that they have left in the background, in any order, however they end.  (A panic
    of a run in the background ends the whole program in Go; here the others go on.)  The
    second part of a state lists the slots of the runs whose preparation panicked in a server that does not wait. *)
Inductive server_step : ServerState T K * list agentKey → ServerState T K * list agentKey → Prop :=
| server_run envelope caller w r w' s s' lost : runAgent sha256_hex core envelope caller w s = (r, w', s') →
    (r = Panic → async = false) → server_step (s, lost) (s', lost)
| server_panic envelope caller w w' s s' lost : runAgent sha256_hex core envelope caller w s = (Panic, w', s') → async = true →
    server_step (s, lost) (s', (caller.(Who_TenantID), envelope.(Env_Target).(Target_AgentID)) :: lost)
| server_job i w r w' s s' lost : run_job i w s = (r, w', s') → server_step (s, lost) (s', lost).

Lemma server_step_held n st st' : routing_returns → (0 ≤ n < 2 ^ 63 - 1)%Z → server_step st st' →
  held st.2 n None (slots_of st.1) → held st'.2 (n + 1) None (slots_of st'.1).
Proof.
  intros Hroute Hn Hst. destruct Hst as [envelope caller w r w' s s' lost E Hr|envelope caller w w' s s' lost E Ha|i w r w' s s' lost E];
    cbn [fst snd]; intros Hs.
  - pose proof (slots_runAgent lost n envelope caller Hroute Hn w s Hs) as Hq. rewrite E in Hq. destruct r; [done..|].
    by rewrite (Hr eq_refl) in Hq.
  - pose proof (slots_runAgent lost n envelope caller Hroute Hn w s Hs) as Hq. rewrite E, Ha in Hq.
    destruct Hq as (l & El & Hb). exists l. split; [done|]. eapply balanced_perm; [|exact Hb]. cbn. apply Permutation_middle.
  - assert (Hq : held lost n None (slots_of s')).
    { pose proof (slots_run_job lost n i ltac:(lia) w s Hs) as Hq. rewrite E in Hq. by destruct r. }
    eapply held_mono; [|exact Hq]. lia.
Qed.

Lemma server_reaches n s0 st : routing_returns → slots_of s0 = (Some (New c), []) → nsteps server_step n (s0, []) st →
  (Z.of_nat n < 2 ^ 63)%Z → held st.2 (Z.of_nat n) None (slots_of st.1).
Proof.
  intros Hroute H0. revert st. induction n as [|n IH]; intros st Hr Hn.
  - inversion Hr; subst. cbn [fst snd]. rewrite H0. exists (New c). split; [done|]. split_and!; [done|done| |].
    + split; [done|intros k; apply lookup_empty..].
    + split; intros; change (running _ _) with 0%Z; lia.
  - replace (S n) with (n + 1)%nat in Hr by lia. apply nsteps_add_inv in Hr as (s1 & H1 & H2%nsteps_once_inv).
    replace (Z.of_nat (S n)) with (Z.of_nat n + 1)%Z by lia. eapply server_step_held; [done|lia|done|]. apply IH; [done|lia].
Qed.

Lemma nothing_lost n s0 s lost : nsteps server_step n (s0, []) (s, lost) → async = false → lost = [].
Proof.
  intros Hr Ha. assert (H' : ∀ st, nsteps server_step n (s0, []) st → st.2 = []); [|exact (H' _ Hr)]. clear Hr. induction n as [|n IH]; intros st Hr; [by inversion Hr|].
  replace (S n) with (n + 1)%nat in Hr by lia. apply nsteps_add_inv in Hr as (s1 & H1%IH & H2%nsteps_once_inv).
  destruct H2 as [| ? ? ? ? ? ? ? E Ht|]; [done|congruence|done].
Qed.

(** C40. What becomes of every slot of the limiter, whatever requests come, whatever they are routed to and however their
    runs end - with a result, an error or a panic - in whatever order the runs in the background end: between two commands
    the counters are exactly those of the runs in the background and of the lost slots, and these keep the limits.  A
    slot is lost only by a panic, and only in a server that does not wait for its runs: each such panic loses the one slot
    of its run.  Otherwise, when no run is in the background, all counters are back where they started. *)
Theorem slots_balanced n s0 s lost : routing_returns → slots_of s0 = (Some (New c), []) →
  nsteps server_step n (s0, []) (s, lost) → (Z.of_nat n < 2 ^ 63)%Z →
  ∃ l, srv_limiter s = Some l ∧ counts_ok l (job_handles (srv_jobs s) ++ lost_handles lost) ∧
    limits_ok c (job_handles (srv_jobs s) ++ lost_handles lost) ∧
    (async = false → lost = []) ∧
    (srv_jobs s = [] → lost = [] → globalRunning l = 0%Z ∧ tenantRunning l = ∅ ∧ agentRunning l = ∅).
Proof.
  intros Hroute H0 Hr Hn. destruct (server_reaches n s0 (s, lost) Hroute H0 Hr Hn) as (l & El & Hb). exists l. split; [done|].
  split; [apply Hb|]. split; [apply Hb|]. split; [by eapply nothing_lost|].
  intros Ej El0. cbn in Hb. rewrite Ej, El0 in Hb. by eapply balanced_none.
Qed.
End serving.

(** ** The release that a request is routed to *)

Section selection.
Implicit Types (r selected : AgentPackageVersion) (l : list AgentPackageVersion).

Lemma latest_release_spec want l selected at_ : (∀ r, r ∈ l → Rel_PackageVersionID r ≠ "") →
  (Rel_PackageVersionID selected ≠ "" → published_at selected = at_) →
  let r := latest_release want selected at_ l in
  (r = selected ∨ r ∈ l ∧ want r = true) ∧
  (Rel_PackageVersionID r = "" → r = selected ∧ ∀ r', r' ∈ l → want r' = false) ∧
  (∀ r', r' ∈ l → want r' = true → (published_at r' ≤ published_at r)%Z) ∧
  (Rel_PackageVersionID selected ≠ "" → (published_at selected ≤ published_at r)%Z).
Proof.
  revert selected at_. induction l as [|x l IH]; intros selected at_ Hid Hat; cbn.
  { split_and!; [by left|split; [done|]|..|lia]; by intros ? ?%not_elem_of_nil. }
  assert (Hx : Rel_PackageVersionID x ≠ "") by (apply Hid; left).
  assert (Hl : ∀ r, r ∈ l → Rel_PackageVersionID r ≠ "") by (intros r Hr; apply Hid; by right).
  destruct (want x) eqn:Ew; cbn [andb].
  - destruct (_ || _) eqn:Eo.
    + destruct (IH x (published_at x) Hl (λ _, eq_refl)) as (H1 & H2 & H3 & H4). specialize (H4 Hx).
      assert (Hne : Rel_PackageVersionID (latest_release want x (published_at x) l) ≠ "").
      { intros E. destruct (H2 E) as [E' _]. by rewrite E' in E. }
      split_and!; [destruct H1 as [->|[? ?]]; right; [split; [left|done]|split; [by right|done]]|done| |].
      * intros r' [->|Hr']%elem_of_cons; [done|by apply H3].
      * intros Hs. apply orb_true_iff in Eo as [Es%String.eqb_eq|Ea%Z.ltb_lt]; [done|]. rewrite <- (Hat Hs) in Ea. lia.
    + apply orb_false_iff in Eo as [Es%String.eqb_neq Ea%Z.ltb_ge].
      destruct (IH selected at_ Hl Hat) as (H1 & H2 & H3 & H4). specialize (H4 Es).
      split_and!; [destruct H1 as [?|[? ?]]; [by left|right; split; [by right|done]]|..|done].
      * intros E. destruct (H2 E) as [E' _]. by rewrite E' in E.
      * rewrite <- (Hat Es) in Ea. intros r' [->|Hr']%elem_of_cons; [lia|by apply H3].
  - destruct (IH selected at_ Hl Hat) as (H1 & H2 & H3 & H4).
    split_and!; [destruct H1 as [?|[? ?]]; [by left|right; split; [by right|done]]|..|done].
    + intros E. destruct (H2 E) as [E' Hw]. split; [done|]. intros r' [->|Hr']%elem_of_cons; auto.
    + intros r' [->|Hr']%elem_of_cons; [by rewrite Ew|by apply H3].
Qed.

(** The selection: nothing where no release is wanted, otherwise the one published last. *)
Lemma select_release_spec want l : (∀ r, r ∈ l → Rel_PackageVersionID r ≠ "") →
  match select_release want l with
  | Some r => r ∈ l ∧ want r = true ∧ ∀ r', r' ∈ l → want r' = true → (published_at r' ≤ published_at r)%Z
  | None => ∀ r, r ∈ l → want r = false
  end.
Proof.
  intros Hid. destruct (latest_release_spec want l zeroAgentPackageVersion zeroTime Hid) as (H1 & H2 & H3 & _); [done|].
  unfold select_release. destruct (_ != "") eqn:E.
  - apply negb_true_iff, String.eqb_neq in E. destruct H1 as [H1|[H1 Hw]]; [by rewrite H1 in E|done].
  - apply negb_false_iff, String.eqb_eq in E. by destruct (H2 E).
Qed.
End selection.

Section routes.
Context `{Env} (registry : option StaticLoader).
Notation NoStore := (None : option (PackageStoreOps unit)).
Implicit Types s : Packages unit.

Definition asset_runnable s (tenantID agentID : string) : Prop := ∀ asset,
  assets s !! agentAssetKey tenantID agentID = Some asset → Asset_Status asset ∈ [""; AgentAssetActive].
Definition version_runnable s (tenantID agentID version : string) : Prop := ∀ id r,
  releases s !! id = Some r → is_version tenantID agentID version r = true → Rel_Status r ∈ [ReleaseCanary; ReleaseStable].

Lemma ListReleases_run w s : ∃ l w', ListReleases NoStore w s = (Ok l, w', s) ∧
  ∀ r, r ∈ l ↔ ∃ id, releases s !! id = Some r.
Proof.
  destruct (range_map_run (releases s) w s) as (l & w' & E & Hl). exists (map snd l), w'. split.
  - unfold ListReleases. rewrite bind_ret, bind_get. by rewrite (bind_Ok _ _ _ _ _ _ _ E).
  - intros r. rewrite elem_of_map_snd. split; intros [id Hid]; exists id.
    + apply elem_of_map_to_list. by rewrite <- Hl.
    + rewrite Hl. by apply elem_of_map_to_list.
Qed.

Lemma EnsureAgentRunnable_run tenantID agentID w s : ∃ r, EnsureAgentRunnable NoStore tenantID agentID w s = (r, w, s) ∧
  (r = Ok tt → agentID ≠ "" → asset_runnable s tenantID agentID).
Proof.
  unfold EnsureAgentRunnable, asset_runnable. destruct (agentID == "") eqn:E; [apply String.eqb_eq in E; by eexists|].
  unfold GetAgentAsset. unfold bind at 1. rewrite bind_get. unfold or_stored, ret at 1.
  destruct (assets s !! agentAssetKey tenantID agentID) as [asset|]; cbn; [|by eexists].
  destruct (Asset_Status asset == "") eqn:E1; cbn [orb].
  { eexists. split; [done|]. intros _ _ a [= <-]. apply String.eqb_eq in E1. rewrite E1. left. }
  destruct (Asset_Status asset == AgentAssetActive) eqn:E2; eexists; (split; [done|]); [|done].
  intros _ _ a [= <-]. apply String.eqb_eq in E2. rewrite E2. right. left.
Qed.

(** The releases of a service that has one per version. *)
Definition well_released s : Prop := versions_unique s ∧ ∀ id r, releases s !! id = Some r → Rel_PackageVersionID r ≠ "".

Lemma is_version_trans t a v r r' : is_version t a v r = true → is_version t a v r' = true →
  is_version (Rel_TenantID r) (Rel_AgentID r) (Rel_Version r) r' = true.
Proof. unfold is_version. rewrite !andb_true_iff, !String.eqb_eq. intros [[-> ->] ->] [[-> ->] ->]. done. Qed.

Lemma ensureRunnable_run tenantID target w s : well_released s → ∃ r w',
  ensureRunnableAgentVersion NoStore registry tenantID target w s = (r, w', s) ∧
  (r = Ok tt → (Target_AgentID target ≠ "" → asset_runnable s tenantID (Target_AgentID target)) ∧
    (Target_Version target ≠ "" → version_runnable s tenantID (Target_AgentID target) (Target_Version target))).
Proof.
  intros [Hu Hid]. unfold ensureRunnableAgentVersion.
  destruct (EnsureAgentRunnable_run tenantID (Target_AgentID target) w s) as (r & E & Ha). unfold bind at 1. rewrite E.
  destruct r as [[]|e|]; [|by eexists _, _..]. specialize (Ha eq_refl).
  unfold or_default. destruct (Target_Version target == "") eqn:Ev.
  - apply String.eqb_eq in Ev. destruct (_ == ""); [by eexists _, _|].
    destruct (ListReleases_run w s) as (l & w1 & El & _). rewrite (bind_Ok _ _ _ _ _ _ _ El).
    repeat case_match; by eexists _, _.
  - rewrite Ev. destruct (ListReleases_run w s) as (l & w1 & El & Hl). rewrite (bind_Ok _ _ _ _ _ _ _ El).
    pose proof (select_release_spec (is_version tenantID (Target_AgentID target) (Target_Version target)) l) as Hs.
    unfold releaseForAgentVersion. destruct (select_release _ l) as [release|].
    + destruct Hs as (Hin & Hv & _); [intros x [id Hx]%Hl; by eapply Hid|].
      destruct (_ || _) eqn:Ed; [|by eexists _, _]. eexists _, _. split; [done|]. intros _. split; [done|]. intros _ id x Hx Hxv.
      apply Hl in Hin as [id' Hid']. pose proof (Hu id' id release x Hid' Hx (is_version_trans _ _ _ _ _ Hv Hxv)) as <-.
      rewrite Hid' in Hx. injection Hx as <-. apply orb_true_iff in Ed as [Ed%String.eqb_eq|Ed%String.eqb_eq]; rewrite Ed; [left|right; left].
    + eexists _, _. split; [done|]. intros _. split; [done|]. intros _ id x Hx Hxv.
      rewrite (Hs ltac:(intros y [i Hy]%Hl; by eapply Hid) x) in Hxv; [done|]. apply Hl. by exists id.
Qed.

(** What a canary route stands on: the canary that was published last, and the bucket of the request. *)
Definition canary_route s (tenantID : string) (caller : CallerIdentity) (ctx : RuntimeContext) (traceID agentID : string)
    (route : agentRoute) : Prop :=
  let r := Route_Release route in
  let canary x := Rel_TenantID x = tenantID ∧ Rel_AgentID x = agentID ∧ Rel_Status x = ReleaseCanary in
  (∃ id, releases s !! id = Some r) ∧ canary r ∧ ResolvedVersion route = Rel_Version r ∧
  (canary_bucket r agentID (canaryAssignmentKey caller ctx traceID) < Rel_CanaryPercent r)%Z ∧
  ∀ id x, releases s !! id = Some x → canary x → (published_at x ≤ published_at r)%Z.

Lemma route_default_canary l t a route : Canary (route_default l t a route) = Canary route.
Proof. unfold route_default, released_as. by repeat case_match. Qed.
Lemma route_canary_run s l tenantID agentID caller ctx traceID route : well_released s →
  (∀ r, r ∈ l ↔ ∃ id, releases s !! id = Some r) → Canary route = false →
  let route' := route_canary l tenantID agentID caller ctx traceID route in
  Canary route' = true → canary_route s tenantID caller ctx traceID agentID route'.
Proof.
  intros [_ Hid] Hl Hc. cbn zeta. unfold route_canary, latestReleaseWithStatus.
  pose proof (select_release_spec (λ r, (Rel_TenantID r == tenantID) && (Rel_AgentID r == agentID) && (Rel_Status r == ReleaseCanary))
    l ltac:(intros y [i Hy]%Hl; by eapply Hid)) as Hs.
  destruct (select_release _ l) as [r|]; [|by rewrite Hc]. destruct Hs as (Hin & Hw & Hlast).
  destruct (shouldRouteCanary r caller ctx traceID agentID) eqn:Er; [|by rewrite Hc]. intros _.
  rewrite !andb_true_iff, !String.eqb_eq in Hw. rewrite shouldRouteCanary_bucket, Z.ltb_lt in Er.
  destruct Hw as [[? ?] ?]. split; [by apply Hl|]. split; [done|]. split; [done|]. split; [done|].
  intros id x Hx (? & ? & ?). apply Hlast; [apply Hl; by exists id|]. by rewrite !andb_true_iff, !String.eqb_eq.
Qed.

Lemma default_route_run tenantID agentID w s : ∃ chosen w', default_route NoStore registry tenantID agentID w s = (Ok chosen, w', s).
Proof.
  unfold default_route, activeAgentVersion, GetAgentAsset, or_stored, bind, get, ret.
  by destruct (assets s !! agentAssetKey tenantID agentID); eexists _, w.
Qed.

Lemma route_resolve_run tenantID target ctx traceID caller w s route w' s' : well_released s →
  resolveRunnableAgentTarget NoStore registry tenantID target ctx traceID caller w s = (Ok route, w', s') →
  s' = s ∧
  (ResolvedVersion route ≠ "" →
    (Target_AgentID target ≠ "" → asset_runnable s tenantID (Target_AgentID target)) ∧
    version_runnable s tenantID (Target_AgentID target) (ResolvedVersion route)) ∧
  (Canary route = true → canary_route s tenantID caller ctx traceID (Target_AgentID target) route).
Proof.
  intros Hs. unfold resolveRunnableAgentTarget. destruct (Target_Version target != "") eqn:Ev; intros Hr.
  - apply negb_true_iff, String.eqb_neq in Ev. apply bind_Ok_inv in Hr as ([] & w1 & s1 & E1 & Hr).
    destruct (ensureRunnable_run tenantID target w s Hs) as (r & w2 & E2 & Hrun). rewrite E2 in E1. injection E1 as -> <- <-.
    destruct (ListReleases_run w2 s) as (l & w3 & El & _). rewrite (bind_Ok _ _ _ _ _ _ _ El) in Hr. injection Hr as <- _ <-.
    destruct (Hrun eq_refl) as [Ha Hv]. split; [done|]. split; [intros _; split; [done|exact (Hv Ev)]|done].
  - clear Ev. destruct (default_route_run tenantID (Target_AgentID target) w s) as (chosen & w1 & E1).
    rewrite (bind_Ok _ _ _ _ _ _ _ E1) in Hr.
    destruct (ListReleases_run w1 s) as (l & w2 & El & Hl). rewrite (bind_Ok _ _ _ _ _ _ _ El) in Hr. cbn zeta in Hr.
    set (route0 := route_default _ _ _ _) in Hr.
    assert (Hc : Canary route0 = false) by (unfold route0; by rewrite route_default_canary). clearbody route0.
    set (route1 := route0 <| AssignmentKey := _ |>) in Hr. assert (Hc1 : Canary route1 = false) by exact Hc. clearbody route1.
    pose proof (route_canary_run s l tenantID (Target_AgentID target) caller ctx traceID route1 Hs Hl Hc1) as Hcan. cbn zeta in Hcan.
    set (route2 := route_canary _ _ _ _ _ _ _) in *. clearbody route2.
    destruct (ResolvedVersion route2 == "") eqn:Ev.
    + apply String.eqb_eq in Ev. injection Hr as <- _ <-. split; [done|]. split; [done|exact Hcan].
    + apply bind_Ok_inv in Hr as ([] & w3 & s3 & E3 & Hr).
      destruct (ensureRunnable_run tenantID (mkAgentTarget (Target_AgentID target) (ResolvedVersion route2)) w2 s Hs)
        as (r & w4 & E4 & Hrun). rewrite E4 in E3. injection E3 as -> <- <-. injection Hr as <- _ <-.
      destruct (Hrun eq_refl) as [Ha Hv]. split; [done|]. split; [|exact Hcan]. intros Hne. split; [exact Ha|exact (Hv Hne)].
Qed.
End routes.

(** Routing in a service that was used through its calls, in any order.  It changes nothing.  The version that it chooses,
    asked for or not, is of an agent that is active, and has no release that is not a canary or stable; and a
    request that goes to a canary goes to the one that was published last, with a bucket below its percentage. *)
Theorem route_runnable `{Env} (sha256_hex : string → string) `{!Marshal AgentPackageSource, !Marshal AgentStrategies,
    !Marshal AgentDefinition} registry tenantID target ctx traceID caller w0 w1 s w route w' s' : rand_unique →
  rtc (package_step sha256_hex) (w0, NewPackages tt) (w1, s) →
  resolveRunnableAgentTarget None registry tenantID target ctx traceID caller w s = (Ok route, w', s') →
  s' = s ∧
  (ResolvedVersion route ≠ "" →
    (Target_AgentID target ≠ "" → asset_runnable s tenantID (Target_AgentID target)) ∧
    version_runnable s tenantID (Target_AgentID target) (ResolvedVersion route)) ∧
  (Canary route = true → canary_route s tenantID caller ctx traceID (Target_AgentID target) route).
Proof.
  intros HU Hsteps. destruct (steps_sound sha256_hex _ _ HU Hsteps (package_inv_new w0)) as [(Hr & _ & Hu & _) _].
  apply route_resolve_run. split; [exact Hu|]. intros id r Hid. destruct (Hr id r Hid) as [-> (n & -> & _)]. done.
Qed.

(** ** A service that runs agents *)
Section demo.
Let env : Env := test_env.
#[local] Existing Instance env.
Let demo_marshal {A} : Marshal A := λ _, inr "{}".
#[local] Existing Instance demo_marshal.
Notation NoStore := (None : option (PackageStoreOps unit)).

Definition demo_caller : CallerIdentity := mkCallerIdentity "bob" "service" "" "acme" [RoleRuntimeCaller].
Definition demo_prepared : PreparedRun := mkPreparedRun zeroAgentEnvelope zeroAgentDefinition zeroTask zeroAgentRun "" "".
Definition demo_driver (prepare : AgentEnvelope → M unit PreparedRun) : Driver unit :=
  mkDriver AgentCarrierKindNativeAgent RuntimeContractManaged (λ _, panic)
    (Some (prepare, λ p, ret (prepared_result p))).
Definition demo_core (mode : string) (prepare : AgentEnvelope → M unit PreparedRun) : ServerCore unit unit :=
  mkServerCore NoStore None
    (match NewRegistry [Some (demo_driver prepare)] with inr r => Some r | inl _ => None end) [] mode.
Definition demo_envelope (command : string) : AgentEnvelope :=
  zeroAgentEnvelope <| Env_Command := command |> <| Env_Target := mkAgentTarget "writer" "" |>.
Definition demo_server : ServerState unit unit := mkServerState (NewPackages tt) (Some (New one_run)) None tt [].

Definition demo_prepare : AgentEnvelope → M unit PreparedRun := λ _, ret demo_prepared.
Definition demo_run (core : ServerCore unit unit) (s : ServerState unit unit) : Res RunResult * World * ServerState unit unit :=
  runAgent (λ x, x) core (demo_envelope "agent.run") demo_caller world0 s.
Definition demo_running : ServerState unit unit := (demo_run (demo_core "async" demo_prepare) demo_server).2.
Definition demo_rejected : ServerState unit unit := (demo_run (demo_core "async" demo_prepare) demo_running).2.
Definition demo_ended : ServerState unit unit := (run_job 0 world0 demo_rejected).2.

Lemma dispatch_guarded_witness : HasRole demo_caller RoleAdmin = false ∧
  ∃ e, dispatchCommand (λ x, x) (demo_core "async" demo_prepare) (λ _, tt) (λ _ _ _, ret tt)
    (demo_envelope "agent.package.stable") demo_caller world0 demo_server = (Err e, world0, demo_server).
Proof. split; [done|]. apply dispatch_guarded; vm_compute; reflexivity. Defined.

Lemma outcome_eta {A B C : Type} (x : A * B * C) : x = (x.1.1, x.1.2, x.2).
Proof. by destruct x as [[a b] c]. Qed.
Lemma demo_steps : nsteps (server_step (λ x, x) (demo_core "async" demo_prepare)) 3 (demo_server, []) (demo_ended, []).
Proof.
  apply nsteps_l with (demo_running, []); [|apply nsteps_l with (demo_rejected, []); [|apply nsteps_once]].
  - eapply server_run; [unfold demo_running, demo_run; apply outcome_eta|by vm_compute].
  - eapply server_run; [unfold demo_rejected, demo_run; apply outcome_eta|by vm_compute].
  - eapply server_job. unfold demo_ended. apply outcome_eta.
Qed.

(** One run, a second one rejected, the end of the first. *)
Lemma slots_balanced_witness : length (srv_jobs demo_running) = 1%nat ∧
  ∃ l, srv_limiter demo_ended = Some l ∧ rejectedTotal l = 1%Z ∧ globalRunning l = 0%Z ∧ limits_ok one_run [].
Proof.
  split; [vm_compute; reflexivity|].
  destruct (slots_balanced (λ x, x) (demo_core "async" demo_prepare) one_run 3 demo_server demo_ended []
              (routing_in_memory (demo_core "async" demo_prepare) eq_refl) eq_refl demo_steps eq_refl) as (l & El & Hc & Hl & _ & Hn). exists l. split; [exact El|].
  assert (E : srv_limiter demo_ended = Some (releaseRun "acme" "writer" (count_rejected (acquired "acme" "writer" (New one_run)))))
    by (vm_compute; reflexivity).
  split; [rewrite E in El; injection El as <-; vm_compute; reflexivity|].
  assert (Ej : srv_jobs demo_ended = []) by (vm_compute; reflexivity). split; [by apply Hn|].
  rewrite Ej in Hl. exact Hl.
Defined.

(** A panic while an asynchronous run is prepared, which the server of net/http recovers from, leaves its slot taken for good;
    a synchronous run gives it back. *)
Example panic_leaks_slot : let leaked := (demo_run (demo_core "async" (λ _, panic)) demo_server) in
  leaked.1.1 = Panic ∧ globalRunning <$> srv_limiter leaked.2 = Some 1%Z ∧ srv_jobs leaked.2 = [] ∧
  globalRunning <$> srv_limiter (demo_run (demo_core "sync" (λ _, panic)) demo_server).2 = Some 0%Z.
Proof. vm_compute. split_and!; reflexivity. Qed.

Definition demo_canary : World * Packages unit :=
  call (MarkCanaryWithRule NoStore "pkgver_3" "ann" 60 []) demo_published.
Notation demo_route callerID :=
  (resolveRunnableAgentTarget NoStore None "acme" (mkAgentTarget "writer" "") zeroRuntimeContext "trace"
    (mkCallerIdentity callerID "service" "" "acme" [RoleRuntimeCaller]) world0 demo_canary.2).
Lemma demo_canary_reached : rtc (package_step (λ data, data)) (world0, NewPackages tt) demo_canary.
Proof. eapply rtc_r; [apply demo_releases|]. apply call_step, op_Canary. Qed.

Lemma demo_route_b : match (demo_route "b").1.1 with Ok r => Canary r && (ResolvedVersion r == "v1") | _ => false end = true.
Proof. vm_compute. reflexivity. Qed.

(** Bob goes to the canary, which takes 60 of a hundred requests; Ann does not. *)
Lemma route_runnable_witness : ∃ route w', demo_route "b" = (Ok route, w', demo_canary.2) ∧ Canary route = true ∧
  version_runnable demo_canary.2 "acme" "writer" "v1" ∧
  canary_route demo_canary.2 "acme" (mkCallerIdentity "b" "service" "" "acme" [RoleRuntimeCaller]) zeroRuntimeContext "trace" "writer" route.
Proof.
  pose proof demo_route_b as Hb. destruct (demo_route "b") as [[[route|e|] w'] s'] eqn:E; [|discriminate..].
  apply andb_true_iff in Hb as [Hc Hv%String.eqb_eq]. cbn in Hc, Hv.
  pose proof demo_canary_reached as Hreach. rewrite (surjective_pairing demo_canary) in Hreach.
  destruct (route_runnable (λ data, data) None "acme" (mkAgentTarget "writer" "") zeroRuntimeContext "trace" _ world0
    demo_canary.1 demo_canary.2 world0 route w' s' test_rand_unique Hreach E) as (-> & Hrun & Hcan).
  exists route, w'. split; [reflexivity|]. split; [exact Hc|]. rewrite Hv in Hrun.
  split; [refine (proj2 (Hrun _)); clear; discriminate|exact (Hcan Hc)].
Defined.
Example demo_not_canary : (λ r, (ResolvedVersion r, Canary r)) <$> match (demo_route "a").1.1 with Ok r => Some r | _ => None end
  = Some ("", false).
Proof. vm_compute. reflexivity. Qed.
End demo.

(** The scope of a canary, which [MarkCanaryWithRule] stores, does not count. *)
Example canary_scope_ignored release caller ctx traceID agentID scope :
  shouldRouteCanary (release <| Rel_CanaryScope := scope |>) caller ctx traceID agentID =
  shouldRouteCanary release caller ctx traceID agentID.
Proof. reflexivity. Qed.
