(* ===== verification/Text.v ===== *)
(** * Texts: what the code uses of unicode/utf8 and regexp

    The runes of a string, for the code that counts or cuts by them, and regular expressions that are a
    sequence of repeated classes and word boundaries, matched as the regexp package does: leftmost, each
    repetition as long as it can be. *)

From stdpp Require Import base list strings.
From Stdlib Require Import Ascii Lia.
From S2P Require Import Prelude.
Open Scope go_scope.
Open Scope string_scope.
Open Scope list_scope.

(** ** Runes *)

Definition byte_in (lo hi n : nat) : bool := (lo <=? n)%nat && (n <=? hi)%nat.
#[global] Arguments byte_in : simpl never.
(** The second byte that may follow a first one, and the length of the encoding: the table of [unicode/utf8]. *)
Definition rune_start (b : nat) : option (nat * nat * nat) :=
  if (b <? 128)%nat then Some (1, 0, 0)%nat else
  if byte_in 194 223 b then Some (2, 128, 191)%nat else
  if (b =? 224)%nat then Some (3, 160, 191)%nat else
  if byte_in 225 236 b || byte_in 238 239 b then Some (3, 128, 191)%nat else
  if (b =? 237)%nat then Some (3, 128, 159)%nat else
  if (b =? 240)%nat then Some (4, 144, 191)%nat else
  if byte_in 241 243 b then Some (4, 128, 191)%nat else
  if (b =? 244)%nat then Some (4, 128, 143)%nat else None.
(** [n] continuation bytes. *)
Fixpoint continued (n : nat) (s : string) : bool :=
  match n, s with
  | O, _ => true
  | S n, String c s => byte_in 128 191 (nat_of_ascii c) && continued n s
  | S _, EmptyString => false
  end.
(** The length of the rune at the start of a string, 0 for bytes that encode none. *)
Definition rune_width (s : string) : nat :=
  match s with
  | EmptyString => 0
  | String c s' =>
      match rune_start (nat_of_ascii c) with
      | None => 0
      | Some (1, _, _)%nat => 1
      | Some (n, lo, hi) =>
          match s' with
          | EmptyString => 0
          | String d s'' => if byte_in lo hi (nat_of_ascii d) && continued (n - 2) s'' then n else 0
          end
      end
  end.
(** U+FFFD *)
Definition RuneError : string :=
  String (ascii_of_nat 239) (String (ascii_of_nat 191) (String (ascii_of_nat 189) EmptyString)).

(** [[]rune(s)], each rune with the bytes that encode it; [skip] bytes belong to a rune that was read. *)
Fixpoint runes_from (skip : nat) (s : string) : list string :=
  match s with
  | EmptyString => []
  | String _ s' =>
      match skip with
      | S skip => runes_from skip s'
      | O => match rune_width s with
             | O => RuneError :: runes_from O s'
             | S n => string_take (S n) s :: runes_from n s'
             end
      end
  end.
Definition runes (s : string) : list string := runes_from 0 s.
(** [string(runes)] *)
Definition of_runes (l : list string) : string := fold_right String.append "" l.

(** Raw strings that hold double quotes are written with backquotes for them here. *)
Fixpoint quoted (s : string) : string :=
  match s with
  | EmptyString => EmptyString
  | String c s => String (if Ascii.eqb c "`" then ascii_of_nat 34 else c) (quoted s)
  end.
Definition truncate_runes (value : string) (maxRunes : nat) : string :=
  if (maxRunes =? 0)%nat || (length (runes value) <=? maxRunes)%nat then value else of_runes (take maxRunes (runes value)).

Example runes_of_bytes : map String.length (runes (String "a" (String (ascii_of_nat 195) (String (ascii_of_nat 169)
  (String (ascii_of_nat 255) "b"))))) = [1; 2; 3; 1]%nat.
Proof. reflexivity. Qed.

(** ** Regular expressions *)

(** [Rep n p]: at least [n] bytes of the class [p], as many as it can; [Bound]: a boundary of an ASCII word. *)
Inductive piece :=
| Rep (n : nat) (p : ascii → bool)
| One (p : ascii → bool)
| Bound.

Definition is_digit (c : ascii) : bool := byte_in 48 57 (nat_of_ascii c).
Definition is_letter (c : ascii) : bool := byte_in 65 90 (nat_of_ascii c) || byte_in 97 122 (nat_of_ascii c).
Definition word_char (c : ascii) : bool := is_digit c || is_letter c || Ascii.eqb c "_".
Definition one_of (l : list ascii) (c : ascii) : bool := existsb (Ascii.eqb c) l.

Definition word_at (c : option ascii) : bool := match c with Some c => word_char c | None => false end.
Definition head_of (s : string) : option ascii := match s with EmptyString => None | String c _ => Some c end.

(** The rest of the string after a match at its start; [prev] is the byte before it. *)
Fixpoint rep_rest (rest : option ascii → string → option string) (n : nat) (p : ascii → bool) (prev : option ascii)
    (s : string) : option string :=
  let stop := if (n =? 0)%nat then rest prev s else None in
  match s with
  | EmptyString => stop
  | String c s' =>
      if p c then match rep_rest rest (pred n) p (Some c) s' with Some t => Some t | None => stop end else stop
  end.
Fixpoint match_rest (pattern : list piece) (prev : option ascii) (s : string) : option string :=
  match pattern with
  | [] => Some s
  | Rep n p :: pattern => rep_rest (match_rest pattern) n p prev s
  | One p :: pattern => match s with String c s' => if p c then match_rest pattern (Some c) s' else None | EmptyString => None end
  | Bound :: pattern => if Bool.eqb (word_at prev) (word_at (head_of s)) then None else match_rest pattern prev s
  end.

(** [ReplaceAllString] of a pattern that does not match the empty string, with a text that has no [$]; [skip] bytes
    belong to a match that was replaced. *)
Fixpoint replace_from (pattern : list piece) (by_ : string) (prev : option ascii) (skip : nat) (s : string) : string :=
  match s with
  | EmptyString => ""
  | String c s' =>
      match skip with
      | S skip => replace_from pattern by_ (Some c) skip s'
      | O => match match_rest pattern prev s with
             | Some rest => by_ +:+ replace_from pattern by_ (Some c) (String.length s - String.length rest - 1) s'
             | None => String c (replace_from pattern by_ (Some c) 0 s')
             end
      end
  end.
Definition ReplaceAllString (pattern : list piece) (s by_ : string) : string := replace_from pattern by_ None 0 s.

(** ** Facts *)

(** The encoding of one rune, whatever follows it. *)
Definition is_rune (r : string) : Prop := r ≠ "" ∧ ∀ t, rune_width (r +:+ t) = String.length r.

Lemma continued_take n s t : continued n s = true → continued n (string_take n s +:+ t) = true ∧ String.length (string_take n s) = n.
Proof.
  revert s. induction n as [|n IH]; intros s Hs; [by destruct s|]. destruct s as [|c s]; [done|]. cbn in *.
  apply andb_true_iff in Hs as [Hc Hs]. destruct (IH s Hs) as [IH1 IH2]. split; [by apply andb_true_iff|by f_equal].
Qed.
Lemma rune_start_size b n lo hi : rune_start b = Some (n, lo, hi) → n = 1%nat ∨ (2 ≤ n)%nat.
Proof. unfold rune_start. repeat case_match; intros [=]; subst; lia. Qed.

Lemma rune_take n s : rune_width s = S n → is_rune (string_take (S n) s).
Proof.
  destruct s as [|c s]; [done|]. cbn [rune_width]. intros Hw. split; [done|]. intros t. cbn [string_take].
  change (rune_width (String c (string_take n s +:+ t)) = S (String.length (string_take n s))). cbn [rune_width].
  destruct (rune_start (nat_of_ascii c)) as [[[k lo] hi]|] eqn:Ec; [|done].
  destruct (rune_start_size _ _ _ _ Ec) as [->|Hk]; [by injection Hw as <-|].
  destruct k as [|[|k]]; [lia..|]. destruct s as [|d s]; [done|]. cbn in Hw.
  destruct (byte_in lo hi (nat_of_ascii d)) eqn:Ed; [|done]. cbn in Hw. rewrite Nat.sub_0_r in Hw.
  destruct (continued k s) eqn:Es; [|done]. injection Hw as <-. cbn. rewrite Nat.sub_0_r.
  destruct (continued_take k s t Es) as [H1 H2].
  change (String d (string_take k s) +:+ t) with (String d (string_take k s +:+ t)). cbn. by rewrite Ed, H1, H2.
Qed.
Lemma rune_error : is_rune RuneError.
Proof. by split. Qed.

Lemma runes_are_runes s k : Forall is_rune (runes_from k s).
Proof.
  revert k. induction s as [|c s IH]; intros [|k]; cbn -[rune_width string_take RuneError]; try done.
  destruct (rune_width (String c s)) as [|n] eqn:E; constructor; auto using rune_error. by apply rune_take.
Qed.
Lemma runes_skip a t : runes_from (String.length a) (a +:+ t) = runes t.
Proof. induction a as [|c a IH]; [done|exact IH]. Qed.
Lemma runes_cons r t : is_rune r → runes (r +:+ t) = r :: runes t.
Proof.
  intros [Hne Hr]. destruct r as [|c r]; [done|]. unfold runes at 1. specialize (Hr t).
  change (String c r +:+ t) with (String c (r +:+ t)) in *. cbn [runes_from]. rewrite Hr. cbn [String.length].
  rewrite runes_skip. f_equal. cbn [string_take]. f_equal. clear. induction r as [|d r IH]; cbn; [by destruct t|by f_equal].
Qed.
(** A text that is made of runes has these runes. *)
Lemma runes_of_runes l : Forall is_rune l → runes (of_runes l) = l.
Proof. induction 1 as [|r l Hr _ IH]; [done|]. change (of_runes (r :: l)) with (r +:+ of_runes l). by rewrite runes_cons, IH. Qed.
Lemma truncate_bounded s n : n ≠ 0%nat → (length (runes (truncate_runes s n)) ≤ n)%nat.
Proof.
  intros Hn. unfold truncate_runes. destruct (Nat.eqb_spec n 0); [done|]. cbn [orb].
  destruct (Nat.leb_spec (length (runes s)) n); [done|]. rewrite runes_of_runes; [rewrite length_take; lia|].
  apply Forall_take, runes_are_runes.
Qed.
