(* ===== verification/Knowledge.v ===== *)
(** * Knowledge bases: internal/knowledge/service.go

    Bases of documents, which groups of a tenant create, fill and search.  The service keeps its data in memory
    and, where it has one, in a store; a call runs without others in between.  Scores are IEEE 754 binary64 numbers
    ([SpecFloat]).  The theorems say what a search shows to whom, and in which order. *)

From stdpp Require Import base list strings gmap fin_maps sorting.
From Stdlib Require Import Ascii Lia SpecFloat.
From S2P Require Import Prelude Contracts GoMonad Float64 Storage Policies Permission HandoffPackage Discovery Text.
Open Scope go_scope.
Open Scope string_scope.
Open Scope list_scope.

(** ** Data *)

Record CreateKnowledgeBaseInput := mkCreateKnowledgeBaseInput {
  KCreate_TenantID : string;
  KCreate_GroupID : string;
  KCreate_RequestedBy : string;
  KCreate_Roles : list string;
  KCreate_Name : string;
  KCreate_Visibility : string;
  KCreate_SourceType : string;
  KCreate_IndexType : string;
  KCreate_TraceID : string;
  KCreate_TaskID : string;
  KCreate_RunID : string
}.

Record KnowledgeInput := mkKnowledgeInput {
  Know_TenantID : string;
  Know_RequesterGroupID : string;
  Know_RequestedBy : string;
  Know_Roles : list string;
  Know_Query : string;
  Know_KnowledgeBaseIDs : list string;
  Know_SourceGroupID : string;
  Know_Limit : Z;
  Know_AllowCrossGroup : bool;
  Know_SearchMode : string;
  Know_TraceID : string;
  Know_TaskID : string;
  Know_RunID : string
}.

Record AdapterSearchInput := mkAdapterSearchInput {
  Adapt_Query : string;
  Adapt_SearchMode : string;
  Adapt_Limit : Z;
  Adapt_Bases : gmap string KnowledgeBase;
  Adapt_Documents : list KnowledgeDocument
}.

(** [Store] *)
Record KnowledgeStoreOps (T : Type) := mkKnowledgeStoreOps {
  know_SaveBase : KnowledgeBase → M T unit;
  know_GetBase : string → string → M T (option KnowledgeBase);
  know_ListBases : string → M T (list KnowledgeBase);
  know_SaveDocument : KnowledgeDocument → M T unit;
  know_ListDocuments : string → M T (list KnowledgeDocument);
  know_SaveJob : KnowledgeIngestionJob → M T unit;
  know_GetJob : string → string → M T (option KnowledgeIngestionJob);
  know_ListJobs : string → string → M T (list KnowledgeIngestionJob)
}.
Arguments know_SaveBase {T}. Arguments know_GetBase {T}. Arguments know_ListBases {T}. Arguments know_SaveDocument {T}.
Arguments know_ListDocuments {T}. Arguments know_SaveJob {T}. Arguments know_GetJob {T}. Arguments know_ListJobs {T}.

(** [InMemoryService], with the state of its checker of permissions and of its store. *)
Record Knowledge (P T : Type) := mkKnowledge {
  kb_bases : gmap string KnowledgeBase;
  kb_documents : gmap string KnowledgeDocument;
  kb_jobs : gmap string KnowledgeIngestionJob;
  kb_permissions : P;
  kb_stored : T
}.
Arguments mkKnowledge {P T}. Arguments kb_bases {P T}. Arguments kb_documents {P T}. Arguments kb_jobs {P T}.
Arguments kb_permissions {P T}. Arguments kb_stored {P T}.
#[export] Instance eta_Knowledge {P T} : Settable (Knowledge P T) :=
  fields! mkKnowledge < kb_bases ; kb_documents ; kb_jobs ; kb_permissions ; kb_stored >.

(** ** Index types and search modes *)

Definition normalizeIndexType (value : string) : string :=
  let value := ToLower (TrimSpace value) in
  if value == KnowledgeIndexEmbedding then KnowledgeIndexEmbedding
  else if value == KnowledgeIndexHybrid then KnowledgeIndexHybrid else KnowledgeIndexBM25.
Definition normalizeSearchMode (value : string) : string :=
  let value := ToLower (TrimSpace value) in
  if value == KnowledgeSearchEmbedding then KnowledgeSearchEmbedding
  else if value == KnowledgeSearchHybrid then KnowledgeSearchHybrid else KnowledgeSearchBM25.
Definition searchModeForIndex (indexType : string) : string :=
  let index := normalizeIndexType indexType in
  if index == KnowledgeIndexEmbedding then KnowledgeSearchEmbedding
  else if index == KnowledgeIndexHybrid then KnowledgeSearchHybrid else KnowledgeSearchBM25.
Fixpoint dominantSearchMode (bases : gmap string KnowledgeBase) (docs : list KnowledgeDocument) : string :=
  match docs with
  | [] => KnowledgeSearchBM25
  | doc :: docs =>
      match bases !! doc.(KDoc_KnowledgeBaseID) with
      | Some base => firstNonEmpty base.(KB_SearchMode) (searchModeForIndex base.(KB_IndexType))
      | None => dominantSearchMode bases docs
      end
  end.

(** ** Scores *)

Definition float64_add (a b : float64) : float64 := SFadd 53 1024 a b.
Definition float64_mul (a b : float64) : float64 := SFmul 53 1024 a b.
(** 1, 0.25, 0.05, 0.03 and 0.8 *)
Definition score_term : float64 := S754_finite false 4503599627370496 (-52).
Definition score_title : float64 := S754_finite false 4503599627370496 (-54).
Definition score_rune : float64 := S754_finite false 7205759403792794 (-57).
Definition score_embedded_rune : float64 := S754_finite false 8646911284551352 (-58).
Definition embedding_factor : float64 := S754_finite false 7205759403792794 (-53).

(** [for _, x := range xs { if p(x) { score += by } }] *)
Definition score_each {A} (p : A → bool) (by_ : float64) (xs : list A) (score : float64) : float64 :=
  fold_left (λ score x, if p x then float64_add score by_ else score) xs score.
(** [strings.ContainsRune] *)
Definition ContainsRune (s r : string) : bool := mem_string r (runes s).

Fixpoint first_of_each (seen fields : list string) : list string :=
  match fields with
  | [] => []
  | field :: fields =>
      let field := trim_punctuation field in
      if (field == "") || mem_string field seen then first_of_each seen fields
      else field :: first_of_each (field :: seen) fields
  end.
Definition tokenize (value : string) : list string :=
  match first_of_each [] (Fields (ToLower value)) with
  | [] => if TrimSpace value != "" then [ToLower (TrimSpace value)] else []
  | out => out
  end.

Definition scoreText (queryTerms : list string) (text : string) : float64 :=
  let lower := ToLower text in
  let score := score_each (Contains lower) score_term queryTerms float64_zero in
  match queryTerms with
  | [term] => if SFeqb score float64_zero then score_each (ContainsRune lower) score_rune (runes term) score else score
  | _ => score
  end.
Definition lexicalProximityScore (queryTerms : list string) (title : string) : float64 :=
  if title == "" then float64_zero
  else score_each (Contains (ToLower title)) score_title queryTerms float64_zero.
Definition embeddingFallbackScore (queryTerms : list string) (text : string) : float64 :=
  let score := scoreText queryTerms text in
  if SFltb float64_zero score then float64_mul score embedding_factor else
  fold_left (λ score term, score_each (ContainsRune (ToLower text)) score_embedded_rune (runes term) score) queryTerms score.

(** ** Snippets *)

(** [strings.Index] *)
Fixpoint Index (s sub : string) : option nat :=
  if HasPrefix s sub then Some 0%nat else
  match s with EmptyString => None | String _ s' => option_map S (Index s' sub) end.
(** The positions of the bytes at which the runes start. *)
Fixpoint rune_starts (skip i : nat) (s : string) : list nat :=
  match s with
  | EmptyString => []
  | String _ s' => match skip with
                   | S skip => rune_starts skip (S i) s'
                   | O => i :: rune_starts (rune_width s - 1) (S i) s'
                   end
  end.
(** The number of runes before a position, 0 where no rune starts at it or after it. *)
Definition runes_before (pos : nat) (s : string) : nat :=
  let starts := rune_starts 0 0 s in
  if existsb (λ i, pos <=? i)%nat starts then length (List.filter (λ i, i <? pos)%nat starts) else 0%nat.
Definition snippet (content query : string) (maxRunes : nat) : string :=
  let content := TrimSpace content in
  if content == "" then "" else
  if (length (runes content) <=? maxRunes)%nat then content else
  match Index (ToLower content) (ToLower (TrimSpace query)) with
  | None => of_runes (take maxRunes (runes content))
  | Some pos =>
      let start := runes_before pos content in
      let start := if (maxRunes / 3 <? start)%nat then (start - maxRunes / 3)%nat else start in
      of_runes (take maxRunes (drop start (runes content)))
  end.

(** ** The local search adapter *)

Definition local_score (queryTerms : list string) (searchMode : string) (doc : KnowledgeDocument) : float64 :=
  let text := doc.(KDoc_Title) +:+ " " +:+ doc.(KDoc_Content) in
  let score := scoreText queryTerms text in
  let score := if searchMode == KnowledgeSearchHybrid
               then float64_add score (lexicalProximityScore queryTerms doc.(KDoc_Title)) else score in
  if searchMode == KnowledgeSearchEmbedding then embeddingFallbackScore queryTerms text else score.
Definition local_result (input : AdapterSearchInput) (doc : KnowledgeDocument) : option KnowledgeSearchResult :=
  match input.(Adapt_Bases) !! doc.(KDoc_KnowledgeBaseID) with
  | None => None
  | Some base =>
      let score := local_score (tokenize input.(Adapt_Query)) input.(Adapt_SearchMode) doc in
      if SFleb score float64_zero then None else
      Some (mkKnowledgeSearchResult doc.(KDoc_DocumentID) doc.(KDoc_KnowledgeBaseID) doc.(KDoc_SourceGroupID)
              doc.(KDoc_Title) (snippet doc.(KDoc_Content) input.(Adapt_Query) 220) score doc.(KDoc_SourceURI)
              (firstNonEmpty doc.(KDoc_Visibility) base.(KB_Visibility)) input.(Adapt_SearchMode) false "")
  end.
Definition better_result (a b : KnowledgeSearchResult) : bool :=
  if SFeqb a.(KRes_Score) b.(KRes_Score) then string_lt a.(KRes_DocumentID) b.(KRes_DocumentID)
  else SFltb b.(KRes_Score) a.(KRes_Score).
Definition LocalSearch (input : AdapterSearchInput) : list KnowledgeSearchResult :=
  let results := stable_sort better_result (omap (local_result input) input.(Adapt_Documents)) in
  if (input.(Adapt_Limit) >? 0)%Z && (len results >? input.(Adapt_Limit))%Z
  then take (Z.to_nat input.(Adapt_Limit)) results else results.

(** ** Who sees a document *)

Definition document_group (base : KnowledgeBase) (doc : KnowledgeDocument) : string :=
  if doc.(KDoc_SourceGroupID) == "" then base.(KB_OwnerGroupID) else doc.(KDoc_SourceGroupID).
Definition visibleToGroup (base : KnowledgeBase) (doc : KnowledgeDocument) (requesterGroup sourceGroup : string)
    (allowCrossGroup : bool) : bool :=
  let visibility := firstNonEmpty doc.(KDoc_Visibility) base.(KB_Visibility) in
  let docGroup := document_group base doc in
  if (sourceGroup != "") && (docGroup != sourceGroup) then false else
  if (docGroup == requesterGroup) || (base.(KB_OwnerGroupID) == requesterGroup) then true else
  if visibility == VisibilityTenant then true else
  if (visibility == VisibilityShared) || (visibility == VisibilitySharedGroups) then allowCrossGroup else false.

(** ** The service *)
Section service.
Context `{Env} {P T : Type} `{PermissionChecker P} (configured : bool) (store : option (KnowledgeStoreOps T)).
Notation KM := (M (Knowledge P T)).

Definition on_knowledge_store {A} (m : M T A) : KM A := zoom kb_stored (λ t s, s <| kb_stored := t |>) m.
(** [if s.store != nil { if err := f(s.store); err != nil { return err } }] *)
Definition to_knowledge_store (f : KnowledgeStoreOps T → M T unit) : KM unit :=
  match store with Some store => on_knowledge_store (f store) | None => ret tt end.

Definition requireAllowed (input : PermissionCheckInput) : KM unit :=
  if negb configured then ret tt else
  let! d := zoom kb_permissions (λ p s, s <| kb_permissions := p |>) (permission_check input) in
  let details := {["reason_code" := AString d.(PermD_ReasonCode)]} in
  if d.(PermD_Decision) == PermissionDecisionDenied
  then throw (ErrRuntime (NewRuntimeError CodeToolPolicyDenied d.(PermD_Reason) details))
  else if d.(PermD_Decision) == PermissionDecisionApprovalRequired
  then throw (ErrRuntime (NewRuntimeError CodeToolApprovalRequired d.(PermD_Reason) details))
  else ret tt.

(** *** Records *)

Definition knowledge_trace (traceID tenantID taskID runID eventType : string) (payload : gmap string Any) : KM unit :=
  if traceID == "" then ret tt else with_trace (
    let! span := idgen_New "span" in
    let! now := now in
    trace_Record (zeroTraceEvent
      <| Trace_TraceID := traceID |> <| Trace_TenantID := tenantID |> <| Trace_SpanID := span |>
      <| Trace_RunID := runID |> <| Trace_TaskID := taskID |> <| Trace_Type := eventType |>
      <| Trace_Payload := payload |> <| Trace_CreatedAt := now |>)).
Definition knowledge_audit (tenantID actorID action resourceID reason traceID taskID runID : string) : KM unit :=
  with_audit (
    let! id := idgen_New "audit" in
    let! now := now in
    audit_Log (zeroAuditEvent
      <| Audit_AuditID := id |> <| Audit_TenantID := tenantID |> <| Audit_ActorID := actorID |>
      <| Audit_ActorType := "member" |> <| Audit_Action := action |> <| Audit_ResourceType := "knowledge_base" |>
      <| Audit_ResourceID := resourceID |> <| Audit_Decision := "allowed" |> <| Audit_Reason := reason |>
      <| Audit_TraceID := traceID |> <| Audit_TaskID := taskID |> <| Audit_RunID := runID |>
      <| Audit_CreatedAt := now |>)).
Definition recordKnowledgeCreated (input : CreateKnowledgeBaseInput) (base : KnowledgeBase) : KM unit :=
  do! knowledge_trace input.(KCreate_TraceID) input.(KCreate_TenantID) input.(KCreate_TaskID) input.(KCreate_RunID)
        TraceKnowledgeCreated
        {["knowledge_base_id" := AString base.(KB_KnowledgeBaseID); "group_id" := AString base.(KB_OwnerGroupID);
          "visibility" := AString base.(KB_Visibility); "index_type" := AString base.(KB_IndexType);
          "search_mode" := AString base.(KB_SearchMode)]} in
  knowledge_audit input.(KCreate_TenantID) input.(KCreate_RequestedBy) AuditKnowledgeCreated base.(KB_KnowledgeBaseID)
    ("visibility=" +:+ base.(KB_Visibility)) input.(KCreate_TraceID) input.(KCreate_TaskID) input.(KCreate_RunID).
Definition recordSearch (input : KnowledgeInput) (eventType : string) (count : Z) : KM unit :=
  knowledge_trace input.(Know_TraceID) input.(Know_TenantID) input.(Know_TaskID) input.(Know_RunID) eventType
    {["requester_group_id" := AString input.(Know_RequesterGroupID); "source_group_id" := AString input.(Know_SourceGroupID);
      "allow_cross_group" := ABool input.(Know_AllowCrossGroup); "search_mode" := AString input.(Know_SearchMode);
      "result_count" := AInt count]}.

(** *** Bases *)

Definition create_question (input : CreateKnowledgeBaseInput) : PermissionCheckInput :=
  zeroPermissionCheckInput
    <| Check_TenantID := input.(KCreate_TenantID) |> <| Check_GroupID := input.(KCreate_GroupID) |>
    <| Check_ActorID := input.(KCreate_RequestedBy) |> <| Check_ActorType := "member" |>
    <| Check_Roles := input.(KCreate_Roles) |> <| Check_Action := PermissionActionKnowledgeCreate |>
    <| Check_ResourceType := "knowledge_base" |> <| Check_TraceID := input.(KCreate_TraceID) |>
    <| Check_TaskID := input.(KCreate_TaskID) |> <| Check_RunID := input.(KCreate_RunID) |>.
Definition keep_base (base : KnowledgeBase) : KM unit :=
  let! s := get in put (s <| kb_bases := <[base.(KB_KnowledgeBaseID) := base]> s.(kb_bases) |>).
Definition CreateKnowledgeBase (input : CreateKnowledgeBaseInput) : KM KnowledgeBase :=
  if (input.(KCreate_TenantID) == "") || (input.(KCreate_GroupID) == "") || (input.(KCreate_Name) == "") then
    throw (Errorf "tenant_id, group_id and name are required" []) else
  do! requireAllowed (create_question input) in
  let indexType := normalizeIndexType input.(KCreate_IndexType) in
  let! now := now in
  let! id := idgen_New "kb" in
  let base := mkKnowledgeBase id input.(KCreate_TenantID) input.(KCreate_Name) input.(KCreate_GroupID)
    (firstNonEmpty input.(KCreate_Visibility) VisibilityGroup) (firstNonEmpty input.(KCreate_SourceType) "manual")
    indexType (searchModeForIndex indexType) KnowledgeBaseStatusReady input.(KCreate_RequestedBy) 0%Z None now now in
  do! keep_base base in
  do! to_knowledge_store (λ store, store.(know_SaveBase) base) in
  do! recordKnowledgeCreated input base in
  ret base.

Definition knowledge_snapshot (tenantID : string) : KM (gmap string KnowledgeBase * list KnowledgeDocument) :=
  match store with
  | Some store =>
      let! bases := on_knowledge_store (store.(know_ListBases) tenantID) in
      let! docs := on_knowledge_store (store.(know_ListDocuments) tenantID) in
      ret (fold_left (λ m base, <[base.(KB_KnowledgeBaseID) := base]> m) bases ∅, docs)
  | None =>
      let! s := get in
      let! entries := range_map s.(kb_documents) in
      ret (s.(kb_bases), map snd entries)
  end.
Definition newer_base (a b : KnowledgeBase) : bool :=
  if Equal a.(KB_UpdatedAt) b.(KB_UpdatedAt) then string_lt a.(KB_KnowledgeBaseID) b.(KB_KnowledgeBaseID)
  else After a.(KB_UpdatedAt) b.(KB_UpdatedAt).
Definition ListKnowledgeBases (tenantID ownerGroupID : string) : KM (list KnowledgeBase) :=
  if tenantID == "" then throw (Errorf "tenant_id is required" []) else
  let! found := knowledge_snapshot tenantID in
  let! entries := range_map found.1 in
  ret (stable_sort newer_base
    (List.filter (λ base, (ownerGroupID == "") || (base.(KB_OwnerGroupID) == ownerGroupID)) (map snd entries))).
Definition GetKnowledgeBase (tenantID knowledgeBaseID : string) : KM (option KnowledgeBase) :=
  if (tenantID == "") || (knowledgeBaseID == "") then throw (Errorf "tenant_id and knowledge_base_id are required" []) else
  let! s := get in
  match List.find (λ base, base.(KB_TenantID) == tenantID) (option_list (s.(kb_bases) !! knowledgeBaseID)), store with
  | Some base, _ => ret (Some base)
  | None, Some store => on_knowledge_store (store.(know_GetBase) tenantID knowledgeBaseID)
  | None, None => ret None
  end.

(** *** Documents and ingestion jobs *)

Definition documentCount (documents : gmap string KnowledgeDocument) (tenantID knowledgeBaseID : string) : Z :=
  len (List.filter (λ entry, (entry.2.(KDoc_TenantID) == tenantID) && (entry.2.(KDoc_KnowledgeBaseID) == knowledgeBaseID))
    (map_to_list documents)).
Definition saveJob (job : KnowledgeIngestionJob) : KM unit :=
  let! s := get in
  do! put (s <| kb_jobs := <[job.(KJob_JobID) := job]> s.(kb_jobs) |>) in
  to_knowledge_store (λ store, store.(know_SaveJob) job).
(** The base of a document: by its identifier alone in memory, by its tenant too in the store. *)
Definition find_base (doc : KnowledgeDocument) : KM (option KnowledgeBase) :=
  let! s := get in
  match s.(kb_bases) !! doc.(KDoc_KnowledgeBaseID), store with
  | Some base, _ => ret (Some base)
  | None, Some store => on_knowledge_store (store.(know_GetBase) doc.(KDoc_TenantID) doc.(KDoc_KnowledgeBaseID))
  | None, None => ret None
  end.
Definition completed_document (doc : KnowledgeDocument) (base : KnowledgeBase) (now : Time) : KnowledgeDocument :=
  doc <| KDoc_SourceGroupID := firstNonEmpty doc.(KDoc_SourceGroupID) base.(KB_OwnerGroupID) |>
      <| KDoc_Visibility := firstNonEmpty doc.(KDoc_Visibility) base.(KB_Visibility) |>
      <| KDoc_IndexStatus := KnowledgeDocumentIndexReady |> <| KDoc_IndexedAt := Some now |>.
Definition indexed_base (base : KnowledgeBase) (count : Z) (now : Time) : KnowledgeBase :=
  base <| KB_DocumentCount := count |>
       <| KB_SearchMode := firstNonEmpty base.(KB_SearchMode) (searchModeForIndex base.(KB_IndexType)) |>
       <| KB_Status := KnowledgeBaseStatusReady |> <| KB_LastIndexedAt := Some now |> <| KB_UpdatedAt := now |>.
Definition completed_job (doc : KnowledgeDocument) (base : KnowledgeBase) (id : string) (now : Time) : KnowledgeIngestionJob :=
  mkKnowledgeIngestionJob id doc.(KDoc_TenantID) doc.(KDoc_KnowledgeBaseID) doc.(KDoc_DocumentID)
    doc.(KDoc_SourceGroupID) KnowledgeIngestionCompleted base.(KB_IndexType) (searchModeForIndex base.(KB_IndexType)) "" ""
    now now (Some now).
(** The document and its base, under the lock. *)
Definition keep_document (doc : KnowledgeDocument) (base : KnowledgeBase) (now : Time) : KM KnowledgeBase :=
  let! s := get in
  let documents := <[doc.(KDoc_DocumentID) := doc]> s.(kb_documents) in
  let base := indexed_base base (documentCount documents doc.(KDoc_TenantID) doc.(KDoc_KnowledgeBaseID)) now in
  do! put (s <| kb_documents := documents |> <| kb_bases := <[base.(KB_KnowledgeBaseID) := base]> s.(kb_bases) |>) in
  ret base.
Definition IngestDocument (doc : KnowledgeDocument) : KM KnowledgeDocument :=
  if (doc.(KDoc_TenantID) == "") || (doc.(KDoc_KnowledgeBaseID) == "") || (doc.(KDoc_Content) == "") then
    throw (Errorf "tenant_id, knowledge_base_id and content are required" []) else
  let! doc := (if doc.(KDoc_DocumentID) == "" then let! id := idgen_New "kbdoc" in ret (doc <| KDoc_DocumentID := id |>)
               else ret doc) in
  let! doc := (if IsZero doc.(KDoc_CreatedAt) then let! now := now in ret (doc <| KDoc_CreatedAt := now |>) else ret doc) in
  let! found := find_base doc in
  match found with
  | None => throw (Errorf "knowledge base %s not found" [doc.(KDoc_KnowledgeBaseID)])
  | Some base =>
      let! now := now in
      let doc := completed_document doc base now in
      let! base := keep_document doc base now in
      do! to_knowledge_store (λ store, store.(know_SaveDocument) doc) in
      do! to_knowledge_store (λ store, store.(know_SaveBase) base) in
      let! id := idgen_New "kbjob" in
      do! saveJob (completed_job doc base id now) in
      ret doc
  end.

Definition newer_job (a b : KnowledgeIngestionJob) : bool :=
  if Equal a.(KJob_CreatedAt) b.(KJob_CreatedAt) then string_lt a.(KJob_JobID) b.(KJob_JobID)
  else After a.(KJob_CreatedAt) b.(KJob_CreatedAt).
Definition ListIngestionJobs (tenantID knowledgeBaseID : string) : KM (list KnowledgeIngestionJob) :=
  if tenantID == "" then throw (Errorf "tenant_id is required" []) else
  match store with
  | Some store => on_knowledge_store (store.(know_ListJobs) tenantID knowledgeBaseID)
  | None =>
      let! s := get in
      let! entries := range_map s.(kb_jobs) in
      ret (stable_sort newer_job (List.filter (λ job, (job.(KJob_TenantID) == tenantID) &&
        ((knowledgeBaseID == "") || (job.(KJob_KnowledgeBaseID) == knowledgeBaseID))) (map snd entries)))
  end.
Definition GetIngestionJob (tenantID jobID : string) : KM (option KnowledgeIngestionJob) :=
  if (tenantID == "") || (jobID == "") then throw (Errorf "tenant_id and job_id are required" []) else
  match store with
  | Some store => on_knowledge_store (store.(know_GetJob) tenantID jobID)
  | None =>
      let! s := get in
      ret (List.find (λ job, job.(KJob_TenantID) == tenantID) (option_list (s.(kb_jobs) !! jobID)))
  end.

(** *** Search *)

Definition search_question (input : KnowledgeInput) : PermissionCheckInput :=
  zeroPermissionCheckInput
    <| Check_TenantID := input.(Know_TenantID) |> <| Check_GroupID := input.(Know_RequesterGroupID) |>
    <| Check_ActorID := input.(Know_RequestedBy) |> <| Check_ActorType := "member" |>
    <| Check_Roles := input.(Know_Roles) |> <| Check_Action := PermissionActionKnowledgeSearch |>
    <| Check_ResourceType := "knowledge_base" |> <| Check_ResourceScope := input.(Know_RequesterGroupID) |>
    <| Check_TraceID := input.(Know_TraceID) |> <| Check_TaskID := input.(Know_TaskID) |>
    <| Check_RunID := input.(Know_RunID) |>.
Definition searchable (input : KnowledgeInput) (bases : gmap string KnowledgeBase) (doc : KnowledgeDocument) : bool :=
  (doc.(KDoc_TenantID) == input.(Know_TenantID)) &&
  (negb (nonempty input.(Know_KnowledgeBaseIDs)) || mem_string doc.(KDoc_KnowledgeBaseID) input.(Know_KnowledgeBaseIDs)) &&
  match bases !! doc.(KDoc_KnowledgeBaseID) with
  | None => false
  | Some base =>
      visibleToGroup base doc input.(Know_RequesterGroupID) input.(Know_SourceGroupID) input.(Know_AllowCrossGroup) &&
      (base.(KB_Status) != KnowledgeBaseStatusDisabled)
  end &&
  ((doc.(KDoc_IndexStatus) == "") || (doc.(KDoc_IndexStatus) == KnowledgeDocumentIndexReady)).
Definition search_limit (limit : Z) : Z := if (limit <=? 0)%Z || (limit >? 10)%Z then 10%Z else limit.
Definition adapter_input (input : KnowledgeInput) (bases : gmap string KnowledgeBase) (docs : list KnowledgeDocument)
    : AdapterSearchInput :=
  let candidates := List.filter (searchable input bases) docs in
  let mode := firstNonEmpty input.(Know_SearchMode)
                (firstNonEmpty (dominantSearchMode bases candidates) KnowledgeSearchBM25) in
  mkAdapterSearchInput input.(Know_Query) (normalizeSearchMode mode) (search_limit input.(Know_Limit)) bases candidates.
Definition SearchKnowledge (input : KnowledgeInput) : KM (list KnowledgeSearchResult) :=
  if (input.(Know_TenantID) == "") || (TrimSpace input.(Know_Query) == "") then
    throw (Errorf "tenant_id and query are required" []) else
  do! requireAllowed (search_question input) in
  do! recordSearch input TraceKnowledgeSearchRequested 0 in
  let! found := knowledge_snapshot input.(Know_TenantID) in
  let results := LocalSearch (adapter_input input found.1 found.2) in
  do! recordSearch input TraceKnowledgeSearchCompleted (len results) in
  do! knowledge_audit input.(Know_TenantID) input.(Know_RequestedBy) AuditKnowledgeSearch input.(Know_SourceGroupID)
        ("results=" +:+ fmt_d (len results)) input.(Know_TraceID) input.(Know_TaskID) input.(Know_RunID) in
  ret results.
End service.

(** ** What a search shows *)

Section searches.
Context `{Env} {P : Type} `{PermissionChecker P}.
Notation NoStore := (None : option (KnowledgeStoreOps unit)).
Implicit Types (s : Knowledge P unit) (input : KnowledgeInput).

(** The documents that a request may see. *)
Record sees s input (base : KnowledgeBase) (doc : KnowledgeDocument) : Prop := {
  see_tenant : KDoc_TenantID doc = Know_TenantID input;
  see_wanted : Know_KnowledgeBaseIDs input = [] ∨ KDoc_KnowledgeBaseID doc ∈ Know_KnowledgeBaseIDs input;
  see_base : kb_bases s !! KDoc_KnowledgeBaseID doc = Some base;
  see_enabled : KB_Status base ≠ KnowledgeBaseStatusDisabled;
  see_indexed : KDoc_IndexStatus doc ∈ [""; KnowledgeDocumentIndexReady];
  see_source : Know_SourceGroupID input = "" ∨ document_group base doc = Know_SourceGroupID input;
  see_group : document_group base doc = Know_RequesterGroupID input ∨ KB_OwnerGroupID base = Know_RequesterGroupID input ∨
    (let visibility := firstNonEmpty (KDoc_Visibility doc) (KB_Visibility base) in
     visibility = VisibilityTenant ∨
     visibility ∈ [VisibilityShared; VisibilitySharedGroups] ∧ Know_AllowCrossGroup input = true)
}.

Lemma visibleToGroup_iff base doc requester source cross : visibleToGroup base doc requester source cross = true ↔
  (source = "" ∨ document_group base doc = source) ∧
  (document_group base doc = requester ∨ KB_OwnerGroupID base = requester ∨
   (let visibility := firstNonEmpty (KDoc_Visibility doc) (KB_Visibility base) in
    visibility = VisibilityTenant ∨ visibility ∈ [VisibilityShared; VisibilitySharedGroups] ∧ cross = true)).
Proof.
  unfold visibleToGroup. cbn zeta. set (v := firstNonEmpty _ _). set (g := document_group base doc).
  destruct (String.eqb_spec source ""); destruct (String.eqb_spec g source); cbn [negb andb]; try (split; [done|naive_solver]).
  all: destruct (String.eqb_spec g requester); destruct (String.eqb_spec (KB_OwnerGroupID base) requester); cbn [orb]; try (split; naive_solver).
  all: destruct (String.eqb_spec v VisibilityTenant); [split; naive_solver|].
  all: rewrite !elem_of_cons, elem_of_nil.
  all: destruct (String.eqb_spec v VisibilityShared); destruct (String.eqb_spec v VisibilitySharedGroups); cbn [orb]; split; naive_solver.
Qed.

Lemma searchable_iff s input doc : searchable input (kb_bases s) doc = true ↔ ∃ base, sees s input base doc.
Proof.
  unfold searchable. rewrite !andb_true_iff, !orb_true_iff, negb_true_iff, mem_string_elem, !String.eqb_eq. split.
  - intros [[[Ht Hw] Hb] Hi]. destruct (kb_bases s !! _) as [base|] eqn:Eb; [|done].
    apply andb_true_iff in Hb as [[Hsrc Hg]%visibleToGroup_iff Hd]. exists base. split; try done.
    + destruct Hw as [Hw|Hw]; [left; by destruct (Know_KnowledgeBaseIDs input)|by right].
    + intros E. by rewrite E, String.eqb_refl in Hd.
    + destruct Hi as [->| ->]; [left|right; left].
  - intros [base []]. split_and!; [done|by destruct see_wanted0 as [->|]; [left|right]| |].
    + rewrite see_base0. apply andb_true_iff. split; [by apply visibleToGroup_iff|].
      by apply negb_true_iff, String.eqb_neq.
    + apply elem_of_cons in see_indexed0 as [->|[->|[]%elem_of_nil]%elem_of_cons]; auto.
Qed.

(** The documents of a service, in some order. *)
Definition documents_of s (docs : list KnowledgeDocument) : Prop := docs ≡ₚ map snd (map_to_list (kb_documents s)).
(** What is shown: the documents that the request sees and that have a score, the best ones first, up to the limit. *)
Definition shown s input (results : list KnowledgeSearchResult) : Prop := ∃ docs, documents_of s docs ∧
  results = take (Z.to_nat (search_limit (Know_Limit input)))
    (stable_sort better_result (omap (local_result (adapter_input input (kb_bases s) docs))
      (List.filter (searchable input (kb_bases s)) docs))).

Lemma search_limit_range limit : (0 < search_limit limit ≤ 10)%Z.
Proof.
  unfold search_limit. rewrite Z.gtb_ltb. destruct (Z.leb_spec limit 0), (Z.ltb_spec 10 limit); cbn [orb]; lia.
Qed.
Lemma LocalSearch_take (input : AdapterSearchInput) : (0 < Adapt_Limit input)%Z → LocalSearch input =
  take (Z.to_nat (Adapt_Limit input)) (stable_sort better_result (omap (local_result input) (Adapt_Documents input))).
Proof.
  intros Hl. unfold LocalSearch. cbn zeta. set (rs := stable_sort _ _). rewrite !Z.gtb_ltb, (proj2 (Z.ltb_lt _ _) Hl). cbn [andb].
  destruct (Z.ltb_spec (Adapt_Limit input) (len rs)); [done|]. rewrite take_ge; [done|]. unfold len in *. lia.
Qed.

Lemma requireAllowed_run question w s : ∃ d w' r, requireAllowed (T:=unit) true question w s = (r, w', s) ∧
  permits s.(kb_permissions) question d.(PermD_Decision) ∧
  (r = Ok tt ∧ d.(PermD_Decision) ∉ [PermissionDecisionDenied; PermissionDecisionApprovalRequired] ∨
   (∃ e, r = Err e) ∧ d.(PermD_Decision) ∈ [PermissionDecisionDenied; PermissionDecisionApprovalRequired]).
Proof.
  destruct (permission_check_ok question w (kb_permissions s)) as (d & w' & E & Hp). exists d, w'.
  unfold requireAllowed, zoom, bind. cbn [negb]. rewrite E.
  replace (s <| kb_permissions := kb_permissions s |>) with s by by destruct s.
  destruct (String.eqb_spec (PermD_Decision d) PermissionDecisionDenied) as [Ed|Ed].
  { eexists. split; [reflexivity|]. split; [done|]. right. rewrite Ed. split; [by eexists|left]. }
  destruct (String.eqb_spec (PermD_Decision d) PermissionDecisionApprovalRequired) as [Ea|Ea].
  { eexists. split; [reflexivity|]. split; [done|]. right. rewrite Ea. split; [by eexists|right; left]. }
  eexists. split; [reflexivity|]. split; [done|]. left. split; [done|].
  rewrite !not_elem_of_cons. split_and!; [done|done|apply not_elem_of_nil].
Qed.
Lemma effect_knowledge_trace tr t ta ru ev payload : effect_only (S:=Knowledge P unit) (knowledge_trace tr t ta ru ev payload).
Proof. unfold knowledge_trace. auto 10 with effects. Qed.
Lemma effect_knowledge_audit t a ac res reason tr ta ru : effect_only (S:=Knowledge P unit) (knowledge_audit t a ac res reason tr ta ru).
Proof. unfold knowledge_audit. auto 10 with effects. Qed.

(** The question of a search is refused, or the search shows what it should; nothing is changed. *)
Lemma search_run input w s : ∃ r w', SearchKnowledge true NoStore input w s = (r, w', s) ∧
  match r with
  | Ok results => shown s input results ∧ ∃ decision, permits s.(kb_permissions) (search_question input) decision ∧
      decision ∉ [PermissionDecisionDenied; PermissionDecisionApprovalRequired]
  | Err _ => Know_TenantID input = "" ∨ TrimSpace (Know_Query input) = "" ∨
      ∃ decision, permits s.(kb_permissions) (search_question input) decision ∧
        decision ∈ [PermissionDecisionDenied; PermissionDecisionApprovalRequired]
  | Panic => False
  end.
Proof.
  unfold SearchKnowledge. destruct (_ || _) eqn:Eb.
  { eexists _, _. split; [reflexivity|]. apply orb_true_iff in Eb as [Eb%String.eqb_eq|Eb%String.eqb_eq]; auto. }
  destruct (requireAllowed_run (search_question input) w s) as (d & w1 & r & E1 & Hp & Hr). unfold bind at 1. rewrite E1.
  destruct Hr as [[-> Hd]|[[e ->] Hd]]; [|eexists _, _; split; [reflexivity|right; right; eauto]].
  destruct (effect_knowledge_trace (Know_TraceID input) (Know_TenantID input) (Know_TaskID input) (Know_RunID input)
    TraceKnowledgeSearchRequested
    {["requester_group_id" := AString input.(Know_RequesterGroupID); "source_group_id" := AString input.(Know_SourceGroupID);
      "allow_cross_group" := ABool input.(Know_AllowCrossGroup); "search_mode" := AString input.(Know_SearchMode);
      "result_count" := AInt 0]} w1 s) as ([] & w2 & E2). unfold recordSearch at 1. rewrite (bind_Ok _ _ _ _ _ _ _ E2).
  destruct (range_map_run (kb_documents s) w2 s) as (l & w3 & E3 & Hl).
  assert (E3' : knowledge_snapshot NoStore (Know_TenantID input) w2 s = (Ok (kb_bases s, map snd l), w3, s)).
  { unfold knowledge_snapshot. rewrite bind_get. by rewrite (bind_Ok _ _ _ _ _ _ _ E3). }
  rewrite (bind_Ok _ _ _ _ _ _ _ E3'). cbn [fst snd]. set (results := LocalSearch _).
  assert (Hshown : shown s input results).
  { exists (map snd l). split; [unfold documents_of; by rewrite Hl|]. unfold results.
    rewrite LocalSearch_take; [done|apply search_limit_range]. }
  clearbody results. unfold recordSearch.
  match goal with |- context [bind (knowledge_trace ?a ?b ?c ?d ?e ?p) _] =>
    destruct (effect_knowledge_trace a b c d e p w3 s) as ([] & w4 & E4) end.
  rewrite (bind_Ok _ _ _ _ _ _ _ E4).
  match goal with |- context [bind (knowledge_audit ?a ?b ?c ?d ?e ?f ?g ?h) _] =>
    destruct (effect_knowledge_audit a b c d e f g h w4 s) as ([] & w5 & E5) end.
  rewrite (bind_Ok _ _ _ _ _ _ _ E5). eexists _, _. split; [reflexivity|]. split; [done|]. by exists (PermD_Decision d).
Qed.

(** A text, without the blanks around it, or a part of it of no more characters than that. *)
Definition part_of (text : string) (most : nat) (part : string) : Prop :=
  (length (runes (TrimSpace text)) ≤ most)%nat ∧ part = TrimSpace text ∨
  ∃ before chars after, runes (TrimSpace text) = before ++ chars ++ after ∧ (length chars ≤ most)%nat ∧ part = of_runes chars.
Lemma snippet_part text query most : part_of text most (snippet text query most).
Proof.
  unfold snippet, part_of. cbv zeta. destruct (String.eqb_spec (TrimSpace text) "") as [->|_]; [left; cbn; split; [lia|done]|].
  destruct (Nat.leb_spec (length (runes (TrimSpace text))) most); [by left|right].
  assert (∀ i, ∃ before chars after, runes (TrimSpace text) = before ++ chars ++ after ∧ (length chars ≤ most)%nat ∧
    of_runes (take most (drop i (runes (TrimSpace text)))) = of_runes chars) as Hpart.
  { intros i. exists (take i (runes (TrimSpace text))), (take most (drop i (runes (TrimSpace text)))), (drop most (drop i (runes (TrimSpace text)))).
    rewrite !take_drop. split_and!; [done|rewrite length_take; lia|done]. }
  destruct (Index _ _); [apply Hpart|]. apply (Hpart 0%nat).
Qed.
(** The result of a document. *)
Record result_of_document (r : KnowledgeSearchResult) (base : KnowledgeBase) (doc : KnowledgeDocument) : Prop := {
  rd_id : KRes_DocumentID r = KDoc_DocumentID doc;
  rd_base : KRes_KnowledgeBaseID r = KDoc_KnowledgeBaseID doc;
  rd_group : KRes_SourceGroupID r = KDoc_SourceGroupID doc;
  rd_title : KRes_Title r = KDoc_Title doc;
  rd_snippet : part_of (KDoc_Content doc) 220 (KRes_Snippet r);
  rd_uri : KRes_SourceURI r = KDoc_SourceURI doc;
  rd_visibility : KRes_Visibility r = firstNonEmpty (KDoc_Visibility doc) (KB_Visibility base);
  rd_score : SFleb (KRes_Score r) float64_zero = false
}.

Lemma take_elem {A} (x : A) n l : x ∈ take n l → x ∈ l.
Proof. rewrite elem_of_take. intros (i & Hi & _). by eapply list_elem_of_lookup_2. Qed.

(** ** The order of results *)

(** The first result may stand before the second: it is not worse, and of two that are as good the first has the lesser id. *)
Definition ranked (a b : KnowledgeSearchResult) : Prop :=
  SFltb (KRes_Score a) (KRes_Score b) = false ∧
  (SFeqb (KRes_Score a) (KRes_Score b) = true → string_lt (KRes_DocumentID b) (KRes_DocumentID a) = false).
Notation scored r := (is_score (KRes_Score r)).

Lemma ranked_iff a b : scored a → scored b → le_of better_result a b ↔ ranked a b.
Proof.
  intros Ha Hb. unfold le_of, better_result, ranked. rewrite (score_eq_sym (KRes_Score b)) by done.
  destruct (SFeqb (KRes_Score a) (KRes_Score b)) eqn:E; [|split; [by intros Hl|by intros [? _]]].
  rewrite (score_eq_not_lt _ _ Ha Hb E). split; [by intros Hl|naive_solver].
Qed.
Lemma ranked_trans a b c : scored a → scored b → scored c → ranked a b → ranked b c → ranked a c.
Proof.
  intros Ha Hb Hc [H1 H2] [H3 H4]. split; [exact (score_le_trans _ _ _ Hc Hb Ha H3 H1)|]. intros He.
  assert (Hab : SFeqb (KRes_Score a) (KRes_Score b) = true).
  { apply score_total; [done..|].
    destruct (score_eq_lt (KRes_Score a) (KRes_Score c) (KRes_Score b) Ha Hc Hb He) as [_ E]. rewrite E. exact H3. }
  assert (Hbc : SFeqb (KRes_Score b) (KRes_Score c) = true).
  { apply score_total; [done..|]. destruct (score_eq_lt (KRes_Score a) (KRes_Score c) (KRes_Score b) Ha Hc Hb He) as [E _]. by rewrite <- E. }
  eapply string_lt_le_trans; [by apply H2|by apply H4].
Qed.
Lemma better_result_asym a b : scored a → scored b → better_result a b = true → le_of better_result a b.
Proof.
  intros Ha Hb. unfold le_of, better_result. rewrite (score_eq_sym (KRes_Score b)) by done.
  destruct (SFeqb _ _); [apply string_lt_asym|by apply score_lt_asym].
Qed.
Lemma sorted_results l : Forall (λ r, scored r) l → StronglySorted ranked (stable_sort better_result l).
Proof.
  intros Hl. assert (Hs : StronglySorted (le_of better_result) (stable_sort better_result l)).
  { apply (stable_sort_Sorted_on (λ r, scored r)); [| |done]; [|apply better_result_asym].
    intros a b c Ha Hb Hc. rewrite !ranked_iff by done. by apply ranked_trans. }
  rewrite <- (stable_sort_perm better_result) in Hl. revert Hl. induction Hs as [|a l' Hs IH Ha]; intros Hl; [constructor|].
  apply Forall_cons in Hl as [Hsa Hl]. constructor; [by apply IH|]. rewrite Forall_forall in *. intros b Hb. apply ranked_iff; auto.
Qed.

(** ** Scores *)

Lemma score_each_score {A} (p : A → bool) by_ xs score : is_score score → is_score by_ → is_score (score_each p by_ xs score).
Proof.
  intros Hs Hb. unfold score_each. revert score Hs. induction xs as [|x xs IH]; intros score Hs; cbn [fold_left]; [done|].
  apply IH. destruct (p x); [by apply score_add|done].
Qed.
Lemma scoreText_score terms text : is_score (scoreText terms text).
Proof.
  unfold scoreText. assert (H1 : is_score (score_each (Contains (ToLower text)) score_term terms float64_zero)) by by apply score_each_score.
  destruct terms as [|term [|]]; [done| |done]. destruct (SFeqb _ _); [by apply score_each_score|done].
Qed.
Lemma local_score_score terms mode doc : is_score (local_score terms mode doc).
Proof.
  unfold local_score. cbv zeta. set (text := _ +:+ _). pose proof (scoreText_score terms text) as H1.
  destruct (mode == KnowledgeSearchEmbedding).
  - unfold embeddingFallbackScore. cbv zeta. destruct (SFltb _ _); [by apply score_mul|].
    enough (∀ ts x, is_score x → is_score (fold_left (λ score term, score_each (ContainsRune (ToLower text))
      score_embedded_rune (runes term) score) ts x)) as Hf by by apply Hf.
    induction ts as [|t ts IH]; intros x Hx; cbn [fold_left]; [done|]. by apply IH, score_each_score.
  - destruct (mode == KnowledgeSearchHybrid); [|done]. apply score_add; [done|]. unfold lexicalProximityScore.
    destruct (_ == ""); [done|by apply score_each_score].
Qed.

(** A document shares a word of the query, or a rune of one. *)
Definition shares_words (query : string) (doc : KnowledgeDocument) : Prop :=
  let text := ToLower (KDoc_Title doc +:+ " " +:+ KDoc_Content doc) in
  ∃ term, term ∈ tokenize query ∧ (Contains text term = true ∨ Contains (ToLower (KDoc_Title doc)) term = true ∨
                                   ∃ r, r ∈ runes term ∧ ContainsRune text r = true).
Lemma score_each_none {A} (p : A → bool) by_ xs score : (∀ x, x ∈ xs → p x = false) → score_each p by_ xs score = score.
Proof.
  unfold score_each. revert score. induction xs as [|x xs IH]; intros score Hp; cbn [fold_left]; [done|].
  rewrite (Hp x) by left. apply IH. intros y Hy. apply Hp. by right.
Qed.
Lemma local_score_shares query mode doc : SFleb (local_score (tokenize query) mode doc) float64_zero = false → shares_words query doc.
Proof.
  intros Hs. destruct (decide (Exists (λ term, Contains (ToLower (KDoc_Title doc +:+ " " +:+ KDoc_Content doc)) term = true ∨
    Contains (ToLower (KDoc_Title doc)) term = true ∨
    Exists (λ r, ContainsRune (ToLower (KDoc_Title doc +:+ " " +:+ KDoc_Content doc)) r = true) (runes term)) (tokenize query))) as [He|Hn].
  { apply Exists_exists in He as (term & Hin & Ht). exists term. split; [done|]. rewrite Exists_exists in Ht. done. }
  exfalso. revert Hs. unfold local_score. cbv zeta. set (text := _ +:+ _) in *. revert Hn. generalize (tokenize query) as terms. intros terms Hn.
  assert (Hc : ∀ term, term ∈ terms → Contains (ToLower text) term = false ∧ Contains (ToLower (KDoc_Title doc)) term = false ∧
    ∀ r, r ∈ runes term → ContainsRune (ToLower text) r = false).
  { intros term Ht. split_and!; [..|intros r Hr]; apply not_true_iff_false; intros Hx; apply Hn, Exists_exists; exists term;
      (split; [done|]); [by left|by right; left|right; right; apply Exists_exists; by exists r]. }
  assert (Hz : scoreText terms text = float64_zero).
  { unfold scoreText. rewrite score_each_none by (intros; by apply Hc). destruct terms as [|term [|]]; [done| |done].
    destruct (SFeqb _ _); [|done]. apply score_each_none. by apply Hc; left. }
  rewrite Hz. destruct (mode == KnowledgeSearchEmbedding).
  - unfold embeddingFallbackScore. rewrite Hz. cbn [SFltb]. change (SFltb float64_zero float64_zero) with false. cbv iota.
    enough (∀ ts, (∀ t, t ∈ ts → t ∈ terms) → fold_left (λ score term, score_each (ContainsRune (ToLower text)) score_embedded_rune
      (runes term) score) ts float64_zero = float64_zero) as -> by done.
    induction ts as [|t ts IH]; intros Hts; cbn [fold_left]; [done|]. rewrite score_each_none by (apply Hc, Hts; left).
    apply IH. intros t' Ht'. apply Hts. by right.
  - destruct (mode == KnowledgeSearchHybrid); [|done]. unfold lexicalProximityScore.
    destruct (_ == ""); [done|]. by rewrite score_each_none by (intros; by apply Hc).
Qed.

(** A word of the query occurs in a document. *)
Definition holds_word (query : string) (doc : KnowledgeDocument) : Prop :=
  ∃ term, term ∈ tokenize query ∧ occurs term (ToLower (KDoc_Title doc +:+ " " +:+ KDoc_Content doc)).
(** A score is a number of times the same part. *)
Fixpoint multiple (by_ x : float64) (n : nat) : float64 := match n with O => x | S n => multiple by_ (float64_add x by_) n end.
Lemma score_each_multiple {A} (p : A → bool) by_ xs score : score_each p by_ xs score = multiple by_ score (length (List.filter p xs)).
Proof.
  unfold score_each. revert score. induction xs as [|x xs IH]; intros score; cbn [fold_left List.filter]; [done|]. rewrite IH. by destruct (p x).
Qed.
(** The first multiples, computed one from the other. *)
Fixpoint multiples (by_ x : float64) (n : nat) : list float64 := match n with O => [x] | S n => x :: multiples by_ (float64_add x by_) n end.
Lemma multiple_in by_ x k n : (k ≤ n)%nat → In (multiple by_ x k) (multiples by_ x n).
Proof.
  revert x k. induction n as [|n IH]; intros x k Hk; [left; by replace k with 0%nat by lia|].
  destruct k as [|k]; [by left|right]. apply (IH (float64_add x by_) k). lia.
Qed.
Definition plainly_positive (x : float64) : bool := negb (SFleb x float64_zero) && negb (SFeqb x float64_zero) && SFltb float64_zero x.
(** Up to a hundred words give positive scores, with whatever their title adds, and as an embedding. *)
Lemma word_scores_positive : forallb (λ x, plainly_positive x && negb (SFleb (float64_mul x embedding_factor) float64_zero) &&
    forallb (λ y, negb (SFleb (float64_add x y) float64_zero)) (multiples score_title float64_zero 100))
  (multiples score_term (float64_add float64_zero score_term) 99) = true.
Proof. by vm_compute. Qed.
Lemma word_score_positive k j : (0 < k ≤ 100)%nat → (j ≤ 100)%nat → let x := multiple score_term float64_zero k in
  plainly_positive x = true ∧ SFleb (float64_mul x embedding_factor) float64_zero = false ∧
  SFleb (float64_add x (multiple score_title float64_zero j)) float64_zero = false.
Proof.
  intros Hk Hj. pose proof word_scores_positive as Hall. rewrite forallb_forall in Hall. destruct k as [|k]; [lia|]. cbn [multiple].
  specialize (Hall _ (multiple_in score_term (float64_add float64_zero score_term) k 99 ltac:(lia))).
  apply andb_true_iff in Hall as [[Hp Hm%negb_true_iff]%andb_true_iff Hy]. rewrite forallb_forall in Hy.
  specialize (Hy _ (multiple_in score_title float64_zero j 100 Hj)). apply negb_true_iff in Hy. done.
Qed.
Lemma holds_word_score query mode doc : (length (tokenize query) ≤ 100)%nat → holds_word query doc →
  SFleb (local_score (tokenize query) mode doc) float64_zero = false.
Proof.
  intros Hl (term & Hin & Hocc). unfold local_score. cbv zeta. unfold lexicalProximityScore, embeddingFallbackScore, scoreText. cbv zeta.
  set (text := KDoc_Title doc +:+ " " +:+ KDoc_Content doc) in *. rewrite !score_each_multiple.
  set (k := length (List.filter (Contains (ToLower text)) (tokenize query))).
  set (j := length (List.filter (Contains (ToLower (KDoc_Title doc))) (tokenize query))).
  assert (0 < k ≤ 100)%nat as Hk.
  { subst k. split; [|etrans; [apply List.filter_length_le|done]].
    assert (In term (List.filter (Contains (ToLower text)) (tokenize query))) as Hf
      by (apply filter_In; split; [by apply list_elem_of_In|by apply occurs_iff]).
    revert Hf. destruct (List.filter (Contains (ToLower text)) (tokenize query)); [by intros []|cbn; lia]. }
  assert (j ≤ 100)%nat as Hj by (etrans; [apply List.filter_length_le|done]).
  destruct (word_score_positive k j Hk Hj) as (Hp & Hm & Ht). destruct (word_score_positive k 0 Hk ltac:(lia)) as (_ & _ & Ht0).
  set (x := multiple score_term float64_zero k) in *. apply andb_true_iff in Hp as [[Hle%negb_true_iff Heq%negb_true_iff]%andb_true_iff Hlt].
  assert ((match tokenize query with [t] => if SFeqb x float64_zero then score_each (ContainsRune (ToLower text)) score_rune (runes t) x else x
    | _ => x end) = x) as Hx by (destruct (tokenize query) as [|t [|]]; [done|by rewrite Heq|done]).
  rewrite Hx, Hlt. destruct (mode == KnowledgeSearchEmbedding); [done|]. destruct (mode == KnowledgeSearchHybrid); [|done].
  destruct (KDoc_Title doc == ""); [exact Ht0|exact Ht].
Qed.

(** How well a document answers a request. *)
Definition match_score (input : KnowledgeInput) (mode : string) (doc : KnowledgeDocument) : float64 :=
  local_score (tokenize (Know_Query input)) mode doc.
(** A document answers a request if it has a score, and surely if a word of a query of at most 100 words occurs in it. *)
Definition answers (input : KnowledgeInput) (mode : string) (doc : KnowledgeDocument) : Prop :=
  SFleb (match_score input mode doc) float64_zero = false ∨
  ((length (tokenize (Know_Query input)) ≤ 100)%nat ∧ holds_word (Know_Query input) doc).
Lemma answers_score input mode doc : answers input mode doc → SFleb (match_score input mode doc) float64_zero = false.
Proof. intros [?|[? ?]]; [done|by apply holds_word_score]. Qed.
(** A result of a document that the request sees, with its score, which comes from a word they share. *)
Definition result_for s input (mode : string) (r : KnowledgeSearchResult) : Prop :=
  KRes_SearchMode r = mode ∧ ∃ id doc base, kb_documents s !! id = Some doc ∧ sees s input base doc ∧ result_of_document r base doc ∧
    KRes_Score r = match_score input mode doc ∧ shares_words (Know_Query input) doc.

Lemma shown_visible s input results : shown s input results →
  (len results ≤ search_limit (Know_Limit input))%Z ∧ StronglySorted ranked results ∧
  ∃ mode, (∀ r, r ∈ results → result_for s input mode r) ∧
    (∀ id doc base, kb_documents s !! id = Some doc → sees s input base doc →
     answers input mode doc →
     (∃ r, r ∈ results ∧ result_of_document r base doc) ∨
     len results = search_limit (Know_Limit input) ∧ ∀ r, r ∈ results → SFltb (KRes_Score r) (match_score input mode doc) = false).
Proof.
  intros (docs & Hdocs & ->). set (ai := adapter_input _ _ _). pose proof (search_limit_range (Know_Limit input)) as Hl.
  assert (Hin : ∀ doc, doc ∈ docs ↔ ∃ id, kb_documents s !! id = Some doc).
  { intros doc. unfold documents_of in Hdocs. rewrite Hdocs, elem_of_map_snd. by setoid_rewrite elem_of_map_to_list. }
  assert (Hres : ∀ doc base, kb_bases s !! KDoc_KnowledgeBaseID doc = Some base → ∀ r, local_result ai doc = Some r →
    result_of_document r base doc ∧ KRes_SearchMode r = Adapt_SearchMode ai ∧
    KRes_Score r = match_score input (Adapt_SearchMode ai) doc ∧ shares_words (Know_Query input) doc).
  { intros doc base Hb r. unfold local_result. change (Adapt_Bases ai) with (kb_bases s). rewrite Hb.
    destruct (SFleb _ _) eqn:Es; [done|]. intros [= <-]. split_and!; [|done|done|by eapply local_score_shares].
    constructor; try done. apply snippet_part. }
  set (found := omap (local_result ai) (List.filter (searchable input (kb_bases s)) docs)).
  assert (Hfound : ∀ r, r ∈ found → ∃ id doc base, kb_documents s !! id = Some doc ∧ sees s input base doc ∧ local_result ai doc = Some r).
  { intros r (doc & Hd & Hr)%list_elem_of_omap. apply list_elem_of_In, filter_In in Hd as [Hd%list_elem_of_In [base Hs]%searchable_iff].
    apply Hin in Hd as [id Hid]. by exists id, doc, base. }
  assert (Hscored : Forall (λ r, scored r) found).
  { apply Forall_forall. intros r (id & doc & base & _ & Hs & Hr)%Hfound.
    destruct (Hres doc base (see_base _ _ _ _ Hs) r Hr) as (_ & _ & -> & _). apply local_score_score. }
  pose proof (sorted_results found Hscored) as Hsort.
  split; [unfold len; rewrite length_take; lia|]. split; [by apply sorted_take|]. exists (Adapt_SearchMode ai). split.
  - intros r Hr%take_elem. apply stable_sort_elem, Hfound in Hr as (id & doc & base & Hid & Hs & Hr).
    destruct (Hres doc base (see_base _ _ _ _ Hs) r Hr) as (H1 & H2 & H3 & H4). split; [done|]. by exists id, doc, base.
  - intros id doc base Hid Hs Hscore%answers_score.
    assert (Hr : ∃ r, local_result ai doc = Some r).
    { unfold local_result. change (Adapt_Bases ai) with (kb_bases s). rewrite (see_base _ _ _ _ Hs).
      change (local_score _ _ doc) with (match_score input (Adapt_SearchMode ai) doc). rewrite Hscore. by eexists. }
    destruct Hr as [r Er]. destruct (Hres doc base (see_base _ _ _ _ Hs) r Er) as (Hd & _ & Hsc & _).
    assert (Hrin : r ∈ stable_sort better_result found).
    { apply stable_sort_elem, list_elem_of_omap. exists doc. split; [|done]. apply list_elem_of_In, filter_In.
      split; [apply list_elem_of_In, Hin; eauto|]. apply searchable_iff; eauto. }
    destruct (sorted_take_drop _ (Z.to_nat (search_limit (Know_Limit input))) _ _ Hsort Hrin) as [Ht|[Hfull Hbest]]; [left; by exists r|right].
    split; [unfold len; rewrite length_take; lia|]. intros r' Hr'. rewrite <- Hsc. by apply Hbest.
Qed.

(** C24. A search changes nothing.  It is refused for a request without a tenant or a query and for one that the
    permissions deny or want approved; otherwise it answers with at most ten results, the best ones first and of equal
    ones the one with the least id; each shows a part of a document that the request may see and that shares a word with the query.
    A document that the request may see and that has a score - surely one in which a word of the query occurs - is left
    out only if the answer is full, and then no result is worse than it. *)
Theorem search_shows input w s : ∃ r w', SearchKnowledge true NoStore input w s = (r, w', s) ∧
  match r with
  | Ok results =>
      (∃ decision, permits s.(kb_permissions) (search_question input) decision ∧
         decision ∉ [PermissionDecisionDenied; PermissionDecisionApprovalRequired]) ∧
      (len results ≤ search_limit (Know_Limit input))%Z ∧ StronglySorted ranked results ∧
      ∃ mode, (∀ r, r ∈ results → result_for s input mode r) ∧
        (∀ id doc base, kb_documents s !! id = Some doc → sees s input base doc →
         answers input mode doc →
         (∃ r, r ∈ results ∧ result_of_document r base doc) ∨
         len results = search_limit (Know_Limit input) ∧ ∀ r, r ∈ results → SFltb (KRes_Score r) (match_score input mode doc) = false)
  | Err _ => Know_TenantID input = "" ∨ TrimSpace (Know_Query input) = "" ∨
      ∃ decision, permits s.(kb_permissions) (search_question input) decision ∧
        decision ∈ [PermissionDecisionDenied; PermissionDecisionApprovalRequired]
  | Panic => False
  end.
Proof.
  destruct (search_run input w s) as (r & w' & E & Hr). exists r, w'. split; [done|]. destruct r as [results|e|]; [|done..].
  destruct Hr as [Hs Hp]. split; [done|]. by apply shown_visible.
Qed.
End searches.

(** ** What the service promises to those who search

    A search changes nothing, and its results are of documents of the bases and of the group that it asks for. *)
Class KnowledgeService (K : Type) := {
  knowledge_Search : KnowledgeInput → M K (list KnowledgeSearchResult);
  from_group : K → KnowledgeSearchResult → string → Prop;
  knowledge_Search_ok : ∀ input w k, ∃ r w', knowledge_Search input w k = (r, w', k) ∧ r ≠ Panic ∧
    ∀ results, r = Ok results → ∀ x, x ∈ results →
      (Know_KnowledgeBaseIDs input = [] ∨ KRes_KnowledgeBaseID x ∈ Know_KnowledgeBaseIDs input) ∧
      (Know_SourceGroupID input ≠ "" → from_group k x (Know_SourceGroupID input))
}.

(** A result is of a document of the group. *)
Definition document_from {P} (s : Knowledge P unit) (x : KnowledgeSearchResult) (group : string) : Prop :=
  ∃ id doc base, kb_documents s !! id = Some doc ∧ kb_bases s !! KDoc_KnowledgeBaseID doc = Some base ∧
    result_of_document x base doc ∧ document_group base doc = group.
#[export] Program Instance knowledge_service `{Env} {P} `{PermissionChecker P} : KnowledgeService (Knowledge P unit) := {|
  knowledge_Search := SearchKnowledge true None;
  from_group := document_from
|}.
Next Obligation.
  intros ? P ? input w s. destruct (search_run input w s) as (r & w' & E & Hr). exists r, w'. split; [done|].
  split; [by destruct r|]. intros results -> x Hx. destruct Hr as [Hs _]. apply shown_visible in Hs as (_ & _ & mode & Hv & _).
  destruct (Hv x Hx) as [_ (id & doc & base & Hid & [] & Hd & _)]. split.
  - rewrite (rd_base _ _ _ Hd). done.
  - intros Hne. exists id, doc, base. by destruct see_source0.
Qed.

(** ** Histories *)
Section demo.
Let env : Env := test_env.
#[local] Existing Instance env.
Notation NoStore := (None : option (KnowledgeStoreOps unit)).

Definition demo_knowledge : Knowledge (Permissions unit) unit := mkKnowledge ∅ ∅ ∅ (mkPermissions [] tt) tt.
Definition know_call {A} (m : M (Knowledge (Permissions unit) unit) A) (c : World * Knowledge (Permissions unit) unit) :=
  match m c.1 c.2 with (_, w, s) => (w, s) end.
Definition demo_create (tenantID groupID visibility : string) : CreateKnowledgeBaseInput :=
  mkCreateKnowledgeBaseInput tenantID groupID "ann" ["admin"] "handbook" visibility "" "" "" "" "".
Definition demo_document (tenantID baseID : string) : KnowledgeDocument :=
  zeroKnowledgeDocument <| KDoc_TenantID := tenantID |> <| KDoc_KnowledgeBaseID := baseID |> <| KDoc_Title := "Leave" |>
    <| KDoc_Content := "Ask ann@acme.org or call 5551234." |>.
Definition demo_filled : World * Knowledge (Permissions unit) unit :=
  know_call (IngestDocument NoStore (demo_document "acme" "kb_1"))
    (know_call (CreateKnowledgeBase true NoStore (demo_create "acme" "hr" VisibilitySharedGroups)) (world0, demo_knowledge)).
Definition demo_ask (tenantID groupID : string) (cross : bool) : KnowledgeInput :=
  mkKnowledgeInput tenantID groupID "bob" ["admin"] "leave" [] "" 0 cross "" "" "" "".
Definition found_titles (r : Res (list KnowledgeSearchResult)) : option (list string) :=
  match r with Ok results => Some (map KRes_Title results) | _ => None end.

(** Another group of the tenant sees a shared document only across groups. *)
Example shared_across_groups :
  found_titles (SearchKnowledge true NoStore (demo_ask "acme" "hr" false) world0 demo_filled.2).1.1 = Some ["Leave"] ∧
  found_titles (SearchKnowledge true NoStore (demo_ask "acme" "dev" false) world0 demo_filled.2).1.1 = Some [] ∧
  found_titles (SearchKnowledge true NoStore (demo_ask "acme" "dev" true) world0 demo_filled.2).1.1 = Some ["Leave"].
Proof. vm_compute. split_and!; reflexivity. Qed.

(** Without a store, a tenant lists the bases of all tenants, and adds documents to them: a base then counts
    the documents of the tenant that came last. *)
Example other_tenants_bases :
  match (ListKnowledgeBases NoStore "evil" "" world0 demo_filled.2).1.1 with
  | Ok bases => map (λ b, (KB_TenantID b, KB_DocumentCount b)) bases | _ => [] end = [("acme", 1%Z)] ∧
  KB_DocumentCount <$> kb_bases (know_call (IngestDocument NoStore (demo_document "evil" "kb_1"))
    (know_call (IngestDocument NoStore (demo_document "acme" "kb_1")) demo_filled)).2 !! "kb_1" = Some 1%Z.
Proof. vm_compute. split_and!; reflexivity. Qed.
End demo.
