(* ===== verification/CrossGroup.v ===== *)
(** * Searching the knowledge of another group: internal/crossgroup/service.go

    Policies by which a group shares its knowledge bases with another one, and the search across groups: behind the
    permissions and a policy, over any [KnowledgeService], with what is found redacted as the policies say. *)

From stdpp Require Import base list strings gmap fin_maps sorting.
From Stdlib Require Import Ascii Lia.
From S2P Require Import Prelude Contracts GoMonad Storage Policies Permission HandoffPackage Discovery Text Knowledge.
Open Scope go_scope.
Open Scope string_scope.
Open Scope list_scope.

Record CrossInput := mkCrossInput {
  Cross_TenantID : string;
  Cross_RequestGroupID : string;
  Cross_SourceGroupID : string;
  Cross_RequestedBy : string;
  Cross_Roles : list string;
  Cross_Query : string;
  Cross_Limit : Z;
  Cross_TraceID : string;
  Cross_TaskID : string;
  Cross_RunID : string
}.

(** [Store] *)
Record ShareStoreOps (T : Type) := mkShareStoreOps {
  share_Save : CrossGroupSharePolicy → M T unit;
  share_Get : string → string → M T (option CrossGroupSharePolicy);
  share_List : string → string → string → M T (list CrossGroupSharePolicy)
}.
Arguments share_Save {T}. Arguments share_Get {T}. Arguments share_List {T}.

(** [Service], with the states of what it is wired with. *)
Record CrossGroup (K P T : Type) := mkCrossGroup {
  cg_Policies : gmap string CrossGroupSharePolicy;
  cg_Knowledge : K;
  cg_Permissions : P;
  cg_Stored : T
}.
Arguments mkCrossGroup {K P T}. Arguments cg_Policies {K P T}. Arguments cg_Knowledge {K P T}.
Arguments cg_Permissions {K P T}. Arguments cg_Stored {K P T}.
#[export] Instance eta_CrossGroup {K P T} : Settable (CrossGroup K P T) :=
  fields! mkCrossGroup < cg_Policies ; cg_Knowledge ; cg_Permissions ; cg_Stored >.

(** ** What the policies say *)

(** The bases that the policies name, no restriction as soon as one of them names none. *)
Fixpoint named_bases (seen : list string) (policies : list CrossGroupSharePolicy) : option (list string) :=
  match policies with
  | [] => Some []
  | policy :: policies =>
      if negb (nonempty policy.(Share_KnowledgeBaseIDs)) then None else
      let new := distinct seen policy.(Share_KnowledgeBaseIDs) in
      option_map (app new) (named_bases (new ++ seen) policies)
  end.
Definition allowedKnowledgeBaseIDs (policies : list CrossGroupSharePolicy) : list string :=
  match named_bases [] policies with None => [] | Some ids => stable_sort string_lt ids end.
Definition sharePolicyIDs (policies : list CrossGroupSharePolicy) : list string :=
  stable_sort string_lt (map Share_PolicyID policies).

Definition redaction_priority (policy : string) : Z :=
  if policy == RedactionPolicySummaryOnly then 1 else if policy == RedactionPolicyMaskEmails then 2
  else if policy == RedactionPolicyMaskNumbers then 2 else if policy == RedactionPolicyStrict then 3 else 0.
Definition strongestRedactionPolicy (policies : list CrossGroupSharePolicy) : string :=
  fold_left (λ best policy,
    if (redaction_priority policy.(Share_RedactionPolicy) >? redaction_priority best)%Z
    then policy.(Share_RedactionPolicy) else best) policies RedactionPolicySummaryOnly.

(** *** Masks *)

Definition emailPattern : list piece :=
  [Rep 1 (λ c, is_letter c || is_digit c || one_of ["."; "_"; "%"; "+"; "-"]%char c); One (Ascii.eqb "@");
   Rep 1 (λ c, is_letter c || is_digit c || one_of ["."; "-"]%char c); One (Ascii.eqb "."); Rep 2 is_letter].
Definition numberPattern : list piece := [Bound; Rep 3 is_digit; Bound].
Definition maskEmails (value : string) : string := ReplaceAllString emailPattern value "[redacted-email]".
Definition maskNumbers (value : string) : string := ReplaceAllString numberPattern value "[redacted-number]".

Definition redact (policy : string) (result : KnowledgeSearchResult) : KnowledgeSearchResult :=
  let result := result <| KRes_Redacted := true |> <| KRes_RedactionPolicy := policy |> in
  if policy == RedactionPolicyStrict then
    result <| KRes_Title := "redacted" |> <| KRes_Snippet := "[redacted shared knowledge]" |> <| KRes_SourceURI := "" |>
  else if policy == RedactionPolicyMaskEmails then
    result <| KRes_Title := maskEmails result.(KRes_Title) |>
           <| KRes_Snippet := truncate_runes (maskEmails result.(KRes_Snippet)) 180 |>
  else if policy == RedactionPolicyMaskNumbers then
    result <| KRes_Title := maskNumbers result.(KRes_Title) |>
           <| KRes_Snippet := truncate_runes (maskNumbers result.(KRes_Snippet)) 180 |>
  else result <| KRes_Snippet := truncate_runes result.(KRes_Snippet) 180 |> <| KRes_SourceURI := "" |>.
Definition redactResults (results : list KnowledgeSearchResult) (policy : string) : list KnowledgeSearchResult :=
  map (redact policy) results.

Definition newer_policy (a b : CrossGroupSharePolicy) : bool :=
  if Equal a.(Share_UpdatedAt) b.(Share_UpdatedAt) then string_lt a.(Share_PolicyID) b.(Share_PolicyID)
  else After a.(Share_UpdatedAt) b.(Share_UpdatedAt).
Definition shares (tenantID sourceGroupID targetGroupID : string) (policy : CrossGroupSharePolicy) : bool :=
  (policy.(Share_TenantID) == tenantID) && ((sourceGroupID == "") || (policy.(Share_SourceGroupID) == sourceGroupID)) &&
  ((targetGroupID == "") || (policy.(Share_TargetGroupID) == targetGroupID)).

(** ** The service *)
Section service.
(** Whether it has a checker of permissions and a knowledge service. *)
Context `{Env} {K P T : Type} `{KnowledgeService K} `{PermissionChecker P} (configured has_knowledge : bool)
  (store : option (ShareStoreOps T)).
Notation GM := (M (CrossGroup K P T)).

Definition on_share_store {A} (m : M T A) : GM A := zoom cg_Stored (λ t s, s <| cg_Stored := t |>) m.

Definition cross_trace (input : CrossInput) (eventType : string) (payload : gmap string Any) : GM unit :=
  if input.(Cross_TraceID) == "" then ret tt else with_trace (
    let! span := idgen_New "span" in
    let! now := now in
    trace_Record (zeroTraceEvent
      <| Trace_TraceID := input.(Cross_TraceID) |> <| Trace_TenantID := input.(Cross_TenantID) |> <| Trace_SpanID := span |>
      <| Trace_RunID := input.(Cross_RunID) |> <| Trace_TaskID := input.(Cross_TaskID) |> <| Trace_Type := eventType |>
      <| Trace_Payload := <["source_group_id" := AString input.(Cross_SourceGroupID)]>
           (<["request_group_id" := AString input.(Cross_RequestGroupID)]> payload) |>
      <| Trace_CreatedAt := now |>)).
Definition cross_audit (tenantID actorID resourceType resourceID decision reason traceID taskID runID : string) : GM unit :=
  with_audit (
    let! id := idgen_New "audit" in
    let! now := now in
    audit_Log (zeroAuditEvent
      <| Audit_AuditID := id |> <| Audit_TenantID := tenantID |> <| Audit_ActorID := actorID |>
      <| Audit_ActorType := "member" |> <| Audit_Action := AuditCrossGroupSearch |>
      <| Audit_ResourceType := resourceType |> <| Audit_ResourceID := resourceID |> <| Audit_Decision := decision |>
      <| Audit_Reason := reason |> <| Audit_TraceID := traceID |> <| Audit_TaskID := taskID |> <| Audit_RunID := runID |>
      <| Audit_CreatedAt := now |>)).
Definition audit_search (input : CrossInput) (decision reason : string) : GM unit :=
  cross_audit input.(Cross_TenantID) input.(Cross_RequestedBy) "group" input.(Cross_SourceGroupID) decision reason
    input.(Cross_TraceID) input.(Cross_TaskID) input.(Cross_RunID).
Definition auditPolicy (policy : CrossGroupSharePolicy) (decision reason : string) : GM unit :=
  cross_audit policy.(Share_TenantID) policy.(Share_CreatedBy) "cross_group_share_policy" policy.(Share_PolicyID)
    decision reason "" "" "".

Definition UpsertSharePolicy (policy : CrossGroupSharePolicy) : GM CrossGroupSharePolicy :=
  if (policy.(Share_TenantID) == "") || (policy.(Share_SourceGroupID) == "") || (policy.(Share_TargetGroupID) == "") then
    throw (Errorf "tenant_id, source_group_id and target_group_id are required" []) else
  let! policy := (if policy.(Share_PolicyID) == "" then let! id := idgen_New "cgshare" in ret (policy <| Share_PolicyID := id |>)
                  else ret policy) in
  let policy := policy
    <| Share_RedactionPolicy := firstNonEmpty policy.(Share_RedactionPolicy) RedactionPolicySummaryOnly |>
    <| Share_Status := firstNonEmpty policy.(Share_Status) CrossGroupShareEnabled |> in
  let! now := now in
  let policy := policy <| Share_CreatedAt := if IsZero policy.(Share_CreatedAt) then now else policy.(Share_CreatedAt) |>
                       <| Share_UpdatedAt := now |> in
  do! match store with Some store => on_share_store (store.(share_Save) policy) | None => ret tt end in
  let! s := get in
  do! put (s <| cg_Policies := <[policy.(Share_PolicyID) := policy]> s.(cg_Policies) |>) in
  do! auditPolicy policy "allowed" "policy_upsert" in
  ret policy.
Definition GetSharePolicy (tenantID policyID : string) : GM (option CrossGroupSharePolicy) :=
  match store with
  | Some store => on_share_store (store.(share_Get) tenantID policyID)
  | None =>
      let! s := get in
      ret (List.find (λ policy, policy.(Share_TenantID) == tenantID) (option_list (s.(cg_Policies) !! policyID)))
  end.
Definition ListSharePolicies (tenantID sourceGroupID targetGroupID : string) : GM (list CrossGroupSharePolicy) :=
  match store with
  | Some store => on_share_store (store.(share_List) tenantID sourceGroupID targetGroupID)
  | None =>
      let! s := get in
      let! entries := range_map s.(cg_Policies) in
      ret (stable_sort newer_policy (List.filter (shares tenantID sourceGroupID targetGroupID) (map snd entries)))
  end.
Definition matchingPolicies (input : CrossInput) : GM (list CrossGroupSharePolicy) :=
  let! policies := ListSharePolicies input.(Cross_TenantID) input.(Cross_SourceGroupID) input.(Cross_RequestGroupID) in
  ret (List.filter (λ policy, policy.(Share_Status) == CrossGroupShareEnabled) policies).

Definition cross_question (input : CrossInput) : PermissionCheckInput :=
  zeroPermissionCheckInput
    <| Check_TenantID := input.(Cross_TenantID) |> <| Check_GroupID := input.(Cross_RequestGroupID) |>
    <| Check_ActorID := input.(Cross_RequestedBy) |> <| Check_ActorType := "member" |>
    <| Check_Roles := input.(Cross_Roles) |> <| Check_Action := PermissionActionCrossGroupSearch |>
    <| Check_ResourceType := "group" |> <| Check_ResourceID := input.(Cross_SourceGroupID) |>
    <| Check_ResourceScope := input.(Cross_SourceGroupID) |> <| Check_TraceID := input.(Cross_TraceID) |>
    <| Check_TaskID := input.(Cross_TaskID) |> <| Check_RunID := input.(Cross_RunID) |>.
(** A refusal is traced and audited. *)
Definition refuse_search {A} (input : CrossInput) (decision reason message : string) : GM A :=
  do! cross_trace input TraceCrossGroupSearchDenied
        {["decision" := AString decision; "reason_code" := AString reason]} in
  do! audit_search input decision reason in
  throw (ErrRuntime (NewRuntimeError CodeToolPolicyDenied message {["reason_code" := AString reason]})).
Definition check_cross (input : CrossInput) : GM unit :=
  if negb configured then ret tt else
  let! d := zoom cg_Permissions (λ p s, s <| cg_Permissions := p |>) (permission_check (cross_question input)) in
  if d.(PermD_Decision) != PermissionDecisionAllowed
  then refuse_search input d.(PermD_Decision) d.(PermD_ReasonCode) d.(PermD_Reason) else ret tt.
Definition knowledge_question (input : CrossInput) (policies : list CrossGroupSharePolicy) : KnowledgeInput :=
  mkKnowledgeInput input.(Cross_TenantID) input.(Cross_RequestGroupID) input.(Cross_RequestedBy) input.(Cross_Roles)
    input.(Cross_Query) (allowedKnowledgeBaseIDs policies) input.(Cross_SourceGroupID) input.(Cross_Limit) true ""
    input.(Cross_TraceID) input.(Cross_TaskID) input.(Cross_RunID).
Definition incomplete (input : CrossInput) : bool :=
  (input.(Cross_TenantID) == "") || (input.(Cross_RequestGroupID) == "") || (input.(Cross_SourceGroupID) == "") ||
  (input.(Cross_Query) == "").

Definition SearchAcross (input : CrossInput) : GM (list KnowledgeSearchResult) :=
  if incomplete input then throw (Errorf "tenant_id, request_group_id, source_group_id and query are required" []) else
  do! cross_trace input TraceCrossGroupSearchRequested {["query" := AString input.(Cross_Query)]} in
  do! check_cross input in
  if negb has_knowledge then throw (Errorf "knowledge service is not configured" []) else
  let! policies := matchingPolicies input in
  if negb (nonempty policies) then
    refuse_search input "denied" "no_share_policy" "no enabled cross-group share policy"
  else
    let! results := zoom cg_Knowledge (λ k s, s <| cg_Knowledge := k |>) (knowledge_Search (knowledge_question input policies)) in
    let redactionPolicy := strongestRedactionPolicy policies in
    let results := redactResults results redactionPolicy in
    do! cross_trace input TraceCrossGroupSearchCompleted
          {["result_count" := AInt (len results); "share_policy_ids" := AStrings (sharePolicyIDs policies);
            "redaction_policy" := AString redactionPolicy]} in
    do! audit_search input "allowed"
          (Sprintf "results=%d policies=%s" [fmt_d (len results); String.concat "," (sharePolicyIDs policies)]) in
    ret results.
End service.

Example masked_emails : map maskEmails ["write ann.b+c@mail.acme.org, now"; "a@b.c x@y.zz.q"; "no at sign"; "a@b.cc@d.ee"]
  = ["write [redacted-email], now"; "a@b.c [redacted-email].q"; "no at sign"; "[redacted-email]@d.ee"].
Proof. vm_compute. reflexivity. Qed.
(** Digits that touch a letter are no number. *)
Example masked_numbers : map maskNumbers ["call 5551234."; "42 1234"; "tel13800138000"; "+49-123-45"]
  = ["call [redacted-number]."; "42 [redacted-number]"; "tel13800138000"; "+49-[redacted-number]-45"].
Proof. vm_compute. reflexivity. Qed.

(** ** What is found across groups *)

Section guarded.
Context `{Env} {K P : Type} `{KnowledgeService K} `{PermissionChecker P}.
Notation NoStore := (None : option (ShareStoreOps unit)).
Implicit Types (s : CrossGroup K P unit) (input : CrossInput) (x y : KnowledgeSearchResult).

(** An enabled policy by which the source group shares with the one that asks. *)
Definition covers s input (policy : CrossGroupSharePolicy) : Prop :=
  (∃ id, cg_Policies s !! id = Some policy) ∧ Share_TenantID policy = Cross_TenantID input ∧
  Share_SourceGroupID policy = Cross_SourceGroupID input ∧ Share_TargetGroupID policy = Cross_RequestGroupID input ∧
  Share_Status policy = CrossGroupShareEnabled.

(** The bases that the policies open: all of them where one of the policies names none, or none of them names any but
    empty identifiers. *)
Definition opened s input (base : string) : Prop :=
  (∃ policy, covers s input policy ∧ (Share_KnowledgeBaseIDs policy = [] ∨ base ∈ Share_KnowledgeBaseIDs policy)) ∨
  (∀ policy, covers s input policy → Forall (λ id, id = "") (Share_KnowledgeBaseIDs policy)).

(** A result as it is shown under a policy of redaction. *)
Record redacted_as (policy : string) x : Prop := {
  ra_marked : KRes_Redacted x = true ∧ KRes_RedactionPolicy x = policy;
  ra_strict : policy = RedactionPolicyStrict →
    KRes_Title x = "redacted" ∧ KRes_Snippet x = "[redacted shared knowledge]" ∧ KRes_SourceURI x = "";
  ra_short : (length (runes (KRes_Snippet x)) ≤ 180)%nat;
  ra_source : policy ∉ [RedactionPolicyMaskEmails; RedactionPolicyMaskNumbers] → KRes_SourceURI x = ""
}.
Lemma redact_ok policy y : redacted_as policy (redact policy y).
Proof.
  unfold redact. cbn zeta.
  destruct (String.eqb_spec policy RedactionPolicyStrict) as [->|Hs].
  { split; [done|done| |done]. vm_compute. lia. }
  destruct (String.eqb_spec policy RedactionPolicyMaskEmails) as [->|He].
  { split; [done|done|by apply truncate_bounded|]. intros []. left. }
  destruct (String.eqb_spec policy RedactionPolicyMaskNumbers) as [->|Hn].
  { split; [done|done|by apply truncate_bounded|]. intros []. right. left. }
  split; [done|done|by apply truncate_bounded|done].
Qed.

(** No policy is stricter than the one that is applied. *)
Lemma strongest_max policies policy : policy ∈ policies →
  (redaction_priority (Share_RedactionPolicy policy) ≤ redaction_priority (strongestRedactionPolicy policies))%Z.
Proof.
  unfold strongestRedactionPolicy. generalize RedactionPolicySummaryOnly as best.
  assert (Hmono : ∀ ps best, (redaction_priority best ≤ redaction_priority (fold_left (λ best policy,
    if (redaction_priority (Share_RedactionPolicy policy) >? redaction_priority best)%Z
    then Share_RedactionPolicy policy else best) ps best))%Z).
  { induction ps as [|p ps IH]; intros best; cbn; [lia|]. etrans; [|apply IH]. rewrite Z.gtb_ltb.
    destruct (Z.ltb_spec (redaction_priority best) (redaction_priority (Share_RedactionPolicy p))); lia. }
  induction policies as [|p ps IH]; intros best; [by intros ?%not_elem_of_nil|]. cbn. intros [->|Hp]%elem_of_cons; [|by apply IH].
  etrans; [|apply Hmono]. rewrite Z.gtb_ltb.
  destruct (Z.ltb_spec (redaction_priority best) (redaction_priority (Share_RedactionPolicy p))); lia.
Qed.
Lemma strongest_strict policies policy : policy ∈ policies → Share_RedactionPolicy policy = RedactionPolicyStrict →
  strongestRedactionPolicy policies = RedactionPolicyStrict.
Proof.
  intros Hp%strongest_max E. rewrite E in Hp. change (redaction_priority RedactionPolicyStrict) with 3%Z in Hp.
  unfold redaction_priority in Hp. destruct (String.eqb_spec (strongestRedactionPolicy policies) RedactionPolicyStrict); [done|].
  repeat case_match; lia.
Qed.

Lemma distinct_elem seen values v : v ∈ distinct seen values ↔ v ∈ values ∧ v ≠ "" ∧ v ∉ seen.
Proof.
  revert seen. induction values as [|x values IH]; intros seen; cbn; [rewrite elem_of_nil; tauto|].
  destruct (String.eqb_spec x "") as [->|Hx]; cbn [orb].
  { rewrite IH, elem_of_cons. split; [tauto|]. intros ([->|?] & ? & ?); [done|tauto]. }
  destruct (mem_string x seen) eqn:Em.
  - apply mem_string_elem in Em. rewrite IH, elem_of_cons. split; [tauto|]. intros ([->|?] & ? & ?); tauto.
  - apply mem_string_false in Em. rewrite elem_of_cons, IH, !not_elem_of_cons, elem_of_cons. split.
    + intros [->|(? & ? & ? & ?)]; tauto.
    + intros ([->|?] & ? & ?); [by left|]. destruct (decide (v = x)); [by left|right; tauto].
Qed.
Lemma named_bases_elem policies seen ids : named_bases seen policies = Some ids →
  ∀ id, id ∈ ids ↔ id ≠ "" ∧ id ∉ seen ∧ ∃ policy, policy ∈ policies ∧ id ∈ Share_KnowledgeBaseIDs policy.
Proof.
  revert seen ids. induction policies as [|p ps IH]; intros seen ids; cbn.
  { intros [= <-] id. rewrite elem_of_nil. split; [done|]. intros (_ & _ & q & Hq & _). by apply not_elem_of_nil in Hq. }
  destruct (negb _); [done|]. destruct (named_bases _ ps) as [rest|] eqn:E; [|done]. intros [= <-] id.
  rewrite elem_of_app, distinct_elem, (IH _ _ E), not_elem_of_app, distinct_elem. split.
  - intros [(? & ? & ?)|(? & [? ?] & q & ? & ?)]; (split; [done|split; [done|]]); [exists p|exists q]; (split; [|done]); [left|by right].
  - intros (Hne & Hs & q & [->|Hq]%elem_of_cons & Hid); [by left|].
    destruct (decide (id ∈ Share_KnowledgeBaseIDs p)); [by left|right]. split; [done|]. split; [split; [by intros (? & _)|done]|by exists q].
Qed.

Lemma named_bases_none policies seen : named_bases seen policies = None →
  ∃ policy, policy ∈ policies ∧ Share_KnowledgeBaseIDs policy = [].
Proof.
  revert seen. induction policies as [|p ps IH]; intros seen; cbn; [done|].
  destruct (Share_KnowledgeBaseIDs p) eqn:En; cbn [nonempty negb]; [exists p; split; [left|done]|].
  destruct (named_bases _ ps) eqn:E; [done|]. intros _. destruct (IH _ E) as (q & Hq & Hb). exists q. split; [by right|done].
Qed.
(** What the identifiers that are asked for let through. *)
Lemma allowed_bases policies id : allowedKnowledgeBaseIDs policies = [] ∨ id ∈ allowedKnowledgeBaseIDs policies →
  (∃ policy, policy ∈ policies ∧ (Share_KnowledgeBaseIDs policy = [] ∨ id ∈ Share_KnowledgeBaseIDs policy)) ∨
  (∀ policy, policy ∈ policies → Forall (λ id, id = "") (Share_KnowledgeBaseIDs policy)).
Proof.
  unfold allowedKnowledgeBaseIDs. destruct (named_bases [] policies) as [ids|] eqn:E.
  - pose proof (named_bases_elem _ _ _ E) as Hids. intros [Hnil|Hid].
    + right. intros p Hp. apply Forall_forall. intros i Hi. destruct (decide (i = "")) as [|Hne]; [done|].
      assert (Hin : i ∈ ids) by (apply Hids; split; [done|split; [apply not_elem_of_nil|by exists p]]).
      apply (stable_sort_elem string_lt) in Hin. rewrite Hnil in Hin. by apply not_elem_of_nil in Hin.
    + left. apply stable_sort_elem, Hids in Hid as (_ & _ & p & Hp & Hid). exists p. auto.
  - intros _. left. destruct (named_bases_none _ _ E) as (q & ? & ?). exists q. auto.
Qed.


Lemma effect_cross_trace input ev payload : effect_only (S:=CrossGroup K P unit) (cross_trace input ev payload).
Proof. unfold cross_trace. auto 10 with effects. Qed.
Lemma effect_audit_search input d r : effect_only (S:=CrossGroup K P unit) (audit_search input d r).
Proof. unfold audit_search, cross_audit. auto 10 with effects. Qed.
Lemma refuse_search_run {A} input d r m w s : ∃ e w', refuse_search (A:=A) input d r m w s = (Err e, w', s).
Proof.
  unfold refuse_search. destruct (effect_cross_trace input TraceCrossGroupSearchDenied
    {["decision" := AString d; "reason_code" := AString r]} w s) as ([] & w1 & E1). rewrite (bind_Ok _ _ _ _ _ _ _ E1).
  destruct (effect_audit_search input d r w1 s) as ([] & w2 & E2). rewrite (bind_Ok _ _ _ _ _ _ _ E2). by eexists _, _.
Qed.
Lemma check_cross_run input w s : ∃ r w', check_cross true input w s = (r, w', s) ∧
  (r = Ok tt ∧ permits (cg_Permissions s) (cross_question input) PermissionDecisionAllowed ∨ ∃ e, r = Err e).
Proof.
  unfold check_cross, zoom. cbn [negb]. unfold bind at 1.
  destruct (permission_check_ok (cross_question input) w (cg_Permissions s)) as (d & w' & E & Hp). rewrite E.
  replace (s <| cg_Permissions := cg_Permissions s |>) with s by by destruct s.
  destruct (String.eqb_spec (PermD_Decision d) PermissionDecisionAllowed) as [Ed|Ed]; cbn [negb].
  - eexists _, _. split; [done|]. left. by rewrite <- Ed.
  - destruct (refuse_search_run (A:=unit) input (PermD_Decision d) (PermD_ReasonCode d) (PermD_Reason d) w' s) as (e & w2 & E2).
    rewrite E2. eauto 10.
Qed.
Lemma matchingPolicies_run input w s : incomplete input = false → ∃ policies w',
  matchingPolicies NoStore input w s = (Ok policies, w', s) ∧ ∀ policy, policy ∈ policies ↔ covers s input policy.
Proof.
  intros Hc. unfold incomplete in Hc. rewrite !orb_false_iff, !String.eqb_neq in Hc. destruct Hc as [[[_ Hr] Hs] _].
  destruct (range_map_run (cg_Policies s) w s) as (l & w' & E & Hl). 
  assert (E' : ListSharePolicies NoStore (Cross_TenantID input) (Cross_SourceGroupID input) (Cross_RequestGroupID input) w s =
    (Ok (stable_sort newer_policy (List.filter (shares (Cross_TenantID input) (Cross_SourceGroupID input) (Cross_RequestGroupID input))
      (map snd l))), w', s)) by (unfold ListSharePolicies; by rewrite bind_get, (bind_Ok _ _ _ _ _ _ _ E)).
  unfold matchingPolicies. rewrite (bind_Ok _ _ _ _ _ _ _ E'). eexists _, w'. split; [reflexivity|]. intros policy. unfold covers, shares.
  rewrite list_elem_of_In, filter_In, <- list_elem_of_In, stable_sort_elem, list_elem_of_In, filter_In, <- list_elem_of_In, elem_of_map_snd.
  setoid_rewrite Hl. setoid_rewrite elem_of_map_to_list. rewrite !andb_true_iff, !orb_true_iff, !String.eqb_eq. naive_solver.
Qed.

(** C25. A search across groups changes nothing, and answers only when the permissions allow it and an enabled policy
    shares the source group with the one that asks.  Whatever it shows is of a document of the source group, in a base
    that these policies open; it is marked, shortened, and redacted as strictly as the strictest of the policies
    wants, with nothing left of the document where one of them is strict. *)
Theorem search_across_guarded input w s : ∃ r w', SearchAcross true true NoStore input w s = (r, w', s) ∧ r ≠ Panic ∧
  ∀ results, r = Ok results →
    permits (cg_Permissions s) (cross_question input) PermissionDecisionAllowed ∧ (∃ policy, covers s input policy) ∧
    ∃ redaction, (∀ policy, covers s input policy →
        (redaction_priority (Share_RedactionPolicy policy) ≤ redaction_priority redaction)%Z ∧
        (Share_RedactionPolicy policy = RedactionPolicyStrict → redaction = RedactionPolicyStrict)) ∧
      ∀ x, x ∈ results → redacted_as redaction x ∧
        ∃ y, x = redact redaction y ∧ from_group (cg_Knowledge s) y (Cross_SourceGroupID input) ∧
          opened s input (KRes_KnowledgeBaseID y).
Proof.
  unfold SearchAcross. destruct (incomplete input) eqn:Ei; [by eexists _, _|].
  destruct (effect_cross_trace input TraceCrossGroupSearchRequested {["query" := AString (Cross_Query input)]} w s) as ([] & w1 & E1).
  rewrite (bind_Ok _ _ _ _ _ _ _ E1).
  destruct (check_cross_run input w1 s) as (r & w2 & E2 & Hr). unfold bind at 1. rewrite E2.
  destruct Hr as [[-> Hp]|[e ->]]; [|by eexists _, _]. cbn [negb].
  destruct (matchingPolicies_run input w2 s Ei) as (policies & w3 & E3 & Hm). rewrite (bind_Ok _ _ _ _ _ _ _ E3).
  destruct (negb (nonempty policies)) eqn:En.
  { destruct (refuse_search_run (A:=list KnowledgeSearchResult) input "denied" "no_share_policy" "no enabled cross-group share policy" w3 s)
      as (e & w4 & ->). by eexists _, _. }
  destruct (knowledge_Search_ok (knowledge_question input policies) w3 (cg_Knowledge s)) as (r & w4 & E4 & Hnp & Hk).
  unfold bind at 1, zoom at 1. rewrite E4. replace (s <| cg_Knowledge := cg_Knowledge s |>) with s by by destruct s.
  destruct r as [results|e|]; [|by eexists _, _|done]. specialize (Hk results eq_refl). cbn zeta.
  match goal with |- context [bind (cross_trace ?i ?ev ?p) _] => destruct (effect_cross_trace i ev p w4 s) as ([] & w5 & E5) end.
  rewrite (bind_Ok _ _ _ _ _ _ _ E5).
  match goal with |- context [bind (audit_search ?i ?d ?r) _] => destruct (effect_audit_search i d r w5 s) as ([] & w6 & E6) end.
  rewrite (bind_Ok _ _ _ _ _ _ _ E6). eexists _, _. split; [reflexivity|]. split; [done|]. intros rs [= <-]. split; [done|].
  split; [destruct policies as [|p ps]; [done|]; exists p; apply Hm; left|]. exists (strongestRedactionPolicy policies). split.
  { intros p Hpol%Hm. split; [by apply strongest_max|]. intros. by eapply strongest_strict. }
  intros x (y & -> & Hy)%list_elem_of_fmap. split; [apply redact_ok|]. exists y. split; [done|].
  destruct (Hk y Hy) as [Hb Hg]. split.
  - apply Hg. cbn. unfold incomplete in Ei. rewrite !orb_false_iff, !String.eqb_neq in Ei. naive_solver.
  - destruct (allowed_bases policies _ Hb) as [(p & Hpol & Hid)|Hall]; [left; exists p; split; [by apply Hm|done]|right].
    intros p Hpol%Hm. by apply Hall.
Qed.
End guarded.

(** ** A search over the knowledge service *)
Section demo.
Let env : Env := test_env.
#[local] Existing Instance env.
Notation NoStore := (None : option (ShareStoreOps unit)).
Notation Demo := (CrossGroup (Knowledge (Permissions unit) unit) (Permissions unit) unit).

Definition demo_share (redaction : string) (ids : list string) : CrossGroupSharePolicy :=
  zeroCrossGroupSharePolicy <| Share_TenantID := "acme" |> <| Share_SourceGroupID := "hr" |> <| Share_TargetGroupID := "dev" |>
    <| Share_RedactionPolicy := redaction |> <| Share_KnowledgeBaseIDs := ids |>.
Definition share_call {A} (m : M Demo A) (c : World * Demo) : World * Demo := match m c.1 c.2 with (_, w, s) => (w, s) end.
Definition demo_permission : GroupPermissionPolicy :=
  zeroGroupPermissionPolicy <| Perm_SubjectType := "role" |> <| Perm_SubjectID := "admin" |> <| Perm_Actions := ["*"] |>.
Definition demo_cross : World * Demo := (world0, mkCrossGroup ∅ demo_filled.2 (mkPermissions [demo_permission] tt) tt).
Definition demo_cross_input : CrossInput := mkCrossInput "acme" "dev" "hr" "bob" ["admin"] "leave" 0 "" "" "".
Definition snippets_of (c : World * Demo) : option (list string) :=
  match (SearchAcross true true NoStore demo_cross_input c.1 c.2).1.1 with Ok results => Some (map KRes_Snippet results) | _ => None end.

Example nothing_shared : snippets_of demo_cross = None.
Proof. vm_compute. reflexivity. Qed.
Example emails_masked : snippets_of (share_call (UpsertSharePolicy NoStore (demo_share RedactionPolicyMaskEmails [])) demo_cross) =
  Some ["Ask [redacted-email] or call 5551234."].
Proof. vm_compute. reflexivity. Qed.
(** Of two policies that mask different things, the one that was changed last counts, and what the other one
    masks is shown. *)
Example masks_not_combined :
  snippets_of (share_call (UpsertSharePolicy NoStore (demo_share RedactionPolicyMaskEmails []))
    (share_call (UpsertSharePolicy NoStore (demo_share RedactionPolicyMaskNumbers [])) demo_cross)) =
  Some ["Ask [redacted-email] or call 5551234."].
Proof. vm_compute. reflexivity. Qed.
(** A policy that names only an empty base opens all bases. *)
Example empty_base_opens_all :
  snippets_of (share_call (UpsertSharePolicy NoStore (demo_share RedactionPolicyMaskEmails [""])) demo_cross) =
  Some ["Ask [redacted-email] or call 5551234."].
Proof. vm_compute. reflexivity. Qed.
End demo.
