(* ===== verification/Conversation.v ===== *)
(** * The log of conversations: internal/conversation/memory.go, store.go

    The store of threads and messages in memory: threads are replaced, messages only ever appended, and a message that
    comes again is accepted when it says the same.  The store refines a plain log of messages ([conversation_log]). *)

From stdpp Require Import base list strings gmap fin_maps sorting.
From Stdlib Require Import Ascii Lia.
From S2P Require Import Prelude Contracts GoMonad Storage Policies.
Open Scope go_scope.
Open Scope string_scope.
Open Scope list_scope.

(** ** The data *)

Record Thread := mkThread {
  Thread_TenantID : string;
  Thread_ConversationID : string;
  Thread_ThreadID : string;
  Thread_Kind : string;
  Thread_Provider : string;
  Thread_ExternalRefs : gmap string string;
  Thread_LastMessageAt : Time;
  Thread_CreatedAt : Time;
  Thread_UpdatedAt : Time
}.
#[export] Instance eta_Thread : Settable Thread :=
  fields! mkThread < Thread_TenantID ; Thread_ConversationID ; Thread_ThreadID ; Thread_Kind ; Thread_Provider ; Thread_ExternalRefs ; Thread_LastMessageAt ; Thread_CreatedAt ; Thread_UpdatedAt >.
Definition zeroThread : Thread :=
  mkThread EmptyString EmptyString EmptyString EmptyString EmptyString ∅ zeroTime zeroTime zeroTime.

Record MessageRecord := mkMessageRecord {
  MRec_TenantID : string;
  MRec_ConversationID : string;
  MRec_ThreadID : string;
  MRec_Message : ConversationMessage;
  MRec_Metadata : option (gmap string Any)
}.
#[export] Instance eta_MessageRecord : Settable MessageRecord :=
  fields! mkMessageRecord < MRec_TenantID ; MRec_ConversationID ; MRec_ThreadID ; MRec_Message ; MRec_Metadata >.
Definition zeroMessageRecord : MessageRecord :=
  mkMessageRecord EmptyString EmptyString EmptyString zeroConversationMessage None.

(** [InMemoryStore]. *)
Record Conversations := mkConversations {
  conv_threads : gmap string Thread;
  conv_messages : gmap string MessageRecord;
  conv_order : gmap string (list string)
}.
#[export] Instance eta_Conversations : Settable Conversations :=
  fields! mkConversations < conv_threads ; conv_messages ; conv_order >.
Definition NewConversations : Conversations := mkConversations ∅ ∅ ∅.

Definition threadKey (tenantID conversationID threadID : string) : string :=
  tenantID +:+ (NUL +:+ (conversationID +:+ (NUL +:+ threadID))).
Definition messageKey (tenantID conversationID messageID : string) : string :=
  tenantID +:+ (NUL +:+ (conversationID +:+ (NUL +:+ messageID))).

Definition sameMessage (left right : MessageRecord) : bool :=
  (left.(MRec_ThreadID) == right.(MRec_ThreadID)) &&
  (left.(MRec_Message).(CMsg_Text) == right.(MRec_Message).(CMsg_Text)) &&
  (left.(MRec_Message).(CMsg_SpeakerID) == right.(MRec_Message).(CMsg_SpeakerID)) &&
  (left.(MRec_Message).(CMsg_SpeakerType) == right.(MRec_Message).(CMsg_SpeakerType)) &&
  (left.(MRec_Message).(CMsg_ThreadID) == right.(MRec_Message).(CMsg_ThreadID)).

Definition messageWithMetadata (record : MessageRecord) : ConversationMessage :=
  match record.(MRec_Metadata) with
  | Some metadata => record.(MRec_Message) <| CMsg_Metadata := metadata |>
  | None => record.(MRec_Message)
  end.

(** What is missing in a message is filled in. *)
Definition message_incomplete (message : MessageRecord) : bool :=
  (message.(MRec_TenantID) == "") || (TrimSpace message.(MRec_ConversationID) == "") ||
  (TrimSpace message.(MRec_Message).(CMsg_MessageID) == "").
Definition with_thread (message : MessageRecord) : MessageRecord :=
  let message := if TrimSpace message.(MRec_ThreadID) == ""
                 then message <| MRec_ThreadID := message.(MRec_ConversationID) |> else message in
  if TrimSpace message.(MRec_Message).(CMsg_ThreadID) == ""
  then message <| MRec_Message := (message.(MRec_Message) <| CMsg_ThreadID := message.(MRec_ThreadID) |>) |>
  else message.
Definition incomplete_message : error :=
  ErrRuntime (NewRuntimeError CodeDecisionSchemaError
    "conversation message requires tenant_id, conversation_id and message_id" ∅).
Definition different_message (message : MessageRecord) : error :=
  ErrRuntime (NewRuntimeError CodeTaskConflict "conversation message id already exists with different content"
    {["conversation_id" := AString message.(MRec_ConversationID);
      "message_id" := AString message.(MRec_Message).(CMsg_MessageID)]}).

(** ** Operations *)

Section operations.
Context `{Env}.
Notation CM := (M Conversations).

Definition UpsertThread (thread : Thread) : CM unit :=
  if (thread.(Thread_TenantID) == "") || (TrimSpace thread.(Thread_ConversationID) == "") then
    throw (ErrRuntime (NewRuntimeError CodeDecisionSchemaError "conversation thread requires tenant_id and conversation_id" ∅))
  else
    let thread := if TrimSpace thread.(Thread_ThreadID) == ""
                  then thread <| Thread_ThreadID := thread.(Thread_ConversationID) |> else thread in
    let key := threadKey thread.(Thread_TenantID) thread.(Thread_ConversationID) thread.(Thread_ThreadID) in
    let! s := get in
    let thread := match s.(conv_threads) !! key with
                  | Some existing =>
                      if negb (IsZero existing.(Thread_CreatedAt)) && IsZero thread.(Thread_CreatedAt)
                      then thread <| Thread_CreatedAt := existing.(Thread_CreatedAt) |> else thread
                  | None => thread
                  end in
    put (s <| conv_threads := <[key := thread]> s.(conv_threads) |>).

Definition GetThread (tenantID conversationID threadID : string) : CM Thread :=
  let threadID := if threadID == "" then conversationID else threadID in
  let! s := get in
  match s.(conv_threads) !! threadKey tenantID conversationID threadID with
  | None => throw ErrNotFound
  | Some thread => ret thread
  end.

(** When the thread was last active. *)
Definition activity (thread : Thread) : Time :=
  if negb (IsZero thread.(Thread_LastMessageAt)) then thread.(Thread_LastMessageAt) else
  if negb (IsZero thread.(Thread_UpdatedAt)) then thread.(Thread_UpdatedAt) else thread.(Thread_CreatedAt).
Definition more_active (a b : Thread) : bool :=
  if Equal (activity a) (activity b) then string_lt b.(Thread_ConversationID) a.(Thread_ConversationID)
  else After (activity a) (activity b).
Definition of_kind (tenantID kind : string) (thread : Thread) : bool :=
  (thread.(Thread_TenantID) == tenantID) && ((kind == "") || (thread.(Thread_Kind) == kind)).
Definition ListThreads (tenantID kind : string) (limit offset : Z) : CM (list Thread) :=
  let! s := get in
  let! threads := range_map s.(conv_threads) in
  or_panic (page_cut (stable_sort more_active (List.filter (of_kind tenantID kind) (map snd threads))) limit offset).

Definition AppendMessage (message : MessageRecord) : CM unit :=
  if message_incomplete message then throw incomplete_message
  else
    let message := with_thread message in
    let key := messageKey message.(MRec_TenantID) message.(MRec_ConversationID) message.(MRec_Message).(CMsg_MessageID) in
    let! s := get in
    match s.(conv_messages) !! key with
    | Some existing =>
        if sameMessage existing message then ret tt else
        throw (different_message message)
    | None =>
        let tkey := threadKey message.(MRec_TenantID) message.(MRec_ConversationID) message.(MRec_ThreadID) in
        put (s <| conv_messages := <[key := message]> s.(conv_messages) |>
               <| conv_order := <[tkey := default [] (s.(conv_order) !! tkey) ++ [key]]> s.(conv_order) |>)
    end.

Definition record_at (messages : gmap string MessageRecord) (key : string) : MessageRecord :=
  default (mkMessageRecord "" "" "" zeroConversationMessage None) (messages !! key).
Definition key_before (messages : gmap string MessageRecord) (a b : string) : bool :=
  let left := (record_at messages a).(MRec_Message).(CMsg_CreatedAt) in
  let right := (record_at messages b).(MRec_Message).(CMsg_CreatedAt) in
  if Equal left right then string_lt a b else Before left right.
(** [keys[len(keys)-limit:]] *)
Definition last_of {A} (limit : Z) (l : list A) : list A :=
  if (limit >? 0)%Z && (len l >? limit)%Z then drop (Z.to_nat (len l - limit)) l else l.
Definition RecentMessages (tenantID conversationID threadID : string) (limit : Z) : CM (list ConversationMessage) :=
  let threadID := if threadID == "" then conversationID else threadID in
  let! s := get in
  let keys := default [] (s.(conv_order) !! threadKey tenantID conversationID threadID) in
  let keys := last_of limit (stable_sort (key_before s.(conv_messages)) keys) in
  ret (map (λ key, messageWithMetadata (record_at s.(conv_messages) key)) keys).

Definition GetMessage (tenantID conversationID messageID : string) : CM ConversationMessage :=
  let! s := get in
  match s.(conv_messages) !! messageKey tenantID conversationID messageID with
  | None => throw ErrNotFound
  | Some record => ret (messageWithMetadata record)
  end.
End operations.

(** ** The log that the store refines *)

Definition same_id (a b : MessageRecord) : bool :=
  (a.(MRec_TenantID) == b.(MRec_TenantID)) && (a.(MRec_ConversationID) == b.(MRec_ConversationID)) &&
  (a.(MRec_Message).(CMsg_MessageID) == b.(MRec_Message).(CMsg_MessageID)).
Definition in_thread (tenantID conversationID threadID : string) (m : MessageRecord) : bool :=
  (m.(MRec_TenantID) == tenantID) && (m.(MRec_ConversationID) == conversationID) && (m.(MRec_ThreadID) == threadID).
Definition said_before (a b : MessageRecord) : bool :=
  let left := a.(MRec_Message).(CMsg_CreatedAt) in
  let right := b.(MRec_Message).(CMsg_CreatedAt) in
  if Equal left right then string_lt a.(MRec_Message).(CMsg_MessageID) b.(MRec_Message).(CMsg_MessageID)
  else Before left right.

Definition log_append (message : MessageRecord) (log : list MessageRecord) : Res unit * list MessageRecord :=
  if message_incomplete message then (Err incomplete_message, log) else
  let message := with_thread message in
  match find (same_id message) log with
  | Some said => (if sameMessage said message then Ok tt else Err (different_message message), log)
  | None => (Ok tt, log ++ [message])
  end.
Definition log_recent (tenantID conversationID threadID : string) (limit : Z) (log : list MessageRecord)
    : list ConversationMessage :=
  map messageWithMetadata
    (last_of limit (stable_sort said_before (List.filter (in_thread tenantID conversationID threadID) log))).

(** The calls that change the store, and their outcomes. *)
Inductive conversation_call := SaysThread (thread : Thread) | Says (message : MessageRecord).
Definition plain_call (c : conversation_call) : Prop :=
  match c with SaysThread _ => True | Says m => nul_free m.(MRec_TenantID) ∧ nul_free m.(MRec_ConversationID) end.
Definition store_call (c : conversation_call) : M Conversations unit :=
  match c with SaysThread thread => UpsertThread thread | Says message => AppendMessage message end.
Fixpoint store_calls (cs : list conversation_call) (w : World) (s : Conversations)
    : list (Res unit) * World * Conversations :=
  match cs with
  | [] => ([], w, s)
  | c :: cs => let '(r, w, s) := store_call c w s in let '(rs, w, s) := store_calls cs w s in (r :: rs, w, s)
  end.
Fixpoint log_calls (cs : list conversation_call) (log : list MessageRecord) : list (option (Res unit)) * list MessageRecord :=
  match cs with
  | [] => ([], log)
  | SaysThread _ :: cs => let '(rs, log) := log_calls cs log in (None :: rs, log)
  | Says message :: cs =>
      let '(r, log) := log_append message log in let '(rs, log) := log_calls cs log in (Some r :: rs, log)
  end.

(** *** Keys *)

Definition record_key (m : MessageRecord) : string :=
  messageKey m.(MRec_TenantID) m.(MRec_ConversationID) m.(MRec_Message).(CMsg_MessageID).
Definition record_thread (m : MessageRecord) : string :=
  threadKey m.(MRec_TenantID) m.(MRec_ConversationID) m.(MRec_ThreadID).
Definition plain (m : MessageRecord) : Prop := nul_free m.(MRec_TenantID) ∧ nul_free m.(MRec_ConversationID).

Lemma key3_inj a b c a' b' c' : nul_free a → nul_free a' → nul_free b → nul_free b' →
  threadKey a b c = threadKey a' b' c' → a = a' ∧ b = b' ∧ c = c'.
Proof.
  intros Ha Ha' Hb Hb' E. apply nul_join_inj in E as [-> E]; [|done..].
  by apply nul_join_inj in E as [-> ->].
Qed.
Lemma same_id_iff a b : plain a → plain b → same_id a b = true ↔ record_key a = record_key b.
Proof.
  intros [] []. unfold same_id. rewrite !andb_true_iff, !String.eqb_eq. split; [|by intros (? & ? & ?)%key3_inj].
  intros [[E1 E2] E3]. unfold record_key. by rewrite E1, E2, E3.
Qed.
Lemma in_thread_iff t c th m : plain m → nul_free t → nul_free c →
  in_thread t c th m = (record_thread m == threadKey t c th).
Proof.
  intros [] Ht Hc. apply eq_true_iff_eq. unfold in_thread. rewrite !andb_true_iff, !String.eqb_eq. split.
  - intros [[<- <-] <-]. done.
  - by intros (? & ? & ?)%key3_inj.
Qed.
Lemma string_lt_app p a b : string_lt (p +:+ a) (p +:+ b) = string_lt a b.
Proof.
  induction p as [|c p IH]; [done|]. rewrite <- IH, !string_app_cons. unfold string_lt at 1. cbn [String.compare].
  assert (Ascii.compare c c = Eq) as -> by (unfold Ascii.compare; apply N.compare_refl). done.
Qed.
Lemma key_order t c a b : string_lt (messageKey t c a) (messageKey t c b) = string_lt a b.
Proof. unfold messageKey. by rewrite !string_lt_app. Qed.

Lemma last_of_map {A B} (f : A → B) n l : last_of n (map f l) = map f (last_of n l).
Proof. unfold last_of, len. rewrite length_map. destruct (_ && _); [|done]. by rewrite skipn_map. Qed.
Lemma last_of_elem {A} (x : A) n l : x ∈ last_of n l → x ∈ l.
Proof.
  unfold last_of. destruct (_ && _); [|done]. intros Hx. rewrite <- (take_drop (Z.to_nat (len l - n)) l).
  apply elem_of_app. by right.
Qed.

(** *** The store represents the log *)

Section refinement.
Context `{Env}.
Implicit Types s : Conversations.

Record represents (log : list MessageRecord) s : Prop := {
  rep_log m : m ∈ log → s.(conv_messages) !! record_key m = Some m;
  rep_only key m : s.(conv_messages) !! key = Some m → m ∈ log ∧ key = record_key m;
  rep_order t : default [] (s.(conv_order) !! t) = map record_key (List.filter (λ m, record_thread m == t) log);
  rep_plain m : m ∈ log → plain m
}.

Lemma represents_new : represents [] NewConversations.
Proof. split; intros *; try by intros ?%elem_of_nil. all: by cbn; rewrite ?lookup_empty. Qed.
Lemma represents_threads log s threads : represents log s → represents log (s <| conv_threads := threads |>).
Proof. by intros []. Qed.

Lemma with_thread_ids m : (with_thread m).(MRec_TenantID) = m.(MRec_TenantID) ∧
  (with_thread m).(MRec_ConversationID) = m.(MRec_ConversationID) ∧
  (with_thread m).(MRec_Message).(CMsg_MessageID) = m.(MRec_Message).(CMsg_MessageID).
Proof. unfold with_thread. by destruct (_ == _), (_ == _). Qed.

(** The message of an identity, in the store and in the log. *)
Lemma rep_find log s m : represents log s → plain m → find (same_id m) log = s.(conv_messages) !! record_key m.
Proof.
  intros Hrep Hm. destruct (find (same_id m) log) as [said|] eqn:Ef.
  - apply find_some in Ef as [Hin%list_elem_of_In E]. apply same_id_iff in E as ->; [|done|by eapply rep_plain].
    symmetry. by apply (rep_log _ _ Hrep).
  - destruct (_ !! _) as [said|] eqn:El; [|done]. apply (rep_only _ _ Hrep) in El as [Hin Ek].
    eapply find_none in Ef; [|by apply list_elem_of_In]. pose proof (rep_plain _ _ Hrep _ Hin).
    by rewrite (proj2 (same_id_iff m said Hm H0) Ek) in Ef.
Qed.

Lemma rep_append log s m : represents log s → plain m → s.(conv_messages) !! record_key m = None →
  represents (log ++ [m]) (s <| conv_messages := <[record_key m := m]> s.(conv_messages) |>
    <| conv_order := <[record_thread m := default [] (s.(conv_order) !! record_thread m) ++ [record_key m]]>
                       s.(conv_order) |>).
Proof.
  intros Hrep Hm Hnew. split; cbn.
  - intros m' [Hin| ->%list_elem_of_singleton]%elem_of_app; [|by rewrite lookup_insert_eq].
    pose proof (rep_log _ _ Hrep _ Hin). by rewrite lookup_insert_ne by congruence.
  - intros key m'. destruct (decide (key = record_key m)) as [->|Hne].
    + rewrite lookup_insert_eq. intros [= <-]. split; [|done]. apply elem_of_app. right. by left.
    + rewrite lookup_insert_ne by congruence. intros [??]%(rep_only _ _ Hrep). split; [|done]. apply elem_of_app. by left.
  - intros t. rewrite List.filter_app, map_app. cbn. destruct (String.eqb_spec (record_thread m) t) as [<-|Hne].
    + by rewrite lookup_insert_eq, (rep_order _ _ Hrep).
    + rewrite lookup_insert_ne by done. by rewrite (rep_order _ _ Hrep), app_nil_r.
  - intros m' [Hin| ->%list_elem_of_singleton]%elem_of_app; [|done]. by apply (rep_plain _ _ Hrep).
Qed.

Lemma append_refines log s m w : represents log s → nul_free m.(MRec_TenantID) → nul_free m.(MRec_ConversationID) →
  ∃ s', AppendMessage m w s = ((log_append m log).1, w, s') ∧ represents (log_append m log).2 s'.
Proof.
  intros Hrep Ht Hc. unfold AppendMessage, log_append. destruct (message_incomplete m); [by exists s|].
  destruct (with_thread_ids m) as (Et & Ec & Ei). set (n := with_thread m) in *.
  assert (plain n) as Hn by (split; congruence). rewrite (rep_find _ s) by done. rewrite bind_get. fold (record_key n).
  destruct (conv_messages s !! record_key n) as [said|] eqn:El.
  - exists s. by destruct (sameMessage said n).
  - eexists. split; [done|]. by apply rep_append.
Qed.
Lemma upsert_thread_run thread w s : ∃ r threads, UpsertThread thread w s = (r, w, s <| conv_threads := threads |>).
Proof.
  unfold UpsertThread. destruct (_ || _); [|by do 2 eexists].
  eexists _, (conv_threads s). by destruct s.
Qed.
Lemma calls_refine cs log s w : represents log s → Forall plain_call cs →
  ∃ rs s', store_calls cs w s = (rs, w, s') ∧ represents (log_calls cs log).2 s' ∧
    Forall2 (λ r o, ∀ r', o = Some r' → r = r') rs (log_calls cs log).1.
Proof.
  revert log s. induction cs as [|c cs IH]; intros log s Hrep Hcs; simpl; [by eexists _, _|].
  apply Forall_cons in Hcs as [Hc Hcs]. destruct c as [thread|m]; simpl.
  - destruct (upsert_thread_run thread w s) as (r & threads & ->).
    destruct (IH log (s <| conv_threads := threads |>)) as (rs & s' & -> & ? & ?); [by apply represents_threads|done|].
    destruct (log_calls cs log). eexists _, _. split; [done|]. split; [done|]. by constructor.
  - destruct Hc. destruct (append_refines log s m w) as (s1 & -> & Hrep1); [done..|].
    destruct (log_append m log) as [r log1]. destruct (IH log1 s1 Hrep1 Hcs) as (rs & s' & -> & ? & ?). cbn [fst].
    destruct (log_calls cs log1). eexists _, _. split; [done|]. split; [done|]. constructor; [by intros ? [= <-]|done].
Qed.

(** *** What is read back *)

Lemma recent_refines log s t c th limit w : represents log s → nul_free t → nul_free c →
  RecentMessages t c th limit w s = (Ok (log_recent t c (if th == "" then c else th) limit log), w, s).
Proof.
  intros Hrep Ht Hc. unfold RecentMessages, log_recent. rewrite bind_get. set (th' := if th == "" then c else th).
  rewrite (rep_order _ _ Hrep). unfold ret. do 3 f_equal.
  assert (List.filter (λ m, record_thread m == threadKey t c th') log = List.filter (in_thread t c th') log) as ->.
  { apply List.filter_ext_in. intros m Hm%list_elem_of_In. symmetry. apply in_thread_iff; [|done..].
    by apply (rep_plain _ _ Hrep). }
  assert (∀ m, m ∈ List.filter (in_thread t c th') log → m ∈ log ∧ m.(MRec_TenantID) = t ∧ m.(MRec_ConversationID) = c)
    as Hin.
  { intros m [? E]%filter_bool_elem. unfold in_thread in E. rewrite !andb_true_iff, !String.eqb_eq in E. tauto. }
  assert (∀ m, m ∈ log → record_at (conv_messages s) (record_key m) = m) as Hat.
  { intros m Hm. unfold record_at. by rewrite (rep_log _ _ Hrep). }
  rewrite (stable_sort_map record_key _ said_before).
  - rewrite last_of_map, map_map. apply map_ext_in. intros m Hm%list_elem_of_In. f_equal. apply Hat, Hin.
    by eapply stable_sort_elem, last_of_elem.
  - intros a b (Ha & Ea & Ea')%Hin (Hb & Eb & Eb')%Hin. unfold said_before, key_before. rewrite !Hat by done.
    destruct (Equal _ _); [|done]. unfold record_key. by rewrite Ea, Ea', Eb, Eb', key_order.
Qed.
Lemma get_refines log s t c id w : represents log s → nul_free t → nul_free c →
  GetMessage t c id w s =
    (match find (λ m, (m.(MRec_TenantID) == t) && (m.(MRec_ConversationID) == c) && (m.(MRec_Message).(CMsg_MessageID) == id)) log with
     | Some m => Ok (messageWithMetadata m) | None => Err ErrNotFound end, w, s).
Proof.
  intros Hrep Ht Hc. unfold GetMessage. rewrite bind_get.
  set (asked := mkMessageRecord t c "" (zeroConversationMessage <| CMsg_MessageID := id |>) None).
  change (messageKey t c id) with (record_key asked). rewrite <- (rep_find log s asked) by done.
  assert (∀ l, find (same_id asked) l = find (λ m, (m.(MRec_TenantID) == t) && (m.(MRec_ConversationID) == c) &&
    (m.(MRec_Message).(CMsg_MessageID) == id)) l) as ->.
  { intros l. induction l as [|m l IH]; [done|]. simpl. rewrite IH. unfold same_id. cbn.
    by rewrite (String.eqb_sym t), (String.eqb_sym c), (String.eqb_sym id). }
  by destruct (find _ log).
Qed.
End refinement.

(** ** What the log promises *)

Lemma said_before_trans a b c : le_of said_before a b → le_of said_before b c → le_of said_before a c.
Proof.
  unfold le_of, said_before, Equal, Before. repeat case Z.eqb_spec; repeat case Z.ltb_spec; intros; try done; try lia.
  by eapply string_lt_le_trans.
Qed.
Lemma said_before_asym a b : said_before a b = true → le_of said_before a b.
Proof.
  unfold le_of, said_before, Equal, Before. repeat case Z.eqb_spec; repeat case Z.ltb_spec; intros; try done; try lia.
  by apply string_lt_asym.
Qed.

(** The window read back is the end of the thread in the order of its messages. *)
Lemma recent_window t c th limit log : ∃ older recent,
  older ++ recent ≡ₚ List.filter (in_thread t c th) log ∧ StronglySorted (le_of said_before) (older ++ recent) ∧
  log_recent t c th limit log = map messageWithMetadata recent ∧
  len recent = (if (limit <=? 0)%Z then len (older ++ recent) else Z.min limit (len (older ++ recent))).
Proof.
  set (l := stable_sort said_before (List.filter (in_thread t c th) log)).
  set (n := if (limit >? 0)%Z && (len l >? limit)%Z then Z.to_nat (len l - limit) else 0%nat).
  exists (take n l), (drop n l). rewrite take_drop. split; [apply stable_sort_perm|].
  split; [apply stable_sort_Sorted; [apply said_before_trans|apply said_before_asym]|]. unfold log_recent, last_of.
  fold l. subst n. rewrite !Z.gtb_ltb. split; [by destruct (_ && _)|]. unfold len. rewrite length_drop.
  destruct (Z.ltb_spec 0 limit), (Z.leb_spec limit 0); try lia; cbn [andb]; [|lia].
  destruct (Z.ltb_spec limit (Z.of_nat (length l))); lia.
Qed.

(** The log only grows, and holds each message once. *)
Lemma log_append_prefix m log : ∃ more, (log_append m log).2 = log ++ more.
Proof.
  unfold log_append. destruct (message_incomplete m); [by exists []; rewrite app_nil_r|].
  destruct (find _ _); [by exists []; rewrite app_nil_r|by eexists].
Qed.
Lemma log_calls_prefix cs log : ∃ more, (log_calls cs log).2 = log ++ more.
Proof.
  revert log. induction cs as [|[thread|m] cs IH]; intros log; cbn [log_calls]; [by exists []; rewrite app_nil_r|..].
  - destruct (IH log) as [more E]. destruct (log_calls cs log). by exists more.
  - destruct (log_append_prefix m log) as [more E]. destruct (log_append m log) as [r log1]. cbn in E. subst log1.
    destruct (IH (log ++ more)) as [more' E]. destruct (log_calls cs (log ++ more)). exists (more ++ more').
    by rewrite app_assoc.
Qed.
Lemma log_calls_app cs cs' log : (log_calls (cs ++ cs') log).2 = (log_calls cs' (log_calls cs log).2).2.
Proof.
  revert log. induction cs as [|[thread|m] cs IH]; intros log; cbn [log_calls app]; [done|..].
  - specialize (IH log). by destruct (log_calls (cs ++ cs') log), (log_calls cs log).
  - destruct (log_append m log) as [r log1]. specialize (IH log1). by destruct (log_calls (cs ++ cs') log1), (log_calls cs log1).
Qed.

(** C26. The store of conversations behaves as a log of messages, for identities without NUL bytes: after any
    calls, the outcome of each message is that of appending it to the log, which keeps what it has and takes a message
    only once, and the messages read back, whole threads and windows of them or single ones, are those of the log, each
    window the end of its thread in the order of time. *)
Theorem conversation_log `{Env} cs w : Forall plain_call cs →
  ∃ rs s, store_calls cs w NewConversations = (rs, w, s) ∧
    Forall2 (λ r o, ∀ r', o = Some r' → r = r') rs (log_calls cs []).1 ∧
    (∀ before after, cs = before ++ after → (log_calls before []).2 `prefix_of` (log_calls cs []).2) ∧
    ∀ t c, nul_free t → nul_free c →
      (∀ th limit w', ∃ older recent, let th' := if th == "" then c else th in
        older ++ recent ≡ₚ List.filter (in_thread t c th') (log_calls cs []).2 ∧
        StronglySorted (le_of said_before) (older ++ recent) ∧
        len recent = (if (limit <=? 0)%Z then len (older ++ recent) else Z.min limit (len (older ++ recent))) ∧
        RecentMessages t c th limit w' s = (Ok (map messageWithMetadata recent), w', s)) ∧
      (∀ id w', GetMessage t c id w' s =
        (match find (λ m, (m.(MRec_TenantID) == t) && (m.(MRec_ConversationID) == c) &&
                          (m.(MRec_Message).(CMsg_MessageID) == id)) (log_calls cs []).2 with
         | Some m => Ok (messageWithMetadata m) | None => Err ErrNotFound end, w', s)).
Proof.
  intros Hcs. destruct (calls_refine cs [] NewConversations w represents_new Hcs) as (rs & s & E & Hrep & Hrs).
  exists rs, s. split; [done|]. split; [done|]. split.
  { intros before after ->. rewrite log_calls_app. destruct (log_calls_prefix after (log_calls before []).2) as [more ->].
    by exists more. }
  intros t c Ht Hc. split; [|intros; by apply get_refines].
  intros th limit w'. destruct (recent_window t c (if th == "" then c else th) limit (log_calls cs []).2)
    as (older & recent & Hp & Hs & Er & Hl). exists older, recent. cbn zeta. repeat (split; [done|]).
  rewrite (recent_refines _ _ _ _ _ _ _ Hrep) by done. by rewrite Er.
Qed.

(** ** Threads are listed by page *)

(** A page of the threads of a tenant is that of the sorted list, as long as the numbers of the page do not overflow. *)
Lemma ListThreads_page `{Env} tenantID kind limit offset w s :
  (Z.of_nat (size (conv_threads s)) < 2 ^ 62)%Z → (offset < 2 ^ 63)%Z → (Z.max 0 offset + limit < 2 ^ 63)%Z →
  ∃ threads w', ListThreads tenantID kind limit offset w s =
      (Ok (page_spec (stable_sort more_active threads) limit offset), w', s) ∧
    threads ≡ₚ List.filter (of_kind tenantID kind) (map snd (map_to_list (conv_threads s))).
Proof.
  intros Hn Ho Hl. unfold ListThreads. rewrite bind_get.
  destruct (range_map_run (conv_threads s) w s) as (l & w' & E & Hp). rewrite (bind_Ok _ _ _ _ _ _ _ E).
  exists (List.filter (of_kind tenantID kind) (map snd l)), w'.
  split; [|by apply filter_bool_perm, Permutation_map]. rewrite page_cut_correct; [done| |done|done]. unfold len. rewrite stable_sort_length.
  pose proof (filter_length_le (of_kind tenantID kind) (map snd l)) as Hf.
  rewrite length_map, (Permutation_length Hp), length_map_to_list in Hf. lia.
Qed.

(** ** Examples *)

Section demo.
Let env : Env := test_env.
#[local] Existing Instance env.

Definition demo_message (conversationID threadID messageID text : string) (at_ : Time) : MessageRecord :=
  mkMessageRecord "acme" conversationID threadID
    (zeroConversationMessage <| CMsg_MessageID := messageID |> <| CMsg_Text := text |> <| CMsg_CreatedAt := at_ |>) None.
Definition demo_says : list conversation_call :=
  map Says [demo_message "room" "" "m1" "hello" 5; demo_message "room" "t" "m2" "aside" 6;
            demo_message "room" "room" "m3" "earlier" 4; demo_message "room" "" "m1" "hello" 9;
            demo_message "room" "" "m1" "bye" 5; demo_message "" "" "m4" "who" 5; demo_message "room" "" "m0" "again" 5].
Definition texts (r : Res (list ConversationMessage)) : list string :=
  match r with Ok l => map CMsg_Text l | _ => [] end.

(** The same message again is accepted and dropped, another text under its id is a conflict. *)
Lemma conversation_log_witness :
  ∃ rs s, store_calls demo_says world0 NewConversations = (rs, world0, s) ∧
    map (λ r, match r with Ok _ => true | _ => false end) rs = [true; true; true; true; false; false; true] ∧
    texts (RecentMessages "acme" "room" "" 0 world0 s).1.1 = ["earlier"; "again"; "hello"] ∧
    texts (RecentMessages "acme" "room" "" 2 world0 s).1.1 = ["again"; "hello"] ∧
    (GetMessage "acme" "room" "m2" world0 s).1.1 = Ok (zeroConversationMessage <| CMsg_MessageID := "m2" |>
       <| CMsg_Text := "aside" |> <| CMsg_CreatedAt := 6%Z |> <| CMsg_ThreadID := "t" |>).
Proof.
  destruct (conversation_log demo_says world0) as (rs & s & E & _ & _ & Hread).
  { repeat constructor; by vm_compute. }
  exists rs, s. split; [done|]. destruct (Hread "acme" "room") as [_ ->]; [by vm_compute..|].
  vm_compute in E. injection E as <- <-. by vm_compute.
Defined.

(** What a message says beside its text is not compared: a message with other mentions is dropped without an error. *)
Example other_mentions_dropped :
  let m := demo_message "room" "" "m1" "hello" 5 in
  let m' := m <| MRec_Message := (m.(MRec_Message) <| CMsg_Mentions := ["bob"] |>) |> in
  ∃ s, store_calls [Says m; Says m'] world0 NewConversations = ([Ok tt; Ok tt], world0, s) ∧
    match (GetMessage "acme" "room" "m1" world0 s).1.1 with Ok got => CMsg_Mentions got = [] | _ => False end.
Proof. eexists. by vm_compute. Qed.

(** A page whose end overflows panics, as for the runs. *)
Example threads_page_panics :
  let s := (store_calls [SaysThread (mkThread "acme" "room" "" "" "" ∅ 1 1 1); SaysThread (mkThread "acme" "hall" "" "" "" ∅ 2 1 1)]
              world0 NewConversations).2 in
  (ListThreads "acme" "" (2 ^ 63 - 1) 1 world0 s).1.1 = Panic.
Proof. by vm_compute. Qed.
End demo.
