(* ===== verification/Intake.v ===== *)
(** * Replies before a run: internal/intake/service.go

    Policies that answer an input before an agent runs.  Policies are normalized and validated when they are stored,
    and an input gets the reply of the first policy that applies and matches, in the order of priorities.
    [regexp.Compile] is the parameter [Compile]: the matcher of a pattern, or the message of its error. *)

From stdpp Require Import base list strings gmap fin_maps sorting.
From Stdlib Require Import Ascii Lia.
From S2P Require Import Prelude Contracts GoMonad Storage Policies.
Open Scope go_scope.
Open Scope string_scope.
Open Scope list_scope.

(** ** The data *)

Definition StatusDraft : string := "draft".
Definition StatusEnabled : string := "enabled".
Definition StatusDisabled : string := "disabled".
Definition MatchAlways : string := "always".
Definition MatchExact : string := "exact".
Definition MatchPrefix : string := "prefix".
Definition MatchContains : string := "contains".
Definition MatchRegex : string := "regex".
Definition IntakeReplyStatusUpdate : string := "status_update".
Definition IntakeReplyAcknowledgment : string := "acknowledgement".
Definition IntakeReplyPolicyNotice : string := "policy_notice".
Definition DispatchExternalChannel : string := "external_channel".

Record IntakePolicy := mkIntakePolicy {
  Intake_TenantID : string;
  Intake_PolicyID : string;
  Intake_Name : string;
  Intake_Status : string;
  Intake_Priority : Z;
  Intake_AgentID : string;
  Intake_AgentVersion : string;
  Intake_Channel : string;
  Intake_MatchType : string;
  Intake_Pattern : string;
  Intake_ReplyText : string;
  Intake_ReplyKind : string;
  Intake_ContinueToRun : bool;
  Intake_Version : string;
  Intake_CreatedAt : Time;
  Intake_UpdatedAt : Time
}.
#[export] Instance eta_IntakePolicy : Settable IntakePolicy :=
  fields! mkIntakePolicy < Intake_TenantID ; Intake_PolicyID ; Intake_Name ; Intake_Status ; Intake_Priority ; Intake_AgentID ; Intake_AgentVersion ; Intake_Channel ; Intake_MatchType ; Intake_Pattern ; Intake_ReplyText ; Intake_ReplyKind ; Intake_ContinueToRun ; Intake_Version ; Intake_CreatedAt ; Intake_UpdatedAt >.
Definition zeroIntakePolicy : IntakePolicy :=
  mkIntakePolicy EmptyString EmptyString EmptyString EmptyString 0%Z EmptyString EmptyString EmptyString EmptyString EmptyString EmptyString EmptyString false EmptyString zeroTime zeroTime.

Record IntakeRequest := mkIntakeRequest {
  Ask_TenantID : string;
  Ask_TraceID : string;
  Ask_RunID : string;
  Ask_TaskID : string;
  Ask_AgentID : string;
  Ask_AgentVersion : string;
  Ask_Channel : string;
  Ask_Input : string;
  Ask_CallerID : string;
  Ask_CallerType : string
}.
#[export] Instance eta_IntakeRequest : Settable IntakeRequest :=
  fields! mkIntakeRequest < Ask_TenantID ; Ask_TraceID ; Ask_RunID ; Ask_TaskID ; Ask_AgentID ; Ask_AgentVersion ; Ask_Channel ; Ask_Input ; Ask_CallerID ; Ask_CallerType >.
Definition zeroIntakeRequest : IntakeRequest :=
  mkIntakeRequest EmptyString EmptyString EmptyString EmptyString EmptyString EmptyString EmptyString EmptyString EmptyString EmptyString.

Record IntakeResult := mkIntakeResult {
  Reply_Matched : bool;
  Reply_PolicyID : string;
  Reply_ReplyText : string;
  Reply_ReplyKind : string;
  Reply_ContinueToRun : bool;
  Reply_Dispatch : string;
  Reply_Metadata : gmap string Any;
  Reply_Policy : option IntakePolicy
}.
#[export] Instance eta_IntakeResult : Settable IntakeResult :=
  fields! mkIntakeResult < Reply_Matched ; Reply_PolicyID ; Reply_ReplyText ; Reply_ReplyKind ; Reply_ContinueToRun ; Reply_Dispatch ; Reply_Metadata ; Reply_Policy >.
Definition zeroIntakeResult : IntakeResult :=
  mkIntakeResult false EmptyString EmptyString EmptyString false EmptyString ∅ None.

Definition policyKey (tenantID policyID : string) : string := tenantID +:+ (NUL +:+ TrimSpace policyID).
(** [strings.EqualFold], on ASCII. *)
Definition EqualFold (a b : string) : bool := ToLower a == ToLower b.

(** [InMemoryStore]: the policies by key. *)
Notation IntakeStore := (gmap string IntakePolicy).

Section service.
Context `{Env} (Compile : string → (string → bool) + string).
Notation IM := (M IntakeStore).
Implicit Types policy : IntakePolicy.

(** ** The store *)

Definition intake_before (a b : IntakePolicy) : bool :=
  if negb (a.(Intake_Priority) =? b.(Intake_Priority))%Z then (a.(Intake_Priority) >? b.(Intake_Priority))%Z else
  if negb (Equal a.(Intake_UpdatedAt) b.(Intake_UpdatedAt)) then After a.(Intake_UpdatedAt) b.(Intake_UpdatedAt) else
  string_lt a.(Intake_PolicyID) b.(Intake_PolicyID).
Definition sortIntake (policies : list IntakePolicy) : list IntakePolicy := stable_sort intake_before policies.

Definition store_Upsert policy : IM IntakePolicy :=
  let! s := get in
  do! put (<[policyKey policy.(Intake_TenantID) policy.(Intake_PolicyID) := policy]> s) in
  ret policy.
Definition for_tenant (tenantID : string) policy : bool :=
  (policy.(Intake_TenantID) == tenantID) || (policy.(Intake_TenantID) == "").
Definition store_List (tenantID : string) : IM (list IntakePolicy) :=
  let! s := get in
  let! policies := range_map s in
  ret (sortIntake (List.filter (for_tenant tenantID) (map snd policies))).
Definition store_Get (tenantID policyID : string) : IM (option IntakePolicy) :=
  let! s := get in
  ret (match s !! policyKey tenantID policyID with
       | Some policy => Some policy
       | None => if tenantID != "" then s !! policyKey "" policyID else None
       end).
Definition store_Delete (tenantID policyID : string) : IM (option IntakePolicy) :=
  let key := policyKey tenantID policyID in
  let! s := get in
  match s !! key with
  | None => ret None
  | Some policy => do! put (delete key s) in ret (Some policy)
  end.

(** ** What is stored *)

Definition set_or (value default : string) : string := if value == "" then default else value.
Definition normalizePolicy policy (now : Time) : IM IntakePolicy :=
  let id := TrimSpace policy.(Intake_PolicyID) in
  let! id := if id == "" then idgen_New "intakepol" else ret id in
  ret (policy
    <| Intake_PolicyID := id |>
    <| Intake_Name := set_or (TrimSpace policy.(Intake_Name)) id |>
    <| Intake_Status := set_or (TrimSpace policy.(Intake_Status)) StatusEnabled |>
    <| Intake_Channel := TrimSpace policy.(Intake_Channel) |>
    <| Intake_MatchType := set_or (TrimSpace policy.(Intake_MatchType)) MatchContains |>
    <| Intake_Pattern := TrimSpace policy.(Intake_Pattern) |>
    <| Intake_ReplyText := TrimSpace policy.(Intake_ReplyText) |>
    <| Intake_ReplyKind := set_or (TrimSpace policy.(Intake_ReplyKind)) IntakeReplyAcknowledgment |>
    <| Intake_Version := set_or policy.(Intake_Version) "v1" |>
    <| Intake_CreatedAt := (if IsZero policy.(Intake_CreatedAt) then now else policy.(Intake_CreatedAt)) |>
    <| Intake_UpdatedAt := now |>).

Definition intake_error (message : string) (details : gmap string Any) : error :=
  ErrRuntime (NewRuntimeError CodeDecisionSchemaError message details).
Definition unsupported_match (matchType : string) : error :=
  intake_error "unsupported intake match_type" {["match_type" := AString matchType]}.
Definition invalid_regex (message : string) : error :=
  intake_error "invalid intake regex pattern" {["error" := AString message]}.
Definition validatePolicy policy : option error :=
  if negb (mem_string policy.(Intake_Status) [StatusDraft; StatusEnabled; StatusDisabled]) then
    Some (intake_error "unsupported intake policy status" {["status" := AString policy.(Intake_Status)]})
  else if negb (mem_string policy.(Intake_MatchType) [MatchAlways; MatchExact; MatchPrefix; MatchContains; MatchRegex]) then
    Some (unsupported_match policy.(Intake_MatchType))
  else if (policy.(Intake_MatchType) != MatchAlways) && (policy.(Intake_Pattern) == "") then
    Some (intake_error "intake policy pattern is required" ∅)
  else
    match (if policy.(Intake_MatchType) == MatchRegex
           then match Compile policy.(Intake_Pattern) with inr message => Some (invalid_regex message) | inl _ => None end
           else None) with
    | Some err => Some err
    | None =>
        if policy.(Intake_ReplyText) == "" then Some (intake_error "intake policy reply_text is required" ∅)
        else if negb (mem_string policy.(Intake_ReplyKind) [IntakeReplyStatusUpdate; IntakeReplyAcknowledgment; IntakeReplyPolicyNotice]) then
          Some (intake_error "unsupported intake reply_kind" {["reply_kind" := AString policy.(Intake_ReplyKind)]})
        else None
    end.

(** ** The operations *)

Definition intake_audit (tenantID actorID actorType action resourceID decision reason : string) : IM unit :=
  with_audit (
    let! id := idgen_New "audit" in
    let! now := now in
    audit_Log (zeroAuditEvent
      <| Audit_AuditID := id |> <| Audit_TenantID := tenantID |> <| Audit_ActorID := set_or actorID "clean-core" |>
      <| Audit_ActorType := set_or actorType "system" |> <| Audit_Action := action |>
      <| Audit_ResourceType := "intake_policy" |> <| Audit_ResourceID := resourceID |>
      <| Audit_Decision := decision |> <| Audit_Reason := reason |> <| Audit_CreatedAt := now |>)).

Definition UpsertIntake policy (actorID actorType : string) : IM IntakePolicy :=
  let! now := now in
  let! policy := normalizePolicy policy now in
  match validatePolicy policy with
  | Some err => throw err
  | None =>
      let! saved := store_Upsert policy in
      do! intake_audit saved.(Intake_TenantID) actorID actorType AuditIntakePolicyUpserted saved.(Intake_PolicyID)
            "allowed" "" in
      ret saved
  end.
Definition ListIntake (tenantID : string) : IM (list IntakePolicy) := store_List tenantID.
Definition GetIntake (tenantID policyID : string) : IM (option IntakePolicy) := store_Get tenantID (TrimSpace policyID).
Definition DeleteIntake (tenantID policyID actorID actorType : string) : IM (option IntakePolicy) :=
  let! deleted := store_Delete tenantID (TrimSpace policyID) in
  match deleted with
  | None => ret None
  | Some policy =>
      do! intake_audit policy.(Intake_TenantID) actorID actorType AuditIntakePolicyDeleted policy.(Intake_PolicyID)
            "allowed" "" in
      ret (Some policy)
  end.

(** ** The evaluation *)

Definition policyApplies policy (req : IntakeRequest) : bool :=
  if policy.(Intake_Status) != StatusEnabled then false else
  if (policy.(Intake_TenantID) != "") && (policy.(Intake_TenantID) != req.(Ask_TenantID)) then false else
  if (policy.(Intake_AgentID) != "") && (policy.(Intake_AgentID) != req.(Ask_AgentID)) then false else
  if (policy.(Intake_AgentVersion) != "") && (policy.(Intake_AgentVersion) != req.(Ask_AgentVersion)) then false else
  if (policy.(Intake_Channel) != "") && negb (EqualFold policy.(Intake_Channel) req.(Ask_Channel)) then false else true.
Definition matchPolicy policy (input : string) : bool + error :=
  let kind := policy.(Intake_MatchType) in
  if kind == MatchAlways then inl true
  else if kind == MatchExact then inl (EqualFold (TrimSpace input) (TrimSpace policy.(Intake_Pattern)))
  else if kind == MatchPrefix then inl (HasPrefix (ToLower (TrimSpace input)) (ToLower policy.(Intake_Pattern)))
  else if kind == MatchContains then inl (Contains (ToLower input) (ToLower policy.(Intake_Pattern)))
  else if kind == MatchRegex then
    match Compile policy.(Intake_Pattern) with
    | inr message => inr (invalid_regex message)
    | inl MatchString => inl (MatchString input)
    end
  else inr (unsupported_match kind).

Definition no_reply : IntakeResult := mkIntakeResult false "" "" "" true DispatchExternalChannel ∅ None.
Definition reply_of policy : IntakeResult :=
  mkIntakeResult true policy.(Intake_PolicyID) policy.(Intake_ReplyText) policy.(Intake_ReplyKind)
    policy.(Intake_ContinueToRun) DispatchExternalChannel
    {["agent_id" := AString policy.(Intake_AgentID); "agent_version" := AString policy.(Intake_AgentVersion);
      "channel" := AString policy.(Intake_Channel); "match_type" := AString policy.(Intake_MatchType)]} (Some policy).
(** The loop over the policies: the first match ends it, and so does an error. *)
Fixpoint first_match (policies : list IntakePolicy) (req : IntakeRequest) : IntakeResult + error :=
  match policies with
  | [] => inl no_reply
  | policy :: policies =>
      if negb (policyApplies policy req) then first_match policies req else
      match matchPolicy policy req.(Ask_Input) with
      | inr err => inr err
      | inl matched => if matched then inl (reply_of policy) else first_match policies req
      end
  end.

Definition traceEvaluation (req : IntakeRequest) (result : IntakeResult) : IM unit :=
  if req.(Ask_TraceID) == "" then ret tt else with_trace (
    let! span := idgen_New "span" in
    let! now := now in
    trace_Record (zeroTraceEvent
      <| Trace_TraceID := req.(Ask_TraceID) |> <| Trace_TenantID := req.(Ask_TenantID) |> <| Trace_SpanID := span |>
      <| Trace_RunID := req.(Ask_RunID) |> <| Trace_TaskID := req.(Ask_TaskID) |>
      <| Trace_Type := TraceIntakePreReplyEvaluated |>
      <| Trace_Payload := {[
           "matched" := ABool result.(Reply_Matched); "policy_id" := AString result.(Reply_PolicyID);
           "reply_kind" := AString result.(Reply_ReplyKind); "continue_to_run" := ABool result.(Reply_ContinueToRun);
           "dispatch" := AString result.(Reply_Dispatch); "agent_id" := AString req.(Ask_AgentID);
           "agent_version" := AString req.(Ask_AgentVersion); "channel" := AString req.(Ask_Channel)]} |>
      <| Trace_CreatedAt := now |>)).
Definition EvaluateIntake (req : IntakeRequest) : IM IntakeResult :=
  let! policies := store_List req.(Ask_TenantID) in
  match first_match (sortIntake policies) req with
  | inr err => throw err
  | inl result => do! traceEvaluation req result in ret result
  end.
End service.

(** ** What gets a reply *)

Section replies.
Context `{Env} (Compile : string → (string → bool) + string).
Implicit Types policy : IntakePolicy.
Implicit Types s : IntakeStore.

Inductive matched policy (input : string) : Prop :=
| matched_always : policy.(Intake_MatchType) = MatchAlways → matched policy input
| matched_exact : policy.(Intake_MatchType) = MatchExact →
    ToLower (TrimSpace input) = ToLower (TrimSpace policy.(Intake_Pattern)) → matched policy input
| matched_prefix : policy.(Intake_MatchType) = MatchPrefix →
    HasPrefix (ToLower (TrimSpace input)) (ToLower policy.(Intake_Pattern)) = true → matched policy input
| matched_contains : policy.(Intake_MatchType) = MatchContains →
    Contains (ToLower input) (ToLower policy.(Intake_Pattern)) = true → matched policy input
| matched_regex MatchString : policy.(Intake_MatchType) = MatchRegex →
    Compile policy.(Intake_Pattern) = inl MatchString → MatchString input = true → matched policy input.

(** The policy is in force for the request and matches its input. *)
Record answers_request (req : IntakeRequest) policy : Prop := {
  ans_enabled : policy.(Intake_Status) = StatusEnabled;
  ans_tenant : policy.(Intake_TenantID) = "" ∨ policy.(Intake_TenantID) = req.(Ask_TenantID);
  ans_agent : policy.(Intake_AgentID) = "" ∨ policy.(Intake_AgentID) = req.(Ask_AgentID);
  ans_version : policy.(Intake_AgentVersion) = "" ∨ policy.(Intake_AgentVersion) = req.(Ask_AgentVersion);
  ans_channel : policy.(Intake_Channel) = "" ∨ ToLower policy.(Intake_Channel) = ToLower req.(Ask_Channel);
  ans_match : matched policy req.(Ask_Input)
}.

(** Every policy of the store is valid and filed under its key. *)
Definition intake_ok s : Prop :=
  ∀ key policy, s !! key = Some policy →
    validatePolicy Compile policy = None ∧ key = policyKey policy.(Intake_TenantID) policy.(Intake_PolicyID).

Lemma policyApplies_iff policy req : policyApplies policy req = true ↔
  policy.(Intake_Status) = StatusEnabled ∧
  (policy.(Intake_TenantID) = "" ∨ policy.(Intake_TenantID) = req.(Ask_TenantID)) ∧
  (policy.(Intake_AgentID) = "" ∨ policy.(Intake_AgentID) = req.(Ask_AgentID)) ∧
  (policy.(Intake_AgentVersion) = "" ∨ policy.(Intake_AgentVersion) = req.(Ask_AgentVersion)) ∧
  (policy.(Intake_Channel) = "" ∨ ToLower policy.(Intake_Channel) = ToLower req.(Ask_Channel)).
Proof.
  unfold policyApplies, EqualFold.
  repeat match goal with |- context [String.eqb ?a ?b] => destruct (String.eqb_spec a b); cbn [negb andb] end;
    (split; [intros E; try discriminate E; tauto|try done; tauto]).
Qed.

(** A valid policy can be matched. *)
Lemma matchPolicy_valid policy input : validatePolicy Compile policy = None →
  ∃ b, matchPolicy Compile policy input = inl b ∧ (b = true ↔ matched policy input).
Proof.
  intros Hv. unfold validatePolicy in Hv. unfold matchPolicy.
  destruct (negb _); [done|]. destruct (negb (mem_string (Intake_MatchType policy) _)) eqn:Ek; [done|].
  apply negb_false_iff, mem_string_elem in Ek. destruct (_ && _); [done|].
  assert (∀ a b, a = Intake_MatchType policy → (Intake_MatchType policy == b) = (a == b)) as Hk by by intros ?? <-.
  rewrite !elem_of_cons, elem_of_nil in Ek.
  destruct Ek as [Ek|[Ek|[Ek|[Ek|[Ek|[]]]]]]; rewrite !(Hk _ _ (eq_sym Ek)) in *; cbn [String.eqb Ascii.eqb Bool.eqb MatchAlways
    MatchExact MatchPrefix MatchContains MatchRegex] in *.
  1-4: eexists; split; [done|]. 5: destruct (Compile _) as [MatchString|] eqn:Ec; [|done]; eexists; split; [done|].
  all: unfold EqualFold; rewrite ?String.eqb_eq; split; [intros Hm|intros [E|E ?|E ?|E ?|? E Ec' Hm]; rewrite Ek in E; try discriminate E; try done].
  - by apply matched_always.
  - by apply matched_exact.
  - by apply matched_prefix.
  - by apply matched_contains.
  - by eapply matched_regex.
  - congruence.
Qed.

Lemma answers_iff policy req : validatePolicy Compile policy = None →
  ∃ b, matchPolicy Compile policy req.(Ask_Input) = inl b ∧ (policyApplies policy req && b = true ↔ answers_request req policy).
Proof.
  intros Hv. destruct (matchPolicy_valid policy req.(Ask_Input) Hv) as (b & E & Hb). exists b. split; [done|].
  rewrite andb_true_iff, policyApplies_iff, Hb. split; [by intros [(? & ? & ? & ? & ?) ?]|by intros []].
Qed.

Lemma first_match_ok req l : (∀ policy, policy ∈ l → validatePolicy Compile policy = None) →
  ∃ result, first_match Compile l req = inl result ∧
    ((result = no_reply ∧ ∀ policy, policy ∈ l → ¬ answers_request req policy) ∨
     ∃ before policy after, l = before ++ policy :: after ∧ result = reply_of policy ∧ answers_request req policy ∧
       ∀ other, other ∈ before → ¬ answers_request req other).
Proof.
  induction l as [|p l IH]; intros Hv.
  { exists no_reply. split; [done|]. left. split; [done|]. by intros ? ?%elem_of_nil. }
  destruct IH as (result & E & Hr); [by intros; apply Hv; right|].
  destruct (answers_iff p req (Hv p ltac:(by left))) as (b & Eb & Hb). cbn [first_match]. rewrite Eb.
  destruct (policyApplies p req && b) eqn:Epb.
  - apply andb_true_iff in Epb as [-> ->]. exists (reply_of p). split; [done|]. right. exists [], p, l.
    split; [done|]. split; [done|]. split; [tauto|]. by intros ? ?%elem_of_nil.
  - exists result. split; [destruct (policyApplies p req); cbn in *; [by rewrite Epb|done]|].
    assert (¬ answers_request req p) by (rewrite <- Hb; discriminate).
    destruct Hr as [[-> Hn]|(before & q & after & -> & -> & Hq & Hn)]; [left|right].
    + split; [done|]. by intros q [->|Hq]%elem_of_cons; [|apply Hn].
    + exists (p :: before), q, after. do 3 (split; [done|]). by intros o [->|Ho]%elem_of_cons; [|apply Hn].
Qed.

(** *** The order of the policies *)

Lemma intake_before_trans a b c : le_of intake_before a b → le_of intake_before b c → le_of intake_before a c.
Proof.
  unfold le_of, intake_before, Equal, After. repeat case Z.eqb_spec; cbn [negb]; rewrite ?Z.gtb_ltb;
    repeat case Z.ltb_spec; intros; try done; try lia; by eapply string_lt_le_trans.
Qed.
Lemma intake_before_asym a b : intake_before a b = true → le_of intake_before a b.
Proof.
  unfold le_of, intake_before, Equal, After. repeat case Z.eqb_spec; cbn [negb]; rewrite ?Z.gtb_ltb;
    repeat case Z.ltb_spec; intros; try done; try lia; by apply string_lt_asym.
Qed.
Lemma intake_before_irrefl a : intake_before a a = false.
Proof. unfold intake_before, Equal. rewrite !Z.eqb_refl. apply string_lt_irrefl. Qed.

(** ** The store stays valid *)

Lemma effect_intake_audit t a ty ac r d re : effect_only (S:=IntakeStore) (intake_audit t a ty ac r d re).
Proof. unfold intake_audit. auto 10 with effects. Qed.
Lemma effect_traceEvaluation req r : effect_only (S:=IntakeStore) (traceEvaluation req r).
Proof. unfold traceEvaluation. auto 10 with effects. Qed.

Inductive intake_call :=
| PutIntake policy (actorID actorType : string)
| DropIntake (tenantID policyID actorID actorType : string).
Definition intake_step (c : intake_call) : M IntakeStore unit :=
  match c with
  | PutIntake policy actorID actorType => let! _ := UpsertIntake Compile policy actorID actorType in ret tt
  | DropIntake tenantID policyID actorID actorType => let! _ := DeleteIntake tenantID policyID actorID actorType in ret tt
  end.
Fixpoint intake_calls (cs : list intake_call) : M IntakeStore unit :=
  match cs with [] => ret tt | c :: cs => do! ignore (intake_step c) in intake_calls cs end.

Lemma upsert_intake_ok policy actorID actorType :
  triple intake_ok (UpsertIntake Compile policy actorID actorType) (λ _, intake_ok) intake_ok.
Proof.
  unfold UpsertIntake. eapply triple_bind; [by apply triple_effect; auto with effects|]. intros t.
  eapply triple_bind; [apply triple_effect; unfold normalizePolicy; auto 10 with effects|]. intros p.
  destruct (validatePolicy Compile p) eqn:Ev; [by apply triple_throw|].
  apply (triple_bind _ _ (λ _, intake_ok)); cycle 1.
  { intros a. eapply triple_bind; [apply triple_effect, effect_intake_audit|]. intros []. by apply triple_ret. }
  unfold store_Upsert. apply triple_get. intros s Hs.
  apply (triple_bind _ _ (λ _, intake_ok)); [|intros []; by apply triple_ret]. apply triple_put. intros s' _ key q.
  destruct (decide (key = policyKey p.(Intake_TenantID) p.(Intake_PolicyID))) as [->|Hne].
  - rewrite lookup_insert_eq. by intros [= <-].
  - rewrite lookup_insert_ne by done. apply Hs.
Qed.
Lemma delete_intake_ok tenantID policyID actorID actorType :
  triple intake_ok (DeleteIntake tenantID policyID actorID actorType) (λ _, intake_ok) intake_ok.
Proof.
  unfold DeleteIntake. apply (triple_bind _ _ (λ _, intake_ok)).
  - unfold store_Delete. apply triple_get. intros s Hs. destruct (s !! _); [|apply triple_ret; by intros s' [-> _]].
    apply (triple_bind _ _ (λ _, intake_ok)); [|intros []; by apply triple_ret]. apply triple_put. intros s' _ key q Hq.
    apply lookup_delete_Some in Hq as [_ Hq]. by apply Hs.
  - intros [p|]; [|by apply triple_ret].
    eapply triple_bind; [apply triple_effect, effect_intake_audit|]. intros []. by apply triple_ret.
Qed.
Lemma intake_calls_ok cs : triple intake_ok (intake_calls cs) (λ _, intake_ok) intake_ok.
Proof.
  induction cs as [|c cs IH]; [by apply triple_ret|]. apply (triple_bind _ _ (λ _, intake_ok)); [|by intros].
  intros w s Hs. unfold ignore. assert (triple intake_ok (intake_step c) (λ _, intake_ok) intake_ok) as Hc.
  { destruct c; (eapply triple_bind; [apply upsert_intake_ok || apply delete_intake_ok|]; intros ?; by apply triple_ret). }
  specialize (Hc w s Hs). by destruct (intake_step c w s) as [[[] ?] ?].
Qed.

Lemma store_List_run tenantID w s : ∃ l w', store_List tenantID w s = (Ok (sortIntake l), w', s) ∧
  ∀ policy, policy ∈ l ↔ ∃ key, s !! key = Some policy ∧ for_tenant tenantID policy = true.
Proof.
  unfold store_List. rewrite bind_get. destruct (range_map_run s w s) as (l & w' & E & Hp).
  rewrite (bind_Ok _ _ _ _ _ _ _ E). exists (List.filter (for_tenant tenantID) (map snd l)), w'. split; [done|].
  intros p. rewrite filter_bool_elem, elem_of_map_snd. setoid_rewrite Hp. setoid_rewrite elem_of_map_to_list. naive_solver.
Qed.
Lemma answers_listed req policy : answers_request req policy → for_tenant req.(Ask_TenantID) policy = true.
Proof. intros [_ [E|E] _ _ _ _]; unfold for_tenant; rewrite E, String.eqb_refl; [apply orb_true_r|done]. Qed.

(** C34. Whatever policies were stored and deleted, every input is evaluated without an error: it gets the reply of a
    policy that is in force for the request and matches, such that no other one comes before it by priority and age, and
    no reply, with the run to go on, only when no policy of the store answers. *)
Theorem evaluate_first cs w : let '(_, w1, s) := intake_calls cs w ∅ in
  intake_ok s ∧
  ∀ req w2, ∃ result w3, EvaluateIntake Compile req w2 s = (Ok result, w3, s) ∧
    ((result = no_reply ∧ ∀ key policy, s !! key = Some policy → ¬ answers_request req policy) ∨
     ∃ key policy, s !! key = Some policy ∧ answers_request req policy ∧ result = reply_of policy ∧
       ∀ key' other, s !! key' = Some other → answers_request req other → intake_before other policy = false).
Proof.
  destruct (intake_calls cs w ∅) as [[r w1] s] eqn:E. assert (intake_ok s) as Hs.
  { eapply triple_inv; [apply (intake_calls_ok cs)| |exact E]. by intros ? ?; rewrite lookup_empty. }
  split; [done|]. intros req w2. unfold EvaluateIntake.
  destruct (store_List_run req.(Ask_TenantID) w2 s) as (l & w3 & El & Hl). rewrite (bind_Ok _ _ _ _ _ _ _ El).
  set (l' := sortIntake (sortIntake l)).
  assert (∀ p, p ∈ l' ↔ ∃ key, s !! key = Some p ∧ for_tenant req.(Ask_TenantID) p = true) as Hl'.
  { intros p. unfold l', sortIntake. by rewrite !stable_sort_elem. }
  destruct (first_match_ok req l') as (result & -> & Hr); [by intros p (key & Hk & _)%Hl'; eapply Hs|].
  destruct (effect_traceEvaluation req result w3 s) as ([] & w4 & Et). rewrite (bind_Ok _ _ _ _ _ _ _ Et).
  exists result, w4. split; [done|]. destruct Hr as [[-> Hn]|(before & p & after & Ep & -> & Hp & Hn)]; [left|right].
  - split; [done|]. intros key p Hk Ha. apply (Hn p); [|done]. apply Hl'. exists key. split; [done|]. by apply answers_listed.
  - assert (p ∈ l') as (key & Hk & _)%Hl' by (rewrite Ep; apply elem_of_app; right; left).
    exists key, p. do 3 (split; [done|]). intros key' q Hq Ha.
    assert (q ∈ l') as Hin by (apply Hl'; exists key'; split; [done|by apply answers_listed]).
    pose proof (stable_sort_Sorted intake_before intake_before_trans intake_before_asym (sortIntake l)) as Hsort.
    fold (sortIntake (sortIntake l)) in Hsort. fold l' in Hsort. rewrite Ep in Hin, Hsort.
    apply elem_of_app in Hin as [Hin|[->|Hin]%elem_of_cons]; [by destruct (Hn q)|apply intake_before_irrefl|].
    apply StronglySorted_app in Hsort as (_ & _ & Hsort). apply StronglySorted_inv in Hsort as [_ Hall].
    rewrite Forall_forall in Hall. by apply Hall.
Qed.
End replies.

(** ** Examples *)

Section demo.
Let env : Env := test_env.
#[local] Existing Instance env.

(** Patterns without operators, and one that is not a pattern. *)
Definition demo_compile (pattern : string) : (string → bool) + string :=
  if pattern == "(" then inr "missing closing )" else inl (λ input, Contains input pattern).
Definition demo_intake (tenantID policyID matchType pattern reply : string) (priority : Z) : IntakePolicy :=
  mkIntakePolicy tenantID policyID "" "" priority "" "" "" matchType pattern reply "" true "" 0 0.
Definition demo_policies : list intake_call :=
  map (λ p, PutIntake p "ann" "user")
    [demo_intake "" "all" MatchAlways "" "We are looking at it." 0;
     demo_intake "acme" " refund " MatchContains "REFUND" "Refunds take 3 days." 5;
     demo_intake "acme" "broken" MatchRegex "(" "never" 9;
     demo_intake "acme" "" "" "" "no pattern" 9;
     demo_intake "zeta" "all" MatchAlways "" "zeta" 7].
Definition demo_reply (cs : list intake_call) (tenantID input : string) : option (string * string) :=
  let '(_, w, s) := intake_calls demo_compile cs world0 ∅ in
  match (EvaluateIntake demo_compile (mkIntakeRequest tenantID "" "" "" "" "" "" input "" "") w s).1.1 with
  | Ok r => Some (r.(Reply_PolicyID), r.(Reply_ReplyText)) | _ => None
  end.

Example best_reply : demo_reply demo_policies "acme" "a Refund please" = Some ("refund", "Refunds take 3 days.").
Proof. by vm_compute. Qed.
Example reply_to_all : demo_reply demo_policies "acme" "hello" = Some ("all", "We are looking at it.").
Proof. by vm_compute. Qed.
Example reply_of_tenant : demo_reply demo_policies "zeta" "hello" = Some ("all", "zeta").
Proof. by vm_compute. Qed.
Example deleted_for_tenant_only : demo_reply (demo_policies ++ [DropIntake "acme" "all" "ann" "user";
  DropIntake "acme" " refund" "ann" "user"]) "acme" "refund" = Some ("all", "We are looking at it.").
Proof. by vm_compute. Qed.
End demo.
