(* ===== verification/Group.v ===== *)
(** * Members of groups and the tone in a group: internal/identity/service.go, internal/tone/service.go

    The members of a group by their id and by their id outside, and the policy that decides in which style an agent
    answers in a group and whether it answers at all.  The PostgreSQL stores are records of operations. *)

From stdpp Require Import base list strings gmap fin_maps sorting.
From Stdlib Require Import Ascii Lia.
From S2P Require Import Prelude Contracts GoMonad Storage Policies Permission.
Open Scope go_scope.
Open Scope string_scope.
Open Scope list_scope.

(** ** Members *)

Record MemberStoreOps (T : Type) := mkMemberStoreOps {
  store_SaveMember : GroupMemberProfile → M T unit;
  store_ResolveMember : string → string → string → M T (option GroupMemberProfile);
  store_ListMembers : string → string → M T (list GroupMemberProfile)
}.
Arguments mkMemberStoreOps {T}.
Arguments store_SaveMember {T}.
Arguments store_ResolveMember {T}.
Arguments store_ListMembers {T}.

(** [InMemoryService]; [members_stored] is the state of the store. *)
Record Members (T : Type) := mkMembers {
  members_byKey : gmap string GroupMemberProfile;
  members_byExternal : gmap string string;
  members_stored : T
}.
Arguments mkMembers {T}.
Arguments members_byKey {T}.
Arguments members_byExternal {T}.
Arguments members_stored {T}.
#[export] Instance eta_Members {T} : Settable (Members T) :=
  fields! (mkMembers (T:=T)) < members_byKey ; members_byExternal ; members_stored >.

(** [key] and [externalKey]. *)
Definition memberKey (tenantID groupID memberID : string) : string :=
  tenantID +:+ (NUL +:+ (groupID +:+ (NUL +:+ memberID))).
Definition externalKey (tenantID groupID externalUserID : string) : string :=
  tenantID +:+ (NUL +:+ (groupID +:+ (NUL +:+ externalUserID))).

Section members.
Context `{Env} {T : Type} (store : option (MemberStoreOps T)).
Notation MM := (M (Members T)).
Definition on_members {A} (m : M T A) : MM A := zoom members_stored (λ t s, s <| members_stored := t |>) m.

(** A profile with what is left out filled in. *)
Definition completed_profile (profile : GroupMemberProfile) : MM GroupMemberProfile :=
  let! id := if profile.(Member_MemberID) == "" then idgen_New "member" else ret profile.(Member_MemberID) in
  let! seen := if IsZero profile.(Member_LastSeenAt) then now else ret profile.(Member_LastSeenAt) in
  ret (profile <| Member_MemberID := id |>
    <| Member_MemberType := (if profile.(Member_MemberType) == "" then MemberTypeHuman else profile.(Member_MemberType)) |>
    <| Member_Status := (if profile.(Member_Status) == "" then MemberStatusActive else profile.(Member_Status)) |>
    <| Member_LastSeenAt := seen |>).
Definition key_of_member (p : GroupMemberProfile) : string :=
  memberKey p.(Member_TenantID) p.(Member_GroupID) p.(Member_MemberID).
Definition external_of_member (p : GroupMemberProfile) : string :=
  externalKey p.(Member_TenantID) p.(Member_GroupID) p.(Member_ExternalUserID).
Definition keep_member (p : GroupMemberProfile) (s : Members T) : Members T :=
  let s := s <| members_byKey := <[key_of_member p := p]> s.(members_byKey) |> in
  if p.(Member_ExternalUserID) != ""
  then s <| members_byExternal := <[external_of_member p := key_of_member p]> s.(members_byExternal) |> else s.
Definition UpsertMember (profile : GroupMemberProfile) : MM GroupMemberProfile :=
  if (profile.(Member_TenantID) == "") || (profile.(Member_GroupID) == "")
  then throw (Errorf "tenant_id and group_id are required" []) else
  let! profile := completed_profile profile in
  let! s := get in
  do! put (keep_member profile s) in
  do! match store with Some store => on_members (store.(store_SaveMember) profile) | None => ret tt end in
  ret profile.

Definition resolve_local (s : Members T) (tenantID groupID externalUserID : string) : option GroupMemberProfile :=
  match s.(members_byExternal) !! externalKey tenantID groupID externalUserID with
  | None => None
  | Some key => s.(members_byKey) !! key
  end.
Definition ResolveMember (tenantID groupID externalUserID : string) : MM (option GroupMemberProfile) :=
  if (tenantID == "") || (groupID == "") || (externalUserID == "") then ret None else
  let! stored := match store with
                 | Some store => on_members (store.(store_ResolveMember) tenantID groupID externalUserID)
                 | None => ret None
                 end in
  match stored with
  | Some member => ret (Some member)
  | None => let! s := get in ret (resolve_local s tenantID groupID externalUserID)
  end.

Definition shown_name (p : GroupMemberProfile) : string :=
  if p.(Member_DisplayName) == "" then p.(Member_MemberID) else p.(Member_DisplayName).
Definition in_group (tenantID groupID : string) (p : GroupMemberProfile) : bool :=
  (p.(Member_TenantID) == tenantID) && (p.(Member_GroupID) == groupID).
Definition ListGroupMembers (tenantID groupID : string) : MM (list GroupMemberProfile) :=
  let! stored := match store with
                 | Some store => on_members (store.(store_ListMembers) tenantID groupID)
                 | None => ret []
                 end in
  match stored with
  | _ :: _ => ret stored
  | [] =>
      let! s := get in
      let! members := range_map s.(members_byKey) in
      ret (stable_sort (λ a b, string_lt (shown_name a) (shown_name b))
             (List.filter (in_group tenantID groupID) (map snd members)))
  end.
End members.

(** ** Tone *)

Record ToneRule := mkToneRule {
  ToneRule_When : string;
  ToneRule_Style : string
}.
#[export] Instance eta_ToneRule : Settable ToneRule :=
  fields! mkToneRule < ToneRule_When ; ToneRule_Style >.
Definition zeroToneRule : ToneRule :=
  mkToneRule EmptyString EmptyString.

Record TonePolicy := mkTonePolicy {
  Tone_TenantID : string;
  Tone_GroupID : string;
  Tone_DefaultStyle : string;
  Tone_GroupStyle : string;
  Tone_Rules : list ToneRule
}.
#[export] Instance eta_TonePolicy : Settable TonePolicy :=
  fields! mkTonePolicy < Tone_TenantID ; Tone_GroupID ; Tone_DefaultStyle ; Tone_GroupStyle ; Tone_Rules >.
Definition zeroTonePolicy : TonePolicy :=
  mkTonePolicy EmptyString EmptyString EmptyString EmptyString [].

Record ToneDecision := mkToneDecision {
  ToneD_Style : string;
  ToneD_ShouldReply : bool;
  ToneD_Reasons : list string
}.
#[export] Instance eta_ToneDecision : Settable ToneDecision :=
  fields! mkToneDecision < ToneD_Style ; ToneD_ShouldReply ; ToneD_Reasons >.
Definition zeroToneDecision : ToneDecision :=
  mkToneDecision EmptyString false [].

Record DecideInput := mkDecideInput {
  Decide_TenantID : string;
  Decide_GroupID : string;
  Decide_Signals : list string;
  Decide_Addressee : bool;
  Decide_HighRisk : bool;
  Decide_TraceID : string;
  Decide_TaskID : string;
  Decide_RunID : string
}.
#[export] Instance eta_DecideInput : Settable DecideInput :=
  fields! mkDecideInput < Decide_TenantID ; Decide_GroupID ; Decide_Signals ; Decide_Addressee ; Decide_HighRisk ; Decide_TraceID ; Decide_TaskID ; Decide_RunID >.
Definition zeroDecideInput : DecideInput :=
  mkDecideInput EmptyString EmptyString [] false false EmptyString EmptyString EmptyString.

Record ToneStoreOps (T : Type) := mkToneStoreOps {
  store_SaveTone : TonePolicy → M T unit;
  store_GetTone : string → string → M T (option TonePolicy)
}.
Arguments mkToneStoreOps {T}.
Arguments store_SaveTone {T}.
Arguments store_GetTone {T}.

(** The service; [tone_stored] is the state of its store. *)
Record Tones (T : Type) := mkTones { tone_policies : gmap string TonePolicy; tone_stored : T }.
Arguments mkTones {T}.
Arguments tone_policies {T}.
Arguments tone_stored {T}.
#[export] Instance eta_Tones {T} : Settable (Tones T) := fields! (mkTones (T:=T)) < tone_policies ; tone_stored >.

Definition toneKey (tenantID groupID : string) : string := tenantID +:+ (NUL +:+ groupID).
Definition default_style : string := "concise_collaborative".
Definition default_tone : TonePolicy :=
  zeroTonePolicy <| Tone_DefaultStyle := default_style |>
    <| Tone_Rules := [mkToneRule "high_risk_action" "formal_confirmation";
                      mkToneRule "human_to_human_discussion" "silent";
                      mkToneRule "direct_question" "clear_short_answer"] |>.

(** [unique]: values trimmed, the empty ones and repetitions left out. *)
Definition tone_unique (values : list string) : list string := distinct [] (map TrimSpace values).

Definition decide_signals (input : DecideInput) : list string :=
  input.(Decide_Signals) ++ (if input.(Decide_HighRisk) then ["high_risk_action"] else []) ++
  (if negb input.(Decide_Addressee) then ["human_to_human_discussion"] else []).
(** The two loops: each signal in turn, and for it each rule. *)
Definition apply_rules (rules : list ToneRule) (style signal : string) : string :=
  fold_left (λ style rule, if (rule.(ToneRule_When) == signal) && (rule.(ToneRule_Style) != "")
                           then rule.(ToneRule_Style) else style) rules style.
Definition styled (policy : TonePolicy) (signals : list string) : string :=
  let style := if policy.(Tone_DefaultStyle) == "" then default_style else policy.(Tone_DefaultStyle) in
  fold_left (apply_rules policy.(Tone_Rules)) signals style.
Definition tone_decision (policy : TonePolicy) (input : DecideInput) : ToneDecision :=
  let signals := decide_signals input in
  let style := styled policy signals in
  let shouldReply := (style != "silent") && input.(Decide_Addressee) in
  let shouldReply := if input.(Decide_HighRisk) && (style == "formal_confirmation") then true else shouldReply in
  mkToneDecision style shouldReply (tone_unique signals).

Section tones.
Context `{Env} {T : Type} (store : option (ToneStoreOps T)).
Notation TM := (M (Tones T)).
Definition on_tones {A} (m : M T A) : TM A := zoom tone_stored (λ t s, s <| tone_stored := t |>) m.

Definition UpsertTone (policy : TonePolicy) : TM unit :=
  let policy := if policy.(Tone_DefaultStyle) == "" then policy <| Tone_DefaultStyle := default_style |> else policy in
  let! s := get in
  do! put (s <| tone_policies := <[toneKey policy.(Tone_TenantID) policy.(Tone_GroupID) := policy]> s.(tone_policies) |>) in
  match store with Some store => ignore (on_tones (store.(store_SaveTone) policy)) | None => ret tt end.

(** A policy of the store, unless it has none or fails. *)
Definition stored_tone (tenantID groupID : string) : TM (option TonePolicy) :=
  match store with
  | None => ret None
  | Some store =>
      let! r := attempt (on_tones (store.(store_GetTone) tenantID groupID)) in
      ret (match r with inl found => found | inr _ => None end)
  end.
Definition local_tone (s : Tones T) (tenantID groupID : string) : TonePolicy :=
  match s.(tone_policies) !! toneKey tenantID groupID with
  | Some policy => policy
  | None => default default_tone (s.(tone_policies) !! toneKey tenantID "")
  end.
Definition tone_policy (tenantID groupID : string) : TM TonePolicy :=
  let! found := stored_tone tenantID groupID in
  match found with
  | Some policy => ret policy
  | None =>
      let! found := stored_tone tenantID "" in
      match found with
      | Some policy => ret policy
      | None => let! s := get in ret (local_tone s tenantID groupID)
      end
  end.

Definition tone_trace (input : DecideInput) (decision : ToneDecision) : TM unit :=
  if input.(Decide_TraceID) == "" then ret tt else with_trace (
    let! span := idgen_New "span" in
    let! now := now in
    trace_Record (zeroTraceEvent
      <| Trace_TraceID := input.(Decide_TraceID) |> <| Trace_TenantID := input.(Decide_TenantID) |>
      <| Trace_SpanID := span |> <| Trace_RunID := input.(Decide_RunID) |> <| Trace_TaskID := input.(Decide_TaskID) |>
      <| Trace_Type := TraceTonePolicyApplied |>
      <| Trace_Payload := {["group_id" := AString input.(Decide_GroupID); "style" := AString decision.(ToneD_Style);
           "should_reply" := ABool decision.(ToneD_ShouldReply); "signals" := AStrings decision.(ToneD_Reasons)]} |>
      <| Trace_CreatedAt := now |>)).
Definition DecideTone (input : DecideInput) : TM ToneDecision :=
  let! policy := tone_policy input.(Decide_TenantID) input.(Decide_GroupID) in
  let decision := tone_decision policy input in
  do! tone_trace input decision in
  ret decision.
End tones.

(** ** Whom an id outside stands for *)

Section resolving.
Context `{Env}.
Notation NoStore := (None : option (MemberStoreOps unit)).
Implicit Types s : Members unit.
Implicit Types log : list GroupMemberProfile.

(** The profiles that were accepted, the last one first, and the state that they make. *)
Fixpoint kept log : Members unit :=
  match log with [] => mkMembers ∅ ∅ tt | p :: log => keep_member p (kept log) end.
Definition last_of_member (key : string) log : option GroupMemberProfile := find (λ p, key_of_member p == key) log.
Definition last_of_external (key : string) log : option GroupMemberProfile :=
  find (λ p, (p.(Member_ExternalUserID) != "") && (external_of_member p == key)) log.

Lemma kept_byKey log key : (kept log).(members_byKey) !! key = last_of_member key log.
Proof.
  induction log as [|p log IH]; [done|]. cbn [kept last_of_member find].
  assert (members_byKey (keep_member p (kept log)) = <[key_of_member p := p]> (members_byKey (kept log))) as ->
    by (unfold keep_member; by destruct (_ != _)).
  destruct (String.eqb_spec (key_of_member p) key) as [<-|Hne]; [apply lookup_insert_eq|by rewrite lookup_insert_ne].
Qed.
Lemma kept_byExternal log key :
  (kept log).(members_byExternal) !! key = option_map key_of_member (last_of_external key log).
Proof.
  induction log as [|p log IH]; [done|]. cbn [kept last_of_external find]. unfold keep_member.
  destruct (Member_ExternalUserID p != ""); cbn; [|done].
  destruct (String.eqb_spec (external_of_member p) key) as [<-|Hne]; [apply lookup_insert_eq|by rewrite lookup_insert_ne].
Qed.
Lemma kept_resolve log t g u : resolve_local (kept log) t g u =
  match last_of_external (externalKey t g u) log with
  | Some p => last_of_member (key_of_member p) log
  | None => None
  end.
Proof.
  unfold resolve_local. rewrite kept_byExternal. destruct (last_of_external _ _); [|done]. apply kept_byKey.
Qed.

(** What is asked for is filled in, the rest is as it was given. *)
Definition completes (given p : GroupMemberProfile) : Prop :=
  p.(Member_TenantID) = given.(Member_TenantID) ∧ p.(Member_GroupID) = given.(Member_GroupID) ∧
  p.(Member_ExternalUserID) = given.(Member_ExternalUserID) ∧ p.(Member_MemberID) ≠ "" ∧
  (given.(Member_MemberID) ≠ "" → p.(Member_MemberID) = given.(Member_MemberID)) ∧
  p.(Member_MemberType) ≠ "" ∧ p.(Member_Status) ≠ "".

Lemma completed_run given w s : ∃ p w', completed_profile given w s = (Ok p, w', s) ∧ completes given p.
Proof.
  unfold completed_profile, completes.
  destruct (String.eqb_spec (Member_MemberID given) "") as [E|E], (IsZero (Member_LastSeenAt given)); do 2 eexists;
    (split; [reflexivity|]); cbn; repeat split; try done;
    by repeat match goal with |- context [String.eqb ?a ?b] => destruct (String.eqb_spec a b) end.
Qed.
Lemma upsert_member_run given w s : ∃ w', (∃ e, UpsertMember NoStore given w s = (Err e, w', s)) ∨
  ∃ p, completes given p ∧ UpsertMember NoStore given w s = (Ok p, w', keep_member p s).
Proof.
  unfold UpsertMember. destruct (_ || _); [by eexists; left; eexists|].
  destruct (completed_run given w s) as (p & w' & E & Hc). rewrite (bind_Ok _ _ _ _ _ _ _ E).
  exists w'. right. by exists p.
Qed.

Fixpoint upsert_members (given : list GroupMemberProfile) : M (Members unit) unit :=
  match given with
  | [] => ret tt
  | p :: given => do! ignore (let! _ := UpsertMember NoStore p in ret tt) in upsert_members given
  end.
Lemma upsert_members_log given log w : ∃ log' w', upsert_members given w (kept log) = (Ok tt, w', kept (log' ++ log)) ∧
  Forall (λ p, ∃ q, q ∈ given ∧ completes q p) log'.
Proof.
  revert log w. induction given as [|q given IH]; intros log w; [by exists [], w|].
  cbn [upsert_members]. destruct (upsert_member_run q w (kept log)) as (w1 & [[e E]|(p & Hp & E)]).
  all: assert (∃ s1, ignore (let! _ := UpsertMember NoStore q in ret tt) w (kept log) = (Ok tt, w1, s1) ∧
    UpsertMember NoStore q w (kept log) = ((UpsertMember NoStore q w (kept log)).1.1, w1, s1)) as (s1 & E1 & E2)
    by (unfold ignore, bind; rewrite E; by eexists).
  all: rewrite (bind_Ok _ _ _ _ _ _ _ E1); rewrite E in E2; injection E2 as <-.
  - destruct (IH log w1) as (log' & w2 & -> & Hall). exists log', w2. split; [done|].
    eapply Forall_impl; [done|]. intros p (q' & Hq & ?). exists q'. split; [by right|done].
  - change (keep_member p (kept log)) with (kept (p :: log)).
    destruct (IH (p :: log) w1) as (log' & w2 & -> & Hall). exists (log' ++ [p]), w2. rewrite <- app_assoc. split; [done|].
    apply Forall_app. split; [|constructor; [exists q; split; [left|done]|done]].
    eapply Forall_impl; [done|]. intros p' (q' & Hq & ?). exists q'. split; [by right|done].
Qed.

(** Whatever members were stored, an id outside stands for the member to whom it was given last, with the profile
    that this member was given last, and the group that is asked about is the group of that member (for names without
    NUL bytes). *)
Theorem resolve_correct given w : ∃ log w' s, upsert_members given w (kept []) = (Ok tt, w', s) ∧
  Forall (λ p, ∃ q, q ∈ given ∧ completes q p) log ∧
  ∀ t g u w1, t ≠ "" → g ≠ "" → u ≠ "" →
    ResolveMember NoStore t g u w1 s =
      (Ok (match last_of_external (externalKey t g u) log with
           | Some p => last_of_member (key_of_member p) log | None => None end), w1, s) ∧
    (nul_free t → nul_free g → Forall (λ p, nul_free p.(Member_TenantID) ∧ nul_free p.(Member_GroupID)) given →
     ∀ p q, last_of_external (externalKey t g u) log = Some p → last_of_member (key_of_member p) log = Some q →
       p.(Member_TenantID) = t ∧ p.(Member_GroupID) = g ∧ p.(Member_ExternalUserID) = u ∧
       q.(Member_TenantID) = t ∧ q.(Member_GroupID) = g ∧ q.(Member_MemberID) = p.(Member_MemberID)).
Proof.
  destruct (upsert_members_log given [] w) as (log & w' & E & Hall). rewrite app_nil_r in E.
  exists log, w', (kept log). split; [done|]. split; [done|]. intros t g u w1 Ht Hg Hu. split.
  - unfold ResolveMember. rewrite !eqb_neq_false by done. cbn [orb]. rewrite bind_ret, bind_get. by rewrite kept_resolve.
  - intros Nt Ng Hfree p q Hp Hq. apply find_some in Hp as [Hp Ep]. apply find_some in Hq as [Hq Eq].
    apply andb_true_iff in Ep as [_ Ep%String.eqb_eq]. apply String.eqb_eq in Eq.
    assert (∀ x, In x log → nul_free x.(Member_TenantID) ∧ nul_free x.(Member_GroupID)) as Hx.
    { intros x Hx%list_elem_of_In. rewrite Forall_forall in Hall, Hfree. destruct (Hall x Hx) as (y & Hy & Ey & Eg & _).
      rewrite Ey, Eg. by apply Hfree. }
    destruct (Hx p Hp), (Hx q Hq). apply nul_join_inj in Ep as [Et Ep]; [|done..]. apply nul_join_inj in Ep as [Eg Eu]; [|done..].
    apply nul_join_inj in Eq as [Eqt Eq]; [|done..]. apply nul_join_inj in Eq as [Eqg Equ]; [|done..].
    repeat split; congruence.
Qed.
End resolving.

(** ** Which style wins *)

Definition gives (signal : string) (rule : ToneRule) : bool :=
  (rule.(ToneRule_When) == signal) && (rule.(ToneRule_Style) != "").

Lemma apply_rules_last rules style signal :
  apply_rules rules style signal = match find (gives signal) (rev rules) with Some rule => ToneRule_Style rule | None => style end.
Proof.
  unfold apply_rules. rewrite <- fold_left_rev_right. induction (rev rules) as [|r l IH]; [done|].
  cbn. fold (gives signal r). by destruct (gives signal r).
Qed.

(** The style is that of the last rule for the last signal that has a rule, the default of the policy when none has
    one. *)
Theorem styled_last policy signals : styled policy signals =
  match find (λ signal, existsb (gives signal) policy.(Tone_Rules)) (rev signals) with
  | None => if policy.(Tone_DefaultStyle) == "" then default_style else policy.(Tone_DefaultStyle)
  | Some signal => match find (gives signal) (rev policy.(Tone_Rules)) with Some rule => ToneRule_Style rule | None => "" end
  end.
Proof.
  unfold styled. rewrite <- fold_left_rev_right. induction (rev signals) as [|signal l IH]; [done|].
  cbn. rewrite apply_rules_last. destruct (existsb (gives signal) _) eqn:Ex.
  - apply existsb_exists in Ex as (rule & Hin & Hr). destruct (find (gives signal) _) eqn:Ef; [done|].
    eapply find_none in Ef; [|by rewrite <- in_rev]. congruence.
  - destruct (find (gives signal) (rev _)) eqn:Ef; [|exact IH]. apply find_some in Ef as [Hin Hg].
    apply in_rev in Hin. assert (existsb (gives signal) (Tone_Rules policy) = true) by (apply existsb_exists; eauto). congruence.
Qed.

(** Under the default policy no reply is ever forced: a request that nobody addressed to the agent stays without one,
    for the rule about discussions comes after the rule about risks. *)
Lemma never_forced input : (tone_decision default_tone input).(ToneD_ShouldReply) = true → input.(Decide_Addressee) = true.
Proof.
  unfold tone_decision. cbn [ToneD_ShouldReply]. destruct (Decide_Addressee input) eqn:Ea; [done|].
  assert (styled default_tone (decide_signals input) = "silent") as ->.
  { unfold styled, decide_signals. rewrite Ea, !fold_left_app. done. }
  by rewrite andb_false_r.
Qed.

(** ** Examples *)

Section demo.
Let env : Env := test_env.
#[local] Existing Instance env.

Definition demo_member (memberID externalID name : string) : GroupMemberProfile :=
  zeroGroupMemberProfile <| Member_TenantID := "acme" |> <| Member_GroupID := "dev" |> <| Member_MemberID := memberID |>
    <| Member_ExternalUserID := externalID |> <| Member_DisplayName := name |>.
Definition demo_members (given : list GroupMemberProfile) : Members unit := (upsert_members given world0 (kept [])).2.
Definition resolved_name (s : Members unit) (u : string) : option string :=
  match (ResolveMember None "acme" "dev" u world0 s).1.1 with Ok (Some p) => Some p.(Member_DisplayName) | _ => None end.

Example renamed : resolved_name (demo_members [demo_member "m1" "u1" "Ann"; demo_member "m1" "u1" "Anna"]) "u1" = Some "Anna".
Proof. by vm_compute. Qed.
(** An id outside that a member has given up still stands for that member. *)
Example given_up : let s := demo_members [demo_member "m1" "u1" "Ann"; demo_member "m1" "u2" "Ann"] in
  resolved_name s "u1" = Some "Ann" ∧
  match (ResolveMember None "acme" "dev" "u1" world0 s).1.1 with Ok (Some p) => p.(Member_ExternalUserID) = "u2" | _ => False end.
Proof. by vm_compute. Qed.
Example silent_among_people : tone_decision default_tone (mkDecideInput "acme" "dev" ["direct_question"] false true "" "" "")
  = mkToneDecision "silent" false ["direct_question"; "high_risk_action"; "human_to_human_discussion"].
Proof. by vm_compute. Qed.
End demo.
