(* ===== verification/AgentWork.v ===== *)
(** * Agents made, matched and delegated to: internal/agentfactory/service.go, internal/agentcapability/service.go,
      internal/agentdelegation/store.go

    The factory drafts a new agent for a group, behind the permissions and by the package service; the capabilities
    match agents to a query; and the repository of delegations keeps what agents delegated to each other by tool calls. *)

From stdpp Require Import base list strings gmap fin_maps sorting.
From Stdlib Require Import Ascii Lia SpecFloat.
From S2P Require Import Prelude Contracts GoMonad Storage Policies Permission HandoffPackage Discovery Compile AgentPackage PackageLife Knowledge.
Open Scope go_scope.
Open Scope string_scope.
Open Scope list_scope.

(** ** The data *)

Definition PermissionActionAgentPackageCreate : string := "agent.package.create".

Record MatchedCapability := mkMatchedCapability {
  MCap_CapabilityID : string;
  MCap_TenantID : string;
  MCap_AgentID : string;
  MCap_Version : string;
  MCap_Name : string;
  MCap_Description : string;
  MCap_Tags : list string;
  MCap_WhenToUse : list string;
  MCap_RiskLevel : RiskLevel;
  MCap_CreatedAt : Time
}.
#[export] Instance eta_MatchedCapability : Settable MatchedCapability :=
  fields! mkMatchedCapability < MCap_CapabilityID ; MCap_TenantID ; MCap_AgentID ; MCap_Version ; MCap_Name ; MCap_Description ; MCap_Tags ; MCap_WhenToUse ; MCap_RiskLevel ; MCap_CreatedAt >.
Definition zeroMatchedCapability : MatchedCapability :=
  mkMatchedCapability EmptyString EmptyString EmptyString EmptyString EmptyString EmptyString [] [] EmptyString zeroTime.

Record AgentCapabilityMatch := mkAgentCapabilityMatch {
  Match_Capability : MatchedCapability;
  Match_Score : float64;
  Match_Reason : string
}.
#[export] Instance eta_AgentCapabilityMatch : Settable AgentCapabilityMatch :=
  fields! mkAgentCapabilityMatch < Match_Capability ; Match_Score ; Match_Reason >.
Definition zeroAgentCapabilityMatch : AgentCapabilityMatch :=
  mkAgentCapabilityMatch zeroMatchedCapability float64_zero EmptyString.

Record AgentDraftRequest := mkAgentDraftRequest {
  DraftReq_RequestID : string;
  DraftReq_TenantID : string;
  DraftReq_GroupID : string;
  DraftReq_RequestedBy : string;
  DraftReq_AgentID : string;
  DraftReq_Name : string;
  DraftReq_Objective : string;
  DraftReq_Status : string;
  DraftReq_DraftID : string;
  DraftReq_CreatedAt : Time;
  DraftReq_UpdatedAt : Time
}.
#[export] Instance eta_AgentDraftRequest : Settable AgentDraftRequest :=
  fields! mkAgentDraftRequest < DraftReq_RequestID ; DraftReq_TenantID ; DraftReq_GroupID ; DraftReq_RequestedBy ; DraftReq_AgentID ; DraftReq_Name ; DraftReq_Objective ; DraftReq_Status ; DraftReq_DraftID ; DraftReq_CreatedAt ; DraftReq_UpdatedAt >.
Definition zeroAgentDraftRequest : AgentDraftRequest :=
  mkAgentDraftRequest EmptyString EmptyString EmptyString EmptyString EmptyString EmptyString EmptyString EmptyString EmptyString zeroTime zeroTime.

Record Delegation := mkDelegation {
  Deleg_DelegationID : string;
  Deleg_TenantID : string;
  Deleg_TraceID : string;
  Deleg_ParentRunID : string;
  Deleg_ParentTaskID : string;
  Deleg_ToolCallID : string;
  Deleg_ToolID : string;
  Deleg_Operation : string;
  Deleg_ProviderAgentID : string;
  Deleg_ChildRunID : string;
  Deleg_ChildTaskID : string;
  Deleg_Status : string;
  Deleg_ResultStatus : string;
  Deleg_ResultSummary : string;
  Deleg_ErrorSummary : string;
  Deleg_Metadata : gmap string Any;
  Deleg_StartedAt : option Time;
  Deleg_CompletedAt : option Time;
  Deleg_CreatedAt : Time;
  Deleg_UpdatedAt : Time
}.
#[export] Instance eta_Delegation : Settable Delegation :=
  fields! mkDelegation < Deleg_DelegationID ; Deleg_TenantID ; Deleg_TraceID ; Deleg_ParentRunID ; Deleg_ParentTaskID ; Deleg_ToolCallID ; Deleg_ToolID ; Deleg_Operation ; Deleg_ProviderAgentID ; Deleg_ChildRunID ; Deleg_ChildTaskID ; Deleg_Status ; Deleg_ResultStatus ; Deleg_ResultSummary ; Deleg_ErrorSummary ; Deleg_Metadata ; Deleg_StartedAt ; Deleg_CompletedAt ; Deleg_CreatedAt ; Deleg_UpdatedAt >.
Definition zeroDelegation : Delegation :=
  mkDelegation EmptyString EmptyString EmptyString EmptyString EmptyString EmptyString EmptyString EmptyString EmptyString EmptyString EmptyString EmptyString EmptyString EmptyString EmptyString ∅ None None zeroTime zeroTime.

Record FactoryInput := mkFactoryInput {
  Make_TenantID : string;
  Make_GroupID : string;
  Make_RequestedBy : string;
  Make_Roles : list string;
  Make_AgentID : string;
  Make_Name : string;
  Make_Objective : string;
  Make_TraceID : string;
  Make_TaskID : string;
  Make_RunID : string
}.
#[export] Instance eta_FactoryInput : Settable FactoryInput :=
  fields! mkFactoryInput < Make_TenantID ; Make_GroupID ; Make_RequestedBy ; Make_Roles ; Make_AgentID ; Make_Name ; Make_Objective ; Make_TraceID ; Make_TaskID ; Make_RunID >.
Definition zeroFactoryInput : FactoryInput :=
  mkFactoryInput EmptyString EmptyString EmptyString [] EmptyString EmptyString EmptyString EmptyString EmptyString EmptyString.

Record FactoryResult := mkFactoryResult {
  Made_Request : AgentDraftRequest;
  Made_Draft : option Draft
}.
#[export] Instance eta_FactoryResult : Settable FactoryResult :=
  fields! mkFactoryResult < Made_Request ; Made_Draft >.
Definition zeroFactoryResult : FactoryResult :=
  mkFactoryResult zeroAgentDraftRequest None.

(** ** The factory *)

Record RequestStoreOps (T : Type) := mkRequestStoreOps {
  store_SaveRequest : AgentDraftRequest → M T unit;
  store_GetRequest : string → M T (option AgentDraftRequest)
}.
Arguments mkRequestStoreOps {T}.
Arguments store_SaveRequest {T}.
Arguments store_GetRequest {T}.

(** [Service]: its requests, the package service, the permissions and the state of its store. *)
Record Factory (P U T : Type) := mkFactory {
  fac_requests : gmap string AgentDraftRequest;
  fac_packages : Packages U;
  fac_permissions : P;
  fac_stored : T
}.
Arguments mkFactory {P U T}.
Arguments fac_requests {P U T}.
Arguments fac_packages {P U T}.
Arguments fac_permissions {P U T}.
Arguments fac_stored {P U T}.
#[export] Instance eta_Factory {P U T} : Settable (Factory P U T) :=
  fields! (mkFactory (P:=P) (U:=U) (T:=T)) < fac_requests ; fac_packages ; fac_permissions ; fac_stored >.

(** *** An id from a name *)

Definition slug_replace (c : ascii) : ascii :=
  if existsb (Ascii.eqb c) [" "; "_"; "/"; "\"; "."]%char then "-"%char else c.
Definition slug_keeps (c : ascii) : bool :=
  let n := nat_of_ascii c in
  ((97 <=? n)%nat && (n <=? 122)%nat) || ((48 <=? n)%nat && (n <=? 57)%nat) || Ascii.eqb c "-".
Fixpoint slug_bytes (s : string) : string :=
  match s with
  | EmptyString => EmptyString
  | String c s => let c := slug_replace c in if slug_keeps c then String c (slug_bytes s) else slug_bytes s
  end.
(** [strings.Trim(s, '-')] *)
Fixpoint trim_dash_left (s : string) : string :=
  match s with String c s' => if Ascii.eqb c "-" then trim_dash_left s' else s | EmptyString => EmptyString end.
Fixpoint trim_dash_right (s : string) : string :=
  match s with
  | EmptyString => EmptyString
  | String c s' => match trim_dash_right s' with
                   | EmptyString => if Ascii.eqb c "-" then EmptyString else String c EmptyString
                   | t => String c t
                   end
  end.
Definition slug (value : string) : string := trim_dash_right (trim_dash_left (slug_bytes (ToLower (TrimSpace value)))).

(** *** Drafts *)

Definition LF : string := String (ascii_of_nat 10) EmptyString.
Definition factory_source (name objective : string) : AgentPackageSource :=
  zeroAgentPackageSource
    <| Src_AgentsMD := "# " +:+ name +:+ LF +:+ LF +:+ objective +:+ LF |>
    <| Src_Prompt := Sprintf "你是%s。只处理与以下目标直接相关的任务：%s。输出必须清晰、可验证。" [name; objective] |>
    <| Src_ToolBindings := (zeroAgentToolsConfig <| ToolsCfg_AllowedToolIDs := [] |> <| ToolsCfg_ExposedToolIDs := [] |>
         <| ToolsCfg_DeniedToolIDs := [] |>) |>
    <| Src_Metadata := {["system_prompt" := AString "你是一个 CleanCore 专业智能体草稿，必须遵守上游协调智能体的任务边界。";
         "developer_prompt" := AString "只完成被委派的专业任务；缺信息时说明缺口，不编造。"]} |>.

Section factory.
Context `{Env} {P U T : Type} `{PermissionChecker P} (configured : bool).
Context (package_store : option (option (PackageStoreOps U))) (store : option (RequestStoreOps T)).
Notation FM := (M (Factory P U T)).

Definition on_requests {A} (m : M T A) : FM A := zoom fac_stored (λ t s, s <| fac_stored := t |>) m.

Definition factory_record (input : FactoryInput) (request : AgentDraftRequest) (decision : string) : FM unit :=
  do! (if input.(Make_TraceID) == "" then ret tt else with_trace (
    let! span := idgen_New "span" in
    let! now := now in
    trace_Record (zeroTraceEvent
      <| Trace_TraceID := input.(Make_TraceID) |> <| Trace_TenantID := input.(Make_TenantID) |>
      <| Trace_SpanID := span |> <| Trace_RunID := input.(Make_RunID) |> <| Trace_TaskID := input.(Make_TaskID) |>
      <| Trace_Type := TraceAgentFactoryDraftCreated |>
      <| Trace_Payload := {["request_id" := AString request.(DraftReq_RequestID);
           "draft_id" := AString request.(DraftReq_DraftID); "agent_id" := AString request.(DraftReq_AgentID);
           "decision" := AString decision]} |>
      <| Trace_CreatedAt := now |>))) in
  with_audit (
    let! id := idgen_New "audit" in
    let! now := now in
    ignore (audit_Log (zeroAuditEvent
      <| Audit_AuditID := id |> <| Audit_TenantID := input.(Make_TenantID) |>
      <| Audit_ActorID := input.(Make_RequestedBy) |> <| Audit_ActorType := "member" |>
      <| Audit_Action := AuditAgentDraftCreated |> <| Audit_ResourceType := "agent_package" |>
      <| Audit_ResourceID := request.(DraftReq_AgentID) |> <| Audit_Decision := decision |>
      <| Audit_TraceID := input.(Make_TraceID) |> <| Audit_TaskID := input.(Make_TaskID) |>
      <| Audit_RunID := input.(Make_RunID) |> <| Audit_CreatedAt := now |>))).

Definition factory_question (input : FactoryInput) : PermissionCheckInput :=
  zeroPermissionCheckInput
    <| Check_TenantID := input.(Make_TenantID) |> <| Check_GroupID := input.(Make_GroupID) |>
    <| Check_ActorID := input.(Make_RequestedBy) |> <| Check_ActorType := "member" |>
    <| Check_Roles := input.(Make_Roles) |> <| Check_Action := PermissionActionAgentPackageCreate |>
    <| Check_ResourceType := "agent_package" |> <| Check_ResourceID := input.(Make_AgentID) |>
    <| Check_TraceID := input.(Make_TraceID) |> <| Check_TaskID := input.(Make_TaskID) |>
    <| Check_RunID := input.(Make_RunID) |>.
(** The decision of the permissions; without a checker everything is allowed. *)
Definition factory_check (input : FactoryInput) : FM string :=
  if negb configured then ret PermissionDecisionAllowed else
  let! d := zoom fac_permissions (λ p s, s <| fac_permissions := p |>) (permission_check (factory_question input)) in
  if d.(PermD_Decision) != PermissionDecisionAllowed
  then throw (ErrRuntime (NewRuntimeError CodeToolPolicyDenied d.(PermD_Reason)
                {["reason_code" := AString d.(PermD_ReasonCode)]}))
  else ret d.(PermD_Decision).

Definition make_incomplete (input : FactoryInput) : bool :=
  (input.(Make_TenantID) == "") || (input.(Make_GroupID) == "") || (input.(Make_RequestedBy) == "") ||
  (input.(Make_Objective) == "").
(** The id that was given, one from the name, or a new one. *)
Definition choose_agent (input : FactoryInput) : FM string :=
  let id := if input.(Make_AgentID) == "" then slug input.(Make_Name) else input.(Make_AgentID) in
  if id == "" then idgen_New "agent" else ret id.
(** [if s.Packages != nil]; the draft, and the request with its id. *)
Definition draft_agent (input : FactoryInput) (request : AgentDraftRequest) : FM (AgentDraftRequest * option Draft) :=
  match package_store with
  | None => ret (request, None)
  | Some packages =>
      let! created := zoom fac_packages (λ p s, s <| fac_packages := p |>)
        (CreateDraft packages input.(Make_TenantID) request.(DraftReq_AgentID) "v1"
           (factory_source request.(DraftReq_Name) input.(Make_Objective)) input.(Make_RequestedBy)) in
      ret (request <| DraftReq_DraftID := created.(PDraft_DraftID) |>, Some created)
  end.
Definition MakeDraft (input : FactoryInput) : FM FactoryResult :=
  if make_incomplete input then throw (Errorf "tenant_id, group_id, requested_by and objective are required" []) else
  let! decision := factory_check input in
  let! agentID := choose_agent input in
  let name := if input.(Make_Name) == "" then agentID else input.(Make_Name) in
  let! now := now in
  let! id := idgen_New "agentdraftreq" in
  let request := mkAgentDraftRequest id input.(Make_TenantID) input.(Make_GroupID) input.(Make_RequestedBy) agentID name
                   input.(Make_Objective) "draft_created" "" now now in
  let! made := draft_agent input request in
  let '(request, draft) := made in
  let! s := get in
  do! put (s <| fac_requests := <[request.(DraftReq_RequestID) := request]> s.(fac_requests) |>) in
  do! match store with Some store => on_requests (store.(store_SaveRequest) request) | None => ret tt end in
  do! factory_record input request decision in
  ret (mkFactoryResult request draft).

Definition GetDraftRequest (requestID : string) : FM (option AgentDraftRequest) :=
  let! stored := match store with Some store => on_requests (store.(store_GetRequest) requestID) | None => ret None end in
  match stored with
  | Some request => ret (Some request)
  | None => let! s := get in ret (s.(fac_requests) !! requestID)
  end.
End factory.

(** ** Capabilities *)

Record CapabilityStoreOps (T : Type) := mkCapabilityStoreOps {
  store_SaveCapability : MatchedCapability → M T unit;
  store_ListCapabilities : string → M T (list MatchedCapability)
}.
Arguments mkCapabilityStoreOps {T}.
Arguments store_SaveCapability {T}.
Arguments store_ListCapabilities {T}.

Record Capabilities (T : Type) := mkCapabilities { cap_known : gmap string MatchedCapability; cap_stored : T }.
Arguments mkCapabilities {T}.
Arguments cap_known {T}.
Arguments cap_stored {T}.
#[export] Instance eta_Capabilities {T} : Settable (Capabilities T) :=
  fields! (mkCapabilities (T:=T)) < cap_known ; cap_stored >.

Definition query_fields (value : string) : list string :=
  List.filter (λ field, field != "") (map trim_punctuation (Fields (ToLower value))).
Definition query_terms (value : string) : list string :=
  match query_fields value with
  | [] => if TrimSpace value != "" then [ToLower (TrimSpace value)] else []
  | out => out
  end.
Definition capability_score (terms : list string) (c : MatchedCapability) : float64 :=
  let text := ToLower (join_words ([c.(MCap_Name); c.(MCap_Description)] ++ c.(MCap_Tags) ++ c.(MCap_WhenToUse))) in
  score_each (Contains text) score_term terms float64_zero.
Definition capability_match (tenantID : string) (terms : list string) (c : MatchedCapability) : option AgentCapabilityMatch :=
  if c.(MCap_TenantID) != tenantID then None else
  let score := capability_score terms c in
  if SFleb score float64_zero then None else Some (mkAgentCapabilityMatch c score "matched capability text").
Definition better_match (a b : AgentCapabilityMatch) : bool :=
  if SFeqb a.(Match_Score) b.(Match_Score)
  then string_lt a.(Match_Capability).(MCap_AgentID) b.(Match_Capability).(MCap_AgentID)
  else SFltb b.(Match_Score) a.(Match_Score).
Definition match_limit (limit : Z) : Z := if (limit <=? 0)%Z || (limit >? 10)%Z then 5%Z else limit.
Definition best_matches (tenantID query : string) (limit : Z) (known : list MatchedCapability) : list AgentCapabilityMatch :=
  take (Z.to_nat (match_limit limit))
    (stable_sort better_match (omap (capability_match tenantID (query_terms query)) known)).

Section capabilities.
Context `{Env} {T : Type} (store : option (CapabilityStoreOps T)).
Notation CM := (M (Capabilities T)).
Definition on_capabilities {A} (m : M T A) : CM A := zoom cap_stored (λ t s, s <| cap_stored := t |>) m.

Definition UpsertCapability (capability : MatchedCapability) : CM MatchedCapability :=
  if (capability.(MCap_TenantID) == "") || (capability.(MCap_AgentID) == "")
  then throw (Errorf "tenant_id and agent_id are required" []) else
  let! id := if capability.(MCap_CapabilityID) == "" then idgen_New "cap" else ret capability.(MCap_CapabilityID) in
  let! created := if IsZero capability.(MCap_CreatedAt) then now else ret capability.(MCap_CreatedAt) in
  let capability := capability <| MCap_CapabilityID := id |> <| MCap_CreatedAt := created |> in
  let! s := get in
  do! put (s <| cap_known := <[id := capability]> s.(cap_known) |>) in
  do! match store with Some store => on_capabilities (store.(store_SaveCapability) capability) | None => ret tt end in
  ret capability.

Definition matchCapabilities (tenantID query : string) (limit : Z) (traceID : string) (known : list MatchedCapability)
    : CM (list AgentCapabilityMatch) :=
  let matches := best_matches tenantID query limit known in
  do! (if traceID == "" then ret tt else with_trace (
    let! span := idgen_New "span" in
    let! now := now in
    trace_Record (zeroTraceEvent
      <| Trace_TraceID := traceID |> <| Trace_TenantID := tenantID |> <| Trace_SpanID := span |>
      <| Trace_Type := TraceAgentCapabilityMatched |>
      <| Trace_Payload := {["query" := AString query; "match_count" := AInt (len matches)]} |>
      <| Trace_CreatedAt := now |>))) in
  ret matches.
Definition MatchAgents (tenantID query : string) (limit : Z) (traceID : string) : CM (list AgentCapabilityMatch) :=
  if (tenantID == "") || (TrimSpace query == "") then throw (Errorf "tenant_id and query are required" []) else
  match store with
  | Some store =>
      let! known := on_capabilities (store.(store_ListCapabilities) tenantID) in
      matchCapabilities tenantID query limit traceID known
  | None =>
      let! s := get in
      let! known := range_map s.(cap_known) in
      matchCapabilities tenantID query limit traceID (map snd known)
  end.
End capabilities.

(** ** Delegations *)

Definition delegationKey (tenantID toolCallID : string) : string := tenantID +:+ (NUL +:+ toolCallID).
Definition delegationSortTime (item : Delegation) : Time :=
  match item.(Deleg_StartedAt) with
  | Some started => if negb (IsZero started) then started
                    else if negb (IsZero item.(Deleg_CreatedAt)) then item.(Deleg_CreatedAt) else item.(Deleg_UpdatedAt)
  | None => if negb (IsZero item.(Deleg_CreatedAt)) then item.(Deleg_CreatedAt) else item.(Deleg_UpdatedAt)
  end.
Definition delegated_before (a b : Delegation) : bool :=
  if Equal (delegationSortTime a) (delegationSortTime b)
  then string_lt a.(Deleg_DelegationID) b.(Deleg_DelegationID)
  else Before (delegationSortTime a) (delegationSortTime b).

Section delegations.
Context `{Env}.
Notation DM := (M (gmap string Delegation)).

Definition UpsertDelegation (delegation : Delegation) : DM unit :=
  if (delegation.(Deleg_TenantID) == "") || (TrimSpace delegation.(Deleg_DelegationID) == "") ||
     (TrimSpace delegation.(Deleg_ToolCallID) == "") then
    throw (ErrRuntime (NewRuntimeError CodeDecisionSchemaError
             "agent delegation requires tenant_id, delegation_id and tool_call_id" ∅))
  else
    let! now := now in
    let delegation := if IsZero delegation.(Deleg_UpdatedAt) then delegation <| Deleg_UpdatedAt := now |> else delegation in
    let key := delegationKey delegation.(Deleg_TenantID) delegation.(Deleg_ToolCallID) in
    let! s := get in
    let delegation :=
      match s !! key with
      | Some existing =>
          let d := if IsZero delegation.(Deleg_CreatedAt)
                   then delegation <| Deleg_CreatedAt := existing.(Deleg_CreatedAt) |> else delegation in
          if d.(Deleg_DelegationID) == "" then d <| Deleg_DelegationID := existing.(Deleg_DelegationID) |> else d
      | None => if IsZero delegation.(Deleg_CreatedAt) then delegation <| Deleg_CreatedAt := now |> else delegation
      end in
    put (<[key := delegation]> s).
Definition list_delegations (wanted : Delegation → bool) : DM (list Delegation) :=
  let! s := get in
  let! items := range_map s in
  ret (stable_sort delegated_before (List.filter wanted (map snd items))).
Definition ListByParentRun (tenantID parentRunID : string) : DM (list Delegation) :=
  list_delegations (λ item, (item.(Deleg_TenantID) == tenantID) && (item.(Deleg_ParentRunID) == parentRunID)).
Definition DelegationsByTrace (tenantID traceID : string) : DM (list Delegation) :=
  list_delegations (λ item, (item.(Deleg_TenantID) == tenantID) && (item.(Deleg_TraceID) == traceID)).
End delegations.

(** ** The ids made from names *)

Fixpoint all_slug (s : string) : bool :=
  match s with EmptyString => true | String c s => slug_keeps c && all_slug s end.
Definition no_dash_first (s : string) : bool := match s with String c _ => negb (Ascii.eqb c "-") | EmptyString => true end.
Fixpoint no_dash_last (s : string) : bool :=
  match s with
  | EmptyString => true
  | String c s' => match s' with EmptyString => negb (Ascii.eqb c "-") | _ => no_dash_last s' end
  end.
(** What an id of the factory looks like: letters, digits and dashes, with no dash at either end. *)
Definition slug_like (s : string) : Prop := all_slug s = true ∧ no_dash_first s = true ∧ no_dash_last s = true.

Lemma slug_bytes_all s : all_slug (slug_bytes s) = true.
Proof. induction s as [|c s IH]; [done|]. cbn. destruct (slug_keeps _) eqn:E; [cbn; by rewrite E|done]. Qed.
Lemma trim_dash_left_ok s : all_slug s = true → all_slug (trim_dash_left s) = true ∧ no_dash_first (trim_dash_left s) = true.
Proof.
  induction s as [|c s IH]; [done|]. cbn. intros [Hc Hs]%andb_true_iff.
  destruct (Ascii.eqb c "-") eqn:E; [by apply IH|]. cbn. by rewrite Hc, Hs, E.
Qed.
Lemma trim_dash_right_ok s : all_slug s = true → all_slug (trim_dash_right s) = true ∧ no_dash_last (trim_dash_right s) = true.
Proof.
  induction s as [|c s IH]; [done|]. cbn. intros [Hc Hs]%andb_true_iff. destruct (IH Hs) as [Ha Hl].
  destruct (trim_dash_right s) as [|d t]; [|by cbn in *; rewrite Hc].
  destruct (Ascii.eqb c "-") eqn:E; [done|]. cbn. by rewrite Hc, E.
Qed.
Lemma trim_dash_right_first s : no_dash_first s = true → no_dash_first (trim_dash_right s) = true.
Proof.
  destruct s as [|c s]; [done|]. cbn. intros Hc. destruct (trim_dash_right s); [|done].
  by destruct (Ascii.eqb c "-") eqn:E; [|cbn; rewrite E].
Qed.

(** Every name gives such an id, or none at all. *)
Lemma slug_ok value : slug_like (slug value).
Proof.
  unfold slug. destruct (trim_dash_left_ok _ (slug_bytes_all (ToLower (TrimSpace value)))) as [Ha Hf].
  destruct (trim_dash_right_ok _ Ha) as [Ha' Hl]. split; [done|]. split; [by apply trim_dash_right_first|done].
Qed.

(** ** What the factory makes *)

Section making.
Context `{Env} {P : Type} `{PermissionChecker P}.
Notation NoRequests := (None : option (RequestStoreOps unit)).
Notation InMemory := (Some (None : option (PackageStoreOps unit))).
Notation Fac := (Factory P unit unit).

Lemma effect_factory_record input request d : effect_only (S:=Fac) (factory_record input request d).
Proof. unfold factory_record. auto 12 with effects. Qed.

Lemma CreateDraft_run tenantID agentID version source actorID w (s : Packages unit) : ∃ w' draft,
  CreateDraft None tenantID agentID version source actorID w s =
    (Ok draft, w', s <| package_drafts := <[draft.(PDraft_DraftID) := draft]> s.(package_drafts) |>) ∧
  draft.(PDraft_TenantID) = tenantID ∧ draft.(PDraft_AgentID) = agentID ∧ draft.(PDraft_Version) = version ∧
  draft.(PDraft_Source) = source ∧ draft.(PDraft_Status) = ReleaseDraft ∧ draft.(PDraft_CreatedBy) = actorID.
Proof.
  unfold CreateDraft. rewrite bind_now, (bind_Ok _ _ _ _ _ _ _ (idgen_New_run _ _ _)). cbn zeta.
  set (draft := mkDraft _ _ _ _ _ _ _ _ _). unfold keep_draft, to_store. cbn [bind get put ret].
  match goal with |- context [bind (package_audit ?a ?b ?c ?d ?e ?f) _ ?w0 ?s0] =>
    destruct (proj1 (package_audit_effect (T:=unit) a b c d e f) w0 s0) as ([] & w1 & E1) end.
  rewrite (bind_Ok _ _ _ _ _ _ _ E1). by exists w1, draft.
Qed.

Lemma choose_agent_run input w (s : Fac) : ∃ id w', choose_agent input w s = (Ok id, w', s) ∧
  (input.(Make_AgentID) ≠ "" → id = input.(Make_AgentID)) ∧
  (input.(Make_AgentID) = "" → slug input.(Make_Name) ≠ "" → id = slug input.(Make_Name)) ∧ id ≠ "".
Proof.
  unfold choose_agent. destruct (String.eqb_spec (Make_AgentID input) "") as [Ea|Ea].
  - rewrite Ea. destruct (String.eqb_spec (slug (Make_Name input)) "") as [Es|Es]; [|by eexists _, w].
    eexists _, _. split; [apply idgen_New_run|]. done.
  - rewrite eqb_neq_false by done. by eexists _, w.
Qed.

Lemma factory_check_run input w (s : Fac) : ∃ r w', factory_check true input w s = (r, w', s) ∧
  match r with
  | Ok d => d = PermissionDecisionAllowed ∧ permits s.(fac_permissions) (factory_question input) d
  | Err _ => True
  | Panic => False
  end.
Proof.
  destruct (permission_check_ok (factory_question input) w s.(fac_permissions)) as (d & w1 & Ed & Hd).
  assert (zoom fac_permissions (λ p (s : Fac), s <| fac_permissions := p |>) (permission_check (factory_question input)) w s
    = (Ok d, w1, s)) as E by (unfold zoom; rewrite Ed; by destruct s).
  unfold factory_check. cbn [negb]. rewrite (bind_Ok _ _ _ _ _ _ _ E).
  destruct (String.eqb_spec d.(PermD_Decision) PermissionDecisionAllowed) as [Ea|_]; [|by do 2 eexists].
  do 2 eexists. split; [reflexivity|]. cbv beta iota. by rewrite Ea in *.
Qed.
Lemma draft_agent_run input request w (s : Fac) : ∃ w' draft,
  draft_agent InMemory input request w s =
    (Ok (request <| DraftReq_DraftID := draft.(PDraft_DraftID) |>, Some draft), w', s <| fac_packages :=
       s.(fac_packages) <| package_drafts := <[draft.(PDraft_DraftID) := draft]> s.(fac_packages).(package_drafts) |> |>) ∧
  draft.(PDraft_TenantID) = input.(Make_TenantID) ∧ draft.(PDraft_AgentID) = request.(DraftReq_AgentID) ∧
  draft.(PDraft_Version) = "v1" ∧
  draft.(PDraft_Source) = factory_source request.(DraftReq_Name) input.(Make_Objective) ∧
  draft.(PDraft_Status) = ReleaseDraft ∧ draft.(PDraft_CreatedBy) = input.(Make_RequestedBy).
Proof.
  unfold draft_agent. destruct (CreateDraft_run input.(Make_TenantID) request.(DraftReq_AgentID) "v1"
    (factory_source request.(DraftReq_Name) input.(Make_Objective)) input.(Make_RequestedBy) w s.(fac_packages))
    as (w' & draft & E & Hd). exists w', draft. split; [|done].
  unfold bind, zoom. by rewrite E.
Qed.

(** What a request of the factory leads to. *)
Record made input (s s' : Fac) (res : FactoryResult) (draft : Draft) : Prop := {
  made_permitted : permits s.(fac_permissions) (factory_question input) PermissionDecisionAllowed;
  made_draft : res.(Made_Draft) = Some draft;
  made_packages : s'.(fac_packages) =
    s.(fac_packages) <| package_drafts := <[draft.(PDraft_DraftID) := draft]> s.(fac_packages).(package_drafts) |>;
  made_requests : s'.(fac_requests) = <[res.(Made_Request).(DraftReq_RequestID) := res.(Made_Request)]> s.(fac_requests);
  made_for : draft.(PDraft_TenantID) = input.(Make_TenantID) ∧ draft.(PDraft_CreatedBy) = input.(Make_RequestedBy) ∧
    draft.(PDraft_Status) = ReleaseDraft ∧ draft.(PDraft_Version) = "v1";
  made_request : res.(Made_Request).(DraftReq_DraftID) = draft.(PDraft_DraftID) ∧
    res.(Made_Request).(DraftReq_AgentID) = draft.(PDraft_AgentID) ∧
    res.(Made_Request).(DraftReq_TenantID) = input.(Make_TenantID);
  made_source : draft.(PDraft_Source) =
    factory_source (if input.(Make_Name) == "" then draft.(PDraft_AgentID) else input.(Make_Name)) input.(Make_Objective);
  made_id : draft.(PDraft_AgentID) ≠ "" ∧ (input.(Make_AgentID) ≠ "" → draft.(PDraft_AgentID) = input.(Make_AgentID)) ∧
    (input.(Make_AgentID) = "" → slug input.(Make_Name) ≠ "" →
     draft.(PDraft_AgentID) = slug input.(Make_Name) ∧ slug_like draft.(PDraft_AgentID))
}.

Lemma make_draft_run input w (s : Fac) : ∃ r w' s', MakeDraft true InMemory NoRequests input w s = (r, w', s') ∧
  s'.(fac_permissions) = s.(fac_permissions) ∧
  match r with
  | Ok res => make_incomplete input = false ∧ ∃ draft, made input s s' res draft
  | Err _ => s' = s
  | Panic => False
  end.
Proof.
  unfold MakeDraft. destruct (make_incomplete input); [by do 3 eexists|].
  destruct (factory_check_run input w s) as ([d|e|] & w1 & E & Hd); [|by rewrite (bind_Err _ _ _ _ _ _ _ E); do 3 eexists|done].
  destruct Hd as [-> Hp]. rewrite (bind_Ok _ _ _ _ _ _ _ E). clear E.
  destruct (choose_agent_run input w1 s) as (id & w2 & E & Hid & Hslug & Hne). rewrite (bind_Ok _ _ _ _ _ _ _ E). clear E.
  rewrite bind_now, (bind_Ok _ _ _ _ _ _ _ (idgen_New_run _ _ _)). cbn zeta.
  set (name := if Make_Name input == "" then id else Make_Name input).
  match goal with |- context [bind (draft_agent InMemory input ?q) _ ?w0 _] =>
    destruct (draft_agent_run input q w0 s) as (w3 & draft & E & Hdraft) end.
  rewrite (bind_Ok _ _ _ _ _ _ _ E). clear E. rewrite bind_get, bind_put, bind_ret.
  match goal with |- context [bind (factory_record ?a ?b ?c) _ ?w0 ?s0] =>
    destruct (effect_factory_record a b c w0 s0) as ([] & w4 & E) end.
  rewrite (bind_Ok _ _ _ _ _ _ _ E). clear E. destruct Hdraft as (Ht & Ha & Hv & Hs & Hst & Hc). cbn in *.
  do 3 eexists. split; [reflexivity|]. split; [done|]. split; [done|]. exists draft.
  split; cbn; rewrite ?Ha; try done. split; [done|]. split; [done|].
  intros Hg Hn. rewrite (Hslug Hg Hn). split; [done|apply slug_ok].
Qed.

(** A request to the factory, over any permissions: either it fails and makes nothing, or it is permitted and makes one
    draft in the package service and one request that names it, for the tenant and the member who asked and under the id
    that was given or made of the name. *)
Theorem make_draft_correct input w (s : Fac) : ∃ r w' s', MakeDraft true InMemory NoRequests input w s = (r, w', s') ∧
  s'.(fac_permissions) = s.(fac_permissions) ∧
  match r with
  | Ok res => make_incomplete input = false ∧ ∃ draft, made input s s' res draft
  | Err _ => s' = s
  | Panic => False
  end.
Proof. apply make_draft_run. Qed.
End making.

(** ** No draft of the factory compiles *)

Section refused.
Context `{Env}.
Notation NoStore := (None : option (PackageStoreOps unit)).
Implicit Types s : Packages unit.

(** A key of the metadata that the compiler does not take. *)
Lemma keys_absent_lookup metadata prefix message keys key :
  keys_absent metadata prefix message keys = None → key ∈ keys → metadata !! key = None.
Proof.
  unfold keys_absent. rewrite first_of_map. intros E Hin. specialize (E key Hin).
  unfold fails in E. case_bool_decide as Hk; [done|]. by apply eq_None_not_Some.
Qed.
Lemma metadata_refused {S : Type} agentID version source w (s : S) :
  source.(Src_Metadata) !! "system_prompt" ≠ None →
  ∃ e w', Compile agentID version source w s = (Ok (inl e, source), w', s).
Proof.
  intros Hm. destruct (Compile_run agentID version source w s) as (budgets & t & w' & _ & ->). unfold compile_at.
  destruct (normalizeSourceKind _) as [e|kind]; [by exists e, w'|].
  destruct (check_source _ _ _ _ _) as [e|] eqn:Ec; [by exists e, w'|]. destruct Hm. unfold check_source in Ec.
  rewrite first_of_None, !Forall_cons in Ec. destruct Ec as (_ & _ & _ & Ec & _).
  eapply keys_absent_lookup; [exact Ec|]. right. left.
Qed.
Lemma validate_refused id draft w s : s.(package_drafts) !! id = Some draft →
  draft.(PDraft_Source).(Src_Metadata) !! "system_prompt" ≠ None →
  ∃ e w', ValidateDraft NoStore id w s = (Err e, w', s).
Proof.
  intros Hd Hm. unfold ValidateDraft, find_draft, getDraft.
  assert (bind get (λ s0, or_stored NoStore (package_drafts s0 !! id) (λ store, store_GetDraft store id)) w s = (Ok (Some draft), w, s)) as E
    by (rewrite bind_get, Hd; done).
  unfold bind at 1. rewrite (bind_Ok _ _ _ _ _ _ _ E). cbn [ret].
  destruct (metadata_refused (S:=Packages unit) draft.(PDraft_AgentID) draft.(PDraft_Version) draft.(PDraft_Source) w s Hm) as (e & w' & Ec).
  exists e, w'. unfold compile_draft, bind at 1. rewrite (bind_Ok _ _ _ _ _ _ _ Ec), bind_get, bind_put. cbn [fst snd throw].
  assert (alter (λ d : Draft, d <| PDraft_Source := PDraft_Source draft |>) id s.(package_drafts) = s.(package_drafts)) as ->.
  { apply map_eq. intros k. destruct (decide (k = id)) as [->|]; [|by rewrite lookup_alter_ne].
    rewrite lookup_alter_eq, Hd. cbn. by destruct draft. }
  by destruct s.
Qed.

(** Every draft that the factory makes is refused by the compiler, whatever is later edited of it but its metadata:
    they hold a system prompt, which the compiler takes only from the strategies.  So no such draft is ever validated,
    which it must be to be reviewed or published. *)
Theorem factory_drafts_refused {P} `{PermissionChecker P} input w (s : Factory P unit unit) res w' (s' : Factory P unit unit) :
  MakeDraft true (Some NoStore) None input w s = (Ok res, w', s') →
  ∃ draft, res.(Made_Draft) = Some draft ∧
    s'.(fac_packages).(package_drafts) !! draft.(PDraft_DraftID) = Some draft ∧
    ∀ (later : Packages unit) edited w2, later.(package_drafts) !! draft.(PDraft_DraftID) = Some edited →
      edited.(PDraft_Source).(Src_Metadata) = draft.(PDraft_Source).(Src_Metadata) →
      ∃ e w3, ValidateDraft NoStore draft.(PDraft_DraftID) w2 later = (Err e, w3, later).
Proof.
  intros E. destruct (make_draft_run input w s) as (r & w1 & s1 & E1 & _ & Hr). rewrite E1 in E. injection E as -> -> ->.
  destruct Hr as (_ & draft & [_ Hd Hp _ _ _ Hsrc _]). exists draft. split; [done|].
  split; [rewrite Hp; apply lookup_insert_eq|]. intros later edited w2 Hin Hm. eapply validate_refused; [done|].
  rewrite Hm, Hsrc. done.
Qed.
End refused.

(** ** What is matched *)

Lemma matches_sound tenantID query limit known m : m ∈ best_matches tenantID query limit known →
  m.(Match_Capability) ∈ known ∧ m.(Match_Capability).(MCap_TenantID) = tenantID ∧
  m.(Match_Score) = capability_score (query_terms query) m.(Match_Capability) ∧ SFleb m.(Match_Score) float64_zero = false.
Proof.
  unfold best_matches. intros Hm. apply take_elem, stable_sort_elem, list_elem_of_omap in Hm as (c & Hc & E).
  unfold capability_match in E. destruct (String.eqb_spec (MCap_TenantID c) tenantID); [|done]. cbn [negb] in E.
  destruct (SFleb _ _) eqn:El; [done|]. by injection E as <-.
Qed.
Lemma matches_bounded tenantID query limit known : (len (best_matches tenantID query limit known) ≤ 10)%Z.
Proof.
  unfold best_matches, match_limit, len. rewrite length_take, Z.gtb_ltb.
  destruct (Z.leb_spec limit 0), (Z.ltb_spec 10 limit); cbn [orb]; lia.
Qed.

(** ** What is kept of a delegation *)

Section kept.
Context `{Env}.
Implicit Types s : gmap string Delegation.

(** There is one delegation for a tool call of a tenant, the last one, with the time at which the first was made unless
    another time is given. *)
Lemma upsert_delegation_run d w s : ∃ r w' s', UpsertDelegation d w s = (r, w', s') ∧
  match r with
  | Ok _ => ∃ d', s' = <[delegationKey d.(Deleg_TenantID) d.(Deleg_ToolCallID) := d']> s ∧
      d' = (d <| Deleg_UpdatedAt := d'.(Deleg_UpdatedAt) |> <| Deleg_CreatedAt := d'.(Deleg_CreatedAt) |>) ∧
      (d.(Deleg_CreatedAt) ≠ zeroTime → d'.(Deleg_CreatedAt) = d.(Deleg_CreatedAt)) ∧
      (d.(Deleg_CreatedAt) = zeroTime → ∀ old, s !! delegationKey d.(Deleg_TenantID) d.(Deleg_ToolCallID) = Some old →
         d'.(Deleg_CreatedAt) = old.(Deleg_CreatedAt))
  | Err _ => s' = s
  | Panic => False
  end.
Proof.
  unfold UpsertDelegation. destruct (_ || _) eqn:Eb; [by do 3 eexists|].
  assert (Deleg_DelegationID d ≠ "") as Hid.
  { apply orb_false_iff in Eb as [Eb _]. apply orb_false_iff in Eb as [_ Eb]. intros E. by rewrite E in Eb. }
  rewrite bind_now, bind_get. set (d1 := if IsZero (Deleg_UpdatedAt d) then _ else d).
  assert (d1 = d <| Deleg_UpdatedAt := Deleg_UpdatedAt d1 |>) as E1 by (unfold d1; by destruct d, (IsZero _)).
  assert (Deleg_TenantID d1 = Deleg_TenantID d ∧ Deleg_ToolCallID d1 = Deleg_ToolCallID d ∧
    Deleg_CreatedAt d1 = Deleg_CreatedAt d ∧ Deleg_DelegationID d1 = Deleg_DelegationID d) as (-> & -> & Ec & Ei)
    by (unfold d1; by destruct (IsZero _)).
  do 3 eexists. split; [reflexivity|]. cbv beta iota. eexists. split; [reflexivity|]. unfold IsZero. rewrite Ec.
  destruct (s !! _) as [old|]; destruct (Z.eqb_spec (Deleg_CreatedAt d) 0) as [Ez|Ez]; cbn;
    rewrite ?Ei, ?(eqb_neq_false _ _ Hid), ?Ec; split_and!; try done; try (rewrite E1; by destruct d);
    try (by intros _ ? [= <-]); by intros.
Qed.
End kept.

(** ** Examples *)

Section demo.
Let env : Env := test_env.
#[local] Existing Instance env.
Notation DemoFac := (Factory (Permissions unit) unit unit).

Example slugs : map slug ["Sales Helper"; "  a_b/C.d "; "--x--"; "你好"] = ["sales-helper"; "a-b-c-d"; "x"; ""].
Proof. by vm_compute. Qed.

Definition demo_factory : DemoFac :=
  mkFactory ∅ (NewPackages tt) (mkPermissions [mkGroupPermissionPolicy "acme" "dev" "ann" PermissionSubjectUser
    [PermissionActionAgentPackageCreate] [] false "" 0 0] tt) tt.
Definition demo_make (by_ : string) : FactoryInput := mkFactoryInput "acme" "dev" by_ [] "" "Sales Helper" "Answer questions." "" "" "".
Definition demo_made (by_ : string) : option (string * string) * nat :=
  let '(r, _, s) := MakeDraft (P:=Permissions unit) true (Some None) None (demo_make by_) world0 demo_factory in
  (match r with Ok res => Some (res.(Made_Request).(DraftReq_AgentID), res.(Made_Request).(DraftReq_DraftID)) | _ => None end,
   size s.(fac_packages).(package_drafts)).
Example made_for_ann : demo_made "ann" = (Some ("sales-helper", "draft_2"), 1%nat).
Proof. by vm_compute. Qed.
Example refused_for_bob : demo_made "bob" = (None, 0%nat).
Proof. by vm_compute. Qed.

Notation demo_run := (MakeDraft (P:=Permissions unit) true (Some None) None (demo_make "ann") world0 demo_factory).
Lemma demo_ends : match demo_run with (Ok _, _, _) => true | _ => false end = true.
Proof. vm_compute. reflexivity. Qed.
Lemma factory_drafts_refused_witness : ∃ res draft e w', demo_run.1.1 = Ok res ∧ res.(Made_Draft) = Some draft ∧
  ValidateDraft None draft.(PDraft_DraftID) world0 demo_run.2.(fac_packages) = (Err e, w', demo_run.2.(fac_packages)).
Proof.
  pose proof demo_ends as Hd. destruct demo_run as [[[res|?|] w'] s'] eqn:E; try discriminate Hd.
  destruct (factory_drafts_refused _ _ _ _ _ _ E) as (draft & Hm & Hin & Href).
  destruct (Href s'.(fac_packages) draft world0 Hin eq_refl) as (e & w3 & Hv). by exists res, draft, e, w3.
Defined.

(** The call of a tool that is recorded again keeps the time of the first record. *)
Example delegation_again :
  let d := zeroDelegation <| Deleg_TenantID := "acme" |> <| Deleg_DelegationID := "d1" |> <| Deleg_ToolCallID := "c1" |>
             <| Deleg_ParentRunID := "r1" |> in
  let '(_, w, s) := UpsertDelegation d world0 ∅ in let '(_, w, s) := UpsertDelegation (d <| Deleg_Status := "completed" |>) w s in
  match (ListByParentRun "acme" "r1" w s).1.1 with
  | Ok [d'] => d'.(Deleg_Status) = "completed" ∧ d'.(Deleg_CreatedAt) = env_clock 0 ∧ d'.(Deleg_UpdatedAt) = env_clock 1
  | _ => False
  end.
Proof. by vm_compute. Qed.
End demo.
