(* ===== verification/Assets.v ===== *)
(** * Artifacts, memory and context packages: internal/asset/artifact

    The stores in memory of artifacts and their content, of what agents remember, and of the context packages of
    handoffs.  Everything is written once: an id that is taken is refused. *)

From stdpp Require Import base list strings gmap fin_maps sorting.
From Stdlib Require Import Lia.
From S2P Require Import Prelude Contracts GoMonad Storage Policies Conversation.
Open Scope go_scope.
Open Scope string_scope.
Open Scope list_scope.

(** ** Artifacts *)

Record ArtifactStore := mkArtifactStore {
  artifacts : gmap string Artifact;
  artifact_content : gmap string string
}.
#[export] Instance eta_ArtifactStore : Settable ArtifactStore := fields! mkArtifactStore < artifacts ; artifact_content >.

Section artifacts.
Context `{Env}.
Notation AM := (M ArtifactStore).

Definition artifact_audit (tenantID actorID actorType action resourceID decision reason traceID : string) : AM unit :=
  with_audit (
    let! id := idgen_New "audit" in
    let! now := now in
    ignore (audit_Log (zeroAuditEvent
      <| Audit_AuditID := id |> <| Audit_TenantID := tenantID |> <| Audit_ActorID := actorID |>
      <| Audit_ActorType := actorType |> <| Audit_Action := action |> <| Audit_ResourceType := "artifact" |>
      <| Audit_ResourceID := resourceID |> <| Audit_Decision := decision |> <| Audit_Reason := reason |>
      <| Audit_TraceID := traceID |> <| Audit_CreatedAt := now |>))).

Definition CreateArtifact (artifact : Artifact) : AM unit :=
  if artifact.(Artifact_TenantID) == "" then throw (Errorf "artifact tenant_id is required" []) else
  let! s := get in
  match s.(artifacts) !! artifact.(Artifact_ArtifactID) with
  | Some _ => throw ErrDuplicateRequest
  | None => put (s <| artifacts := <[artifact.(Artifact_ArtifactID) := artifact]> s.(artifacts) |>)
  end.
Definition CreateArtifactWithContent (artifact : Artifact) (content : string) : AM unit :=
  if artifact.(Artifact_TenantID) == "" then throw (Errorf "artifact tenant_id is required" []) else
  let! s := get in
  match s.(artifacts) !! artifact.(Artifact_ArtifactID) with
  | Some _ => throw ErrDuplicateRequest
  | None => put (s <| artifacts := <[artifact.(Artifact_ArtifactID) := artifact]> s.(artifacts) |>
                   <| artifact_content := <[artifact.(Artifact_ArtifactID) := content]> s.(artifact_content) |>)
  end.
Definition GetArtifact (tenantID artifactID : string) : AM Artifact :=
  if tenantID == "" then throw ErrNotFound else
  let! s := get in
  match s.(artifacts) !! artifactID with
  | None => throw ErrNotFound
  | Some artifact => if (tenantID != "") && (artifact.(Artifact_TenantID) != tenantID) then throw ErrNotFound else ret artifact
  end.
Definition ReadArtifact (tenantID artifactID actorID actorType traceID : string) : AM Artifact :=
  let! artifact := GetArtifact tenantID artifactID in
  do! artifact_audit tenantID actorID actorType "artifact.read" artifactID "allowed" "" traceID in
  ret artifact.
Definition DeleteArtifact (tenantID artifactID actorID actorType traceID reason : string) : AM unit :=
  if tenantID == "" then throw ErrNotFound else
  let! s := get in
  match s.(artifacts) !! artifactID with
  | None => throw ErrNotFound
  | Some artifact =>
      if artifact.(Artifact_TenantID) != tenantID then throw ErrNotFound else
      do! put (s <| artifacts := delete artifactID s.(artifacts) |>
                 <| artifact_content := delete artifactID s.(artifact_content) |>) in
      artifact_audit tenantID actorID actorType AuditArtifactDelete artifactID "allowed" reason traceID
  end.
Definition ReadContent (tenantID artifactID : string) : AM string :=
  let! _ := GetArtifact tenantID artifactID in
  let! s := get in
  match s.(artifact_content) !! artifactID with None => throw ErrNotFound | Some content => ret content end.
Definition ArtifactSummary (tenantID artifactID : string) : AM ArtifactRef :=
  let! artifact := GetArtifact tenantID artifactID in
  ret (zeroArtifactRef <| ArtifactRef_ArtifactID := artifact.(Artifact_ArtifactID) |> <| ArtifactRef_Type := artifact.(Artifact_Type) |>
    <| ArtifactRef_URI := artifact.(Artifact_StorageURI) |> <| ArtifactRef_Summary := artifact.(Artifact_Name) |>
    <| ArtifactRef_Hash := artifact.(Artifact_Hash) |>).
End artifacts.

(** ** Memory *)

Notation MemoryStore := (gmap string MemoryEvent).

Definition scopeAllowed (allowed : list string) (scope : string) : bool := mem_string scope allowed.
Definition remembered_before (a b : MemoryEvent) : bool :=
  if Equal a.(MemEv_CreatedAt) b.(MemEv_CreatedAt) then string_lt a.(MemEv_MemoryID) b.(MemEv_MemoryID)
  else Before a.(MemEv_CreatedAt) b.(MemEv_CreatedAt).
Definition recalled (tenantID agentID userID : string) (scopes : list string) (event : MemoryEvent) : bool :=
  (event.(MemEv_TenantID) == tenantID) && ((agentID == "") || (event.(MemEv_AgentID) == agentID)) &&
  ((userID == "") || (event.(MemEv_UserID) == userID)) &&
  (negb (nonempty scopes) || scopeAllowed scopes event.(MemEv_Scope)).
Definition memory_summary (event : MemoryEvent) : MemorySummary :=
  mkMemorySummary event.(MemEv_MemoryID) event.(MemEv_Summary) event.(MemEv_Scope).

Section memory.
Context `{Env}.
Notation MM := (M MemoryStore).

Definition memory_audit (event : MemoryEvent) (actorID actorType traceID : string) : MM unit :=
  with_audit (
    let! now := now in
    ignore (audit_Log (zeroAuditEvent
      <| Audit_TenantID := event.(MemEv_TenantID) |> <| Audit_ActorID := actorID |> <| Audit_ActorType := actorType |>
      <| Audit_Action := AuditMemoryWrite |> <| Audit_ResourceType := "memory" |>
      <| Audit_ResourceID := event.(MemEv_MemoryID) |> <| Audit_Decision := "allowed" |>
      <| Audit_TraceID := traceID |> <| Audit_CreatedAt := now |>))).
Definition memory_denied (message : string) (details : gmap string Any) : error :=
  ErrRuntime (NewRuntimeError CodeToolPolicyDenied message details).
Definition WriteMemoryWithPolicy (event : MemoryEvent) (policy : MemoryPolicy) (actorID actorType traceID : string)
    : MM MemoryEvent :=
  if event.(MemEv_TenantID) == "" then throw (Errorf "memory tenant_id is required" []) else
  if negb policy.(MemoryPolicy_AllowWrite) then throw (memory_denied "memory write is denied by policy" ∅) else
  if nonempty policy.(MemoryPolicy_Scopes) && negb (scopeAllowed policy.(MemoryPolicy_Scopes) event.(MemEv_Scope)) then
    throw (memory_denied "memory scope is denied by policy" {["scope" := AString event.(MemEv_Scope)]}) else
  let! id := if event.(MemEv_MemoryID) == "" then idgen_New "memory" else ret event.(MemEv_MemoryID) in
  let! created := if IsZero event.(MemEv_CreatedAt) then now else ret event.(MemEv_CreatedAt) in
  let event := event <| MemEv_MemoryID := id |> <| MemEv_CreatedAt := created |> in
  let! s := get in
  match s !! id with
  | Some _ => throw ErrDuplicateRequest
  | None =>
      do! put (<[id := event]> s) in
      do! memory_audit event actorID actorType traceID in
      ret event
  end.
Definition open_memory : MemoryPolicy := zeroMemoryPolicy <| MemoryPolicy_AllowWrite := true |> <| MemoryPolicy_AllowRead := true |>.
Definition WriteMemory (event : MemoryEvent) (actorID actorType traceID : string) : MM MemoryEvent :=
  WriteMemoryWithPolicy event open_memory actorID actorType traceID.
Definition GetMemory (tenantID memoryID : string) : MM MemoryEvent :=
  let! s := get in
  match s !! memoryID with
  | None => throw ErrNotFound
  | Some event => if event.(MemEv_TenantID) != tenantID then throw ErrNotFound else ret event
  end.
Definition listMemory (tenantID agentID userID : string) (scopes : list string) (limit : Z) : MM (list MemorySummary) :=
  let! s := get in
  let! events := range_map s in
  let events := List.filter (recalled tenantID agentID userID scopes) (map snd events) in
  ret (map memory_summary (last_of limit (stable_sort remembered_before events))).
Definition ListMemory (tenantID agentID userID : string) : MM (list MemorySummary) := listMemory tenantID agentID userID [] 0.
Definition ListMemoryLimit (tenantID agentID userID : string) (scopes : list string) (limit : Z) : MM (list MemorySummary) :=
  listMemory tenantID agentID userID scopes limit.
End memory.

(** ** Context packages *)

Definition SaveContextPackage (pkg : HandoffContextPackage) : M (gmap string HandoffContextPackage) unit :=
  let! s := get in
  match s !! pkg.(Package_PackageID) with
  | Some _ => throw ErrDuplicateRequest
  | None => put (<[pkg.(Package_PackageID) := pkg]> s)
  end.
Definition GetContextPackage (tenantID packageID : string) : M (gmap string HandoffContextPackage) HandoffContextPackage :=
  let! s := get in
  match s !! packageID with
  | None => throw ErrNotFound
  | Some pkg => if pkg.(Package_TenantID) != tenantID then throw ErrNotFound else ret pkg
  end.

(** ** No tenant touches the artifacts of another *)

Section isolation.
Context `{Env}.
Implicit Types s : ArtifactStore.

Inductive artifact_call :=
| CallCreate (artifact : Artifact)
| CallCreateWith (artifact : Artifact) (content : string)
| CallGet (tenantID artifactID : string)
| CallRead (tenantID artifactID actorID actorType traceID : string)
| CallContent (tenantID artifactID : string)
| CallSummary (tenantID artifactID : string)
| CallDelete (tenantID artifactID actorID actorType traceID reason : string).
Definition caller_tenant (c : artifact_call) : string :=
  match c with
  | CallCreate a | CallCreateWith a _ => a.(Artifact_TenantID)
  | CallGet t _ | CallRead t _ _ _ _ | CallContent t _ | CallSummary t _ | CallDelete t _ _ _ _ _ => t
  end.
Definition artifact_run (c : artifact_call) : M ArtifactStore unit :=
  match c with
  | CallCreate a => CreateArtifact a
  | CallCreateWith a content => CreateArtifactWithContent a content
  | CallGet t id => let! _ := GetArtifact t id in ret tt
  | CallRead t id actor type trace => let! _ := ReadArtifact t id actor type trace in ret tt
  | CallContent t id => let! _ := ReadContent t id in ret tt
  | CallSummary t id => let! _ := ArtifactSummary t id in ret tt
  | CallDelete t id actor type trace reason => DeleteArtifact t id actor type trace reason
  end.
Fixpoint artifact_runs (cs : list artifact_call) : M ArtifactStore unit :=
  match cs with [] => ret tt | c :: cs => do! ignore (artifact_run c) in artifact_runs cs end.

(** What the tenant has, with its content, is the same in both states. *)
Definition same_for (t : string) s s' : Prop := ∀ id a, a.(Artifact_TenantID) = t →
  (s.(artifacts) !! id = Some a ↔ s'.(artifacts) !! id = Some a) ∧
  (s.(artifacts) !! id = Some a → s'.(artifact_content) !! id = s.(artifact_content) !! id).

Lemma same_for_refl t s : same_for t s s.
Proof. done. Qed.
Lemma same_for_trans t s1 s2 s3 : same_for t s1 s2 → same_for t s2 s3 → same_for t s1 s3.
Proof.
  intros H1 H2 id a Ha. destruct (H1 id a Ha) as [E1 C1], (H2 id a Ha) as [E2 C2].
  split; [by rewrite E1|]. intros Hs. rewrite C2 by by apply E1. by apply C1.
Qed.

Lemma effect_artifact_audit t a ty ac r d re tr : effect_only (S:=ArtifactStore) (artifact_audit t a ty ac r d re tr).
Proof. unfold artifact_audit. auto 10 with effects. Qed.
Lemma GetArtifact_run t id w s : ∃ r, GetArtifact t id w s = (r, w, s) ∧ r ≠ Panic ∧ ∀ a, r = Ok a →
  s.(artifacts) !! id = Some a ∧ a.(Artifact_TenantID) = t.
Proof.
  unfold GetArtifact. destruct (String.eqb_spec t ""); [by eexists|]. rewrite bind_get.
  destruct (_ !! _) as [a|]; [|by eexists]. destruct (_ && _) eqn:Eb; [by eexists|]. eexists. split; [done|].
  split; [done|]. intros b [= <-]. split; [done|].
  by destruct (String.eqb_spec (Artifact_TenantID a) t).
Qed.

(** A new artifact takes an id that nobody has. *)
Lemma same_for_create t s (a : Artifact) content : a.(Artifact_TenantID) ≠ t → s.(artifacts) !! a.(Artifact_ArtifactID) = None →
  (∀ id, id ≠ a.(Artifact_ArtifactID) → content !! id = s.(artifact_content) !! id) →
  same_for t s (mkArtifactStore (<[a.(Artifact_ArtifactID) := a]> s.(artifacts)) content).
Proof.
  intros Hne Hn Hc id b Hb. cbn. destruct (decide (id = a.(Artifact_ArtifactID))) as [->|Hid].
  - rewrite lookup_insert_eq, Hn. split; [split; [done|by intros [= ->]]|done].
  - rewrite lookup_insert_ne by done. split; [done|]. intros _. by apply Hc.
Qed.

Lemma artifact_run_isolated t c w s : caller_tenant c ≠ t → ∃ r w' s', artifact_run c w s = (r, w', s') ∧ r ≠ Panic ∧ same_for t s s'.
Proof.
  destruct c; cbn [caller_tenant artifact_run]; intros Hne.
  1-2: unfold CreateArtifact, CreateArtifactWithContent; destruct (_ == ""); [by do 3 eexists|]; rewrite bind_get;
    destruct (_ !! _) eqn:Hn; [by do 3 eexists|]; do 3 eexists; (split; [reflexivity|]); (split; [done|]); apply same_for_create; try done.
  - intros id Hid. by rewrite lookup_insert_ne.
  - unfold bind. destruct (GetArtifact_run tenantID artifactID w s) as ([a|e|] & -> & Hp & _); try (by destruct Hp); by do 3 eexists.
  - unfold ReadArtifact, bind. destruct (GetArtifact_run tenantID artifactID w s) as ([a|e|] & -> & Hp & _); try (by destruct Hp); try by do 3 eexists.
    destruct (effect_artifact_audit tenantID actorID actorType "artifact.read" artifactID "allowed" "" traceID w s)
      as ([] & w' & ->). by do 3 eexists.
  - unfold ReadContent, bind. destruct (GetArtifact_run tenantID artifactID w s) as ([a|e|] & -> & Hp & _); try (by destruct Hp); try by do 3 eexists.
    cbn. destruct (_ !! _); by do 3 eexists.
  - unfold ArtifactSummary, bind. destruct (GetArtifact_run tenantID artifactID w s) as ([a|e|] & -> & Hp & _); try (by destruct Hp); by do 3 eexists.
  - unfold DeleteArtifact. destruct (_ == ""); [by do 3 eexists|]. rewrite bind_get.
    destruct (_ !! _) as [a|] eqn:Ea; [|by do 3 eexists].
    destruct (String.eqb_spec (Artifact_TenantID a) tenantID) as [Et|]; [|by do 3 eexists]. cbn [negb]. rewrite bind_put.
    match goal with |- context [artifact_audit _ _ _ _ _ _ _ _ ?w0 ?s0] =>
      destruct (effect_artifact_audit tenantID actorID actorType AuditArtifactDelete artifactID "allowed" reason traceID w0 s0)
        as ([] & w' & ->) end.
    do 3 eexists. split; [reflexivity|]. split; [done|]. intros id b Hb. cbn. destruct (decide (id = artifactID)) as [->|Hid].
    + rewrite lookup_delete_eq, Ea. split; [split; [intros [= ->]; congruence|done]|]. intros [= ->]. congruence.
    + by rewrite !lookup_delete_ne.
Qed.

(** C27. Whatever the other tenants do, the artifacts of a tenant and their content stay what they are, and nothing is
    added to them. *)
Theorem artifacts_isolated t cs w s : Forall (λ c, caller_tenant c ≠ t) cs →
  ∃ w' s', artifact_runs cs w s = (Ok tt, w', s') ∧ same_for t s s' ∧
    ∀ id w2, (GetArtifact t id w2 s').1.1 = (GetArtifact t id w2 s).1.1 ∧
             (ReadContent t id w2 s').1.1 = (ReadContent t id w2 s).1.1.
Proof.
  intros Hcs. assert (∃ w' s', artifact_runs cs w s = (Ok tt, w', s') ∧ same_for t s s') as (w' & s' & E & Hs).
  { revert w s. induction Hcs as [|c cs Hc _ IH]; intros w s; cbn [artifact_runs]; [by do 2 eexists|].
    destruct (artifact_run_isolated t c w s Hc) as (r & w1 & s1 & E1 & Hp & H1).
    destruct (IH w1 s1) as (w' & s' & E & H2). exists w', s'. split; [|by eapply same_for_trans].
    assert (ignore (artifact_run c) w s = (Ok tt, w1, s1)) as Ei by (unfold ignore; rewrite E1; by destruct r as [[]| |]).
    by rewrite (bind_Ok _ _ _ _ _ _ _ Ei). }
  exists w', s'. split; [done|]. split; [done|]. intros id w2.
  assert (∀ a, s.(artifacts) !! id = Some a → a.(Artifact_TenantID) = t → s'.(artifacts) !! id = Some a ∧
    s'.(artifact_content) !! id = s.(artifact_content) !! id) as Hto by (intros a Ha Ht; split; [by apply (Hs id a Ht)|by apply (Hs id a Ht)]).
  assert (∀ a, s'.(artifacts) !! id = Some a → a.(Artifact_TenantID) = t → s.(artifacts) !! id = Some a) as Hfrom
    by (intros a Ha Ht; by apply (Hs id a Ht)).
  assert ((GetArtifact t id w2 s').1.1 = (GetArtifact t id w2 s).1.1) as Eg.
  { unfold GetArtifact. destruct (String.eqb_spec t "") as [|Ht]; [done|]. rewrite !bind_get. cbn [negb andb].
    destruct (artifacts s !! id) as [a|] eqn:Ea; [destruct (String.eqb_spec (Artifact_TenantID a) t) as [Eat|Nat]|].
    - destruct (Hto a eq_refl Eat) as [-> _]. by rewrite Eat, String.eqb_refl.
    - destruct (artifacts s' !! id) as [b|] eqn:Eb; [|done]. destruct (String.eqb_spec (Artifact_TenantID b) t) as [Ebt|]; [|done].
      specialize (Hfrom b eq_refl Ebt). congruence.
    - destruct (artifacts s' !! id) as [b|] eqn:Eb; [|done]. destruct (String.eqb_spec (Artifact_TenantID b) t) as [Ebt|]; [|done].
      by specialize (Hfrom b eq_refl Ebt). }
  split; [done|]. unfold ReadContent, bind. destruct (GetArtifact_run t id w2 s) as (r & Er & _ & Hr).
  destruct (GetArtifact_run t id w2 s') as (r' & Er' & _ & _). rewrite Er, Er' in *. cbn in Eg. subst r'.
  destruct r as [a| |]; [|done..]. destruct (Hr a eq_refl) as [Ha Ht]. destruct (Hto a Ha Ht) as [_ Ec]. cbn. rewrite Ec. by destruct (artifact_content s !! id).
Qed.
End isolation.

(** ** What is remembered stays *)

Section memories.
Context `{Env}.
Implicit Types s : MemoryStore.

Record write := mkWrite { wr_event : MemoryEvent; wr_policy : MemoryPolicy; wr_actor : string * string * string }.
(** What a write may leave: its event with an id and a time, when its policy lets it. *)
Definition written (c : write) (e : MemoryEvent) : Prop :=
  e = (c.(wr_event) <| MemEv_MemoryID := e.(MemEv_MemoryID) |> <| MemEv_CreatedAt := e.(MemEv_CreatedAt) |>) ∧
  (c.(wr_event).(MemEv_MemoryID) ≠ "" → e.(MemEv_MemoryID) = c.(wr_event).(MemEv_MemoryID)) ∧
  e.(MemEv_TenantID) ≠ "" ∧ c.(wr_policy).(MemoryPolicy_AllowWrite) = true ∧
  (c.(wr_policy).(MemoryPolicy_Scopes) = [] ∨ e.(MemEv_Scope) ∈ c.(wr_policy).(MemoryPolicy_Scopes)).
Definition write_run (c : write) : M MemoryStore unit :=
  let! _ := WriteMemoryWithPolicy c.(wr_event) c.(wr_policy) c.(wr_actor).1.1 c.(wr_actor).1.2 c.(wr_actor).2 in ret tt.
Fixpoint write_runs (cs : list write) : M MemoryStore unit :=
  match cs with [] => ret tt | c :: cs => do! ignore (write_run c) in write_runs cs end.

Lemma effect_memory_audit e a ty tr : effect_only (S:=MemoryStore) (memory_audit e a ty tr).
Proof. unfold memory_audit. auto 10 with effects. Qed.
Lemma write_outcome c w s : ∃ r w' s', write_run c w s = (r, w', s') ∧ r ≠ Panic ∧
  (s' = s ∨ ∃ e, written c e ∧ s !! e.(MemEv_MemoryID) = None ∧ s' = <[e.(MemEv_MemoryID) := e]> s).
Proof.
  unfold write_run, WriteMemoryWithPolicy. destruct c as [ev pol [[actor type] trace]]. cbn [wr_event wr_policy wr_actor fst snd].
  destruct (String.eqb_spec ev.(MemEv_TenantID) "") as [|Ht]; [do 3 eexists; (split; [reflexivity|]); by split; [|left]|].
  destruct (MemoryPolicy_AllowWrite pol) eqn:Ea; cbn [negb]; [|do 3 eexists; (split; [reflexivity|]); by split; [|left]].
  destruct (_ && _) eqn:Es; [do 3 eexists; (split; [reflexivity|]); by split; [|left]|].
  assert (∃ id w1, (if ev.(MemEv_MemoryID) == "" then idgen_New "memory" else ret ev.(MemEv_MemoryID)) w s = (Ok id, w1, s) ∧
    (ev.(MemEv_MemoryID) ≠ "" → id = ev.(MemEv_MemoryID))) as (id & w1 & E1 & Hid).
  { destruct (String.eqb_spec ev.(MemEv_MemoryID) ""); [|by eexists _, _]. by eexists _, _; split; [apply idgen_New_run|]. }
  assert (∃ t w2, (if IsZero ev.(MemEv_CreatedAt) then now else ret ev.(MemEv_CreatedAt)) w1 s = (Ok t, w2, s)) as (t & w2 & E2)
    by (destruct (IsZero _); by eexists _, _).
  unfold bind at 1. rewrite (bind_Ok _ _ _ _ _ _ _ E1), (bind_Ok _ _ _ _ _ _ _ E2), bind_get.
  destruct (s !! id) eqn:El; [do 3 eexists; (split; [reflexivity|]); by split; [|left]|]. rewrite bind_put.
  set (e := ev <| MemEv_MemoryID := id |> <| MemEv_CreatedAt := t |>).
  destruct (effect_memory_audit e actor type trace w2 (<[id:=e]> s)) as ([] & w3 & E3). rewrite (bind_Ok _ _ _ _ _ _ _ E3).
  do 3 eexists. split; [reflexivity|]. split; [done|]. right. exists e. split; [|done]. split; [by destruct ev|].
  split; [done|]. split; [done|]. split; [done|]. cbn. unfold nonempty, scopeAllowed in Es.
  destruct (MemoryPolicy_Scopes pol) as [|x l] eqn:El'; [by left|right]. apply andb_false_iff in Es as [Es|Es].
  - unfold len in Es. cbn in Es. by rewrite Z.gtb_ltb, Z.ltb_ge in Es; lia.
  - by apply negb_false_iff, mem_string_elem in Es.
Qed.

(** After any writes what was remembered is still there, unchanged, and everything new is under its own id, of a write
    that its policy allowed, in a scope of that policy. *)
Theorem memory_kept cs w s : ∃ w' s', write_runs cs w s = (Ok tt, w', s') ∧ s ⊆ s' ∧
  ∀ id e, s' !! id = Some e → s !! id = Some e ∨ id = e.(MemEv_MemoryID) ∧ ∃ c, c ∈ cs ∧ written c e.
Proof.
  revert w s. induction cs as [|c cs IH]; intros w s; cbn [write_runs]; [exists w, s; repeat split; [done..|]; by left|].
  destruct (write_outcome c w s) as (r & w1 & s1 & E1 & Hp & H1). destruct (IH w1 s1) as (w' & s' & E & Hsub & Hnew).
  assert (ignore (write_run c) w s = (Ok tt, w1, s1)) as Ei by (unfold ignore; rewrite E1; by destruct r as [[]| |]).
  exists w', s'. split; [by rewrite (bind_Ok _ _ _ _ _ _ _ Ei)|].
  destruct H1 as [->|(e & He & Hn & ->)].
  - split; [done|]. intros id e [?|[? (c' & ? & ?)]]%Hnew; [by left|right]. split; [done|]. exists c'. by split; [right|].
  - split; [etrans; [by apply insert_subseteq|done]|]. intros id e' [Hl|[? (c' & ? & ?)]]%Hnew.
    + apply lookup_insert_Some in Hl as [[<- <-]|[_ ?]]; [right|by left]. split; [done|]. exists c. by split; [left|].
    + right. split; [done|]. exists c'. by split; [right|].
Qed.

(** The memories that are read back: those of the tenant, and of the agent, the user and the scopes that are asked for, the
    newest when there are more than the limit. *)
Lemma listMemory_run t a u scopes limit w s : ∃ events w', listMemory t a u scopes limit w s =
    (Ok (map memory_summary (last_of limit (stable_sort remembered_before events))), w', s) ∧
  ∀ e, e ∈ events ↔ ∃ id, s !! id = Some e ∧ recalled t a u scopes e = true.
Proof.
  unfold listMemory. rewrite bind_get. destruct (range_map_run s w s) as (l & w' & E & Hp). rewrite (bind_Ok _ _ _ _ _ _ _ E).
  do 2 eexists. split; [reflexivity|]. intros e. rewrite filter_bool_elem, elem_of_map_snd. setoid_rewrite Hp.
  setoid_rewrite elem_of_map_to_list. naive_solver.
Qed.
End memories.

(** ** Examples *)

Section demo.
Let env : Env := test_env.
#[local] Existing Instance env.

Definition demo_artifact (tenantID id name : string) : Artifact :=
  zeroArtifact <| Artifact_ArtifactID := id |> <| Artifact_TenantID := tenantID |> <| Artifact_Name := name |>.
Definition demo_artifacts : ArtifactStore :=
  (artifact_runs [CallCreateWith (demo_artifact "acme" "a1" "report") "text"] world0 (mkArtifactStore ∅ ∅)).2.

(** Another tenant can neither read, delete nor replace the artifact. *)
Lemma artifacts_isolated_witness : ∃ w' s',
  artifact_runs [CallRead "zeta" "a1" "eve" "user" ""; CallDelete "zeta" "a1" "eve" "user" "" ""; CallCreate (demo_artifact "zeta" "a1" "fake")]
    world0 demo_artifacts = (Ok tt, w', s') ∧
  (ReadContent "acme" "a1" world0 s').1.1 = Ok "text".
Proof.
  destruct (artifacts_isolated "acme" [CallRead "zeta" "a1" "eve" "user" ""; CallDelete "zeta" "a1" "eve" "user" "" "";
    CallCreate (demo_artifact "zeta" "a1" "fake")] world0 demo_artifacts) as (w' & s' & E & _ & Hread).
  { repeat constructor; discriminate. }
  exists w', s'. split; [exact E|]. destruct (Hread "a1" world0) as [_ ->]. vm_compute. reflexivity.
Defined.

(** But ids are shared by all tenants: one that another tenant has is taken. *)
Example artifact_ids_shared :
  (CreateArtifact (demo_artifact "zeta" "a1" "mine") world0 demo_artifacts).1.1 = Err ErrDuplicateRequest.
Proof. by vm_compute. Qed.

Definition demo_memory (id scope : string) (at_ : Time) : MemoryEvent :=
  zeroMemoryEvent <| MemEv_MemoryID := id |> <| MemEv_TenantID := "acme" |> <| MemEv_Scope := scope |> <| MemEv_CreatedAt := at_ |>.
Example newest_memories :
  let policy := mkMemoryPolicy true true ["user"; "team"] in
  let write e := mkWrite e policy ("bot", "agent", "") in
  let s := (write_runs [write (demo_memory "m3" "user" 3); write (demo_memory "m1" "user" 1); write (demo_memory "m2" "team" 2);
                        write (demo_memory "m4" "other" 4); write (demo_memory "m1" "team" 9)] world0 ∅).2 in
  match (ListMemoryLimit "acme" "" "" ["user"; "team"] 2 world0 s).1.1 with
  | Ok l => map MemSum_MemoryID l = ["m2"; "m3"] | _ => False
  end.
Proof. by vm_compute. Qed.
End demo.
