(* ===== verification/Progress.v ===== *)
(** * How far a task of a group is: internal/task/progress/service.go

    Tasks are bound to the messages of groups, and a member who asks gets a digest of the task, its run and its handoff.
    The repositories of tasks and runs and the service of handoffs are operations that the service is given. *)

From stdpp Require Import base list strings gmap fin_maps sorting.
From Stdlib Require Import Lia.
From S2P Require Import Prelude Contracts GoMonad Storage Policies TaskRepo RunRepo.
Open Scope go_scope.
Open Scope string_scope.
Open Scope list_scope.

(** ** The data *)

Record GroupTaskBinding := mkGroupTaskBinding {
  Bound_BindingID : string;
  Bound_TenantID : string;
  Bound_GroupID : string;
  Bound_MessageID : string;
  Bound_TaskID : string;
  Bound_RunID : string;
  Bound_HandoffID : string;
  Bound_AgentID : string;
  Bound_Objective : string;
  Bound_CreatedBy : string;
  Bound_CreatedAt : Time
}.
#[export] Instance eta_GroupTaskBinding : Settable GroupTaskBinding :=
  fields! mkGroupTaskBinding < Bound_BindingID ; Bound_TenantID ; Bound_GroupID ; Bound_MessageID ; Bound_TaskID ; Bound_RunID ; Bound_HandoffID ; Bound_AgentID ; Bound_Objective ; Bound_CreatedBy ; Bound_CreatedAt >.
Definition zeroGroupTaskBinding : GroupTaskBinding :=
  mkGroupTaskBinding EmptyString EmptyString EmptyString EmptyString EmptyString EmptyString EmptyString EmptyString EmptyString EmptyString zeroTime.

Record TaskProgressSummary := mkTaskProgressSummary {
  Prog_TenantID : string;
  Prog_GroupID : string;
  Prog_TaskID : string;
  Prog_RunID : string;
  Prog_HandoffID : string;
  Prog_AgentID : string;
  Prog_Objective : string;
  Prog_TaskStatus : TaskStatus;
  Prog_RunStatus : RunStatus;
  Prog_HandoffStatus : HandoffStatus;
  Prog_Summary : string;
  Prog_UpdatedAt : Time
}.
#[export] Instance eta_TaskProgressSummary : Settable TaskProgressSummary :=
  fields! mkTaskProgressSummary < Prog_TenantID ; Prog_GroupID ; Prog_TaskID ; Prog_RunID ; Prog_HandoffID ; Prog_AgentID ; Prog_Objective ; Prog_TaskStatus ; Prog_RunStatus ; Prog_HandoffStatus ; Prog_Summary ; Prog_UpdatedAt >.
Definition zeroTaskProgressSummary : TaskProgressSummary :=
  mkTaskProgressSummary EmptyString EmptyString EmptyString EmptyString EmptyString EmptyString EmptyString EmptyString EmptyString EmptyString EmptyString zeroTime.

Record ProgressQuery := mkProgressQuery {
  Query_TenantID : string;
  Query_GroupID : string;
  Query_TaskID : string;
  Query_Query : string;
  Query_ActorID : string;
  Query_TraceID : string;
  Query_RunID : string
}.
#[export] Instance eta_ProgressQuery : Settable ProgressQuery :=
  fields! mkProgressQuery < Query_TenantID ; Query_GroupID ; Query_TaskID ; Query_Query ; Query_ActorID ; Query_TraceID ; Query_RunID >.
Definition zeroProgressQuery : ProgressQuery :=
  mkProgressQuery EmptyString EmptyString EmptyString EmptyString EmptyString EmptyString EmptyString.

(** What the service reads of other components, each of which may be missing. *)
Record ProgressDeps (T R D : Type) := mkProgressDeps {
  read_task : option (string → M T Task);
  read_run : option (string → M R AgentRun);
  read_handoff : option (string → M D (option AgentHandoff))
}.
Arguments mkProgressDeps {T R D}.
Arguments read_task {T R D}.
Arguments read_run {T R D}.
Arguments read_handoff {T R D}.

(** The store of bindings in memory and the states of the other components. *)
Record Progress (T R D : Type) := mkProgress {
  bindings : gmap string GroupTaskBinding;
  prog_tasks : T;
  prog_runs : R;
  prog_handoffs : D
}.
Arguments mkProgress {T R D}.
Arguments bindings {T R D}.
Arguments prog_tasks {T R D}.
Arguments prog_runs {T R D}.
Arguments prog_handoffs {T R D}.
#[export] Instance eta_Progress {T R D} : Settable (Progress T R D) :=
  fields! (mkProgress (T:=T) (R:=R) (D:=D)) < bindings ; prog_tasks ; prog_runs ; prog_handoffs >.

(** ** What is said *)

Definition nothing_found : string := "没有找到这个群里可关联的专业智能体任务进度。".
Definition renderSummary (summary : TaskProgressSummary) : string :=
  if summary.(Prog_TaskID) == "" then nothing_found else
  let status := if summary.(Prog_TaskStatus) == "" then "unknown" else summary.(Prog_TaskStatus) in
  let part (value text : string) := if value != "" then [text +:+ value] else [] in
  String.concat "；" ([Sprintf "任务 %s 当前状态是 %s" [summary.(Prog_TaskID); status]] ++
    part summary.(Prog_AgentID) "负责智能体 " ++ part summary.(Prog_RunStatus) "运行状态 " ++
    part summary.(Prog_HandoffStatus) "交接状态 " ++ part summary.(Prog_Objective) "目标：") +:+ "。".

Definition names_binding (query : string) (binding : GroupTaskBinding) : bool :=
  Contains (ToLower binding.(Bound_Objective)) query || Contains query (ToLower binding.(Bound_Objective)).
Definition chooseBinding (bound : list GroupTaskBinding) (query : string) : option GroupTaskBinding :=
  let query := ToLower query in
  match (if query != "" then List.find (names_binding query) bound else None) with
  | Some binding => Some binding
  | None => head bound
  end.

Section service.
Context `{Env} {T R D : Type} (deps : ProgressDeps T R D).
Notation GM := (M (Progress T R D)).

(** ** The bindings *)

Definition SaveBinding (binding : GroupTaskBinding) : GM GroupTaskBinding :=
  if (binding.(Bound_TenantID) == "") || (binding.(Bound_GroupID) == "") || (binding.(Bound_TaskID) == "")
  then throw (Errorf "tenant_id, group_id and task_id are required" []) else
  let! id := if binding.(Bound_BindingID) == "" then idgen_New "gtbind" else ret binding.(Bound_BindingID) in
  let! created := if IsZero binding.(Bound_CreatedAt) then now else ret binding.(Bound_CreatedAt) in
  let binding := binding <| Bound_BindingID := id |> <| Bound_CreatedAt := created |> in
  let! s := get in
  do! put (s <| bindings := <[id := binding]> s.(bindings) |>) in
  ret binding.
Definition of_group (tenantID groupID : string) (binding : GroupTaskBinding) : bool :=
  (binding.(Bound_TenantID) == tenantID) && (binding.(Bound_GroupID) == groupID).
Definition bound_later (a b : GroupTaskBinding) : bool := After a.(Bound_CreatedAt) b.(Bound_CreatedAt).
Definition FindRecentByGroup (tenantID groupID : string) (limit : Z) : GM (list GroupTaskBinding) :=
  let! s := get in
  let! all := range_map s.(bindings) in
  let out := stable_sort bound_later (List.filter (of_group tenantID groupID) (map snd all)) in
  let limit := if (limit <=? 0)%Z then 10%Z else limit in
  ret (if (len out >? limit)%Z then take (Z.to_nat limit) out else out).
Definition FindByTask (tenantID taskID : string) : GM (option GroupTaskBinding) :=
  let! s := get in
  let! all := range_map s.(bindings) in
  ret (List.find (λ b, (b.(Bound_TenantID) == tenantID) && (b.(Bound_TaskID) == taskID)) (map snd all)).

(** ** The digest *)

Definition progress_record (input : ProgressQuery) (summary : TaskProgressSummary) : GM unit :=
  do! (if input.(Query_TraceID) == "" then ret tt else with_trace (
    let! span := idgen_New "span" in
    let! now := now in
    trace_Record (zeroTraceEvent
      <| Trace_TraceID := input.(Query_TraceID) |> <| Trace_TenantID := input.(Query_TenantID) |>
      <| Trace_SpanID := span |> <| Trace_RunID := input.(Query_RunID) |> <| Trace_TaskID := summary.(Prog_TaskID) |>
      <| Trace_Type := TraceAgentProgressQueried |>
      <| Trace_Payload := {["group_id" := AString input.(Query_GroupID); "task_id" := AString summary.(Prog_TaskID);
           "agent_id" := AString summary.(Prog_AgentID); "task_status" := AString summary.(Prog_TaskStatus);
           "run_status" := AString summary.(Prog_RunStatus); "handoff_status" := AString summary.(Prog_HandoffStatus)]} |>
      <| Trace_CreatedAt := now |>))) in
  with_audit (
    let! id := idgen_New "audit" in
    let! now := now in
    ignore (audit_Log (zeroAuditEvent
      <| Audit_AuditID := id |> <| Audit_TenantID := input.(Query_TenantID) |> <| Audit_ActorID := input.(Query_ActorID) |>
      <| Audit_ActorType := "member" |> <| Audit_Action := AuditAgentProgressQueried |>
      <| Audit_ResourceType := "task" |> <| Audit_ResourceID := summary.(Prog_TaskID) |>
      <| Audit_Decision := "allowed" |> <| Audit_TraceID := input.(Query_TraceID) |>
      <| Audit_TaskID := summary.(Prog_TaskID) |> <| Audit_RunID := input.(Query_RunID) |>
      <| Audit_CreatedAt := now |>))).

Definition pick_binding (input : ProgressQuery) : GM (option GroupTaskBinding) :=
  if input.(Query_TaskID) != "" then FindByTask input.(Query_TenantID) input.(Query_TaskID) else
  let! bound := FindRecentByGroup input.(Query_TenantID) input.(Query_GroupID) 10 in
  ret (chooseBinding bound input.(Query_Query)).
(** A reading that is missing or fails leaves the digest as it is. *)
Definition add_read {S A} (wanted : bool) (read : option (string → M S A)) (id : string)
    (on : M S A → GM A) (add : A → TaskProgressSummary → TaskProgressSummary) (summary : TaskProgressSummary)
    : GM TaskProgressSummary :=
  match read with
  | Some read =>
      if negb wanted then ret summary else
      let! r := attempt (on (read id)) in
      ret (match r with inl a => add a summary | inr _ => summary end)
  | None => ret summary
  end.
Definition completed (at_ : option Time) (summary : TaskProgressSummary) : TaskProgressSummary :=
  match at_ with Some t => summary <| Prog_UpdatedAt := t |> | None => summary end.
Definition add_task (task : Task) (summary : TaskProgressSummary) : TaskProgressSummary :=
  summary <| Prog_TaskStatus := task.(Task_Status) |> <| Prog_UpdatedAt := task.(Task_UpdatedAt) |>.
Definition add_run (run : AgentRun) (summary : TaskProgressSummary) : TaskProgressSummary :=
  completed run.(Run_CompletedAt) (summary <| Prog_RunStatus := run.(Run_Status) |>).
Definition add_handoff (handoff : option AgentHandoff) (summary : TaskProgressSummary) : TaskProgressSummary :=
  match handoff with
  | Some handoff => completed handoff.(Handoff_CompletedAt) (summary <| Prog_HandoffStatus := handoff.(Handoff_Status) |>)
  | None => summary
  end.
Definition bound_summary (binding : GroupTaskBinding) (now : Time) : TaskProgressSummary :=
  zeroTaskProgressSummary
    <| Prog_TenantID := binding.(Bound_TenantID) |> <| Prog_GroupID := binding.(Bound_GroupID) |>
    <| Prog_TaskID := binding.(Bound_TaskID) |> <| Prog_RunID := binding.(Bound_RunID) |>
    <| Prog_HandoffID := binding.(Bound_HandoffID) |> <| Prog_AgentID := binding.(Bound_AgentID) |>
    <| Prog_Objective := binding.(Bound_Objective) |> <| Prog_UpdatedAt := now |>.
Definition QueryProgress (input : ProgressQuery) : GM TaskProgressSummary :=
  if (input.(Query_TenantID) == "") || (input.(Query_GroupID) == "")
  then throw (Errorf "tenant_id and group_id are required" []) else
  let! found := pick_binding input in
  let! now := now in
  match found with
  | None =>
      let summary := zeroTaskProgressSummary <| Prog_TenantID := input.(Query_TenantID) |>
        <| Prog_GroupID := input.(Query_GroupID) |> <| Prog_Summary := nothing_found |> <| Prog_UpdatedAt := now |> in
      do! progress_record input summary in
      ret summary
  | Some binding =>
      let! summary := add_read true deps.(read_task) binding.(Bound_TaskID)
        (zoom prog_tasks (λ t s, s <| prog_tasks := t |>)) add_task (bound_summary binding now) in
      let! summary := add_read (binding.(Bound_RunID) != "") deps.(read_run) binding.(Bound_RunID)
        (zoom prog_runs (λ t s, s <| prog_runs := t |>)) add_run summary in
      let! summary := add_read (binding.(Bound_HandoffID) != "") deps.(read_handoff) binding.(Bound_HandoffID)
        (zoom prog_handoffs (λ t s, s <| prog_handoffs := t |>)) add_handoff summary in
      let summary := summary <| Prog_Summary := renderSummary summary |> in
      do! progress_record input summary in
      ret summary
  end.
End service.

(** ** What a member is told *)

Section told.
Context `{Env} {T R D : Type} (deps : ProgressDeps T R D).
Implicit Types s : Progress T R D.

(** The readings of the other components leave them as they are and do not panic. *)
Definition only_reads {S A} (read : option (string → M S A)) : Prop :=
  ∀ f id w (s : S), read = Some f → ∃ r w', f id w s = (r, w', s) ∧ r ≠ Panic.
Context (Htask : only_reads deps.(read_task)) (Hrun : only_reads deps.(read_run)) (Hhandoff : only_reads deps.(read_handoff)).

(** What a digest keeps of its binding. *)
Definition about_binding (b : GroupTaskBinding) (p : TaskProgressSummary) : Prop :=
  p.(Prog_TenantID) = b.(Bound_TenantID) ∧ p.(Prog_GroupID) = b.(Bound_GroupID) ∧ p.(Prog_TaskID) = b.(Bound_TaskID) ∧
  p.(Prog_RunID) = b.(Bound_RunID) ∧ p.(Prog_HandoffID) = b.(Bound_HandoffID) ∧ p.(Prog_AgentID) = b.(Bound_AgentID) ∧
  p.(Prog_Objective) = b.(Bound_Objective).

Lemma effect_progress_record input p : effect_only (S:=Progress T R D) (progress_record input p).
Proof. unfold progress_record. auto 12 with effects. Qed.

Lemma chooseBinding_elem bound query b : chooseBinding bound query = Some b → b ∈ bound.
Proof.
  unfold chooseBinding. destruct (if ToLower query != "" then _ else None) as [b'|] eqn:Ef.
  - intros [= ->]. destruct (ToLower query != ""); [|done]. apply find_some in Ef as [? _]. by apply list_elem_of_In.
  - destruct bound; [done|]. intros [= ->]. left.
Qed.
Lemma chooseBinding_none bound query : chooseBinding bound query = None → bound = [].
Proof. unfold chooseBinding. destruct (if ToLower query != "" then _ else None); [done|]. by destruct bound. Qed.
Lemma pick_binding_run input w s : ∃ found w', pick_binding input w s = (Ok found, w', s) ∧
  match found with
  | Some b => (∃ id, s.(bindings) !! id = Some b) ∧ b.(Bound_TenantID) = input.(Query_TenantID) ∧
      (input.(Query_TaskID) ≠ "" → b.(Bound_TaskID) = input.(Query_TaskID)) ∧
      (input.(Query_TaskID) = "" → b.(Bound_GroupID) = input.(Query_GroupID))
  | None => ∀ id b, s.(bindings) !! id = Some b → b.(Bound_TenantID) = input.(Query_TenantID) →
      (input.(Query_TaskID) ≠ "" → b.(Bound_TaskID) ≠ input.(Query_TaskID)) ∧
      (input.(Query_TaskID) = "" → b.(Bound_GroupID) ≠ input.(Query_GroupID))
  end.
Proof.
  unfold pick_binding. destruct (String.eqb_spec input.(Query_TaskID) "") as [Et|Et]; cbn [negb].
  - unfold FindRecentByGroup. destruct (range_map_run s.(bindings) w s) as (l & w' & E & Hp).
    unfold bind at 1. rewrite bind_get, (bind_Ok _ _ _ _ _ _ _ E). cbn [ret Z.leb Z.compare].
    set (out := stable_sort bound_later _). set (cut := if (len out >? 10)%Z then _ else out).
    assert (∀ b, b ∈ cut → (∃ id, s.(bindings) !! id = Some b) ∧ b.(Bound_TenantID) = input.(Query_TenantID) ∧
      b.(Bound_GroupID) = input.(Query_GroupID)) as Hcut.
    { intros b Hb. assert (b ∈ out) as Hin by (unfold cut in Hb; destruct (len out >? 10)%Z; [by apply elem_of_take in Hb as (? & ?%list_elem_of_lookup_2 & _)|done]).
      unfold out in Hin. rewrite stable_sort_elem, filter_bool_elem, elem_of_map_snd in Hin.
      destruct Hin as [[id Hin] Hg]. rewrite Hp in Hin. apply elem_of_map_to_list in Hin. unfold of_group in Hg.
      apply andb_true_iff in Hg as [?%String.eqb_eq ?%String.eqb_eq]. by split; [exists id|]. }
    do 2 eexists. split; [reflexivity|]. destruct (chooseBinding cut _) as [b|] eqn:Ec.
    + apply chooseBinding_elem in Ec. destruct (Hcut b Ec) as (? & ? & ?). done.
    + apply chooseBinding_none in Ec. intros id b Hb Ht. split; [done|]. intros _ Hg.
      assert (b ∈ out) as Hin.
      { unfold out. rewrite stable_sort_elem, filter_bool_elem, elem_of_map_snd. split; [exists id|].
        - rewrite Hp. by apply elem_of_map_to_list.
        - unfold of_group. by rewrite Ht, Hg, !String.eqb_refl. }
      assert (out = []) as Eo by (unfold cut in Ec; destruct (len out >? 10)%Z; [by destruct out|done]).
      rewrite Eo in Hin. by apply elem_of_nil in Hin.
  - unfold FindByTask. rewrite bind_get. destruct (range_map_run s.(bindings) w s) as (l & w' & E & Hp).
    rewrite (bind_Ok _ _ _ _ _ _ _ E). do 2 eexists. split; [reflexivity|].
    assert (∀ b, In b (map snd l) ↔ ∃ id, s.(bindings) !! id = Some b) as Hl.
    { intros b. rewrite <- list_elem_of_In, elem_of_map_snd. setoid_rewrite Hp. by setoid_rewrite elem_of_map_to_list. }
    destruct (List.find _ _) as [b|] eqn:Ef.
    + apply find_some in Ef as [Hin Hb]. apply Hl in Hin. apply andb_true_iff in Hb as [?%String.eqb_eq ?%String.eqb_eq].
      by split_and!.
    + intros id b Hb Ht. split; [|done]. intros _ Eb. assert (In b (map snd l)) as Hin by (apply Hl; by exists id).
      eapply find_none in Ef; [|exact Hin]. by rewrite Ht, Eb, !String.eqb_refl in Ef.
Qed.

(** A reading changes nothing, and of the digest only the status and the time. *)
Lemma add_read_run {S A} wanted (read : option (string → M S A)) id (getS : Progress T R D → S) (setS : S → Progress T R D → Progress T R D)
    (add : A → TaskProgressSummary → TaskProgressSummary) b p w s :
  only_reads read → (∀ s, setS (getS s) s = s) → (∀ a p, about_binding b p → about_binding b (add a p)) → about_binding b p →
  ∃ p' w', add_read wanted read id (zoom getS setS) add p w s = (Ok p', w', s) ∧ about_binding b p' ∧
    (p' = p ∨ ∃ a, p' = add a p ∧ ∃ f w1 w2, read = Some f ∧ f id w1 (getS s) = (Ok a, w2, getS s)).
Proof.
  intros Hr Hset Hadd Hp. unfold add_read. destruct read as [f|]; [|exists p, w; by split_and!; [..|left]].
  destruct wanted; cbn [negb]; [|exists p, w; by split_and!; [..|left]].
  destruct (Hr f id w (getS s) eq_refl) as (r & w' & E & Hnp). unfold bind, attempt, zoom. rewrite E, Hset.
  destruct r as [a|e|]; [exists (add a p), w'|exists p, w'|done]; (split; [done|]).
  - split; [by apply Hadd|]. right. exists a. split; [done|]. by exists f, w, w'.
  - split; [done|by left].
Qed.
Lemma about_completed b t p : about_binding b p → about_binding b (completed t p).
Proof. by destruct t. Qed.

(** A digest of progress reads and changes nothing.  It is about a task that is bound in the tenant that is asked
    about: the task that is asked for, which may be of any group, or else one of the group; and it says that there is none
    only when there is none. *)
Theorem progress_told input w s : ∃ r w', QueryProgress deps input w s = (r, w', s) ∧
  match r with
  | Ok p =>
      (p.(Prog_TaskID) = "" ∧ p.(Prog_Summary) = nothing_found ∧
       ∀ id b, s.(bindings) !! id = Some b → b.(Bound_TenantID) = input.(Query_TenantID) →
         (input.(Query_TaskID) ≠ "" → b.(Bound_TaskID) ≠ input.(Query_TaskID)) ∧
         (input.(Query_TaskID) = "" → b.(Bound_GroupID) ≠ input.(Query_GroupID))) ∨
      ∃ id b, s.(bindings) !! id = Some b ∧ about_binding b p ∧ b.(Bound_TenantID) = input.(Query_TenantID) ∧
        (input.(Query_TaskID) ≠ "" → b.(Bound_TaskID) = input.(Query_TaskID)) ∧
        (input.(Query_TaskID) = "" → b.(Bound_GroupID) = input.(Query_GroupID))
  | Err _ => input.(Query_TenantID) = "" ∨ input.(Query_GroupID) = ""
  | Panic => False
  end.
Proof.
  unfold QueryProgress. destruct (String.eqb_spec input.(Query_TenantID) "") as [Et|]; [by do 2 eexists; split; [reflexivity|left]|].
  destruct (String.eqb_spec input.(Query_GroupID) "") as [Eg|]; [by do 2 eexists; split; [reflexivity|right]|]. cbn [orb].
  destruct (pick_binding_run input w s) as (found & w1 & E & Hf). rewrite (bind_Ok _ _ _ _ _ _ _ E), bind_now. clear E.
  destruct found as [b|].
  - match goal with |- context [add_read true _ _ _ _ ?p0] => assert (about_binding b p0) as Hp0 by done; set (p0' := p0) in * end.
    match goal with |- context [bind (add_read _ _ _ _ _ _) _ ?w0 _] =>
      destruct (add_read_run true deps.(read_task) b.(Bound_TaskID) prog_tasks (λ t s, s <| prog_tasks := t |>) add_task b p0' w0 s)
        as (p1 & w2 & E & Hp1 & _); [done|by intros []|done|done|] end.
    rewrite (bind_Ok _ _ _ _ _ _ _ E). clear E.
    destruct (add_read_run (b.(Bound_RunID) != "") deps.(read_run) b.(Bound_RunID) prog_runs (λ t s, s <| prog_runs := t |>) add_run b p1 w2 s)
      as (p2 & w3 & E & Hp2 & _); [done|by intros []|by intros; apply about_completed|done|].
    rewrite (bind_Ok _ _ _ _ _ _ _ E). clear E.
    destruct (add_read_run (b.(Bound_HandoffID) != "") deps.(read_handoff) b.(Bound_HandoffID) prog_handoffs
      (λ t s, s <| prog_handoffs := t |>) add_handoff b p2 w3 s) as (p3 & w4 & E & Hp3 & _);
      [done|by intros []|by intros [h|] p ?; [apply about_completed|]|done|].
    rewrite (bind_Ok _ _ _ _ _ _ _ E). clear E.
    destruct (effect_progress_record input (p3 <| Prog_Summary := renderSummary p3 |>) w4 s) as ([] & w5 & E).
    rewrite (bind_Ok _ _ _ _ _ _ _ E). do 2 eexists. split; [reflexivity|]. right.
    destruct Hf as ([id Hid] & ? & ? & ?). by exists id, b.
  - match goal with |- context [bind (progress_record ?i ?p) _ ?w0 ?s0] => destruct (effect_progress_record i p w0 s0) as ([] & w2 & E) end.
    rewrite (bind_Ok _ _ _ _ _ _ _ E). do 2 eexists. split; [reflexivity|]. by left.
Qed.
End told.

(** ** With the repositories of tasks and runs *)

Section demo.
Let env : Env := test_env.
#[local] Existing Instance env.

Definition demo_deps : ProgressDeps TaskRepo.InMemoryStore RunRepo.RunRepo unit :=
  mkProgressDeps (Some TaskRepo.Get) (Some RunRepo.Get) None.
Lemma demo_reads : only_reads demo_deps.(read_task) ∧ only_reads demo_deps.(read_run) ∧ only_reads demo_deps.(read_handoff).
Proof.
  split_and!; [| |done]; intros f id w s [= <-]; unfold TaskRepo.Get, RunRepo.Get; rewrite bind_get;
    destruct (_ !! _); by do 2 eexists.
Qed.

Definition demo_binding (groupID taskID objective : string) : GroupTaskBinding :=
  zeroGroupTaskBinding <| Bound_TenantID := "acme" |> <| Bound_GroupID := groupID |> <| Bound_TaskID := taskID |>
    <| Bound_Objective := objective |>.
Notation Demo := (Progress TaskRepo.InMemoryStore RunRepo.RunRepo unit).
Definition demo_progress (bound : list GroupTaskBinding) : Demo :=
  let s0 : Demo := mkProgress ∅ TaskRepo.NewInMemoryStore RunRepo.NewRunRepo tt in
  (fold_left (λ c b, let '(_, w, s) := SaveBinding b c.1 c.2 in (w, s)) bound (world0, s0)).2.
Definition asked_by (groupID taskID query : string) : ProgressQuery := mkProgressQuery "acme" groupID taskID query "ann" "" "".
Definition told (input : ProgressQuery) (s : Demo) : option (string * string) :=
  match (QueryProgress demo_deps input world0 s).1.1 with Ok p => Some (p.(Prog_TaskID), p.(Prog_GroupID)) | _ => None end.
Definition demo_bound : Demo := demo_progress [demo_binding "hr" "t1" "hire"; demo_binding "dev" "t2" ""; demo_binding "dev" "t3" "fix login"].

Lemma progress_told_witness : ∃ p w' b, QueryProgress demo_deps (asked_by "dev" "" "") world0 demo_bound = (Ok p, w', demo_bound) ∧
  about_binding b p ∧ b.(Bound_GroupID) = "dev".
Proof.
  destruct demo_reads as (Ht & Hr & Hh). destruct (progress_told demo_deps Ht Hr Hh (asked_by "dev" "" "") world0 demo_bound) as (r & w' & E & Hp).
  destruct r as [p|e|]; [|by destruct Hp as [Hp|Hp]; discriminate Hp|by destruct Hp]. exists p, w'.
  destruct Hp as [(Ht0 & _)|(id & b & Hb & Ha & _ & _ & Hg)]; [|by exists b; split_and!; [exact E|exact Ha|by apply Hg]].
  exfalso. assert (told (asked_by "dev" "" "") demo_bound = Some ("t3", "dev")) as Htold by (vm_compute; reflexivity).
  unfold told in Htold. rewrite E in Htold. cbn in Htold. rewrite Ht0 in Htold. discriminate Htold.
Defined.

(** A member of one group is told of the task of another one by its id. *)
Example told_of_other_group : told (asked_by "dev" "t1" "") demo_bound = Some ("t1", "hr").
Proof. by vm_compute. Qed.
(** A binding without an objective answers every question. *)
Example no_objective_matches : told (asked_by "dev" "" "fix login") (demo_progress [demo_binding "dev" "t3" "fix login"; demo_binding "dev" "t2" ""]) = Some ("t2", "dev").
Proof. by vm_compute. Qed.
End demo.
