(* ===== verification/ContextPolicy.v ===== *)
(** * What of the context is shown: internal/context/collector/policy.go, the settings of collector.go,
      internal/context/workview/patch.go

    The strategy of an agent says which sources of context are used and how many tokens each of them may take.  A token
    is a field of a text.  [ApplyContextSourcePolicy] cuts a view down to that and reports what was left out;
    [FilterRuntimeHookContextBlocks] does the same with what hooks add.  The conversation of a view is reached through a pointer in the
    code, which changes it in place; here the new view holds the new conversation. *)

From stdpp Require Import base list strings gmap fin_maps.
From Stdlib Require Import Lia.
From S2P Require Import Prelude Contracts GoMonad Storage Policies HandoffPackage Strategy WorkView.
Open Scope go_scope.
Open Scope string_scope.
Open Scope list_scope.

(** ** Settings *)

Definition SourceConversationRecent : string := "conversation_recent".
Definition SourceConversationRetrieval : string := "conversation_retrieval".
Definition SourceTaskHistory : string := "task_history".
Definition SourceMemorySummary : string := "memory_summary".
Definition SourceArtifactRefs : string := "artifact_refs".
Definition SourceToolResults : string := "tool_results".
Definition SourceRuntimeHookContext : string := "runtime_hook_context".
Definition SourceAgentPluginContext : string := "agent_plugin_context".

Definition SourceEnabled (strategy : ContextStrategy) (source : string) : bool :=
  negb (nonempty strategy.(CtxS_EnabledSources)) ||
  existsb (λ item, TrimSpace item == source) strategy.(CtxS_EnabledSources).
Definition MemoryStrategyEnabled (value : option bool) : bool := default true value.
Definition MemoryReadLimit (strategy : ContextStrategy) (memory : MemoryUseStrategy) : Z :=
  let contextLimit := IntValue strategy.(CtxS_MemoryMaxItems) in
  let memoryLimit := IntValue memory.(MemS_MaxMemoryItems) in
  if (contextLimit <=? 0)%Z then memoryLimit
  else if (memoryLimit <=? 0)%Z || (contextLimit <? memoryLimit)%Z then contextLimit else memoryLimit.
(** Whether a source is enabled, whether one is unlimited, and the largest limit so far. *)
Definition consider (strategy : ContextStrategy) (source : string) (configured : option Z) (st : bool * bool * Z) : bool * bool * Z :=
  if negb (SourceEnabled strategy source) then st else
  let '(_, unlimited, limit) := st in
  match configured with
  | None => (true, true, limit)
  | Some n => if (n <=? 0)%Z then (true, true, limit) else (true, unlimited, if (limit <? n)%Z then n else limit)
  end.
Definition TaskEventsReadLimit (strategy : ContextStrategy) : Z * bool :=
  let '(enabled, unlimited, limit) :=
    consider strategy SourceConversationRetrieval strategy.(CtxS_RetrievalMaxResults)
      (consider strategy SourceTaskHistory strategy.(CtxS_TaskHistoryMaxItems) (false, false, 0%Z)) in
  if negb enabled then (0%Z, false) else if unlimited then (0%Z, true) else (limit, true).

Definition SourceBudget (strategy : ContextStrategy) (source : string) : option Z := strategy.(CtxS_SourceBudgets) !! source.
Definition SourceReportLimit (strategy : ContextStrategy) (source : string) (fallback : Z) : Z :=
  match SourceBudget strategy source with Some budget => if (0 <? budget)%Z then budget else fallback | None => fallback end.
Definition ContextSourceTrustLevel (source : string) : string :=
  if mem_string source [SourceConversationRecent; SourceConversationRetrieval; SourceTaskHistory] then "untrusted_user_text"
  else if source == SourceMemorySummary then "system_record"
  else if mem_string source [SourceArtifactRefs; SourceToolResults] then "tool_result"
  else "".
Definition ApproximateTokens (value : string) : Z := len (Fields value).

(** ** Reports *)

Definition NewContextSourceReport (source : string) (candidates selected limit : Z) (reason : string) : ContextSourceReport :=
  let selected := if (candidates <? selected)%Z then candidates else selected in
  mkContextSourceReport source "" "" "" "" (ContextSourceTrustLevel source) candidates selected (candidates - selected) limit reason.
Definition NonEmptyContextSourceReports (reports : list ContextSourceReport) : list ContextSourceReport :=
  List.filter (λ r, negb ((r.(SrcRep_CandidateCount) =? 0)%Z && (r.(SrcRep_SelectedCount) =? 0)%Z &&
                          (r.(SrcRep_DroppedCount) =? 0)%Z)) reports.
Definition MakeAssemblyReport (strategyHash : string) (strategy : ContextStrategy) (sources : list ContextSourceReport)
    : ContextAssemblyReport :=
  zeroContextAssemblyReport <| AsmRep_StrategyHash := strategyHash |> <| AsmRep_Mode := strategy.(CtxS_Mode) |>
    <| AsmRep_TokenBudget := IntValue strategy.(CtxS_ContextTokenBudget) |> <| AsmRep_Sources := sources |>.
Definition IsExternalContextSource (sourceType : string) : bool :=
  (sourceType == SourceRuntimeHookContext) || (sourceType == SourceAgentPluginContext).
Definition ExternalContextSourceReports (sources : list ContextSourceReport) : list ContextSourceReport :=
  List.filter (λ s, IsExternalContextSource s.(SrcRep_SourceType)) sources.

(** The fields by which reports are told apart, as [ContextSourceReportSameRef] and as a key. *)
Definition report_ref (r : ContextSourceReport) : list string :=
  [r.(SrcRep_SourceType); r.(SrcRep_SourceRef); r.(SrcRep_ProviderID); r.(SrcRep_HookID); r.(SrcRep_ToolCallID); r.(SrcRep_TrustLevel)].
Definition ContextSourceReportSameRef (left right : ContextSourceReport) : bool :=
  (left.(SrcRep_SourceType) == right.(SrcRep_SourceType)) && (left.(SrcRep_SourceRef) == right.(SrcRep_SourceRef)) &&
  (left.(SrcRep_ProviderID) == right.(SrcRep_ProviderID)) && (left.(SrcRep_HookID) == right.(SrcRep_HookID)) &&
  (left.(SrcRep_ToolCallID) == right.(SrcRep_ToolCallID)) && (left.(SrcRep_TrustLevel) == right.(SrcRep_TrustLevel)).
Fixpoint Join (values : list string) (sep : string) : string :=
  match values with [] => "" | [v] => v | v :: vs => v +:+ (sep +:+ Join vs sep) end.
Definition report_key (r : ContextSourceReport) : string := Join (report_ref r) NUL.

Definition add_row (row source : ContextSourceReport) : ContextSourceReport :=
  source <| SrcRep_CandidateCount := int64 (source.(SrcRep_CandidateCount) + row.(SrcRep_CandidateCount)) |>
    <| SrcRep_SelectedCount := int64 (source.(SrcRep_SelectedCount) + row.(SrcRep_SelectedCount)) |>
    <| SrcRep_DroppedCount := int64 (source.(SrcRep_DroppedCount) + row.(SrcRep_DroppedCount)) |>
    <| SrcRep_Limit := if (source.(SrcRep_Limit) =? 0)%Z then row.(SrcRep_Limit) else source.(SrcRep_Limit) |>
    <| SrcRep_Reason := if source.(SrcRep_Reason) == "" then row.(SrcRep_Reason) else source.(SrcRep_Reason) |>.
Fixpoint merge_row (row : ContextSourceReport) (sources : list ContextSourceReport) : list ContextSourceReport :=
  match sources with
  | [] => [row]
  | s :: sources => if ContextSourceReportSameRef s row then add_row row s :: sources else s :: merge_row row sources
  end.
Definition MergeContextSourceReportRow (row : ContextSourceReport) (report : ContextAssemblyReport) : ContextAssemblyReport :=
  if (row.(SrcRep_CandidateCount) =? 0)%Z then report else
  let row := if (row.(SrcRep_CandidateCount) <? row.(SrcRep_SelectedCount))%Z
             then row <| SrcRep_SelectedCount := row.(SrcRep_CandidateCount) |> else row in
  let row := row <| SrcRep_DroppedCount := int64 (row.(SrcRep_CandidateCount) - row.(SrcRep_SelectedCount)) |> in
  report <| AsmRep_Sources := merge_row row report.(AsmRep_Sources) |>.
Definition MergeContextSourceReport (source : string) (candidates selected limit : Z) (reason : string)
    (report : ContextAssemblyReport) : ContextAssemblyReport :=
  if (candidates =? 0)%Z then report else
  MergeContextSourceReportRow (mkContextSourceReport source "" "" "" "" "" candidates selected
    (int64 (candidates - selected)) limit reason) report.

(** ** Budgets of the lists of a view *)

Section budget.
Context {A : Type} (cost : A → Z).
(** The items up to the first one that does not fit. *)
Fixpoint within (budget used : Z) (items : list A) : list A :=
  match items with
  | [] => []
  | item :: items => if (budget <? used + cost item)%Z then [] else item :: within budget (used + cost item) items
  end.
(** What is kept, and how many are selected and dropped and why. *)
Definition apply_budget (items : list A) (budget : option Z) : list A * (Z * Z * string) :=
  match budget with
  | None => (items, (len items, 0%Z, ""))
  | Some budget =>
      if (budget <=? 0)%Z then (items, (len items, 0%Z, "")) else
      let selected := within budget 0 items in
      let dropped := (len items - len selected)%Z in
      (selected, if (0 <? dropped)%Z then (len selected, dropped, "source_budget_exceeded") else (len selected, 0%Z, ""))
  end.
End budget.
Definition applyConversationMessageBudget := apply_budget (λ m : ConversationMessage, ApproximateTokens m.(CMsg_Text)).
Definition applyRetrievedContextBudget :=
  apply_budget (λ r : RetrievedContext, ApproximateTokens (r.(Retr_Summary) +:+ " " +:+ r.(Retr_Snippet))).
Definition applyMemorySummaryBudget := apply_budget (λ m : MemorySummary, ApproximateTokens m.(MemSum_Summary)).
Definition applyToolResultBudget := apply_budget (λ r : ToolResultSummary, ApproximateTokens r.(RSum_Summary)).

Definition disabled_by_strategy : string := "disabled_by_context_strategy".
Definition disabled_by_memory : string := "disabled_by_memory_strategy".
(** A source that is switched off for a reason, or cut down to its budget. *)
Definition source_rule {A} (strategy : ContextStrategy) (disabled : option string) (source : string) (limit : Z)
    (apply : list A → option Z → list A * (Z * Z * string)) (items : list A) : list A * ContextSourceReport :=
  match disabled with
  | Some reason => ([], NewContextSourceReport source (len items) 0 limit reason)
  | None =>
      let '(kept, (selected, dropped, reason)) := apply items (SourceBudget strategy source) in
      let report := NewContextSourceReport source (len items) selected (SourceReportLimit strategy source limit) reason in
      (kept, if (0 <? dropped)%Z && (reason == "") then report <| SrcRep_Reason := "limited_by_context_strategy" |> else report)
  end.
Definition disabled_source (strategy : ContextStrategy) (source : string) : option string :=
  if SourceEnabled strategy source then None else Some disabled_by_strategy.
Definition disabled_memory (strategy : ContextStrategy) (memory : MemoryUseStrategy) : option string :=
  if MemoryStrategyEnabled memory.(MemS_ReadEnabled) then disabled_source strategy SourceMemorySummary else Some disabled_by_memory.

(** ** Lists whose items name their source *)

Section admission.
Context {A : Type} (strategy : ContextStrategy) (skipped : A → bool) (source : A → string)
  (report : A → ContextSourceReport) (text : A → string).
Record Counting := mkCounting {
  counted : list (string * ContextSourceReport);
  used_by : gmap string Z;
  admitted : list A
}.
(** [stateFor]: the report of an item is made when its key is first met. *)
Definition state_for (x : A) (states : list (string * ContextSourceReport)) : list (string * ContextSourceReport) :=
  let key := report_key (report x) in
  if existsb (λ kr, kr.1 == key) states then states else states ++ [(key, report x)].
Definition update_state (x : A) (f : ContextSourceReport → ContextSourceReport) (states : list (string * ContextSourceReport))
    : list (string * ContextSourceReport) :=
  let key := report_key (report x) in map (λ kr, if kr.1 == key then (kr.1, f kr.2) else kr) states.
Definition counted_more (r : ContextSourceReport) := r <| SrcRep_CandidateCount := (r.(SrcRep_CandidateCount) + 1)%Z |>.
Definition selected_more (r : ContextSourceReport) := r <| SrcRep_SelectedCount := (r.(SrcRep_SelectedCount) + 1)%Z |>.
Definition refused_for (reason : string) (r : ContextSourceReport) := r <| SrcRep_Reason := reason |>.
Definition fits (used : gmap string Z) (x : A) : bool :=
  match SourceBudget strategy (source x) with
  | Some budget => (budget <=? 0)%Z || (default 0 (used !! source x) + ApproximateTokens (text x) <=? budget)%Z
  | None => true
  end.
(** What the item takes of its budget, if there is one. *)
Definition spend (used : gmap string Z) (x : A) : gmap string Z :=
  match SourceBudget strategy (source x) with
  | Some budget =>
      if (budget <=? 0)%Z then used
      else <[source x := (default 0 (used !! source x) + ApproximateTokens (text x))%Z]> used
  | None => used
  end.
Definition admit_item (c : Counting) (x : A) : Counting :=
  if skipped x then c else
  let states := update_state x counted_more (state_for x c.(counted)) in
  if negb (SourceEnabled strategy (source x)) then
    mkCounting (update_state x (refused_for disabled_by_strategy) states) c.(used_by) c.(admitted)
  else if negb (fits c.(used_by) x) then
    mkCounting (update_state x (refused_for "source_budget_exceeded") states) c.(used_by) c.(admitted)
  else mkCounting (update_state x selected_more states) (spend c.(used_by) x) (c.(admitted) ++ [x]).
Definition report_dropped (r : ContextSourceReport) : ContextSourceReport :=
  r <| SrcRep_DroppedCount := (r.(SrcRep_CandidateCount) - r.(SrcRep_SelectedCount))%Z |>.
Definition admit_all (items : list A) : list A * list ContextSourceReport :=
  let c := fold_left admit_item items (mkCounting [] ∅ []) in
  (c.(admitted), map (λ kr, report_dropped kr.2) c.(counted)).
End admission.
Arguments mkCounting {A}. Arguments counted {A}. Arguments used_by {A}. Arguments admitted {A}.

(** [metadata[key].(string)], trimmed *)
Definition metadata_string (metadata : gmap string Any) (key : string) : string :=
  match metadata !! key with Some (AString value) => TrimSpace value | _ => "" end.

Definition artifactRefContextSource (ref : ArtifactRef) : string :=
  if IsExternalContextSource ref.(ArtifactRef_Type) then ref.(ArtifactRef_Type) else SourceArtifactRefs.
Definition artifactRefMetadataString (ref : ArtifactRef) : string → string := metadata_string ref.(ArtifactRef_Metadata).
Definition string_or (value fallback : string) : string := if value == "" then fallback else value.
Definition artifactRefSourceReport (strategy : ContextStrategy) (ref : ArtifactRef) : ContextSourceReport :=
  let source := artifactRefContextSource ref in
  let limit := if source == SourceArtifactRefs then IntValue strategy.(CtxS_ArtifactRefMaxItems) else 0%Z in
  let report := zeroContextSourceReport <| SrcRep_SourceType := source |> <| SrcRep_Limit := SourceReportLimit strategy source limit |> in
  if IsExternalContextSource source then
    report <| SrcRep_SourceRef := string_or (artifactRefMetadataString ref "source_ref") ref.(ArtifactRef_ArtifactID) |>
      <| SrcRep_ProviderID := artifactRefMetadataString ref "provider_id" |>
      <| SrcRep_HookID := artifactRefMetadataString ref "hook_id" |>
      <| SrcRep_ToolCallID := artifactRefMetadataString ref "tool_call_id" |>
      <| SrcRep_TrustLevel := string_or (artifactRefMetadataString ref "trust_level") "untrusted_external_context" |>
  else report.
Definition artifact_text (ref : ArtifactRef) : string :=
  Join [ref.(ArtifactRef_ArtifactID); ref.(ArtifactRef_Type); ref.(ArtifactRef_URI); ref.(ArtifactRef_Summary)] " ".
Definition ApplyArtifactRefSourcePolicy (refs : list ArtifactRef) (strategy : ContextStrategy)
    : list ContextSourceReport * list ArtifactRef :=
  let '(selected, reports) :=
    admit_all strategy (λ _, false) artifactRefContextSource (artifactRefSourceReport strategy) artifact_text refs in
  (reports, selected).

Definition ContextBlockMetadataString (block : ContextBlock) : string → string := metadata_string block.(Block_Metadata).
Definition ContextBlockSourceType (block : ContextBlock) : string :=
  if ContextBlockMetadataString block "source_type" == SourceAgentPluginContext then SourceAgentPluginContext else SourceRuntimeHookContext.
Definition ContextBlockTrustLevel (block : ContextBlock) : string :=
  string_or (ContextBlockMetadataString block "trust_level") "untrusted_external_context".
Definition ContextBlockSourceRef (block : ContextBlock) : string :=
  string_or (ContextBlockMetadataString block "source_ref") (string_or (TrimSpace block.(Block_ID)) (ContextBlockSourceType block)).
Definition set_nonempty (key value : string) (metadata : gmap string Any) : gmap string Any :=
  if value == "" then metadata else <[key := AString value]> metadata.
Definition ContextBlockArtifactMetadata (block : ContextBlock) : gmap string Any :=
  set_nonempty "tool_call_id" (ContextBlockMetadataString block "tool_call_id")
    (set_nonempty "hook_id" (ContextBlockMetadataString block "hook_id")
      (set_nonempty "provider_id" (ContextBlockMetadataString block "provider_id")
        (<["trust_level" := AString (ContextBlockTrustLevel block)]>
          (<["source_ref" := AString (ContextBlockSourceRef block)]>
            (<["source_type" := AString (ContextBlockSourceType block)]> block.(Block_Metadata)))))).
Definition ContextBlockSourceReport (strategy : ContextStrategy) (block : ContextBlock) : ContextSourceReport :=
  let source := ContextBlockSourceType block in
  zeroContextSourceReport <| SrcRep_SourceType := source |>
    <| SrcRep_SourceRef := ContextBlockMetadataString block "source_ref" |>
    <| SrcRep_ProviderID := ContextBlockMetadataString block "provider_id" |>
    <| SrcRep_HookID := ContextBlockMetadataString block "hook_id" |>
    <| SrcRep_ToolCallID := ContextBlockMetadataString block "tool_call_id" |>
    <| SrcRep_TrustLevel := ContextBlockTrustLevel block |> <| SrcRep_Limit := SourceReportLimit strategy source 0 |>.
Definition blank_block (block : ContextBlock) : bool := TrimSpace block.(Block_Content) == "".
Definition block_text (block : ContextBlock) : string :=
  Join [block.(Block_ID); block.(Block_Title); block.(Block_Content)] " ".
Definition FilterRuntimeHookContextBlocks (blocks : list ContextBlock) (strategy : ContextStrategy)
    : list ContextBlock * list ContextSourceReport :=
  admit_all strategy blank_block ContextBlockSourceType (ContextBlockSourceReport strategy) block_text blocks.

(** ** The policy on a view *)

Definition conversation_policy (strategy : ContextStrategy) (c : ConversationContext) : ConversationContext * list ContextSourceReport :=
  let '(recent, r1) := source_rule strategy (disabled_source strategy SourceConversationRecent) SourceConversationRecent
    (IntValue strategy.(CtxS_RecentMessageLimit)) applyConversationMessageBudget c.(ConvCtx_RecentMessages) in
  let '(retrieved, r2) := source_rule strategy (disabled_source strategy SourceConversationRetrieval) SourceConversationRetrieval
    (IntValue strategy.(CtxS_RetrievalMaxResults)) applyRetrievedContextBudget c.(ConvCtx_Retrieved) in
  (c <| ConvCtx_RecentMessages := recent |> <| ConvCtx_Retrieved := retrieved |>, [r1; r2]).
Definition artifact_policy (strategy : ContextStrategy) (refs : list ArtifactRef) : list ArtifactRef * list ContextSourceReport :=
  if nonempty refs then let '(reports, selected) := ApplyArtifactRefSourcePolicy refs strategy in (selected, reports) else (refs, []).
Definition ApplyContextSourcePolicy (view : WorkView) (strategy : ContextStrategy) (memory : MemoryUseStrategy)
    : WorkView * list ContextSourceReport :=
  let '(conversation, rs) := match view.(View_ConversationContext) with
    | Some c => let '(c, rs) := conversation_policy strategy c in (Some c, rs) | None => (None, []) end in
  let '(history, r1) := source_rule strategy (disabled_source strategy SourceTaskHistory) SourceTaskHistory
    (IntValue strategy.(CtxS_TaskHistoryMaxItems)) applyRetrievedContextBudget view.(View_TaskHistory) in
  let '(memories, r2) := source_rule strategy (disabled_memory strategy memory) SourceMemorySummary
    (MemoryReadLimit strategy memory) applyMemorySummaryBudget view.(View_MemorySummaries) in
  let '(results, r3) := source_rule strategy (disabled_source strategy SourceToolResults) SourceToolResults
    (IntValue strategy.(CtxS_ToolResultMaxItems)) applyToolResultBudget view.(View_ToolResultSummaries) in
  let '(refs, rs') := artifact_policy strategy view.(View_ArtifactRefs) in
  (view <| View_ConversationContext := conversation |> <| View_TaskHistory := history |> <| View_MemorySummaries := memories |>
     <| View_ToolResultSummaries := results |> <| View_ArtifactRefs := refs |>,
   NonEmptyContextSourceReports (rs ++ [r1; r2; r3] ++ rs')).

(** ** What the policy leaves of a list *)

Fixpoint total {A} (cost : A → Z) (items : list A) : Z :=
  match items with [] => 0%Z | x :: items => (cost x + total cost items)%Z end.
Lemma total_app {A} (cost : A → Z) l k : total cost (l ++ k) = (total cost l + total cost k)%Z.
Proof. induction l as [|x l IH]; cbn; [done|]. rewrite IH. lia. Qed.

(** The tokens of a text are its words. *)
Definition words (text : string) : Z := len (Fields text).
(** A strategy that names no sources enables all. *)
Definition enabled (strategy : ContextStrategy) (source : string) : Prop :=
  strategy.(CtxS_EnabledSources) = [] ∨ ∃ item, item ∈ strategy.(CtxS_EnabledSources) ∧ TrimSpace item = source.
(** What is left of [items]: nothing if the source is off, and otherwise the longest beginning that the budget pays for. *)
Definition longest {A} (cost : A → Z) (on : Prop) (budget : option Z) (items kept : list A) : Prop :=
  (¬ on → kept = []) ∧
  (on → ∃ rest, items = kept ++ rest ∧
     (rest ≠ [] → ∃ b, budget = Some b ∧ 0 < b)%Z ∧
     (∀ b, budget = Some b → 0 < b → total cost kept ≤ b ∧ ∀ x r, rest = x :: r → b < total cost kept + cost x)%Z).
Lemma SourceEnabled_iff strategy source : SourceEnabled strategy source = true ↔ enabled strategy source.
Proof.
  unfold SourceEnabled, enabled. rewrite orb_true_iff, negb_true_iff, existsb_exists. setoid_rewrite String.eqb_eq.
  setoid_rewrite <- list_elem_of_In. destruct (CtxS_EnabledSources strategy); cbn; naive_solver.
Qed.

(** [kept] is what a source that is switched off, or has a budget, leaves of [items]: the longest beginning of the list
    that the budget pays for. *)
Definition cut_to {A} (cost : A → Z) (disabled : option string) (budget : option Z) (items kept : list A) : Prop :=
  match disabled with
  | Some _ => kept = []
  | None => ∃ rest, items = kept ++ rest ∧
      match budget with
      | Some b => (b ≤ 0 → rest = [])%Z ∧
          (0 < b → total cost kept ≤ b ∧ ∀ x r, rest = x :: r → b < total cost kept + cost x)%Z
      | None => rest = []
      end
  end.
(** A report that tells what became of the list. *)
Definition accounts {A} (items kept : list A) (r : ContextSourceReport) : Prop :=
  r.(SrcRep_CandidateCount) = len items ∧ r.(SrcRep_SelectedCount) = len kept ∧
  r.(SrcRep_DroppedCount) = (len items - len kept)%Z ∧ (r.(SrcRep_Reason) = "" → kept = items).

Lemma cut_longest {A} (cost : A → Z) disabled (on : Prop) budget items kept : (disabled = None ↔ on) →
  cut_to cost disabled budget items kept → longest cost on budget items kept.
Proof.
  intros Hon Hc. destruct disabled as [r|]; cbn in Hc; [by split; [|intros ?%Hon]|]. split; [by intros []; apply Hon|].
  intros _. destruct Hc as (rest & -> & Hb). exists rest. split; [done|]. destruct budget as [b|]; [|subst; by split].
  destruct Hb as [H0 H1]. split; [|by intros ? [= <-]]. intros Hr. exists b. split; [done|]. destruct (Z.lt_ge_cases 0 b); [done|]. by rewrite H0 in Hr.
Qed.

Section cut.
Context {A : Type} (cost : A → Z).
Lemma within_spec budget items used : (used ≤ budget)%Z → ∃ rest, items = within cost budget used items ++ rest ∧
  (used + total cost (within cost budget used items) ≤ budget)%Z ∧
  ∀ x r, rest = x :: r → (budget < used + total cost (within cost budget used items) + cost x)%Z.
Proof.
  revert used. induction items as [|x items IH]; intros used Hu; cbn [within]; [exists []; cbn; split_and!; [done|lia|done]|].
  destruct (Z.ltb_spec budget (used + cost x)) as [Hlt|Hle].
  - exists (x :: items). cbn. split_and!; [done|lia|]. intros y r [= <- <-]. lia.
  - destruct (IH (used + cost x)%Z Hle) as (rest & He & Ht & Hr). exists rest. cbn.
    split_and!; [by rewrite <- He|lia|]. intros y r ->. specialize (Hr y r eq_refl). lia.
Qed.
Lemma within_idemp budget items used : within cost budget used (within cost budget used items) = within cost budget used items.
Proof.
  revert used. induction items as [|x items IH]; intros used; cbn [within]; [done|].
  destruct (_ <? _)%Z eqn:E; [done|]. cbn [within]. by rewrite E, IH.
Qed.
Lemma apply_budget_idemp items budget : (apply_budget cost (apply_budget cost items budget).1 budget).1 = (apply_budget cost items budget).1.
Proof.
  destruct budget as [b|]; cbn; [|done]. destruct (b <=? 0)%Z eqn:E; cbn; [done|]. by rewrite within_idemp.
Qed.
Lemma source_rule_idemp strategy disabled source limit items :
  (source_rule strategy disabled source limit (apply_budget cost)
    (source_rule strategy disabled source limit (apply_budget cost) items).1).1 =
  (source_rule strategy disabled source limit (apply_budget cost) items).1.
Proof.
  assert (∀ l, (source_rule strategy disabled source limit (apply_budget cost) l).1 =
    match disabled with Some _ => [] | None => (apply_budget cost l (SourceBudget strategy source)).1 end) as Hf.
  { intros l. unfold source_rule. destruct disabled; [done|]. by destruct (apply_budget _ _ _) as [? [[? ?] ?]]. }
  rewrite !Hf. destruct disabled; [done|]. apply apply_budget_idemp.
Qed.
Lemma len_app_zero (kept rest : list A) : (len (kept ++ rest) - len kept ≤ 0)%Z → rest = [].
Proof. unfold len. rewrite length_app. destruct rest; cbn; [done|lia]. Qed.
Lemma apply_budget_spec items budget : let '(kept, (selected, dropped, reason)) := apply_budget cost items budget in
  cut_to cost None budget items kept ∧ selected = len kept ∧ dropped = (len items - len kept)%Z ∧
  (reason = "" → kept = items) ∧ (reason ≠ "" → kept ≠ items).
Proof.
  assert (items = items ++ []) as Hnil by by rewrite app_nil_r.
  unfold apply_budget, cut_to. destruct budget as [b|]; [|split_and!; try done; try lia; by exists []].
  destruct (Z.leb_spec b 0) as [Hb|Hb].
  { split_and!; try done; try lia. exists []. split_and!; [done|done|lia]. }
  destruct (within_spec b items 0) as (rest & He & Ht & Hr); [lia|]. set (kept := within cost b 0 items) in *.
  assert (len kept ≤ len items)%Z by (rewrite He; unfold len; rewrite length_app; lia).
  destruct (Z.ltb_spec 0 (len items - len kept)) as [Hd|Hd]; (split; [exists rest; split; [done|]; split; [lia|]; intros _; split;
    [lia|intros x r Hx; specialize (Hr x r Hx); lia]|]); split_and!; try done; try lia.
  - intros _ Hk. rewrite Hk in Hd. lia.
  - intros _. rewrite He in Hd. apply len_app_zero in Hd. by rewrite He, Hd, app_nil_r at 1.
Qed.
Lemma source_rule_spec strategy disabled source limit items : disabled ≠ Some "" →
  let '(kept, r) := source_rule strategy disabled source limit (apply_budget cost) items in
  cut_to cost disabled (SourceBudget strategy source) items kept ∧ accounts items kept r ∧ r.(SrcRep_SourceType) = source.
Proof.
  intros Hd. unfold source_rule. destruct disabled as [reason|].
  - unfold accounts, NewContextSourceReport, len. cbn. destruct (Z.ltb_spec (Z.of_nat (length items)) 0); [lia|]. cbn.
    split_and!; try done. intros ->. by destruct Hd.
  - pose proof (apply_budget_spec items (SourceBudget strategy source)) as H.
    destruct (apply_budget cost items _) as [kept [[selected dropped] reason]]. destruct H as (Hc & -> & -> & Hr & Hr').
    assert (len kept ≤ len items)%Z by (destruct Hc as (rest & -> & _); unfold len; rewrite length_app; lia).
    assert ((0 <? len items - len kept)%Z && (reason == "") = false) as ->.
    { apply andb_false_iff. destruct (String.eqb_spec reason "") as [Er|]; [left|by right]. rewrite (Hr Er). lia. }
    split; [done|]. unfold accounts, NewContextSourceReport. cbn. destruct (Z.ltb_spec (len items) (len kept)); [lia|]. by split_and!.
Qed.
End cut.

(** ** What is admitted *)

Section admitted.
Context {A : Type} (strategy : ContextStrategy) (skipped : A → bool) (source : A → string)
  (report : A → ContextSourceReport) (text : A → string).
Notation cost x := (ApproximateTokens (text x)).
Notation admit_item := (admit_item strategy skipped source report text).
Notation fits := (fits strategy source text).
Notation spend := (spend strategy source text).

Definition wanted (x : A) : bool := negb (skipped x) && SourceEnabled strategy (source x).
Fixpoint kept (used : gmap string Z) (items : list A) : list A :=
  match items with
  | [] => []
  | x :: items => if wanted x && fits used x then x :: kept (spend used x) items else kept used items
  end.
Fixpoint spent (used : gmap string Z) (items : list A) : gmap string Z :=
  match items with
  | [] => used
  | x :: items => if wanted x && fits used x then spent (spend used x) items else spent used items
  end.
Lemma admit_step c x : (admit_item c x).(admitted) = c.(admitted) ++ (if wanted x && fits c.(used_by) x then [x] else []) ∧
  (admit_item c x).(used_by) = if wanted x && fits c.(used_by) x then spend c.(used_by) x else c.(used_by).
Proof.
  unfold ContextPolicy.admit_item, wanted. destruct (skipped x); cbn [negb andb]; [by rewrite app_nil_r|].
  destruct (SourceEnabled _ _); cbn [negb andb]; [|by rewrite app_nil_r].
  destruct (fits _ _); cbn [negb]; [done|by rewrite app_nil_r].
Qed.
Lemma fold_admit items c : (fold_left admit_item items c).(admitted) = c.(admitted) ++ kept c.(used_by) items ∧
  (fold_left admit_item items c).(used_by) = spent c.(used_by) items.
Proof.
  revert c. induction items as [|x items IH]; intros c; cbn [fold_left kept spent]; [by rewrite app_nil_r|].
  destruct (IH (admit_item c x)) as [-> ->]. destruct (admit_step c x) as [-> ->].
  destruct (wanted x && _); by rewrite <- app_assoc.
Qed.
Lemma kept_snoc used items x : kept used (items ++ [x]) =
  kept used items ++ (if wanted x && fits (spent used items) x then [x] else []).
Proof.
  revert used. induction items as [|y items IH]; intros used; cbn; [by destruct (_ && _)|].
  destruct (wanted y && _); cbn; by rewrite IH.
Qed.
Lemma spent_snoc used items x : spent used (items ++ [x]) =
  if wanted x && fits (spent used items) x then spend (spent used items) x else spent used items.
Proof. revert used. induction items as [|y items IH]; intros used; cbn; [by destruct (_ && _)|]. destruct (wanted y && _); cbn; by rewrite IH. Qed.
Lemma kept_idemp used items : kept used (kept used items) = kept used items.
Proof.
  revert used. induction items as [|x items IH]; intros used; cbn; [done|].
  destruct (wanted x && fits used x) eqn:E; [|apply IH]. cbn. by rewrite E, IH.
Qed.

(** What of a source is admitted, in tokens. *)
Definition taken (s : string) (items : list A) : Z := total (λ x, cost x) (List.filter (λ x, source x == s) items).
Lemma taken_app s l k : taken s (l ++ k) = (taken s l + taken s k)%Z.
Proof. unfold taken. by rewrite List.filter_app, total_app. Qed.
Definition budgeted (s : string) (b : Z) : Prop := SourceBudget strategy s = Some b ∧ (0 < b)%Z.
Lemma spent_taken items s b : budgeted s b → default 0%Z (spent ∅ items !! s) = taken s (kept ∅ items).
Proof.
  intros [Hb Hpos]. induction items as [|x items IH] using rev_ind; [done|].
  rewrite spent_snoc, kept_snoc, taken_app, <- IH. destruct (wanted x && _); [|cbn; lia].
  unfold ContextPolicy.spend, taken. cbn [List.filter]. destruct (String.eqb_spec (source x) s) as [Es|Hne]; cbn [total].
  - rewrite Es, Hb. destruct (Z.leb_spec b 0); [lia|]. rewrite lookup_insert_eq. cbn. lia.
  - destruct (SourceBudget strategy (source x)); [|lia]. destruct (_ <=? _)%Z; [lia|]. rewrite lookup_insert_ne by done. lia.
Qed.
Lemma fits_taken items x : fits (spent ∅ items) x = true ↔ ∀ b, budgeted (source x) b → (taken (source x) (kept ∅ items) + cost x ≤ b)%Z.
Proof.
  unfold ContextPolicy.fits. split.
  - intros Hf b Hb. rewrite <- (spent_taken _ _ _ Hb). destruct Hb as [Eb Hpos]. rewrite Eb in Hf.
    destruct (Z.leb_spec b 0); [lia|]. cbn in Hf. by apply Z.leb_le.
  - intros Hall. destruct (SourceBudget strategy (source x)) as [b|] eqn:Eb; [|done]. destruct (Z.leb_spec b 0); [done|].
    cbn. apply Z.leb_le. assert (budgeted (source x) b) as Hl by done. rewrite (spent_taken _ _ _ Hl). by apply Hall.
Qed.

Definition admission (items : list A) : list A := (admit_all strategy skipped source report text items).1.
Lemma admission_kept items : admission items = kept ∅ items.
Proof. unfold admission, admit_all. cbn. by destruct (fold_admit items (mkCounting [] ∅ [])) as [-> _]. Qed.
Lemma admission_idemp items : admission (admission items) = admission items.
Proof. rewrite !admission_kept. apply kept_idemp. Qed.
(** An item is admitted when it is wanted and its source has the tokens left. *)
Lemma admission_snoc items x :
  (wanted x = true ∧ (∀ b, budgeted (source x) b → (taken (source x) (admission items) + cost x ≤ b)%Z) ∧
   admission (items ++ [x]) = admission items ++ [x]) ∨
  ((wanted x = false ∨ ∃ b, budgeted (source x) b ∧ (b < taken (source x) (admission items) + cost x)%Z) ∧
   admission (items ++ [x]) = admission items).
Proof.
  rewrite !admission_kept, kept_snoc. destruct (wanted x) eqn:Ew; cbn [andb]; [|right; by rewrite app_nil_r; auto].
  destruct (fits _ _) eqn:Ef; [left|right].
  - split; [done|]. split; [by apply fits_taken|done].
  - split; [|by rewrite app_nil_r]. right. unfold ContextPolicy.fits in Ef. destruct (SourceBudget strategy (source x)) as [b|] eqn:Eb; [|done].
    apply orb_false_iff in Ef as [?%Z.leb_gt Ef%Z.leb_gt]. assert (budgeted (source x) b) as Hl by done.
    exists b. split; [done|]. by rewrite <- (spent_taken _ _ _ Hl).
Qed.
Lemma admission_wanted items x : x ∈ admission items → x ∈ items ∧ wanted x = true.
Proof.
  induction items as [|y items IH] using rev_ind; [by intros ?%elem_of_nil|]. intros Hx.
  destruct (admission_snoc items y) as [(Hw & _ & E)|(_ & E)]; rewrite E in Hx; [apply elem_of_app in Hx as [Hx|Hx%list_elem_of_singleton]|];
    rewrite elem_of_app, list_elem_of_singleton; [by destruct (IH Hx); auto|by subst; auto|by destruct (IH Hx); auto].
Qed.
Lemma admission_budget items s b : budgeted s b → (taken s (admission items) ≤ b)%Z.
Proof.
  intros Hl. induction items as [|x items IH] using rev_ind; [destruct Hl; cbn; lia|].
  destruct (admission_snoc items x) as [(_ & Hf & E)|(_ & E)]; rewrite E; [|done].
  rewrite taken_app. unfold taken at 2. cbn [List.filter]. destruct (String.eqb_spec (source x) s) as [<-|]; cbn [total]; [|lia].
  specialize (Hf b Hl). lia.
Qed.

(** An item may join those that were taken before it when its source is enabled and, if the source has a budget, the budget
    also pays for the item. *)
Definition may_join (before : list A) (x : A) : Prop := enabled strategy (source x) ∧
  ∀ b, strategy.(CtxS_SourceBudgets) !! source x = Some b → (0 < b)%Z →
    (total (λ y, words (text y)) (filter (λ y, source y = source x) before) + words (text x) ≤ b)%Z.
(** Of the items those are taken, in their order, that may join what was taken before them. *)
Inductive joins : list A → list A → list A → Prop :=
  | joins_nil before : joins before [] []
  | joins_taken before x items taken : may_join before x → joins (before ++ [x]) items taken → joins before (x :: items) (x :: taken)
  | joins_left before x items taken : ¬ may_join before x → joins before items taken → joins before (x :: items) taken.

Definition counts_taken (used : gmap string Z) (before : list A) : Prop := ∀ s b, budgeted s b → default 0%Z (used !! s) = taken s before.
Lemma taken_filter s l : taken s l = total (λ y, words (text y)) (filter (λ y, source y = s) l).
Proof.
  unfold taken. induction l as [|y l IH]; [done|]. cbn [List.filter]. rewrite filter_cons.
  destruct (String.eqb_spec (source y) s), (decide (source y = s)); try done. cbn [total]. by rewrite IH.
Qed.
Lemma fits_may used before x : counts_taken used before → SourceEnabled strategy (source x) && fits used x = true ↔ may_join before x.
Proof.
  intros Hu. unfold may_join, ContextPolicy.fits. rewrite andb_true_iff, SourceEnabled_iff, <- taken_filter.
  change (SourceBudget strategy (source x)) with (strategy.(CtxS_SourceBudgets) !! source x). apply and_iff_compat_l.
  destruct (CtxS_SourceBudgets strategy !! source x) as [b|] eqn:Eb; [|split; [by intros _ ?|done]].
  destruct (Z.leb_spec b 0); [split; [intros _ ? [= <-]; lia|done]|]. cbn [orb]. rewrite Z.leb_le, (Hu _ b) by done. split.
  - by intros Hle ? [= <-] _.
  - intros Hall. by apply Hall.
Qed.
Lemma spend_counts used before x : counts_taken used before → counts_taken (spend used x) (before ++ [x]).
Proof.
  intros Hu s b Hb. rewrite taken_app, <- (Hu s b Hb). unfold ContextPolicy.spend, taken. cbn [List.filter]. destruct Hb as [Hb Hpos].
  destruct (String.eqb_spec (source x) s) as [Es|Hne]; cbn [total].
  - rewrite Es, Hb. destruct (Z.leb_spec b 0); [lia|]. rewrite lookup_insert_eq. cbn. lia.
  - destruct (SourceBudget strategy (source x)); [|lia]. destruct (_ <=? _)%Z; [lia|]. rewrite lookup_insert_ne by done. lia.
Qed.
Lemma admission_joins items : (∀ x, skipped x = false) → joins [] items (admission items).
Proof.
  intros Hsk. rewrite admission_kept. assert (counts_taken ∅ []) as Hu by by intros s b _.
  revert Hu. generalize (∅ : gmap string Z) (@nil A). induction items as [|x items IH]; intros used before Hu; cbn [kept]; [constructor|].
  unfold wanted. rewrite Hsk. cbn [negb andb]. pose proof (fits_may used before x Hu) as Hf. destruct (_ && _).
  - apply joins_taken; [by apply Hf|]. by apply IH, spend_counts.
  - apply joins_left; [by intros ?%Hf|by apply IH].
Qed.

(** *** The counts *)

Definition sum (f : ContextSourceReport → Z) (states : list (string * ContextSourceReport)) : Z := total (λ kr, f kr.2) states.
Definition one_each (states : list (string * ContextSourceReport)) : Prop := NoDup (map fst states).
Lemma update_cons f x k r states : update_state report x f ((k, r) :: states) =
  (if k == report_key (report x) then (k, f r) else (k, r)) :: update_state report x f states.
Proof. done. Qed.
Lemma update_other f x states : report_key (report x) ∉ map fst states → update_state report x f states = states.
Proof.
  induction states as [|[k r] states IH]; [done|]. cbn [map fst]. rewrite not_elem_of_cons. intros [Hk Hs].
  rewrite update_cons, (proj2 (String.eqb_neq _ _)), IH by done. done.
Qed.
Lemma update_keys f x states : map fst (update_state report x f states) = map fst states.
Proof. unfold update_state. rewrite map_map. apply map_ext. intros [k r]. cbn. by destruct (_ == _). Qed.
Lemma update_sum f (d : Z) (u : ContextSourceReport → ContextSourceReport) x states : (∀ r, f (u r) = f r + d)%Z →
  one_each states → report_key (report x) ∈ map fst states → sum f (update_state report x u states) = (sum f states + d)%Z.
Proof.
  intros Hu. unfold one_each. induction states as [|[k r] states IH]; [by intros _ ?%elem_of_nil|]. cbn [map fst].
  intros [Hk Hn]%NoDup_cons Hin. rewrite update_cons. unfold sum in *. destruct (String.eqb_spec k (report_key (report x))) as [->|Hne].
  - rewrite (update_other u x states Hk). cbn. rewrite Hu. lia.
  - apply elem_of_cons in Hin as [?|Hin]; [congruence|]. cbn. rewrite (IH Hn Hin). lia.
Qed.
Lemma state_for_has x states : report_key (report x) ∈ map fst (state_for report x states).
Proof.
  unfold state_for. destruct (existsb _ _) eqn:E; [|rewrite map_app, elem_of_app; right; by left].
  apply existsb_exists in E as ([k r] & Hin & E%String.eqb_eq). apply list_elem_of_fmap. exists (k, r).
  split; [done|by apply list_elem_of_In].
Qed.
Lemma state_for_one x states : one_each states → one_each (state_for report x states).
Proof.
  intros Hn. unfold state_for. destruct (existsb _ _) eqn:E; [done|]. unfold one_each. rewrite map_app. apply NoDup_app.
  split; [done|]. split; [|by apply NoDup_singleton]. intros k Hk Hk'%list_elem_of_singleton. cbn [fst] in Hk'. subst k.
  assert (existsb (λ kr, kr.1 == report_key (report x)) states = true) as Ht; [|by rewrite E in Ht].
  apply existsb_exists. apply list_elem_of_fmap in Hk as ([k r] & -> & Hin). exists (k, r). split; [by apply list_elem_of_In|apply String.eqb_refl].
Qed.
Lemma state_for_sum (f : ContextSourceReport → Z) x states : f (report x) = 0%Z → sum f (state_for report x states) = sum f states.
Proof. intros Hf. unfold state_for. destruct (existsb _ _); [done|]. unfold sum. rewrite total_app. cbn. lia. Qed.
Context (Hnone : ∀ x, (report x).(SrcRep_CandidateCount) = 0%Z ∧ (report x).(SrcRep_SelectedCount) = 0%Z).
Definition tallied (c : @Counting A) (seen : Z) : Prop := one_each c.(counted) ∧
  sum SrcRep_CandidateCount c.(counted) = seen ∧ sum SrcRep_SelectedCount c.(counted) = len (@ContextPolicy.admitted A c).
Lemma admit_tallied c x seen : tallied c seen → tallied (admit_item c x) (seen + (if skipped x then 0 else 1)).
Proof.
  intros (H1 & Hc & Hs). unfold ContextPolicy.admit_item. destruct (skipped x); [by rewrite Z.add_0_r|].
  set (st := state_for report x (counted c)). set (st' := update_state report x counted_more st).
  assert (one_each st) as Ho by by apply state_for_one.
  assert (report_key (report x) ∈ map fst st) as Hin by apply state_for_has.
  assert (one_each st') as Ho' by (unfold one_each, st'; by rewrite update_keys).
  assert (report_key (report x) ∈ map fst st') as Hin' by (unfold st'; by rewrite update_keys).
  destruct (Hnone x) as [Hx1 Hx2].
  assert (sum SrcRep_CandidateCount st' = seen + 1)%Z as Ec
    by (unfold st'; rewrite (update_sum _ 1) by done; unfold st; rewrite state_for_sum by done; lia).
  assert (sum SrcRep_SelectedCount st' = len c.(admitted))%Z as Es
    by (unfold st'; rewrite (update_sum _ 0) by (done || (intros []; cbn; lia)); unfold st; rewrite state_for_sum by done; lia).
  destruct (negb (SourceEnabled _ _)); [|destruct (negb (fits _ _))]; (split; [unfold one_each; cbn; by rewrite update_keys|]);
    cbn [counted ContextPolicy.admitted]; split.
  1,3: rewrite (update_sum _ 0) by (done || (intros []; cbn; lia)); lia.
  1,2: rewrite (update_sum _ 0) by (done || (intros []; cbn; lia)); lia.
  - rewrite (update_sum _ 0) by (done || (intros []; cbn; lia)); lia.
  - rewrite (update_sum _ 1) by done. unfold len in *. rewrite length_app. cbn. lia.
Qed.
Lemma admission_counts items : let reports := (admit_all strategy skipped source report text items).2 in
  total SrcRep_CandidateCount reports = len (List.filter (λ x, negb (skipped x)) items) ∧
  total SrcRep_SelectedCount reports = len (admission items) ∧
  Forall (λ r, r.(SrcRep_DroppedCount) = r.(SrcRep_CandidateCount) - r.(SrcRep_SelectedCount))%Z reports.
Proof.
  set (c := fold_left admit_item items (mkCounting [] ∅ [])).
  assert (tallied c (len (List.filter (λ x, negb (skipped x)) items))) as (_ & Hc & Hs).
  { unfold c. induction items as [|x items IH] using rev_ind; [repeat split; constructor|].
    rewrite fold_left_app. cbn [fold_left]. apply (admit_tallied _ x) in IH. rewrite List.filter_app. cbn [List.filter].
    unfold len in *. rewrite length_app. destruct (skipped x); cbn [negb length] in *; by rewrite Nat2Z.inj_add. }
  unfold admission, admit_all. fold c. cbn [fst snd].
  assert (∀ f, (∀ r, f (report_dropped r) = f r) → total f (map (λ kr, report_dropped kr.2) c.(counted)) = sum f c.(counted)) as Hf.
  { intros f E. unfold sum. clear Hc Hs. induction (counted c) as [|[k r] l IH]; cbn [map total snd]; [done|]. by rewrite E, IH. }
  rewrite !Hf by done. split_and!; [done|done|]. apply Forall_map, Forall_true. done.
Qed.
End admitted.

(** ** The view under its policy *)

Definition conversation_size (c : ConversationContext) : Z := (len c.(ConvCtx_RecentMessages) + len c.(ConvCtx_Retrieved))%Z.
Definition view_size (view : WorkView) : Z :=
  (match view.(View_ConversationContext) with Some c => conversation_size c | None => 0 end +
   len view.(View_TaskHistory) + len view.(View_MemorySummaries) + len view.(View_ToolResultSummaries) + len view.(View_ArtifactRefs))%Z.
Notation message_cost := (λ m : ConversationMessage, ApproximateTokens m.(CMsg_Text)).
Notation retrieved_cost := (λ r : RetrievedContext, ApproximateTokens (r.(Retr_Summary) +:+ " " +:+ r.(Retr_Snippet))).
Notation memory_cost := (λ m : MemorySummary, ApproximateTokens m.(MemSum_Summary)).
Notation result_cost := (λ r : ToolResultSummary, ApproximateTokens r.(RSum_Summary)).

Lemma disabled_source_reason strategy source : disabled_source strategy source ≠ Some "".
Proof. unfold disabled_source. by destruct (SourceEnabled _ _). Qed.
Lemma disabled_memory_reason strategy memory : disabled_memory strategy memory ≠ Some "".
Proof. unfold disabled_memory. destruct (MemoryStrategyEnabled _); [apply disabled_source_reason|done]. Qed.
Lemma NonEmpty_totals (f : ContextSourceReport → Z) reports :
  (∀ r, r.(SrcRep_CandidateCount) = 0%Z → r.(SrcRep_SelectedCount) = 0%Z → f r = 0%Z) →
  total f (NonEmptyContextSourceReports reports) = total f reports.
Proof.
  intros Hf. unfold NonEmptyContextSourceReports. induction reports as [|r reports IH]; cbn; [done|].
  destruct (Z.eqb_spec r.(SrcRep_CandidateCount) 0) as [Hc|], (Z.eqb_spec r.(SrcRep_SelectedCount) 0) as [Hs|]; cbn; try by rewrite IH.
  destruct (_ =? _)%Z; cbn; rewrite IH; [by rewrite (Hf r Hc Hs)|done].
Qed.

Definition artifact_admission (strategy : ContextStrategy) : list ArtifactRef → list ArtifactRef :=
  admission strategy (λ _, false) artifactRefContextSource (artifactRefSourceReport strategy) artifact_text.
Lemma artifact_policy_spec strategy refs :
  (artifact_policy strategy refs).1 = artifact_admission strategy refs ∧
  total SrcRep_CandidateCount (artifact_policy strategy refs).2 = len refs ∧
  total SrcRep_SelectedCount (artifact_policy strategy refs).2 = len (artifact_admission strategy refs).
Proof.
  unfold artifact_policy, ApplyArtifactRefSourcePolicy, artifact_admission.
  pose proof (admission_counts strategy (λ _, false) artifactRefContextSource (artifactRefSourceReport strategy) artifact_text) as H.
  assert (∀ l : list ArtifactRef, List.filter (λ x, negb false) l = l) as Hall
    by (induction l as [|x l IH]; [done|]; cbn; f_equal; exact IH).
  destruct (nonempty refs) eqn:En; [|by destruct refs]. specialize (λ p, H p refs). rewrite Hall in H.
  destruct H as (Hc & Hs & _); [intros x; unfold artifactRefSourceReport; by destruct (IsExternalContextSource _)|].
  unfold admission in *. by destruct (admit_all _ _ _ _ _ _) as [sel reps].
Qed.

Definition conversation_within (strategy : ContextStrategy) (c c' : ConversationContext) : Prop :=
  cut_to message_cost (disabled_source strategy SourceConversationRecent) (SourceBudget strategy SourceConversationRecent)
    c.(ConvCtx_RecentMessages) c'.(ConvCtx_RecentMessages) ∧
  cut_to retrieved_cost (disabled_source strategy SourceConversationRetrieval) (SourceBudget strategy SourceConversationRetrieval)
    c.(ConvCtx_Retrieved) c'.(ConvCtx_Retrieved) ∧
  c' = c <| ConvCtx_RecentMessages := c'.(ConvCtx_RecentMessages) |> <| ConvCtx_Retrieved := c'.(ConvCtx_Retrieved) |>.
Lemma conversation_policy_spec strategy c : let '(c', rs) := conversation_policy strategy c in
  conversation_within strategy c c' ∧ total SrcRep_CandidateCount rs = conversation_size c ∧
  total SrcRep_SelectedCount rs = conversation_size c'.
Proof.
  unfold conversation_policy.
  pose proof (source_rule_spec message_cost strategy _ SourceConversationRecent (IntValue strategy.(CtxS_RecentMessageLimit))
    c.(ConvCtx_RecentMessages) (disabled_source_reason strategy SourceConversationRecent)) as Hm.
  pose proof (source_rule_spec retrieved_cost strategy _ SourceConversationRetrieval (IntValue strategy.(CtxS_RetrievalMaxResults))
    c.(ConvCtx_Retrieved) (disabled_source_reason strategy SourceConversationRetrieval)) as Hr.
  fold applyRetrievedContextBudget in Hr. fold applyConversationMessageBudget in Hm.
  destruct (source_rule strategy _ SourceConversationRecent _ _ _) as [recent r1],
    (source_rule strategy _ SourceConversationRetrieval _ _ _) as [retrieved r2].
  destruct Hm as (Hm & (Hm1 & Hm2 & _) & _), Hr as (Hr & (Hr1 & Hr2 & _) & _).
  split; [by split_and!|]. unfold conversation_size. cbn. rewrite Hm1, Hm2, Hr1, Hr2. lia.
Qed.
Definition optional_conversation_size (c : option ConversationContext) : Z := match c with Some c => conversation_size c | None => 0%Z end.
Lemma optional_conversation_spec strategy (c : option ConversationContext) :
  let '(c', rs) := match c with Some c => let '(c, rs) := conversation_policy strategy c in (Some c, rs) | None => (None, []) end in
  option_Forall2 (conversation_within strategy) c c' ∧ total SrcRep_CandidateCount rs = optional_conversation_size c ∧
  total SrcRep_SelectedCount rs = optional_conversation_size c'.
Proof.
  destruct c as [c|]; [|by split_and!; [constructor|..]]. pose proof (conversation_policy_spec strategy c) as H.
  destruct (conversation_policy strategy c) as [c' rs]. destruct H as (? & ? & ?). by split_and!; [constructor|..].
Qed.

Lemma disabled_source_on strategy source : disabled_source strategy source = None ↔ enabled strategy source.
Proof. rewrite <- SourceEnabled_iff. unfold disabled_source. by destruct (SourceEnabled _ _). Qed.
Lemma disabled_memory_on strategy memory :
  disabled_memory strategy memory = None ↔ memory.(MemS_ReadEnabled) ≠ Some false ∧ enabled strategy SourceMemorySummary.
Proof. unfold disabled_memory. destruct (MemS_ReadEnabled memory) as [[]|]; cbn; rewrite ?disabled_source_on; naive_solver. Qed.

(** The source that an artifact counts for, and the words that it takes. *)
Definition source_of_ref (ref : ArtifactRef) : string :=
  if decide (ref.(ArtifactRef_Type) ∈ ["runtime_hook_context"; "agent_plugin_context"]) then ref.(ArtifactRef_Type) else "artifact_refs".
Definition text_of_ref (ref : ArtifactRef) : string :=
  ref.(ArtifactRef_ArtifactID) +:+ " " +:+ ref.(ArtifactRef_Type) +:+ " " +:+ ref.(ArtifactRef_URI) +:+ " " +:+ ref.(ArtifactRef_Summary).
Lemma source_of_ref_eq ref : artifactRefContextSource ref = source_of_ref ref.
Proof.
  unfold artifactRefContextSource, IsExternalContextSource, source_of_ref, SourceRuntimeHookContext, SourceAgentPluginContext.
  destruct (String.eqb_spec (ArtifactRef_Type ref) "runtime_hook_context"), (String.eqb_spec (ArtifactRef_Type ref) "agent_plugin_context");
    cbn [orb]; destruct (decide _) as [Hin|Hin]; rewrite !elem_of_cons, elem_of_nil in Hin; try done; naive_solver.
Qed.
Lemma joins_ext {A} strategy (source source' : A → string) (text : A → string) before items taken : (∀ x, source x = source' x) →
  joins strategy source text before items taken → joins strategy source' text before items taken.
Proof.
  intros Hs. assert (∀ before x, may_join strategy source text before x ↔ may_join strategy source' text before x) as Hm.
  { intros b x. unfold may_join. rewrite <- (Hs x). rewrite (list_filter_iff (λ y, source' y = source x) (λ y, source y = source x)); [done|].
    intros y. by rewrite (Hs y). }
  induction 1; [constructor|apply joins_taken|apply joins_left]; (done || by rewrite <- Hm).
Qed.

(** What is left of the lists of a conversation. *)
Definition conversation_left (strategy : ContextStrategy) (c c' : ConversationContext) : Prop :=
  longest (λ m, words m.(CMsg_Text)) (enabled strategy SourceConversationRecent) (strategy.(CtxS_SourceBudgets) !! SourceConversationRecent)
    c.(ConvCtx_RecentMessages) c'.(ConvCtx_RecentMessages) ∧
  longest (λ r, words (r.(Retr_Summary) +:+ " " +:+ r.(Retr_Snippet))) (enabled strategy SourceConversationRetrieval)
    (strategy.(CtxS_SourceBudgets) !! SourceConversationRetrieval) c.(ConvCtx_Retrieved) c'.(ConvCtx_Retrieved) ∧
  c' = c <| ConvCtx_RecentMessages := c'.(ConvCtx_RecentMessages) |> <| ConvCtx_Retrieved := c'.(ConvCtx_Retrieved) |>.
Lemma conversation_within_left strategy c c' : conversation_within strategy c c' → conversation_left strategy c c'.
Proof. intros (H1 & H2 & H3). split_and!; [..|done]; (eapply cut_longest; [apply disabled_source_on|done]). Qed.

(** C29. A view under its policy shows of the messages, what was retrieved, the history, the memories and the results of tools
    nothing if the source is switched off, and otherwise the longest beginning of the list that the budget of the source pays
    for.  Of the artifacts it shows, in their order, each one whose source is enabled and that the budget of its source still
    pays for after the artifacts of that source that are shown before it; one that does not fit is skipped, and later ones may
    follow.  Nothing else of the view changes, and the reports account for every item that there was and that is left. *)
Theorem view_within_policy view strategy memory : let '(view', reports) := ApplyContextSourcePolicy view strategy memory in
  let budget source := strategy.(CtxS_SourceBudgets) !! source in
  option_Forall2 (conversation_left strategy) view.(View_ConversationContext) view'.(View_ConversationContext) ∧
  longest (λ r, words (r.(Retr_Summary) +:+ " " +:+ r.(Retr_Snippet))) (enabled strategy SourceTaskHistory) (budget SourceTaskHistory)
    view.(View_TaskHistory) view'.(View_TaskHistory) ∧
  longest (λ m, words m.(MemSum_Summary)) (memory.(MemS_ReadEnabled) ≠ Some false ∧ enabled strategy SourceMemorySummary)
    (budget SourceMemorySummary) view.(View_MemorySummaries) view'.(View_MemorySummaries) ∧
  longest (λ r, words r.(RSum_Summary)) (enabled strategy SourceToolResults) (budget SourceToolResults)
    view.(View_ToolResultSummaries) view'.(View_ToolResultSummaries) ∧
  joins strategy source_of_ref text_of_ref [] view.(View_ArtifactRefs) view'.(View_ArtifactRefs) ∧
  view' = view <| View_ConversationContext := view'.(View_ConversationContext) |> <| View_TaskHistory := view'.(View_TaskHistory) |>
    <| View_MemorySummaries := view'.(View_MemorySummaries) |> <| View_ToolResultSummaries := view'.(View_ToolResultSummaries) |>
    <| View_ArtifactRefs := view'.(View_ArtifactRefs) |> ∧
  total SrcRep_CandidateCount reports = view_size view ∧ total SrcRep_SelectedCount reports = view_size view'.
Proof.
  unfold ApplyContextSourcePolicy, view_size. pose proof (optional_conversation_spec strategy view.(View_ConversationContext)) as Hc.
  pose proof (source_rule_spec retrieved_cost strategy _ SourceTaskHistory (IntValue strategy.(CtxS_TaskHistoryMaxItems))
    view.(View_TaskHistory) (disabled_source_reason strategy SourceTaskHistory)) as Hh.
  pose proof (source_rule_spec memory_cost strategy _ SourceMemorySummary (MemoryReadLimit strategy memory)
    view.(View_MemorySummaries) (disabled_memory_reason strategy memory)) as Hm.
  pose proof (source_rule_spec result_cost strategy _ SourceToolResults (IntValue strategy.(CtxS_ToolResultMaxItems))
    view.(View_ToolResultSummaries) (disabled_source_reason strategy SourceToolResults)) as Hr.
  fold applyRetrievedContextBudget in Hh. fold applyMemorySummaryBudget in Hm. fold applyToolResultBudget in Hr.
  destruct (match view.(View_ConversationContext) with Some _ => _ | None => _ end) as [conversation rs].
  destruct (source_rule strategy _ SourceTaskHistory _ _ _) as [history r1], (source_rule strategy _ SourceMemorySummary _ _ _) as [memories r2],
    (source_rule strategy _ SourceToolResults _ _ _) as [results r3].
  destruct Hc as (Hc & Hc1 & Hc2), Hh as (Hh & (Hh1 & Hh2 & _) & _), Hm as (Hm & (Hm1 & Hm2 & _) & _), Hr as (Hr & (Hr1 & Hr2 & _) & _).
  destruct (artifact_policy_spec strategy view.(View_ArtifactRefs)) as (Ea & Ha1 & Ha2).
  destruct (artifact_policy strategy _) as [refs rs']. cbn [fst snd] in Ea, Ha1, Ha2. subst refs.
  rewrite !NonEmpty_totals, !total_app by done. fold (optional_conversation_size view.(View_ConversationContext)).
  split; [destruct Hc; constructor; by apply conversation_within_left|].
  split; [eapply cut_longest; [apply disabled_source_on|done]|]. split; [eapply cut_longest; [apply disabled_memory_on|done]|].
  split; [eapply cut_longest; [apply disabled_source_on|done]|].
  split; [apply (joins_ext _ artifactRefContextSource); [apply source_of_ref_eq|by apply admission_joins]|].
  split; [done|]. fold (optional_conversation_size conversation). cbn [total].
  rewrite Hc1, Hc2, Ha1, Ha2, Hh1, Hh2, Hm1, Hm2, Hr1, Hr2. unfold optional_conversation_size.
  split; destruct view; cbn; lia.
Qed.

(** The policy takes at once all that it takes: applied to a view that it has cut down, it leaves it as it is. *)
Theorem policy_idempotent view strategy memory :
  let view' := (ApplyContextSourcePolicy view strategy memory).1 in (ApplyContextSourcePolicy view' strategy memory).1 = view'.
Proof.
  assert (∀ v, (ApplyContextSourcePolicy v strategy memory).1 =
    v <| View_ConversationContext := option_map (λ c, (conversation_policy strategy c).1) v.(View_ConversationContext) |>
      <| View_TaskHistory := (source_rule strategy (disabled_source strategy SourceTaskHistory) SourceTaskHistory
           (IntValue strategy.(CtxS_TaskHistoryMaxItems)) applyRetrievedContextBudget v.(View_TaskHistory)).1 |>
      <| View_MemorySummaries := (source_rule strategy (disabled_memory strategy memory) SourceMemorySummary
           (MemoryReadLimit strategy memory) applyMemorySummaryBudget v.(View_MemorySummaries)).1 |>
      <| View_ToolResultSummaries := (source_rule strategy (disabled_source strategy SourceToolResults) SourceToolResults
           (IntValue strategy.(CtxS_ToolResultMaxItems)) applyToolResultBudget v.(View_ToolResultSummaries)).1 |>
      <| View_ArtifactRefs := artifact_admission strategy v.(View_ArtifactRefs) |>) as Hv.
  { intros v. unfold ApplyContextSourcePolicy. destruct (artifact_policy_spec strategy v.(View_ArtifactRefs)) as (<- & _).
    destruct (source_rule _ _ SourceTaskHistory _ _ _), (source_rule _ _ SourceMemorySummary _ _ _),
      (source_rule _ _ SourceToolResults _ _ _), (artifact_policy _ _). destruct (View_ConversationContext v) as [conv|]; [|done].
    cbn. by destruct (conversation_policy strategy conv). }
  assert (∀ c, (conversation_policy strategy (conversation_policy strategy c).1).1 = (conversation_policy strategy c).1) as Hc.
  { assert (∀ c, (conversation_policy strategy c).1 =
      c <| ConvCtx_RecentMessages := (source_rule strategy (disabled_source strategy SourceConversationRecent) SourceConversationRecent
             (IntValue strategy.(CtxS_RecentMessageLimit)) applyConversationMessageBudget c.(ConvCtx_RecentMessages)).1 |>
        <| ConvCtx_Retrieved := (source_rule strategy (disabled_source strategy SourceConversationRetrieval) SourceConversationRetrieval
             (IntValue strategy.(CtxS_RetrievalMaxResults)) applyRetrievedContextBudget c.(ConvCtx_Retrieved)).1 |>) as Hf.
    { intros c. unfold conversation_policy. by destruct (source_rule _ _ SourceConversationRecent _ _ _),
        (source_rule _ _ SourceConversationRetrieval _ _ _). }
    intros c. rewrite !Hf. destruct c. cbn -[source_rule]. unfold applyConversationMessageBudget, applyRetrievedContextBudget.
    by rewrite !source_rule_idemp. }
  cbn zeta. rewrite !Hv. destruct view as [? ? ? ? conv ? ? ? ? ? ? ? ? ? ? ? ? ? ? ?]. cbn -[source_rule artifact_admission].
  unfold applyRetrievedContextBudget, applyMemorySummaryBudget, applyToolResultBudget, artifact_admission.
  rewrite !source_rule_idemp, admission_idemp. destruct conv as [c|]; cbn; [by rewrite Hc|done].
Qed.

(** Of the blocks that hooks add, those are kept, in their order, that are not blank, whose source is enabled and has
    the tokens left for them; the reports account for every block that is not blank. *)
Theorem hook_blocks_admitted blocks block strategy :
  let taken_by s := taken ContextBlockSourceType block_text s (FilterRuntimeHookContextBlocks blocks strategy).1 in
  let fits := blank_block block = false ∧ SourceEnabled strategy (ContextBlockSourceType block) = true ∧
    ∀ b, budgeted strategy (ContextBlockSourceType block) b → (taken_by (ContextBlockSourceType block) + ApproximateTokens (block_text block) ≤ b)%Z in
  (FilterRuntimeHookContextBlocks [] strategy).1 = [] ∧
  (fits → (FilterRuntimeHookContextBlocks (blocks ++ [block]) strategy).1 = (FilterRuntimeHookContextBlocks blocks strategy).1 ++ [block]) ∧
  (¬ fits → (FilterRuntimeHookContextBlocks (blocks ++ [block]) strategy).1 = (FilterRuntimeHookContextBlocks blocks strategy).1) ∧
  (∀ s b, budgeted strategy s b → taken_by s ≤ b)%Z ∧
  total SrcRep_CandidateCount (FilterRuntimeHookContextBlocks blocks strategy).2 = len (List.filter (λ x, negb (blank_block x)) blocks) ∧
  total SrcRep_SelectedCount (FilterRuntimeHookContextBlocks blocks strategy).2 = len (FilterRuntimeHookContextBlocks blocks strategy).1.
Proof.
  intros taken_by fits. unfold taken_by, fits, FilterRuntimeHookContextBlocks.
  pose proof (admission_snoc strategy blank_block ContextBlockSourceType (ContextBlockSourceReport strategy) block_text blocks block) as Hs.
  pose proof (admission_budget strategy blank_block ContextBlockSourceType (ContextBlockSourceReport strategy) block_text blocks) as Hb.
  destruct (admission_counts strategy blank_block ContextBlockSourceType (ContextBlockSourceReport strategy) block_text
    (λ x, conj eq_refl eq_refl) blocks) as (Hc1 & Hc2 & _).
  unfold admission, wanted in *. rewrite andb_true_iff, negb_true_iff, andb_false_iff, negb_false_iff in Hs.
  split; [done|]. split; [|split; [|by split_and!]].
  - intros (H1 & H2 & H3). destruct Hs as [(_ & _ & ?)|([[?|?]|(b & Hl & Hlt)] & _)]; [done|congruence|congruence|].
    apply Z.lt_nge in Hlt. destruct (Hlt (H3 b Hl)).
  - intros Hn. destruct Hs as [((? & ?) & ? & _)|(_ & ?)]; [by destruct Hn|done].
Qed.

(** ** What hooks change in a view *)

Section patch.
Context `{Env} {S : Type}.
Definition drop_ref (view : WorkView) (ref : string) : WorkView :=
  if ref == "conversation" then view <| View_ConversationContext := None |>
  else if ref == "memory" then view <| View_MemorySummaries := [] |>
  else if ref == "artifacts" then view <| View_ArtifactRefs := [] |>
  else if ref == "tool_results" then view <| View_ToolResultSummaries := [] |>
  else if ref == "capabilities" then view <| View_CandidateCapabilities := [] |>
  else if ref == "skills" then view <| View_CandidateSkills := [] |> <| View_CandidateSkillInstructions := [] |>
  else if ref == "tools" then view <| View_CandidateTools := [] |>
  else if ref == "collaborators" then view <| View_CandidateCollaborators := [] |>
  else view.
Definition block_ref (id : string) (block : ContextBlock) : ArtifactRef :=
  zeroArtifactRef <| ArtifactRef_ArtifactID := id |> <| ArtifactRef_Type := ContextBlockSourceType block |>
    <| ArtifactRef_Summary := if block.(Block_Title) == "" then block.(Block_Content)
                              else block.(Block_Title) +:+ ": " +:+ block.(Block_Content) |>
    <| ArtifactRef_Metadata := ContextBlockArtifactMetadata block |>.
Fixpoint add_blocks (blocks : list ContextBlock) (view : WorkView) : M S WorkView :=
  match blocks with
  | [] => ret view
  | block :: blocks =>
      if blank_block block then add_blocks blocks view else
      let! id := if block.(Block_ID) == "" then idgen_New "hookctx" else ret block.(Block_ID) in
      add_blocks blocks (view <| View_ArtifactRefs := view.(View_ArtifactRefs) ++ [block_ref id block] |>)
  end.
Definition planner_constraint (hint : PlannerHint) : string := "planner hint: " +:+ hint.(Hint_Content).
Definition told_hints (hints : list PlannerHint) : list PlannerHint := List.filter (λ h, TrimSpace h.(Hint_Content) != "") hints.
Definition PatchView (view : WorkView) (patch : HookPatch) : M S WorkView :=
  let view := fold_left drop_ref patch.(Patch_DropContextRefs) view in
  let! view := add_blocks patch.(Patch_AddContextBlocks) view in
  ret (view <| View_Constraints := view.(View_Constraints) ++ map planner_constraint (told_hints patch.(Patch_PlannerHints)) |>).

Lemma drop_ref_refs view refs : ∀ ref, ref ∈ (fold_left drop_ref refs view).(View_ArtifactRefs) → ref ∈ view.(View_ArtifactRefs).
Proof.
  revert view. induction refs as [|r refs IH]; intros view ref Hin; [done|]. cbn [fold_left] in Hin. apply IH in Hin.
  unfold drop_ref in Hin. repeat (destruct (_ == _); [cbn in Hin; first [done|by apply elem_of_nil in Hin]|]). done.
Qed.
Lemma add_blocks_run blocks view w (s : S) : ∃ added w', add_blocks blocks view w s =
  (Ok (view <| View_ArtifactRefs := view.(View_ArtifactRefs) ++ added |>), w', s) ∧
  Forall (λ ref, ∃ id block, block ∈ blocks ∧ blank_block block = false ∧ ref = block_ref id block ∧
                             (block.(Block_ID) ≠ "" → id = block.(Block_ID))) added ∧
  length added = length (List.filter (λ b, negb (blank_block b)) blocks).
Proof.
  revert view w. induction blocks as [|block blocks IH]; intros view w; cbn [add_blocks List.filter].
  - exists [], w. split_and!; [|done|done]. rewrite app_nil_r. by destruct view.
  - destruct (blank_block block) eqn:Eb; cbn [negb].
    + destruct (IH view w) as (added & w' & E & Ha & Hl). exists added, w'. split_and!; [done| |done].
      eapply Forall_impl; [exact Ha|]. intros ref (id & b & ? & Hb). exists id, b. split; [by right|done].
    + assert (∃ id w1, (if Block_ID block == "" then idgen_New "hookctx" else ret (Block_ID block)) w s = (Ok id, w1, s) ∧
        (Block_ID block ≠ "" → id = Block_ID block)) as (id & w1 & E1 & Hid).
      { destruct (String.eqb_spec (Block_ID block) ""); [by do 2 eexists|by exists (Block_ID block), w]. }
      rewrite (bind_Ok _ _ _ _ _ _ _ E1).
      match goal with |- context [add_blocks blocks ?v _ _] => destruct (IH v w1) as (added & w' & E & Ha & Hl) end.
      exists (block_ref id block :: added), w'. rewrite E. cbn. rewrite <- app_assoc. split_and!; [done| |by rewrite Hl].
      constructor; [by exists id, block; split_and!; [left|..]|]. eapply Forall_impl; [exact Ha|]. intros ref (id' & b & ? & Hb).
      exists id', b. split; [by right|done].
Qed.
Lemma policy_artifacts view strategy memory :
  (ApplyContextSourcePolicy view strategy memory).1.(View_ArtifactRefs) = artifact_admission strategy view.(View_ArtifactRefs).
Proof.
  unfold ApplyContextSourcePolicy. destruct (artifact_policy_spec strategy view.(View_ArtifactRefs)) as (<- & _).
  destruct (match view.(View_ConversationContext) with Some _ => _ | None => _ end), (source_rule _ _ SourceTaskHistory _ _ _),
    (source_rule _ _ SourceMemorySummary _ _ _), (source_rule _ _ SourceToolResults _ _ _). by destruct (artifact_policy _ _).
Qed.
Lemma block_ref_source id block : artifactRefContextSource (block_ref id block) = ContextBlockSourceType block.
Proof. unfold artifactRefContextSource, block_ref, ContextBlockSourceType. cbn. by destruct (_ == _). Qed.

(** A patch of hooks and the policy after it always give a view.  What they leave of the artifacts was there before or
    is a block of a hook that is not blank, marked as a block of a hook or a plugin, and only if the strategy enables that
    source: a hook adds nothing under another source than these two. *)
Theorem hooks_within_policy view patch strategy memory w (s : S) : ∃ view' w', PatchView view patch w s = (Ok view', w', s) ∧
  ∀ ref, ref ∈ (ApplyContextSourcePolicy view' strategy memory).1.(View_ArtifactRefs) →
    ref ∈ view.(View_ArtifactRefs) ∨
    ∃ id block, block ∈ patch.(Patch_AddContextBlocks) ∧ blank_block block = false ∧ ref = block_ref id block ∧
      SourceEnabled strategy ref.(ArtifactRef_Type) = true ∧ ref.(ArtifactRef_Type) ∈ [SourceRuntimeHookContext; SourceAgentPluginContext].
Proof.
  unfold PatchView. destruct (add_blocks_run patch.(Patch_AddContextBlocks) (fold_left drop_ref patch.(Patch_DropContextRefs) view) w s)
    as (added & w' & E & Ha & _). rewrite (bind_Ok _ _ _ _ _ _ _ E). do 2 eexists. split; [reflexivity|]. intros ref.
  rewrite policy_artifacts. cbn [View_ArtifactRefs].
  intros [Hin Hw]%admission_wanted. apply elem_of_app in Hin. destruct Hin as [Hin|Hin]; [left; by eapply drop_ref_refs|right].
  rewrite Forall_forall in Ha. destruct (Ha ref Hin) as (id & block & Hb & Hnb & -> & _). exists id, block.
  apply andb_true_iff in Hw as [_ Hw]. rewrite block_ref_source in Hw. split_and!; try done. cbn. unfold ContextBlockSourceType.
  destruct (_ == _); rewrite !elem_of_cons; auto.
Qed.
End patch.

(** ** Examples *)

Section demo.
Let env : Env := test_env.
#[local] Existing Instance env.

Definition message_of (text : string) : ConversationMessage := zeroConversationMessage <| CMsg_Text := text |>.
Definition small_budget : ContextStrategy := zeroContextStrategy <| CtxS_SourceBudgets := {[SourceConversationRecent := 4%Z]} |>.
Definition chat : WorkView := zeroWorkView <| View_ConversationContext := Some (zeroConversationContext
  <| ConvCtx_RecentMessages := map message_of ["an old message here"; "the question now"] |>) |>.
(** The messages are in the order of time, so that a budget keeps the oldest ones and drops the newest. *)
Example newest_messages_dropped :
  option_map (λ c, map CMsg_Text c.(ConvCtx_RecentMessages)) (ApplyContextSourcePolicy chat small_budget zeroMemoryUseStrategy).1.(View_ConversationContext)
  = Some ["an old message here"].
Proof. by vm_compute. Qed.
End demo.
