(* ===== verification/SliceStable.v ===== *)
(** * [sort.SliceStable]

    The stable sort of Go's standard library, step by step: insertion sort of blocks of twenty, then in-place merging of
    blocks that double in size.  For an order all stable sorts agree, and [stable_sort] stands for them; this one is for
    code that sorts by a relation that is no order, where the result depends on which positions are compared.  The
    comparison is always asked about a later position first.  Nothing is lost ([SliceStable_perm]), and among values
    that the relation does order the result is sorted ([SliceStable_sorted]). *)

From stdpp Require Import base list sorting.
From Stdlib Require Import Lia.
From S2P Require Import Prelude.

Section sort.
Context {A : Type} (less : A → A → bool).
Implicit Types l : list A.

Definition less_at l (i j : nat) : bool := match l !! i, l !! j with Some a, Some b => less a b | _, _ => false end.

(** The binary search of the merge: the first position at which [p] fails. *)
Fixpoint search (fuel : nat) (p : nat → bool) (i j : nat) : nat :=
  match fuel with
  | O => i
  | S fuel => if (i <? j)%nat then let h := ((i + j) / 2)%nat in if p h then search fuel p (h + 1) j else search fuel p i h else i
  end.

(** An element moves left past those that it is less than; the sorted beginning is reversed. *)
Fixpoint insert_back (x : A) (before : list A) : list A :=
  match before with
  | [] => [x]
  | y :: before => if less x y then y :: insert_back x before else x :: y :: before
  end.
Definition insertionSort l : list A := rev (fold_left (λ before x, insert_back x before) l []).

Definition rotate (start m end_ : nat) l : list A :=
  take start l ++ take (end_ - m) (drop m l) ++ take (m - start) (drop start l) ++ drop end_ l.
(** [symMerge] of [l[:m]] and [l[m:]] *)
Fixpoint symMerge (fuel m : nat) l : list A :=
  match fuel with
  | O => l
  | S fuel =>
      let b := length l in
      if (m =? 1)%nat then
        let i := search b (λ h, less_at l h 0) 1 b in rotate 0 1 i l
      else if (b - m =? 1)%nat then
        let i := search b (λ h, negb (less_at l m h)) 0 m in rotate i m b l
      else
        let mid := (b / 2)%nat in
        let n := (mid + m)%nat in
        let '(lo, r) := if (mid <? m)%nat then ((n - b)%nat, mid) else (O, m) in
        let start := search b (λ c, negb (less_at l (n - 1 - c) c)) lo r in
        let end_ := (n - start)%nat in
        let l := if (start <? m)%nat && (m <? end_)%nat then rotate start m end_ l else l in
        (if (0 <? start)%nat && (start <? mid)%nat then symMerge fuel start (take mid l) else take mid l) ++
        (if (mid <? end_)%nat && (end_ <? b)%nat then symMerge fuel (end_ - mid) (drop mid l) else drop mid l)
  end.

(** [f] on consecutive blocks of [n] elements; the last block may be shorter. *)
Fixpoint on_blocks (fuel n : nat) (f : list A → list A) l : list A :=
  match fuel, l with
  | S fuel, _ :: _ => f (take n l) ++ on_blocks fuel n f (drop n l)
  | _, _ => l
  end.
Definition merge_block (n : nat) l : list A := if (n <? length l)%nat then symMerge (length l) n l else l.
Fixpoint merge_all (fuel n : nat) l : list A :=
  match fuel with
  | O => l
  | S fuel => if (n <? length l)%nat then merge_all fuel (2 * n) (on_blocks (length l) (2 * n) (merge_block n) l) else l
  end.
Definition SliceStable l : list A := merge_all (length l) 20 (on_blocks (length l) 20 insertionSort l).

(** ** Nothing is lost *)

Lemma insert_back_perm x before : insert_back x before ≡ₚ x :: before.
Proof. induction before as [|y before IH]; cbn; [done|]. destruct (less x y); [|done]. rewrite IH. apply Permutation_swap. Qed.
Lemma insertionSort_perm l : insertionSort l ≡ₚ l.
Proof.
  unfold insertionSort. rewrite <- Permutation_rev.
  assert (∀ acc, fold_left (λ before x, insert_back x before) l acc ≡ₚ acc ++ l) as H; [|apply (H [])].
  induction l as [|x l IH]; intros acc; cbn; [by rewrite app_nil_r|]. rewrite IH, insert_back_perm. by rewrite <- Permutation_middle.
Qed.
Lemma rotate_perm start m end_ l : (start ≤ m)%nat → (m ≤ end_)%nat → rotate start m end_ l ≡ₚ l.
Proof.
  intros H1 H2. unfold rotate. rewrite <- (take_drop start l) at 5. apply Permutation_app_head.
  rewrite <- (take_drop (m - start) (drop start l)) at 2. rewrite drop_drop. replace (start + (m - start))%nat with m by lia.
  rewrite <- (take_drop (end_ - m) (drop m l)) at 2. rewrite drop_drop. replace (m + (end_ - m))%nat with end_ by lia.
  rewrite !app_assoc. apply Permutation_app_tail, Permutation_app_comm.
Qed.
Lemma search_bounds fuel p i j : (i ≤ j)%nat → (i ≤ search fuel p i j ≤ j)%nat.
Proof.
  revert i j. induction fuel as [|fuel IH]; intros i j Hij; cbn [search]; [lia|]. destruct (Nat.ltb_spec i j) as [Hlt|]; [|lia].
  assert (i ≤ (i + j) / 2 < j)%nat as Hh.
  { pose proof (Nat.div_mod_eq (i + j) 2). pose proof (Nat.mod_upper_bound (i + j) 2). lia. }
  generalize dependent ((i + j) / 2)%nat. intros h Hh.
  destruct (p _); [assert (h + 1 ≤ j)%nat as Hj by lia|assert (i ≤ h)%nat as Hj by lia]; apply IH in Hj; lia.
Qed.
Lemma symMerge_perm fuel m l : (0 < m < length l)%nat → symMerge fuel m l ≡ₚ l.
Proof.
  revert m l. induction fuel as [|fuel IH]; intros m l Hm; [done|]. cbn [symMerge]. set (b := length l) in *.
  destruct (Nat.eqb_spec m 1) as [->|]; [apply rotate_perm; [lia|]; apply search_bounds; lia|].
  destruct (Nat.eqb_spec (b - m) 1); [apply rotate_perm; [apply search_bounds|]; lia|].
  destruct (if (b / 2 <? m)%nat then _ else _) as [lo r] eqn:Elr. set (start := search b _ lo r).
  set (l' := if (start <? m)%nat && _ then _ else l). assert (l' ≡ₚ l) as Hl'.
  { unfold l'. destruct (Nat.ltb_spec start m), (Nat.ltb_spec m (b / 2 + m - start)); cbn [andb]; try done. apply rotate_perm; lia. }
  assert (length l' = b) as Hb by by rewrite Hl'. etrans; [|exact Hl']. rewrite <- (take_drop (b / 2) l') at 5.
  assert (b / 2 < b)%nat as Hmid by (apply Nat.div_lt_upper_bound; lia).
  apply Permutation_app.
  - destruct (Nat.ltb_spec 0 start), (Nat.ltb_spec start (b / 2)); cbn [andb]; try done. apply IH. rewrite length_take. lia.
  - destruct (Nat.ltb_spec (b / 2) (b / 2 + m - start)), (Nat.ltb_spec (b / 2 + m - start) b); cbn [andb]; try done.
    apply IH. rewrite length_drop. lia.
Qed.
Lemma on_blocks_perm fuel n f l : (∀ l, f l ≡ₚ l) → on_blocks fuel n f l ≡ₚ l.
Proof.
  intros Hf. revert l. induction fuel as [|fuel IH]; intros l; [done|]. destruct l as [|x l]; [done|]. cbn [on_blocks].
  rewrite Hf, IH. by rewrite take_drop.
Qed.
Lemma merge_block_perm n l : (0 < n)%nat → merge_block n l ≡ₚ l.
Proof. intros Hn. unfold merge_block. destruct (Nat.ltb_spec n (length l)); [by apply symMerge_perm|done]. Qed.
Lemma merge_all_perm fuel n l : (0 < n)%nat → merge_all fuel n l ≡ₚ l.
Proof.
  revert n l. induction fuel as [|fuel IH]; intros n l Hn; [done|]. cbn [merge_all]. destruct (_ <? _)%nat; [|done].
  rewrite IH by lia. apply on_blocks_perm. intros k. by apply merge_block_perm.
Qed.
Lemma SliceStable_perm l : SliceStable l ≡ₚ l.
Proof. unfold SliceStable. rewrite merge_all_perm by lia. apply on_blocks_perm, insertionSort_perm. Qed.
Lemma SliceStable_elem x l : x ∈ SliceStable l ↔ x ∈ l.
Proof. by rewrite SliceStable_perm. Qed.

(** ** What comes out is sorted *)

Section sorted.
Context (P : A → Prop).
Context (Htrans : ∀ a b c, P a → P b → P c → le_of less a b → le_of less b c → le_of less a c).
Context (Hasym : ∀ a b, P a → P b → less a b = true → le_of less a b).
Notation sorted l := (StronglySorted (le_of less) l).
(** Everything of the first list may stand before everything of the second. *)
Notation before l1 l2 := (∀ a b, a ∈ l1 → b ∈ l2 → le_of less a b).

Lemma sorted_app l1 l2 : sorted (l1 ++ l2) ↔ sorted l1 ∧ sorted l2 ∧ before l1 l2.
Proof.
  rewrite StronglySorted_app. split; intros (H1 & H2 & H3); split_and!; try done; intros a b Ha Hb; by apply H3.
Qed.
Lemma sorted_lookup l i j a b : sorted l → (i < j)%nat → l !! i = Some a → l !! j = Some b → le_of less a b.
Proof.
  intros Hs Hij Ha Hb. rewrite <- (take_drop j l) in Hs. apply sorted_app in Hs as (_ & _ & Hs). apply Hs.
  - apply elem_of_take. by exists i.
  - apply (list_elem_of_lookup_2 _ 0). rewrite lookup_drop. by rewrite Nat.add_0_r.
Qed.
Lemma sorted_take_of n l : sorted l → sorted (take n l).
Proof. intros Hs. rewrite <- (take_drop n l) in Hs. by apply sorted_app in Hs as (? & _). Qed.
Lemma sorted_drop_of n l : sorted l → sorted (drop n l).
Proof. intros Hs. rewrite <- (take_drop n l) in Hs. by apply sorted_app in Hs as (_ & ? & _). Qed.

(** Where [p] holds up to some position and not from there on, the search finds the position. *)
Lemma search_found fuel p i j : (j - i ≤ fuel)%nat → (i ≤ j)%nat →
  (∀ h k, (i ≤ h)%nat → (h < k < j)%nat → p k = true → p h = true) →
  let c := search fuel p i j in (∀ h, (i ≤ h < c)%nat → p h = true) ∧ ((c < j)%nat → p c = false).
Proof.
  revert i j. induction fuel as [|fuel IH]; intros i j Hf Hij Hp; cbn [search]; [split; [lia|lia]|].
  destruct (Nat.ltb_spec i j) as [Hlt|]; [|split; lia].
  assert (i ≤ (i + j) / 2 < j)%nat as Hh.
  { pose proof (Nat.div_mod_eq (i + j) 2). pose proof (Nat.mod_upper_bound (i + j) 2). lia. }
  cbv zeta. generalize dependent ((i + j) / 2)%nat. intros m Hm. destruct (p m) eqn:Em.
  - destruct (IH (m + 1)%nat j) as [H1 H2]; [lia..|intros h k ? ?; apply Hp; lia|]. split; [|done].
    intros h Hh. destruct (decide (m < h)%nat); [apply H1; lia|]. destruct (decide (h = m)) as [->|]; [done|]. by apply (Hp h m); [lia..|].
  - destruct (IH i m) as [H1 H2]; [lia..|intros h k ? ?; apply Hp; lia|]. split; [done|].
    intros Hlt'. destruct (decide (search fuel p i m < m)%nat); [by apply H2|].
    pose proof (search_bounds fuel p i m) as Hb. replace (search fuel p i m) with m by lia. done.
Qed.

(** The four parts that a merge step exchanges. *)
Lemma rotate_parts l start m end_ : (start ≤ m)%nat → (m ≤ end_)%nat → (end_ ≤ length l)%nat →
  take (start + (end_ - m)) (rotate start m end_ l) = take start l ++ take (end_ - m) (drop m l) ∧
  drop (start + (end_ - m)) (rotate start m end_ l) = take (m - start) (drop start l) ++ drop end_ l.
Proof.
  intros H1 H2 H3. unfold rotate. rewrite app_assoc.
  assert (length (take start l ++ take (end_ - m) (drop m l)) = start + (end_ - m))%nat as Hl
    by (rewrite length_app, !length_take, length_drop; lia).
  rewrite <- Hl. by rewrite take_app_length, drop_app_length.
Qed.
Lemma rotate_none l start m end_ : (start ≤ m)%nat → (m ≤ end_)%nat → start = m ∨ end_ = m → rotate start m end_ l = l.
Proof.
  intros H1 H2 [->| ->]; unfold rotate; rewrite Nat.sub_diag; cbn [take app].
  - rewrite take_0. cbn [app]. rewrite <- (take_drop m l) at 4. f_equal. rewrite <- (take_drop (end_ - m) (drop m l)) at 2.
    rewrite drop_drop. repeat f_equal. lia.
  - rewrite take_0. cbn [app]. rewrite <- (take_drop start l) at 4. f_equal. rewrite <- (take_drop (m - start) (drop start l)) at 2.
    rewrite drop_drop. repeat f_equal. lia.
Qed.

Lemma le_of_refl a : P a → le_of less a a.
Proof. intros Ha. destruct (less a a) eqn:E; [by apply (Hasym a a Ha Ha)|done]. Qed.
Lemma Forall_at l i a : Forall P l → l !! i = Some a → P a.
Proof. intros Hl Ha. rewrite Forall_forall in Hl. apply Hl. by eapply list_elem_of_lookup_2. Qed.
Lemma half_at l m i j a b : Forall P l → sorted (take m l) → sorted (drop m l) → (i ≤ j)%nat → (j < m)%nat ∨ (m ≤ i)%nat →
  l !! i = Some a → l !! j = Some b → le_of less a b.
Proof.
  intros HP H1 H2 Hij Hm Ha Hb. destruct (decide (i = j)) as [->|].
  { assert (a = b) as -> by congruence. apply le_of_refl. by eapply Forall_at. }
  destruct Hm.
  - apply (sorted_lookup (take m l) i j); [done|lia|by rewrite lookup_take_lt by lia..].
  - apply (sorted_lookup (drop m l) (i - m) (j - m)); [done|lia|rewrite lookup_drop..].
    + by replace (m + (i - m))%nat with i by lia.
    + by replace (m + (j - m))%nat with j by lia.
Qed.
Lemma take_drop_at {B} (x : B) (l : list B) i n : x ∈ take n (drop i l) ↔ ∃ k, (i ≤ k < i + n)%nat ∧ l !! k = Some x.
Proof.
  rewrite elem_of_take. split.
  - intros (k & Hk & Hlt). rewrite lookup_drop in Hk. exists (i + k)%nat. split; [lia|done].
  - intros (k & Hk & Hx). exists (k - i)%nat. rewrite lookup_drop. replace (i + (k - i))%nat with k by lia. split; [done|lia].
Qed.
Lemma drop_at {B} (x : B) (l : list B) i : x ∈ drop i l ↔ ∃ k, (i ≤ k)%nat ∧ l !! k = Some x.
Proof.
  rewrite list_elem_of_lookup. split.
  - intros [k Hk]. rewrite lookup_drop in Hk. exists (i + k)%nat. split; [lia|done].
  - intros (k & Hk & Hx). exists (k - i)%nat. rewrite lookup_drop. by replace (i + (k - i))%nat with k by lia.
Qed.

(** The parts before and after a step of a merge: what comes first may stand before what comes second. *)
Lemma step_before l m start end_ : Forall P l → sorted (take m l) → sorted (drop m l) → (start ≤ m ≤ end_)%nat → (end_ ≤ length l)%nat →
  (∀ a b, l !! pred start = Some a → l !! end_ = Some b → (0 < start)%nat → le_of less a b) →
  (∀ a b, l !! pred end_ = Some a → l !! start = Some b → (start < m)%nat → (m < end_)%nat → le_of less a b) →
  before (take start l ++ take (end_ - m) (drop m l)) (take (m - start) (drop start l) ++ drop end_ l).
Proof.
  intros HP H1 H2 Hse He Hl Hr a b. rewrite !elem_of_app, !take_drop_at, drop_at, <- (drop_0 l) at 1. rewrite take_drop_at.
  pose proof (half_at l m) as Hh. intros [(i & Hi & Ha)|(i & Hi & Ha)] [(j & Hj & Hb)|(j & Hj & Hb)].
  - apply (Hh i j); (done || lia).
  - assert (end_ < length l)%nat by (apply lookup_lt_Some in Hb; lia).
    destruct (lookup_lt_is_Some_2 l (pred start)) as [x Hx]; [lia|]. destruct (lookup_lt_is_Some_2 l end_) as [y Hy]; [lia|].
    assert (P a ∧ P b ∧ P x ∧ P y) as (? & ? & ? & ?) by (split_and!; by eapply Forall_at).
    apply (Htrans a x b); [done..|apply (Hh i (pred start)); (done || lia)|].
    apply (Htrans x y b); [done..|apply Hl; (done || lia)|apply (Hh end_ j); (done || lia)].
  - destruct (lookup_lt_is_Some_2 l (pred end_)) as [x Hx]; [lia|]. destruct (lookup_lt_is_Some_2 l start) as [y Hy]; [lia|].
    assert (P a ∧ P b ∧ P x ∧ P y) as (? & ? & ? & ?) by (split_and!; by eapply Forall_at).
    apply (Htrans a x b); [done..|apply (Hh i (pred end_)); (done || lia)|].
    apply (Htrans x y b); [done..|apply Hr; (done || lia)|apply (Hh start j); (done || lia)].
  - apply (Hh i j); (done || lia).
Qed.

Lemma rotate_sorted l m start end_ : sorted (take m l) → sorted (drop m l) → (start ≤ m ≤ end_)%nat →
  before (take start l ++ take (end_ - m) (drop m l)) (take (m - start) (drop start l) ++ drop end_ l) →
  before (take start l) (take (end_ - m) (drop m l)) → before (take (m - start) (drop start l)) (drop end_ l) →
  sorted (rotate start m end_ l).
Proof.
  intros H1 H2 Hse Hx Ha Hb. unfold rotate. rewrite app_assoc. rewrite !sorted_app. split_and!; try done.
  - rewrite <- (Nat.min_l start m) by lia. rewrite <- take_take. by apply sorted_take_of.
  - by apply sorted_take_of.
  - rewrite take_drop_commute. replace (start + (m - start))%nat with m by lia. by apply sorted_drop_of.
  - replace end_ with (m + (end_ - m))%nat by lia. rewrite <- drop_drop. by apply sorted_drop_of.
Qed.
Lemma less_at_true l i j : less_at l i j = true → ∃ a b, l !! i = Some a ∧ l !! j = Some b ∧ less a b = true.
Proof. unfold less_at. destruct (l !! i), (l !! j); try done. by eauto. Qed.
Lemma less_at_le l i j a b : less_at l i j = false → l !! i = Some a → l !! j = Some b → le_of less b a.
Proof. unfold less_at. intros Hl Ha Hb. by rewrite Ha, Hb in Hl. Qed.

(** The two cases in which one half is a single element: it is put into its place among the others. *)
Lemma merge_first l : Forall P l → (1 < length l)%nat → sorted (drop 1 l) →
  sorted (rotate 0 1 (search (length l) (λ h, less_at l h 0) 1 (length l)) l).
Proof.
  intros HP Hl Hs. pose proof (search_bounds (length l) (λ h, less_at l h 0) 1 (length l) ltac:(lia)) as Hb.
  assert (sorted (take 1 l)) as H1 by (destruct l; cbn; [constructor|repeat constructor]).
  destruct (search_found (length l) (λ h, less_at l h 0) 1 (length l)) as [Hlt Hge]; [lia..| |].
  { intros h k Hh Hk (a & b & Ha & Hb' & Hab)%less_at_true. destruct (lookup_lt_is_Some_2 l h) as [x Hx]; [lia|].
    unfold less_at. rewrite Hx, Hb'. destruct (less x b) eqn:E; [done|].
    assert (le_of less x a) as Hxa by (apply (half_at l 1 h k); (done || lia)).
    assert (P a ∧ P b ∧ P x) as (? & ? & ?) by (split_and!; by eapply Forall_at). by rewrite (Htrans b x a) in Hab. }
  set (i := search _ _ _ _) in *. apply rotate_sorted; [done|done|lia| |by intros a b ?%elem_of_nil|].
  - apply step_before; [done..|lia|lia|lia|]. intros a b Ha Hb' _ Hi. apply Hasym; [by eapply Forall_at..|].
    specialize (Hlt (pred i) ltac:(lia)). apply less_at_true in Hlt as (x & y & ? & ? & ?). congruence.
  - intros a b. rewrite take_drop_at, drop_at. intros (k & Hk & Ha) (j & Hj & Hb'). replace k with 0%nat in Ha by lia.
    pose proof (lookup_lt_Some _ _ _ Hb'). destruct (lookup_lt_is_Some_2 l i) as [x Hx]; [lia|].
    apply (Htrans a x b); [by eapply Forall_at..|by apply (less_at_le l i 0); [apply Hge; lia| |]|].
    apply (half_at l 1 i j); (done || lia).
Qed.
Lemma merge_last l m : Forall P l → length l = S m → sorted (take m l) →
  sorted (rotate (search (length l) (λ h, negb (less_at l m h)) 0 m) m (length l) l).
Proof.
  intros HP Hl Hs. pose proof (search_bounds (length l) (λ h, negb (less_at l m h)) 0 m ltac:(lia)) as Hb.
  destruct (lookup_lt_is_Some_2 l m) as [y Hy]; [lia|]. assert (drop m l = [y]) as Ed.
  { rewrite (drop_S _ _ _ Hy). f_equal. apply drop_ge. lia. }
  assert (sorted (drop m l)) as H2 by (rewrite Ed; repeat constructor).
  destruct (search_found (length l) (λ h, negb (less_at l m h)) 0 m) as [Hlt Hge]; [lia..| |].
  { intros h k Hh Hk Hn%negb_true_iff. apply negb_true_iff. destruct (less_at l m h) eqn:E; [|done].
    apply less_at_true in E as (b & a & Hb' & Ha & Hab). destruct (lookup_lt_is_Some_2 l k) as [x Hx]; [lia|].
    pose proof (less_at_le l m k b x Hn Hb' Hx) as Hxb.
    assert (le_of less a x) as Hax by (apply (half_at l m h k); (done || lia)).
    assert (P a ∧ P b ∧ P x) as (? & ? & ?) by (split_and!; by eapply Forall_at). by rewrite (Htrans a x b) in Hab. }
  set (i := search _ _ _ _) in *. apply rotate_sorted; [done|done|lia| | |].
  - apply step_before; [done..|lia|lia| |].
    + intros a b _ Hb'%lookup_lt_Some. lia.
    + intros a b Ha Hb' Hi _. rewrite Hl in Ha. cbn [pred] in Ha. specialize (Hge ltac:(lia)). apply negb_false_iff in Hge.
      apply Hasym; [by eapply Forall_at..|]. apply less_at_true in Hge as (? & ? & ? & ? & ?). congruence.
  - intros a b. rewrite <- (drop_0 l) at 1. rewrite !take_drop_at. intros (k & Hk & Ha) (j & Hj & Hb').
    replace j with m in Hb' by lia. apply (less_at_le l m k b a); [|done..]. apply negb_true_iff. apply Hlt. lia.
  - intros a b _. rewrite drop_at. intros (j & Hj & ?%lookup_lt_Some). lia.
Qed.

(** The step of a merge in the middle: where the search stops, the parts can be exchanged. *)
Lemma middle_found l m lo r : Forall P l → sorted (take m l) → sorted (drop m l) → (0 < m < length l)%nat →
  let mid := (length l / 2)%nat in let n := (mid + m)%nat in
  (mid < m)%nat ∧ lo = (n - length l)%nat ∧ r = mid ∨ (m ≤ mid)%nat ∧ lo = 0%nat ∧ r = m →
  let start := search (length l) (λ c, negb (less_at l (n - 1 - c) c)) lo r in
  (start ≤ m ≤ n - start)%nat ∧ (n - start ≤ length l)%nat ∧ (start ≤ mid)%nat ∧
  before (take start l ++ take (n - start - m) (drop m l)) (take (m - start) (drop start l) ++ drop (n - start) l).
Proof.
  intros HP H1 H2 Hm mid n Hlr start. assert (2 * mid ≤ length l < 2 * mid + 2)%nat as Hmid.
  { subst mid. pose proof (Nat.div_mod_eq (length l) 2). pose proof (Nat.mod_upper_bound (length l) 2). lia. }
  clearbody mid. pose proof (search_bounds (length l) (λ c, negb (less_at l (n - 1 - c) c)) lo r ltac:(lia)) as Hb.
  destruct (search_found (length l) (λ c, negb (less_at l (n - 1 - c) c)) lo r) as [Hlt Hge]; [lia..| |].
  { intros h k Hh Hk Hn%negb_true_iff. apply negb_true_iff. destruct (less_at l (n - 1 - h) h) eqn:E; [|done].
    apply less_at_true in E as (a & c & Ha & Hc & Hac).
    destruct (lookup_lt_is_Some_2 l k) as [x Hx]; [lia|]. destruct (lookup_lt_is_Some_2 l (n - 1 - k)) as [y Hy]; [lia|].
    pose proof (less_at_le l (n - 1 - k) k y x Hn Hy Hx) as Hxy.
    assert (le_of less c x) as Hcx by (apply (half_at l m h k); (done || lia)).
    assert (le_of less y a) as Hya by (apply (half_at l m (n - 1 - k) (n - 1 - h)); (done || lia)).
    assert (P a ∧ P c ∧ P x ∧ P y) as (? & ? & ? & ?) by (split_and!; by eapply Forall_at).
    assert (le_of less c a) as Hca by (apply (Htrans c x a); [done..|by apply (Htrans x y a)]). by rewrite Hca in Hac. }
  fold start in Hb, Hlt, Hge. split_and!; [lia..|]. apply step_before; [done..|lia|lia| |].
  - intros a b Ha Hb' Hs. pose proof (lookup_lt_Some _ _ _ Hb'). specialize (Hlt (pred start) ltac:(lia)). apply negb_true_iff in Hlt.
    eapply less_at_le; [exact Hlt| |done]. by replace (n - 1 - pred start)%nat with (n - start)%nat by lia.
  - intros a b Ha Hb' Hs He. specialize (Hge ltac:(lia)). apply negb_false_iff in Hge. apply Hasym; [by eapply Forall_at..|].
    apply less_at_true in Hge as (x & y & Hx & Hy & Hxy). replace (n - 1 - start)%nat with (pred (n - start)) in Hx by lia. congruence.
Qed.
Lemma part_sorted fuel X Y n (b : bool) :
  (∀ m l, (length l ≤ fuel)%nat → (0 < m < length l)%nat → Forall P l → sorted (take m l) → sorted (drop m l) → sorted (symMerge fuel m l)) →
  length X = n → Forall P X → Forall P Y → (length X + length Y ≤ fuel)%nat → sorted X → sorted Y →
  (b = true → (0 < n)%nat ∧ (0 < length Y)%nat) → (b = false → X = [] ∨ Y = []) →
  sorted (if b then symMerge fuel n (X ++ Y) else X ++ Y) ∧ (if b then symMerge fuel n (X ++ Y) else X ++ Y) ≡ₚ X ++ Y.
Proof.
  intros IH <- HPX HPY Hlen HX HY Ht Hf. destruct b.
  - specialize (Ht eq_refl). assert (0 < length X < length (X ++ Y))%nat by (rewrite length_app; lia).
    split; [apply IH; [by rewrite length_app|done|by apply Forall_app|by rewrite take_app_length|by rewrite drop_app_length]|by apply symMerge_perm].
  - split; [|done]. destruct (Hf eq_refl) as [->| ->]; [done|by rewrite app_nil_r].
Qed.
Lemma symMerge_sorted fuel m l : (length l ≤ fuel)%nat → (0 < m < length l)%nat → Forall P l → sorted (take m l) → sorted (drop m l) →
  sorted (symMerge fuel m l).
Proof.
  revert m l. induction fuel as [|fuel IH]; intros m l Hf Hm HP H1 H2; [lia|]. cbn [symMerge].
  destruct (Nat.eqb_spec m 1) as [->|]; [apply merge_first; [done|lia|done]|].
  destruct (Nat.eqb_spec (length l - m) 1); [apply merge_last; [done|lia|done]|].
  destruct (if (length l / 2 <? m)%nat then _ else _) as [lo r] eqn:Elr.
  pose proof (middle_found l m lo r HP H1 H2 Hm) as Hstart. cbv zeta in Hstart.
  set (mid := (length l / 2)%nat) in *. set (start := search _ _ lo r) in *. set (end_ := (mid + m - start)%nat) in *.
  destruct Hstart as (Hse & He & Hsm & Hx).
  { destruct (Nat.ltb_spec mid m); injection Elr as <- <-; [left|right]; done. }
  assert (0 < mid < length l)%nat as Hmid.
  { subst mid. pose proof (Nat.div_mod_eq (length l) 2). pose proof (Nat.mod_upper_bound (length l) 2). lia. }
  replace (if (start <? m)%nat && (m <? end_)%nat then rotate start m end_ l else l) with (rotate start m end_ l)
    by (destruct (Nat.ltb_spec start m), (Nat.ltb_spec m end_); try done; apply rotate_none; lia).
  destruct (rotate_parts l start m end_) as [Et Ed]; [lia..|]. replace (start + (end_ - m))%nat with mid in Et, Ed by lia.
  rewrite Et, Ed. clear Et Ed.
  set (X1 := take start l) in *. set (Y1 := take (end_ - m) (drop m l)) in *.
  set (X2 := take (m - start) (drop start l)) in *. set (Y2 := drop end_ l) in *.
  assert (length X1 = start ∧ length Y1 = end_ - m ∧ length X2 = end_ - mid ∧ length Y2 = length l - end_)%nat as (L1 & L2 & L3 & L4).
  { subst X1 Y1 X2 Y2. rewrite !length_take, !length_drop. lia. }
  assert (Forall P X1 ∧ Forall P Y1 ∧ Forall P X2 ∧ Forall P Y2) as (F1 & F2 & F3 & F4).
  { split_and!; try apply Forall_take; try apply Forall_drop; done. }
  assert (sorted X1 ∧ sorted Y1 ∧ sorted X2 ∧ sorted Y2) as (S1 & S2 & S3 & S4).
  { split_and!.
    - subst X1. rewrite <- (Nat.min_l start m) by lia. rewrite <- take_take. by apply sorted_take_of.
    - by apply sorted_take_of.
    - subst X2. rewrite take_drop_commute. replace (start + (m - start))%nat with m by lia. by apply sorted_drop_of.
    - subst Y2. replace end_ with (m + (end_ - m))%nat by lia. rewrite <- drop_drop. by apply sorted_drop_of. }
  destruct (part_sorted fuel X1 Y1 start ((0 <? start)%nat && (start <? mid)%nat)) as [HS1 HP1]; [done|done|done|done|lia|done|done| | |].
  { intros [?%Nat.ltb_lt ?%Nat.ltb_lt]%andb_true_iff. lia. }
  { intros [?%Nat.ltb_ge|?%Nat.ltb_ge]%andb_false_iff; [left|right]; apply length_zero_iff_nil; lia. }
  destruct (part_sorted fuel X2 Y2 (end_ - mid)%nat ((mid <? end_)%nat && (end_ <? length l)%nat)) as [HS2 HP2]; [done|done|done|done|lia|done|done| | |].
  { intros [?%Nat.ltb_lt ?%Nat.ltb_lt]%andb_true_iff. lia. }
  { intros [?%Nat.ltb_ge|?%Nat.ltb_ge]%andb_false_iff; [left|right]; apply length_zero_iff_nil; lia. }
  apply sorted_app. split_and!; [done..|]. intros a b. rewrite HP1, HP2. apply Hx.
Qed.

Lemma insert_back_sorted x l : P x → Forall P l → StronglySorted (λ a b, le_of less b a) l → StronglySorted (λ a b, le_of less b a) (insert_back x l).
Proof.
  intros Hx HP. induction 1 as [|y l Hl IH Hy]; cbn; [repeat constructor|]. apply Forall_cons in HP as [HPy HP].
  destruct (less x y) eqn:E.
  - constructor; [by apply IH|]. rewrite insert_back_perm. constructor; [by apply Hasym|done].
  - constructor; [by constructor|]. constructor; [exact E|]. rewrite Forall_forall in *. intros z Hz. apply (Htrans z y x); auto.
Qed.
Lemma sorted_rev l : StronglySorted (λ a b, le_of less b a) l → sorted (rev l).
Proof.
  induction 1 as [|x l Hl IH Hx]; cbn; [constructor|]. apply sorted_app. split_and!; [done|repeat constructor|].
  intros a b Ha ->%list_elem_of_singleton. rewrite Forall_forall in Hx. apply Hx. by rewrite Permutation_rev.
Qed.
Lemma insertionSort_sorted l : Forall P l → sorted (insertionSort l).
Proof.
  intros HP. apply sorted_rev. assert (∀ acc, Forall P acc → StronglySorted (λ a b, le_of less b a) acc →
    StronglySorted (λ a b, le_of less b a) (fold_left (λ before x, insert_back x before) l acc)) as Hf; [|apply Hf; constructor].
  induction HP as [|x l Hx HP IH]; intros acc Hacc Hs; cbn; [done|]. apply IH; [|by apply insert_back_sorted].
  rewrite insert_back_perm. by constructor.
Qed.

(** Lists of sorted blocks of [n] elements. *)
Inductive Blocks (n : nat) : list A → Prop :=
  | Blocks_nil : Blocks n []
  | Blocks_next l : l ≠ [] → sorted (take n l) → Blocks n (drop n l) → Blocks n l.
Lemma Blocks_first n l : Blocks n l → sorted (take n l).
Proof. by destruct 1; [rewrite take_nil; constructor|]. Qed.
Lemma Blocks_rest n l : Blocks n l → Blocks n (drop n l).
Proof. destruct 1; [rewrite drop_nil; constructor|done]. Qed.
Lemma on_blocks_sorted fuel n (Q : list A → Prop) f l : (0 < n)%nat → (length l ≤ fuel)%nat → (∀ k, f k ≡ₚ k) → Forall P l → Q l →
  (∀ k, Q k → Forall P k → sorted (f (take n k)) ∧ Q (drop n k)) → Blocks n (on_blocks fuel n f l).
Proof.
  intros Hn Hf Hperm HP HQ Hstep. revert l Hf HP HQ. induction fuel as [|fuel IH]; intros l Hf HP HQ.
  { destruct l; [constructor|cbn in Hf; lia]. }
  destruct l as [|x l]; [constructor|]. cbn [on_blocks]. set (k := x :: l) in *. destruct (Hstep k HQ HP) as [Hs HQ'].
  assert (length (f (take n k)) = min n (length k)) as Hlen by by rewrite (Permutation_length (Hperm _)), length_take.
  assert (length (drop n k) ≤ fuel)%nat by (rewrite length_drop; subst k; cbn in *; lia).
  destruct (decide (n ≤ length k)%nat).
  - assert (length (f (take n k)) = n) as Hlen' by lia. constructor.
    + intros Hnil%(f_equal length). rewrite length_app in Hnil. cbn [length] in Hnil. lia.
    + by rewrite take_app_length' by done.
    + rewrite drop_app_length' by done. apply IH; [done|by apply Forall_drop|done].
  - rewrite drop_ge by lia. assert (on_blocks fuel n f [] = []) as -> by by destruct fuel. rewrite app_nil_r.
    constructor; [|by rewrite take_ge by lia|rewrite drop_ge by lia; constructor].
    intros Hnil%(f_equal length). subst k. cbn [length] in *. lia.
Qed.
Lemma merge_block_sorted n l : (0 < n)%nat → Forall P l → sorted (take n l) → sorted (drop n l) → sorted (merge_block n l).
Proof.
  intros Hn HP H1 H2. unfold merge_block. destruct (Nat.ltb_spec n (length l)).
  - apply symMerge_sorted; (done || lia).
  - by rewrite take_ge in H1 by done.
Qed.
Lemma merge_all_sorted fuel n l : (0 < n)%nat → (length l ≤ fuel + n)%nat → Forall P l → Blocks n l → sorted (merge_all fuel n l).
Proof.
  revert n l. induction fuel as [|fuel IH]; intros n l Hn Hf HP Hb; cbn [merge_all].
  { apply Blocks_first in Hb. by rewrite take_ge in Hb. }
  destruct (Nat.ltb_spec n (length l)) as [Hlt|Hge]; [|apply Blocks_first in Hb; by rewrite take_ge in Hb].
  assert (on_blocks (length l) (2 * n) (merge_block n) l ≡ₚ l) as Hp by (apply on_blocks_perm; intros k; by apply merge_block_perm).
  apply IH; [lia|rewrite (Permutation_length Hp); lia|by rewrite Hp|].
  apply (on_blocks_sorted _ _ (Blocks n)); [lia|done|intros k; by apply merge_block_perm|done|done|].
  intros k Hk HPk. split.
  - apply merge_block_sorted; [done|by apply Forall_take|..].
    + rewrite take_take. replace (min n (2 * n)) with n by lia. by apply Blocks_first.
    + rewrite skipn_firstn_comm. replace (2 * n - n)%nat with n by lia. by apply Blocks_first, Blocks_rest.
  - replace (2 * n)%nat with (n + n)%nat by lia. rewrite <- drop_drop. by apply Blocks_rest, Blocks_rest.
Qed.
(** Among values that the relation orders, the result is in order. *)
Lemma SliceStable_sorted l : Forall P l → sorted (SliceStable l).
Proof.
  intros HP. unfold SliceStable. assert (on_blocks (length l) 20 insertionSort l ≡ₚ l) as Hp by apply on_blocks_perm, insertionSort_perm.
  apply merge_all_sorted; [lia|rewrite (Permutation_length Hp); lia|by rewrite Hp|].
  apply (on_blocks_sorted _ _ (λ _, True)); [lia|done|apply insertionSort_perm|done|done|].
  intros k _ HPk. split; [|done]. by apply insertionSort_sorted, Forall_take.
Qed.
End sorted.

(** The fuel of a merge is enough: every step works on a shorter list. *)
Lemma symMerge_fuel f1 f2 m l : (length l ≤ f1)%nat → (length l ≤ f2)%nat → (0 < m < length l)%nat → symMerge f1 m l = symMerge f2 m l.
Proof.
  revert f2 m l. induction f1 as [|f1 IH]; intros f2 m l H1 H2 Hm; [lia|]. destruct f2 as [|f2]; [lia|]. cbn [symMerge].
  set (b := length l) in *. destruct (m =? 1)%nat, (b - m =? 1)%nat; try done.
  destruct (if (b / 2 <? m)%nat then _ else _) as [lo r]. set (start := search b _ lo r).
  set (l' := if (start <? m)%nat && _ then _ else l). assert (length l' = b) as Hb.
  { unfold l'. destruct (Nat.ltb_spec start m), (Nat.ltb_spec m (b / 2 + m - start)); cbn [andb]; try done.
    apply Permutation_length, rotate_perm; lia. }
  assert (0 < b / 2 < b)%nat as Hmid by (pose proof (Nat.div_mod_eq b 2); pose proof (Nat.mod_upper_bound b 2); lia).
  f_equal.
  - destruct (Nat.ltb_spec 0 start), (Nat.ltb_spec start (b / 2)); cbn [andb]; try done. apply IH; rewrite length_take; lia.
  - destruct (Nat.ltb_spec (b / 2) (b / 2 + m - start)), (Nat.ltb_spec (b / 2 + m - start) b); cbn [andb]; try done.
    apply IH; rewrite length_drop; lia.
Qed.
End sort.

(** On an order it does what [stable_sort] does; on a relation that is none it need not. *)
Example agrees_on_order : let less a b := (a mod 7 <? b mod 7)%nat in
  SliceStable less (seq 0 100) = stable_sort less (seq 0 100).
Proof. by vm_compute. Qed.
