(* ===== verification/Collector.v ===== *)
(** * What goes into the context of a run: internal/context/collector/collector.go

    [Collect] reads the events of the task, the results of its tools, its earlier runs, what is remembered and the
    artifacts, as far as the strategy of the agent enables them; [collect_isolated] says for each source what that is.  JSON and [fmt.Sprint] are parameters. *)

From stdpp Require Import base list strings gmap fin_maps sorting.
From Stdlib Require Import Lia.
From S2P Require Import Prelude Contracts GoMonad Storage Policies TaskRepo TaskRuntime RunRepo ToolStore Text HandoffPackage Strategy WorkView ContextPolicy Conversation Assets SliceStable.
Open Scope go_scope.
Open Scope string_scope.
Open Scope list_scope.

(** ** Texts of tool results *)

Definition maxToolResultSummaryLength : nat := 1500.
Definition truncateToolResultSummary (text : string) : string :=
  let text := TrimSpace text in
  if (length (runes text) <=? maxToolResultSummaryLength)%nat then text
  else of_runes (take maxToolResultSummaryLength (runes text)) +:+ "...(truncated)".
Definition suppressed_texts : list string :=
  ["capability_not_available"; "no operation required"; "no-op"; "no_op"; "tool result schema validation failed";
   "agent exported tool is not enabled"].
Definition internal_markers : list string :=
  ["trace_id"; "run_id"; "task_id"; "tool_call_id"; "stack trace"; "panic:"; "runtime error"; "worker_id"].
Definition sanitizeToolResultSummaryText (value : string) : string :=
  let text := TrimSpace value in
  if text == "" then "" else
  let lower := ToLower text in
  if existsb (λ item, (lower == item) || Contains lower item) suppressed_texts then "tool result is not user-ready"
  else if existsb (Contains lower) internal_markers then "tool result requires review"
  else text.

Section texts.
Context (json_Marshal : Any → error + string) (fmt_Sprint : Any → string).

Definition toolOutputText (value : Any) : string :=
  match value with
  | ANil => ""
  | AString s => TrimSpace s
  | ABool b => if b then "true" else "false"
  | AInt _ | AFloat _ => fmt_Sprint value
  | _ => match json_Marshal value with inl _ => TrimSpace (fmt_Sprint value) | inr raw => TrimSpace raw end
  end.
(** The entry of a map in an [any], [nil] where there is none. *)
Definition entry (m : list (string * Any)) (key : string) : Any :=
  match List.find (λ e, e.1 == key) m with Some e => e.2 | None => ANil end.
Fixpoint nestedToolOutputText (value : Any) (path : list string) : string :=
  match path with
  | [] => toolOutputText value
  | key :: path => match value with AMap m => nestedToolOutputText (entry m key) path | _ => "" end
  end.
Definition line_of (key text : string) : list string := if text == "" then [] else [key +:+ "=" +:+ text].
Definition summarizeToolAgentResult (value : Any) : string :=
  match value with
  | AMap result =>
      let plain key := line_of key (TrimSpace (toolOutputText (entry result key))) in
      let parts := concat (map plain ["status"; "provider_agent_id"; "tool_id"; "operation"]) ++
        line_of "result_summary" (TrimSpace (sanitizeToolResultSummaryText (toolOutputText (entry result "result_summary")))) ++
        plain "missing_context" ++ plain "safe_for_user" in
      if nonempty parts then truncateToolResultSummary (Join parts "; ") else ""
  | _ => ""
  end.
(** The lines that are shown of an output, each once. *)
Definition add_line (key : string) (value : Any) (parts : list string) : list string :=
  match line_of key (TrimSpace (sanitizeToolResultSummaryText (toolOutputText value))) with
  | [line] => if mem_string line parts then parts else parts ++ [line]
  | _ => parts
  end.
Definition add_present (output : gmap string Any) (key : string) (parts : list string) : list string :=
  match output !! key with Some value => add_line key value parts | None => parts end.
Definition add_final (output : gmap string Any) (parts : list string) : list string :=
  match output !! "final_decision" with
  | Some decision =>
      let text := nestedToolOutputText decision ["reply"; "text"] in
      add_line "final_decision" decision (if text == "" then parts else add_line "final_decision.reply.text" (AString text) parts)
  | None => parts
  end.
Definition output_parts (output : gmap string Any) : list string :=
  let first := fold_left (λ parts key, add_present output key parts)
    ["final"; "should_continue"; "next_action"; "reply"; "response"; "answer"; "text"; "content"; "summary"; "message"] [] in
  add_present output "decision_instruction" (add_present output "decision_json" (add_final output first)).
(** [json] shows the output as one [any]. *)
Definition output_any (output : gmap string Any) : Any := AMap (map_to_list output).
Definition summarizeToolOutput (output : gmap string Any) : string :=
  let summary := summarizeToolAgentResult (default ANil (output !! "tool_agent_result")) in
  if summary != "" then summary else
  let parts := output_parts output in
  if nonempty parts then truncateToolResultSummary (Join parts "; ")
  else match json_Marshal (output_any output) with inr raw => truncateToolResultSummary raw | inl _ => "" end.
Definition summarizeToolResult (result : ToolResult) : string :=
  match result.(Result_Error) with
  | Some err => sanitizeToolResultSummaryText err.(ExecErr_Message)
  | None =>
      if (0 <? size result.(Result_Output))%nat then string_or (summarizeToolOutput result.(Result_Output)) "tool output available"
      else if nonempty result.(Result_ArtifactRefs) then "artifact refs available" else ""
  end.
Definition eventRunID (event : TaskEvent) : string :=
  match event.(TaskEvent_Payload) !! "run_id" with
  | None | Some ANil => "" | Some (AString s) => s | Some v => fmt_Sprint v
  end.

(** [contextconversation.FirstNonEmpty] *)
Fixpoint FirstNonEmpty (values : list string) : string :=
  match values with [] => "" | v :: vs => if TrimSpace v != "" then v else FirstNonEmpty vs end.

(** ** The collector *)

Context `{Env} {T : Type} `{EventRepository T}.
Record Sources := mkSources {
  src_tasks : T;
  src_runs : RunRepo;
  src_memory : gmap string MemoryEvent;
  src_tools : ToolRepo
}.
#[export] Instance eta_Sources : Settable Sources := fields! mkSources < src_tasks ; src_runs ; src_memory ; src_tools >.
Notation SM := (M Sources).
Definition on_runs {A} (m : M RunRepo A) : SM A := zoom src_runs (λ t s, s <| src_runs := t |>) m.
Definition on_memory {A} (m : M (gmap string MemoryEvent) A) : SM A := zoom src_memory (λ t s, s <| src_memory := t |>) m.
Definition on_tools {A} (m : M ToolRepo A) : SM A := zoom src_tools (λ t s, s <| src_tools := t |>) m.
Definition on_tasks {A} (m : M T A) : SM A := zoom src_tasks (λ t s, s <| src_tasks := t |>) m.

(** Which of the stores the collector has. *)
Record CollectorDeps := mkCollectorDeps { has_runs : bool; has_tasks : bool; has_memory : bool; has_tools : bool }.
Record CollectInput := mkCollectInput {
  Coll_TenantID : string;
  Coll_TaskID : string;
  Coll_RunID : string;
  Coll_AgentID : string;
  Coll_UserID : string;
  Coll_ContextStrategy : ContextStrategy;
  Coll_MemoryStrategy : MemoryUseStrategy
}.
Record Collected := mkCollected {
  Coll_TaskEvents : list TaskEvent;
  Coll_TaskHistory : list RetrievedContext;
  Coll_Memory : list MemorySummary;
  Coll_ArtifactRefs : list ArtifactRef;
  Coll_ToolResults : list ToolResultSummary
}.
Context (c : CollectorDeps).

(** [v, err := f(...); if err != nil { return nil }] *)
Definition or_empty {A} (m : SM (list A)) : SM (list A) := let! r := attempt m in ret (match r with inl l => l | inr _ => [] end).
Definition TaskEventsForContext (taskID : string) (strategy : ContextStrategy) : SM (list TaskEvent) :=
  if negb c.(has_tasks) || (taskID == "") then ret [] else
  let '(limit, enabled) := TaskEventsReadLimit strategy in
  if negb enabled then ret [] else
  if (0 <? limit)%Z then on_tasks (EventsLimit taskID limit) else on_tasks (Events taskID).
Definition ToolSummaries (runID : string) (limit : Z) : SM (list ToolResultSummary) :=
  if negb c.(has_tools) then ret [] else
  let! results := or_empty (on_tools (ListResultsByRunLimit runID limit)) in
  ret (map (λ r, mkToolResultSummary r.(Result_ToolCallID) r.(Result_Status) (summarizeToolResult r)) results).
Definition event_context (event : TaskEvent) (input : string) : RetrievedContext :=
  zeroRetrievedContext <| Retr_SourceType := "task_event" |> <| Retr_SourceID := event.(TaskEvent_EventID) |>
    <| Retr_SpeakerID := event.(TaskEvent_ActorID) |> <| Retr_CreatedAt := event.(TaskEvent_CreatedAt) |>
    <| Retr_Summary := "previous task input" |> <| Retr_Snippet := input |> <| Retr_TrustLevel := "untrusted_user_text" |>
    <| Retr_Visibility := "task" |>.
(** The input that an event tells of, if it is one of another run. *)
Definition event_input (currentRunID : string) (event : TaskEvent) : list RetrievedContext :=
  if (event.(TaskEvent_Type) != "conversation.input") && (event.(TaskEvent_Type) != "run.resumed_input") then [] else
  if eventRunID event == currentRunID then [] else
  let input := match event.(TaskEvent_Payload) !! "input" with Some (AString s) => TrimSpace s | _ => "" end in
  if input == "" then [] else [event_context event input].
Definition run_context (run : AgentRun) : RetrievedContext :=
  let summary := Sprintf "run_id=%s status=%s" [run.(Run_RunID); run.(Run_Status)] in
  let told := TrimSpace run.(Run_Input) != "" in
  zeroRetrievedContext <| Retr_SourceType := "previous_run" |> <| Retr_SourceID := run.(Run_RunID) |>
    <| Retr_CreatedAt := run.(Run_StartedAt) |> <| Retr_Summary := if told then summary +:+ " input=" +:+ run.(Run_Input) else summary |>
    <| Retr_TrustLevel := if told then "untrusted_user_text" else "system_record" |> <| Retr_Visibility := "task" |>.
Definition result_context (call : ToolCall) (result : ToolResult) : RetrievedContext :=
  let toolName := FirstNonEmpty [call.(Call_ToolID); call.(Call_Name)] in
  zeroRetrievedContext <| Retr_SourceType := "tool_result" |> <| Retr_SourceID := result.(Result_ToolResultID) |>
    <| Retr_CreatedAt := result.(Result_CompletedAt) |>
    <| Retr_Summary := TrimSpace (Sprintf "tool=%s status=%s %s" [toolName; result.(Result_Status); summarizeToolResult result]) |>
    <| Retr_TrustLevel := "tool_result" |> <| Retr_Visibility := "task" |>.
Definition ref_context (result : ToolResult) (ref : ArtifactRef) : RetrievedContext :=
  zeroRetrievedContext <| Retr_SourceType := "artifact" |> <| Retr_SourceID := ref.(ArtifactRef_ArtifactID) |>
    <| Retr_CreatedAt := result.(Result_CompletedAt) |>
    <| Retr_Summary := Sprintf "%s %s" [ref.(ArtifactRef_Type); ref.(ArtifactRef_Summary)] |>
    <| Retr_TrustLevel := "tool_result" |> <| Retr_Visibility := "task" |>.
Fixpoint results_history (currentRunID : string) (results : list ToolResult) : SM (list RetrievedContext) :=
  match results with
  | [] => ret []
  | result :: results =>
      let! r := attempt (on_tools (GetCall result.(Result_ToolCallID))) in
      let here := match r with
        | inl (Some call) =>
            if call.(Call_RunID) == currentRunID then [] else
            result_context call result ::
            map (ref_context result) (List.filter (λ ref, ref.(ArtifactRef_ArtifactID) != "") result.(Result_ArtifactRefs))
        | _ => []
        end in
      let! rest := results_history currentRunID results in
      ret (here ++ rest)
  end.
(** The order of the history: no order at all where a time is missing. *)
Definition history_less (a b : RetrievedContext) : bool :=
  if IsZero a.(Retr_CreatedAt) || IsZero b.(Retr_CreatedAt) then false else Before a.(Retr_CreatedAt) b.(Retr_CreatedAt).
Definition TaskHistory (tenantID taskID currentRunID : string) (events : list TaskEvent) (limit : Z) : SM (list RetrievedContext) :=
  if taskID == "" then ret [] else
  let inputs := concat (map (event_input currentRunID) events) in
  let! runs := if c.(has_runs)
    then let! runs := or_empty (on_runs (RunRepo.List (mkRunListFilter tenantID "" "" "" taskID "" zeroTime zeroTime limit 0))) in
         ret (map run_context (List.filter (λ run, run.(Run_RunID) != currentRunID) runs))
    else ret [] in
  let! results := if c.(has_tools)
    then let! results := or_empty (on_tools (ListResultsByTaskLimit tenantID taskID limit)) in results_history currentRunID results
    else ret [] in
  ret (last_of limit (SliceStable history_less (inputs ++ runs ++ results))).
Definition CollectArtifactRefs (runID : string) (limit : Z) : SM (list ArtifactRef) :=
  if negb c.(has_tools) then ret [] else or_empty (on_tools (ListArtifactRefsByRunLimit runID limit)).
Definition MemorySummaries (tenantID agentID userID : string) (limit : Z) (strategy : MemoryUseStrategy) : SM (list MemorySummary) :=
  if negb c.(has_memory) || (tenantID == "") then ret [] else
  or_empty (on_memory (ListMemoryLimit tenantID agentID userID strategy.(MemS_ReadScopes) limit)).
Definition when {A} (cond : bool) (m : SM (list A)) : SM (list A) := if cond then m else ret [].
Definition Collect (input : CollectInput) : SM Collected :=
  let strategy := input.(Coll_ContextStrategy) in
  let memory := input.(Coll_MemoryStrategy) in
  let! events := TaskEventsForContext input.(Coll_TaskID) strategy in
  let! results := when (SourceEnabled strategy SourceToolResults)
    (ToolSummaries input.(Coll_RunID) (IntValue strategy.(CtxS_ToolResultMaxItems))) in
  let! history := when (SourceEnabled strategy SourceTaskHistory)
    (TaskHistory input.(Coll_TenantID) input.(Coll_TaskID) input.(Coll_RunID) events (IntValue strategy.(CtxS_TaskHistoryMaxItems))) in
  let! memories := when (SourceEnabled strategy SourceMemorySummary && MemoryStrategyEnabled memory.(MemS_ReadEnabled))
    (MemorySummaries input.(Coll_TenantID) input.(Coll_AgentID) input.(Coll_UserID) (MemoryReadLimit strategy memory) memory) in
  let! refs := when (SourceEnabled strategy SourceArtifactRefs)
    (CollectArtifactRefs input.(Coll_RunID) (IntValue strategy.(CtxS_ArtifactRefMaxItems))) in
  ret (mkCollected events history memories refs results).
End texts.

(** ** Reading *)

(** [m] gives a value with [P] and leaves the state as it is. *)
Definition reads {S A} (m : M S A) (s : S) (P : A → Prop) : Prop := ∀ w, ∃ a w', m w s = (Ok a, w', s) ∧ P a.
Section reads.
Context {S : Type}.
Implicit Types s : S.
Lemma reads_ret {A} (a : A) s (P : A → Prop) : P a → reads (ret a) s P.
Proof. intros HP w. by exists a, w. Qed.
Lemma reads_bind {A B} (m : M S A) (f : A → M S B) s (P : A → Prop) (Q : B → Prop) :
  reads m s P → (∀ a, P a → reads (f a) s Q) → reads (bind m f) s Q.
Proof.
  intros Hm Hf w. destruct (Hm w) as (a & w1 & E & Ha). destruct (Hf a Ha w1) as (b & w2 & E2 & Hb).
  exists b, w2. by rewrite (bind_Ok _ _ _ _ _ _ _ E).
Qed.
Lemma reads_weaken {A} (m : M S A) s (P Q : A → Prop) : reads m s P → (∀ a, P a → Q a) → reads m s Q.
Proof. intros Hm HPQ w. destruct (Hm w) as (a & w1 & E & Ha). exists a, w1. auto. Qed.
Lemma reads_zoom {T A} (getT : S → T) (setT : T → S → S) (m : M T A) s P :
  (∀ s, setT (getT s) s = s) → reads m (getT s) P → reads (zoom getT setT m) s P.
Proof. intros Hs Hm w. destruct (Hm w) as (a & w1 & E & Ha). exists a, w1. unfold zoom. by rewrite E, Hs. Qed.
Lemma reads_attempt {A} (m : M S A) s P : reads m s P → reads (attempt m) s (λ r, ∃ a, r = inl a ∧ P a).
Proof. intros Hm w. destruct (Hm w) as (a & w1 & E & Ha). exists (inl a), w1. unfold attempt. rewrite E. eauto. Qed.
Lemma reads_range `{Env} {V} (m : gmap string V) s : reads (range_map m) s (λ l, l ≡ₚ map_to_list m).
Proof. intros w. destruct (range_map_run m w s) as (l & w' & E & Hl). by exists l, w'. Qed.
Lemma reads_get s : reads get s (λ t, t = s).
Proof. intros w. by exists s, w. Qed.
End reads.

(** ** The newest of a list *)

(** A list [l] is cut to a limit: [older] is what is left out, nothing unless the list is full. *)
Definition cut {A} (limit : Z) (older l : list A) : Prop :=
  older = [] ∧ ((0 < limit)%Z → (len l ≤ limit)%Z) ∨ (0 < limit)%Z ∧ len l = limit.
(** The end of a list, not longer than the limit. *)
Definition end_of {A} (limit : Z) (all l : list A) : Prop := ∃ older, all = older ++ l ∧ cut limit older l.
Definition in_time {A} (t : A → Time) (a b : A) : Prop := (t a ≤ t b)%Z.
(** The newest of [all], in the order of their times. *)
Definition newest {A} (t : A → Time) (limit : Z) (all l : list A) : Prop :=
  ∃ sorted, sorted ≡ₚ all ∧ StronglySorted (in_time t) sorted ∧ end_of limit sorted l.

Lemma last_of_end {A} limit (l : list A) : end_of limit l (last_of limit l).
Proof.
  unfold last_of. destruct (Z.gtb_spec limit 0); cbn [andb]; [|exists []; split; [done|left; split; [done|lia]]].
  destruct (Z.gtb_spec (len l) limit); [|exists []; split; [done|left; split; [done|lia]]].
  eexists. split; [symmetry; apply take_drop|]. right. unfold len in *. rewrite length_drop. lia.
Qed.
Lemma cut_map {A B} (f : A → B) limit older l : cut limit older l → cut limit (map f older) (map f l).
Proof. unfold cut, len. rewrite length_map. intros [[-> Hl]|Hl]; [by left|by right]. Qed.
Lemma sorted_weaken {A} (R S : A → A → Prop) l : (∀ a b, R a b → S a b) → StronglySorted R l → StronglySorted S l.
Proof. intros HRS. induction 1; constructor; [done|]. eapply Forall_impl; eauto. Qed.
Lemma newest_sort {A} (t : A → Time) (id : A → string) less limit (l all : list A) :
  (∀ a b, less a b = if Equal (t a) (t b) then string_lt (id a) (id b) else Before (t a) (t b)) → l ≡ₚ all →
  newest t limit all (last_of limit (stable_sort less l)).
Proof.
  intros Hless Hl. exists (stable_sort less l). split; [by rewrite stable_sort_perm|]. split; [|apply last_of_end].
  apply (sorted_weaken (le_of less)); [|apply stable_sort_Sorted].
  - intros a b. unfold le_of, in_time. rewrite Hless. unfold Equal, Before. repeat case Z.eqb_spec; repeat case Z.ltb_spec; intros; (done || lia).
  - intros a b c. unfold le_of. rewrite !Hless. unfold Equal, Before. repeat case Z.eqb_spec; repeat case Z.ltb_spec; intros; try done; try lia.
    by eapply string_lt_le_trans.
  - intros a b. unfold le_of. rewrite !Hless. unfold Equal, Before. repeat case Z.eqb_spec; repeat case Z.ltb_spec; intros; try done; try lia.
    by apply string_lt_asym.
Qed.
Lemma filter_bool {A} (P : A → Prop) `{∀ x, base.Decision (P x)} (f : A → bool) (l : list A) :
  (∀ x, f x = true ↔ P x) → List.filter f l = filter P l.
Proof.
  intros Hf. induction l as [|x l IH]; [done|]. cbn [List.filter]. rewrite filter_cons, IH.
  destruct (f x) eqn:E, (decide (P x)) as [HP|HP]; rewrite <- Hf in HP; congruence.
Qed.

(** The results of the calls with [P]. *)
Definition results_of (tools : ToolRepo) (P : ToolCall → Prop) `{∀ call, base.Decision (P call)} : list ToolResult :=
  map snd (filter (λ e, P (call_at tools e.1)) (map_to_list tools.(resultsByCall))).
Lemma reads_results `{Env} (tools : ToolRepo) (q : ToolCall → bool) (P : ToolCall → Prop) `{∀ call, base.Decision (P call)} limit :
  (∀ call, q call = true ↔ P call) →
  reads (let! r := get in let! entries := range_map r.(resultsByCall) in
         let out := map snd (List.filter (λ e, q (call_at r e.1)) entries) in
         ret (last_limit (stable_sort resultLess out) limit)) tools (newest Result_CompletedAt limit (results_of tools P)).
Proof.
  intros Hq. eapply reads_bind; [apply reads_get|intros r ->]. eapply reads_bind; [apply reads_range|intros l Hl]. apply reads_ret.
  apply (newest_sort _ Result_ToolResultID); [done|]. unfold results_of. apply map_snd_perm.
  rewrite (filter_bool (λ e, P (call_at tools e.1))) by (intros e; apply Hq). by rewrite Hl.
Qed.
(** The artifacts of the results of a run: each of them where it comes last. *)
Lemma reads_artifact_refs `{Env} (tools : ToolRepo) runID limit :
  reads (ListArtifactRefsByRunLimit runID limit) tools (λ refs, ∃ results,
    newest Result_CompletedAt 0 (results_of tools (λ call, call.(Call_RunID) = runID)) results ∧
    end_of limit (keep_last (mjoin (map Result_ArtifactRefs results))) refs).
Proof.
  unfold ListArtifactRefsByRunLimit. eapply reads_bind.
  { apply (reads_results tools (λ call, call.(Call_RunID) == runID) (λ call, call.(Call_RunID) = runID)). intros call. apply String.eqb_eq. }
  intros results Hr. apply reads_ret. exists results. split; [done|]. rewrite <- keep_last_reverse. unfold reverseArtifactRefs.
  rewrite collectRefs_spec by (unfold len; cbn; lia). cbn [app]. set (l := keep_first _ _).
  destruct (Z.gtb_spec limit 0); [|exists []; split; [done|left; split; [done|lia]]].
  exists (reverse (drop (Z.to_nat limit) l)). split; [by rewrite <- reverse_app, take_drop|]. unfold cut, len. rewrite length_reverse, length_take.
  destruct (decide (length l ≤ Z.to_nat limit)%nat); [left|right; lia]. rewrite drop_ge by done. split; [done|lia].
Qed.

(** ** What a run is shown *)

Section shown.
Context `{Env} (json_Marshal : Any → error + string) (fmt_Sprint : Any → string) (c : CollectorDeps).
Notation Src := (Sources (T:=TaskRepo.InMemoryStore)).
Implicit Types s : Src.
(** The store of runs is no longer than a slice can be. *)
Context (s : Src) (Hsize : (Z.of_nat (size s.(src_runs).(runs)) < 2 ^ 62)%Z).

(** A source that is on gives lists with [Q], one that is off nothing. *)
Definition given {A} (on : bool) (Q : list A → Prop) (l : list A) : Prop := if on then Q l else l = [].

(** *** Events *)

Definition task_events (taskID : string) : list TaskEvent := default [] (s.(src_tasks).(events) !! taskID).
(** The limits of the enabled sources that read events; one that is not positive is none. *)
Definition event_limits (strategy : ContextStrategy) : list Z :=
  (if SourceEnabled strategy SourceTaskHistory then [IntValue strategy.(CtxS_TaskHistoryMaxItems)] else []) ++
  (if SourceEnabled strategy SourceConversationRetrieval then [IntValue strategy.(CtxS_RetrievalMaxResults)] else []).
Definition unlimited (limits : list Z) : Prop := Exists (λ n, n ≤ 0)%Z limits.
(** The newest events, up to the largest of the limits; all of them where one source has no limit. *)
Definition own_events (strategy : ContextStrategy) (taskID : string) : list TaskEvent → Prop :=
  given (c.(has_tasks) && bool_decide (taskID ≠ "" ∧ event_limits strategy ≠ [])) (λ l,
    unlimited (event_limits strategy) ∧ l = task_events taskID ∨
    ¬ unlimited (event_limits strategy) ∧ ∃ n, n ∈ event_limits strategy ∧ Forall (λ m, m ≤ n)%Z (event_limits strategy) ∧
      end_of n (task_events taskID) l).

(** *** History *)

Definition runs_of (tenantID taskID : string) : list AgentRun :=
  filter (λ run, run.(Run_TenantID) = tenantID ∧ run.(Run_TaskID) = taskID) (map snd (map_to_list s.(src_runs).(runs))).
(** The newest runs of the task, the newest first. *)
Definition earlier_runs (tenantID taskID : string) (limit : Z) (l : list AgentRun) : Prop :=
  ∃ rest, l ++ rest ≡ₚ runs_of tenantID taskID ∧ StronglySorted (λ a b, in_time Run_StartedAt b a) (l ++ rest) ∧ cut limit rest l.
Definition earlier_results (tenantID taskID : string) (limit : Z) : list ToolResult → Prop :=
  newest Result_CompletedAt limit
    (results_of s.(src_tools) (λ call, call.(Call_TenantID) = tenantID ∧ call.(Call_TaskID) = taskID)).

(** What the history can tell of. *)
Inductive Told :=
  | ToldInput (e : TaskEvent) (text : string)
  | ToldRun (run : AgentRun)
  | ToldResult (call : ToolCall) (result : ToolResult)
  | ToldRef (result : ToolResult) (ref : ArtifactRef).
Definition of_earlier_call (runID : string) (results : list ToolResult) (call : ToolCall) (result : ToolResult) : Prop :=
  result ∈ results ∧ s.(src_tools).(calls) !! result.(Result_ToolCallID) = Some call ∧ call.(Call_RunID) ≠ runID.
(** What a run is told of its task: what was not its own doing. *)
Definition worth_telling (runID : string) (evs : list TaskEvent) (runs : list AgentRun) (results : list ToolResult) (x : Told) : Prop :=
  match x with
  | ToldInput e text => e ∈ evs ∧ e.(TaskEvent_Type) ∈ ["conversation.input"; "run.resumed_input"] ∧ eventRunID fmt_Sprint e ≠ runID ∧
      ∃ input, e.(TaskEvent_Payload) !! "input" = Some (AString input) ∧ text = TrimSpace input ∧ text ≠ ""
  | ToldRun run => run ∈ runs ∧ run.(Run_RunID) ≠ runID
  | ToldResult call result => of_earlier_call runID results call result
  | ToldRef result ref => (∃ call, of_earlier_call runID results call result) ∧ ref ∈ result.(Result_ArtifactRefs) ∧
      ref.(ArtifactRef_ArtifactID) ≠ ""
  end.
(** The kind, the id, the time, the two texts and the trust of an entry. *)
Definition entry_is (h : RetrievedContext) (kind id : string) (at_ : Time) (summary snippet trust : string) : Prop :=
  h.(Retr_SourceType) = kind ∧ h.(Retr_SourceID) = id ∧ h.(Retr_CreatedAt) = at_ ∧ h.(Retr_Summary) = summary ∧
  h.(Retr_Snippet) = snippet ∧ h.(Retr_TrustLevel) = trust.
Definition tells (x : Told) (h : RetrievedContext) : Prop :=
  match x with
  | ToldInput e text =>
      entry_is h "task_event" e.(TaskEvent_EventID) e.(TaskEvent_CreatedAt) "previous task input" text "untrusted_user_text"
  | ToldRun run =>
      let about := "run_id=" +:+ run.(Run_RunID) +:+ " status=" +:+ run.(Run_Status) in
      (TrimSpace run.(Run_Input) = "" ∧ entry_is h "previous_run" run.(Run_RunID) run.(Run_StartedAt) about "" "system_record") ∨
      (TrimSpace run.(Run_Input) ≠ "" ∧ entry_is h "previous_run" run.(Run_RunID) run.(Run_StartedAt)
         (about +:+ " input=" +:+ run.(Run_Input)) "" "untrusted_user_text")
  | ToldResult call result =>
      let name := if TrimSpace call.(Call_ToolID) != "" then call.(Call_ToolID)
                  else if TrimSpace call.(Call_Name) != "" then call.(Call_Name) else "" in
      entry_is h "tool_result" result.(Result_ToolResultID) result.(Result_CompletedAt)
        (TrimSpace ("tool=" +:+ name +:+ " status=" +:+ result.(Result_Status) +:+ " " +:+
           summarizeToolResult json_Marshal fmt_Sprint result)) "" "tool_result"
  | ToldRef result ref =>
      entry_is h "artifact" ref.(ArtifactRef_ArtifactID) result.(Result_CompletedAt)
        (ref.(ArtifactRef_Type) +:+ " " +:+ ref.(ArtifactRef_Summary)) "" "tool_result"
  end.
(** The end of all that is worth telling, in the order of time where every entry has its time. *)
Definition own_history (tenantID taskID runID : string) (evs : list TaskEvent) (limit : Z) (l : list RetrievedContext) : Prop :=
  ∃ runs results all, given c.(has_runs) (earlier_runs tenantID taskID limit) runs ∧
    given c.(has_tools) (earlier_results tenantID taskID limit) results ∧
    (∀ h, h ∈ all → ∃ x, worth_telling runID evs runs results x ∧ tells x h) ∧
    (∀ x, worth_telling runID evs runs results x → ∃ h, h ∈ all ∧ tells x h) ∧
    (Forall (λ h, IsZero h.(Retr_CreatedAt) = false) all → StronglySorted (in_time Retr_CreatedAt) all) ∧
    end_of limit all l.

(** *** Memories, artifacts and results *)

Definition memories_of (tenantID agentID userID : string) (scopes : list string) : list MemoryEvent :=
  filter (λ ev, ev.(MemEv_TenantID) = tenantID ∧ (agentID = "" ∨ ev.(MemEv_AgentID) = agentID) ∧
    (userID = "" ∨ ev.(MemEv_UserID) = userID) ∧ (scopes = [] ∨ ev.(MemEv_Scope) ∈ scopes)) (map snd (map_to_list s.(src_memory))).
(** The lesser of two limits, of which one that is not positive is none. *)
Definition least_limit (a b n : Z) : Prop :=
  (a ≤ 0 ∧ b ≤ 0 ∧ n ≤ 0 ∨ 0 < n ∧ (n = a ∨ n = b) ∧ (0 < a → n ≤ a) ∧ (0 < b → n ≤ b))%Z.
Definition own_memories (input : CollectInput) (l : list MemorySummary) : Prop :=
  let memory := input.(Coll_MemoryStrategy) in
  ∃ n evs, least_limit (IntValue input.(Coll_ContextStrategy).(CtxS_MemoryMaxItems)) (IntValue memory.(MemS_MaxMemoryItems)) n ∧
    newest MemEv_CreatedAt n
      (memories_of input.(Coll_TenantID) input.(Coll_AgentID) input.(Coll_UserID) memory.(MemS_ReadScopes)) evs ∧
    l = map (λ ev, mkMemorySummary ev.(MemEv_MemoryID) ev.(MemEv_Summary) ev.(MemEv_Scope)) evs.
Definition own_refs (runID : string) (limit : Z) (l : list ArtifactRef) : Prop :=
  ∃ results, newest Result_CompletedAt 0 (results_of s.(src_tools) (λ call, call.(Call_RunID) = runID)) results ∧
    end_of limit (keep_last (mjoin (map Result_ArtifactRefs results))) l.
Definition own_results (runID : string) (limit : Z) (l : list ToolResultSummary) : Prop :=
  ∃ results, newest Result_CompletedAt limit (results_of s.(src_tools) (λ call, call.(Call_RunID) = runID)) results ∧
    l = map (λ r, mkToolResultSummary r.(Result_ToolCallID) r.(Result_Status) (summarizeToolResult json_Marshal fmt_Sprint r)) results.

(** What a run is shown, source by source. *)
Definition own_context (input : CollectInput) (out : Collected) : Prop :=
  let strategy := input.(Coll_ContextStrategy) in let memory := input.(Coll_MemoryStrategy) in
  own_events strategy input.(Coll_TaskID) out.(Coll_TaskEvents) ∧
  given (SourceEnabled strategy SourceTaskHistory && bool_decide (input.(Coll_TaskID) ≠ ""))
    (own_history input.(Coll_TenantID) input.(Coll_TaskID) input.(Coll_RunID) out.(Coll_TaskEvents)
       (IntValue strategy.(CtxS_TaskHistoryMaxItems))) out.(Coll_TaskHistory) ∧
  given (SourceEnabled strategy SourceMemorySummary && default true memory.(MemS_ReadEnabled) && c.(has_memory))
    (own_memories input) out.(Coll_Memory) ∧
  given (SourceEnabled strategy SourceArtifactRefs && c.(has_tools))
    (own_refs input.(Coll_RunID) (IntValue strategy.(CtxS_ArtifactRefMaxItems))) out.(Coll_ArtifactRefs) ∧
  given (SourceEnabled strategy SourceToolResults && c.(has_tools))
    (own_results input.(Coll_RunID) (IntValue strategy.(CtxS_ToolResultMaxItems))) out.(Coll_ToolResults).

Lemma reads_tools {A} (m : M ToolRepo A) P : reads m s.(src_tools) P → reads (on_tools m) s P.
Proof. apply (reads_zoom (S:=Src) src_tools). by intros []. Qed.
Lemma reads_or_empty {A} (m : M Src (list A)) P : reads m s P → reads (or_empty m) s P.
Proof.
  intros Hm. unfold or_empty. eapply reads_bind; [by apply reads_attempt|]. intros r (a & -> & Ha). by apply reads_ret.
Qed.
Lemma reads_given {A} (on : bool) (m : M Src (list A)) P : (on = true → reads m s P) → reads (when on m) s (given on P).
Proof. intros Hm. destruct on; [by apply Hm|by apply reads_ret]. Qed.

Lemma limit_events_end (l : list TaskEvent) n : end_of n l (limit_events l n).
Proof. apply (last_of_end n l). Qed.
(** The limit under which events are read is what the two sources ask for. *)
Lemma events_limit_spec strategy : let '(limit, enabled) := TaskEventsReadLimit strategy in
  (enabled = false ∧ event_limits strategy = []) ∨
  (enabled = true ∧ event_limits strategy ≠ [] ∧ (limit ≤ 0)%Z ∧ unlimited (event_limits strategy)) ∨
  (enabled = true ∧ (0 < limit)%Z ∧ ¬ unlimited (event_limits strategy) ∧ limit ∈ event_limits strategy ∧
   Forall (λ m, m ≤ limit)%Z (event_limits strategy)).
Proof.
  unfold TaskEventsReadLimit, consider, event_limits, unlimited.
  destruct (SourceEnabled strategy SourceTaskHistory), (SourceEnabled strategy SourceConversationRetrieval); cbn [negb app];
    [destruct (CtxS_TaskHistoryMaxItems strategy) as [h|], (CtxS_RetrievalMaxResults strategy) as [r|]
    |destruct (CtxS_TaskHistoryMaxItems strategy) as [h|]|destruct (CtxS_RetrievalMaxResults strategy) as [r|]|]; unfold IntValue; cbn [from_option]; unfold id;
    repeat (match goal with |- context [(?x <=? 0)%Z] => destruct (Z.leb_spec x 0)
                          | |- context [(0 <? ?y)%Z] => destruct (Z.ltb_spec 0 y)
                          | |- context [(?x <? ?y)%Z] => destruct (Z.ltb_spec x y) end); cbn [negb];
    rewrite ?Exists_cons, ?Exists_nil, ?Forall_cons, ?Forall_nil, ?elem_of_cons, ?elem_of_nil;
    first [by left|right; left; split_and!; (done || lia)|right; right; split_and!; (done || lia)].
Qed.
Lemma reads_events taskID strategy : reads (TaskEventsForContext c taskID strategy) s (own_events strategy taskID).
Proof.
  unfold TaskEventsForContext, own_events. destruct c.(has_tasks); cbn [negb orb andb given]; [|by apply reads_ret].
  destruct (String.eqb_spec taskID "") as [->|Ht]; [rewrite bool_decide_eq_false_2 by naive_solver; by apply reads_ret|].
  pose proof (events_limit_spec strategy) as Hspec. destruct (TaskEventsReadLimit strategy) as [limit enabled].
  destruct Hspec as [[-> Hn]|[(-> & Hn & Hl & Hu)|(-> & Hl & Hu & Hin & Hall)]]; cbn [negb].
  - rewrite bool_decide_eq_false_2 by naive_solver. by apply reads_ret.
  - rewrite bool_decide_eq_true_2 by done. destruct (Z.ltb_spec 0 limit); [lia|].
    apply (reads_zoom (S:=Src) src_tasks); [by intros []|]. intros w. do 2 eexists. split; [reflexivity|]. by left.
  - rewrite bool_decide_eq_true_2 by (split; [done|intros E; rewrite E in Hin; by apply elem_of_nil in Hin]).
    destruct (Z.ltb_spec 0 limit); [|lia].
    apply (reads_zoom (S:=Src) src_tasks); [by intros []|]. intros w. do 2 eexists. split; [reflexivity|]. right. split; [done|].
    exists limit. split_and!; [done..|]. apply limit_events_end.
Qed.
Lemma reads_runs tenantID taskID limit : tenantID ≠ "" → taskID ≠ "" → is_int64 limit →
  reads (on_runs (RunRepo.List (mkRunListFilter tenantID "" "" "" taskID "" zeroTime zeroTime limit 0))) s
    (earlier_runs tenantID taskID limit).
Proof.
  intros Ht Hk Hl. unfold on_runs. apply (reads_zoom (S:=Src) src_runs); [by intros []|]. unfold RunRepo.List.
  eapply reads_bind; [apply reads_get|intros r ->]. eapply reads_bind; [apply reads_range|intros l Hperm]. cbv zeta.
  set (all := stable_sort runLess _). assert (all ≡ₚ runs_of tenantID taskID) as Hall.
  { unfold all, runs_of. rewrite stable_sort_perm. rewrite (filter_bool (λ run, run.(Run_TenantID) = tenantID ∧ run.(Run_TaskID) = taskID)).
    - change (filter (λ run, Run_TenantID run = tenantID ∧ Run_TaskID run = taskID) l.*2 ≡ₚ
        filter (λ run, Run_TenantID run = tenantID ∧ Run_TaskID run = taskID) (map_to_list (runs (src_runs s))).*2). by rewrite Hperm.
    - intros run. unfold runMatchesListFilter. cbn. rewrite !(proj2 (String.eqb_neq _ "")) by done. cbn [negb andb].
      destruct (String.eqb_spec run.(Run_TenantID) tenantID), (String.eqb_spec run.(Run_TaskID) taskID); cbn [negb]; split; (done || naive_solver). }
  assert (StronglySorted (λ a b, in_time Run_StartedAt b a) all) as Hs.
  { apply (sorted_weaken (le_of runLess)); [|apply stable_sort_Sorted; [apply runLess_trans|apply runLess_asym]].
    intros a b. unfold le_of, runLess, in_time, Equal, After. repeat case Z.eqb_spec; repeat case Z.ltb_spec; intros; (done || lia). }
  unfold pageRuns. cbn [RLF_Limit RLF_Offset]. rewrite page_cut_correct.
  - apply reads_ret. unfold page_spec. cbn [Z.to_nat]. rewrite drop_0. destruct (Z.leb_spec limit 0).
    + exists []. rewrite app_nil_r. split_and!; [done..|]. left. split; [done|lia].
    + exists (drop (Z.to_nat limit) all). rewrite take_drop. split_and!; [done..|]. unfold cut, len. rewrite length_take.
      destruct (decide (length all ≤ Z.to_nat limit)%nat); [left|right; lia]. rewrite drop_ge by done. split; [done|lia].
  - unfold len. rewrite Hall. unfold runs_of. eapply Z.le_lt_trans; [apply inj_le, length_filter|].
    rewrite length_map, length_map_to_list. exact Hsize.
  - lia.
  - unfold is_int64 in Hl. lia.
Qed.

(** The entry that is made of each thing. *)
Definition context_of (x : Told) : RetrievedContext :=
  match x with
  | ToldInput e text => event_context e text
  | ToldRun run => run_context run
  | ToldResult call result => result_context json_Marshal fmt_Sprint call result
  | ToldRef result ref => ref_context result ref
  end.
Lemma run_about a b : Sprintf "run_id=%s status=%s" [a; b] = "run_id=" +:+ a +:+ " status=" +:+ b.
Proof. change (("run_id=" +:+ (a +:+ (" status=" +:+ (b +:+ "")))) = "run_id=" +:+ a +:+ " status=" +:+ b). by rewrite string_app_nil_r. Qed.
Lemma result_about a b d : Sprintf "tool=%s status=%s %s" [a; b; d] = "tool=" +:+ a +:+ " status=" +:+ b +:+ " " +:+ d.
Proof.
  change (("tool=" +:+ (a +:+ (" status=" +:+ (b +:+ (" " +:+ (d +:+ "")))))) = "tool=" +:+ a +:+ " status=" +:+ b +:+ " " +:+ d).
  by rewrite string_app_nil_r.
Qed.
Lemma ref_about a b : Sprintf "%s %s" [a; b] = a +:+ " " +:+ b.
Proof. change ((a +:+ (" " +:+ (b +:+ ""))) = a +:+ " " +:+ b). by rewrite string_app_nil_r. Qed.
Lemma tells_context x : tells x (context_of x).
Proof.
  destruct x as [e text|run|call result|result ref]; cbn [tells context_of]; [done| | |].
  - unfold run_context. rewrite run_about. cbv zeta. destruct (String.eqb_spec (TrimSpace (Run_Input run)) "") as [E|E]; [by left|by right].
  - unfold result_context. rewrite result_about. cbn [FirstNonEmpty]. done.
  - unfold ref_context. rewrite ref_about. done.
Qed.
Lemma elem_concat_map {A B} (f : A → list B) l y : y ∈ concat (map f l) ↔ ∃ x, x ∈ l ∧ y ∈ f x.
Proof. rewrite list_elem_of_In, in_concat. setoid_rewrite in_map_iff. setoid_rewrite list_elem_of_In. naive_solver. Qed.
Lemma history_inputs runID evs h : h ∈ concat (map (event_input fmt_Sprint runID) evs) ↔
  ∃ e text, worth_telling runID evs [] [] (ToldInput e text) ∧ h = event_context e text.
Proof.
  rewrite elem_concat_map. cbn [worth_telling]. split.
  - intros (e & He & Hh). unfold event_input in Hh. destruct (_ && _) eqn:Et; [by apply elem_of_nil in Hh|].
    destruct (String.eqb_spec (eventRunID fmt_Sprint e) runID); [by apply elem_of_nil in Hh|]. cbv zeta in Hh.
    destruct (TaskEvent_Payload e !! "input") as [[]|] eqn:Ei; try by apply elem_of_nil in Hh.
    match type of Hh with context [TrimSpace ?t == ""] => rename t into input end.
    destruct (String.eqb_spec (TrimSpace input) ""); [by apply elem_of_nil in Hh|]. apply list_elem_of_singleton in Hh as ->.
    exists e, (TrimSpace input). split; [|done]. split_and!; [done| |done|by exists input].
    apply andb_false_iff in Et as [Et%negb_false_iff%String.eqb_eq|Et%negb_false_iff%String.eqb_eq]; rewrite Et; [left|right; left].
  - intros (e & text & (He & Ht & Hr & input & Hi & -> & Hne) & ->). exists e. split; [done|]. unfold event_input.
    rewrite (proj2 (String.eqb_neq _ _) Hr), Hi, (proj2 (String.eqb_neq _ _) Hne).
    rewrite !elem_of_cons, elem_of_nil in Ht. destruct Ht as [->|[->|[]]]; cbn; apply list_elem_of_singleton; done.
Qed.
Lemma elem_map_filter {A B} (f : A → B) (g : A → string) k l y :
  y ∈ map f (List.filter (λ x, g x != k) l) ↔ ∃ x, y = f x ∧ x ∈ l ∧ g x ≠ k.
Proof.
  rewrite list_elem_of_In, in_map_iff. setoid_rewrite filter_In. setoid_rewrite negb_true_iff. setoid_rewrite String.eqb_neq.
  setoid_rewrite <- list_elem_of_In. naive_solver.
Qed.
(** What the results of earlier calls give to the history. *)
Definition told_results (runID : string) (results : list ToolResult) (h : RetrievedContext) : Prop :=
  (∃ call result, of_earlier_call runID results call result ∧ h = result_context json_Marshal fmt_Sprint call result) ∨
  (∃ result ref, (∃ call, of_earlier_call runID results call result) ∧ ref ∈ result.(Result_ArtifactRefs) ∧
     ref.(ArtifactRef_ArtifactID) ≠ "" ∧ h = ref_context result ref).
Lemma told_results_cons runID result results h :
  told_results runID (result :: results) h ↔ told_results runID [result] h ∨ told_results runID results h.
Proof.
  assert (∀ call x, of_earlier_call runID (result :: results) call x ↔
    of_earlier_call runID [result] call x ∨ of_earlier_call runID results call x) as Hc.
  { intros call x. unfold of_earlier_call. rewrite elem_of_cons, list_elem_of_singleton. tauto. }
  unfold told_results. setoid_rewrite Hc. clear. split.
  - intros [(call & x & [Hx|Hx] & ->)|(x & ref & (call & [Hx|Hx]) & Hr & Hn & ->)]; [left; left|right; left|left; right|right; right]; eauto 10.
  - intros [[(call & x & Hx & ->)|(x & ref & (call & Hx) & Hr & Hn & ->)]|[(call & x & Hx & ->)|(x & ref & (call & Hx) & Hr & Hn & ->)]];
      [left|right|left|right]; eauto 10.
Qed.
Lemma told_results_one runID result h : told_results runID [result] h ↔ ∃ call,
  s.(src_tools).(calls) !! result.(Result_ToolCallID) = Some call ∧ call.(Call_RunID) ≠ runID ∧
  (h = result_context json_Marshal fmt_Sprint call result ∨
   h ∈ map (ref_context result) (List.filter (λ ref, ref.(ArtifactRef_ArtifactID) != "") result.(Result_ArtifactRefs))).
Proof.
  unfold told_results, of_earlier_call. setoid_rewrite list_elem_of_singleton. setoid_rewrite elem_map_filter. split.
  - intros [(call & x & (-> & Hc & Hr) & ->)|(x & ref & (call & -> & Hc & Hr) & Hin & Hn & ->)]; exists call; split_and!; eauto 10.
  - intros (call & Hc & Hr & [->|(ref & -> & Hin & Hn)]); [left|right]; eauto 10.
Qed.
Lemma reads_results_history runID results :
  reads (results_history json_Marshal fmt_Sprint runID results) s (λ l, ∀ h, h ∈ l ↔ told_results runID results h).
Proof.
  induction results as [|result results IH]; cbn [results_history].
  { apply reads_ret. intros h. rewrite elem_of_nil. split; [done|].
    intros [(call & x & (Hx & _) & _)|(x & ref & (call & Hx & _) & _)]; by apply elem_of_nil in Hx. }
  eapply reads_bind.
  { apply reads_attempt, reads_tools. unfold GetCall. eapply reads_bind; [apply reads_get|intros r ->].
    by apply (reads_ret _ _ (λ o, o = s.(src_tools).(calls) !! result.(Result_ToolCallID))). }
  intros r (o & -> & ->). eapply reads_bind; [apply IH|]. intros rest Hrest. cbv beta in Hrest. apply reads_ret. intros h.
  rewrite elem_of_app, told_results_cons, told_results_one, Hrest. apply or_iff_compat_r.
  destruct (s.(src_tools).(calls) !! Result_ToolCallID result) as [call|]; [|rewrite elem_of_nil; naive_solver].
  destruct (String.eqb_spec call.(Call_RunID) runID); [rewrite elem_of_nil; naive_solver|]. rewrite elem_of_cons. naive_solver.
Qed.

Lemma sorted_history l : Forall (λ h, IsZero h.(Retr_CreatedAt) = false) l → StronglySorted (in_time Retr_CreatedAt) (SliceStable history_less l).
Proof.
  intros Hl. assert (StronglySorted (le_of history_less) (SliceStable history_less l)) as Hs.
  { apply (SliceStable_sorted _ (λ h, IsZero h.(Retr_CreatedAt) = false)); [..|done].
    - intros x y z Hx Hy Hz. unfold le_of, history_less. rewrite Hx, Hy, Hz. unfold Before. cbn [orb]. rewrite !Z.ltb_ge. lia.
    - intros x y Hx Hy. unfold le_of, history_less. rewrite Hx, Hy. unfold Before. cbn [orb]. rewrite Z.ltb_ge, Z.ltb_lt. lia. }
  rewrite <- (SliceStable_perm history_less) in Hl. revert Hl. induction Hs as [|x k Hs IH Hx]; intros Hl; [constructor|].
  apply Forall_cons in Hl as [Hzx Hl]. constructor; [by apply IH|]. rewrite Forall_forall in *. intros y Hy. specialize (Hx y Hy).
  unfold le_of, history_less in Hx. rewrite Hzx, (Hl y Hy) in Hx. unfold Before, in_time in *. cbn [orb] in Hx. apply Z.ltb_ge in Hx. done.
Qed.
(** Everything is told of what is worth it. *)
Lemma told_all runID evs runs results l : (∀ h, h ∈ l ↔ told_results runID results h) →
  ∀ h, h ∈ concat (map (event_input fmt_Sprint runID) evs) ++ map run_context (List.filter (λ run, run.(Run_RunID) != runID) runs) ++ l ↔
    ∃ x, worth_telling runID evs runs results x ∧ h = context_of x.
Proof.
  intros Hl h. rewrite !elem_of_app, Hl, history_inputs, elem_map_filter. split.
  - intros [(e & text & Hw & ->)|[(run & -> & Hr & Hn)|[(call & x & Hx & ->)|(x & ref & Hc & Hin & Hn & ->)]]].
    + by exists (ToldInput e text).
    + by exists (ToldRun run).
    + by exists (ToldResult call x).
    + by exists (ToldRef x ref).
  - intros ([e text|run|call x|x ref] & Hw & ->).
    + left. by exists e, text.
    + right. left. exists run. by destruct Hw.
    + right. right. left. by exists call, x.
    + right. right. right. exists x, ref. by destruct Hw as (? & ? & ?).
Qed.
Lemma reads_history tenantID taskID runID events limit : tenantID ≠ "" → taskID ≠ "" → is_int64 limit →
  reads (TaskHistory json_Marshal fmt_Sprint c tenantID taskID runID events limit) s (own_history tenantID taskID runID events limit).
Proof.
  intros Ht Hk Hl. unfold TaskHistory. rewrite (proj2 (String.eqb_neq _ _) Hk).
  eapply (reads_bind _ _ _ (λ l, ∃ runs, given c.(has_runs) (earlier_runs tenantID taskID limit) runs ∧
    l = map run_context (List.filter (λ run, run.(Run_RunID) != runID) runs))).
  { destruct (has_runs c); [|by apply reads_ret; exists []].
    eapply reads_bind; [by apply reads_or_empty, reads_runs|]. intros l Hrun. apply reads_ret. by exists l. }
  intros l1 (runs & Hruns & ->). eapply (reads_bind _ _ _ (λ l, ∃ results, given c.(has_tools) (earlier_results tenantID taskID limit) results ∧
    ∀ h, h ∈ l ↔ told_results runID results h)).
  { destruct (has_tools c); [|apply reads_ret; exists []; split; [done|]; intros h; rewrite elem_of_nil; split; [done|];
      intros [(call & x & (Hx & _) & _)|(x & ref & (call & Hx & _) & _)]; by apply elem_of_nil in Hx].
    eapply reads_bind; [apply reads_or_empty, reads_tools,
      (reads_results _ (call_of_task tenantID taskID) (λ call, call.(Call_TenantID) = tenantID ∧ call.(Call_TaskID) = taskID))|].
    - intros call. unfold call_of_task. rewrite (proj2 (String.eqb_neq _ "")) by done. cbn [negb andb].
      destruct (String.eqb_spec call.(Call_TenantID) tenantID); cbn [negb]; [|naive_solver]. rewrite String.eqb_eq. naive_solver.
    - intros results Hres. eapply reads_weaken; [apply reads_results_history|]. intros l Hh. by exists results. }
  intros l2 (results & Hres & Hl2). apply reads_ret. pose proof (told_all runID events runs results l2 Hl2) as Hall.
  eexists runs, results, _. split_and!; [done|done|..|apply last_of_end].
  - intros h Hh%SliceStable_elem. apply Hall in Hh as (x & Hx & ->). exists x. split; [done|]. apply tells_context.
  - intros x Hx. exists (context_of x). split; [apply SliceStable_elem, Hall; eauto|]. apply tells_context.
  - intros Hz. apply sorted_history. by rewrite SliceStable_perm in Hz.
Qed.
Lemma memory_limit_spec strategy memory : least_limit (IntValue strategy.(CtxS_MemoryMaxItems)) (IntValue memory.(MemS_MaxMemoryItems))
  (MemoryReadLimit strategy memory).
Proof.
  unfold MemoryReadLimit, least_limit. cbv zeta. generalize (IntValue strategy.(CtxS_MemoryMaxItems)) (IntValue memory.(MemS_MaxMemoryItems)).
  intros a b. destruct (Z.leb_spec a 0); [lia|]. destruct (Z.leb_spec b 0); cbn [orb]; [lia|]. destruct (Z.ltb_spec a b); lia.
Qed.
Lemma reads_memories input : input.(Coll_TenantID) ≠ "" → c.(has_memory) = true →
  reads (MemorySummaries c input.(Coll_TenantID) input.(Coll_AgentID) input.(Coll_UserID)
    (MemoryReadLimit input.(Coll_ContextStrategy) input.(Coll_MemoryStrategy)) input.(Coll_MemoryStrategy)) s (own_memories input).
Proof.
  intros Ht Hc. unfold MemorySummaries. rewrite Hc, (proj2 (String.eqb_neq _ _) Ht). cbn [negb orb].
  apply reads_or_empty. apply (reads_zoom (S:=Src) src_memory); [by intros []|]. unfold ListMemoryLimit, listMemory.
  eapply reads_bind; [apply reads_get|intros r ->]. eapply reads_bind; [apply reads_range|intros l Hperm]. apply reads_ret.
  eexists _, _. split; [apply memory_limit_spec|]. split; [|reflexivity]. apply (newest_sort _ MemEv_MemoryID); [done|].
  unfold memories_of. rewrite (filter_bool (λ ev, ev.(MemEv_TenantID) = input.(Coll_TenantID) ∧ (input.(Coll_AgentID) = "" ∨ ev.(MemEv_AgentID) = input.(Coll_AgentID)) ∧
    (input.(Coll_UserID) = "" ∨ ev.(MemEv_UserID) = input.(Coll_UserID)) ∧
    (input.(Coll_MemoryStrategy).(MemS_ReadScopes) = [] ∨ ev.(MemEv_Scope) ∈ input.(Coll_MemoryStrategy).(MemS_ReadScopes)))).
  - change (map snd ?l) with (l.*2). by rewrite Hperm.
  - intros ev. unfold recalled, scopeAllowed. rewrite !andb_true_iff, !orb_true_iff, !String.eqb_eq, negb_true_iff, mem_string_elem.
    destruct (MemS_ReadScopes _); cbn; naive_solver.
Qed.
Lemma reads_tool_summaries runID limit : c.(has_tools) = true →
  reads (ToolSummaries json_Marshal fmt_Sprint c runID limit) s (own_results runID limit).
Proof.
  intros Hc. unfold ToolSummaries. rewrite Hc. cbn [negb].
  eapply reads_bind; [apply reads_or_empty, reads_tools, (reads_results _ (λ call, call.(Call_RunID) == runID) (λ call, call.(Call_RunID) = runID));
    intros call; apply String.eqb_eq|]. intros results Hres. apply reads_ret. by exists results.
Qed.
Lemma reads_refs runID limit : c.(has_tools) = true → reads (CollectArtifactRefs c runID limit) s (own_refs runID limit).
Proof. intros Hc. unfold CollectArtifactRefs. rewrite Hc. cbn [negb]. apply reads_or_empty, reads_tools, reads_artifact_refs. Qed.
(** A source that is on but has no store to read from gives nothing. *)
Lemma reads_when {A} (on has : bool) (m : M Src (list A)) Q :
  (has = true → reads m s Q) → (has = false → m = ret []) → reads (when on m) s (given (on && has) Q).
Proof. intros Hm Hn. destruct on, has; cbn [andb given when]; [by apply Hm|rewrite Hn by done|..]; by apply reads_ret. Qed.

(** C28. Whatever the stores hold, collecting the context of a run changes nothing and cannot fail, and it finds exactly what
    it is meant to.  Of the events of its own task: the newest, up to the largest limit of the sources that read events.  Of
    the history of that task in its tenant: the inputs, as the events tell them, the runs and the results of tools, other than
    its own, with their artifacts.  The memories that the tenant, the agent, the user and the scopes select.  The artifacts and
    the results of its own calls.  A source that is disabled gives nothing; what is left out is older than what is given, and
    only if the limit is reached. *)
Theorem collect_isolated input w : input.(Coll_TenantID) ≠ "" →
  is_int64 (IntValue input.(Coll_ContextStrategy).(CtxS_TaskHistoryMaxItems)) →
  ∃ out w', Collect json_Marshal fmt_Sprint c input w s = (Ok out, w', s) ∧ own_context input out.
Proof.
  intros Ht Hl. revert w. change (reads (Collect json_Marshal fmt_Sprint c input) s (own_context input)). unfold Collect, own_context.
  eapply reads_bind; [apply reads_events|intros events Hev].
  eapply reads_bind; [apply (reads_when _ c.(has_tools)); [apply reads_tool_summaries|by unfold ToolSummaries; intros ->]|intros results Hres].
  eapply reads_bind.
  { apply (reads_when _ (bool_decide (input.(Coll_TaskID) ≠ ""))); [intros Hk%bool_decide_eq_true; by apply reads_history|].
    intros Hk%bool_decide_eq_false%dec_stable. unfold TaskHistory. by rewrite Hk. }
  intros history Hh. eapply reads_bind.
  { apply (reads_when _ c.(has_memory)); [by apply reads_memories|by unfold MemorySummaries; intros ->]. }
  intros memories Hm. eapply reads_bind.
  { apply (reads_when _ c.(has_tools)); [apply reads_refs|by unfold CollectArtifactRefs; intros ->]. }
  intros refs Hrefs. apply reads_ret. split; [exact Hev|]. split; [exact Hh|]. split; [exact Hm|]. split; [exact Hrefs|exact Hres].
Qed.
End shown.

Section demo.
Let env : Env := test_env.
#[local] Existing Instance env.
Let no_json (_ : Any) : error + string := inr "".
Let sprint (_ : Any) : string := "1".

(** Two calls of earlier runs of a task, one of them in another tenant. *)
Definition demo_call (id tenantID : string) : ToolCall :=
  zeroToolCall <| Call_ToolCallID := id |> <| Call_TenantID := tenantID |> <| Call_TaskID := "t" |> <| Call_RunID := "r0" |> <| Call_ToolID := "search" |>.
Definition demo_result (id : string) : ToolResult :=
  zeroToolResult <| Result_ToolCallID := id |> <| Result_ToolResultID := "result of " +:+ id |> <| Result_Output := {["text" := AString "found"]} |>.
Definition demo_sources : Sources (T:=TaskRepo.InMemoryStore) :=
  mkSources TaskRepo.NewInMemoryStore RunRepo.NewRunRepo ∅
    (mkToolRepo {["c0" := demo_call "c0" "acme"; "c1" := demo_call "c1" "evil"]} {["c0" := demo_result "c0"; "c1" := demo_result "c1"]} ∅).
Definition demo_input : CollectInput := mkCollectInput "acme" "t" "r1" "a" "u" zeroContextStrategy zeroMemoryUseStrategy.
Definition demo_deps : CollectorDeps := mkCollectorDeps true true true true.
Lemma demo_collected_history : match (Collect no_json sprint demo_deps demo_input world0 demo_sources).1.1 with
  | Ok out => map (λ h, (h.(Retr_SourceID), h.(Retr_Summary))) out.(Coll_TaskHistory) | _ => [] end
  = [("result of c0", "tool=search status= text=found")].
Proof. by vm_compute. Qed.
Lemma collect_isolated_witness : ∃ out w', Collect no_json sprint demo_deps demo_input world0 demo_sources = (Ok out, w', demo_sources) ∧
  own_context no_json sprint demo_deps demo_sources demo_input out ∧ map Retr_SourceID out.(Coll_TaskHistory) = ["result of c0"].
Proof.
  destruct (collect_isolated no_json sprint demo_deps demo_sources ltac:(by vm_compute) demo_input world0)
    as (out & w' & E & Ho); [done|by vm_compute|].
  exists out, w'. split; [exact E|]. split; [exact Ho|]. pose proof demo_collected_history as Hd. rewrite E in Hd.
  cbn [fst] in Hd. destruct (Coll_TaskHistory out) as [|h [|]]; try discriminate Hd. injection Hd as Hd _. cbn. by rewrite Hd.
Defined.
(** The text of an output that has none of the known keys is not searched for internal identifiers. *)
Example raw_output_unsanitized :
  summarizeToolOutput (λ _, inr "the run_id is r7") sprint {["debug" := AString "run_id"]} = "the run_id is r7" ∧
  sanitizeToolResultSummaryText "the run_id is r7" = "tool result requires review".
Proof. by vm_compute. Qed.
End demo.
